(* ===== verification/_CoqProject ===== *)
-Q . S2P
Prelude.v
DList.v
SList.v
Atomic.v
Kernel.v
RingBuf.v
ReadyQ.v
TimeoutQ.v
Sched.v
SchedInv.v
SchedApi.v
Transit.v
Thread.v
Boot.v
Clock.v
Core.v
CoreTime.v
CoreRuns.v
Timer.v
Sem.v
EventLogger.v
Mutex.v
Queues.v
WorkQ.v
Alert.v
MsgQ.v
MemSlab.v
MemPool.v
MemPoolApi.v
LibcString.v
LibcStdlib.v
Printk.v
PipeBuf.v
Pipes.v
PipesApi.v
Mailbox.v
MailboxApi.v
Bytes.v
Mqtt.v
MqttCodec.v
MqttConnect.v
MqttSubscribe.v
BitField.v
Systick.v
Tickless.v
Stm32Gpio.v
GpioDriver.v
GpioSpec.v
GpioInv.v
Stm32Clock.v
Zoap.v
ZoapOptions.v
ZoapPacket.v
ZoapBuild.v
ZoapMessage.v
ZoapRoundtrip.v
ZoapExchange.v
ZoapBlock.v
LinkFormat.v
Dns.v
DnsPack.v
DnsRead.v
DnsClient.v
DnsBuf.v
