(* ===== verification/Prelude.v ===== *)
(** * The Zephyr unified kernel, verified

    This library models the core of the program: the Zephyr 1.6 "unified"
    kernel (src/kernel/unified) as it is built for the jasontek_f103rb board, an
    ARM Cortex-M3. One processor runs threads; the scheduler gives it to the
    most urgent ready thread; threads block on kernel objects, with or without a
    timeout; the clock interrupt expires timeouts.

    ** The parts and the files that model them

    - [Prelude]: machine integers, byte memory, intrusive lists as sequences.
    - [DList], [SList]: src/include/misc/dlist.h and slist.h, at pointer level,
      and the proof that they implement sequences. The other files use the
      sequences. [Atomic]: atomic_c.c and atomic.h. [RingBuf]: ring_buffer.c.
    - [Kernel]: the state. [kernel] is [struct _kernel] with the memory it
      reaches: the ready queue (bitmaps, one queue per priority, the cache of
      the next thread), the timeout queue, the threads, the timeouts, the wait
      queues, the clock, the current thread and whether an interrupt is being
      served. Threads, timeouts and wait queues are named by their addresses;
      [toid] also names the object a timeout is a field of (CONTAINER_OF). The
      configuration is the class [KConfig], whose laws are what Kconfig says.
    - [ReadyQ]: the ready queue of sched.c and ksched.h. [TimeoutQ]: timeout_q.h.
    - [Sched], [SchedInv], [SchedApi]: sched.c, ksched.h, and the invariant of
      the kernel; what pending, waking and switching threads preserve and do.
      [Transit]: the same while some threads are on no queue, which pipes and
      mailboxes bring about.
    - [Thread]: thread.c, and k_thread_abort of arch/arm/core/thread_abort.c, which
      the port has in place of that of thread_abort.c. [Boot]: init.c, with the
      switch to the main thread of the port. [Clock]: sys_clock.c.
    - [Core]: all of the above as one state machine. [CoreTime]: its clock.
      [CoreRuns]: what holds along runs, of a thread that sleeps or was aborted.
    - The objects: [Sem] (sem.c), [Mutex] (mutex.c), [Queues] (fifo.c, lifo.c,
      stack.c), [MsgQ] (msg_q.c), [MemSlab] (mem_slab.c), [Timer] (timer.c),
      [WorkQ] (work_q.c), [EventLogger] (event_logger.c), [Alert] (alert.c and
      system_work_q.c, on top of [Sem] and [WorkQ]), [MemPool] and [MemPoolApi]
      (mem_pool.c: the block sets in memory, then waiting and the heap),
      [PipeBuf], [Pipes] and [PipesApi] (pipes.c: the circular buffer, the
      transfers, the services), [Mailbox] and [MailboxApi] (mailbox.c: the
      operations, the promises).
    - Beside the kernel: [LibcString] and [LibcStdlib] (the string, character and
      number functions of lib/libc/minimal), [Printk] (printk.c), [Bytes]
      (byteorder.h, unaligned access), [Mqtt] (lib/iot/mqtt/mqtt_pkt.c) with
      [MqttCodec], [MqttConnect] and [MqttSubscribe] on its packets; [Zoap]
      (lib/iot/zoap/zoap.c, on the network buffers of net/buf.h) with [ZoapOptions]
      (the encoding of options), [ZoapPacket] (packets received), [ZoapBuild] and
      [ZoapMessage] (packets made), [ZoapRoundtrip], [ZoapExchange] (requests,
      responses, observers) and [ZoapBlock] (block-wise transfers), and
      [LinkFormat] (link-format.c); [Dns] (lib/iot/dns: dns_pack.h, dns_pack.c,
      dns_client.c) with [DnsPack] (queries), [DnsRead] (the answers of a response),
      [DnsClient] (responses and the resolver) and [DnsBuf] (fragments, and messages
      that are not expected).
    - The drivers of the board: [BitField] (fields of registers), [Systick] and
      [Tickless] (cortex_m_systick.c, without and with tickless idle), [Stm32Gpio]
      (soc_gpio.c, soc_config.c, pinmux_stm32.c and the pins of the board),
      [GpioDriver] (exti_stm32.c, gpio_stm32.c, gpio_utils.h, gpio.h) with
      [GpioSpec] on each operation and [GpioInv] on all of them as a state
      machine, [Stm32Clock] (stm32f10x_clock.c).

    ** How code is translated

    A function of the code is a definition of the same name. It takes the state
    it may touch and returns the new one; [option] is failure of an assertion or
    a null pointer followed ([None]), so a theorem that a call gives [Some] says
    that its assertions hold. Integers are [Z] with the conversion of their C
    type written out ([u32], [i32], ...). Interrupts are locked throughout most
    services, so each is one step; pipes, which let interrupts in while they copy
    with the scheduler locked, are modelled as one step as well. [in_isr] tells a
    call from an interrupt; what a handler aborts is switched away from when it
    returns ([abort_isr]). A
    call that may block returns an [outcome]: it [Returns] or it [Blocks], having
    switched to the next thread; what the code does after [_Swap] returned is a
    definition of its own, with the suffix [_resume]. A loop whose end is not
    evident has fuel, [None] when it runs out; the theorems give enough of it
    (as many turns as there are elements in the list walked), so they state
    termination. Code that the sources do not contain, that is the functions of
    the application called through pointers, is a parameter, with what the
    kernel relies on as a named condition ([callbacks_ok], [fns_ok]) and a
    witness that it can be met. So is the hardware behind the registers: the
    classes [SysTickHardware], [ExtiHardware] and [RccHardware] state what the
    manuals say of it, each with an instance.

    ** What is proved

    - Data structures: the lists implement sequences ([sys_dlist_refines_sequences],
      [sys_slist_refines_sequences]), the ready queue one list in priority order
      ([ready_queue_refines]), the delta queue a schedule of expiry times
      ([timeout_queue_refines]), the ring buffer a queue of items.
    - The invariant [kernel_wf]: a thread is in the ready queue exactly when its
      flags say that it is ready, in at most one wait queue and exactly when it
      is pending, in the timeout queue exactly when its timeout is active, and
      the three agree. Every state reached from boot satisfies it and every
      step succeeds that [allowed] admits ([kernel_core_safe]); it leaves out what is
      wrong with the code or outside of the model: resuming a thread that is in the
      ready queue, which queues it twice ([resume_ready_queues_twice]), and aborting
      a thread that has an abort handler of the legacy interface. The processor
      runs the most urgent ready thread unless the current one may not be
      preempted ([scheduling_policy]).
    - Time: an announcement wakes exactly the threads that are due
      ([announce_wakes_exactly_due]), fires exactly the timers that are due and
      calls their expiry functions ([due_timers_fire], [periodic_timer_fires]), and
      ends ([expiry_terminates]); along any run a thread that sleeps does not run
      before its time unless it is woken ([sleep_is_long_enough]), and one that was
      aborted never runs again ([abort_removes_thread]).
    - Each object: every operation succeeds on a running kernel, keeps the
      object's invariant, and does what its interface says on every branch. The
      objects are proved against the interface of [SchedApi] ([running],
      [blocked], [woken], [released]) and not against the queues. A pipe is a
      stream of bytes ([pipe_get_correct], [pipe_put_correct]); a memory pool
      gives out blocks that do not overlap, and merging finds a place whenever
      there is one, under the policies that merge and for sizes up to 2^29, below
      the overflow of [compute_block_set_index] ([pool_alloc_correct]); in a mailbox no sender and receiver
      that accept each other both wait ([mbox_put_correct], [mbox_get_correct],
      for messages that are not in pool blocks); every alert sent is delivered
      ([alert_delivery_correct]).
    - The C library: memory and string functions compute what the standard says,
      with their word-wise fast paths ([block_functions_correct],
      [string_functions_correct]); numerals are read with saturation
      ([number_conversions_correct]) and read back what printk prints
      ([print_parse_roundtrip]); snprintk writes the text its format asks for, cut
      to its buffer ([snprintk_bounded]). The text is a definition apart from the
      formatter ([text]), and the formatter ends with it.
    - MQTT: up to the 65535 bytes that a length can tell, the packers write exactly the packets of the standard and nothing
      else, or fail and write nothing; the unpackers recover what was packed
      ([mqtt_connect_roundtrip], [mqtt_publish_roundtrip],
      [mqtt_subscribe_roundtrip], and lemmas on the other messages).
    - CoAP: the parser accepts the messages of the standard ([coap_message]) and
      exactly those of a wider form ([accepted_form]), and reads nothing outside the
      packet ([zoap_packet_parse_correct]); what a sender makes is what a receiver
      finds, but for two codes ([zoap_message_roundtrip]); responses meet the
      requests and handlers they belong to ([zoap_response_correct]), requests the
      method of the resource they name ([zoap_handle_request_correct]); block-wise
      transfers of more than one block go through the data
      ([zoap_block_transfer_correct]); resources are
      described by their text ([format_resource_correct]). The loops over options
      have as many turns as the packet has bytes, or options.
    - DNS: resolving a name refines an abstract look-up that asks for the labels,
      follows aliases and returns the addresses of the kind asked for
      ([dns_resolve_correct]), for a server that answers with messages of the
      standard, with records of that kind and aliases that fit; fragments are put together in order
      ([nbuf_copy_correct]). More fuel than the 512 bytes of a message is enough.
    - The board: the system timer and the kernel together keep time, and the next
      tick may always be announced ([systick_keeps_time], which discharges for this
      driver what the theorems on announcements assume); of tickless idle it is
      shown what the code programs and announces ([tickless_idle_correct]), and
      where that is not the time that passed; configuring a pin changes that pin and its
      interrupt only ([gpio_config_correct], [board_pins_correct]); an interrupt
      runs the handlers that wait for it, if they leave the callback lists alone
      ([gpio_interrupt_correct]), and any sequence of calls and interrupts, with
      handlers that enable and disable their callbacks and set pins, keeps registers
      and callback lists in order ([gpio_driver_safe]); the clock tree gets the frequencies that are configured
      ([clock_init_correct]).
    - Defects of the code, as theorems about it: [timed_out_waiter_null_owner],
      [inheritance_demotes_above_ceiling], [merge_slist_loses_list],
      [nonblocking_get_never_delivers], [publish_size_wraps],
      [connect_long_refused], [publish_without_identifier],
      [pin_config_out_of_bounds], [unknown_function_accepted],
      [self_removal_hides_callbacks], [cycle_counter_steps_back],
      [expired_idle_loses_tick], [countflag_is_lost], [next_tick_misplaced],
      [full_buffer_overrun], [late_block_misread], [single_block_not_found],
      [next_to_expire_is_last], [cleared_pending_not_unused],
      [cleared_reply_called], [second_component_null], [alias_overflow],
      [long_response_refused], [inverse_query_accepted], [other_kind_accepted],
      [no_packet_followed], [resume_ready_queues_twice], [two_codes_lost],
      [malformed_packets_accepted], [second_pending_kept], [age_byte_order].

    ** What is not modelled

    Register saving and the stacks of threads, the floating point and tracing
    options, the nanosecond hardware clock, the idle loop and its power
    management. The kernel core assumes a clock driver that never announces more
    ticks than the first timeout has left ([not_past]); beyond that
    handle_expired_timeouts makes a delta negative. [Systick] proves it of the
    timer of the board, for a kernel whose timeouts are those of threads; there,
    services and handlers take no time and no timer interrupt waits for a whole
    tick. [Tickless] stops at the announcements. Pipes and mailboxes are modelled
    without asynchronous messages (CONFIG_NUM_PIPE_ASYNC_MSGS and
    CONFIG_NUM_MBOX_ASYNC_MSGS are 0), and the wrappers of the legacy interface
    are left out. Of lib/, the formatted output of the C library, the MQTT client
    above the packets and the buffer pools of the DNS client are not modelled; of the
    network buffers, only what CoAP and DNS use. The other device drivers (the UART
    and PWM drivers of the board call the vendor's library), the other
    architectures, subsys/ and ext/ are outside this library. *)
From Stdlib Require Export ZArith Lia.
From stdpp Require Export prelude gmap functions numbers.
From stdpp Require Export list.

#[global] Open Scope Z_scope.

(** ** Machine integers

    A C integer of width [w] is a [Z]; the conversions below are the ones the
    ARM ABI of the target gives ([int] and [int32_t] are 32 bits wide). *)

Definition wrap_u (w z : Z) : Z := z `mod` 2 ^ w.
Definition wrap_s (w z : Z) : Z := (z + 2 ^ (w - 1)) `mod` 2 ^ w - 2 ^ (w - 1).

Abbreviation u8 := (wrap_u 8).
Abbreviation u16 := (wrap_u 16).
Abbreviation u32 := (wrap_u 32).
Abbreviation u64 := (wrap_u 64).
Abbreviation i32 := (wrap_s 32).
Abbreviation i64 := (wrap_s 64).

Definition INT32_MAX : Z := 2147483647.
Definition INT32_MIN : Z := -2147483648.
Definition UINT32_MAX : Z := 4294967295.

Lemma u32_small z : 0 <= z <= UINT32_MAX -> u32 z = z.
Proof. unfold wrap_u, UINT32_MAX. intros. apply Z.mod_small. lia. Qed.

Lemma u32_range z : 0 <= u32 z <= UINT32_MAX.
Proof.
  unfold wrap_u, UINT32_MAX.
  pose proof (Z.mod_pos_bound z (2 ^ 32) ltac:(lia)). lia.
Qed.

Lemma u32_u32 z : u32 (u32 z) = u32 z.
Proof. unfold wrap_u. by rewrite Z.mod_mod by lia. Qed.

Lemma u32_add_l a b : u32 (u32 a + b) = u32 (a + b).
Proof. unfold wrap_u. by rewrite Zplus_mod_idemp_l. Qed.

Lemma i32_small z : INT32_MIN <= z <= INT32_MAX -> i32 z = z.
Proof.
  unfold wrap_s, INT32_MIN, INT32_MAX. intros.
  rewrite Z.mod_small by (simpl; lia). lia.
Qed.

Lemma i32_range z : INT32_MIN <= i32 z <= INT32_MAX.
Proof.
  unfold wrap_s, INT32_MIN, INT32_MAX.
  pose proof (Z.mod_pos_bound (z + 2 ^ (32 - 1)) (2 ^ 32) ltac:(lia)).
  change (2 ^ (32 - 1)) with 2147483648 in *.
  change (2 ^ 32) with 4294967296 in *. lia.
Qed.

Lemma i64_small z : - 2 ^ 63 <= z < 2 ^ 63 -> i64 z = z.
Proof.
  unfold wrap_s. intros. change (64 - 1) with 63.
  rewrite Z.mod_small by lia. lia.
Qed.

Lemma wrap_u_testbit w z n : 0 <= n < w -> Z.testbit (wrap_u w z) n = Z.testbit z n.
Proof. intros. unfold wrap_u. apply Z.mod_pow2_bits_low. lia. Qed.

Lemma wrap_u_testbit_high w z n : 0 <= w <= n -> Z.testbit (wrap_u w z) n = false.
Proof. intros. unfold wrap_u. apply Z.mod_pow2_bits_high. lia. Qed.

Lemma wrap_s_testbit w z n : 0 <= n < w -> Z.testbit (wrap_s w z) n = Z.testbit z n.
Proof.
  intros. rewrite <- (wrap_u_testbit w (wrap_s w z)), <- (wrap_u_testbit w z) by done.
  f_equal. unfold wrap_u, wrap_s. rewrite Zminus_mod_idemp_l. f_equal. lia.
Qed.

Lemma land_pow2_eqb f n : 0 <= n -> (Z.land f (2 ^ n) =? 0) = negb (Z.testbit f n).
Proof.
  intros Hn. destruct (Z.testbit f n) eqn:E; simpl.
  - apply Z.eqb_neq. intros H0. apply (f_equal (fun z => Z.testbit z n)) in H0.
    rewrite Z.land_spec, E, Z.pow2_bits_true, Z.bits_0 in H0 by done. done.
  - apply Z.eqb_eq. apply Z.bits_inj'. intros m Hm. rewrite Z.land_spec, Z.bits_0.
    destruct (Z.eq_dec m n) as [->|Hne]; [by rewrite E|].
    rewrite Z.pow2_bits_false by congruence. by rewrite andb_false_r.
Qed.

Lemma land_lor_eqb f a b :
  (Z.land f (Z.lor a b) =? 0) = (Z.land f a =? 0) && (Z.land f b =? 0).
Proof.
  rewrite Z.land_lor_distr_r.
  destruct (Z.eqb_spec (Z.lor (Z.land f a) (Z.land f b)) 0) as [E|E].
  - apply Z.lor_eq_0_iff in E as [-> ->]. done.
  - symmetry. apply andb_false_iff. rewrite !Z.eqb_neq.
    destruct (Z.eq_dec (Z.land f a) 0) as [Ea|]; [|by left]. right. intros Eb.
    apply E. by rewrite Ea, Eb.
Qed.

(** ** Truth values

    C's [int] truth values appear as [bool]; [b2z] is the conversion back. *)
Definition b2z (b : bool) : Z := if b then 1 else 0.

(** ** Byte memory

    An address maps to a byte; [memcpy] of regions that do not overlap. *)
Definition memcpy (dst src n : Z) (m : Z -> Z) : Z -> Z :=
  fun a => if (dst <=? a) && (a <? dst + n) then m (src + (a - dst)) else m a.

Definition read_bytes (m : Z -> Z) (a n : Z) : list Z := m <$> seqZ a n.

Definition disjoint_from (a n b k : Z) : Prop := a + n <= b \/ b + k <= a.

Lemma read_bytes_ext (m m' : Z -> Z) a n :
  (forall i, a <= i < a + n -> m' i = m i) -> read_bytes m' a n = read_bytes m a n.
Proof.
  intros Hm. apply list_fmap_ext. intros i x Hx. apply list_elem_of_lookup_2 in Hx.
  apply elem_of_seqZ in Hx. apply Hm. lia.
Qed.

Lemma read_memcpy_same m dst src n : read_bytes (memcpy dst src n m) dst n = read_bytes m src n.
Proof.
  unfold read_bytes. apply list_eq. intros i. rewrite !list_lookup_fmap.
  destruct (decide (Z.of_nat i < n)) as [Hi|Hi].
  - rewrite !lookup_seqZ_lt by done. simpl. unfold memcpy.
    rewrite (proj2 (Z.leb_le _ _)), (proj2 (Z.ltb_lt _ _)) by lia. simpl. do 2 f_equal. lia.
  - by rewrite !lookup_seqZ_ge by lia.
Qed.

Lemma read_memcpy_other m dst src n a k :
  disjoint_from dst n a k -> read_bytes (memcpy dst src n m) a k = read_bytes m a k.
Proof.
  intros Hd. apply read_bytes_ext. intros i Hi. unfold memcpy, disjoint_from in *.
  destruct (Z.leb_spec dst i), (Z.ltb_spec i (dst + n)); simpl; try done. lia.
Qed.

(** ** Intrusive lists, seen as sequences

    [remove_node n l] is what unlinking the node [n] does to the sequence of
    nodes of the list that holds it. *)
Definition remove_node {A} `{EqDecision A} (n : A) (l : list A) : list A :=
  filter (fun x => x <> n) l.

Section remove_node.
Context {A : Type} `{EqDecision A}.
Implicit Types (n x : A) (l k : list A).

Lemma elem_of_remove_node n x l : x ∈ remove_node n l <-> x <> n /\ x ∈ l.
Proof. unfold remove_node. by rewrite list_elem_of_filter. Qed.

Lemma remove_node_not_in n l : n ∉ l -> remove_node n l = l.
Proof.
  induction l as [|x l IH]; intros Hn; [done|].
  unfold remove_node in *. rewrite filter_cons_True by set_solver.
  f_equal. apply IH. set_solver.
Qed.

Lemma remove_node_app n l k :
  remove_node n (l ++ k) = remove_node n l ++ remove_node n k.
Proof. apply filter_app. Qed.

Lemma remove_node_cons_eq n l : n ∉ l -> remove_node n (n :: l) = l.
Proof.
  intros. unfold remove_node. rewrite filter_cons_False by auto.
  by apply remove_node_not_in.
Qed.

Lemma remove_node_mid n l k :
  n ∉ l -> n ∉ k -> remove_node n (l ++ n :: k) = l ++ k.
Proof.
  intros. rewrite remove_node_app, remove_node_not_in by done.
  by rewrite remove_node_cons_eq.
Qed.

Lemma NoDup_remove_node n l : NoDup l -> NoDup (remove_node n l).
Proof. apply NoDup_filter. Qed.

Lemma length_remove_node n l :
  NoDup l -> n ∈ l -> S (length (remove_node n l)) = length l.
Proof.
  intros Hnd (l1 & l2 & ->)%list_elem_of_split.
  apply NoDup_app in Hnd as (_ & Hd & [? _]%NoDup_cons).
  assert (n ∉ l1) by (intros ?; apply (Hd n); set_solver).
  rewrite remove_node_mid by done. rewrite !length_app. simpl. lia.
Qed.
End remove_node.

(** The sequence-level meaning of [sys_dlist_insert_at]: [node] goes before the
    first element at which the callback [cond] answers yes, or at the end;
    [cond] is called on each element up to that one, in order, and on no other,
    and threads the state [D] it may write to. *)
Section insert_at.
Context {A D : Type} (cond : A -> D -> bool * D).

Fixpoint insert_at (node : A) (d : D) (l : list A) : list A * D :=
  match l with
  | [] => ([node], d)
  | x :: l' =>
      let '(stop, d') := cond x d in
      if stop then (node :: x :: l', d')
      else let '(r, d'') := insert_at node d' l' in (x :: r, d'')
  end.

Lemma insert_at_perm node d l : fst (insert_at node d l) ≡ₚ node :: l.
Proof.
  revert d. induction l as [|x l IH]; intros d; simpl; [done|].
  destruct (cond x d) as [[] d']; simpl; [done|].
  specialize (IH d'). destruct (insert_at node d' l) as [r d'']. simpl in *.
  rewrite IH. apply Permutation_swap.
Qed.
End insert_at.

(** ** Automation *)

Create HintDb kernel.
#[export] Hint Resolve NoDup_remove_node : kernel.

(** Case split on the tests the code makes, turning booleans into
    propositions. *)
Ltac bool_facts :=
  repeat match goal with
  | H : andb _ _ = true |- _ => apply andb_true_iff in H as [??]
  | H : orb _ _ = false |- _ => apply orb_false_iff in H as [??]
  | H : negb _ = true |- _ => apply negb_true_iff in H
  | H : negb _ = false |- _ => apply negb_false_iff in H
  | H : (_ <? _) = true |- _ => apply Z.ltb_lt in H
  | H : (_ <? _) = false |- _ => apply Z.ltb_ge in H
  | H : (_ <=? _) = true |- _ => apply Z.leb_le in H
  | H : (_ <=? _) = false |- _ => apply Z.leb_gt in H
  | H : (_ =? _) = true |- _ => apply Z.eqb_eq in H
  | H : (_ =? _) = false |- _ => apply Z.eqb_neq in H
  | H : bool_decide _ = true |- _ => apply bool_decide_eq_true in H
  | H : bool_decide _ = false |- _ => apply bool_decide_eq_false in H
  end.

Ltac case_if :=
  match goal with
  | |- context [ if ?b then _ else _ ] =>
      lazymatch type of b with
      | bool => let E := fresh "Hif" in destruct b eqn:E; bool_facts
      | _ => destruct b
      end
  end.
