(* ===== verification/DList.v ===== *)
(** * include/misc/dlist.h: intrusive doubly-linked lists

    The pointer-level model of [sys_dlist_*] (Section [Operations]), the shape
    predicate that says which sequence of nodes a header denotes (Section
    [Shape]), and the refinement of every operation to the sequence operation
    the rest of the development uses (Sections [Refinement] and [Store]). *)
From S2P Require Import Prelude.

Module DList.

(** An address. [NULL] is [None] of [option loc]. *)
Definition loc := positive.

(** [struct _dnode]: the two unions make a list header and a node the same
    object, with [head]/[next] and [tail]/[prev] sharing their storage. *)
Record dnode := mk_dnode { next : loc; prev : loc }.

(** The memory that holds headers and nodes. Reading or writing through an
    address that is not mapped is undefined behaviour: the operation is
    [None]. *)
Abbreviation heap := (gmap loc dnode).

Section Operations.
Implicit Types (h : heap) (list node : loc).

Definition set_next (p v : loc) (h : heap) : option heap :=
  d ← h !! p; Some (<[p := mk_dnode v (prev d)]> h).

Definition set_prev (p v : loc) (h : heap) : option heap :=
  d ← h !! p; Some (<[p := mk_dnode (next d) v]> h).

Definition sys_dlist_init list h : option heap :=
  h ← set_next list list h; set_prev list list h.

Definition sys_dlist_is_head list node h : option bool :=
  l ← h !! list; Some (bool_decide (next l = node)).

Definition sys_dlist_is_tail list node h : option bool :=
  l ← h !! list; Some (bool_decide (prev l = node)).

Definition sys_dlist_is_empty list h : option bool :=
  l ← h !! list; Some (bool_decide (next l = list)).

Definition sys_dlist_peek_head list h : option (option loc) :=
  e ← sys_dlist_is_empty list h;
  l ← h !! list;
  Some (if (e : bool) then None else Some (next l)).

Definition sys_dlist_peek_head_not_empty list h : option loc :=
  l ← h !! list; Some (next l).

Definition sys_dlist_peek_next list (node : option loc) h
    : option (option loc) :=
  match node with
  | None => Some None
  | Some n =>
      l ← h !! list;
      if decide (n = prev l) then Some None
      else d ← h !! n; Some (Some (next d))
  end.

Definition sys_dlist_append list node h : option heap :=
  h ← set_next node list h;
  l ← h !! list;
  h ← set_prev node (prev l) h;
  l ← h !! list;
  h ← set_next (prev l) node h;
  set_prev list node h.

Definition sys_dlist_prepend list node h : option heap :=
  l ← h !! list;
  h ← set_next node (next l) h;
  h ← set_prev node list h;
  l ← h !! list;
  h ← set_prev (next l) node h;
  set_next list node h.

Definition sys_dlist_insert_after list (insert_point : option loc) node h
    : option heap :=
  match insert_point with
  | None => sys_dlist_prepend list node h
  | Some ip =>
      i ← h !! ip;
      h ← set_next node (next i) h;
      h ← set_prev node ip h;
      i ← h !! ip;
      h ← set_prev (next i) node h;
      set_next ip node h
  end.

Definition sys_dlist_insert_before list (insert_point : option loc) node h
    : option heap :=
  match insert_point with
  | None => sys_dlist_append list node h
  | Some ip =>
      i ← h !! ip;
      h ← set_prev node (prev i) h;
      h ← set_next node ip h;
      i ← h !! ip;
      h ← set_next (prev i) node h;
      set_prev ip node h
  end.

(** The [while (pos && !cond(pos, data))] walk of [sys_dlist_insert_at].
    [cond] may write to what [data] points to, so it threads a state [D];
    the walk visits each node of the list at most once, which is the bound
    [fuel] stands for. *)
Fixpoint insert_at_walk {D} (cond : loc -> D -> bool * D) (fuel : nat)
    list (pos : option loc) (data : D) h : option (option loc * D) :=
  match pos with
  | None => Some (None, data)
  | Some p =>
      let '(stop, data) := cond p data in
      if stop then Some (Some p, data)
      else
        match fuel with
        | O => None
        | S fuel =>
            pos ← sys_dlist_peek_next list (Some p) h;
            insert_at_walk cond fuel list pos data h
        end
  end.

Definition sys_dlist_insert_at {D} list node (cond : loc -> D -> bool * D)
    (data : D) h : option (heap * D) :=
  e ← sys_dlist_is_empty list h;
  if (e : bool) then h ← sys_dlist_append list node h; Some (h, data)
  else
    pos ← sys_dlist_peek_head list h;
    r ← insert_at_walk cond (size h) list pos data h;
    h ← sys_dlist_insert_before list (fst r) node h;
    Some (h, snd r).

Definition sys_dlist_remove node h : option heap :=
  d ← h !! node;
  h ← set_next (prev d) (next d) h;
  d ← h !! node;
  set_prev (next d) (prev d) h.

Definition sys_dlist_get list h : option (option loc * heap) :=
  e ← sys_dlist_is_empty list h;
  if (e : bool) then Some (None, h)
  else
    l ← h !! list;
    h ← sys_dlist_remove (next l) h;
    Some (Some (next l), h).
End Operations.

(** ** Shape: which sequence of nodes a header denotes *)
Section Shape.
Implicit Types (h : heap) (x y z l : loc) (xs ns : list loc).

Definition nxt h x : option loc := next <$> h !! x.
Definition prv h x : option loc := prev <$> h !! x.

(** Consecutive elements point to each other. *)
Fixpoint chain h xs : Prop :=
  match xs with
  | x :: ((y :: _) as r) => nxt h x = Some y /\ prv h y = Some x /\ chain h r
  | _ => True
  end.

(** The header [l] denotes the nodes [ns]: following [next] from the header
    visits [ns] in order and comes back to the header, and [prev] goes the
    other way round. *)
Definition dlist h l ns : Prop :=
  NoDup (l :: ns) /\ chain h (l :: ns ++ [l]).

Lemma chain_app h xs x ys :
  chain h (xs ++ x :: ys) <-> chain h (xs ++ [x]) /\ chain h (x :: ys).
Proof.
  induction xs as [|a [|b xs] IH]; simpl in *; [naive_solver..|].
  rewrite IH. naive_solver.
Qed.

Lemma chain_split h xs x y ys :
  chain h (xs ++ x :: y :: ys) <->
  chain h (xs ++ [x]) /\ nxt h x = Some y /\ prv h y = Some x /\
  chain h (y :: ys).
Proof. rewrite chain_app. simpl. tauto. Qed.

(** A chain reads [next] of every element but the last and [prev] of every
    element but the first. *)
Lemma chain_frame h h' xs :
  chain h xs ->
  (forall z, z ∈ removelast xs -> nxt h' z = nxt h z) ->
  (forall z, z ∈ tail xs -> prv h' z = prv h z) ->
  chain h' xs.
Proof.
  induction xs as [|x [|y xs] IH]; simpl; [done..|].
  intros (Hn & Hp & Hc) Hnx Hpr. split_and!.
  - rewrite Hnx by set_solver. done.
  - rewrite Hpr by set_solver. done.
  - apply IH; [done|set_solver|]. intros z Hz. apply Hpr. set_solver.
Qed.

Lemma dlist_nil h l : dlist h l [] <-> nxt h l = Some l /\ prv h l = Some l.
Proof.
  unfold dlist. simpl. split; [tauto|]. intros [??].
  split; [apply NoDup_singleton|tauto].
Qed.

(** Every list splits around a gap between a predecessor and a successor. *)
Lemma gap_split l (A B : list loc) :
  exists L0 p n R0, l :: A = L0 ++ [p] /\ B ++ [l] = n :: R0.
Proof.
  destruct (exists_last (l := l :: A) ltac:(done)) as (L0 & p & ->).
  destruct (B ++ [l]) as [|n R0] eqn:E; [by destruct B|]. eauto 10.
Qed.

Lemma dlist_gap h l A B L0 p n R0 :
  l :: A = L0 ++ [p] -> B ++ [l] = n :: R0 ->
  dlist h l (A ++ B) ->
  nxt h p = Some n /\ prv h n = Some p /\
  chain h (l :: A) /\ chain h (B ++ [l]) /\
  p ∉ L0 /\ p ∉ B /\ n ∉ A /\ n ∉ R0.
Proof.
  intros HA HB [Hnd Hc].
  rewrite <- app_assoc in Hc. rewrite app_comm_cons, HA, HB in Hc.
  rewrite <- app_assoc in Hc. simpl in Hc.
  apply chain_split in Hc as (H1 & H2 & H3 & H4).
  rewrite HA, HB. split_and!; try done.
  - assert (NoDup (l :: A)) as Hn.
    { rewrite app_comm_cons in Hnd. by apply NoDup_app in Hnd as [? _]. }
    rewrite HA in Hn. apply NoDup_app in Hn as (_ & Hd & _). set_solver.
  - assert (p ∈ l :: A) by (rewrite HA; set_solver).
    rewrite app_comm_cons in Hnd. apply NoDup_app in Hnd as (_ & Hd & _).
    by apply Hd.
  - assert (n ∈ B ++ [l]) as Hn by (rewrite HB; set_solver).
    apply NoDup_cons in Hnd as [Hl (_ & Hd & _)%NoDup_app]. set_solver.
  - assert (NoDup (B ++ [l])) as Hn.
    { apply NoDup_cons in Hnd as [Hl (_ & _ & ?)%NoDup_app].
      apply NoDup_app. split_and!; [done|set_solver|apply NoDup_singleton]. }
    rewrite HB in Hn. by apply NoDup_cons in Hn as [? _].
Qed.
End Shape.

(** ** The effect of the operations on the links *)
Section Links.
Implicit Types (h : heap) (x y z l p n node : loc).

(** [node] now sits between [p] and [n]; every other link is unchanged. *)
Definition linked h h' node p n : Prop :=
  (forall z, nxt h' z = if decide (z = node) then Some n
                   else if decide (z = p) then Some node else nxt h z) /\
  (forall z, prv h' z = if decide (z = node) then Some p
                   else if decide (z = n) then Some node else prv h z).

(** [p] and [n] are now neighbours; every other link is unchanged. *)
Definition unlinked h h' p n : Prop :=
  (forall z, nxt h' z = if decide (z = p) then Some n else nxt h z) /\
  (forall z, prv h' z = if decide (z = n) then Some p else prv h z).

Lemma nxt_Some h x y : nxt h x = Some y -> exists q, h !! x = Some (mk_dnode y q).
Proof. unfold nxt. destruct (h !! x) as [[??]|]; naive_solver. Qed.
Lemma prv_Some h x y : prv h x = Some y -> exists q, h !! x = Some (mk_dnode q y).
Proof. unfold prv. destruct (h !! x) as [[??]|]; naive_solver. Qed.

Ltac links :=
  split; intros z; unfold nxt, prv; rewrite ?lookup_insert;
  repeat case_decide; simplify_map_eq; try done.

(** Runs the pointer code on a heap whose relevant cells are known. *)
Ltac run :=
  unfold set_next, set_prev;
  repeat (simplify_map_eq; simpl); eexists; split; [reflexivity|links].

Lemma append_links h l p node :
  l <> node -> p <> node ->
  is_Some (h !! node) -> prv h l = Some p -> nxt h p = Some l ->
  exists h', sys_dlist_append l node h = Some h' /\ linked h h' node p l.
Proof.
  intros Hl Hp [[] Hnode] [q El]%prv_Some [q' Ep]%nxt_Some.
  unfold sys_dlist_append. destruct (decide (p = l)) as [->|]; run.
Qed.

Lemma prepend_links h l n node :
  l <> node -> n <> node ->
  is_Some (h !! node) -> nxt h l = Some n -> prv h n = Some l ->
  exists h', sys_dlist_prepend l node h = Some h' /\ linked h h' node l n.
Proof.
  intros Hl Hp [[] Hnode] [q El]%nxt_Some [q' Ep]%prv_Some.
  unfold sys_dlist_prepend. destruct (decide (n = l)) as [->|]; run.
Qed.

Lemma insert_after_links h l ip n node :
  ip <> node -> n <> node ->
  is_Some (h !! node) -> nxt h ip = Some n -> prv h n = Some ip ->
  exists h', sys_dlist_insert_after l (Some ip) node h = Some h' /\
             linked h h' node ip n.
Proof.
  intros Hl Hp [[] Hnode] [q El]%nxt_Some [q' Ep]%prv_Some.
  unfold sys_dlist_insert_after. destruct (decide (n = ip)) as [->|]; run.
Qed.

Lemma insert_before_links h l p ip node :
  ip <> node -> p <> node ->
  is_Some (h !! node) -> prv h ip = Some p -> nxt h p = Some ip ->
  exists h', sys_dlist_insert_before l (Some ip) node h = Some h' /\
             linked h h' node p ip.
Proof.
  intros Hl Hp [[] Hnode] [q El]%prv_Some [q' Ep]%nxt_Some.
  unfold sys_dlist_insert_before. destruct (decide (p = ip)) as [->|]; run.
Qed.

Lemma remove_links h p node n :
  p <> node -> n <> node ->
  nxt h node = Some n -> prv h node = Some p ->
  is_Some (h !! p) -> is_Some (h !! n) ->
  exists h', sys_dlist_remove node h = Some h' /\ unlinked h h' p n.
Proof.
  intros Hp Hn [q E]%nxt_Some [q' E']%prv_Some [[] Hpp] [[] Hnn].
  rewrite E in E'. injection E' as _ ->. unfold sys_dlist_remove.
  destruct (decide (p = n)) as [->|]; run.
Qed.

Lemma linked_dom h h' node p n z :
  linked h h' node p n -> is_Some (h !! z) -> is_Some (h' !! z).
Proof.
  intros [H _] Hz. specialize (H z). unfold nxt in H.
  destruct (h' !! z); [done|]. destruct Hz as [? Hz]. rewrite Hz in H.
  repeat case_decide; done.
Qed.

Lemma unlinked_dom h h' p n z :
  unlinked h h' p n -> is_Some (h !! z) -> is_Some (h' !! z).
Proof.
  intros [H _] Hz. specialize (H z). unfold nxt in H.
  destruct (h' !! z); [done|]. destruct Hz as [? Hz]. rewrite Hz in H.
  repeat case_decide; done.
Qed.
End Links.

(** ** Linking and unlinking, seen on sequences *)
Section Refinement.
Implicit Types (h : heap) (l p n node : loc) (A B ns : list loc).

Lemma NoDup_insert_mid (l node : loc) A B :
  NoDup (l :: A ++ B) -> node ∉ l :: A ++ B -> NoDup (l :: A ++ node :: B).
Proof.
  intros Hnd Hni. rewrite <- Permutation_middle.
  apply NoDup_cons in Hnd as [??].
  apply NoDup_cons; split; [set_solver|]. apply NoDup_cons; set_solver.
Qed.

Lemma cycle_split (l p n : loc) A B L0 R0 mid :
  l :: A = L0 ++ [p] -> B ++ [l] = n :: R0 ->
  l :: (A ++ mid ++ B) ++ [l] = L0 ++ p :: mid ++ n :: R0.
Proof.
  intros HA HB. rewrite <- HB.
  change (L0 ++ p :: mid ++ B ++ [l]) with (L0 ++ [p] ++ mid ++ B ++ [l]).
  rewrite (app_assoc L0), <- HA. simpl. by rewrite <- !app_assoc.
Qed.

Lemma dlist_link h h' l A B L0 p n R0 node :
  l :: A = L0 ++ [p] -> B ++ [l] = n :: R0 ->
  dlist h l (A ++ B) -> node ∉ l :: A ++ B ->
  linked h h' node p n -> dlist h' l (A ++ node :: B).
Proof.
  intros HA HB Hd Hni [Hnx Hpr].
  destruct (dlist_gap _ _ _ _ _ _ _ _ HA HB Hd)
    as (_ & _ & HcA & HcB & HpL & HpB & HnA & HnR).
  destruct Hd as [Hnd _]. split; [by apply NoDup_insert_mid|].
  assert (node ∉ l :: A) as HnodeA by set_solver.
  assert (node ∉ B ++ [l]) as HnodeB by set_solver.
  pose proof (cycle_split l p n A B L0 R0 [node] HA HB) as Hcyc.
  simpl in Hcyc. rewrite Hcyc. clear Hcyc.
  rewrite HA in HcA, HnodeA. rewrite HB in HcB, HnodeB.
  apply chain_split. split_and!.
  - apply (chain_frame h); [done|..]; intros z Hz.
    + rewrite removelast_last in Hz. rewrite Hnx, !decide_False; set_solver.
    + rewrite <- HA in Hz. simpl in Hz. rewrite Hpr, !decide_False; set_solver.
  - rewrite Hnx, decide_False, decide_True; set_solver.
  - rewrite Hpr, decide_True; set_solver.
  - apply (chain_split h' []). simpl. split_and!; [done|..].
    + by rewrite Hnx, decide_True.
    + rewrite Hpr, decide_False, decide_True; set_solver.
    + change (chain h' (n :: R0)).
      apply (chain_frame h); [done|..]; intros z Hz.
      * rewrite <- HB, removelast_last in Hz.
        rewrite Hnx, !decide_False; set_solver.
      * simpl in Hz. rewrite Hpr, !decide_False; set_solver.
Qed.

Lemma dlist_unlink h h' l A B L0 p n R0 node :
  l :: A = L0 ++ [p] -> B ++ [l] = n :: R0 ->
  dlist h l (A ++ node :: B) ->
  unlinked h h' p n -> dlist h' l (A ++ B).
Proof.
  intros HA HB [Hnd Hc] [Hnx Hpr].
  rewrite <- Permutation_middle in Hnd.
  assert (NoDup (l :: A ++ B)) as Hnd'
    by (apply NoDup_cons in Hnd as [? [??]%NoDup_cons]; apply NoDup_cons; set_solver).
  split; [done|]. clear Hnd.
  pose proof (cycle_split l p n A B L0 R0 [] HA HB) as Hcyc.
  pose proof (cycle_split l p n A B L0 R0 [node] HA HB) as Hcyc'.
  simpl in Hcyc, Hcyc'. rewrite Hcyc' in Hc. rewrite Hcyc. clear Hcyc Hcyc'.
  assert (p ∉ L0 /\ p ∉ B) as [HpL HpB].
  { rewrite app_comm_cons, HA in Hnd'.
    apply NoDup_app in Hnd' as ((_ & Hd1 & _)%NoDup_app & Hd2 & _). set_solver. }
  assert (n ∉ A /\ n ∉ R0) as [HnA HnR].
  { assert (NoDup (A ++ n :: R0)) as Hd.
    { rewrite <- HB, app_assoc. apply NoDup_app.
      apply NoDup_cons in Hnd'. split_and!; [|set_solver|apply NoDup_singleton].
      by destruct Hnd'. }
    apply NoDup_app in Hd as (_ & Hd1 & [??]%NoDup_cons). set_solver. }
  rewrite chain_split in Hc. simpl in Hc.
  destruct Hc as (Hc1 & _ & _ & _ & _ & Hc2).
  apply chain_split. split_and!.
  - apply (chain_frame h); [done|..]; intros z Hz.
    + rewrite removelast_last in Hz. rewrite Hnx, decide_False; set_solver.
    + rewrite <- HA in Hz. simpl in Hz. rewrite Hpr, decide_False; set_solver.
  - by rewrite Hnx, decide_True.
  - by rewrite Hpr, decide_True.
  - apply (chain_frame h); [done|..]; intros z Hz.
    + rewrite <- HB, removelast_last in Hz. rewrite Hnx, decide_False; set_solver.
    + simpl in Hz. rewrite Hpr, decide_False; set_solver.
Qed.

(** A list none of whose cells is written keeps its shape. *)
Lemma dlist_frame h h' l ns :
  dlist h l ns ->
  (forall z, z ∈ l :: ns -> nxt h' z = nxt h z /\ prv h' z = prv h z) ->
  dlist h' l ns.
Proof.
  intros [Hnd Hc] Hsame. split; [done|].
  apply (chain_frame h); [done|..]; intros z Hz; apply Hsame.
  - rewrite app_comm_cons, removelast_last in Hz. done.
  - simpl in Hz. set_solver.
Qed.

Lemma dlist_mapped h l ns z : dlist h l ns -> z ∈ l :: ns -> is_Some (h !! z).
Proof.
  intros [_ Hc] (A & B & E)%list_elem_of_split.
  assert (exists y, nxt h z = Some y) as [y Hy].
  { rewrite app_comm_cons, E, <- app_assoc in Hc. simpl in Hc.
    apply chain_app in Hc as [_ Hc].
    destruct (B ++ [l]) as [|y r] eqn:EB; [by destruct B|].
    simpl in Hc. naive_solver. }
  destruct (nxt_Some _ _ _ Hy) as [q ->]. done.
Qed.
End Refinement.

(** ** Stores of lists

    Several lists live in one memory: the ready queues, every object's wait
    queue and the timeout queue. A store maps each header to the sequence of
    its nodes; no node or header is shared between two lists. *)
Abbreviation lists := (gmap loc (list loc)).

Definition store_ok (h : heap) (S : lists) : Prop :=
  (forall l ns, S !! l = Some ns -> dlist h l ns) /\
  (forall l1 l2 ns1 ns2 z, S !! l1 = Some ns1 -> S !! l2 = Some ns2 ->
     l1 <> l2 -> z ∈ l1 :: ns1 -> z ∉ l2 :: ns2).

(** A node that is allocated and on no list. *)
Definition free_node (h : heap) (S : lists) (n : loc) : Prop :=
  is_Some (h !! n) /\ forall l ns, S !! l = Some ns -> n ∉ l :: ns.

Section Store.
Implicit Types (h : heap) (S : lists) (l p n node : loc) (A B ns : list loc).

Lemma store_link h h' S l A B L0 p n R0 node :
  l :: A = L0 ++ [p] -> B ++ [l] = n :: R0 ->
  store_ok h S -> S !! l = Some (A ++ B) -> free_node h S node ->
  linked h h' node p n -> store_ok h' (<[l := A ++ node :: B]> S).
Proof.
  intros HA HB [Hd Hdj] Hl [_ Hfr] Hlk.
  assert (p ∈ l :: A) by (rewrite HA; set_solver).
  assert (n ∈ B ++ [l]) by (rewrite HB; set_solver).
  split.
  - intros l' ns Hl'. destruct (decide (l = l')) as [<-|Hne]; simplify_map_eq.
    + eapply (dlist_link h); eauto.
    + apply (dlist_frame h); [by apply Hd|]. intros z Hz.
      assert (z ∉ l :: A ++ B) by (eapply (Hdj l' l); eauto).
      assert (z <> node) by (intros ->; by eapply (Hfr l')).
      destruct Hlk as [Hnx Hpr]. rewrite Hnx, Hpr.
      rewrite !decide_False by set_solver. done.
  - intros l1 l2 ns1 ns2 z H1 H2 Hne Hz1 Hz2.
    destruct (decide (l = l1)) as [<-|]; destruct (decide (l = l2)) as [<-|];
      simplify_map_eq.
    + destruct (decide (z = node)) as [->|]; [by eapply (Hfr l2)|].
      eapply (Hdj l l2); eauto; set_solver.
    + destruct (decide (z = node)) as [->|]; [by eapply (Hfr l1)|].
      eapply (Hdj l1 l); eauto; set_solver.
    + by eapply (Hdj l1 l2).
Qed.

Lemma store_unlink h h' S l A B L0 p n R0 node :
  l :: A = L0 ++ [p] -> B ++ [l] = n :: R0 ->
  store_ok h S -> S !! l = Some (A ++ node :: B) ->
  unlinked h h' p n -> store_ok h' (<[l := A ++ B]> S).
Proof.
  intros HA HB [Hd Hdj] Hl Hlk.
  assert (p ∈ l :: A) by (rewrite HA; set_solver).
  assert (n ∈ B ++ [l]) by (rewrite HB; set_solver).
  split.
  - intros l' ns Hl'. destruct (decide (l = l')) as [<-|Hne]; simplify_map_eq.
    + eapply (dlist_unlink h); eauto.
    + apply (dlist_frame h); [by apply Hd|]. intros z Hz.
      assert (z ∉ l :: A ++ node :: B) by (eapply (Hdj l' l); eauto).
      destruct Hlk as [Hnx Hpr]. rewrite Hnx, Hpr.
      rewrite !decide_False by set_solver. done.
  - intros l1 l2 ns1 ns2 z H1 H2 Hne Hz1 Hz2.
    destruct (decide (l = l1)) as [<-|]; destruct (decide (l = l2)) as [<-|];
      simplify_map_eq.
    + eapply (Hdj l l2); eauto; set_solver.
    + eapply (Hdj l1 l); eauto; set_solver.
    + by eapply (Hdj l1 l2).
Qed.

Lemma store_dlist h S l ns : store_ok h S -> S !! l = Some ns -> dlist h l ns.
Proof. intros [Hd _]. apply Hd. Qed.

(** Reading the header. *)
Lemma dlist_head h l ns : dlist h l ns -> nxt h l = Some (hd l ns).
Proof. intros [_ Hc]. destruct ns; simpl in *; tauto. Qed.

Lemma dlist_tail h l ns : dlist h l ns -> prv h l = Some (List.last ns l).
Proof.
  intros [_ Hc]. destruct ns as [|x ns _] using rev_ind; [simpl in *; tauto|].
  rewrite List.last_last. rewrite <- app_assoc, app_comm_cons in Hc.
  apply chain_split in Hc. tauto.
Qed.

Lemma is_empty_refines h l ns :
  dlist h l ns -> sys_dlist_is_empty l h = Some (bool_decide (ns = [])).
Proof.
  intros Hd. pose proof (dlist_head _ _ _ Hd) as [q E]%nxt_Some.
  unfold sys_dlist_is_empty. rewrite E. simpl. f_equal.
  destruct Hd as [Hnd _]. apply bool_decide_ext. destruct ns; [done|].
  simpl. apply NoDup_cons in Hnd. set_solver.
Qed.

Lemma peek_head_refines h l ns :
  dlist h l ns -> sys_dlist_peek_head l h = Some (head ns).
Proof.
  intros Hd. unfold sys_dlist_peek_head.
  rewrite (is_empty_refines _ _ _ Hd). simpl.
  pose proof (dlist_head _ _ _ Hd) as [q ->]%nxt_Some. by destruct ns.
Qed.

Lemma is_tail_refines h l ns n :
  dlist h l ns -> n <> l ->
  sys_dlist_is_tail l n h = Some (bool_decide (last ns = Some n)).
Proof.
  intros Hd Hn. pose proof (dlist_tail _ _ _ Hd) as [q E]%prv_Some.
  unfold sys_dlist_is_tail. rewrite E. simpl. f_equal. apply bool_decide_ext.
  destruct ns as [|x ns _] using rev_ind; [simpl; naive_solver|].
  rewrite List.last_last, last_snoc. naive_solver.
Qed.

Lemma peek_next_refines h l A n B :
  dlist h l (A ++ n :: B) ->
  sys_dlist_peek_next l (Some n) h = Some (head B).
Proof.
  intros Hd. pose proof (dlist_tail _ _ _ Hd) as [q E]%prv_Some.
  unfold sys_dlist_peek_next. rewrite E. simpl.
  destruct Hd as [Hnd Hc].
  destruct B as [|b B _] using rev_ind.
  - rewrite List.last_last. by rewrite decide_True.
  - rewrite app_comm_cons, app_assoc, List.last_last.
    assert (n <> b) by (apply NoDup_cons in Hnd as [_ (_ & _ & Hn)%NoDup_app];
                        apply NoDup_cons in Hn; set_solver).
    rewrite decide_False by done.
    assert (nxt h n = head (B ++ [b])) as Hn.
    { rewrite <- app_assoc, app_comm_cons in Hc. simpl in Hc.
      apply (chain_app h (l :: A)) in Hc as [_ Hc]. by destruct B, Hc. }
    destruct (B ++ [b]) eqn:EB; [by destruct B|]. simpl in *.
    apply nxt_Some in Hn as [q' ->]. done.
Qed.

(** Inserting between [A] and [B], whichever of the four operations does it. *)
Lemma insert_refines h S l A B node (op : option heap) :
  store_ok h S -> S !! l = Some (A ++ B) -> free_node h S node ->
  (forall L0 p n R0, l :: A = L0 ++ [p] -> B ++ [l] = n :: R0 ->
     p <> node -> n <> node -> nxt h p = Some n -> prv h n = Some p ->
     exists h', op = Some h' /\ linked h h' node p n) ->
  exists h', op = Some h' /\ store_ok h' (<[l := A ++ node :: B]> S).
Proof.
  intros Hok Hl Hfr Hop.
  destruct (gap_split l A B) as (L0 & p & n & R0 & HA & HB).
  destruct (dlist_gap h l A B L0 p n R0) as (Hpn & Hnp & _);
    [done|done|by eapply store_dlist|].
  assert (node ∉ l :: A ++ B) by (eapply Hfr; eauto).
  assert (p ∈ l :: A) by (rewrite HA; set_solver).
  assert (n ∈ B ++ [l]) by (rewrite HB; set_solver).
  destruct (Hop L0 p n R0) as (h' & -> & Hlk); [done|done|set_solver..|done|done|].
  exists h'. split; [done|]. by eapply store_link.
Qed.

Lemma append_refines h S l ns node :
  store_ok h S -> S !! l = Some ns -> free_node h S node ->
  exists h', sys_dlist_append l node h = Some h' /\
             store_ok h' (<[l := ns ++ [node]]> S).
Proof.
  intros Hok Hl Hfr.
  apply (insert_refines h S l ns []); [done|by rewrite app_nil_r|done|].
  intros L0 p n R0 _ [= <- <-] ????. apply append_links; auto. apply Hfr.
Qed.

Lemma prepend_refines h S l ns node :
  store_ok h S -> S !! l = Some ns -> free_node h S node ->
  exists h', sys_dlist_prepend l node h = Some h' /\
             store_ok h' (<[l := node :: ns]> S).
Proof.
  intros Hok Hl Hfr. apply (insert_refines h S l [] ns); [done..|].
  intros L0 p n R0 HA _ ????.
  assert (p = l) as -> by (destruct L0 as [|? [|]]; naive_solver).
  apply prepend_links; auto. apply Hfr.
Qed.

Lemma insert_before_refines h S l A ip B node :
  store_ok h S -> S !! l = Some (A ++ ip :: B) -> free_node h S node ->
  exists h', sys_dlist_insert_before l (Some ip) node h = Some h' /\
             store_ok h' (<[l := A ++ node :: ip :: B]> S).
Proof.
  intros Hok Hl Hfr. apply (insert_refines h S l A (ip :: B)); [done..|].
  intros L0 p n R0 _ [= <- <-] ????.
  apply insert_before_links; auto. apply Hfr.
Qed.

Lemma insert_after_refines h S l A ip B node :
  store_ok h S -> S !! l = Some (A ++ ip :: B) -> free_node h S node ->
  exists h', sys_dlist_insert_after l (Some ip) node h = Some h' /\
             store_ok h' (<[l := A ++ ip :: node :: B]> S).
Proof.
  intros Hok Hl Hfr.
  replace (A ++ ip :: node :: B) with ((A ++ [ip]) ++ node :: B)
    by (by rewrite <- app_assoc).
  apply (insert_refines h S l (A ++ [ip]) B); [done|by rewrite <- app_assoc|done|].
  intros L0 p n R0 HA _ ????.
  rewrite app_comm_cons in HA. apply app_inj_tail in HA as [_ <-].
  apply insert_after_links; auto. apply Hfr.
Qed.

Lemma NoDup_mid_not_in (l node : loc) A B :
  NoDup (l :: A ++ node :: B) -> node ∉ l :: A ++ B.
Proof. rewrite <- Permutation_middle, !NoDup_cons. set_solver. Qed.

Lemma store_remove_eq h S l A node B :
  store_ok h S -> S !! l = Some (A ++ node :: B) ->
  remove_node node <$> S = <[l := A ++ B]> S.
Proof.
  intros [Hd Hdj] Hl. apply map_eq. intros l'. rewrite lookup_fmap.
  destruct (Hd _ _ Hl) as [Hnd%NoDup_mid_not_in _].
  destruct (decide (l = l')) as [<-|Hne].
  - rewrite Hl, lookup_insert_eq. simpl.
    rewrite remove_node_mid by set_solver. done.
  - rewrite lookup_insert_ne by done. destruct (S !! l') as [ns|] eqn:E; [|done].
    simpl. rewrite remove_node_not_in; [done|]. intros Hin.
    eapply (Hdj l' l ns _ node); eauto; set_solver.
Qed.

Lemma remove_refines h S l ns node :
  store_ok h S -> S !! l = Some ns -> node ∈ ns ->
  exists h', sys_dlist_remove node h = Some h' /\
             store_ok h' (remove_node node <$> S) /\
             free_node h' (remove_node node <$> S) node.
Proof.
  intros Hok Hl (A & B & ->)%list_elem_of_split.
  destruct (gap_split l A B) as (L0 & p & n & R0 & HA & HB).
  pose proof (store_dlist _ _ _ _ Hok Hl) as Hd.
  assert (node ∉ l :: A ++ B) as Hnode by (by apply NoDup_mid_not_in, Hd).
  assert (p ∈ l :: A) by (rewrite HA; set_solver).
  assert (n ∈ B ++ [l]) by (rewrite HB; set_solver).
  destruct (remove_links h p node n) as (h' & Hrm & Hul); [set_solver..| | | | |].
  - apply (dlist_gap h l (A ++ [node]) B (L0 ++ [p]) node n R0);
      [by rewrite app_comm_cons, HA|done|by rewrite <- app_assoc].
  - apply (dlist_gap h l A (node :: B) L0 p node (n :: R0));
      [done|by rewrite <- HB|done].
  - apply (dlist_mapped _ _ _ _ Hd). set_solver.
  - apply (dlist_mapped _ _ _ _ Hd). set_solver.
  - exists h'. rewrite (store_remove_eq h S l A node B) by done. split_and!; [done|..].
    + by eapply store_unlink.
    + split; [eapply unlinked_dom; [done|]; eapply dlist_mapped; [done|]; set_solver|].
      intros l' ns' Hl'. destruct (decide (l = l')) as [<-|]; simplify_map_eq; [done|].
      destruct Hok as [_ Hdj]. eapply (Hdj l l'); eauto. set_solver.
Qed.

Lemma get_refines h S l ns :
  store_ok h S -> S !! l = Some ns ->
  match ns with
  | [] => sys_dlist_get l h = Some (None, h)
  | x :: ns' => exists h', sys_dlist_get l h = Some (Some x, h') /\
                store_ok h' (<[l := ns']> S) /\ free_node h' (<[l := ns']> S) x
  end.
Proof.
  intros Hok Hl. pose proof (store_dlist _ _ _ _ Hok Hl) as Hd.
  unfold sys_dlist_get. rewrite (is_empty_refines _ _ _ Hd).
  destruct ns as [|x ns]; [done|]. simpl.
  pose proof (dlist_head _ _ _ Hd) as [q ->]%nxt_Some. simpl.
  destruct (remove_refines h S l (x :: ns) x) as (h' & -> & Hok' & Hfr);
    [done..|set_solver|].
  rewrite (store_remove_eq h S l [] x ns) in * by done.
  exists h'. split; [done|]. split; [exact Hok'|exact Hfr].
Qed.
End Store.

(** ** Insertion at the place a callback chooses *)
Section InsertAt.
Context {D : Type} (cond : loc -> D -> bool * D).
Implicit Types (h : heap) (S : lists) (l node : loc) (A B ns : list loc) (d : D).

Fixpoint walk_list d ns : option loc * D :=
  match ns with
  | [] => (None, d)
  | x :: ns' =>
      let '(stop, d') := cond x d in
      if stop then (Some x, d') else walk_list d' ns'
  end.

Lemma walk_refines h l A B d fuel :
  dlist h l (A ++ B) -> (length B <= fuel)%nat ->
  insert_at_walk cond fuel l (head B) d h = Some (walk_list d B).
Proof.
  revert A d fuel. induction B as [|x B IH]; intros A d fuel Hd Hf; [by destruct fuel|].
  simpl in Hf. destruct fuel as [|fuel]; [lia|]. cbn [head insert_at_walk walk_list].
  destruct (cond x d) as [[] d']; [done|].
  rewrite (peek_next_refines h l A x B Hd).
  cbn [mbind option_bind]. apply (IH (A ++ [x])); [by rewrite <- app_assoc|lia].
Qed.

Lemma walk_insert_at node d ns :
  exists A B, ns = A ++ B /\ fst (walk_list d ns) = head B /\
    insert_at cond node d ns = (A ++ node :: B, snd (walk_list d ns)).
Proof.
  revert d. induction ns as [|x ns IH]; intros d; simpl.
  - by exists [], [].
  - destruct (cond x d) as [[] d'] eqn:E; simpl.
    + by exists [], (x :: ns).
    + destruct (IH d') as (A & B & -> & Hw & Hi). exists (x :: A), B.
      rewrite Hi. done.
Qed.

Lemma dlist_length_size h l ns : dlist h l ns -> (length ns <= size h)%nat.
Proof.
  intros Hd. rewrite <- size_dom. assert (length ns = size (list_to_set ns : gset loc)) as ->.
  { rewrite size_list_to_set; [done|]. by destruct Hd as [[_ ?]%NoDup_cons _]. }
  apply subseteq_size. intros z Hz%elem_of_list_to_set. apply elem_of_dom.
  eapply dlist_mapped; [done|set_solver].
Qed.

Lemma insert_at_refines h S l ns node d :
  store_ok h S -> S !! l = Some ns -> free_node h S node ->
  exists h', sys_dlist_insert_at l node cond d h
               = Some (h', snd (insert_at cond node d ns)) /\
             store_ok h' (<[l := fst (insert_at cond node d ns)]> S).
Proof.
  intros Hok Hl Hfr. pose proof (store_dlist _ _ _ _ Hok Hl) as Hd.
  unfold sys_dlist_insert_at. rewrite (is_empty_refines _ _ _ Hd). simpl.
  case_bool_decide as Hns; [subst ns|].
  { destruct (append_refines h S l [] node) as (h' & -> & ?); eauto. }
  rewrite (peek_head_refines _ _ _ Hd). simpl.
  rewrite (walk_refines h l [] ns) by (done || by eapply dlist_length_size). simpl.
  destruct (walk_insert_at node d ns) as (A & B & -> & -> & ->). simpl.
  destruct B as [|ip B].
  - rewrite app_nil_r in *.
    destruct (append_refines h S l A node) as (h' & Ha & ?); [done..|].
    simpl. rewrite Ha. eauto.
  - destruct (insert_before_refines h S l A ip B node) as (h' & Hb & ?); [done..|].
    cbn [head]. rewrite Hb. eauto.
Qed.
End InsertAt.

(** ** The interface the kernel's queues rely on

    A memory [St] with list operations implements stores of sequences when
    every operation succeeds on a represented store and its effect is the
    sequence operation. *)
Record list_ops (St : Type) := {
  lo_append : loc -> loc -> St -> option St;
  lo_prepend : loc -> loc -> St -> option St;
  lo_remove : loc -> St -> option St;
  lo_get : loc -> St -> option (option loc * St)
}.
Arguments lo_append {St} _ _ _ _.
Arguments lo_prepend {St} _ _ _ _.
Arguments lo_remove {St} _ _ _.
Arguments lo_get {St} _ _ _.

Class ImplementsLists {St} (ops : list_ops St)
    (rep : St -> lists -> Prop) (fresh : St -> lists -> loc -> Prop) : Prop := {
  il_append s S l ns n :
    rep s S -> S !! l = Some ns -> fresh s S n ->
    exists s', lo_append ops l n s = Some s' /\ rep s' (<[l := ns ++ [n]]> S);
  il_prepend s S l ns n :
    rep s S -> S !! l = Some ns -> fresh s S n ->
    exists s', lo_prepend ops l n s = Some s' /\ rep s' (<[l := n :: ns]> S);
  il_remove s S l ns n :
    rep s S -> S !! l = Some ns -> n ∈ ns ->
    exists s', lo_remove ops n s = Some s' /\ rep s' (remove_node n <$> S) /\
               fresh s' (remove_node n <$> S) n;
  il_get s S l ns :
    rep s S -> S !! l = Some ns ->
    match ns with
    | [] => lo_get ops l s = Some (None, s)
    | x :: ns' => exists s', lo_get ops l s = Some (Some x, s') /\
                    rep s' (<[l := ns']> S) /\ fresh s' (<[l := ns']> S) x
    end
}.

Definition dlist_ops : list_ops heap :=
  {| lo_append := sys_dlist_append; lo_prepend := sys_dlist_prepend;
     lo_remove := sys_dlist_remove; lo_get := sys_dlist_get |}.

#[export] Instance dlist_implements : ImplementsLists dlist_ops store_ok free_node.
Proof.
  split; simpl; [eauto using append_refines, prepend_refines, remove_refines..|].
  intros. by apply get_refines.
Qed.

(** A client of the interface: the scheduler moves a node from the list it is
    on to the tail of a list ([sys_dlist_remove] then [sys_dlist_append]). *)
Section Client.
Context {St : Type} (ops : list_ops St)
  {rep : St -> lists -> Prop} {fresh : St -> lists -> loc -> Prop}
  `{!ImplementsLists ops rep fresh}.

Definition move_to_tail (l n : loc) (s : St) : option St :=
  s ← lo_remove ops n s; lo_append ops l n s.

Lemma move_to_tail_refines s S l from ns n :
  rep s S -> S !! from = Some ns -> n ∈ ns -> is_Some (S !! l) ->
  exists s', move_to_tail l n s = Some s' /\
    rep s' (<[l := remove_node n (default [] (S !! l)) ++ [n]]> (remove_node n <$> S)).
Proof.
  intros Hrep Hfrom Hn [ms Hl].
  destruct (il_remove s S from ns n) as (s1 & Hrm & Hrep1 & Hfr1); [done..|].
  unfold move_to_tail. rewrite Hrm. simpl.
  apply il_append; [done| |done]. by rewrite lookup_fmap, Hl.
Qed.
End Client.

(** ** Properties *)

(** C12: the pointer code of [sys_dlist_append], [sys_dlist_prepend],
    [sys_dlist_remove] and [sys_dlist_get] implements stores of disjoint
    sequences: on a memory that holds such a store each of them runs without
    touching an unmapped address, and leaves a memory that holds the store in
    which the one list concerned changed by append, cons, deletion or tail;
    no other list of the memory is disturbed. *)
Theorem sys_dlist_refines_sequences :
  ImplementsLists dlist_ops store_ok free_node.
Proof. apply dlist_implements. Qed.

(** [sys_dlist_insert_at] terminates on every list and puts the node
    before the first element at which the callback answers yes (at the end if
    there is none), having called the callback on exactly the elements up to
    that point, in order, with the callback's writes threaded through. *)
Theorem sys_dlist_insert_at_refines {D} (cond : loc -> D -> bool * D)
    (h : heap) (S : lists) (l node : loc) (ns : list loc) (d : D) :
  store_ok h S -> S !! l = Some ns -> free_node h S node ->
  exists h', sys_dlist_insert_at l node cond d h
               = Some (h', snd (insert_at cond node d ns)) /\
             store_ok h' (<[l := fst (insert_at cond node d ns)]> S).
Proof. apply insert_at_refines. Qed.

(** A memory with the list [2; 3] under the header at address 1 and a free
    node at address 4. *)
Definition example_heap : heap :=
  list_to_map [(1, mk_dnode 2 3); (2, mk_dnode 3 1); (3, mk_dnode 1 2);
               (4, mk_dnode 4 4)]%positive.
Definition example_store : lists := {[ 1%positive := [2; 3]%positive ]}.

Lemma example_store_ok : store_ok example_heap example_store.
Proof.
  unfold example_store. split.
  - intros l ns [<- <-]%lookup_singleton_Some. split.
    + apply (bool_decide_unpack _). by vm_compute.
    + vm_compute. tauto.
  - intros l1 l2 ns1 ns2 z [<- <-]%lookup_singleton_Some [<- <-]%lookup_singleton_Some.
    done.
Qed.

Lemma sys_dlist_insert_at_refines_witness :
  exists h', sys_dlist_insert_at 1%positive 4%positive
               (fun p (d : Z) => (bool_decide (p = 3%positive), d + 1)) 0 example_heap
             = Some (h', 2) /\
             store_ok h' (<[1%positive := [2; 4; 3]%positive]> example_store).
Proof.
  pose (cond := fun (p : loc) (d : Z) => (bool_decide (p = 3%positive), d + 1)).
  assert (insert_at cond 4%positive 0 [2; 3]%positive = ([2; 4; 3]%positive, 2))
    as E by reflexivity.
  destruct (sys_dlist_insert_at_refines cond example_heap example_store
              1%positive 4%positive [2; 3]%positive 0) as (h' & H1 & H2).
  - apply example_store_ok.
  - reflexivity.
  - split; [by eexists|].
    unfold example_store. intros l ns [<- <-]%lookup_singleton_Some. set_solver.
  - rewrite E in H1, H2. exists h'. split; [exact H1 | exact H2].
Defined.

End DList.
