(* ===== verification/SList.v ===== *)
(** * Singly-linked lists (include/misc/slist.h)

    The inline functions at pointer level: memory maps the address of a node to
    its [next] field, a list is the pair of its [head] and [tail] pointers, and
    a null pointer is [None]. [slist] says that a list in memory is a sequence
    of nodes; every function is shown to implement an operation on sequences.
    The queues of the file Fifo use those sequences. *)
From S2P Require Import Prelude.

Module SList.
Definition node := positive.
Abbreviation mem := (node -> option node).
Record sys_slist := mk_slist { head_ : option node; tail_ : option node }.

Section Operations.
Implicit Types (l : sys_slist) (m : mem) (n : node).

Definition sys_slist_init : sys_slist := mk_slist None None.
Definition sys_slist_is_empty l : bool := bool_decide (head_ l = None).
Definition sys_slist_peek_head l : option node := head_ l.
Definition sys_slist_peek_tail l : option node := tail_ l.
Definition sys_slist_peek_next (n : option node) m : option node := n ≫= m.

Definition sys_slist_prepend l n m : sys_slist * mem :=
  let m := <[n := head_ l]> m in
  let l := mk_slist (Some n) (tail_ l) in
  (match tail_ l with None => mk_slist (head_ l) (head_ l) | Some _ => l end, m).

Definition sys_slist_append l n m : sys_slist * mem :=
  let m := <[n := None]> m in
  match tail_ l with
  | None => (mk_slist (Some n) (Some n), m)
  | Some t => (mk_slist (head_ l) (Some n), <[t := Some n]> m)
  end.

Definition sys_slist_append_list l (head tail : option node) m : sys_slist * mem :=
  match tail_ l with
  | None => (mk_slist head tail, m)
  | Some t => (mk_slist (head_ l) tail, <[t := head]> m)
  end.

(** The two lists after the call: [list], then [list_to_append]. *)
Definition sys_slist_merge_slist l (list_to_append : sys_slist) m
    : sys_slist * sys_slist * mem :=
  let '(l, m) := sys_slist_append_list l (head_ list_to_append) (tail_ list_to_append) m in
  (sys_slist_init, list_to_append, m).

Definition sys_slist_insert l (prev : option node) n m : sys_slist * mem :=
  match prev with
  | None => sys_slist_prepend l n m
  | Some p =>
      match m p with
      | None => sys_slist_append l n m
      | Some nx => (l, <[p := Some n]> (<[n := Some nx]> m))
      end
  end.

(** [None]: the list is empty and the code reads through a null pointer. *)
Definition sys_slist_get_not_empty l m : option (node * sys_slist) :=
  n ← head_ l;
  let l' := mk_slist (m n) (tail_ l) in
  Some (n, if bool_decide (tail_ l = Some n) then mk_slist (head_ l') (head_ l') else l').

Definition sys_slist_get l m : option (option node * sys_slist) :=
  if sys_slist_is_empty l then Some (None, l)
  else '(n, l) ← sys_slist_get_not_empty l m; Some (Some n, l).

Definition sys_slist_remove l (prev_node : option node) n m : sys_slist * mem :=
  let '(l, m) :=
    match prev_node with
    | None =>
        let l := mk_slist (m n) (tail_ l) in
        (if bool_decide (tail_ l = Some n) then mk_slist (head_ l) (head_ l) else l, m)
    | Some p =>
        let m := <[p := m n]> m in
        (if bool_decide (tail_ l = Some n) then mk_slist (head_ l) (Some p) else l, m)
    end in
  (l, <[n := None]> m).

(** The [SYS_SLIST_FOR_EACH_NODE] loop; [None] when the fuel runs out. *)
Fixpoint find_loop (fuel : nat) l (prev test : option node) n m : option (sys_slist * mem) :=
  match test with
  | None => Some (l, m)
  | Some t =>
      match fuel with
      | O => None
      | S fuel =>
          if decide (t = n) then Some (sys_slist_remove l prev n m)
          else find_loop fuel l (Some t) (m t) n m
      end
  end.
Definition sys_slist_find_and_remove (fuel : nat) l n m : option (sys_slist * mem) :=
  find_loop fuel l None (head_ l) n m.
End Operations.

(** ** Lists in memory *)
Section Refinement.
Implicit Types (l : sys_slist) (m : mem) (n : node) (xs ys : list node).

(** From pointer [p] the nodes of [xs] follow, up to the pointer [q]. *)
Fixpoint seg m (p : option node) xs (q : option node) : Prop :=
  match xs with
  | [] => p = q
  | x :: xs => p = Some x /\ seg m (m x) xs q
  end.

Record slist m l xs : Prop := {
  sl_seg : seg m (head_ l) xs None;
  sl_tail : tail_ l = last xs;
  sl_nodup : NoDup xs
}.

Lemma seg_app m p xs ys q : seg m p (xs ++ ys) q <-> exists r, seg m p xs r /\ seg m r ys q.
Proof.
  revert p. induction xs as [|x xs IH]; intros p; simpl.
  - split; [by exists p|]. by intros (r & -> & ?).
  - rewrite IH. naive_solver.
Qed.

Lemma seg_frame m m' p xs q :
  (forall x, x ∈ xs -> m' x = m x) -> seg m p xs q -> seg m' p xs q.
Proof.
  revert p. induction xs as [|x xs IH]; intros p Hf; simpl; [done|].
  intros [-> Hs]. split; [done|]. rewrite Hf by (apply elem_of_cons; by left).
  apply IH; [|done]. intros y Hy. apply Hf, elem_of_cons. by right.
Qed.

(** Writing the last node's link. *)
Lemma seg_relink m p xs x q r :
  x ∉ xs -> seg m p (xs ++ [x]) q -> seg (<[x := r]> m) p (xs ++ [x]) r.
Proof.
  intros Hx. rewrite !seg_app. intros (a & H1 & -> & _). exists (Some x). split.
  - apply (seg_frame m); [|done]. intros y Hy. unfold insert, fn_insert.
    rewrite decide_False; [done|by intros ->].
  - cbn [seg]. by rewrite fn_lookup_insert.
Qed.

Lemma seg_insert m n v p xs q : n ∉ xs -> seg m p xs q -> seg (<[n := v]> m) p xs q.
Proof.
  intros Hn. apply seg_frame. intros x Hx. unfold insert, fn_insert.
  rewrite decide_False; [done|by intros ->].
Qed.

Lemma slist_nil m : slist m sys_slist_init [].
Proof. by split; [| |constructor]. Qed.

Lemma slist_empty m l xs : slist m l xs -> sys_slist_is_empty l = bool_decide (xs = []).
Proof.
  intros [Hs _ _]. unfold sys_slist_is_empty. destruct xs as [|x xs]; simpl in Hs.
  - by rewrite Hs.
  - destruct Hs as [-> _]. by rewrite !bool_decide_eq_false_2.
Qed.

Lemma last_snoc_inv (xs : list node) t : last xs = Some t -> exists xs', xs = xs' ++ [t].
Proof.
  destruct xs as [|x xs _] using rev_ind; [done|]. rewrite last_snoc. intros [= ->]. eauto.
Qed.

Lemma prepend_ok m l xs n :
  slist m l xs -> n ∉ xs ->
  let '(l', m') := sys_slist_prepend l n m in slist m' l' (n :: xs).
Proof.
  intros [Hs Ht Hn] Hni. unfold sys_slist_prepend. simpl. destruct (tail_ l) eqn:El; simpl.
  - split; simpl; [|rewrite Ht; by destruct xs|by apply NoDup_cons].
    split; [done|]. rewrite fn_lookup_insert. by apply seg_insert.
  - assert (xs = []) as -> by (destruct xs using rev_ind; [done|by rewrite last_snoc in Ht]).
    simpl in Hs. split; simpl; [|done|apply NoDup_singleton].
    split; [done|]. by rewrite fn_lookup_insert.
Qed.

Lemma append_list_ok m l xs ys h t :
  slist m l xs -> ys <> [] -> seg m h ys None -> t = last ys -> NoDup (xs ++ ys) ->
  let '(l', m') := sys_slist_append_list l h t m in slist m' l' (xs ++ ys).
Proof.
  intros [Hs Ht Hn] Hne Hh -> Hnd. unfold sys_slist_append_list. destruct (tail_ l) as [z|] eqn:El.
  - destruct (last_snoc_inv xs z (eq_sym Ht)) as [xs' ->].
    apply NoDup_app in Hnd as (Hn1 & Hd & Hn2).
    apply NoDup_app in Hn1 as (_ & Hz & _).
    assert (z ∉ xs') as Hzx by (intros Hin; by apply (Hz z Hin), list_elem_of_singleton).
    assert (z ∉ ys) as Hzy by (apply Hd, elem_of_app; right; by apply list_elem_of_singleton).
    split; simpl.
    + apply seg_app. exists h. split; [by eapply seg_relink|by apply seg_insert].
    + rewrite last_app. by destruct (last ys) eqn:E; [|apply last_None in E].
    + apply NoDup_app. done.
  - assert (xs = []) as -> by (destruct xs using rev_ind; [done|by rewrite last_snoc in Ht]).
    by split.
Qed.

Lemma append_ok m l xs n :
  slist m l xs -> n ∉ xs ->
  let '(l', m') := sys_slist_append l n m in slist m' l' (xs ++ [n]).
Proof.
  intros Hsl Hni.
  assert (slist (<[n := None]> m) l xs) as Hsl'.
  { destruct Hsl. split; [by apply seg_insert|done|done]. }
  pose proof (append_list_ok (<[n := None]> m) l xs [n] (Some n) (Some n) Hsl') as Hok.
  unfold sys_slist_append_list, sys_slist_append in *.
  assert (NoDup (xs ++ [n])) as Hnd.
  { apply NoDup_app. split_and!; [apply Hsl| |apply NoDup_singleton].
    intros x Hx ->%list_elem_of_singleton. done. }
  destruct (tail_ l); apply Hok; try done; simpl; split; try done; by rewrite fn_lookup_insert.
Qed.

Lemma get_ok m l x xs :
  slist m l (x :: xs) ->
  exists l', sys_slist_get_not_empty l m = Some (x, l') /\ slist m l' xs.
Proof.
  intros [[Eh Hs] Ht Hn]. unfold sys_slist_get_not_empty. rewrite Eh. cbn [mbind option_bind].
  eexists. split; [reflexivity|]. apply NoDup_cons in Hn as [Hx Hn].
  destruct xs as [|y xs].
  - simpl in *. rewrite Ht. rewrite bool_decide_eq_true_2 by done. by split; simpl; rewrite ?Hs.
  - rewrite bool_decide_eq_false_2.
    + split; simpl; [done|by rewrite Ht|done].
    + rewrite Ht. change (last (x :: y :: xs)) with (last (y :: xs)).
      intros E. apply Hx. by apply last_Some_elem_of.
Qed.

Lemma remove_ok m l xs n ys prev :
  slist m l (xs ++ n :: ys) -> prev = last xs ->
  let '(l', m') := sys_slist_remove l prev n m in slist m' l' (xs ++ ys) /\ m' n = None.
Proof.
  intros [Hs Ht Hn] ->. pose proof Hn as Hn'.
  apply NoDup_app in Hn as (Hn1 & Hd & [Hny Hn2]%NoDup_cons).
  assert (n ∉ xs) as Hnx by (intros Hin; by apply (Hd n Hin), elem_of_cons; left).
  assert (NoDup (xs ++ ys)) as Hnd.
  { rewrite <- Permutation_middle in Hn'. by apply NoDup_cons in Hn' as [_ ?]. }
  apply seg_app in Hs as (r & H1 & -> & H2).
  assert (Htl : tail_ l = Some n <-> ys = []).
  { rewrite Ht, last_app. split; [|by intros ->]. destruct ys as [|y ys]; [done|].
    change (last (n :: y :: ys)) with (last (y :: ys)). destruct (last (y :: ys)) eqn:E.
    - intros [= ->]. apply last_Some_elem_of in E. done.
    - by apply last_None in E. }
  assert (Hlast : ys <> [] -> last (xs ++ ys) = tail_ l).
  { intros Hne. rewrite Ht, !last_app. destruct ys as [|y ys]; [done|].
    change (last (n :: y :: ys)) with (last (y :: ys)).
    destruct (last (y :: ys)) eqn:E; [done|]. by apply last_None in E. }
  destruct (last xs) as [p|] eqn:El.
  - destruct (last_snoc_inv xs p El) as [xs' ->].
    apply NoDup_app in Hn1 as (_ & Hp & _).
    assert (p ∉ xs') as Hpx by (intros Hin; by apply (Hp p Hin), list_elem_of_singleton).
    assert (p <> n) as Hpn by (intros ->; apply Hnx, elem_of_app; right; by apply list_elem_of_singleton).
    assert (p ∉ ys) as Hpy.
    { intros Hin. apply (Hd p); [apply elem_of_app; right; by apply list_elem_of_singleton|].
      apply elem_of_cons. by right. }
    unfold sys_slist_remove. case_bool_decide as E; (split;
      [split; simpl; [|..|done]|by rewrite fn_lookup_insert]).
    + apply Htl in E as ->. rewrite app_nil_r. apply seg_insert; [done|].
      simpl in H2. rewrite H2. by eapply seg_relink.
    + apply Htl in E as ->. by rewrite app_nil_r, last_snoc.
    + apply seg_app. exists (m n). split; apply seg_insert; try done; [by eapply seg_relink|].
      by apply seg_insert.
    + symmetry. apply Hlast. intros Hy. by apply E, Htl.
  - assert (xs = []) as -> by by apply last_None. simpl in *.
    unfold sys_slist_remove. simpl. case_bool_decide as E; (split;
      [split; simpl; [|..|done]|by rewrite fn_lookup_insert]).
    + apply Htl in E as ->. simpl in *. by rewrite H2.
    + apply Htl in E as ->. simpl in *. by rewrite H2.
    + by apply seg_insert.
    + symmetry. apply Hlast. intros Hy. by apply E, Htl.
Qed.

(** [prev] is the node to insert behind, or null for the front of the list. *)
Lemma insert_ok m l xs n ys :
  slist m l (xs ++ ys) -> n ∉ xs ++ ys ->
  let '(l', m') := sys_slist_insert l (last xs) n m in slist m' l' (xs ++ n :: ys).
Proof.
  intros Hsl Hni. destruct xs as [|p xs _] using rev_ind; [by apply prepend_ok|].
  rewrite last_snoc. unfold sys_slist_insert. pose proof Hsl as [Hs Ht Hn]. rewrite <- app_assoc in *. cbn [app] in *.
  apply seg_app in Hs as (a & H1 & -> & H2). destruct ys as [|y ys]; cbn [seg] in H2; [rewrite H2|destruct H2 as [Ep H2]; rewrite Ep].
  { pose proof (append_ok m l _ n Hsl) as Ha. destruct (sys_slist_append l n m) as [l' m']. rewrite <- app_assoc in Ha.
    by apply Ha. }
  assert (seg m (Some y) (y :: ys) None) as Hy by (by split).
  assert (n <> p /\ n ∉ xs /\ n ∉ y :: ys /\ p ∉ xs /\ p ∉ y :: ys) as (Np & Nx & Ny & Px & Py).
  { apply NoDup_app in Hn as (_ & Hd & [Hp _]%NoDup_cons). clear -Hni Hd Hp. set_solver. }
  split; cbn [head_ tail_].
  - apply seg_app. exists (Some p). split; [by apply seg_insert, seg_insert|].
    pose proof (seg_insert _ p (Some n) _ _ _ Py (seg_insert _ n (Some y) _ _ _ Ny Hy)) as Hy2. cbn [seg] in *.
    rewrite fn_lookup_insert, fn_lookup_insert_ne, fn_lookup_insert by done. split_and!; try done. apply Hy2.
  - rewrite Ht, !last_app. done.
  - apply NoDup_app. apply NoDup_app in Hn as (Hn1 & Hd & [Hp Hn2]%NoDup_cons). split_and!; [done| |].
    + clear -Hd Nx. set_solver.
    + apply NoDup_cons. split; [clear -Hp Np; set_solver|]. by apply NoDup_cons.
Qed.

Lemma find_loop_ok m l n ys : forall xs fuel,
  slist m l (xs ++ ys) -> n ∉ xs -> (length ys <= fuel)%nat ->
  exists l' m', find_loop fuel l (last xs) (match ys with [] => None | y :: _ => Some y end) n m
                = Some (l', m') /\ slist m' l' (remove_node n (xs ++ ys)).
Proof.
  induction ys as [|y ys IH]; intros xs fuel Hsl Hni Hf.
  - exists l, m. split; [by destruct fuel|]. rewrite app_nil_r in *. by rewrite remove_node_not_in.
  - destruct fuel as [|fuel]; [simpl in Hf; lia|]. simpl. destruct (decide (y = n)) as [->|Hne].
    + pose proof (remove_ok m l xs n ys (last xs) Hsl eq_refl) as Hr.
      destruct (sys_slist_remove l (last xs) n m) as [l' m']. destruct Hr as [Hr _].
      exists l', m'. split; [done|]. pose proof (sl_nodup _ _ _ Hsl) as Hnd.
      apply NoDup_app in Hnd as (_ & _ & [? _]%NoDup_cons). by rewrite remove_node_mid.
    + destruct (IH (xs ++ [y]) fuel) as (l' & m' & E & Hr).
      * by rewrite <- app_assoc.
      * rewrite elem_of_app, list_elem_of_singleton. naive_solver.
      * simpl in Hf. lia.
      * exists l', m'. rewrite last_snoc in E. rewrite <- app_assoc in Hr. split; [|done].
        rewrite <- E. f_equal. destruct Hsl as [Hs _ _]. apply seg_app in Hs as (r & _ & -> & Hs).
        destruct ys as [|z ys]; simpl in Hs; [done|by destruct Hs].
Qed.
End Refinement.

(** C13: the pointer code of [sys_slist_prepend], [_append], [_append_list], [_insert],
    [_get], [_remove] and [_find_and_remove] implements the corresponding
    operations on sequences: the list in memory afterwards is the sequence
    prepended, appended, concatenated, with the node behind the given one (at the
    front for a null pointer), without its first element or without the node;
    taking from an empty list returns null, and the search loop of
    [sys_slist_find_and_remove] ends within as many steps as there are nodes. *)
Theorem sys_slist_refines_sequences m l xs :
  slist m l xs ->
  (forall n, n ∉ xs ->
     (let '(l', m') := sys_slist_prepend l n m in slist m' l' (n :: xs)) /\
     (let '(l', m') := sys_slist_append l n m in slist m' l' (xs ++ [n]))) /\
  (forall h ys, ys <> [] -> seg m h ys None -> NoDup (xs ++ ys) ->
     let '(l', m') := sys_slist_append_list l h (last ys) m in slist m' l' (xs ++ ys)) /\
  (forall ys zs n, xs = ys ++ zs -> n ∉ xs ->
     let '(l', m') := sys_slist_insert l (last ys) n m in slist m' l' (ys ++ n :: zs)) /\
  (forall ys zs n, xs = ys ++ n :: zs ->
     let '(l', m') := sys_slist_remove l (last ys) n m in slist m' l' (ys ++ zs)) /\
  (exists l', sys_slist_get l m = Some (head xs, l') /\ slist m l' (tail xs)) /\
  (forall n, exists l' m', sys_slist_find_and_remove (length xs) l n m = Some (l', m') /\
     slist m' l' (remove_node n xs)).
Proof.
  intros Hsl. split_and!.
  - intros n Hn. split; [by apply prepend_ok|by apply append_ok].
  - intros h ys Hne Hs Hnd. by apply append_list_ok.
  - intros ys zs n -> Hn. by apply insert_ok.
  - intros ys zs n ->. pose proof (remove_ok m l ys n zs (last ys) Hsl eq_refl) as Hr.
    destruct (sys_slist_remove l (last ys) n m). apply Hr.
  - unfold sys_slist_get. rewrite (slist_empty m l xs Hsl). destruct xs as [|x xs].
    + rewrite bool_decide_eq_true_2 by done. by exists l.
    + rewrite bool_decide_eq_false_2 by done.
      destruct (get_ok m l x xs Hsl) as (l' & -> & ?). by exists l'.
  - intros n. destruct (find_loop_ok m l n xs [] (length xs)) as (l' & m' & E & ?); [done|set_solver|done|].
    exists l', m'. split; [|done]. unfold sys_slist_find_and_remove. simpl in E. rewrite <- E. f_equal.
    destruct Hsl as [Hs _ _]. destruct xs; simpl in Hs; [done|by destruct Hs].
Qed.

Lemma sys_slist_refines_sequences_witness :
  exists l', sys_slist_get (mk_slist (Some 1%positive) (Some 2%positive))
    (<[1%positive := Some 2%positive]> (fun _ => None)) = Some (Some 1%positive, l').
Proof.
  destruct (sys_slist_refines_sequences (<[1%positive := Some 2%positive]> (fun _ => None))
    (mk_slist (Some 1%positive) (Some 2%positive)) [1%positive; 2%positive])
    as (_ & _ & _ & _ & (l' & E & _) & _).
  - split; [vm_compute; auto|reflexivity|]. apply NoDup_ListNoDup.
    repeat constructor; simpl; intuition discriminate.
  - exists l'. exact E.
Defined.

(** [sys_slist_merge_slist] empties the list it should have extended (it
    calls [sys_slist_init] on [list], not on [list_to_append]): whatever the two
    lists are, the first is empty afterwards and the second still has its
    nodes' pointers. *)
Theorem merge_slist_loses_list l list_to_append m :
  let '(l', a', _) := sys_slist_merge_slist l list_to_append m in
  sys_slist_is_empty l' = true /\ a' = list_to_append.
Proof. unfold sys_slist_merge_slist. by destruct (sys_slist_append_list _ _ _ _). Qed.
End SList.
