(* ===== verification/Atomic.v ===== *)
(** * Atomic services (kernel/unified/atomic_c.c and include/atomic.h)

    Every operation runs with interrupts locked, so it is a function on memory:
    [m a] is the [atomic_t] (a 32-bit [int]) at word address [a]. An array of
    them is a bitmap; the bit operations change one bit of it. *)
From S2P Require Import Prelude.

Section Operations.
Implicit Types (m : Z -> Z) (target value bit : Z).

(** Each operation returns the old value and the new memory. *)
Definition atomic_cas target (old_value new_value : Z) m : Z * (Z -> Z) :=
  if m target =? old_value then (1, <[target := new_value]> m) else (0, m).
Definition atomic_add target value m : Z * (Z -> Z) :=
  (m target, <[target := i32 (m target + value)]> m).
Definition atomic_sub target value m : Z * (Z -> Z) :=
  (m target, <[target := i32 (m target - value)]> m).
Definition atomic_inc target m : Z * (Z -> Z) := (m target, <[target := i32 (m target + 1)]> m).
Definition atomic_dec target m : Z * (Z -> Z) := (m target, <[target := i32 (m target - 1)]> m).
Definition atomic_get target m : Z := m target.
Definition atomic_set target value m : Z * (Z -> Z) := (m target, <[target := value]> m).
Definition atomic_clear target m : Z * (Z -> Z) := (m target, <[target := 0]> m).
Definition atomic_or target value m : Z * (Z -> Z) :=
  (m target, <[target := Z.lor (m target) value]> m).
Definition atomic_xor target value m : Z * (Z -> Z) :=
  (m target, <[target := Z.lxor (m target) value]> m).
Definition atomic_and target value m : Z * (Z -> Z) :=
  (m target, <[target := Z.land (m target) value]> m).
Definition atomic_nand target value m : Z * (Z -> Z) :=
  (m target, <[target := Z.lnot (Z.land (m target) value)]> m).

Definition ATOMIC_BITS : Z := 32.
Definition ATOMIC_MASK bit : Z := i32 (Z.shiftl 1 (Z.land bit (ATOMIC_BITS - 1))).
Definition ATOMIC_ELEM (addr : Z) bit : Z := addr + bit / ATOMIC_BITS.

Definition atomic_test_bit target bit m : Z :=
  let val := atomic_get (ATOMIC_ELEM target bit) m in
  Z.land 1 (Z.shiftr val (Z.land bit (ATOMIC_BITS - 1))).
Definition atomic_test_and_clear_bit target bit m : bool * (Z -> Z) :=
  let mask := ATOMIC_MASK bit in
  let '(old, m) := atomic_and (ATOMIC_ELEM target bit) (Z.lnot mask) m in
  (negb (Z.land old mask =? 0), m).
Definition atomic_test_and_set_bit target bit m : bool * (Z -> Z) :=
  let mask := ATOMIC_MASK bit in
  let '(old, m) := atomic_or (ATOMIC_ELEM target bit) mask m in
  (negb (Z.land old mask =? 0), m).
Definition atomic_clear_bit target bit m : Z -> Z :=
  snd (atomic_and (ATOMIC_ELEM target bit) (Z.lnot (ATOMIC_MASK bit)) m).
Definition atomic_set_bit target bit m : Z -> Z :=
  snd (atomic_or (ATOMIC_ELEM target bit) (ATOMIC_MASK bit) m).
End Operations.

(** ** The bitmap *)
Section Bitmap.
Implicit Types (m : Z -> Z) (target bit : Z).

(** Every cell holds an [int]. *)
Definition ints m : Prop := forall a, INT32_MIN <= m a <= INT32_MAX.

(** Bit [i] of the array at [target]. *)
Definition bits target m (i : Z) : bool := Z.testbit (m (target + i / 32)) (i `mod` 32).

Lemma land_31 bit : Z.land bit (ATOMIC_BITS - 1) = bit `mod` 32.
Proof. change (ATOMIC_BITS - 1) with (Z.ones 5). by rewrite Z.land_ones by lia. Qed.

Lemma i32_testbit z i : 0 <= i < 32 -> Z.testbit (i32 z) i = Z.testbit z i.
Proof.
  intros Hi. rewrite <- (Z.mod_pow2_bits_low (i32 z) 32 i) by lia.
  rewrite <- (Z.mod_pow2_bits_low z 32 i) by lia. f_equal.
  unfold wrap_s. rewrite Zminus_mod_idemp_l. f_equal. lia.
Qed.

Lemma mask_testbit bit i :
  0 <= i < 32 -> Z.testbit (ATOMIC_MASK bit) i = bool_decide (i = bit `mod` 32).
Proof.
  intros Hi. unfold ATOMIC_MASK. rewrite i32_testbit by done. rewrite land_31.
  pose proof (Z.mod_pos_bound bit 32 ltac:(lia)). rewrite Z.shiftl_1_l.
  rewrite Z.pow2_bits_eqb by lia. destruct (Z.eqb_spec (bit `mod` 32) i); case_bool_decide; lia || done.
Qed.

(** A 32-bit value is zero when its 32 bits are. *)
Lemma int_zero_bits z :
  INT32_MIN <= z <= INT32_MAX -> (forall i, 0 <= i < 32 -> Z.testbit z i = false) -> z = 0.
Proof.
  intros Hz Hb. assert (z `mod` 2 ^ 32 = 0) as H0.
  { apply Z.bits_inj'. intros i Hi. rewrite Z.bits_0. destruct (decide (i < 32)).
    - rewrite Z.mod_pow2_bits_low by lia. by apply Hb.
    - apply Z.mod_pow2_bits_high. lia. }
  apply Z.mod_divide in H0; [|done]. destruct H0 as [q ->].
  unfold INT32_MIN, INT32_MAX in Hz. nia.
Qed.

(** The sign-extended range in terms of bits, and what keeps it. *)
Lemma int_iff_sign z :
  INT32_MIN <= z <= INT32_MAX <-> (forall i, 31 <= i -> Z.testbit z i = Z.testbit z 31).
Proof.
  split.
  - intros Hz i Hi. destruct (decide (0 <= z)).
    + rewrite !Z.bits_above_log2; try done.
      * destruct (decide (z = 0)) as [->|]; [simpl; lia|]. apply Z.log2_lt_pow2; [lia|]. unfold INT32_MAX in Hz. lia.
      * destruct (decide (z = 0)) as [->|]; [simpl; lia|]. apply Z.log2_lt_pow2; [lia|].
        unfold INT32_MAX in Hz. pose proof (Z.pow_le_mono_r 2 31 i). lia.
    + assert (Z.pred (- z) < 2 ^ 31) by (unfold INT32_MIN in Hz; lia).
      assert (Hl : Z.log2 (Z.pred (- z)) < 31).
      { destruct (decide (Z.pred (- z) = 0)) as [->|]; [simpl; lia|]. apply Z.log2_lt_pow2; lia. }
      rewrite !Z.bits_above_log2_neg by lia. done.
  - intros Hb. rewrite (Z.div_mod z (2 ^ 31)) by done.
    assert (Z.shiftr z 31 = 0 \/ Z.shiftr z 31 = -1) as Hs.
    { destruct (Z.testbit z 31) eqn:E.
      - right. apply Z.bits_inj'. intros i Hi. rewrite Z.shiftr_spec, Z.bits_m1 by lia. apply Hb. lia.
      - left. apply Z.bits_inj'. intros i Hi. rewrite Z.shiftr_spec, Z.bits_0 by lia. apply Hb. lia. }
    rewrite Z.shiftr_div_pow2 in Hs by lia. pose proof (Z.mod_pos_bound z (2 ^ 31) ltac:(lia)).
    unfold INT32_MIN, INT32_MAX. destruct Hs as [-> | ->]; lia.
Qed.

Lemma int_or x y :
  INT32_MIN <= x <= INT32_MAX -> INT32_MIN <= y <= INT32_MAX -> INT32_MIN <= Z.lor x y <= INT32_MAX.
Proof.
  rewrite !int_iff_sign. intros Hx Hy i Hi. by rewrite !Z.lor_spec, Hx, Hy.
Qed.

Lemma int_and x y :
  INT32_MIN <= x <= INT32_MAX -> INT32_MIN <= y <= INT32_MAX -> INT32_MIN <= Z.land x y <= INT32_MAX.
Proof.
  rewrite !int_iff_sign. intros Hx Hy i Hi. by rewrite !Z.land_spec, Hx, Hy.
Qed.

Lemma int_not x : INT32_MIN <= x <= INT32_MAX -> INT32_MIN <= Z.lnot x <= INT32_MAX.
Proof. unfold Z.lnot, INT32_MIN, INT32_MAX. lia. Qed.

Lemma mask_int bit : INT32_MIN <= ATOMIC_MASK bit <= INT32_MAX.
Proof. apply i32_range. Qed.

Lemma ints_insert m a v : ints m -> INT32_MIN <= v <= INT32_MAX -> ints (<[a := v]> m).
Proof. intros Hm Hv b. unfold insert, fn_insert. by case_decide. Qed.

(** Changing the word of [bit] at the position of [bit] only. *)
Lemma bits_insert target m bit v b :
  0 <= bit ->
  (forall i, 0 <= i < 32 ->
     Z.testbit v i = if bool_decide (i = bit `mod` 32) then b else Z.testbit (m (target + bit / 32)) i) ->
  forall j, 0 <= j ->
    bits target (<[target + bit / 32 := v]> m) j = if decide (j = bit) then b else bits target m j.
Proof.
  intros Hb Hv j Hj. unfold bits.
  pose proof (Z.mod_pos_bound j 32 ltac:(lia)). pose proof (Z.mod_pos_bound bit 32 ltac:(lia)).
  pose proof (Z.div_mod j 32 ltac:(lia)). pose proof (Z.div_mod bit 32 ltac:(lia)).
  destruct (decide (j / 32 = bit / 32)) as [E|Hne].
  - rewrite E, fn_lookup_insert, Hv by lia. case_bool_decide; case_decide; done || lia.
  - rewrite fn_lookup_insert_ne by lia. rewrite decide_False; [done|]. intros ->. done.
Qed.

Lemma mask_tests target bit m :
  ints m -> 0 <= bit ->
  negb (Z.land (m (target + bit / 32)) (ATOMIC_MASK bit) =? 0) = bits target m bit.
Proof.
  intros Hm Hb. unfold bits. set (v := m _). pose proof (Z.mod_pos_bound bit 32 ltac:(lia)) as Hr.
  destruct (Z.testbit v (bit `mod` 32)) eqn:E.
  - apply negb_true_iff, Z.eqb_neq. intros H0.
    assert (Z.testbit (Z.land v (ATOMIC_MASK bit)) (bit `mod` 32) = true) as Hc.
    { rewrite Z.land_spec, E, mask_testbit by done. by rewrite bool_decide_eq_true_2. }
    rewrite H0, Z.bits_0 in Hc. done.
  - apply negb_false_iff, Z.eqb_eq, int_zero_bits; [apply int_and; [apply Hm|apply mask_int]|].
    intros i Hi. rewrite Z.land_spec, mask_testbit by done. case_bool_decide as Ei; [subst; by rewrite E|].
    apply andb_false_r.
Qed.
End Bitmap.

Lemma atomic_bitmap target bit m :
  ints m -> 0 <= bit ->
  atomic_test_bit target bit m = Z.b2z (bits target m bit) /\
  (let '(old, m') := atomic_test_and_set_bit target bit m in
   old = bits target m bit /\ m' = atomic_set_bit target bit m /\ ints m' /\
   (forall j, 0 <= j -> bits target m' j = if decide (j = bit) then true else bits target m j)) /\
  (let '(old, m') := atomic_test_and_clear_bit target bit m in
   old = bits target m bit /\ m' = atomic_clear_bit target bit m /\ ints m' /\
   (forall j, 0 <= j -> bits target m' j = if decide (j = bit) then false else bits target m j)).
Proof.
  intros Hm Hb. pose proof (Z.mod_pos_bound bit 32 ltac:(lia)) as Hr. split_and!.
  - unfold atomic_test_bit, atomic_get, ATOMIC_ELEM, bits. rewrite land_31. change ATOMIC_BITS with 32.
    rewrite Z.land_comm. change 1 with (Z.ones 1). rewrite Z.land_ones by lia.
    change (2 ^ 1) with 2. rewrite <- Z.bit0_mod, Z.shiftr_spec by lia. done.
  - unfold atomic_test_and_set_bit, atomic_set_bit, atomic_or, ATOMIC_ELEM. change ATOMIC_BITS with 32.
    split_and!; [by apply mask_tests|done| |].
    + apply ints_insert; [done|]. apply int_or; [apply Hm|apply mask_int].
    + apply bits_insert; [done|]. intros i Hi. rewrite Z.lor_spec, mask_testbit by done.
      case_bool_decide; [apply orb_true_r|apply orb_false_r].
  - unfold atomic_test_and_clear_bit, atomic_clear_bit, atomic_and, ATOMIC_ELEM. change ATOMIC_BITS with 32.
    split_and!; [by apply mask_tests|done| |].
    + apply ints_insert; [done|]. apply int_and; [apply Hm|apply int_not, mask_int].
    + apply bits_insert; [done|]. intros i Hi. rewrite Z.land_spec, Z.lnot_spec, mask_testbit by lia.
      case_bool_decide; [apply andb_false_r|apply andb_true_r].
Qed.

(** the bit operations treat an array of [atomic_t] as one bitmap: testing
    reads the bit, setting and clearing change exactly that bit of the whole
    array and (for the test-and variants) return its old value, and every word
    stays a 32-bit integer, bit 31 (the sign) included. *)
Theorem atomic_bitmap_correct target bit m :
  ints m -> 0 <= bit ->
  atomic_test_bit target bit m = Z.b2z (bits target m bit) /\
  (let '(old, m') := atomic_test_and_set_bit target bit m in
   old = bits target m bit /\ m' = atomic_set_bit target bit m /\ ints m' /\
   (forall j, 0 <= j -> bits target m' j = if decide (j = bit) then true else bits target m j)) /\
  (let '(old, m') := atomic_test_and_clear_bit target bit m in
   old = bits target m bit /\ m' = atomic_clear_bit target bit m /\ ints m' /\
   (forall j, 0 <= j -> bits target m' j = if decide (j = bit) then false else bits target m j)).
Proof. apply atomic_bitmap. Qed.

Lemma atomic_bitmap_correct_witness :
  atomic_test_and_set_bit 0 63 (fun _ => 0) = (false, atomic_set_bit 0 63 (fun _ => 0)) /\
  bits 0 (atomic_set_bit 0 63 (fun _ => 0)) 63 = true.
Proof.
  destruct (atomic_bitmap_correct 0 63 (fun _ => 0)) as (_ & (E1 & E2 & _ & Hb) & _).
  - intros a. unfold INT32_MIN, INT32_MAX. lia.
  - lia.
  - split; [reflexivity|]. exact (Hb 63 ltac:(lia)).
Defined.
