(* ===== verification/Kernel.v ===== *)
(** * The kernel's shared state

    [struct _kernel], [struct k_thread] and [struct _timeout]
    (kernel/unified/include/kernel_structs.h, include/kernel.h), the build-time
    configuration, and the small predicates and flag updates of
    kernel/unified/include/ksched.h.

    Every structure lives at an address and every address of a kind holds a
    structure, so memory is a total function from addresses; the intrusive
    lists ([sys_dlist_t]) are the sequences of their nodes, which the file
    DList shows is what the pointer code implements. *)
From S2P Require Import Prelude.

(** ** Configuration (kernel/unified/Kconfig) *)
Class KConfig := {
  CONFIG_NUM_COOP_PRIORITIES : Z;
  CONFIG_NUM_PREEMPT_PRIORITIES : Z;
  CONFIG_PRIORITY_CEILING : Z;
  sys_clock_ticks_per_sec : Z;
  coop_nonneg : 0 <= CONFIG_NUM_COOP_PRIORITIES;
  preempt_nonneg : 0 <= CONFIG_NUM_PREEMPT_PRIORITIES;
  ticks_per_sec_range : 0 < sys_clock_ticks_per_sec <= INT32_MAX;
  ceiling_range :
    - CONFIG_NUM_COOP_PRIORITIES <= CONFIG_PRIORITY_CEILING
      < (if 0 <? CONFIG_NUM_PREEMPT_PRIORITIES then CONFIG_NUM_PREEMPT_PRIORITIES else -1)
}.

(** The defaults of kernel/unified/Kconfig, which the jasontek_f103rb board
    does not override. *)
#[export] Program Instance default_config : KConfig := {|
  CONFIG_NUM_COOP_PRIORITIES := 16;
  CONFIG_NUM_PREEMPT_PRIORITIES := 15;
  CONFIG_PRIORITY_CEILING := 0;
  sys_clock_ticks_per_sec := 100
|}.
Solve Obligations with (vm_compute; intuition discriminate).

Definition MSEC_PER_SEC : Z := 1000.
Definition USEC_PER_SEC : Z := 1000000.
Definition _TICK_ALIGN : Z := 1.
Definition K_NO_WAIT : Z := 0.
Definition K_FOREVER : Z := -1.

(** lib/libc/minimal/include/errno.h *)
Definition EIO : Z := 5.
Definition EAGAIN : Z := 11.
Definition ENOMEM : Z := 12.
Definition EBUSY : Z := 16.
Definition EINVAL : Z := 22.
Definition EMSGSIZE : Z := 36.
Definition EADDRINUSE : Z := 48.
Definition EINPROGRESS : Z := 68.
Definition ENOMSG : Z := 80.

Section Constants.
Context `{KConfig}.
Definition K_NUM_PRIORITIES : Z :=
  CONFIG_NUM_COOP_PRIORITIES + CONFIG_NUM_PREEMPT_PRIORITIES + 1.
Definition K_NUM_PRIO_BITMAPS : Z := Z.shiftr (K_NUM_PRIORITIES + 31) 5.
Definition K_HIGHEST_THREAD_PRIO : Z :=
  if 0 <? CONFIG_NUM_COOP_PRIORITIES then - CONFIG_NUM_COOP_PRIORITIES else 0.
Definition K_LOWEST_THREAD_PRIO : Z :=
  if 0 <? CONFIG_NUM_PREEMPT_PRIORITIES then CONFIG_NUM_PREEMPT_PRIORITIES else -1.
Definition K_IDLE_PRIO : Z := K_LOWEST_THREAD_PRIO.
Definition K_HIGHEST_APPLICATION_THREAD_PRIO : Z := K_HIGHEST_THREAD_PRIO.
Definition K_LOWEST_APPLICATION_THREAD_PRIO : Z := K_LOWEST_THREAD_PRIO - 1.
End Constants.

(** ** Threads and timeouts *)

(** Addresses: of a thread, of a wait queue's header, of a timeout. A timeout
    is a field of the object that owns it, so its address names the owner
    ([CONTAINER_OF] is the pattern match). *)
Definition tid := positive.
Definition wqid := positive.
Inductive toid :=
| TO_thread (t : tid)
| TO_timer (n : positive)
| TO_work (n : positive).
#[export] Instance toid_eq_dec : EqDecision toid.
Proof. solve_decision. Defined.

(** The flag bits of [struct _thread_base]. *)
Definition K_STATIC : Z := Z.shiftl 1 8.
Definition K_ESSENTIAL : Z := Z.shiftl 1 9.
Definition K_PENDING : Z := Z.shiftl 1 13.
Definition K_PRESTART : Z := Z.shiftl 1 14.
Definition K_DEAD : Z := Z.shiftl 1 15.
Definition K_SUSPENDED : Z := Z.shiftl 1 16.
Definition K_DUMMY : Z := Z.shiftl 1 17.

(** [struct k_thread]: the fields of [struct _thread_base] ([k_q_node] is
    membership in the queues of the state below, [timeout] is in [timeouts]),
    the architecture's [swap_return_value], and the abort handler, named by
    the address of its code. *)
Record thread := mk_thread {
  flags : Z;
  prio : Z;
  sched_locked : Z;
  swap_data : Z;
  swap_return_value : Z;
  fn_abort : option positive;
  custom_data : Z
}.

Definition with_flags (f : Z -> Z) (t : thread) : thread :=
  mk_thread (f (flags t)) (prio t) (sched_locked t) (swap_data t)
    (swap_return_value t) (fn_abort t) (custom_data t).
Definition with_prio (p : Z) (t : thread) : thread :=
  mk_thread (flags t) p (sched_locked t) (swap_data t)
    (swap_return_value t) (fn_abort t) (custom_data t).
Definition with_sched_locked (f : Z -> Z) (t : thread) : thread :=
  mk_thread (flags t) (prio t) (f (sched_locked t)) (swap_data t)
    (swap_return_value t) (fn_abort t) (custom_data t).
Definition with_swap_data (d : Z) (t : thread) : thread :=
  mk_thread (flags t) (prio t) (sched_locked t) d
    (swap_return_value t) (fn_abort t) (custom_data t).
Definition with_return_value (v : Z) (t : thread) : thread :=
  mk_thread (flags t) (prio t) (sched_locked t) (swap_data t)
    v (fn_abort t) (custom_data t).
Definition with_fn_abort (f : option positive) (t : thread) : thread :=
  mk_thread (flags t) (prio t) (sched_locked t) (swap_data t)
    (swap_return_value t) f (custom_data t).
Definition with_custom_data (d : Z) (t : thread) : thread :=
  mk_thread (flags t) (prio t) (sched_locked t) (swap_data t)
    (swap_return_value t) (fn_abort t) d.

(** [struct _timeout]; [node] is membership in [timeout_q], and a [func]
    pointer is the address of the callback. *)
Record timeout := mk_timeout {
  to_thread : option tid;
  to_wait_q : option wqid;
  delta_ticks_from_prev : Z;
  to_func : option positive
}.

Definition with_delta (d : Z) (t : timeout) : timeout :=
  mk_timeout (to_thread t) (to_wait_q t) d (to_func t).
Definition with_to_wait_q (w : option wqid) (t : timeout) : timeout :=
  mk_timeout (to_thread t) w (delta_ticks_from_prev t) (to_func t).

(** ** [struct _kernel] and the kernel's global variables

    [in_isr] is what [_is_in_isr()] reads from the processor; [cache],
    [prio_bmap] and [q] are the fields of [struct _ready_q]; the last four are
    the globals of sys_clock.c. *)
Record kernel := mk_kernel {
  in_isr : bool;
  current : tid;
  cache : option tid;
  prio_bmap : list Z;
  q : list (list tid);
  timeout_q : list toid;
  threads : tid -> thread;
  timeouts : toid -> timeout;
  wait_qs : wqid -> list tid;
  tick_count : Z;
  time_slice_elapsed : Z;
  time_slice_duration : Z;
  time_slice_prio_ceiling : Z
}.

Section Setters.
Implicit Type k : kernel.
Definition set_in_isr (b : bool) k : kernel :=
  mk_kernel b (current k) (cache k) (prio_bmap k) (q k) (timeout_q k) (threads k)
    (timeouts k) (wait_qs k) (tick_count k) (time_slice_elapsed k)
    (time_slice_duration k) (time_slice_prio_ceiling k).
Definition set_current (c : tid) k : kernel :=
  mk_kernel (in_isr k) c (cache k) (prio_bmap k) (q k) (timeout_q k) (threads k)
    (timeouts k) (wait_qs k) (tick_count k) (time_slice_elapsed k)
    (time_slice_duration k) (time_slice_prio_ceiling k).
Definition set_cache (c : option tid) k : kernel :=
  mk_kernel (in_isr k) (current k) c (prio_bmap k) (q k) (timeout_q k) (threads k)
    (timeouts k) (wait_qs k) (tick_count k) (time_slice_elapsed k)
    (time_slice_duration k) (time_slice_prio_ceiling k).
Definition set_prio_bmap (b : list Z) k : kernel :=
  mk_kernel (in_isr k) (current k) (cache k) b (q k) (timeout_q k) (threads k)
    (timeouts k) (wait_qs k) (tick_count k) (time_slice_elapsed k)
    (time_slice_duration k) (time_slice_prio_ceiling k).
Definition set_q (l : list (list tid)) k : kernel :=
  mk_kernel (in_isr k) (current k) (cache k) (prio_bmap k) l (timeout_q k) (threads k)
    (timeouts k) (wait_qs k) (tick_count k) (time_slice_elapsed k)
    (time_slice_duration k) (time_slice_prio_ceiling k).
Definition set_timeout_q (l : list toid) k : kernel :=
  mk_kernel (in_isr k) (current k) (cache k) (prio_bmap k) (q k) l (threads k)
    (timeouts k) (wait_qs k) (tick_count k) (time_slice_elapsed k)
    (time_slice_duration k) (time_slice_prio_ceiling k).
Definition set_threads (f : tid -> thread) k : kernel :=
  mk_kernel (in_isr k) (current k) (cache k) (prio_bmap k) (q k) (timeout_q k) f
    (timeouts k) (wait_qs k) (tick_count k) (time_slice_elapsed k)
    (time_slice_duration k) (time_slice_prio_ceiling k).
Definition set_timeouts (f : toid -> timeout) k : kernel :=
  mk_kernel (in_isr k) (current k) (cache k) (prio_bmap k) (q k) (timeout_q k) (threads k)
    f (wait_qs k) (tick_count k) (time_slice_elapsed k)
    (time_slice_duration k) (time_slice_prio_ceiling k).
Definition set_wait_qs (f : wqid -> list tid) k : kernel :=
  mk_kernel (in_isr k) (current k) (cache k) (prio_bmap k) (q k) (timeout_q k) (threads k)
    (timeouts k) f (tick_count k) (time_slice_elapsed k)
    (time_slice_duration k) (time_slice_prio_ceiling k).
Definition set_clock (ticks elapsed duration ceiling : Z) k : kernel :=
  mk_kernel (in_isr k) (current k) (cache k) (prio_bmap k) (q k) (timeout_q k) (threads k)
    (timeouts k) (wait_qs k) ticks elapsed duration ceiling.

(** Assignments through a pointer to one thread, timeout or wait queue. *)
Definition upd_thread (t : tid) (f : thread -> thread) k : kernel :=
  set_threads (alter f t (threads k)) k.
Definition upd_timeout (o : toid) (f : timeout -> timeout) k : kernel :=
  set_timeouts (alter f o (timeouts k)) k.
Definition upd_wait_q (w : wqid) (l : list tid) k : kernel :=
  set_wait_qs (<[w := l]> (wait_qs k)) k.
End Setters.

(** ** Predicates and flag updates of ksched.h *)
Section Ksched.
Context `{KConfig}.
Implicit Type k : kernel.

Definition _is_prio_higher_or_equal (prio1 prio2 : Z) : bool := prio1 <=? prio2.
Definition _is_prio_higher (prio test_prio : Z) : bool := prio <? test_prio.
Definition _is_prio_lower_or_equal (prio1 prio2 : Z) : bool := prio1 >=? prio2.
Definition _is_t1_higher_prio_than_t2 (t1 t2 : thread) : bool :=
  _is_prio_higher (prio t1) (prio t2).
Definition _is_coop (t : thread) : bool := prio t <? 0.
Definition _is_preempt (t : thread) : bool :=
  negb (_is_coop t) && negb (negb (sched_locked t =? 0)).
Definition _is_under_prio_ceiling (prio : Z) : bool := CONFIG_PRIORITY_CEILING <=? prio.
Definition _get_new_prio_with_ceiling (prio : Z) : Z :=
  if _is_under_prio_ceiling prio then prio else CONFIG_PRIORITY_CEILING.

(** [_ASSERT_VALID_PRIO(prio, NULL)]: the entry point is not idle's. *)
Definition _ASSERT_VALID_PRIO (prio : Z) : bool :=
  _is_prio_higher_or_equal prio K_LOWEST_APPLICATION_THREAD_PRIO &&
  _is_prio_lower_or_equal prio K_HIGHEST_APPLICATION_THREAD_PRIO.

Definition _set_thread_states (t : tid) (states : Z) k : kernel :=
  upd_thread t (with_flags (fun f => Z.lor f states)) k.
Definition _reset_thread_states (t : tid) (states : Z) k : kernel :=
  upd_thread t (with_flags (fun f => Z.land f (Z.lnot states))) k.
Definition _mark_thread_as_suspended (t : tid) k : kernel :=
  _set_thread_states t K_SUSPENDED k.
Definition _mark_thread_as_not_suspended (t : tid) k : kernel :=
  _reset_thread_states t K_SUSPENDED k.
Definition _mark_thread_as_pending (t : tid) k : kernel :=
  _set_thread_states t K_PENDING k.
Definition _mark_thread_as_not_pending (t : tid) k : kernel :=
  _reset_thread_states t K_PENDING k.
Definition _mark_thread_as_started (t : tid) k : kernel :=
  _reset_thread_states t K_PRESTART k.
Definition _mark_thread_as_dead (t : tid) k : kernel :=
  _set_thread_states t K_DEAD k.

Definition _is_thread_timeout_active (t : tid) k : bool :=
  negb (delta_ticks_from_prev (timeouts k (TO_thread t)) =? -1).
Definition _has_thread_started (t : tid) k : bool :=
  Z.land (flags (threads k t)) K_PRESTART =? 0.
Definition PREVENTED_FLAGS : Z :=
  Z.lor K_PENDING (Z.lor K_PRESTART (Z.lor K_DEAD (Z.lor K_DUMMY K_SUSPENDED))).
Definition _is_thread_prevented_from_running (t : tid) k : bool :=
  negb (Z.land (flags (threads k t)) PREVENTED_FLAGS =? 0).
Definition _is_thread_ready (t : tid) k : bool :=
  negb (_is_thread_prevented_from_running t k || _is_thread_timeout_active t k).
Definition _is_thread_pending (t : tid) k : bool :=
  negb (Z.land (flags (threads k t)) K_PENDING =? 0).

(** The scheduler lock count is an [atomic_t], an [int]. *)
Definition _sched_lock k : kernel :=
  upd_thread (current k) (with_sched_locked (fun n => i32 (n + 1))) k.
Definition _sched_unlock_no_reschedule k : kernel :=
  upd_thread (current k) (with_sched_locked (fun n => i32 (n - 1))) k.

Definition _set_thread_return_value (t : tid) (value : Z) k : kernel :=
  upd_thread t (with_return_value value) k.
Definition _set_thread_return_value_with_data (t : tid) (value data : Z) k : kernel :=
  upd_thread t (fun th => with_swap_data data (with_return_value value th)) k.
End Ksched.
