(* ===== verification/RingBuf.v ===== *)
(** * Ring buffer (misc/ring_buffer.c and include/misc/ring_buffer.h)

    A circular array of 32-bit words; an item is a header word, which packs a
    type, a length and a small value, followed by its data. [words] is the
    array [buf] points to. *)
From S2P Require Import Prelude Kernel.

Record ring_buf := mk_ring {
  head_ : Z;
  tail_ : Z;
  dropped_put_count : Z;
  size : Z;
  words : Z -> Z;
  mask : Z
}.

Section Operations.
Implicit Types (b : ring_buf).

Definition is_power_of_two (x : Z) : bool := negb (x =? 0) && (Z.land x (u32 (x - 1)) =? 0).

Definition sys_ring_buf_init (sz : Z) (data : Z -> Z) : ring_buf :=
  mk_ring 0 0 0 sz data (if is_power_of_two sz then u32 (sz - 1) else 0).

Definition sys_ring_buf_is_empty b : bool := head_ b =? tail_ b.

Definition sys_ring_buf_space_get b : Z :=
  if sys_ring_buf_is_empty b then i32 (u32 (size b - 1))
  else if tail_ b <? head_ b then i32 (u32 (head_ b - tail_ b - 1))
  else i32 (u32 (size b - tail_ b + head_ b - 1)).

(** [struct ring_element]: the bit fields, allocated from the least significant
    bit on as the ARM ABI has it. *)
Definition header (type length value : Z) : Z :=
  Z.lor (u16 type) (Z.lor (Z.shiftl (u8 length) 16) (Z.shiftl (u8 value) 24)).
Definition header_type (h : Z) : Z := Z.land h (Z.ones 16).
Definition header_length (h : Z) : Z := Z.land (Z.shiftr h 16) (Z.ones 8).
Definition header_value (h : Z) : Z := Z.land (Z.shiftr h 24) (Z.ones 8).

(** [(...) & buf->mask] or [(...) % buf->size]. *)
Definition ring_index b (i : Z) : Z :=
  if negb (mask b =? 0) then Z.land (u32 i) (mask b) else u32 i `mod` size b.

(** The copying loop of [sys_ring_buf_put]. *)
Fixpoint put_loop b (i : Z) (data : list Z) (m : Z -> Z) : Z -> Z :=
  match data with
  | [] => m
  | x :: data => put_loop b (i + 1) data (<[ring_index b (i + tail_ b + 1) := x]> m)
  end.

(** [size32] is the length of [data]. *)
Definition sys_ring_buf_put b (type value : Z) (data : list Z) : Z * ring_buf :=
  let size32 := u8 (Z.of_nat (length data)) in
  if size32 + 1 <=? u32 (sys_ring_buf_space_get b) then
    let m := <[tail_ b := header type size32 value]> (words b) in
    let m := put_loop b 0 data m in
    (0, mk_ring (head_ b) (ring_index b (tail_ b + size32 + 1)) (dropped_put_count b) (size b) m (mask b))
  else
    (- EMSGSIZE,
     mk_ring (head_ b) (tail_ b) (u32 (dropped_put_count b + 1)) (size b) (words b) (mask b)).

(** The copying loop of [sys_ring_buf_get]; [n] words are left. *)
Fixpoint get_loop b (i : Z) (n : nat) : list Z :=
  match n with
  | O => []
  | S n => words b (ring_index b (i + head_ b + 1)) :: get_loop b (i + 1) n
  end.

(** The return value, the new value of [*size32], and what else is written
    through the pointers on success: type, value and data. *)
Definition sys_ring_buf_get b (size32 : Z) : Z * Z * option (Z * Z * list Z) * ring_buf :=
  if sys_ring_buf_is_empty b then (- EAGAIN, size32, None, b)
  else
    let h := words b (head_ b) in
    if size32 <? header_length h then (- EMSGSIZE, header_length h, None, b)
    else
      let data := get_loop b 0 (Z.to_nat (header_length h)) in
      (0, header_length h, Some (header_type h, header_value h, data),
       mk_ring (ring_index b (head_ b + header_length h + 1)) (tail_ b) (dropped_put_count b)
         (size b) (words b) (mask b)).
End Operations.

(** ** Words at consecutive positions of a circle *)
Section Circle.
Context (sz : Z) (Hsz : 0 < sz).
Implicit Types (m : Z -> Z) (p : Z) (l : list Z).

Definition read_circle m p (n : nat) : list Z :=
  (fun i => m ((p + Z.of_nat i) `mod` sz)) <$> seq 0 n.

Fixpoint write_circle m p l : Z -> Z :=
  match l with [] => m | x :: l => write_circle (<[p `mod` sz := x]> m) (p + 1) l end.

Lemma read_circle_app m p n1 n2 :
  read_circle m p (n1 + n2) = read_circle m p n1 ++ read_circle m (p + Z.of_nat n1) n2.
Proof.
  unfold read_circle. rewrite seq_app, fmap_app. f_equal.
  replace (seq (0 + n1) n2) with (Nat.add n1 <$> seq 0 n2)
    by (rewrite fmap_add_seq; f_equal; lia).
  rewrite <- list_fmap_compose. apply list_fmap_ext. intros _ i _. cbn. f_equal. f_equal. lia.
Qed.

Lemma read_circle_S m p n : read_circle m p (S n) = m (p `mod` sz) :: read_circle m (p + 1) n.
Proof.
  change (S n) with (1 + n)%nat. rewrite read_circle_app. cbn. by rewrite Z.add_0_r.
Qed.

Lemma circle_inj p i j : 0 <= i < sz -> 0 <= j < sz -> (p + i) `mod` sz = (p + j) `mod` sz -> i = j.
Proof.
  intros Hi Hj E. assert ((i - j) `mod` sz = 0) as H0.
  { replace (i - j) with ((p + i) - (p + j)) by lia. rewrite Zminus_mod, E, Z.sub_diag. by apply Z.mod_0_l; lia. }
  apply Z.mod_divide in H0; [|lia]. destruct H0 as [q Hq].
  assert (q = 0) as -> by nia. lia.
Qed.

Lemma read_circle_insert m p n q x :
  (forall i, (i < n)%nat -> (p + Z.of_nat i) `mod` sz <> q) ->
  read_circle (<[q := x]> m) p n = read_circle m p n.
Proof.
  intros Hne. apply list_fmap_ext. intros j i Hi. apply lookup_seq in Hi as [-> Hi].
  rewrite fn_lookup_insert_ne; [done|]. intros E. by apply (Hne (0 + j)%nat ltac:(lia)).
Qed.

(** Writing behind what is read leaves it alone. *)
Lemma read_write_before m p n l d :
  0 <= d -> Z.of_nat n <= d -> d + Z.of_nat (length l) <= sz ->
  read_circle (write_circle m (p + d) l) p n = read_circle m p n.
Proof.
  revert m d. induction l as [|x l IH]; intros m d Hd Hn Hl; [done|]. cbn [write_circle length] in *.
  rewrite <- Z.add_assoc. rewrite IH by lia. apply read_circle_insert.
  intros i Hi E. apply circle_inj in E; lia.
Qed.

(** What is written is what is read back. *)
Lemma read_write_same m p l :
  Z.of_nat (length l) <= sz -> read_circle (write_circle m p l) p (length l) = l.
Proof.
  revert m p. induction l as [|x l IH]; intros m p Hl; [done|]. cbn [write_circle length] in *.
  rewrite read_circle_S. f_equal; [|apply IH; lia].
  pose proof (read_write_before (<[p `mod` sz := x]> m) p 1 l 1 ltac:(lia) ltac:(lia) ltac:(lia)) as E.
  cbn in E. rewrite Z.add_0_r in E. injection E as ->. apply fn_lookup_insert.
Qed.
End Circle.

(** ** Items *)
Section Items.
(** A type, a value and the data words. *)
Definition item : Type := Z * Z * list Z.
Definition item_ok (it : item) : Prop :=
  let '(type, value, data) := it in
  0 <= type < 2 ^ 16 /\ 0 <= value < 2 ^ 8 /\ Z.of_nat (length data) < 2 ^ 8.
Definition encode (it : item) : list Z :=
  let '(type, value, data) := it in header type (Z.of_nat (length data)) value :: data.

Lemma small_bits a n i : 0 <= a < 2 ^ n -> 0 <= n <= i -> Z.testbit a i = false.
Proof.
  intros Ha Hi. rewrite <- (Z.mod_small a (2 ^ n)) by done. apply Z.mod_pow2_bits_high. lia.
Qed.

Lemma header_bits type len value i :
  0 <= type < 2 ^ 16 -> 0 <= len < 2 ^ 8 -> 0 <= value < 2 ^ 8 -> 0 <= i ->
  Z.testbit (header type len value) i =
    if decide (i < 16) then Z.testbit type i
    else if decide (i < 24) then Z.testbit len (i - 16) else Z.testbit value (i - 24).
Proof.
  intros Ht Hl Hv Hi. unfold header, wrap_u. rewrite !Z.mod_small by done. rewrite !Z.lor_spec.
  destruct (decide (i < 16)).
  - by rewrite !Z.shiftl_spec_low, !orb_false_r by lia.
  - rewrite (small_bits type 16 i) by lia. rewrite Z.shiftl_spec by lia. cbn [orb].
    destruct (decide (i < 24)).
    + by rewrite Z.shiftl_spec_low, orb_false_r by lia.
    + rewrite (small_bits len 8 (i - 16)) by lia. by rewrite Z.shiftl_spec by lia.
Qed.

Lemma header_fields type len value :
  0 <= type < 2 ^ 16 -> 0 <= len < 2 ^ 8 -> 0 <= value < 2 ^ 8 ->
  let h := header type len value in
  header_type h = type /\ header_length h = len /\ header_value h = value.
Proof.
  intros Ht Hl Hv. cbn zeta. unfold header_type, header_length, header_value.
  split_and!; apply Z.bits_inj'; intros i Hi; rewrite Z.land_spec, ?Z.shiftr_spec by lia;
    rewrite header_bits by (done || lia).
  - destruct (decide (i < 16)).
    + by rewrite Z.ones_spec_low, andb_true_r by lia.
    + rewrite Z.ones_spec_high, andb_false_r by lia. symmetry. apply (small_bits _ 16); lia.
  - rewrite decide_False by lia. destruct (decide (i + 16 < 24)).
    + rewrite Z.ones_spec_low, andb_true_r by lia. f_equal. lia.
    + rewrite Z.ones_spec_high, andb_false_r by lia. symmetry. apply (small_bits _ 8); lia.
  - rewrite !decide_False by lia. destruct (decide (i < 8)).
    + rewrite Z.ones_spec_low, andb_true_r by lia. f_equal. lia.
    + rewrite Z.ones_spec_high, andb_false_r by lia. symmetry. apply (small_bits _ 8); lia.
Qed.
End Items.

(** ** The ring *)
Section Ring.
Implicit Types (b : ring_buf) (items : list item).

(** How many words are stored. *)
Definition used b : nat := Z.to_nat ((tail_ b - head_ b) `mod` size b).

Record ring_wf b : Prop := {
  rb_size : 0 < size b <= 2 ^ 30;
  rb_head : 0 <= head_ b < size b;
  rb_tail : 0 <= tail_ b < size b;
  rb_mask : mask b = 0 \/ exists p, 0 <= p /\ size b = 2 ^ p /\ mask b = Z.ones p
}.

Record ring_holds b items : Prop := {
  rh_wf : ring_wf b;
  rh_items : Forall item_ok items;
  rh_words : read_circle (size b) (words b) (head_ b) (used b) = concat (encode <$> items)
}.

Lemma ring_index_mod b i : ring_wf b -> 0 <= i <= UINT32_MAX -> ring_index b i = i `mod` size b.
Proof.
  intros [_ _ _ Hm] Hi. unfold ring_index. rewrite u32_small by done.
  destruct Hm as [->|(p & Hp & -> & ->)]; [done|].
  destruct (Z.eqb_spec (Z.ones p) 0) as [_|_]; cbn [negb]; [done|by rewrite Z.land_ones].
Qed.

Lemma used_bound b : ring_wf b -> (Z.of_nat (used b) < size b).
Proof.
  intros [Hs _ _ _]. unfold used. pose proof (Z.mod_pos_bound (tail_ b - head_ b) (size b)). lia.
Qed.

Lemma used_cases b :
  ring_wf b -> Z.of_nat (used b) = if head_ b <=? tail_ b then tail_ b - head_ b else tail_ b - head_ b + size b.
Proof.
  intros [Hs Hh Ht _]. unfold used. destruct (Z.leb_spec (head_ b) (tail_ b)).
  - rewrite Z.mod_small by lia. lia.
  - rewrite <- (Z_mod_plus_full _ 1), Z.mul_1_l, Z.mod_small by lia. lia.
Qed.

Lemma space_spec b : ring_wf b -> sys_ring_buf_space_get b = size b - 1 - Z.of_nat (used b).
Proof.
  intros Hwf. rewrite (used_cases b Hwf). destruct Hwf as [Hs Hh Ht _].
  unfold sys_ring_buf_space_get, sys_ring_buf_is_empty.
  assert (Hsm : forall z, 0 <= z < 2 ^ 30 -> i32 (u32 z) = z).
  { intros z Hz. rewrite u32_small by (unfold UINT32_MAX; lia). apply i32_small. unfold INT32_MIN, INT32_MAX. lia. }
  destruct (Z.eqb_spec (head_ b) (tail_ b)); [rewrite Hsm by lia; case_match; lia|].
  destruct (Z.ltb_spec (tail_ b) (head_ b)), (Z.leb_spec (head_ b) (tail_ b)); try lia; rewrite Hsm by lia; lia.
Qed.

Lemma tail_circle b : ring_wf b -> tail_ b = (head_ b + Z.of_nat (used b)) `mod` size b.
Proof.
  intros [Hs Hh Ht _]. unfold used. pose proof (Z.mod_pos_bound (tail_ b - head_ b) (size b) ltac:(lia)).
  rewrite Z2Nat.id by lia. rewrite Zplus_mod_idemp_r. replace (head_ b + (tail_ b - head_ b)) with (tail_ b) by lia.
  symmetry. by apply Z.mod_small.
Qed.

(** The loops of the code, with positions counted round the circle. *)
Lemma put_loop_circle b data m i :
  ring_wf b -> 0 <= i -> i + Z.of_nat (length data) <= 2 ^ 30 ->
  put_loop b i data m = write_circle (size b) m (tail_ b + 1 + i) data.
Proof.
  intros Hwf. revert m i. induction data as [|x data IH]; intros m i Hi Hl; [done|].
  cbn [put_loop write_circle length] in *. rewrite ring_index_mod; [|done|].
  - rewrite IH by lia. f_equal; [|lia]. do 2 f_equal. lia.
  - destruct Hwf. unfold UINT32_MAX. lia.
Qed.

Lemma write_circle_mod sz m p q l : 0 < sz -> p `mod` sz = q `mod` sz -> write_circle sz m p l = write_circle sz m q l.
Proof.
  intros Hs. revert m p q. induction l as [|x l IH]; intros m p q E; [done|]. cbn. rewrite E. apply IH.
  rewrite <- (Zplus_mod_idemp_l p), E, Zplus_mod_idemp_l. done.
Qed.

Lemma get_loop_circle b n i :
  ring_wf b -> 0 <= i -> i + Z.of_nat n <= 2 ^ 30 ->
  get_loop b i n = read_circle (size b) (words b) (head_ b + 1 + i) n.
Proof.
  intros Hwf. revert i. induction n as [|n IH]; intros i Hi Hl; [done|].
  rewrite read_circle_S. cbn [get_loop]. rewrite ring_index_mod; [|done|].
  - rewrite IH by lia. f_equal; [|f_equal; lia]. do 2 f_equal. lia.
  - destruct Hwf. unfold UINT32_MAX. lia.
Qed.
End Ring.

Section Behaviour.
Implicit Types (b : ring_buf) (items : list item).

Lemma power_of_two_spec x :
  0 < x <= 2 ^ 30 -> is_power_of_two x = true -> x = 2 ^ Z.log2 x.
Proof.
  intros Hx. unfold is_power_of_two. rewrite u32_small by (unfold UINT32_MAX; lia).
  rewrite andb_true_iff, Z.eqb_eq. intros [_ Hl].
  pose proof (Z.log2_spec x ltac:(lia)) as [Hlo Hhi]. pose proof (Z.log2_nonneg x) as Hn.
  destruct (decide (x = 2 ^ Z.log2 x)) as [|Hne]; [done|]. exfalso.
  assert (Z.log2 (x - 1) = Z.log2 x) as E by (apply Z.log2_unique; lia).
  assert (Z.testbit (Z.land x (x - 1)) (Z.log2 x) = true) as Hb.
  { rewrite Z.land_spec, Z.bit_log2 by lia. rewrite <- E at 1. apply Z.bit_log2. lia. }
  by rewrite Hl, Z.bits_0 in Hb.
Qed.

Lemma init_wf sz data : 0 < sz <= 2 ^ 30 -> ring_wf (sys_ring_buf_init sz data).
Proof.
  intros Hs. split; cbn; try lia. destruct (is_power_of_two sz) eqn:E; [|by left]. right.
  exists (Z.log2 sz). pose proof (power_of_two_spec sz Hs E) as Ep. split_and!; [apply Z.log2_nonneg|done|].
  rewrite Z.ones_equiv, <- Ep. rewrite u32_small by (unfold UINT32_MAX; lia). lia.
Qed.

Lemma init_holds sz data : 0 < sz <= 2 ^ 30 -> ring_holds (sys_ring_buf_init sz data) [].
Proof.
  intros Hs. split; [by apply init_wf|done|]. unfold used. cbn. by rewrite Z.mod_0_l by lia.
Qed.

(** Moving the tail [n] words on, and the head. *)
Lemma used_put b m t n d :
  ring_wf b -> Z.of_nat (used b) + Z.of_nat n < size b -> t = (tail_ b + Z.of_nat n) `mod` size b ->
  used (mk_ring (head_ b) t d (size b) m (mask b)) = (used b + n)%nat.
Proof.
  intros Hwf Hn ->. pose proof Hwf as [Hs _ _ _]. unfold used at 1. cbn.
  rewrite Zminus_mod_idemp_l. rewrite (tail_circle b Hwf) at 1.
  replace ((head_ b + Z.of_nat (used b)) `mod` size b + Z.of_nat n - head_ b)
    with ((head_ b + Z.of_nat (used b)) `mod` size b + (Z.of_nat n - head_ b)) by lia.
  rewrite Zplus_mod_idemp_l. rewrite Z.mod_small by lia. lia.
Qed.

Lemma used_get b m h n d :
  ring_wf b -> (n <= used b)%nat -> h = (head_ b + Z.of_nat n) `mod` size b ->
  used (mk_ring h (tail_ b) d (size b) m (mask b)) = (used b - n)%nat.
Proof.
  intros Hwf Hn ->. pose proof Hwf as [Hs _ _ _]. pose proof (used_bound b Hwf) as Hb.
  unfold used at 1. cbn. rewrite Zminus_mod_idemp_r, (tail_circle b Hwf) at 1.
  rewrite <- (Zminus_mod_idemp_l _ (head_ b + Z.of_nat n)), Z.mod_mod, Zminus_mod_idemp_l by lia.
  rewrite Z.mod_small by lia. lia.
Qed.

Lemma put_holds b items type value data :
  ring_holds b items -> item_ok (type, value, data) ->
  let '(rc, b') := sys_ring_buf_put b type value data in
  if Z.of_nat (length data) + 1 <=? size b - 1 - Z.of_nat (used b)
  then rc = 0 /\ ring_holds b' (items ++ [(type, value, data)]) /\ used b' = (used b + S (length data))%nat /\
       size b' = size b /\ dropped_put_count b' = dropped_put_count b
  else rc = - EMSGSIZE /\ ring_holds b' items /\ used b' = used b /\ size b' = size b /\
       dropped_put_count b' = u32 (dropped_put_count b + 1).
Proof.
  intros [Hwf Hit Hw] Hok. pose proof Hok as (Ht & Hv & Hl). pose proof (used_bound b Hwf) as Hub.
  pose proof Hwf as [Hs Hh Htl Hm]. unfold sys_ring_buf_put.
  assert (u8 (Z.of_nat (length data)) = Z.of_nat (length data)) as ->
    by (unfold wrap_u; apply Z.mod_small; lia).
  rewrite (space_spec b Hwf). rewrite u32_small by (unfold UINT32_MAX; lia).
  destruct (Z.leb_spec (Z.of_nat (length data) + 1) (size b - 1 - Z.of_nat (used b))) as [Hfit|Hfull].
  2: { split_and!; try done. }
  rewrite ring_index_mod by (done || unfold UINT32_MAX; lia).
  rewrite put_loop_circle by (done || lia). rewrite Z.add_0_r.
  set (h := header type (Z.of_nat (length data)) value).
  set (m' := write_circle (size b) _ _ data).
  assert (Em : m' = write_circle (size b) (words b) (head_ b + Z.of_nat (used b)) (h :: data)).
  { unfold m'. cbn [write_circle]. rewrite <- (tail_circle b Hwf). apply write_circle_mod; [lia|].
    rewrite (tail_circle b Hwf) at 1. by rewrite Zplus_mod_idemp_l. }
  assert (Hwf' : ring_wf (mk_ring (head_ b) ((tail_ b + Z.of_nat (length data) + 1) `mod` size b)
                   (dropped_put_count b) (size b) m' (mask b))).
  { split; cbn; try done. apply Z.mod_pos_bound. lia. }
  assert (Hu : used (mk_ring (head_ b) ((tail_ b + Z.of_nat (length data) + 1) `mod` size b)
                 (dropped_put_count b) (size b) m' (mask b)) = (used b + S (length data))%nat).
  { apply used_put; [done|lia|]. f_equal. lia. }
  split_and!; try done. split; [done|by apply Forall_app; split; [|constructor]|].
  rewrite Hu. cbn [size words head_]. rewrite read_circle_app, Em.
  rewrite read_write_before by (cbn [length]; lia). rewrite Hw.
  rewrite fmap_app, concat_app. f_equal. cbn [fmap list_fmap concat encode]. rewrite app_nil_r.
  apply (read_write_same (size b) ltac:(lia) (words b) _ (h :: data)). cbn [length]. lia.
Qed.

Lemma get_holds b items size32 :
  ring_holds b items ->
  match items with
  | [] => sys_ring_buf_get b size32 = (- EAGAIN, size32, None, b)
  | (type, value, data) :: rest =>
      if size32 <? Z.of_nat (length data)
      then sys_ring_buf_get b size32 = (- EMSGSIZE, Z.of_nat (length data), None, b)
      else exists b', sys_ring_buf_get b size32 =
                        (0, Z.of_nat (length data), Some (type, value, data), b') /\ ring_holds b' rest /\
                      dropped_put_count b' = dropped_put_count b
  end.
Proof.
  intros [Hwf Hit Hw]. pose proof (used_bound b Hwf) as Hub. pose proof (used_cases b Hwf) as Huc.
  pose proof Hwf as [Hs Hh Htl Hm]. unfold sys_ring_buf_get, sys_ring_buf_is_empty.
  destruct items as [|[[type value] data] rest].
  - cbn in Hw. assert (used b = 0%nat) as E.
    { apply (f_equal length) in Hw. unfold read_circle in Hw. by rewrite length_fmap, length_seq in Hw. }
    rewrite E in Huc. assert (head_ b = tail_ b) as -> by (case_match; lia). by rewrite Z.eqb_refl.
  - apply Forall_cons in Hit as [Hok Hrest]. pose proof Hok as (Ht & Hv & Hl).
    cbn [fmap list_fmap concat encode] in Hw.
    assert (Hlen : used b = (S (length data) + length (concat (encode <$> rest)))%nat).
    { apply (f_equal length) in Hw. unfold read_circle in Hw. rewrite length_fmap, length_seq in Hw.
      rewrite Hw. cbn [length]. by rewrite length_app. }
    rewrite (proj2 (Z.eqb_neq _ _)) by (case_match; lia).
    rewrite Hlen, read_circle_app in Hw.
    apply app_inj_1 in Hw as [Hw1 Hw2];
      [|unfold read_circle; by rewrite length_fmap, length_seq].
    rewrite read_circle_S in Hw1. injection Hw1 as Eh Ed. rewrite Z.mod_small in Eh by done. rewrite Eh.
    destruct (header_fields type (Z.of_nat (length data)) value) as (-> & -> & ->); [lia..|].
    destruct (size32 <? Z.of_nat (length data)); [done|].
    rewrite Nat2Z.id, get_loop_circle by (done || lia). rewrite Z.add_0_r, Ed.
    rewrite ring_index_mod by (done || unfold UINT32_MAX; lia).
    eexists. split; [reflexivity|]. split; [|done].
    assert (Hu := used_get b (words b) _ (S (length data)) (dropped_put_count b) Hwf ltac:(lia) eq_refl).
    replace (head_ b + Z.of_nat (length data) + 1) with (head_ b + Z.of_nat (S (length data))) by lia.
    split; [split; cbn; try done; apply Z.mod_pos_bound; lia|done|].
    rewrite Hu. cbn [size words head_]. rewrite <- Hw2. replace (used b - S (length data))%nat
      with (length (concat (encode <$> rest))) by lia.
    apply list_fmap_ext. intros _ i _. f_equal. by rewrite Zplus_mod_idemp_l.
Qed.

(** C19: the ring buffer is a queue of items. An initialised one is empty, for
    every size, power of two or not; putting an item that fits appends it and
    returns 0, and one that does not fit leaves the items alone, counts the
    loss and returns -EMSGSIZE; getting returns the oldest item as it was put,
    wrapped around the end of the array or not, or says that there is none
    (-EAGAIN) or that the caller's array is too small (-EMSGSIZE), changing
    nothing. *)
Theorem ring_buf_refines_queue b items sz mem type value data size32 :
  ring_holds b items -> item_ok (type, value, data) -> 0 < sz <= 2 ^ 30 ->
  ring_holds (sys_ring_buf_init sz mem) [] /\
  (let '(rc, b') := sys_ring_buf_put b type value data in
   if Z.of_nat (length data) + 1 <=? size b - 1 - Z.of_nat (used b)
   then rc = 0 /\ ring_holds b' (items ++ [(type, value, data)])
   else rc = - EMSGSIZE /\ ring_holds b' items /\
        dropped_put_count b' = u32 (dropped_put_count b + 1)) /\
  match items with
  | [] => sys_ring_buf_get b size32 = (- EAGAIN, size32, None, b)
  | (type, value, data) :: rest =>
      if size32 <? Z.of_nat (length data)
      then sys_ring_buf_get b size32 = (- EMSGSIZE, Z.of_nat (length data), None, b)
      else exists b', sys_ring_buf_get b size32 =
                        (0, Z.of_nat (length data), Some (type, value, data), b') /\ ring_holds b' rest
  end.
Proof.
  intros Hb Hit Hs. split_and!; [by apply init_holds| |].
  - pose proof (put_holds b items type value data Hb Hit) as Hp.
    destruct (sys_ring_buf_put b type value data). case_match; naive_solver.
  - pose proof (get_holds b items size32 Hb) as Hg. destruct items as [|[[ty v] d] rest]; [done|].
    case_match; [done|]. destruct Hg as (b' & ? & ? & _). by exists b'.
Qed.
End Behaviour.

Lemma ring_buf_refines_queue_witness :
  let b := sys_ring_buf_init 4 (fun _ => 0) in
  ring_holds (snd (sys_ring_buf_put b 7 9 [1; 2])) [(7, 9, [1; 2])].
Proof.
  destruct (ring_buf_refines_queue (sys_ring_buf_init 4 (fun _ => 0)) [] 4 (fun _ => 0) 7 9 [1; 2] 0)
    as (_ & Hp & _).
  - apply init_holds. lia.
  - unfold item_ok. cbn. lia.
  - lia.
  - exact (proj2 Hp).
Defined.
