(* ===== verification/ReadyQ.v ===== *)
(** * The ready queue (kernel/unified/sched.c, kernel/unified/include/ksched.h)

    One FIFO per priority, a bitmap of the non-empty ones and a cache of the
    next thread. Section [Operations] is the code; the abstract scheduler is a
    single sequence of threads, sorted by priority and first-in first-out
    within a priority ([prio_insert]); [rq_wf] relates the two. *)
From Stdlib Require Import Sorted.
From S2P Require Import Prelude Kernel.

Section Operations.
Context `{KConfig}.
Implicit Types (k : kernel) (t : tid).

Definition _get_ready_q_prio_bmap_index (prio : Z) : Z :=
  Z.shiftr (prio + CONFIG_NUM_COOP_PRIORITIES) 5.
Definition _get_ready_q_prio_bit (prio : Z) : Z :=
  i32 (Z.shiftl 1 (Z.land (prio + CONFIG_NUM_COOP_PRIORITIES) 0x1f)).
Definition _get_ready_q_q_index (prio : Z) : Z :=
  prio + CONFIG_NUM_COOP_PRIORITIES.

Definition _set_ready_q_prio_bit (prio : Z) k : kernel :=
  let bmap_index := Z.to_nat (_get_ready_q_prio_bmap_index prio) in
  set_prio_bmap
    (alter (fun bmap => u32 (Z.lor bmap (_get_ready_q_prio_bit prio)))
       bmap_index (prio_bmap k)) k.

Definition _clear_ready_q_prio_bit (prio : Z) k : kernel :=
  let bmap_index := Z.to_nat (_get_ready_q_prio_bmap_index prio) in
  set_prio_bmap
    (alter (fun bmap => u32 (Z.land bmap (Z.lnot (_get_ready_q_prio_bit prio))))
       bmap_index (prio_bmap k)) k.

(** [sys_dlist_append(&_ready_q.q[i], &thread->base.k_q_node)] *)
Definition append_to_q (i : Z) t k : kernel :=
  set_q (alter (fun l => l ++ [t]) (Z.to_nat i) (q k)) k.

(** [sys_dlist_remove(&thread->base.k_q_node)]: the list is implicit, so the
    node leaves whichever ready or wait queue it is on. *)
Definition remove_k_q_node t k : kernel :=
  set_wait_qs (fun w => remove_node t (wait_qs k w))
    (set_q (remove_node t <$> q k) k).

Definition _add_thread_to_ready_q t k : kernel :=
  let p := prio (threads k t) in
  let k := _set_ready_q_prio_bit p k in
  let k := append_to_q (_get_ready_q_q_index p) t k in
  set_cache
    (match cache k with
     | Some c => if _is_prio_higher p (prio (threads k c)) then Some t else Some c
     | None => None
     end) k.

Definition _remove_thread_from_ready_q t k : kernel :=
  let p := prio (threads k t) in
  let k := remove_k_q_node t k in
  let k := if bool_decide (q k !! Z.to_nat (_get_ready_q_q_index p) = Some [])
           then _clear_ready_q_prio_bit p k else k in
  set_cache (if bool_decide (cache k = Some t) then None else cache k) k.

(** [sys_dlist_is_tail] of the thread's own queue, then remove and append. *)
Definition _move_thread_to_end_of_prio_q t k : kernel :=
  let i := _get_ready_q_q_index (prio (threads k t)) in
  if bool_decide (q k !! Z.to_nat i ≫= last = Some t) then k
  else
    let k := append_to_q i t (remove_k_q_node t k) in
    set_cache (if bool_decide (cache k = Some t) then None else cache k) k.

(** [find_lsb_set] is [__builtin_ffs]: one plus the index of the least
    significant set bit, 0 if there is none. *)
Fixpoint ffs_from (n : nat) (i op : Z) : Z :=
  match n with
  | O => 0
  | S n => if Z.testbit op i then i + 1 else ffs_from n (i + 1) op
  end.
Definition find_lsb_set (op : Z) : Z := ffs_from 32 0 op.

(** The [for (;; bitmap++)] search for a non-zero word; running off the array
    is the failed assertion. *)
Fixpoint find_ready_range (bitmap : Z) (bmap : list Z) : option (Z * Z) :=
  match bmap with
  | [] => None
  | b :: bs => if b =? 0 then find_ready_range (bitmap + 1) bs else Some (bitmap, b)
  end.

Definition _get_highest_ready_prio k : option Z :=
  r ← (if K_NUM_PRIORITIES <=? 32
       then b ← prio_bmap k !! 0%nat; Some (0, b)
       else find_ready_range 0 (prio_bmap k));
  let '(bitmap, ready_range) := r : Z * Z in
  let abs_prio := (find_lsb_set ready_range - 1) + Z.shiftl bitmap 5 in
  if abs_prio <? K_NUM_PRIORITIES
  then Some (abs_prio - CONFIG_NUM_COOP_PRIORITIES) else None.

(** [__get_next_ready_thread]: a failed assertion or an index outside
    [_ready_q.q] is [None]. *)
Definition __get_next_ready_thread k : option (tid * kernel) :=
  prio ← _get_highest_ready_prio k;
  let q_index := _get_ready_q_q_index prio in
  if q_index <? 0 then None
  else
    list ← q k !! Z.to_nat q_index;
    thread ← head list;
    Some (thread, set_cache (Some thread) k).

Definition _get_next_ready_thread k : option (tid * kernel) :=
  match cache k with
  | Some c => Some (c, k)
  | None => __get_next_ready_thread k
  end.
End Operations.

(** ** The abstract scheduler *)
Section PrioInsert.
Context (pr : tid -> Z).
Implicit Types (t x : tid) (l A B : list tid).

(** Insert before the first element of strictly lower priority (a numerically
    greater value). *)
Fixpoint prio_insert t l : list tid :=
  match l with
  | [] => [t]
  | x :: l' => if pr t <? pr x then t :: x :: l' else x :: prio_insert t l'
  end.

Definition prio_sorted l : Prop := StronglySorted (fun x y => pr x <= pr y) l.

Lemma prio_insert_split t A B :
  (forall x, x ∈ A -> pr x <= pr t) -> (forall x, x ∈ B -> pr t < pr x) ->
  prio_insert t (A ++ B) = A ++ t :: B.
Proof.
  intros HA HB. induction A as [|a A IH]; simpl.
  - destruct B as [|b B]; simpl; [done|].
    specialize (HB b ltac:(set_solver)). rewrite (proj2 (Z.ltb_lt _ _)) by lia. done.
  - specialize (HA a ltac:(set_solver)) as Ha.
    rewrite (proj2 (Z.ltb_ge _ _)) by lia. f_equal. apply IH. set_solver.
Qed.

Lemma prio_insert_perm t l : prio_insert t l ≡ₚ t :: l.
Proof.
  induction l as [|x l IH]; simpl; [done|].
  destruct (pr t <? pr x); [done|]. rewrite IH. apply Permutation_swap.
Qed.

Lemma elem_of_prio_insert t x l : x ∈ prio_insert t l <-> x = t \/ x ∈ l.
Proof. rewrite prio_insert_perm. set_solver. Qed.

Lemma NoDup_prio_insert t l : t ∉ l -> NoDup l -> NoDup (prio_insert t l).
Proof. intros. rewrite prio_insert_perm. by apply NoDup_cons. Qed.

Lemma prio_insert_sorted t l : prio_sorted l -> prio_sorted (prio_insert t l).
Proof.
  unfold prio_sorted. induction 1 as [|x l Hs IH Hall]; simpl.
  - repeat constructor.
  - destruct (pr t <? pr x) eqn:E; bool_facts.
    + constructor; [by constructor|]. constructor; [lia|].
      eapply Forall_impl; [done|]. simpl. lia.
    + constructor; [done|]. rewrite prio_insert_perm. by constructor.
Qed.
End PrioInsert.

Lemma prio_insert_ext (p1 p2 : tid -> Z) t l :
  (forall x, x = t \/ x ∈ l -> p1 x = p2 x) -> prio_insert p1 t l = prio_insert p2 t l.
Proof.
  intros Hp. induction l as [|x l IH]; simpl; [done|].
  rewrite (Hp t), (Hp x) by set_solver. rewrite IH by set_solver. done.
Qed.

(** ** The bitmap as a set of priorities *)
Section Bitmap.
Implicit Types (bm : list Z) (i j : Z).

Definition bmap_bit bm i : bool := Z.testbit (nth (Z.to_nat (i / 32)) bm 0) (i `mod` 32).

Definition words_ok bm : Prop := Forall (fun b => 0 <= b <= UINT32_MAX) bm.

Lemma nth_alter (f : Z -> Z) n m bm :
  (m < length bm)%nat ->
  nth m (alter f n bm) 0 = if decide (n = m) then f (nth m bm 0) else nth m bm 0.
Proof.
  intros Hm. destruct (lookup_lt_is_Some_2 bm m Hm) as [b Hb].
  rewrite (nth_lookup_Some bm m 0 b Hb). case_decide as E.
  - subst m. apply nth_lookup_Some. by rewrite list_lookup_alter_eq, Hb.
  - apply nth_lookup_Some. by rewrite list_lookup_alter_ne.
Qed.

Lemma words_ok_alter (f : Z -> Z) n bm :
  (forall z, 0 <= f z <= UINT32_MAX) -> words_ok bm -> words_ok (alter f n bm).
Proof. intros Hf Hok. apply Forall_alter; [done|]. intros. apply Hf. Qed.

Definition prio_mask i : Z := i32 (Z.shiftl 1 (Z.land i 0x1f)).

Lemma prio_mask_testbit i m :
  0 <= m < 32 -> Z.testbit (prio_mask i) m = bool_decide (m = i `mod` 32).
Proof.
  intros Hm. unfold prio_mask. rewrite wrap_s_testbit by lia.
  change 31 with (Z.ones 5). rewrite Z.land_ones by lia. change (2 ^ 5) with 32.
  pose proof (Z.mod_pos_bound i 32 ltac:(lia)).
  rewrite Z.shiftl_1_l, Z.pow2_bits_eqb by lia.
  apply eq_true_iff_eq. rewrite Z.eqb_eq, bool_decide_eq_true. split; congruence.
Qed.

Lemma div_mod_eq i j : i / 32 = j / 32 -> i `mod` 32 = j `mod` 32 -> i = j.
Proof. intros. rewrite (Z.div_mod i 32), (Z.div_mod j 32) by lia. lia. Qed.

Lemma word_index_range bm i :
  0 <= i < 32 * Z.of_nat (length bm) -> (Z.to_nat (i / 32) < length bm)%nat.
Proof. intros. pose proof (Z.div_lt_upper_bound i 32 (Z.of_nat (length bm))). lia. Qed.

Lemma bmap_bit_set bm i j :
  0 <= i -> 0 <= j < 32 * Z.of_nat (length bm) ->
  bmap_bit (alter (fun b => u32 (Z.lor b (prio_mask i))) (Z.to_nat (i / 32)) bm) j =
  bool_decide (i = j) || bmap_bit bm j.
Proof.
  intros Hi Hj. unfold bmap_bit.
  pose proof (Z.mod_pos_bound j 32 ltac:(lia)) as Hm.
  rewrite nth_alter by (by apply word_index_range).
  pose proof (Z.div_pos i 32). pose proof (Z.div_pos j 32).
  case_decide as E.
  - rewrite wrap_u_testbit, Z.lor_spec, prio_mask_testbit by lia.
    rewrite orb_comm. f_equal. apply bool_decide_ext. split; [|congruence].
    intros. apply div_mod_eq; [lia|done].
  - rewrite bool_decide_eq_false_2; [done|]. congruence.
Qed.

Lemma bmap_bit_clear bm i j :
  0 <= i -> 0 <= j < 32 * Z.of_nat (length bm) ->
  bmap_bit (alter (fun b => u32 (Z.land b (Z.lnot (prio_mask i)))) (Z.to_nat (i / 32)) bm) j =
  negb (bool_decide (i = j)) && bmap_bit bm j.
Proof.
  intros Hi Hj. unfold bmap_bit.
  pose proof (Z.mod_pos_bound j 32 ltac:(lia)) as Hm.
  rewrite nth_alter by (by apply word_index_range).
  pose proof (Z.div_pos i 32). pose proof (Z.div_pos j 32).
  case_decide as E.
  - rewrite wrap_u_testbit, Z.land_spec, Z.lnot_spec, prio_mask_testbit by lia.
    rewrite andb_comm. f_equal. f_equal. apply bool_decide_ext. split; [|congruence].
    intros. apply div_mod_eq; [lia|done].
  - rewrite bool_decide_eq_false_2; [done|]. congruence.
Qed.

(** [find_lsb_set] finds the first set bit. *)
Lemma ffs_from_spec n i op :
  (forall j, i <= j < i + Z.of_nat n -> Z.testbit op j = false) /\ ffs_from n i op = 0 \/
  (exists m, i <= m < i + Z.of_nat n /\ Z.testbit op m = true /\
     (forall j, i <= j < m -> Z.testbit op j = false) /\ ffs_from n i op = m + 1).
Proof.
  revert i. induction n as [|n IH]; intros i; simpl.
  - left. split; [lia|done].
  - destruct (Z.testbit op i) eqn:E.
    + right. exists i. split_and!; [lia|lia|done|lia|done].
    + destruct (IH (i + 1)) as [[Hz ->]|(m & Hm & Ht & Hz & ->)].
      * left. split; [|done]. intros j Hj.
        destruct (Z.eq_dec j i) as [->|]; [done|]. apply Hz. lia.
      * right. exists m. split_and!; [lia|lia|done| |done]. intros j Hj.
        destruct (Z.eq_dec j i) as [->|]; [done|]. apply Hz. lia.
Qed.

Lemma word_zero b :
  0 <= b <= UINT32_MAX -> (forall j, 0 <= j < 32 -> Z.testbit b j = false) -> b = 0.
Proof.
  intros Hb Hz. apply Z.bits_inj'. intros n Hn. rewrite Z.bits_0.
  destruct (Z_lt_le_dec n 32); [by apply Hz|].
  rewrite <- (u32_small b Hb). by apply wrap_u_testbit_high.
Qed.

Lemma find_lsb_set_spec b :
  0 <= b <= UINT32_MAX -> b <> 0 ->
  exists m, 0 <= m < 32 /\ find_lsb_set b = m + 1 /\ Z.testbit b m = true /\
    forall j, 0 <= j < m -> Z.testbit b j = false.
Proof.
  intros Hb Hnz. unfold find_lsb_set.
  destruct (ffs_from_spec 32 0 b) as [[Hz _]|(m & ? & ? & ? & ?)]; [|by exists m].
  destruct Hnz. by apply word_zero.
Qed.

Lemma find_ready_range_spec bm b0 m :
  words_ok bm -> 0 <= m < 32 * Z.of_nat (length bm) -> bmap_bit bm m = true ->
  (forall j, 0 <= j < m -> bmap_bit bm j = false) ->
  exists w, find_ready_range b0 bm = Some (b0 + m / 32, w) /\
            nth (Z.to_nat (m / 32)) bm 0 = w.
Proof.
  intros Hok. revert b0 m. induction Hok as [|b bm Hb Hok IH]; intros b0 m Hm Ht Hz; simpl in *; [lia|].
  unfold bmap_bit in Ht. pose proof (Z.div_pos m 32).
  destruct (Z.eqb_spec b 0) as [->|Hne].
  - destruct (Z_lt_le_dec m 32) as [Hlt|Hge].
    { rewrite (Z.div_small m 32) in Ht by lia. simpl in Ht. by rewrite Z.bits_0 in Ht. }
    assert (m / 32 = 1 + (m - 32) / 32) as Hd.
    { rewrite <- (Z.div_add_l 1 32) by lia. f_equal. lia. }
    assert (forall j, 0 <= j -> bmap_bit (0 :: bm) (j + 32) = bmap_bit bm j) as Hsh.
    { intros j Hj. unfold bmap_bit.
      rewrite <- (Z.mul_1_l 32) at 1 3. rewrite Z.div_add, Z.mod_add by lia.
      pose proof (Z.div_pos j 32). rewrite Z2Nat.inj_add, Nat.add_1_r by lia. done. }
    destruct (IH (b0 + 1) (m - 32)) as (w & -> & Hw); [lia|..].
    + rewrite <- Hsh by lia. unfold bmap_bit. by rewrite Z.sub_add.
    + intros j Hj. rewrite <- Hsh by lia. apply Hz. lia.
    + exists w. split; [do 2 f_equal; lia|]. rewrite Hd.
      pose proof (Z.div_pos (m - 32) 32). rewrite Z2Nat.inj_add, Nat.add_1_l by lia. done.
  - exists b. destruct (find_lsb_set_spec b Hb Hne) as (n & Hn & _ & Htn & _).
    assert (m / 32 = 0) as ->; [|by rewrite Z.add_0_r].
    destruct (Z_lt_le_dec n m) as [Hlt|Hge]; [|apply Z.div_small; lia].
    specialize (Hz n ltac:(lia)). unfold bmap_bit in Hz.
    rewrite Z.div_small, Z.mod_small in Hz by lia. simpl in Hz. congruence.
Qed.

Lemma word_ok bm n : words_ok bm -> 0 <= nth n bm 0 <= UINT32_MAX.
Proof.
  intros Hok. destruct (nth_lookup_or_length bm n 0) as [Hn|Hn].
  - by eapply Forall_lookup_1 in Hok.
  - rewrite nth_overflow by done. unfold UINT32_MAX. lia.
Qed.

Lemma lowest_bit_search bm i :
  words_ok bm -> 0 <= i < 32 * Z.of_nat (length bm) -> bmap_bit bm i = true ->
  (forall j, 0 <= j < i -> bmap_bit bm j = false) ->
  find_lsb_set (nth (Z.to_nat (i / 32)) bm 0) - 1 + i / 32 * 32 = i.
Proof.
  intros Hok Hi Hset Hclr. unfold bmap_bit in Hset.
  set (w := nth (Z.to_nat (i / 32)) bm 0) in *.
  destruct (find_lsb_set_spec w) as (m & Hm & -> & Htm & Hlow);
    [by apply word_ok|intros E; by rewrite E, Z.bits_0 in Hset|].
  pose proof (Z.mod_pos_bound i 32 ltac:(lia)). pose proof (Z.div_mod i 32 ltac:(lia)).
  destruct (Z.lt_trichotomy m (i `mod` 32)) as [Hlt|[?|Hgt]]; [exfalso|lia|].
  - pose proof (Z.div_pos i 32).
    assert (bmap_bit bm (i / 32 * 32 + m) = false) as Hf by (apply Hclr; lia).
    unfold bmap_bit in Hf.
    rewrite Z.div_add_l, (Z.div_small m 32), Z.add_0_r in Hf by lia.
    rewrite Z.add_comm, Z.mod_add, Z.mod_small in Hf by lia. fold w in Hf. congruence.
  - by rewrite Hlow in Hset by lia.
Qed.
End Bitmap.

(** ** The invariant, and the refinement to a priority-sorted sequence *)
Section ReadyQueue.
Context `{KConfig}.
Implicit Types (k : kernel) (t x : tid) (l : list tid).

(** The threads of the ready queue, in the order the scheduler runs them. *)
Definition ready_list k : list tid := mjoin (q k).
Definition thread_prio k t : Z := prio (threads k t).

Definition valid_prio (p : Z) : Prop :=
  - CONFIG_NUM_COOP_PRIORITIES <= p <= CONFIG_NUM_PREEMPT_PRIORITIES.

Record rq_wf k : Prop := {
  rq_q_len : length (q k) = Z.to_nat K_NUM_PRIORITIES;
  rq_bm_len : length (prio_bmap k) = Z.to_nat K_NUM_PRIO_BITMAPS;
  rq_words : words_ok (prio_bmap k);
  rq_bits i l : q k !! i = Some l ->
    bmap_bit (prio_bmap k) (Z.of_nat i) = negb (bool_decide (l = []));
  rq_high j : K_NUM_PRIORITIES <= j < 32 * K_NUM_PRIO_BITMAPS ->
    bmap_bit (prio_bmap k) j = false;
  rq_prio i l t : q k !! i = Some l -> t ∈ l ->
    thread_prio k t = Z.of_nat i - CONFIG_NUM_COOP_PRIORITIES;
  rq_nodup : NoDup (ready_list k);
  rq_cache t : cache k = Some t -> head (ready_list k) = Some t
}.

Lemma num_prio_pos : 0 < K_NUM_PRIORITIES.
Proof. pose proof coop_nonneg. pose proof preempt_nonneg. unfold K_NUM_PRIORITIES. lia. Qed.

Lemma bitmaps_cover : K_NUM_PRIORITIES <= 32 * K_NUM_PRIO_BITMAPS < K_NUM_PRIORITIES + 32.
Proof.
  unfold K_NUM_PRIO_BITMAPS. rewrite Z.shiftr_div_pow2 by lia. change (2 ^ 5) with 32.
  pose proof (Z.div_mod (K_NUM_PRIORITIES + 31) 32 ltac:(lia)).
  pose proof (Z.mod_pos_bound (K_NUM_PRIORITIES + 31) 32 ltac:(lia)). lia.
Qed.

Lemma valid_prio_index p :
  valid_prio p <-> 0 <= _get_ready_q_q_index p < K_NUM_PRIORITIES.
Proof. unfold valid_prio, _get_ready_q_q_index, K_NUM_PRIORITIES. lia. Qed.

(** A ready thread is on the queue of its priority, which is a valid index. *)
Lemma ready_elem k t :
  rq_wf k -> t ∈ ready_list k ->
  valid_prio (thread_prio k t) /\
  exists l, q k !! Z.to_nat (_get_ready_q_q_index (thread_prio k t)) = Some l /\ t ∈ l.
Proof.
  intros Hwf Ht. unfold ready_list in Ht.
  apply list_elem_of_join in Ht as (l & Htl & [i Hi]%list_elem_of_lookup).
  pose proof (rq_prio k Hwf i l t Hi Htl) as Hp.
  apply lookup_lt_Some in Hi as Hlt. rewrite (rq_q_len k Hwf) in Hlt.
  pose proof num_prio_pos. unfold _get_ready_q_q_index. rewrite Hp.
  replace (Z.to_nat _) with i by lia. split; [|eauto].
  apply valid_prio_index. unfold _get_ready_q_q_index. lia.
Qed.

(** Splitting the ready queue at the queue of a priority. *)
Lemma ready_split k (i : nat) l :
  rq_wf k -> q k !! i = Some l ->
  ready_list k = mjoin (take i (q k)) ++ l ++ mjoin (drop (S i) (q k)) /\
  (forall x, x ∈ mjoin (take i (q k)) ->
     thread_prio k x < Z.of_nat i - CONFIG_NUM_COOP_PRIORITIES) /\
  (forall x, x ∈ mjoin (drop (S i) (q k)) ->
     Z.of_nat i - CONFIG_NUM_COOP_PRIORITIES < thread_prio k x).
Proof.
  intros Hwf Hi. split_and!.
  - unfold ready_list. rewrite <- (take_drop_middle (q k) i l Hi) at 1.
    rewrite join_app. done.
  - intros x (l' & Hx & [j Hj]%list_elem_of_lookup)%list_elem_of_join.
    apply lookup_take_Some in Hj as [Hj ?].
    rewrite (rq_prio k Hwf j l' x) by done. lia.
  - intros x (l' & Hx & [j Hj]%list_elem_of_lookup)%list_elem_of_join.
    rewrite lookup_drop in Hj. rewrite (rq_prio k Hwf (S i + j) l' x) by done. lia.
Qed.

(** *** Adding a thread *)
Lemma join_alter_append (ls : list (list tid)) i l t :
  ls !! i = Some l ->
  mjoin (alter (fun l => l ++ [t]) i ls) =
  (mjoin (take i ls) ++ l) ++ t :: mjoin (drop (S i) ls).
Proof.
  intros Hi. rewrite <- (take_drop_middle (alter _ i ls) i (l ++ [t])).
  - rewrite join_app, take_alter_ge, drop_alter_lt by lia. simpl.
    by rewrite <- !app_assoc.
  - by rewrite list_lookup_alter_eq, Hi.
Qed.

Lemma q_lookup k p :
  rq_wf k -> valid_prio p ->
  exists l, q k !! Z.to_nat (_get_ready_q_q_index p) = Some l.
Proof.
  intros Hwf Hp%valid_prio_index. apply lookup_lt_is_Some.
  rewrite (rq_q_len k Hwf). lia.
Qed.

Lemma add_ready_list k t :
  rq_wf k -> valid_prio (thread_prio k t) ->
  ready_list (_add_thread_to_ready_q t k) =
  prio_insert (thread_prio k) t (ready_list k).
Proof.
  intros Hwf Hv. destruct (q_lookup k _ Hwf Hv) as [l Hl].
  destruct (ready_split k _ l Hwf Hl) as (Heq & Hlo & Hhi).
  apply valid_prio_index in Hv. unfold _get_ready_q_q_index in *.
  change (ready_list (_add_thread_to_ready_q t k)) with
    (mjoin (alter (fun l => l ++ [t])
       (Z.to_nat (thread_prio k t + CONFIG_NUM_COOP_PRIORITIES)) (q k))).
  rewrite (join_alter_append _ _ _ _ Hl), Heq, app_assoc.
  symmetry. apply prio_insert_split.
  - intros x [Hx|Hx]%elem_of_app.
    + specialize (Hlo x Hx). lia.
    + rewrite (rq_prio k Hwf _ _ x Hl Hx). lia.
  - intros x Hx. specialize (Hhi x Hx). lia.
Qed.

(** The updates of the bitmap, in terms of the array index. *)
Lemma set_bit_eq p k :
  prio_bmap (_set_ready_q_prio_bit p k) =
  alter (fun b => u32 (Z.lor b (prio_mask (_get_ready_q_q_index p))))
    (Z.to_nat (_get_ready_q_q_index p / 32)) (prio_bmap k).
Proof.
  unfold _set_ready_q_prio_bit, _get_ready_q_prio_bmap_index. simpl.
  by rewrite Z.shiftr_div_pow2 by lia.
Qed.

Lemma clear_bit_eq p k :
  prio_bmap (_clear_ready_q_prio_bit p k) =
  alter (fun b => u32 (Z.land b (Z.lnot (prio_mask (_get_ready_q_q_index p)))))
    (Z.to_nat (_get_ready_q_q_index p / 32)) (prio_bmap k).
Proof.
  unfold _clear_ready_q_prio_bit, _get_ready_q_prio_bmap_index. simpl.
  by rewrite Z.shiftr_div_pow2 by lia.
Qed.

Lemma bm_len_Z k : rq_wf k -> Z.of_nat (length (prio_bmap k)) = K_NUM_PRIO_BITMAPS.
Proof.
  intros Hwf. rewrite (rq_bm_len k Hwf). pose proof bitmaps_cover. pose proof num_prio_pos. lia.
Qed.

Lemma q_index_bm k i l :
  rq_wf k -> q k !! i = Some l ->
  0 <= Z.of_nat i < K_NUM_PRIORITIES /\
  0 <= Z.of_nat i < 32 * Z.of_nat (length (prio_bmap k)).
Proof.
  intros Hwf Hi%lookup_lt_Some. rewrite (rq_q_len k Hwf) in Hi.
  rewrite (bm_len_Z k Hwf). pose proof bitmaps_cover. lia.
Qed.

Lemma head_prio_insert (pr : tid -> Z) t l c :
  head l = Some c ->
  head (prio_insert pr t l) = Some (if pr t <? pr c then t else c).
Proof. destruct l as [|x l]; [done|]. intros [= ->]. simpl. by destruct (pr t <? pr c). Qed.

Lemma add_q k t :
  q (_add_thread_to_ready_q t k) =
  alter (fun l => l ++ [t]) (Z.to_nat (_get_ready_q_q_index (thread_prio k t))) (q k).
Proof. done. Qed.

Lemma add_prio_bmap k t :
  prio_bmap (_add_thread_to_ready_q t k) =
  prio_bmap (_set_ready_q_prio_bit (thread_prio k t) k).
Proof. done. Qed.

Lemma add_wf k t :
  rq_wf k -> valid_prio (thread_prio k t) -> t ∉ ready_list k ->
  rq_wf (_add_thread_to_ready_q t k).
Proof.
  intros Hwf Hv Hni. pose proof (add_ready_list k t Hwf Hv) as Heq.
  destruct (q_lookup k _ Hwf Hv) as [lt Hlt].
  pose proof (proj1 (valid_prio_index _) Hv) as Hx.
  pose proof (bm_len_Z k Hwf) as Hbl. pose proof bitmaps_cover as Hcov.
  split.
  - rewrite add_q, length_alter. apply (rq_q_len k Hwf).
  - rewrite add_prio_bmap, set_bit_eq, length_alter. apply (rq_bm_len k Hwf).
  - rewrite add_prio_bmap, set_bit_eq.
    apply words_ok_alter; [intros; apply u32_range|apply (rq_words k Hwf)].
  - intros i l. rewrite add_q, add_prio_bmap, set_bit_eq, list_lookup_alter.
    case_decide as E.
    + subst i. rewrite Hlt. intros [= <-]. rewrite Z2Nat.id by lia.
      rewrite bmap_bit_set by lia. rewrite bool_decide_eq_true_2 by done.
      by destruct lt.
    + intros Hl. destruct (q_index_bm k i l Hwf Hl) as [??].
      rewrite bmap_bit_set, bool_decide_eq_false_2 by lia. by apply (rq_bits k Hwf).
  - intros j Hj. rewrite add_prio_bmap, set_bit_eq.
    rewrite bmap_bit_set, bool_decide_eq_false_2 by lia. by apply (rq_high k Hwf).
  - intros i l x. change (thread_prio _ x) with (thread_prio k x).
    rewrite add_q, list_lookup_alter. case_decide as E; [|apply (rq_prio k Hwf)].
    subst i. rewrite Hlt. intros [= <-] [Hin| ->%list_elem_of_singleton]%elem_of_app.
    + by apply (rq_prio k Hwf _ lt).
    + unfold _get_ready_q_q_index in *. lia.
  - rewrite Heq. apply NoDup_prio_insert; [done|apply (rq_nodup k Hwf)].
  - intros c. rewrite Heq. simpl. destruct (cache k) as [c0|] eqn:Ec; [|done].
    pose proof (rq_cache k Hwf c0 Ec) as Hh.
    rewrite (head_prio_insert _ _ _ c0 Hh). unfold _is_prio_higher, thread_prio.
    simpl. by destruct (_ <? _).
Qed.

(** *** Removing a thread *)
Lemma join_remove (ls : list (list tid)) t :
  mjoin (remove_node t <$> ls) = remove_node t (mjoin ls).
Proof.
  induction ls as [|l ls IH]; [done|].
  change (mjoin (l :: ls)) with (l ++ mjoin ls). rewrite remove_node_app, <- IH. done.
Qed.

(** [_remove_thread_from_ready_q] splits on whether it emptied the queue. *)
Ltac case_emptied :=
  unfold _remove_thread_from_ready_q; simpl;
  match goal with
  | |- context [bool_decide (?a = Some [])] => destruct (bool_decide (a = Some []))
  end.

Lemma remove_q k t : q (_remove_thread_from_ready_q t k) = remove_node t <$> q k.
Proof. by case_emptied. Qed.

Lemma remove_ready_list k t :
  ready_list (_remove_thread_from_ready_q t k) = remove_node t (ready_list k).
Proof. unfold ready_list. by rewrite remove_q, join_remove. Qed.

Lemma remove_cache k t :
  cache (_remove_thread_from_ready_q t k) =
  if bool_decide (cache k = Some t) then None else cache k.
Proof. by case_emptied. Qed.

Lemma remove_bmap k t :
  prio_bmap (_remove_thread_from_ready_q t k) =
  if bool_decide (remove_node t <$> q k !! Z.to_nat (_get_ready_q_q_index (thread_prio k t))
                  = Some [])
  then prio_bmap (_clear_ready_q_prio_bit (thread_prio k t) k) else prio_bmap k.
Proof.
  unfold _remove_thread_from_ready_q. simpl. rewrite list_lookup_fmap.
  unfold thread_prio. by destruct (bool_decide _).
Qed.

(** Clearing or not, the bitmap afterwards marks the non-empty queues. *)
Lemma remove_bmap_bit k t j :
  rq_wf k -> t ∈ ready_list k -> 0 <= j < 32 * K_NUM_PRIO_BITMAPS ->
  bmap_bit (prio_bmap (_remove_thread_from_ready_q t k)) j =
  bmap_bit (prio_bmap k) j &&
  negb (bool_decide (remove_node t <$> q k !! Z.to_nat j = Some [] /\
                     j = _get_ready_q_q_index (thread_prio k t))).
Proof.
  intros Hwf Ht Hj. pose proof (bm_len_Z k Hwf).
  destruct (ready_elem k t Hwf Ht) as [Hv%valid_prio_index _].
  rewrite remove_bmap. case_bool_decide as E.
  - rewrite clear_bit_eq, bmap_bit_clear by lia. rewrite andb_comm. f_equal. f_equal.
    apply bool_decide_ext. naive_solver.
  - rewrite bool_decide_eq_false_2; [by rewrite andb_true_r|]. naive_solver.
Qed.

Lemma remove_lengths k t :
  length (prio_bmap (_remove_thread_from_ready_q t k)) = length (prio_bmap k) /\
  (words_ok (prio_bmap k) -> words_ok (prio_bmap (_remove_thread_from_ready_q t k))).
Proof.
  rewrite remove_bmap. case_bool_decide; [|done].
  rewrite clear_bit_eq, length_alter. split; [done|].
  apply words_ok_alter. intros. apply u32_range.
Qed.

Lemma remove_wf k t :
  rq_wf k -> t ∈ ready_list k -> rq_wf (_remove_thread_from_ready_q t k).
Proof.
  intros Hwf Ht. destruct (remove_lengths k t) as [Hlen Hw].
  pose proof bitmaps_cover as Hcov.
  destruct (ready_elem k t Hwf Ht) as [Hv%valid_prio_index (lt & Hlt & Htl)].
  split.
  - rewrite remove_q, length_fmap. apply (rq_q_len k Hwf).
  - rewrite Hlen. apply (rq_bm_len k Hwf).
  - apply Hw, (rq_words k Hwf).
  - intros i l'. rewrite remove_q, list_lookup_fmap. intros (l & Hl & ->)%fmap_Some.
    destruct (q_index_bm k i l Hwf Hl) as [??].
    rewrite remove_bmap_bit by (done || lia).
    rewrite Nat2Z.id, Hl, (rq_bits k Hwf i l Hl).
    simpl. destruct (decide (t ∈ l)) as [Hin|Hni].
    + rewrite (bool_decide_eq_false_2 (l = [])) by (intros ->; set_solver). simpl.
      f_equal. apply bool_decide_ext. split; [naive_solver|]. intros E.
      split; [by rewrite E|]. rewrite (rq_prio k Hwf i l t Hl Hin).
      unfold _get_ready_q_q_index. lia.
    + rewrite remove_node_not_in by done.
      rewrite (bool_decide_eq_false_2 (_ /\ _)); [by rewrite andb_true_r|].
      intros [_ E]. destruct Hni. rewrite <- E, Nat2Z.id, Hl in Hlt. naive_solver.
  - intros j Hj. rewrite remove_bmap_bit by (done || lia).
    by rewrite (rq_high k Hwf).
  - intros i l' x. rewrite remove_q, list_lookup_fmap.
    intros (l & Hl & ->)%fmap_Some [_ Hx]%elem_of_remove_node.
    unfold thread_prio. case_emptied; by apply (rq_prio k Hwf i l x).
  - rewrite remove_ready_list. apply NoDup_remove_node, (rq_nodup k Hwf).
  - intros c. rewrite remove_ready_list, remove_cache. case_bool_decide as E; [done|].
    intros Hc. pose proof (rq_cache k Hwf c Hc) as Hh.
    destruct (ready_list k) as [|x r]; [done|]. simplify_eq/=.
    unfold remove_node. rewrite filter_cons_True by congruence. done.
Qed.

(** *** The sequence is sorted, and its head is what the scheduler runs *)
Lemma join_sorted (pr : tid -> Z) (c : Z) (ls : list (list tid)) :
  (forall i l t, ls !! i = Some l -> t ∈ l -> pr t = Z.of_nat i + c) ->
  prio_sorted pr (mjoin ls).
Proof.
  revert c. induction ls as [|l ls IH]; intros c Hc; [constructor|].
  change (mjoin (l :: ls)) with (l ++ mjoin ls).
  assert (prio_sorted pr (mjoin ls)) as Htail.
  { apply (IH (c + 1)). intros i l' t Hi Ht. rewrite (Hc (S i) l' t) by done. lia. }
  assert (forall t, t ∈ l -> pr t = c) as Hl by (intros; rewrite (Hc 0%nat l t); [lia|done..]).
  assert (forall t, t ∈ mjoin ls -> c <= pr t) as Hge.
  { intros t (l' & Ht & [i Hi]%list_elem_of_lookup)%list_elem_of_join.
    rewrite (Hc (S i) l' t) by done. lia. }
  clear IH Hc. unfold prio_sorted in *. induction l as [|x l IHl]; [done|].
  simpl. constructor; [apply IHl; set_solver|]. apply Forall_forall.
  intros y Hy. rewrite (Hl x) by set_solver.
  apply elem_of_app in Hy as [Hy|Hy]; [rewrite (Hl y) by set_solver; lia|by apply Hge].
Qed.

Lemma ready_list_sorted k : rq_wf k -> prio_sorted (thread_prio k) (ready_list k).
Proof.
  intros Hwf. apply (join_sorted _ (- CONFIG_NUM_COOP_PRIORITIES)).
  intros i l t Hi Ht. rewrite (rq_prio k Hwf i l t) by done. lia.
Qed.

Lemma ready_head_highest k c x :
  rq_wf k -> head (ready_list k) = Some c -> x ∈ ready_list k ->
  thread_prio k c <= thread_prio k x.
Proof.
  intros Hwf Hh Hx. pose proof (ready_list_sorted k Hwf) as Hs.
  destruct (ready_list k) as [|y r]; [done|]. simplify_eq/=.
  apply StronglySorted_inv in Hs as [_ Hall]. apply elem_of_cons in Hx as [->|Hx]; [lia|].
  rewrite Forall_forall in Hall. by apply Hall.
Qed.

(** The bit of the head's priority is the lowest one set. *)
Lemma head_lowest_bit k t :
  rq_wf k -> head (ready_list k) = Some t ->
  let i := _get_ready_q_q_index (thread_prio k t) in
  0 <= i < K_NUM_PRIORITIES /\ bmap_bit (prio_bmap k) i = true /\
  forall j, 0 <= j < i -> bmap_bit (prio_bmap k) j = false.
Proof.
  intros Hwf Hh i. assert (t ∈ ready_list k) as Ht by (destruct (ready_list k); set_solver).
  destruct (ready_elem k t Hwf Ht) as [Hv%valid_prio_index (l & Hl & Htl)]. fold i in Hv, Hl.
  split_and!; [lia|lia|..].
  - rewrite <- (Z2Nat.id i) by lia. rewrite (rq_bits k Hwf _ l Hl).
    rewrite bool_decide_eq_false_2; [done|]. intros ->. set_solver.
  - intros j Hj. destruct (lookup_lt_is_Some_2 (q k) (Z.to_nat j)) as [lj Hlj].
    { rewrite (rq_q_len k Hwf). lia. }
    rewrite <- (Z2Nat.id j) by lia. rewrite (rq_bits k Hwf _ lj Hlj).
    destruct lj as [|x lj]; [done|]. exfalso.
    assert (x ∈ ready_list k) as Hx.
    { apply list_elem_of_join. exists (x :: lj). split; [set_solver|].
      apply list_elem_of_lookup. eauto. }
    pose proof (ready_head_highest k t x Hwf Hh Hx).
    pose proof (rq_prio k Hwf _ _ x Hlj ltac:(set_solver)).
    unfold i, _get_ready_q_q_index in *. lia.
Qed.

Lemma highest_ready_prio k t :
  rq_wf k -> head (ready_list k) = Some t ->
  _get_highest_ready_prio k = Some (thread_prio k t).
Proof.
  intros Hwf Hh. destruct (head_lowest_bit k t Hwf Hh) as (Hv & Hset & Hclr).
  set (i := _get_ready_q_q_index (thread_prio k t)) in *.
  pose proof (bm_len_Z k Hwf) as Hbl. pose proof bitmaps_cover as Hcov.
  destruct (find_ready_range_spec (prio_bmap k) 0 i) as (w & Hr & Hw);
    [apply (rq_words k Hwf)|lia|done|done|].
  assert (r : (if K_NUM_PRIORITIES <=? 32 then b ← prio_bmap k !! 0%nat; Some (0, b)
               else find_ready_range 0 (prio_bmap k)) = Some (i / 32, w)).
  { destruct (Z.leb_spec K_NUM_PRIORITIES 32); [|done].
    rewrite (Z.div_small i 32) in * by lia.
    destruct (prio_bmap k) as [|b bs]; simpl in *; [lia|by subst]. }
  unfold _get_highest_ready_prio. rewrite r. simpl.
  rewrite Z.shiftl_mul_pow2 by lia. change (2 ^ 5) with 32. rewrite <- Hw.
  rewrite (lowest_bit_search (prio_bmap k) i) by (apply (rq_words k Hwf) || done || lia).
  rewrite (proj2 (Z.ltb_lt _ _)) by lia.
  unfold i, _get_ready_q_q_index. f_equal. lia.
Qed.

Lemma next_ready_thread k t :
  rq_wf k -> head (ready_list k) = Some t ->
  exists k', _get_next_ready_thread k = Some (t, k') /\
    (k' = k \/ k' = set_cache (Some t) k) /\ cache k' = Some t.
Proof.
  intros Hwf Hh. unfold _get_next_ready_thread. destruct (cache k) as [c|] eqn:Ec.
  - pose proof (rq_cache k Hwf c Ec). exists k. naive_solver.
  - unfold __get_next_ready_thread. rewrite (highest_ready_prio k t Hwf Hh). simpl.
    assert (t ∈ ready_list k) as Ht by (destruct (ready_list k); set_solver).
    destruct (ready_elem k t Hwf Ht) as [Hv%valid_prio_index (l & Hl & Htl)].
    rewrite (proj2 (Z.ltb_ge _ _)), Hl by lia. simpl.
    assert (head l = Some t) as ->; [|simpl; eauto].
    destruct (ready_split k _ l Hwf Hl) as (Heq & Hlo & _). rewrite Heq in Hh.
    destruct (mjoin (take _ _)) as [|y r]; simpl in *.
    + destruct l; [set_solver|done].
    + simplify_eq. specialize (Hlo t ltac:(set_solver)).
      unfold _get_ready_q_q_index in *. lia.
Qed.

(** The invariant depends on the queue, the bitmap, the cache and the
    priorities of the ready threads only. *)
Lemma rq_wf_ext k k' :
  rq_wf k -> q k' = q k -> prio_bmap k' = prio_bmap k -> cache k' = cache k ->
  (forall t, t ∈ ready_list k -> thread_prio k' t = thread_prio k t) -> rq_wf k'.
Proof.
  intros Hwf Eq Eb Ec Hp. unfold ready_list in *.
  split; unfold ready_list; rewrite ?Eq, ?Eb, ?Ec; try apply Hwf.
  intros i l t Hl Ht. rewrite Hp; [by eapply (rq_prio k Hwf)|].
  apply list_elem_of_join. exists l. split; [done|]. apply list_elem_of_lookup. eauto.
Qed.

(** *** Moving a thread to the end of its priority *)

(** Deleting a thread and inserting it again at its priority puts it after
    every thread of the same priority. *)
Lemma reinsert_split k t i l :
  rq_wf k -> q k !! i = Some l ->
  thread_prio k t = Z.of_nat i - CONFIG_NUM_COOP_PRIORITIES ->
  prio_insert (thread_prio k) t (remove_node t (ready_list k)) =
  (remove_node t (mjoin (take i (q k))) ++ remove_node t l) ++
  t :: remove_node t (mjoin (drop (S i) (q k))).
Proof.
  intros Hwf Hl Hp. destruct (ready_split k i l Hwf Hl) as (-> & Hlo & Hhi).
  rewrite !remove_node_app, app_assoc. apply prio_insert_split.
  - intros x [[_ Hx]%elem_of_remove_node|[_ Hx]%elem_of_remove_node]%elem_of_app.
    + specialize (Hlo x Hx). lia.
    + rewrite (rq_prio k Hwf i l x) by done. lia.
  - intros x [_ Hx]%elem_of_remove_node. specialize (Hhi x Hx). lia.
Qed.

Lemma tail_reinsert k t i l0 :
  rq_wf k -> q k !! i = Some (l0 ++ [t]) ->
  prio_insert (thread_prio k) t (remove_node t (ready_list k)) = ready_list k.
Proof.
  intros Hwf Hl. rewrite (reinsert_split k t i (l0 ++ [t])); [|done|done|].
  - destruct (ready_split k i _ Hwf Hl) as (Heq & _).
    pose proof (rq_nodup k Hwf) as Hnd. rewrite Heq in Hnd.
    rewrite <- app_assoc in Hnd. simpl in Hnd. rewrite app_assoc in Hnd.
    assert (t ∉ mjoin (take i (q k)) ++ l0 /\ t ∉ mjoin (drop (S i) (q k))) as [H1 H2].
    { apply NoDup_app in Hnd as (_ & Hd & [? _]%NoDup_cons). set_solver. }
    rewrite (remove_node_not_in t (mjoin (take i (q k)))) by set_solver.
    rewrite (remove_node_mid t l0 []), (remove_node_not_in _ (mjoin (drop _ _)))
      by set_solver.
    rewrite Heq, app_nil_r, <- !app_assoc. done.
  - apply (rq_prio k Hwf i (l0 ++ [t])); [done|set_solver].
Qed.

Lemma move_ready_list k t :
  rq_wf k -> t ∈ ready_list k ->
  ready_list (_move_thread_to_end_of_prio_q t k) =
  prio_insert (thread_prio k) t (remove_node t (ready_list k)).
Proof.
  intros Hwf Ht. destruct (ready_elem k t Hwf Ht) as [Hv%valid_prio_index (l & Hl & Htl)].
  unfold _move_thread_to_end_of_prio_q. fold (thread_prio k t). rewrite Hl. simpl.
  case_bool_decide as E.
  - apply last_Some in E as [l0 ->]. symmetry. by eapply tail_reinsert.
  - unfold ready_list at 1. simpl.
    rewrite (join_alter_append _ _ (remove_node t l))
      by (by rewrite list_lookup_fmap, Hl).
    rewrite <- fmap_take, <- fmap_drop, !join_remove. symmetry.
    apply reinsert_split; [done|done|]. unfold _get_ready_q_q_index in *. lia.
Qed.

Lemma move_wf k t :
  rq_wf k -> t ∈ ready_list k -> rq_wf (_move_thread_to_end_of_prio_q t k).
Proof.
  intros Hwf Ht. pose proof (move_ready_list k t Hwf Ht) as Heq.
  destruct (ready_elem k t Hwf Ht) as [Hv%valid_prio_index (l & Hl & Htl)].
  unfold _move_thread_to_end_of_prio_q in *. fold (thread_prio k t) in *.
  rewrite Hl in *. simpl in *. case_bool_decide as E; [done|]. split; simpl.
  - rewrite length_alter, length_fmap. apply (rq_q_len k Hwf).
  - apply (rq_bm_len k Hwf).
  - apply (rq_words k Hwf).
  - intros i l'. rewrite list_lookup_alter, !list_lookup_fmap. destruct (decide (Z.to_nat _ = i)) as [Ei|Ei].
    + subst i. rewrite Hl. intros [= <-]. rewrite (rq_bits k Hwf _ l Hl).
      rewrite !bool_decide_eq_false_2; [done| |].
      * intros E'. by destruct (remove_node t l).
      * intros ->. set_solver.
    + intros (li & Hli & ->)%fmap_Some. rewrite (rq_bits k Hwf i li Hli).
      rewrite remove_node_not_in; [done|]. intros Hin. apply Ei.
      rewrite (rq_prio k Hwf i li t Hli Hin). unfold _get_ready_q_q_index. lia.
  - apply (rq_high k Hwf).
  - intros i l' x. rewrite list_lookup_alter, !list_lookup_fmap.
    change (thread_prio _ x) with (thread_prio k x). destruct (decide (Z.to_nat _ = i)) as [Ei|Ei].
    + subst i. rewrite Hl.
      intros [= <-] [[_ Hx]%elem_of_remove_node| ->%list_elem_of_singleton]%elem_of_app;
        by apply (rq_prio k Hwf _ l).
    + intros (li & Hli & ->)%fmap_Some [_ Hx]%elem_of_remove_node.
      by apply (rq_prio k Hwf i li).
  - rewrite Heq. apply NoDup_prio_insert; [rewrite elem_of_remove_node; naive_solver|].
    apply NoDup_remove_node, (rq_nodup k Hwf).
  - intros c. rewrite Heq. simpl. case_bool_decide as Ec; [done|]. intros Hc.
    pose proof (rq_cache k Hwf c Hc) as Hh.
    destruct (ready_list k) as [|x r] eqn:Er; [done|]. simplify_eq/=.
    unfold remove_node. rewrite filter_cons_True by congruence. simpl.
    pose proof (ready_head_highest k c t Hwf ltac:(by rewrite Er)) as Hle.
    rewrite Er in Hle. specialize (Hle Ht).
    rewrite (proj2 (Z.ltb_ge _ _)) by lia. done.
Qed.
End ReadyQueue.
