(* ===== verification/TimeoutQ.v ===== *)
(** * The timeout queue (kernel/unified/include/timeout_q.h)

    A delta queue: each timeout stores its distance, in ticks, from the one
    before it. Section [Operations] is the code; [expiries] reads off the
    absolute expiry of every timeout, and the theorems say what insertion and
    abortion do to that schedule, with 32-bit arithmetic. *)
From S2P Require Import Prelude Kernel.

Section Operations.
Implicit Types (k : kernel) (o : toid) (tm : toid -> timeout).

Definition delta tm o : Z := delta_ticks_from_prev (tm o).

Definition _init_timeout o (func : option positive) k : kernel :=
  upd_timeout o (fun _ => mk_timeout None None (-1) func) k.

(** The callback of [sys_dlist_insert_at]: [o] is the timeout being inserted,
    whose [delta_ticks_from_prev] the [data] pointer designates. *)
Definition _is_timeout_insert_point o (test : toid) tm : bool * (toid -> timeout) :=
  if delta tm test <? delta tm o
  then (false, alter (with_delta (i32 (delta tm o - delta tm test))) o tm)
  else (true, alter (with_delta (i32 (delta tm test - delta tm o))) test tm).

(** [None] is the failed assertion [timeout > 0]. *)
Definition _add_timeout (thread : option tid) o (wait_q : option wqid) (ticks : Z) k
    : option kernel :=
  if 0 <? ticks then
    let k := upd_timeout o
               (fun t => mk_timeout thread wait_q ticks (to_func t)) k in
    let '(l, tm) := insert_at (_is_timeout_insert_point o) o (timeouts k) (timeout_q k) in
    Some (set_timeouts tm (set_timeout_q l k))
  else None.

(** [sys_dlist_peek_next] on the timeout queue. *)
Fixpoint peek_next o (l : list toid) : option toid :=
  match l with
  | [] => None
  | x :: l' => if decide (x = o) then head l' else peek_next o l'
  end.

Definition _abort_timeout o k : Z * kernel :=
  if delta (timeouts k) o =? -1 then (-1, k)
  else
    let k :=
      match peek_next o (timeout_q k) with
      | Some next =>
          upd_timeout next
            (with_delta (i32 (delta (timeouts k) next + delta (timeouts k) o))) k
      | None => k
      end in
    let k := set_timeout_q (remove_node o (timeout_q k)) k in
    (0, upd_timeout o (with_delta (-1)) k).

Definition _abort_thread_timeout (t : tid) k : Z * kernel :=
  _abort_timeout (TO_thread t) k.

Definition _add_thread_timeout (t : tid) (wait_q : option wqid) (ticks : Z) k
    : option kernel :=
  _add_timeout (Some t) (TO_thread t) wait_q ticks k.

Definition _get_next_timeout_expiry k : Z :=
  match head (timeout_q k) with
  | Some o => delta (timeouts k) o
  | None => K_FOREVER
  end.
End Operations.

(** ** The schedule a delta queue denotes *)
Section Schedule.
Implicit Types (o x : toid) (tm : toid -> timeout) (l : list toid).

(** Absolute expiries, counted from [acc] ticks. *)
Fixpoint expiries (acc : Z) tm l : list (toid * Z) :=
  match l with
  | [] => []
  | o :: l' => (o, acc + delta tm o) :: expiries (acc + delta tm o) tm l'
  end.

(** The abstract insertion: before the first timeout that expires no earlier. *)
Fixpoint schedule_insert o (at_ : Z) (s : list (toid * Z)) : list (toid * Z) :=
  match s with
  | [] => [(o, at_)]
  | (x, a) :: s' => if at_ <=? a then (o, at_) :: s else (x, a) :: schedule_insert o at_ s'
  end.

Definition schedule_remove o (s : list (toid * Z)) : list (toid * Z) :=
  filter (fun e => fst e <> o) s.

Lemma delta_alter tm o d x :
  delta (alter (with_delta d) o tm) x = if decide (o = x) then d else delta tm x.
Proof. unfold delta, alter, fn_alter. by destruct (decide (o = x)). Qed.

Lemma expiries_ext acc tm tm' l :
  (forall o, o ∈ l -> delta tm' o = delta tm o) -> expiries acc tm' l = expiries acc tm l.
Proof.
  revert acc. induction l as [|o l IH]; intros acc Hd; simpl; [done|].
  rewrite (Hd o) by set_solver. f_equal. apply IH. set_solver.
Qed.

Definition total acc tm l : Z := foldl (fun a o => a + delta tm o) acc l.

Lemma expiries_app acc tm l1 l2 :
  expiries acc tm (l1 ++ l2) = expiries acc tm l1 ++ expiries (total acc tm l1) tm l2.
Proof. revert acc. induction l1 as [|o l1 IH]; intros acc; simpl; [done|]. by rewrite IH. Qed.

Lemma expiries_fst acc tm l : fst <$> expiries acc tm l = l.
Proof. revert acc. induction l as [|o l IH]; intros acc; simpl; [done|]. by rewrite IH. Qed.

Lemma expiries_elem acc tm l o :
  o ∈ l <-> exists a, (o, a) ∈ expiries acc tm l.
Proof.
  rewrite <- (expiries_fst acc tm l) at 1. rewrite list_elem_of_fmap.
  split; [intros ([? a] & -> & ?); eauto|intros [a ?]; by exists (o, a)].
Qed.

Definition nonneg tm l : Prop := forall o, o ∈ l -> 0 <= delta tm o.
Definition bounded acc tm l : Prop :=
  forall o a, (o, a) ∈ expiries acc tm l -> a <= INT32_MAX.

Lemma bounded_cons acc tm o l :
  bounded acc tm (o :: l) <-> acc + delta tm o <= INT32_MAX /\ bounded (acc + delta tm o) tm l.
Proof.
  unfold bounded. simpl. split.
  - intros Hb. split; [apply (Hb o); set_solver|]. intros. apply (Hb o0). set_solver.
  - intros [H1 H2] x a [E|Hin]%elem_of_cons; [by simplify_eq|by eapply H2].
Qed.

(** *** Insertion *)

(** The walk of [sys_dlist_insert_at], from any point of the queue: [o] still
    has [at_ - acc] ticks to run when the walk has passed [acc] ticks. *)
Lemma insert_walk o l : forall acc at_ tm,
  o ∉ l -> NoDup l -> nonneg tm l -> bounded acc tm l -> 0 <= acc ->
  delta tm o = at_ - acc -> 0 < at_ - acc -> at_ <= INT32_MAX ->
  let '(l', tm') := insert_at (_is_timeout_insert_point o) o tm l in
  expiries acc tm' l' = schedule_insert o at_ (expiries acc tm l) /\
  nonneg tm' l' /\ (forall x, x ∉ l -> x <> o -> tm' x = tm x).
Proof.
  induction l as [|x l IH]; intros acc at_ tm Hni Hnd Hnn Hb Hacc Hd Hpos Hmax; simpl.
  { split_and!; [do 2 f_equal; lia| |done]. intros y ->%list_elem_of_singleton. lia. }
  apply not_elem_of_cons in Hni as [Hne Hni]. apply NoDup_cons in Hnd as [Hxl Hnd].
  assert (0 <= delta tm x) as Hx by (apply Hnn, elem_of_cons; by left).
  assert (nonneg tm l) as Hnn' by (intros y Hy; apply Hnn, elem_of_cons; by right).
  apply bounded_cons in Hb as [Hbx Hb]. unfold _is_timeout_insert_point at 1.
  destruct (Z.ltb_spec (delta tm x) (delta tm o)) as [Hlt|Hge].
  - rewrite i32_small by (unfold INT32_MIN, INT32_MAX in *; lia).
    set (tm1 := alter _ o tm).
    assert (Hsame : forall y, o <> y -> tm1 y = tm y)
      by (intros y Hy; by apply fn_lookup_alter_ne).
    assert (Hdl : forall y, y ∈ l -> delta tm1 y = delta tm y).
    { intros y Hy. unfold delta. rewrite Hsame; [done|]. by intros ->. }
    specialize (IH (acc + delta tm x) at_ tm1). destruct (insert_at _ o tm1 l) as [l' tm'] eqn:Ei.
    destruct IH as (IH1 & IH2 & IH3); [done|done|..|done|].
    + intros y Hy. rewrite Hdl by done. by apply Hnn'.
    + intros y a Hin. eapply Hb. by rewrite <- (expiries_ext _ tm tm1).
    + lia.
    + unfold tm1. rewrite delta_alter, decide_True by done. lia.
    + lia.
    + assert (delta tm' x = delta tm x) as Ex by (unfold delta; rewrite IH3, Hsame; done).
      simpl. rewrite (proj2 (Z.leb_gt at_ _)) by lia. split_and!.
      * rewrite Ex, IH1. f_equal. f_equal. by apply expiries_ext.
      * intros y [->|Hy]%elem_of_cons; [by rewrite Ex|by apply IH2].
      * intros y [? ?]%not_elem_of_cons ?. rewrite IH3, Hsame by done. done.
  - rewrite i32_small by (unfold INT32_MIN, INT32_MAX in *; lia).
    set (tm1 := alter _ x tm).
    assert (Hsame : forall y, x <> y -> tm1 y = tm y)
      by (intros y Hy; by apply fn_lookup_alter_ne).
    assert (delta tm1 x = delta tm x - delta tm o) as Ex
      by (unfold tm1; by rewrite delta_alter, decide_True).
    assert (delta tm1 o = delta tm o) as Eo by (unfold delta; by rewrite Hsame).
    assert (Hdl : forall y, y ∈ l -> delta tm1 y = delta tm y).
    { intros y Hy. unfold delta. rewrite Hsame; [done|]. by intros ->. }
    simpl. rewrite (proj2 (Z.leb_le at_ _)) by lia. split_and!.
    + rewrite Ex, Eo. f_equal; [f_equal; lia|].
      replace (acc + delta tm o + (delta tm x - delta tm o)) with (acc + delta tm x) by lia.
      f_equal. by apply expiries_ext.
    + intros y [->|[->|Hy]%elem_of_cons]%elem_of_cons;
        [rewrite Eo; lia|rewrite Ex; lia|rewrite Hdl by done; by apply Hnn'].
    + intros y [? ?]%not_elem_of_cons ?. by apply Hsame.
Qed.

(** Insertion and abortion change nothing of a timeout but its delta. *)
Definition same_but_delta tm tm' : Prop :=
  forall x, to_thread (tm' x) = to_thread (tm x) /\ to_wait_q (tm' x) = to_wait_q (tm x) /\
            to_func (tm' x) = to_func (tm x).

Lemma alter_delta_same o d tm : same_but_delta tm (alter (with_delta d) o tm).
Proof. intros x. unfold alter, fn_alter. by case_decide; subst. Qed.

Lemma insert_walk_fields o l tm :
  same_but_delta tm (snd (insert_at (_is_timeout_insert_point o) o tm l)).
Proof.
  revert tm. induction l as [|y l IH]; intros tm; simpl; [done|].
  destruct (_is_timeout_insert_point o y tm) as [stop tm1] eqn:Ep.
  assert (same_but_delta tm tm1) as H1.
  { unfold _is_timeout_insert_point in Ep. case_match; simplify_eq; apply alter_delta_same. }
  destruct stop; [done|]. specialize (IH tm1).
  destruct (insert_at _ o tm1 l) as [l' tm2]. simpl in *.
  intros x. destruct (H1 x) as (? & ? & ?), (IH x) as (? & ? & ?). split_and!; congruence.
Qed.

(** *** Abortion *)
Lemma peek_next_split o A B : o ∉ A -> peek_next o (A ++ o :: B) = head B.
Proof.
  induction A as [|a A IH]; simpl; intros Hni; [by rewrite decide_True|].
  apply not_elem_of_cons in Hni as [? ?]. rewrite decide_False by done. auto.
Qed.

Lemma schedule_remove_not_in acc tm o l :
  o ∉ l -> schedule_remove o (expiries acc tm l) = expiries acc tm l.
Proof.
  revert acc. induction l as [|x l IH]; intros acc Hni; [done|].
  apply not_elem_of_cons in Hni as [? ?]. simpl. unfold schedule_remove in *.
  rewrite filter_cons_True by (simpl; congruence). by rewrite IH.
Qed.

(** Adding the aborted timeout's delta to its successor's leaves every other
    expiry where it was. *)
Lemma abort_schedule acc tm tm' o A B :
  NoDup (A ++ o :: B) ->
  (forall x, x ∈ A -> delta tm' x = delta tm x) ->
  (forall x, x ∈ tail B -> delta tm' x = delta tm x) ->
  (forall x, head B = Some x -> delta tm' x = delta tm x + delta tm o) ->
  expiries acc tm' (A ++ B) = schedule_remove o (expiries acc tm (A ++ o :: B)).
Proof.
  intros Hnd HA HB Hh. apply NoDup_app in Hnd as (_ & Hd & [HoB _]%NoDup_cons).
  assert (o ∉ A) as HoA by (intros Hin; by apply (Hd o Hin), elem_of_cons; left).
  rewrite !expiries_app. unfold schedule_remove. rewrite filter_app.
  change (filter _ (expiries acc tm A)) with (schedule_remove o (expiries acc tm A)).
  rewrite schedule_remove_not_in by done. rewrite (expiries_ext acc tm tm') by done. f_equal.
  assert (total acc tm' A = total acc tm A) as ->.
  { unfold total. clear -HA. revert acc. induction A as [|a A IH]; intros acc; simpl; [done|].
    rewrite (HA a) by (by apply elem_of_cons; left). apply IH. intros. apply HA.
    by apply elem_of_cons; right. }
  simpl. rewrite filter_cons_False by (simpl; naive_solver).
  change (filter _ ?e) with (schedule_remove o e). rewrite schedule_remove_not_in by done.
  destruct B as [|x B]; [done|]. simpl. rewrite (Hh x) by done.
  f_equal; [f_equal; lia|].
  replace (total acc tm A + (delta tm x + delta tm o))
    with (total acc tm A + delta tm o + delta tm x) by lia.
  by apply expiries_ext.
Qed.
End Schedule.

(** ** The invariant *)
Section Invariant.
Implicit Types (k : kernel) (o x : toid) (K : toid -> Prop).

Definition schedule k : list (toid * Z) := expiries 0 (timeouts k) (timeout_q k).

(** [K] holds of the timeouts the kernel has initialised; one of them is on the
    queue exactly when its delta is not the sentinel -1. *)
Record tq_wf K k : Prop := {
  tq_nodup : NoDup (timeout_q k);
  tq_nonneg : nonneg (timeouts k) (timeout_q k);
  tq_bound : bounded 0 (timeouts k) (timeout_q k);
  tq_known o : K o -> delta (timeouts k) o <> -1 -> o ∈ timeout_q k
}.

(** Everything but the timeouts is as before. *)
Definition timeouts_only k k' : Prop :=
  k' = set_timeouts (timeouts k') (set_timeout_q (timeout_q k') k).

Lemma timeouts_only_trans k1 k2 k3 :
  timeouts_only k1 k2 -> timeouts_only k2 k3 -> timeouts_only k1 k3.
Proof. unfold timeouts_only. intros E1 E2. rewrite E2, E1. done. Qed.

Lemma schedule_insert_elem o n s x a :
  (x, a) ∈ schedule_insert o n s -> (x, a) = (o, n) \/ (x, a) ∈ s.
Proof.
  induction s as [|[y b] s IH]; simpl.
  - intros ->%list_elem_of_singleton. by left.
  - destruct (n <=? b).
    + intros [->|?]%elem_of_cons; [by left|by right].
    + rewrite !elem_of_cons. intros [->|Hin]; [by right; left|].
      destruct (IH Hin) as [->|?]; [by left|by right; right].
Qed.

(** The function of a timeout is set once, by [_init_timeout]. *)
Lemma add_timeout_func th o w n k k' x :
  _add_timeout th o w n k = Some k' -> to_func (timeouts k' x) = to_func (timeouts k x).
Proof.
  unfold _add_timeout. destruct (0 <? n); [|done]. set (k1 := upd_timeout o _ k).
  pose proof (insert_walk_fields o (timeout_q k1) (timeouts k1)) as Hs.
  destruct (insert_at _ _ _ _) as [l tm]. intros [= <-]. destruct (Hs x) as (_ & _ & E).
  cbn [snd timeouts set_timeouts] in *. rewrite E. unfold k1, upd_timeout. cbn [timeouts set_timeouts].
  unfold alter, fn_alter. by case_decide; subst.
Qed.

Lemma add_timeout_spec K k th o w n :
  tq_wf K k -> o ∉ timeout_q k -> 0 < n <= INT32_MAX ->
  exists k', _add_timeout th o w n k = Some k' /\
    schedule k' = schedule_insert o n (schedule k) /\
    timeout_q k' ≡ₚ o :: timeout_q k /\
    tq_wf (fun x => K x \/ x = o) k' /\ timeouts_only k k' /\
    same_but_delta
      (alter (fun t => mk_timeout th w n (to_func t)) o (timeouts k)) (timeouts k').
Proof.
  intros Hwf Hni Hn. unfold _add_timeout. rewrite (proj2 (Z.ltb_lt _ _)) by lia.
  set (k1 := upd_timeout o _ k). set (tm1 := timeouts k1).
  assert (Hsame : forall x, o <> x -> tm1 x = timeouts k x)
    by (intros; by apply fn_lookup_alter_ne).
  assert (Hdl : forall x, x ∈ timeout_q k -> delta tm1 x = delta (timeouts k) x).
  { intros x Hx. unfold delta. rewrite Hsame; [done|]. by intros ->. }
  pose proof (insert_walk o (timeout_q k) 0 n tm1) as Hw.
  pose proof (insert_walk_fields o (timeout_q k) tm1) as Hf.
  pose proof (insert_at_perm (_is_timeout_insert_point o) o tm1 (timeout_q k)) as Hp.
  change (timeout_q k1) with (timeout_q k).
  destruct (insert_at _ o tm1 (timeout_q k)) as [l' tm'] eqn:Ei. simpl in *.
  destruct Hw as (Hs & Hnn & Hfr); [done|apply Hwf|..|lia| |lia|lia|].
  { intros x Hx. rewrite Hdl by done. by apply Hwf. }
  { intros x a Hin. rewrite (expiries_ext 0 (timeouts k)) in Hin by done. by eapply Hwf. }
  { unfold delta, tm1. simpl. rewrite fn_lookup_alter. simpl. lia. }
  rewrite (expiries_ext 0 (timeouts k) tm1) in Hs by done.
  eexists. split; [reflexivity|]. split_and!; simpl; [done|done| |done|done].
  split; simpl.
  - rewrite Hp. apply NoDup_cons. split; [done|apply Hwf].
  - done.
  - intros x a. rewrite Hs. intros [?|?]%schedule_insert_elem;
      [simplify_eq; lia|by eapply (tq_bound K k Hwf)].
  - intros x Hx Hd. rewrite Hp, elem_of_cons. destruct (decide (x = o)) as [->|Hne]; [by left|].
    right. destruct (decide (x ∈ timeout_q k)) as [?|Hnin]; [done|].
    apply (tq_known K k Hwf); [naive_solver|]. unfold delta in *.
    by rewrite Hfr, Hsame in Hd by done.
Qed.

(** The successor's new delta does not overflow. *)
Lemma succ_delta_bound tm A o x B acc :
  nonneg tm (A ++ o :: x :: B) -> bounded acc tm (A ++ o :: x :: B) -> 0 <= acc ->
  0 <= delta tm x + delta tm o <= INT32_MAX.
Proof.
  revert acc. induction A as [|a A IH]; intros acc Hnn Hb Hacc; simpl in *.
  - apply bounded_cons in Hb as [_ [Hb _]%bounded_cons].
    assert (0 <= delta tm o) by (apply Hnn, elem_of_cons; by left).
    assert (0 <= delta tm x) by (apply Hnn; rewrite !elem_of_cons; auto). lia.
  - apply bounded_cons in Hb as [_ Hb]. eapply (IH (acc + delta tm a)); [|done|].
    + intros y Hy. apply Hnn, elem_of_cons. by right.
    + assert (0 <= delta tm a) by (apply Hnn, elem_of_cons; by left). lia.
Qed.

Lemma abort_timeout_inactive o k :
  delta (timeouts k) o = -1 -> _abort_timeout o k = (-1, k).
Proof. intros E. unfold _abort_timeout. by rewrite E. Qed.

Lemma tq_split K k o A B :
  tq_wf K k -> timeout_q k = A ++ o :: B -> o ∉ A /\ o ∉ B.
Proof.
  intros Hwf El. pose proof (tq_nodup K k Hwf) as Hnd. rewrite El in Hnd.
  apply NoDup_app in Hnd as (_ & Hd & [? _]%NoDup_cons). split; [|done].
  intros Hx. by apply (Hd o Hx), elem_of_cons; left.
Qed.

Lemma abort_effect K k o A B :
  tq_wf K k -> timeout_q k = A ++ o :: B ->
  exists k', _abort_timeout o k = (0, k') /\ timeout_q k' = A ++ B /\
    delta (timeouts k') o = -1 /\
    (forall x, head B = Some x ->
       delta (timeouts k') x = delta (timeouts k) x + delta (timeouts k) o) /\
    (forall x, x <> o -> head B <> Some x -> delta (timeouts k') x = delta (timeouts k) x) /\
    timeouts_only k k' /\ same_but_delta (timeouts k) (timeouts k').
Proof.
  intros Hwf El. destruct (tq_split K k o A B Hwf El) as [HoA HoB].
  pose proof (tq_nonneg K k Hwf) as Hnn. pose proof (tq_bound K k Hwf) as Hb.
  assert (0 <= delta (timeouts k) o) as Ho by (apply Hnn; rewrite El; set_solver).
  unfold _abort_timeout. rewrite (proj2 (Z.eqb_neq _ _)), El, peek_next_split by (lia || done).
  rewrite El in Hnn, Hb. destruct B as [|x B]; simpl.
  - eexists. split; [reflexivity|]. unfold timeouts_only. simpl. rewrite El.
    split_and!; [by apply remove_node_mid|by rewrite delta_alter, decide_True|done| |done|].
    + intros x Hx _. by rewrite delta_alter, decide_False.
    + apply alter_delta_same.
  - assert (x <> o) as Hxo by (intros ->; by apply HoB, elem_of_cons; left).
    pose proof (succ_delta_bound _ _ _ _ _ _ Hnn Hb ltac:(lia)) as Hr.
    rewrite i32_small by (unfold INT32_MIN; lia).
    eexists. split; [reflexivity|]. unfold timeouts_only. simpl. rewrite El.
    split_and!; [by apply remove_node_mid|by rewrite delta_alter, decide_True| | |done|].
    + intros y [= <-]. rewrite delta_alter, decide_False by done.
      by rewrite delta_alter, decide_True.
    + intros y Hy Hy'. rewrite delta_alter, decide_False by done.
      rewrite delta_alter, decide_False; congruence.
    + intros y. destruct (alter_delta_same o (-1)
        (alter (with_delta (delta (timeouts k) x + delta (timeouts k) o)) x (timeouts k)) y)
        as (-> & -> & ->). apply alter_delta_same.
Qed.

Lemma schedule_remove_elem o s x a :
  (x, a) ∈ schedule_remove o s -> x <> o /\ (x, a) ∈ s.
Proof. unfold schedule_remove. by rewrite list_elem_of_filter. Qed.

Lemma abort_timeout_spec K k o :
  tq_wf K k -> o ∈ timeout_q k ->
  exists k', _abort_timeout o k = (0, k') /\
    schedule k' = schedule_remove o (schedule k) /\
    timeout_q k' = remove_node o (timeout_q k) /\ delta (timeouts k') o = -1 /\
    tq_wf K k' /\ timeouts_only k k' /\ same_but_delta (timeouts k) (timeouts k').
Proof.
  intros Hwf (A & B & El)%list_elem_of_split.
  destruct (abort_effect K k o A B Hwf El) as (k' & -> & El' & Ho & Hhd & Hother & ? & ?).
  destruct (tq_split K k o A B Hwf El) as [HoA HoB].
  pose proof (tq_nodup K k Hwf) as Hnd. rewrite El in Hnd.
  assert (NoDup (A ++ B)) as HndAB.
  { rewrite <- Permutation_middle in Hnd. by apply NoDup_cons in Hnd as [_ ?]. }
  assert (schedule k' = schedule_remove o (schedule k)) as Hs.
  { unfold schedule. rewrite El, El'. apply abort_schedule; [done|..|done].
    - intros x Hx. apply Hother; [by intros ->|]. intros Hh. destruct B; [done|].
      simplify_eq/=. apply NoDup_app in HndAB as (_ & Hd & _).
      by apply (Hd x Hx), elem_of_cons; left.
    - intros x Hx. destruct B as [|y B]; simpl in *; [by apply elem_of_nil in Hx|].
      apply Hother; [intros ->; by apply HoB, elem_of_cons; right|]. intros [= ->].
      apply NoDup_app in HndAB as (_ & _ & [? _]%NoDup_cons). done. }
  exists k'. split_and!; try done.
  - rewrite El, El'. by rewrite remove_node_mid.
  - split.
    + by rewrite El'.
    + intros x Hx. rewrite El' in Hx.
      assert (forall y, y = o \/ y ∈ A ++ B -> 0 <= delta (timeouts k) y) as Hnn.
      { intros y Hy. apply (tq_nonneg K k Hwf). rewrite El. set_solver. }
      destruct (decide (head B = Some x)) as [Hh|Hh].
      * rewrite Hhd by done. pose proof (Hnn x ltac:(auto)). pose proof (Hnn o ltac:(auto)). lia.
      * rewrite Hother; [auto| |done]. intros ->. set_solver.
    + intros x a Hin. unfold schedule in Hs. rewrite Hs in Hin.
      apply schedule_remove_elem in Hin as [_ Hin]. by eapply (tq_bound K k Hwf).
    + intros x HK Hd. destruct (decide (x = o)) as [->|Hne]; [done|]. rewrite El'.
      destruct (decide (x ∈ A ++ B)) as [|Hni]; [done|]. exfalso.
      assert (x ∈ timeout_q k) as Hx.
      { apply (tq_known K k Hwf); [done|]. rewrite <- Hother; [done..|].
        intros Hh. apply Hni, elem_of_app. right. destruct B; [done|]. set_solver. }
      rewrite El in Hx. set_solver.
Qed.

Lemma tq_wf_weaken (K K' : toid -> Prop) k :
  tq_wf K k -> (forall o, K' o -> K o) -> tq_wf K' k.
Proof. intros [? ? ? Hk] HK. split; auto. Qed.

(** The invariant reads the queue and the deltas only. *)
Lemma tq_wf_ext K k k' :
  tq_wf K k -> timeout_q k' = timeout_q k -> timeouts k' = timeouts k -> tq_wf K k'.
Proof. intros [????] E1 E2. split; rewrite ?E1, ?E2; done. Qed.

(** An initialised timeout is active exactly when it is on the queue. *)
Lemma active_iff K k o :
  tq_wf K k -> K o -> (delta (timeouts k) o <> -1 <-> o ∈ timeout_q k).
Proof.
  intros Hwf HK. split; [by apply (tq_known K k Hwf)|].
  intros Hin. pose proof (tq_nonneg K k Hwf o Hin). lia.
Qed.
End Invariant.
