(* ===== verification/Sched.v ===== *)
(** * The scheduler (kernel/unified/sched.c, ksched.h, timeout_q.h)

    Pending, readying, context switching and the thread-level services of
    sched.c over the state of [Kernel]; the kernel invariant [kernel_wf] and
    its preservation by each of them. *)
From S2P Require Import Prelude Kernel ReadyQ TimeoutQ.

(** The addresses of the two threads every system has (init.c). *)
Definition _main_thread : tid := 1%positive.
Definition _idle_thread : tid := 2%positive.

Section Operations.
Context `{KConfig}.
Implicit Types (k : kernel) (t : tid) (w : wqid).

(** [ceiling(numerator, divider)], C division truncating towards zero. *)
Definition ceiling (numerator divider : Z) : Z :=
  Z.quot (numerator + (divider - 1)) divider.

Definition _ms_to_ticks (ms : Z) : Z :=
  let ms_ticks_per_sec := i64 (ms * sys_clock_ticks_per_sec) in
  i32 (ceiling ms_ticks_per_sec MSEC_PER_SEC).

(** [__ticks_to_ms] computes on [uint64_t]. *)
Definition __ticks_to_ms (ticks : Z) : Z :=
  i64 (u64 (MSEC_PER_SEC * u64 ticks) / sys_clock_ticks_per_sec).

(** The callback that finds the place of a thread in a wait queue. *)
Definition _is_wait_q_insert_point k (node : tid) (insert_prio : Z) : bool * Z :=
  (_is_prio_higher insert_prio (prio (threads k node)), insert_prio).

(** [None] is a failed assertion of the functions called. *)
Definition _pend_thread t w (timeout : Z) k : option kernel :=
  let '(l, _) := insert_at (_is_wait_q_insert_point k) t (prio (threads k t)) (wait_qs k w) in
  let k := _mark_thread_as_pending t (upd_wait_q w l k) in
  if timeout =? K_FOREVER then Some k
  else _add_thread_timeout t (Some w) (i32 (_TICK_ALIGN + _ms_to_ticks timeout)) k.

Definition _pend_current_thread w (timeout : Z) k : option kernel :=
  let t := current k in
  _pend_thread t w timeout (_remove_thread_from_ready_q t k).

(** [_peek_first_pending_thread], [_unpend_first_thread] *)
Definition _peek_first_pending_thread w k : option tid := head (wait_qs k w).

Definition _unpend_first_thread w k : option tid * kernel :=
  match wait_qs k w with
  | [] => (None, k)
  | t :: _ => (Some t, _mark_thread_as_not_pending t (remove_k_q_node t k))
  end.

(** [None] is the failed assertion that the thread is pending. *)
Definition _unpend_thread t k : option kernel :=
  if _is_thread_pending t k
  then Some (_mark_thread_as_not_pending t (remove_k_q_node t k)) else None.

Definition _ready_thread t k : option kernel :=
  let p := prio (threads k t) in
  if (_is_prio_higher p K_LOWEST_THREAD_PRIO
      || (p =? K_LOWEST_THREAD_PRIO) && bool_decide (t = _idle_thread))
     && negb (_is_prio_higher p K_HIGHEST_THREAD_PRIO)
  then
    let k := _mark_thread_as_started t k in
    Some (if _is_thread_ready t k then _add_thread_to_ready_q t k else k)
  else None.

Definition _thread_priority_set t (p : Z) k : kernel :=
  if _is_thread_ready t k
  then _add_thread_to_ready_q t
         (upd_thread t (with_prio p) (_remove_thread_from_ready_q t k))
  else upd_thread t (with_prio p) k.

(** [_Swap] (arch/arm/core/swap.S): the outgoing thread's return value is
    -EAGAIN until someone sets another, and PendSV makes the next ready thread
    current. The call returns, with that value, when the thread is current
    again. *)
Definition _Swap k : option kernel :=
  let k := _set_thread_return_value (current k) (- EAGAIN) k in
  r ← _get_next_ready_thread k;
  Some (set_current (fst r) (snd r)).

Definition __must_switch_threads k : option bool :=
  p ← _get_highest_ready_prio k;
  Some (_is_prio_higher p (prio (threads k (current k)))).

Definition _must_switch_threads k : option bool :=
  if _is_preempt (threads k (current k)) then __must_switch_threads k else Some false.

(** [!_is_in_isr() && _must_switch_threads()] *)
Definition must_switch_if_not_isr k : option bool :=
  if in_isr k then Some false else _must_switch_threads k.

Definition _reschedule_threads k : option kernel :=
  b ← _must_switch_threads k;
  if (b : bool) then _Swap k else Some k.

Definition k_sched_lock k : option kernel :=
  if in_isr k then None else Some (_sched_lock k).

Definition k_sched_unlock k : option kernel :=
  if (0 <? sched_locked (threads k (current k))) && negb (in_isr k)
  then _reschedule_threads (_sched_unlock_no_reschedule k) else None.

Definition _is_next_thread_current k : option (bool * kernel) :=
  r ← _get_next_ready_thread k;
  Some (bool_decide (fst r = current k), snd r).

Definition k_thread_priority_get t k : Z := prio (threads k t).

Definition k_thread_priority_set t (p : Z) k : option kernel :=
  if _ASSERT_VALID_PRIO p && negb (in_isr k)
  then _reschedule_threads (_thread_priority_set t p k) else None.

Definition k_yield k : option kernel :=
  if in_isr k then None
  else
    let k := _move_thread_to_end_of_prio_q (current k) k in
    r ← _get_next_ready_thread k;
    if decide (current k = fst r) then Some (snd r) else _Swap (snd r).

Definition k_sleep (duration : Z) k : option kernel :=
  if in_isr k || (duration =? K_FOREVER) then None
  else if duration =? 0 then k_yield k
  else
    let ticks := i32 (_TICK_ALIGN + _ms_to_ticks duration) in
    let t := current k in
    k ← _add_thread_timeout t None ticks (_remove_thread_from_ready_q t k);
    _Swap k.

Definition k_wakeup t k : option kernel :=
  if _is_thread_pending t k then Some k
  else
    let '(r, k) := _abort_thread_timeout t k in
    if r <? 0 then Some k
    else
      k ← _ready_thread t k;
      if in_isr k then Some k else _reschedule_threads k.

Definition k_current_get k : tid := current k.

Definition k_sched_time_slice_set (duration_in_ms p : Z) k : option kernel :=
  if (0 <=? duration_in_ms) && (0 <=? p) && (p <? CONFIG_NUM_PREEMPT_PRIORITIES)
  then Some (set_clock (tick_count k) 0 duration_in_ms p k) else None.

Definition k_is_preempt_thread k : bool :=
  negb (in_isr k) && _is_preempt (threads k (current k)).
End Operations.

(** ** Flags as bits *)
Section Flags.
Implicit Types (k : kernel) (t x : tid).

Definition fbit k t (n : Z) : bool := Z.testbit (flags (threads k t)) n.

Lemma pending_bit t k : _is_thread_pending t k = fbit k t 13.
Proof.
  unfold _is_thread_pending. change K_PENDING with (2 ^ 13).
  by rewrite land_pow2_eqb, negb_involutive.
Qed.

Lemma prevented_bits t k :
  _is_thread_prevented_from_running t k =
  fbit k t 13 || fbit k t 14 || fbit k t 15 || fbit k t 17 || fbit k t 16.
Proof.
  unfold _is_thread_prevented_from_running, PREVENTED_FLAGS.
  rewrite !land_lor_eqb.
  change K_PENDING with (2 ^ 13). change K_PRESTART with (2 ^ 14).
  change K_DEAD with (2 ^ 15). change K_DUMMY with (2 ^ 17).
  change K_SUSPENDED with (2 ^ 16). rewrite !land_pow2_eqb by lia. unfold fbit.
  by destruct (Z.testbit _ 13), (Z.testbit _ 14), (Z.testbit _ 15), (Z.testbit _ 17),
    (Z.testbit _ 16).
Qed.

Lemma set_states_bit t s k x n :
  fbit (_set_thread_states t s k) x n = fbit k x n || (bool_decide (t = x) && Z.testbit s n).
Proof.
  unfold fbit, _set_thread_states, upd_thread. simpl. unfold alter, fn_alter.
  case_decide as E.
  - subst x. rewrite bool_decide_eq_true_2 by done. simpl. by rewrite Z.lor_spec.
  - rewrite bool_decide_eq_false_2 by done. by rewrite orb_false_r.
Qed.

Lemma reset_states_bit t s k x n :
  0 <= n ->
  fbit (_reset_thread_states t s k) x n =
  fbit k x n && negb (bool_decide (t = x) && Z.testbit s n).
Proof.
  intros Hn. unfold fbit, _reset_thread_states, upd_thread. simpl. unfold alter, fn_alter.
  case_decide as E.
  - subst x. rewrite bool_decide_eq_true_2 by done. simpl.
    by rewrite Z.land_spec, Z.lnot_spec.
  - rewrite bool_decide_eq_false_2 by done. by rewrite andb_true_r.
Qed.
End Flags.

(** ** The kernel invariant

    [K] holds of the timeouts (and so, through [TO_thread], of the threads) the
    kernel has initialised. Between two critical sections every thread is in
    the queues its flags say; inside one, at most one thread [X] may be
    floating: taken off its queue and not yet put on another. *)
Section Invariant.
Context `{KConfig}.
Implicit Types (k : kernel) (t x : tid) (w : wqid) (o : toid) (X : option tid)
  (K : toid -> Prop).

(** Priorities a thread may have: the lowest is the idle thread's. *)
Definition prio_ok t (p : Z) : Prop :=
  K_HIGHEST_THREAD_PRIO <= p /\
  (p < K_LOWEST_THREAD_PRIO \/ p = K_LOWEST_THREAD_PRIO /\ t = _idle_thread).

Lemma prio_ok_valid t p : prio_ok t p -> valid_prio p.
Proof.
  pose proof coop_nonneg. pose proof preempt_nonneg.
  unfold prio_ok, valid_prio, K_HIGHEST_THREAD_PRIO, K_LOWEST_THREAD_PRIO.
  destruct (Z.ltb_spec 0 CONFIG_NUM_COOP_PRIORITIES),
    (Z.ltb_spec 0 CONFIG_NUM_PREEMPT_PRIORITIES); lia.
Qed.

Record kernel_wf K X k : Prop := {
  kw_rq : rq_wf k;
  kw_tq : tq_wf K k;
  kw_known o : o ∈ timeout_q k -> K o;
  kw_prio t : K (TO_thread t) -> prio_ok t (thread_prio k t);
  kw_ready t : t ∈ ready_list k -> K (TO_thread t) /\ _is_thread_ready t k = true;
  kw_ready_conv t : K (TO_thread t) -> X <> Some t ->
    _is_thread_ready t k = true -> t ∈ ready_list k;
  kw_wq t w : t ∈ wait_qs k w -> K (TO_thread t) /\ _is_thread_pending t k = true;
  kw_wq_nodup w : NoDup (wait_qs k w);
  kw_wq_disj w1 w2 t : t ∈ wait_qs k w1 -> t ∈ wait_qs k w2 -> w1 = w2;
  kw_wq_conv t : K (TO_thread t) -> _is_thread_pending t k = true ->
    exists w, t ∈ wait_qs k w;
  kw_to_owner o t : o ∈ timeout_q k ->
    (to_thread (timeouts k o) = Some t <-> o = TO_thread t);
  kw_to_wq t w : X <> Some t -> TO_thread t ∈ timeout_q k ->
    (to_wait_q (timeouts k (TO_thread t)) = Some w <-> t ∈ wait_qs k w);
  kw_float t : X = Some t ->
    K (TO_thread t) /\ t ∉ ready_list k /\ _is_thread_pending t k = false
}.

(** The scheduler has something to run. *)
Definition can_run k : Prop := ready_list k <> [].

(** What a ready thread is, in terms of flags and timeout. *)
Lemma ready_bits t k :
  _is_thread_ready t k = true <->
  fbit k t 13 = false /\ fbit k t 14 = false /\ fbit k t 15 = false /\
  fbit k t 16 = false /\ fbit k t 17 = false /\ delta (timeouts k) (TO_thread t) = -1.
Proof.
  unfold _is_thread_ready, _is_thread_timeout_active. rewrite prevented_bits.
  fold (delta (timeouts k) (TO_thread t)).
  destruct (Z.eqb_spec (delta (timeouts k) (TO_thread t)) (-1)) as [E|E];
    destruct (fbit k t 13), (fbit k t 14), (fbit k t 15), (fbit k t 17), (fbit k t 16);
    simpl; naive_solver.
Qed.

Lemma ready_not_pending t k : _is_thread_ready t k = true -> _is_thread_pending t k = false.
Proof. rewrite pending_bit, ready_bits. naive_solver. Qed.

(** A ready thread is on no wait queue. *)
Lemma ready_not_waiting K X k t w :
  kernel_wf K X k -> t ∈ ready_list k -> t ∉ wait_qs k w.
Proof.
  intros Hwf Hr Hw. destruct (kw_ready K X k Hwf t Hr) as [_ Hrd].
  destruct (kw_wq K X k Hwf t w Hw) as [_ Hp]. by rewrite (ready_not_pending t k Hrd) in Hp.
Qed.

Lemma float_not_waiting K X k t w : kernel_wf K X k -> X = Some t -> t ∉ wait_qs k w.
Proof.
  intros Hwf HX Hw. destruct (kw_float K X k Hwf t HX) as (_ & _ & Hp).
  destruct (kw_wq K X k Hwf t w Hw) as [_ Hp']. congruence.
Qed.

(** The invariant reads the state bits (13 to 17) of the flags and the
    priorities of threads only. *)
Definition same_state (th th' : thread) : Prop :=
  prio th' = prio th /\
  forall n, 13 <= n <= 17 -> Z.testbit (flags th') n = Z.testbit (flags th) n.

Lemma kernel_wf_threads K X k f :
  kernel_wf K X k -> (forall t, same_state (threads k t) (f t)) ->
  kernel_wf K X (set_threads f k).
Proof.
  intros Hwf Hf.
  assert (Hb : forall t n, 13 <= n <= 17 -> fbit (set_threads f k) t n = fbit k t n)
    by (intros t n Hn; by apply Hf).
  assert (Hr : forall t, _is_thread_ready t (set_threads f k) = _is_thread_ready t k).
  { intros t. apply eq_true_iff_eq. rewrite !ready_bits. by rewrite !Hb by lia. }
  assert (Hp : forall t, _is_thread_pending t (set_threads f k) = _is_thread_pending t k)
    by (intros t; rewrite !pending_bit; by apply Hb).
  destruct Hwf as [Hrq Htq H3 H4 H5 H6 H7 H8 H9 H10 H11 H12 H13].
  split; try done; try (intros t; rewrite ?Hr, ?Hp; auto; fail).
  - apply (rq_wf_ext k); [done..|]. intros t _. apply Hf.
  - by apply (tq_wf_ext K k).
  - intros t. unfold thread_prio. simpl. destruct (Hf t) as [-> _]. apply H4.
  - intros t w. rewrite Hp. apply H7.
Qed.

Lemma kernel_wf_upd_state K X k t g :
  (forall th, same_state th (g th)) -> kernel_wf K X k -> kernel_wf K X (upd_thread t g k).
Proof.
  intros Hg Hwf. apply kernel_wf_threads; [done|]. intros x.
  unfold alter, fn_alter. case_decide; subst; [apply Hg|done].
Qed.

Lemma kernel_wf_upd_thread K X k t g :
  (forall th, flags (g th) = flags th /\ prio (g th) = prio th) ->
  kernel_wf K X k -> kernel_wf K X (upd_thread t g k).
Proof.
  intros Hg. apply kernel_wf_upd_state. intros th. destruct (Hg th) as [Ef Ep].
  split; [done|]. by rewrite Ef.
Qed.

Lemma kernel_wf_return_value K X k t v :
  kernel_wf K X k -> kernel_wf K X (_set_thread_return_value t v k).
Proof. by apply kernel_wf_upd_thread. Qed.

Lemma kernel_wf_with_data K X k t v d :
  kernel_wf K X k -> kernel_wf K X (_set_thread_return_value_with_data t v d k).
Proof. intros. by apply kernel_wf_upd_thread. Qed.

Lemma kernel_wf_sched_lock K X k :
  kernel_wf K X k ->
  kernel_wf K X (_sched_lock k) /\ kernel_wf K X (_sched_unlock_no_reschedule k).
Proof. intros. split; by apply kernel_wf_upd_thread. Qed.

Lemma kernel_wf_set_current K X k t : kernel_wf K X k -> kernel_wf K X (set_current t k).
Proof.
  intros Hwf. destruct Hwf as [Hrq Htq ???????????].
  split; [by apply (rq_wf_ext k)|by apply (tq_wf_ext K k)|done..].
Qed.

Lemma kernel_wf_set_clock K X k a b c d :
  kernel_wf K X k -> kernel_wf K X (set_clock a b c d k).
Proof.
  intros Hwf. destruct Hwf as [Hrq Htq ???????????].
  split; [by apply (rq_wf_ext k)|by apply (tq_wf_ext K k)|done..].
Qed.

Lemma kernel_wf_set_in_isr K X k b : kernel_wf K X k -> kernel_wf K X (set_in_isr b k).
Proof.
  intros Hwf. destruct Hwf as [Hrq Htq ???????????].
  split; [by apply (rq_wf_ext k)|by apply (tq_wf_ext K k)|done..].
Qed.

(** *** Off the ready queue, onto it *)
Lemma remove_wait_qs k t w :
  wait_qs (_remove_thread_from_ready_q t k) w = remove_node t (wait_qs k w).
Proof. unfold _remove_thread_from_ready_q. simpl. by destruct (bool_decide _). Qed.

Lemma remove_rest k t :
  threads (_remove_thread_from_ready_q t k) = threads k /\
  timeouts (_remove_thread_from_ready_q t k) = timeouts k /\
  timeout_q (_remove_thread_from_ready_q t k) = timeout_q k /\
  current (_remove_thread_from_ready_q t k) = current k /\
  in_isr (_remove_thread_from_ready_q t k) = in_isr k.
Proof. unfold _remove_thread_from_ready_q. simpl. by destruct (bool_decide _). Qed.

Lemma same_flags k k' t :
  threads k' = threads k -> timeouts k' = timeouts k ->
  _is_thread_ready t k' = _is_thread_ready t k /\
  _is_thread_pending t k' = _is_thread_pending t k /\
  thread_prio k' t = thread_prio k t.
Proof.
  intros E1 E2.
  unfold _is_thread_ready, _is_thread_prevented_from_running, _is_thread_timeout_active,
    _is_thread_pending, thread_prio. by rewrite E1, E2.
Qed.

Lemma remove_ready_wf K k t :
  kernel_wf K None k -> t ∈ ready_list k ->
  kernel_wf K (Some t) (_remove_thread_from_ready_q t k) /\
  forall w, wait_qs (_remove_thread_from_ready_q t k) w = wait_qs k w.
Proof.
  intros Hwf Ht. destruct (remove_rest k t) as (E1 & E2 & E3 & E4 & E5).
  assert (Ew : forall w, wait_qs (_remove_thread_from_ready_q t k) w = wait_qs k w).
  { intros w. rewrite remove_wait_qs. apply remove_node_not_in.
    by eapply ready_not_waiting. }
  split; [|done]. destruct (kw_ready K None k Hwf t Ht) as [HKt Hrt].
  destruct Hwf as [Hrq Htq H3 H4 H5 H6 H7 H8 H9 H10 H11 H12 H13].
  split; rewrite ?E3, ?E2; try done.
  - by apply remove_wf.
  - by apply (tq_wf_ext K k).
  - intros x. destruct (same_flags _ _ x E1 E2) as (_ & _ & ->). apply H4.
  - intros x. rewrite remove_ready_list, elem_of_remove_node.
    destruct (same_flags _ _ x E1 E2) as (-> & _ & _). intros [_ ?]. by apply H5.
  - intros x HK Hne. rewrite remove_ready_list, elem_of_remove_node.
    destruct (same_flags _ _ x E1 E2) as (-> & _ & _). intros ?. split; [congruence|by apply H6].
  - intros x w. rewrite Ew. destruct (same_flags _ _ x E1 E2) as (_ & -> & _). apply H7.
  - intros w. rewrite Ew. apply H8.
  - intros w1 w2 x. rewrite !Ew. apply H9.
  - intros x. destruct (same_flags _ _ x E1 E2) as (_ & -> & _). setoid_rewrite Ew. apply H10.
  - intros x w _. rewrite Ew. apply H12. done.
  - intros x [= <-]. destruct (same_flags _ _ t E1 E2) as (_ & -> & _).
    rewrite remove_ready_list, elem_of_remove_node. split_and!; [done|naive_solver|].
    by apply ready_not_pending.
Qed.

Lemma add_ready_wf K k t :
  kernel_wf K (Some t) k -> _is_thread_ready t k = true ->
  kernel_wf K None (_add_thread_to_ready_q t k) /\
  ready_list (_add_thread_to_ready_q t k) = prio_insert (thread_prio k) t (ready_list k).
Proof.
  intros Hwf Hr. destruct (kw_float K _ k Hwf t eq_refl) as (HKt & Hni & Hp).
  pose proof (prio_ok_valid _ _ (kw_prio K _ k Hwf t HKt)) as Hv.
  pose proof (add_ready_list k t (kw_rq K _ k Hwf) Hv) as El. split; [|done].
  destruct Hwf as [Hrq Htq H3 H4 H5 H6 H7 H8 H9 H10 H11 H12 H13].
  split; try done.
  - by apply add_wf.
  - by apply (tq_wf_ext K k).
  - intros x. rewrite El, elem_of_prio_insert. intros [->|?]; [done|by apply H5].
  - intros x HK _ Hx. rewrite El, elem_of_prio_insert.
    destruct (decide (x = t)) as [->|]; [by left|]. right. apply H6; [done|congruence|done].
  - intros x w _ Hin. apply (H12 x w); [|done]. intros [= ->].
    apply ready_bits in Hr. pose proof (tq_nonneg K k Htq _ Hin).
    destruct Hr as (_ & _ & _ & _ & _ & ?). lia.
Qed.

(** *** Off a wait queue *)
Lemma remove_fmap_id t (ls : list (list tid)) : t ∉ mjoin ls -> remove_node t <$> ls = ls.
Proof.
  induction ls as [|l ls IH]; intros Hni; [done|].
  change (mjoin (l :: ls)) with (l ++ mjoin ls) in Hni. apply not_elem_of_app in Hni as [? ?].
  rewrite fmap_cons, remove_node_not_in, IH by done. done.
Qed.

(** What [_unpend_first_thread] and [_unpend_thread] do to a waiting thread. *)
Definition unpend t k : kernel := _mark_thread_as_not_pending t (remove_k_q_node t k).

Lemma unpend_pending t k x :
  _is_thread_pending x (unpend t k) = _is_thread_pending x k && negb (bool_decide (t = x)).
Proof.
  rewrite !pending_bit. unfold unpend, _mark_thread_as_not_pending.
  rewrite reset_states_bit by lia. change (Z.testbit K_PENDING 13) with true.
  by rewrite andb_true_r.
Qed.

Lemma unpend_ready_ne t k x :
  t <> x -> _is_thread_ready x (unpend t k) = _is_thread_ready x k.
Proof.
  intros Hne. apply eq_true_iff_eq. rewrite !ready_bits.
  unfold unpend, _mark_thread_as_not_pending. rewrite !reset_states_bit by lia.
  rewrite bool_decide_eq_false_2 by done. simpl. rewrite !andb_true_r. done.
Qed.

Lemma waiting_not_ready K X k t w :
  kernel_wf K X k -> t ∈ wait_qs k w -> t ∉ ready_list k.
Proof. intros Hwf Hw Hr. by eapply ready_not_waiting. Qed.

Lemma unpend_ready_list K X k t w :
  kernel_wf K X k -> t ∈ wait_qs k w -> q (unpend t k) = q k.
Proof. intros Hwf Hw. apply remove_fmap_id. by eapply waiting_not_ready. Qed.

Lemma unpend_wf K k t w :
  kernel_wf K None k -> t ∈ wait_qs k w -> kernel_wf K (Some t) (unpend t k).
Proof.
  intros Hwf Hw. pose proof (waiting_not_ready K None k t w Hwf Hw) as Hnr.
  pose proof (unpend_ready_list K None k t w Hwf Hw) as Eq.
  assert (El : ready_list (unpend t k) = ready_list k) by (unfold ready_list; by rewrite Eq).
  assert (Ep : forall x, thread_prio (unpend t k) x = thread_prio k x).
  { intros x. unfold thread_prio. simpl. unfold alter, fn_alter. by case_decide; subst. }
  destruct (kw_wq K None k Hwf t w Hw) as [HKt _].
  destruct Hwf as [Hrq Htq H3 H4 H5 H6 H7 H8 H9 H10 H11 H12 H13].
  split; try done; simpl.
  - apply (rq_wf_ext k); [done..|]. intros x _. apply Ep.
  - by apply (tq_wf_ext K k).
  - intros x. rewrite Ep. apply H4.
  - intros x. rewrite El. intros Hx. rewrite unpend_ready_ne by (intros ->; done).
    by apply H5.
  - intros x HK Hne. rewrite El, unpend_ready_ne by congruence. by apply H6.
  - intros x w' [Hne Hx]%elem_of_remove_node. rewrite unpend_pending.
    rewrite bool_decide_eq_false_2, andb_true_r by congruence. by apply (H7 x w').
  - intros w'. apply NoDup_remove_node, H8.
  - intros w1 w2 x [_ Hx1]%elem_of_remove_node [_ Hx2]%elem_of_remove_node. by eapply H9.
  - intros x HK. rewrite unpend_pending, andb_true_iff, negb_true_iff, bool_decide_eq_false.
    intros [Hp Hne]. destruct (H10 x HK Hp) as [w' Hx]. exists w'.
    apply elem_of_remove_node. split; [congruence|done].
  - intros x w' Hne Hin. rewrite elem_of_remove_node, (H12 x w') by done.
    split; [|tauto]. split; [congruence|done].
  - intros x [= <-]. rewrite El, unpend_pending, bool_decide_eq_true_2, andb_false_r by done.
    done.
Qed.

Lemma unpend_first_cons k w t l :
  wait_qs k w = t :: l -> _unpend_first_thread w k = (Some t, unpend t k).
Proof. unfold _unpend_first_thread. by intros ->. Qed.

Lemma unpend_first_wait_q K X k w t l :
  kernel_wf K X k -> wait_qs k w = t :: l -> wait_qs (unpend t k) w = l.
Proof.
  intros Hwf E. simpl. rewrite E. apply remove_node_cons_eq.
  pose proof (kw_wq_nodup K X k Hwf w) as Hn. rewrite E in Hn. by apply NoDup_cons in Hn as [? _].
Qed.

Lemma unpend_other_wait_q K X k w w' t :
  kernel_wf K X k -> t ∈ wait_qs k w -> w <> w' -> wait_qs (unpend t k) w' = wait_qs k w'.
Proof.
  intros Hwf Ht Hne. simpl. apply remove_node_not_in. intros Ht'.
  by apply Hne, (kw_wq_disj K X k Hwf w w' t).
Qed.
End Invariant.
