(* ===== verification/SchedInv.v ===== *)
(** * The scheduler preserves the kernel invariant

    For every operation of the file Sched: it succeeds on a well-formed kernel,
    what it does to the ready list, the wait queues and the timeouts, and that
    it leaves the kernel well formed. *)
From S2P Require Import Prelude Kernel ReadyQ TimeoutQ Sched.

Section Timeouts.
Context `{KConfig}.
Implicit Types (k : kernel) (t x : tid) (w : wqid) (o : toid) (X : option tid)
  (K : toid -> Prop).

(** What [timeouts_only] leaves alone. *)
Lemma timeouts_only_fields k k' :
  timeouts_only k k' ->
  threads k' = threads k /\ q k' = q k /\ prio_bmap k' = prio_bmap k /\ cache k' = cache k /\
  wait_qs k' = wait_qs k /\ current k' = current k /\ in_isr k' = in_isr k /\
  ready_list k' = ready_list k /\ tick_count k' = tick_count k.
Proof. unfold timeouts_only, ready_list. by intros ->. Qed.

(** A change of the timeout queue that concerns the membership of [o0] only. *)
Definition queue_change o0 k k' : Prop :=
  timeouts_only k k' /\
  forall o, o <> o0 -> (o ∈ timeout_q k' <-> o ∈ timeout_q k) /\
    to_thread (timeouts k' o) = to_thread (timeouts k o) /\
    to_wait_q (timeouts k' o) = to_wait_q (timeouts k o).

Lemma queue_change_ready K X k k' o0 x :
  kernel_wf K X k -> tq_wf K k' -> queue_change o0 k k' -> K (TO_thread x) ->
  TO_thread x <> o0 -> _is_thread_ready x k' = _is_thread_ready x k.
Proof.
  intros Hwf Htq' [Hto Hq] HK Hne. apply eq_true_iff_eq. rewrite !ready_bits. unfold fbit.
  destruct (timeouts_only_fields k k' Hto) as (-> & _).
  pose proof (active_iff K k _ (kw_tq K X k Hwf) HK) as A1.
  pose proof (active_iff K k' _ Htq' HK) as A2. destruct (Hq _ Hne) as [Hm _].
  assert (delta (timeouts k') (TO_thread x) = -1 <-> delta (timeouts k) (TO_thread x) = -1)
    as ->; [|done].
  destruct (decide (delta (timeouts k) (TO_thread x) = -1)),
    (decide (delta (timeouts k') (TO_thread x) = -1)); tauto.
Qed.

Lemma kernel_wf_queue K X X' k k' o0 :
  kernel_wf K X k -> tq_wf K k' -> queue_change o0 k k' ->
  (o0 ∈ timeout_q k' ->
     K o0 /\ forall t, to_thread (timeouts k' o0) = Some t <-> o0 = TO_thread t) ->
  (forall x, TO_thread x <> o0 -> X' <> Some x -> X <> Some x) ->
  (forall x, o0 = TO_thread x -> x ∉ ready_list k /\
     (X' <> Some x -> _is_thread_ready x k' = false /\
        (o0 ∈ timeout_q k' ->
         forall w, to_wait_q (timeouts k' o0) = Some w <-> x ∈ wait_qs k w))) ->
  (forall x, X' = Some x ->
     K (TO_thread x) /\ x ∉ ready_list k /\ _is_thread_pending x k = false) ->
  kernel_wf K X' k'.
Proof.
  intros Hwf Htq' Hqc H0 HX Ho0 HX'. pose proof Hqc as [Hto Hq].
  pose proof (queue_change_ready K X k k' o0) as Hr.
  destruct (timeouts_only_fields k k' Hto) as (Et & Eq & Eb & Ec & Ew & _ & _ & El & _).
  assert (Hp : forall x, _is_thread_pending x k' = _is_thread_pending x k)
    by (intros x; unfold _is_thread_pending; by rewrite Et).
  destruct Hwf as [Hrq Htq H3 H4 H5 H6 H7 H8 H9 H10 H11 H12 H13].
  split; rewrite ?El, ?Ew; try done.
  - apply (rq_wf_ext k); [done..|]. intros t _. unfold thread_prio. by rewrite Et.
  - intros o Ho. destruct (decide (o = o0)) as [->|Hne]; [by apply H0|].
    apply H3. by apply (Hq o Hne).
  - intros t. unfold thread_prio. rewrite Et. apply H4.
  - intros t Ht. destruct (H5 t Ht) as [HK Hrd]. split; [done|].
    rewrite Hr; try done. intros <-. by apply (Ho0 t eq_refl).
  - intros t HK Hne Hrd. destruct (decide (TO_thread t = o0)) as [<-|Hn0].
    + destruct (Ho0 t eq_refl) as [_ Hf]. destruct (Hf Hne). congruence.
    + rewrite Hr in Hrd by done. apply H6; [done|by apply HX|done].
  - intros t w Hw. rewrite Hp. by apply (H7 t w).
  - intros t HK. rewrite Hp. by apply H10.
  - intros o t Ho. destruct (decide (o = o0)) as [->|Hne]; [by apply H0|].
    destruct (Hq o Hne) as (Hm & -> & _). apply H11. by apply Hm.
  - intros t w Hne Hin. destruct (decide (TO_thread t = o0)) as [<-|Hn0].
    + destruct (Ho0 t eq_refl) as [_ Hf]. by apply (Hf Hne).
    + destruct (Hq _ Hn0) as (Hm & _ & E). rewrite E.
      apply H12; [by apply HX|by apply Hm].
  - intros t Ht. rewrite Hp. by apply HX'.
Qed.

(** *** Aborting a timeout *)
Lemma abort_timeout_change K k o :
  tq_wf K k -> K o ->
  exists r k', _abort_timeout o k = (r, k') /\ (r = 0 <-> o ∈ timeout_q k) /\ (r = 0 \/ r = -1) /\
    timeout_q k' = remove_node o (timeout_q k) /\ delta (timeouts k') o = -1 /\
    schedule k' = schedule_remove o (schedule k) /\
    tq_wf K k' /\ queue_change o k k' /\ same_but_delta (timeouts k) (timeouts k').
Proof.
  intros Hwf HK. destruct (decide (o ∈ timeout_q k)) as [Hin|Hni].
  - destruct (abort_timeout_spec K k o Hwf Hin)
      as (k' & E & Hs & Hq & Hd & Hwf' & Hto & Hsd).
    exists 0, k'. split_and!; try done; [by left|]. split; [done|]. intros x Hne.
    rewrite Hq, elem_of_remove_node. destruct (Hsd x) as (-> & -> & _). split_and!; [naive_solver|done..].
  - assert (delta (timeouts k) o = -1) as Hd.
    { destruct (decide (delta (timeouts k) o = -1)); [done|].
      exfalso. by apply Hni, (tq_known K k Hwf). }
    exists (-1), k. rewrite abort_timeout_inactive by done. split_and!; try done.
    + by right.
    + by rewrite remove_node_not_in.
    + symmetry. by apply schedule_remove_not_in.
    + split; [by destruct k|done].
Qed.

(** Aborting the timeout of a thread that is off the ready queue and off every
    wait queue makes it (or leaves it) floating. *)
Lemma abort_thread_timeout_wf K X k t :
  kernel_wf K X k -> X = None \/ X = Some t -> K (TO_thread t) ->
  t ∉ ready_list k -> _is_thread_pending t k = false ->
  exists r k', _abort_thread_timeout t k = (r, k') /\
    kernel_wf K (Some t) k' /\ delta (timeouts k') (TO_thread t) = -1 /\
    (r = 0 <-> TO_thread t ∈ timeout_q k) /\ (r = 0 \/ r = -1) /\
    timeout_q k' = remove_node (TO_thread t) (timeout_q k) /\
    schedule k' = schedule_remove (TO_thread t) (schedule k) /\ timeouts_only k k'.
Proof.
  intros Hwf HX HK Hnr Hp. unfold _abort_thread_timeout.
  destruct (abort_timeout_change K k (TO_thread t) (kw_tq K X k Hwf) HK)
    as (r & k' & -> & Hr & Hr' & Hq & Hd & Hs & Htq & Hqc & _).
  exists r, k'. split_and!; try done; [|by destruct Hqc].
  apply (kernel_wf_queue K X (Some t) k k' (TO_thread t)); try done.
  - rewrite Hq, elem_of_remove_node. naive_solver.
  - destruct HX as [->| ->]; naive_solver.
  - intros x [= <-]. naive_solver.
  - intros x [= <-]. done.
Qed.

(** *** Adding a timeout *)
Lemma add_timeout_change K k th o (w : option wqid) n :
  tq_wf K k -> K o -> o ∉ timeout_q k -> 0 < n <= INT32_MAX ->
  exists k', _add_timeout th o w n k = Some k' /\
    schedule k' = schedule_insert o n (schedule k) /\
    timeout_q k' ≡ₚ o :: timeout_q k /\ tq_wf K k' /\ queue_change o k k' /\
    to_thread (timeouts k' o) = th /\ to_wait_q (timeouts k' o) = w.
Proof.
  intros Hwf HK Hni Hn.
  destruct (add_timeout_spec K k th o w n Hwf Hni Hn)
    as (k' & E & Hs & Hq & Hwf' & Hto & Hsd).
  exists k'. split_and!; try done.
  - apply (tq_wf_weaken _ _ _ Hwf'). auto.
  - split; [done|]. intros x Hne. rewrite Hq, elem_of_cons.
    destruct (Hsd x) as (-> & -> & _). rewrite fn_lookup_alter_ne by done. naive_solver.
  - destruct (Hsd o) as (-> & _). by rewrite fn_lookup_alter.
  - destruct (Hsd o) as (_ & -> & _). by rewrite fn_lookup_alter.
Qed.

Lemma active_not_ready t k :
  delta (timeouts k) (TO_thread t) <> -1 -> _is_thread_ready t k = false.
Proof. intros. apply not_true_is_false. rewrite ready_bits. tauto. Qed.

Lemma add_thread_timeout_wf K X k t (w : option wqid) n :
  kernel_wf K X k -> X = None \/ X = Some t -> K (TO_thread t) ->
  t ∉ ready_list k -> TO_thread t ∉ timeout_q k -> 0 < n <= INT32_MAX ->
  (forall w', w = Some w' <-> t ∈ wait_qs k w') ->
  exists k', _add_thread_timeout t w n k = Some k' /\ kernel_wf K None k' /\
    schedule k' = schedule_insert (TO_thread t) n (schedule k) /\
    timeout_q k' ≡ₚ TO_thread t :: timeout_q k /\ timeouts_only k k'.
Proof.
  intros Hwf HX HK Hnr Hni Hn Hw. unfold _add_thread_timeout.
  destruct (add_timeout_change K k (Some t) (TO_thread t) w n (kw_tq K X k Hwf) HK Hni Hn)
    as (k' & -> & Hs & Hq & Htq & Hqc & Eth & Ew).
  exists k'. split_and!; try done; [|by destruct Hqc].
  apply (kernel_wf_queue K X None k k' (TO_thread t)); try done.
  - split; [done|]. rewrite Eth. naive_solver.
  - destruct HX as [->| ->]; naive_solver.
  - intros x [= <-]. split; [done|]. intros _. rewrite Ew. split; [|done].
    apply active_not_ready.
    assert (TO_thread t ∈ timeout_q k') as Hin by (rewrite Hq; apply elem_of_cons; by left).
    pose proof (tq_nonneg K k' Htq _ Hin). lia.
Qed.
End Timeouts.

Section Threads.
Context `{KConfig}.
Implicit Types (k : kernel) (t x : tid) (w : wqid) (o : toid) (X : option tid)
  (K : toid -> Prop).

(** An update of the flags of a thread off the ready queue that leaves
    K_PENDING alone. *)
Lemma kernel_wf_flags K X k t g :
  kernel_wf K X k -> t ∉ ready_list k -> (forall th, prio (g th) = prio th) ->
  (forall th, Z.testbit (flags (g th)) 13 = Z.testbit (flags th) 13) ->
  X = Some t \/ _is_thread_ready t (upd_thread t g k) = false ->
  kernel_wf K X (upd_thread t g k).
Proof.
  intros Hwf Hnr Hpr Hfl HX. set (k' := upd_thread t g k) in *.
  assert (Ene : forall x, x <> t -> threads k' x = threads k x)
    by (intros x Hx; by apply fn_lookup_alter_ne).
  assert (Hr : forall x, x <> t -> _is_thread_ready x k' = _is_thread_ready x k).
  { intros x Hx. unfold _is_thread_ready, _is_thread_prevented_from_running.
    by rewrite Ene. }
  assert (Hp : forall x, _is_thread_pending x k' = _is_thread_pending x k).
  { intros x. rewrite !pending_bit. unfold fbit, k', upd_thread. simpl. unfold alter, fn_alter.
    case_decide; subst; [apply Hfl|done]. }
  assert (Ep : forall x, thread_prio k' x = thread_prio k x).
  { intros x. unfold thread_prio, k', upd_thread. simpl. unfold alter, fn_alter.
    case_decide; subst; [apply Hpr|done]. }
  destruct Hwf as [Hrq Htq H3 H4 H5 H6 H7 H8 H9 H10 H11 H12 H13].
  split; try done.
  - by apply (rq_wf_ext k).
  - by apply (tq_wf_ext K k).
  - intros x. rewrite Ep. apply H4.
  - intros x Hx. rewrite Hr; [by apply H5|]. by intros ->.
  - intros x HK Hne Hx. destruct (decide (x = t)) as [->|Hxt]; [destruct HX; congruence|].
    rewrite Hr in Hx by done. by apply H6.
  - intros x w. rewrite Hp. apply H7.
  - intros x. rewrite Hp. apply H10.
  - intros x. rewrite Hp. apply H13.
Qed.

(** A thread off the ready queue and off every wait queue may be made to float. *)
Lemma kernel_wf_float K k t :
  kernel_wf K None k -> K (TO_thread t) -> t ∉ ready_list k -> _is_thread_pending t k = false ->
  kernel_wf K (Some t) k.
Proof.
  intros [Hrq Htq H3 H4 H5 H6 H7 H8 H9 H10 H11 H12 H13] HK Hnr Hp. split; try done.
  - intros x HKx _. by apply H6.
  - intros x w _. by apply H12.
  - by intros x [= <-].
Qed.

(** A thread that is not ready and has no timeout stops floating. *)
Lemma kernel_wf_land K k t :
  kernel_wf K (Some t) k -> _is_thread_ready t k = false -> TO_thread t ∉ timeout_q k ->
  kernel_wf K None k.
Proof.
  intros Hwf Hnr Hni. destruct Hwf as [Hrq Htq H3 H4 H5 H6 H7 H8 H9 H10 H11 H12 H13].
  split; try done.
  - intros x HK _ Hx. apply H6; [done| |done]. intros [= ->]. congruence.
  - intros x w _ Hin. apply H12; [|done]. intros [= ->]. done.
Qed.

(** *** Making a thread ready *)
Lemma prio_ok_assert t p :
  prio_ok t p ->
  (_is_prio_higher p K_LOWEST_THREAD_PRIO
   || (p =? K_LOWEST_THREAD_PRIO) && bool_decide (t = _idle_thread))
  && negb (_is_prio_higher p K_HIGHEST_THREAD_PRIO) = true.
Proof.
  unfold prio_ok, _is_prio_higher. intros [Hh Hl]. apply andb_true_iff. split.
  - destruct Hl as [Hl|[-> ->]]; [by rewrite (proj2 (Z.ltb_lt _ _) Hl)|].
    rewrite Z.eqb_refl, bool_decide_eq_true_2 by done. apply orb_true_r.
  - apply negb_true_iff, Z.ltb_ge, Hh.
Qed.

Lemma started_wf K k t :
  kernel_wf K (Some t) k -> kernel_wf K (Some t) (_mark_thread_as_started t k).
Proof.
  intros Hwf. apply kernel_wf_flags; [done|by apply (kw_float K _ k Hwf)|done| |by left].
  intros th. unfold K_PRESTART, with_flags. simpl flags.
  rewrite Z.land_spec, Z.lnot_spec by lia. change (Z.testbit _ 13) with false at 2.
  by rewrite andb_true_r.
Qed.

Lemma inactive_not_queued K X k t :
  kernel_wf K X k -> delta (timeouts k) (TO_thread t) = -1 -> TO_thread t ∉ timeout_q k.
Proof. intros Hwf Hd Hin. pose proof (tq_nonneg K k (kw_tq K X k Hwf) _ Hin). lia. Qed.

(** Everything [_add_thread_to_ready_q] leaves alone. *)
Lemma add_rest k t :
  threads (_add_thread_to_ready_q t k) = threads k /\
  timeouts (_add_thread_to_ready_q t k) = timeouts k /\
  timeout_q (_add_thread_to_ready_q t k) = timeout_q k /\
  current (_add_thread_to_ready_q t k) = current k /\
  in_isr (_add_thread_to_ready_q t k) = in_isr k /\
  wait_qs (_add_thread_to_ready_q t k) = wait_qs k.
Proof. done. Qed.

(** Only threads' flags (and the ready queue) differ. *)
Definition only_readied t k k' : Prop :=
  wait_qs k' = wait_qs k /\ timeout_q k' = timeout_q k /\ timeouts k' = timeouts k /\
  current k' = current k /\ in_isr k' = in_isr k /\
  (forall x, x <> t -> threads k' x = threads k x) /\
  exists f, threads k' t = with_flags f (threads k t).

Lemma ready_thread_wf K k t :
  kernel_wf K (Some t) k -> delta (timeouts k) (TO_thread t) = -1 ->
  exists k', _ready_thread t k = Some k' /\ kernel_wf K None k' /\ only_readied t k k' /\
    ready_list k' =
      (if _is_thread_ready t (_mark_thread_as_started t k)
       then prio_insert (thread_prio k) t (ready_list k) else ready_list k).
Proof.
  intros Hwf Hd. destruct (kw_float K _ k Hwf t eq_refl) as (HK & Hnr & Hnp).
  unfold _ready_thread. rewrite prio_ok_assert by (apply Hwf; done).
  pose proof (started_wf K k t Hwf) as Hwf1. set (k1 := _mark_thread_as_started t k) in *.
  assert (Hone : forall x, x <> t -> threads k1 x = threads k x)
    by (intros; by apply fn_lookup_alter_ne).
  assert (exists f, threads k1 t = with_flags f (threads k t)) as Hf
    by (eexists; apply fn_lookup_alter).
  destruct (_is_thread_ready t k1) eqn:Er.
  - destruct (add_ready_wf K k1 t Hwf1 Er) as [Hwf2 El].
    eexists. split; [reflexivity|]. split_and!; [done|done|].
    rewrite El. apply prio_insert_ext. intros x _. unfold thread_prio, k1. simpl.
    unfold alter, fn_alter. by case_decide; subst.
  - eexists. split; [reflexivity|]. split_and!; [|done|done].
    apply (kernel_wf_land K k1 t Hwf1 Er). apply (inactive_not_queued K (Some t) k1); done.
Qed.

(** *** Pending a thread *)

(** The walk of [sys_dlist_insert_at] with [_is_wait_q_insert_point]. *)
Lemma wait_q_insert k t l d :
  d = prio (threads k t) ->
  fst (insert_at (_is_wait_q_insert_point k) t d l) = prio_insert (thread_prio k) t l.
Proof.
  intros ->. induction l as [|x l IH]; simpl; [done|]. unfold _is_prio_higher.
  unfold thread_prio at 1 2. destruct (prio (threads k t) <? prio (threads k x)); [done|].
  destruct (insert_at _ t _ l) as [l' d']. simpl in *. by rewrite IH.
Qed.

(** A thread put on a wait queue, before its timeout is started. *)
Definition pend t w k : kernel :=
  _mark_thread_as_pending t (upd_wait_q w (prio_insert (thread_prio k) t (wait_qs k w)) k).

Lemma pend_thread_eq t w timeout k :
  _pend_thread t w timeout k =
  if timeout =? K_FOREVER then Some (pend t w k)
  else _add_thread_timeout t (Some w) (i32 (_TICK_ALIGN + _ms_to_ticks timeout)) (pend t w k).
Proof.
  unfold _pend_thread, pend. rewrite <- (wait_q_insert k t (wait_qs k w) _ eq_refl).
  by destruct (insert_at _ t _ _).
Qed.

Lemma pend_pending t w k x :
  _is_thread_pending x (pend t w k) = _is_thread_pending x k || bool_decide (t = x).
Proof.
  rewrite !pending_bit. unfold pend, _mark_thread_as_pending. rewrite set_states_bit.
  change (Z.testbit K_PENDING 13) with true. by rewrite andb_true_r.
Qed.

Lemma pend_ready_ne t w k x :
  t <> x -> _is_thread_ready x (pend t w k) = _is_thread_ready x k.
Proof.
  intros Hne. apply eq_true_iff_eq. rewrite !ready_bits.
  unfold pend, _mark_thread_as_pending. rewrite !set_states_bit.
  rewrite bool_decide_eq_false_2 by done. simpl. rewrite !orb_false_r. done.
Qed.

Lemma pend_wait_qs t w k w' :
  wait_qs (pend t w k) w' =
  if decide (w' = w) then prio_insert (thread_prio k) t (wait_qs k w) else wait_qs k w'.
Proof.
  unfold pend. simpl. unfold insert, fn_insert. by destruct (decide (w = w')), (decide (w' = w)).
Qed.

Lemma pend_elem t w k w' x :
  x ∈ wait_qs (pend t w k) w' <-> (x = t /\ w' = w) \/ x ∈ wait_qs k w'.
Proof.
  rewrite pend_wait_qs. destruct (decide (w' = w)) as [->|]; [|naive_solver].
  rewrite elem_of_prio_insert. naive_solver.
Qed.

Lemma pend_wf K k t w :
  kernel_wf K (Some t) k -> delta (timeouts k) (TO_thread t) = -1 ->
  kernel_wf K None (pend t w k).
Proof.
  intros Hwf Hd. pose proof (inactive_not_queued K _ k t Hwf Hd) as Hniq.
  destruct (kw_float K _ k Hwf t eq_refl) as (HK & Hnr & Hnp).
  assert (Hnw : forall w', t ∉ wait_qs k w') by (intros; by eapply float_not_waiting).
  assert (Ep : forall x, thread_prio (pend t w k) x = thread_prio k x).
  { intros x. unfold thread_prio. simpl. unfold alter, fn_alter. by case_decide; subst. }
  destruct Hwf as [Hrq Htq H3 H4 H5 H6 H7 H8 H9 H10 H11 H12 H13].
  split; try done.
  - by apply (rq_wf_ext k).
  - by apply (tq_wf_ext K k).
  - intros x. rewrite Ep. apply H4.
  - intros x Hx. rewrite pend_ready_ne; [by apply H5|]. by intros ->.
  - intros x HKx _ Hx. destruct (decide (t = x)) as [<-|Hne].
    + apply ready_not_pending in Hx. rewrite pend_pending, bool_decide_eq_true_2 in Hx by done.
      by rewrite orb_true_r in Hx.
    + rewrite pend_ready_ne in Hx by done. apply H6; [done|congruence|done].
  - intros x w'. rewrite pend_elem, pend_pending. intros [[-> ->]|Hx].
    + by rewrite bool_decide_eq_true_2, orb_true_r.
    + destruct (H7 x w' Hx) as [? ->]. done.
  - intros w'. rewrite pend_wait_qs. destruct (decide (w' = w)) as [->|]; [|apply H8].
    apply NoDup_prio_insert; [done|apply H8].
  - intros w1 w2 x. rewrite !pend_elem.
    intros [[-> ->]|Hx1] [[? ->]|Hx2]; try done; [by destruct (Hnw w2)|subst; by destruct (Hnw w1)|].
    by eapply H9.
  - intros x HKx. rewrite pend_pending. setoid_rewrite pend_elem.
    destruct (decide (t = x)) as [<-|Hne]; [naive_solver|].
    rewrite bool_decide_eq_false_2, orb_false_r by done. intros Hx.
    destruct (H10 x HKx Hx) as [w' ?]. eauto.
  - intros x w' _ Hin. rewrite pend_elem. destruct (decide (t = x)) as [<-|Hne]; [done|].
    rewrite <- (H12 x w') by (congruence || done). naive_solver.
Qed.

(** The timeouts (in milliseconds) a caller may pass: for ever, or a duration
    whose number of ticks is an [int32_t]. *)
Definition timeout_ticks (ms : Z) : Z := i32 (_TICK_ALIGN + _ms_to_ticks ms).
Definition timeout_ok (ms : Z) : Prop := ms = K_FOREVER \/ 0 < timeout_ticks ms <= INT32_MAX.

Lemma pend_thread_wf K k t w ms :
  kernel_wf K (Some t) k -> delta (timeouts k) (TO_thread t) = -1 -> timeout_ok ms ->
  exists k', _pend_thread t w ms k = Some k' /\ kernel_wf K None k' /\
    wait_qs k' = wait_qs (pend t w k) /\ threads k' = threads (pend t w k) /\
    ready_list k' = ready_list k /\ current k' = current k /\ in_isr k' = in_isr k /\
    schedule k' = (if ms =? K_FOREVER then schedule k
                   else schedule_insert (TO_thread t) (timeout_ticks ms) (schedule k)).
Proof.
  intros Hwf Hd Hms. rewrite pend_thread_eq. pose proof (pend_wf K k t w Hwf Hd) as Hwf1.
  pose proof (inactive_not_queued K _ k t Hwf Hd) as Hniq.
  destruct (kw_float K _ k Hwf t eq_refl) as (HK & Hnr & Hnp).
  destruct (Z.eqb_spec ms K_FOREVER) as [->|Hne]; [by eexists|].
  destruct Hms as [?|Hms]; [done|]. fold (timeout_ticks ms).
  destruct (add_thread_timeout_wf K None (pend t w k) t (Some w) (timeout_ticks ms))
    as (k' & -> & Hwf2 & Hs & _ & Hto); [done|by left|done..| |].
  { intros w'. rewrite pend_elem. split; [intros [= <-]; by left|].
    intros [[_ ->]|Hw]; [done|]. by destruct (float_not_waiting K _ k t w' Hwf eq_refl). }
  destruct (timeouts_only_fields _ _ Hto) as (Et & _ & _ & _ & Ew & Ec & Ei & El & _).
  by exists k'.
Qed.

(** A duration in milliseconds never sleeps less than asked for: the ticks
    cover it, plus one to align on the next tick. *)
Lemma ms_to_ticks_value ms :
  0 <= ms <= INT32_MAX -> ms * sys_clock_ticks_per_sec <= (INT32_MAX - 1) * 1000 ->
  _ms_to_ticks ms = (ms * sys_clock_ticks_per_sec + 999) / 1000.
Proof.
  intros Hms Hb. pose proof ticks_per_sec_range as Ht. unfold _ms_to_ticks, ceiling, MSEC_PER_SEC.
  assert (0 <= ms * sys_clock_ticks_per_sec) by nia.
  unfold INT32_MAX in *. rewrite i64_small by lia.
  rewrite Z.quot_div_nonneg by lia. replace (1000 - 1) with 999 by lia. apply i32_small.
  unfold INT32_MIN, INT32_MAX.
  pose proof (Z.div_pos (ms * sys_clock_ticks_per_sec + 999) 1000).
  pose proof (Z.div_lt_upper_bound (ms * sys_clock_ticks_per_sec + 999) 1000 2147483648). lia.
Qed.

Lemma timeout_ok_ms ms :
  0 <= ms <= INT32_MAX -> ms * sys_clock_ticks_per_sec <= (INT32_MAX - 1) * 1000 -> timeout_ok ms.
Proof.
  intros Hms Hb. right. unfold timeout_ticks. rewrite ms_to_ticks_value by done.
  pose proof ticks_per_sec_range as Ht. assert (0 <= ms * sys_clock_ticks_per_sec) by nia.
  unfold _TICK_ALIGN, INT32_MAX in *.
  pose proof (Z.div_pos (ms * sys_clock_ticks_per_sec + 999) 1000).
  pose proof (Z.div_lt_upper_bound (ms * sys_clock_ticks_per_sec + 999) 1000 2147483647).
  rewrite i32_small by (unfold INT32_MIN, INT32_MAX; lia). lia.
Qed.
End Threads.

(** ** Switching, blocking and waking *)
Section Switching.
Context `{KConfig}.
Implicit Types (k : kernel) (t x c : tid) (w : wqid) (o : toid) (X : option tid)
  (K : toid -> Prop).

(** The result a blocked call will deliver: its value, and its data. *)
Definition with_result (r : Z * Z) (th : thread) : thread :=
  with_swap_data (snd r) (with_return_value (fst r) th).

(** Nothing but the current thread, the cache and results differ. *)
Record same_queues k k' : Prop := {
  sq_q : q k' = q k;
  sq_wait_qs : wait_qs k' = wait_qs k;
  sq_timeout_q : timeout_q k' = timeout_q k;
  sq_timeouts : timeouts k' = timeouts k;
  sq_in_isr : in_isr k' = in_isr k;
  sq_threads x : exists r, threads k' x = with_result r (threads k x)
}.

Lemma with_result_self (th : thread) : with_result (swap_return_value th, swap_data th) th = th.
Proof. by destruct th. Qed.

Lemma same_queues_refl k : same_queues k k.
Proof. split; try done. intros x. eexists. symmetry. apply with_result_self. Qed.

Lemma same_queues_ready k k' : same_queues k k' -> ready_list k' = ready_list k.
Proof. intros [E _ _ _ _ _]. unfold ready_list. by rewrite E. Qed.

Lemma same_queues_prio k k' x : same_queues k k' -> thread_prio k' x = thread_prio k x.
Proof. intros [_ _ _ _ _ Ht]. unfold thread_prio. by destruct (Ht x) as [v ->]. Qed.

Lemma kernel_wf_set_cache K X k t :
  kernel_wf K X k -> head (ready_list k) = Some t -> kernel_wf K X (set_cache (Some t) k).
Proof.
  intros Hwf Hh. destruct Hwf as [Hrq Htq ???????????].
  split; [|by apply (tq_wf_ext K k)|done..].
  destruct Hrq. split; try done. intros x [= <-]. done.
Qed.

Lemma next_ready_wf K X k c :
  kernel_wf K X k -> head (ready_list k) = Some c ->
  exists k', _get_next_ready_thread k = Some (c, k') /\ kernel_wf K X k' /\ same_queues k k' /\
    current k' = current k /\ cache k' = Some c.
Proof.
  intros Hwf Hh. destruct (next_ready_thread k c (kw_rq K X k Hwf) Hh) as (k' & -> & Hk' & Hc).
  exists k'. split_and!; try done.
  - destruct Hk' as [->| ->]; [done|by apply kernel_wf_set_cache].
  - destruct Hk' as [->| ->]; [apply same_queues_refl|].
    split; try done. intros x. eexists. symmetry. apply with_result_self.
  - by destruct Hk' as [->| ->].
Qed.

Lemma swap_wf K X k c :
  kernel_wf K X k -> head (ready_list k) = Some c ->
  exists k', _Swap k = Some k' /\ kernel_wf K X k' /\ same_queues k k' /\ current k' = c /\
    threads k' (current k) = with_return_value (- EAGAIN) (threads k (current k)) /\
    forall x, x <> current k -> threads k' x = threads k x.
Proof.
  intros Hwf Hh. unfold _Swap. set (k1 := _set_thread_return_value _ _ k).
  assert (kernel_wf K X k1) as Hwf1 by by apply kernel_wf_return_value.
  assert (forall x, x <> current k -> threads k1 x = threads k x) as Hne
    by (intros; by apply fn_lookup_alter_ne).
  assert (threads k1 (current k) = with_return_value (- EAGAIN) (threads k (current k))) as Hcur
    by apply fn_lookup_alter.
  destruct (next_ready_thread k1 c (kw_rq K X k1 Hwf1) Hh) as (k2 & E2 & Hk2 & _).
  rewrite E2. simpl.
  assert (kernel_wf K X k2) as Hwf2
    by (destruct Hk2 as [->| ->]; [done|by apply kernel_wf_set_cache]).
  eexists. split; [reflexivity|].
  assert (threads k2 = threads k1) as Et by by destruct Hk2 as [->| ->].
  split_and!; [by apply kernel_wf_set_current| |done| |]; simpl.
  - split; simpl; try by destruct Hk2 as [->| ->].
    intros x. rewrite Et. destruct (decide (x = current k)) as [->|Hx].
    { exists (- EAGAIN, swap_data (threads k (current k))). by rewrite Hcur. }
    rewrite Hne by done. eexists. symmetry. apply with_result_self.
  - by rewrite Et, Hcur.
  - intros x Hx. rewrite Et. auto.
Qed.

(** When the scheduler may and should take the processor from the current
    thread. *)
Definition must_preempt k c : bool :=
  _is_preempt (threads k (current k)) && (thread_prio k c <? thread_prio k (current k)).

Lemma must_switch_eq K X k c :
  kernel_wf K X k -> head (ready_list k) = Some c ->
  _must_switch_threads k = Some (must_preempt k c).
Proof.
  intros Hwf Hh. unfold _must_switch_threads, __must_switch_threads, must_preempt.
  rewrite (highest_ready_prio k c (kw_rq K X k Hwf) Hh). by destruct (_is_preempt _).
Qed.

Lemma reschedule_wf K X k c :
  kernel_wf K X k -> head (ready_list k) = Some c ->
  exists k', _reschedule_threads k = Some k' /\ kernel_wf K X k' /\ same_queues k k' /\
    current k' = (if must_preempt k c then c else current k).
Proof.
  intros Hwf Hh. unfold _reschedule_threads. rewrite (must_switch_eq K X k c Hwf Hh). simpl.
  destruct (must_preempt k c).
  - destruct (swap_wf K X k c Hwf Hh) as (k' & -> & ? & ? & ? & _). by exists k'.
  - exists k. split_and!; [done..|apply same_queues_refl|done].
Qed.

(** [if (!_is_in_isr() && _must_switch_threads()) _Swap(key)], the way every
    kernel object ends. *)
Definition swap_if_needed k : option kernel :=
  b ← must_switch_if_not_isr k;
  if (b : bool) then _Swap k else Some k.

Lemma swap_if_needed_wf K X k c :
  kernel_wf K X k -> head (ready_list k) = Some c ->
  exists k', swap_if_needed k = Some k' /\ kernel_wf K X k' /\ same_queues k k' /\
    current k' = (if negb (in_isr k) && must_preempt k c then c else current k).
Proof.
  intros Hwf Hh. unfold swap_if_needed, must_switch_if_not_isr. destruct (in_isr k); simpl.
  - exists k. split_and!; [done..|apply same_queues_refl|done].
  - by destruct (reschedule_wf K X k c Hwf Hh) as (k' & ? & ? & ? & ?); exists k'.
Qed.

(** *** Waking a waiting thread

    Every object wakes a waiter with [_unpend_first_thread] followed by
    [_abort_thread_timeout] and [_ready_thread]; [wake] is the last two. *)
Definition wake t k : option kernel :=
  let '(_, k) := _abort_thread_timeout t k in _ready_thread t k.

(** A thread that nothing but what it waits for keeps from running. *)
Definition wakeable k t : bool := negb (fbit k t 15 || fbit k t 16 || fbit k t 17).

Record woken t k k' : Prop := {
  wo_wait_qs w : wait_qs k' w = remove_node t (wait_qs k w);
  wo_ready : ready_list k' =
    if wakeable k t then prio_insert (thread_prio k) t (ready_list k) else ready_list k;
  wo_timeout_q : timeout_q k' = remove_node (TO_thread t) (timeout_q k);
  wo_schedule : schedule k' = schedule_remove (TO_thread t) (schedule k);
  wo_current : current k' = current k;
  wo_in_isr : in_isr k' = in_isr k;
  wo_threads x : x <> t -> threads k' x = threads k x;
  wo_thread : exists f, threads k' t = with_flags f (threads k t)
}.

Lemma started_ready_iff t k :
  delta (timeouts k) (TO_thread t) = -1 -> fbit k t 13 = false ->
  _is_thread_ready t (_mark_thread_as_started t k) = wakeable k t.
Proof.
  intros Hd H13. apply eq_true_iff_eq. rewrite ready_bits.
  unfold _mark_thread_as_started. rewrite !reset_states_bit by lia.
  rewrite bool_decide_eq_true_2 by done. unfold K_PRESTART, wakeable.
  change (Z.testbit (Z.shiftl 1 14) 13) with false. change (Z.testbit (Z.shiftl 1 14) 14) with true.
  change (Z.testbit (Z.shiftl 1 14) 15) with false. change (Z.testbit (Z.shiftl 1 14) 16) with false.
  change (Z.testbit (Z.shiftl 1 14) 17) with false. rewrite H13. cbn [negb andb].
  rewrite !andb_true_r, andb_false_r. cbn [_reset_thread_states upd_thread timeouts set_threads].
  rewrite Hd.
  destruct (fbit k t 15), (fbit k t 16), (fbit k t 17); naive_solver.
Qed.

(** Waking a floating thread. *)
Lemma wake_float K k t :
  kernel_wf K (Some t) k ->
  exists k', wake t k = Some k' /\ kernel_wf K None k' /\ woken t k k'.
Proof.
  intros Hwf. destruct (kw_float K _ k Hwf t eq_refl) as (HK & Hnr & Hnp). unfold wake.
  destruct (abort_thread_timeout_wf K (Some t) k t)
    as (r & k1 & -> & Hwf1 & Hd & _ & _ & Hq & Hs & Hto); [done|by right|done..|].
  destruct (timeouts_only_fields _ _ Hto) as (Et & _ & _ & _ & Ew & Ec & Ei & El & _).
  assert (Ef : forall n, fbit k1 t n = fbit k t n) by (intros; unfold fbit; by rewrite Et).
  destruct (ready_thread_wf K k1 t Hwf1 Hd) as (k2 & -> & Hwf2 & Hor & El2).
  destruct Hor as (Ew2 & Eq2 & Eto2 & Ec2 & Ei2 & Hne & f & Hf).
  exists k2. split_and!; [done..|]. split.
  - intros w. rewrite Ew2, Ew. symmetry. apply remove_node_not_in. by eapply float_not_waiting.
  - rewrite El2, started_ready_iff by (done || by rewrite Ef, <- pending_bit).
    unfold wakeable. rewrite !Ef, El. unfold thread_prio. by rewrite Et.
  - by rewrite Eq2.
  - unfold schedule in *. by rewrite Eq2, Eto2.
  - congruence.
  - congruence.
  - intros x Hx. rewrite Hne by done. by rewrite Et.
  - exists f. by rewrite Hf, Et.
Qed.

(** Waking a waiting thread: off its wait queue, timeout cancelled, ready. *)
Lemma wake_waiting K k t w :
  kernel_wf K None k -> t ∈ wait_qs k w ->
  exists k', wake t (unpend t k) = Some k' /\ kernel_wf K None k' /\ woken t k k'.
Proof.
  intros Hwf Hw. pose proof (unpend_wf K k t w Hwf Hw) as Hwf1.
  destruct (wake_float K (unpend t k) t Hwf1) as (k' & E & Hwf' & Hwo).
  exists k'. split_and!; [done..|].
  assert (El : ready_list (unpend t k) = ready_list k).
  { unfold ready_list. by rewrite (unpend_ready_list K None k t w). }
  assert (Ep : forall x, thread_prio (unpend t k) x = thread_prio k x).
  { intros x. unfold thread_prio. simpl. unfold alter, fn_alter. by case_decide; subst. }
  assert (Ewk : wakeable (unpend t k) t = wakeable k t).
  { unfold wakeable, unpend, _mark_thread_as_not_pending. rewrite !reset_states_bit by lia.
    change (Z.testbit K_PENDING 15) with false. change (Z.testbit K_PENDING 16) with false.
    change (Z.testbit K_PENDING 17) with false. rewrite !andb_false_r. cbn [negb].
    by rewrite !andb_true_r. }
  destruct Hwo as [Hw' Hr Hq Hs Hc Hi Ht [f Hf]]. split; try done.
  - intros w'. rewrite Hw'. simpl. apply remove_node_not_in. rewrite elem_of_remove_node. tauto.
  - rewrite Hr, Ewk, El. destruct (wakeable k t); [|done]. by apply prio_insert_ext.
  - intros x Hx. rewrite Ht by done. by apply fn_lookup_alter_ne.
  - rewrite Hf. simpl. rewrite fn_lookup_alter. unfold with_flags at 2. simpl.
    exists (fun z => f (Z.land z (Z.lnot K_PENDING))). by destruct (threads k t).
Qed.

Lemma woken_elem t k k' x : woken t k k' -> x ∈ ready_list k -> x ∈ ready_list k'.
Proof.
  intros [_ -> _ _ _ _ _ _] Hx. destruct (wakeable k t); [|done].
  apply elem_of_prio_insert. by right.
Qed.
End Switching.
