(* ===== verification/SchedApi.v ===== *)
(** * The thread services of sched.c

    Blocking the current thread, sleeping, waking, yielding, locking the
    scheduler and changing priorities: each succeeds on a well-formed kernel
    running a thread, and hands the processor to the right thread. *)
From S2P Require Import Prelude Kernel ReadyQ TimeoutQ Sched SchedInv.

(** A kernel between two calls of a running thread: the current thread and the
    idle thread are ready. *)
Record running `{KConfig} (K : toid -> Prop) (k : kernel) : Prop := {
  ru_wf : kernel_wf K None k;
  ru_current : current k ∈ ready_list k;
  ru_idle : _idle_thread ∈ ready_list k
}.

(** How a call that may block ends: it returns a value, or the thread is
    switched out and the call will return, when the thread runs again, the value
    [swap_return_value] then holds. *)
Inductive outcome (A : Type) :=
| Returns (v : A)
| Blocks.
Arguments Returns {A} v.
Arguments Blocks {A}.

Section Running.
Context `{KConfig}.
Implicit Types (k : kernel) (t x c : tid) (w : wqid) (K : toid -> Prop).

Lemma head_of k t : t ∈ ready_list k -> exists c, head (ready_list k) = Some c.
Proof. destruct (ready_list k) as [|c l]; [by intros ?%elem_of_nil|eauto]. Qed.

Lemma head_elem k c : head (ready_list k) = Some c -> c ∈ ready_list k.
Proof. destruct (ready_list k) as [|x l]; [done|]. intros [= ->]. apply elem_of_cons. by left. Qed.

Lemma running_head K k : running K k -> exists c, head (ready_list k) = Some c.
Proof. intros Hru. exact (head_of k _ (ru_current K k Hru)). Qed.

(** Rescheduling keeps the kernel running, and leaves a thread that may be
    preempted on the processor only if no ready thread is more urgent. *)
Definition no_more_urgent k : Prop :=
  _is_preempt (threads k (current k)) = true ->
  forall x, x ∈ ready_list k -> thread_prio k (current k) <= thread_prio k x.

Lemma same_queues_preempt k k' x :
  same_queues k k' -> _is_preempt (threads k' x) = _is_preempt (threads k x).
Proof. intros [_ _ _ _ _ Ht]. by destruct (Ht x) as [v ->]. Qed.

Lemma preempted_current K X k k' c :
  kernel_wf K X k -> head (ready_list k) = Some c -> same_queues k k' ->
  current k' = (if must_preempt k c then c else current k) -> no_more_urgent k'.
Proof.
  intros Hwf Hh Hsq Hc Hp x Hx. rewrite (same_queues_ready k k' Hsq) in Hx.
  rewrite !(same_queues_prio k k' _ Hsq).
  pose proof (ready_head_highest k c x (kw_rq K X k Hwf) Hh Hx) as Hle.
  rewrite (same_queues_preempt k k' _ Hsq) in Hp. unfold must_preempt in *.
  rewrite Hc in *. destruct (_is_preempt (threads k (current k))) eqn:E; simpl in *.
  - destruct (Z.ltb_spec (thread_prio k c) (thread_prio k (current k))); [done|lia].
  - congruence.
Qed.

Lemma running_same_queues K k k' c :
  running K k -> head (ready_list k) = Some c -> kernel_wf K None k' -> same_queues k k' ->
  current k' = c \/ current k' = current k -> running K k'.
Proof.
  intros Hru Hh Hwf' Hsq Hc. split; rewrite ?(same_queues_ready k k' Hsq); [done| |apply (ru_idle K k Hru)].
  destruct Hc as [-> | ->]; [by apply head_elem|apply (ru_current K k Hru)].
Qed.

Lemma reschedule_running K k :
  running K k ->
  exists k', _reschedule_threads k = Some k' /\ running K k' /\ same_queues k k' /\
    no_more_urgent k'.
Proof.
  intros Hru. destruct (running_head K k Hru) as [c Hh].
  destruct (reschedule_wf K None k c (ru_wf K k Hru) Hh) as (k' & -> & Hwf' & Hsq & Hc).
  exists k'. split_and!; [done| |done|by eapply preempted_current; [apply (ru_wf K k Hru)|..]].
  eapply running_same_queues; try done. destruct (must_preempt k c); auto.
Qed.

Lemma swap_if_needed_running K k :
  running K k ->
  exists k', swap_if_needed k = Some k' /\ running K k' /\ same_queues k k' /\
    (in_isr k = false -> no_more_urgent k') /\ (in_isr k = true -> k' = k).
Proof.
  intros Hru. unfold swap_if_needed, must_switch_if_not_isr. destruct (in_isr k) eqn:Ei; simpl.
  - exists k. split_and!; try done. apply same_queues_refl.
  - destruct (reschedule_running K k Hru) as (k' & ? & ? & ? & ?). by exists k'.
Qed.

Lemma running_woken K t k k' :
  running K k -> kernel_wf K None k' -> woken t k k' -> running K k'.
Proof.
  intros Hru Hwf' Hwo. split; [done| |].
  - rewrite (wo_current t k k' Hwo). apply (woken_elem t k k' _ Hwo), (ru_current K k Hru).
  - apply (woken_elem t k k' _ Hwo), (ru_idle K k Hru).
Qed.

Lemma running_return_value K k t v :
  running K k -> running K (_set_thread_return_value t v k).
Proof. intros [???]. split; [by apply kernel_wf_return_value|done|done]. Qed.

Lemma running_with_data K k t v d :
  running K k -> running K (_set_thread_return_value_with_data t v d k).
Proof. intros [???]. split; [by apply kernel_wf_with_data|done|done]. Qed.

(** *** Blocking the current thread *)

(** [_pend_current_thread(wait_q, timeout); return _Swap(key);] *)
Definition block_current w (timeout : Z) k : option kernel :=
  k ← _pend_current_thread w timeout k; _Swap k.

Record blocked w (ms : Z) k k' : Prop := {
  bl_wait_q : wait_qs k' w = prio_insert (thread_prio k) (current k) (wait_qs k w);
  bl_wait_qs w' : w' <> w -> wait_qs k' w' = wait_qs k w';
  bl_ready : ready_list k' = remove_node (current k) (ready_list k);
  bl_next : head (ready_list k') = Some (current k');
  bl_value : swap_return_value (threads k' (current k)) = - EAGAIN;
  bl_threads x : x <> current k -> threads k' x = threads k x;
  bl_schedule : schedule k' =
    if ms =? K_FOREVER then schedule k
    else schedule_insert (TO_thread (current k)) (timeout_ticks ms) (schedule k);
  bl_in_isr : in_isr k' = in_isr k;
  bl_prio x : thread_prio k' x = thread_prio k x
}.

Lemma remove_threads_prio k t x : thread_prio (_remove_thread_from_ready_q t k) x = thread_prio k x.
Proof. unfold thread_prio. by destruct (remove_rest k t) as (-> & _). Qed.

Lemma ready_inactive K k t :
  kernel_wf K None k -> t ∈ ready_list k -> delta (timeouts k) (TO_thread t) = -1.
Proof. intros Hwf Ht. by destruct (kw_ready K None k Hwf t Ht) as [_ (_&_&_&_&_&?)%ready_bits]. Qed.

Lemma remove_schedule k t : schedule (_remove_thread_from_ready_q t k) = schedule k.
Proof. unfold schedule. by destruct (remove_rest k t) as (_ & -> & -> & _). Qed.

Lemma pend_threads_ne t w k x : x <> t -> threads (pend t w k) x = threads k x.
Proof. intros. by apply fn_lookup_alter_ne. Qed.

Lemma remove_leaves_idle K k t :
  running K k -> t <> _idle_thread ->
  _idle_thread ∈ ready_list (_remove_thread_from_ready_q t k).
Proof. intros Hru Hne. rewrite remove_ready_list, elem_of_remove_node. split; [done|apply (ru_idle K k Hru)]. Qed.

(** What [_pend_current_thread] leaves for [_Swap]. *)
Record pended K w (ms : Z) k k' : Prop := {
  pe_wf : kernel_wf K None k';
  pe_wait_q : wait_qs k' w = prio_insert (thread_prio k) (current k) (wait_qs k w);
  pe_wait_qs w' : w' <> w -> wait_qs k' w' = wait_qs k w';
  pe_ready : ready_list k' = remove_node (current k) (ready_list k);
  pe_threads x : x <> current k -> threads k' x = threads k x;
  pe_schedule : schedule k' =
    if ms =? K_FOREVER then schedule k
    else schedule_insert (TO_thread (current k)) (timeout_ticks ms) (schedule k);
  pe_current : current k' = current k;
  pe_in_isr : in_isr k' = in_isr k;
  pe_prio x : thread_prio k' x = thread_prio k x
}.

Lemma pend_current_pended K k w ms :
  running K k -> timeout_ok ms ->
  exists k', _pend_current_thread w ms k = Some k' /\ pended K w ms k k'.
Proof.
  intros Hru Hms. set (t := current k). unfold _pend_current_thread. fold t.
  pose proof (ru_wf K k Hru) as Hwf. pose proof (ru_current K k Hru) as Ht.
  destruct (remove_ready_wf K k t Hwf Ht) as [Hwf1 Ew1].
  pose proof (remove_ready_list k t) as El1. pose proof (remove_threads_prio k t) as Ep1.
  pose proof (remove_schedule k t) as Es1.
  destruct (remove_rest k t) as (Et1 & Eto1 & _ & Ec1 & Ei1).
  set (k1 := _remove_thread_from_ready_q t k) in *.
  destruct (pend_thread_wf K k1 t w ms Hwf1) as (k2 & -> & Hwf2 & Ew2 & Et2 & El2 & Ec2 & Ei2 & Es2);
    [rewrite Eto1; by eapply ready_inactive|done|].
  exists k2. split; [done|]. split; rewrite ?Ew2, ?pend_wait_qs, ?El2, ?El1; try done.
  - rewrite decide_True, Ew1 by done. by apply prio_insert_ext.
  - intros w' Hw'. rewrite pend_wait_qs, decide_False by done. apply Ew1.
  - intros x Hx. rewrite Et2, pend_threads_ne by done. by rewrite Et1.
  - unfold schedule in *. rewrite Es2. fold (schedule k1). by rewrite <- Es1.
  - congruence.
  - congruence.
  - intros x. rewrite <- Ep1. unfold thread_prio. rewrite Et2. simpl.
    unfold alter, fn_alter. by case_decide; subst.
Qed.

(** A field of the blocking thread that the scheduler ignores may be set
    before it is switched out. *)
Lemma pended_upd K w ms k k' g :
  pended K w ms k k' -> (forall th, flags (g th) = flags th /\ prio (g th) = prio th) ->
  pended K w ms k (upd_thread (current k) g k').
Proof.
  intros [P1 P2 P3 P4 P5 P6 P7 P8 P9] Hg. split; try done.
  - by apply kernel_wf_upd_thread.
  - intros x Hx. cbn. rewrite fn_lookup_alter_ne by done. by apply P5.
  - intros x. rewrite <- P9. unfold thread_prio, upd_thread. cbn [threads set_threads].
    unfold alter, fn_alter. case_decide; subst; [apply Hg|done].
Qed.

Lemma swap_pended K w ms k k' :
  running K k -> current k <> _idle_thread -> pended K w ms k k' ->
  exists k'', _Swap k' = Some k'' /\ running K k'' /\ blocked w ms k k'' /\
    threads k'' (current k) = with_return_value (- EAGAIN) (threads k' (current k)).
Proof.
  intros Hru Hidle [P1 P2 P3 P4 P5 P6 P7 P8 P9].
  assert (_idle_thread ∈ ready_list k') as Hid
    by (rewrite P4, elem_of_remove_node; split; [done|apply (ru_idle K k Hru)]).
  destruct (head_of k' _ Hid) as [c Hc].
  destruct (swap_wf K None k' c P1 Hc) as (k3 & -> & Hwf3 & Hsq & Ec3 & Hv & Hne).
  pose proof (same_queues_ready _ _ Hsq) as El3. rewrite P7 in Hv, Hne.
  exists k3. split_and!; try done.
  - split; [done|rewrite El3, Ec3; by apply head_elem|by rewrite El3].
  - split; rewrite ?El3, ?(sq_wait_qs _ _ Hsq); try done.
    + by rewrite Ec3.
    + by rewrite Hv.
    + intros x Hx. rewrite Hne by done. auto.
    + rewrite <- P6. unfold schedule. by rewrite (sq_timeouts _ _ Hsq), (sq_timeout_q _ _ Hsq).
    + by rewrite (sq_in_isr _ _ Hsq).
    + intros x. by rewrite (same_queues_prio _ _ x Hsq).
Qed.

Lemma block_current_running K k w ms :
  running K k -> current k <> _idle_thread -> timeout_ok ms ->
  exists k', block_current w ms k = Some k' /\ running K k' /\ blocked w ms k k'.
Proof.
  intros Hru Hidle Hms. unfold block_current.
  destruct (pend_current_pended K k w ms Hru Hms) as (k1 & -> & Hp). cbn [mbind option_bind].
  destruct (swap_pended K w ms k k1 Hru Hidle Hp) as (k2 & -> & ? & ? & _). by exists k2.
Qed.

(** Pending changes nothing of the thread but its flags. *)
Lemma pend_thread_self t w k :
  threads (pend t w k) t = with_flags (fun f => Z.lor f K_PENDING) (threads k t).
Proof. unfold pend. cbn. by rewrite fn_lookup_alter. Qed.

Lemma pend_current_self K k w ms k' :
  running K k -> timeout_ok ms -> _pend_current_thread w ms k = Some k' ->
  exists f, threads k' (current k) = with_flags f (threads k (current k)).
Proof.
  intros Hru Hms. set (t := current k). unfold _pend_current_thread. fold t.
  pose proof (ru_wf K k Hru) as Hwf. pose proof (ru_current K k Hru) as Ht.
  destruct (remove_ready_wf K k t Hwf Ht) as [Hwf1 _].
  destruct (remove_rest k t) as (Et1 & Eto1 & _).
  set (k1 := _remove_thread_from_ready_q t k) in *.
  destruct (pend_thread_wf K k1 t w ms Hwf1) as (k2 & -> & _ & _ & Et2 & _);
    [rewrite Eto1; by eapply ready_inactive|done|]. intros [= <-].
  rewrite Et2, pend_thread_self, Et1. by eexists.
Qed.

Lemma blocked_upd_before w ms g k k' :
  (forall th, prio (g th) = prio th) ->
  blocked w ms (upd_thread (current k) g k) k' -> blocked w ms k k'.
Proof.
  intros Hg [B1 B2 B3 B4 B5 B6 B7 B8 B9]. set (k0 := upd_thread (current k) g k) in *.
  assert (Hp0 : forall x, thread_prio k0 x = thread_prio k x).
  { intros x. unfold thread_prio, k0. cbn. unfold alter, fn_alter. case_decide; subst; [apply Hg|done]. }
  split; try done.
  - rewrite B1. apply prio_insert_ext. intros; apply Hp0.
  - intros x Hx. rewrite B6 by done. unfold k0. cbn. by rewrite fn_lookup_alter_ne.
  - intros x. by rewrite B9.
Qed.

(** A thread that sets fields of its own, which the scheduler ignores, and then
    blocks. *)
Lemma block_after_upd K k w ms g :
  running K k -> current k <> _idle_thread -> timeout_ok ms ->
  (forall th, flags (g th) = flags th /\ prio (g th) = prio th) ->
  exists k', block_current w ms (upd_thread (current k) g k) = Some k' /\ running K k' /\
    blocked w ms k k' /\
    swap_data (threads k' (current k)) = swap_data (g (threads k (current k))).
Proof.
  intros Hru Hidle Hms Hg. set (k0 := upd_thread (current k) g k).
  assert (running K k0) as Hru0 by (destruct Hru; split; [by apply kernel_wf_upd_thread|done|done]).
  unfold block_current. destruct (pend_current_pended K k0 w ms Hru0 Hms) as (k1 & E1 & Hp).
  destruct (pend_current_self K k0 w ms k1 Hru0 Hms E1) as [f Hf]. rewrite E1. cbn [mbind option_bind].
  destruct (swap_pended K w ms k0 k1 Hru0 Hidle Hp) as (k2 & -> & Hru2 & Hb & Ht).
  exists k2. split_and!; [done|done| |].
  - eapply blocked_upd_before; [|exact Hb]. intros th. apply Hg.
  - change (current k) with (current k0). rewrite Ht, Hf. unfold k0. cbn. by rewrite fn_lookup_alter.
Qed.

(** [_pend_current_thread(wait_q, timeout); _current->base.swap_data = data;
    return _Swap(key);] *)
Definition block_current_with_data w (data timeout : Z) k : option kernel :=
  k ← _pend_current_thread w timeout k;
  _Swap (upd_thread (current k) (with_swap_data data) k).

Lemma block_with_data_running K k w ms data :
  running K k -> current k <> _idle_thread -> timeout_ok ms ->
  exists k', block_current_with_data w data ms k = Some k' /\ running K k' /\ blocked w ms k k' /\
    swap_data (threads k' (current k)) = data.
Proof.
  intros Hru Hidle Hms. unfold block_current_with_data.
  destruct (pend_current_pended K k w ms Hru Hms) as (k1 & -> & Hp). cbn [mbind option_bind].
  pose proof (pended_upd K w ms k k1 (with_swap_data data) Hp ltac:(done)) as Hp2.
  rewrite (pe_current _ _ _ _ _ Hp).
  destruct (swap_pended K w ms k _ Hru Hidle Hp2) as (k2 & -> & ? & ? & Ht). exists k2.
  split_and!; try done. rewrite Ht. cbn. by rewrite fn_lookup_alter.
Qed.

Lemma prio_sorted_ext (p1 p2 : tid -> Z) l :
  (forall x, p1 x = p2 x) -> prio_sorted p1 l -> prio_sorted p2 l.
Proof.
  intros Hp. unfold prio_sorted. induction 1 as [|x l Hs IH Hall]; constructor; [done|].
  apply Forall_forall. intros y Hy. rewrite <- !Hp. by eapply Forall_forall in Hall.
Qed.

(** Blocking keeps a wait queue sorted by priority. *)
Lemma blocked_sorted w ms k k' :
  blocked w ms k k' -> prio_sorted (thread_prio k) (wait_qs k w) ->
  prio_sorted (thread_prio k') (wait_qs k' w).
Proof.
  intros Hb Hs. rewrite (bl_wait_q _ _ _ _ Hb).
  apply (prio_sorted_ext (thread_prio k)); [intros; by rewrite (bl_prio _ _ _ _ Hb)|].
  by apply prio_insert_sorted.
Qed.

(** *** Sleeping *)
Record asleep (ms : Z) k k' : Prop := {
  as_ready : ready_list k' = remove_node (current k) (ready_list k);
  as_next : head (ready_list k') = Some (current k');
  as_wait_qs : forall w, wait_qs k' w = wait_qs k w;
  as_schedule : schedule k' =
    schedule_insert (TO_thread (current k)) (timeout_ticks ms) (schedule k)
}.

Lemma k_sleep_running K k ms :
  running K k -> in_isr k = false -> current k <> _idle_thread ->
  ms <> K_FOREVER -> ms <> 0 -> timeout_ok ms ->
  exists k', k_sleep ms k = Some k' /\ running K k' /\ asleep ms k k'.
Proof.
  intros Hru Hisr Hidle Hf H0 Hms. unfold k_sleep. rewrite Hisr.
  rewrite (proj2 (Z.eqb_neq _ _) Hf), (proj2 (Z.eqb_neq _ _) H0). cbn [orb].
  set (t := current k). fold (timeout_ticks ms).
  pose proof (ru_wf K k Hru) as Hwf. pose proof (ru_current K k Hru) as Ht.
  destruct (remove_ready_wf K k t Hwf Ht) as [Hwf1 Ew1].
  pose proof (remove_leaves_idle K k t Hru Hidle) as Hid1.
  pose proof (remove_ready_list k t) as El1. pose proof (remove_schedule k t) as Es1.
  destruct (remove_rest k t) as (Et1 & Eto1 & Etq1 & Ec1 & Ei1).
  set (k1 := _remove_thread_from_ready_q t k) in *.
  destruct (kw_float K _ k1 Hwf1 t eq_refl) as (HK & Hnr & _).
  destruct Hms as [?|Hms]; [done|].
  destruct (add_thread_timeout_wf K (Some t) k1 t None (timeout_ticks ms))
    as (k2 & -> & Hwf2 & Hs & _ & Hto); [done|by right|done..| |done| |].
  { rewrite Etq1. apply (inactive_not_queued K None k); [done|]. by eapply ready_inactive. }
  { intros w. split; [done|]. intros Hw. by destruct (float_not_waiting K _ k1 t w Hwf1 eq_refl). }
  destruct (timeouts_only_fields _ _ Hto) as (_ & _ & _ & _ & Ew & _ & _ & El & _). simpl.
  rewrite <- El in Hid1. destruct (head_of k2 _ Hid1) as [c Hc].
  destruct (swap_wf K None k2 c Hwf2 Hc) as (k3 & -> & Hwf3 & Hsq & Ec3 & _ & _).
  pose proof (same_queues_ready _ _ Hsq) as El3.
  exists k3. split_and!; [done| |].
  - split; [done|rewrite El3, Ec3; by apply head_elem|by rewrite El3].
  - split.
    + by rewrite El3, El.
    + by rewrite El3, Ec3.
    + intros w. rewrite (sq_wait_qs _ _ Hsq), Ew. apply Ew1.
    + unfold schedule in *. rewrite (sq_timeouts _ _ Hsq), (sq_timeout_q _ _ Hsq), Hs.
      by rewrite Es1.
Qed.

(** *** Yielding *)
Lemma move_rest k t :
  threads (_move_thread_to_end_of_prio_q t k) = threads k /\
  timeouts (_move_thread_to_end_of_prio_q t k) = timeouts k /\
  timeout_q (_move_thread_to_end_of_prio_q t k) = timeout_q k /\
  current (_move_thread_to_end_of_prio_q t k) = current k /\
  in_isr (_move_thread_to_end_of_prio_q t k) = in_isr k /\
  (wait_qs (_move_thread_to_end_of_prio_q t k) = wait_qs k \/
   wait_qs (_move_thread_to_end_of_prio_q t k) = fun w => remove_node t (wait_qs k w)).
Proof.
  unfold _move_thread_to_end_of_prio_q. destruct (bool_decide _); [|simpl; tauto].
  split_and!; [done..|by left].
Qed.

Lemma reinsert_elem (pr : tid -> Z) t x l :
  t ∈ l -> (x ∈ prio_insert pr t (remove_node t l) <-> x ∈ l).
Proof.
  intros Ht. rewrite elem_of_prio_insert, elem_of_remove_node.
  destruct (decide (x = t)) as [->|]; naive_solver.
Qed.

Lemma move_ready_wf K k t :
  kernel_wf K None k -> t ∈ ready_list k ->
  kernel_wf K None (_move_thread_to_end_of_prio_q t k) /\
  forall w, wait_qs (_move_thread_to_end_of_prio_q t k) w = wait_qs k w.
Proof.
  intros Hwf Ht. destruct (move_rest k t) as (E1 & E2 & E3 & E4 & E5 & E6).
  pose proof (move_ready_list k t (kw_rq K _ k Hwf) Ht) as El.
  pose proof (move_wf k t (kw_rq K _ k Hwf) Ht) as Hrq'.
  assert (Ew : forall w, wait_qs (_move_thread_to_end_of_prio_q t k) w = wait_qs k w).
  { intros w. destruct E6 as [->| ->]; [done|]. apply remove_node_not_in. by eapply ready_not_waiting. }
  split; [|done]. set (k' := _move_thread_to_end_of_prio_q t k) in *.
  assert (Hin : forall x, x ∈ ready_list k' <-> x ∈ ready_list k)
    by (intros x; rewrite El; by apply reinsert_elem).
  destruct Hwf as [Hrq Htq H3 H4 H5 H6 H7 H8 H9 H10 H11 H12 H13].
  split; rewrite ?E3, ?E2; try done.
  - by apply (tq_wf_ext K k).
  - intros x. destruct (same_flags k k' x E1 E2) as (_ & _ & ->). apply H4.
  - intros x. rewrite Hin. destruct (same_flags k k' x E1 E2) as (-> & _ & _). apply H5.
  - intros x. rewrite Hin. destruct (same_flags k k' x E1 E2) as (-> & _ & _). apply H6.
  - intros x w. rewrite Ew. destruct (same_flags k k' x E1 E2) as (_ & -> & _). apply H7.
  - intros w. rewrite Ew. apply H8.
  - intros w1 w2 x. rewrite !Ew. apply H9.
  - intros x. destruct (same_flags k k' x E1 E2) as (_ & -> & _). setoid_rewrite Ew. apply H10.
  - intros x w. rewrite Ew. apply H12.
Qed.

Lemma running_moved K k t :
  running K k -> t ∈ ready_list k -> running K (_move_thread_to_end_of_prio_q t k).
Proof.
  intros Hru Ht. destruct (move_ready_wf K k t (ru_wf K k Hru) Ht) as [Hwf' _].
  destruct (move_rest k t) as (_ & _ & _ & Ec & _).
  pose proof (move_ready_list k t (kw_rq K _ k (ru_wf K k Hru)) Ht) as El.
  split; [done|rewrite El, Ec|rewrite El]; apply reinsert_elem; try done;
    [apply (ru_current K k Hru)|apply (ru_idle K k Hru)].
Qed.

Lemma k_yield_running K k :
  running K k -> in_isr k = false ->
  exists k', k_yield k = Some k' /\ running K k' /\
    ready_list k' =
      prio_insert (thread_prio k) (current k) (remove_node (current k) (ready_list k)) /\
    head (ready_list k') = Some (current k').
Proof.
  intros Hru Hisr. unfold k_yield. rewrite Hisr.
  pose proof (running_moved K k _ Hru (ru_current K k Hru)) as Hru1.
  pose proof (move_ready_list k _ (kw_rq K _ k (ru_wf K k Hru)) (ru_current K k Hru)) as El1.
  set (k1 := _move_thread_to_end_of_prio_q (current k) k) in *.
  destruct (running_head K k1 Hru1) as [c Hc].
  destruct (next_ready_wf K None k1 c (ru_wf K k1 Hru1) Hc) as (k2 & -> & Hwf2 & Hsq & Ec2 & _).
  cbn [mbind option_bind fst snd]. pose proof (same_queues_ready _ _ Hsq) as El2.
  destruct (decide (current k1 = c)) as [<-|Hne].
  - exists k2. split_and!; [done| |by rewrite El2|by rewrite El2, Ec2].
    eapply (running_same_queues K k1 k2); eauto.
  - assert (head (ready_list k2) = Some c) as Hc2 by by rewrite El2.
    assert (running K k2) as Hru2 by (eapply (running_same_queues K k1 k2); eauto).
    destruct (swap_wf K None k2 c Hwf2 Hc2) as (k3 & -> & Hwf3 & Hsq3 & Ec3 & _ & _).
    pose proof (same_queues_ready _ _ Hsq3) as El3.
    exists k3. split_and!; [done| |by rewrite El3, El2|by rewrite El3, Ec3].
    eapply (running_same_queues K k2 k3); eauto.
Qed.

(** *** Priorities *)

(** The priority of a thread off the ready queue may change freely. *)
Lemma set_prio_wf K X k t p :
  kernel_wf K X k -> t ∉ ready_list k -> prio_ok t p ->
  kernel_wf K X (upd_thread t (with_prio p) k).
Proof.
  intros Hwf Hnr Hp. set (k' := upd_thread t (with_prio p) k).
  assert (Ef : forall x, flags (threads k' x) = flags (threads k x)).
  { intros x. unfold k', upd_thread. simpl. unfold alter, fn_alter. by case_decide; subst. }
  assert (Hr : forall x, _is_thread_ready x k' = _is_thread_ready x k).
  { intros x. unfold _is_thread_ready, _is_thread_prevented_from_running. by rewrite Ef. }
  assert (Hpe : forall x, _is_thread_pending x k' = _is_thread_pending x k)
    by (intros x; unfold _is_thread_pending; by rewrite Ef).
  assert (Ene : forall x, x <> t -> thread_prio k' x = thread_prio k x).
  { intros x Hx. unfold thread_prio, k', upd_thread. simpl. by rewrite fn_lookup_alter_ne. }
  destruct Hwf as [Hrq Htq H3 H4 H5 H6 H7 H8 H9 H10 H11 H12 H13].
  split; try done.
  - apply (rq_wf_ext k); [done..|]. intros x Hx. apply Ene. by intros ->.
  - by apply (tq_wf_ext K k).
  - intros x HK. destruct (decide (x = t)) as [->|Hne]; [|rewrite Ene by done; by apply H4].
    unfold thread_prio, k', upd_thread. simpl. by rewrite fn_lookup_alter.
  - intros x. rewrite Hr. apply H5.
  - intros x. rewrite Hr. apply H6.
  - intros x w. rewrite Hpe. apply H7.
  - intros x. rewrite Hpe. apply H10.
  - intros x. rewrite Hpe. apply H13.
Qed.

Lemma unready_not_listed K X k t :
  kernel_wf K X k -> _is_thread_ready t k = false -> t ∉ ready_list k.
Proof. intros Hwf Hr Hin. destruct (kw_ready K X k Hwf t Hin). congruence. Qed.

(** The thread goes to the end of its new priority if it is ready, and nothing
    else moves. *)
Lemma thread_priority_set_wf K k t p :
  kernel_wf K None k -> K (TO_thread t) -> prio_ok t p ->
  kernel_wf K None (_thread_priority_set t p k) /\
  ready_list (_thread_priority_set t p k) =
    (if _is_thread_ready t k
     then prio_insert (<[t := p]> (thread_prio k)) t (remove_node t (ready_list k))
     else ready_list k) /\
  (forall w, wait_qs (_thread_priority_set t p k) w = wait_qs k w).
Proof.
  intros Hwf HK Hp. unfold _thread_priority_set. destruct (_is_thread_ready t k) eqn:Er.
  - pose proof (kw_ready_conv K None k Hwf t HK ltac:(done) Er) as Ht.
    destruct (remove_ready_wf K k t Hwf Ht) as [Hwf1 Ew1].
    pose proof (remove_ready_list k t) as El1. destruct (remove_rest k t) as (Et1 & Eto1 & _).
    set (k1 := _remove_thread_from_ready_q t k) in *.
    destruct (kw_float K _ k1 Hwf1 t eq_refl) as (_ & Hnr1 & _).
    pose proof (set_prio_wf K _ k1 t p Hwf1 Hnr1 Hp) as Hwf2.
    set (k2 := upd_thread t (with_prio p) k1) in *.
    assert (_is_thread_ready t k2 = true) as Er2.
    { unfold _is_thread_ready, _is_thread_prevented_from_running, _is_thread_timeout_active in *.
      change (timeouts k2) with (timeouts k1). rewrite Eto1.
      assert (flags (threads k2 t) = flags (threads k t)) as ->; [|done].
      unfold k2, upd_thread. cbn [threads set_threads]. by rewrite fn_lookup_alter, Et1. }
    destruct (add_ready_wf K k2 t Hwf2 Er2) as [Hwf3 El3].
    split_and!; [done| |done]. rewrite El3. change (ready_list k2) with (ready_list k1). rewrite El1.
    apply prio_insert_ext. intros x _. unfold thread_prio, k2, upd_thread.
    cbn [threads set_threads]. rewrite Et1.
    unfold alter, fn_alter, insert, fn_insert. by destruct (decide (t = x)).
  - split_and!; [|done|done]. apply set_prio_wf; [done|by eapply unready_not_listed|done].
Qed.

Lemma priority_set_listed K k t p x :
  kernel_wf K None k -> K (TO_thread t) -> prio_ok t p ->
  (x ∈ ready_list (_thread_priority_set t p k) <-> x ∈ ready_list k).
Proof.
  intros Hwf HK Hp. destruct (thread_priority_set_wf K k t p Hwf HK Hp) as (_ & -> & _).
  destruct (_is_thread_ready t k) eqn:Er; [|done]. apply reinsert_elem.
  by apply (kw_ready_conv K None k Hwf).
Qed.

Lemma priority_set_fields k t p :
  current (_thread_priority_set t p k) = current k /\ in_isr (_thread_priority_set t p k) = in_isr k /\
  schedule (_thread_priority_set t p k) = schedule k.
Proof.
  unfold _thread_priority_set. destruct (_is_thread_ready t k); [|done].
  unfold schedule, _remove_thread_from_ready_q. simpl. by destruct (bool_decide _).
Qed.

Lemma priority_set_running K k t p :
  running K k -> K (TO_thread t) -> prio_ok t p -> running K (_thread_priority_set t p k).
Proof.
  intros [Hwf Hc Hi] HK Hp. destruct (thread_priority_set_wf K k t p Hwf HK Hp) as (? & _ & _).
  destruct (priority_set_fields k t p) as (Ec & _).
  split; [done|rewrite Ec|]; by rewrite (priority_set_listed K).
Qed.

Lemma valid_prio_ok t p : _ASSERT_VALID_PRIO p = true -> prio_ok t p.
Proof.
  unfold _ASSERT_VALID_PRIO, _is_prio_higher_or_equal, _is_prio_lower_or_equal, prio_ok,
    K_LOWEST_APPLICATION_THREAD_PRIO, K_HIGHEST_APPLICATION_THREAD_PRIO.
  rewrite andb_true_iff, Z.leb_le, Z.geb_le. lia.
Qed.

Lemma k_thread_priority_set_running K k t p :
  running K k -> in_isr k = false -> K (TO_thread t) -> _ASSERT_VALID_PRIO p = true ->
  exists k', k_thread_priority_set t p k = Some k' /\ running K k' /\ no_more_urgent k'.
Proof.
  intros Hru Hisr HK Hp. unfold k_thread_priority_set. rewrite Hisr, Hp. cbn [andb negb].
  destruct (reschedule_running K (_thread_priority_set t p k)) as (k' & ? & ? & _ & ?);
    [|by exists k'].
  apply priority_set_running; [done|done|by apply valid_prio_ok].
Qed.

(** *** The scheduler lock *)
Lemma running_sched_locked K k f :
  running K k -> running K (upd_thread (current k) (with_sched_locked f) k).
Proof. intros [Hwf Hc Hi]. split; [by apply kernel_wf_upd_thread|done|done]. Qed.

Lemma k_sched_lock_running K k :
  running K k -> in_isr k = false -> exists k', k_sched_lock k = Some k' /\ running K k'.
Proof.
  intros Hru Hisr. unfold k_sched_lock. rewrite Hisr. eexists. split; [done|].
  by apply running_sched_locked.
Qed.

Lemma k_sched_unlock_running K k :
  running K k -> in_isr k = false -> 0 < sched_locked (threads k (current k)) ->
  exists k', k_sched_unlock k = Some k' /\ running K k' /\ no_more_urgent k'.
Proof.
  intros Hru Hisr Hl. unfold k_sched_unlock. rewrite Hisr, (proj2 (Z.ltb_lt _ _) Hl).
  cbn [andb negb]. destruct (reschedule_running K (_sched_unlock_no_reschedule k))
    as (k' & ? & ? & _ & ?); [by apply running_sched_locked|by exists k'].
Qed.

(** The end of a section under the lock: the other threads stay as they are. *)
Lemma sched_unlock_done K k :
  running K k -> in_isr k = false -> 0 < sched_locked (threads k (current k)) ->
  exists k', k_sched_unlock k = Some k' /\ running K k' /\
    same_queues (_sched_unlock_no_reschedule k) k' /\ no_more_urgent k' /\
    forall x, x <> current k -> threads k' x = threads k x.
Proof.
  intros Hru Hisr Hl. unfold k_sched_unlock. rewrite Hisr, (proj2 (Z.ltb_lt _ _) Hl). cbn [andb negb].
  set (k1 := _sched_unlock_no_reschedule k).
  assert (running K k1) as Hru1 by (by apply running_sched_locked).
  destruct (running_head K k1 Hru1) as [c Hc].
  destruct (reschedule_running K k1 Hru1) as (k2 & E & Hru2 & Hsq & Hnu).
  exists k2. split_and!; try done. intros x Hx.
  assert (threads k1 x = threads k x) as <- by (unfold k1; cbn; by rewrite fn_lookup_alter_ne).
  unfold _reschedule_threads in E.
  rewrite (must_switch_eq K None k1 c (ru_wf K k1 Hru1) Hc) in E. cbn [mbind option_bind] in E.
  destruct (must_preempt k1 c); [|by injection E as <-].
  destruct (swap_wf K None k1 c (ru_wf K k1 Hru1) Hc) as (k3 & E3 & _ & _ & _ & _ & Hne).
  rewrite E in E3. injection E3 as <-. by apply Hne.
Qed.

(** *** Waking a sleeping thread *)
Lemma k_wakeup_running K k t :
  running K k -> K (TO_thread t) ->
  exists k', k_wakeup t k = Some k' /\ running K k' /\
    (forall w, wait_qs k' w = wait_qs k w) /\
    schedule k' = (if _is_thread_pending t k then schedule k
                   else schedule_remove (TO_thread t) (schedule k)).
Proof.
  intros Hru HK. pose proof (ru_wf K k Hru) as Hwf. unfold k_wakeup.
  destruct (_is_thread_pending t k) eqn:Hp; [by exists k|].
  destruct (decide (TO_thread t ∈ timeout_q k)) as [Hin|Hni].
  - assert (t ∉ ready_list k) as Hnr.
    { apply (unready_not_listed K None); [done|]. apply active_not_ready.
      by apply (active_iff K k _ (kw_tq K _ k Hwf)). }
    destruct (abort_thread_timeout_wf K None k t Hwf) as
      (r & k1 & -> & Hwf1 & Hd & Hr & _ & Hq & Hs & Hto); [by left|done..|].
    rewrite (proj2 Hr Hin). cbn [Z.ltb Z.compare].
    destruct (timeouts_only_fields _ _ Hto) as (_ & _ & _ & _ & Ew & Ec & _ & El & _).
    destruct (ready_thread_wf K k1 t Hwf1 Hd) as (k2 & -> & Hwf2 & Hor & El2).
    destruct Hor as (Ew2 & Eq2 & Eto2 & Ec2 & _). cbn [mbind option_bind].
    assert (running K k2) as Hru2.
    { destruct Hru as [_ Hc0 Hi0]. split; [done|rewrite Ec2, Ec|];
        rewrite El2, El; case_match; rewrite ?elem_of_prio_insert; try done; by right. }
    assert (schedule k2 = schedule_remove (TO_thread t) (schedule k)) as Es2
      by (unfold schedule in *; by rewrite Eq2, Eto2).
    destruct (in_isr k2); [exists k2; split_and!; try done; intros; by rewrite Ew2, Ew|].
    destruct (reschedule_running K k2 Hru2) as (k3 & -> & ? & Hsq & _).
    exists k3. split_and!; [done|done| |].
    + intros w. by rewrite (sq_wait_qs _ _ Hsq), Ew2, Ew.
    + unfold schedule in *. by rewrite (sq_timeouts _ _ Hsq), (sq_timeout_q _ _ Hsq), Es2.
  - unfold _abort_thread_timeout. rewrite abort_timeout_inactive.
    + exists k. split_and!; try done. symmetry. by apply schedule_remove_not_in.
    + destruct (decide (delta (timeouts k) (TO_thread t) = -1)); [done|].
      exfalso. by apply Hni, (tq_known K k (kw_tq K _ k Hwf)).
Qed.

(** *** What every kernel object does with its wait queue *)

(** The first waiter of [w] wakes, and nothing else moves. *)
Lemma wake_first_running K k w t l :
  running K k -> wait_qs k w = t :: l ->
  exists k', wake t (unpend t k) = Some k' /\ running K k' /\ woken t k k' /\
    wait_qs k' w = l /\ (forall w', w' <> w -> wait_qs k' w' = wait_qs k w') /\ t <> current k.
Proof.
  intros Hru El. pose proof (ru_wf K k Hru) as Hwf.
  assert (Ht : t ∈ wait_qs k w) by (rewrite El; apply elem_of_cons; by left).
  destruct (wake_waiting K k t w Hwf Ht) as (k' & E & Hwf' & Hwo).
  exists k'. split_and!; [done|by eapply running_woken|done| | |].
  - rewrite (wo_wait_qs _ _ _ Hwo), El. apply remove_node_cons_eq.
    pose proof (kw_wq_nodup K None k Hwf w) as Hn. rewrite El in Hn. by apply NoDup_cons in Hn as [? _].
  - intros w' Hne. rewrite (wo_wait_qs _ _ _ Hwo). apply remove_node_not_in.
    intros Hin. by apply Hne, (kw_wq_disj K None k Hwf w' w t).
  - intros ->. by apply (ready_not_waiting K None k (current k) w Hwf (ru_current K k Hru)).
Qed.

Lemma same_queues_trans k1 k2 k3 : same_queues k1 k2 -> same_queues k2 k3 -> same_queues k1 k3.
Proof.
  intros [A1 A2 A3 A4 A5 A6] [B1 B2 B3 B4 B5 B6]. split; try congruence. intros x.
  destruct (A6 x) as [v1 E1], (B6 x) as [v2 E2]. exists v2. by rewrite E2, E1.
Qed.

(** Setting a waiter's result and switching if a more urgent thread is ready. *)
Lemma same_queues_result k t r :
  same_queues k (upd_thread t (with_result r) k).
Proof.
  split; try done. intros x. unfold upd_thread. cbn. unfold alter, fn_alter.
  case_decide; subst; [by eexists|]. eexists. symmetry. apply with_result_self.
Qed.

Lemma finish_running K k1 k t :
  running K k -> running K k1 -> same_queues k k1 -> current k1 = current k ->
  exists k', swap_if_needed k1 = Some k' /\ running K k' /\
    same_queues k k' /\ (in_isr k = false -> no_more_urgent k') /\
    (t <> current k -> threads k' t = threads k1 t).
Proof.
  intros Hru Hru1 Hsq1 Ec1. unfold swap_if_needed, must_switch_if_not_isr.
  rewrite (sq_in_isr _ _ Hsq1). destruct (in_isr k) eqn:Ei; cbn [mbind option_bind].
  { exists k1. by split_and!. }
  destruct (running_head K k1 Hru1) as [c Hc].
  rewrite (must_switch_eq K None k1 c (ru_wf K k1 Hru1) Hc). cbn [mbind option_bind].
  destruct (must_preempt k1 c) eqn:Em.
  - destruct (swap_wf K None k1 c (ru_wf K k1 Hru1) Hc) as (k2 & -> & Hwf2 & Hsq2 & Ec & _ & Hne).
    exists k2. split_and!; [done| | | |].
    + eapply (running_same_queues K k1 k2); eauto.
    + by eapply same_queues_trans.
    + intros _. eapply preempted_current; [apply (ru_wf K k1 Hru1)|done|done|]. by rewrite Em.
    + intros Ht. apply Hne. congruence.
  - exists k1. split_and!; try done. intros _.
    eapply (preempted_current K None k1 k1); [apply (ru_wf K k1 Hru1)|done|apply same_queues_refl|].
    by rewrite Em.
Qed.

(** The end of every wake-up: the waiter [t] of [k] gets its result, and the
    caller is switched out if it should be. *)
Lemma finish_value_running K k t v :
  running K k ->
  exists k', swap_if_needed (_set_thread_return_value t v k) = Some k' /\ running K k' /\
    same_queues k k' /\ (in_isr k = false -> no_more_urgent k') /\
    (t <> current k -> swap_return_value (threads k' t) = v).
Proof.
  intros Hru. destruct (finish_running K (_set_thread_return_value t v k) k t Hru)
    as (k' & E & Hru' & Hsq & Hnu & Ht); [by apply running_return_value| |done|].
  - split; try done. intros x. cbn. unfold alter, fn_alter. case_decide; subst.
    + exists (v, swap_data (threads k x)). done.
    + eexists. symmetry. apply with_result_self.
  - exists k'. split_and!; try done. intros Hne. rewrite (Ht Hne). cbn. by rewrite fn_lookup_alter.
Qed.

(** *** Waking a waiter whose result has been set first *)
Definition result_setter (g : thread -> thread) : Prop :=
  (forall th, flags (g th) = flags th /\ prio (g th) = prio th) /\
  (forall f th, g (with_flags f th) = with_flags f (g th)).

Lemma return_value_setter v : result_setter (with_return_value v).
Proof. done. Qed.

Lemma with_data_setter v d : result_setter (fun th => with_swap_data d (with_return_value v th)).
Proof. done. Qed.

Record handed w t l (g : thread -> thread) k k' : Prop := {
  ha_queue : wait_qs k' w = l;
  ha_others w' : w' <> w -> wait_qs k' w' = wait_qs k w';
  ha_ready : wakeable k t = true -> t ∈ ready_list k';
  ha_kept x : x ∈ ready_list k -> x ∈ ready_list k';
  ha_schedule : schedule k' = schedule_remove (TO_thread t) (schedule k);
  ha_current : current k' = current k;
  ha_isr : in_isr k' = in_isr k;
  ha_threads x : x <> t -> threads k' x = threads k x;
  ha_thread : exists f, threads k' t = with_flags f (g (threads k t))
}.

Lemma hand_first K k w t l g :
  running K k -> wait_qs k w = t :: l -> result_setter g ->
  exists k', wake t (upd_thread t g (unpend t k)) = Some k' /\ running K k' /\
    handed w t l g k k' /\ t <> current k.
Proof.
  intros Hru Eq [Hg Hc]. pose proof (ru_wf K k Hru) as Hwf.
  assert (Ht : t ∈ wait_qs k w) by (rewrite Eq; apply elem_of_cons; by left).
  pose proof (unpend_wf K k t w Hwf Ht) as Hwf1.
  pose proof (kernel_wf_upd_thread K (Some t) (unpend t k) t g Hg Hwf1) as Hwf2.
  set (k2 := upd_thread t g (unpend t k)) in *.
  assert (El : ready_list k2 = ready_list k).
  { change (ready_list (unpend t k) = ready_list k).
    unfold ready_list. by rewrite (unpend_ready_list K None k t w). }
  assert (Eb : forall n, n <> 13 -> 0 <= n -> fbit k2 t n = fbit k t n).
  { intros n Hn H0. unfold fbit, k2. cbn. rewrite fn_lookup_alter.
    destruct (Hg (alter (with_flags (fun f => Z.land f (Z.lnot K_PENDING))) t (threads k) t)) as [-> _].
    fold (fbit (unpend t k) t n). unfold unpend, _mark_thread_as_not_pending.
    change (fbit (_reset_thread_states t K_PENDING (remove_k_q_node t k)) t n = fbit k t n).
    rewrite reset_states_bit by done.
    assert (Z.testbit K_PENDING n = false) as ->.
    { change K_PENDING with (2 ^ 13). by apply Z.pow2_bits_false. }
    rewrite andb_false_r. apply andb_true_r. }
  destruct (wake_float K k2 t Hwf2) as (k3 & E3 & Hwf3 & Hwo).
  assert (Hkeep : forall x, x ∈ ready_list k -> x ∈ ready_list k3).
  { intros x Hx. apply (woken_elem t k2 k3 x Hwo). by rewrite El. }
  exists k3. split_and!; [done| | |].
  - destruct Hru as [_ Hcur Hid].
    split; [done|rewrite (wo_current _ _ _ Hwo); by apply Hkeep|by apply Hkeep].
  - destruct Hwo as [Hw Hr Hq Hs Hcu Hi Hth [f Hf]]. split; try done.
    + rewrite Hw. unfold k2. cbn. rewrite Eq.
      pose proof (kw_wq_nodup K None k Hwf w) as Hn. rewrite Eq in Hn.
      apply NoDup_cons in Hn as [Hnl _]. rewrite remove_node_cons_eq by done.
      by apply remove_node_not_in.
    + intros w' Hne. rewrite Hw. unfold k2. cbn.
      assert (t ∉ wait_qs k w') as Hnw
        by (intros Hin; by apply Hne, (kw_wq_disj K None k Hwf w' w t)).
      rewrite (remove_node_not_in t (wait_qs k w')) by done. by apply remove_node_not_in.
    + intros Hwk. rewrite Hr. assert (wakeable k2 t = true) as ->.
      { unfold wakeable in *. by rewrite !Eb by lia. }
      apply elem_of_prio_insert. by left.
    + intros x Hx. rewrite Hth by done. unfold k2. cbn. by rewrite !fn_lookup_alter_ne.
    + rewrite Hf. unfold k2. cbn. rewrite !fn_lookup_alter, Hc.
      exists (fun z => f (Z.land z (Z.lnot K_PENDING))). by destruct (g (threads k t)).
  - intros ->. by apply (ready_not_waiting K None k (current k) w Hwf (ru_current K k Hru)).
Qed.

(** The switch that ends the call leaves what was handed over in place. *)
Record released w t l (g : thread -> thread) k k' : Prop := {
  rl_queue : wait_qs k' w = l;
  rl_others w' : w' <> w -> wait_qs k' w' = wait_qs k w';
  rl_ready : wakeable k t = true -> t ∈ ready_list k';
  rl_kept x : x ∈ ready_list k -> x ∈ ready_list k';
  rl_schedule : schedule k' = schedule_remove (TO_thread t) (schedule k);
  rl_thread : exists f, threads k' t = with_flags f (g (threads k t));
  rl_threads x : x <> t -> x <> current k -> threads k' x = threads k x;
  rl_isr : in_isr k' = in_isr k;
  rl_preempt : in_isr k = false -> no_more_urgent k'
}.

Lemma handed_switch K w t l g k k1 :
  running K k1 -> handed w t l g k k1 -> t <> current k ->
  exists k', swap_if_needed k1 = Some k' /\ running K k' /\ released w t l g k k'.
Proof.
  intros Hru1 [A1 A2 A3 A4 A5 A6 A7 A8 A9] Htc.
  destruct (finish_running K k1 k1 t Hru1 Hru1 (same_queues_refl k1) eq_refl)
    as (k2 & E2 & Hru2 & Hsq & Hnu & Ht).
  exists k2. split_and!; try done.
  split; rewrite ?(same_queues_ready _ _ Hsq), ?(sq_wait_qs _ _ Hsq); try done.
  - rewrite <- A5. unfold schedule. by rewrite (sq_timeouts _ _ Hsq), (sq_timeout_q _ _ Hsq).
  - rewrite Ht by congruence. done.
  - intros x Hx Hxc. destruct (finish_running K k1 k1 x Hru1 Hru1 (same_queues_refl k1) eq_refl)
      as (k2' & E2' & _ & _ & _ & Hx'). rewrite E2 in E2'. injection E2' as <-.
    rewrite Hx' by congruence. auto.
  - by rewrite (sq_in_isr _ _ Hsq).
  - by rewrite <- A7.
Qed.

(** Both together: what a call that wakes the first waiter of [w] does. *)
Lemma release_first K k w t l g :
  running K k -> wait_qs k w = t :: l -> result_setter g ->
  exists k1 k', wake t (upd_thread t g (unpend t k)) = Some k1 /\ swap_if_needed k1 = Some k' /\
    running K k' /\ released w t l g k k'.
Proof.
  intros Hru Hq Hg. destruct (hand_first K k w t l g Hru Hq Hg) as (k1 & E1 & Hru1 & Hh & Htc).
  destruct (handed_switch K w t l g k k1 Hru1 Hh Htc) as (k2 & E2 & Hru2 & Hr). by exists k1, k2.
Qed.

(** Waking any waiter of [w], its result set before it leaves the queue. *)
Lemma hand_waiter K k w t g :
  running K k -> t ∈ wait_qs k w -> result_setter g ->
  exists k1 k', _unpend_thread t (upd_thread t g k) = Some k1 /\ wake t k1 = Some k' /\
    running K k' /\ handed w t (remove_node t (wait_qs k w)) g k k'.
Proof.
  intros Hru Ht [Hg Hc]. pose proof (ru_wf K k Hru) as Hwf.
  pose proof (kernel_wf_upd_thread K None k t g Hg Hwf) as Hwf1.
  set (k1 := upd_thread t g k) in *.
  assert (running K k1) as Hru1 by (destruct Hru; by split).
  assert (t ∈ wait_qs k1 w) as Ht1 by done.
  exists (unpend t k1). destruct (wake_waiting K k1 t w Hwf1 Ht1) as (k' & E & Hwf' & Hwo).
  exists k'. split_and!; [|done|by eapply running_woken|].
  - unfold _unpend_thread. by destruct (kw_wq K None k1 Hwf1 t w Ht1) as [_ ->].
  - pose proof (fun x => woken_elem t k1 k' x Hwo) as Hel.
    destruct Hwo as [Hw Hr Hq Hs Hcu Hi Hth [f Hf]]. split; try done.
    + intros w' Hne. rewrite Hw. apply remove_node_not_in. intros Hin.
      by apply Hne, (kw_wq_disj K None k Hwf w' w t).
    + intros Hwk. rewrite Hr. assert (wakeable k1 t = true) as ->.
      { unfold wakeable, fbit in *. unfold k1. cbn. rewrite fn_lookup_alter.
        by destruct (Hg (threads k t)) as [-> _]. }
      apply elem_of_prio_insert. by left.
    + intros x Hx. rewrite Hth by done. unfold k1. cbn. by rewrite fn_lookup_alter_ne.
    + exists f. rewrite Hf. unfold k1. cbn. by rewrite fn_lookup_alter.
Qed.

Lemma waiter_not_current K k w x : running K k -> x ∈ wait_qs k w -> x <> current k.
Proof. intros Hru Hx ->. by apply (ready_not_waiting K None k (current k) w (ru_wf K k Hru) (ru_current K k Hru)). Qed.

Lemma waiters_distinct K k w t l x : running K k -> wait_qs k w = t :: l -> x ∈ l -> x <> t.
Proof.
  intros Hru Hq Hx ->. pose proof (kw_wq_nodup K None k (ru_wf K k Hru) w) as Hn.
  rewrite Hq in Hn. by apply NoDup_cons in Hn as [? _].
Qed.

(** The waiters left behind keep their data. *)
Lemma released_left K k w t l g k' x :
  running K k -> wait_qs k w = t :: l -> released w t l g k k' -> x ∈ l ->
  threads k' x = threads k x.
Proof.
  intros Hru Hq Hr Hx. apply (rl_threads _ _ _ _ _ _ Hr).
  - by eapply waiters_distinct.
  - eapply waiter_not_current; [done|]. rewrite Hq. apply elem_of_cons. by right.
Qed.

(** *** Timeouts of objects other than threads *)
Definition is_object (o : toid) : Prop := forall t, o <> TO_thread t.

Lemma running_timeouts_only K k k' :
  running K k -> kernel_wf K None k' -> timeouts_only k k' -> running K k'.
Proof.
  intros [_ Hc Hi] Hwf Hto.
  destruct (timeouts_only_fields k k' Hto) as (_ & _ & _ & _ & _ & Ec & _ & El & _).
  split; [done|by rewrite El, Ec|by rewrite El].
Qed.

Lemma add_object_timeout K k o wq n :
  running K k -> K o -> is_object o -> o ∉ timeout_q k -> 0 < n <= INT32_MAX ->
  exists k', _add_timeout None o wq n k = Some k' /\ running K k' /\
    schedule k' = schedule_insert o n (schedule k) /\
    timeout_q k' ≡ₚ o :: timeout_q k /\ timeouts_only k k'.
Proof.
  intros Hru HK Hob Hni Hn. pose proof (ru_wf K k Hru) as Hwf.
  destruct (add_timeout_change K k None o wq n (kw_tq K _ k Hwf) HK Hni Hn)
    as (k' & E & Hs & Hq & Htq & Hqc & Eth & _).
  assert (kernel_wf K None k').
  { apply (kernel_wf_queue K None None k k' o); try done.
    - intros _. split; [done|]. rewrite Eth. intros t. split; [done|]. intros Ho. by destruct (Hob t).
    - intros x Ho. by destruct (Hob x). }
  exists k'. split_and!; try done; [|by destruct Hqc].
  by apply (running_timeouts_only K k); [..|destruct Hqc].
Qed.

Lemma abort_object_timeout K k o :
  running K k -> K o -> is_object o ->
  exists r k', _abort_timeout o k = (r, k') /\ running K k' /\
    (r = 0 <-> o ∈ timeout_q k) /\ (r = 0 \/ r = -1) /\
    timeout_q k' = remove_node o (timeout_q k) /\ delta (timeouts k') o = -1 /\
    schedule k' = schedule_remove o (schedule k) /\ timeouts_only k k' /\
    (forall x : toid, to_func (timeouts k' x) = to_func (timeouts k x)).
Proof.
  intros Hru HK Hob. pose proof (ru_wf K k Hru) as Hwf.
  destruct (abort_timeout_change K k o (kw_tq K _ k Hwf) HK)
    as (r & k' & E & Hr & Hr' & Hq & Hd & Hs & Htq & Hqc & Hsd).
  assert (kernel_wf K None k').
  { apply (kernel_wf_queue K None None k k' o); try done.
    - rewrite Hq, elem_of_remove_node. naive_solver.
    - intros x Ho. by destruct (Hob x). }
  exists r, k'. split_and!; try done; [|by destruct Hqc|intros x; apply (Hsd x)].
  by apply (running_timeouts_only K k); [..|destruct Hqc].
Qed.

Lemma inactive_iff K k o : running K k -> K o -> (delta (timeouts k) o = -1 <-> o ∉ timeout_q k).
Proof.
  intros Hru HK. pose proof (active_iff K k o (kw_tq K _ k (ru_wf K k Hru)) HK) as Ha.
  destruct (decide (delta (timeouts k) o = -1)); tauto.
Qed.

(** Waking the first waiter of [w] when it has no timeout to cancel. *)
Lemma ready_first_running K k w t l :
  running K k -> wait_qs k w = t :: l -> TO_thread t ∉ timeout_q k ->
  exists k', _ready_thread t (unpend t k) = Some k' /\ running K k' /\ woken t k k' /\
    wait_qs k' w = l /\ (forall w', w' <> w -> wait_qs k' w' = wait_qs k w') /\ t <> current k /\
    timeout_q k' = timeout_q k /\ schedule k' = schedule k.
Proof.
  intros Hru Hq Hni. destruct (wake_first_running K k w t l Hru Hq)
    as (k' & E & Hru' & Hwo & H1 & H2 & H3).
  exists k'. split_and!; try done.
  - rewrite <- E. unfold wake, _abort_thread_timeout. rewrite abort_timeout_inactive; [done|].
    change (delta (timeouts k) (TO_thread t) = -1).
    apply (inactive_iff K); [done| |done].
    assert (t ∈ wait_qs k w) as Hin by (rewrite Hq; apply elem_of_cons; by left).
    by destruct (kw_wq K None k (ru_wf K k Hru) t w Hin).
  - rewrite (wo_timeout_q _ _ _ Hwo). by apply remove_node_not_in.
  - rewrite (wo_schedule _ _ _ Hwo). by apply schedule_remove_not_in.
Qed.

(** Initialising the timeout of an object makes it known to the kernel. *)
Definition with_object K (o : toid) : toid -> Prop := fun o' => K o' \/ o' = o.

Lemma init_object_running K k o f :
  running K k -> is_object o -> o ∉ timeout_q k ->
  running (with_object K o) (_init_timeout o f k) /\
  schedule (_init_timeout o f k) = schedule k.
Proof.
  intros [Hwf Hc Hi] Hob Hni. set (k' := _init_timeout o f k).
  assert (Hne : forall x : toid, x <> o -> timeouts k' x = timeouts k x)
    by (intros; by apply fn_lookup_alter_ne).
  assert (Ht : forall t, timeouts k' (TO_thread t) = timeouts k (TO_thread t))
    by (intros t; apply Hne; intros E; by destruct (Hob t)).
  assert (HK : forall t, with_object K o (TO_thread t) <-> K (TO_thread t)).
  { intros t. unfold with_object. split; [|by left]. intros [?|E]; [done|]. by destruct (Hob t). }
  assert (Hr : forall t, _is_thread_ready t k' = _is_thread_ready t k).
  { intros t. apply eq_true_iff_eq. rewrite !ready_bits. unfold delta. by rewrite Ht. }
  assert (Hd : forall x : toid, x ∈ timeout_q k -> timeouts k' x = timeouts k x)
    by (intros x Hx; apply Hne; by intros ->).
  assert (Es : schedule k' = schedule k)
    by (apply expiries_ext; intros x Hx; unfold delta; by rewrite Hd).
  split; [|done]. split; [|done|done].
  destruct Hwf as [Hrq Htq H3 H4 H5 H6 H7 H8 H9 H10 H11 H12 H13]. destruct Htq as [T1 T2 T3 T4].
  split; try done.
  - by apply (rq_wf_ext k).
  - split; try done.
    + intros x Hx. unfold delta. rewrite Hd by done. by apply T2.
    + intros x a. fold (schedule k'). rewrite Es. apply T3.
    + intros x [HKx| ->] Hx.
      * destruct (decide (x = o)) as [->|Hxo]; [|unfold delta in *; rewrite Hne in Hx by done; by apply T4].
        exfalso. apply Hx. unfold delta, k', _init_timeout, upd_timeout. cbn. by rewrite fn_lookup_alter.
      * exfalso. apply Hx. unfold delta, k', _init_timeout, upd_timeout. cbn. by rewrite fn_lookup_alter.
  - intros x Hx. left. by apply H3.
  - intros t. rewrite HK. apply H4.
  - intros t Hin. rewrite HK, Hr. by apply H5.
  - intros t. rewrite HK, Hr. apply H6.
  - intros t w. rewrite HK. apply H7.
  - intros t. rewrite HK. apply H10.
  - intros x t Hx. rewrite Hd by done. by apply H11.
  - intros t w HX Hx. rewrite Ht. by apply H12.
Qed.

(** [sys_dlist_init] on a wait queue nobody waits on. *)
Lemma init_wait_q_running K k w :
  running K k -> wait_qs k w = [] ->
  running K (upd_wait_q w [] k) /\ forall w', wait_qs (upd_wait_q w [] k) w' = wait_qs k w'.
Proof.
  intros [Hwf Hc Hi] E. set (k' := upd_wait_q w [] k).
  assert (Ew : forall w', wait_qs k' w' = wait_qs k w').
  { intros w'. unfold k', upd_wait_q. cbn [wait_qs set_wait_qs]. unfold insert, fn_insert.
    case_decide; by subst. }
  split; [|done]. split; [|done|done].
  destruct Hwf as [Hrq Htq H3 H4 H5 H6 H7 H8 H9 H10 H11 H12 H13]. split; try done.
  - by apply (rq_wf_ext k).
  - by apply (tq_wf_ext K k).
  - intros t w'. rewrite Ew. apply H7.
  - intros w'. rewrite Ew. apply H8.
  - intros w1 w2 t. rewrite !Ew. apply H9.
  - intros t HK Hp. destruct (H10 t HK Hp) as [w' Hw']. exists w'. by rewrite Ew.
  - intros t w' HX Hin. rewrite Ew. by apply H12.
Qed.

(** *** Sections under the scheduler lock *)

(** The current thread may take the scheduler lock once more. *)
Definition may_lock k : Prop :=
  in_isr k = false /\ 0 <= sched_locked (threads k (current k)) < INT32_MAX.

Lemma lock_running K k : running K k -> running K (_sched_lock k).
Proof. apply running_sched_locked. Qed.

Lemma lock_held k k' :
  may_lock k -> current k' = current k ->
  threads k' (current k) = threads (_sched_lock k) (current k) ->
  0 < sched_locked (threads k' (current k')).
Proof.
  intros [_ Hl] -> ->. cbn. rewrite fn_lookup_alter. cbn.
  rewrite i32_small by (unfold INT32_MIN, INT32_MAX in *; lia). lia.
Qed.

Lemma lock_threads k x : x <> current k -> threads (_sched_lock k) x = threads k x.
Proof. intros. cbn. by rewrite fn_lookup_alter_ne. Qed.

End Running.
