(* ===== verification/Transit.v ===== *)
(** * Threads in transit

    Some services take waiting threads off their queue first and make them ready
    later. In between these threads are on no queue at all and have no timeout.
    [away K F k] says that the kernel is well formed but for the threads [F]
    being on their way: seen without them, it is a running kernel. [transit]
    adds that none of them is marked as pending, so that they only have to be
    readied. *)
From S2P Require Import Prelude Kernel ReadyQ TimeoutQ Sched SchedInv SchedApi.

Section Transit.
Context `{KConfig}.
Implicit Types (K : toid -> Prop) (F l S rest : list tid) (k : kernel) (t x : tid) (wq : wqid).

Definition without K F : toid -> Prop := fun o => K o /\ forall t, t ∈ F -> o <> TO_thread t.

Record away K F k : Prop := {
  aw_running : running (without K F) k;
  aw_known t : t ∈ F -> K (TO_thread t);
  aw_prio t : t ∈ F -> prio_ok t (thread_prio k t);
  aw_timeout t : t ∈ F -> delta (timeouts k) (TO_thread t) = -1;
  aw_nodup : NoDup F
}.

Record transit K F k : Prop := {
  tr_away : away K F k;
  tr_pending t : t ∈ F -> _is_thread_pending t k = false
}.

Lemma tr_nodup K F k : transit K F k -> NoDup F.
Proof. intros [Haw _]. apply (aw_nodup K F k Haw). Qed.

Lemma kernel_wf_known K K' X k : (forall o, K o <-> K' o) -> kernel_wf K X k -> kernel_wf K' X k.
Proof.
  intros HK [Hrq [T1 T2 T3 T4] H3 H4 H5 H6 H7 H8 H9 H10 H11 H12 H13].
  split; try done; try (by intros *; rewrite <- HK; eauto).
  - split; try done. intros o. rewrite <- HK. apply T4.
Qed.

Lemma away_perm K F F' k : F ≡ₚ F' -> away K F k -> away K F' k.
Proof.
  intros HF [[Hwf Hc Hi] A2 A3 A4 A5].
  split; try (by intros t; rewrite <- HF; auto); [|by rewrite <- HF].
  split; [|done|done]. apply (kernel_wf_known (without K F)); [|done].
  intros o. unfold without. by setoid_rewrite HF.
Qed.

Lemma away_nil K k : away K [] k <-> running K k.
Proof.
  assert (Hw : forall o, without K [] o <-> K o).
  { intros o. split; [by intros [? _]|]. intros HK. split; [done|]. by intros t ?%elem_of_nil. }
  split.
  - intros [[Hwf Hc Hi] _ _ _ _]. split; [|done|done]. by apply (kernel_wf_known (without K [])).
  - intros [Hwf Hc Hi]. split; try (by intros t ?%elem_of_nil); [|constructor].
    split; [|done|done]. apply (kernel_wf_known K); [|done]. intros o. by rewrite Hw.
Qed.

Lemma transit_nil K k : transit K [] k <-> running K k.
Proof.
  rewrite <- away_nil. split; [by intros [? _]|]. intros Haw. split; [done|]. by intros t ?%elem_of_nil.
Qed.

Lemma away_current K F k t : away K F k -> t ∈ F -> t <> current k.
Proof.
  intros Haw Ht ->. destruct (aw_running K F k Haw) as [Hwf Hc _].
  destruct (kw_ready _ _ k Hwf _ Hc) as [[_ Hin] _]. by apply (Hin (current k)).
Qed.

(** A thread the kernel does not know may be written to. *)
Lemma kernel_wf_upd_unknown K X k t g :
  ~ K (TO_thread t) -> kernel_wf K X k -> kernel_wf K X (upd_thread t g k).
Proof.
  intros Ht [Hrq Htq H3 H4 H5 H6 H7 H8 H9 H10 H11 H12 H13].
  assert (Hth : forall x, K (TO_thread x) -> threads (upd_thread t g k) x = threads k x).
  { intros x Hx. apply fn_lookup_alter_ne. by intros ->. }
  assert (Hst : forall x, K (TO_thread x) -> thread_prio (upd_thread t g k) x = thread_prio k x /\
    _is_thread_ready x (upd_thread t g k) = _is_thread_ready x k /\
    _is_thread_pending x (upd_thread t g k) = _is_thread_pending x k).
  { intros x Hx. unfold _is_thread_ready, _is_thread_prevented_from_running, _is_thread_timeout_active,
      _is_thread_pending, thread_prio. by rewrite Hth. }
  split; try done.
  - apply (rq_wf_ext k); try done. intros x Hx. apply Hst, H5, Hx.
  - by apply (tq_wf_ext K k).
  - intros x Hx. destruct (Hst x Hx) as [-> _]. by apply H4.
  - intros x Hx. destruct (H5 x Hx) as [HK Hr]. by destruct (Hst x HK) as (_ & -> & _).
  - intros x Hx Hne. destruct (Hst x Hx) as (_ & -> & _). by apply H6.
  - intros x w Hx. destruct (H7 x w Hx) as [HK Hr]. by destruct (Hst x HK) as (_ & _ & ->).
  - intros x Hx. destruct (Hst x Hx) as (_ & _ & ->). by apply H10.
  - intros x Hx. destruct (H13 x Hx) as (HK & Hn & Hp). by destruct (Hst x HK) as (_ & _ & ->).
Qed.

(** A floating thread without a timeout goes out of sight ... *)
Lemma hide K F k t :
  kernel_wf (without K F) (Some t) k -> TO_thread t ∉ timeout_q k ->
  kernel_wf (without K (F ++ [t])) None k.
Proof.
  intros Hwf Hni.
  destruct (kw_float _ _ k Hwf t eq_refl) as (HK & Hnr & Hnp).
  destruct Hwf as [Hrq [T1 T2 T3 T4] H3 H4 H5 H6 H7 H8 H9 H10 H11 H12 H13].
  assert (Hsub : forall o, without K (F ++ [t]) o <-> without K F o /\ o <> TO_thread t).
  { intros o. unfold without. split.
    - intros [Ho HF]. split_and!; [done|intros x Hx; apply HF; apply elem_of_app; by left|].
      apply HF. apply elem_of_app. right. by apply list_elem_of_singleton.
    - intros [[Ho HF] Hne]. split; [done|].
      intros x [Hx| ->%list_elem_of_singleton]%elem_of_app; [by apply HF|done]. }
  split; try done.
  - split; try done. intros o [Ho _]%Hsub. by apply T4.
  - intros o Ho. apply Hsub. split; [by apply H3|]. by intros ->.
  - intros x [Hx _]%Hsub. by apply H4.
  - intros x Hx. destruct (H5 x Hx). split; [|done]. apply Hsub. split; [done|]. by intros [= ->].
  - intros x [Hx Hne]%Hsub _. apply H6; [done|]. by intros [= ->].
  - intros x w Hx. destruct (H7 x w Hx) as [H71 H72]. split; [|done]. apply Hsub. split; [done|].
    intros [= ->]. congruence.
  - intros x [Hx _]%Hsub. by apply H10.
  - intros x w _ Hx. apply H12; [|done]. by intros [= ->].
Qed.

(** ... and comes back. *)
Lemma unhide K F k t :
  kernel_wf (without K (t :: F)) None k -> t ∉ F -> K (TO_thread t) -> prio_ok t (thread_prio k t) ->
  _is_thread_pending t k = false -> delta (timeouts k) (TO_thread t) = -1 ->
  kernel_wf (without K F) (Some t) k.
Proof.
  intros [Hrq [T1 T2 T3 T4] H3 H4 H5 H6 H7 H8 H9 H10 H11 H12 H13] HtF HKt Hp Hnp Hd.
  assert (Hsub : forall o, without K (t :: F) o <-> without K F o /\ o <> TO_thread t).
  { intros o. unfold without. setoid_rewrite elem_of_cons. naive_solver. }
  assert (without K F (TO_thread t)) as HKF by (split; [done|]; intros x Hx [= ->]; done).
  split; try done.
  - split; try done. intros o Ho Hne. destruct (decide (o = TO_thread t)) as [->|]; [done|].
    apply T4; [|done]. by apply Hsub.
  - intros o Ho. by apply Hsub, H3.
  - intros x Hx. destruct (decide (x = t)) as [->|]; [done|]. apply H4, Hsub. split; [done|congruence].
  - intros x Hx. destruct (H5 x Hx) as [?%Hsub ?]. tauto.
  - intros x Hx Hne. apply H6; [|done]. apply Hsub. split; [done|congruence].
  - intros x w Hx. destruct (H7 x w Hx) as [?%Hsub ?]. tauto.
  - intros x Hx. destruct (decide (x = t)) as [->|]; [by rewrite Hnp|]. apply H10, Hsub. split; [done|congruence].
  - intros x w Hx. by apply H12.
  - intros x [= <-]. split_and!; [done| |done]. intros Hin. by destruct (H5 t Hin) as [[_ ?]%Hsub _].
Qed.

Lemma peek_next_elem (o x : toid) (l : list toid) : peek_next o l = Some x -> x ∈ l.
Proof.
  induction l as [|y l IH]; [done|]. cbn [peek_next]. rewrite elem_of_cons. case_decide; [|by auto].
  intros E. right. by apply list_elem_of_lookup; exists O; destruct l.
Qed.

(** Aborting a timeout touches no other one that is not queued. *)
Lemma abort_timeout_frame (o x : toid) k :
  x <> o -> x ∉ timeout_q k -> timeouts (snd (_abort_timeout o k)) x = timeouts k x.
Proof.
  intros Hne Hni. unfold _abort_timeout. destruct (_ =? -1); [done|]. cbn [snd].
  destruct (peek_next o (timeout_q k)) as [next|] eqn:E.
  - assert (x <> next) as Hnx by (intros ->; by apply peek_next_elem in E).
    unfold upd_timeout. cbn. by rewrite !fn_lookup_alter_ne.
  - unfold upd_timeout. cbn. by rewrite fn_lookup_alter_ne.
Qed.

Definition park t k : option kernel :=
  k ← _unpend_thread t k; Some (snd (_abort_thread_timeout t k)).

Record parked wq t l k k' : Prop := {
  pk_queue : wait_qs k' wq = l;
  pk_others wq' : wq' <> wq -> wait_qs k' wq' = wait_qs k wq';
  pk_ready : ready_list k' = ready_list k;
  pk_schedule : schedule k' = schedule_remove (TO_thread t) (schedule k);
  pk_current : current k' = current k;
  pk_isr : in_isr k' = in_isr k;
  pk_threads x : x <> t -> threads k' x = threads k x;
  pk_thread : exists f, threads k' t = with_flags f (threads k t);
  pk_wakeable x : wakeable k' x = wakeable k x
}.

Lemma park_waiter K F k wq t :
  away K F k -> t ∈ wait_qs k wq ->
  exists k', park t k = Some k' /\ away K (F ++ [t]) k' /\ t ∉ F /\
    parked wq t (remove_node t (wait_qs k wq)) k k' /\ _is_thread_pending t k' = false.
Proof.
  intros [[Hwf Hc Hi] T2 T3 T5 T6] Hw. set (KF := without K F) in *.
  destruct (kw_wq KF None k Hwf t wq Hw) as [[HKt HtF] Hpd].
  assert (t ∉ F) as HnF by (intros Hin; by apply (HtF t)).
  unfold park, _unpend_thread. rewrite Hpd. cbn [mbind option_bind]. fold (unpend t k).
  pose proof (unpend_wf KF k t wq Hwf Hw) as Hwf1.
  destruct (kw_float KF _ _ Hwf1 t eq_refl) as (HK1 & Hnr1 & Hnp1).
  destruct (abort_thread_timeout_wf KF (Some t) (unpend t k) t Hwf1 ltac:(by right) HK1 Hnr1 Hnp1)
    as (r & k' & Ea & Hwf2 & Hd & _ & _ & Hq & Hs & Hto).
  rewrite Ea. cbn [snd]. exists k'. split; [done|].
  destruct (timeouts_only_fields _ _ Hto) as (Et & _ & _ & _ & Ew & Ec & Ei & El & _).
  assert (El0 : ready_list (unpend t k) = ready_list k).
  { unfold ready_list. by rewrite (unpend_ready_list KF None k t wq). }
  assert (Hth : forall x, x <> t -> threads k' x = threads k x).
  { intros x Hx. rewrite Et. unfold unpend, _mark_thread_as_not_pending. cbn. by rewrite fn_lookup_alter_ne. }
  assert (Htt : exists f, threads k' t = with_flags f (threads k t)).
  { rewrite Et. unfold unpend, _mark_thread_as_not_pending. cbn. rewrite fn_lookup_alter. by eexists. }
  assert (HFne : forall x, x ∈ F -> x <> t) by (intros x Hx ->; done).
  split_and!; [|done| |unfold _is_thread_pending in *; by rewrite Et].
  - split.
    + split; [apply hide; [done|]; rewrite Hq, elem_of_remove_node; naive_solver| |];
        by rewrite El, El0, ?Ec.
    + intros x [?| ->%list_elem_of_singleton]%elem_of_app; [by apply T2|done].
    + intros x [Hx| ->%list_elem_of_singleton]%elem_of_app; unfold thread_prio in *.
      * rewrite Hth by auto. by apply T3.
      * destruct Htt as [f ->]. cbn. apply (kw_prio KF None k Hwf t). by split.
    + intros x [Hx| ->%list_elem_of_singleton]%elem_of_app; [|done].
      rewrite <- (T5 x Hx). unfold delta. f_equal.
      assert (E : timeouts k' = timeouts (snd (_abort_timeout (TO_thread t) (unpend t k))))
        by (unfold _abort_thread_timeout in Ea; by rewrite Ea).
      rewrite E, abort_timeout_frame; [done|intros [= ->]; by apply (HFne t)|].
      intros Hin%(kw_known KF _ k Hwf). destruct Hin as [_ Hin]. by apply (Hin x).
    + apply NoDup_app. split_and!; [done| |apply NoDup_singleton].
      intros x Hx ->%list_elem_of_singleton. done.
  - split; try done.
    + by rewrite Ew.
    + intros w' Hne. rewrite Ew. eapply unpend_other_wait_q; done.
    + by rewrite El.
    + intros x. unfold wakeable, fbit. rewrite Et. fold (fbit (unpend t k) x 15) (fbit (unpend t k) x 16) (fbit (unpend t k) x 17).
      unfold unpend, _mark_thread_as_not_pending. rewrite !reset_states_bit by lia.
      change (Z.testbit K_PENDING 15) with false. change (Z.testbit K_PENDING 16) with false.
      change (Z.testbit K_PENDING 17) with false. rewrite !andb_false_r. cbn [negb].
      by rewrite !andb_true_r.
Qed.

Lemma park_first K F k wq t l :
  transit K F k -> wait_qs k wq = t :: l ->
  exists k', park t k = Some k' /\ transit K (F ++ [t]) k' /\ parked wq t l k k'.
Proof.
  intros [Haw Hnp] Eq.
  destruct (park_waiter K F k wq t Haw) as (k' & E & Haw' & HtF & Hpk & Hp); [rewrite Eq; by left|].
  assert (remove_node t (wait_qs k wq) = l) as El.
  { pose proof (kw_wq_nodup _ _ _ (ru_wf _ _ (aw_running K F k Haw)) wq) as Hnd. rewrite Eq in *.
    apply NoDup_cons in Hnd as [Hn _]. by apply remove_node_cons_eq. }
  rewrite El in Hpk. exists k'. split_and!; [done| |done]. split; [done|].
  intros x [Hx| ->%list_elem_of_singleton]%elem_of_app; [|done]. rewrite <- (Hnp x Hx).
  unfold _is_thread_pending. rewrite (pk_threads _ _ _ _ _ Hpk); [done|]. by intros ->.
Qed.

(** One of the threads in transit arrives. *)
Lemma ready_away K t F k :
  away K (t :: F) k -> _is_thread_pending t k = false ->
  exists k', _ready_thread t k = Some k' /\ away K F k' /\ only_readied t k k' /\
    ready_list k' = (if wakeable k t then prio_insert (thread_prio k) t (ready_list k) else ready_list k).
Proof.
  intros [[Hwf Hc Hi] T2 T3 T5 T6] Hnp. apply NoDup_cons in T6 as [HtF HndF].
  assert (t ∈ t :: F) as Ht by (apply elem_of_cons; by left).
  assert (Hin : forall x, x ∈ F -> x ∈ t :: F) by (intros; apply elem_of_cons; by right).
  pose proof (unhide K F k t Hwf HtF (T2 t Ht) (T3 t Ht) Hnp (T5 t Ht)) as Hwf1.
  destruct (ready_thread_wf (without K F) k t Hwf1 (T5 t Ht)) as (k' & E & Hwf' & Hor & El).
  exists k'. split; [done|].
  rewrite started_ready_iff in El; [|by apply T5|by rewrite <- pending_bit].
  pose proof Hor as (Ew & Eq & Eto & Ec & Ei & Hne & f & Hf).
  assert (Hkeep : forall x, x ∈ ready_list k -> x ∈ ready_list k').
  { intros x Hx. rewrite El. destruct (wakeable k t); [|done]. apply elem_of_prio_insert. by right. }
  assert (HFne : forall x, x ∈ F -> x <> t) by (intros x Hx ->; done).
  split_and!; [|done|done]. split.
  - split; [done|rewrite Ec|]; by apply Hkeep.
  - intros x Hx. by apply T2, Hin.
  - intros x Hx. unfold thread_prio. rewrite Hne by auto. by apply (T3 x), Hin.
  - intros x Hx. rewrite Eto. by apply T5, Hin.
  - done.
Qed.

Lemma ready_parked K t F k :
  transit K (t :: F) k ->
  exists k', _ready_thread t k = Some k' /\ transit K F k' /\ only_readied t k k' /\
    ready_list k' = (if wakeable k t then prio_insert (thread_prio k) t (ready_list k) else ready_list k).
Proof.
  intros [Haw Hnp]. destruct (ready_away K t F k Haw) as (k' & E & Haw' & Hor & El); [apply Hnp; by left|].
  exists k'. split_and!; try done. split; [done|]. intros x Hx.
  rewrite <- (Hnp x) by (by right). unfold _is_thread_pending.
  destruct Hor as (_ & _ & _ & _ & _ & Hne & _). rewrite Hne; [done|].
  intros ->. by pose proof (aw_nodup K _ k Haw) as [? _]%NoDup_cons.
Qed.

Lemma transit_lock K F k : transit K F k -> transit K F (_sched_lock k).
Proof.
  intros [Haw Hnp]. pose proof (away_current K F k) as Hc.
  assert (Hne : forall x, x ∈ F -> threads (_sched_lock k) x = threads k x)
    by (intros x Hx; apply lock_threads; by apply Hc).
  destruct Haw as [T1 T2 T3 T5 T6]. split.
  - split; try done; [by apply lock_running|].
    intros x Hx. unfold thread_prio. rewrite Hne by done. by apply (T3 x).
  - intros x Hx. rewrite <- (Hnp x Hx). unfold _is_thread_pending. by rewrite Hne.
Qed.

(** A waiter of [wq] is made ready with its result, other threads being away. *)
Lemma away_upd K F k t g :
  t ∈ F -> (forall th, prio (g th) = prio th) -> away K F k -> away K F (upd_thread t g k).
Proof.
  intros Ht Hg [[Hwf Hc Hi] T2 T3 T5 T6]. split; try done.
  - split; [|done|done]. apply kernel_wf_upd_unknown; [|done]. intros [_ Hn]. by apply (Hn t).
  - intros x Hx. specialize (T3 x Hx). unfold thread_prio in *. cbn. unfold alter, fn_alter.
    case_decide; subst; [by rewrite Hg|done].
Qed.

Lemma hand_waiter_away K F k wq t v :
  away K F k -> t ∈ wait_qs k wq ->
  exists k1 k', park t k = Some k1 /\ _ready_thread t (_set_thread_return_value t v k1) = Some k' /\
    away K F k' /\ handed wq t (remove_node t (wait_qs k wq)) (with_return_value v) k k' /\ t ∉ F.
Proof.
  intros Haw Hw. destruct (park_waiter K F k wq t Haw Hw) as (k1 & E1 & Haw1 & HtF & Hpk & Hnp).
  assert (away K (t :: F) (_set_thread_return_value t v k1)) as Haw2.
  { apply away_upd; [by left|done|]. eapply away_perm; [|done]. symmetry. apply Permutation_cons_append. }
  assert (_is_thread_pending t (_set_thread_return_value t v k1) = false) as Hnp2.
  { rewrite <- Hnp. unfold _is_thread_pending. cbn. by rewrite fn_lookup_alter. }
  destruct (ready_away K t F _ Haw2 Hnp2) as (k2 & E2 & Haw3 & (Ew & Eq & Eto & Ec & Ei & Hne & f & Hf) & El).
  exists k1, k2. split_and!; [done..| |done].
  change (ready_list (_set_thread_return_value t v k1)) with (ready_list k1) in El.
  assert (wakeable (_set_thread_return_value t v k1) t = wakeable k1 t) as Ewk.
  { unfold wakeable, fbit, _set_thread_return_value, upd_thread. cbn [threads set_threads].
    by rewrite fn_lookup_alter. }
  destruct Hpk as [P1 P2 P3 P4 P5 P6 P7 [g P8] P9]. split.
  - by rewrite Ew.
  - intros w' Hw'. rewrite Ew. by apply P2.
  - intros Hwk. rewrite El, Ewk, P9, Hwk. apply elem_of_prio_insert. by left.
  - intros x Hx. rewrite <- P3 in Hx. rewrite El. case_match; [|done]. apply elem_of_prio_insert. by right.
  - rewrite <- P4. unfold schedule. by rewrite Eq, Eto.
  - by rewrite Ec.
  - by rewrite Ei.
  - intros x Hx. rewrite Hne by done. cbn. rewrite fn_lookup_alter_ne by done. by apply P7.
  - rewrite Hf. cbn. rewrite fn_lookup_alter, P8.
    exists (fun z => f (g z)). by destruct (threads k t).
Qed.

(** *** Blocking while other threads are away *)
Lemma away_upd_fields K F k t g :
  (forall th, flags (g th) = flags th /\ prio (g th) = prio th) ->
  away K F k -> away K F (upd_thread t g k).
Proof.
  intros Hg [[Hwf Hc Hi] T2 T3 T5 T6]. split; try done.
  - split; [by apply kernel_wf_upd_thread|done|done].
  - intros x Hx. specialize (T3 x Hx). unfold thread_prio in *. cbn. unfold alter, fn_alter.
    case_decide; subst; [by destruct (Hg (threads k x)) as [_ ->]|done].
Qed.

(** Adding a timeout touches no other one that is not queued. *)
Lemma insert_timeout_frame (o x : toid) (l : list toid) tm :
  x <> o -> x ∉ l -> snd (insert_at (_is_timeout_insert_point o) o tm l) x = tm x.
Proof.
  revert tm. induction l as [|y l IH]; intros tm Hne Hni; [done|]. cbn.
  apply not_elem_of_cons in Hni as [Hy Hni]. unfold _is_timeout_insert_point at 1.
  destruct (_ <? _); [|by apply fn_lookup_alter_ne].
  destruct (insert_at _ o _ l) as [l' tm'] eqn:E. cbn.
  specialize (IH (alter (with_delta (i32 (delta tm o - delta tm y))) o tm) Hne Hni). rewrite E in IH.
  cbn in IH. rewrite IH. by apply fn_lookup_alter_ne.
Qed.

Lemma pend_current_timeouts w ms k k' (x : toid) :
  _pend_current_thread w ms k = Some k' -> x <> TO_thread (current k) -> x ∉ timeout_q k ->
  timeouts k' x = timeouts k x.
Proof.
  unfold _pend_current_thread. rewrite pend_thread_eq.
  destruct (remove_rest k (current k)) as (_ & Eto & Eq & _). set (k1 := _remove_thread_from_ready_q _ k) in *.
  rewrite <- Eto, <- Eq. destruct (ms =? K_FOREVER); [by intros [= <-]|].
  unfold _add_thread_timeout, _add_timeout. destruct (0 <? _); [|done]. intros E Hne Hni.
  destruct (insert_at _ _ _ _) as [l tm] eqn:Ei. injection E as <-. cbn.
  match type of Ei with insert_at _ ?o ?tm0 ?l0 = _ =>
    pose proof (insert_timeout_frame o x l0 tm0 Hne Hni) as Hf end.
  rewrite Ei in Hf. cbn in Hf. rewrite Hf. by apply fn_lookup_alter_ne.
Qed.

Lemma swap_timeouts k k' : _Swap k = Some k' -> timeouts k' = timeouts k.
Proof.
  unfold _Swap. set (k1 := _set_thread_return_value _ _ k).
  destruct (_get_next_ready_thread k1) as [[c k2]|] eqn:E; [|done]. intros [= <-]. cbn.
  unfold _get_next_ready_thread in E. destruct (cache k1); [by injection E as _ <-|].
  unfold __get_next_ready_thread in E.
  destruct (_get_highest_ready_prio k1); cbn [mbind option_bind] in E; [|done].
  destruct (_ <? 0); [done|]. destruct (q k1 !! _); cbn [mbind option_bind] in E; [|done].
  destruct (head _); cbn [mbind option_bind] in E; [|done]. by injection E as _ <-.
Qed.

Lemma away_blocked K F k k1 k' w ms :
  away K F k -> _pend_current_thread w ms k = Some k1 -> timeouts k' = timeouts k1 ->
  running (without K F) k' -> blocked w ms k k' -> away K F k'.
Proof.
  intros Haw E1 E2 Hru Hb. pose proof (fun t => away_current K F k t Haw) as Hc.
  destruct Haw as [[Hwf _ _] T2 T3 T5 T6]. split; try done.
  - intros x Hx. rewrite (bl_prio _ _ _ _ Hb). by apply T3.
  - intros x Hx. rewrite <- (T5 x Hx). unfold delta. rewrite E2.
    rewrite (pend_current_timeouts w ms k k1); [done|done|intros [= ->]; by apply (Hc (current k))|].
    intros [_ Hn]%(kw_known _ _ k Hwf). by apply (Hn x).
Qed.

Lemma block_current_away K F k w ms :
  away K F k -> current k <> _idle_thread -> timeout_ok ms ->
  exists k', block_current w ms k = Some k' /\ away K F k' /\ blocked w ms k k' /\
    swap_data (threads k' (current k)) = swap_data (threads k (current k)).
Proof.
  intros Haw Hid Hms. pose proof (aw_running K F k Haw) as Hru.
  destruct (pend_current_pended _ k w ms Hru Hms) as (k1 & E1 & Hp).
  destruct (pend_current_self _ k w ms k1 Hru Hms E1) as [f Hf].
  destruct (swap_pended _ w ms k k1 Hru Hid Hp) as (k2 & E2 & Hru2 & Hb & Ht).
  exists k2. unfold block_current. rewrite E1. cbn [mbind option_bind]. split_and!; [done| |done|].
  - eapply away_blocked; try done. by apply swap_timeouts.
  - by rewrite Ht, Hf.
Qed.

Lemma block_with_data_away K F k w ms data :
  away K F k -> current k <> _idle_thread -> timeout_ok ms ->
  exists k', block_current_with_data w data ms k = Some k' /\ away K F k' /\ blocked w ms k k' /\
    swap_data (threads k' (current k)) = data.
Proof.
  intros Haw Hid Hms. pose proof (aw_running K F k Haw) as Hru. unfold block_current_with_data.
  destruct (pend_current_pended _ k w ms Hru Hms) as (k1 & E1 & Hp).
  rewrite E1. cbn [mbind option_bind]. rewrite (pe_current _ _ _ _ _ Hp).
  pose proof (pended_upd _ w ms k k1 (with_swap_data data) Hp ltac:(done)) as Hp2.
  destruct (swap_pended _ w ms k _ Hru Hid Hp2) as (k2 & E2 & Hru2 & Hb & Ht).
  exists k2. split_and!; [done| |done|].
  - eapply (away_blocked K F k k1); try done. by apply swap_timeouts in E2.
  - rewrite Ht. cbn. by rewrite fn_lookup_alter.
Qed.

(** *** Waiting on no queue

    [_remove_thread_from_ready_q(_current); _mark_thread_as_pending(_current);
    return _Swap(key);] *)
Definition block_unqueued k : option kernel :=
  let k := _remove_thread_from_ready_q (current k) k in
  _Swap (_mark_thread_as_pending (current k) k).

Record set_aside k k' : Prop := {
  sa_wait_qs w : wait_qs k' w = wait_qs k w;
  sa_ready : ready_list k' = remove_node (current k) (ready_list k);
  sa_next : head (ready_list k') = Some (current k');
  sa_thread : exists f, threads k' (current k) = with_flags f (with_return_value (- EAGAIN) (threads k (current k)));
  sa_threads x : x <> current k -> threads k' x = threads k x;
  sa_schedule : schedule k' = schedule k;
  sa_isr : in_isr k' = in_isr k;
  sa_wakeable x : wakeable k' x = wakeable k x
}.

Lemma pending_wakeable t x k : wakeable (_mark_thread_as_pending t k) x = wakeable k x.
Proof.
  unfold wakeable, _mark_thread_as_pending. rewrite !set_states_bit by lia.
  change (Z.testbit K_PENDING 15) with false. change (Z.testbit K_PENDING 16) with false.
  change (Z.testbit K_PENDING 17) with false. by rewrite !andb_false_r, !orb_false_r.
Qed.

Lemma same_queues_wakeable k k' x : same_queues k k' -> wakeable k' x = wakeable k x.
Proof. intros Hsq. unfold wakeable, fbit. by destruct (sq_threads _ _ Hsq x) as [r ->]. Qed.

Lemma block_unqueued_away K F k :
  away K F k -> current k <> _idle_thread ->
  exists k', block_unqueued k = Some k' /\ away K (F ++ [current k]) k' /\ set_aside k k'.
Proof.
  intros Haw Hid. pose proof (fun t => away_current K F k t Haw) as HcF.
  destruct Haw as [Hru T2 T3 T5 T6]. set (KF := without K F) in *. set (t := current k) in *.
  pose proof (ru_wf KF k Hru) as Hwf. pose proof (ru_current KF k Hru) as Ht. fold t in Ht.
  destruct (kw_ready KF None k Hwf t Ht) as [[HKt HtF] _].
  assert (t ∉ F) as HnF by (intros Hin; by apply (HtF t)).
  destruct (remove_ready_wf KF k t Hwf Ht) as [Hwf1 Ew1].
  pose proof (remove_ready_list k t) as El1. pose proof (remove_schedule k t) as Es1.
  destruct (remove_rest k t) as (Et1 & Eto1 & Etq1 & Ec1 & Ei1).
  unfold block_unqueued. fold t. set (k1 := _remove_thread_from_ready_q t k) in *. cbn zeta.
  assert (kernel_wf (without K (F ++ [t])) None k1) as Hwf2.
  { apply hide; [done|]. rewrite Etq1. apply (inactive_not_queued KF None k t Hwf).
    by eapply ready_inactive. }
  assert (Hunk : ~ without K (F ++ [t]) (TO_thread t)).
  { intros [_ Hn]. apply (Hn t); [|done]. apply elem_of_app. right. by apply list_elem_of_singleton. }
  rewrite Ec1. fold t. pose proof (kernel_wf_upd_unknown _ _ k1 t (with_flags (fun f => Z.lor f K_PENDING)) Hunk Hwf2) as Hwf3.
  change (kernel_wf (without K (F ++ [t])) None (_mark_thread_as_pending t k1)) in Hwf3.
  pose proof (pending_wakeable t) as Hwk. set (k2 := _mark_thread_as_pending t k1) in *.
  assert (_idle_thread ∈ ready_list k2) as Hidle by (by apply (remove_leaves_idle KF)).
  destruct (head_of k2 _ Hidle) as [c Hc].
  destruct (swap_wf _ None k2 c Hwf3 Hc) as (k3 & E3 & Hwf4 & Hsq & Ec3 & Hv & Hne).
  pose proof (same_queues_ready _ _ Hsq) as El3. change (current k2) with (current k1) in Hv, Hne.
  rewrite Ec1 in Hv, Hne. fold t in Hv, Hne.
  assert (Hthx : forall x, x <> t -> threads k3 x = threads k x).
  { intros x Hx. rewrite Hne by done. unfold k2, _mark_thread_as_pending, _set_thread_states.
    change (alter (with_flags (fun f => Z.lor f K_PENDING)) t (threads k1) x = threads k x).
    rewrite fn_lookup_alter_ne by done. by rewrite Et1. }
  assert (Htt : threads k3 t = with_flags (fun f => Z.lor f K_PENDING) (with_return_value (- EAGAIN) (threads k t))).
  { rewrite Hv.
    change (with_return_value (- EAGAIN) (alter (with_flags (fun f => Z.lor f K_PENDING)) t (threads k1) t) =
      with_flags (fun f => Z.lor f K_PENDING) (with_return_value (- EAGAIN) (threads k t))).
    rewrite fn_lookup_alter. by rewrite Et1. }
  exists k3. split; [done|]. split; split.
  - split; [done|rewrite El3, Ec3; by apply head_elem|by rewrite El3].
  - intros x [?| ->%list_elem_of_singleton]%elem_of_app; [by apply T2|done].
  - intros x [Hx| ->%list_elem_of_singleton]%elem_of_app; unfold thread_prio in *.
    + rewrite Hthx by auto. by apply T3.
    + rewrite Htt. cbn. apply (kw_prio KF None k Hwf t). by split.
  - intros x. rewrite (sq_timeouts _ _ Hsq). change (timeouts k2) with (timeouts k1). rewrite Eto1.
    intros [Hx| ->%list_elem_of_singleton]%elem_of_app; [by apply T5|by eapply ready_inactive].
  - apply NoDup_app. split_and!; [done| |apply NoDup_singleton].
    by intros x Hx ->%list_elem_of_singleton.
  - intros w. rewrite (sq_wait_qs _ _ Hsq). apply Ew1.
  - by rewrite El3.
  - by rewrite El3, Ec3.
  - fold t. rewrite Htt. by eexists.
  - done.
  - rewrite <- Es1. unfold schedule. by rewrite (sq_timeouts _ _ Hsq), (sq_timeout_q _ _ Hsq).
  - rewrite (sq_in_isr _ _ Hsq). done.
  - intros x. rewrite (same_queues_wakeable _ _ x Hsq). unfold k2. rewrite Hwk.
    unfold wakeable, fbit. by rewrite Et1.
Qed.

(** A thread set aside becomes ready again, with its result. *)
Definition bring_back t (v : Z) k : option kernel :=
  _ready_thread t (_mark_thread_as_not_pending t (_set_thread_return_value t v k)).

Record brought_back t (v : Z) k k' : Prop := {
  bb_wait_qs : wait_qs k' = wait_qs k;
  bb_ready : wakeable k t = true -> t ∈ ready_list k';
  bb_kept x : x ∈ ready_list k -> x ∈ ready_list k';
  bb_thread : exists f, threads k' t = with_flags f (with_return_value v (threads k t));
  bb_threads x : x <> t -> threads k' x = threads k x;
  bb_schedule : schedule k' = schedule k;
  bb_current : current k' = current k;
  bb_isr : in_isr k' = in_isr k
}.

Lemma bring_back_away K F k t v :
  away K (t :: F) k ->
  exists k', bring_back t v k = Some k' /\ away K F k' /\ brought_back t v k k'.
Proof.
  intros Haw. unfold bring_back. set (k1 := _set_thread_return_value t v k).
  set (k2 := _mark_thread_as_not_pending t k1).
  assert (away K (t :: F) k2) as Haw2.
  { apply away_upd; [by left|done|]. apply away_upd; [by left|done|done]. }
  assert (_is_thread_pending t k2 = false) as Hnp.
  { rewrite pending_bit. unfold k2, _mark_thread_as_not_pending. rewrite reset_states_bit by lia.
    rewrite bool_decide_eq_true_2 by done. change (Z.testbit K_PENDING 13) with true.
    by rewrite andb_false_r. }
  destruct (ready_away K t F k2 Haw2 Hnp) as (k3 & E & Haw3 & (Ew & Eq & Eto & Ec & Ei & Hne & f & Hf) & El).
  exists k3. split_and!; [done..|].
  assert (wakeable k2 t = wakeable k t) as Hwk.
  { unfold wakeable, k2, _mark_thread_as_not_pending. rewrite !reset_states_bit by lia.
    change (Z.testbit K_PENDING 15) with false. change (Z.testbit K_PENDING 16) with false.
    change (Z.testbit K_PENDING 17) with false. rewrite !andb_false_r. cbn [negb].
    rewrite !andb_true_r. unfold fbit, k1. cbn. by rewrite !fn_lookup_alter. }
  split; try done.
  - intros Hw. rewrite El, Hwk, Hw. apply elem_of_prio_insert. by left.
  - intros x Hx. rewrite El. destruct (wakeable k2 t); [|done]. apply elem_of_prio_insert. by right.
  - rewrite Hf. unfold k2, k1. cbn. rewrite !fn_lookup_alter.
    exists (fun z => f (Z.land z (Z.lnot K_PENDING))). by destruct (threads k t).
  - intros x Hx. rewrite Hne by done. unfold k2, k1. cbn. by rewrite !fn_lookup_alter_ne.
  - unfold schedule. by rewrite Eq, Eto.
Qed.

(** Rescheduling does not concern threads that are away. *)
Lemma reschedule_away K F k :
  away K F k -> in_isr k = false ->
  exists k', _reschedule_threads k = Some k' /\ away K F k' /\ same_queues k k' /\ no_more_urgent k' /\
    forall x, x <> current k -> threads k' x = threads k x.
Proof.
  intros [Hru T2 T3 T5 T6] Hi.
  assert (E : swap_if_needed k = _reschedule_threads k).
  { unfold swap_if_needed, must_switch_if_not_isr, _reschedule_threads. by rewrite Hi. }
  destruct (finish_running _ k k _idle_thread Hru Hru (same_queues_refl k) eq_refl) as (k' & E' & Hru' & Hsq & Hnu & _).
  exists k'. split_and!; [congruence| |done|by apply Hnu|].
  - split; try done.
    + intros x Hx. rewrite (same_queues_prio _ _ x Hsq). by apply T3.
    + intros x Hx. rewrite (sq_timeouts _ _ Hsq). by apply T5.
  - intros x Hx. destruct (finish_running _ k k x Hru Hru (same_queues_refl k) eq_refl) as (k2 & E2 & _ & _ & _ & Ht).
    rewrite E' in E2. injection E2 as <-. by apply Ht.
Qed.

(** The threads [S] have left [wq], whose queue is now [rest]. *)
Record departed wq S rest k k' : Prop := {
  dp_queue : wait_qs k' wq = rest;
  dp_others wq' : wq' <> wq -> wait_qs k' wq' = wait_qs k wq';
  dp_ready : ready_list k' = ready_list k;
  dp_current : current k' = current k;
  dp_isr : in_isr k' = in_isr k;
  dp_threads x : x ∉ S -> threads k' x = threads k x;
  dp_wakeable x : wakeable k' x = wakeable k x
}.

Lemma departed_nil wq k : departed wq [] (wait_qs k wq) k k.
Proof. by split. Qed.

Lemma departed_cons wq S rest k1 k2 k3 t l :
  parked wq t l k1 k2 -> departed wq S rest k2 k3 -> departed wq (t :: S) rest k1 k3.
Proof.
  intros [A1 A2 A3 _ A5 A6 A7 _ A9] [B1 B2 B3 B4 B5 B6 B7]. split; try congruence.
  - intros w' Hne. by rewrite B2, A2.
  - intros x [Hne Hni]%not_elem_of_cons. by rewrite B6, A7.
Qed.

(** The threads [S] have become ready. *)
Record arrived S k k' : Prop := {
  ar_wait_qs : wait_qs k' = wait_qs k;
  ar_ready t : t ∈ S -> wakeable k t = true -> t ∈ ready_list k';
  ar_kept x : x ∈ ready_list k -> x ∈ ready_list k';
  ar_current : current k' = current k;
  ar_isr : in_isr k' = in_isr k;
  ar_threads x : x ∉ S -> threads k' x = threads k x
}.

Lemma arrived_nil k : arrived [] k k.
Proof. split; try done. by intros t ?%elem_of_nil. Qed.

Lemma arrived_app S1 S2 k1 k2 k3 :
  NoDup (S1 ++ S2) -> arrived S1 k1 k2 -> arrived S2 k2 k3 -> arrived (S1 ++ S2) k1 k3.
Proof.
  intros (_ & Hd & _)%NoDup_app [A1 A2 A3 A4 A5 A6] [B1 B2 B3 B4 B5 B6]. split; try congruence.
  - intros t [Ht|Ht]%elem_of_app Hw; [by apply B3, A2|]. apply B2; [done|].
    unfold wakeable, fbit in *. rewrite A6; [done|]. intros Hin. by apply (Hd t).
  - intros x Hx. by apply B3, A3.
  - intros x [Hx1 Hx2]%not_elem_of_app. by rewrite B6, A6.
Qed.

Lemma arrive_first K t F k :
  transit K (t :: F) k ->
  exists k', _ready_thread t k = Some k' /\ transit K F k' /\ arrived [t] k k'.
Proof.
  intros Htr. destruct (ready_parked K t F k Htr) as (k' & E & Htr' & Hor & El).
  exists k'. split_and!; try done. destruct Hor as (Ew & _ & _ & Ec & Ei & Hne & _).
  split; try done.
  - intros x ->%list_elem_of_singleton Hw. rewrite El, Hw. apply elem_of_prio_insert. by left.
  - intros x Hx. rewrite El. destruct (wakeable k t); [|done]. apply elem_of_prio_insert. by right.
  - intros x Hx. apply Hne. by apply not_elem_of_cons in Hx as [? _].
Qed.
End Transit.
