(* ===== verification/Thread.v ===== *)
(** * Thread life cycle (kernel/unified/thread.c, thread_abort.c, init.c)

    Creating, starting, cancelling, suspending, resuming and aborting threads,
    the static threads and their groups, and the boot sequence up to the switch
    to the main thread. The initial exception frame that [_new_thread]
    (arch/arm/core/thread.c) carves on the stack is not part of the model. *)
From S2P Require Import Prelude Kernel ReadyQ TimeoutQ Sched SchedInv SchedApi.

Inductive context_type := NANO_CTX_ISR | NANO_CTX_FIBER | NANO_CTX_TASK.

(** [struct _static_thread_data], the fields the kernel logic reads.
    [init_entry] is compared with [idle] only. *)
Record static_thread_data := {
  st_thread : tid;
  init_entry_is_idle : bool;
  init_prio : Z;
  init_options : Z;
  init_delay : Z;
  init_groups : Z
}.

Definition with_groups (f : Z -> Z) (d : static_thread_data) : static_thread_data :=
  {| st_thread := st_thread d; init_entry_is_idle := init_entry_is_idle d;
     init_prio := init_prio d; init_options := init_options d;
     init_delay := init_delay d; init_groups := f (init_groups d) |}.

Definition K_TASK_GROUP_EXE : Z := 0x1.

Section Operations.
Context `{KConfig}.
Implicit Types (k : kernel) (t : tid).

Definition sys_execution_context_type_get k : context_type :=
  if in_isr k then NANO_CTX_ISR
  else if prio (threads k (current k)) <? 0 then NANO_CTX_FIBER else NANO_CTX_TASK.

Definition k_is_in_isr k : bool := in_isr k.

Definition _thread_essential_set k : kernel :=
  upd_thread (current k) (with_flags (fun f => Z.lor f K_ESSENTIAL)) k.
Definition _thread_essential_clear k : kernel :=
  upd_thread (current k) (with_flags (fun f => Z.land f (Z.lnot K_ESSENTIAL))) k.
Definition _is_thread_essential k : bool :=
  negb (Z.land (flags (threads k (current k))) K_ESSENTIAL =? 0).

(** [k_busy_wait] reads the hardware cycle counter until enough cycles have
    passed; [readings] are the successive values of [k_cycle_get_32()] after
    the first, and the result is the value that ended the wait. *)
Definition cycles_to_wait (sys_clock_hw_cycles_per_sec usec_to_wait : Z) : Z :=
  u32 (u64 (u64 usec_to_wait * u64 sys_clock_hw_cycles_per_sec) / USEC_PER_SEC).
Fixpoint busy_wait_loop (start_cycles cycles : Z) (readings : list Z) : option Z :=
  match readings with
  | [] => None
  | current_cycles :: rest =>
      if cycles <=? u32 (current_cycles - start_cycles) then Some current_cycles
      else busy_wait_loop start_cycles cycles rest
  end.
Definition k_busy_wait (hw_cycles_per_sec usec start_cycles : Z) (readings : list Z) : option Z :=
  busy_wait_loop start_cycles (cycles_to_wait hw_cycles_per_sec usec) readings.

Definition k_thread_custom_data_set (value : Z) k : kernel :=
  upd_thread (current k) (with_custom_data value) k.
Definition k_thread_custom_data_get k : Z := custom_data (threads k (current k)).

(** [_thread_monitor_exit] on the list of active threads
    ([CONFIG_THREAD_MONITOR]); running off the list is the null dereference. *)
Fixpoint unlink_thread t (prev : tid) (l : list tid) : option (list tid) :=
  match l with
  | [] => None
  | x :: l' => if decide (t = x) then Some (prev :: l')
               else r ← unlink_thread t x l'; Some (prev :: r)
  end.
Definition _thread_monitor_exit t (active : list tid) : option (list tid) :=
  match active with
  | [] => None
  | x :: l => if decide (t = x) then Some l else unlink_thread t x l
  end.

(** [_init_thread_base]: [swap_data] keeps its garbage. *)
Definition _init_thread_base t (priority initial_state options : Z) k : kernel :=
  _init_timeout (TO_thread t) None
    (upd_thread t
       (fun th => mk_thread (Z.lor options initial_state) priority 0 (swap_data th)
                    (swap_return_value th) (fn_abort th) (custom_data th)) k).

(** [_new_thread] (arch/arm/core/thread.c); [None] is the failed assertion on
    the priority. *)
Definition _new_thread t (entry_is_idle : bool) (priority options : Z) k : option kernel :=
  if (priority =? K_IDLE_PRIO) && entry_is_idle || _ASSERT_VALID_PRIO priority
  then Some (upd_thread t (fun th => with_custom_data 0 (with_fn_abort None th))
               (_init_thread_base t priority K_PRESTART options k))
  else None.

Definition start_thread t k : option kernel :=
  let k := _mark_thread_as_started t k in
  if _is_thread_ready t k then
    let k := _add_thread_to_ready_q t k in
    b ← _must_switch_threads k;
    if (b : bool) then _Swap k else Some k
  else Some k.

Definition schedule_new_thread t (delay : Z) k : option kernel :=
  if delay =? 0 then start_thread t k
  else _add_thread_timeout t None (i32 (_TICK_ALIGN + _ms_to_ticks delay)) k.

Definition k_thread_spawn t (entry_is_idle : bool) (prio options delay : Z) k
    : option kernel :=
  if in_isr k then None
  else k ← _new_thread t entry_is_idle prio options k; schedule_new_thread t delay k.

Definition k_thread_cancel t k : Z * kernel :=
  if _has_thread_started t k || negb (_is_thread_timeout_active t k)
  then (- EINVAL, k)
  else (0, snd (_abort_thread_timeout t k)).

Definition is_in_any_group (d : static_thread_data) (groups : Z) : bool :=
  negb (Z.land (init_groups d) groups =? 0).

(** The [_FOREACH_STATIC_THREAD] loop of [_k_thread_group_op]. *)
Fixpoint group_loop (groups : Z) (func : tid -> kernel -> option kernel)
    (l : list static_thread_data) k : option kernel :=
  match l with
  | [] => Some k
  | d :: l' =>
      k ← (if is_in_any_group d groups then func (st_thread d) k else Some k);
      group_loop groups func l' k
  end.

Definition _k_thread_group_op (l : list static_thread_data) (groups : Z)
    (func : tid -> kernel -> option kernel) k : option kernel :=
  if in_isr k then None
  else
    k ← group_loop groups func l (_sched_lock k);
    if _is_thread_ready (current k) k then k_sched_unlock k
    else _Swap (_sched_unlock_no_reschedule k).

Definition _k_thread_single_start t k : kernel :=
  let k := _mark_thread_as_started t k in
  if _is_thread_ready t k then _add_thread_to_ready_q t k else k.

Definition _k_thread_single_suspend t k : kernel :=
  let k := if _is_thread_ready t k then _remove_thread_from_ready_q t k else k in
  _mark_thread_as_suspended t k.

Definition k_thread_suspend t k : option kernel :=
  let k := _k_thread_single_suspend t k in
  if decide (t = current k) then _Swap k else Some k.

Definition _k_thread_single_resume t k : kernel :=
  let k := _mark_thread_as_not_suspended t k in
  if _is_thread_ready t k then _add_thread_to_ready_q t k else k.

Definition k_thread_resume t k : option kernel :=
  _reschedule_threads (_k_thread_single_resume t k).

(** The abort handlers are application code: [run_abort f] is the effect of
    calling the one at address [f]. *)
Section Abort.
Context (run_abort : positive -> kernel -> option kernel).

Definition _k_thread_single_abort t k : option kernel :=
  k ← (match fn_abort (threads k t) with Some f => run_abort f k | None => Some k end);
  k ← (if _is_thread_ready t k then Some (_remove_thread_from_ready_q t k)
       else
         k ← (if _is_thread_pending t k then _unpend_thread t k else Some k);
         Some (if _is_thread_timeout_active t k
               then snd (_abort_thread_timeout t k) else k));
  Some (_mark_thread_as_dead t k).

(** [k_thread_abort] (arch/arm/core/thread_abort.c). In thread mode a thread that
    aborts itself swaps. In handler mode the switch waits until the handler is left:
    the result says whether the PendSV exception is pending, set here for the current
    thread, or by the service call of a [_Swap] from [_reschedule_threads]. *)
Definition k_thread_abort t k : option (kernel * bool) :=
  k ← _k_thread_single_abort t k;
  if in_isr k then
    b ← _must_switch_threads k;
    Some (if (b : bool) then _set_thread_return_value (current k) (- EAGAIN) k else k,
          bool_decide (current k = t) || b)
  else
    k ← (if decide (current k = t) then _Swap k else _reschedule_threads k);
    Some (k, false).
End Abort.

Definition task_abort_handler_set (func : option positive) k : kernel :=
  upd_thread (current k) (with_fn_abort func) k.

Definition task_start t k : option kernel :=
  _reschedule_threads (_k_thread_single_start t k).

(** The two loops of [_init_static_threads]. *)
Fixpoint create_static (l : list static_thread_data) k : option kernel :=
  match l with
  | [] => Some k
  | d :: l' =>
      k ← _new_thread (st_thread d) (init_entry_is_idle d) (init_prio d) (init_options d) k;
      create_static l' k
  end.
Fixpoint schedule_static (l : list static_thread_data) k : option kernel :=
  match l with
  | [] => Some k
  | d :: l' =>
      k ← (if init_delay d =? K_FOREVER then Some k
           else schedule_new_thread (st_thread d) (init_delay d) k);
      schedule_static l' k
  end.
Definition _init_static_threads (l : list static_thread_data) k : option kernel :=
  k ← create_static l k;
  k ← _k_thread_group_op l K_TASK_GROUP_EXE (fun t k => Some (_k_thread_single_start t k))
        (_sched_lock k);
  k ← schedule_static l k;
  k_sched_unlock k.

Definition _k_thread_group_mask_get (d : static_thread_data) : Z := init_groups d.
Definition _k_thread_group_join (groups : Z) (d : static_thread_data) : static_thread_data :=
  with_groups (fun g => u32 (Z.lor g groups)) d.
Definition _k_thread_group_leave (groups : Z) (d : static_thread_data) : static_thread_data :=
  with_groups (fun g => Z.land g groups) d.

(** [prepare_multithreading] (init.c) on the zeroed [_kernel]. The port selects
    ARCH_HAS_CUSTOM_SWAP_TO_MAIN: no dummy thread runs the initialisation. *)
Definition prepare_multithreading (main_prio : Z) k : option kernel :=
  let k := set_q (replicate (Z.to_nat K_NUM_PRIORITIES) []) k in
  k ← _new_thread _main_thread false main_prio K_ESSENTIAL k;
  let k := _add_thread_to_ready_q _main_thread (_mark_thread_as_started _main_thread k) in
  k ← _new_thread _idle_thread true K_LOWEST_THREAD_PRIO K_ESSENTIAL k;
  let k := _add_thread_to_ready_q _idle_thread (_mark_thread_as_started _idle_thread k) in
  Some (set_timeout_q [] k).

(** [_arch_switch_to_main_thread] (arch/arm): the main thread gets the processor. *)
Definition switch_to_main_thread k : kernel := set_current _main_thread k.

(** [_Cstart], without the device and board initialisation levels. *)
Definition _Cstart (main_prio : Z) k : option kernel :=
  k ← prepare_multithreading main_prio k; Some (switch_to_main_thread k).
End Operations.

(** ** Well-formedness *)
Section LifeCycle.
Context `{KConfig}.
Implicit Types (k : kernel) (t x : tid) (w : wqid) (o : toid) (K : toid -> Prop).

(** Options an application may pass: none of the state bits. *)
Definition options_ok (options : Z) : Prop :=
  forall n, 13 <= n <= 17 -> Z.testbit options n = false.

Definition with_known K t : toid -> Prop := fun o => K o \/ o = TO_thread t.

(** A thread structure that is on no queue. *)
Definition unlisted k t : Prop :=
  t ∉ ready_list k /\ (forall w, t ∉ wait_qs k w) /\ TO_thread t ∉ timeout_q k.

Lemma new_thread_flags k k' t b p options :
  _new_thread t b p options k = Some k' ->
  flags (threads k' t) = Z.lor options K_PRESTART /\ thread_prio k' t = p /\
  delta (timeouts k') (TO_thread t) = -1 /\ to_wait_q (timeouts k' (TO_thread t)) = None /\
  (forall x, x <> t -> threads k' x = threads k x) /\
  (forall o, o <> TO_thread t -> timeouts k' o = timeouts k o) /\
  q k' = q k /\ prio_bmap k' = prio_bmap k /\ cache k' = cache k /\ wait_qs k' = wait_qs k /\
  timeout_q k' = timeout_q k /\ current k' = current k /\ in_isr k' = in_isr k.
Proof.
  unfold _new_thread. destruct (_ || _); [|done]. intros [= <-]. unfold thread_prio, delta. simpl.
  rewrite !fn_lookup_alter. split_and!; try done.
  - intros x Hx. by rewrite !fn_lookup_alter_ne.
  - intros o Ho. by rewrite !fn_lookup_alter_ne.
Qed.

Lemma new_thread_bits k k' t b p options n :
  _new_thread t b p options k = Some k' -> options_ok options -> 13 <= n <= 17 ->
  fbit k' t n = (n =? 14).
Proof.
  intros E Ho Hn. destruct (new_thread_flags k k' t b p options E) as (Ef & _).
  unfold fbit. rewrite Ef, Z.lor_spec, Ho by done.
  assert (n = 13 \/ n = 14 \/ n = 15 \/ n = 16 \/ n = 17) as Hc by lia.
  by destruct Hc as [-> | [-> | [-> | [-> | ->]]]].
Qed.

Lemma new_thread_wf K k k' t b p options :
  kernel_wf K None k -> unlisted k t -> options_ok options -> prio_ok t p ->
  _new_thread t b p options k = Some k' ->
  kernel_wf (with_known K t) None k' /\ unlisted k' t /\ _is_thread_pending t k' = false /\
  ready_list k' = ready_list k.
Proof.
  intros Hwf (Hu1 & Hu2 & Hu3) Ho Hp E.
  pose proof (new_thread_bits k k' t b p options) as Hbits.
  destruct (new_thread_flags k k' t b p options E)
    as (Ef & Ep & Ed & Ewq & Ht & Hto & Eq & Eb & Ec & Ew & Etq & _).
  assert (El : ready_list k' = ready_list k) by (unfold ready_list; by rewrite Eq).
  assert (Hpt : _is_thread_pending t k' = false) by (rewrite pending_bit; by apply Hbits).
  assert (Hnr : _is_thread_ready t k' = false).
  { apply not_true_is_false. intros (_ & H14 & _)%ready_bits.
    by rewrite (Hbits 14 E Ho ltac:(lia)) in H14. }
  assert (Hr : forall x, x <> t -> _is_thread_ready x k' = _is_thread_ready x k).
  { intros x Hx. unfold _is_thread_ready, _is_thread_prevented_from_running,
      _is_thread_timeout_active. rewrite Ht, Hto; congruence. }
  assert (Hpe : forall x, x <> t -> _is_thread_pending x k' = _is_thread_pending x k).
  { intros x Hx. unfold _is_thread_pending. by rewrite Ht. }
  assert (HK : forall x, x <> t -> with_known K t (TO_thread x) -> K (TO_thread x)).
  { intros x Hx [?|[= ?]]; [done|congruence]. }
  destruct Hwf as [Hrq Htq H3 H4 H5 H6 H7 H8 H9 H10 H11 H12 H13].
  assert (Hne : forall o, o ∈ timeout_q k -> o <> TO_thread t) by (intros o Hin ->; done).
  split_and!; [|by split_and!; rewrite ?El, ?Ew, ?Etq|done|done].
  split; rewrite ?El, ?Ew, ?Etq; try done.
  - apply (rq_wf_ext k); [done..|]. intros x Hx. unfold thread_prio. rewrite Ht; [done|by intros ->].
  - destruct Htq as [T1 T2 T3 T4].
    assert (Hd : forall o, o ∈ timeout_q k -> delta (timeouts k') o = delta (timeouts k) o)
      by (intros o Hin; unfold delta; rewrite Hto; auto).
    split; rewrite ?Etq; [done|intros o Hin; rewrite Hd by done; by apply T2| |].
    + intros o a. rewrite (expiries_ext 0 (timeouts k)) by done. apply T3.
    + intros o [HKo| ->] Hdo; [|done]. destruct (decide (o = TO_thread t)) as [->|Hot]; [done|].
      apply T4; [done|]. unfold delta in *. by rewrite Hto in Hdo.
  - intros o Hin. left. by apply H3.
  - intros x HKx. destruct (decide (x = t)) as [->|Hx]; [by rewrite Ep|].
    unfold thread_prio. rewrite Ht by done. by apply H4, HK.
  - intros x Hx. rewrite Hr by (by intros ->). destruct (H5 x Hx). split; [by left|done].
  - intros x HKx _. destruct (decide (x = t)) as [->|Hx]; [congruence|].
    rewrite Hr by done. apply H6; [by apply HK|done].
  - intros x w Hx. rewrite Hpe by (intros ->; by destruct (Hu2 w)).
    destruct (H7 x w Hx). split; [by left|done].
  - intros x HKx. destruct (decide (x = t)) as [->|Hx]; [congruence|].
    rewrite Hpe by done. by apply H10, HK.
  - intros o x Hin. rewrite Hto by auto. by apply H11.
  - intros x w _ Hin. rewrite Hto by auto. by apply H12.
Qed.

Lemma assert_prio_ok t b p :
  (b = true -> t = _idle_thread) ->
  (p =? K_IDLE_PRIO) && b || _ASSERT_VALID_PRIO p = true -> prio_ok t p.
Proof.
  intros Hb. rewrite orb_true_iff, andb_true_iff, Z.eqb_eq. intros [[-> Hb']|Hv].
  - rewrite (Hb Hb'). pose proof coop_nonneg. pose proof preempt_nonneg.
    unfold prio_ok, K_IDLE_PRIO, K_HIGHEST_THREAD_PRIO, K_LOWEST_THREAD_PRIO.
    pose proof ceiling_range as Hc. split; [|by right]. revert Hc.
    destruct (Z.ltb_spec 0 CONFIG_NUM_COOP_PRIORITIES),
      (Z.ltb_spec 0 CONFIG_NUM_PREEMPT_PRIORITIES); lia.
  - by apply valid_prio_ok.
Qed.

(** *** Starting and resuming: clear a flag, and queue the thread if that makes
    it ready *)
Definition clear_and_ready t (g : thread -> thread) k : kernel :=
  let k := upd_thread t g k in
  if _is_thread_ready t k then _add_thread_to_ready_q t k else k.

Lemma clear_and_ready_wf K k t g :
  kernel_wf K None k -> K (TO_thread t) -> t ∉ ready_list k ->
  (forall th, prio (g th) = prio th) ->
  (forall th, Z.testbit (flags (g th)) 13 = Z.testbit (flags th) 13) ->
  kernel_wf K None (clear_and_ready t g k) /\
  ready_list (clear_and_ready t g k) =
    (if _is_thread_ready t (upd_thread t g k)
     then prio_insert (thread_prio k) t (ready_list k) else ready_list k) /\
  wait_qs (clear_and_ready t g k) = wait_qs k /\ schedule (clear_and_ready t g k) = schedule k.
Proof.
  intros Hwf HK Hnr Hp Hf. unfold clear_and_ready.
  destruct (_is_thread_ready t (upd_thread t g k)) eqn:Er.
  - assert (_is_thread_pending t k = false) as Hnp.
    { apply ready_not_pending in Er. rewrite pending_bit in *. unfold fbit in *. simpl in Er.
      rewrite fn_lookup_alter in Er. by rewrite <- Hf. }
    pose proof (kernel_wf_float K k t Hwf HK Hnr Hnp) as Hwf1.
    assert (kernel_wf K (Some t) (upd_thread t g k)) as Hwf2
      by (apply kernel_wf_flags; auto).
    destruct (add_ready_wf K _ t Hwf2 Er) as [Hwf3 El]. split_and!; [done| |done|done].
    rewrite El. apply prio_insert_ext. intros x _. unfold thread_prio. simpl.
    unfold alter, fn_alter. by case_decide; subst.
  - split_and!; [|done..]. apply kernel_wf_flags; auto.
Qed.

Lemma clear_flag_facts s :
  Z.testbit s 13 = false ->
  (forall th, prio (with_flags (fun f => Z.land f (Z.lnot s)) th) = prio th) /\
  (forall th, Z.testbit (flags (with_flags (fun f => Z.land f (Z.lnot s)) th)) 13 =
              Z.testbit (flags th) 13).
Proof.
  intros Hs. split; [done|]. intros th. cbn [flags with_flags].
  rewrite Z.land_spec, Z.lnot_spec, Hs by lia. apply andb_true_r.
Qed.

Lemma single_start_wf K k t :
  kernel_wf K None k -> K (TO_thread t) -> t ∉ ready_list k ->
  kernel_wf K None (_k_thread_single_start t k) /\
  ready_list (_k_thread_single_start t k) =
    (if _is_thread_ready t (_mark_thread_as_started t k)
     then prio_insert (thread_prio k) t (ready_list k) else ready_list k) /\
  wait_qs (_k_thread_single_start t k) = wait_qs k /\
  schedule (_k_thread_single_start t k) = schedule k.
Proof. intros. apply clear_and_ready_wf; try done; by apply clear_flag_facts. Qed.

Lemma single_resume_wf K k t :
  kernel_wf K None k -> K (TO_thread t) -> t ∉ ready_list k ->
  kernel_wf K None (_k_thread_single_resume t k) /\
  ready_list (_k_thread_single_resume t k) =
    (if _is_thread_ready t (_mark_thread_as_not_suspended t k)
     then prio_insert (thread_prio k) t (ready_list k) else ready_list k) /\
  wait_qs (_k_thread_single_resume t k) = wait_qs k /\
  schedule (_k_thread_single_resume t k) = schedule k.
Proof. intros. apply clear_and_ready_wf; try done; by apply clear_flag_facts. Qed.

(** *** Suspending and aborting: set a flag that keeps the thread from running *)
Definition blocking_bit (s : Z) : Prop :=
  Z.testbit s 13 = false /\ (Z.testbit s 15 = true \/ Z.testbit s 16 = true).

Lemma set_states_unready t s k :
  blocking_bit s -> _is_thread_ready t (_set_thread_states t s k) = false.
Proof.
  intros [_ Hs]. apply not_true_is_false. rewrite ready_bits, !set_states_bit.
  rewrite bool_decide_eq_true_2 by done. cbn [andb].
  destruct Hs as [-> | ->]; rewrite !orb_true_r; naive_solver.
Qed.

Lemma set_states_wf K X k t s :
  kernel_wf K X k -> t ∉ ready_list k -> blocking_bit s ->
  kernel_wf K X (_set_thread_states t s k).
Proof.
  intros Hwf Hnr Hs. apply kernel_wf_flags; [done|done|done| |right; by apply set_states_unready].
  intros th. cbn [flags with_flags]. destruct Hs as [H13 _].
  by rewrite Z.lor_spec, H13, orb_false_r.
Qed.

(** A floating thread without a timeout, blocked by a flag. *)
Lemma set_states_land K k t s :
  kernel_wf K (Some t) k -> TO_thread t ∉ timeout_q k -> blocking_bit s ->
  kernel_wf K None (_set_thread_states t s k).
Proof.
  intros Hwf Hni Hs. apply (kernel_wf_land K _ t); [|by apply set_states_unready|done].
  apply set_states_wf; [done|by apply (kw_float K _ k Hwf)|done].
Qed.

Lemma suspended_blocks : blocking_bit K_SUSPENDED.
Proof. split; [done|by right]. Qed.
Lemma dead_blocks : blocking_bit K_DEAD.
Proof. split; [done|by left]. Qed.

Lemma single_suspend_wf K k t :
  kernel_wf K None k -> K (TO_thread t) ->
  kernel_wf K None (_k_thread_single_suspend t k) /\
  ready_list (_k_thread_single_suspend t k) = remove_node t (ready_list k) /\
  (forall w, wait_qs (_k_thread_single_suspend t k) w = wait_qs k w) /\
  schedule (_k_thread_single_suspend t k) = schedule k /\
  current (_k_thread_single_suspend t k) = current k.
Proof.
  intros Hwf HK. unfold _k_thread_single_suspend. destruct (_is_thread_ready t k) eqn:Er.
  - pose proof (kw_ready_conv K None k Hwf t HK ltac:(done) Er) as Ht.
    destruct (remove_ready_wf K k t Hwf Ht) as [Hwf1 Ew].
    pose proof (remove_ready_list k t) as El. pose proof (remove_schedule k t) as Es.
    destruct (remove_rest k t) as (_ & _ & Etq & Ec & _).
    split_and!; [|exact El|exact Ew|exact Es|exact Ec].
    apply set_states_land; [done| |apply suspended_blocks]. rewrite Etq.
    apply (inactive_not_queued K None k); [done|by eapply ready_inactive].
  - pose proof (unready_not_listed K None k t Hwf Er) as Hnr.
    split_and!; try done; [by apply set_states_wf, suspended_blocks|].
    symmetry. by apply remove_node_not_in.
Qed.

(** What aborting leaves: the thread on no queue and not runnable. *)
Record reaped t k k' : Prop := {
  re_ready : ready_list k' = remove_node t (ready_list k);
  re_wait_qs w : wait_qs k' w = remove_node t (wait_qs k w);
  re_schedule : schedule k' = schedule_remove (TO_thread t) (schedule k);
  re_current : current k' = current k;
  re_dead : fbit k' t 15 = true
}.

Lemma reap_pending K k t :
  kernel_wf K None k -> K (TO_thread t) -> _is_thread_ready t k = false ->
  exists k', (if _is_thread_pending t k then _unpend_thread t k else Some k) = Some k' /\
    kernel_wf K (Some t) k' /\ ready_list k' = ready_list k /\
    (forall w, wait_qs k' w = remove_node t (wait_qs k w)) /\
    timeouts k' = timeouts k /\ timeout_q k' = timeout_q k /\ current k' = current k.
Proof.
  intros Hwf HK Hr. pose proof (unready_not_listed K None k t Hwf Hr) as Hnr.
  destruct (_is_thread_pending t k) eqn:Hp.
  - destruct (kw_wq_conv K None k Hwf t HK Hp) as [w Hw].
    unfold _unpend_thread. rewrite Hp. eexists. split; [reflexivity|].
    change (_mark_thread_as_not_pending t (remove_k_q_node t k)) with (unpend t k).
    split_and!; try done; [by eapply unpend_wf|].
    unfold ready_list. by rewrite (unpend_ready_list K None k t w).
  - exists k. split_and!; try done; [by apply kernel_wf_float|].
    intros w. symmetry. apply remove_node_not_in. intros Hw.
    destruct (kw_wq K None k Hwf t w Hw). congruence.
Qed.

Lemma reap_timeout K k t :
  kernel_wf K (Some t) k ->
  exists k', (if _is_thread_timeout_active t k then snd (_abort_thread_timeout t k) else k) = k' /\
    kernel_wf K (Some t) k' /\ TO_thread t ∉ timeout_q k' /\ ready_list k' = ready_list k /\
    wait_qs k' = wait_qs k /\ current k' = current k /\
    schedule k' = schedule_remove (TO_thread t) (schedule k).
Proof.
  intros Hwf. destruct (kw_float K _ k Hwf t eq_refl) as (HK & Hnr & Hnp).
  unfold _is_thread_timeout_active. fold (delta (timeouts k) (TO_thread t)).
  destruct (Z.eqb_spec (delta (timeouts k) (TO_thread t)) (-1)) as [Hd|Hd]; simpl.
  - pose proof (inactive_not_queued K _ k t Hwf Hd) as Hni.
    exists k. split_and!; try done. symmetry. by apply schedule_remove_not_in.
  - destruct (abort_thread_timeout_wf K (Some t) k t Hwf)
      as (r & k1 & -> & Hwf1 & Hd1 & _ & _ & Hq & Hs & Hto); [by right|done..|].
    destruct (timeouts_only_fields _ _ Hto) as (_ & _ & _ & _ & Ew & Ec & _ & El & _).
    exists k1. split_and!; try done. rewrite Hq, elem_of_remove_node. naive_solver.
Qed.

Lemma single_abort_wf K k t :
  kernel_wf K None k -> K (TO_thread t) -> fn_abort (threads k t) = None ->
  forall run_abort, exists k', _k_thread_single_abort run_abort t k = Some k' /\
    kernel_wf K None k' /\ reaped t k k'.
Proof.
  intros Hwf HK Hfn run_abort. unfold _k_thread_single_abort. rewrite Hfn. cbn [mbind option_bind].
  assert (Hdead : forall k', fbit (_mark_thread_as_dead t k') t 15 = true).
  { intros. unfold _mark_thread_as_dead. rewrite set_states_bit, bool_decide_eq_true_2 by done.
    by rewrite orb_true_r. }
  destruct (_is_thread_ready t k) eqn:Er; cbn [mbind option_bind].
  - pose proof (kw_ready_conv K None k Hwf t HK ltac:(done) Er) as Ht.
    destruct (remove_ready_wf K k t Hwf Ht) as [Hwf1 Ew].
    pose proof (remove_ready_list k t) as El. pose proof (remove_schedule k t) as Es.
    destruct (remove_rest k t) as (_ & _ & Etq & Ec & _).
    assert (TO_thread t ∉ timeout_q k) as Hni
      by (apply (inactive_not_queued K None k); [done|by eapply ready_inactive]).
    eexists. split; [reflexivity|]. split.
    + apply set_states_land; [done|by rewrite Etq|apply dead_blocks].
    + split; [exact El|apply remove_wait_qs| |exact Ec|apply Hdead].
      transitivity (schedule k); [exact Es|]. symmetry. by apply schedule_remove_not_in.
  - destruct (reap_pending K k t Hwf HK Er) as (k1 & -> & Hwf1 & El1 & Ew1 & Eto1 & Etq1 & Ec1).
    cbn [mbind option_bind].
    destruct (reap_timeout K k1 t Hwf1) as (k2 & -> & Hwf2 & Hni & El2 & Ew2 & Ec2 & Es2).
    eexists. split; [reflexivity|]. split.
    + apply set_states_land; [done|done|apply dead_blocks].
    + split; [|intros w|..|apply Hdead]; cbn.
      * change (ready_list k2 = remove_node t (ready_list k)). rewrite El2, El1.
        symmetry. apply remove_node_not_in. by eapply unready_not_listed.
      * by rewrite Ew2, Ew1.
      * change (schedule k2 = schedule_remove (TO_thread t) (schedule k)). rewrite Es2.
        unfold schedule. by rewrite Eto1, Etq1.
      * by rewrite Ec2.
Qed.
End LifeCycle.

(** ** Interrupt level

    No service changes whether an interrupt is being served. *)
Section Level.
Context `{KConfig}.
Implicit Types (k : kernel) (t : tid).

Lemma next_isr k r : _get_next_ready_thread k = Some r -> in_isr (snd r) = in_isr k.
Proof.
  unfold _get_next_ready_thread, __get_next_ready_thread.
  destruct (cache k); [by intros [= <-]|].
  destruct (_get_highest_ready_prio k) as [p|]; [|done]. cbn [mbind option_bind].
  destruct (_ <? 0); [done|]. destruct (q k !! _) as [l|]; [|done]. cbn [mbind option_bind].
  destruct (head l); [|done]. by intros [= <-].
Qed.

Lemma swap_isr k k' : _Swap k = Some k' -> in_isr k' = in_isr k.
Proof.
  unfold _Swap. set (k1 := _set_thread_return_value _ _ k).
  destruct (_get_next_ready_thread k1) as [r|] eqn:E; [|done]. intros [= <-].
  by apply next_isr in E.
Qed.

Lemma reschedule_isr k k' : _reschedule_threads k = Some k' -> in_isr k' = in_isr k.
Proof.
  unfold _reschedule_threads. destruct (_must_switch_threads k) as [[]|]; [|by intros [= <-]|done].
  apply swap_isr.
Qed.

Lemma ready_thread_isr t k k' : _ready_thread t k = Some k' -> in_isr k' = in_isr k.
Proof.
  unfold _ready_thread. destruct (_ && _); [|done].
  destruct (_is_thread_ready _ _); by intros [= <-].
Qed.

Lemma abort_timeout_isr o k : in_isr (snd (_abort_timeout o k)) = in_isr k.
Proof.
  unfold _abort_timeout. destruct (_ =? -1); [done|]. simpl. by destruct (peek_next _ _).
Qed.

Lemma add_timeout_isr th o w n k k' : _add_timeout th o w n k = Some k' -> in_isr k' = in_isr k.
Proof.
  unfold _add_timeout. destruct (0 <? n); [|done]. destruct (insert_at _ _ _ _). by intros [= <-].
Qed.

Lemma remove_isr t k : in_isr (_remove_thread_from_ready_q t k) = in_isr k.
Proof. by destruct (remove_rest k t) as (_ & _ & _ & _ & ?). Qed.

Lemma move_isr t k : in_isr (_move_thread_to_end_of_prio_q t k) = in_isr k.
Proof. by destruct (move_rest k t) as (_ & _ & _ & _ & ? & _). Qed.

Lemma single_abort_isr run_abort t k k' :
  fn_abort (threads k t) = None -> _k_thread_single_abort run_abort t k = Some k' ->
  in_isr k' = in_isr k.
Proof.
  intros Hf. unfold _k_thread_single_abort. rewrite Hf. cbn [mbind option_bind].
  destruct (_is_thread_ready t k); cbn [mbind option_bind].
  { intros [= <-]. apply (remove_isr t k). }
  unfold _unpend_thread. destruct (_is_thread_pending t k) eqn:E; rewrite ?E; cbn [mbind option_bind];
    intros [= <-]; destruct (_is_thread_timeout_active _ _); try done;
    [apply (abort_timeout_isr (TO_thread t) (unpend t k))|apply (abort_timeout_isr (TO_thread t) k)].
Qed.
End Level.

(** ** The services, on a running kernel *)
Section Services.
Context `{KConfig}.
Implicit Types (k : kernel) (t x : tid) (w : wqid) (o : toid) (K : toid -> Prop).

Lemma start_thread_eq t k :
  start_thread t k =
  if _is_thread_ready t (_mark_thread_as_started t k)
  then _reschedule_threads (_k_thread_single_start t k)
  else Some (_k_thread_single_start t k).
Proof.
  unfold start_thread, _k_thread_single_start, _reschedule_threads.
  by destruct (_is_thread_ready _ _).
Qed.

Lemma running_readied K k k' t :
  running K k -> kernel_wf K None k' -> current k' = current k ->
  (ready_list k' = ready_list k \/ ready_list k' = prio_insert (thread_prio k) t (ready_list k)) ->
  running K k'.
Proof.
  intros [_ Hc Hi] Hwf' Ec El. split; [done|rewrite Ec|];
    destruct El as [-> | ->]; rewrite ?elem_of_prio_insert; auto.
Qed.

Lemma single_start_running K k t :
  running K k -> K (TO_thread t) -> t ∉ ready_list k -> running K (_k_thread_single_start t k).
Proof.
  intros Hru HK Hnr. destruct (single_start_wf K k t (ru_wf K k Hru) HK Hnr) as (Hwf & El & _).
  apply (running_readied K k _ t Hru Hwf).
  - unfold _k_thread_single_start. by destruct (_is_thread_ready _ _).
  - rewrite El. destruct (_is_thread_ready _ _); auto.
Qed.

Lemma single_resume_running K k t :
  running K k -> K (TO_thread t) -> t ∉ ready_list k -> running K (_k_thread_single_resume t k).
Proof.
  intros Hru HK Hnr. destruct (single_resume_wf K k t (ru_wf K k Hru) HK Hnr) as (Hwf & El & _).
  apply (running_readied K k _ t Hru Hwf).
  - unfold _k_thread_single_resume. by destruct (_is_thread_ready _ _).
  - rewrite El. destruct (_is_thread_ready _ _); auto.
Qed.

Lemma start_thread_running K k t :
  running K k -> K (TO_thread t) -> t ∉ ready_list k ->
  exists k', start_thread t k = Some k' /\ running K k' /\
    ready_list k' = ready_list (_k_thread_single_start t k).
Proof.
  intros Hru HK Hnr. pose proof (single_start_running K k t Hru HK Hnr) as Hru1.
  rewrite start_thread_eq. destruct (_is_thread_ready _ _); [|eauto].
  destruct (reschedule_running K _ Hru1) as (k' & -> & ? & Hsq & _).
  exists k'. split_and!; [done|done|by apply same_queues_ready].
Qed.

Lemma new_thread_running K k k' t b p options :
  running K k -> unlisted k t -> options_ok options -> prio_ok t p ->
  _new_thread t b p options k = Some k' -> running (with_known K t) k'.
Proof.
  intros Hru Hu Ho Hp E.
  destruct (new_thread_wf K k k' t b p options (ru_wf K k Hru) Hu Ho Hp E) as (Hwf & _ & _ & El).
  destruct (new_thread_flags k k' t b p options E) as (_&_&_&_&_&_&_&_&_&_&_& Ec & _).
  split; [done|rewrite El, Ec; apply (ru_current K k Hru)|rewrite El; apply (ru_idle K k Hru)].
Qed.

Lemma spawn_running K k t b p options delay :
  running K k -> in_isr k = false -> unlisted k t -> options_ok options ->
  (b = true -> t = _idle_thread) ->
  (p =? K_IDLE_PRIO) && b || _ASSERT_VALID_PRIO p = true ->
  delay = 0 \/ delay <> 0 /\ 0 < timeout_ticks delay <= INT32_MAX ->
  exists k', k_thread_spawn t b p options delay k = Some k' /\ running (with_known K t) k' /\
    (if delay =? 0 then ready_list k' = prio_insert (<[t := p]> (thread_prio k)) t (ready_list k)
     else ready_list k' = ready_list k /\
          schedule k' = schedule_insert (TO_thread t) (timeout_ticks delay) (schedule k)).
Proof.
  intros Hru Hisr Hu Ho Hb Ha Hd. unfold k_thread_spawn. rewrite Hisr.
  pose proof (assert_prio_ok t b p Hb Ha) as Hp.
  destruct (_new_thread t b p options k) as [k1|] eqn:E;
    [|unfold _new_thread in E; by rewrite Ha in E].
  pose proof (new_thread_running K k k1 t b p options Hru Hu Ho Hp E) as Hru1.
  destruct (new_thread_wf K k k1 t b p options (ru_wf K k Hru) Hu Ho Hp E)
    as (Hwf1 & (Hu1 & Hu2 & Hu3) & Hnp & El1).
  destruct (new_thread_flags k k1 t b p options E)
    as (_ & Ep & Ed & _ & Ht & Hto & _ & _ & _ & _ & Etq & Ec & _).
  cbn [mbind option_bind]. unfold schedule_new_thread. fold (timeout_ticks delay).
  assert (HK1 : with_known K t (TO_thread t)) by by right.
  destruct (Z.eqb_spec delay 0) as [->|Hd0].
  - destruct (start_thread_running _ k1 t Hru1 HK1 Hu1) as (k2 & -> & Hru2 & El2).
    exists k2. split_and!; [done..|]. rewrite El2.
    destruct (single_start_wf _ k1 t Hwf1 HK1 Hu1) as (_ & -> & _).
    rewrite started_ready_iff; [|done|by rewrite <- pending_bit].
    unfold wakeable. rewrite !(new_thread_bits k k1 t b p options _ E Ho) by lia.
    rewrite El1. apply prio_insert_ext. intros x Hx. unfold insert, fn_insert.
    destruct (decide (t = x)) as [<-|Hne]; [done|]. unfold thread_prio. by rewrite Ht.
  - destruct Hd as [?|[_ Hd]]; [done|].
    destruct (add_thread_timeout_wf _ None k1 t None (timeout_ticks delay) Hwf1)
      as (k2 & -> & Hwf2 & Hs & _ & Hto2); [by left|done..| |].
    { intros w. split; [done|]. intros Hw. by destruct (Hu2 w). }
    destruct (timeouts_only_fields _ _ Hto2) as (_ & _ & _ & _ & _ & Ec2 & _ & El2 & _).
    exists k2. split_and!; [done| |by rewrite El2|].
    + destruct Hru1. split; [done|by rewrite El2, Ec2|by rewrite El2].
    + rewrite Hs. f_equal. unfold schedule. rewrite Etq. apply expiries_ext.
      intros o Hin. unfold delta. rewrite Hto; [done|].
      destruct Hu as (_ & _ & Hu). by intros ->.
Qed.

Lemma cancel_wf K k t :
  kernel_wf K None k -> K (TO_thread t) ->
  forall r k', k_thread_cancel t k = (r, k') ->
  kernel_wf K None k' /\ ready_list k' = ready_list k /\ current k' = current k /\
  (r = - EINVAL /\ k' = k \/
   r = 0 /\ fbit k t 14 = true /\ schedule k' = schedule_remove (TO_thread t) (schedule k)).
Proof.
  intros Hwf HK r k'. unfold k_thread_cancel, _has_thread_started.
  change K_PRESTART with (2 ^ 14). rewrite land_pow2_eqb by lia. fold (fbit k t 14).
  destruct (fbit k t 14) eqn:H14; simpl; [|intros [= <- <-]; split_and!; try done; by left].
  unfold _is_thread_timeout_active. fold (delta (timeouts k) (TO_thread t)).
  destruct (Z.eqb_spec (delta (timeouts k) (TO_thread t)) (-1)) as [Hd|Hd]; simpl;
    [intros [= <- <-]; split_and!; try done; by left|].
  assert (Hnr : t ∉ ready_list k)
    by (apply (unready_not_listed K None); [done|by apply active_not_ready]).
  destruct (abort_timeout_change K k (TO_thread t) (kw_tq K _ k Hwf) HK)
    as (r1 & k1 & E & _ & _ & Hq & Hd1 & Hs & Htq & Hqc & Hsd).
  unfold _abort_thread_timeout. rewrite E. simpl. intros [= <- <-].
  pose proof Hqc as [Hto _].
  destruct (timeouts_only_fields _ _ Hto) as (Et & _ & _ & _ & _ & Ec & _ & El & _).
  split_and!; [|done|done|by right].
  apply (kernel_wf_queue K None None k k1 (TO_thread t)); try done.
  - rewrite Hq, elem_of_remove_node. naive_solver.
  - intros x [= <-]. split; [done|]. intros _. split.
    + apply not_true_is_false. intros (_ & H14' & _)%ready_bits. unfold fbit in *.
      rewrite Et in H14'. congruence.
    + rewrite Hq, elem_of_remove_node. naive_solver.
Qed.

Lemma suspend_running K k t :
  running K k -> K (TO_thread t) -> t <> _idle_thread ->
  exists k', k_thread_suspend t k = Some k' /\ running K k' /\
    ready_list k' = remove_node t (ready_list k) /\ (forall w, wait_qs k' w = wait_qs k w) /\
    schedule k' = schedule k /\ (t = current k -> head (ready_list k') = Some (current k')).
Proof.
  intros Hru HK Hid. destruct (single_suspend_wf K k t (ru_wf K k Hru) HK) as (Hwf & El & Ew & Es & Ec).
  unfold k_thread_suspend. set (k1 := _k_thread_single_suspend t k) in *. rewrite Ec.
  assert (_idle_thread ∈ ready_list k1) as Hi
    by (rewrite El, elem_of_remove_node; split; [done|apply (ru_idle K k Hru)]).
  destruct (decide (t = current k)) as [->|Hne].
  - destruct (head_of k1 _ Hi) as [c Hc].
    destruct (swap_wf K None k1 c Hwf Hc) as (k2 & -> & Hwf2 & Hsq & Ec2 & _).
    pose proof (same_queues_ready _ _ Hsq) as El2.
    exists k2. split_and!; [done| |congruence| | |congruence].
    + split; [done|rewrite El2, Ec2; by apply head_elem|by rewrite El2].
    + intros w. by rewrite (sq_wait_qs _ _ Hsq).
    + unfold schedule in *. by rewrite (sq_timeouts _ _ Hsq), (sq_timeout_q _ _ Hsq).
  - exists k1. split_and!; try done. split; [done| |done].
    rewrite El, Ec, elem_of_remove_node. split; [congruence|apply (ru_current K k Hru)].
Qed.

Lemma resume_running K k t :
  running K k -> K (TO_thread t) -> t ∉ ready_list k ->
  exists k', k_thread_resume t k = Some k' /\ running K k' /\ no_more_urgent k'.
Proof.
  intros Hru HK Hnr. unfold k_thread_resume.
  destruct (reschedule_running K _ (single_resume_running K k t Hru HK Hnr)) as (k' & ? & ? & _ & ?).
  by exists k'.
Qed.

(** Aborting, seen after what only schedules. *)
Lemma reaped_same t k k1 k2 :
  reaped t k k1 -> same_queues k1 k2 ->
  ready_list k2 = remove_node t (ready_list k) /\
  (forall w, wait_qs k2 w = remove_node t (wait_qs k w)) /\
  schedule k2 = schedule_remove (TO_thread t) (schedule k) /\ fbit k2 t 15 = true.
Proof.
  intros [El Ew Es _ Hdead] Hsq. split_and!.
  - by rewrite (same_queues_ready _ _ Hsq).
  - intros w. by rewrite (sq_wait_qs _ _ Hsq).
  - unfold schedule in *. by rewrite (sq_timeouts _ _ Hsq), (sq_timeout_q _ _ Hsq).
  - unfold fbit in *. destruct (sq_threads _ _ Hsq t) as [v E]. by rewrite E.
Qed.

Lemma dead_not_ready k t : fbit k t 15 = true -> _is_thread_ready t k = false.
Proof. intros Hd. apply not_true_is_false. intros (_ & _ & Hb & _)%ready_bits. congruence. Qed.

(** In thread mode the processor goes to another thread when the current one is gone. *)
Lemma abort_running K k t run_abort :
  running K k -> in_isr k = false -> K (TO_thread t) -> t <> _idle_thread -> fn_abort (threads k t) = None ->
  exists k', k_thread_abort run_abort t k = Some (k', false) /\ running K k' /\
    ready_list k' = remove_node t (ready_list k) /\
    (forall w, wait_qs k' w = remove_node t (wait_qs k w)) /\
    schedule k' = schedule_remove (TO_thread t) (schedule k) /\
    fbit k' t 15 = true /\ current k' <> t /\ no_more_urgent k'.
Proof.
  intros Hru Hi HK Hid Hfn. unfold k_thread_abort.
  destruct (single_abort_wf K k t (ru_wf K k Hru) HK Hfn run_abort) as (k1 & E1 & Hwf & Hre).
  rewrite E1. cbn [mbind option_bind]. pose proof (re_current _ _ _ Hre) as Ec. pose proof (re_ready _ _ _ Hre) as El.
  rewrite (single_abort_isr run_abort t k k1 Hfn E1), Hi, Ec.
  assert (_idle_thread ∈ ready_list k1) as Hidle
    by (rewrite El, elem_of_remove_node; split; [done|apply (ru_idle K k Hru)]).
  destruct (head_of k1 _ Hidle) as [c Hc].
  assert (Hfin : forall k2, kernel_wf K None k2 -> same_queues k1 k2 -> current k2 ∈ ready_list k1 ->
    running K k2 /\ current k2 <> t).
  { intros k2 Hwf2 Hsq Hcur. pose proof (same_queues_ready _ _ Hsq) as El2. split; [split; rewrite ?El2; done|].
    intros E. rewrite E, El, elem_of_remove_node in Hcur. naive_solver. }
  destruct (decide (current k = t)) as [_|Hne].
  - destruct (swap_wf K None k1 c Hwf Hc) as (k2 & -> & Hwf2 & Hsq & Ec2 & _). exists k2.
    destruct (Hfin k2 Hwf2 Hsq) as [? ?]; [rewrite Ec2; by apply head_elem|].
    destruct (reaped_same t k k1 k2 Hre Hsq) as (? & ? & ? & ?). split_and!; try done.
    intros _ x Hx. rewrite Ec2. apply (ready_head_highest k2 _ x (kw_rq K _ k2 Hwf2)); [|done].
    by rewrite (same_queues_ready _ _ Hsq).
  - destruct (reschedule_wf K None k1 c Hwf Hc) as (k2 & -> & Hwf2 & Hsq & Ec2). exists k2.
    destruct (Hfin k2 Hwf2 Hsq) as [? ?].
    { rewrite Ec2. destruct (must_preempt k1 c); [by apply head_elem|]. rewrite El, Ec, elem_of_remove_node.
      split; [done|apply (ru_current K k Hru)]. }
    destruct (reaped_same t k k1 k2 Hre Hsq) as (? & ? & ? & ?). split_and!; try done.
    by apply (preempted_current K None k1 k2 c).
Qed.

(** In handler mode the current thread stays, and a switch is pending when it is gone. *)
Lemma abort_in_handler K k t run_abort :
  running K k -> in_isr k = true -> K (TO_thread t) -> t <> _idle_thread -> fn_abort (threads k t) = None ->
  exists k' pend, k_thread_abort run_abort t k = Some (k', pend) /\ kernel_wf K None k' /\
    ready_list k' = remove_node t (ready_list k) /\
    (forall w, wait_qs k' w = remove_node t (wait_qs k w)) /\
    schedule k' = schedule_remove (TO_thread t) (schedule k) /\
    fbit k' t 15 = true /\ current k' = current k /\ (current k = t -> pend = true).
Proof.
  intros Hru Hi HK Hid Hfn. unfold k_thread_abort.
  destruct (single_abort_wf K k t (ru_wf K k Hru) HK Hfn run_abort) as (k1 & E1 & Hwf & Hre).
  rewrite E1. cbn [mbind option_bind]. pose proof (re_current _ _ _ Hre) as Ec. pose proof (re_ready _ _ _ Hre) as El.
  rewrite (single_abort_isr run_abort t k k1 Hfn E1), Hi, Ec.
  assert (_idle_thread ∈ ready_list k1) as Hidle
    by (rewrite El, elem_of_remove_node; split; [done|apply (ru_idle K k Hru)]).
  destruct (head_of k1 _ Hidle) as [c Hc]. rewrite (must_switch_eq K None k1 c Hwf Hc). cbn [mbind option_bind].
  set (k2 := if must_preempt k1 c then _ else _). exists k2. eexists. split; [done|].
  assert (kernel_wf K None k2 /\ reaped t k k2) as [Hwf2 Hre2].
  { unfold k2. destruct (must_preempt k1 c); [|done]. split; [by apply kernel_wf_return_value|].
    destruct Hre as [R1 R2 R3 R4 R5]. split; try done. unfold fbit in *.
    unfold _set_thread_return_value, upd_thread. cbn [threads set_threads]. unfold alter, fn_alter.
    case_decide as Ed; [rewrite <- Ed in R5|]; exact R5. }
  destruct Hre2. split_and!; try done. intros ->. by rewrite bool_decide_eq_true_2.
Qed.
End Services.
