(* ===== verification/Boot.v ===== *)
(** * Boot (kernel/unified/init.c)

    From the zeroed [_kernel] to the main thread: [_Cstart] establishes the
    kernel invariant, with the main and the idle threads ready and the main
    thread on the processor. The states it reaches are where the other files'
    invariants start. *)
From S2P Require Import Prelude Kernel ReadyQ TimeoutQ Sched SchedInv SchedApi Thread.

Section Boot.
Context `{KConfig}.
Implicit Types (k : kernel) (t : tid).

(** The C runtime has zeroed [_kernel], and no object has been initialised. *)
Record zeroed k : Prop := {
  ze_bmap : prio_bmap k = replicate (Z.to_nat K_NUM_PRIO_BITMAPS) 0;
  ze_cache : cache k = None;
  ze_wait_qs w : wait_qs k w = []
}.

Lemma join_replicate_nil n : mjoin (replicate n ([] : list tid)) = [].
Proof. induction n; [done|]. simpl. done. Qed.

Lemma bmap_bit_zero n j : bmap_bit (replicate n 0) j = false.
Proof.
  unfold bmap_bit. rewrite nth_lookup.
  destruct (replicate n 0 !! Z.to_nat (j / 32)) as [z|] eqn:E; [|apply Z.bits_0].
  apply lookup_replicate in E as [-> _]. apply Z.bits_0.
Qed.

Lemma empty_rq_wf k :
  q k = replicate (Z.to_nat K_NUM_PRIORITIES) [] ->
  prio_bmap k = replicate (Z.to_nat K_NUM_PRIO_BITMAPS) 0 -> cache k = None -> rq_wf k.
Proof.
  intros Eq Eb Ec. split; unfold ready_list; rewrite ?Eq, ?Eb, ?Ec.
  - apply length_replicate.
  - apply length_replicate.
  - apply Forall_replicate. unfold UINT32_MAX. lia.
  - intros i l [-> _]%lookup_replicate. by rewrite bmap_bit_zero.
  - intros j _. apply bmap_bit_zero.
  - intros i l t [-> _]%lookup_replicate. by intros ?%elem_of_nil.
  - rewrite join_replicate_nil. constructor.
  - done.
Qed.

(** No thread exists yet. *)
Definition nobody : toid -> Prop := fun _ => False.

Lemma empty_kernel_wf k :
  q k = replicate (Z.to_nat K_NUM_PRIORITIES) [] ->
  prio_bmap k = replicate (Z.to_nat K_NUM_PRIO_BITMAPS) 0 -> cache k = None ->
  (forall w, wait_qs k w = []) -> timeout_q k = [] -> kernel_wf nobody None k.
Proof.
  intros Eq Eb Ec Ew Et. assert (ready_list k = []) as El
    by (unfold ready_list; rewrite Eq; apply join_replicate_nil).
  split; rewrite ?El, ?Et; try done; try (intros; by match goal with H : _ ∈ [] |- _ => apply elem_of_nil in H end).
  - by apply empty_rq_wf.
  - split; rewrite ?Et; [constructor|by intros o ?%elem_of_nil| |done].
    by intros o a ?%elem_of_nil.
  - intros t w. rewrite Ew. by intros ?%elem_of_nil.
  - intros w. rewrite Ew. constructor.
  - intros w1 w2 t. rewrite Ew. by intros ?%elem_of_nil.
Qed.

(** Creating, starting and queueing one of the two boot threads. *)
Lemma boot_thread K k t b p :
  kernel_wf K None k -> unlisted k t -> (b = true -> t = _idle_thread) ->
  (p =? K_IDLE_PRIO) && b || _ASSERT_VALID_PRIO p = true ->
  exists k1, _new_thread t b p K_ESSENTIAL k = Some k1 /\
    let k2 := _add_thread_to_ready_q t (_mark_thread_as_started t k1) in
    kernel_wf (with_known K t) None k2 /\
    ready_list k2 = prio_insert (thread_prio k2) t (ready_list k) /\
    thread_prio k2 t = p /\ (forall x, x <> t -> thread_prio k2 x = thread_prio k x) /\
    wait_qs k2 = wait_qs k /\ timeout_q k2 = timeout_q k /\ current k2 = current k.
Proof.
  intros Hwf Hu Hb Ha. pose proof (assert_prio_ok t b p Hb Ha) as Hp.
  destruct (_new_thread t b p K_ESSENTIAL k) as [k1|] eqn:E;
    [|unfold _new_thread in E; by rewrite Ha in E].
  assert (options_ok K_ESSENTIAL) as Ho.
  { intros n Hn. assert (n = 13 \/ n = 14 \/ n = 15 \/ n = 16 \/ n = 17) as Hc by lia.
    by destruct Hc as [-> | [-> | [-> | [-> | ->]]]]. }
  destruct (new_thread_wf K k k1 t b p _ Hwf Hu Ho Hp E) as (Hwf1 & (Hu1 & _) & Hnp & El1).
  destruct (new_thread_flags k k1 t b p _ E)
    as (_ & Ep & Ed & _ & Ht & _ & _ & _ & _ & Ew & Etq & Ec & _).
  exists k1. split; [done|]. set (k1' := _mark_thread_as_started t k1).
  assert (Ep' : forall x, thread_prio k1' x = thread_prio k1 x).
  { intros x. unfold thread_prio, k1'. simpl. unfold alter, fn_alter. by case_decide; subst. }
  destruct (single_start_wf (with_known K t) k1 t Hwf1) as (Hwf2 & El2 & _ & _);
    [by right|done|].
  assert (_is_thread_ready t k1' = true) as Er.
  { unfold k1'. rewrite started_ready_iff; [|done|by rewrite <- pending_bit].
    unfold wakeable. by rewrite !(new_thread_bits k k1 t b p _ _ E Ho) by lia. }
  unfold _k_thread_single_start in *. fold k1' in Hwf2, El2. rewrite Er in Hwf2, El2.
  cbn zeta. split_and!; try done.
  - rewrite El2, El1. apply prio_insert_ext. intros x _. symmetry. apply Ep'.
  - by rewrite <- Ep, <- Ep'.
  - intros x Hx. transitivity (thread_prio k1 x); [apply Ep'|]. unfold thread_prio. by rewrite Ht.
Qed.

(** The initialisation does not read the timeout queue. *)
Lemma prepare_timeout_q p k :
  prepare_multithreading p k = prepare_multithreading p (set_timeout_q [] k).
Proof.
  unfold prepare_multithreading, _new_thread.
  destruct ((p =? K_IDLE_PRIO) && false || _ASSERT_VALID_PRIO p); [|done].
  by destruct ((K_LOWEST_THREAD_PRIO =? K_IDLE_PRIO) && true || _).
Qed.

Definition boot_threads : toid -> Prop := with_known (with_known nobody _main_thread) _idle_thread.

Lemma prepare_multithreading_ok p k :
  zeroed k -> _ASSERT_VALID_PRIO p = true ->
  exists k', prepare_multithreading p k = Some k' /\ kernel_wf boot_threads None k' /\
    ready_list k' = [_main_thread; _idle_thread] /\ timeout_q k' = [] /\
    (forall w, wait_qs k' w = []).
Proof.
  intros [Zb Zc Zw] Ha. rewrite prepare_timeout_q. unfold prepare_multithreading.
  set (k0 := set_q _ _).
  assert (kernel_wf nobody None k0) as Hwf0 by by apply empty_kernel_wf.
  assert (ready_list k0 = []) as El0 by apply join_replicate_nil.
  destruct (boot_thread nobody k0 _main_thread false p Hwf0)
    as (k1 & -> & Hwf1 & El1 & Ep1 & _ & Ew1 & Et1 & Ec1); [|done|by rewrite Ha, orb_true_r|].
  { split_and!; [rewrite El0; by intros ?%elem_of_nil| |by intros ?%elem_of_nil].
    intros w. simpl. rewrite Zw. by intros ?%elem_of_nil. }
  cbn [mbind option_bind]. set (k2 := _add_thread_to_ready_q _main_thread _) in *.
  rewrite El0 in El1. simpl in El1.
  destruct (boot_thread _ k2 _idle_thread true K_LOWEST_THREAD_PRIO Hwf1)
    as (k3 & -> & Hwf3 & El3 & Ep3 & Hp3 & Ew3 & Et3 & Ec3); [|done| |].
  { split_and!; [rewrite El1; set_solver| |rewrite Et1; by intros ?%elem_of_nil].
    intros w. rewrite Ew1. simpl. rewrite Zw. by intros ?%elem_of_nil. }
  { unfold K_IDLE_PRIO. by rewrite Z.eqb_refl. }
  cbn [mbind option_bind]. set (k4 := _add_thread_to_ready_q _idle_thread _) in *.
  eexists. split; [reflexivity|].
  assert (set_timeout_q [] k4 = k4) as ->.
  { assert (timeout_q k4 = []) as E by by rewrite Et3, Et1. by rewrite <- E; destruct k4. }
  split_and!; [done| | |].
  - rewrite El3, El1. simpl. rewrite Ep3, Hp3, Ep1 by done.
    unfold _ASSERT_VALID_PRIO, _is_prio_higher_or_equal, K_LOWEST_APPLICATION_THREAD_PRIO in Ha.
    bool_facts. by rewrite (proj2 (Z.ltb_ge _ _)) by lia.
  - by rewrite Et3, Et1.
  - intros w. rewrite Ew3, Ew1. apply Zw.
Qed.

Lemma cstart_ok p k :
  zeroed k -> _ASSERT_VALID_PRIO p = true ->
  exists k', _Cstart p k = Some k' /\ running boot_threads k' /\
    current k' = _main_thread /\ ready_list k' = [_main_thread; _idle_thread] /\
    timeout_q k' = [] /\ (forall w, wait_qs k' w = []) /\ in_isr k' = in_isr k.
Proof.
  intros Hz Ha. unfold _Cstart, switch_to_main_thread.
  destruct (prepare_multithreading_ok p k Hz Ha) as (k1 & E1 & Hwf & El & Et & Ew).
  rewrite E1. cbn [mbind option_bind].
  assert (in_isr k1 = in_isr k) as Ei.
  { unfold prepare_multithreading, _new_thread in E1.
    destruct ((p =? K_IDLE_PRIO) && false || _ASSERT_VALID_PRIO p); [|done].
    cbn [mbind option_bind] in E1.
    destruct ((K_LOWEST_THREAD_PRIO =? K_IDLE_PRIO) && true || _); [|done].
    cbn [mbind option_bind] in E1. by simplify_eq. }
  eexists. split; [done|]. split_and!; try done. split; [by apply kernel_wf_set_current|..];
    change (ready_list (set_current _main_thread k1)) with (ready_list k1); rewrite El; set_solver.
Qed.
End Boot.

(** ** A booted kernel, for the witnesses of the other files *)
Section Booted.
Definition blank_thread : thread := mk_thread 0 0 0 0 0 None 0.
Definition blank_timeout : timeout := mk_timeout None None 0 None.
Definition blank_kernel `{KConfig} : kernel :=
  mk_kernel false 3%positive None (replicate (Z.to_nat K_NUM_PRIO_BITMAPS) 0) [] []
    (fun _ => blank_thread) (fun _ => blank_timeout) (fun _ => []) 0 0 0 0.
Definition booted : kernel := default blank_kernel (_Cstart 0 blank_kernel).

Lemma blank_zeroed `{KConfig} : zeroed blank_kernel.
Proof. by split. Qed.

Lemma booted_eq : _Cstart 0 blank_kernel = Some booted.
Proof.
  destruct (cstart_ok 0 blank_kernel blank_zeroed) as (k' & E & _); [reflexivity|].
  unfold booted. by rewrite E.
Qed.

#[global] Opaque booted.

Lemma booted_running :
  running boot_threads booted /\ current booted = _main_thread /\
  ready_list booted = [_main_thread; _idle_thread] /\ timeout_q booted = [] /\
  (forall w, wait_qs booted w = []) /\ in_isr booted = false.
Proof.
  destruct (cstart_ok 0 blank_kernel blank_zeroed)
    as (k' & E & ? & ? & ? & ? & ? & ?); [reflexivity|].
  rewrite booted_eq in E. injection E as <-.
  split_and!; assumption.
Qed.
End Booted.

(** ** A booted kernel whose main thread may take the scheduler lock *)
Section Unlocked.
(** A kernel with the current thread's lock count zero. *)
Definition unlock (k : kernel) : kernel :=
  upd_thread (current k) (with_sched_locked (fun _ => 0)) k.

Lemma unlock_ok K k :
  running K k -> in_isr k = false ->
  running K (unlock k) /\ may_lock (unlock k) /\ (forall w, wait_qs (unlock k) w = wait_qs k w) /\
  current (unlock k) = current k.
Proof.
  intros Hru Hi. split_and!; [by apply running_sched_locked| |done|done].
  split; [done|]. cbn. rewrite fn_lookup_alter. cbn. unfold INT32_MAX. lia.
Qed.

Definition unlocked : kernel := unlock booted.

Lemma unlocked_ok :
  running boot_threads unlocked /\ may_lock unlocked /\ (forall w, wait_qs unlocked w = []) /\
  current unlocked <> _idle_thread.
Proof.
  destruct booted_running as (Hru & Ec & _ & _ & Ew & Hi).
  destruct (unlock_ok boot_threads booted Hru Hi) as (Hru' & Hl & Ew' & Ec'). unfold unlocked.
  split; [exact Hru'|]. split; [exact Hl|]. split.
  - intros w. rewrite Ew'. apply Ew.
  - rewrite Ec', Ec. discriminate.
Qed.
#[global] Opaque unlocked.
Lemma no_wait_ok : timeout_ok K_NO_WAIT.
Proof. right. vm_compute. intuition discriminate. Qed.
End Unlocked.
