(* ===== verification/Clock.v ===== *)
(** * The system clock (kernel/unified/sys_clock.c) and expired timeouts
    (kernel/unified/include/timeout_q.h)

    A tick announcement advances the clock, expires timeouts and slices time.
    An expired timeout wakes its thread or calls its function, which belongs to
    the object that owns the timeout: the operations are stated over any world
    that contains the kernel ([World]) and any function [run_func] that stands
    for the calls through [t->func]; the files Timer and WorkQ supply both. *)
From S2P Require Import Prelude Kernel ReadyQ TimeoutQ Sched SchedInv SchedApi Thread.

(** A state with the kernel inside. *)
Class World (W : Type) := {
  core : W -> kernel;
  set_core : kernel -> W -> W;
  core_set k w : core (set_core k w) = k
}.
#[export] Instance kernel_world : World kernel :=
  {| core := fun k => k; set_core := fun k _ => k; core_set := fun _ _ => eq_refl |}.

Section Operations.
Context `{KConfig} `{World W}.
Context (run_func : positive -> toid -> W -> option W).
Implicit Types (k : kernel) (w : W).

Definition _ticks_to_ms (ticks : Z) : Z :=
  if ticks =? K_FOREVER then K_FOREVER else i32 (__ticks_to_ms ticks).

Definition _unpend_thread_timing_out (t : tid) (timeout_obj : toid) k : option kernel :=
  match to_wait_q (timeouts k timeout_obj) with
  | Some _ =>
      k ← _unpend_thread t k;
      Some (upd_timeout (TO_thread t) (with_to_wait_q None) k)
  | None => Some k
  end.

(** [None] on an empty queue: the code would read through a null pointer. *)
Definition _handle_one_timeout w : option (option toid * W) :=
  t ← head (timeout_q (core w));
  let k := set_timeout_q (tail (timeout_q (core w))) (core w) in
  let k := upd_timeout t (with_delta (-1)) k in
  w ← (match to_thread (timeouts k t) with
       | Some thread =>
           k ← _unpend_thread_timing_out thread t k;
           k ← _ready_thread thread k;
           Some (set_core k w)
       | None =>
           match to_func (timeouts k t) with
           | Some f => run_func f t (set_core k w)
           | None => Some (set_core k w)
           end
       end);
  Some (head (timeout_q (core w)), w).

(** [while (next && next->delta_ticks_from_prev == 0)]; running out of [fuel]
    is [None]. *)
Fixpoint handle_loop (fuel : nat) (next : option toid) w : option W :=
  match next with
  | None => Some w
  | Some o =>
      if delta (timeouts (core w)) o =? 0 then
        match fuel with
        | O => None
        | S fuel => r ← _handle_one_timeout w; handle_loop fuel (fst r) (snd r)
        end
      else Some w
  end.
Definition _handle_timeouts w : option W :=
  handle_loop (length (timeout_q (core w))) (head (timeout_q (core w))) w.

Definition handle_expired_timeouts (ticks : Z) w : option W :=
  match head (timeout_q (core w)) with
  | Some o =>
      _handle_timeouts
        (set_core (upd_timeout o (fun t => with_delta (i32 (delta_ticks_from_prev t - ticks)) t)
                     (core w)) w)
  | None => Some w
  end.

Definition handle_time_slicing (ticks : Z) k : kernel :=
  if time_slice_duration k =? 0 then k
  else if _is_prio_higher (prio (threads k (current k))) (time_slice_prio_ceiling k) then k
  else
    let elapsed := i32 (time_slice_elapsed k + _ticks_to_ms ticks) in
    if time_slice_duration k <=? elapsed
    then _move_thread_to_end_of_prio_q (current k)
           (set_clock (tick_count k) 0 (time_slice_duration k) (time_slice_prio_ceiling k) k)
    else set_clock (tick_count k) elapsed (time_slice_duration k) (time_slice_prio_ceiling k) k.

Definition _nano_sys_clock_tick_announce (ticks : Z) w : option W :=
  let k := core w in
  let k := set_clock (i64 (tick_count k + ticks)) (time_slice_elapsed k)
             (time_slice_duration k) (time_slice_prio_ceiling k) k in
  w ← handle_expired_timeouts ticks (set_core k w);
  Some (set_core (handle_time_slicing ticks (core w)) w).
End Operations.

Section Reading.
Context `{KConfig}.
Implicit Type k : kernel.

Definition _tick_get_32 k : Z := u32 (tick_count k).
Definition k_uptime_get_32 k : Z := u32 (__ticks_to_ms (_tick_get_32 k)).
Definition _tick_get k : Z := tick_count k.
Definition k_uptime_get k : Z := __ticks_to_ms (_tick_get k).

(** The reference time is passed by address: its new value is the second
    component. *)
Definition _nano_tick_delta (reftime : Z) k : Z * Z :=
  let saved := tick_count k in (i64 (saved - reftime), saved).
Definition sys_tick_delta (reftime : Z) k : Z * Z := _nano_tick_delta reftime k.
Definition sys_tick_delta_32 (reftime : Z) k : Z * Z :=
  let '(d, r) := _nano_tick_delta reftime k in (u32 d, r).
Definition k_uptime_delta (reftime : Z) k : Z * Z :=
  let uptime := k_uptime_get k in (i64 (uptime - reftime), uptime).
Definition k_uptime_delta_32 (reftime : Z) k : Z * Z :=
  let '(d, r) := k_uptime_delta reftime k in (u32 d, r).
End Reading.

(** ** Expired timeouts *)
Section Expired.
Implicit Types (k : kernel) (o : toid).

(** How many timeouts are due now. *)
Definition expired k : nat := length (filter (fun e => snd e = 0) (schedule k)).

Lemma expiries_lower acc tm l o a :
  nonneg tm l -> (o, a) ∈ expiries acc tm l -> acc <= a.
Proof.
  revert acc. induction l as [|x l IH]; intros acc Hnn; simpl; [by intros ?%elem_of_nil|].
  assert (0 <= delta tm x) by (apply Hnn, elem_of_cons; by left).
  intros [?|Hin]%elem_of_cons; [simplify_eq; lia|].
  apply IH in Hin; [lia|]. intros y Hy. apply Hnn, elem_of_cons. by right.
Qed.

Lemma filter_none {A} (P : A -> Prop) `{!forall x, Decision (P x)} (l : list A) :
  (forall x, x ∈ l -> ~ P x) -> filter P l = [].
Proof.
  induction l as [|x l IH]; intros Hn; [done|].
  rewrite filter_cons_False by (apply Hn, elem_of_cons; by left).
  apply IH. intros y Hy. apply Hn, elem_of_cons. by right.
Qed.

(** The loop's condition says whether anything is due. *)
Lemma expired_zero k K o :
  tq_wf K k -> head (timeout_q k) = Some o -> delta (timeouts k) o <> 0 -> expired k = O.
Proof.
  intros Hwf Hh Hd. unfold expired, schedule. pose proof (tq_nonneg K k Hwf) as Hnn.
  destruct (timeout_q k) as [|x l]; [done|]. simplify_eq/=.
  assert (0 <= delta (timeouts k) o) by (apply Hnn, elem_of_cons; by left).
  rewrite filter_cons_False by (simpl; lia). rewrite filter_none; [done|].
  intros [y a] Hin. simpl. apply expiries_lower in Hin; [lia|].
  intros z Hz. apply Hnn, elem_of_cons. by right.
Qed.

Lemma expired_insert o n (s : list (toid * Z)) :
  0 < n ->
  filter (fun e : toid * Z => snd e = 0) (schedule_insert o n s) = filter (fun e => snd e = 0) s.
Proof.
  intros Hn. induction s as [|[x a] s IH]; simpl.
  - by rewrite filter_cons_False by (simpl; lia).
  - destruct (n <=? a).
    + by rewrite filter_cons_False by (simpl; lia).
    + rewrite !filter_cons, IH. done.
Qed.

Lemma expired_remove o (s : list (toid * Z)) :
  (length (filter (fun e : toid * Z => snd e = 0%Z) (schedule_remove o s)) <=
   length (filter (fun e : toid * Z => snd e = 0%Z) s))%nat.
Proof.
  unfold schedule_remove. induction s as [|e s IH]; [done|].
  rewrite !filter_cons. destruct (decide (e.1 <> o)); rewrite ?filter_cons;
    destruct (decide (e.2 = 0)); simpl; lia.
Qed.

Lemma expired_bound k : (expired k <= length (timeout_q k))%nat.
Proof.
  unfold expired. etransitivity; [apply length_filter|].
  unfold schedule. by rewrite <- (length_fmap fst), expiries_fst.
Qed.

(** *** Popping the head, which is due *)
Definition pop o k : kernel :=
  upd_timeout o (with_delta (-1)) (set_timeout_q (tail (timeout_q k)) k).

Lemma pop_spec K k o l :
  tq_wf K k -> timeout_q k = o :: l -> delta (timeouts k) o = 0 ->
  tq_wf K (pop o k) /\ queue_change o k (pop o k) /\ timeout_q (pop o k) = l /\
  schedule k = (o, 0) :: schedule (pop o k) /\ delta (timeouts (pop o k)) o = -1 /\ o ∉ l /\
  same_but_delta (timeouts k) (timeouts (pop o k)).
Proof.
  intros Hwf El Ed. pose proof (tq_nodup K k Hwf) as Hnd. rewrite El in Hnd.
  apply NoDup_cons in Hnd as [Hol Hnd].
  assert (Hdl : forall x, x <> o -> delta (timeouts (pop o k)) x = delta (timeouts k) x).
  { intros x Hx. unfold pop. simpl. by rewrite delta_alter, decide_False. }
  assert (El' : timeout_q (pop o k) = l) by (unfold pop; simpl; by rewrite El).
  assert (Es : schedule k = (o, 0) :: schedule (pop o k)).
  { unfold schedule. rewrite El, El'. cbn [expiries]. rewrite Ed, Z.add_0_l. f_equal.
    symmetry. apply expiries_ext. intros x Hx. apply Hdl. by intros ->. }
  assert (Ho : delta (timeouts (pop o k)) o = -1)
    by (unfold pop; simpl; by rewrite delta_alter, decide_True).
  split_and!; try done.
  - split.
    + by rewrite El'.
    + intros x Hx. rewrite El' in Hx. rewrite Hdl by (by intros ->).
      apply (tq_nonneg K k Hwf). rewrite El. apply elem_of_cons. by right.
    + intros x a Hin. apply (tq_bound K k Hwf x a). fold (schedule k). rewrite Es.
      apply elem_of_cons. by right.
    + intros x HK Hd. rewrite El'. destruct (decide (x = o)) as [->|Hne]; [done|].
      rewrite Hdl in Hd by done. pose proof (tq_known K k Hwf x HK Hd) as Hin.
      rewrite El in Hin. by apply elem_of_cons in Hin as [?|?].
  - split; [done|]. intros x Hx. rewrite El', El, elem_of_cons. unfold pop. simpl.
    rewrite fn_lookup_alter_ne by done. naive_solver.
  - apply alter_delta_same.
Qed.
End Expired.

(** ** A thread timing out *)
Section ThreadTimeout.
Context `{KConfig}.
Implicit Types (k : kernel) (t x : tid) (o : toid) (K : toid -> Prop).

(** A timed-out thread: off its wait queue, ready, its return value untouched
    (the -EAGAIN that [_Swap] stored). *)
Record timed_out t k k' : Prop := {
  ti_wait_qs w : wait_qs k' w = remove_node t (wait_qs k w);
  ti_ready : ready_list k' =
    if wakeable k t then prio_insert (thread_prio k) t (ready_list k) else ready_list k;
  ti_schedule : schedule k = (TO_thread t, 0) :: schedule k';
  ti_timeout_q : timeout_q k' = tail (timeout_q k);
  ti_to_func o : to_func (timeouts k' o) = to_func (timeouts k o);
  ti_current : current k' = current k;
  ti_in_isr : in_isr k' = in_isr k;
  ti_threads x : x <> t -> threads k' x = threads k x;
  ti_thread : exists f, threads k' t = with_flags f (threads k t)
}.

(** [timeout.wait_q = NULL] on a timeout that is not queued. *)
Lemma clear_wait_q_wf K X k t :
  kernel_wf K X k -> TO_thread t ∉ timeout_q k ->
  kernel_wf K X (upd_timeout (TO_thread t) (with_to_wait_q None) k) /\
  schedule (upd_timeout (TO_thread t) (with_to_wait_q None) k) = schedule k.
Proof.
  intros Hwf Hni. set (k' := upd_timeout _ _ k).
  assert (Hd : forall o, delta (timeouts k') o = delta (timeouts k) o).
  { intros o. unfold delta, k', upd_timeout. simpl. unfold alter, fn_alter. by case_decide; subst. }
  assert (Hr : forall x, _is_thread_ready x k' = _is_thread_ready x k).
  { intros x. apply eq_true_iff_eq. rewrite !ready_bits. by rewrite Hd. }
  assert (Hne : forall o, o <> TO_thread t -> timeouts k' o = timeouts k o)
    by (intros; by apply fn_lookup_alter_ne).
  assert (Es : schedule k' = schedule k) by (apply expiries_ext; auto).
  split; [|done]. destruct Hwf as [Hrq Htq H3 H4 H5 H6 H7 H8 H9 H10 H11 H12 H13].
  split; try done.
  - by apply (rq_wf_ext k).
  - destruct Htq as [T1 T2 T3 T4]. split; try done.
    + intros o Hin. rewrite Hd. by apply T2.
    + intros o a. fold (schedule k'). rewrite Es. apply T3.
    + intros o HK. rewrite Hd. by apply T4.
  - intros x. rewrite Hr. apply H5.
  - intros x. rewrite Hr. apply H6.
  - intros o x Hin. rewrite Hne by (intros ->; done). by apply H11.
  - intros x w HX Hin. rewrite Hne by (intros E; rewrite E in Hin; done). by apply H12.
Qed.

(** Popping a due thread timeout: the thread floats if it was sleeping, and
    stays on its wait queue if it was waiting. *)
Lemma pop_thread_wf K k t l :
  kernel_wf K None k -> timeout_q k = TO_thread t :: l -> delta (timeouts k) (TO_thread t) = 0 ->
  kernel_wf K (if _is_thread_pending t k then None else Some t) (pop (TO_thread t) k) /\
  t ∉ ready_list k /\ K (TO_thread t) /\
  (forall w, to_wait_q (timeouts k (TO_thread t)) = Some w <-> t ∈ wait_qs k w).
Proof.
  intros Hwf El Ed. destruct (pop_spec K k _ l (kw_tq K _ k Hwf) El Ed)
    as (Htq & Hqc & Eq & _ & _ & Hol & _).
  assert (Hin : TO_thread t ∈ timeout_q k) by (rewrite El; apply elem_of_cons; by left).
  pose proof (kw_known K None k Hwf _ Hin) as HK.
  assert (Hnr : t ∉ ready_list k).
  { apply (unready_not_listed K None); [done|]. apply active_not_ready. lia. }
  assert (Hw : forall w, to_wait_q (timeouts k (TO_thread t)) = Some w <-> t ∈ wait_qs k w)
    by (intros w; by apply (kw_to_wq K None k Hwf)).
  split_and!; try done.
  apply (kernel_wf_queue K None _ k (pop (TO_thread t) k) (TO_thread t)); try done.
  - by rewrite Eq.
  - intros x [= <-]. split; [done|]. intros HX. split; [|by rewrite Eq].
    destruct (_is_thread_pending t k) eqn:Hp; [|done].
    apply not_true_is_false. intros Hr%ready_not_pending.
    unfold _is_thread_pending in *. simpl in Hr. congruence.
  - intros x. destruct (_is_thread_pending t k) eqn:Hp; [done|]. by intros [= <-].
Qed.

Lemma pop_fields k o :
  threads (pop o k) = threads k /\ ready_list (pop o k) = ready_list k /\
  wait_qs (pop o k) = wait_qs k /\ current (pop o k) = current k /\ in_isr (pop o k) = in_isr k.
Proof. done. Qed.

(** What [_ready_thread] does at the end of a time-out. *)
Lemma ready_timed_out K k1 k t l :
  kernel_wf K (Some t) k1 -> delta (timeouts k1) (TO_thread t) = -1 ->
  timeout_q k1 = l -> timeout_q k = TO_thread t :: l ->
  schedule k = (TO_thread t, 0) :: schedule k1 -> ready_list k1 = ready_list k ->
  (forall w, wait_qs k1 w = remove_node t (wait_qs k w)) ->
  (forall x, x <> t -> threads k1 x = threads k x) ->
  (exists f, threads k1 t = with_flags f (threads k t)) ->
  (forall o, to_func (timeouts k1 o) = to_func (timeouts k o)) ->
  (forall n, n <> 13 -> 0 <= n -> fbit k1 t n = fbit k t n) ->
  current k1 = current k -> in_isr k1 = in_isr k ->
  exists k2, _ready_thread t k1 = Some k2 /\ kernel_wf K None k2 /\ timed_out t k k2.
Proof.
  intros Hwf Hd Eq1 Eq Es El Ew Ht [f Hf] Eth Hb Ec Ei.
  destruct (kw_float K _ k1 Hwf t eq_refl) as (HK & Hnr & Hnp).
  destruct (ready_thread_wf K k1 t Hwf Hd) as (k2 & E2 & Hwf2 & Hor & El2).
  destruct Hor as (Ew2 & Eq2 & Eto2 & Ec2 & Ei2 & Hne & g & Hg).
  assert (Ep : forall x, thread_prio k1 x = thread_prio k x).
  { intros x. unfold thread_prio. destruct (decide (x = t)) as [->|Hx]; [by rewrite Hf|by rewrite Ht]. }
  exists k2. split_and!; [done..|]. split.
  - intros w. by rewrite Ew2.
  - rewrite El2, started_ready_iff by (done || by rewrite <- pending_bit).
    assert (wakeable k1 t = wakeable k t) as -> by (unfold wakeable; by rewrite !Hb by lia).
    rewrite El. destruct (wakeable k t); [|done]. by apply prio_insert_ext.
  - rewrite Es. f_equal. unfold schedule. by rewrite Eq2, Eto2.
  - by rewrite Eq2, Eq1, Eq.
  - intros o. by rewrite Eto2.
  - congruence.
  - congruence.
  - intros x Hx. rewrite Hne by done. by apply Ht.
  - rewrite Hg, Hf. exists (fun z => g (f z)). by destruct (threads k t).
Qed.

Lemma thread_timeout_wf K k t l :
  kernel_wf K None k -> timeout_q k = TO_thread t :: l -> delta (timeouts k) (TO_thread t) = 0 ->
  exists k1 k2, _unpend_thread_timing_out t (TO_thread t) (pop (TO_thread t) k) = Some k1 /\
    _ready_thread t k1 = Some k2 /\ kernel_wf K None k2 /\ timed_out t k k2.
Proof.
  intros Hwf El Ed. destruct (pop_thread_wf K k t l Hwf El Ed) as (Hwf1 & Hnr & HK & Hw).
  destruct (pop_spec K k _ l (kw_tq K _ k Hwf) El Ed) as (_ & _ & Eq & Es & Ed1 & Hol & Hsd).
  set (k1 := pop (TO_thread t) k) in *.
  assert (Ew1 : to_wait_q (timeouts k1 (TO_thread t)) = to_wait_q (timeouts k (TO_thread t)))
    by apply Hsd.
  unfold _unpend_thread_timing_out. rewrite Ew1.
  destruct (to_wait_q (timeouts k (TO_thread t))) as [w|] eqn:Ewq.
  - pose proof (proj1 (Hw w) eq_refl) as Hin.
    destruct (kw_wq K None k Hwf t w Hin) as [_ Hp]. rewrite Hp in Hwf1.
    assert (Hin1 : t ∈ wait_qs k1 w) by done.
    assert (_is_thread_pending t k1 = true) as Hp1 by done.
    unfold _unpend_thread. rewrite Hp1. cbn [mbind option_bind].
    change (_mark_thread_as_not_pending t (remove_k_q_node t k1)) with (unpend t k1).
    pose proof (unpend_wf K k1 t w Hwf1 Hin1) as Hwf2.
    destruct (clear_wait_q_wf K (Some t) (unpend t k1) t Hwf2) as [Hwf3 Es3];
      [simpl; by rewrite El|].
    set (k3 := upd_timeout (TO_thread t) _ (unpend t k1)) in *.
    destruct (ready_timed_out K k3 k t l) as (k4 & ? & ? & ?); try done.
    + unfold delta, k3. simpl. rewrite !fn_lookup_alter. done.
    + rewrite Es3. done.
    + change (ready_list (unpend t k1) = ready_list k1). unfold ready_list.
      by rewrite (unpend_ready_list K None k1 t w Hwf1 Hin1).
    + intros x Hx. unfold k3, unpend. simpl. by rewrite fn_lookup_alter_ne.
    + eexists. unfold k3, unpend. simpl. apply fn_lookup_alter.
    + intros o. unfold k3, upd_timeout. cbn [timeouts set_timeouts]. unfold alter, fn_alter at 1.
      destruct (Hsd o) as (_ & _ & E). rewrite <- E. by case_decide; subst.
    + intros n Hn Hn0. change (fbit (unpend t k1) t n = fbit k t n).
      unfold unpend, _mark_thread_as_not_pending. rewrite reset_states_bit by done.
      assert (Z.testbit K_PENDING n = false) as ->.
      { change K_PENDING with (2 ^ 13). by apply Z.pow2_bits_false. }
      rewrite andb_false_r. apply andb_true_r.
    + by exists k3, k4.
  - assert (_is_thread_pending t k = false) as Hp.
    { apply not_true_is_false. intros Hp. destruct (kw_wq_conv K None k Hwf t HK Hp) as [w Hin].
      apply Hw in Hin. done. }
    rewrite Hp in Hwf1. exists k1.
    destruct (ready_timed_out K k1 k t l) as (k4 & ? & ? & ?); try done.
    + intros w. symmetry. apply remove_node_not_in. intros Hin%Hw. done.
    + exists id. change (threads k1 t) with (threads k t). by destruct (threads k t).
    + intros o. by destruct (Hsd o) as (_ & _ & ->).
    + by exists k4.
Qed.
End ThreadTimeout.

(** ** The loop over expired timeouts *)

(** Time passing only takes threads off wait queues and time-outs off the
    timeout queue; what the objects rely on has to survive that. *)
Record calmer (k k' : kernel) : Prop := {
  cm_waits w x : x ∈ wait_qs k' w -> x ∈ wait_qs k w;
  cm_timeouts o : o ∈ timeout_q k' -> o ∈ timeout_q k;
  cm_funcs o : to_func (timeouts k' o) = to_func (timeouts k o);
  cm_isr : in_isr k' = in_isr k
}.

Lemma calmer_same k k' :
  wait_qs k' = wait_qs k -> timeout_q k' = timeout_q k -> timeouts k' = timeouts k ->
  in_isr k' = in_isr k -> calmer k k'.
Proof. intros E1 E2 E3 E4. split; intros *; by rewrite ?E1, ?E2, ?E3. Qed.

Lemma calmer_trans k1 k2 k3 : calmer k1 k2 -> calmer k2 k3 -> calmer k1 k3.
Proof. intros [A1 A2 A3 A4] [B1 B2 B3 B4]. split; auto; [intros o; by rewrite B3|congruence]. Qed.

Lemma alter_func (f : timeout -> timeout) o o' k :
  (forall x, to_func (f x) = to_func x) ->
  to_func (timeouts (upd_timeout o f k) o') = to_func (timeouts k o').
Proof.
  intros Hf. unfold upd_timeout. cbn [timeouts set_timeouts]. unfold alter, fn_alter.
  by case_decide; subst.
Qed.

Lemma elem_of_tail {A} (x : A) l : x ∈ tail l -> x ∈ l.
Proof. destruct l; [done|]. intros. apply elem_of_cons. by right. Qed.

Lemma calmer_pop o k : calmer k (pop o k).
Proof. split; [done|intros x; apply elem_of_tail|intros x; by apply (alter_func _ o x (set_timeout_q _ k))|done]. Qed.

Lemma calmer_timed_out t k k' : timed_out t k k' -> calmer k k'.
Proof.
  intros Hti. split.
  - intros w x. rewrite (ti_wait_qs _ _ _ Hti), elem_of_remove_node. by intros [_ ?].
  - intros o. rewrite (ti_timeout_q _ _ _ Hti). apply elem_of_tail.
  - apply (ti_to_func _ _ _ Hti).
  - apply (ti_in_isr _ _ _ Hti).
Qed.

Lemma calmer_slicing `{KConfig} ticks k : calmer k (handle_time_slicing ticks k).
Proof.
  unfold handle_time_slicing. repeat (case_if; [by apply calmer_same|]).
  case_if; [|by apply calmer_same].
  match goal with |- calmer _ (_move_thread_to_end_of_prio_q ?t ?k1) =>
    destruct (move_rest k1 t) as (_ & E0 & E1 & _ & E3 & E2) end.
  split; [|intros o; by rewrite E1|intros o; by rewrite E0|by rewrite E3]. intros w x. destruct E2 as [->| ->]; [done|].
  rewrite elem_of_remove_node. by intros [_ ?].
Qed.

Section Loop.
Context `{KConfig} `{World W}.
Context (K : toid -> Prop) (inv : W -> Prop).
Context (run_func : positive -> toid -> W -> option W).
Implicit Types (k : kernel) (t : tid) (o : toid) (w : W).

(** What the functions called through [t->func] have to respect: called on a
    timeout of theirs that is due and has left the queue, they return, keep the
    kernel running and the state of their objects well formed ([inv]), and add
    no timeout that is already due. *)
Definition callbacks_ok : Prop :=
  forall f o l w, inv w -> running K (core w) -> timeout_q (core w) = o :: l ->
    delta (timeouts (core w)) o = 0 -> is_object o ->
    running K (pop o (core w)) -> o ∉ l ->
    exists w', run_func f o (set_core (pop o (core w)) w) = Some w' /\ inv w' /\
      running K (core w') /\ (expired (core w') <= expired (pop o (core w)))%nat /\
      current (core w') = current (core w) /\ in_isr (core w') = in_isr (core w).

Context (Hcb : callbacks_ok).
Context (inv_core : forall k w, inv w -> calmer (core w) k -> inv (set_core k w)).

Lemma running_timed_out k k' t :
  running K k -> kernel_wf K None k' -> timed_out t k k' -> running K k'.
Proof.
  intros [_ Hc Hi] Hwf Hti. split; [done|rewrite (ti_current _ _ _ Hti)|];
    rewrite (ti_ready _ _ _ Hti); case_if; rewrite ?elem_of_prio_insert; auto.
Qed.

Lemma running_pop k o l :
  running K k -> (forall t, o <> TO_thread t) -> timeout_q k = o :: l ->
  delta (timeouts k) o = 0 -> running K (pop o k).
Proof.
  intros [Hwf Hc Hi] Hnt El Ed. destruct (pop_spec K k o l (kw_tq K _ k Hwf) El Ed)
    as (Htq & Hqc & Eq & _ & _ & Hol & _).
  split; [|done|done].
  apply (kernel_wf_queue K None None k (pop o k) o); try done.
  - by rewrite Eq.
  - intros x ->. by destruct (Hnt x).
Qed.

Lemma handle_one_running w o l :
  inv w -> running K (core w) -> timeout_q (core w) = o :: l ->
  delta (timeouts (core w)) o = 0 ->
  exists w', _handle_one_timeout run_func w = Some (head (timeout_q (core w')), w') /\
    inv w' /\ running K (core w') /\ (expired (core w') < expired (core w))%nat /\
    current (core w') = current (core w) /\ in_isr (core w') = in_isr (core w).
Proof.
  intros Hinv Hru El Ed. pose proof (ru_wf K _ Hru) as Hwf.
  destruct (pop_spec K (core w) o l (kw_tq K _ _ Hwf) El Ed)
    as (_ & _ & Eq & Es & _ & Hol & Hsd).
  assert (Hin : o ∈ timeout_q (core w)) by (rewrite El; apply elem_of_cons; by left).
  assert (Hex : (expired (pop o (core w)) < expired (core w))%nat).
  { unfold expired. rewrite Es. rewrite filter_cons_True by done. simpl. lia. }
  unfold _handle_one_timeout. assert (head (timeout_q (core w)) = Some o) as -> by by rewrite El.
  cbn [head mbind option_bind].
  change (upd_timeout o (with_delta (-1))
            (set_timeout_q (tail (timeout_q (core w))) (core w))) with (pop o (core w)).
  destruct (Hsd o) as (-> & _ & ->).
  destruct (to_thread (timeouts (core w) o)) as [t|] eqn:Eth.
  - pose proof (proj1 (kw_to_owner K None _ Hwf o t Hin) Eth) as ->.
    destruct (thread_timeout_wf K (core w) t l Hwf El Ed) as (k1 & k2 & E1 & E2 & Hwf2 & Hti).
    rewrite E1. cbn [mbind option_bind]. rewrite E2. cbn [mbind option_bind]. exists (set_core k2 w). rewrite core_set.
    split_and!; [done|apply inv_core; [done|by eapply calmer_timed_out]|by eapply running_timed_out| |apply Hti|apply Hti].
    unfold expired. rewrite (ti_schedule _ _ _ Hti). rewrite filter_cons_True by done. simpl. lia.
  - assert (Hnt : forall t, o <> TO_thread t).
    { intros t ->. pose proof (proj2 (kw_to_owner K None _ Hwf _ t Hin) eq_refl). congruence. }
    pose proof (running_pop (core w) o l Hru Hnt El Ed) as Hru1.
    destruct (to_func (timeouts (core w) o)) as [f|].
    + destruct (Hcb f o l w Hinv Hru El Ed Hnt Hru1 Hol)
        as (w' & -> & Hinv' & Hru' & Hex' & Hc' & Hi').
      exists w'. cbn [mbind option_bind]. split_and!; try done. lia.
    + cbn [mbind option_bind]. eexists. split; [reflexivity|]. rewrite !core_set.
      split_and!; try done. apply inv_core; [done|apply calmer_pop].
Qed.

(** The loop ends, with nothing left that is due. *)
Lemma handle_loop_running fuel w :
  inv w -> running K (core w) -> (expired (core w) <= fuel)%nat ->
  exists w', handle_loop run_func fuel (head (timeout_q (core w))) w = Some w' /\
    inv w' /\ running K (core w') /\ expired (core w') = O /\
    current (core w') = current (core w) /\ in_isr (core w') = in_isr (core w).
Proof.
  revert w. induction fuel as [|fuel IH]; intros w Hinv Hru Hf.
  - assert (expired (core w) = O) as Hz by lia.
    exists w. split_and!; try done. destruct (timeout_q (core w)) as [|o l] eqn:El; [done|].
    simpl. destruct (Z.eqb_spec (delta (timeouts (core w)) o) 0) as [Ed|]; [|done].
    exfalso. unfold expired, schedule in Hz. rewrite El in Hz. cbn [expiries] in Hz.
    rewrite filter_cons_True in Hz by (simpl; lia). done.
  - destruct (timeout_q (core w)) as [|o l] eqn:El.
    { exists w. split_and!; try done. unfold expired, schedule. by rewrite El. }
    cbn [head handle_loop]. destruct (Z.eqb_spec (delta (timeouts (core w)) o) 0) as [Ed|Ed].
    + destruct (handle_one_running w o l Hinv Hru El Ed)
        as (w1 & -> & Hinv1 & Hru1 & Hlt & Hc1 & Hi1). cbn [mbind option_bind fst snd].
      destruct (IH w1 Hinv1 Hru1 ltac:(lia)) as (w2 & -> & ? & ? & ? & Hc2 & Hi2).
      exists w2. split_and!; congruence.
    + exists w. split_and!; try done.
      apply (expired_zero _ K o); [apply (ru_wf K _ Hru)|by rewrite El|done].
Qed.

Lemma handle_timeouts_running w :
  inv w -> running K (core w) ->
  exists w', _handle_timeouts run_func w = Some w' /\ inv w' /\ running K (core w') /\
    expired (core w') = O /\ current (core w') = current (core w) /\
    in_isr (core w') = in_isr (core w).
Proof. intros Hinv Hru. apply handle_loop_running; [done..|apply expired_bound]. Qed.

(** Time passing: the head's delta goes down, every expiry with it. *)
Lemma expiries_shift acc tm tm' o l n :
  delta tm' o = delta tm o - n -> (forall x, x ∈ l -> delta tm' x = delta tm x) ->
  expiries acc tm' (o :: l) = prod_map id (fun a => a - n) <$> expiries acc tm (o :: l).
Proof.
  intros Ho Hl. cbn [expiries fmap list_fmap prod_map id fst snd]. rewrite Ho.
  f_equal; [unfold prod_map; simpl; f_equal; lia|].
  replace (acc + (delta tm o - n)) with (acc + delta tm o - n) by lia.
  clear Ho. generalize (acc + delta tm o) as a. clear acc.
  induction l as [|x l IH]; intros a; cbn [expiries fmap list_fmap]; [done|].
  rewrite (Hl x) by (apply elem_of_cons; by left). f_equal; [unfold prod_map; simpl; f_equal; lia|].
  replace (a - n + delta tm x) with (a + delta tm x - n) by lia.
  apply IH. intros y Hy. apply Hl, elem_of_cons. by right.
Qed.

Definition elapse (o : toid) (n : Z) k : kernel :=
  upd_timeout o (fun to => with_delta (i32 (delta_ticks_from_prev to - n)) to) k.

Lemma calmer_elapse o n k : calmer k (elapse o n k).
Proof. split; [done|done|intros x; by apply alter_func|done]. Qed.

Lemma elapse_running k o l n :
  running K k -> timeout_q k = o :: l -> 0 <= n <= delta (timeouts k) o ->
  running K (elapse o n k) /\ schedule (elapse o n k) = prod_map id (fun a => a - n) <$> schedule k.
Proof.
  intros [Hwf Hc Hi] El Hn. pose proof (kw_tq K _ k Hwf) as Htq.
  pose proof (tq_nodup K k Htq) as Hnd. rewrite El in Hnd. apply NoDup_cons in Hnd as [Hol _].
  assert (Hbo : delta (timeouts k) o <= INT32_MAX).
  { apply (tq_bound K k Htq o). rewrite El. cbn [expiries]. apply elem_of_cons. left. f_equal. }
  set (k' := elapse o n k).
  assert (Ho : delta (timeouts k') o = delta (timeouts k) o - n).
  { unfold k', elapse, delta. simpl. rewrite fn_lookup_alter. simpl.
    fold (delta (timeouts k) o). apply i32_small. unfold INT32_MIN. lia. }
  assert (Hne : forall x, x <> o -> timeouts k' x = timeouts k x)
    by (intros; by apply fn_lookup_alter_ne).
  assert (Es : schedule k' = prod_map id (fun a => a - n) <$> schedule k).
  { unfold schedule. change (timeout_q k') with (timeout_q k). rewrite El.
    apply expiries_shift; [done|]. intros x Hx. unfold delta. rewrite Hne; [done|by intros ->]. }
  assert (Hq : queue_change o k k').
  { split; [done|]. intros x Hx. by rewrite Hne. }
  assert (Htq' : tq_wf K k').
  { destruct Htq as [T1 T2 T3 T4]. split; [done| | |].
    - intros x Hin. destruct (decide (x = o)) as [->|Hx]; [lia|].
      unfold delta. rewrite Hne by done. by apply T2.
    - intros x a. fold (schedule k'). rewrite Es.
      intros ([y b] & E & Hin)%list_elem_of_fmap. unfold prod_map in E. simplify_eq/=.
      pose proof (T3 y b Hin). lia.
    - intros x HK Hd. change (timeout_q k') with (timeout_q k).
      destruct (decide (x = o)) as [->|Hx]; [rewrite El; apply elem_of_cons; by left|].
      apply T4; [done|]. unfold delta in *. by rewrite Hne in Hd. }
  split; [|done]. split; [|done|done].
  assert (Hfields : to_thread (timeouts k' o) = to_thread (timeouts k o) /\
                    to_wait_q (timeouts k' o) = to_wait_q (timeouts k o)).
  { unfold k', elapse, upd_timeout. cbn [timeouts set_timeouts]. by rewrite fn_lookup_alter. }
  destruct Hfields as [F1 F2].
  assert (Hin : o ∈ timeout_q k) by (rewrite El; apply elem_of_cons; by left).
  apply (kernel_wf_queue K None None k k' o); try done.
  - intros _. split; [by apply (kw_known K None k Hwf)|]. intros t. rewrite F1.
    by apply (kw_to_owner K None k Hwf).
  - intros x ->. split.
    + apply (unready_not_listed K None); [done|]. apply active_not_ready.
      by apply (active_iff K k _ Htq); [apply (kw_known K None k Hwf)|].
    + intros _. split; [apply active_not_ready; lia|]. intros _ w. rewrite F2.
      by apply (kw_to_wq K None k Hwf).
Qed.

Lemma time_slicing_running ticks k :
  running K k -> running K (handle_time_slicing ticks k) /\
  timeout_q (handle_time_slicing ticks k) = timeout_q k /\
  timeouts (handle_time_slicing ticks k) = timeouts k /\
  current (handle_time_slicing ticks k) = current k.
Proof.
  intros Hru. unfold handle_time_slicing. do 2 (case_if; [done|]).
  assert (Hclk : forall a b c d, running K (set_clock a b c d k))
    by (intros; destruct Hru; split; [by apply kernel_wf_set_clock|done|done]).
  case_if; [|split_and!; [apply Hclk|done..]].
  destruct (move_rest (set_clock (tick_count k) 0 (time_slice_duration k)
    (time_slice_prio_ceiling k) k) (current k)) as (_ & E1 & E2 & E3 & _).
  split_and!; [|done|done|done]. apply running_moved; [apply Hclk|apply (ru_current K k Hru)].
Qed.

(** The announcement of [ticks] by a driver that never jumps past the next
    expiry. *)
Definition not_past k (ticks : Z) : Prop :=
  0 <= ticks /\ forall o, head (timeout_q k) = Some o -> ticks <= delta (timeouts k) o.

Lemma announce_running ticks w :
  inv w -> running K (core w) -> not_past (core w) ticks ->
  exists w', _nano_sys_clock_tick_announce run_func ticks w = Some w' /\ inv w' /\
    running K (core w') /\ expired (core w') = O /\
    current (core w') = current (core w).
Proof.
  intros Hinv Hru [Hn Hp]. unfold _nano_sys_clock_tick_announce.
  set (k1 := set_clock _ _ _ _ (core w)).
  assert (running K k1) as Hru1
    by (destruct Hru; split; [by apply kernel_wf_set_clock|done|done]).
  set (w1 := set_core k1 w).
  assert (Ew : core w1 = k1) by apply core_set. assert (inv w1) as Hinv1
    by (apply inv_core; [done|by apply calmer_same]).
  assert (exists w2, handle_expired_timeouts run_func ticks w1 = Some w2 /\ inv w2 /\
    running K (core w2) /\ expired (core w2) = O /\ current (core w2) = current (core w))
    as (w2 & -> & Hinv2 & Hru2 & Hex2 & Hc2).
  { unfold handle_expired_timeouts. rewrite Ew. change (timeout_q k1) with (timeout_q (core w)).
    destruct (timeout_q (core w)) as [|o l] eqn:El.
    - exists w1. rewrite Ew. split_and!; try done. unfold expired, schedule.
      change (timeout_q k1) with (timeout_q (core w)). by rewrite El.
    - cbn [head]. destruct (elapse_running k1 o l ticks Hru1 El) as [Hru2 _].
      { split; [done|]. by apply Hp. }
      fold (elapse o ticks k1). set (w2 := set_core (elapse o ticks k1) w1).
      assert (Ew2 : core w2 = elapse o ticks k1) by apply core_set.
      destruct (handle_timeouts_running w2) as (w3 & -> & ? & ? & ? & Hc3 & _);
        [apply inv_core; [done|rewrite Ew; by apply calmer_elapse]|by rewrite Ew2|].
      exists w3. split_and!; try done. by rewrite Hc3, Ew2. }
  cbn [mbind option_bind]. eexists. split; [reflexivity|]. rewrite core_set.
  destruct (time_slicing_running ticks (core w2) Hru2) as (? & E1 & E2 & E3).
  split_and!; [apply inv_core; [done|apply calmer_slicing]|done| |congruence].
  unfold expired, schedule in *. by rewrite E1, E2.
Qed.
End Loop.

(** ** Exactly the threads that are due wake up *)
Section Wakeups.
Context `{KConfig}.
Context (K : toid -> Prop) (run_func : positive -> toid -> kernel -> option kernel).
Implicit Types (k : kernel) (t x : tid) (o : toid).

Definition threads_only k : Prop := forall o, o ∈ timeout_q k -> exists t, o = TO_thread t.

(** What becomes of thread [x] when those that are [due] time out. *)
Definition wakeup_effect (due : tid -> Prop) k k' : Prop := forall x,
  (due x -> (forall w, x ∉ wait_qs k' w) /\ (wakeable k x = true -> x ∈ ready_list k')) /\
  (~ due x -> (forall w, x ∈ wait_qs k' w <-> x ∈ wait_qs k w) /\
              (x ∈ ready_list k' <-> x ∈ ready_list k) /\ threads k' x = threads k x).

Definition not_due (e : toid * Z) : Prop := snd e <> 0.
#[local] Instance not_due_dec e : Decision (not_due e).
Proof. unfold not_due. apply _. Defined.

Lemma timed_out_other t k k' x :
  timed_out t k k' -> x <> t ->
  (forall w, x ∈ wait_qs k' w <-> x ∈ wait_qs k w) /\ (x ∈ ready_list k' <-> x ∈ ready_list k).
Proof.
  intros Hti Hx. split.
  - intros w. rewrite (ti_wait_qs _ _ _ Hti), elem_of_remove_node. naive_solver.
  - rewrite (ti_ready _ _ _ Hti). case_if; rewrite ?elem_of_prio_insert; naive_solver.
Qed.

Lemma filter_all {A} (P : A -> Prop) `{!forall x : A, Decision (P x)} (l : list A) :
  (forall x : A, x ∈ l -> P x) -> filter P l = l.
Proof.
  induction l as [|x l IH]; intros Hn; [done|].
  rewrite filter_cons_True by (apply Hn, elem_of_cons; by left).
  f_equal. apply IH. intros y Hy. apply Hn, elem_of_cons. by right.
Qed.

(** Nothing due: nothing to do. *)
Lemma none_due k :
  expired k = O ->
  schedule k = filter not_due (schedule k) /\
  wakeup_effect (fun x => (TO_thread x, 0) ∈ schedule k) k k.
Proof.
  intros Hz. unfold expired in Hz. apply nil_length_inv in Hz.
  assert (Hnone : forall e, e ∈ schedule k -> snd e <> 0).
  { intros e Hin He.
    assert (e ∈ filter (fun e : toid * Z => e.2 = 0) (schedule k)) as Hc
      by (by apply list_elem_of_filter).
    rewrite Hz in Hc. by apply elem_of_nil in Hc. }
  split; [symmetry; by apply filter_all|]. intros x. split; [|done].
  intros Hin. by apply Hnone in Hin.
Qed.

Lemma handle_one_thread k t l :
  running K k -> timeout_q k = TO_thread t :: l -> delta (timeouts k) (TO_thread t) = 0 ->
  exists k', _handle_one_timeout run_func k = Some (head (timeout_q k'), k') /\ running K k' /\
    timed_out t k k' /\ forall a, (TO_thread t, a) ∉ schedule k'.
Proof.
  intros Hru El Ed. pose proof (ru_wf K k Hru) as Hwf.
  destruct (thread_timeout_wf K k t l Hwf El Ed) as (k1 & k2 & E1 & E2 & Hwf2 & Hti).
  assert (Hin : TO_thread t ∈ timeout_q k) by (rewrite El; apply elem_of_cons; by left).
  pose proof (proj2 (kw_to_owner K None k Hwf _ t Hin) eq_refl) as Eth.
  exists k2. split_and!; [|by eapply running_timed_out|done|].
  - unfold _handle_one_timeout. cbn [core kernel_world set_core].
    assert (head (timeout_q k) = Some (TO_thread t)) as -> by by rewrite El.
    cbn [mbind option_bind]. fold (pop (TO_thread t) k).
    assert (to_thread (timeouts (pop (TO_thread t) k) (TO_thread t)) = Some t) as ->.
    { unfold pop. simpl. by rewrite fn_lookup_alter. }
    rewrite E1. cbn [mbind option_bind]. by rewrite E2.
  - intros a Ha.
    assert (TO_thread t ∈ timeout_q k2) as Hin2 by (apply (expiries_elem 0 (timeouts k2)); eauto).
    rewrite (ti_timeout_q _ _ _ Hti), El in Hin2.
    pose proof (tq_nodup K k (kw_tq K _ k Hwf)) as Hnd. rewrite El in Hnd.
    by apply NoDup_cons in Hnd as [? _].
Qed.

(** One time-out followed by the effect of the others. *)
Lemma wakeup_effect_cons t k k2 k3 :
  timed_out t k k2 -> (forall a, (TO_thread t, a) ∉ schedule k2) ->
  wakeup_effect (fun x => (TO_thread x, 0) ∈ schedule k2) k2 k3 ->
  wakeup_effect (fun x => (TO_thread x, 0) ∈ schedule k) k k3.
Proof.
  intros Hti Hns Heff x. rewrite (ti_schedule _ _ _ Hti), elem_of_cons.
  destruct (decide (x = t)) as [->|Hx].
  - split; [|naive_solver]. intros _. destruct (Heff t) as [_ He].
    destruct (He (Hns 0)) as (Hw & Hr & _). split.
    + intros w. rewrite Hw, (ti_wait_qs _ _ _ Hti), elem_of_remove_node. naive_solver.
    + intros Hwk. rewrite Hr, (ti_ready _ _ _ Hti), Hwk, elem_of_prio_insert. by left.
  - destruct (timed_out_other t k k2 x Hti Hx) as [Hw Hr]. destruct (Heff x) as [Hd Hnd].
    assert (Hwk : wakeable k2 x = wakeable k x)
      by (unfold wakeable, fbit; by rewrite (ti_threads _ _ _ Hti x Hx)).
    split.
    + intros [?|Hin2]; [congruence|]. rewrite <- Hwk. by apply Hd.
    + intros Hn. destruct Hnd as (Hw' & Hr' & Ht'); [naive_solver|].
      rewrite Ht', (ti_threads _ _ _ Hti x Hx), Hr', Hr. split_and!; [|done..].
      intros w. by rewrite Hw', Hw.
Qed.

Lemma threads_loop fuel k :
  running K k -> threads_only k -> (expired k <= fuel)%nat ->
  exists k', handle_loop run_func fuel (head (timeout_q k)) k = Some k' /\ running K k' /\
    schedule k' = filter not_due (schedule k) /\
    wakeup_effect (fun x => (TO_thread x, 0) ∈ schedule k) k k' /\ current k' = current k.
Proof.
  revert k. induction fuel as [fuel IH] using lt_wf_ind; intros k Hru Hto Hf.
  destruct (timeout_q k) as [|o l] eqn:El.
  { destruct (none_due k) as [??]; [unfold expired, schedule; by rewrite El|].
    exists k. split_and!; try done. by destruct fuel. }
  destruct (Z.eqb_spec (delta (timeouts k) o) 0) as [Ed|Ed].
  2: { destruct (none_due k) as [??].
       { apply (expired_zero k K o); [apply (ru_wf K k Hru)|by rewrite El|done]. }
       exists k. split_and!; try done.
       by destruct fuel; cbn; rewrite (proj2 (Z.eqb_neq _ _) Ed). }
  destruct (Hto o) as [t ->]; [rewrite El; apply elem_of_cons; by left|].
  destruct (handle_one_thread k t l Hru El Ed) as (k2 & E2 & Hru2 & Hti & Hns).
  assert (expired k = S (expired k2)) as Hex.
  { unfold expired. rewrite (ti_schedule _ _ _ Hti). by rewrite filter_cons_True. }
  destruct fuel as [|fuel]; [lia|].
  destruct (IH fuel (Nat.lt_succ_diag_r fuel) k2 Hru2) as (k3 & E3 & Hru3 & Es3 & Heff & Ec3);
    [|lia|].
  { intros o Ho. apply Hto. rewrite El. rewrite (ti_timeout_q _ _ _ Hti), El in Ho.
    apply elem_of_cons. by right. }
  exists k3. cbn [head handle_loop core kernel_world]. rewrite Ed, E2. cbn [mbind option_bind fst snd Z.eqb].
  split_and!; [done|done| |by eapply wakeup_effect_cons|by rewrite Ec3; apply Hti].
  rewrite Es3, (ti_schedule _ _ _ Hti). by rewrite filter_cons_False by (unfold not_due; naive_solver).
Qed.

(** The thread timeouts that remain after [ticks] more. *)
Definition remaining (ticks : Z) (s : list (toid * Z)) : list (toid * Z) :=
  filter not_due (prod_map id (fun a => a - ticks) <$> s).

Lemma in_shifted o a n (s : list (toid * Z)) :
  (o, a) ∈ (prod_map id (fun b => b - n) <$> s) <-> (o, a + n) ∈ s.
Proof.
  rewrite list_elem_of_fmap. split.
  - intros ([y b] & E & Hin). unfold prod_map in E. simplify_eq/=.
    by replace (b - n + n) with b by lia.
  - intros Hin. exists (o, a + n). split; [|done]. unfold prod_map. simpl. f_equal. lia.
Qed.

Lemma slicing_effect due ticks k k' :
  running K k' -> wakeup_effect due k k' -> wakeup_effect due k (handle_time_slicing ticks k').
Proof.
  intros Hru Heff. unfold handle_time_slicing. do 3 (case_if; [done|] || case_if); [|done].
  set (k2 := set_clock _ _ _ _ k').
  assert (Hru2 : running K k2) by (destruct Hru; split; [by apply kernel_wf_set_clock|done|done]).
  destruct (move_ready_wf K k2 _ (ru_wf K _ Hru2) (ru_current K _ Hru2)) as [_ Ew].
  pose proof (move_ready_list k2 _ (kw_rq K _ _ (ru_wf K _ Hru2)) (ru_current K _ Hru2)) as El.
  destruct (move_rest k2 (current k2)) as (Et & _).
  assert (Hin : forall x, x ∈ ready_list (_move_thread_to_end_of_prio_q (current k2) k2) <->
                     x ∈ ready_list k')
    by (intros x; rewrite El; apply reinsert_elem, (ru_current K _ Hru2)).
  intros x. destruct (Heff x) as [H1 H2]. change (current k') with (current k2).
  setoid_rewrite Ew. setoid_rewrite Hin. rewrite Et. done.
Qed.

Lemma announce_threads ticks k :
  running K k -> threads_only k -> not_past k ticks ->
  exists k', _nano_sys_clock_tick_announce run_func ticks k = Some k' /\ running K k' /\
    schedule k' = remaining ticks (schedule k) /\
    wakeup_effect (fun x => (TO_thread x, ticks) ∈ schedule k) k k' /\ current k' = current k.
Proof.
  intros Hru Hto [Hn Hp]. unfold _nano_sys_clock_tick_announce. cbn [core set_core kernel_world].
  set (k1 := set_clock _ _ _ _ k).
  assert (running K k1) as Hru1
    by (destruct Hru; split; [by apply kernel_wf_set_clock|done|done]).
  assert (exists k2, handle_expired_timeouts run_func ticks k1 = Some k2 /\ running K k2 /\
    schedule k2 = remaining ticks (schedule k) /\
    wakeup_effect (fun x => (TO_thread x, ticks) ∈ schedule k) k k2 /\ current k2 = current k)
    as (k2 & -> & Hru2 & Es2 & Heff & Hc2).
  { unfold handle_expired_timeouts. cbn [core set_core kernel_world].
    change (timeout_q k1) with (timeout_q k). unfold remaining, schedule at 2 3.
    destruct (timeout_q k) as [|o l] eqn:El.
    - exists k1. split_and!; try done; [unfold schedule; change (timeout_q k1) with (timeout_q k); by rewrite El|].
      intros x. split; [by intros ?%elem_of_nil|done].
    - cbn [head]. destruct (elapse_running K k1 o l ticks Hru1 El) as [Hru2 Es].
      { split; [done|]. by apply Hp. }
      fold (elapse o ticks k1). set (k2 := elapse o ticks k1) in *.
      destruct (threads_loop (length (timeout_q k2)) k2 Hru2)
        as (k3 & E3 & Hru3 & Es3 & Heff & Hc3);
        [intros x Hx; apply Hto; exact Hx|apply expired_bound|].
      exists k3. rewrite <- El. split_and!; [exact E3|done|by rewrite Es3, Es| |done].
      intros x. destruct (Heff x) as [H1 H2]. rewrite Es, in_shifted, Z.add_0_l in H1, H2.
      split; [exact H1|exact H2]. }
  cbn [mbind option_bind]. eexists. split; [reflexivity|].
  destruct (time_slicing_running K ticks k2 Hru2) as (? & E1 & E2 & E3).
  split_and!; [done| |by apply slicing_effect|congruence].
  unfold schedule in *. by rewrite E1, E2.
Qed.
End Wakeups.
