(* ===== verification/Core.v ===== *)
(** * The kernel core as a whole

    The services a thread may call, and the clock interrupt, as steps of one
    state machine; every state reached from boot satisfies the invariant, every
    step that the API allows succeeds, and the processor always belongs to the
    thread the scheduling policy gives it to. *)
From S2P Require Import Prelude Kernel ReadyQ TimeoutQ Sched SchedInv SchedApi Thread Boot Clock.

Section Interrupts.
Context `{KConfig}.
Implicit Types (k : kernel).

(** [__pendsv] (arch/arm/core/swap.S), the context switch proper. *)
Definition __pendsv k : option kernel :=
  r ← _get_next_ready_thread k; Some (set_current (fst r) (snd r)).

(** [_IntExit] (arch/arm/core/exc_exit.S). *)
Definition _IntExit k : option kernel :=
  if prio (threads k (current k)) <? 0 then Some k
  else if 0 <? sched_locked (threads k (current k)) then Some k
  else
    '(is_current, k) ← _is_next_thread_current k;
    if (is_current : bool) then Some k else __pendsv k.

(** The timer interrupt: the driver announces [ticks], the exit code switches. *)
Definition timer_isr (run_func : positive -> toid -> kernel -> option kernel) (ticks : Z) k
    : option kernel :=
  k ← _nano_sys_clock_tick_announce run_func ticks (set_in_isr true k);
  _IntExit (set_in_isr false k).

Lemma running_set_in_isr K k b : running K k -> running K (set_in_isr b k).
Proof. intros [???]. split; [by apply kernel_wf_set_in_isr|done|done]. Qed.

(** The exit of a handler, also when the thread it interrupted is gone. *)
Lemma int_exit_wf K k c :
  kernel_wf K None k -> head (ready_list k) = Some c ->
  exists k', _IntExit k = Some k' /\ kernel_wf K None k' /\ same_queues k k' /\
    current k' = (if (prio (threads k (current k)) <? 0) || (0 <? sched_locked (threads k (current k)))
                  then current k else c).
Proof.
  intros Hwf Hc. unfold _IntExit. destruct (prio _ <? 0); [exists k; split_and!; try done; apply same_queues_refl|].
  destruct (0 <? sched_locked _); [exists k; split_and!; try done; apply same_queues_refl|]. cbn [orb].
  unfold _is_next_thread_current, __pendsv.
  destruct (next_ready_wf K None k c Hwf Hc) as (k1 & -> & Hwf1 & Hsq & Ec & Ecache).
  cbn [mbind option_bind fst snd]. case_bool_decide as E; [exists k1; split_and!; try done; congruence|].
  unfold _get_next_ready_thread. rewrite Ecache. cbn [mbind option_bind fst snd].
  eexists. split_and!; [reflexivity|by apply kernel_wf_set_current|by destruct Hsq|done].
Qed.

Lemma int_exit_running K k :
  running K k -> exists k', _IntExit k = Some k' /\ running K k' /\ same_queues k k' /\
    current k' = (if (prio (threads k (current k)) <? 0) || (0 <? sched_locked (threads k (current k)))
                  then current k else default (current k) (head (ready_list k))).
Proof.
  intros Hru. destruct (running_head K k Hru) as [c Hc]. rewrite Hc. cbn [default from_option id].
  destruct (int_exit_wf K k c (ru_wf K k Hru) Hc) as (k' & E & Hwf & Hsq & Ec). exists k'. split_and!; try done.
  eapply running_same_queues; try done. rewrite Ec. case_match; auto.
Qed.

Lemma pendsv_wf K k c :
  kernel_wf K None k -> head (ready_list k) = Some c ->
  exists k', __pendsv k = Some k' /\ kernel_wf K None k' /\ same_queues k k' /\ current k' = c.
Proof.
  intros Hwf Hc. unfold __pendsv. destruct (next_ready_wf K None k c Hwf Hc) as (k1 & -> & Hwf1 & Hsq & Ec & _).
  cbn [mbind option_bind fst snd]. eexists. split_and!; [reflexivity|by apply kernel_wf_set_current|by destruct Hsq|done].
Qed.

(** A handler that aborts a thread, and its exit: a PendSV exception that is pending
    then is taken. *)
Definition abort_isr (run_abort : positive -> kernel -> option kernel) (t : tid) k : option kernel :=
  r ← k_thread_abort run_abort t (set_in_isr true k);
  k ← _IntExit (set_in_isr false (fst r));
  if (snd r : bool) then __pendsv k else Some k.

Lemma abort_isr_running K k t run_abort :
  running K k -> K (TO_thread t) -> t <> _idle_thread -> fn_abort (threads k t) = None ->
  exists k', abort_isr run_abort t k = Some k' /\ running K k' /\
    ready_list k' = remove_node t (ready_list k) /\
    (forall w, wait_qs k' w = remove_node t (wait_qs k w)) /\
    schedule k' = schedule_remove (TO_thread t) (schedule k) /\
    fbit k' t 15 = true /\ current k' <> t /\ (no_more_urgent k -> no_more_urgent k') /\ in_isr k' = false.
Proof.
  intros Hru HK Hid Hfn. unfold abort_isr.
  destruct (abort_in_handler K (set_in_isr true k) t run_abort) as (k1 & pend & -> & Hwf & El & Ew & Es & Hd & Ec & Hp);
    [by apply running_set_in_isr|done..|]. cbn [mbind option_bind fst snd].
  set (k2 := set_in_isr false k1). assert (kernel_wf K None k2) as Hwf2 by (by apply kernel_wf_set_in_isr).
  assert (_idle_thread ∈ ready_list k2) as Hidle.
  { change (ready_list k2) with (ready_list k1). rewrite El, elem_of_remove_node. split; [done|apply (ru_idle K k Hru)]. }
  destruct (head_of k2 _ Hidle) as [c Hc].
  destruct (int_exit_wf K k2 c Hwf2 Hc) as (k3 & -> & Hwf3 & Hsq3 & Ec3). cbn [mbind option_bind].
  assert (head (ready_list k3) = Some c) as Hc3 by (by rewrite (same_queues_ready _ _ Hsq3)).
  assert (exists k', (if pend then __pendsv k3 else Some k3) = Some k' /\ kernel_wf K None k' /\ same_queues k2 k' /\
    (current k' = c \/ current k' = current k /\ current k <> t /\ pend = false /\ k' = k3 /\
       ((prio (threads k2 (current k2)) <? 0) || (0 <? sched_locked (threads k2 (current k2))) = true)))
    as (k' & -> & Hwf' & Hsq & Hcur).
  { destruct pend.
    - destruct (pendsv_wf K k3 c Hwf3 Hc3) as (k4 & -> & ? & Hsq4 & ?). exists k4. split_and!; try done; [|by left].
      by eapply same_queues_trans.
    - exists k3. split_and!; try done. destruct (_ || _) eqn:Eb; [right|by left].
      split_and!; try done; [by rewrite Ec3|]. intros E. by apply Hp in E. }
  exists k'. split; [done|]. pose proof (same_queues_ready _ _ Hsq) as El2.
  change (ready_list k2) with (ready_list k1) in *.
  assert (c ∈ ready_list k1) as Hin by (by apply head_elem).
  assert (current k' ∈ ready_list k1) as Hcin.
  { destruct Hcur as [-> |(-> & Hne & _)]; [done|]. rewrite El, elem_of_remove_node. split; [done|apply (ru_current K k Hru)]. }
  split_and!.
  - split; rewrite ?El2; done.
  - by rewrite El2.
  - intros w. rewrite (sq_wait_qs _ _ Hsq). exact (Ew w).
  - unfold schedule in *. by rewrite (sq_timeouts _ _ Hsq), (sq_timeout_q _ _ Hsq).
  - unfold fbit in *. destruct (sq_threads _ _ Hsq t) as [v E]. by rewrite E.
  - intros E. rewrite E, El, elem_of_remove_node in Hcin. naive_solver.
  - intros Hu. destruct Hcur as [Ecur|(Ecur & Hne & _ & _ & Hb)].
    + intros _ x Hx. rewrite Ecur. apply (ready_head_highest k' _ x (kw_rq K _ k' Hwf')); [|done]. by rewrite El2.
    + intros Hpre. exfalso. rewrite Ecur, (same_queues_preempt _ _ _ Hsq) in Hpre.
      change (current k2) with (current k1) in Hb. rewrite Ec in Hb. revert Hpre Hb.
      unfold _is_preempt, _is_coop. intros [H1 H2]%andb_true_iff. apply negb_true_iff in H1. cbn in H1, H2 |- *. rewrite H1.
      cbn [orb]. intros H3%Z.ltb_lt. rewrite negb_involutive in H2. apply Z.eqb_eq in H2. lia.
  - by rewrite (sq_in_isr _ _ Hsq).
Qed.
End Interrupts.

Section Steps.
Context `{KConfig}.
Context (run_func : positive -> toid -> kernel -> option kernel)
        (run_abort : positive -> kernel -> option kernel).
Implicit Types (k : kernel) (t : tid) (K : toid -> Prop).

Inductive event :=
| Yield
| Sleep (ms : Z)
| Wakeup (t : tid)
| PrioritySet (t : tid) (p : Z)
| SchedLock
| SchedUnlock
| Suspend (t : tid)
| Resume (t : tid)
| Abort_ (t : tid)
| AbortFromIsr (t : tid)
| Spawn (t : tid) (p options delay : Z)
| Cancel (t : tid)
| Tick (ticks : Z).

Definition exec (e : event) k : option kernel :=
  match e with
  | Yield => k_yield k
  | Sleep ms => k_sleep ms k
  | Wakeup t => k_wakeup t k
  | PrioritySet t p => k_thread_priority_set t p k
  | SchedLock => k_sched_lock k
  | SchedUnlock => k_sched_unlock k
  | Suspend t => k_thread_suspend t k
  | Resume t => k_thread_resume t k
  | Abort_ t => fst <$> k_thread_abort run_abort t k
  | AbortFromIsr t => abort_isr run_abort t k
  | Spawn t p options delay => k_thread_spawn t false p options delay k
  | Cancel t => Some (snd (k_thread_cancel t k))
  | Tick n => timer_isr run_func n k
  end.

(** The threads the kernel knows after an event. *)
Definition known_after (e : event) K : toid -> Prop :=
  match e with Spawn t _ _ _ => with_known K t | _ => K end.

(** When an event may take place. Arguments are valid, threads exist, the idle thread is
    never blocked, a spawned thread uses a structure that is on no queue, and a nesting
    counter does not overflow. Beyond what include/kernel.h asks for: a thread that is
    aborted has no abort handler of the legacy interface; a thread that is resumed is not
    ready (the header says that resuming such a thread has no effect, but the code queues
    it twice, see [resume_ready_queues_twice]); the clock announces no more ticks than
    the first timeout has left, and the timeouts are those of threads. *)
Definition allowed K k (e : event) : Prop :=
  match e with
  | Yield => True
  | SchedLock => 0 <= sched_locked (threads k (current k)) < INT32_MAX
  | Sleep ms => ms = 0 \/ current k <> _idle_thread /\ ms <> K_FOREVER /\ timeout_ok ms
  | Wakeup t | Cancel t => K (TO_thread t)
  | PrioritySet t p => K (TO_thread t) /\ _ASSERT_VALID_PRIO p = true
  | SchedUnlock => 0 < sched_locked (threads k (current k))
  | Suspend t => K (TO_thread t) /\ t <> _idle_thread
  | Abort_ t | AbortFromIsr t => K (TO_thread t) /\ t <> _idle_thread /\ fn_abort (threads k t) = None
  | Resume t => K (TO_thread t) /\ t ∉ ready_list k
  | Spawn t p options delay =>
      unlisted k t /\ options_ok options /\ _ASSERT_VALID_PRIO p = true /\
      (delay = 0 \/ delay <> 0 /\ 0 < timeout_ticks delay <= INT32_MAX)
  | Tick n => threads_only k /\ not_past k n
  end.

Lemma sleep_zero k : in_isr k = false -> k_sleep 0 k = k_yield k.
Proof. intros Hi. unfold k_sleep. by rewrite Hi. Qed.

Lemma yield_isr k k' : in_isr k = false -> k_yield k = Some k' -> in_isr k' = in_isr k.
Proof.
  intros Hi. unfold k_yield. rewrite Hi. destruct (_get_next_ready_thread _) as [r|] eqn:E; [|done].
  cbn [mbind option_bind]. apply next_isr in E. rewrite move_isr in E.
  case_decide; [intros [= <-]; congruence|]. intros E2%swap_isr. congruence.
Qed.

Lemma int_exit_isr k k' : _IntExit k = Some k' -> in_isr k' = in_isr k.
Proof.
  unfold _IntExit, _is_next_thread_current, __pendsv.
  destruct (_ <? 0); [by intros [= <-]|]. destruct (0 <? _); [by intros [= <-]|].
  destruct (_get_next_ready_thread k) as [r|] eqn:E; [|done]. cbn [mbind option_bind].
  apply next_isr in E. destruct (bool_decide _); [by intros [= <-]|].
  destruct (_get_next_ready_thread r.2) as [r2|] eqn:E2; [|done]. cbn [mbind option_bind].
  intros [= <-]. apply next_isr in E2. cbn. congruence.
Qed.

Lemma exec_isr e K k k' :
  in_isr k = false -> allowed K k e -> exec e k = Some k' -> in_isr k' = false.
Proof.
  intros Hi Ha. rewrite <- Hi. destruct e; simpl in *.
  - by apply yield_isr.
  - destruct (Z.eq_dec ms 0) as [->|H0]; [rewrite sleep_zero by done; by apply yield_isr|].
    unfold k_sleep, _add_thread_timeout. rewrite Hi. destruct Ha as [?|(_ & Hf & _)]; [done|].
    rewrite (proj2 (Z.eqb_neq _ _) Hf), (proj2 (Z.eqb_neq _ _) H0). cbn [orb].
    destruct (_add_timeout _ _ _ _ _) as [k1|] eqn:E; [|done]. cbn [mbind option_bind].
    apply add_timeout_isr in E. rewrite remove_isr in E. intros E2%swap_isr. congruence.
  - unfold k_wakeup. destruct (_is_thread_pending t k); [congruence|].
    pose proof (abort_timeout_isr (TO_thread t) k) as Ea. unfold _abort_thread_timeout.
    destruct (_abort_timeout (TO_thread t) k) as [r k1]. simpl in Ea.
    destruct (r <? 0); [congruence|]. destruct (_ready_thread t k1) as [k2|] eqn:E2; [|done].
    cbn [mbind option_bind]. apply ready_thread_isr in E2.
    destruct (in_isr k2) eqn:E3; [congruence|]. intros E4%reschedule_isr. congruence.
  - unfold k_thread_priority_set. destruct (_ && _); [|done]. intros E%reschedule_isr.
    destruct (priority_set_fields k t p) as (_ & E2 & _). congruence.
  - unfold k_sched_lock. rewrite Hi. by intros [= <-].
  - unfold k_sched_unlock. destruct (_ && _); [|done]. by intros E%reschedule_isr.
  - unfold k_thread_suspend, _k_thread_single_suspend.
    case_decide; [intros E%swap_isr; rewrite E|intros [= <-]];
      destruct (_is_thread_ready t k); try done; apply (remove_isr t k).
  - unfold k_thread_resume, _k_thread_single_resume. intros E%reschedule_isr. rewrite E.
    by destruct (_is_thread_ready _ _).
  - destruct Ha as (_ & _ & Hf). unfold k_thread_abort.
    destruct (_k_thread_single_abort run_abort t k) as [k1|] eqn:E; [|done]. cbn [mbind option_bind].
    apply (single_abort_isr run_abort t k k1 Hf) in E. rewrite E, Hi.
    case_decide; [destruct (_Swap k1) as [k2|] eqn:E2|destruct (_reschedule_threads k1) as [k2|] eqn:E2]; try done;
      intros [= <-]; [apply swap_isr in E2|apply reschedule_isr in E2]; cbn [fst]; congruence.
  - unfold abort_isr. destruct (k_thread_abort _ _ _) as [[k1 pend]|]; [|done]. cbn [mbind option_bind fst snd].
    destruct (_IntExit _) as [k2|] eqn:E; [|done]. cbn [mbind option_bind]. apply int_exit_isr in E. cbn in E.
    destruct pend; [|intros [= <-]; congruence]. unfold __pendsv.
    destruct (_get_next_ready_thread k2) as [r|] eqn:E2; [|done]. apply next_isr in E2. intros [= <-]. cbn. congruence.
  - unfold k_thread_spawn. rewrite Hi. destruct (_new_thread t false p options k) as [k1|] eqn:E; [|done].
    destruct (new_thread_flags _ _ _ _ _ _ E) as (_&_&_&_&_&_&_&_&_&_&_&_& Ei).
    cbn [mbind option_bind]. unfold schedule_new_thread. destruct (delay =? 0).
    + rewrite start_thread_eq. unfold _k_thread_single_start.
      destruct (_is_thread_ready _ _); [intros E2%reschedule_isr|intros [= <-]]; cbn in *; congruence.
    + intros E2%add_timeout_isr. congruence.
  - intros [= <-]. unfold k_thread_cancel. destruct (_ || _); [done|].
    cbn [snd]. apply abort_timeout_isr.
  - unfold timer_isr. destruct (_nano_sys_clock_tick_announce _ _ _) as [k1|]; [|done].
    cbn [mbind option_bind]. intros E%int_exit_isr. rewrite E. cbn. congruence.
Qed.

Lemma exec_running e K k :
  running K k -> in_isr k = false -> allowed K k e ->
  exists k', exec e k = Some k' /\ running (known_after e K) k'.
Proof.
  intros Hru Hi Ha. destruct e; simpl in *.
  - destruct (k_yield_running K k Hru Hi) as (k' & ? & ? & _); eauto.
  - destruct (Z.eq_dec ms 0) as [->|H0].
    + rewrite sleep_zero by done. destruct (k_yield_running K k Hru Hi) as (k' & ? & ? & _); eauto.
    + destruct Ha as [?|(? & ? & ?)]; [done|]. destruct (k_sleep_running K k ms) as (k' & ? & ? & _); eauto.
  - destruct (k_wakeup_running K k t Hru Ha) as (k' & ? & ? & _); eauto.
  - destruct Ha. destruct (k_thread_priority_set_running K k t p) as (k' & ? & ? & _); eauto.
  - destruct (k_sched_lock_running K k Hru Hi) as (k' & ? & ?); eauto.
  - destruct (k_sched_unlock_running K k Hru Hi Ha) as (k' & ? & ? & _); eauto.
  - destruct Ha. destruct (suspend_running K k t) as (k' & ? & ? & _); eauto.
  - destruct Ha. destruct (resume_running K k t) as (k' & ? & ? & _); eauto.
  - destruct Ha as (? & ? & ?). destruct (abort_running K k t run_abort) as (k' & E & ? & _); [done..|].
    rewrite E. eauto.
  - destruct Ha as (? & ? & ?). destruct (abort_isr_running K k t run_abort) as (k' & ? & ? & _); eauto.
  - destruct Ha as (? & ? & Hp & ?).
    destruct (spawn_running K k t false p options delay) as (k' & ? & ? & _); eauto; [done|].
    by rewrite Hp, orb_true_r.
  - destruct (k_thread_cancel t k) as [r k'] eqn:E.
    destruct (cancel_wf K k t (ru_wf K k Hru) Ha r k' E) as (Hwf & El & Ec & _).
    exists k'. split; [done|]. destruct Hru. split; [done|by rewrite El, Ec|by rewrite El].
  - destruct Ha as [Hto Hnp]. unfold timer_isr.
    destruct (announce_threads K run_func ticks (set_in_isr true k)) as (k1 & -> & Hru1 & _);
      [by apply running_set_in_isr|done|done|]. cbn [mbind option_bind].
    destruct (int_exit_running K (set_in_isr false k1)) as (k2 & ? & ? & _);
      [by apply running_set_in_isr|eauto].
Qed.

(** ** The scheduling policy is never violated *)
Lemma head_no_more_urgent K k :
  kernel_wf K None k -> head (ready_list k) = Some (current k) -> no_more_urgent k.
Proof.
  intros Hwf Hh _ x Hx. by apply (ready_head_highest k _ x (kw_rq K _ k Hwf)).
Qed.

(** Fewer ready threads, same current thread. *)
Lemma fewer_ready_policy k k' :
  no_more_urgent k -> current k' = current k -> threads k' (current k) = threads k (current k) ->
  (forall x, x ∈ ready_list k' -> x ∈ ready_list k /\ thread_prio k' x = thread_prio k x) ->
  no_more_urgent k'.
Proof.
  intros Hu Ec Et Hr Hp x Hx. rewrite Ec in *. unfold thread_prio at 1. rewrite Et in *.
  destruct (Hr x Hx) as [Hin ->]. by apply Hu.
Qed.

Lemma same_queues_policy k k' :
  no_more_urgent k -> same_queues k k' -> current k' = current k -> no_more_urgent k'.
Proof.
  intros Hu Hsq Ec Hp x Hx. rewrite Ec in *. rewrite (same_queues_preempt k k' _ Hsq) in Hp.
  rewrite (same_queues_ready _ _ Hsq) in Hx. rewrite !(same_queues_prio k k' _ Hsq). by apply Hu.
Qed.

Lemma wakeup_policy K k t k' :
  running K k -> in_isr k = false -> K (TO_thread t) -> no_more_urgent k ->
  k_wakeup t k = Some k' -> no_more_urgent k'.
Proof.
  intros Hru Hi HK Hu. pose proof (ru_wf K k Hru) as Hwf. unfold k_wakeup.
  destruct (_is_thread_pending t k) eqn:Hp; [by intros [= <-]|].
  destruct (decide (TO_thread t ∈ timeout_q k)) as [Hin|Hni].
  - assert (t ∉ ready_list k) as Hnr.
    { apply (unready_not_listed K None); [done|]. apply active_not_ready.
      by apply (active_iff K k _ (kw_tq K _ k Hwf)). }
    destruct (abort_thread_timeout_wf K None k t Hwf)
      as (r & k1 & -> & Hwf1 & Hd & Hr & _ & _ & _ & Hto); [by left|done..|].
    rewrite (proj2 Hr Hin). cbn [Z.ltb Z.compare].
    destruct (timeouts_only_fields _ _ Hto) as (_ & _ & _ & _ & _ & Ec & Ei & El & _).
    destruct (ready_thread_wf K k1 t Hwf1 Hd) as (k2 & -> & Hwf2 & Hor & El2).
    destruct Hor as (_ & _ & _ & Ec2 & Ei2 & _). cbn [mbind option_bind]. rewrite Ei2, Ei, Hi.
    assert (exists c, head (ready_list k2) = Some c) as [c Hc].
    { apply (head_of k2 (current k)). rewrite El2, El.
      destruct (_is_thread_ready _ _); rewrite ?elem_of_prio_insert;
        [right|]; apply (ru_current K k Hru). }
    destruct (reschedule_wf K None k2 c Hwf2 Hc) as (k3 & -> & _ & Hsq & Ec3). intros [= <-].
    by eapply preempted_current.
  - unfold _abort_thread_timeout. rewrite abort_timeout_inactive; [by intros [= <-]|].
    destruct (decide (delta (timeouts k) (TO_thread t) = -1)); [done|].
    exfalso. by apply Hni, (tq_known K k (kw_tq K _ k Hwf)).
Qed.

Lemma int_exit_policy K k k' :
  running K k -> _IntExit k = Some k' -> no_more_urgent k'.
Proof.
  intros Hru E. destruct (int_exit_running K k Hru) as (k1 & E1 & Hru1 & Hsq & Ec).
  rewrite E1 in E. simplify_eq. destruct (_ || _) eqn:Eb.
  - intros Hp. rewrite Ec in Hp. rewrite (same_queues_preempt _ _ _ Hsq) in Hp.
    exfalso. unfold _is_preempt, _is_coop in Hp. apply andb_true_iff in Hp as [H1 H2].
    apply negb_true_iff in H1. rewrite H1 in Eb. cbn [orb] in Eb. apply Z.ltb_lt in Eb.
    rewrite negb_involutive in H2. apply Z.eqb_eq in H2. lia.
  - apply (head_no_more_urgent K); [apply (ru_wf K _ Hru1)|].
    rewrite (same_queues_ready _ _ Hsq), Ec. destruct (running_head K k Hru) as [c ->]. done.
Qed.

Lemma suspend_policy K k t k' :
  running K k -> K (TO_thread t) -> t <> _idle_thread -> no_more_urgent k ->
  k_thread_suspend t k = Some k' -> no_more_urgent k'.
Proof.
  intros Hru HK Hid Hu E.
  destruct (suspend_running K k t Hru HK Hid) as (k1 & E1 & Hru1 & El & _ & _ & Hhd).
  rewrite E1 in E. simplify_eq. destruct (decide (t = current k)) as [Et|Hne].
  - apply (head_no_more_urgent K); [apply (ru_wf K _ Hru1)|auto].
  - revert E1. unfold k_thread_suspend.
    destruct (single_suspend_wf K k t (ru_wf K k Hru) HK) as (_ & _ & _ & _ & Ec).
    rewrite Ec. rewrite decide_False by done. intros [= <-].
    assert (Hth : forall x, prio (threads (_k_thread_single_suspend t k) x) = prio (threads k x) /\
              (x <> t -> threads (_k_thread_single_suspend t k) x = threads k x)).
    { intros x. unfold _k_thread_single_suspend, _mark_thread_as_suspended, _set_thread_states.
      destruct (remove_rest k t) as (Et & _). unfold upd_thread. cbn [threads set_threads].
      destruct (_is_thread_ready t k); rewrite ?Et; unfold alter, fn_alter;
        destruct (decide (t = x)); subst; split; (done || congruence). }
    apply (fewer_ready_policy k); [done|done|by apply Hth|].
    intros x. rewrite El, elem_of_remove_node. intros [_ Hx]. split; [done|apply Hth].
Qed.

Lemma spawn_policy K k t p options delay k' :
  running K k -> in_isr k = false -> unlisted k t -> options_ok options ->
  _ASSERT_VALID_PRIO p = true -> no_more_urgent k ->
  k_thread_spawn t false p options delay k = Some k' -> no_more_urgent k'.
Proof.
  intros Hru Hi Hu Ho Hp Hnu. unfold k_thread_spawn. rewrite Hi.
  destruct (_new_thread t false p options k) as [k1|] eqn:E; [|done]. cbn [mbind option_bind].
  pose proof (valid_prio_ok t p Hp) as Hpo.
  pose proof (new_thread_running K k k1 t false p options Hru Hu Ho Hpo E) as Hru1.
  destruct (new_thread_wf K k k1 t false p options (ru_wf K k Hru) Hu Ho Hpo E) as (_ & (Hn1 & _) & _ & El).
  destruct (new_thread_flags k k1 t false p options E) as (_&_&_&_& Ht &_&_&_&_&_&_& Ec & _).
  assert (Hne : forall x, x ∈ ready_list k -> x <> t) by (intros x Hx ->; by apply (proj1 Hu)).
  assert (no_more_urgent k1) as Hnu1.
  { apply (fewer_ready_policy k); [done|done|apply Ht, Hne, (ru_current K k Hru)|].
    intros x. rewrite El. intros Hx. split; [done|]. unfold thread_prio. by rewrite Ht by auto. }
  unfold schedule_new_thread. destruct (delay =? 0).
  - pose proof (single_start_running _ k1 t Hru1 ltac:(by right) Hn1) as Hru2.
    rewrite start_thread_eq. destruct (_is_thread_ready _ _) eqn:Er.
    + destruct (reschedule_running _ _ Hru2) as (k3 & -> & _ & _ & ?). by intros [= <-].
    + intros [= <-]. unfold _k_thread_single_start. rewrite Er.
      apply (fewer_ready_policy k1); [done|done| |].
      * apply fn_lookup_alter_ne. intros ->. by apply Hn1, (ru_current _ k1 Hru1).
      * intros x Hx. split; [exact Hx|]. unfold thread_prio. cbn. unfold alter, fn_alter.
        by case_decide; subst.
  - unfold _add_thread_timeout, _add_timeout. destruct (0 <? _); [|done].
    destruct (insert_at _ _ _ _). intros [= <-]. exact Hnu1.
Qed.

Lemma exec_policy e K k k' :
  running K k -> in_isr k = false -> allowed K k e -> no_more_urgent k ->
  exec e k = Some k' -> no_more_urgent k'.
Proof.
  intros Hru Hi Ha Hu. destruct e; simpl in *.
  - destruct (k_yield_running K k Hru Hi) as (k1 & -> & Hru1 & _ & Hh). intros [= <-].
    apply (head_no_more_urgent K); [apply (ru_wf K _ Hru1)|done].
  - destruct (Z.eq_dec ms 0) as [->|H0].
    + rewrite sleep_zero by done. destruct (k_yield_running K k Hru Hi) as (k1 & -> & Hru1 & _ & Hh). intros [= <-].
      apply (head_no_more_urgent K); [apply (ru_wf K _ Hru1)|done].
    + destruct Ha as [?|(? & ? & ?)]; [done|].
      destruct (k_sleep_running K k ms) as (k1 & -> & Hru1 & Has); [done..|]. intros [= <-].
      apply (head_no_more_urgent K); [apply (ru_wf K _ Hru1)|apply Has].
  - by apply (wakeup_policy K).
  - destruct Ha. destruct (k_thread_priority_set_running K k t p) as (k1 & -> & _ & ?); [done..|].
    by intros [= <-].
  - unfold k_sched_lock. rewrite Hi. intros [= <-] Hp. exfalso. revert Hp.
    unfold _sched_lock, _is_preempt. cbn. rewrite fn_lookup_alter. cbn.
    rewrite i32_small by (unfold INT32_MIN; lia).
    destruct (Z.eqb_spec (sched_locked (threads k (current k)) + 1) 0); [lia|].
    by rewrite andb_false_r.
  - destruct (k_sched_unlock_running K k Hru Hi Ha) as (k1 & -> & _ & ?). by intros [= <-].
  - destruct Ha. by apply (suspend_policy K).
  - destruct Ha. destruct (resume_running K k t) as (k1 & -> & _ & ?); [done..|]. by intros [= <-].
  - destruct Ha as (? & ? & ?).
    destruct (abort_running K k t run_abort) as (k1 & -> & _ & _ & _ & _ & _ & _ & ?); [done..|]. by intros [= <-].
  - destruct Ha as (? & ? & ?).
    destruct (abort_isr_running K k t run_abort) as (k1 & -> & _ & _ & _ & _ & _ & _ & Hu' & _); [done..|].
    intros [= <-]. by apply Hu'.
  - destruct Ha as (? & ? & ? & ?). by apply (spawn_policy K).
  - destruct (k_thread_cancel t k) as [r k1] eqn:E. intros [= <-].
    destruct (cancel_wf K k t (ru_wf K k Hru) Ha r k1 E) as (_ & El & Ec & _).
    assert (threads k1 = threads k) as Et.
    { unfold k_thread_cancel in E. destruct (_ || _); simplify_eq; [done|].
      unfold _abort_thread_timeout, _abort_timeout. destruct (_ =? -1); [done|]. simpl.
      by destruct (peek_next _ _). }
    apply (fewer_ready_policy k); [done|done|by rewrite Et|].
    intros x. rewrite El. unfold thread_prio. by rewrite Et.
  - destruct Ha as [Hto Hnp]. unfold timer_isr.
    destruct (announce_threads K run_func ticks (set_in_isr true k)) as (k1 & -> & Hru1 & _);
      [by apply running_set_in_isr|done|done|]. cbn [mbind option_bind].
    apply (int_exit_policy K). by apply running_set_in_isr.
Qed.

(** The states reached from boot by allowed events. *)
Inductive reachable : (toid -> Prop) -> kernel -> Prop :=
| reach_boot p k k' :
    zeroed k -> in_isr k = false -> _ASSERT_VALID_PRIO p = true ->
    _Cstart p k = Some k' -> reachable boot_threads k'
| reach_step K k e k' :
    reachable K k -> allowed K k e -> exec e k = Some k' -> reachable (known_after e K) k'.

Lemma reachable_ok K k :
  reachable K k -> running K k /\ in_isr k = false /\ no_more_urgent k.
Proof.
  induction 1 as [p k k' Hz Hi Hp E|K k e k' _ (Hru & Hi & Hu) Ha E].
  - destruct (cstart_ok p k Hz Hp) as (k1 & E1 & Hru & Ec & El & _ & _ & ?).
    rewrite E1 in E. simplify_eq. split_and!; [done|congruence|].
    apply (head_no_more_urgent boot_threads); [apply (ru_wf _ _ Hru)|by rewrite El, Ec].
  - destruct (exec_running e K k Hru Hi Ha) as (k1 & E1 & ?).
    split_and!; [by simplify_eq|by apply (exec_isr e K k k')|by apply (exec_policy e K k k')].
Qed.

(** C1: in every state the kernel core reaches from boot through its services,
    the clock interrupt and handlers that abort a thread, as [allowed] admits them, the
    ready queue, the wait queues and the timeout queue are consistent with the threads'
    flags, priorities and timeouts, the current and the idle thread are ready, and every
    event that is [allowed] succeeds (no assertion fails, no null or out-of-range
    access) and leads to such a state again. *)
Theorem kernel_core_safe K k e :
  reachable K k -> allowed K k e ->
  kernel_wf K None k /\ current k ∈ ready_list k /\ _idle_thread ∈ ready_list k /\
  exists k', exec e k = Some k' /\ reachable (known_after e K) k' /\
             kernel_wf (known_after e K) None k'.
Proof.
  intros Hr Ha. destruct (reachable_ok K k Hr) as (Hru & Hi & _).
  destruct (exec_running e K k Hru Hi Ha) as (k' & E & Hru').
  destruct Hru as [Hwf Hc Hid]. split_and!; [done..|].
  exists k'. split_and!; [done|by eapply reach_step|apply (ru_wf _ _ Hru')].
Qed.

(** C2: the scheduling policy. In every reachable state, if the current thread
    may be preempted (its priority is preemptive and it has not locked the
    scheduler), no ready thread is more urgent; and the thread the scheduler
    would run next is the first of the most urgent ones. *)
Theorem scheduling_policy K k :
  reachable K k ->
  (_is_preempt (threads k (current k)) = true ->
     forall x, x ∈ ready_list k -> thread_prio k (current k) <= thread_prio k x) /\
  exists c k', _get_next_ready_thread k = Some (c, k') /\ head (ready_list k) = Some c /\
    forall x, x ∈ ready_list k -> thread_prio k c <= thread_prio k x.
Proof.
  intros Hr. destruct (reachable_ok K k Hr) as (Hru & _ & Hu). split; [done|].
  destruct (running_head K k Hru) as [c Hc].
  destruct (next_ready_wf K None k c (ru_wf K k Hru) Hc) as (k' & E & _).
  exists c, k'. split_and!; [done..|]. intros x Hx.
  by apply (ready_head_highest k c x (kw_rq K _ k (ru_wf K k Hru)) Hc).
Qed.
End Steps.

(** ** What the components promise *)
Section Promises.
Context `{KConfig}.
Implicit Types (k : kernel) (t : tid) (K : toid -> Prop).

(** C3: the ready queue (one list per priority, a bitmap of the non-empty ones
    and a cached next thread) implements one sequence of threads sorted by
    priority and first-in first-out within a priority: adding inserts before
    the first less urgent thread, removing deletes, moving to the end of the
    priority deletes and inserts again, and the bitmap search finds the head;
    each keeps the representation invariant. *)
Theorem ready_queue_refines k t :
  rq_wf k ->
  (valid_prio (thread_prio k t) -> t ∉ ready_list k ->
     rq_wf (_add_thread_to_ready_q t k) /\
     ready_list (_add_thread_to_ready_q t k) = prio_insert (thread_prio k) t (ready_list k)) /\
  (t ∈ ready_list k ->
     rq_wf (_remove_thread_from_ready_q t k) /\
     ready_list (_remove_thread_from_ready_q t k) = remove_node t (ready_list k) /\
     rq_wf (_move_thread_to_end_of_prio_q t k) /\
     ready_list (_move_thread_to_end_of_prio_q t k) =
       prio_insert (thread_prio k) t (remove_node t (ready_list k))) /\
  (head (ready_list k) = Some t ->
     _get_highest_ready_prio k = Some (thread_prio k t) /\
     exists k', _get_next_ready_thread k = Some (t, k') /\ ready_list k' = ready_list k) /\
  prio_sorted (thread_prio k) (ready_list k).
Proof.
  intros Hwf. split_and!.
  - intros Hv Hni. split; [by apply add_wf|by apply add_ready_list].
  - intros Hin. split_and!; [by apply remove_wf|apply remove_ready_list|by apply move_wf|
      by apply move_ready_list].
  - intros Hh. split; [by apply highest_ready_prio|].
    destruct (next_ready_thread k t Hwf Hh) as (k' & E & [->| ->] & _); eauto.
  - by apply ready_list_sorted.
Qed.

(** C4: the delta queue of timeouts implements a schedule of absolute expiries.
    Adding a timeout of [n] ticks (1 to INT32_MAX) puts it before the first one
    that expires no earlier and moves no other expiry; aborting a queued one
    returns 0, deletes it and moves no other expiry, and aborting an inactive
    one returns -1 and changes nothing. No 32-bit subtraction or addition
    overflows on the way, and the invariant is kept. *)
Theorem timeout_queue_refines K k o (th : option tid) (w : option wqid) n :
  tq_wf K k -> K o ->
  (o ∉ timeout_q k -> 0 < n <= INT32_MAX ->
     exists k', _add_timeout th o w n k = Some k' /\ tq_wf K k' /\
       schedule k' = schedule_insert o n (schedule k)) /\
  (exists r k', _abort_timeout o k = (r, k') /\ tq_wf K k' /\
     schedule k' = schedule_remove o (schedule k) /\ delta (timeouts k') o = -1 /\
     (o ∈ timeout_q k -> r = 0) /\ (o ∉ timeout_q k -> r = -1 /\ k' = k)).
Proof.
  intros Hwf HK. split.
  - intros Hni Hn. destruct (add_timeout_change K k th o w n Hwf HK Hni Hn)
      as (k' & ? & ? & _ & ? & _). by exists k'.
  - destruct (abort_timeout_change K k o Hwf HK) as (r & k' & E & Hr & Hr' & _ & Hd & Hs & Hwf' & _).
    exists r, k'. split_and!; try done; [tauto|]. intros Hni.
    assert (delta (timeouts k) o = -1) as Hi.
    { destruct (decide (delta (timeouts k) o = -1)); [done|].
      exfalso. by apply Hni, (tq_known K k Hwf). }
    rewrite abort_timeout_inactive in E by done. by simplify_eq.
Qed.

(** C5: a clock announcement of [ticks], when the pending timeouts are those of threads
    and none of them expires before [ticks] have passed, wakes exactly the threads whose
    timeouts expire now: they leave their wait queues, lose their timeouts and, unless
    suspended, become ready; no other thread is touched, and every other expiry is
    [ticks] closer. *)
Theorem announce_wakes_exactly_due K run_func ticks k :
  running K k -> threads_only k -> not_past k ticks ->
  exists k', _nano_sys_clock_tick_announce run_func ticks k = Some k' /\ running K k' /\
    schedule k' = remaining ticks (schedule k) /\
    forall x,
      ((TO_thread x, ticks) ∈ schedule k ->
         (forall w, x ∉ wait_qs k' w) /\ (wakeable k x = true -> x ∈ ready_list k')) /\
      ((TO_thread x, ticks) ∉ schedule k ->
         (forall w, x ∈ wait_qs k' w <-> x ∈ wait_qs k w) /\
         (x ∈ ready_list k' <-> x ∈ ready_list k) /\ threads k' x = threads k x).
Proof.
  intros Hru Hto Hnp.
  destruct (announce_threads K run_func ticks k Hru Hto Hnp) as (k' & ? & ? & ? & Heff & _).
  exists k'. split_and!; [done..|]. exact Heff.
Qed.

(** C6: the loop over expired timeouts ends, whatever objects the timeouts
    belong to, as long as the functions they call return and start no timeout
    of zero ticks; afterwards nothing is due, and the kernel is well formed. *)
Theorem expiry_terminates {W} `{World W} K (inv : W -> Prop) run_func ticks (w : W) :
  callbacks_ok K inv run_func -> (forall k w, inv w -> calmer (core w) k -> inv (set_core k w)) ->
  inv w -> running K (core w) -> not_past (core w) ticks ->
  exists w', _nano_sys_clock_tick_announce run_func ticks w = Some w' /\ inv w' /\
    running K (core w') /\ forall o, head (timeout_q (core w')) = Some o ->
      0 < delta (timeouts (core w')) o.
Proof.
  intros Hcb Hic Hinv Hru Hnp.
  destruct (announce_running K inv run_func Hcb Hic ticks w Hinv Hru Hnp)
    as (w' & E & Hinv' & Hru' & Hex & _).
  exists w'. split_and!; [done..|]. intros o Hh.
  pose proof (tq_nonneg K _ (kw_tq K _ _ (ru_wf K _ Hru'))) as Hnn.
  unfold expired, schedule in Hex.
  destruct (timeout_q (core w')) as [|x l]; [done|]. simplify_eq/=.
  pose proof (Hnn o ltac:(apply elem_of_cons; by left)).
  destruct (Z.eq_dec (delta (timeouts (core w')) o) 0) as [E0|]; [|lia].
  rewrite filter_cons_True in Hex by done. done.
Qed.

(** [_Cstart] on the zeroed kernel, with a valid priority for the main
    thread, ends with the main thread on the processor, the main and idle
    threads ready in this order, empty timeout and wait queues, and the kernel
    invariant established. *)
Theorem boot_establishes_invariant p k :
  zeroed k -> _ASSERT_VALID_PRIO p = true ->
  exists k', _Cstart p k = Some k' /\ kernel_wf boot_threads None k' /\
    current k' = _main_thread /\ ready_list k' = [_main_thread; _idle_thread] /\
    timeout_q k' = [] /\ forall w, wait_qs k' w = [].
Proof.
  intros Hz Hp. destruct (cstart_ok p k Hz Hp) as (k' & E & Hru & ? & ? & ? & ? & _).
  exists k'. split_and!; try done. apply (ru_wf _ _ Hru).
Qed.
End Promises.

(** ** Witnesses, on the booted kernel *)
Section Witnesses.
Definition no_func : positive -> toid -> kernel -> option kernel := fun _ _ _ => None.
Definition no_abort : positive -> kernel -> option kernel := fun _ _ => None.

Lemma booted_reachable : reachable no_func no_abort boot_threads booted.
Proof.
  eapply (reach_boot no_func no_abort 0 blank_kernel);
    [apply blank_zeroed|reflexivity|reflexivity|apply booted_eq].
Qed.

Lemma main_sleeps : allowed boot_threads booted (Sleep 10).
Proof.
  destruct booted_running as (_ & Ec & _). unfold allowed. rewrite Ec.
  right. split_and!; [done|done|]. apply timeout_ok_ms; vm_compute; intuition discriminate.
Qed.

Lemma kernel_core_safe_witness :
  exists k', exec no_func no_abort (Sleep 10) booted = Some k' /\ kernel_wf boot_threads None k'.
Proof.
  destruct (kernel_core_safe no_func no_abort boot_threads booted (Sleep 10)
    booted_reachable main_sleeps) as (_ & _ & _ & k' & ? & _ & ?).
  exists k'. split; assumption.
Defined.

Lemma scheduling_policy_witness :
  exists k', _get_next_ready_thread booted = Some (_main_thread, k').
Proof.
  destruct (scheduling_policy no_func no_abort boot_threads booted booted_reachable)
    as (_ & c & k' & E & Hh & _).
  exists k'. destruct booted_running as (_ & _ & El & _). rewrite El in Hh. injection Hh as <-. exact E.
Defined.

Lemma booted_rq_wf : rq_wf booted.
Proof. destruct booted_running as ([Hwf _ _] & _). apply (kw_rq _ _ _ Hwf). Qed.

Lemma ready_queue_refines_witness :
  ready_list (_move_thread_to_end_of_prio_q _main_thread booted) = [_main_thread; _idle_thread].
Proof.
  destruct (ready_queue_refines booted _main_thread booted_rq_wf) as (_ & Hm & _).
  destruct booted_running as (_ & _ & El & _).
  destruct Hm as (_ & _ & _ & E); [rewrite El; apply elem_of_cons; left; reflexivity|].
  rewrite E, El. vm_compute. reflexivity.
Defined.

Lemma booted_tq_wf : tq_wf boot_threads booted.
Proof. destruct booted_running as ([Hwf _ _] & _). apply (kw_tq _ _ _ Hwf). Qed.

Lemma timeout_queue_refines_witness :
  exists k', _add_timeout (Some _main_thread) (TO_thread _main_thread) None 5 booted = Some k' /\
    schedule k' = [(TO_thread _main_thread, 5)].
Proof.
  destruct booted_running as (_ & _ & _ & Eq & _).
  destruct (timeout_queue_refines boot_threads booted (TO_thread _main_thread)
    (Some _main_thread) None 5 booted_tq_wf) as [Ha _]; [left; right; reflexivity|].
  destruct Ha as (k' & E & _ & Es);
    [rewrite Eq; apply not_elem_of_nil|unfold INT32_MAX; lia|].
  exists k'. split; [exact E|]. rewrite Es. unfold schedule. rewrite Eq. reflexivity.
Defined.

Lemma booted_no_timeouts n : 0 <= n -> threads_only booted /\ not_past booted n.
Proof.
  intros Hn. destruct booted_running as (_ & _ & _ & Eq & _).
  split; [intros o; rewrite Eq; by intros ?%elem_of_nil|]. split; [done|]. by rewrite Eq.
Qed.

(** The main thread sleeps ten milliseconds, which is two ticks: one for them, one for
    the tick being counted. *)
Definition slept : kernel := default booted (k_sleep 10 booted).

Lemma slept_eq : k_sleep 10 booted = Some slept.
Proof. unfold slept. destruct (k_sleep 10 booted) eqn:E; [reflexivity|]. vm_compute in E. discriminate. Qed.

Lemma slept_running : running boot_threads slept.
Proof.
  destruct booted_running as (Hru & _ & _ & _ & _ & Hi).
  destruct (exec_running no_func no_abort (Sleep 10) boot_threads booted Hru Hi main_sleeps) as (k' & E & Hru').
  cbn [exec] in E. rewrite slept_eq in E. injection E as <-. exact Hru'.
Qed.

Lemma slept_timeouts : threads_only slept /\ not_past slept 2 /\ schedule slept = [(TO_thread _main_thread, 2)].
Proof.
  assert (timeout_q slept = [TO_thread _main_thread]) as Eq by (vm_compute; reflexivity).
  split; [intros o; rewrite Eq; intros ->%list_elem_of_singleton; eexists; reflexivity|].
  split; [split; [lia|]; rewrite Eq; intros o [= <-]; vm_compute; discriminate|]. vm_compute. reflexivity.
Qed.

Lemma announce_wakes_exactly_due_witness :
  exists k', _nano_sys_clock_tick_announce no_func 2 slept = Some k' /\ schedule k' = [] /\
    _main_thread ∉ ready_list slept /\ _main_thread ∈ ready_list k'.
Proof.
  destruct slept_timeouts as (H1 & H2 & Es).
  destruct (announce_wakes_exactly_due boot_threads no_func 2 slept slept_running H1 H2) as (k' & E & _ & Es' & Hx).
  exists k'. split; [exact E|]. split; [rewrite Es', Es; reflexivity|]. split.
  - assert (ready_list slept = [_idle_thread]) as -> by (vm_compute; reflexivity).
    intros Hin%list_elem_of_singleton. discriminate.
  - apply (proj1 (Hx _main_thread)); [rewrite Es; apply list_elem_of_singleton; reflexivity|vm_compute; reflexivity].
Defined.

Lemma expiry_terminates_witness :
  exists k', _nano_sys_clock_tick_announce (fun _ _ k => Some k) 1 booted = Some k' /\
    running boot_threads k'.
Proof.
  destruct (booted_no_timeouts 1 ltac:(lia)) as [_ H2].
  destruct (expiry_terminates boot_threads (fun _ : kernel => True) (fun _ _ k => Some k) 1 booted)
    as (k' & E & _ & Hru & _); [|auto|exact I|exact (proj1 booted_running)|exact H2|].
  - intros f o l w _ _ _ _ _ Hru _. exists (pop o w).
    split; [reflexivity|]. split; [exact I|]. split; [exact Hru|]. split; [apply le_n|]. split; reflexivity.
  - exists k'. split; assumption.
Defined.

Lemma boot_establishes_invariant_witness :
  exists k', _Cstart 0 blank_kernel = Some k' /\ current k' = _main_thread.
Proof.
  destruct (boot_establishes_invariant 0 blank_kernel blank_zeroed)
    as (k' & E & _ & Ec & _); [vm_compute; reflexivity|].
  exists k'. split; assumption.
Defined.

(** Resuming a thread that is ready puts it into the ready queue a second time. *)
Lemma resume_ready_queues_twice :
  exists k', k_thread_resume _main_thread booted = Some k' /\
    ready_list k' = [_main_thread; _main_thread; _idle_thread].
Proof. eexists. split; vm_compute; reflexivity. Qed.
End Witnesses.
