(* ===== verification/CoreTime.v ===== *)
(** * Time in the kernel core

    No service moves the clock; a clock interrupt of one tick moves it by one; and
    after either, every timeout lies in the future, so that the next tick may be
    announced. *)
From S2P Require Import Prelude Kernel ReadyQ TimeoutQ Sched SchedInv SchedApi Thread Boot Clock Core.

(** ** The clock and the timeouts while threads are scheduled *)
Section Frame.
Context `{KConfig}.
Implicit Types (k : kernel) (t : tid).

(** The clock and the timeouts are the same. *)
Record same_time k k' : Prop := {
  st_tick : tick_count k' = tick_count k;
  st_queue : timeout_q k' = timeout_q k;
  st_timeouts : timeouts k' = timeouts k
}.

Lemma same_time_trans k1 k2 k3 : same_time k1 k2 -> same_time k2 k3 -> same_time k1 k3.
Proof. intros [] []. split; congruence. Qed.

Lemma same_time_schedule k k' : same_time k k' -> schedule k' = schedule k.
Proof. intros [_ E1 E2]. unfold schedule. by rewrite E1, E2. Qed.

Lemma remove_time t k : same_time k (_remove_thread_from_ready_q t k).
Proof. unfold _remove_thread_from_ready_q. by destruct (bool_decide (_ = Some [])). Qed.

Lemma move_time t k : same_time k (_move_thread_to_end_of_prio_q t k).
Proof. unfold _move_thread_to_end_of_prio_q. by destruct (bool_decide _). Qed.

Lemma next_time k r : _get_next_ready_thread k = Some r -> same_time k (snd r).
Proof.
  unfold _get_next_ready_thread, __get_next_ready_thread.
  destruct (cache k); [by intros [= <-]|].
  destruct (_get_highest_ready_prio k) as [p|]; [|done]. cbn [mbind option_bind].
  destruct (_ <? 0); [done|]. destruct (q k !! _) as [l|]; [|done]. cbn [mbind option_bind].
  destruct (head l); [|done]. by intros [= <-].
Qed.

Lemma swap_time k k' : _Swap k = Some k' -> same_time k k'.
Proof.
  unfold _Swap. set (k1 := _set_thread_return_value _ _ k).
  destruct (_get_next_ready_thread k1) as [r|] eqn:E; [|done]. intros [= <-].
  apply next_time in E as []. by split.
Qed.

Lemma reschedule_time k k' : _reschedule_threads k = Some k' -> same_time k k'.
Proof.
  unfold _reschedule_threads. destruct (_must_switch_threads k) as [[]|]; [|by intros [= <-]|done].
  apply swap_time.
Qed.

Lemma ready_thread_time t k k' : _ready_thread t k = Some k' -> same_time k k'.
Proof.
  unfold _ready_thread. destruct (_ && _); [|done].
  destruct (_is_thread_ready _ _); by intros [= <-].
Qed.

Lemma yield_time k k' : k_yield k = Some k' -> same_time k k'.
Proof.
  unfold k_yield. destruct (in_isr k); [done|]. destruct (_get_next_ready_thread _) as [r|] eqn:E; [|done].
  cbn [mbind option_bind]. apply next_time in E. pose proof (move_time (current k) k) as Hm.
  case_decide; [intros [= <-]|intros E2%swap_time]; eauto using same_time_trans.
Qed.

Lemma priority_set_time t p k k' : k_thread_priority_set t p k = Some k' -> same_time k k'.
Proof.
  unfold k_thread_priority_set. destruct (_ && _); [|done]. intros E%reschedule_time.
  eapply same_time_trans; [|exact E]. unfold _thread_priority_set.
  destruct (_is_thread_ready t k); [|done]. pose proof (remove_time t k) as []. by split.
Qed.

Lemma suspend_time t k k' : k_thread_suspend t k = Some k' -> same_time k k'.
Proof.
  unfold k_thread_suspend. assert (same_time k (_k_thread_single_suspend t k)) as Hs.
  { unfold _k_thread_single_suspend. pose proof (remove_time t k) as []. by destruct (_is_thread_ready t k). }
  case_decide; [intros E%swap_time; by eapply same_time_trans|by intros [= <-]].
Qed.

Lemma resume_time t k k' : k_thread_resume t k = Some k' -> same_time k k'.
Proof.
  unfold k_thread_resume, _k_thread_single_resume. intros E%reschedule_time. eapply same_time_trans; [|exact E].
  by destruct (_is_thread_ready _ _).
Qed.

Lemma start_time t k k' : start_thread t k = Some k' -> same_time k k'.
Proof.
  rewrite start_thread_eq. unfold _k_thread_single_start.
  destruct (_is_thread_ready _ _); [intros E%reschedule_time|by intros [= <-]]. eapply same_time_trans; [|exact E]. done.
Qed.

Lemma lock_time k k' : k_sched_lock k = Some k' -> same_time k k'.
Proof. unfold k_sched_lock. destruct (in_isr k); [done|]. by intros [= <-]. Qed.

Lemma unlock_time k k' : k_sched_unlock k = Some k' -> same_time k k'.
Proof. unfold k_sched_unlock. destruct (_ && _); [|done]. intros E%reschedule_time. eapply same_time_trans; [|exact E]. done. Qed.

Lemma int_exit_time k k' : _IntExit k = Some k' -> same_time k k'.
Proof.
  unfold _IntExit, _is_next_thread_current, __pendsv.
  destruct (_ <? 0); [by intros [= <-]|]. destruct (0 <? _); [by intros [= <-]|].
  destruct (_get_next_ready_thread k) as [r|] eqn:E; [|done]. cbn [mbind option_bind].
  apply next_time in E. destruct (bool_decide _); [by intros [= <-]|].
  destruct (_get_next_ready_thread r.2) as [r2|] eqn:E2; [|done]. cbn [mbind option_bind].
  intros [= <-]. apply next_time in E2. destruct (same_time_trans _ _ _ E E2). by split.
Qed.
End Frame.

(** ** The clock *)
Section Ticks.
Context `{KConfig}.
Context (run_func : positive -> toid -> kernel -> option kernel)
        (run_abort : positive -> kernel -> option kernel).
Implicit Types (k : kernel) (t : tid) (K : toid -> Prop).

Lemma abort_timeout_tick o k : tick_count (snd (_abort_timeout o k)) = tick_count k.
Proof. unfold _abort_timeout. destruct (_ =? -1); [done|]. simpl. by destruct (peek_next _ _). Qed.

Lemma add_timeout_tick th o w n k k' : _add_timeout th o w n k = Some k' -> tick_count k' = tick_count k.
Proof.
  unfold _add_timeout. destruct (0 <? n); [|done]. destruct (insert_at _ _ _ _). by intros [= <-].
Qed.

Lemma sleep_tick ms k k' : k_sleep ms k = Some k' -> tick_count k' = tick_count k.
Proof.
  unfold k_sleep. destruct (in_isr k || _); [done|]. destruct (ms =? 0); [by intros ?%yield_time%st_tick|].
  destruct (_add_thread_timeout _ _ _ _) as [k1|] eqn:E; [|done]. cbn [mbind option_bind].
  apply add_timeout_tick in E. intros E2%swap_time%st_tick. rewrite E2, E. apply remove_time.
Qed.

Lemma wakeup_tick t k k' : k_wakeup t k = Some k' -> tick_count k' = tick_count k.
Proof.
  unfold k_wakeup. destruct (_is_thread_pending t k); [congruence|].
  pose proof (abort_timeout_tick (TO_thread t) k) as Ea. unfold _abort_thread_timeout.
  destruct (_abort_timeout (TO_thread t) k) as [r k1]. simpl in Ea.
  destruct (r <? 0); [congruence|]. destruct (_ready_thread t k1) as [k2|] eqn:E2; [|done].
  cbn [mbind option_bind]. apply ready_thread_time, st_tick in E2.
  destruct (in_isr k2); [intros [= <-]; congruence|]. intros E4%reschedule_time%st_tick. congruence.
Qed.

Lemma single_abort_tick t k k' :
  fn_abort (threads k t) = None -> _k_thread_single_abort run_abort t k = Some k' -> tick_count k' = tick_count k.
Proof.
  intros Hf. unfold _k_thread_single_abort. rewrite Hf. cbn [mbind option_bind].
  destruct (_is_thread_ready t k); cbn [mbind option_bind].
  { intros [= <-]. apply (remove_time t k). }
  unfold _unpend_thread. destruct (_is_thread_pending t k) eqn:E; rewrite ?E; cbn [mbind option_bind];
    intros [= <-]; destruct (_is_thread_timeout_active _ _); try done;
    [apply (abort_timeout_tick (TO_thread t) (unpend t k))|apply (abort_timeout_tick (TO_thread t) k)].
Qed.

Lemma abort_tick t k k' pend :
  fn_abort (threads k t) = None -> k_thread_abort run_abort t k = Some (k', pend) -> tick_count k' = tick_count k.
Proof.
  intros Hf. unfold k_thread_abort. destruct (_k_thread_single_abort run_abort t k) as [k1|] eqn:E; [|done].
  cbn [mbind option_bind]. apply single_abort_tick in E; [|done]. destruct (in_isr k1).
  - destruct (_must_switch_threads k1) as [b|]; [|done]. intros [= <- _]. by destruct b.
  - case_decide; [destruct (_Swap k1) as [k2|] eqn:E2|destruct (_reschedule_threads k1) as [k2|] eqn:E2]; try done;
      intros [= <- _]; [apply swap_time, st_tick in E2|apply reschedule_time, st_tick in E2]; congruence.
Qed.

Lemma abort_isr_tick t k k' :
  fn_abort (threads k t) = None -> abort_isr run_abort t k = Some k' -> tick_count k' = tick_count k.
Proof.
  intros Hf. unfold abort_isr. destruct (k_thread_abort _ _ _) as [[k1 pend]|] eqn:E; [|done].
  apply abort_tick in E; [|done]. cbn [mbind option_bind fst snd].
  destruct (_IntExit _) as [k2|] eqn:E2; [|done]. apply int_exit_time, st_tick in E2. cbn [mbind option_bind].
  destruct pend; [|intros [= <-]; by rewrite E2]. unfold __pendsv.
  destruct (_get_next_ready_thread k2) as [r|] eqn:E3; [|done]. apply next_time, st_tick in E3.
  intros [= <-]. cbn. rewrite E3, E2. exact E.
Qed.

Lemma spawn_tick t b p options delay k k' :
  k_thread_spawn t b p options delay k = Some k' -> tick_count k' = tick_count k.
Proof.
  unfold k_thread_spawn, _new_thread. destruct (in_isr k); [done|]. destruct (_ || _); [|done].
  cbn [mbind option_bind]. unfold schedule_new_thread, _add_thread_timeout.
  destruct (delay =? 0); [intros E%start_time%st_tick|intros E%add_timeout_tick]; exact E.
Qed.

(** Expiring the timeouts of threads: what the queue holds belongs to a thread. *)
Definition owned k : Prop := forall o, o ∈ timeout_q k -> is_Some (to_thread (timeouts k o)).

Lemma owned_alter o (f : timeout -> timeout) k :
  (forall x, to_thread (f x) = to_thread x) -> owned k -> owned (upd_timeout o f k).
Proof.
  intros Hf Ho x Hx. unfold upd_timeout. cbn [timeouts set_timeouts]. unfold alter, fn_alter.
  case_decide; subst; rewrite ?Hf; by apply Ho.
Qed.

Lemma owned_same k k' : same_time k k' -> owned k -> owned k'.
Proof. intros [_ E1 E2] Ho o. rewrite E1, E2. apply Ho. Qed.

Lemma unpend_timing_out_tick t o k k' :
  _unpend_thread_timing_out t o k = Some k' -> owned k -> tick_count k' = tick_count k /\ owned k'.
Proof.
  unfold _unpend_thread_timing_out. intros E Ho. destruct (to_wait_q _) as [w|]; [|by injection E as <-].
  unfold _unpend_thread in E. destruct (_is_thread_pending t k); [|done]. cbn [mbind option_bind] in E.
  injection E as <-. split; [done|]. apply owned_alter; [done|]. by apply (owned_same k).
Qed.

Lemma handle_one_tick k r :
  owned k -> _handle_one_timeout run_func k = Some r -> tick_count (snd r) = tick_count k /\ owned (snd r).
Proof.
  intros Ho. unfold _handle_one_timeout. cbn [core set_core kernel_world].
  destruct (timeout_q k) as [|o l] eqn:El; [done|]. cbn [head mbind option_bind tail].
  set (k1 := upd_timeout o _ _).
  assert (Ho1 : owned k1) by (apply owned_alter; [done|]; intros x Hx; apply Ho; rewrite El; by right).
  assert (is_Some (to_thread (timeouts k1 o))) as [t Et].
  { destruct (Ho o) as [t Et]; [rewrite El; by left|]. exists t. unfold k1, upd_timeout. cbn [timeouts set_timeouts].
    by rewrite fn_lookup_alter. }
  rewrite Et. destruct (_unpend_thread_timing_out t o k1) as [k2|] eqn:E2; [|done]. cbn [mbind option_bind].
  destruct (unpend_timing_out_tick t o k1 k2 E2 Ho1) as [T2 Ho2].
  destruct (_ready_thread t k2) as [k3|] eqn:E3; [|done]. cbn [mbind option_bind]. intros [= <-].
  apply ready_thread_time in E3. split; [|by apply (owned_same k2)].
  cbn [snd]. rewrite (st_tick _ _ E3), T2. done.
Qed.

Lemma handle_loop_tick fuel next k k' :
  owned k -> handle_loop run_func fuel next k = Some k' -> tick_count k' = tick_count k.
Proof.
  revert next k. induction fuel as [|fuel IH]; intros next k Ho; cbn [handle_loop core kernel_world];
    (destruct next as [o|]; [|by intros [= <-]]); (destruct (_ =? 0); [|by intros [= <-]]); [done|].
  destruct (_handle_one_timeout run_func k) as [r|] eqn:E; [|done]. cbn [mbind option_bind].
  destruct (handle_one_tick k r Ho E) as [T Hr]. intros E'. rewrite (IH _ _ Hr E'). exact T.
Qed.

Lemma announce_tick ticks k k' :
  owned k -> _nano_sys_clock_tick_announce run_func ticks k = Some k' -> tick_count k' = i64 (tick_count k + ticks).
Proof.
  intros Ho. unfold _nano_sys_clock_tick_announce. cbn [core set_core kernel_world].
  set (k1 := set_clock _ _ _ _ k). destruct (handle_expired_timeouts run_func ticks k1) as [k2|] eqn:E; [|done].
  cbn [mbind option_bind]. intros [= <-]. assert (tick_count k2 = i64 (tick_count k + ticks)) as <-.
  { unfold handle_expired_timeouts in E. cbn [core set_core kernel_world] in E.
    destruct (head (timeout_q k1)) as [o|]; [|by injection E as <-].
    apply handle_loop_tick in E; [exact E|]. by apply owned_alter. }
  unfold handle_time_slicing. repeat case_if; try done. apply (move_time _ (set_clock _ _ _ _ k2)).
Qed.

Lemma exec_tick e K k k' :
  running K k -> allowed K k e -> exec run_func run_abort e k = Some k' ->
  tick_count k' = match e with Tick n => i64 (tick_count k + n) | _ => tick_count k end.
Proof.
  intros Hru Ha. destruct e; simpl in *.
  - by intros ?%yield_time%st_tick.
  - apply sleep_tick.
  - apply wakeup_tick.
  - by intros ?%priority_set_time%st_tick.
  - by intros ?%lock_time%st_tick.
  - by intros ?%unlock_time%st_tick.
  - by intros ?%suspend_time%st_tick.
  - by intros ?%resume_time%st_tick.
  - destruct Ha as (_ & _ & Hf). destruct (k_thread_abort run_abort t k) as [[k1 pend]|] eqn:E; [|done].
    intros [= <-]. by apply abort_tick in E.
  - destruct Ha as (_ & _ & Hf). by apply abort_isr_tick.
  - apply spawn_tick.
  - intros [= <-]. unfold k_thread_cancel. destruct (_ || _); [done|]. apply abort_timeout_tick.
  - unfold timer_isr. destruct (_nano_sys_clock_tick_announce _ _ _) as [k1|] eqn:E; [|done].
    cbn [mbind option_bind]. intros ->%int_exit_time%st_tick. apply announce_tick in E; [exact E|].
    intros o Ho. destruct Ha as [Hto _]. destruct (Hto o Ho) as [t ->]. exists t.
    by apply (kw_to_owner K None k (ru_wf K k Hru)).
Qed.
End Ticks.

(** ** What an event does to the timeouts *)
Section Schedule.
Context `{KConfig}.
Context (run_func : positive -> toid -> kernel -> option kernel)
        (run_abort : positive -> kernel -> option kernel).
Implicit Types (k : kernel) (t : tid) (K : toid -> Prop) (s : list (toid * Z)).

Definition schedule_step (e : event) k s' : Prop :=
  let s := schedule k in
  match e with
  | Sleep ms => s' = s \/ exists n, 0 < n /\ s' = schedule_insert (TO_thread (current k)) n s
  | Spawn t _ _ _ => s' = s \/ exists n, 0 < n /\ s' = schedule_insert (TO_thread t) n s
  | Wakeup t | Abort_ t | AbortFromIsr t | Cancel t => s' = s \/ s' = schedule_remove (TO_thread t) s
  | Tick n => s' = remaining n s
  | _ => s' = s
  end.

Lemma new_thread_schedule t b p options k k' :
  TO_thread t ∉ timeout_q k -> _new_thread t b p options k = Some k' -> schedule k' = schedule k.
Proof.
  intros Hni E. destruct (new_thread_flags k k' t b p options E) as (_&_&_&_&_& Hto &_&_&_&_& Etq &_).
  unfold schedule. rewrite Etq. apply expiries_ext. intros o Ho. unfold delta. by rewrite Hto by congruence.
Qed.

Lemma spawn_schedule K t p options delay k k' :
  running K k -> in_isr k = false -> allowed K k (Spawn t p options delay) ->
  k_thread_spawn t false p options delay k = Some k' -> schedule_step (Spawn t p options delay) k (schedule k').
Proof.
  intros Hru Hi (Hu & Ho & Hp & Hd) E. cbn [schedule_step].
  destruct (spawn_running K k t false p options delay) as (k1 & E1 & _ & Hs); [done..|by rewrite Hp, orb_true_r|done|].
  rewrite E in E1. injection E1 as <-. destruct (Z.eqb_spec delay 0) as [->|Hne].
  - left. unfold k_thread_spawn in E. rewrite Hi in E. destruct (_new_thread t false p options k) as [k2|] eqn:E2; [|done].
    cbn [mbind option_bind] in E. apply (start_time t k2 k') in E. rewrite (same_time_schedule _ _ E).
    by rewrite (new_thread_schedule t false p options k k2); [|apply Hu|].
  - right. destruct Hs as [_ ->]. eexists. split; [|done]. destruct Hd as [?|[_ ?]]; [done|lia].
Qed.

Lemma exec_schedule e K k k' :
  running K k -> in_isr k = false -> allowed K k e -> exec run_func run_abort e k = Some k' ->
  schedule_step e k (schedule k').
Proof.
  intros Hru Hi Ha E. assert (Hsame : same_time k k' -> schedule k' = schedule k) by apply same_time_schedule.
  destruct e; cbn [exec allowed schedule_step] in *.
  - by apply Hsame, yield_time.
  - destruct (Z.eq_dec ms 0) as [->|H0]; [left; apply Hsame; rewrite sleep_zero in E by done; by apply yield_time|].
    destruct Ha as [?|(? & ? & Hok)]; [done|]. destruct (k_sleep_running K k ms) as (k1 & E1 & _ & Has); [done..|].
    rewrite E in E1. injection E1 as <-. right. eexists. split; [|apply (as_schedule _ _ _ Has)].
    destruct Hok; [done|lia].
  - destruct (k_wakeup_running K k t Hru Ha) as (k1 & E1 & _ & _ & Es). rewrite E in E1. injection E1 as <-.
    rewrite Es. case_match; auto.
  - by eapply Hsame, priority_set_time.
  - by apply Hsame, lock_time.
  - by apply Hsame, unlock_time.
  - by eapply Hsame, suspend_time.
  - by eapply Hsame, resume_time.
  - destruct Ha as (? & ? & ?). destruct (abort_running K k t run_abort) as (k1 & E1 & _ & _ & _ & Es & _); [done..|].
    rewrite E1 in E. injection E as <-. by right.
  - destruct Ha as (? & ? & ?). destruct (abort_isr_running K k t run_abort) as (k1 & E1 & _ & _ & _ & Es & _); [done..|].
    rewrite E1 in E. injection E as <-. by right.
  - by apply (spawn_schedule K t p options delay k k').
  - destruct (k_thread_cancel t k) as [r k1] eqn:E1. injection E as <-.
    destruct (cancel_wf K k t (ru_wf K k Hru) Ha r k1 E1) as (_ & _ & _ & [[_ ->]|(_ & _ & Es)]); [by left|by right].
  - destruct Ha as [Hto Hnp]. unfold timer_isr in E.
    destruct (announce_threads K run_func ticks (set_in_isr true k)) as (k1 & E1 & _ & Es & _);
      [by apply running_set_in_isr|done|done|]. rewrite E1 in E. cbn [mbind option_bind] in E.
    apply int_exit_time in E. unfold schedule at 1. destruct E as [_ -> ->]. exact Es.
Qed.
End Schedule.

(** ** Timeouts lie in the future *)
Section Forward.
Context `{KConfig}.
Context (run_func : positive -> toid -> kernel -> option kernel)
        (run_abort : positive -> kernel -> option kernel).
Implicit Types (k : kernel) (t : tid) (K : toid -> Prop) (s : list (toid * Z)).

Definition ahead s : Prop := forall o a, (o, a) ∈ s -> 0 < a /\ exists t, o = TO_thread t.
Definition forward k : Prop := ahead (schedule k).

Lemma forward_tick k : forward k -> threads_only k /\ not_past k 1.
Proof.
  intros Hf. split.
  - intros o Ho. apply (expiries_elem 0 (timeouts k)) in Ho as [a Ha]. by apply (Hf o a).
  - split; [lia|]. intros o Ho. unfold forward, schedule in Hf. destruct (timeout_q k) as [|x l]; [done|].
    injection Ho as ->. destruct (Hf o (0 + delta (timeouts k) o)) as [Hp _]; [by left|lia].
Qed.

Lemma ahead_remove o s : ahead s -> ahead (schedule_remove o s).
Proof. intros Hs x a Hx. apply schedule_remove_elem in Hx as [_ Hx]. by apply Hs. Qed.

Lemma ahead_insert t n s : 0 < n -> ahead s -> ahead (schedule_insert (TO_thread t) n s).
Proof.
  intros Hn Hs o a Ho. apply schedule_insert_elem in Ho as [[= -> ->]|Ho]; [eauto|by apply Hs].
Qed.

Lemma ahead_remaining s : ahead s -> ahead (remaining 1 s).
Proof.
  intros Hs o a Ho. unfold remaining in Ho. apply list_elem_of_filter in Ho as [Hd Ho]. unfold not_due in Hd.
  apply in_shifted in Ho. destruct (Hs o (a + 1) Ho) as [? ?]. cbn [snd] in Hd. split; [lia|done].
Qed.

Lemma exec_forward e K k k' :
  running K k -> in_isr k = false -> allowed K k e -> (forall n, e = Tick n -> n = 1) ->
  exec run_func run_abort e k = Some k' -> forward k -> forward k'.
Proof.
  intros Hru Hi Ha Hn E Hf. pose proof (exec_schedule run_func run_abort e K k k' Hru Hi Ha E) as Hs. unfold forward in *.
  destruct e; cbn [schedule_step] in Hs; try (by rewrite Hs);
    try (destruct Hs as [->| ->]; [done|by apply ahead_remove]);
    try (destruct Hs as [->|(n & ? & ->)]; [done|by apply ahead_insert]).
  rewrite Hs, (Hn ticks eq_refl). by apply ahead_remaining.
Qed.
End Forward.
