(* ===== verification/CoreRuns.v ===== *)
(** * Runs of the kernel core

    What stays true of one thread along any sequence of services and clock interrupts:
    a thread that sleeps is not woken before its time, and a thread that was aborted
    never runs again. *)
From S2P Require Import Prelude Kernel ReadyQ TimeoutQ Sched SchedInv SchedApi Thread Boot Clock Core CoreTime.

(** ** A thread that is dead stays dead *)
Section Dead.
Context `{KConfig}.
Implicit Types (k : kernel) (t x : tid).

(** The flag of the dead stays set, that of the pending stays clear. *)
Definition buried (f : Z) : Prop := Z.testbit f 15 = true /\ Z.testbit f 13 = false.
Definition keeps_dead k k' : Prop := forall x, buried (flags (threads k x)) -> buried (flags (threads k' x)).

#[export] Instance keeps_dead_preorder : PreOrder keeps_dead.
Proof. split; [by intros k x|]. intros k1 k2 k3 H1 H2 x Hx. by apply H2, H1. Qed.

Lemma keeps_threads k k' : threads k' = threads k -> keeps_dead k k'.
Proof. intros E x. by rewrite E. Qed.

Lemma keeps_upd t f k :
  (forall th, buried (flags th) -> buried (flags (f th))) -> keeps_dead k (upd_thread t f k).
Proof.
  intros Hf x. unfold upd_thread. cbn [threads set_threads]. unfold alter, fn_alter.
  case_decide as E; [rewrite <- E; apply Hf|done].
Qed.

Lemma keeps_set t s k : Z.testbit s 13 = false -> keeps_dead k (_set_thread_states t s k).
Proof.
  intros Hs. apply keeps_upd. intros th [H1 H2]. split; cbn [flags with_flags]; rewrite Z.lor_spec, ?H1, ?H2, ?Hs; done.
Qed.

Lemma keeps_reset t s k : Z.testbit s 15 = false -> keeps_dead k (_reset_thread_states t s k).
Proof.
  intros Hs. apply keeps_upd. intros th [H1 H2].
  split; cbn [flags with_flags]; rewrite Z.land_spec, ?Z.lnot_spec, ?H1, ?H2, ?Hs by lia; done.
Qed.

Lemma keeps_add t k : keeps_dead k (_add_thread_to_ready_q t k).
Proof. by apply keeps_threads. Qed.

Lemma keeps_remove t k : keeps_dead k (_remove_thread_from_ready_q t k).
Proof. apply keeps_threads. apply (remove_rest k t). Qed.

Lemma keeps_next k r : _get_next_ready_thread k = Some r -> keeps_dead k (snd r).
Proof.
  intros E. apply keeps_threads. revert E. unfold _get_next_ready_thread, __get_next_ready_thread.
  destruct (cache k); [by intros [= <-]|].
  destruct (_get_highest_ready_prio k) as [p|]; [|done]. cbn [mbind option_bind].
  destruct (_ <? 0); [done|]. destruct (q k !! _) as [l|]; [|done]. cbn [mbind option_bind].
  destruct (head l); [|done]. by intros [= <-].
Qed.

Lemma keeps_swap k k' : _Swap k = Some k' -> keeps_dead k k'.
Proof.
  unfold _Swap. set (k1 := _set_thread_return_value _ _ k). assert (keeps_dead k k1) by by apply keeps_upd.
  destruct (_get_next_ready_thread k1) as [r|] eqn:E; [|done]. intros [= <-]. apply keeps_next in E.
  etransitivity; [eassumption|]. etransitivity; [exact E|]. by apply keeps_threads.
Qed.

Lemma keeps_reschedule k k' : _reschedule_threads k = Some k' -> keeps_dead k k'.
Proof.
  unfold _reschedule_threads. destruct (_must_switch_threads k) as [[]|]; [apply keeps_swap|by intros [= <-]|done].
Qed.

Lemma keeps_ready_thread t k k' : _ready_thread t k = Some k' -> keeps_dead k k'.
Proof.
  unfold _ready_thread. destruct (_ && _); [|done]. intros [= <-].
  assert (keeps_dead k (_mark_thread_as_started t k)) by by apply keeps_reset.
  destruct (_is_thread_ready _ _); [|done]. etransitivity; [eassumption|apply keeps_add].
Qed.

Lemma keeps_abort_timeout o k : keeps_dead k (snd (_abort_timeout o k)).
Proof. apply keeps_threads. unfold _abort_timeout. destruct (_ =? -1); [done|]. simpl. by destruct (peek_next _ _). Qed.

Lemma keeps_add_timeout th o w n k k' : _add_timeout th o w n k = Some k' -> keeps_dead k k'.
Proof.
  intros E. apply keeps_threads. revert E. unfold _add_timeout. destruct (0 <? n); [|done].
  destruct (insert_at _ _ _ _). by intros [= <-].
Qed.

Lemma keeps_yield k k' : k_yield k = Some k' -> keeps_dead k k'.
Proof.
  unfold k_yield. destruct (in_isr k); [done|]. assert (keeps_dead k (_move_thread_to_end_of_prio_q (current k) k)) as Hm.
  { apply keeps_threads. apply (move_rest k (current k)). }
  destruct (_get_next_ready_thread _) as [r|] eqn:E; [|done]. apply keeps_next in E. cbn [mbind option_bind].
  case_decide; [intros [= <-]; by etransitivity|]. intros E2%keeps_swap. etransitivity; [exact Hm|]. by etransitivity.
Qed.

Lemma keeps_int_exit k k' : _IntExit k = Some k' -> keeps_dead k k'.
Proof.
  unfold _IntExit, _is_next_thread_current, __pendsv.
  destruct (_ <? 0); [by intros [= <-]|]. destruct (0 <? _); [by intros [= <-]|].
  destruct (_get_next_ready_thread k) as [r|] eqn:E; [|done]. cbn [mbind option_bind].
  apply keeps_next in E. destruct (bool_decide _); [by intros [= <-]|].
  destruct (_get_next_ready_thread r.2) as [r2|] eqn:E2; [|done]. cbn [mbind option_bind].
  apply keeps_next in E2. intros [= <-]. etransitivity; [exact E|]. etransitivity; [exact E2|]. by apply keeps_threads.
Qed.

Lemma keeps_single_abort run_abort t k k' :
  fn_abort (threads k t) = None -> _k_thread_single_abort run_abort t k = Some k' -> keeps_dead k k'.
Proof.
  intros Hf. unfold _k_thread_single_abort. rewrite Hf. cbn [mbind option_bind].
  destruct (_is_thread_ready t k); cbn [mbind option_bind].
  { intros [= <-]. etransitivity; [apply (keeps_remove t k)|by apply keeps_set]. }
  unfold _unpend_thread. intros E.
  assert (exists k1, keeps_dead k k1 /\
    k' = _mark_thread_as_dead t (if _is_thread_timeout_active t k1 then snd (_abort_thread_timeout t k1) else k1))
    as (k1 & Hk1 & ->).
  { destruct (_is_thread_pending t k); cbn [mbind option_bind] in E; injection E as <-; eexists; (split; [|done]); [|done].
    etransitivity; [|by apply keeps_reset]. by apply keeps_threads. }
  etransitivity; [exact Hk1|]. etransitivity; [|by apply keeps_set].
  destruct (_is_thread_timeout_active t k1); [apply keeps_abort_timeout|done].
Qed.

Lemma keeps_abort run_abort t k k' pend :
  fn_abort (threads k t) = None -> k_thread_abort run_abort t k = Some (k', pend) -> keeps_dead k k'.
Proof.
  intros Hf. unfold k_thread_abort. destruct (_k_thread_single_abort run_abort t k) as [k1|] eqn:E; [|done].
  cbn [mbind option_bind]. apply keeps_single_abort in E; [|done]. destruct (in_isr k1).
  - destruct (_must_switch_threads k1) as [b|]; [|done]. intros [= <- _]. destruct b; [|done].
    etransitivity; [exact E|]. by apply keeps_upd.
  - case_decide; [destruct (_Swap k1) as [k2|] eqn:E2|destruct (_reschedule_threads k1) as [k2|] eqn:E2]; try done;
      intros [= <- _]; [apply keeps_swap in E2|apply keeps_reschedule in E2]; by etransitivity.
Qed.

Lemma keeps_abort_isr run_abort t k k' :
  fn_abort (threads k t) = None -> abort_isr run_abort t k = Some k' -> keeps_dead k k'.
Proof.
  intros Hf. unfold abort_isr. destruct (k_thread_abort _ _ _) as [[k1 pend]|] eqn:E; [|done].
  apply keeps_abort in E; [|done]. cbn [mbind option_bind fst snd].
  destruct (_IntExit _) as [k2|] eqn:E2; [|done]. apply keeps_int_exit in E2. cbn [mbind option_bind].
  assert (keeps_dead k k2) by exact (transitivity E E2). destruct pend; [|by intros [= <-]]. unfold __pendsv.
  destruct (_get_next_ready_thread k2) as [r|] eqn:E3; [|done]. apply keeps_next in E3.
  intros [= <-]. etransitivity; [eassumption|]. etransitivity; [exact E3|]. by apply keeps_threads.
Qed.

Lemma keeps_wakeup t k k' : k_wakeup t k = Some k' -> keeps_dead k k'.
Proof.
  unfold k_wakeup. destruct (_is_thread_pending t k); [by intros [= <-]|].
  pose proof (keeps_abort_timeout (TO_thread t) k) as Ha. unfold _abort_thread_timeout.
  destruct (_abort_timeout (TO_thread t) k) as [r k1]. cbn [snd] in Ha. destruct (r <? 0); [by intros [= <-]|].
  destruct (_ready_thread t k1) as [k2|] eqn:E; [|done]. apply keeps_ready_thread in E. cbn [mbind option_bind].
  assert (keeps_dead k k2) by by etransitivity.
  destruct (in_isr k2); [by intros [= <-]|]. intros E2%keeps_reschedule. by etransitivity.
Qed.
End Dead.

(** ** Runs *)
Section Runs.
Context `{KConfig}.
Context (run_func : positive -> toid -> kernel -> option kernel)
        (run_abort : positive -> kernel -> option kernel).
Implicit Types (k : kernel) (t x : tid) (K : toid -> Prop) (es : list event).

(** [es] take place one after the other, each of them allowed. *)
Inductive run : list event -> (toid -> Prop) -> kernel -> (toid -> Prop) -> kernel -> Prop :=
| run_nil K k : run [] K k K k
| run_cons e es K k k1 K2 k2 :
    allowed K k e -> exec run_func run_abort e k = Some k1 -> run es (known_after e K) k1 K2 k2 ->
    run (e :: es) K k K2 k2.

Definition sound K k : Prop := running K k /\ in_isr k = false.

Lemma exec_sound e K k k' :
  sound K k -> allowed K k e -> exec run_func run_abort e k = Some k' -> sound (known_after e K) k'.
Proof.
  intros [Hru Hi] Ha E. destruct (exec_running run_func run_abort e K k Hru Hi Ha) as (k1 & E1 & Hru1).
  assert (k1 = k') as -> by congruence. split; [done|]. by apply (exec_isr run_func run_abort e K k k').
Qed.

(** A thread that is dead, waits for nothing and has no timeout. *)
Definition gone k t : Prop := buried (flags (threads k t)) /\ forall a, (TO_thread t, a) ∉ schedule k.

Lemma gone_not_ready K k t :
  running K k -> gone k t -> t ∉ ready_list k /\ current k <> t /\ forall w, t ∉ wait_qs k w.
Proof.
  intros Hru [[Hd Hp] _].
  assert (t ∉ ready_list k) as Hn by (by apply (unready_not_listed K None); [apply (ru_wf K k Hru)|apply dead_not_ready]).
  split_and!; [done| |].
  - intros <-. by apply Hn, (ru_current K k Hru).
  - intros w Hw. destruct (kw_wq K None k (ru_wf K k Hru) t w Hw) as [_ Hpe].
    rewrite pending_bit in Hpe. unfold fbit in Hpe. congruence.
Qed.

Definition is_spawn t (e : event) : bool := match e with Spawn x _ _ _ => bool_decide (x = t) | _ => false end.

Lemma exec_gone_schedule e K k k' t :
  sound K k -> allowed K k e -> exec run_func run_abort e k = Some k' -> is_spawn t e = false ->
  gone k t -> forall a, (TO_thread t, a) ∉ schedule k'.
Proof.
  intros [Hru Hi] Ha E Hsp Hg a Hin. destruct (gone_not_ready K k t Hru Hg) as (_ & Hc & _). destruct Hg as [_ Hn].
  pose proof (exec_schedule run_func run_abort e K k k' Hru Hi Ha E) as Hs.
  destruct e; cbn [schedule_step is_spawn] in *; try (rewrite Hs in Hin; by apply (Hn a));
    try (destruct Hs as [Es|Es]; rewrite Es in Hin; [by apply (Hn a)|];
         apply schedule_remove_elem in Hin as [_ Hin]; by apply (Hn a)).
  - destruct Hs as [Es|(n & _ & Es)]; rewrite Es in Hin; [by apply (Hn a)|].
    apply schedule_insert_elem in Hin as [[= ? _]|Hin]; [done|by apply (Hn a)].
  - apply bool_decide_eq_false in Hsp. destruct Hs as [Es|(n & _ & Es)]; rewrite Es in Hin; [by apply (Hn a)|].
    apply schedule_insert_elem in Hin as [[= ? _]|Hin]; [congruence|by apply (Hn a)].
  - rewrite Hs in Hin. unfold remaining in Hin. apply list_elem_of_filter in Hin as [_ Hin].
    apply in_shifted in Hin. by apply (Hn (a + ticks)).
Qed.

Lemma spawn_dead x b p options delay k k' t :
  k_thread_spawn x b p options delay k = Some k' -> x <> t -> buried (flags (threads k t)) -> buried (flags (threads k' t)).
Proof.
  unfold k_thread_spawn. destruct (in_isr k); [done|]. destruct (_new_thread x b p options k) as [k1|] eqn:E; [|done].
  cbn [mbind option_bind]. intros E1 Hx Hd. destruct (new_thread_flags _ _ _ _ _ _ E) as (_&_&_&_& Ht & _).
  assert (buried (flags (threads k1 t))) as Hd1 by (by rewrite Ht by done).
  assert (keeps_dead k1 k') as Hk; [|by apply Hk]. unfold schedule_new_thread in E1. destruct (delay =? 0).
  - rewrite start_thread_eq in E1. unfold _k_thread_single_start in E1.
    assert (keeps_dead k1 (_mark_thread_as_started x k1)) by by apply keeps_reset.
    destruct (_is_thread_ready _ _); [apply keeps_reschedule in E1|by injection E1 as <-].
    etransitivity; [eassumption|]. etransitivity; [apply keeps_add|exact E1].
  - by apply keeps_add_timeout in E1.
Qed.

Lemma exec_gone_dead e K k k' t :
  sound K k -> allowed K k e -> exec run_func run_abort e k = Some k' -> is_spawn t e = false ->
  gone k t -> buried (flags (threads k' t)).
Proof.
  intros [Hru Hi] Ha E Hsp [Hd Hn]. assert (keeps_dead k k' -> buried (flags (threads k' t))) as Hk by (intros Hk; by apply Hk).
  destruct e; cbn [exec allowed is_spawn] in *.
  - by apply Hk, keeps_yield.
  - apply Hk. unfold k_sleep in E. destruct (_ || _); [done|]. destruct (_ =? 0); [by apply keeps_yield|].
    destruct (_add_thread_timeout _ _ _ _) as [k1|] eqn:E1; [|done]. apply keeps_add_timeout in E1.
    cbn [mbind option_bind] in E. apply keeps_swap in E.
    etransitivity; [apply keeps_remove|]. etransitivity; [exact E1|exact E].
  - by eapply Hk, keeps_wakeup.
  - apply Hk. unfold k_thread_priority_set in E. destruct (_ && _); [|done]. apply keeps_reschedule in E.
    etransitivity; [|exact E]. unfold _thread_priority_set.
    destruct (_is_thread_ready t0 k); [|by apply keeps_upd]. etransitivity; [|apply keeps_add].
    etransitivity; [apply keeps_remove|by apply keeps_upd].
  - apply Hk. unfold k_sched_lock in E. destruct (in_isr k); [done|]. injection E as <-. by apply keeps_upd.
  - apply Hk. unfold k_sched_unlock in E. destruct (_ && _); [|done]. apply keeps_reschedule in E.
    etransitivity; [|exact E]. by apply keeps_upd.
  - apply Hk. unfold k_thread_suspend, _k_thread_single_suspend in E.
    set (k1 := if _is_thread_ready t0 k then _ else _) in E.
    assert (keeps_dead k (_mark_thread_as_suspended t0 k1)) as H1.
    { etransitivity; [|by apply keeps_set]. unfold k1. destruct (_is_thread_ready t0 k); [apply keeps_remove|done]. }
    case_decide; [apply keeps_swap in E; by etransitivity|by injection E as <-].
  - apply Hk. unfold k_thread_resume, _k_thread_single_resume in E. apply keeps_reschedule in E.
    etransitivity; [|exact E]. assert (keeps_dead k (_mark_thread_as_not_suspended t0 k)) by by apply keeps_reset.
    destruct (_is_thread_ready _ _); [|done]. etransitivity; [eassumption|apply keeps_add].
  - destruct Ha as (_ & _ & Hf). destruct (k_thread_abort run_abort t0 k) as [[k1 pend]|] eqn:E1; [|done].
    injection E as <-. by apply Hk, (keeps_abort run_abort t0 k k1 pend).
  - destruct Ha as (_ & _ & Hf). by apply Hk, (keeps_abort_isr run_abort t0).
  - apply bool_decide_eq_false in Hsp. by eapply spawn_dead.
  - injection E as <-. apply Hk. unfold k_thread_cancel. destruct (_ || _); [done|]. apply keeps_abort_timeout.
  - destruct Ha as [Hto Hnp]. unfold timer_isr in E.
    destruct (announce_threads K run_func ticks (set_in_isr true k)) as (k1 & E1 & _ & _ & Heff & _);
      [by apply running_set_in_isr|done|done|]. rewrite E1 in E. cbn [mbind option_bind] in E. apply keeps_int_exit in E.
    apply E. destruct (Heff t) as [_ Hno]. destruct Hno as (_ & _ & Et); [exact (Hn ticks)|].
    cbn [threads set_in_isr] in *. by rewrite Et.
Qed.

Lemma run_gone es K k K2 k2 t :
  run es K k K2 k2 -> sound K k -> Forall (fun e => is_spawn t e = false) es -> gone k t -> sound K2 k2 /\ gone k2 t.
Proof.
  induction 1 as [|e es K k k1 K2 k2 Ha E _ IH]; [done|]. intros Hs Hes Hg. apply Forall_cons in Hes as [He Hes].
  apply IH; [by eapply exec_sound|done|].
  split; [by eapply (exec_gone_dead e K k k1 t)|by apply (exec_gone_schedule e K k k1 t)].
Qed.
(** ** A thread that sleeps *)

(** The calls that take a thread out of its sleep. *)
Definition wakes t (e : event) : bool :=
  match e with
  | Wakeup x | Abort_ x | AbortFromIsr x | Cancel x | Spawn x _ _ _ => bool_decide (x = t)
  | _ => false
  end.

(** The ticks that are announced. *)
Fixpoint elapsed es : Z :=
  match es with [] => 0 | Tick n :: es => n + elapsed es | _ :: es => elapsed es end.

Definition passes (e : event) : Z := match e with Tick n => n | _ => 0 end.

Lemma elapsed_cons e es : elapsed (e :: es) = passes e + elapsed es.
Proof. by destruct e. Qed.

Lemma schedule_insert_keeps o n (s : list (toid * Z)) e : e ∈ s -> e ∈ schedule_insert o n s.
Proof.
  induction s as [|[y b] s IH]; [by intros ?%elem_of_nil|]. cbn [schedule_insert].
  destruct (n <=? b); [by right|]. intros [->|Hin]%elem_of_cons; [by left|right; by apply IH].
Qed.

Lemma schedule_remove_keeps (o x : toid) (s : list (toid * Z)) a : (x, a) ∈ s -> x <> o -> (x, a) ∈ schedule_remove o s.
Proof. intros Hin Hx. unfold schedule_remove. by apply list_elem_of_filter. Qed.

Lemma exec_keeps_expiry e K k k' t a :
  sound K k -> allowed K k e -> exec run_func run_abort e k = Some k' -> wakes t e = false ->
  (TO_thread t, a) ∈ schedule k -> passes e < a -> (TO_thread t, a - passes e) ∈ schedule k'.
Proof.
  intros [Hru Hi] Ha E Hw Hin Hp. pose proof (exec_schedule run_func run_abort e K k k' Hru Hi Ha E) as Hs.
  destruct e; cbn [schedule_step wakes passes] in *; rewrite ?Z.sub_0_r; try apply bool_decide_eq_false in Hw;
    try (by rewrite Hs); try (destruct Hs as [->| ->]; [done|apply schedule_remove_keeps; congruence]);
    try (destruct Hs as [->|(n & _ & ->)]; [done|by apply schedule_insert_keeps]).
  rewrite Hs. unfold remaining. apply list_elem_of_filter. split; [unfold not_due; cbn [snd]; lia|].
  apply in_shifted. by replace (a - ticks + ticks) with a by lia.
Qed.

Lemma expiry_not_ready K k t a : running K k -> (TO_thread t, a) ∈ schedule k -> t ∉ ready_list k /\ current k <> t.
Proof.
  intros Hru Hin. pose proof (ru_wf K k Hru) as Hwf.
  assert (TO_thread t ∈ timeout_q k) as Hq by (apply (expiries_elem 0 (timeouts k)); by exists a).
  assert (t ∉ ready_list k) as Hn.
  { apply (unready_not_listed K None); [done|]. apply active_not_ready.
    pose proof (tq_nonneg K k (kw_tq K _ k Hwf) _ Hq). lia. }
  split; [done|]. intros <-. by apply Hn, (ru_current K k Hru).
Qed.

Lemma passes_nonneg K k e : allowed K k e -> 0 <= passes e.
Proof. destruct e; cbn; try lia. by intros [_ [? _]]. Qed.

Lemma run_elapsed es K k K2 k2 : run es K k K2 k2 -> 0 <= elapsed es.
Proof.
  induction 1 as [|e es K k k1 K2 k2 Ha E _ IH]; [done|]. rewrite elapsed_cons. pose proof (passes_nonneg K k e Ha). lia.
Qed.

Lemma run_keeps_expiry es K k K2 k2 t : forall a,
  run es K k K2 k2 -> sound K k -> Forall (fun e => wakes t e = false) es ->
  (TO_thread t, a) ∈ schedule k -> elapsed es < a -> sound K2 k2 /\ (TO_thread t, a - elapsed es) ∈ schedule k2.
Proof.
  intros a Hrun. revert a. induction Hrun as [|e es K k k1 K2 k2 Ha E Hrun IH]; intros a Hs Hes Hin Hel.
  - cbn. by rewrite Z.sub_0_r.
  - apply Forall_cons in Hes as [He Hes]. rewrite elapsed_cons in *. pose proof (run_elapsed _ _ _ _ _ Hrun).
    replace (a - (passes e + elapsed es)) with (a - passes e - elapsed es) by lia.
    apply IH; [by eapply exec_sound|done| |lia]. apply (exec_keeps_expiry e K k k1 t a); try done; lia.
Qed.

(** The tick that is due makes the thread ready again. *)
Lemma due_tick_readies K k k' t a :
  sound K k -> allowed K k (Tick a) -> exec run_func run_abort (Tick a) k = Some k' ->
  (TO_thread t, a) ∈ schedule k -> wakeable k t = true -> t ∈ ready_list k'.
Proof.
  intros [Hru Hi] [Hto Hnp] E Hin Hw. cbn [exec] in E. unfold timer_isr in E.
  destruct (announce_threads K run_func a (set_in_isr true k)) as (k1 & E1 & Hru1 & _ & Heff & _);
    [by apply running_set_in_isr|done|done|]. rewrite E1 in E. cbn [mbind option_bind] in E.
  destruct (int_exit_running K (set_in_isr false k1)) as (k2 & E2 & _ & Hsq & _); [by apply running_set_in_isr|].
  assert (k2 = k') as <- by congruence. rewrite (same_queues_ready _ _ Hsq).
  exact (proj2 (proj1 (Heff t) Hin) Hw).
Qed.

(** C14: a thread other than the idle thread that sleeps [ms] milliseconds leaves the
    ready queue, and the most urgent ready thread runs. Its expiry is a number [n] of
    ticks that lasts at least [ms] milliseconds beyond the tick being counted, and less
    than a tick more than needed. Along any run of services and clock interrupts in
    which nobody wakes, cancels, aborts or spawns this thread, as long as fewer than [n]
    ticks are announced the thread is not ready and does not run, and has exactly the
    rest of its ticks left; and the announcement of this rest makes it ready, unless it
    was suspended in the meantime. *)
Theorem sleep_is_long_enough K k ms :
  running K k -> in_isr k = false -> current k <> _idle_thread -> 0 < ms <= INT32_MAX ->
  ms * sys_clock_ticks_per_sec <= (INT32_MAX - 1) * 1000 ->
  exists k' n, k_sleep ms k = Some k' /\ running K k' /\
    ready_list k' = remove_node (current k) (ready_list k) /\
    head (ready_list k') = Some (current k') /\
    schedule k' = schedule_insert (TO_thread (current k)) n (schedule k) /\
    ms * sys_clock_ticks_per_sec <= (n - 1) * 1000 < ms * sys_clock_ticks_per_sec + 1000 /\
    forall es K2 k2,
      run es K k' K2 k2 -> Forall (fun e => wakes (current k) e = false) es -> elapsed es < n ->
      current k ∉ ready_list k2 /\ current k2 <> current k /\
      (TO_thread (current k), n - elapsed es) ∈ schedule k2 /\
      forall k3, allowed K2 k2 (Tick (n - elapsed es)) ->
        exec run_func run_abort (Tick (n - elapsed es)) k2 = Some k3 ->
        wakeable k2 (current k) = true -> current k ∈ ready_list k3.
Proof.
  intros Hru Hi Hid Hms Hb. pose proof ticks_per_sec_range as Ht.
  pose proof (timeout_ok_ms ms ltac:(lia) Hb) as Hok.
  destruct (k_sleep_running K k ms Hru Hi Hid) as (k' & E & Hru' & [? ? _ Es]);
    [unfold K_FOREVER; lia|lia|done|].
  assert (sound K k') as Hs.
  { split; [done|]. apply (exec_isr run_func run_abort (Sleep ms) K k k' Hi); [|done]. right.
    split_and!; [done|unfold K_FOREVER; lia|done]. }
  assert ((TO_thread (current k), timeout_ticks ms) ∈ schedule k') as Hin.
  { rewrite Es. clear. induction (schedule k) as [|[y b] s IH]; [by left|]. cbn [schedule_insert].
    destruct (_ <=? b); [by left|by right]. }
  exists k', (timeout_ticks ms). split_and!; try done.
  1, 2: unfold timeout_ticks; rewrite ms_to_ticks_value by lia; unfold _TICK_ALIGN;
    pose proof (Z.div_mod (ms * sys_clock_ticks_per_sec + 999) 1000 ltac:(lia));
    pose proof (Z.mod_pos_bound (ms * sys_clock_ticks_per_sec + 999) 1000 ltac:(lia));
    (rewrite i32_small; [nia|]); unfold INT32_MIN, INT32_MAX in *; nia.
  intros es K2 k2 Hrun Hes Hel.
  destruct (run_keeps_expiry es K k' K2 k2 (current k) _ Hrun Hs Hes Hin Hel) as [Hs2 Hin2].
  destruct (expiry_not_ready K2 k2 (current k) _ (proj1 Hs2) Hin2) as [Hnr Hnc].
  split_and!; try done. intros k3 Ha E3 Hw. by apply (due_tick_readies K2 k2 k3 (current k) (timeout_ticks ms - elapsed es)).
Qed.

(** C15: aborting a thread that is not the idle thread and has no abort handler of the
    legacy interface, from a thread or from an interrupt handler, removes it from the
    ready queue, from the wait queue it may be on and from the timeout queue; once the
    call, or the handler, is left it is not the current thread; and along any later run
    of services and clock interrupts that does not spawn it again it stays off all
    queues and is never the current thread. *)
Theorem abort_removes_thread K k t e :
  reachable run_func run_abort K k -> e = Abort_ t \/ e = AbortFromIsr t -> allowed K k e ->
  exists k', exec run_func run_abort e k = Some k' /\ running K k' /\
    forall es K2 k2, run es K k' K2 k2 -> Forall (fun e => is_spawn t e = false) es ->
      t ∉ ready_list k2 /\ (forall w, t ∉ wait_qs k2 w) /\ (forall a, (TO_thread t, a) ∉ schedule k2) /\
      current k2 <> t.
Proof.
  intros Hr He Ha. destruct (reachable_ok run_func run_abort K k Hr) as (Hru & Hi & _).
  assert (exists k', exec run_func run_abort e k = Some k' /\ running K k' /\ in_isr k' = false /\ gone k' t)
    as (k' & E & Hru' & Hi' & Hg).
  { assert (exists k', exec run_func run_abort e k = Some k' /\ running K k' /\
      (forall w, wait_qs k' w = remove_node t (wait_qs k w)) /\
      schedule k' = schedule_remove (TO_thread t) (schedule k) /\ fbit k' t 15 = true) as (k' & E & H0 & Ew & Es & Hd).
    { destruct He as [-> | ->]; cbn [exec allowed] in *; destruct Ha as (? & ? & ?).
      - destruct (abort_running K k t run_abort) as (k' & E & ? & _ & ? & ? & ? & _); [done..|]. exists k'. rewrite E. done.
      - destruct (abort_isr_running K k t run_abort) as (k' & E & ? & _ & ? & ? & ? & _); [done..|]. by exists k'. }
    exists k'. split_and!; try done.
    - by apply (exec_isr run_func run_abort e K k k').
    - split; [split; [exact Hd|]|].
      + apply not_true_is_false. intros Hp. destruct (kw_wq_conv K None k' (ru_wf K k' H0) t) as [w Hw];
          [by destruct He as [-> | ->]; apply Ha|by rewrite pending_bit|].
        rewrite Ew, elem_of_remove_node in Hw. naive_solver.
      + intros a. rewrite Es. by intros [? _]%schedule_remove_elem. }
  exists k'. split_and!; try done. intros es K2 k2 Hrun Hes.
  destruct (run_gone es K k' K2 k2 t Hrun (conj Hru' Hi') Hes Hg) as [[Hru2 _] Hg2].
  destruct (gone_not_ready K2 k2 t Hru2 Hg2) as (? & ? & ?). split_and!; try done. apply Hg2.
Qed.
End Runs.

(** ** Witnesses, on the booted kernel *)
Section Witnesses.

(** One tick may be announced where timeouts lie in the future. *)
Lemma one_tick k :
  running boot_threads k -> in_isr k = false -> forward k ->
  exists k2, exec no_func no_abort (Tick 1) k = Some k2 /\ run no_func no_abort [Tick 1] boot_threads k boot_threads k2.
Proof.
  intros Hru Hi Hf. pose proof (forward_tick k Hf) as Ha.
  destruct (exec_running no_func no_abort (Tick 1) boot_threads k Hru Hi Ha) as (k2 & E & _).
  exists k2. split; [exact E|]. eapply run_cons; [exact Ha|exact E|]. apply run_nil.
Qed.

(** The main thread sleeps for 25 milliseconds, and is still asleep after one tick. *)
Lemma sleep_is_long_enough_witness :
  exists k' n k2, k_sleep 25 booted = Some k' /\ 2500 <= (n - 1) * 1000 < 3500 /\
    exec no_func no_abort (Tick 1) k' = Some k2 /\ _main_thread ∉ ready_list k2.
Proof.
  destruct booted_running as (Hru & Ec & _ & Eq & _ & Hi).
  destruct (sleep_is_long_enough no_func no_abort boot_threads booted 25 Hru Hi)
    as (k' & n & E & Hru' & _ & _ & Es & Hn & Hrun);
    [rewrite Ec; discriminate|unfold INT32_MAX; lia|vm_compute; discriminate|].
  assert (2500 <= (n - 1) * 1000 < 3500) as Hn' by exact Hn.
  assert (forward k') as Hf.
  { unfold forward. rewrite Es, Ec. apply ahead_insert; [lia|]. unfold schedule. rewrite Eq.
    intros o a Hin. apply elem_of_nil in Hin. destruct Hin. }
  assert (in_isr k' = false) as Hi'.
  { assert (in_isr <$> k_sleep 25 booted = Some false) as E' by (vm_compute; reflexivity).
    rewrite E in E'. injection E' as E'. exact E'. }
  destruct (one_tick k' Hru' Hi' Hf) as (k2 & E2 & R). exists k', n, k2.
  split; [exact E|]. split; [exact Hn'|]. split; [exact E2|].
  rewrite Ec in Hrun. apply (Hrun _ _ _ R); [repeat constructor|cbn; lia].
Defined.

(** The main thread ends, and does not run after the next tick. *)
Lemma abort_removes_thread_witness :
  exists k' k2, exec no_func no_abort (Abort_ _main_thread) booted = Some k' /\
    exec no_func no_abort (Tick 1) k' = Some k2 /\ current k2 <> _main_thread.
Proof.
  assert (allowed boot_threads booted (Abort_ _main_thread)) as Ha.
  { split; [left; right; reflexivity|]. split; [discriminate|vm_compute; reflexivity]. }
  destruct (abort_removes_thread no_func no_abort boot_threads booted _main_thread (Abort_ _main_thread)
    booted_reachable (or_introl eq_refl) Ha) as (k' & E & Hru & Hrun).
  assert (in_isr k' = false /\ timeout_q k' = []) as [Hi Eq].
  { assert ((fun k => (in_isr k, timeout_q k)) <$> exec no_func no_abort (Abort_ _main_thread) booted = Some (false, []))
      as E' by (vm_compute; reflexivity).
    rewrite E in E'. injection E' as E1 E2. split; assumption. }
  destruct (one_tick k' Hru Hi) as (k2 & E2 & R).
  { unfold forward, schedule. rewrite Eq. intros o a Hin. apply elem_of_nil in Hin. destruct Hin. }
  exists k', k2. split; [exact E|]. split; [exact E2|].
  apply (Hrun _ _ _ R). repeat constructor.
Defined.
End Witnesses.
