(* ===== verification/Timer.v ===== *)
(** * Timers (kernel/unified/timer.c)

    A timer owns the timeout [TO_timer n] and a wait queue for the thread that
    synchronises with it. The functions of the application ([expiry_fn],
    [stop_fn]) are named by the address of their code and run by [run_fn], a
    parameter: [fns_ok] is what the kernel relies on. *)
From S2P Require Import Prelude Kernel ReadyQ TimeoutQ Sched SchedInv SchedApi Thread Boot Clock.

Record k_timer := mk_timer {
  wait_q : wqid;
  expiry_fn : option positive;
  stop_fn : option positive;
  period : Z;
  status : Z
}.

(** [calls] is the sequence of the calls of functions of the application so far: the
    function and the timer it is called with. *)
Record timer_world := mk_timer_world {
  timer_kernel : kernel;
  timers : positive -> k_timer;
  calls : list (positive * positive)
}.
#[export] Instance timer_world_world : World timer_world :=
  {| core := timer_kernel;
     set_core := fun k w => mk_timer_world k (timers w) (calls w);
     core_set := fun _ _ => eq_refl |}.

Definition with_status (s : Z) (t : k_timer) : k_timer :=
  mk_timer (wait_q t) (expiry_fn t) (stop_fn t) (period t) s.
Definition with_period (p : Z) (t : k_timer) : k_timer :=
  mk_timer (wait_q t) (expiry_fn t) (stop_fn t) p (status t).
Definition upd_timer (n : positive) (f : k_timer -> k_timer) (w : timer_world) : timer_world :=
  mk_timer_world (timer_kernel w) (alter f n (timers w)) (calls w).

(** The address of [_timer_expiration_handler]. *)
Definition timer_handler : positive := 1%positive.

Section Operations.
Context `{KConfig}.
Context (run_fn : positive -> positive -> timer_world -> option timer_world).
Implicit Types (w : timer_world) (n : positive).

Definition note_call (f n : positive) w : timer_world :=
  mk_timer_world (timer_kernel w) (timers w) (calls w ++ [(f, n)]).

Definition call (fn : option positive) n w : option timer_world :=
  match fn with Some f => run_fn f n (note_call f n w) | None => Some w end.

Definition _timer_expiration_handler n w : option timer_world :=
  w ← (if 0 <? period (timers w n) then
         k ← _add_timeout None (TO_timer n) (Some (wait_q (timers w n))) (period (timers w n)) (core w);
         Some (set_core k w)
       else Some w);
  let w := upd_timer n (fun t => with_status (u32 (status t + 1)) t) w in
  w ← call (expiry_fn (timers w n)) n w;
  match _unpend_first_thread (wait_q (timers w n)) (core w) with
  | (Some t, k) =>
      k ← _ready_thread t k;
      Some (set_core (_set_thread_return_value t 0 k) w)
  | (None, k) => Some (set_core k w)
  end.

(** The timeout is a field of its timer; other timeouts have other handlers. *)
Definition run_timeout (f : positive) (o : toid) w : option timer_world :=
  match o with TO_timer n => _timer_expiration_handler n w | _ => None end.

(** [period] is left as it was. *)
Definition k_timer_init n (wq : wqid) (expiry stop : option positive) w : timer_world :=
  let w := upd_timer n (fun t => mk_timer wq expiry stop (period t) 0) w in
  let k := upd_wait_q wq [] (core w) in
  set_core (_init_timeout (TO_timer n) (Some timer_handler) k) w.

Definition k_timer_start n (duration per : Z) w : option timer_world :=
  if (0 <=? duration) && (0 <=? per) && (negb (duration =? 0) || negb (per =? 0)) then
    let k := core w in
    let k := if negb (delta (timeouts k) (TO_timer n) =? -1)
             then snd (_abort_timeout (TO_timer n) k) else k in
    let w := upd_timer n (with_period (_ms_to_ticks per)) (set_core k w) in
    k ← _add_timeout None (TO_timer n) (Some (wait_q (timers w n)))
          (i32 (_TICK_ALIGN + _ms_to_ticks duration)) (core w);
    Some (upd_timer n (with_status 0) (set_core k w))
  else None.

Definition k_timer_stop n w : option timer_world :=
  if in_isr (core w) then None
  else
    let '(stopped, k) := _abort_timeout (TO_timer n) (core w) in
    let w := set_core k w in
    if stopped =? -1 then Some w
    else
      w ← call (stop_fn (timers w n)) n w;
      let '(pending_thread, k) := _unpend_first_thread (wait_q (timers w n)) (core w) in
      k ← (match pending_thread with Some t => _ready_thread t k | None => Some k end);
      if in_isr k then Some (set_core k w)
      else k ← _reschedule_threads k; Some (set_core k w).

Definition k_timer_status_get n w : Z * timer_world :=
  (status (timers w n), upd_timer n (with_status 0) w).

Definition k_timer_status_sync n w : option (outcome Z * timer_world) :=
  if in_isr (core w) then None
  else
    let result := status (timers w n) in
    if result =? 0 then
      if negb (delta (timeouts (core w)) (TO_timer n) =? -1) then
        k ← _pend_current_thread (wait_q (timers w n)) K_FOREVER (core w);
        k ← _Swap k;
        Some (Blocks, set_core k w)
      else Some (Returns result, upd_timer n (with_status 0) w)
    else Some (Returns result, upd_timer n (with_status 0) w).

(** The end of a call that blocked. *)
Definition k_timer_status_sync_resume n w : Z * timer_world :=
  (status (timers w n), upd_timer n (with_status 0) w).

(** The [while] loop over the timeout queue; [None] is walking off its end. *)
Fixpoint sum_deltas (tm : toid -> timeout) (o : toid) (remaining_ticks : Z) (l : list toid)
    : option Z :=
  match l with
  | [] => None
  | t :: l' =>
      let remaining_ticks := i32 (remaining_ticks + delta tm t) in
      if decide (t = o) then Some remaining_ticks else sum_deltas tm o remaining_ticks l'
  end.

Definition k_timer_remaining_get n w : option Z :=
  let k := core w in
  remaining_ticks ← (if delta (timeouts k) (TO_timer n) =? -1 then Some 0
                     else sum_deltas (timeouts k) (TO_timer n) 0 (timeout_q k));
  Some (_ticks_to_ms remaining_ticks).
End Operations.

(** ** The invariant of timers *)
Section Invariant.
Context `{KConfig}.
Context (K : toid -> Prop).
Implicit Types (w : timer_world) (n : positive) (k : kernel).

(** Known timers were initialised; a thread that waits for one does so without
    a timeout of its own. *)
Record timer_ok w : Prop := {
  tm_period n : K (TO_timer n) -> 0 <= period (timers w n) <= INT32_MAX;
  tm_waiters n t : K (TO_timer n) -> t ∈ wait_qs (core w) (wait_q (timers w n)) ->
    TO_thread t ∉ timeout_q (core w);
  tm_func n : K (TO_timer n) -> to_func (timeouts (core w) (TO_timer n)) = Some timer_handler
}.

Lemma timer_object n : is_object (TO_timer n).
Proof. done. Qed.

Lemma timer_ok_core k w : timer_ok w -> calmer (core w) k -> timer_ok (set_core k w).
Proof.
  intros [H1 H2 H3] [C1 C2 C3 C4]. split; [done| |].
  - intros n t HK Ht Hin. apply (H2 n t HK); [by apply C1|by apply C2].
  - intros n HK. change (to_func (timeouts k (TO_timer n)) = Some timer_handler). rewrite C3. auto.
Qed.

Lemma timer_ok_upd n f w :
  timer_ok w -> (forall t, wait_q (f t) = wait_q t) ->
  (0 <= period (f (timers w n)) <= INT32_MAX) -> timer_ok (upd_timer n f w).
Proof.
  intros [H1 H2 H3] Hf Hp.
  assert (Hc : forall x, timers (upd_timer n f w) x = if decide (x = n) then f (timers w x) else timers w x).
  { intros x. cbn. unfold alter, fn_alter. by destruct (decide (n = x)), (decide (x = n)); subst. }
  split; [| |done].
  - intros x HK. rewrite Hc. case_decide; subst; auto.
  - intros x t HK. rewrite Hc. case_decide; subst; rewrite ?Hf; by apply H2.
Qed.

(** Nothing that happens to the timeouts of timers concerns the waiters. *)
Lemma timer_ok_timeouts w k :
  timer_ok w -> wait_qs k = wait_qs (core w) ->
  (forall t, TO_thread t ∈ timeout_q k -> TO_thread t ∈ timeout_q (core w)) ->
  (forall o, to_func (timeouts k o) = to_func (timeouts (core w) o)) -> timer_ok (set_core k w).
Proof.
  intros [H1 H2 H3] Ew Hq Hf. split; [done| |].
  - intros n t HK Ht Hin. apply (H2 n t HK); [by rewrite <- Ew|by apply Hq].
  - intros n HK. change (to_func (timeouts k (TO_timer n)) = Some timer_handler). rewrite Hf. auto.
Qed.

Lemma rearm_ok w n p :
  timer_ok w -> running K (core w) -> K (TO_timer n) -> TO_timer n ∉ timeout_q (core w) ->
  0 < p <= INT32_MAX ->
  exists k', _add_timeout None (TO_timer n) (Some (wait_q (timers w n))) p (core w) = Some k' /\
    running K k' /\ timer_ok (set_core k' w) /\ timeouts_only (core w) k' /\
    schedule k' = schedule_insert (TO_timer n) p (schedule (core w)).
Proof.
  intros Hok Hru HK Hni Hp.
  destruct (add_object_timeout K (core w) (TO_timer n) (Some (wait_q (timers w n))) p Hru HK
    (timer_object n) Hni Hp) as (k' & E & Hru' & Es & Eq & Hto).
  exists k'. split_and!; try done.
  destruct (timeouts_only_fields _ _ Hto) as (_ & _ & _ & _ & Ew & _).
  apply timer_ok_timeouts; [done|done| |].
  - intros t. rewrite Eq, elem_of_cons. by intros [?|?].
  - intros o. by eapply add_timeout_func.
Qed.

Lemma disarm_ok w n :
  timer_ok w -> running K (core w) -> K (TO_timer n) ->
  exists r k', _abort_timeout (TO_timer n) (core w) = (r, k') /\ running K k' /\
    timer_ok (set_core k' w) /\ (r = 0 <-> TO_timer n ∈ timeout_q (core w)) /\ (r = 0 \/ r = -1) /\
    TO_timer n ∉ timeout_q k' /\ timeouts_only (core w) k' /\
    schedule k' = schedule_remove (TO_timer n) (schedule (core w)).
Proof.
  intros Hok Hru HK.
  destruct (abort_object_timeout K (core w) (TO_timer n) Hru HK (timer_object n))
    as (r & k' & E & Hru' & Hr & Hr' & Eq & _ & Es & Hto & Hf).
  destruct (timeouts_only_fields _ _ Hto) as (_ & _ & _ & _ & Ew & _).
  exists r, k'. split_and!; try done.
  - apply timer_ok_timeouts; [done|done| |done].
    intros t. rewrite Eq, elem_of_remove_node. by intros [_ ?].
  - rewrite Eq, elem_of_remove_node. naive_solver.
Qed.

Lemma timer_ok_same_queues k w :
  timer_ok w -> same_queues (core w) k -> timer_ok (set_core k w).
Proof.
  intros Hok Hsq. apply timer_ok_core; [done|].
  apply calmer_same; [apply (sq_wait_qs _ _ Hsq)|apply (sq_timeout_q _ _ Hsq)|
    apply (sq_timeouts _ _ Hsq)|apply (sq_in_isr _ _ Hsq)].
Qed.

(** The thread waiting for the timer is made ready. *)
Lemma ready_thread_timeouts t k k' : _ready_thread t k = Some k' -> timeouts k' = timeouts k.
Proof.
  unfold _ready_thread. destruct (_ && _); [|done].
  destruct (_is_thread_ready _ _); by intros [= <-].
Qed.

Lemma wake_waiter_ok w n t l :
  timer_ok w -> running K (core w) -> K (TO_timer n) ->
  wait_qs (core w) (wait_q (timers w n)) = t :: l ->
  exists k', _ready_thread t (unpend t (core w)) = Some k' /\ running K k' /\
    timer_ok (set_core k' w) /\ woken t (core w) k' /\ wait_qs k' (wait_q (timers w n)) = l /\
    timeout_q k' = timeout_q (core w) /\ schedule k' = schedule (core w) /\ t <> current (core w).
Proof.
  intros Hok Hru HK Hq.
  assert (TO_thread t ∉ timeout_q (core w)) as Hni.
  { apply (tm_waiters w Hok n t HK). rewrite Hq. apply elem_of_cons. by left. }
  destruct (ready_first_running K (core w) _ t l Hru Hq Hni)
    as (k' & E & Hru' & Hwo & Hl & _ & Htc & Etq & Es).
  exists k'. split_and!; try done. apply timer_ok_core; [done|]. split.
  - intros w' x. rewrite (wo_wait_qs _ _ _ Hwo), elem_of_remove_node. by intros [_ ?].
  - intros o. by rewrite Etq.
  - intros o. by rewrite (ready_thread_timeouts _ _ _ E).
  - apply (wo_in_isr _ _ _ Hwo).
Qed.
End Invariant.

Lemma timer_ok_note `{KConfig} K f n w : timer_ok K w -> timer_ok K (note_call f n w).
Proof. intros [H1 H2 H3]. by split. Qed.

(** ** Expiry *)
Section Expiry.
Context `{KConfig}.
Context (K : toid -> Prop) (run_fn : positive -> positive -> timer_world -> option timer_world).
Context (no_work : forall n, ~ K (TO_work n)).
Implicit Types (w : timer_world) (n : positive) (k : kernel).

(** What the kernel relies on in the functions of the application: they return,
    keep the invariants, start no timeout that is already due and leave the
    processor to the interrupted thread. *)
Definition fns_ok : Prop :=
  forall f n w, timer_ok K w -> running K (core w) -> K (TO_timer n) ->
    exists w', run_fn f n w = Some w' /\ timer_ok K w' /\ running K (core w') /\
      (expired (core w') <= expired (core w))%nat /\ current (core w') = current (core w) /\
      in_isr (core w') = in_isr (core w).

(** The first part of the handler: the timer is restarted if it is periodic. *)
Lemma restart_ok w n :
  timer_ok K w -> running K (core w) -> K (TO_timer n) -> TO_timer n ∉ timeout_q (core w) ->
  exists k', (if 0 <? period (timers w n) then
         k ← _add_timeout None (TO_timer n) (Some (wait_q (timers w n))) (period (timers w n)) (core w);
         Some (set_core k w)
       else Some w) = Some (set_core k' w) /\
    running K k' /\ timer_ok K (set_core k' w) /\ timeouts_only (core w) k' /\
    schedule k' = (if 0 <? period (timers w n)
                   then schedule_insert (TO_timer n) (period (timers w n)) (schedule (core w))
                   else schedule (core w)).
Proof.
  intros Hok Hru HK Hni. pose proof (tm_period K w Hok n HK) as Hp.
  destruct (Z.ltb_spec 0 (period (timers w n))) as [Hpos|Hz].
  - destruct (rearm_ok K w n (period (timers w n)) Hok Hru HK Hni ltac:(lia))
      as (k' & -> & ? & ? & ? & ?). by exists k'.
  - exists (core w). split_and!; try done; [by destruct w|by destruct w|].
    destruct w as [[]]. done.
Qed.

Lemma handler_callback n w :
  fns_ok -> timer_ok K w -> running K (core w) -> K (TO_timer n) -> TO_timer n ∉ timeout_q (core w) ->
  exists w', _timer_expiration_handler run_fn n w = Some w' /\ timer_ok K w' /\ running K (core w') /\
    (expired (core w') <= expired (core w))%nat /\ current (core w') = current (core w) /\
    in_isr (core w') = in_isr (core w).
Proof.
  intros Hfns Hok Hru HK Hni. unfold _timer_expiration_handler.
  destruct (restart_ok w n Hok Hru HK Hni) as (k1 & -> & Hru1 & Hok1 & Hto & Es).
  cbn [mbind option_bind].
  destruct (timeouts_only_fields _ _ Hto) as (_ & _ & _ & _ & _ & Ec1 & Ei1 & _).
  assert (Hex1 : expired k1 = expired (core w)).
  { unfold expired. rewrite Es. destruct (Z.ltb_spec 0 (period (timers w n))); [|done].
    by rewrite expired_insert. }
  set (w1 := upd_timer n _ (set_core k1 w)).
  assert (timer_ok K w1) as Hok2 by (apply timer_ok_upd; [done|done|apply (tm_period K _ Hok1 n HK)]).
  assert (exists w2, call run_fn (expiry_fn (timers w1 n)) n w1 = Some w2 /\ timer_ok K w2 /\
    running K (core w2) /\ (expired (core w2) <= expired k1)%nat /\ current (core w2) = current k1 /\
    in_isr (core w2) = in_isr k1) as (w2 & -> & Hok3 & Hru3 & Hex3 & Ec3 & Ei3).
  { destruct (expiry_fn (timers w1 n)) as [f|]; [|by exists w1].
    apply (Hfns f n (note_call f n w1)); [by apply timer_ok_note|done|done]. }
  cbn [mbind option_bind]. unfold _unpend_first_thread.
  destruct (wait_qs (core w2) (wait_q (timers w2 n))) as [|t l] eqn:Eq.
  - exists w2. split_and!; [by destruct w2|done|done|lia|congruence|congruence].
  - fold (unpend t (core w2)).
    destruct (wake_waiter_ok K w2 n t l Hok3 Hru3 HK Eq)
      as (k4 & -> & Hru4 & Hok4 & Hwo & _ & Etq & Es4 & _). cbn [mbind option_bind].
    eexists. split; [reflexivity|].
    split_and!; [|by apply running_return_value| | |].
    + change (timer_ok K (set_core (_set_thread_return_value t 0 k4) (set_core k4 w2))).
      by apply timer_ok_core; [|apply calmer_same].
    + change (expired k4 <= expired (core w))%nat. unfold expired in *. rewrite Es4. lia.
    + change (current k4 = current (core w)). rewrite (wo_current _ _ _ Hwo). congruence.
    + change (in_isr k4 = in_isr (core w)). rewrite (wo_in_isr _ _ _ Hwo). congruence.
Qed.

Lemma timer_callbacks : fns_ok -> callbacks_ok K (timer_ok K) (run_timeout run_fn).
Proof.
  intros Hfns f o l w Hok Hru El _ Hob Hru1 Hol.
  assert (K o) as HK.
  { apply (kw_known K None _ (ru_wf K _ Hru)). rewrite El. apply elem_of_cons. by left. }
  destruct o as [t|n|n].
  - by destruct (Hob t).
  - destruct (handler_callback n (set_core (pop (TO_timer n) (core w)) w) Hfns)
      as (w' & ? & ? & ? & ? & ? & ?); try done.
    + apply timer_ok_core; [done|apply calmer_pop].
    + cbn. change (timer_kernel w) with (core w). by rewrite El.
    + by exists w'.
  - by destruct (no_work n).
Qed.

Definition expires n w (a : Z) : Prop := (TO_timer n, a) ∈ schedule (core w).

(** The calls of functions for one timer. *)
Definition calls_for n w : list (positive * positive) := filter (fun c => c.2 = n) (calls w).

(** In addition to [fns_ok]: the functions of the application leave alone the timers of
    [P], that is, they neither start nor stop them. They may use the other timers, wake
    threads and call the other services. *)
Definition fns_leave (P : positive -> Prop) : Prop :=
  forall f n w, timer_ok K w -> running K (core w) -> K (TO_timer n) ->
    exists w', run_fn f n w = Some w' /\ timer_ok K w' /\ running K (core w') /\
      (expired (core w') <= expired (core w))%nat /\ current (core w') = current (core w) /\
      forall m, P m -> timers w' m = timers w m /\ calls_for m w' = calls_for m w /\
        forall a, expires m w' a <-> expires m w a.

(** The call an expiry of the timer makes. *)
Definition expiry_call n (t : k_timer) : list (positive * positive) :=
  match expiry_fn t with Some f => [(f, n)] | None => [] end.

Definition bump (t : k_timer) : k_timer := with_status (u32 (status t + 1)) t.

(** What becomes of timer [n], whose expiries were [before] and are [after]. *)
Definition timer_effect n (due : Prop) (before after : Z -> Prop) w w' : Prop :=
  (due -> timers w' n = bump (timers w n) /\ calls_for n w' = calls_for n w ++ expiry_call n (timers w n) /\
     forall a, after a <-> 0 < period (timers w n) /\ a = period (timers w n)) /\
  (~ due -> timers w' n = timers w n /\ calls_for n w' = calls_for n w /\ forall a, after a <-> before a).

Lemma elem_schedule_insert o m x a (s : list (toid * Z)) :
  (x, a) ∈ schedule_insert o m s <-> (x = o /\ a = m) \/ (x, a) ∈ s.
Proof.
  induction s as [|[y b] s IH]; simpl.
  - rewrite list_elem_of_singleton, elem_of_nil. naive_solver.
  - destruct (m <=? b); rewrite !elem_of_cons, ?IH; naive_solver.
Qed.

(** The end of the handler: the thread that waits for the timer, if any, is made
    ready, and the timers stay as they are. *)
Lemma wake_first_ok n w :
  timer_ok K w -> running K (core w) -> K (TO_timer n) ->
  exists k', match _unpend_first_thread (wait_q (timers w n)) (core w) with
    | (Some t, k) => k ← _ready_thread t k; Some (set_core (_set_thread_return_value t 0 k) w)
    | (None, k) => Some (set_core k w)
    end = Some (set_core k' w) /\ timer_ok K (set_core k' w) /\ running K k' /\
    schedule k' = schedule (core w) /\ current k' = current (core w) /\
    match wait_qs (core w) (wait_q (timers w n)) with
    | [] => k' = core w
    | t :: l => wait_qs k' (wait_q (timers w n)) = l /\ swap_return_value (threads k' t) = 0 /\
                (wakeable (core w) t = true -> t ∈ ready_list k')
    end.
Proof.
  intros Hok Hru HK. unfold _unpend_first_thread.
  destruct (wait_qs (core w) (wait_q (timers w n))) as [|t l] eqn:Eq.
  - exists (core w). split_and!; try done. by destruct w.
  - fold (unpend t (core w)).
    destruct (wake_waiter_ok K w n t l Hok Hru HK Eq) as (k4 & -> & Hru4 & Hok4 & Hwo & Hl & _ & Es4 & _).
    cbn [mbind option_bind]. eexists. split; [reflexivity|]. split_and!; [|by apply running_return_value|done| |done| |].
    + change (timer_ok K (set_core (_set_thread_return_value t 0 k4) (set_core k4 w))).
      by apply timer_ok_core; [|apply calmer_same].
    + change (current k4 = current (core w)). apply (wo_current _ _ _ Hwo).
    + cbn. by rewrite fn_lookup_alter.
    + intros Hwk. change (t ∈ ready_list k4). rewrite (wo_ready _ _ _ Hwo), Hwk. apply elem_of_prio_insert. by left.
Qed.

Lemma call_leaves P fn n w :
  fns_leave P -> timer_ok K w -> running K (core w) -> K (TO_timer n) ->
  exists w', call run_fn fn n w = Some w' /\ timer_ok K w' /\ running K (core w') /\
    (expired (core w') <= expired (core w))%nat /\ current (core w') = current (core w) /\
    forall m, P m -> timers w' m = timers w m /\
      calls_for m w' = calls_for m w ++ (if decide (m = n) then match fn with Some f => [(f, n)] | None => [] end else []) /\
      forall a, expires m w' a <-> expires m w a.
Proof.
  intros Hq Hok Hru HK. destruct fn as [f|]; cbn [call].
  - destruct (Hq f n (note_call f n w)) as (w' & ? & ? & ? & ? & ? & Hm); [by apply timer_ok_note|done|done|].
    exists w'. split_and!; try done. intros m HP. destruct (Hm m HP) as (? & Ec & ?). split_and!; try done.
    rewrite Ec. unfold calls_for. cbn [note_call calls]. rewrite filter_app. f_equal.
    case_decide as E; [subst m; by rewrite filter_cons_True|by rewrite filter_cons_False].
  - exists w. split_and!; try done. intros m _. split_and!; try done. case_decide; by rewrite app_nil_r.
Qed.

Lemma handler_fires P n w :
  fns_leave P -> timer_ok K w -> running K (core w) -> K (TO_timer n) -> TO_timer n ∉ timeout_q (core w) ->
  exists w', _timer_expiration_handler run_fn n w = Some w' /\ timer_ok K w' /\ running K (core w') /\
    (expired (core w') <= expired (core w))%nat /\ current (core w') = current (core w) /\
    forall m, P m -> timer_effect m (m = n) (expires m w) (expires m w') w w'.
Proof.
  intros Hq Hok Hru HK Hni. unfold _timer_expiration_handler.
  destruct (restart_ok w n Hok Hru HK Hni) as (k1 & -> & Hru1 & Hok1 & Hto & Es).
  cbn [mbind option_bind]. destruct (timeouts_only_fields _ _ Hto) as (_ & _ & _ & _ & _ & Ec1 & _).
  set (w1 := upd_timer n _ (set_core k1 w)).
  assert (timer_ok K w1) as Hok2 by (apply timer_ok_upd; [done|done|apply (tm_period K _ Hok1 n HK)]).
  assert (Hex1 : expired k1 = expired (core w)).
  { unfold expired. rewrite Es. destruct (Z.ltb_spec 0 (period (timers w n))); [|done]. by rewrite expired_insert. }
  assert (Hx1 : forall m a, expires m w1 a <->
    (m = n /\ 0 < period (timers w n) /\ a = period (timers w n)) \/ expires m w a).
  { intros m a. unfold expires. change (core w1) with k1. rewrite Es.
    destruct (Z.ltb_spec 0 (period (timers w n))); [rewrite elem_schedule_insert; naive_solver|naive_solver lia]. }
  assert (Hno : forall a, ~ expires n w a).
  { intros a Ha. apply Hni, (expiries_elem 0 (timeouts (core w))). by exists a. }
  destruct (call_leaves P (expiry_fn (timers w1 n)) n w1) as (w2 & -> & Hok3 & Hru3 & Hex3 & Ec3 & Hm); try done.
  cbn [mbind option_bind]. destruct (wake_first_ok n w2 Hok3 Hru3 HK) as (k4 & -> & Hok4 & Hru4 & Es4 & Ec4 & _).
  eexists. split; [reflexivity|]. split_and!; [done|done| |change (current k4 = current (core w)); change (core w1) with k1 in *; congruence|].
  { rewrite <- Hex1. etransitivity; [|exact Hex3]. unfold expired. cbn. by rewrite Es4. }
  intros m HP. destruct (Hm m HP) as (Et & Ec & Hx).
  assert (Hx' : forall a, expires m (set_core k4 w2) a <->
    (m = n /\ 0 < period (timers w n) /\ a = period (timers w n)) \/ expires m w a).
  { intros a. rewrite <- Hx1, <- Hx. unfold expires. cbn. by rewrite Es4. }
  unfold timer_effect. setoid_rewrite Hx'. change (calls_for m (set_core k4 w2)) with (calls_for m w2).
  change (timers (set_core k4 w2) m) with (timers w2 m). rewrite Et, Ec.
  change (calls_for m w1) with (calls_for m w). split.
  - intros ->. rewrite decide_True by done. cbn. rewrite fn_lookup_alter. split_and!; try done. naive_solver.
  - intros Hne. rewrite decide_False, app_nil_r by done. cbn. rewrite fn_lookup_alter_ne by congruence.
    split_and!; try done. naive_solver.
Qed.
End Expiry.

(** ** A tick announcement fires exactly the timers that are due *)
Section Firing.
Context `{KConfig}.
Context (K : toid -> Prop) (run_fn : positive -> positive -> timer_world -> option timer_world).
Context (no_work : forall n, ~ K (TO_work n)) (P : positive -> Prop) (leave : fns_leave K run_fn P).
Implicit Types (w : timer_world) (n : positive) (k : kernel).

Lemma not_scheduled k o a : o ∉ timeout_q k -> (o, a) ∉ schedule k.
Proof. intros Hni Hin. apply Hni, (expiries_elem 0 (timeouts k)). eauto. Qed.

(** One step of the loop. *)
Lemma handle_one_timer w o l :
  timer_ok K w -> running K (core w) -> timeout_q (core w) = o :: l ->
  delta (timeouts (core w)) o = 0 ->
  exists w', _handle_one_timeout (run_timeout run_fn) w = Some (head (timeout_q (core w')), w') /\
    timer_ok K w' /\ running K (core w') /\
    (expired (core w') < expired (core w))%nat /\
    forall n, P n -> timer_effect n (TO_timer n = o) (expires n w) (expires n w') w w'.
Proof.
  intros Hok Hru El Ed. pose proof (ru_wf K _ Hru) as Hwf.
  destruct (pop_spec K (core w) o l (kw_tq K _ _ Hwf) El Ed) as (_ & _ & Eq & Es & _ & Hol & Hsd).
  assert (Hin : o ∈ timeout_q (core w)) by (rewrite El; apply elem_of_cons; by left).
  pose proof (kw_known K None _ Hwf o Hin) as HKo.
  unfold _handle_one_timeout. assert (head (timeout_q (core w)) = Some o) as -> by by rewrite El.
  cbn [head mbind option_bind]. fold (pop o (core w)). destruct (Hsd o) as (Eth & _ & Efn).
  rewrite Eth, Efn.
  assert (Hskip : forall n a, o <> TO_timer n -> (expires n w a <-> (TO_timer n, a) ∈ schedule (pop o (core w)))).
  { intros n a Hne. unfold expires. rewrite Es, elem_of_cons. naive_solver. }
  destruct o as [t|m|m].
  - rewrite (proj2 (kw_to_owner K None _ Hwf (TO_thread t) t Hin) eq_refl).
    destruct (thread_timeout_wf K (core w) t l Hwf El Ed) as (k1 & k2 & -> & E2 & Hwf2 & Hti).
    cbn [mbind option_bind]. rewrite E2. cbn [mbind option_bind]. eexists. split; [reflexivity|].
    pose proof (ti_schedule _ _ _ Hti) as Es2.
    split_and!; [apply timer_ok_core; [done|by eapply calmer_timed_out]| | |].
    + eapply running_timed_out; [exact Hru|exact Hwf2|exact Hti].
    + change (expired k2 < expired (core w))%nat. unfold expired. rewrite Es2.
      rewrite filter_cons_True by done. simpl. lia.
    + intros n HP. split; [done|]. intros _. split; [done|]. split; [done|]. intros a.
      unfold expires. rewrite Es2, elem_of_cons. naive_solver.
  - assert (to_thread (timeouts (core w) (TO_timer m)) = None) as ->.
    { destruct (to_thread (timeouts (core w) (TO_timer m))) eqn:E; [|done].
      by apply (kw_to_owner K None _ Hwf) in E. }
    rewrite (tm_func K w Hok m HKo). cbn [run_timeout].
    pose proof (running_pop K (core w) _ l Hru (timer_object m) El Ed) as Hru1.
    destruct (handler_fires K run_fn P m (set_core (pop (TO_timer m) (core w)) w))
      as (w' & -> & Hok' & Hru' & Fe & _ & Hm); rewrite ?core_set; try done.
    { apply timer_ok_core; [done|apply calmer_pop]. }
    { by rewrite Eq. }
    rewrite core_set in Fe. cbn [mbind option_bind]. exists w'. split_and!; try done.
    + eapply Nat.le_lt_trans; [exact Fe|]. unfold expired. rewrite Es, filter_cons_True by done. cbn [length]. lia.
    + intros n HP. destruct (Hm n HP) as [Hy Hn]. split; [intros [= ->]; by apply Hy|].
      intros Hne. destruct Hn as (? & ? & Hx); [congruence|]. split_and!; try done.
      intros a. rewrite (Hskip n a) by congruence. apply Hx.
  - by destruct (no_work m).
Qed.

Lemma none_due_timer w n : expired (core w) = O -> ~ expires n w 0.
Proof.
  unfold expired. intros Hz%nil_length_inv Hin.
  assert ((TO_timer n, 0) ∈ filter (fun e : toid * Z => e.2 = 0) (schedule (core w))) as Hc
    by (by apply list_elem_of_filter).
  rewrite Hz in Hc. by apply elem_of_nil in Hc.
Qed.

Lemma timers_loop fuel w :
  timer_ok K w -> running K (core w) -> (expired (core w) <= fuel)%nat ->
  exists w', handle_loop (run_timeout run_fn) fuel (head (timeout_q (core w))) w = Some w' /\
    timer_ok K w' /\ running K (core w') /\
    forall n, P n ->
      timer_effect n (expires n w 0) (expires n w) (expires n w') w w'.
Proof.
  revert w. induction fuel as [fuel IH] using lt_wf_ind; intros w Hok Hru Hf.
  destruct (timeout_q (core w)) as [|o l] eqn:El.
  { exists w. split_and!; try done; [by destruct fuel|]. intros n HP. split; [|done].
    intros Hc. exfalso. unfold expires, schedule in Hc. rewrite El in Hc. by apply elem_of_nil in Hc. }
  destruct (Z.eqb_spec (delta (timeouts (core w)) o) 0) as [Ed|Ed].
  2: { exists w. split_and!; try done.
       - by destruct fuel; cbn [handle_loop head]; rewrite (proj2 (Z.eqb_neq _ _) Ed).
       - intros n HP. split; [|done]. intros Hc. exfalso. eapply none_due_timer; [|exact Hc].
         apply (expired_zero _ K o); [apply (ru_wf K _ Hru)|by rewrite El|done]. }
  destruct (handle_one_timer w o l Hok Hru El Ed) as (w1 & E1 & Hok1 & Hru1 & Hlt & Heff1).
  destruct fuel as [|fuel]; [lia|].
  destruct (IH fuel ltac:(lia) w1 Hok1 Hru1 ltac:(lia)) as (w2 & E2 & Hok2 & Hru2 & Heff2).
  exists w2. cbn [head handle_loop]. rewrite Ed, E1. cbn [mbind option_bind fst snd Z.eqb].
  split_and!; try done. intros n HP. destruct (Heff1 n HP) as [Hyes Hno], (Heff2 n HP) as [Hd Hnd].
  assert (Hhead : expires n w 0 <-> TO_timer n = o \/ expires n w1 0).
  { destruct (decide (TO_timer n = o)) as [<-|Hne].
    - split; [by left|]. intros _. unfold expires, schedule. rewrite El. cbn [expiries].
      rewrite Ed. apply elem_of_cons. by left.
    - destruct (Hno Hne) as (_ & _ & He). rewrite He. naive_solver. }
  destruct (decide (TO_timer n = o)) as [<-|Hne].
  - destruct (Hyes eq_refl) as (Et & Ec & Ha). destruct Hnd as (Et2 & Ec2 & Ha2); [rewrite Ha; lia|].
    split; [|tauto]. intros _. rewrite Et2, Ec2. split; [done|]. split; [done|]. intros a. by rewrite Ha2, Ha.
  - destruct (Hno Hne) as (Et & Ec & Ha). unfold timer_effect. rewrite Hhead, <- Et, <- Ec. split.
    + intros [?|Hdue]; [done|]. auto.
    + intros Hndue. destruct Hnd as (? & ? & Ha2); [tauto|]. split; [done|]. split; [done|]. intros a. by rewrite Ha2, Ha.
Qed.

Lemma timer_effect_ext n (due due' : Prop) (b b' a a' : Z -> Prop) w0 w w' :
  timer_effect n due b a w w' -> timers w0 n = timers w n -> calls w0 = calls w -> (due' <-> due) ->
  (forall x, b' x <-> b x) -> (forall x, a' x <-> a x) -> timer_effect n due' b' a' w0 w'.
Proof.
  intros [H1 H2] E Ec Hdue Hb Ha. unfold timer_effect, calls_for in *. rewrite E, Ec, Hdue. split; intros Hd.
  - destruct (H1 Hd) as (? & ? & Hx). split; [done|]. split; [done|]. intros x. by rewrite Ha, Hx.
  - destruct (H2 Hd) as (? & ? & Hx). split; [done|]. split; [done|]. intros x. by rewrite Ha, Hx, Hb.
Qed.

Lemma announce_timers ticks w :
  timer_ok K w -> running K (core w) -> not_past (core w) ticks ->
  exists w', _nano_sys_clock_tick_announce (run_timeout run_fn) ticks w = Some w' /\
    timer_ok K w' /\ running K (core w') /\
    forall n, P n ->
      timer_effect n (expires n w ticks) (fun a => expires n w (a + ticks)) (expires n w') w w'.
Proof.
  intros Hok Hru [Hn Hp]. unfold _nano_sys_clock_tick_announce.
  set (k1 := set_clock _ _ _ _ (core w)).
  assert (running K k1) as Hru1
    by (destruct Hru; split; [by apply kernel_wf_set_clock|done|done]).
  set (w1 := set_core k1 w).
  assert (timer_ok K w1) as Hok1 by (apply timer_ok_core; [done|by apply calmer_same]).
  assert (exists w2, handle_expired_timeouts (run_timeout run_fn) ticks w1 = Some w2 /\
    timer_ok K w2 /\ running K (core w2) /\
    forall n, P n ->
      timer_effect n (expires n w ticks) (fun a => expires n w (a + ticks)) (expires n w2) w w2)
    as (w2 & -> & Hok2 & Hru2 & Heff).
  { unfold handle_expired_timeouts. change (core w1) with k1.
    change (timeout_q k1) with (timeout_q (core w)).
    destruct (timeout_q (core w)) as [|o l] eqn:El.
    - exists w1. split_and!; try done. intros n HP.
      assert (forall w0 a, timeout_q (core w0) = [] -> ~ expires n w0 a) as Hnone.
      { intros w0 a E Hc. unfold expires, schedule in Hc. rewrite E in Hc. by apply elem_of_nil in Hc. }
      split; [by intros ?%(Hnone w)|]. intros _. split; [done|]. split; [done|]. intros a.
      split; by intros ?%Hnone.
    - cbn [head]. destruct (elapse_running K k1 o l ticks Hru1 El) as [Hru2 Es].
      { split; [done|]. by apply Hp. }
      fold (elapse o ticks k1). set (w2 := set_core (elapse o ticks k1) w1).
      destruct (timers_loop (length (timeout_q (core w2))) w2) as (w3 & E3 & ? & ? & Heff); try done.
      { by apply timer_ok_core; [|apply calmer_elapse]. }
      { apply expired_bound. }
      exists w3. split_and!; [exact E3|done..|]. intros n HP.
      assert (Hsh : forall a, expires n w2 a <-> expires n w (a + ticks)).
      { intros a. unfold expires. change (core w2) with (elapse o ticks k1). rewrite Es. apply in_shifted. }
      eapply timer_effect_ext; [by apply Heff|done|done| |by intros; rewrite Hsh|done].
      rewrite Hsh. by rewrite Z.add_0_l. }
  cbn [mbind option_bind]. eexists. split; [reflexivity|]. cbn [core set_core timer_world_world timer_kernel].
  destruct (time_slicing_running K ticks (core w2) Hru2) as (? & E1 & E2 & E3).
  split_and!; [apply timer_ok_core; [done|apply calmer_slicing]|done|].
  intros n HP. eapply timer_effect_ext; [by apply Heff|done..|].
  intros a. unfold expires.
  change ((TO_timer n, a) ∈ schedule (handle_time_slicing ticks (core w2)) <->
          (TO_timer n, a) ∈ schedule (core w2)).
  unfold schedule. by rewrite E1, E2.
Qed.
End Firing.

(** ** Starting, stopping and reading a timer *)
Section Services.
Context `{KConfig}.
Context (K : toid -> Prop).
Implicit Types (w : timer_world) (n : positive) (k : kernel).

(** A duration or period whose tick count fits. *)
Definition duration_ok (ms : Z) : Prop :=
  0 <= ms <= INT32_MAX /\ ms * sys_clock_ticks_per_sec <= (INT32_MAX - 1) * 1000.

Lemma duration_ticks ms : duration_ok ms -> 0 < timeout_ticks ms <= INT32_MAX.
Proof.
  intros [H1 H2]. destruct (timeout_ok_ms ms H1 H2) as [E|?]; [|done].
  unfold K_FOREVER in E. lia.
Qed.

Lemma ms_to_ticks_range ms : duration_ok ms -> 0 <= _ms_to_ticks ms <= INT32_MAX.
Proof.
  intros [H1 H2]. rewrite ms_to_ticks_value by done.
  pose proof ticks_per_sec_range. assert (0 <= ms * sys_clock_ticks_per_sec) by nia.
  split; [apply Z.div_pos; lia|]. apply Z.lt_le_incl, Z.div_lt_upper_bound; unfold INT32_MAX in *; lia.
Qed.

Lemma sum_deltas_spec k o a acc l :
  nonneg (timeouts k) l -> (forall x b, (x, b) ∈ expiries acc (timeouts k) l -> b <= INT32_MAX) ->
  0 <= acc -> NoDup l -> (o, a) ∈ expiries acc (timeouts k) l ->
  sum_deltas (timeouts k) o acc l = Some a.
Proof.
  revert acc. induction l as [|x l IH]; intros acc Hnn Hb Hacc Hnd; simpl; [by intros ?%elem_of_nil|].
  apply NoDup_cons in Hnd as [Hx Hnd].
  assert (0 <= delta (timeouts k) x) by (apply Hnn, elem_of_cons; by left).
  assert (acc + delta (timeouts k) x <= INT32_MAX) by (apply (Hb x), elem_of_cons; by left).
  rewrite i32_small by (unfold INT32_MIN; lia).
  intros [E|Hin]%elem_of_cons; [simplify_eq; by rewrite decide_True|].
  rewrite decide_False.
  - apply IH; try done; [intros y Hy; apply Hnn, elem_of_cons; by right| |lia].
    intros y b Hy. apply (Hb y b), elem_of_cons. by right.
  - intros ->. apply Hx, (expiries_elem (acc + delta (timeouts k) o) (timeouts k)). eauto.
Qed.

Lemma remaining_spec n a w :
  running K (core w) -> K (TO_timer n) -> expires n w a ->
  k_timer_remaining_get n w = Some (_ticks_to_ms a).
Proof.
  intros Hru HK Hin. pose proof (kw_tq K _ _ (ru_wf K _ Hru)) as Htq.
  assert (TO_timer n ∈ timeout_q (core w)) as Hq
    by (apply (expiries_elem 0 (timeouts (core w))); eauto).
  unfold k_timer_remaining_get.
  rewrite (proj2 (Z.eqb_neq _ _)) by (pose proof (tq_nonneg K _ Htq _ Hq); lia).
  rewrite (sum_deltas_spec (core w) (TO_timer n) a 0); [done| | |done| |done].
  - apply (tq_nonneg K _ Htq).
  - intros x b Hx. apply (tq_bound K _ Htq x b Hx).
  - apply (tq_nodup K _ Htq).
Qed.

Lemma start_ok n d p w :
  timer_ok K w -> running K (core w) -> K (TO_timer n) -> duration_ok d -> duration_ok p ->
  d <> 0 \/ p <> 0 ->
  exists w', k_timer_start n d p w = Some w' /\ timer_ok K w' /\ running K (core w') /\
    schedule (core w') = schedule_insert (TO_timer n) (timeout_ticks d)
                           (schedule_remove (TO_timer n) (schedule (core w))) /\
    timers w' n = mk_timer (wait_q (timers w n)) (expiry_fn (timers w n)) (stop_fn (timers w n))
                    (_ms_to_ticks p) 0 /\ calls w' = calls w.
Proof.
  intros Hok Hru HK Hd Hp Hne. unfold k_timer_start.
  assert ((0 <=? d) && (0 <=? p) && (negb (d =? 0) || negb (p =? 0)) = true) as ->.
  { destruct Hd as [[? ?] _], Hp as [[? ?] _].
    rewrite !(proj2 (Z.leb_le _ _)) by lia. simpl.
    destruct (Z.eqb_spec d 0), (Z.eqb_spec p 0); naive_solver. }
  destruct (disarm_ok K w n Hok Hru HK)
    as (r & k1 & E1 & Hru1 & Hok1 & _ & _ & Eq1 & Hto1 & Es1).
  assert (Hk1 : (if negb (delta (timeouts (core w)) (TO_timer n) =? -1)
                 then snd (_abort_timeout (TO_timer n) (core w)) else core w) = k1).
  { rewrite E1. destruct (Z.eqb_spec (delta (timeouts (core w)) (TO_timer n)) (-1)) as [Ei|]; [|done].
    rewrite abort_timeout_inactive in E1 by done. by injection E1. }
  rewrite Hk1. set (w1 := upd_timer n _ (set_core k1 w)).
  assert (timer_ok K w1) as Hok2
    by (apply timer_ok_upd; [done|done|by apply ms_to_ticks_range]).
  destruct (rearm_ok K w1 n (timeout_ticks d) Hok2 Hru1 HK) as (k2 & E2 & Hru2 & Hok3 & Hto2 & Es2).
  { exact Eq1. }
  { by apply duration_ticks. }
  fold (timeout_ticks d). rewrite E2. cbn [mbind option_bind].
  eexists. split; [reflexivity|]. split_and!.
  - apply timer_ok_upd; [done|done|apply (tm_period K _ Hok3 n HK)].
  - done.
  - change (schedule k2 = schedule_insert (TO_timer n) (timeout_ticks d)
              (schedule_remove (TO_timer n) (schedule (core w)))).
    rewrite Es2. change (core w1) with k1. by rewrite Es1.
  - cbn. by rewrite !fn_lookup_alter.
  - done.
Qed.
End Services.

(** ** What timers promise *)
Section Promises.
Context `{KConfig}.
Context (K : toid -> Prop) (run_fn : positive -> positive -> timer_world -> option timer_world).
Context (no_work : forall n, ~ K (TO_work n)) (P : positive -> Prop) (leave : fns_leave K run_fn P).
Implicit Types (w : timer_world) (n : positive) (k : kernel).

(** Whatever the functions of the application do, as long as they return,
    keep the invariants and start nothing that is already due, a tick
    announcement in a system with timers returns with the kernel and the timers
    well formed and nothing left that is due. *)
Theorem timer_announce_safe ticks w :
  fns_ok K run_fn -> timer_ok K w -> running K (core w) -> not_past (core w) ticks ->
  exists w', _nano_sys_clock_tick_announce (run_timeout run_fn) ticks w = Some w' /\
    timer_ok K w' /\ running K (core w') /\ expired (core w') = O.
Proof.
  intros Hfns Hok Hru Hnp.
  destruct (announce_running K (timer_ok K) (run_timeout run_fn)
    (timer_callbacks K run_fn no_work Hfns) (timer_ok_core K) ticks w Hok Hru Hnp)
    as (w' & ? & ? & ? & ? & _). by exists w'.
Qed.

(** C17: a tick announcement that is not later than the first timeout fires exactly the
    timers that are due. The status of such a timer goes up by one, its expiry function
    is called once if it has one, and it expires again after its period if it has one,
    or not at all; every other timer keeps its status, its functions are not called, and
    it expires [ticks] sooner. This is said of the timers of [P], those that the expiry
    functions themselves neither start nor stop. Of the expiry functions it is assumed
    that they return, keep the invariants of kernel and timers, leave the processor to
    the interrupted thread and start no timeout that is already due. *)
Theorem due_timers_fire ticks w :
  timer_ok K w -> running K (core w) -> not_past (core w) ticks ->
  exists w', _nano_sys_clock_tick_announce (run_timeout run_fn) ticks w = Some w' /\
    timer_ok K w' /\ running K (core w') /\
    forall n, P n ->
      (expires n w ticks ->
         timers w' n = bump (timers w n) /\
         calls_for n w' = calls_for n w ++ expiry_call n (timers w n) /\
         forall a, expires n w' a <-> 0 < period (timers w n) /\ a = period (timers w n)) /\
      (~ expires n w ticks ->
         timers w' n = timers w n /\ calls_for n w' = calls_for n w /\
         forall a, expires n w' a <-> expires n w (a + ticks)).
Proof.
  intros Hok Hru Hnp.
  destruct (announce_timers K run_fn no_work P leave ticks w Hok Hru Hnp) as (w' & ? & ? & ? & Heff).
  exists w'. split_and!; try done.
Qed.

(** Announcements that follow each other. *)
Inductive ticking : list Z -> timer_world -> timer_world -> Prop :=
| ticking_nil w : ticking [] w w
| ticking_cons t l w w1 w2 :
    0 < t -> not_past (core w) t ->
    _nano_sys_clock_tick_announce (run_timeout run_fn) t w = Some w1 ->
    ticking l w1 w2 -> ticking (t :: l) w w2.

Lemma ticking_sum l w w' : ticking l w w' -> 0 <= foldr Z.add 0 l /\ (foldr Z.add 0 l = 0 -> l = []).
Proof. induction 1 as [|t l w w1 w2 Ht _ _ _ [IH _]]; simpl; [done|]. split; lia. Qed.

Lemma expires_unique w n a b : running K (core w) -> expires n w a -> expires n w b -> a = b.
Proof.
  intros Hru. pose proof (tq_nodup K _ (kw_tq K _ _ (ru_wf K _ Hru))) as Hnd.
  unfold expires, schedule. generalize 0 as acc. induction (timeout_q (core w)) as [|o l IH]; intros acc;
    [by intros ?%elem_of_nil|].
  apply NoDup_cons in Hnd as [Ho Hnd]. cbn [expiries].
  assert (Hni : forall c, (o, c) ∉ expiries (acc + delta (timeouts (core w)) o) (timeouts (core w)) l).
  { intros c Hc. apply Ho, (expiries_elem (acc + delta (timeouts (core w)) o) (timeouts (core w))). eauto. }
  rewrite !elem_of_cons. intros [E|H1] [E'|H2]; simplify_eq; try done.
  - by destruct (Hni b).
  - by destruct (Hni a).
  - by eapply IH.
Qed.

Lemma not_past_expires w n a t :
  running K (core w) -> not_past (core w) t -> expires n w a -> t <= a.
Proof.
  intros Hru [_ Hp] Ha. pose proof (tq_nonneg K _ (kw_tq K _ _ (ru_wf K _ Hru))) as Hnn.
  unfold expires, schedule in Ha. destruct (timeout_q (core w)) as [|o l]; [by apply elem_of_nil in Ha|].
  specialize (Hp o eq_refl). cbn [expiries] in Ha.
  apply elem_of_cons in Ha as [E|Ha]; [simplify_eq; lia|].
  apply expiries_lower in Ha; [lia|]. intros x Hx. apply Hnn, elem_of_cons. by right.
Qed.

(** C18: a periodic timer keeps firing on time: however the driver splits the
    passing of time into announcements (none later than the first timeout), once the
    ticks to its expiry and [m] periods more have gone by it has fired exactly [m + 1]
    times: the 32-bit status counts them, and its expiry function was called as many
    times. It is scheduled to fire again one period later. The timer is one that the
    expiry functions neither start nor stop; otherwise they are as in
    [fns_leave]. *)
Theorem periodic_timer_fires l w w' n a (m : nat) :
  timer_ok K w -> running K (core w) -> P n ->
  0 < a -> expires n w a -> 0 < period (timers w n) -> ticking l w w' ->
  foldr Z.add 0 l = a + Z.of_nat m * period (timers w n) ->
  u32 (status (timers w' n)) = u32 (status (timers w n) + Z.of_nat m + 1) /\
  calls_for n w' = calls_for n w ++ mjoin (replicate (S m) (expiry_call n (timers w n))) /\
  expires n w' (period (timers w n)).
Proof.
  intros Hok Hru HP Hpos Ha Hp Hti. revert a m Hpos Ha.
  induction Hti as [w|t l w w1 w2 Ht Hnp E Hti IH]; intros a m Hpos Ha Hsum; simpl in Hsum; [nia|].
  destruct (announce_timers K run_fn no_work P leave t w Hok Hru Hnp)
    as (w1' & E' & Hok1 & Hru1 & Heff). rewrite E in E'. injection E' as <-.
  specialize (IH Hok1 Hru1). destruct (Heff n HP) as [Hyes Hno].
  pose proof (not_past_expires w n a t Hru Hnp Ha) as Hle.
  destruct (decide (t = a)) as [->|Hne].
  - destruct (Hyes Ha) as (Et & Ec & Hex). rewrite Et, Ec in IH.
    change (period (bump (timers w n))) with (period (timers w n)) in IH.
    change (expiry_call n (bump (timers w n))) with (expiry_call n (timers w n)) in IH.
    assert (expires n w1 (period (timers w n))) as Hnext by by apply Hex.
    destruct m as [|m].
    + assert (l = []) as -> by (apply (ticking_sum l w1 w2 Hti); lia).
      inversion Hti; subst. rewrite Et, Ec. split_and!; [|cbn; by rewrite app_nil_r|done].
      cbn [status bump with_status]. rewrite u32_u32. f_equal. lia.
    + destruct (IH Hp (period (timers w n)) m Hp Hnext) as (E1 & E3 & E2); [nia|]. split_and!; [|by rewrite E3, <- app_assoc|done].
      rewrite E1. cbn [status bump with_status]. replace (u32 (status (timers w n) + 1) + Z.of_nat m + 1)
        with (u32 (status (timers w n) + 1) + (Z.of_nat m + 1)) by lia.
      rewrite u32_add_l. f_equal. lia.
  - destruct Hno as (Et & Ec & Hex); [intros Ht'; by apply Hne, (expires_unique w n t a)|].
    rewrite Et, Ec in IH. apply (IH Hp (a - t) m); [lia| |lia].
    apply Hex. by replace (a - t + t) with a by lia.
Qed.

Lemma stop_ok n w :
  timer_ok K w -> running K (core w) -> K (TO_timer n) -> in_isr (core w) = false ->
  stop_fn (timers w n) = None ->
  exists w', k_timer_stop run_fn n w = Some w' /\ timer_ok K w' /\ running K (core w') /\
    timers w' = timers w /\ schedule (core w') = schedule_remove (TO_timer n) (schedule (core w)) /\
    (forall t l, TO_timer n ∈ timeout_q (core w) ->
       wait_qs (core w) (wait_q (timers w n)) = t :: l ->
       wait_qs (core w') (wait_q (timers w n)) = l /\
       (wakeable (core w) t = true -> t ∈ ready_list (core w'))).
Proof.
  intros Hok Hru HK Hi Hfn. unfold k_timer_stop. rewrite Hi.
  destruct (disarm_ok K w n Hok Hru HK)
    as (r & k1 & -> & Hru1 & Hok1 & Hr & Hr' & _ & Hto1 & Es1).
  destruct (timeouts_only_fields _ _ Hto1) as (Et1 & _ & _ & _ & Ew1 & _ & Ei1 & El1 & _).
  destruct (Z.eqb_spec r (-1)) as [->|Hne].
  { eexists. split; [reflexivity|]. split_and!; try done.
    intros t l Hin. apply Hr in Hin. done. }
  change (stop_fn (timers (set_core k1 w) n)) with (stop_fn (timers w n)). rewrite Hfn.
  cbn [call mbind option_bind]. unfold _unpend_first_thread.
  change (wait_q (timers (set_core k1 w) n)) with (wait_q (timers w n)).
  change (core (set_core k1 w)) with k1. rewrite Ew1.
  destruct (wait_qs (core w) (wait_q (timers w n))) as [|t l] eqn:Eq.
  - cbn [mbind option_bind]. rewrite Ei1, Hi.
    destruct (reschedule_running K k1 Hru1) as (k2 & -> & Hru2 & Hsq & _). cbn [mbind option_bind].
    eexists. split; [reflexivity|]. split_and!; try done.
    + change (timer_ok K (set_core k2 (set_core k1 w))). by apply timer_ok_same_queues.
    + change (schedule k2 = schedule_remove (TO_timer n) (schedule (core w))). rewrite <- Es1.
      unfold schedule. by rewrite (sq_timeouts _ _ Hsq), (sq_timeout_q _ _ Hsq).
  - fold (unpend t k1).
    destruct (wake_waiter_ok K (set_core k1 w) n t l Hok1 Hru1 HK)
      as (k2 & E2 & Hru2 & Hok2 & Hwo & Hl & _ & Es2 & _); [by rewrite <- Eq, <- Ew1|].
    change (core (set_core k1 w)) with k1 in *. rewrite E2. cbn [mbind option_bind].
    rewrite (wo_in_isr _ _ _ Hwo), Ei1, Hi.
    destruct (reschedule_running K k2 Hru2) as (k3 & -> & Hru3 & Hsq & _). cbn [mbind option_bind].
    eexists. split; [reflexivity|]. split_and!; try done.
    + change (timer_ok K (set_core k3 (set_core k2 w))). by apply timer_ok_same_queues.
    + change (schedule k3 = schedule_remove (TO_timer n) (schedule (core w))). rewrite <- Es1, <- Es2.
      unfold schedule. by rewrite (sq_timeouts _ _ Hsq), (sq_timeout_q _ _ Hsq).
    + intros t' l' _ [= <- <-]. split.
      * change (wait_qs k3 (wait_q (timers w n)) = l). by rewrite (sq_wait_qs _ _ Hsq).
      * intros Hwk. change (t ∈ ready_list k3). rewrite (same_queues_ready _ _ Hsq), (wo_ready _ _ _ Hwo).
        assert (wakeable k1 t = true) as ->; [|apply elem_of_prio_insert; by left].
        unfold wakeable, fbit in *. by rewrite Et1.
Qed.

(** Starting a timer schedules exactly one expiry, [duration] milliseconds
    rounded up to ticks plus one away, in place of any earlier one, which is
    what [k_timer_remaining_get] then reports; stopping it takes the expiry
    away and wakes the thread that waits for the timer. *)
Theorem timer_start_stop n d p w :
  timer_ok K w -> running K (core w) -> K (TO_timer n) -> in_isr (core w) = false ->
  stop_fn (timers w n) = None -> duration_ok d -> duration_ok p -> d <> 0 \/ p <> 0 ->
  (exists w', k_timer_start n d p w = Some w' /\ timer_ok K w' /\ running K (core w') /\
     schedule (core w') = schedule_insert (TO_timer n) (timeout_ticks d)
                            (schedule_remove (TO_timer n) (schedule (core w))) /\
     period (timers w' n) = _ms_to_ticks p /\ status (timers w' n) = 0 /\
     k_timer_remaining_get n w' = Some (_ticks_to_ms (timeout_ticks d))) /\
  (exists w', k_timer_stop run_fn n w = Some w' /\ timer_ok K w' /\ running K (core w') /\
     schedule (core w') = schedule_remove (TO_timer n) (schedule (core w)) /\
     forall t l, TO_timer n ∈ timeout_q (core w) ->
       wait_qs (core w) (wait_q (timers w n)) = t :: l ->
       wait_qs (core w') (wait_q (timers w n)) = l /\
       (wakeable (core w) t = true -> t ∈ ready_list (core w'))).
Proof.
  intros Hok Hru HK Hi Hfn Hd Hp Hne. split.
  - destruct (start_ok K n d p w Hok Hru HK Hd Hp Hne) as (w' & E & ? & Hru' & Es & Et & _).
    exists w'. rewrite Et. split_and!; try done.
    apply (remaining_spec K); [done|done|]. unfold expires. rewrite Es, elem_schedule_insert. by left.
  - destruct (stop_ok n w Hok Hru HK Hi Hfn) as (w' & ? & ? & ? & _ & ? & ?). by exists w'.
Qed.
End Promises.

(** ** Witnesses: a periodic timer on the booted kernel *)
Section Witnesses.
(** An application whose functions do nothing that concerns the kernel. *)
Definition idle_fn : positive -> positive -> timer_world -> option timer_world := fun _ _ w => Some w.

Lemma idle_fn_leaves K : fns_leave K idle_fn (fun _ => True).
Proof. intros f n w Hok Hru _. exists w. by split_and!. Qed.

(** The timer [1], initialised with the expiry function [7]. *)
Definition timer_demo : timer_world :=
  k_timer_init 1%positive 60%positive (Some 7%positive) None
    (mk_timer_world booted (fun _ => mk_timer 60%positive (Some 7%positive) None 0 0) []).
Definition demo_known : toid -> Prop := with_object boot_threads (TO_timer 1%positive).

Lemma demo_timer n : demo_known (TO_timer n) -> n = 1%positive.
Proof. intros [[[[]|?]|?]|?]; congruence. Qed.

Lemma demo_no_work n : ~ demo_known (TO_work n).
Proof. by intros [[[[]|?]|?]|?]. Qed.

Lemma init_fields (w : wqid) l (o : toid) f k :
  timeout_q (upd_wait_q w l k) = timeout_q k /\ in_isr (_init_timeout o f (upd_wait_q w l k)) = in_isr k /\
  wait_qs (_init_timeout o f (upd_wait_q w l k)) = wait_qs (upd_wait_q w l k).
Proof. done. Qed.

Lemma timer_demo_ok :
  timer_ok demo_known timer_demo /\ running demo_known (core timer_demo) /\
  calls timer_demo = [] /\ schedule (core timer_demo) = [] /\
  in_isr (core timer_demo) = false /\
  (forall n, timers timer_demo n = mk_timer 60%positive (Some 7%positive) None 0 0).
Proof.
  destruct booted_running as (Hru & _ & _ & Et & Ew & Hi).
  destruct (init_wait_q_running _ _ 60%positive Hru (Ew _)) as [Hru1 Ew1].
  destruct (init_object_running _ _ (TO_timer 1) (Some timer_handler) Hru1 (timer_object 1))
    as [Hru2 Es2]; [rewrite (proj1 (init_fields _ _ (TO_timer 1) None _)), Et; apply not_elem_of_nil|].
  destruct (init_fields 60%positive [] (TO_timer 1) (Some timer_handler) booted) as (F1 & F2 & F3).
  assert (Ht : forall n, timers timer_demo n = mk_timer 60%positive (Some 7%positive) None 0 0).
  { intros n. unfold timer_demo, k_timer_init, upd_timer. cbn [timers set_core timer_world_world].
    unfold alter, fn_alter. by case_decide. }
  assert (Ec : core timer_demo =
    _init_timeout (TO_timer 1) (Some timer_handler) (upd_wait_q 60%positive [] booted)) by reflexivity.
  split; [|split; [|split; [|split; [|split]]]].
  - split.
    + intros n _. rewrite Ht. cbn [period]; unfold INT32_MAX; lia.
    + intros n t _. rewrite Ht, Ec. cbn [wait_q].
      rewrite F3, Ew1, Ew. intros Hin. destruct (proj1 (elem_of_nil t) Hin).
    + intros n HK. apply demo_timer in HK as ->. rewrite Ec. unfold _init_timeout, upd_timeout.
      cbn [timeouts set_timeouts]. by rewrite fn_lookup_alter.
  - exact Hru2.
  - reflexivity.
  - rewrite Ec, Es2. unfold schedule. rewrite F1, Et. reflexivity.
  - rewrite Ec, F2. exact Hi.
  - exact Ht.
Qed.

#[global] Opaque timer_demo.

Lemma ten_ms : duration_ok 10.
Proof. split; vm_compute; intuition discriminate. Qed.

Lemma timer_start_stop_witness :
  exists w', k_timer_start 1%positive 10 10 timer_demo = Some w' /\
    schedule (core w') = [(TO_timer 1%positive, timeout_ticks 10)].
Proof.
  destruct timer_demo_ok as (Hok & Hru & _ & Es & Hi & Ht).
  destruct (timer_start_stop demo_known idle_fn 1%positive 10 10 timer_demo Hok Hru
    (or_intror eq_refl) Hi ltac:(rewrite Ht; reflexivity) ten_ms ten_ms ltac:(left; discriminate))
    as [(w' & E & _ & _ & Hs & _) _].
  exists w'. split; [exact E|]. rewrite Hs, Es. reflexivity.
Defined.

(** The timer started with a period of one tick and a delay of two. *)
Definition started : timer_world := default timer_demo (k_timer_start 1%positive 10 10 timer_demo).

Lemma started_ok :
  timer_ok demo_known started /\ running demo_known (core started) /\
  calls started = [] /\ expiry_fn (timers started 1%positive) = Some 7%positive /\
  schedule (core started) = [(TO_timer 1%positive, timeout_ticks 10)] /\
  period (timers started 1%positive) = _ms_to_ticks 10.
Proof.
  destruct timer_demo_ok as (Hok & Hru & Hcalls & Es & Hi & Ht).
  destruct (start_ok demo_known 1%positive 10 10 timer_demo Hok Hru
    (or_intror eq_refl) ten_ms ten_ms ltac:(by left)) as (w' & E & Hok' & Hru' & Es' & Et' & Ec').
  unfold started. rewrite E. cbn [default from_option id]. rewrite Et', Ec', Ht.
  split; [exact Hok'|split; [exact Hru'|split; [exact Hcalls|split; [reflexivity|split; [|reflexivity]]]]].
  by rewrite Es', Es.
Qed.

#[global] Opaque started.

Lemma started_not_past n : 0 <= n <= timeout_ticks 10 -> not_past (core started) n.
Proof.
  intros Hn. split; [lia|]. intros o Ho. destruct started_ok as (_ & _ & _ & _ & Es & _).
  unfold schedule in Es. destruct (timeout_q (core started)) as [|x l]; [done|].
  injection Ho as ->. cbn [expiries] in Es. injection Es as -> E _. change (core started) with (timer_kernel started). lia.
Qed.

Lemma timer_announce_safe_witness :
  exists w', _nano_sys_clock_tick_announce (run_timeout (fun _ _ w => Some w)) 2 started = Some w' /\
    expired (core w') = O.
Proof.
  destruct started_ok as (Hok & Hru & _).
  destruct (timer_announce_safe demo_known (fun _ _ w => Some w) demo_no_work 2 started)
    as (w' & E & _ & _ & Hx).
  - intros f n w H1 H2 _. exists w. exact (conj eq_refl (conj H1 (conj H2
      (conj (le_n _) (conj eq_refl eq_refl))))).
  - exact Hok.
  - exact Hru.
  - apply started_not_past. vm_compute. intuition discriminate.
  - exists w'. split; [exact E|exact Hx].
Defined.

Lemma due_timers_fire_witness :
  exists w', _nano_sys_clock_tick_announce (run_timeout idle_fn) (timeout_ticks 10) started = Some w' /\
    timers w' 1%positive = bump (timers started 1%positive) /\
    calls_for 1%positive w' = [(7%positive, 1%positive)].
Proof.
  destruct started_ok as (Hok & Hru & Hc & Hfn & Es & _).
  destruct (due_timers_fire demo_known idle_fn demo_no_work _ (idle_fn_leaves _) (timeout_ticks 10) started Hok Hru)
    as (w' & E & _ & _ & Hf).
  - apply started_not_past. vm_compute. intuition discriminate.
  - exists w'. split; [exact E|]. destruct (Hf 1%positive I) as [Hy _].
    destruct Hy as (Et & Ec & _); [unfold expires; rewrite Es; apply elem_of_cons; left; reflexivity|].
    split; [exact Et|]. rewrite Ec. unfold calls_for, expiry_call. rewrite Hc, Hfn. reflexivity.
Defined.

Lemma periodic_timer_fires_witness :
  exists w', _nano_sys_clock_tick_announce (run_timeout idle_fn) (timeout_ticks 10) started = Some w' /\
    calls_for 1%positive w' = [(7%positive, 1%positive)] /\
    expires 1%positive w' (period (timers started 1%positive)).
Proof.
  destruct started_ok as (Hok & Hru & Hc & Hfn & Es & Ep).
  assert (Hnp : not_past (core started) (timeout_ticks 10))
    by (apply started_not_past; vm_compute; intuition discriminate).
  destruct (announce_timers demo_known idle_fn demo_no_work _ (idle_fn_leaves _) _ started Hok Hru Hnp) as (w' & E & _).
  exists w'. split; [exact E|].
  destruct (periodic_timer_fires demo_known idle_fn demo_no_work _ (idle_fn_leaves _) [timeout_ticks 10] started w' 1%positive
    (timeout_ticks 10) 0 Hok Hru I) as (_ & Ec & He).
  - vm_compute. reflexivity.
  - unfold expires. rewrite Es. apply elem_of_cons. left. reflexivity.
  - rewrite Ep. vm_compute. reflexivity.
  - eapply ticking_cons; [vm_compute; reflexivity|exact Hnp|exact E|apply ticking_nil].
  - simpl. lia.
  - split; [|exact He]. rewrite Ec. unfold calls_for, expiry_call. rewrite Hc, Hfn. reflexivity.
Defined.
End Witnesses.
