(* ===== verification/Sem.v ===== *)
(** * Semaphores (kernel/unified/sem.c)

    The world of the semaphores: the kernel, the [struct k_sem]s, and for the
    semaphore groups the descriptors of the dummy threads ([struct _sem_desc])
    and the lists that the waiting threads' [swap_data] point to. *)
From S2P Require Import Prelude Kernel ReadyQ TimeoutQ Sched SchedInv SchedApi Thread Boot.

Definition semid := positive.

Record k_sem := mk_sem { sem_wait_q : wqid; count : Z; limit : Z }.

(** [struct _sem_desc], a field of the dummy thread it describes. *)
Record sem_desc := mk_desc { desc_thread : tid; desc_sem : semid }.

Record sem_world := mk_sem_world {
  sem_kernel : kernel;
  sems : semid -> k_sem;
  descs : tid -> sem_desc;
  desc_lists : tid -> list tid
}.

Definition set_sem_kernel (k : kernel) (w : sem_world) : sem_world :=
  mk_sem_world k (sems w) (descs w) (desc_lists w).
Definition set_count (s : semid) (c : Z) (w : sem_world) : sem_world :=
  mk_sem_world (sem_kernel w)
    (alter (fun x => mk_sem (sem_wait_q x) c (limit x)) s (sems w)) (descs w) (desc_lists w).
Definition set_desc_list (t : tid) (l : list tid) (w : sem_world) : sem_world :=
  mk_sem_world (sem_kernel w) (sems w) (descs w) (<[t := l]> (desc_lists w)).
Definition set_desc (d : tid) (x : sem_desc) (w : sem_world) : sem_world :=
  mk_sem_world (sem_kernel w) (sems w) (<[d := x]> (descs w)) (desc_lists w).

Section Operations.
Context `{KConfig}.
Implicit Types (w : sem_world) (s : semid).

Definition k_sem_init s (wq : wqid) (initial_count lim : Z) w : option sem_world :=
  if lim =? 0 then None
  else Some (mk_sem_world (upd_wait_q wq [] (sem_kernel w))
               (<[s := mk_sem wq initial_count lim]> (sems w)) (descs w) (desc_lists w)).

(** [k_sem_group_take]: the first loop. *)
Fixpoint group_available (l : list semid) w : option semid :=
  match l with
  | [] => None
  | s :: l' => if 0 <? count (sems w s) then Some s else group_available l' w
  end.

(** One iteration of the second loop: the dummy thread [d] waits for [s]. *)
Definition pend_dummy (d : tid) s (priority timeout : Z) w : option sem_world :=
  let cur := current (sem_kernel w) in
  let k := _init_thread_base d priority K_DUMMY 0 (sem_kernel w) in
  let w := set_desc_list cur (desc_lists w cur ++ [d]) (set_sem_kernel k w) in
  let w := set_desc d (mk_desc cur s) w in
  k ← _pend_thread d (sem_wait_q (sems w s)) timeout (sem_kernel w);
  Some (set_sem_kernel k w).

Fixpoint pend_dummies (l : list (tid * semid)) (priority timeout : Z) w : option sem_world :=
  match l with
  | [] => Some w
  | (d, s) :: l' => w ← pend_dummy d s priority timeout w; pend_dummies l' priority timeout w
  end.

(** [dummies] are the addresses of the elements of [wait_objects], [wq] that of
    the local [wait_q]; both live in the caller's stack frame. The semaphore
    taken is the second component of the value returned. *)
Definition k_sem_group_take (sem_array : list semid) (dummies : list tid) (wq : wqid)
    (timeout : Z) w : option (outcome (Z * option semid) * sem_world) :=
  match sem_array with
  | [] => None
  | _ =>
      match group_available sem_array w with
      | Some s => Some (Returns (0, Some s), set_count s (u32 (count (sems w s) - 1)) w)
      | None =>
          if timeout =? K_NO_WAIT then Some (Returns (- EBUSY, None), w)
          else
            let cur := current (sem_kernel w) in
            let priority := k_thread_priority_get cur (sem_kernel w) in
            w ← pend_dummies (zip dummies sem_array) priority timeout (set_desc_list cur [] w);
            let k := upd_wait_q wq [] (sem_kernel w) in
            k ← _pend_current_thread wq timeout k;
            k ← _Swap k;
            Some (Blocks, set_sem_kernel k w)
      end
  end.

(** What [k_sem_group_take] does once the thread [t] runs again. *)
Definition k_sem_group_take_resume (t : tid) w : option (Z * option semid * sem_world) :=
  if swap_return_value (threads (sem_kernel w) t) =? 0 then
    d ← head (desc_lists w t);
    Some (0, Some (desc_sem (descs w d)), set_desc_list t (tail (desc_lists w t)) w)
  else Some (- EAGAIN, None, w).

(** The loop of [handle_sem_group] over the descriptors; the last one it saw is
    the one the code goes on with. *)
Fixpoint cancel_others s (l : list tid) (owner : tid) w : option sem_world :=
  match l with
  | [] => Some w
  | d :: l' =>
      if decide (desc_sem (descs w d) = s) then cancel_others s l' owner w
      else
        let '(_, k) := _abort_thread_timeout d (sem_kernel w) in
        k ← _unpend_thread d k;
        cancel_others s l' owner
          (set_desc_list owner (remove_node d (desc_lists w owner)) (set_sem_kernel k w))
  end.

Definition handle_sem_group s (t : tid) w : option (bool * sem_world) :=
  if Z.land (flags (threads (sem_kernel w) t)) K_DUMMY =? 0 then Some (false, w)
  else
    let l := desc_lists w (desc_thread (descs w t)) in
    d ← last l;
    let owner := desc_thread (descs w d) in
    w ← cancel_others s l (desc_thread (descs w t)) w;
    let k := sem_kernel w in
    let k :=
      if _is_thread_ready owner k then k
      else
        let '(_, k) := _abort_thread_timeout owner k in
        let k := _mark_thread_as_not_pending owner k in
        if _is_thread_ready owner k then _add_thread_to_ready_q owner k else k in
    Some (true, set_sem_kernel (_set_thread_return_value owner 0 k) w).

Definition increment s w : sem_world :=
  let x := sems w s in
  set_count s (u32 (count x + b2z (negb (count x =? limit x)))) w.

(** The boolean says whether the caller has to invoke [_Swap]. *)
Definition sem_give_common s w : option (bool * sem_world) :=
  match _unpend_first_thread (sem_wait_q (sems w s)) (sem_kernel w) with
  | (None, k) => Some (false, increment s (set_sem_kernel k w))
  | (Some t, k) =>
      let '(_, k) := _abort_thread_timeout t k in
      '(handled, w) ← handle_sem_group s t (set_sem_kernel k w);
      w ← (if (handled : bool) then Some w
           else k ← _ready_thread t (sem_kernel w);
                Some (set_sem_kernel (_set_thread_return_value t 0 k) w));
      b ← must_switch_if_not_isr (sem_kernel w);
      Some (b, w)
  end.

Definition _sem_give_non_preemptible s w : option sem_world :=
  match _unpend_first_thread (sem_wait_q (sems w s)) (sem_kernel w) with
  | (None, k) => Some (increment s (set_sem_kernel k w))
  | (Some t, k) =>
      let '(_, k) := _abort_thread_timeout t k in
      k ← _ready_thread t k;
      Some (set_sem_kernel (_set_thread_return_value t 0 k) w)
  end.

Fixpoint group_give_loop (l : list semid) (swap_needed : bool) w : option (bool * sem_world) :=
  match l with
  | [] => Some (swap_needed, w)
  | s :: l' => '(b, w) ← sem_give_common s w; group_give_loop l' (swap_needed || b) w
  end.

Definition swap_kernel (swap_needed : bool) w : option sem_world :=
  if swap_needed then k ← _Swap (sem_kernel w); Some (set_sem_kernel k w) else Some w.

Definition k_sem_group_give (sem_array : list semid) w : option sem_world :=
  match sem_array with
  | [] => None
  | _ => '(b, w) ← group_give_loop sem_array false w; swap_kernel b w
  end.

Definition k_sem_group_reset (sem_array : list semid) w : sem_world :=
  foldl (fun w s => set_count s 0 w) w sem_array.

Definition k_sem_give s w : option sem_world :=
  '(b, w) ← sem_give_common s w; swap_kernel b w.

Definition k_sem_take s (timeout : Z) w : option (outcome Z * sem_world) :=
  let k := sem_kernel w in
  if in_isr k && negb (timeout =? K_NO_WAIT) then None
  else if 0 <? count (sems w s)
  then Some (Returns 0, set_count s (u32 (count (sems w s) - 1)) w)
  else if timeout =? K_NO_WAIT then Some (Returns (- EBUSY), w)
  else
    k ← _pend_current_thread (sem_wait_q (sems w s)) timeout k;
    k ← _Swap k;
    Some (Blocks, set_sem_kernel k w).
End Operations.

(** ** Invariant and behaviour *)
Section Behaviour.
Context `{KConfig}.
Implicit Types (w : sem_world) (s : semid) (K : toid -> Prop).

(** Counts within limits, and threads wait only for an exhausted semaphore. *)
Record sem_ok s w : Prop := {
  so_limit : 0 < limit (sems w s) <= UINT32_MAX;
  so_count : 0 <= count (sems w s) <= limit (sems w s);
  so_waiters : wait_qs (sem_kernel w) (sem_wait_q (sems w s)) <> [] -> count (sems w s) = 0
}.

(** No waiter is the dummy thread of a semaphore group. *)
Definition plain s w : Prop :=
  forall t, t ∈ wait_qs (sem_kernel w) (sem_wait_q (sems w s)) ->
    fbit (sem_kernel w) t 17 = false.

Lemma set_count_same s c w :
  sems (set_count s c w) s = mk_sem (sem_wait_q (sems w s)) c (limit (sems w s)).
Proof. unfold set_count. simpl. by rewrite fn_lookup_alter. Qed.

Lemma take_available K s ms w :
  running K (sem_kernel w) -> sem_ok s w -> 0 < count (sems w s) ->
  in_isr (sem_kernel w) = false \/ ms = K_NO_WAIT ->
  exists w', k_sem_take s ms w = Some (Returns 0, w') /\ sem_ok s w' /\
    sem_kernel w' = sem_kernel w /\ count (sems w' s) = count (sems w s) - 1.
Proof.
  intros Hru [Hl Hc Hw] Hpos Hctx. unfold k_sem_take.
  assert (in_isr (sem_kernel w) && negb (ms =? K_NO_WAIT) = false) as ->.
  { destruct Hctx as [-> | ->]; [done|]. rewrite Z.eqb_refl. apply andb_false_r. }
  rewrite (proj2 (Z.ltb_lt _ _) Hpos). rewrite u32_small by lia.
  eexists. split; [reflexivity|]. split_and!; [|done|by rewrite set_count_same].
  split; rewrite set_count_same; simpl; [done|lia|]. intros Hq. specialize (Hw Hq). lia.
Qed.

Lemma take_busy s w :
  count (sems w s) = 0 -> k_sem_take s K_NO_WAIT w = Some (Returns (- EBUSY), w).
Proof. intros Hc. unfold k_sem_take. rewrite Hc. cbn. by rewrite andb_false_r. Qed.

Lemma take_blocks K s ms w :
  running K (sem_kernel w) -> sem_ok s w -> count (sems w s) = 0 ->
  in_isr (sem_kernel w) = false -> current (sem_kernel w) <> _idle_thread ->
  ms <> K_NO_WAIT -> timeout_ok ms ->
  exists w', k_sem_take s ms w = Some (Blocks, w') /\ running K (sem_kernel w') /\ sem_ok s w' /\
    sems w' = sems w /\ blocked (sem_wait_q (sems w s)) ms (sem_kernel w) (sem_kernel w').
Proof.
  intros Hru [Hl Hc Hw] Hz Hi Hid Hnw Hms. unfold k_sem_take. rewrite Hi, Hz. cbn [andb].
  change (0 <? 0) with false. cbn iota. rewrite (proj2 (Z.eqb_neq _ _) Hnw).
  destruct (block_current_running K _ (sem_wait_q (sems w s)) ms Hru Hid Hms) as (k' & E & Hru' & Hb).
  unfold block_current in E. destruct (_pend_current_thread _ _ _) as [k1|]; [|done].
  cbn [mbind option_bind] in *. rewrite E. cbn [mbind option_bind].
  eexists. split; [reflexivity|]. split_and!; [done| |done|done].
  split; simpl; [done|done|by intros _].
Qed.

Lemma not_dummy k t : fbit k t 17 = false -> (Z.land (flags (threads k t)) K_DUMMY =? 0) = true.
Proof. intros Hb. change K_DUMMY with (2 ^ 17). rewrite land_pow2_eqb by lia. by unfold fbit in Hb; rewrite Hb. Qed.

(** A thread that may not be preempted keeps the processor. *)
Lemma not_preempted_stays k : _is_preempt (threads k (current k)) = false -> swap_if_needed k = Some k.
Proof.
  intros Hp. unfold swap_if_needed, must_switch_if_not_isr, _must_switch_threads. rewrite Hp.
  by destruct (in_isr k).
Qed.

Lemma set_return_value_other t v k x : x <> t -> threads (_set_thread_return_value t v k) x = threads k x.
Proof. intros Hne. cbn. by rewrite fn_lookup_alter_ne. Qed.

(** [sem_give_common] and what its callers do with its result. *)
Lemma give_idle s w :
  sem_ok s w -> wait_qs (sem_kernel w) (sem_wait_q (sems w s)) = [] ->
  k_sem_give s w = Some (increment s w) /\ sem_ok s (increment s w) /\
  count (sems (increment s w) s) = Z.min (limit (sems w s)) (count (sems w s) + 1) /\
  sem_kernel (increment s w) = sem_kernel w.
Proof.
  intros [Hl Hc Hw] Hq. unfold k_sem_give, sem_give_common, _unpend_first_thread. rewrite Hq.
  cbn [mbind option_bind swap_kernel].
  assert (Hinc : count (sems (increment s w) s) = Z.min (limit (sems w s)) (count (sems w s) + 1)).
  { unfold increment. rewrite set_count_same. simpl.
    destruct (Z.eqb_spec (count (sems w s)) (limit (sems w s))); simpl; rewrite u32_small; lia. }
  split_and!; [by destruct w|split|done|done]; unfold increment in *;
    rewrite set_count_same in *; simpl in *; [done|lia|done].
Qed.

Lemma give_wakes K s w t l :
  running K (sem_kernel w) -> sem_ok s w -> plain s w ->
  wait_qs (sem_kernel w) (sem_wait_q (sems w s)) = t :: l ->
  exists w' k1, k_sem_give s w = Some w' /\ running K (sem_kernel w') /\ sem_ok s w' /\
    sems w' = sems w /\ woken t (sem_kernel w) k1 /\ same_queues k1 (sem_kernel w') /\
    wait_qs (sem_kernel w') (sem_wait_q (sems w s)) = l /\
    swap_return_value (threads (sem_kernel w') t) = 0 /\
    (in_isr (sem_kernel w) = false -> no_more_urgent (sem_kernel w')) /\
    (_is_preempt (threads (sem_kernel w) (current (sem_kernel w))) = false ->
       current (sem_kernel w') = current (sem_kernel w)).
Proof.
  intros Hru [Hl Hc Hw] Hpl Hq. set (k := sem_kernel w) in *. set (wq := sem_wait_q (sems w s)) in *.
  destruct (wake_first_running K k wq t l Hru Hq) as (k1 & E1 & Hru1 & Hwo & Hq1 & Hq2 & Htc).
  unfold wake in E1.
  destruct (finish_value_running K k1 t 0 Hru1) as (k2 & E2 & Hru2 & Hsq & Hnu & Hv).
  unfold k_sem_give, sem_give_common. fold wq k. unfold _unpend_first_thread. rewrite Hq.
  fold (unpend t k).
  assert (Hd : (Z.land (flags (threads (snd (_abort_thread_timeout t (unpend t k))) t)) K_DUMMY =? 0) = true).
  { apply not_dummy. assert (Hin : t ∈ wait_qs k wq) by (rewrite Hq; apply elem_of_cons; by left).
    specialize (Hpl t Hin). rewrite <- Hpl.
    assert (threads (snd (_abort_thread_timeout t (unpend t k))) = threads (unpend t k)) as Et.
    { unfold _abort_thread_timeout, _abort_timeout. destruct (_ =? -1); [done|]. simpl.
      by destruct (peek_next _ _). }
    unfold fbit at 1. rewrite Et. fold (fbit (unpend t k) t 17).
    unfold unpend, _mark_thread_as_not_pending. rewrite reset_states_bit by lia.
    change (Z.testbit K_PENDING 17) with false. rewrite andb_false_r. apply andb_true_r. }
  destruct (_abort_thread_timeout t (unpend t k)) as [r ka]. simpl in Hd.
  unfold handle_sem_group. cbn [sem_kernel set_sem_kernel]. rewrite Hd. cbn [mbind option_bind].
  cbn [sem_kernel set_sem_kernel]. rewrite E1. cbn [mbind option_bind sem_kernel set_sem_kernel].
  assert (Hcoop : _is_preempt (threads k (current k)) = false -> current k2 = current k).
  { intros Hp. rewrite (not_preempted_stays (_set_thread_return_value t 0 k1)) in E2.
    - injection E2 as <-. cbn. apply (wo_current _ _ _ Hwo).
    - change (current (_set_thread_return_value t 0 k1)) with (current k1).
      rewrite (wo_current _ _ _ Hwo), set_return_value_other, (wo_threads _ _ _ Hwo) by congruence. done. }
  unfold swap_if_needed in E2.
  destruct (must_switch_if_not_isr (_set_thread_return_value t 0 k1)) as [b|]; [|done].
  cbn [mbind option_bind] in *. unfold swap_kernel. cbn [sem_kernel set_sem_kernel].
  exists (set_sem_kernel k2 w), k1.
  assert (wait_qs k2 wq = l) as Hq3 by by rewrite (sq_wait_qs _ _ Hsq).
  split_and!; try done.
  - destruct b; [rewrite E2; done|]. by simplify_eq.
  - split; simpl; [done|done|]. intros _. apply Hw. fold k wq. by rewrite Hq.
  - simpl. apply Hv. rewrite (wo_current _ _ _ Hwo). exact Htc.
  - simpl. rewrite (wo_in_isr _ _ _ Hwo) in Hnu. exact Hnu.
Qed.
End Behaviour.

(** ** What a semaphore promises *)
Section Promises.
Context `{KConfig}.
Implicit Types (w : sem_world) (s : semid) (K : toid -> Prop).

(** C9: giving a semaphore (that no group waits for) always succeeds. With
    nobody waiting it increments the count up to the limit, without overflow;
    otherwise the first waiter leaves the queue with its timeout cancelled and
    return value 0 and is ready, the count stays 0, and outside an interrupt
    the caller keeps the processor only if it may not be preempted or no ready
    thread is more urgent. *)
Theorem sem_give_correct K s w :
  running K (sem_kernel w) -> sem_ok s w -> plain s w ->
  exists w', k_sem_give s w = Some w' /\ running K (sem_kernel w') /\ sem_ok s w' /\
    match wait_qs (sem_kernel w) (sem_wait_q (sems w s)) with
    | [] => sem_kernel w' = sem_kernel w /\
            count (sems w' s) = Z.min (limit (sems w s)) (count (sems w s) + 1)
    | t :: l => count (sems w' s) = 0 /\
                wait_qs (sem_kernel w') (sem_wait_q (sems w s)) = l /\
                (wakeable (sem_kernel w) t = true -> t ∈ ready_list (sem_kernel w')) /\
                schedule (sem_kernel w') = schedule_remove (TO_thread t) (schedule (sem_kernel w)) /\
                swap_return_value (threads (sem_kernel w') t) = 0 /\
                (in_isr (sem_kernel w) = false -> no_more_urgent (sem_kernel w'))
    end.
Proof.
  intros Hru Hok Hpl.
  destruct (wait_qs (sem_kernel w) (sem_wait_q (sems w s))) as [|t l] eqn:Hq.
  - destruct (give_idle s w Hok Hq) as (E & ? & ? & ?). by exists (increment s w).
  - destruct (give_wakes K s w t l Hru Hok Hpl Hq)
      as (w' & k1 & E & ? & ? & Es & Hwo & Hsq & ? & ? & ? & _).
    exists w'. split_and!; try done.
    + rewrite Es. apply (so_waiters s w Hok). by rewrite Hq.
    + intros Hwk. rewrite (same_queues_ready _ _ Hsq), (wo_ready _ _ _ Hwo), Hwk.
      apply elem_of_prio_insert. by left.
    + rewrite <- (wo_schedule _ _ _ Hwo). unfold schedule.
      by rewrite (sq_timeouts _ _ Hsq), (sq_timeout_q _ _ Hsq).
Qed.

(** C16: taking a semaphore, from a thread other than the idle thread. If it is available the count goes down by one and
    the call returns 0; if not, K_NO_WAIT returns -EBUSY and changes nothing,
    and otherwise the thread joins the wait queue behind the waiters that are
    at least as urgent (so a queue sorted by priority stays sorted), its
    timeout is scheduled, -EAGAIN is its return value until someone gives, and
    the most urgent ready thread runs. *)
Theorem sem_take_correct K s ms w :
  running K (sem_kernel w) -> sem_ok s w -> in_isr (sem_kernel w) = false ->
  current (sem_kernel w) <> _idle_thread -> timeout_ok ms ->
  exists r w', k_sem_take s ms w = Some (r, w') /\ running K (sem_kernel w') /\ sem_ok s w' /\
    (0 < count (sems w s) -> r = Returns 0 /\ count (sems w' s) = count (sems w s) - 1) /\
    (count (sems w s) = 0 -> ms = K_NO_WAIT -> r = Returns (- EBUSY) /\ w' = w) /\
    (count (sems w s) = 0 -> ms <> K_NO_WAIT -> r = Blocks /\
       let wq := sem_wait_q (sems w s) in
       blocked wq ms (sem_kernel w) (sem_kernel w') /\
       (prio_sorted (thread_prio (sem_kernel w)) (wait_qs (sem_kernel w) wq) ->
        prio_sorted (thread_prio (sem_kernel w')) (wait_qs (sem_kernel w') wq))).
Proof.
  intros Hru Hok Hi Hid Hms. pose proof (so_count s w Hok) as Hc.
  destruct (decide (0 < count (sems w s))) as [Hpos|Hz].
  - destruct (take_available K s ms w Hru Hok Hpos) as (w' & E & ? & Ek & Ec); [by left|].
    exists (Returns 0), w'. split_and!; try done; [by rewrite Ek|intros; lia..].
  - assert (count (sems w s) = 0) as E0 by lia.
    destruct (decide (ms = K_NO_WAIT)) as [->|Hnw].
    + exists (Returns (- EBUSY)), w. split_and!; try done; by apply take_busy.
    + destruct (take_blocks K s ms w Hru Hok E0 Hi Hid Hnw Hms) as (w' & E & ? & ? & _ & Hb).
      exists Blocks, w'. split_and!; try done. intros _ _. split; [done|].
      cbn zeta. split; [done|]. by eapply blocked_sorted.
Qed.
End Promises.

Section Witnesses.
Definition sem_demo (c : Z) : sem_world :=
  mk_sem_world booted (fun _ => mk_sem 10%positive c 5) (fun _ => mk_desc 1%positive 1%positive)
    (fun _ => []).

Lemma sem_demo_ok c : 0 <= c <= 5 -> sem_ok 1%positive (sem_demo c) /\ plain 1%positive (sem_demo c).
Proof.
  intros Hc. destruct booted_running as (_ & _ & _ & _ & Ew & _). split.
  - split; simpl; [unfold UINT32_MAX; lia|done|by rewrite Ew].
  - intros t. simpl. rewrite Ew. by intros ?%elem_of_nil.
Qed.

Lemma sem_give_correct_witness :
  exists w', k_sem_give 1%positive (sem_demo 5) = Some w' /\ count (sems w' 1%positive) = 5.
Proof.
  destruct (sem_demo_ok 5 ltac:(lia)) as [H1 H2].
  destruct (sem_give_correct boot_threads 1%positive (sem_demo 5) (proj1 booted_running) H1 H2)
    as (w' & E & _ & _ & Hm).
  exists w'. split; [exact E|]. destruct booted_running as (_ & _ & _ & _ & Ew & _).
  simpl in Hm. rewrite Ew in Hm. destruct Hm as [_ Hm]. exact Hm.
Defined.

Lemma sem_take_correct_witness :
  exists w', k_sem_take 1%positive 20 (sem_demo 0) = Some (Blocks, w') /\
    wait_qs (sem_kernel w') 10%positive = [_main_thread].
Proof.
  destruct (sem_demo_ok 0 ltac:(lia)) as [H1 _].
  destruct booted_running as (Hru & Ec & _ & _ & Ew & Hi).
  destruct (sem_take_correct boot_threads 1%positive 20 (sem_demo 0) Hru H1 Hi)
    as (r & w' & E & _ & _ & _ & _ & Hb);
    [simpl; rewrite Ec; discriminate|apply timeout_ok_ms; vm_compute; intuition discriminate|].
  destruct (Hb eq_refl ltac:(discriminate)) as [-> [Hbl _]].
  exists w'. split; [exact E|]. pose proof (bl_wait_q _ _ _ _ Hbl) as Hq. simpl in Hq.
  rewrite Ew, Ec in Hq. exact Hq.
Defined.
End Witnesses.
