(* ===== verification/EventLogger.v ===== *)
(** * Event logger (kernel/unified/event_logger.c)

    A ring buffer of events with a semaphore that counts them. *)
From S2P Require Import Prelude Kernel RingBuf ReadyQ TimeoutQ Sched SchedInv SchedApi Thread Boot Clock Sem.

Record event_logger := mk_logger { sync_sema : semid; ring : ring_buf }.

Section Operations.
Context `{KConfig}.
Implicit Types (l : event_logger) (w : sem_world).

Definition with_ring (b : ring_buf) l : event_logger := mk_logger (sync_sema l) b.
Definition no_dropped (b : ring_buf) : ring_buf :=
  mk_ring (head_ b) (tail_ b) 0 (size b) (words b) (mask b).

Definition sys_event_logger_init (s : semid) (wq : wqid) (buffer : Z -> Z) (buffer_size : Z) w
    : option (event_logger * sem_world) :=
  w ← k_sem_init s wq 0 UINT32_MAX w;
  Some (mk_logger s (sys_ring_buf_init buffer_size buffer), w).

Definition event_logger_put (sem_give_fn : semid -> sem_world -> option sem_world) l
    (event_id : Z) (event_data : list Z) w : option (event_logger * sem_world) :=
  let '(ret, b) := sys_ring_buf_put (ring l) event_id (u8 (dropped_put_count (ring l))) event_data in
  if ret =? 0 then
    w ← sem_give_fn (sync_sema l) w;
    Some (with_ring (no_dropped b) l, w)
  else Some (with_ring b l, w).

Definition sys_event_logger_put l (event_id : Z) (event_data : list Z) w
    : option (event_logger * sem_world) :=
  event_logger_put k_sem_give l event_id event_data w.

Definition _sys_event_logger_put_non_preemptible l (event_id : Z) (event_data : list Z) w
    : option (event_logger * sem_world) :=
  event_logger_put _sem_give_non_preemptible l event_id event_data w.

(** The return value, [*buffer_size], and the event (its identifier, the count
    of dropped events and the data) if one was retrieved. *)
Definition retrieved : Type := Z * Z * option (Z * Z * list Z).

Definition event_logger_get l (buffer_size : Z) w
    : option (retrieved * event_logger * sem_world) :=
  let '(ret, sz, event, b) := sys_ring_buf_get (ring l) buffer_size in
  if ret =? 0 then Some (sz, sz, event, with_ring b l, w)
  else if ret =? - EMSGSIZE then
    w ← k_sem_give (sync_sema l) w;
    Some (- EMSGSIZE, sz, event, with_ring b l, w)
  else if ret =? - EAGAIN then Some (0, sz, event, with_ring b l, w)
  else Some (ret, sz, event, with_ring b l, w).

(** The part of the getters from the result [v] of [k_sem_take] on. *)
Definition get_if_nonzero (v : Z) l (buffer_size : Z) w
    : option (retrieved * event_logger * sem_world) :=
  if negb (v =? 0) then event_logger_get l buffer_size w
  else Some (0, buffer_size, None, l, w).

Definition sys_event_logger_get l (buffer_size : Z) w
    : option (retrieved * event_logger * sem_world) :=
  '(r, w) ← k_sem_take (sync_sema l) K_NO_WAIT w;
  match r with Returns v => get_if_nonzero v l buffer_size w | Blocks => None end.

(** A getter that waits: the call returns, or the thread blocks in
    [k_sem_take], and goes on with [event_logger_get] (or [get_if_nonzero])
    when it runs again. *)
Definition sys_event_logger_get_wait l (buffer_size : Z) w
    : option (outcome retrieved * event_logger * sem_world) :=
  '(r, w) ← k_sem_take (sync_sema l) K_FOREVER w;
  match r with
  | Returns _ => '(x, l, w) ← event_logger_get l buffer_size w; Some (Returns x, l, w)
  | Blocks => Some (Blocks, l, w)
  end.

Definition sys_event_logger_get_wait_timeout l (buffer_size timeout : Z) w
    : option (outcome retrieved * event_logger * sem_world) :=
  '(r, w) ← k_sem_take (sync_sema l) (i32 (__ticks_to_ms timeout)) w;
  match r with
  | Returns v => '(x, l, w) ← get_if_nonzero v l buffer_size w; Some (Returns x, l, w)
  | Blocks => Some (Blocks, l, w)
  end.
End Operations.

(** ** Behaviour *)
Section Behaviour.
Context `{KConfig}.
Context (K : toid -> Prop).
Implicit Types (l : event_logger) (w : sem_world) (items : list item).

(** Nobody waits, and the semaphore counts the events. *)
Record logger_ok l items w : Prop := {
  lo_ring : ring_holds (ring l) items;
  lo_sem : sem_ok (sync_sema l) w;
  lo_nobody : wait_qs (sem_kernel w) (sem_wait_q (sems w (sync_sema l))) = [];
  lo_limit : limit (sems w (sync_sema l)) = UINT32_MAX;
  lo_count : count (sems w (sync_sema l)) = Z.of_nat (length items)
}.

Definition fits l (data : list Z) : bool :=
  Z.of_nat (length data) + 1 <=? size (ring l) - 1 - Z.of_nat (used (ring l)).

Lemma items_bound b items : ring_holds b items -> Z.of_nat (length items) <= Z.of_nat (used b).
Proof.
  intros [_ _ Hw]. apply (f_equal length) in Hw. unfold read_circle in Hw.
  rewrite length_fmap, length_seq in Hw. rewrite Hw. apply inj_le. clear.
  induction items as [|[[ty v] d] items IH]; [done|]. cbn. rewrite length_app. lia.
Qed.

Lemma set_count_frame s c w :
  sem_kernel (set_count s c w) = sem_kernel w /\ sem_wait_q (sems (set_count s c w) s) = sem_wait_q (sems w s) /\
  limit (sems (set_count s c w) s) = limit (sems w s).
Proof. rewrite set_count_same. done. Qed.

Lemma logger_put l items event_id data w :
  logger_ok l items w -> item_ok (event_id, 0, data) ->
  exists l' w', sys_event_logger_put l event_id data w = Some (l', w') /\
    if fits l data
    then logger_ok l' (items ++ [(event_id, u8 (dropped_put_count (ring l)), data)]) w' /\
         dropped_put_count (ring l') = 0
    else logger_ok l' items w' /\ w' = w /\
         dropped_put_count (ring l') = u32 (dropped_put_count (ring l) + 1).
Proof.
  intros [Hr Hs Hq Hl Hc] (Hid & _ & Hlen). unfold sys_event_logger_put, event_logger_put.
  assert (item_ok (event_id, u8 (dropped_put_count (ring l)), data)) as Hok.
  { split; [exact Hid|]. split; [|exact Hlen]. unfold wrap_u. by apply Z.mod_pos_bound. }
  pose proof (put_holds (ring l) items _ _ _ Hr Hok) as Hp. unfold fits.
  destruct (sys_ring_buf_put _ _ _ _) as [rc b]. destruct (_ <=? _) eqn:Ef.
  - destruct Hp as (-> & Hb & Hu & Esz & _). cbn [Z.eqb].
    destruct (give_idle (sync_sema l) w Hs Hq) as (-> & Hs' & Ec & Ek). cbn [mbind option_bind].
    eexists _, _. split; [reflexivity|]. split; [|done].
    destruct (set_count_frame (sync_sema l) (u32 (count (sems w (sync_sema l)) +
      b2z (negb (count (sems w (sync_sema l)) =? limit (sems w (sync_sema l)))))) w) as (_ & F2 & F3).
    fold (increment (sync_sema l) w) in F2, F3.
    split; cbn [sync_sema ring with_ring]; try done.
    + destruct Hb as [[? ? ? ?] ? ?]. split; [split; done|done|done].
    + by rewrite Ek, F2.
    + by rewrite F3.
    + rewrite Ec, Hc, Hl, length_app. cbn [length].
      pose proof (items_bound _ _ Hr) as Hib. pose proof (used_bound _ (rh_wf _ _ Hr)) as Hub.
      destruct (rb_size _ (rh_wf _ _ Hr)) as [_ Hsz]. unfold UINT32_MAX. lia.
  - destruct Hp as (-> & Hb & _ & _ & Ed). cbn. eexists _, w. split; [reflexivity|]. split_and!; [by split|done|done].
Qed.

(** The event logger is a queue of events. Logging an event that fits appends
    it with the number of events lost since the last one stored (modulo 256) and
    starts that count again; one that does not fit is counted as lost. The
    waiting getter takes the oldest event, or, when the caller's buffer is too
    small for it, leaves it and says how large a buffer it needs; the semaphore
    always counts the events that are left. *)
Theorem event_logger_queue l items event_id data buffer_size w :
  running K (sem_kernel w) -> in_isr (sem_kernel w) = false ->
  logger_ok l items w -> item_ok (event_id, 0, data) ->
  (exists l' w', sys_event_logger_put l event_id data w = Some (l', w') /\
     if fits l data
     then logger_ok l' (items ++ [(event_id, u8 (dropped_put_count (ring l)), data)]) w' /\
          dropped_put_count (ring l') = 0
     else logger_ok l' items w' /\ dropped_put_count (ring l') = u32 (dropped_put_count (ring l) + 1)) /\
  (forall id lost d rest, items = (id, lost, d) :: rest ->
     exists l' w', logger_ok l' (if buffer_size <? Z.of_nat (length d) then items else rest) w' /\
       sys_event_logger_get_wait l buffer_size w =
         Some (if buffer_size <? Z.of_nat (length d)
               then Returns (- EMSGSIZE, Z.of_nat (length d), None)
               else Returns (Z.of_nat (length d), Z.of_nat (length d), Some (id, lost, d)), l', w')).
Proof.
  intros Hru Hi Hlo Hit. split.
  - destruct (logger_put l items event_id data w Hlo Hit) as (l' & w' & E & Hm). exists l', w'.
    split; [done|]. destruct (fits l data); naive_solver.
  - intros id lost d rest ->. destruct Hlo as [Hr Hs Hq Hl Hc]. cbn [length] in Hc.
    destruct (take_available K (sync_sema l) K_FOREVER w Hru Hs ltac:(lia) ltac:(by left))
      as (w1 & E1 & Hs1 & Ek1 & Ec1).
    assert (Hfr : sem_wait_q (sems w1 (sync_sema l)) = sem_wait_q (sems w (sync_sema l)) /\
                  limit (sems w1 (sync_sema l)) = limit (sems w (sync_sema l))).
    { unfold k_sem_take in E1. rewrite Hi in E1. cbn [andb] in E1.
      rewrite (proj2 (Z.ltb_lt _ _)) in E1 by lia. injection E1 as <-. by rewrite set_count_same. }
    destruct Hfr as [Fw Fl]. unfold sys_event_logger_get_wait. rewrite E1. cbn [mbind option_bind].
    unfold event_logger_get. pose proof (get_holds _ _ buffer_size Hr) as Hg. cbn in Hg.
    destruct (buffer_size <? Z.of_nat (length d)).
    + rewrite Hg. cbn [Z.eqb negb]. change (- EMSGSIZE =? 0) with false. change (- EMSGSIZE =? - EMSGSIZE) with true.
      cbn iota. destruct (give_idle (sync_sema l) w1 Hs1) as (-> & Hs2 & Ec2 & Ek2); [by rewrite Ek1, Fw|].
      cbn [mbind option_bind]. eexists _, _. split; [|reflexivity].
      unfold increment in *. rewrite set_count_same in *. cbn [count] in Ec2.
      split; cbn [sync_sema ring with_ring]; rewrite ?set_count_same; try done; cbn [sem_wait_q limit count].
      * by rewrite Ek2, Ek1, Fw.
      * by rewrite Fl.
      * rewrite Ec2, Ec1, Hc, Fl, Hl. cbn [length].
        pose proof (items_bound _ _ Hr) as Hib. pose proof (used_bound _ (rh_wf _ _ Hr)) as Hub.
        destruct (rb_size _ (rh_wf _ _ Hr)) as [_ Hsz]. cbn [length] in Hib. unfold UINT32_MAX. lia.
    + destruct Hg as (b' & -> & Hb' & _). cbn [Z.eqb mbind option_bind].
      eexists _, w1. split; [|reflexivity]. split; cbn [sync_sema ring with_ring]; try done.
      * by rewrite Ek1, Fw.
      * by rewrite Fl.
      * lia.
Qed.

(** The non-blocking getter never returns an event: [k_sem_take] returns 0
    when it succeeds, which the code takes for failure, so with events in the
    buffer the call gives up one count of the semaphore and reports none, and
    the event stays behind. *)
Theorem nonblocking_get_never_delivers l items buffer_size w :
  running K (sem_kernel w) -> logger_ok l items w ->
  exists w', sys_event_logger_get l buffer_size w = Some (0, buffer_size, None, l, w') /\
    count (sems w' (sync_sema l)) = Z.of_nat (length items) - (if decide (items = []) then 0 else 1).
Proof.
  intros Hru [Hr Hs Hq Hl Hc]. unfold sys_event_logger_get. destruct items as [|it items].
  - rewrite take_busy by done. cbn [mbind option_bind]. unfold get_if_nonzero.
    change (- EBUSY =? 0) with false. cbn [negb]. unfold event_logger_get.
    pose proof (get_holds _ _ buffer_size Hr) as Hg. cbn in Hg. rewrite Hg. cbn.
    eexists. split; [|by rewrite Hc]. by destruct l.
  - destruct (take_available K (sync_sema l) K_NO_WAIT w Hru Hs) as (w1 & -> & _ & _ & Ec1);
      [rewrite Hc; cbn; lia|by right|].
    cbn. eexists. split; [reflexivity|]. rewrite Ec1, Hc. rewrite decide_False by done. done.
Qed.
End Behaviour.

Section Witnesses.
(** A logger with room for seven words, holding one event. *)
Definition logger_demo : event_logger :=
  mk_logger 1%positive (snd (sys_ring_buf_put (sys_ring_buf_init 8 (fun _ => 0)) 7 0 [1; 2])).
Definition logger_world : sem_world :=
  mk_sem_world booted (fun _ => mk_sem 10%positive 1 UINT32_MAX) (fun _ => mk_desc 1%positive 1%positive)
    (fun _ => []).

Lemma logger_demo_ok : logger_ok logger_demo [(7, 0, [1; 2])] logger_world.
Proof.
  destruct booted_running as (_ & _ & _ & _ & Ew & _). split; try reflexivity.
  - assert (item_ok (7, 0, [1; 2])) as Hit by (unfold item_ok; cbn; lia).
    pose proof (put_holds _ [] 7 0 [1; 2] (init_holds 8 (fun _ => 0) ltac:(lia)) Hit) as Hp.
    exact (proj1 (proj2 Hp)).
  - split; cbn; unfold UINT32_MAX; [lia|lia|]. rewrite Ew. intros Hn. destruct (Hn eq_refl).
Qed.

Lemma event_logger_queue_witness :
  exists l' w', logger_ok l' [] w' /\
    sys_event_logger_get_wait logger_demo 2 logger_world = Some (Returns (2, 2, Some (7, 0, [1; 2])), l', w').
Proof.
  destruct booted_running as (Hru & _ & _ & _ & _ & Hi).
  destruct (event_logger_queue boot_threads logger_demo [(7, 0, [1; 2])] 7 [1; 2] 2 logger_world Hru Hi
    logger_demo_ok) as [_ Hg]; [unfold item_ok; cbn; lia|].
  destruct (Hg 7 0 [1; 2] [] eq_refl) as (l' & w' & Hl & E).
  exists l', w'. split; [exact Hl|exact E].
Defined.

Lemma nonblocking_get_never_delivers_witness :
  exists w', sys_event_logger_get logger_demo 2 logger_world = Some (0, 2, None, logger_demo, w') /\
    count (sems w' 1%positive) = 0.
Proof.
  destruct booted_running as (Hru & _).
  destruct (nonblocking_get_never_delivers boot_threads logger_demo [(7, 0, [1; 2])] 2 logger_world Hru
    logger_demo_ok) as (w' & E & Ec).
  exists w'. split; [exact E|exact Ec].
Defined.
End Witnesses.
