(* ===== verification/Mutex.v ===== *)
(** * Mutexes with priority inheritance (kernel/unified/mutex.c)

    An operation works on one [struct k_mutex] and the kernel. [k_mutex_lock]
    is cut where the thread may be switched out: [k_mutex_lock_resume] is what
    it does when it runs again. *)
From S2P Require Import Prelude Kernel ReadyQ TimeoutQ Sched SchedInv SchedApi Thread Boot Clock Core.

Record k_mutex := mk_mutex {
  mutex_wait_q : wqid;
  owner : option tid;
  lock_count : Z;
  owner_orig_prio : Z
}.

Section Operations.
Context `{KConfig}.
Implicit Types (m : k_mutex) (k : kernel).

(** [owner_orig_prio] is left as it was. *)
Definition k_mutex_init (wq : wqid) m k : k_mutex * kernel :=
  (mk_mutex wq None 0 (owner_orig_prio m), upd_wait_q wq [] k).

Definition new_prio_for_inheritance (target lim : Z) : Z :=
  let new_prio := if _is_prio_higher target lim then target else lim in
  _get_new_prio_with_ceiling new_prio.

(** [None]: [mutex->owner] is null. *)
Definition adjust_owner_prio m (new_prio : Z) k : option kernel :=
  o ← owner m;
  Some (if negb (prio (threads k o) =? new_prio) then _thread_priority_set o new_prio k else k).

Definition k_mutex_lock m (timeout : Z) k : option (outcome Z * k_mutex * kernel) :=
  let k := _sched_lock k in
  let cur := current k in
  if (lock_count m =? 0) || bool_decide (owner m = Some cur) then
    let orig := if lock_count m =? 0 then prio (threads k cur) else owner_orig_prio m in
    let m := mk_mutex (mutex_wait_q m) (Some cur) (u32 (lock_count m + 1)) orig in
    k ← k_sched_unlock k;
    Some (Returns 0, m, k)
  else if timeout =? K_NO_WAIT then
    k ← k_sched_unlock k;
    Some (Returns (- EBUSY), m, k)
  else
    o ← owner m;
    let new_prio := new_prio_for_inheritance (prio (threads k cur)) (prio (threads k o)) in
    k ← adjust_owner_prio m new_prio k;
    k ← _pend_current_thread (mutex_wait_q m) timeout k;
    k ← _Swap k;
    Some (Blocks, m, k).

(** The rest of [k_mutex_lock], in the thread that called it. *)
Definition k_mutex_lock_resume m k : option (Z * kernel) :=
  let got_mutex := swap_return_value (threads k (current k)) in
  if got_mutex =? 0 then k ← k_sched_unlock k; Some (0, k)
  else
    let waiter := head (wait_qs k (mutex_wait_q m)) in
    let new_prio := owner_orig_prio m in
    let new_prio := match waiter with
                    | Some t => new_prio_for_inheritance (prio (threads k t)) new_prio
                    | None => new_prio
                    end in
    k ← adjust_owner_prio m new_prio k;
    k ← k_sched_unlock k;
    Some (- EAGAIN, k).

Definition k_mutex_unlock m k : option (k_mutex * kernel) :=
  if (0 <? lock_count m) && bool_decide (owner m = Some (current k)) then
    let k := _sched_lock k in
    let m := mk_mutex (mutex_wait_q m) (owner m) (u32 (lock_count m - 1)) (owner_orig_prio m) in
    if negb (lock_count m =? 0) then k ← k_sched_unlock k; Some (m, k)
    else
      k ← adjust_owner_prio m (owner_orig_prio m) k;
      '(m, k) ←
        (match _unpend_first_thread (mutex_wait_q m) k with
         | (Some new_owner, k) =>
             let '(_, k) := _abort_thread_timeout new_owner k in
             k ← _ready_thread new_owner k;
             let k := _set_thread_return_value new_owner 0 k in
             Some (mk_mutex (mutex_wait_q m) (Some new_owner) (u32 (lock_count m + 1))
                     (prio (threads k new_owner)), k)
         | (None, k) =>
             Some (mk_mutex (mutex_wait_q m) None (lock_count m) (owner_orig_prio m), k)
         end);
      k ← k_sched_unlock k;
      Some (m, k)
  else None.
End Operations.

(** ** Behaviour *)
Section Behaviour.
Context `{KConfig}.
Implicit Types (m : k_mutex) (k : kernel) (K : toid -> Prop).

(** A mutex is free, or locked by a thread the kernel knows, with the priority
    to give back to it; threads wait only for a locked one. *)
Record mutex_ok K m k : Prop := {
  mo_count : 0 <= lock_count m <= UINT32_MAX;
  mo_free : lock_count m = 0 <-> owner m = None;
  mo_owner t : owner m = Some t -> K (TO_thread t) /\ prio_ok t (owner_orig_prio m);
  mo_waiters : wait_qs k (mutex_wait_q m) <> [] -> owner m <> None
}.

(** The lock count a thread may reach before the scheduler lock overflows. *)
Definition lockable k : Prop := 0 <= sched_locked (threads k (current k)) < INT32_MAX.

Lemma locked_unlock K k :
  running K k -> in_isr k = false -> lockable k ->
  let k1 := _sched_lock k in
  running K k1 /\ 0 < sched_locked (threads k1 (current k1)).
Proof.
  intros Hru Hi Hl. split; [by apply running_sched_locked|].
  unfold _sched_lock, lockable in *. cbn. rewrite fn_lookup_alter. cbn.
  rewrite i32_small by (unfold INT32_MIN; lia). lia.
Qed.

(** A thread known to the kernel keeps a valid priority. *)
Lemma sched_lock_fields k :
  ready_list (_sched_lock k) = ready_list k /\ wait_qs (_sched_lock k) = wait_qs k /\
  current (_sched_lock k) = current k /\ in_isr (_sched_lock k) = in_isr k /\
  (forall t, thread_prio (_sched_lock k) t = thread_prio k t) /\
  schedule (_sched_lock k) = schedule k.
Proof.
  split_and!; try done. intros t. unfold thread_prio. cbn. unfold alter, fn_alter.
  by case_decide; subst.
Qed.

Lemma unlock_running K k :
  running K k -> in_isr k = false -> 0 < sched_locked (threads k (current k)) ->
  exists k', k_sched_unlock k = Some k' /\ running K k' /\ no_more_urgent k' /\
    wait_qs k' = wait_qs k /\ schedule k' = schedule k /\
    (forall t, thread_prio k' t = thread_prio k t) /\ ready_list k' = ready_list k /\
    (forall t, exists r n, threads k' t = with_result r (with_sched_locked n (threads k t))) /\
    (forall t, t <> current k -> swap_return_value (threads k' t) = swap_return_value (threads k t)).
Proof.
  intros Hru Hi Hl. unfold k_sched_unlock. rewrite Hi, (proj2 (Z.ltb_lt _ _) Hl). cbn [andb negb].
  set (k1 := _sched_unlock_no_reschedule k).
  assert (Hru1 : running K k1) by by apply running_sched_locked.
  destruct (running_head K k1 Hru1) as [c Hc].
  assert (Ht1 : forall t, exists n, threads k1 t = with_sched_locked n (threads k t)).
  { intros t. unfold k1. cbn. unfold alter, fn_alter. case_decide; [subst t; by eexists|].
    exists id. by destruct (threads k t). }
  assert (Hv1 : forall t, swap_return_value (threads k1 t) = swap_return_value (threads k t))
    by (intros t; by destruct (Ht1 t) as [n ->]).
  unfold _reschedule_threads. rewrite (must_switch_eq K None k1 c (ru_wf K k1 Hru1) Hc).
  cbn [mbind option_bind].
  assert (exists k2, (if must_preempt k1 c then _Swap k1 else Some k1) = Some k2 /\
    running K k2 /\ same_queues k1 k2 /\ no_more_urgent k2 /\
    forall x, x <> current k1 -> threads k2 x = threads k1 x)
    as (k2 & -> & Hru2 & Hsq & Hnu & Hne).
  { destruct (must_preempt k1 c) eqn:Em.
    - destruct (swap_wf K None k1 c (ru_wf K k1 Hru1) Hc) as (k2 & -> & Hwf2 & Hsq2 & Ec & _ & Hne).
      exists k2. split_and!; [done|eapply (running_same_queues K k1 k2); eauto|done| |done].
      eapply preempted_current; [apply (ru_wf K k1 Hru1)|done|done|]. by rewrite Em.
    - exists k1. split_and!; [done|done|apply same_queues_refl| |done].
      eapply (preempted_current K None k1 k1); [apply (ru_wf K k1 Hru1)|done|apply same_queues_refl|].
      by rewrite Em. }
  exists k2. split_and!; try done.
  - by rewrite (sq_wait_qs _ _ Hsq).
  - unfold schedule. by rewrite (sq_timeouts _ _ Hsq), (sq_timeout_q _ _ Hsq).
  - intros t. rewrite (same_queues_prio _ _ t Hsq). unfold thread_prio. by destruct (Ht1 t) as [n ->].
  - by rewrite (same_queues_ready _ _ Hsq).
  - intros t. destruct (sq_threads _ _ Hsq t) as [v ->], (Ht1 t) as [n ->]. eauto.
  - intros t Hx. by rewrite Hne.
Qed.

(** Locking a mutex that is free or already one's own. *)
Lemma lock_own K m ms k :
  running K k -> in_isr k = false -> lockable k -> mutex_ok K m k ->
  lock_count m = 0 \/ owner m = Some (current k) -> lock_count m < UINT32_MAX ->
  exists m' k', k_mutex_lock m ms k = Some (Returns 0, m', k') /\ running K k' /\
    mutex_ok K m' k' /\ owner m' = Some (current k) /\ lock_count m' = lock_count m + 1 /\
    owner_orig_prio m' =
      (if lock_count m =? 0 then thread_prio k (current k) else owner_orig_prio m).
Proof.
  intros Hru Hi Hl [Mc Mf Mo Mw] Hfree Hmax. unfold k_mutex_lock.
  destruct (locked_unlock K k Hru Hi Hl) as [Hru1 Hl1].
  destruct (sched_lock_fields k) as (_ & Ew1 & Ec1 & Ei1 & Ep1 & _).
  set (k1 := _sched_lock k) in *.
  assert ((lock_count m =? 0) || bool_decide (owner m = Some (current k1)) = true) as ->.
  { rewrite Ec1. destruct Hfree as [-> | ->]; [done|]. rewrite bool_decide_eq_true_2 by done.
    apply orb_true_r. }
  destruct (unlock_running K k1 Hru1) as (k2 & -> & Hru2 & _ & Ew2 & _); [congruence|done|].
  cbn [mbind option_bind]. eexists _, _. split; [reflexivity|]. rewrite Ec1.
  rewrite u32_small by lia. split_and!; try done; cbn.
  - split; cbn; [lia|split; [lia|done]| |done].
    intros t [= <-].
    pose proof (kw_ready K None k (ru_wf K k Hru) _ (ru_current K k Hru)) as [HK _].
    split; [done|]. destruct (Z.eqb_spec (lock_count m) 0) as [E0|Hn0].
    + pose proof (kw_prio K None k (ru_wf K k Hru) _ HK) as Hp. rewrite <- Ep1 in Hp. exact Hp.
    + destruct Hfree as [?|Hown]; [done|]. by apply (Mo (current k)).
  - destruct (lock_count m =? 0); [apply Ep1|done].
Qed.

Lemma inheritance_value target lim :
  new_prio_for_inheritance target lim = Z.max CONFIG_PRIORITY_CEILING (Z.min target lim).
Proof.
  unfold new_prio_for_inheritance, _get_new_prio_with_ceiling, _is_under_prio_ceiling,
    _is_prio_higher.
  destruct (Z.ltb_spec target lim); case_if; bool_facts; lia.
Qed.

Lemma ceiling_prio_ok t p : prio_ok t p -> prio_ok t (Z.max CONFIG_PRIORITY_CEILING p).
Proof.
  pose proof ceiling_range as Hc. pose proof coop_nonneg. pose proof preempt_nonneg.
  unfold prio_ok, K_HIGHEST_THREAD_PRIO, K_LOWEST_THREAD_PRIO. revert Hc.
  destruct (Z.ltb_spec 0 CONFIG_NUM_COOP_PRIORITIES),
    (Z.ltb_spec 0 CONFIG_NUM_PREEMPT_PRIORITIES); intros Hc [P1 [P2|[-> ->]]];
    split; try lia; (left; lia) || (right; split; [lia|done]).
Qed.

Lemma adjust_running K m k o p :
  running K k -> owner m = Some o -> K (TO_thread o) -> prio_ok o p ->
  exists k', adjust_owner_prio m p k = Some k' /\ running K k' /\ thread_prio k' o = p /\
    (forall t, t <> o -> threads k' t = threads k t) /\
    (exists q, threads k' o = with_prio q (threads k o)) /\
    (forall w, wait_qs k' w = wait_qs k w) /\
    (forall x, x ∈ ready_list k' <-> x ∈ ready_list k) /\
    current k' = current k /\ in_isr k' = in_isr k /\ schedule k' = schedule k.
Proof.
  intros Hru Ho HK Hp. unfold adjust_owner_prio. rewrite Ho. cbn [mbind option_bind].
  destruct (Z.eqb_spec (prio (threads k o)) p) as [E|Hne]; cbn [negb].
  - exists k. split_and!; try done. exists p. subst p. by destruct (threads k o).
  - destruct (thread_priority_set_wf K k o p (ru_wf K k Hru) HK Hp) as (_ & _ & Ew).
    destruct (priority_set_fields k o p) as (Ec & Ei & Es).
    assert (Ht : threads (_thread_priority_set o p k) = alter (with_prio p) o (threads k)).
    { unfold _thread_priority_set. destruct (_is_thread_ready o k); [|done].
      destruct (remove_rest k o) as (E & _). unfold _add_thread_to_ready_q, append_to_q,
        _set_ready_q_prio_bit, upd_thread. cbn [threads set_cache set_q set_prio_bmap set_threads].
      by rewrite E. }
    eexists. split; [reflexivity|]. split_and!; try done.
    + by apply priority_set_running.
    + unfold thread_prio. rewrite Ht. by rewrite fn_lookup_alter.
    + intros t Hx. rewrite Ht. by apply fn_lookup_alter_ne.
    + exists p. rewrite Ht. apply fn_lookup_alter.
    + intros x. by apply (priority_set_listed K); [apply (ru_wf K k Hru)|..].
Qed.

(** Waiting for a mutex that another thread holds. *)
Lemma lock_contended K m ms k o :
  running K k -> in_isr k = false -> lockable k -> mutex_ok K m k ->
  owner m = Some o -> o <> current k -> current k <> _idle_thread ->
  ms <> K_NO_WAIT -> timeout_ok ms ->
  exists k', k_mutex_lock m ms k = Some (Blocks, m, k') /\ running K k' /\ mutex_ok K m k' /\
    thread_prio k' o =
      Z.max CONFIG_PRIORITY_CEILING (Z.min (thread_prio k (current k)) (thread_prio k o)) /\
    (forall t, t <> o -> thread_prio k' t = thread_prio k t) /\
    current k ∈ wait_qs k' (mutex_wait_q m) /\ current k ∉ ready_list k' /\
    swap_return_value (threads k' (current k)) = - EAGAIN /\
    head (ready_list k') = Some (current k').
Proof.
  intros Hru Hi Hl [Mc Mf Mo Mw] Ho Hne Hid Hnw Hms. unfold k_mutex_lock.
  destruct (locked_unlock K k Hru Hi Hl) as [Hru1 _].
  destruct (sched_lock_fields k) as (El1 & Ew1 & Ec1 & Ei1 & Ep1 & _).
  set (k1 := _sched_lock k) in *.
  assert (lock_count m <> 0) as Hn0 by (intros E; apply Mf in E; congruence).
  rewrite (proj2 (Z.eqb_neq _ _) Hn0), bool_decide_eq_false_2 by (rewrite Ec1; congruence).
  cbn [orb]. rewrite (proj2 (Z.eqb_neq _ _) Hnw), Ho. cbn [mbind option_bind].
  destruct (Mo o Ho) as [HKo _]. rewrite inheritance_value.
  pose proof (kw_prio K None k (ru_wf K k Hru) o HKo) as Hpo.
  destruct (kw_ready K None k (ru_wf K k Hru) _ (ru_current K k Hru)) as [HKc _].
  pose proof (kw_prio K None k (ru_wf K k Hru) _ HKc) as Hpc.
  set (np := Z.max _ _).
  assert (np = Z.max CONFIG_PRIORITY_CEILING (Z.min (thread_prio k (current k)) (thread_prio k o)))
    as Enp by (unfold np; rewrite <- !Ep1; done).
  assert (prio_ok o np) as Hnp.
  { rewrite Enp. apply ceiling_prio_ok. unfold prio_ok in *. lia. }
  destruct (adjust_running K m k1 o np Hru1 Ho HKo Hnp)
    as (k2 & -> & Hru2 & Ep2 & Ht2 & _ & Ew2 & El2 & Ec2 & Ei2 & _). cbn [mbind option_bind].
  destruct (block_current_running K k2 (mutex_wait_q m) ms Hru2) as (k3 & E3 & Hru3 & Hb);
    [congruence|done|].
  unfold block_current in E3. destruct (_pend_current_thread _ _ k2) as [k2'|]; [|done].
  cbn [mbind option_bind] in *. rewrite E3. cbn [mbind option_bind].
  assert (Ecur : current k2 = current k) by congruence.
  exists k3. split_and!; try done.
  - split; try done. by rewrite Ho.
  - by rewrite (bl_prio _ _ _ _ Hb), Ep2.
  - intros t Ht. rewrite (bl_prio _ _ _ _ Hb), <- Ep1. unfold thread_prio. by rewrite Ht2.
  - rewrite (bl_wait_q _ _ _ _ Hb), Ecur. apply elem_of_prio_insert. by left.
  - rewrite (bl_ready _ _ _ _ Hb), Ecur, elem_of_remove_node. naive_solver.
  - rewrite <- Ecur. apply Hb.
  - apply Hb.
Qed.

(** Giving a mutex up, or one level of it. *)
Lemma unlock_nested K m k :
  running K k -> in_isr k = false -> lockable k -> mutex_ok K m k ->
  owner m = Some (current k) -> 1 < lock_count m ->
  exists m' k', k_mutex_unlock m k = Some (m', k') /\ running K k' /\ mutex_ok K m' k' /\
    owner m' = owner m /\ lock_count m' = lock_count m - 1 /\
    owner_orig_prio m' = owner_orig_prio m.
Proof.
  intros Hru Hi Hl [Mc Mf Mo Mw] Ho Hc. unfold k_mutex_unlock.
  rewrite (proj2 (Z.ltb_lt 0 (lock_count m))), bool_decide_eq_true_2 by (lia || done). cbn [andb].
  destruct (locked_unlock K k Hru Hi Hl) as [Hru1 Hl1].
  destruct (sched_lock_fields k) as (_ & Ew1 & _ & Ei1 & _).
  rewrite u32_small by lia. cbn [lock_count]. rewrite (proj2 (Z.eqb_neq _ _)) by lia. cbn [negb].
  destruct (unlock_running K (_sched_lock k) Hru1) as (k2 & -> & Hru2 & _ & Ew2 & _);
    [congruence|done|].
  cbn [mbind option_bind]. eexists _, _. split; [reflexivity|]. split_and!; try done.
  split; cbn; [lia|rewrite Ho; split; [lia|done]|done|by rewrite Ho].
Qed.

(** What the last unlock leaves: the mutex handed to the first waiter, or free. *)
Definition handed_over K m m' k k' : Prop :=
  match wait_qs k (mutex_wait_q m) with
  | [] => owner m' = None /\ lock_count m' = 0
  | t :: l => owner m' = Some t /\ lock_count m' = 1 /\ owner_orig_prio m' = thread_prio k' t /\
              wait_qs k' (mutex_wait_q m) = l /\ swap_return_value (threads k' t) = 0 /\
              (wakeable k t = true -> t ∈ ready_list k')
  end.

Lemma unlock_last K m k :
  running K k -> in_isr k = false -> lockable k -> mutex_ok K m k ->
  owner m = Some (current k) -> lock_count m = 1 ->
  exists m' k', k_mutex_unlock m k = Some (m', k') /\ running K k' /\ mutex_ok K m' k' /\
    thread_prio k' (current k) = owner_orig_prio m /\ handed_over K m m' k k' /\
    no_more_urgent k'.
Proof.
  intros Hru Hi Hl [Mc Mf Mo Mw] Ho Hc1. unfold k_mutex_unlock.
  rewrite (proj2 (Z.ltb_lt 0 (lock_count m))), bool_decide_eq_true_2 by (lia || done). cbn [andb].
  destruct (locked_unlock K k Hru Hi Hl) as [Hru1 Hl1].
  destruct (sched_lock_fields k) as (El1 & Ew1 & Ec1 & Ei1 & Ep1 & _).
  set (k1 := _sched_lock k) in *.
  assert (u32 (lock_count m - 1) = 0) as -> by (rewrite Hc1; reflexivity).
  cbn [lock_count Z.eqb negb owner_orig_prio mutex_wait_q].
  set (m1 := mk_mutex (mutex_wait_q m) (owner m) 0 (owner_orig_prio m)). destruct (Mo _ Ho) as [HKo Hpo].
  destruct (adjust_running K m1 k1 (current k) (owner_orig_prio m) Hru1 Ho HKo Hpo)
    as (k2 & -> & Hru2 & Ep2 & Ht2 & [p2 Hp2] & Ew2 & El2 & Ec2 & Ei2 & Es2). cbn [mbind option_bind].
  assert (Hl2 : 0 < sched_locked (threads k2 (current k2)))
    by (rewrite Ec2, Ec1, Hp2, <- Ec1; exact Hl1).
  unfold handed_over. cbn [mutex_wait_q m1].
  assert (Ewq : wait_qs k2 (mutex_wait_q m) = wait_qs k (mutex_wait_q m)) by by rewrite Ew2, Ew1.
  unfold _unpend_first_thread. rewrite Ewq.
  destruct (wait_qs k (mutex_wait_q m)) as [|t l] eqn:Eq; cbn [mbind option_bind].
  - destruct (unlock_running K k2 Hru2) as (k3 & -> & Hru3 & Hnu & Ew3 & _ & Ep3 & _);
      [congruence|done|]. cbn [mbind option_bind].
    eexists _, _. split; [reflexivity|]. split_and!; try done.
    + split; cbn; [unfold UINT32_MAX; lia|done|done|]. rewrite Ew3, Ewq. done.
    + by rewrite Ep3.
  - fold (unpend t k2).
    destruct (wake_first_running K k2 (mutex_wait_q m) t l Hru2 Ewq)
      as (k3 & E3 & Hru3 & Hwo & Hq3 & _ & Htc).
    unfold wake in E3. destruct (_abort_thread_timeout t (unpend t k2)) as [r ka]. rewrite E3.
    cbn [mbind option_bind]. set (k4 := _set_thread_return_value t 0 k3).
    pose proof (running_return_value K k3 t 0 Hru3) as Hru4. fold k4 in Hru4.
    assert (Hc4 : threads k4 (current k2) = threads k2 (current k2)).
    { unfold k4. cbn. rewrite fn_lookup_alter_ne by done. apply (wo_threads _ _ _ Hwo). done. }
    assert (Ec4 : current k4 = current k2) by apply (wo_current _ _ _ Hwo).
    destruct (unlock_running K k4 Hru4)
      as (k5 & -> & Hru5 & Hnu & Ew5 & _ & Ep5 & El5 & _ & Hv5);
      [cbn; rewrite (wo_in_isr _ _ _ Hwo); congruence|by rewrite Ec4, Hc4|].
    cbn [mbind option_bind].
    assert (Htk : K (TO_thread t) /\ prio_ok t (thread_prio k4 t)).
    { assert (Hin : t ∈ wait_qs k2 (mutex_wait_q m)) by (rewrite Ewq; apply elem_of_cons; by left).
      destruct (kw_wq K None k2 (ru_wf K k2 Hru2) t _ Hin) as [HKt _].
      split; [done|]. by apply (kw_prio K None k4 (ru_wf K k4 Hru4)). }
    change (u32 (0 + 1)) with 1.
    eexists _, _. split; [reflexivity|]. split_and!; try done.
    + split; cbn; [unfold UINT32_MAX; lia|done| |done]. intros x [= <-]. exact Htk.
    + rewrite Ep5. unfold thread_prio. rewrite Ec2, Ec1 in Hc4. rewrite Hc4. exact Ep2.
    + rewrite Ew5. exact Hq3.
    + rewrite Hv5 by (rewrite Ec4; done). unfold k4. cbn. by rewrite fn_lookup_alter.
    + intros Hwk. rewrite El5. change (t ∈ ready_list k3). rewrite (wo_ready _ _ _ Hwo).
      assert (wakeable k2 t = wakeable k t) as ->.
      { unfold wakeable, fbit. rewrite Ht2 by congruence. cbn.
        rewrite fn_lookup_alter_ne by congruence. done. }
      rewrite Hwk. apply elem_of_prio_insert. by left.
Qed.
End Behaviour.

(** ** What a mutex promises *)
Section Promises.
Context `{KConfig}.
Implicit Types (m : k_mutex) (k : kernel) (K : toid -> Prop).

(** C7: locking a mutex. A free mutex, or one the caller already holds, is
    taken at once: the call returns 0, the caller owns it one level deeper and
    its priority at the first level is remembered. A mutex another thread holds
    gives -EBUSY with K_NO_WAIT; otherwise the caller waits for it, off the
    ready queue, and the owner inherits the caller's priority if that is more
    urgent, clamped to the ceiling; no other priority changes. *)
Theorem mutex_lock_correct K m ms k :
  running K k -> in_isr k = false -> lockable k -> mutex_ok K m k ->
  (lock_count m = 0 \/ owner m = Some (current k) -> lock_count m < UINT32_MAX ->
     exists m' k', k_mutex_lock m ms k = Some (Returns 0, m', k') /\ running K k' /\
       mutex_ok K m' k' /\ owner m' = Some (current k) /\ lock_count m' = lock_count m + 1 /\
       owner_orig_prio m' =
         (if lock_count m =? 0 then thread_prio k (current k) else owner_orig_prio m)) /\
  (forall o, owner m = Some o -> o <> current k ->
     (ms = K_NO_WAIT -> exists k', k_mutex_lock m ms k = Some (Returns (- EBUSY), m, k') /\
        running K k' /\ mutex_ok K m k') /\
     (ms <> K_NO_WAIT -> timeout_ok ms -> current k <> _idle_thread ->
        exists k', k_mutex_lock m ms k = Some (Blocks, m, k') /\ running K k' /\
          mutex_ok K m k' /\
          thread_prio k' o =
            Z.max CONFIG_PRIORITY_CEILING (Z.min (thread_prio k (current k)) (thread_prio k o)) /\
          (forall t, t <> o -> thread_prio k' t = thread_prio k t) /\
          current k ∈ wait_qs k' (mutex_wait_q m) /\ current k ∉ ready_list k')).
Proof.
  intros Hru Hi Hl Hok. split; [by apply lock_own|]. intros o Ho Hne. split.
  - intros ->. pose proof Hok as [Mc Mf Mo Mw]. unfold k_mutex_lock.
    destruct (locked_unlock K k Hru Hi Hl) as [Hru1 Hl1].
    destruct (sched_lock_fields k) as (_ & Ew1 & Ec1 & Ei1 & _).
    assert (lock_count m <> 0) as Hn0 by (intros E; apply Mf in E; congruence).
    rewrite (proj2 (Z.eqb_neq _ _) Hn0), bool_decide_eq_false_2 by (rewrite Ec1; congruence).
    destruct (unlock_running K (_sched_lock k) Hru1) as (k2 & -> & Hru2 & _ & Ew2 & _);
      [congruence|done|].
    exists k2. split_and!; [done|done|]. split; try done. rewrite Ew2. exact Mw.
  - intros Hnw Hms Hid.
    destruct (lock_contended K m ms k o Hru Hi Hl Hok Ho Hne Hid Hnw Hms)
      as (k' & ? & ? & ? & ? & ? & ? & ? & _). by exists k'.
Qed.

(** C8: unlocking a mutex its caller holds. A nested level only decrements the
    count. The last level gives the caller its original priority back and hands
    the mutex to the first waiter, which becomes ready with return value 0 and
    owns it at level one with its own priority remembered; with no waiter the
    mutex is free. Afterwards no ready thread is more urgent than a preemptible
    current thread. *)
Theorem mutex_unlock_correct K m k :
  running K k -> in_isr k = false -> lockable k -> mutex_ok K m k ->
  owner m = Some (current k) ->
  exists m' k', k_mutex_unlock m k = Some (m', k') /\ running K k' /\ mutex_ok K m' k' /\
    (1 < lock_count m -> owner m' = owner m /\ lock_count m' = lock_count m - 1) /\
    (lock_count m = 1 ->
       thread_prio k' (current k) = owner_orig_prio m /\ handed_over K m m' k k' /\
       no_more_urgent k').
Proof.
  intros Hru Hi Hl Hok Ho. pose proof Hok as [Mc Mf _ _].
  assert (lock_count m <> 0) as Hn0 by (intros E; apply Mf in E; congruence).
  destruct (decide (lock_count m = 1)) as [E1|Hn1].
  - destruct (unlock_last K m k Hru Hi Hl Hok Ho E1) as (m' & k' & ? & ? & ? & ? & ? & ?).
    exists m', k'. split_and!; try done. lia.
  - destruct (unlock_nested K m k Hru Hi Hl Hok Ho ltac:(lia)) as (m' & k' & ? & ? & ? & ? & ? & _).
    by exists m', k'.
Qed.

(** Priority inheritance never makes the owner less urgent exactly when the
    owner is not already above the ceiling: an owner whose priority is more
    urgent than CONFIG_PRIORITY_CEILING is demoted to the ceiling by any
    contention on its mutex. *)
Theorem inheritance_demotes_above_ceiling waiter_prio owner_prio :
  new_prio_for_inheritance waiter_prio owner_prio <= owner_prio <->
  CONFIG_PRIORITY_CEILING <= owner_prio.
Proof. rewrite inheritance_value. lia. Qed.
End Promises.

(** ** A waiter that times out when the mutex has just become free

    The main thread (priority 0) locks the mutex and sleeps; thread 5 (priority
    5) waits for it for as long as the main thread sleeps; both time out on the
    same tick; the main thread runs first, unlocks (nobody waits any more) and
    sleeps again, so that thread 5 resumes [k_mutex_lock]. *)
Section Scenario.
Definition waiter_thread : tid := 5%positive.
Definition free_mutex : k_mutex := mk_mutex 20%positive None 0 0.

Definition race : option (k_mutex * kernel) :=
  k ← k_thread_spawn waiter_thread false 5 0 0 booted;
  '(_, m, k) ← k_mutex_lock free_mutex K_NO_WAIT k;
  k ← k_sleep 10 k;
  '(_, m, k) ← k_mutex_lock m 10 k;
  k ← timer_isr no_func 1 k;
  k ← timer_isr no_func 1 k;
  '(m, k) ← k_mutex_unlock m k;
  k ← k_sleep 10 k;
  Some (m, k).

(** The code after [_Swap] in [k_mutex_lock] reads [mutex->owner->base.prio]
    through a null pointer when the owner unlocked the mutex between the
    waiter's time-out and its resumption: in the run above thread 5 is current,
    its return value is -EAGAIN, the mutex has no owner, and the rest of
    [k_mutex_lock] fails. *)
Theorem timed_out_waiter_null_owner :
  option_map (fun '(m, k) => (owner m, current k,
                              swap_return_value (threads k (current k)),
                              bool_decide (is_Some (k_mutex_lock_resume m k)))) race
  = Some (None, waiter_thread, - EAGAIN, false).
Proof. vm_compute. reflexivity. Qed.
End Scenario.

Section Witnesses.
Lemma free_mutex_ok : mutex_ok boot_threads free_mutex booted /\ lockable booted.
Proof.
  destruct booted_running as (_ & _ & _ & _ & Ew & _). split.
  - split; [unfold UINT32_MAX; simpl; lia|done|done|]. simpl. by rewrite Ew.
  - vm_compute. split; [discriminate|reflexivity].
Qed.

Lemma mutex_lock_correct_witness :
  exists m' k', k_mutex_lock free_mutex K_FOREVER booted = Some (Returns 0, m', k') /\
    owner m' = Some _main_thread /\ lock_count m' = 1.
Proof.
  destruct free_mutex_ok as [H1 H2]. destruct booted_running as (Hru & Ec & _ & _ & _ & Hi).
  destruct (mutex_lock_correct boot_threads free_mutex K_FOREVER booted Hru Hi H2 H1) as [Hf _].
  destruct Hf as (m' & k' & E & _ & _ & Ho & Hc & _); [left; reflexivity|reflexivity|].
  exists m', k'. split; [exact E|]. rewrite Ec in Ho. split; [exact Ho|exact Hc].
Defined.

Lemma mutex_unlock_correct_witness :
  exists m' k', k_mutex_unlock (mk_mutex 20%positive (Some _main_thread) 1 3) booted = Some (m', k') /\
    owner m' = None /\ thread_prio k' _main_thread = 3.
Proof.
  destruct free_mutex_ok as [_ H2].
  destruct booted_running as (Hru & Ec & _ & _ & Ew & Hi).
  destruct (mutex_unlock_correct boot_threads (mk_mutex 20%positive (Some _main_thread) 1 3)
    booted Hru Hi H2) as (m' & k' & E & _ & _ & _ & Hl).
  - split; [unfold UINT32_MAX; simpl; lia|simpl; split; discriminate| |intros _; discriminate].
    intros t [= <-]. split; [left; right; reflexivity|].
    vm_compute. split; [discriminate|left; reflexivity].
  - rewrite Ec. reflexivity.
  - destruct (Hl eq_refl) as (Hp & Hh & _). unfold handed_over in Hh. simpl in Hh.
    rewrite Ew in Hh. rewrite Ec in Hp. exists m', k'. split; [exact E|].
    split; [exact (proj1 Hh)|exact Hp].
Defined.
End Witnesses.
