(* ===== verification/Queues.v ===== *)
(** * Data queues: fifo.c, lifo.c and stack.c (kernel/unified)

    Each object is a record next to the kernel. Items are the addresses the
    caller passes ([void *]), 0 being the null pointer; the linked lists that
    run through the items ([sys_slist_t], and the chain of a LIFO) are the
    sequences of their nodes, as the file SList justifies. A [_resume] function
    is the end of a call that blocked, in the thread that made it. *)
From S2P Require Import Prelude Kernel ReadyQ TimeoutQ Sched SchedInv SchedApi Thread Boot.

(** A waiting thread gets [data] and runs; shared by the three objects. *)
Section Delivery.
Context `{KConfig}.
Implicit Types (k : kernel) (t : tid) (wq : wqid).

Definition prepare_thread_to_run t (data : Z) k : option kernel :=
  let '(_, k) := _abort_thread_timeout t k in
  k ← _ready_thread t k;
  Some (_set_thread_return_value_with_data t 0 data k).

(** What delivering [data] to the first waiter of [wq] does. *)
Record delivered wq t l (data : Z) k k' : Prop := {
  de_queue : wait_qs k' wq = l;
  de_others wq' : wq' <> wq -> wait_qs k' wq' = wait_qs k wq';
  de_ready : wakeable k t = true -> t ∈ ready_list k';
  de_kept x : x ∈ ready_list k -> x ∈ ready_list k';
  de_schedule : schedule k' = schedule_remove (TO_thread t) (schedule k);
  de_result : swap_return_value (threads k' t) = 0 /\ swap_data (threads k' t) = data;
  de_isr : in_isr k' = in_isr k
}.

Lemma prepare_running K k wq t l data :
  running K k -> wait_qs k wq = t :: l ->
  exists k', prepare_thread_to_run t data (unpend t k) = Some k' /\ running K k' /\
    delivered wq t l data k k' /\ current k' = current k /\ t <> current k /\
    (forall x, x <> t -> threads k' x = threads k x).
Proof.
  intros Hru Hq. destruct (wake_first_running K k wq t l Hru Hq)
    as (k1 & E1 & Hru1 & Hwo & Hq1 & Hq2 & Htc).
  unfold prepare_thread_to_run. unfold wake in E1.
  destruct (_abort_thread_timeout t (unpend t k)) as [r ka]. rewrite E1. cbn [mbind option_bind].
  eexists. split; [reflexivity|]. split_and!.
  - by apply running_with_data.
  - split; cbn; try done.
    + intros Hwk. change (t ∈ ready_list k1). rewrite (wo_ready _ _ _ Hwo), Hwk.
      apply elem_of_prio_insert. by left.
    + intros x Hx. change (x ∈ ready_list k1). by apply (woken_elem t k k1).
    + apply (wo_schedule _ _ _ Hwo).
    + by rewrite !fn_lookup_alter.
    + apply (wo_in_isr _ _ _ Hwo).
  - apply (wo_current _ _ _ Hwo).
  - done.
  - intros x Hx. cbn. rewrite !fn_lookup_alter_ne by done. by apply (wo_threads _ _ _ Hwo).
Qed.

(** Delivering and then switching if needed. *)
Lemma deliver_and_switch K k wq t l data :
  running K k -> wait_qs k wq = t :: l ->
  exists k1 k', prepare_thread_to_run t data (unpend t k) = Some k1 /\
    swap_if_needed k1 = Some k' /\ running K k' /\ delivered wq t l data k k' /\
    (in_isr k = false -> no_more_urgent k').
Proof.
  intros Hru Hq. destruct (prepare_running K k wq t l data Hru Hq)
    as (k1 & E1 & Hru1 & Hde & Ec & Htc & _).
  destruct (finish_running K k1 k1 t Hru1 Hru1 (same_queues_refl k1) eq_refl)
    as (k2 & E2 & Hru2 & Hsq & Hnu & Ht).
  exists k1, k2. split_and!; try done.
  - destruct Hde. split.
    + by rewrite (sq_wait_qs _ _ Hsq).
    + intros. rewrite (sq_wait_qs _ _ Hsq). auto.
    + intros. rewrite (same_queues_ready _ _ Hsq). auto.
    + intros. rewrite (same_queues_ready _ _ Hsq). auto.
    + rewrite <- de_schedule0. unfold schedule. by rewrite (sq_timeouts _ _ Hsq), (sq_timeout_q _ _ Hsq).
    + rewrite Ht by congruence. done.
    + by rewrite (sq_in_isr _ _ Hsq).
  - intros Hi. apply Hnu. by rewrite (de_isr _ _ _ _ _ _ Hde).
Qed.

(** What the blocked getters return once they run again. *)
Definition get_resume t k : Z :=
  if swap_return_value (threads k t) =? 0 then swap_data (threads k t) else 0.
End Delivery.

Module Fifo.
Record k_fifo := mk_fifo { wait_q : wqid; data_q : list Z }.

Section Operations.
Context `{KConfig}.
Implicit Types (f : k_fifo) (k : kernel).

Definition k_fifo_init (wq : wqid) k : k_fifo * kernel := (mk_fifo wq [], upd_wait_q wq [] k).

Definition k_fifo_put f (data : Z) k : option (k_fifo * kernel) :=
  match _unpend_first_thread (wait_q f) k with
  | (Some t, k) =>
      k ← prepare_thread_to_run t data k;
      k ← swap_if_needed k;
      Some (f, k)
  | (None, k) => Some (mk_fifo (wait_q f) (data_q f ++ [data]), k)
  end.

(** The [while] loop: the items not handed to a waiting thread are left. *)
Fixpoint put_list_loop (wq : wqid) (items : list Z) k : option (list Z * kernel) :=
  match items with
  | [] => Some ([], k)
  | d :: items' =>
      match _unpend_first_thread wq k with
      | (Some t, k) => k ← prepare_thread_to_run t d k; put_list_loop wq items' k
      | (None, k) => Some (items, k)
      end
  end.

(** [items] is the chain from [head] to [tail]. *)
Definition k_fifo_put_list f (items : list Z) k : option (k_fifo * kernel) :=
  match items with
  | [] => None
  | _ =>
      let first_thread := _peek_first_pending_thread (wait_q f) k in
      '(rest, k) ← put_list_loop (wait_q f) items k;
      let f := match rest with [] => f | _ => mk_fifo (wait_q f) (data_q f ++ rest) end in
      k ← (match first_thread with Some _ => swap_if_needed k | None => Some k end);
      Some (f, k)
  end.

Definition k_fifo_put_slist f (items : list Z) k : option (k_fifo * kernel) :=
  k_fifo_put_list f items k.

Definition k_fifo_get f (timeout : Z) k : option (outcome Z * k_fifo * kernel) :=
  match data_q f with
  | data :: rest => Some (Returns data, mk_fifo (wait_q f) rest, k)
  | [] =>
      if timeout =? K_NO_WAIT then Some (Returns 0, f, k)
      else
        k ← _pend_current_thread (wait_q f) timeout k;
        k ← _Swap k;
        Some (Blocks, f, k)
  end.
End Operations.

Section Behaviour.
Context `{KConfig}.
Implicit Types (f : k_fifo) (k : kernel) (K : toid -> Prop).

(** Threads wait only for an empty FIFO. *)
Definition fifo_ok f k : Prop := wait_qs k (wait_q f) <> [] -> data_q f = [].

Lemma put_list_loop_running K wq k items :
  running K k ->
  exists k', put_list_loop wq items k = Some (drop (length (wait_qs k wq)) items, k') /\
    running K k' /\ wait_qs k' wq = drop (length items) (wait_qs k wq) /\
    (forall wq', wq' <> wq -> wait_qs k' wq' = wait_qs k wq') /\
    current k' = current k /\ in_isr k' = in_isr k /\
    (forall i t d, wait_qs k wq !! i = Some t -> items !! i = Some d ->
       swap_return_value (threads k' t) = 0 /\ swap_data (threads k' t) = d) /\
    (forall x, x ∉ wait_qs k wq -> threads k' x = threads k x).
Proof.
  revert k. induction items as [|d items IH]; intros k Hru; simpl.
  - exists k. rewrite drop_nil, drop_0. by split_and!.
  - unfold _unpend_first_thread. destruct (wait_qs k wq) as [|t l] eqn:Eq.
    { exists k. split_and!; try done. }
    fold (unpend t k). destruct (prepare_running K k wq t l d Hru Eq)
      as (k1 & -> & Hru1 & Hde & Ec & Htc & Hne). cbn [mbind option_bind].
    destruct (IH k1 Hru1) as (k2 & -> & Hru2 & Eq2 & Hw2 & Ec2 & Ei2 & Hr2 & Hf2).
    rewrite (de_queue _ _ _ _ _ _ Hde) in *.
    pose proof (kw_wq_nodup K None k (ru_wf K k Hru) wq) as Hnd. rewrite Eq in Hnd.
    apply NoDup_cons in Hnd as [Htl _].
    exists k2. split_and!; try done.
    + intros wq' Hne'. rewrite Hw2 by done. by apply (de_others _ _ _ _ _ _ Hde).
    + congruence.
    + rewrite Ei2. apply (de_isr _ _ _ _ _ _ Hde).
    + intros [|i] t' d'; simpl.
      * intros [= <-] [= <-]. rewrite Hf2 by done. apply (de_result _ _ _ _ _ _ Hde).
      * apply Hr2.
    + intros x [? ?]%not_elem_of_cons. rewrite Hf2 by done. by apply Hne.
Qed.
End Behaviour.

(** Putting an item into a FIFO always succeeds: with nobody waiting the
    item joins the end of the queue and the kernel is untouched; otherwise the
    queue is empty and the first waiter gets the item as the result of its
    [k_fifo_get], with its timeout cancelled, ready to run. *)
Lemma put_running `{KConfig} K f data k :
  running K k -> fifo_ok f k ->
  exists f' k', k_fifo_put f data k = Some (f', k') /\ running K k' /\ fifo_ok f' k' /\
    (in_isr k = true -> current k' = current k) /\
    match wait_qs k (wait_q f) with
    | [] => data_q f' = data_q f ++ [data] /\ k' = k
    | t :: l => data_q f' = [] /\ delivered (wait_q f) t l data k k' /\
                get_resume t k' = data /\ (in_isr k = false -> no_more_urgent k')
    end.
Proof.
  intros Hru Hok. unfold k_fifo_put, _unpend_first_thread.
  destruct (wait_qs k (wait_q f)) as [|t l] eqn:Eq.
  - eexists _, k. split; [reflexivity|]. split_and!; try done. intros Hq. cbn in Hq. by rewrite Eq in Hq.
  - fold (unpend t k). destruct (deliver_and_switch K k (wait_q f) t l data Hru Eq)
      as (k1 & k2 & E1 & E2 & Hru2 & Hde & Hnu). rewrite E1. cbn [mbind option_bind]. rewrite E2.
    cbn [mbind option_bind]. exists f, k2.
    assert (data_q f = []) as Hd by (apply Hok; by rewrite Eq).
    split_and!; try done; [by intros _| |].
    { intros Hi. destruct (prepare_running K k (wait_q f) t l data Hru Eq)
        as (k1' & E1' & _ & Hde1 & Ec1 & _). rewrite E1 in E1'. injection E1' as <-.
      unfold swap_if_needed, must_switch_if_not_isr in E2.
      rewrite (de_isr _ _ _ _ _ _ Hde1), Hi in E2. by injection E2 as <-. }
    unfold get_resume. by destruct (de_result _ _ _ _ _ _ Hde) as [-> ->].
Qed.


(** Putting a chain of items into a FIFO hands the first of them, in order,
    to the waiting threads, in order, and queues exactly those that are left
    over; as many threads as there are items leave the wait queue. *)
Theorem fifo_put_list_correct `{KConfig} K f items k :
  running K k -> fifo_ok f k -> items <> [] ->
  let waiters := wait_qs k (wait_q f) in
  exists f' k', k_fifo_put_list f items k = Some (f', k') /\ running K k' /\ fifo_ok f' k' /\
    data_q f' = data_q f ++ drop (length waiters) items /\
    wait_qs k' (wait_q f) = drop (length items) waiters /\
    (forall i t d, waiters !! i = Some t -> items !! i = Some d -> get_resume t k' = d).
Proof.
  intros Hru Hok Hne. cbn zeta. unfold k_fifo_put_list. destruct items as [|d items]; [done|].
  set (its := d :: items).
  destruct (put_list_loop_running K (wait_q f) k its Hru)
    as (k1 & -> & Hru1 & Eq1 & _ & Ec1 & Ei1 & Hr1 & _).
  set (waiters := wait_qs k (wait_q f)) in *. cbn [mbind option_bind].
  assert (exists k2, (match _peek_first_pending_thread (wait_q f) k with
                      | Some _ => swap_if_needed k1 | None => Some k1 end) = Some k2 /\
            running K k2 /\ same_queues k1 k2 /\
            forall t, t ∈ waiters -> threads k2 t = threads k1 t) as (k2 & -> & Hru2 & Hsq & Ht2).
  { destruct (_peek_first_pending_thread _ _).
    - destruct (finish_running K k1 k1 (current k) Hru1 Hru1 (same_queues_refl k1) eq_refl)
        as (k2 & E2 & Hru2 & Hsq & _).
      exists k2. split_and!; try done. intros x Hx.
      destruct (finish_running K k1 k1 x Hru1 Hru1 (same_queues_refl k1) eq_refl)
        as (k2' & E2' & _ & _ & _ & Ht). rewrite E2 in E2'. simplify_eq. apply Ht.
      intros ->. rewrite Ec1 in Hx.
      by apply (ready_not_waiting K None k (current k) (wait_q f) (ru_wf K k Hru) (ru_current K k Hru)).
    - exists k1. split_and!; try done. apply same_queues_refl. }
  cbn [mbind option_bind].
  remember (drop (length waiters) its) as rest eqn:Erest.
  set (f' := match rest with [] => f | _ => mk_fifo (wait_q f) (data_q f ++ rest) end).
  assert (Hf' : f' = mk_fifo (wait_q f) (data_q f ++ rest)).
  { unfold f'. destruct rest; [|done]. rewrite app_nil_r. by destruct f. }
  rewrite Hf'.
  eexists _, k2. split; [reflexivity|]. split_and!; try done.
  - unfold fifo_ok. cbn [wait_q data_q]. rewrite Erest, (sq_wait_qs _ _ Hsq), Eq1. intros Hq.
    assert (length its < length waiters)%nat as Hlt.
    { destruct (decide (length waiters <= length its)%nat) as [Hle|]; [|lia].
      by rewrite drop_ge in Hq. }
    rewrite (drop_ge its) by lia. rewrite app_nil_r. apply Hok. fold waiters. intros E. rewrite E in Hlt. simpl in Hlt. lia.
  - rewrite (sq_wait_qs _ _ Hsq). exact Eq1.
  - intros i t x Hi Hx. destruct (Hr1 i t x Hi Hx) as [H1 H2]. unfold get_resume.
    rewrite Ht2 by (eapply list_elem_of_lookup_2; exact Hi). by rewrite H1, H2.
Qed.
End Fifo.

Module Lifo.
(** [list] is the chain of items from [lifo->list]. *)
Record k_lifo := mk_lifo { wait_q : wqid; list_ : list Z }.

Section Operations.
Context `{KConfig}.
Implicit Types (f : k_lifo) (k : kernel).

Definition k_lifo_init (wq : wqid) k : k_lifo * kernel := (mk_lifo wq [], upd_wait_q wq [] k).

Definition k_lifo_put f (data : Z) k : option (k_lifo * kernel) :=
  match _unpend_first_thread (wait_q f) k with
  | (Some t, k) =>
      let '(_, k) := _abort_thread_timeout t k in
      k ← _ready_thread t k;
      let k := _set_thread_return_value_with_data t 0 data k in
      k ← swap_if_needed k;
      Some (f, k)
  | (None, k) => Some (mk_lifo (wait_q f) (data :: list_ f), k)
  end.

Definition k_lifo_get f (timeout : Z) k : option (outcome Z * k_lifo * kernel) :=
  match list_ f with
  | data :: rest => Some (Returns data, mk_lifo (wait_q f) rest, k)
  | [] =>
      if timeout =? K_NO_WAIT then Some (Returns 0, f, k)
      else
        k ← _pend_current_thread (wait_q f) timeout k;
        k ← _Swap k;
        Some (Blocks, f, k)
  end.

Lemma put_eq f data k t l :
  wait_qs k (wait_q f) = t :: l ->
  k_lifo_put f data k =
  (k ← prepare_thread_to_run t data (unpend t k); k ← swap_if_needed k; Some (f, k)).
Proof.
  intros Eq. unfold k_lifo_put, _unpend_first_thread. rewrite Eq. fold (unpend t k).
  unfold prepare_thread_to_run. destruct (_abort_thread_timeout t (unpend t k)) as [r ka].
  by destruct (_ready_thread t ka).
Qed.
End Operations.

Definition lifo_ok f k : Prop := wait_qs k (wait_q f) <> [] -> list_ f = [].
End Lifo.

Module Stack.
(** [base], [next] and [top] as indices into the [uint32_t] array [buffer]
    points to; [words] is that array. *)
Record k_stack := mk_stack {
  wait_q : wqid;
  base : Z;
  next : Z;
  top : Z;
  words : Z -> Z
}.

Section Operations.
Context `{KConfig}.
Implicit Types (s : k_stack) (k : kernel).

Definition k_stack_init (wq : wqid) (buffer : Z) (words : Z -> Z) (num_entries : Z) k
    : k_stack * kernel :=
  (mk_stack wq buffer buffer (buffer + num_entries) words, upd_wait_q wq [] k).

(** [None] is the failed assertion: the stack is full. *)
Definition k_stack_push s (data : Z) k : option (k_stack * kernel) :=
  if next s =? top s then None
  else
    match _unpend_first_thread (wait_q s) k with
    | (Some t, k) =>
        let '(_, k) := _abort_thread_timeout t k in
        k ← _ready_thread t k;
        let k := _set_thread_return_value_with_data t 0 data k in
        k ← swap_if_needed k;
        Some (s, k)
    | (None, k) =>
        Some (mk_stack (wait_q s) (base s) (next s + 1) (top s) (<[next s := data]> (words s)), k)
    end.

(** The value popped is the second component. *)
Definition k_stack_pop s (timeout : Z) k : option (outcome (Z * option Z) * k_stack * kernel) :=
  if base s <? next s then
    let s' := mk_stack (wait_q s) (base s) (next s - 1) (top s) (words s) in
    Some (Returns (0, Some (words s (next s'))), s', k)
  else if timeout =? K_NO_WAIT then Some (Returns (- EBUSY, None), s, k)
  else
    k ← _pend_current_thread (wait_q s) timeout k;
    k ← _Swap k;
    Some (Blocks, s, k).

Definition k_stack_pop_resume (t : tid) k : Z * option Z :=
  let result := swap_return_value (threads k t) in
  (result, if result =? 0 then Some (u32 (swap_data (threads k t))) else None).

Lemma push_eq s data k t l :
  next s <> top s -> wait_qs k (wait_q s) = t :: l ->
  k_stack_push s data k =
  (k ← prepare_thread_to_run t data (unpend t k); k ← swap_if_needed k; Some (s, k)).
Proof.
  intros Hne Eq. unfold k_stack_push. rewrite (proj2 (Z.eqb_neq _ _) Hne).
  unfold _unpend_first_thread. rewrite Eq. fold (unpend t k).
  unfold prepare_thread_to_run. destruct (_abort_thread_timeout t (unpend t k)) as [r ka].
  by destruct (_ready_thread t ka).
Qed.
End Operations.

(** The contents, most recent first, and the invariant. *)
Definition contents s : list Z := words s <$> reverse (seqZ (base s) (next s - base s)).

Record stack_ok s k : Prop := {
  st_range : base s <= next s <= top s;
  st_waiters : wait_qs k (wait_q s) <> [] -> base s = next s
}.

Lemma seqZ_snoc b n : b <= n -> seqZ b (n + 1 - b) = seqZ b (n - b) ++ [n].
Proof.
  intros. replace (n + 1 - b) with ((n - b) + 1) by lia. rewrite seqZ_app by lia.
  by replace (b + (n - b)) with n by lia.
Qed.

Lemma contents_push s d :
  base s <= next s ->
  contents (mk_stack (wait_q s) (base s) (next s + 1) (top s) (<[next s := d]> (words s))) =
  d :: contents s.
Proof.
  intros Hle. unfold contents. cbn. rewrite seqZ_snoc, reverse_snoc by done.
  rewrite fmap_cons, fn_lookup_insert. f_equal. apply list_fmap_ext. intros i x Hx.
  apply list_elem_of_lookup_2 in Hx. rewrite elem_of_reverse, elem_of_seqZ in Hx.
  rewrite fn_lookup_insert_ne; [done|lia].
Qed.

Lemma contents_pop s :
  base s < next s ->
  contents s = words s (next s - 1) ::
    contents (mk_stack (wait_q s) (base s) (next s - 1) (top s) (words s)).
Proof.
  intros Hlt. unfold contents. cbn.
  replace (next s - base s) with (next s - 1 + 1 - base s) by lia.
  by rewrite seqZ_snoc, reverse_snoc by lia.
Qed.
End Stack.

(** The LIFO and the stack give items back most recent first. Putting an
    item with nobody waiting and taking it out again returns it and restores
    the object, and the kernel is untouched; with threads waiting, the first of
    them gets the item instead. The stack never writes outside its buffer. *)
Theorem lifo_and_stack_correct `{KConfig} K k data :
  running K k ->
  (forall f, Lifo.lifo_ok f k ->
     match wait_qs k (Lifo.wait_q f) with
     | [] => exists f', Lifo.k_lifo_put f data k = Some (f', k) /\
               forall ms, Lifo.k_lifo_get f' ms k = Some (Returns data, f, k)
     | t :: l => exists k', Lifo.k_lifo_put f data k = Some (f, k') /\ running K k' /\
               delivered (Lifo.wait_q f) t l data k k' /\ get_resume t k' = data
     end) /\
  (forall s, Stack.stack_ok s k -> Stack.next s <> Stack.top s ->
     match wait_qs k (Stack.wait_q s) with
     | [] => exists s', Stack.k_stack_push s data k = Some (s', k) /\ Stack.stack_ok s' k /\
               Stack.contents s' = data :: Stack.contents s /\
               (forall i, i < Stack.base s \/ Stack.top s <= i -> Stack.words s' i = Stack.words s i) /\
               forall ms, exists s'', Stack.k_stack_pop s' ms k = Some (Returns (0, Some data), s'', k) /\
                 Stack.contents s'' = Stack.contents s /\ Stack.next s'' = Stack.next s
     | t :: l => exists k', Stack.k_stack_push s data k = Some (s, k') /\ running K k' /\
               delivered (Stack.wait_q s) t l data k k' /\
               Stack.k_stack_pop_resume t k' = (0, Some (u32 data))
     end).
Proof.
  intros Hru. split.
  - intros f Hok. destruct (wait_qs k (Lifo.wait_q f)) as [|t l] eqn:Eq.
    + unfold Lifo.k_lifo_put, _unpend_first_thread. rewrite Eq. eexists. split; [reflexivity|].
      intros ms. cbn. by destruct f.
    + rewrite (Lifo.put_eq f data k t l Eq).
      destruct (deliver_and_switch K k (Lifo.wait_q f) t l data Hru Eq)
        as (k1 & k2 & -> & E2 & Hru2 & Hde & _). cbn [mbind option_bind]. rewrite E2.
      exists k2. split_and!; try done. unfold get_resume.
      by destruct (de_result _ _ _ _ _ _ Hde) as [-> ->].
  - intros s [Hr Hw] Hne. destruct (wait_qs k (Stack.wait_q s)) as [|t l] eqn:Eq.
    + unfold Stack.k_stack_push. rewrite (proj2 (Z.eqb_neq _ _) Hne).
      unfold _unpend_first_thread. rewrite Eq. eexists. split; [reflexivity|]. split_and!.
      * split; cbn; [lia|by rewrite Eq].
      * apply Stack.contents_push. lia.
      * intros i Hi. cbn. rewrite fn_lookup_insert_ne; [done|lia].
      * intros ms. unfold Stack.k_stack_pop. cbn [Stack.base Stack.next].
        rewrite (proj2 (Z.ltb_lt _ _)) by lia. cbn.
        replace (Stack.next s + 1 - 1) with (Stack.next s) by lia. rewrite fn_lookup_insert.
        eexists. split; [reflexivity|]. split; [|done].
        pose proof (Stack.contents_push s data ltac:(lia)) as E1.
        rewrite Stack.contents_pop in E1 by (cbn; lia). cbn in E1.
        replace (Stack.next s + 1 - 1) with (Stack.next s) in E1 by lia. by injection E1.
    + rewrite (Stack.push_eq s data k t l Hne Eq).
      destruct (deliver_and_switch K k (Stack.wait_q s) t l data Hru Eq)
        as (k1 & k2 & -> & E2 & Hru2 & Hde & _). cbn [mbind option_bind]. rewrite E2.
      exists k2. split_and!; try done. unfold Stack.k_stack_pop_resume.
      by destruct (de_result _ _ _ _ _ _ Hde) as [-> ->].
Qed.

Section Witnesses.
Lemma fifo_put_list_correct_witness :
  exists f' k', Fifo.k_fifo_put_list (Fifo.mk_fifo 30%positive [7]) [8; 9] booted = Some (f', k') /\
    Fifo.data_q f' = [7; 8; 9].
Proof.
  destruct booted_running as (Hru & _ & _ & _ & Ew & _).
  destruct (Fifo.fifo_put_list_correct boot_threads (Fifo.mk_fifo 30%positive [7]) [8; 9] booted Hru)
    as (f' & k' & E & _ & _ & Hd & _).
  - unfold Fifo.fifo_ok. simpl. rewrite Ew. intros Hn. destruct (Hn eq_refl).
  - discriminate.
  - simpl in Hd. rewrite Ew in Hd. exists f', k'. split; [exact E|exact Hd].
Defined.

Lemma lifo_and_stack_correct_witness :
  exists f', Lifo.k_lifo_put (Lifo.mk_lifo 30%positive [7]) 9 booted = Some (f', booted) /\
    Lifo.k_lifo_get f' K_NO_WAIT booted = Some (Returns 9, Lifo.mk_lifo 30%positive [7], booted).
Proof.
  destruct booted_running as (Hru & _ & _ & _ & Ew & _).
  destruct (lifo_and_stack_correct boot_threads booted 9 Hru) as [Hl _].
  specialize (Hl (Lifo.mk_lifo 30%positive [7])). simpl in Hl. rewrite Ew in Hl.
  destruct Hl as (f' & E & Hg).
  - unfold Lifo.lifo_ok. simpl. rewrite Ew. intros Hn. destruct (Hn eq_refl).
  - exists f'. split; [exact E|exact (Hg K_NO_WAIT)].
Defined.
End Witnesses.
