(* ===== verification/WorkQ.v ===== *)
(** * Work queues (kernel/unified/work_q.c, with the inline part of
    include/kernel.h)

    A work item is known by its address: [Zpos n] in a FIFO, [n] in the maps.
    The item inside a delayed work item owns the timeout [TO_work n]. Handlers
    are functions of the application, run by [run_handler]. *)
From S2P Require Import Prelude Atomic Kernel ReadyQ TimeoutQ Sched SchedInv SchedApi Thread Boot Clock Queues.
Import Fifo.

Record k_work := mk_work { handler : positive; flags_ : Z -> Z }.

Record work_world := mk_work_world {
  work_kernel : kernel;
  work_fifos : positive -> k_fifo;
  works : positive -> k_work;
  attached : positive -> option positive
}.
#[export] Instance work_world_world : World work_world :=
  {| core := work_kernel;
     set_core := fun k w => mk_work_world k (work_fifos w) (works w) (attached w);
     core_set := fun _ _ => eq_refl |}.

Definition set_fifo (q : positive) (f : k_fifo) (w : work_world) : work_world :=
  mk_work_world (work_kernel w) (<[q := f]> (work_fifos w)) (works w) (attached w).
Definition set_work (n : positive) (x : k_work) (w : work_world) : work_world :=
  mk_work_world (work_kernel w) (work_fifos w) (<[n := x]> (works w)) (attached w).
Definition attach (n : positive) (q : option positive) (w : work_world) : work_world :=
  mk_work_world (work_kernel w) (work_fifos w) (works w) (<[n := q]> (attached w)).

(** What a larger system offers to the work queues it contains: handlers run in
    that system and may change all of it. *)
Class HasWork (W : Type) := {
  work_part : W -> work_world;
  set_work_part : work_world -> W -> W;
  work_part_set x w : work_part (set_work_part x w) = x
}.
#[export] Instance work_has_work : HasWork work_world :=
  {| work_part := fun w => w; set_work_part := fun w _ => w; work_part_set := fun _ _ => eq_refl |}.

Definition K_WORK_STATE_PENDING : Z := 0.

(** The address of [work_timeout]. *)
Definition work_timeout_fn : positive := 2%positive.

Section Operations.
Context `{KConfig}.
Implicit Types (w : work_world) (n q : positive).

Definition k_work_init n (h : positive) w : work_world :=
  set_work n (mk_work h (atomic_clear_bit 0 K_WORK_STATE_PENDING (flags_ (works w n)))) w.

Definition k_work_submit_to_queue q n w : option work_world :=
  let '(was_pending, fl) := atomic_test_and_set_bit 0 K_WORK_STATE_PENDING (flags_ (works w n)) in
  let w := set_work n (mk_work (handler (works w n)) fl) w in
  if (was_pending : bool) then Some w
  else
    '(f, k) ← k_fifo_put (work_fifos w q) (Zpos n) (core w);
    Some (set_fifo q f (set_core k w)).

Definition k_work_pending n w : Z := atomic_test_bit 0 K_WORK_STATE_PENDING (flags_ (works w n)).

(** One turn of the loop of [work_q_main], up to the blocking [k_fifo_get] ... *)
Definition work_q_main_get q w : option (outcome Z * work_world) :=
  '(r, f, k) ← k_fifo_get (work_fifos w q) K_FOREVER (core w);
  Some (r, set_fifo q f (set_core k w)).
(** ... and from it on, with the item it returned, in a system that runs the
    handlers: it takes the mark off, calls the handler and yields. *)
Definition start_work n w : bool * work_world :=
  let '(was_pending, fl) := atomic_test_and_clear_bit 0 K_WORK_STATE_PENDING (flags_ (works w n)) in
  (was_pending, set_work n (mk_work (handler (works w n)) fl) w).
Definition work_q_main_run {W} `{HasWork W} (run_handler : positive -> positive -> W -> option W) n
    (s : W) : option W :=
  let h := handler (works (work_part s) n) in
  let '(was_pending, w) := start_work n (work_part s) in
  s ← (if (was_pending : bool) then run_handler h n (set_work_part w s) else Some (set_work_part w s));
  k ← k_yield (core (work_part s));
  Some (set_work_part (set_core k (work_part s)) s).

Definition k_work_q_start q (wq : wqid) (thread : tid) (prio : Z) w : option work_world :=
  let '(f, k) := k_fifo_init wq (core w) in
  let w := set_fifo q f (set_core k w) in
  k ← k_thread_spawn thread false prio 0 0 (core w);
  Some (set_core k w).

(** [None] is a null [work_q]. *)
Definition work_timeout n w : option work_world :=
  q ← attached w n;
  w ← k_work_submit_to_queue q n w;
  Some (attach n None w).

Definition run_work_timeout (f : positive) (o : toid) w : option work_world :=
  match o with TO_work n => work_timeout n w | _ => None end.

Definition k_delayed_work_init n (h : positive) w : work_world :=
  let w := k_work_init n h w in
  let w := set_core (_init_timeout (TO_work n) (Some work_timeout_fn) (core w)) w in
  attach n None w.

Definition k_delayed_work_cancel n w : Z * work_world :=
  if negb (k_work_pending n w =? 0) then (- EINPROGRESS, w)
  else
    match attached w n with
    | None => (- EINVAL, w)
    | Some _ =>
        let k := snd (_abort_timeout (TO_work n) (core w)) in
        (0, attach n None (set_core k w))
    end.

Definition k_delayed_work_submit_to_queue q n (delay : Z) w : option (Z * work_world) :=
  if match attached w n with Some q' => bool_decide (q' <> q) | None => false end
  then Some (- EADDRINUSE, w)
  else
    let '(err, w) := if bool_decide (attached w n = Some q) then k_delayed_work_cancel n w else (0, w) in
    if err <? 0 then Some (err, w)
    else
      let w := attach n (Some q) w in
      if delay =? 0 then w ← k_work_submit_to_queue q n w; Some (0, w)
      else
        k ← _add_timeout None (TO_work n) None (i32 (_TICK_ALIGN + _ms_to_ticks delay)) (core w);
        Some (0, set_core k w).
End Operations.

(** ** The invariant of work queues *)
Section Invariant.
Context `{KConfig}.
Context (K : toid -> Prop).
Implicit Types (w : work_world) (n q : positive) (k : kernel).

Definition is_pending w n : bool := bits 0 (flags_ (works w n)) 0.

(** Queued items are marked pending and queued once, in one queue; a work item
    whose timeout runs is attached to a queue. *)
Record work_ok w : Prop := {
  wk_fifo q : fifo_ok (work_fifos w q) (core w);
  wk_queued q n : Zpos n ∈ data_q (work_fifos w q) -> is_pending w n = true;
  wk_nodup q : NoDup (data_q (work_fifos w q));
  wk_disj q1 q2 n : Zpos n ∈ data_q (work_fifos w q1) -> Zpos n ∈ data_q (work_fifos w q2) -> q1 = q2;
  wk_ints n : ints (flags_ (works w n));
  wk_attached n : TO_work n ∈ timeout_q (core w) -> attached w n <> None
}.

Lemma work_object n : is_object (TO_work n).
Proof. done. Qed.

Lemma work_ok_core k w :
  work_ok w -> (forall wq, wait_qs k wq <> [] -> wait_qs (core w) wq <> []) ->
  (forall n, TO_work n ∈ timeout_q k -> TO_work n ∈ timeout_q (core w)) -> work_ok (set_core k w).
Proof.
  intros [H1 H2 H3 H4 H5 H6] Hw Ht. split; try done.
  - intros q Hq. by apply H1, Hw.
  - intros n Hin. by apply H6, Ht.
Qed.

Lemma work_ok_calmer k w : work_ok w -> calmer (core w) k -> work_ok (set_core k w).
Proof.
  intros Hok [C1 C2 _ _]. apply work_ok_core; [done| |intros n; apply C2].
  intros wq Hne E. destruct (wait_qs k wq) as [|x l] eqn:Eq; [done|].
  assert (x ∈ wait_qs (core w) wq) as Hin by (apply C1; rewrite Eq; apply elem_of_cons; by left).
  rewrite E in Hin. by apply elem_of_nil in Hin.
Qed.

Lemma work_ok_attach n (q : option positive) w :
  work_ok w -> (q = None -> TO_work n ∉ timeout_q (core w)) -> work_ok (attach n q w).
Proof.
  intros [H1 H2 H3 H4 H5 H6] Hq. split; try done.
  intros x Hin. cbn. destruct (decide (x = n)) as [->|Hne].
  - rewrite fn_lookup_insert. intros ->. by apply Hq.
  - rewrite fn_lookup_insert_ne by done. by apply H6.
Qed.

Lemma pending_value n w : ints (flags_ (works w n)) -> k_work_pending n w = Z.b2z (is_pending w n).
Proof. intros Hi. by destruct (atomic_bitmap 0 0 _ Hi ltac:(lia)) as [E _]. Qed.

Lemma set_work_other n x w n' : n' <> n -> works (set_work n x w) n' = works w n'.
Proof. intros. by apply fn_lookup_insert_ne. Qed.

Lemma set_work_same n x w : works (set_work n x w) n = x.
Proof. apply fn_lookup_insert. Qed.

(** Marking an item that is already pending, or one that is not queued. *)
Lemma work_ok_set n x w :
  work_ok w -> ints (flags_ x) ->
  (bits 0 (flags_ x) 0 = true \/ forall q, Zpos n ∉ data_q (work_fifos w q)) -> work_ok (set_work n x w).
Proof.
  intros [H1 H2 H3 H4 H5 H6] Hi Hb. split; try done.
  - intros q n' Hin. unfold is_pending. destruct (decide (n' = n)) as [->|Hne].
    + rewrite set_work_same. destruct Hb as [?|Hb]; [done|]. by destruct (Hb q).
    + rewrite set_work_other by done. by apply (H2 q).
  - intros n'. destruct (decide (n' = n)) as [->|Hne]; [by rewrite set_work_same|].
    rewrite set_work_other by done. apply H5.
Qed.

(** What submitting a work item that is not pending does. *)
Definition submitted q n w w' : Prop :=
  match wait_qs (core w) (wait_q (work_fifos w q)) with
  | [] => core w' = core w /\ data_q (work_fifos w' q) = data_q (work_fifos w q) ++ [Zpos n]
  | t :: l => data_q (work_fifos w' q) = [] /\
              delivered (wait_q (work_fifos w q)) t l (Zpos n) (core w) (core w') /\
              get_resume t (core w') = Zpos n
  end.

Lemma expired_removed k k' o : schedule k' = schedule_remove o (schedule k) -> (expired k' <= expired k)%nat.
Proof. intros E. unfold expired. rewrite E. apply expired_remove. Qed.

Lemma removed_queued k k' o x :
  schedule k' = schedule_remove o (schedule k) -> x ∈ timeout_q k' -> x ∈ timeout_q k.
Proof.
  intros E (a & Ha)%(expiries_elem 0 (timeouts k')). fold (schedule k') in Ha. rewrite E in Ha.
  apply schedule_remove_elem in Ha as [_ Ha]. apply (expiries_elem 0 (timeouts k)). by exists a.
Qed.

Record submit_frame q n w w' : Prop := {
  sf_pending : is_pending w' n = true;
  sf_handler n' : handler (works w' n') = handler (works w n');
  sf_others n' : n' <> n -> works w' n' = works w n';
  sf_fifos q' : q' <> q -> work_fifos w' q' = work_fifos w q';
  sf_attached : attached w' = attached w;
  sf_expired : (expired (core w') <= expired (core w))%nat;
  sf_timeouts o : o ∈ timeout_q (core w') -> o ∈ timeout_q (core w);
  sf_current : in_isr (core w) = true -> current (core w') = current (core w);
  sf_isr : in_isr (core w') = in_isr (core w)
}.

(** What giving an item to a queue does to its FIFO and to the kernel. *)
Lemma put_item q n w f' k' :
  work_ok w -> (forall q', Zpos n ∉ data_q (work_fifos w q')) ->
  match wait_qs (core w) (wait_q (work_fifos w q)) with
  | [] => data_q f' = data_q (work_fifos w q) ++ [Zpos n] /\ k' = core w
  | t :: l => data_q f' = [] /\ delivered (wait_q (work_fifos w q)) t l (Zpos n) (core w) k'
  end ->
  NoDup (data_q f') /\ (forall z, z ∈ data_q f' -> z ∈ data_q (work_fifos w q) \/ z = Zpos n) /\
  (expired k' <= expired (core w))%nat /\ (forall o, o ∈ timeout_q k' -> o ∈ timeout_q (core w)) /\
  in_isr k' = in_isr (core w) /\ (forall wq, wait_qs k' wq <> [] -> wait_qs (core w) wq <> []).
Proof.
  intros Hok Hnq Hm. destruct (wait_qs (core w) (wait_q (work_fifos w q))) as [|t l] eqn:Eq; destruct Hm as [-> Hm].
  - subst k'. split_and!; try done.
    + apply NoDup_app. split_and!; [apply (wk_nodup w Hok q)| |apply NoDup_singleton].
      intros z Hz ->%list_elem_of_singleton. by apply (Hnq q).
    + intros z. rewrite elem_of_app, list_elem_of_singleton. naive_solver.
  - pose proof (de_schedule _ _ _ _ _ _ Hm) as Es. split_and!.
    + constructor.
    + by intros z ?%elem_of_nil.
    + by eapply expired_removed.
    + intros o. by eapply removed_queued.
    + apply (de_isr _ _ _ _ _ _ Hm).
    + intros wq. destruct (decide (wq = wait_q (work_fifos w q))) as [->|Hne]; [by rewrite Eq|].
      by rewrite (de_others _ _ _ _ _ _ Hm).
Qed.

(** Putting a pending item on a queue, when it is on none. *)
Lemma work_ok_queued q n f' w :
  work_ok w -> is_pending w n = true -> (forall q', Zpos n ∉ data_q (work_fifos w q')) ->
  fifo_ok f' (core w) -> NoDup (data_q f') -> (forall z, z ∈ data_q f' -> z ∈ data_q (work_fifos w q) \/ z = Zpos n) ->
  work_ok (set_fifo q f' w).
Proof.
  intros [H1 H2 H3 H4 H5 H6] Hpn Hnq Hf' Hnd Hdata. set (w2 := set_fifo q f' w).
  assert (Hfq : work_fifos w2 q = f') by apply fn_lookup_insert.
  assert (Hfo : forall q', q' <> q -> work_fifos w2 q' = work_fifos w q') by (intros; by apply fn_lookup_insert_ne).
  assert (Hwhere : forall q' n', Zpos n' ∈ data_q (work_fifos w2 q') ->
    Zpos n' ∈ data_q (work_fifos w q') \/ (q' = q /\ n' = n)).
  { intros q' n'. destruct (decide (q' = q)) as [->|Hne]; [|rewrite Hfo by done; by left].
    rewrite Hfq. intros [?|[= ->]]%Hdata; auto. }
  split.
  - intros q'. destruct (decide (q' = q)) as [->|Hne]; [by rewrite Hfq|rewrite Hfo by done; apply H1].
  - intros q' n' [Hin|[-> ->]]%Hwhere; [by apply (H2 q')|exact Hpn].
  - intros q'. destruct (decide (q' = q)) as [->|Hne]; [by rewrite Hfq|rewrite Hfo by done; apply H3].
  - intros q1 q2 n' [Hin1|[-> ->]]%Hwhere [Hin2|[-> E2]]%Hwhere; try done.
    + by apply (H4 q1 q2 n').
    + subst n'. by destruct (Hnq q1).
    + by destruct (Hnq q2).
  - exact H5.
  - exact H6.
Qed.

Lemma submit_ok q n w :
  work_ok w -> running K (core w) ->
  exists w', k_work_submit_to_queue q n w = Some w' /\ work_ok w' /\ running K (core w') /\
    submit_frame q n w w' /\
    (if is_pending w n then core w' = core w /\ work_fifos w' = work_fifos w else submitted q n w w').
Proof.
  intros Hok Hru. unfold k_work_submit_to_queue.
  destruct (atomic_bitmap 0 0 _ (wk_ints w Hok n) ltac:(lia)) as (_ & Hts & _).
  change K_WORK_STATE_PENDING with 0.
  destruct (atomic_test_and_set_bit 0 0 (flags_ (works w n))) as [was fl].
  destruct Hts as (-> & _ & Hi & Hb). fold (is_pending w n).
  assert (Hp : bits 0 fl 0 = true) by (rewrite Hb by lia; by rewrite decide_True).
  set (x := mk_work (handler (works w n)) fl). set (w1 := set_work n x w).
  assert (work_ok w1) as Hok1 by (apply work_ok_set; [done|done|by left]).
  assert (Hpn : is_pending w1 n = true) by (unfold is_pending, w1; by rewrite set_work_same).
  assert (Hh : forall n', handler (works w1 n') = handler (works w n')).
  { intros n'. unfold w1. destruct (decide (n' = n)) as [->|]; [by rewrite set_work_same|by rewrite set_work_other]. }
  assert (Hoth : forall n', n' <> n -> works w1 n' = works w n') by (intros; by apply set_work_other).
  destruct (is_pending w n) eqn:Epd.
  { exists w1. split_and!; try done. }
  change (core w1) with (core w). change (work_fifos w1) with (work_fifos w).
  destruct (put_running K (work_fifos w q) (Zpos n) (core w) Hru (wk_fifo w Hok q))
    as (f' & k' & -> & Hru' & Hf' & Hcur & Hm). cbn [mbind option_bind].
  assert (Hnq : forall q', Zpos n ∉ data_q (work_fifos w q'))
    by (intros q' Hin; by rewrite (wk_queued w Hok q' n Hin) in Epd).
  destruct (put_item q n w f' k' Hok Hnq) as (Hnd & Hdata & Hex & Hto & Hisr & Hwq).
  { destruct (wait_qs (core w) _); destruct Hm as [? Hm]; [done|]. by destruct Hm. }
  exists (set_fifo q f' (set_core k' w1)). split_and!; try done.
  - apply (work_ok_queued q n); try done. by apply (work_ok_core k' w1 Hok1 Hwq (fun n' => Hto (TO_work n'))).
  - split; try done. intros q' Hne. by apply fn_lookup_insert_ne.
  - unfold submitted. assert (work_fifos (set_fifo q f' (set_core k' w1)) q = f') as -> by apply fn_lookup_insert.
    destruct (wait_qs (core w) (wait_q (work_fifos w q))); destruct Hm as [Hd Hm]; [done|].
    destruct Hm as (? & ? & _). done.
Qed.
End Invariant.

(** ** What work queues promise *)
Section Promises.
Context `{KConfig}.
Context (K : toid -> Prop).
Implicit Types (w : work_world) (n q : positive) (k : kernel).

Lemma work_callbacks :
  (forall n, ~ K (TO_timer n)) ->
  callbacks_ok K (fun w => work_ok w /\ in_isr (core w) = true) run_work_timeout.
Proof.
  intros Hnt f o l w [Hok Hi] Hru El Ed Hob Hru1 Hol.
  assert (o ∈ timeout_q (core w)) as Hin by (rewrite El; apply elem_of_cons; by left).
  pose proof (kw_known K None _ (ru_wf K _ Hru) o Hin) as HK.
  destruct o as [t|n|n]; [by destruct (Hob t)|by destruct (Hnt n)|].
  cbn [run_work_timeout]. unfold work_timeout.
  set (w1 := set_core (pop (TO_work n) (core w)) w).
  pose proof (wk_attached w Hok n Hin) as Ha. change (attached w1 n) with (attached w n).
  destruct (attached w n) as [q|] eqn:Eq; [|done]. cbn [mbind option_bind].
  assert (work_ok w1) as Hok1 by (apply work_ok_calmer; [done|apply calmer_pop]).
  destruct (submit_ok K q n w1 Hok1 Hru1) as (w2 & -> & Hok2 & Hru2 & Hfr & _). cbn [mbind option_bind].
  destruct Hfr as [_ _ _ _ _ F5 F6 F7 F8].
  exists (attach n None w2). split_and!; try done.
  - apply work_ok_attach; [done|]. intros _ Hin2. apply F6 in Hin2. cbn in Hin2.
    change (timeout_q (work_kernel w)) with (timeout_q (core w)) in Hin2. by rewrite El in Hin2.
  - change (in_isr (core w2) = true). by rewrite F8.
  - by apply F7.
Qed.

(** A tick announcement in a system with delayed work returns, whatever is
    due, with the kernel and the work queues well formed: every item in a queue
    is marked pending, is there once, and no item whose timeout runs has lost
    its queue. *)
Theorem work_announce_safe ticks w :
  (forall n, ~ K (TO_timer n)) -> work_ok w -> running K (core w) -> in_isr (core w) = true ->
  not_past (core w) ticks ->
  exists w', _nano_sys_clock_tick_announce run_work_timeout ticks w = Some w' /\
    work_ok w' /\ running K (core w') /\ expired (core w') = O /\ current (core w') = current (core w).
Proof.
  intros Hnt Hok Hru Hi Hnp.
  destruct (announce_running K (fun w => work_ok w /\ in_isr (core w) = true) run_work_timeout
    (work_callbacks Hnt)) with (ticks := ticks) (w := w) as (w' & ? & [? _] & ? & ? & ?); try done.
  - intros k w0 [H1 H2] Hc. split; [by apply work_ok_calmer|]. change (in_isr k = true).
    rewrite (cm_isr _ _ Hc). done.
  - by exists w'.
Qed.

(** submitting a work item queues it exactly once until it runs: if it is
    already pending nothing happens; otherwise it is marked pending and goes to
    the end of the queue, or straight to the waiting work queue thread. *)
Theorem work_submit_correct q n w :
  work_ok w -> running K (core w) ->
  exists w', k_work_submit_to_queue q n w = Some w' /\ work_ok w' /\ running K (core w') /\
    k_work_pending n w' = 1 /\
    (k_work_pending n w = 1 -> core w' = core w /\ work_fifos w' = work_fifos w) /\
    (k_work_pending n w = 0 ->
       match wait_qs (core w) (wait_q (work_fifos w q)) with
       | [] => core w' = core w /\ data_q (work_fifos w' q) = data_q (work_fifos w q) ++ [Zpos n]
       | t :: l => data_q (work_fifos w' q) = [] /\
                   delivered (wait_q (work_fifos w q)) t l (Zpos n) (core w) (core w') /\
                   get_resume t (core w') = Zpos n
       end).
Proof.
  intros Hok Hru. destruct (submit_ok K q n w Hok Hru) as (w' & E & Hok' & Hru' & Hfr & Hm).
  exists w'. rewrite !pending_value by (by apply wk_ints).
  rewrite (sf_pending _ _ _ _ Hfr). split_and!; try done; destruct (is_pending w n); done.
Qed.

(** *** Delayed work *)
Lemma cancel_detached n w :
  work_ok w -> running K (core w) -> K (TO_work n) ->
  let w' := attach n None (set_core (snd (_abort_timeout (TO_work n) (core w))) w) in
  work_ok w' /\ running K (core w') /\
  schedule (core w') = schedule_remove (TO_work n) (schedule (core w)) /\
  TO_work n ∉ timeout_q (core w').
Proof.
  intros Hok Hru HK. cbn zeta.
  destruct (abort_object_timeout K (core w) (TO_work n) Hru HK (work_object n))
    as (r & k' & -> & Hru' & _ & _ & Eq & _ & Es & Hto & _).
  destruct (timeouts_only_fields _ _ Hto) as (_ & _ & _ & _ & Ew & _).
  assert (Hni : TO_work n ∉ timeout_q k') by (rewrite Eq, elem_of_remove_node; naive_solver).
  split_and!; try done. apply work_ok_attach; [|done]. cbn [snd].
  apply work_ok_core; [done|by rewrite Ew|]. intros x. rewrite Eq, elem_of_remove_node. by intros [_ ?].
Qed.

Lemma delay_ok q n delay w :
  work_ok w -> running K (core w) -> K (TO_work n) -> TO_work n ∉ timeout_q (core w) ->
  0 < timeout_ticks delay <= INT32_MAX ->
  exists k', _add_timeout None (TO_work n) None (timeout_ticks delay) (core w) = Some k' /\
    work_ok (set_core k' (attach n (Some q) w)) /\ running K k' /\
    schedule k' = schedule_insert (TO_work n) (timeout_ticks delay) (schedule (core w)).
Proof.
  intros Hok Hru HK Hni Ht.
  destruct (add_object_timeout K (core w) (TO_work n) None _ Hru HK (work_object n) Hni Ht)
    as (k' & E & Hru' & Es & Eq & Hto).
  destruct (timeouts_only_fields _ _ Hto) as (_ & _ & _ & _ & Ew & _).
  exists k'. split_and!; try done. destruct Hok as [H1 H2 H3 H4 H5 H6]. split; try done.
  - intros q'. change (fifo_ok (work_fifos w q') k'). unfold fifo_ok. rewrite Ew. apply H1.
  - intros x. change (TO_work x ∈ timeout_q k' -> <[n := Some q]> (attached w) x <> None). rewrite Eq, elem_of_cons. destruct (decide (x = n)) as [->|Hne].
    + intros _. by rewrite fn_lookup_insert.
    + intros [?|Hx]; [congruence|]. rewrite fn_lookup_insert_ne by done. by apply H6.
Qed.

Lemma start_delayed q n delay w :
  work_ok w -> running K (core w) -> K (TO_work n) -> TO_work n ∉ timeout_q (core w) ->
  delay = 0 \/ 0 < timeout_ticks delay <= INT32_MAX ->
  exists w', (let w := attach n (Some q) w in
      if delay =? 0 then w ← k_work_submit_to_queue q n w; Some (0, w)
      else
        k ← _add_timeout None (TO_work n) None (i32 (_TICK_ALIGN + _ms_to_ticks delay)) (core w);
        Some (0, set_core k w)) = Some (0, w') /\ work_ok w' /\ running K (core w') /\
    attached w' n = Some q /\
    (if delay =? 0 then k_work_pending n w' = 1
     else schedule (core w') = schedule_insert (TO_work n) (timeout_ticks delay) (schedule (core w))).
Proof.
  intros Hok Hru HK Hni Hd. cbn zeta. destruct (Z.eqb_spec delay 0) as [->|Hne].
  - assert (work_ok (attach n (Some q) w)) as Hok1 by (by apply work_ok_attach).
    destruct (submit_ok K q n (attach n (Some q) w) Hok1 Hru) as (w' & -> & Hok' & Hru' & Hfr & _).
    exists w'. split_and!; try done.
    + rewrite (sf_attached _ _ _ _ Hfr). apply fn_lookup_insert.
    + rewrite pending_value by (by apply wk_ints). by rewrite (sf_pending _ _ _ _ Hfr).
  - destruct Hd as [?|Hd]; [done|].
    destruct (delay_ok q n delay w Hok Hru HK Hni Hd) as (k' & E & Hok' & Hru' & Es).
    change (core (attach n (Some q) w)) with (core w). fold (timeout_ticks delay). rewrite E.
    eexists. split; [reflexivity|]. split_and!; try done. apply fn_lookup_insert.
Qed.

(** The states of a delayed work item. Submitting it to another queue than
    the one it is attached to gives -EADDRINUSE, resubmitting it while it is
    queued gives -EINPROGRESS, and neither changes anything; otherwise the
    submission replaces an earlier one, attaches the item and schedules exactly
    one expiry (or queues the item, for a zero delay). Cancelling gives
    -EINPROGRESS for a queued item, -EINVAL for one that is not attached, and
    otherwise takes the expiry away. *)
Theorem delayed_work_correct q n delay w :
  work_ok w -> running K (core w) -> K (TO_work n) ->
  delay = 0 \/ 0 < timeout_ticks delay <= INT32_MAX ->
  (exists r w', k_delayed_work_submit_to_queue q n delay w = Some (r, w') /\
     work_ok w' /\ running K (core w') /\
     match attached w n with
     | Some q' => if decide (q' = q) then k_work_pending n w = 1 -> r = - EINPROGRESS /\ w' = w
                  else r = - EADDRINUSE /\ w' = w
     | None => True
     end /\
     (attached w n = None \/ (attached w n = Some q /\ k_work_pending n w = 0) ->
        r = 0 /\ attached w' n = Some q /\
        if delay =? 0 then k_work_pending n w' = 1
        else schedule (core w') = schedule_insert (TO_work n) (timeout_ticks delay)
                                    (schedule_remove (TO_work n) (schedule (core w))))) /\
  (let '(r, w') := k_delayed_work_cancel n w in
   work_ok w' /\ running K (core w') /\
   (k_work_pending n w = 1 -> r = - EINPROGRESS /\ w' = w) /\
   (k_work_pending n w = 0 -> attached w n = None -> r = - EINVAL /\ w' = w) /\
   (k_work_pending n w = 0 -> attached w n <> None ->
      r = 0 /\ attached w' n = None /\
      schedule (core w') = schedule_remove (TO_work n) (schedule (core w)))).
Proof.
  intros Hok Hru HK Hd. unfold k_delayed_work_submit_to_queue, k_delayed_work_cancel.
  pose proof (pending_value n w (wk_ints w Hok n)) as Ep.
  destruct (cancel_detached n w Hok Hru HK) as (Hok1 & Hru1 & Es1 & Hni1).
  set (w1 := attach n None _) in *.
  assert (Ha1 : attached w1 n = None) by apply fn_lookup_insert.
  split.
  - destruct (attached w n) as [q'|] eqn:Ea.
    + destruct (decide (q' = q)) as [->|Hne].
      * rewrite bool_decide_eq_false_2 by naive_solver. rewrite bool_decide_eq_true_2 by done.
        rewrite Ep. destruct (is_pending w n); cbn [Z.b2z Z.eqb negb].
        -- change (- EINPROGRESS <? 0) with true. eexists _, w. split; [reflexivity|].
           split_and!; try done. intros [?|[_ ?]]; done.
        -- change (0 <? 0) with false. cbn iota.
           destruct (start_delayed q n delay w1 Hok1 Hru1 HK Hni1 Hd) as (w' & E & ? & ? & ? & Hm).
           eexists 0, w'. split; [exact E|]. split_and!; try done. intros _. by rewrite <- Es1.
      * rewrite bool_decide_eq_true_2 by done. eexists _, w. split; [reflexivity|].
        split_and!; try done. intros [?|[? _]]; congruence.
    + rewrite bool_decide_eq_false_2 by done. change (0 <? 0) with false. cbn iota.
      assert (TO_work n ∉ timeout_q (core w)) as Hni by (intros Hin; by apply (wk_attached w Hok n) in Hin).
      destruct (start_delayed q n delay w Hok Hru HK Hni Hd) as (w' & E & ? & ? & ? & Hm).
      eexists 0, w'. split; [exact E|]. split_and!; try done. intros _.
      assert (schedule_remove (TO_work n) (schedule (core w)) = schedule (core w)) as ->
        by (by apply schedule_remove_not_in). done.
  - rewrite Ep. destruct (is_pending w n) eqn:Epd; cbn [Z.b2z Z.eqb negb]; [done|].
    destruct (attached w n) as [q'|] eqn:Ea; split_and!; try done.
Qed.
End Promises.

(** ** Witnesses *)
Section Witnesses.
(** Work item 1, initialised as delayed work, and the idle queue 1. *)
Definition work_demo : work_world :=
  k_delayed_work_init 1%positive 7%positive
    (mk_work_world booted (fun _ => mk_fifo 70%positive []) (fun _ => mk_work 7%positive (fun _ => 0))
       (fun _ => None)).
Definition work_known : toid -> Prop := with_object boot_threads (TO_work 1%positive).

Lemma work_no_timer n : ~ work_known (TO_timer n).
Proof. by intros [[[[]|?]|?]|?]. Qed.

Lemma work_demo_ok :
  work_ok work_demo /\ running work_known (core work_demo) /\ schedule (core work_demo) = [] /\
  (forall wq, wait_qs (core work_demo) wq = []) /\
  attached work_demo 1%positive = None /\ k_work_pending 1%positive work_demo = 0.
Proof.
  destruct booted_running as (Hru & _ & _ & Et & Ew & Hi).
  destruct (init_object_running _ _ (TO_work 1) (Some work_timeout_fn) Hru (work_object 1))
    as [Hru2 Es2]; [rewrite Et; apply not_elem_of_nil|].
  assert (Ec : core work_demo = _init_timeout (TO_work 1) (Some work_timeout_fn) booted) by reflexivity.
  assert (Hq : forall k, timeout_q (_init_timeout (TO_work 1) (Some work_timeout_fn) k) = timeout_q k) by done.
  assert (Hw : forall k, wait_qs (_init_timeout (TO_work 1) (Some work_timeout_fn) k) = wait_qs k) by done.
  split; [|split; [exact Hru2|split; [|split; [|split; reflexivity]]]].
  - split.
    + intros q. unfold fifo_ok. rewrite Ec, Hw, Ew. intros Hn. destruct (Hn eq_refl).
    + intros q n Hn. destruct (proj1 (elem_of_nil _) Hn).
    + intros q. apply NoDup_nil_2.
    + intros q1 q2 n Hn. destruct (proj1 (elem_of_nil _) Hn).
    + intros n. assert (ints (fun _ : Z => 0)) as Hz by (intros ?; unfold INT32_MIN, INT32_MAX; lia).
      destruct (atomic_bitmap 0 0 _ Hz ltac:(lia)) as (_ & _ & Hc).
      destruct (atomic_test_and_clear_bit 0 0 (fun _ => 0)) as [old m']. destruct Hc as (_ & -> & Hints & _).
      assert (works work_demo n = if decide (n = 1%positive)
        then mk_work 7%positive (atomic_clear_bit 0 0 (fun _ => 0)) else mk_work 7%positive (fun _ => 0)) as ->.
      { unfold work_demo, k_delayed_work_init, k_work_init.
        cbn [works attach set_core set_work work_world_world].
        destruct (decide (n = 1%positive)) as [->|]; [by rewrite fn_lookup_insert|by rewrite fn_lookup_insert_ne]. }
      by destruct (decide (n = 1%positive)).
    + intros n. rewrite Ec, Hq, Et. intros Hn. destruct (proj1 (elem_of_nil _) Hn).
  - rewrite Ec, Es2. unfold schedule. rewrite Et. reflexivity.
  - intros wq. rewrite Ec, Hw. apply Ew.
Qed.

#[global] Opaque work_demo.

Lemma work_submit_correct_witness :
  exists w', k_work_submit_to_queue 1%positive 1%positive work_demo = Some w' /\
    k_work_pending 1%positive w' = 1.
Proof.
  destruct work_demo_ok as (Hok & Hru & _).
  destruct (work_submit_correct work_known 1%positive 1%positive work_demo Hok Hru)
    as (w' & E & _ & _ & Hp & _).
  exists w'. split; [exact E|exact Hp].
Defined.

Lemma delayed_work_correct_witness :
  exists w', k_delayed_work_submit_to_queue 1%positive 1%positive 10 work_demo = Some (0, w') /\
    schedule (core w') = [(TO_work 1%positive, timeout_ticks 10)].
Proof.
  destruct work_demo_ok as (Hok & Hru & Es & _ & Ha & _).
  destruct (delayed_work_correct work_known 1%positive 1%positive 10 work_demo Hok Hru
    (or_intror eq_refl) ltac:(right; vm_compute; intuition discriminate))
    as [(r & w' & E & _ & _ & _ & Hs) _].
  destruct (Hs (or_introl Ha)) as (-> & _ & Hsch).
  exists w'. split; [exact E|]. rewrite Es in Hsch. exact Hsch.
Defined.

Lemma in_isr_ok (w : work_world) :
  work_ok w -> running work_known (core w) -> schedule (core w) = [] ->
  let w' := set_core (set_in_isr true (core w)) w in
  work_ok w' /\ running work_known (core w') /\ in_isr (core w') = true /\ not_past (core w') 3.
Proof.
  intros Hok [H1 H2 H3] Es. cbn zeta. split_and!.
  - by apply work_ok_core.
  - split; [by apply kernel_wf_set_in_isr|exact H2|exact H3].
  - reflexivity.
  - split; [lia|]. intros o Ho. unfold schedule in Es.
    change (head (timeout_q (core w)) = Some o) in Ho.
    by destruct (timeout_q (core w)).
Qed.

Lemma work_announce_safe_witness :
  exists w', _nano_sys_clock_tick_announce run_work_timeout 3
      (set_core (set_in_isr true (core work_demo)) work_demo) = Some w' /\ work_ok w'.
Proof.
  destruct work_demo_ok as (Hok & Hru & Es & _).
  destruct (in_isr_ok work_demo Hok Hru Es) as (Hok1 & Hru1 & Hi1 & Hnp).
  destruct (work_announce_safe work_known 3 _ work_no_timer Hok1 Hru1 Hi1 Hnp) as (w' & E & Hok' & _).
  exists w'. split; [exact E|exact Hok'].
Defined.
End Witnesses.
