(* ===== verification/Alert.v ===== *)
(** * Alerts and the system work queue (kernel/unified/alert.c,
    kernel/unified/system_work_q.c)

    An alert is composed of a work item, which the system work queue runs to
    deliver it, and a semaphore, which counts the alerts that pend. Both are
    fields of [struct k_alert], so the alert at address [a] owns the work item
    and the semaphore known as [a], and CONTAINER_OF is the identity on these
    names. The application's handlers are functions on the whole system and on
    the application's own state [app]. *)
From S2P Require Import Prelude Atomic Kernel ReadyQ TimeoutQ Sched SchedInv SchedApi Thread Boot Clock.
From S2P Require Import Sem Queues WorkQ.
Import Fifo.

Definition K_ALERT_DEFAULT : Z := 0.
Definition K_ALERT_IGNORE : Z := UINT32_MAX.

Record k_alert := mk_alert { alert_handler : Z; send_count : Z }.

(** The work queues hold the kernel; the semaphores are seen with that kernel. *)
Record alert_world (U : Type) := mk_alert_world {
  al_work : work_world;
  al_sems : semid -> k_sem;
  al_descs : tid -> sem_desc;
  al_desc_lists : tid -> list tid;
  alerts : positive -> k_alert;
  app : U
}.
Arguments mk_alert_world {U}.
Arguments al_work {U}.
Arguments al_sems {U}.
Arguments al_descs {U}.
Arguments al_desc_lists {U}.
Arguments alerts {U}.
Arguments app {U}.

#[export] Instance alert_has_work U : HasWork (alert_world U) :=
  {| work_part := al_work;
     set_work_part := fun x w =>
       mk_alert_world x (al_sems w) (al_descs w) (al_desc_lists w) (alerts w) (app w);
     work_part_set := fun _ _ => eq_refl |}.

(** What the system work queue is made of: its address, the wait queue of its
    FIFO, its thread, and CONFIG_SYSTEM_WORKQUEUE_PRIORITY. *)
Class SysWorkQ := {
  k_sys_work_q : positive;
  sys_work_q_wait_q : wqid;
  sys_work_q_thread : tid;
  CONFIG_SYSTEM_WORKQUEUE_PRIORITY : Z
}.

(** The address of [_alert_deliver]. *)
Definition alert_deliver_fn : positive := 3%positive.

Section Operations.
Context `{KConfig} `{SysWorkQ} {U : Type}.
Context (call : Z -> positive -> alert_world U -> option (Z * alert_world U)).
Implicit Types (w : alert_world U) (a : positive).

Definition sem_part w : sem_world :=
  mk_sem_world (core (al_work w)) (al_sems w) (al_descs w) (al_desc_lists w).
Definition set_sem_part (s : sem_world) w : alert_world U :=
  mk_alert_world (set_core (sem_kernel s) (al_work w)) (sems s) (descs s) (desc_lists s)
    (alerts w) (app w).
Definition set_alert a (x : k_alert) w : alert_world U :=
  mk_alert_world (al_work w) (al_sems w) (al_descs w) (al_desc_lists w) (<[a := x]> (alerts w)) (app w).

(** An atomic operation on [alert->send_count]: its result and the new world. *)
Definition on_send_count (op : Z -> (Z -> Z) -> Z * (Z -> Z)) a w : Z * alert_world U :=
  let '(old, m) := op 0 (fun _ => send_count (alerts w a)) in
  (old, set_alert a (mk_alert (alert_handler (alerts w a)) (m 0)) w).

Definition k_sys_work_q_init w : option (Z * alert_world U) :=
  x ← k_work_q_start k_sys_work_q sys_work_q_wait_q sys_work_q_thread
        CONFIG_SYSTEM_WORKQUEUE_PRIORITY (al_work w);
  Some (0, set_work_part x w).

Definition give_alert a w : option (alert_world U) :=
  s ← k_sem_give a (sem_part w);
  Some (set_sem_part s w).

(** The body of [_alert_deliver]. When giving the semaphore takes the processor
    away from the work queue thread, the loop goes on in [_alert_deliver_resume]
    once the thread runs again. *)
Fixpoint _alert_deliver (fuel : nat) a w : option (outcome unit * alert_world U) :=
  match fuel with
  | O => None
  | S fuel =>
      '(r, w) ← call (alert_handler (alerts w a)) a w;
      w' ← (if r =? 0 then Some w else give_alert a w);
      if decide (current (core (al_work w')) = current (core (al_work w))) then
        let '(old, w) := on_send_count atomic_dec a w' in
        if old =? 1 then Some (Returns tt, w) else _alert_deliver fuel a w
      else Some (Blocks, w')
  end.
Definition _alert_deliver_resume (fuel : nat) a w : option (outcome unit * alert_world U) :=
  let '(old, w) := on_send_count atomic_dec a w in
  if old =? 1 then Some (Returns tt, w) else _alert_deliver fuel a w.

(** The handler of an alert's work item, for deliveries that keep the processor. *)
Definition run_alert (fuel : nat) (h n : positive) w : option (alert_world U) :=
  if decide (h = alert_deliver_fn) then
    '(o, w) ← _alert_deliver fuel n w;
    match o with Returns _ => Some w | Blocks => None end
  else None.

Definition k_alert_init a (h : Z) (wq : wqid) (max_num_pending_alerts : Z) w : option (alert_world U) :=
  let w := set_alert a (mk_alert h 0) w in
  let w := set_work_part (set_work a (mk_work alert_deliver_fn (fun _ => 0)) (al_work w)) w in
  s ← k_sem_init a wq 0 max_num_pending_alerts (sem_part w);
  Some (set_sem_part s w).

Definition k_alert_send a w : option (alert_world U) :=
  if alert_handler (alerts w a) =? K_ALERT_IGNORE then Some w
  else if alert_handler (alerts w a) =? K_ALERT_DEFAULT then give_alert a w
  else
    let '(old, w) := on_send_count atomic_inc a w in
    if old =? 0 then x ← k_work_submit_to_queue k_sys_work_q a (al_work w); Some (set_work_part x w)
    else Some w.

Definition k_alert_recv a (timeout : Z) w : option (outcome Z * alert_world U) :=
  '(r, s) ← k_sem_take a timeout (sem_part w);
  Some (r, set_sem_part s w).
End Operations.

(** ** The semaphore of an alert

    Its level: what it counts, less the threads that wait for it. *)
Section Level.
Context `{KConfig}.
Context (K : toid -> Prop).
Implicit Types (w : sem_world) (s : semid) (k : kernel).

Definition level s w : Z :=
  count (sems w s) - Z.of_nat (length (wait_qs (sem_kernel w) (sem_wait_q (sems w s)))).

(** What a service does to the rest of the system when it only wakes threads and
    its caller may not be preempted. *)
Record stays k k' : Prop := {
  st_current : current k' = current k;
  st_isr : in_isr k' = in_isr k;
  st_preempt : _is_preempt (threads k' (current k)) = _is_preempt (threads k (current k));
  st_waiters wq : wait_qs k' wq <> [] -> wait_qs k wq <> [];
  st_timeouts o : o ∈ timeout_q k' -> o ∈ timeout_q k
}.

Lemma stays_refl k : stays k k.
Proof. by split. Qed.

Lemma same_queues_fbit k k' x b : same_queues k k' -> fbit k' x b = fbit k x b.
Proof. intros [_ _ _ _ _ Ht]. unfold fbit. by destruct (Ht x) as [r ->]. Qed.

Lemma woken_stays t k k1 k' :
  t <> current k -> woken t k k1 -> same_queues k1 k' -> current k' = current k -> stays k k'.
Proof.
  intros Hne Hwo Hsq Ec. split; [done|..].
  - by rewrite (sq_in_isr _ _ Hsq), (wo_in_isr _ _ _ Hwo).
  - rewrite (same_queues_preempt _ _ _ Hsq). by rewrite (wo_threads _ _ _ Hwo) by done.
  - intros wq. rewrite (sq_wait_qs _ _ Hsq), (wo_wait_qs _ _ _ Hwo). by destruct (wait_qs k wq).
  - intros o. rewrite (sq_timeout_q _ _ Hsq), (wo_timeout_q _ _ _ Hwo), elem_of_remove_node. by intros [_ ?].
Qed.

(** Giving raises the level by one, up to the limit, whoever waits. *)
Lemma give_level s w :
  running K (sem_kernel w) -> sem_ok s w -> plain s w ->
  _is_preempt (threads (sem_kernel w) (current (sem_kernel w))) = false ->
  exists w', k_sem_give s w = Some w' /\ running K (sem_kernel w') /\ sem_ok s w' /\ plain s w' /\
    stays (sem_kernel w) (sem_kernel w') /\ limit (sems w' s) = limit (sems w s) /\
    level s w' = Z.min (limit (sems w s)) (level s w + 1).
Proof.
  intros Hru Hok Hpl Hnp.
  destruct (wait_qs (sem_kernel w) (sem_wait_q (sems w s))) as [|t l] eqn:Hq.
  - destruct (give_idle s w Hok Hq) as (E & Hok' & Hc & Hk). exists (increment s w).
    assert (Ewq : sem_wait_q (sems (increment s w) s) = sem_wait_q (sems w s))
      by (unfold increment; by rewrite set_count_same).
    split_and!; try done.
    + by intros t; rewrite Ewq, Hk; apply Hpl.
    + unfold increment. by rewrite set_count_same.
    + unfold level. rewrite Ewq, Hk, Hq, Hc. simpl. lia.
  - destruct (give_wakes K s w t l Hru Hok Hpl Hq)
      as (w' & k1 & E & Hru' & Hok' & Es & Hwo & Hsq & Hl & _ & _ & Hcur).
    assert (Htc : t <> current (sem_kernel w))
      by (apply (waiter_not_current K _ (sem_wait_q (sems w s))); [done|]; rewrite Hq; set_solver).
    exists w'. split_and!; try done.
    + intros x. rewrite Es, Hl. intros Hx. rewrite (same_queues_fbit _ _ _ _ Hsq).
      unfold fbit. rewrite (wo_threads _ _ _ Hwo) by (by apply (waiters_distinct K (sem_kernel w) (sem_wait_q (sems w s)) t l)).
      apply Hpl. rewrite Hq. apply elem_of_cons. by right.
    + apply (woken_stays t _ k1); try done; by apply Hcur.
    + by rewrite Es.
    + unfold level. rewrite Es, Hl, Hq. pose proof (so_limit s w Hok). pose proof (so_waiters s w Hok) as Hw.
      rewrite Hw by (by rewrite Hq). cbn [length]. lia.
Qed.
End Level.

(** ** Delivering *)
Section Delivery.
Context `{KConfig} `{SysWorkQ} {U : Type}.
Context (call : Z -> positive -> alert_world U -> option (Z * alert_world U)).
Context (K : toid -> Prop).
Implicit Types (w : alert_world U) (a : positive) (u : U).

(** A well-formed system in which the work queue thread runs an alert's item: it
    is not an interrupt and, being cooperative, it may not be preempted. *)
Record deliverable a w : Prop := {
  dl_running : running K (core (al_work w));
  dl_work : work_ok (al_work w);
  dl_sem : sem_ok a (sem_part w);
  dl_plain : plain a (sem_part w);
  dl_isr : in_isr (core (al_work w)) = false;
  dl_coop : _is_preempt (threads (core (al_work w)) (current (core (al_work w)))) = false
}.

Definition sends a w : Z := send_count (alerts w a).
Definition alert_level a w : Z := level a (sem_part w).
Definition alert_limit a w : Z := limit (al_sems w a).

(** What the application promises of a handler, in terms of its own state: the
    handler computes [step] on it; it may send its alert again, but only as long
    as its [budget] lasts; it leaves the alert alone otherwise. *)
Context (step : U -> Z * U) (budget : U -> nat).

Record handled a w r w' : Prop := {
  hd_ok : deliverable a w';
  hd_step : step (app w) = (r, app w');
  hd_handler : alert_handler (alerts w' a) = alert_handler (alerts w a);
  hd_current : current (core (al_work w')) = current (core (al_work w));
  hd_level : alert_level a w' = alert_level a w;
  hd_limit : alert_limit a w' = alert_limit a w;
  hd_work : works (al_work w') a = works (al_work w) a;
  hd_sends : sends a w' + Z.of_nat (budget (app w')) = sends a w + Z.of_nat (budget (app w));
  hd_budget : (budget (app w') <= budget (app w))%nat
}.

Definition handler_ok (h : Z) a : Prop :=
  forall w, deliverable a w -> alert_handler (alerts w a) = h ->
    1 <= sends a w -> sends a w + Z.of_nat (budget (app w)) <= INT32_MAX ->
    exists r w', call h a w = Some (r, w') /\ handled a w r w'.

(** The results of [n] calls, and the application's state after them. *)
Fixpoint results (n : nat) u : list Z :=
  match n with O => [] | S n => fst (step u) :: results n (snd (step u)) end.
Definition after (n : nat) u : U := Nat.iter n (fun u => snd (step u)) u.
Definition unhandled (rs : list Z) : Z := Z.of_nat (length (filter (fun r => r <> 0) rs)).

Lemma after_S n u : after (S n) u = after n (snd (step u)).
Proof. unfold after. by rewrite Nat.iter_succ_r. Qed.

Lemma give_alert_ok a w :
  deliverable a w ->
  exists w', give_alert a w = Some w' /\ deliverable a w' /\
    current (core (al_work w')) = current (core (al_work w)) /\
    alert_limit a w' = alert_limit a w /\ alerts w' = alerts w /\ app w' = app w /\
    works (al_work w') = works (al_work w) /\
    alert_level a w' = Z.min (alert_limit a w) (alert_level a w + 1).
Proof.
  intros [H1 H2 H3 H4 H5 H6]. unfold give_alert.
  destruct (give_level K a (sem_part w) H1 H3 H4 H6) as (s & -> & Hru & Hok & Hpl & Hst & Hl & Hv).
  cbn [mbind option_bind]. eexists. split; [reflexivity|].
  assert (E : sem_part (set_sem_part s w) = s) by (by destruct s).
  split; [split|]; unfold alert_level, alert_limit; rewrite ?E.
  - exact Hru.
  - apply work_ok_core; [done|apply (st_waiters _ _ Hst)|intros n; apply (st_timeouts _ _ Hst)].
  - done.
  - done.
  - change (in_isr (sem_kernel s) = false). by rewrite (st_isr _ _ Hst).
  - change (_is_preempt (threads (sem_kernel s) (current (sem_kernel s))) = false).
    rewrite (st_current _ _ Hst). by rewrite (st_preempt _ _ Hst).
  - split_and!; try done. apply (st_current _ _ Hst).
Qed.

Lemma deliverable_set_alert a x w b : deliverable a w -> deliverable a (set_alert b x w).
Proof. intros [H1 H2 H3 H4 H5 H6]. by split. Qed.

Lemma sends_set_alert a x w : sends a (set_alert a x w) = send_count x.
Proof. unfold sends, set_alert. cbn. by rewrite fn_lookup_insert. Qed.

Lemma level_at_most a w : sem_ok a (sem_part w) -> alert_level a w <= alert_limit a w.
Proof. intros [_ H2 _]. unfold alert_level, level, alert_limit. cbn in *. lia. Qed.

Lemma unhandled_cons r rs : unhandled (r :: rs) = (if r =? 0 then 0 else 1) + unhandled rs.
Proof.
  unfold unhandled. rewrite filter_cons. destruct (Z.eqb_spec r 0); case_decide; try done.
  cbn [length]. lia.
Qed.

(** One turn of the loop, before the count is taken down. *)
Lemma turn_ok a w r w1 :
  deliverable a w -> handled a w r w1 ->
  exists w2, (if r =? 0 then Some w1 else give_alert a w1) = Some w2 /\ deliverable a w2 /\
    current (core (al_work w2)) = current (core (al_work w1)) /\
    alert_limit a w2 = alert_limit a w /\ alerts w2 = alerts w1 /\ app w2 = app w1 /\
    works (al_work w2) a = works (al_work w) a /\
    alert_level a w2 = Z.min (alert_limit a w) (alert_level a w + (if r =? 0 then 0 else 1)).
Proof.
  intros Hd [D1 D2 D3 D4 D5 D6 D7 D8 D9]. destruct (r =? 0).
  - exists w1. split_and!; try done. pose proof (level_at_most a w (dl_sem a w Hd)). lia.
  - destruct (give_alert_ok a w1 D1) as (w2 & E & ? & ? & El & ? & ? & Ew & Ev).
    exists w2. split_and!; try done; [by rewrite El|by rewrite Ew|]. by rewrite Ev, D5, D6.
Qed.

Record delivery a w w' (n : nat) : Prop := {
  dv_ok : deliverable a w';
  dv_sends : sends a w' = 0;
  dv_app : app w' = after n (app w);
  dv_calls : Z.of_nat n + Z.of_nat (budget (app w')) = sends a w + Z.of_nat (budget (app w));
  dv_limit : alert_limit a w' = alert_limit a w;
  dv_level : alert_level a w' = Z.min (alert_limit a w) (alert_level a w + unhandled (results n (app w)));
  dv_work : works (al_work w') a = works (al_work w) a
}.

Lemma deliver_ok h a fuel w :
  handler_ok h a -> deliverable a w -> alert_handler (alerts w a) = h -> 1 <= sends a w ->
  sends a w + Z.of_nat (budget (app w)) <= INT32_MAX ->
  sends a w + Z.of_nat (budget (app w)) <= Z.of_nat fuel ->
  exists n w', _alert_deliver call fuel a w = Some (Returns tt, w') /\ delivery a w w' n.
Proof.
  intros Hh. revert w. induction fuel as [|fuel IH]; intros w Hd Eh Hs Hmax Hf; [lia|].
  cbn [_alert_deliver]. destruct (Hh w Hd Eh Hs Hmax) as (r & w1 & E1 & Hhd).
  rewrite Eh, E1. cbn [mbind option_bind].
  destruct (turn_ok a w r w1 Hd Hhd) as (w2 & -> & Hd2 & Ec2 & El2 & Ea2 & Eu2 & Ew2 & Ev2).
  cbn [mbind option_bind]. rewrite decide_True by done.
  destruct Hhd as [D1 D2 D3 D4 D5 D6 D7 D8 D9].
  assert (Es2 : sends a w2 = sends a w1) by (unfold sends; by rewrite Ea2).
  unfold on_send_count, atomic_dec. fold (sends a w2). rewrite fn_lookup_insert.
  rewrite Ea2, D3, Eh, Es2.
  assert (E32 : i32 (sends a w1 - 1) = sends a w1 - 1) by (rewrite i32_small; unfold INT32_MIN; lia).
  rewrite E32. set (w3 := set_alert a (mk_alert h (sends a w1 - 1)) w2).
  assert (Hd3 : deliverable a w3) by by apply deliverable_set_alert.
  assert (Es3 : sends a w3 = sends a w1 - 1) by apply sends_set_alert.
  assert (Ev3 : alert_level a w3 = alert_level a w2) by done.
  assert (El3 : alert_limit a w3 = alert_limit a w2) by done.
  assert (Eu3 : app w3 = app w1) by done.
  assert (Ew3 : works (al_work w3) = works (al_work w2)) by done.
  destruct (Z.eqb_spec (sends a w1) 1) as [E0|E0].
  - exists 1%nat, w3. split; [done|]. split; try done.
    + rewrite Es3. lia.
    + rewrite Eu3. cbn. by rewrite D2.
    + rewrite Eu3. lia.
    + rewrite Ev3, Ev2. cbn [results]. rewrite D2, unhandled_cons. cbn [fst]. unfold unhandled. simpl. f_equal. lia.
  - destruct (IH w3 Hd3) as (n & w' & E & [V1 V2 V3 V4 V5 V6 V7]); try (rewrite ?Es3, ?Eu3; lia).
    { unfold w3. cbn. by rewrite fn_lookup_insert. }
    exists (S n), w'. split; [exact E|]. split; try done.
    + rewrite V3, Eu3, after_S, D2. done.
    + rewrite Es3, Eu3 in V4. lia.
    + by rewrite V5, El3, El2.
    + rewrite V6, El3, El2, Ev3, Ev2, Eu3. cbn [results]. rewrite D2, unhandled_cons. cbn [fst snd].
      pose proof (level_at_most a w (dl_sem a w Hd)). unfold unhandled. destruct (r =? 0); lia.
    + by rewrite V7, Ew3.
Qed.
End Delivery.

(** ** What alerts promise *)
Section Promises.
Context `{KConfig} `{SysWorkQ} {U : Type}.
Context (call : Z -> positive -> alert_world U -> option (Z * alert_world U)).
Context (K : toid -> Prop) (step : U -> Z * U) (budget : U -> nat).
Implicit Types (w : alert_world U) (a : positive).

(** Sending an alert. An ignored alert changes nothing; an alert without a
    handler pends, raising the level of its semaphore up to the limit; for an
    alert with a handler the send is counted, and the first one, and only the
    first one, queues the alert's work item on the system work queue (unless it
    is pending there already). *)
Theorem alert_send_correct a w :
  deliverable K a w -> 0 <= sends a w < INT32_MAX ->
  let h := alert_handler (alerts w a) in
  exists w', k_alert_send a w = Some w' /\ running K (core (al_work w')) /\ work_ok (al_work w') /\
    (h = K_ALERT_IGNORE -> w' = w) /\
    (h = K_ALERT_DEFAULT ->
       alerts w' = alerts w /\ works (al_work w') = works (al_work w) /\
       alert_level a w' = Z.min (alert_limit a w) (alert_level a w + 1)) /\
    (h <> K_ALERT_IGNORE -> h <> K_ALERT_DEFAULT ->
       sends a w' = sends a w + 1 /\ al_sems w' = al_sems w /\
       (0 < sends a w -> al_work w' = al_work w) /\
       (sends a w = 0 -> is_pending (al_work w') a = true /\
          if is_pending (al_work w) a then core (al_work w') = core (al_work w)
          else submitted k_sys_work_q a (al_work w) (al_work w'))).
Proof.
  intros Hd Hs. cbn zeta. unfold k_alert_send.
  destruct (Z.eqb_spec (alert_handler (alerts w a)) K_ALERT_IGNORE) as [Ei|Hni].
  { exists w. rewrite Ei. destruct Hd. split_and!; done. }
  destruct (Z.eqb_spec (alert_handler (alerts w a)) K_ALERT_DEFAULT) as [Ed|Hnd].
  { destruct (give_alert_ok K a w Hd) as (w' & E & [] & ? & ? & ? & ? & ? & ?). exists w'. split_and!; done. }
  unfold on_send_count, atomic_inc. fold (sends a w). rewrite fn_lookup_insert.
  rewrite i32_small by (unfold INT32_MIN; lia).
  set (w1 := set_alert a _ w).
  assert (Es : sends a w1 = sends a w + 1) by apply sends_set_alert.
  destruct (Z.eqb_spec (sends a w) 0) as [E0|E0].
  - change (al_work w1) with (al_work w).
    destruct (submit_ok K k_sys_work_q a (al_work w) (dl_work _ _ _ Hd) (dl_running _ _ _ Hd))
      as (x & -> & Hok & Hru & Hfr & Hm). cbn [mbind option_bind].
    eexists. split; [reflexivity|]. split_and!; try done.
    intros _ _. split_and!; try done; [intros; lia|]. intros _. split; [apply (sf_pending _ _ _ _ Hfr)|].
    destruct (is_pending (al_work w) a); [by destruct Hm|done].
  - exists w1. destruct Hd. split_and!; try done.
Qed.

(** Taking the mark off an item that has left its queue. *)
Lemma start_work_ok n (x : work_world) :
  work_ok x -> is_pending x n = true -> (forall q, Zpos n ∉ data_q (work_fifos x q)) ->
  exists y, start_work n x = (true, y) /\ work_ok y /\ core y = core x /\
    is_pending y n = false /\ handler (works y n) = handler (works x n).
Proof.
  intros Hok Hp Hnq. unfold start_work.
  destruct (atomic_bitmap 0 0 _ (wk_ints x Hok n) ltac:(lia)) as (_ & _ & Hc).
  change K_WORK_STATE_PENDING with 0. destruct (atomic_test_and_clear_bit 0 0 _) as [old m].
  destruct Hc as (-> & _ & Hi & Hb). unfold is_pending in Hp. rewrite Hp.
  eexists. split; [reflexivity|]. split_and!; [|done|..].
  - apply work_ok_set; [done|exact Hi|by right].
  - unfold is_pending. rewrite set_work_same. cbn. rewrite Hb by lia. by rewrite decide_True.
  - by rewrite set_work_same.
Qed.

(** C26: when the system work queue takes an alert's item, the handler is called
    once for every send counted so far and for every send made while the alert
    is being delivered (the handler may send its own alert, within a budget),
    the semaphore's level goes up by one for each call that did not handle the
    alert, up to the limit, the count of sends is back at zero, the item is no
    longer pending, and the queue's thread goes on to yield. *)
Theorem alert_delivery_correct h a fuel w :
  handler_ok call K step budget h a ->
  deliverable K a w -> alert_handler (alerts w a) = h ->
  handler (works (al_work w) a) = alert_deliver_fn -> is_pending (al_work w) a = true ->
  (forall q, Zpos a ∉ data_q (work_fifos (al_work w) q)) ->
  1 <= sends a w -> sends a w + Z.of_nat (budget (app w)) <= INT32_MAX ->
  sends a w + Z.of_nat (budget (app w)) <= Z.of_nat fuel ->
  exists n w1 k', work_q_main_run (run_alert call fuel) a w =
      Some (set_work_part (set_core k' (al_work w1)) w1) /\
    k_yield (core (al_work w1)) = Some k' /\ running K k' /\
    work_ok (al_work w1) /\ is_pending (al_work w1) a = false /\
    sends a w1 = 0 /\ app w1 = after step n (app w) /\
    Z.of_nat n = sends a w + Z.of_nat (budget (app w)) - Z.of_nat (budget (app w1)) /\
    alert_level a w1 =
      Z.min (alert_limit a w) (alert_level a w + unhandled (results step n (app w))).
Proof.
  intros Hh Hd Eh Ef Hp Hnq H1 Hmax Hfu. unfold work_q_main_run. cbn [work_part alert_has_work].
  destruct (start_work_ok a (al_work w) (dl_work _ _ _ Hd) Hp Hnq) as (y & -> & Hok & Ec & Hnp & Ehy).
  rewrite Ef. unfold run_alert. rewrite decide_True by done. cbn [set_work_part alert_has_work].
  set (w0 := mk_alert_world y _ _ _ _ _).
  assert (Esp : sem_part w0 = sem_part w) by (unfold sem_part, w0; cbn; f_equal; exact Ec).
  assert (Hd0 : deliverable K a w0).
  { destruct Hd. split; rewrite ?Esp; try done; change (al_work w0) with y; by rewrite Ec. }
  destruct (deliver_ok call K step budget h a fuel w0 Hh Hd0 Eh H1 Hmax Hfu)
    as (n & w1 & -> & [V1 V2 V3 V4 V5 V6 V7]). cbn [mbind option_bind].
  destruct (k_yield_running K (core (al_work w1)) (dl_running _ _ _ V1) (dl_isr _ _ _ V1))
    as (k' & Ey & Hru' & _). unfold work_part, alert_has_work. rewrite Ey. cbn [mbind option_bind].
  exists n, w1, k'. split_and!; try done.
  - apply (dl_work _ _ _ V1).
  - unfold is_pending. by rewrite V7.
  - change (sends a w0) with (sends a w) in V4. change (app w0) with (app w) in V4. lia.
  - rewrite V6. unfold alert_level at 1. rewrite Esp. done.
Qed.
End Promises.

(** ** Witnesses *)
Section Witnesses.
#[local] Instance demo_sys_work_q : SysWorkQ :=
  {| k_sys_work_q := 1%positive; sys_work_q_wait_q := 70%positive;
     sys_work_q_thread := 9%positive; CONFIG_SYSTEM_WORKQUEUE_PRIORITY := -1 |}.

(** An application whose handler sends its alert again as long as its state
    allows, and otherwise lets it pend. *)
Definition demo_step (u : nat) : Z * nat := match u with O => (1, O) | S n => (0, n) end.
Definition set_app (u : nat) (w : alert_world nat) : alert_world nat :=
  mk_alert_world (al_work w) (al_sems w) (al_descs w) (al_desc_lists w) (alerts w) u.
Definition demo_call (h : Z) (a : positive) (w : alert_world nat) : option (Z * alert_world nat) :=
  match app w with
  | O => Some (1, w)
  | S n => w ← k_alert_send a (set_app n w); Some (0, w)
  end.

Lemma demo_handler_ok K a : handler_ok demo_call K demo_step (fun u => u) 77 a.
Proof.
  intros w Hd Eh Hs Hmax. unfold demo_call. destruct (app w) as [|n] eqn:Eu.
  - exists 1, w. split; [done|]. split; try done. by rewrite Eu.
  - unfold k_alert_send. cbn [alerts set_app]. rewrite Eh. cbn [Z.eqb K_ALERT_IGNORE K_ALERT_DEFAULT UINT32_MAX Pos.eqb].
    unfold on_send_count, atomic_inc. cbn [alerts set_app]. fold (sends a w). rewrite fn_lookup_insert.
    rewrite i32_small by (unfold INT32_MIN; lia). rewrite (proj2 (Z.eqb_neq _ _)) by lia.
    cbn [mbind option_bind]. eexists _, _. split; [reflexivity|].
    split; try done.
    + by destruct Hd.
    + cbn. by rewrite Eu.
    + cbn. by rewrite fn_lookup_insert.
    + rewrite sends_set_alert, Eu. cbn [send_count app set_alert set_app]. lia.
    + cbn. rewrite Eu. lia.
Qed.

(** Two sends of alert 1 are waiting to be delivered; its item has just been
    taken from the queue. *)
Definition alert_demo (k : kernel) : alert_world nat :=
  mk_alert_world
    (mk_work_world k (fun _ => mk_fifo 70%positive []) (fun _ => mk_work alert_deliver_fn (fun _ => 1))
       (fun _ => None))
    (fun _ => mk_sem 10%positive 0 5) (fun _ => mk_desc 1%positive 1%positive) (fun _ => [])
    (fun _ => mk_alert 77 2) 1%nat.

Lemma alert_demo_deliverable K k :
  running K k -> (forall wq, wait_qs k wq = []) -> timeout_q k = [] -> in_isr k = false ->
  _is_preempt (threads k (current k)) = false -> deliverable K 1%positive (alert_demo k).
Proof.
  intros Hru Ew Et Hi Hp. split; try done.
  - split; cbn; try done.
    + intros _. constructor.
    + by intros q1 q2 n ?%elem_of_nil.
    + intros n. rewrite Et. by intros ?%elem_of_nil.
  - intros t Hin. change (t ∈ wait_qs k 10%positive) in Hin. rewrite Ew in Hin. by apply elem_of_nil in Hin.
Qed.

(** A thread that holds the scheduler lock is as good as cooperative. *)
Definition locked (k : kernel) : kernel :=
  upd_thread (current k) (with_sched_locked (fun _ => 1)) k.
Lemma locked_not_preempted k : _is_preempt (threads (locked k) (current (locked k))) = false.
Proof. unfold locked. cbn. rewrite fn_lookup_alter. unfold _is_preempt. cbn. apply andb_false_r. Qed.

Lemma locked_deliverable K k :
  running K k -> (forall wq, wait_qs k wq = []) -> timeout_q k = [] -> in_isr k = false ->
  deliverable K 1%positive (alert_demo (locked k)).
Proof.
  intros Hru Ew Et Hi.
  apply alert_demo_deliverable; [by apply running_sched_locked|done..|apply locked_not_preempted].
Qed.

Definition held : kernel := locked booted.
Lemma held_deliverable : deliverable boot_threads 1%positive (alert_demo held).
Proof.
  destruct booted_running as (Hru & _ & _ & Et & Ew & Hi).
  exact (locked_deliverable boot_threads booted Hru Ew Et Hi).
Qed.
#[global] Opaque held.

Lemma alert_send_correct_witness :
  exists w', k_alert_send 1%positive (alert_demo held) = Some w' /\ sends 1%positive w' = 3.
Proof.
  destruct (alert_send_correct boot_threads 1%positive (alert_demo held) held_deliverable)
    as (w' & E & _ & _ & _ & _ & Hs); [vm_compute; intuition discriminate|].
  exists w'. split; [exact E|]. by destruct Hs as [-> _].
Defined.

Lemma alert_delivery_correct_witness :
  exists n w1 w', work_q_main_run (run_alert demo_call 5) 1%positive (alert_demo held) = Some w' /\
    app w1 = after demo_step n 1%nat /\ sends 1%positive w1 = 0 /\
    Z.of_nat n = 3 - Z.of_nat (app w1).
Proof.
  destruct (alert_delivery_correct demo_call boot_threads demo_step (fun u => u) 77 1%positive 5
    (alert_demo held) (demo_handler_ok _ _) held_deliverable)
    as (n & w1 & k' & E & _ & _ & _ & _ & Hs & Ha & Hn & _);
    [reflexivity|reflexivity|reflexivity|intros q Hq; destruct (proj1 (elem_of_nil _) Hq)|
     vm_compute; discriminate..|].
  exists n, w1. eexists. split; [exact E|]. split; [exact Ha|]. split; [exact Hs|]. exact Hn.
Defined.
End Witnesses.
