(* ===== verification/MsgQ.v ===== *)
(** * Message queues (kernel/unified/msg_q.c)

    A ring of fixed-size messages between [buffer_start] and [buffer_end] in
    byte memory, with the pointers of the code; [messages] reads off the queue
    of messages it holds. Readers and writers share one wait queue. *)
From S2P Require Import Prelude Kernel ReadyQ TimeoutQ Sched SchedInv SchedApi Thread Boot.

Record k_msgq := mk_msgq {
  wait_q : wqid;
  msg_size : Z;
  max_msgs : Z;
  buffer_start : Z;
  buffer_end : Z;
  read_ptr : Z;
  write_ptr : Z;
  used_msgs : Z
}.

Section Operations.
Context `{KConfig}.
Implicit Types (q : k_msgq) (m : Z -> Z) (k : kernel).

Definition k_msgq_init (wq : wqid) (buffer size max : Z) k : k_msgq * kernel :=
  (mk_msgq wq size max buffer (buffer + max * size) buffer buffer 0, upd_wait_q wq [] k).

(** [ptr += msg_size; if (ptr == buffer_end) ptr = buffer_start;] *)
Definition advance q (p : Z) : Z :=
  let p := p + msg_size q in if p =? buffer_end q then buffer_start q else p.

Definition enqueue q (src : Z) m : k_msgq * (Z -> Z) :=
  (mk_msgq (wait_q q) (msg_size q) (max_msgs q) (buffer_start q) (buffer_end q)
     (read_ptr q) (advance q (write_ptr q)) (u32 (used_msgs q + 1)),
   memcpy (write_ptr q) src (msg_size q) m).

Definition dequeue q (dst : Z) m : k_msgq * (Z -> Z) :=
  (mk_msgq (wait_q q) (msg_size q) (max_msgs q) (buffer_start q) (buffer_end q)
     (advance q (read_ptr q)) (write_ptr q) (u32 (used_msgs q - 1)),
   memcpy dst (read_ptr q) (msg_size q) m).

(** Waking a thread whose return value is [v]. *)
Definition wake_with (t : tid) (v : Z) k : option kernel :=
  let k := _set_thread_return_value t v k in
  let '(_, k) := _abort_thread_timeout t k in
  _ready_thread t k.

Definition k_msgq_put q (data timeout : Z) m k : option (outcome Z * k_msgq * (Z -> Z) * kernel) :=
  if in_isr k && negb (timeout =? K_NO_WAIT) then None
  else if used_msgs q <? max_msgs q then
    match _unpend_first_thread (wait_q q) k with
    | (Some t, k) =>
        let m := memcpy (swap_data (threads k t)) data (msg_size q) m in
        k ← wake_with t 0 k;
        k ← swap_if_needed k;
        Some (Returns 0, q, m, k)
    | (None, k) =>
        let '(q, m) := enqueue q data m in
        Some (Returns 0, q, m, k)
    end
  else if timeout =? K_NO_WAIT then Some (Returns (- ENOMSG), q, m, k)
  else k ← block_current_with_data (wait_q q) data timeout k; Some (Blocks, q, m, k).

Definition k_msgq_get q (data timeout : Z) m k : option (outcome Z * k_msgq * (Z -> Z) * kernel) :=
  if in_isr k && negb (timeout =? K_NO_WAIT) then None
  else if 0 <? used_msgs q then
    let '(q, m) := dequeue q data m in
    match _unpend_first_thread (wait_q q) k with
    | (Some t, k) =>
        let '(q, m) := enqueue q (swap_data (threads k t)) m in
        k ← wake_with t 0 k;
        k ← swap_if_needed k;
        Some (Returns 0, q, m, k)
    | (None, k) => Some (Returns 0, q, m, k)
    end
  else if timeout =? K_NO_WAIT then Some (Returns (- ENOMSG), q, m, k)
  else k ← block_current_with_data (wait_q q) data timeout k; Some (Blocks, q, m, k).

(** The [while] loop of [k_msgq_purge]; [None] when the fuel runs out. *)
Fixpoint purge_loop (fuel : nat) (wq : wqid) k : option kernel :=
  match _unpend_first_thread wq k with
  | (None, k) => Some k
  | (Some t, k) =>
      match fuel with
      | O => None
      | S fuel => k ← wake_with t (- ENOMSG) k; purge_loop fuel wq k
      end
  end.

Definition k_msgq_purge q k : option (k_msgq * kernel) :=
  k ← purge_loop (length (wait_qs k (wait_q q))) (wait_q q) k;
  let q := mk_msgq (wait_q q) (msg_size q) (max_msgs q) (buffer_start q) (buffer_end q)
             (write_ptr q) (write_ptr q) 0 in
  k ← _reschedule_threads k;
  Some (q, k).
End Operations.

(** ** The ring *)
Ltac fields :=
  cbn [wait_q msg_size max_msgs buffer_start buffer_end read_ptr write_ptr used_msgs].

Section Ring.
Implicit Types (q : k_msgq) (m : Z -> Z).

Definition slot q (i : Z) : Z := buffer_start q + i * msg_size q.
Definition read_index q : Z := (read_ptr q - buffer_start q) / msg_size q.

(** The messages, oldest first. *)
Definition messages q m : list (list Z) :=
  (fun i => read_bytes m (slot q ((read_index q + i) `mod` max_msgs q)) (msg_size q))
    <$> seqZ 0 (used_msgs q).

Record ring_ok q : Prop := {
  ri_size : 0 < msg_size q;
  ri_max : 0 < max_msgs q <= UINT32_MAX;
  ri_end : buffer_end q = slot q (max_msgs q);
  ri_used : 0 <= used_msgs q <= max_msgs q;
  ri_read : 0 <= read_index q < max_msgs q /\ read_ptr q = slot q (read_index q);
  ri_write : write_ptr q = slot q ((read_index q + used_msgs q) `mod` max_msgs q)
}.

(** A region outside the ring's buffer. *)
Definition outside q (a : Z) : Prop :=
  disjoint_from a (msg_size q) (buffer_start q) (max_msgs q * msg_size q).

Lemma advance_slot q i :
  ring_ok q -> 0 <= i < max_msgs q -> advance q (slot q i) = slot q ((i + 1) `mod` max_msgs q).
Proof.
  intros [Hs Hm He _ _ _] Hi. unfold advance. rewrite He.
  destruct (Z.eqb_spec (slot q i + msg_size q) (slot q (max_msgs q))) as [E|E]; unfold slot in *.
  - assert (i + 1 = max_msgs q) as -> by nia. rewrite Z.mod_same by lia. lia.
  - rewrite Z.mod_small; [lia|]. assert (i + 1 <> max_msgs q) by (intros E'; apply E; nia). lia.
Qed.

Lemma slots_disjoint q i j :
  0 < msg_size q -> i <> j -> disjoint_from (slot q i) (msg_size q) (slot q j) (msg_size q).
Proof. intros. unfold disjoint_from, slot. nia. Qed.

Lemma outside_disjoint q a i :
  ring_ok q -> outside q a -> 0 <= i < max_msgs q ->
  disjoint_from a (msg_size q) (slot q i) (msg_size q).
Proof. intros [Hs _ _ _ _ _] Ho Hi. unfold outside, disjoint_from, slot in *. nia. Qed.

Lemma slot_index q i : 0 < msg_size q -> (slot q i - buffer_start q) / msg_size q = i.
Proof.
  intros. unfold slot. replace (buffer_start q + i * msg_size q - buffer_start q) with (i * msg_size q) by lia.
  apply Z.div_mul. lia.
Qed.

Lemma mod_range q i : ring_ok q -> 0 <= i `mod` max_msgs q < max_msgs q.
Proof. intros [_ Hm _ _ _ _]. apply Z.mod_pos_bound. lia. Qed.

Lemma enqueue_ok q src m :
  ring_ok q -> used_msgs q < max_msgs q -> outside q src ->
  let '(q', m') := enqueue q src m in
  ring_ok q' /\ messages q' m' = messages q m ++ [read_bytes m src (msg_size q)] /\
  used_msgs q' = used_msgs q + 1 /\ wait_q q' = wait_q q /\
  msg_size q' = msg_size q /\ max_msgs q' = max_msgs q /\ buffer_start q' = buffer_start q /\
  (forall a, outside q a -> read_bytes m' a (msg_size q) = read_bytes m a (msg_size q)).
Proof.
  intros Hr Hlt Ho. pose proof Hr as [Hs Hm He Hu [Hri Hrp] Hw]. unfold enqueue. fields.
  set (n := used_msgs q) in *. set (r := read_index q) in *. set (M := max_msgs q) in *.
  pose proof (mod_range q (r + n) Hr) as Hwr. fold M in Hwr.
  assert (u32 (n + 1) = n + 1) as En by (apply u32_small; lia). rewrite En.
  assert (Hother : forall i, 0 <= i < n -> (r + i) `mod` M <> (r + n) `mod` M).
  { intros i Hi E. assert ((n - i) `mod` M = 0) as H0.
    { replace (n - i) with ((r + n) - (r + i)) by lia. rewrite Zminus_mod, E, Z.sub_diag. by apply Z.mod_0_l; lia. }
    rewrite Z.mod_small in H0 by lia. lia. }
  split_and!; try done.
  - split; fields; try done; [lia|].
    rewrite Hw. rewrite (advance_slot q _ Hr Hwr). fold M.
    unfold read_index. fields. fold (read_index q) r. unfold slot. fields. do 2 f_equal.
    rewrite Zplus_mod_idemp_l. f_equal. lia.
  - unfold messages, read_index, slot. fields. fold (read_index q) r n M.
    rewrite seqZ_app by lia. rewrite fmap_app. f_equal.
    + apply list_fmap_ext. intros i x Hx. apply list_elem_of_lookup_2, elem_of_seqZ in Hx.
      rewrite Hw. apply read_memcpy_other. apply slots_disjoint; [done|].
      intros E. apply (Hother x); [lia|done].
    + rewrite (seqZ_cons (0 + n) 1) by lia. cbn [fmap list_fmap]. rewrite seqZ_nil by lia.
      cbn [fmap list_fmap]. f_equal. rewrite Z.add_0_l, Hw. apply read_memcpy_same.
  - intros a Ha. apply read_memcpy_other. rewrite Hw.
    pose proof (outside_disjoint q a _ Hr Ha Hwr) as Hd. unfold disjoint_from in *. lia.
Qed.

Lemma dequeue_ok q dst m :
  ring_ok q -> 0 < used_msgs q -> outside q dst ->
  let '(q', m') := dequeue q dst m in
  ring_ok q' /\ messages q m = read_bytes m' dst (msg_size q) :: messages q' m' /\
  used_msgs q' = used_msgs q - 1 /\ wait_q q' = wait_q q /\
  msg_size q' = msg_size q /\ max_msgs q' = max_msgs q /\ buffer_start q' = buffer_start q.
Proof.
  intros Hr Hpos Ho. pose proof Hr as [Hs Hm He Hu [Hri Hrp] Hw]. unfold dequeue. fields.
  set (n := used_msgs q) in *. set (r := read_index q) in *. set (M := max_msgs q) in *.
  assert (u32 (n - 1) = n - 1) as En by (apply u32_small; lia). rewrite En.
  pose proof (mod_range q (r + 1) Hr) as Hr1. fold M in Hr1.
  assert (Hridx : (advance q (read_ptr q) - buffer_start q) / msg_size q = (r + 1) `mod` M).
  { rewrite Hrp, advance_slot by done. by apply slot_index. }
  split_and!; try done.
  - split; fields; try done; [lia|..].
    + unfold read_index, slot. fields. rewrite Hridx. split; [done|].
      rewrite Hrp, advance_slot by done. done.
    + rewrite Hw. unfold read_index, slot. fields. rewrite Hridx. do 2 f_equal.
      rewrite Zplus_mod_idemp_l. f_equal. lia.
  - unfold messages at 1. fold n r M. rewrite (seqZ_cons 0 n) by lia. cbn [fmap list_fmap].
    f_equal.
    + rewrite read_memcpy_same. rewrite Hrp. f_equal. f_equal. rewrite Z.add_0_r.
      by apply Z.mod_small.
    + unfold messages, read_index at 1, slot at 2. fields. rewrite Hridx.
      apply list_eq. intros i. rewrite !list_lookup_fmap.
      destruct (decide (Z.of_nat i < n - 1)) as [Hi|Hi].
      * replace (Z.pred n) with (n - 1) by lia. rewrite !lookup_seqZ_lt by lia. cbn [fmap option_fmap option_map].
        f_equal. rewrite read_memcpy_other.
        -- unfold slot. do 3 f_equal. rewrite Zplus_mod_idemp_l. f_equal. lia.
        -- apply outside_disjoint; [done|done|]. by apply mod_range.
      * rewrite !lookup_seqZ_ge by lia. done.
Qed.
End Ring.

(** ** The queue and its waiters *)
Section Behaviour.
Context `{KConfig}.
Implicit Types (q : k_msgq) (m : Z -> Z) (k : kernel) (K : toid -> Prop).

(** Threads wait only for an empty queue (to read) or a full one (to write),
    and their buffers lie outside the ring. *)
Record msgq_ok q k : Prop := {
  mo_ring : ring_ok q;
  mo_waiters : wait_qs k (wait_q q) <> [] -> used_msgs q = 0 \/ used_msgs q = max_msgs q;
  mo_buffers t : t ∈ wait_qs k (wait_q q) -> outside q (swap_data (threads k t))
}.

Lemma messages_length q m : ring_ok q -> Z.of_nat (length (messages q m)) = used_msgs q.
Proof. intros Hr. unfold messages. rewrite length_fmap, length_seqZ. pose proof (ri_used q Hr). lia. Qed.

Lemma wake_with_eq t v k : wake_with t v k = wake t (upd_thread t (with_return_value v) k).
Proof. done. Qed.

Lemma outside_ext q q' a :
  msg_size q' = msg_size q -> max_msgs q' = max_msgs q -> buffer_start q' = buffer_start q ->
  outside q' a <-> outside q a.
Proof. unfold outside. by intros -> -> ->. Qed.

Lemma head_elem_of (l : list tid) t l' : l = t :: l' -> t ∈ l.
Proof. intros ->. apply elem_of_cons. by left. Qed.

(** After the first waiter left, the queue [q'] (the same buffer) is in order. *)
Lemma msgq_ok_released K q q' k k' t l g :
  running K k -> msgq_ok q k -> wait_qs k (wait_q q) = t :: l ->
  released (wait_q q) t l g k k' -> ring_ok q' -> wait_q q' = wait_q q ->
  used_msgs q' = used_msgs q -> msg_size q' = msg_size q -> max_msgs q' = max_msgs q ->
  buffer_start q' = buffer_start q -> msgq_ok q' k'.
Proof.
  intros Hru Hok Hq Hr Hring Ew Eu Es Em Eb. split; [done| |].
  - intros _. rewrite Eu, Em. apply (mo_waiters q k Hok). by rewrite Hq.
  - intros x. rewrite Ew, (rl_queue _ _ _ _ _ _ Hr). intros Hx. rewrite (outside_ext q q') by done.
    rewrite (released_left K k (wait_q q) t l g k' x) by done.
    apply (mo_buffers q k Hok). rewrite Hq. apply elem_of_cons. by right.
Qed.

Lemma msgq_ok_blocked q k k' ms data :
  msgq_ok q k -> outside q data -> used_msgs q = 0 \/ used_msgs q = max_msgs q ->
  blocked (wait_q q) ms k k' -> swap_data (threads k' (current k)) = data -> msgq_ok q k'.
Proof.
  intros Hok Hd Hu Hb E. split; [apply Hok|done|]. intros x.
  rewrite (bl_wait_q _ _ _ _ Hb), elem_of_prio_insert.
  destruct (decide (x = current k)) as [->|Hne]; [by rewrite E|].
  intros [?|Hx]; [done|]. rewrite (bl_threads _ _ _ _ Hb) by done. by apply (mo_buffers q k Hok).
Qed.

Lemma not_isr_guard k ms : in_isr k = false -> in_isr k && negb (ms =? K_NO_WAIT) = false.
Proof. by intros ->. Qed.

(** *** Purging *)
Lemma purge_loop_running K wq k :
  running K k ->
  exists k', purge_loop (length (wait_qs k wq)) wq k = Some k' /\ running K k' /\
    wait_qs k' wq = [] /\ (forall w', w' <> wq -> wait_qs k' w' = wait_qs k w') /\
    current k' = current k /\ in_isr k' = in_isr k /\
    (forall t, t ∈ wait_qs k wq -> swap_return_value (threads k' t) = - ENOMSG /\
       (wakeable k t = true -> t ∈ ready_list k')) /\
    (forall x, x ∉ wait_qs k wq -> threads k' x = threads k x) /\
    (forall x, x ∈ ready_list k -> x ∈ ready_list k').
Proof.
  remember (length (wait_qs k wq)) as n eqn:En. revert k En.
  induction n as [|n IH]; intros k En Hru; destruct (wait_qs k wq) as [|t l] eqn:Eq; try done;
    simpl; unfold _unpend_first_thread; rewrite Eq.
  - exists k. split_and!; try done. by intros t ?%elem_of_nil.
  - fold (unpend t k). rewrite wake_with_eq.
    destruct (hand_first K k wq t l (with_return_value (- ENOMSG)) Hru Eq
      (return_value_setter _)) as (k1 & -> & Hru1 & Hh & Htc). cbn [mbind option_bind].
    destruct Hh as [A1 A2 A3 A4 A5 A6 A7 A8 [f A9]]. simpl in En.
    destruct (IH k1) as (k2 & -> & Hru2 & E2 & Ew2 & Ec2 & Ei2 & Hv & Ht2 & Hk2);
      [rewrite A1; lia|done|]. rewrite A1 in Hv, Ht2.
    pose proof (waiters_distinct K k wq t l) as Hdist.
    exists k2. split_and!; try done.
    + intros w' Hw'. rewrite Ew2 by done. auto.
    + congruence.
    + congruence.
    + intros x. rewrite elem_of_cons. destruct (decide (x = t)) as [->|Hne].
      * intros _. split; [|by auto]. rewrite Ht2; [by rewrite A9|].
        intros Hin. by apply (Hdist t Hru Eq Hin).
      * intros [?|Hx]; [done|]. destruct (Hv x Hx) as [? Hwk]. split; [done|]. intros Hw. apply Hwk.
        unfold wakeable, fbit in *. by rewrite A8.
    + intros x [? ?]%not_elem_of_cons. rewrite Ht2 by done. auto.
    + auto.
Qed.
End Behaviour.

(** ** What a message queue promises *)
Section Promises.
Context `{KConfig}.
Implicit Types (q : k_msgq) (m : Z -> Z) (k : kernel) (K : toid -> Prop).

Definition bytes q m (a : Z) : list Z := read_bytes m a (msg_size q).

(** C10: [k_msgq_put] on the ring buffer behaves as a bounded queue of messages.
    With room and nobody waiting, the message is appended and the kernel is
    untouched; with readers waiting (the queue is then empty), the first one
    gets the message in its buffer and return value 0 and leaves the wait
    queue; a full queue gives -ENOMSG without waiting, and otherwise the
    caller waits with its message. Every case keeps the ring well formed. *)
Theorem msgq_put_correct K q data ms m k :
  running K k -> msgq_ok q k -> outside q data -> in_isr k = false ->
  current k <> _idle_thread -> timeout_ok ms ->
  exists r q' m' k', k_msgq_put q data ms m k = Some (r, q', m', k') /\
    running K k' /\ msgq_ok q' k' /\
    (used_msgs q < max_msgs q ->
       r = Returns 0 /\
       match wait_qs k (wait_q q) with
       | [] => k' = k /\ messages q' m' = messages q m ++ [bytes q m data]
       | t :: l => messages q' m' = [] /\ bytes q m' (swap_data (threads k t)) = bytes q m data /\
                   released (wait_q q) t l (with_return_value 0) k k'
       end) /\
    (used_msgs q = max_msgs q -> q' = q /\ m' = m /\
       if ms =? K_NO_WAIT then r = Returns (- ENOMSG) /\ k' = k
       else r = Blocks /\ blocked (wait_q q) ms k k' /\ swap_data (threads k' (current k)) = data).
Proof.
  intros Hru Hok Ho Hi Hid Hms. pose proof (mo_ring q k Hok) as Hr.
  pose proof (ri_used q Hr) as Hu. unfold k_msgq_put. rewrite (not_isr_guard k ms Hi).
  destruct (Z.ltb_spec (used_msgs q) (max_msgs q)) as [Hlt|Hge].
  - unfold _unpend_first_thread. destruct (wait_qs k (wait_q q)) as [|t l] eqn:Eq.
    + pose proof (enqueue_ok q data m Hr Hlt Ho) as He. destruct (enqueue q data m) as [q' m'].
      destruct He as (Hr' & Em & _ & Ew & _). exists (Returns 0), q', m', k.
      split_and!; try done; [|intros; lia]. split; rewrite ?Ew, ?Eq; try done.
      by intros ? ?%elem_of_nil.
    + fold (unpend t k). change (_set_thread_return_value t 0 (unpend t k))
        with (upd_thread t (with_return_value 0) (unpend t k)). rewrite wake_with_eq.
      destruct (release_first K k (wait_q q) t l (with_return_value 0) Hru Eq
        (return_value_setter 0)) as (k1 & k2 & -> & E2 & Hru2 & Hrl).
      cbn [mbind option_bind]. rewrite E2. cbn [mbind option_bind].
      assert (used_msgs q = 0) as E0.
      { destruct (mo_waiters q k Hok) as [?|?]; [by rewrite Eq|done|lia]. }
      assert (swap_data (threads (unpend t k) t) = swap_data (threads k t)) as Esd
        by (cbn; by rewrite fn_lookup_alter). rewrite Esd.
      eexists _, q, _, k2. split; [reflexivity|]. split_and!; try done.
      * by apply (msgq_ok_released K q q k k2 t l (with_return_value 0)).
      * intros _. split_and!; try done; [|apply read_memcpy_same].
        unfold messages. by rewrite E0.
      * intros. lia.
  - destruct (Z.eqb_spec ms K_NO_WAIT) as [->|Hnw].
    + eexists _, q, m, k. split; [reflexivity|]. split_and!; try done. intros; lia.
    + destruct (block_with_data_running K k (wait_q q) ms data Hru Hid Hms)
        as (k' & -> & Hru' & Hb & Hsd). cbn [mbind option_bind].
      eexists _, q, m, k'. split; [reflexivity|]. split_and!; try done; [|intros; lia].
      eapply msgq_ok_blocked; try done. right. lia.
Qed.

(** C11: [k_msgq_get] takes the oldest message into the caller's buffer; a writer
    waiting for room then has its message appended, gets return value 0 and
    leaves the wait queue, so messages come out in the order they were put. An
    empty queue gives -ENOMSG without waiting, and otherwise the caller waits. *)
Theorem msgq_get_correct K q data ms m k :
  running K k -> msgq_ok q k -> outside q data -> in_isr k = false ->
  current k <> _idle_thread -> timeout_ok ms ->
  (forall t, t ∈ wait_qs k (wait_q q) ->
     disjoint_from data (msg_size q) (swap_data (threads k t)) (msg_size q)) ->
  exists r q' m' k', k_msgq_get q data ms m k = Some (r, q', m', k') /\
    running K k' /\ msgq_ok q' k' /\
    (forall x rest, messages q m = x :: rest -> r = Returns 0 /\ bytes q m' data = x /\
       match wait_qs k (wait_q q) with
       | [] => k' = k /\ messages q' m' = rest
       | t :: l => messages q' m' = rest ++ [bytes q m (swap_data (threads k t))] /\
                   released (wait_q q) t l (with_return_value 0) k k'
       end) /\
    (messages q m = [] -> q' = q /\ m' = m /\
       if ms =? K_NO_WAIT then r = Returns (- ENOMSG) /\ k' = k
       else r = Blocks /\ blocked (wait_q q) ms k k' /\ swap_data (threads k' (current k)) = data).
Proof.
  intros Hru Hok Ho Hi Hid Hms Hdis. pose proof (mo_ring q k Hok) as Hr.
  pose proof (ri_used q Hr) as Hu. unfold k_msgq_get. rewrite (not_isr_guard k ms Hi).
  pose proof (messages_length q m Hr) as Hlen.
  destruct (Z.ltb_spec 0 (used_msgs q)) as [Hpos|Hz].
  - pose proof (dequeue_ok q data m Hr Hpos Ho) as Hd. destruct (dequeue q data m) as [q1 m1] eqn:E1.
    destruct Hd as (Hr1 & Em1 & Eu1 & Ew1 & Es1 & Ex1 & Eb1).
    rewrite Em1 in *. unfold _unpend_first_thread. rewrite Ew1.
    destruct (wait_qs k (wait_q q)) as [|t l] eqn:Eq.
    + eexists _, q1, m1, k. split; [reflexivity|]. split_and!; try done.
      * split; rewrite ?Ew1, ?Eq; try done. by intros ? ?%elem_of_nil.
      * by intros x rest [= <- <-].
    + fold (unpend t k). set (src := swap_data (threads (unpend t k) t)).
      assert (src = swap_data (threads k t)) as Esd by (unfold src; cbn; by rewrite fn_lookup_alter).
      assert (outside q src) as Hos
        by (rewrite Esd; apply (mo_buffers q k Hok), (head_elem_of _ _ _ Eq)).
      pose proof (enqueue_ok q1 src m1 Hr1) as He. rewrite (outside_ext q q1), Es1 in He by done.
      destruct (enqueue q1 src m1) as [q2 m2].
      destruct He as (Hr2 & Em2 & Eu2 & Ew2 & Es2 & Ex2 & Eb2 & Hout); [lia|done|].
      rewrite wake_with_eq.
      destruct (release_first K k (wait_q q) t l (with_return_value 0) Hru Eq
        (return_value_setter 0)) as (k1 & k2 & -> & E2 & Hru2 & Hrl).
      cbn [mbind option_bind]. rewrite E2. cbn [mbind option_bind].
      eexists _, q2, m2, k2. split; [reflexivity|]. split_and!; try done.
      * eapply (msgq_ok_released K q q2 k k2 t l); try done; congruence || lia.
      * intros x rest [= <- <-]. split_and!; try done.
        -- apply Hout. by rewrite (outside_ext q q1).
        -- rewrite Em2. do 2 f_equal. unfold bytes. rewrite Esd.
           unfold dequeue in E1. injection E1 as _ <-. apply read_memcpy_other.
           pose proof (Hdis t (head_elem_of _ _ _ eq_refl)) as Hd. unfold disjoint_from in *. lia.
  - assert (messages q m = []) as Ee by (apply nil_length_inv; lia).
    destruct (Z.eqb_spec ms K_NO_WAIT) as [->|Hnw].
    + eexists _, q, m, k. split; [reflexivity|]. split_and!; try done. by rewrite Ee.
    + destruct (block_with_data_running K k (wait_q q) ms data Hru Hid Hms)
        as (k' & -> & Hru' & Hb & Hsd). cbn [mbind option_bind].
      eexists _, q, m, k'. split; [reflexivity|]. split_and!; try done; [|by rewrite Ee].
      eapply msgq_ok_blocked; try done. left. lia.
Qed.

(** [k_msgq_purge] empties the queue and wakes every waiting thread, reader
    or writer, with -ENOMSG. *)
Theorem msgq_purge_correct K q m k :
  running K k -> msgq_ok q k ->
  exists q' k', k_msgq_purge q k = Some (q', k') /\ running K k' /\ msgq_ok q' k' /\
    messages q' m = [] /\ wait_qs k' (wait_q q) = [] /\
    (forall w, w <> wait_q q -> wait_qs k' w = wait_qs k w) /\
    (forall t, t ∈ wait_qs k (wait_q q) -> wakeable k t = true -> t ∈ ready_list k') /\
    no_more_urgent k'.
Proof.
  intros Hru Hok. unfold k_msgq_purge.
  destruct (purge_loop_running K (wait_q q) k Hru)
    as (k1 & -> & Hru1 & E1 & Ew1 & _ & _ & Hv & _ & _). cbn [mbind option_bind].
  destruct (reschedule_running K k1 Hru1) as (k2 & -> & Hru2 & Hsq & Hnu). cbn [mbind option_bind].
  eexists _, k2. split; [reflexivity|]. split_and!; try done.
  - pose proof (mo_ring q k Hok) as Hr. destruct Hr as [Hs Hm He Hu [Hri Hrp] Hw].
    split; fields; [|by left|].
    + pose proof (mod_range q (read_index q + used_msgs q) (mo_ring q k Hok)) as Hwr.
      split; unfold read_index; fields; try done; [lia|..]; rewrite Hw, slot_index by done; [done|].
      unfold slot. fields. do 2 f_equal. rewrite Z.add_0_r, Z.mod_mod by lia. done.
    + intros x. rewrite (sq_wait_qs _ _ Hsq), E1. by intros ?%elem_of_nil.
  - by rewrite (sq_wait_qs _ _ Hsq).
  - intros w Hw. rewrite (sq_wait_qs _ _ Hsq). auto.
  - intros t Ht Hwk. rewrite (same_queues_ready _ _ Hsq). by apply (Hv t Ht).
Qed.
End Promises.

Section Witnesses.
(** Two-byte messages, room for three, [n] of them held, the oldest in slot 1;
    byte [a] of memory holds [a]. *)
Definition msgq_demo (n : Z) : k_msgq :=
  mk_msgq 40%positive 2 3 100 106 102 (100 + (1 + n) `mod` 3 * 2) n.

Lemma msgq_demo_ok n : 0 <= n <= 3 -> msgq_ok (msgq_demo n) booted.
Proof.
  intros Hn. destruct booted_running as (_ & _ & _ & _ & Ew & _). split.
  - split; unfold msgq_demo, read_index, slot, UINT32_MAX; fields; try lia.
    + split; [vm_compute; intuition discriminate|reflexivity].
    + reflexivity.
  - fields. rewrite Ew. intros H. destruct (H eq_refl).
  - intros t. fields. rewrite Ew. by intros ?%elem_of_nil.
Qed.

Lemma msgq_put_correct_witness :
  exists r q' m' k', k_msgq_put (msgq_demo 2) 200 K_NO_WAIT id booted = Some (r, q', m', k') /\
    messages q' m' = [[102; 103]; [104; 105]; [200; 201]].
Proof.
  destruct booted_running as (Hru & Ec & _ & _ & Ew & Hi).
  destruct (msgq_put_correct boot_threads (msgq_demo 2) 200 K_NO_WAIT id booted Hru
    (msgq_demo_ok 2 ltac:(lia))) as (r & q' & m' & k' & E & _ & _ & Hs & _).
  - unfold outside, disjoint_from, msgq_demo. fields. lia.
  - exact Hi.
  - rewrite Ec. discriminate.
  - apply timeout_ok_ms; vm_compute; intuition discriminate.
  - exists r, q', m', k'. split; [exact E|]. destruct Hs as [_ Hs]; [unfold msgq_demo; fields; lia|].
    rewrite Ew in Hs. destruct Hs as [_ Hs]. exact Hs.
Defined.

Lemma msgq_get_correct_witness :
  exists r q' m' k', k_msgq_get (msgq_demo 2) 200 K_NO_WAIT id booted = Some (r, q', m', k') /\
    messages q' m' = [[104; 105]].
Proof.
  destruct booted_running as (Hru & Ec & _ & _ & Ew & Hi).
  destruct (msgq_get_correct boot_threads (msgq_demo 2) 200 K_NO_WAIT id booted Hru
    (msgq_demo_ok 2 ltac:(lia))) as (r & q' & m' & k' & E & _ & _ & Hs & _).
  - unfold outside, disjoint_from, msgq_demo. fields. lia.
  - exact Hi.
  - rewrite Ec. discriminate.
  - apply timeout_ok_ms; vm_compute; intuition discriminate.
  - intros t. rewrite Ew. intros Ht. destruct (proj1 (elem_of_nil t) Ht).
  - exists r, q', m', k'. split; [exact E|].
    destruct (Hs [102; 103] [[104; 105]] eq_refl) as (_ & _ & Hm). rewrite Ew in Hm. exact (proj2 Hm).
Defined.

Lemma msgq_purge_correct_witness :
  exists q' k', k_msgq_purge (msgq_demo 3) booted = Some (q', k') /\ messages q' id = [].
Proof.
  destruct booted_running as (Hru & _).
  destruct (msgq_purge_correct boot_threads (msgq_demo 3) id booted Hru (msgq_demo_ok 3 ltac:(lia)))
    as (q' & k' & E & _ & _ & Hm & _).
  exists q', k'. split; [exact E|exact Hm].
Defined.
End Witnesses.
