(* ===== verification/MemSlab.v ===== *)
(** * Memory slabs (kernel/unified/mem_slab.c)

    Fixed-size blocks between [buffer] and the end of the slab; the free ones
    are chained through their first words, [words a] being the pointer stored
    at address [a]. Address 0 is the null pointer. *)
From S2P Require Import Prelude Kernel ReadyQ TimeoutQ Sched SchedInv SchedApi Thread Boot.

Record k_mem_slab := mk_slab {
  wait_q : wqid;
  num_blocks : Z;
  block_size : Z;
  buffer : Z;
  free_list : Z;
  num_used : Z
}.

Section Operations.
Context `{KConfig}.
Implicit Types (s : k_mem_slab) (words : Z -> Z) (k : kernel).

Definition set_free (free used : Z) s : k_mem_slab :=
  mk_slab (wait_q s) (num_blocks s) (block_size s) (buffer s) free used.

(** The [for] loop of [create_free_list]: [n] blocks are left, [p] is the next. *)
Fixpoint create_free_list_loop (n : nat) (size p free : Z) words : Z * (Z -> Z) :=
  match n with
  | O => (free, words)
  | S n => create_free_list_loop n size (p + size) p (<[p := free]> words)
  end.

Definition create_free_list s words : k_mem_slab * (Z -> Z) :=
  let '(free, words) := create_free_list_loop (Z.to_nat (num_blocks s)) (block_size s) (buffer s) 0 words in
  (set_free free (num_used s) s, words).

Definition k_mem_slab_init (wq : wqid) (buf size blocks : Z) words k
    : k_mem_slab * (Z -> Z) * kernel :=
  let s := mk_slab wq blocks size buf 0 0 in
  let '(s, words) := create_free_list s words in
  (s, words, upd_wait_q wq [] k).

(** The result, and the block stored through [mem]. *)
Definition k_mem_slab_alloc s (timeout : Z) words k
    : option (outcome (Z * Z) * k_mem_slab * kernel) :=
  if negb (free_list s =? 0) then
    let mem := free_list s in
    Some (Returns (0, mem), set_free (words (free_list s)) (u32 (num_used s + 1)) s, k)
  else if timeout =? K_NO_WAIT then Some (Returns (- ENOMEM, 0), s, k)
  else
    k ← _pend_current_thread (wait_q s) timeout k;
    k ← _Swap k;
    Some (Blocks, s, k).

(** The end of an allocation that blocked: [None] leaves [*mem] as it was. *)
Definition k_mem_slab_alloc_resume (t : tid) k : Z * option Z :=
  let result := swap_return_value (threads k t) in
  (result, if result =? 0 then Some (swap_data (threads k t)) else None).

Definition k_mem_slab_free s (mem : Z) words k : option (k_mem_slab * (Z -> Z) * kernel) :=
  match _unpend_first_thread (wait_q s) k with
  | (Some t, k) =>
      let k := _set_thread_return_value_with_data t 0 mem k in
      let '(_, k) := _abort_thread_timeout t k in
      k ← _ready_thread t k;
      b ← _must_switch_threads k;
      k ← (if (b : bool) then _Swap k else Some k);
      Some (s, words, k)
  | (None, k) =>
      Some (set_free mem (u32 (num_used s - 1)) s, <[mem := free_list s]> words, k)
  end.
End Operations.

(** ** The free list *)
Section FreeList.
Implicit Types (s : k_mem_slab) (words : Z -> Z) (l : list Z).

(** [l] is the chain of blocks from [p]. *)
Fixpoint chain words (p : Z) l : Prop :=
  match l with
  | [] => p = 0
  | b :: l' => p = b /\ b <> 0 /\ chain words (words b) l'
  end.

Definition block s (i : nat) : Z := buffer s + Z.of_nat i * block_size s.
Definition blocks s : list Z := block s <$> seq 0 (Z.to_nat (num_blocks s)).

Record slab_wf s words (free : list Z) : Prop := {
  sw_size : 0 < block_size s;
  sw_count : 0 <= num_blocks s <= UINT32_MAX;
  sw_buffer : 0 < buffer s;
  sw_chain : chain words (free_list s) free;
  sw_nodup : NoDup free;
  sw_blocks b : b ∈ free -> b ∈ blocks s;
  sw_used : num_used s = num_blocks s - Z.of_nat (length free)
}.

Lemma chain_insert words p l a v : a ∉ l -> chain words p l -> chain (<[a := v]> words) p l.
Proof.
  revert p. induction l as [|b l IH]; intros p Ha; [done|].
  apply not_elem_of_cons in Ha as [Hne Ha]. intros (-> & H0 & Hc). split_and!; [done|done|].
  rewrite fn_lookup_insert_ne by done. by apply IH.
Qed.

Lemma chain_unique words p l l' : chain words p l -> chain words p l' -> l = l'.
Proof.
  revert p l'. induction l as [|b l IH]; intros p [|b' l']; simpl; try done.
  - intros -> (<- & ? & _). done.
  - intros (-> & ? & _) ?. done.
  - intros (-> & _ & Hc) (<- & _ & Hc'). f_equal. by eapply IH.
Qed.

Lemma block_inj s i j : 0 < block_size s -> block s i = block s j -> i = j.
Proof. unfold block. intros. nia. Qed.

Lemma block_pos s i : 0 < block_size s -> 0 < buffer s -> block s i <> 0.
Proof. unfold block. nia. Qed.

Lemma blocks_nodup s : 0 < block_size s -> NoDup (blocks s).
Proof.
  intros Hs. apply NoDup_fmap_2_strong; [|apply NoDup_seq].
  intros i j _ _. by apply block_inj.
Qed.

Lemma blocks_length s : 0 <= num_blocks s -> Z.of_nat (length (blocks s)) = num_blocks s.
Proof. intros. unfold blocks. rewrite length_fmap, length_seq. lia. Qed.

(** The free blocks are never more than there are. *)
Lemma free_bound s words free : slab_wf s words free -> Z.of_nat (length free) <= num_blocks s.
Proof.
  intros [Hs Hc _ _ Hn Hb _]. rewrite <- (blocks_length s) by lia.
  apply inj_le, submseteq_length, NoDup_submseteq; done.
Qed.

Lemma create_loop_chain s words n i free l :
  0 < block_size s -> 0 < buffer s -> chain words free l ->
  (forall b, b ∈ l -> exists j, (j < i)%nat /\ b = block s j) ->
  let '(free', words') := create_free_list_loop n (block_size s) (block s i) free words in
  chain words' free' (reverse (block s <$> seq i n) ++ l).
Proof.
  intros Hs Hb. revert i free l words. induction n as [|n IH]; intros i free l words Hc Hl; [done|].
  simpl. replace (block s i + block_size s) with (block s (S i)) by (unfold block; lia).
  specialize (IH (S i) (block s i) (block s i :: l) (<[block s i := free]> words)).
  destruct (create_free_list_loop n _ _ _ _) as [free' words'].
  rewrite reverse_cons, <- app_assoc. apply IH.
  - split_and!; [done|by apply block_pos|]. rewrite fn_lookup_insert. apply chain_insert; [|done].
    intros (j & Hj & E)%Hl. apply block_inj in E; [lia|done].
  - intros b [->|Hin]%elem_of_cons; [exists i; split; [lia|done]|].
    destruct (Hl b Hin) as (j & ? & ?). exists j. split; [lia|done].
Qed.
End FreeList.

(** ** Behaviour *)
Section Promises.
Context `{KConfig}.
Implicit Types (s : k_mem_slab) (words : Z -> Z) (k : kernel) (K : toid -> Prop) (free : list Z).

(** Threads wait only when no block is free. *)
Definition slab_ok s words free k : Prop :=
  slab_wf s words free /\ (wait_qs k (wait_q s) <> [] -> free = []).

(** Initialising a slab chains every block of the buffer into the free list,
    exactly once, with none in use. *)
Theorem slab_init_correct wq buf size n words k :
  0 < size -> 0 <= n < 2 ^ 31 -> 0 < buf ->
  let '(s, words', k') := k_mem_slab_init wq buf size n words k in
  slab_ok s words' (reverse (blocks s)) k' /\ num_used s = 0 /\
  (forall i : nat, Z.of_nat i < n -> buf + Z.of_nat i * size ∈ blocks s).
Proof.
  intros Hs Hn Hb. unfold k_mem_slab_init, create_free_list. cbn [num_blocks block_size buffer].
  pose proof (create_loop_chain (mk_slab wq n size buf 0 0) words (Z.to_nat n) 0 0 []) as Hc.
  cbn [block_size buffer] in Hc. replace (block _ 0) with buf in Hc by (unfold block; simpl; lia).
  destruct (create_free_list_loop _ _ _ _ _) as [free' words']. unfold set_free.
  cbn [wait_q num_blocks block_size buffer free_list num_used] in *.
  specialize (Hc Hs Hb eq_refl ltac:(by intros ? ?%elem_of_nil)). rewrite app_nil_r in Hc.
  split_and!; [split|done|].
  - split; cbn [num_blocks block_size buffer free_list num_used]; try done.
    + unfold UINT32_MAX. lia.
    + rewrite reverse_Permutation. by apply blocks_nodup.
    + intros b. by rewrite elem_of_reverse.
    + rewrite length_reverse, blocks_length by (cbn; lia). cbn. lia.
  - cbn. by rewrite fn_lookup_insert.
  - intros i Hi. apply list_elem_of_fmap. exists i. split; [done|].
    apply elem_of_seq. cbn [num_blocks]. lia.
Qed.

(** allocating from a slab returns a free block, which is then no longer
    free, so no block is ever handed out twice; with no free block it fails
    with -ENOMEM and a null pointer, or waits. [num_used] counts the blocks
    taken and never overflows. *)
Theorem slab_alloc_correct K s words free ms k :
  running K k -> slab_ok s words free k -> current k <> _idle_thread -> timeout_ok ms ->
  exists r s' k', k_mem_slab_alloc s ms words k = Some (r, s', k') /\ running K k' /\
    match free with
    | b :: free' => r = Returns (0, b) /\ k' = k /\ slab_ok s' words free' k' /\
                    b ∈ blocks s /\ b ∉ free' /\ num_used s' = num_used s + 1
    | [] => s' = s /\ slab_ok s' words [] k' /\ num_used s = num_blocks s /\
            if ms =? K_NO_WAIT then r = Returns (- ENOMEM, 0) /\ k' = k
            else r = Blocks /\ blocked (wait_q s) ms k k'
    end.
Proof.
  intros Hru [Hwf Hw] Hid Hms. pose proof (free_bound s words free Hwf) as Hbound.
  pose proof Hwf as [Hs Hc Hb Hch Hn Hbl Hu]. unfold k_mem_slab_alloc.
  destruct free as [|b free'].
  - rewrite Hch. cbn [Z.eqb negb]. simpl in Hu. rewrite Z.sub_0_r in Hu.
    destruct (Z.eqb_spec ms K_NO_WAIT) as [->|Hnw]; [by eexists _, s, k|].
    destruct (block_current_running K k (wait_q s) ms Hru Hid Hms) as (k' & E & Hru' & Hbk).
    unfold block_current in E. destruct (_pend_current_thread _ _ _) as [k1|]; [|done].
    cbn [mbind option_bind] in *. rewrite E. cbn [mbind option_bind].
    by eexists _, s, k'.
  - destruct Hch as (E & H0 & Hch). rewrite E, (proj2 (Z.eqb_neq _ _) H0). cbn [negb].
    apply NoDup_cons in Hn as [Hnin Hn]. cbn [length] in Hu, Hbound.
    assert (b ∈ blocks s) as Hbb by (apply Hbl, elem_of_cons; by left).
    rewrite u32_small by lia. eexists _, _, k. split; [reflexivity|]. split_and!; try done.
    split; [split; cbn; try done|]; [|lia|].
    + intros b' Hb'. apply Hbl, elem_of_cons. by right.
    + intros Hq. discriminate (Hw Hq).
Qed.

(** Freeing a block that is in use puts it back into the free list, or, if
    threads are waiting, hands it to the first of them, which gets return value
    0 and the block. *)
Theorem slab_free_correct K s words free b k :
  running K k -> slab_ok s words free k -> in_isr k = false -> b ∈ blocks s -> b ∉ free ->
  exists s' words' k', k_mem_slab_free s b words k = Some (s', words', k') /\ running K k' /\
    match wait_qs k (wait_q s) with
    | [] => k' = k /\ slab_ok s' words' (b :: free) k' /\ num_used s' = num_used s - 1
    | t :: l => s' = s /\ slab_ok s' words' [] k' /\
                k_mem_slab_alloc_resume t k' = (0, Some b) /\
                released (wait_q s) t l (fun th => with_swap_data b (with_return_value 0 th)) k k'
    end.
Proof.
  intros Hru [Hwf Hw] Hi Hb Hnin. unfold k_mem_slab_free, _unpend_first_thread.
  pose proof Hwf as [Hs Hc Hbuf Hch Hn Hbl Hu].
  destruct (wait_qs k (wait_q s)) as [|t l] eqn:Eq.
  - assert (Z.of_nat (length (b :: free)) <= num_blocks s) as Hle.
    { rewrite <- (blocks_length s) by lia. apply inj_le, submseteq_length, NoDup_submseteq.
      - by constructor.
      - intros x [->|?]%elem_of_cons; auto. }
    cbn [length] in Hle. rewrite u32_small by lia.
    eexists _, _, k. split; [reflexivity|]. split_and!; try done.
    split; [|cbn; by rewrite Eq]. split; cbn; try done; [|by constructor| |lia].
    + split_and!; [done| |rewrite fn_lookup_insert; by apply chain_insert].
      apply list_elem_of_fmap in Hb as (i & -> & _). by apply block_pos.
    + intros x [->|?]%elem_of_cons; auto.
  - fold (unpend t k).
    destruct (release_first K k (wait_q s) t l _ Hru Eq (with_data_setter 0 b))
      as (k1 & k2 & E1 & E2 & Hru2 & Hrl).
    unfold _set_thread_return_value_with_data. unfold wake in E1.
    destruct (_abort_thread_timeout t _) as [r ka] eqn:Ea. rewrite E1. cbn [mbind option_bind].
    assert (in_isr k1 = false) as Hi1.
    { destruct (hand_first K k (wait_q s) t l _ Hru Eq (with_data_setter 0 b))
        as (k1' & E1' & _ & Hh & _). unfold wake in E1'. rewrite Ea, E1 in E1'. injection E1' as <-.
      by rewrite (ha_isr _ _ _ _ _ _ Hh). }
    unfold swap_if_needed, must_switch_if_not_isr in E2. rewrite Hi1 in E2.
    destruct (_must_switch_threads k1) as [bo|]; [|done]. cbn [mbind option_bind] in *.
    rewrite E2. cbn [mbind option_bind].
    assert (free = []) as -> by (by apply Hw).
    eexists _, _, k2. split; [reflexivity|]. split_and!; try done.
    destruct (rl_thread _ _ _ _ _ _ Hrl) as [f Hf]. unfold k_mem_slab_alloc_resume. by rewrite Hf.
Qed.
End Promises.

Section Witnesses.
Lemma slab_init_correct_witness :
  let '(s, words, _) := k_mem_slab_init 50%positive 1000 16 4 (fun _ => 0) booted in
  slab_wf s words [1048; 1032; 1016; 1000].
Proof.
  pose proof (slab_init_correct 50%positive 1000 16 4 (fun _ => 0) booted
    ltac:(lia) ltac:(lia) ltac:(lia)) as Hi.
  destruct Hi as [[Hwf _] _]. exact Hwf.
Defined.

(** Two blocks, one of them taken. *)
Definition half_slab : k_mem_slab := mk_slab 50%positive 2 16 1000 1000 1.

Lemma half_slab_ok : slab_ok half_slab (fun _ => 0) [1000] booted.
Proof.
  split; [split|]; cbn; try done.
  - repeat constructor. by intros ?%elem_of_nil.
  - intros b. rewrite list_elem_of_singleton. intros ->. apply elem_of_cons. by left.
Qed.

Lemma slab_alloc_correct_witness :
  exists s' k', k_mem_slab_alloc half_slab K_NO_WAIT (fun _ => 0) booted =
    Some (Returns (0, 1000), s', k') /\ num_used s' = 2.
Proof.
  destruct booted_running as (Hru & Ec & _).
  destruct (slab_alloc_correct boot_threads half_slab (fun _ => 0) [1000] K_NO_WAIT booted Hru
    half_slab_ok) as (r & s' & k' & E & _ & -> & _ & _ & _ & _ & Hu).
  - rewrite Ec. discriminate.
  - apply timeout_ok_ms; vm_compute; intuition discriminate.
  - exists s', k'. split; [exact E|exact Hu].
Defined.

Lemma slab_free_correct_witness :
  exists s' words' k', k_mem_slab_free half_slab 1016 (fun _ => 0) booted = Some (s', words', k') /\
    slab_ok s' words' [1016; 1000] k'.
Proof.
  destruct booted_running as (Hru & Ec & _ & _ & Ew & Hi).
  destruct (slab_free_correct boot_threads half_slab (fun _ => 0) [1000] 1016 booted Hru
    half_slab_ok Hi) as (s' & words' & k' & E & _ & Hm).
  - apply elem_of_cons. right. apply elem_of_cons. left. reflexivity.
  - rewrite list_elem_of_singleton. discriminate.
  - rewrite Ew in Hm. exists s', words', k'. split; [exact E|exact (proj1 (proj2 Hm))].
Defined.
End Witnesses.
