(* ===== verification/MemPool.v ===== *)
(** * Memory pools: the allocator (kernel/unified/mem_pool.c, include/kernel.h)

    A pool is an array of block sets, each with blocks four times smaller than
    the set before it. The blocks of a set come in quad-blocks: an address and
    four status bits, a bit being set when its block is unused. A quad-block
    whose address is null is an unused entry of its array. A block of one set
    becomes a quad-block of the next when it is split, and back when merged.
    This file has the allocator, and the proof that it manages a forest of
    blocks; [MemPoolApi] has the services, with the threads that wait. *)
From S2P Require Import Prelude Kernel ReadyQ.

Record k_mem_pool_quad_block := mk_quad { mem_blocks : Z; mem_status : Z }.

Record k_mem_pool_block_set := mk_set {
  block_size : Z;
  nr_of_entries : Z;
  quad_block : list k_mem_pool_quad_block
}.

Record k_mem_pool := mk_pool {
  max_block_size : Z;
  min_block_size : Z;
  nr_of_maxblocks : Z;
  nr_of_block_sets : Z;
  block_set : list k_mem_pool_block_set;
  bufblock : Z;
  wait_q : wqid
}.

(** CONFIG_MEM_POOL_SPLIT_BEFORE_DEFRAG, _DEFRAG_BEFORE_SPLIT, _SPLIT_ONLY *)
Inductive mem_pool_policy := SPLIT_BEFORE_DEFRAG | DEFRAG_BEFORE_SPLIT | SPLIT_ONLY.

Definition _QUAD_BLOCK_AVAILABLE : Z := 15.
Definition _QUAD_BLOCK_ALLOCATED : Z := 0.

Section Operations.
Implicit Types (q : k_mem_pool_quad_block) (qs : list k_mem_pool_quad_block)
  (s : k_mem_pool_block_set) (sets : list k_mem_pool_block_set) (pool : k_mem_pool).

Definition with_quads qs s : k_mem_pool_block_set := mk_set (block_size s) (nr_of_entries s) qs.

Definition with_sets sets pool : k_mem_pool :=
  mk_pool (max_block_size pool) (min_block_size pool) (nr_of_maxblocks pool)
    (nr_of_block_sets pool) sets (bufblock pool) (wait_q pool).

(** Writing an array entry; [None] is a write outside the array. *)
Definition write_quad (i : nat) q qs : option (list k_mem_pool_quad_block) :=
  if decide (i < length qs)%nat then Some (<[i := q]> qs) else None.

(** *** The arrays that K_MEM_POOL_DEFINE builds, entries zeroed *)
Fixpoint _build_block_set (fuel : nat) (n_max max_size min_size : Z) : list k_mem_pool_block_set :=
  let entries := if n_max mod 4 =? 0 then Z.shiftr n_max 2 else Z.shiftr n_max 2 + 1 in
  mk_set max_size entries (replicate (Z.to_nat entries) (mk_quad 0 0)) ::
  match fuel with
  | O => []
  | S fuel =>
      if 0 <=? Z.shiftr max_size 2 - min_size
      then _build_block_set fuel (n_max * 4) (Z.shiftr max_size 2) min_size else []
  end.

Definition K_MEM_POOL_DEFINE (min_size max_size n_max buf : Z) (wq : wqid) : k_mem_pool :=
  let sets := _build_block_set 16 n_max max_size min_size in
  mk_pool max_size min_size n_max (Z.of_nat (length sets)) sets buf wq.

(** *** Initialisation *)
Fixpoint init_quads (fuel : nat) (remaining_blocks : Z) (j : nat) (size memptr : Z) qs
    : option (list k_mem_pool_quad_block) :=
  if 4 <=? remaining_blocks then
    match fuel with
    | O => None
    | S fuel =>
        qs ← write_quad j (mk_quad memptr _QUAD_BLOCK_AVAILABLE) qs;
        init_quads fuel (remaining_blocks - 4) (S j) size (memptr + size * 4) qs
    end
  else if negb (remaining_blocks =? 0) then
    write_quad j (mk_quad memptr (Z.shiftr _QUAD_BLOCK_AVAILABLE (4 - remaining_blocks))) qs
  else Some qs.

Definition init_one_memory_pool pool (k : kernel) : option (k_mem_pool * kernel) :=
  let remaining_blocks := nr_of_maxblocks pool in
  s ← block_set pool !! 0%nat;
  qs ← init_quads (Z.to_nat remaining_blocks) remaining_blocks 0 (block_size s) (bufblock pool)
         (quad_block s);
  Some (with_sets (<[0%nat := with_quads qs s]> (block_set pool)) pool,
        upd_wait_q (wait_q pool) [] k).

(** *** Looking a block set up: [int] arithmetic; [None] when the fuel runs out *)
Fixpoint block_set_index_loop (fuel : nat) (data_size block_size offset : Z) : option Z :=
  if block_size <? data_size then
    match fuel with
    | O => None
    | S fuel => block_set_index_loop fuel data_size (i32 (block_size * 4)) (offset - 1)
    end
  else Some offset.

Definition compute_block_set_index pool (data_size : Z) : option Z :=
  block_set_index_loop 32 (i32 data_size) (i32 (min_block_size pool)) (nr_of_block_sets pool - 1).

(** *** Freeing *)
Fixpoint find_block (fuel : nat) (j ptr block_ptr size : Z) : option Z :=
  match fuel with
  | O => None
  | S fuel =>
      if ptr =? block_ptr then Some j else find_block fuel (j + 1) ptr (block_ptr + size) size
  end.

(** [None] is the failed assertion that the block is there. *)
Fixpoint free_in_quads (ptr size : Z) qs : option (list k_mem_pool_quad_block) :=
  match qs with
  | [] => None
  | q :: qs =>
      if mem_blocks q =? 0 then None else
      match find_block 4 0 ptr (mem_blocks q) size with
      | Some j => Some (mk_quad (mem_blocks q) (Z.lor (mem_status q) (Z.shiftl 1 j)) :: qs)
      | None => qs ← free_in_quads ptr size qs; Some (q :: qs)
      end
  end.

Definition free_existing_block (ptr : Z) (index : nat) sets : option (list k_mem_pool_block_set) :=
  s ← sets !! index;
  qs ← free_in_quads ptr (block_size s) (quad_block s);
  Some (<[index := with_quads qs s]> sets).

(** *** Merging *)
Fixpoint last_quad (fuel k : nat) (entries : Z) qs : option nat :=
  if Z.of_nat (k + 1) =? entries then Some k else
  q ← qs !! (k + 1)%nat;
  if mem_blocks q =? 0 then Some k else
  match fuel with
  | O => None
  | S fuel => last_quad fuel (k + 1) entries qs
  end.

(** The quad-block [i] is replaced by the last one. *)
Definition delete_quad (i : nat) (entries : Z) qs : option (list k_mem_pool_quad_block) :=
  k ← last_quad (length qs) i entries qs;
  q ← qs !! k;
  Some (<[k := mk_quad 0 (mem_status q)]> (<[i := q]> qs)).

(** The [do] loop over block set [j]. *)
Fixpoint defrag_set (fuel j i : nat) sets : option (list k_mem_pool_block_set) :=
  match fuel with
  | O => None
  | S fuel =>
      s ← sets !! j;
      q ← quad_block s !! i;
      if mem_blocks q =? 0 then Some sets else
      r ← (if mem_status q =? _QUAD_BLOCK_AVAILABLE then
             sets ← free_existing_block (mem_blocks q) (j - 1) sets;
             qs ← delete_quad i (nr_of_entries s) (quad_block s);
             Some (i, <[j := with_quads qs s]> sets)
           else Some (S i, sets));
      let '(i, sets) := r in
      if Z.of_nat i <? nr_of_entries s then defrag_set fuel j i sets else Some sets
  end.

(** The [for] loop; the block sets left are [last + n], ..., [last + 1]. *)
Fixpoint defrag_sets (n last : nat) sets : option (list k_mem_pool_block_set) :=
  match n with
  | O => Some sets
  | S n' =>
      let j := (last + n)%nat in
      s ← sets !! j;
      sets ← defrag_set (S (length (quad_block s))) j 0 sets;
      defrag_sets n' last sets
  end.

Definition defrag (start_block_set_index last_block_set_index : nat) sets
    : option (list k_mem_pool_block_set) :=
  defrag_sets (start_block_set_index - last_block_set_index) last_block_set_index sets.

(** *** Allocating

    The address found (null when there is none), the block set, and
    [*unused_block_index]. *)
Fixpoint get_existing_from (fuel i : nat) s : option (Z * k_mem_pool_block_set * nat) :=
  match fuel with
  | O => None
  | S fuel =>
      q ← quad_block s !! i;
      if mem_blocks q =? 0 then Some (0, s, i)
      else if negb (mem_status q =? _QUAD_BLOCK_ALLOCATED) then
        let free_bit := find_lsb_set (mem_status q) - 1 in
        let found := mem_blocks q + free_bit * block_size s in
        let q' := mk_quad (mem_blocks q) (Z.lxor (mem_status q) (Z.shiftl 1 free_bit)) in
        Some (found, with_quads (<[i := q']> (quad_block s)) s, i)
      else if Z.of_nat (S i) <? nr_of_entries s then get_existing_from fuel (S i) s
      else Some (0, s, S i)
  end.

Definition get_existing_block (index : nat) sets : option (Z * list k_mem_pool_block_set * nat) :=
  s ← sets !! index;
  r ← get_existing_from (length (quad_block s)) 0 s;
  let '(found, s, i) := r in
  Some (found, <[index := s]> sets, i).

(** The quad-block added when the block [larger] is split. *)
Definition add_quad (index i : nat) (larger : Z) sets : option (list k_mem_pool_block_set) :=
  s ← sets !! index;
  qs ← write_quad i (mk_quad larger (Z.land _QUAD_BLOCK_AVAILABLE (Z.lnot 1))) (quad_block s);
  Some (<[index := with_quads qs s]> sets).

Definition defrag_and_get (nr index : nat) sets : option (Z * list k_mem_pool_block_set * nat) :=
  sets ← defrag (nr - 1) index sets;
  get_existing_block index sets.

(** [n] is [index + 1]; [nr] the number of block sets. *)
Fixpoint get_block_recursive (policy : mem_pool_policy) (nr n start_index : nat) sets
    : option (Z * list k_mem_pool_block_set) :=
  match n with
  | O => Some (0, sets)
  | S index =>
      r ← get_existing_block index sets;
      let '(found, sets, i) := r in
      if negb (found =? 0) then Some (found, sets) else
      r ← (match policy with
           | DEFRAG_BEFORE_SPLIT =>
               if decide (index = start_index) then defrag_and_get nr index sets
               else Some (0, sets, i)
           | _ => Some (0, sets, i)
           end);
      let '(found, sets, i) := r in
      if negb (found =? 0) then Some (found, sets) else
      r ← get_block_recursive policy nr index start_index sets;
      let '(larger_block, sets) := r in
      if negb (larger_block =? 0) then
        sets ← add_quad index i larger_block sets; Some (larger_block, sets)
      else
        match policy with
        | SPLIT_BEFORE_DEFRAG =>
            if decide (index = start_index) then
              r ← defrag_and_get nr index sets;
              let '(found, sets, _) := r in Some (found, sets)
            else Some (0, sets)
        | _ => Some (0, sets)
        end
  end.

(** The call from outside, where a negative index is a request no block can hold. *)
Definition get_block (policy : mem_pool_policy) (offset : Z) pool : option (Z * k_mem_pool) :=
  r ← get_block_recursive policy (Z.to_nat (nr_of_block_sets pool))
        (Z.to_nat (offset + 1)) (Z.to_nat offset) (block_set pool);
  let '(found, sets) := r in Some (found, with_sets sets pool).
End Operations.

(** ** The forest of blocks

    [L j] is the quad-blocks of set [j]; a block is an address in a set. *)
Section Blocks.
Implicit Types (q : k_mem_pool_quad_block) (qs U : list k_mem_pool_quad_block) (size a b : Z).

(** Block [a] is one of the four of [q]. *)
Definition in_quad size q (i a : Z) : Prop := 0 <= i < 4 /\ a = mem_blocks q + i * size.
Definition owns size U a : Prop := exists q i, q ∈ U /\ in_quad size q i a.
Definition avail size U a : Prop :=
  exists q i, q ∈ U /\ in_quad size q i a /\ Z.testbit (mem_status q) i = true.
Definition bases U : list Z := mem_blocks <$> U.

(** The effect on a block set of taking the block [a] and of giving it back. *)
Definition takes size U U' a : Prop :=
  bases U' = bases U /\ avail size U a /\ (forall b, avail size U' b <-> avail size U b /\ b <> a).
Definition gives size U U' a : Prop :=
  bases U' = bases U /\ owns size U a /\ (forall b, avail size U' b <-> avail size U b \/ b = a).

Definition status_ok U : Prop := forall q, q ∈ U -> 0 <= mem_status q <= 15.

(** Quad-blocks lie side by side: their bases are multiples of four blocks apart. *)
Definition spaced size U : Prop :=
  NoDup (bases U) /\ exists o, forall q, q ∈ U -> exists m, mem_blocks q = o + 4 * size * m.

Lemma elem_of_bases U b : b ∈ bases U <-> exists q, q ∈ U /\ mem_blocks q = b.
Proof. unfold bases. rewrite list_elem_of_fmap. naive_solver. Qed.

Lemma owns_bases size U a :
  owns size U a <-> exists b i, b ∈ bases U /\ 0 <= i < 4 /\ a = b + i * size.
Proof.
  split.
  - intros (q & i & Hq & Hi & ->). exists (mem_blocks q), i. split; [|done].
    apply elem_of_bases. by exists q.
  - intros (b & i & (q & Hq & <-)%elem_of_bases & Hi & ->). by exists q, i.
Qed.

Lemma owns_same_bases size U U' a : bases U' = bases U -> owns size U' a <-> owns size U a.
Proof. intros E. rewrite !owns_bases. by rewrite E. Qed.

Lemma avail_owns size U a : avail size U a -> owns size U a.
Proof. intros (q & i & ? & ? & _). by exists q, i. Qed.

Lemma NoDup_bases_inj U q q' :
  NoDup (bases U) -> q ∈ U -> q' ∈ U -> mem_blocks q = mem_blocks q' -> q = q'.
Proof.
  intros Hn (i & Hi)%list_elem_of_lookup_1 (i' & Hi')%list_elem_of_lookup_1 E.
  assert (i = i') as ->.
  { eapply NoDup_lookup; [exact Hn|..]; unfold bases; rewrite list_lookup_fmap.
    - by rewrite Hi.
    - rewrite Hi'. simpl. by rewrite E. }
  congruence.
Qed.

(** A block is at one place of one quad-block. *)
Lemma in_quad_unique size U q q' i i' a :
  0 < size -> spaced size U -> q ∈ U -> q' ∈ U ->
  in_quad size q i a -> in_quad size q' i' a -> q = q' /\ i = i'.
Proof.
  intros Hs [Hn [o Ho]] Hq Hq' [Hi ->] [Hi' E].
  destruct (Ho q Hq) as [m Em], (Ho q' Hq') as [m' Em'].
  assert (4 * m + i = 4 * m' + i') by (apply (Z.mul_reg_l _ _ size); lia).
  assert (m = m' /\ i = i') as [-> ->] by lia.
  split; [|done]. eapply NoDup_bases_inj; eauto. congruence.
Qed.

Lemma avail_bit size U q i a :
  0 < size -> spaced size U -> q ∈ U -> in_quad size q i a ->
  avail size U a <-> Z.testbit (mem_status q) i = true.
Proof.
  intros Hs Hsp Hq Hi. split.
  - intros (q' & i' & Hq' & Hi' & Hb).
    destruct (in_quad_unique size U q q' i i' a) as [-> ->]; done.
  - intros Hb. by exists q, i.
Qed.

(** Replacing a quad-block by one that differs in one status bit. *)
Lemma avail_replace size U1 q q' U2 i a b :
  0 < size -> spaced size (U1 ++ q :: U2) -> mem_blocks q' = mem_blocks q -> in_quad size q i a ->
  (forall n, 0 <= n < 4 -> n <> i -> Z.testbit (mem_status q') n = Z.testbit (mem_status q) n) ->
  b <> a -> avail size (U1 ++ q' :: U2) b <-> avail size (U1 ++ q :: U2) b.
Proof.
  intros Hs Hsp Eq Hi Hbits Hb. unfold avail. split.
  - intros (x & n & Hx & [Hn ->] & Ht).
    apply elem_of_app in Hx as [Hx|[->|Hx]%elem_of_cons].
    + exists x, n. split; [set_solver|done].
    + exists q, n. split; [set_solver|]. split; [split; [done|by rewrite Eq]|].
      rewrite <- Hbits; [done..|]. intros ->. apply Hb. destruct Hi as [_ ->]. by rewrite Eq.
    + exists x, n. split; [set_solver|done].
  - intros (x & n & Hx & [Hn ->] & Ht).
    apply elem_of_app in Hx as [Hx|[->|Hx]%elem_of_cons].
    + exists x, n. split; [set_solver|done].
    + exists q', n. split; [set_solver|]. split; [split; [done|by rewrite Eq]|].
      rewrite Hbits; [done..|]. intros ->. apply Hb. destruct Hi as [_ ->]. done.
    + exists x, n. split; [set_solver|done].
Qed.

Lemma bases_replace U1 q q' U2 :
  mem_blocks q' = mem_blocks q -> bases (U1 ++ q' :: U2) = bases (U1 ++ q :: U2).
Proof. intros E. unfold bases. rewrite !fmap_app, !fmap_cons. by rewrite E. Qed.

Lemma spaced_same_bases size U U' : bases U' = bases U -> spaced size U -> spaced size U'.
Proof.
  intros E [Hn [o Ho]]. split; [by rewrite E|]. exists o. intros q Hq.
  assert (mem_blocks q ∈ bases U) as (q' & Hq' & <-)%elem_of_bases.
  { rewrite <- E. apply elem_of_bases. by exists q. }
  by apply Ho.
Qed.

Lemma take_bit size U1 q U2 i a :
  0 < size -> spaced size (U1 ++ q :: U2) -> in_quad size q i a ->
  Z.testbit (mem_status q) i = true ->
  takes size (U1 ++ q :: U2)
    (U1 ++ mk_quad (mem_blocks q) (Z.lxor (mem_status q) (Z.shiftl 1 i)) :: U2) a.
Proof.
  intros Hs Hsp Hi Ht. pose proof Hi as [Hr _].
  set (q' := mk_quad _ _). assert (q ∈ U1 ++ q :: U2) as Hq by set_solver.
  assert (mem_blocks q' = mem_blocks q) as Em by done.
  split; [by apply bases_replace|]. split; [by exists q, i|]. intros b.
  destruct (decide (b = a)) as [->|Hb].
  - rewrite (avail_bit size _ q' i a); [|done| |set_solver|done].
    + simpl. rewrite Z.lxor_spec, Ht, Z.shiftl_1_l, Z.pow2_bits_true by lia. naive_solver.
    + eapply spaced_same_bases; [|exact Hsp]. by apply bases_replace.
  - rewrite (avail_replace size U1 q q' U2 i a b) by (try done; intros n Hn Hne; simpl;
      rewrite Z.lxor_spec, Z.shiftl_1_l, Z.pow2_bits_false by lia; by rewrite xorb_false_r).
    naive_solver.
Qed.

Lemma give_bit size U1 q U2 i a :
  0 < size -> spaced size (U1 ++ q :: U2) -> in_quad size q i a ->
  gives size (U1 ++ q :: U2)
    (U1 ++ mk_quad (mem_blocks q) (Z.lor (mem_status q) (Z.shiftl 1 i)) :: U2) a.
Proof.
  intros Hs Hsp Hi. pose proof Hi as [Hr _].
  set (q' := mk_quad _ _). assert (q ∈ U1 ++ q :: U2) as Hq by set_solver.
  assert (mem_blocks q' = mem_blocks q) as Em by done.
  split; [by apply bases_replace|]. split; [by exists q, i|]. intros b.
  destruct (decide (b = a)) as [->|Hb].
  - rewrite (avail_bit size _ q' i a); [|done| |set_solver|done].
    + simpl. rewrite Z.lor_spec, Z.shiftl_1_l, Z.pow2_bits_true by lia.
      rewrite orb_true_r. naive_solver.
    + eapply spaced_same_bases; [|exact Hsp]. by apply bases_replace.
  - rewrite (avail_replace size U1 q q' U2 i a b) by (try done; intros n Hn Hne; simpl;
      rewrite Z.lor_spec, Z.shiftl_1_l, Z.pow2_bits_false by lia; by rewrite orb_false_r).
    naive_solver.
Qed.
End Blocks.

Section Forest.
Context (buf min nmax : Z) (n : nat).
Implicit Types (L : nat -> list k_mem_pool_quad_block) (a b : Z) (j : nat).

Definition sz j : Z := min * 4 ^ (Z.of_nat n - 1 - Z.of_nat j).
Definition buf_end : Z := buf + nmax * sz 0.

(** The pool's parameters make sense. *)
Record dims_ok : Prop := {
  di_sets : (0 < n)%nat;
  di_min : 0 < min;
  di_max : 0 < nmax;
  di_buf : 0 < buf
}.

(** Every quad-block of a set but the first is a block of the set before, which
    is in use there; the first set covers the buffer. *)
Record forest_ok L : Prop := {
  fo_status j : status_ok (L j);
  fo_bases j : NoDup (bases (L j));
  fo_root : bases (L 0%nat) = (fun i => buf + 4 * sz 0 * i) <$> seqZ 0 ((nmax + 3) / 4);
  fo_root_avail a : avail (sz 0) (L 0%nat) a -> a < buf_end;
  fo_split j b : (S j < n)%nat -> b ∈ bases (L (S j)) ->
    owns (sz j) (L j) b /\ b < buf_end /\ ~ avail (sz j) (L j) b;
  fo_none j : (n <= j)%nat -> L j = []
}.

(** The blocks in use: not free, and not split. *)
Definition live L j a : Prop :=
  (j < n)%nat /\ owns (sz j) (L j) a /\ a < buf_end /\ ~ avail (sz j) (L j) a /\
  a ∉ bases (L (S j)).

Context (D : dims_ok).

Lemma sz_pos j : (j < n)%nat -> 0 < sz j.
Proof.
  intros. unfold sz. pose proof (di_min D).
  assert (0 < 4 ^ (Z.of_nat n - 1 - Z.of_nat j)) by (apply Z.pow_pos_nonneg; lia). nia.
Qed.

Lemma sz_succ j : (S j < n)%nat -> sz j = 4 * sz (S j).
Proof.
  intros. unfold sz.
  replace (Z.of_nat n - 1 - Z.of_nat j) with (1 + (Z.of_nat n - 1 - Z.of_nat (S j))) by lia.
  rewrite Z.pow_add_r by lia. lia.
Qed.

Lemma sz_0 j : (j < n)%nat -> sz 0 = 4 ^ Z.of_nat j * sz j.
Proof.
  induction j as [|j IH]; intros Hj; [rewrite Z.pow_0_r; lia|].
  rewrite IH by lia. rewrite (sz_succ j) by done.
  rewrite Nat2Z.inj_succ, Z.pow_succ_r by lia. lia.
Qed.

(** The quad-blocks of a set start at multiples of four of its blocks. *)
Lemma base_aligned L j q :
  forest_ok L -> (j < n)%nat -> q ∈ L j ->
  exists m, 0 <= m /\ mem_blocks q = buf + 4 * sz j * m.
Proof.
  intros F. revert q. induction j as [|j IH]; intros q Hj Hq.
  - assert (mem_blocks q ∈ bases (L 0%nat)) as Hb by (apply elem_of_bases; by exists q).
    rewrite (fo_root L F) in Hb. apply list_elem_of_fmap in Hb as (m & -> & Hm%elem_of_seqZ).
    exists m. split; [lia|done].
  - destruct (fo_split L F j (mem_blocks q)) as [(q' & i & Hq' & Hi & E) _]; [done| |].
    + apply elem_of_bases. by exists q.
    + destruct (IH q') as (m & Hm & Em); [lia|done|]. rewrite sz_succ in E, Em by done.
      exists (4 * m + i). split; [lia|]. lia.
Qed.

Lemma owns_aligned L j a :
  forest_ok L -> (j < n)%nat -> owns (sz j) (L j) a -> exists m, 0 <= m /\ a = buf + sz j * m.
Proof.
  intros F Hj (q & i & Hq & Hi & ->). destruct (base_aligned L j q F Hj Hq) as (m & Hm & ->).
  exists (4 * m + i). split; [lia|]. lia.
Qed.

Lemma spaced_level L j : forest_ok L -> (j < n)%nat -> spaced (sz j) (L j).
Proof.
  intros F Hj. split; [by apply fo_bases|]. exists buf. intros q Hq.
  destruct (base_aligned L j q F Hj Hq) as (m & _ & E). by exists m.
Qed.

(** An aligned address inside the buffer starts a block that ends inside it. *)
Lemma aligned_fits j m : (j < n)%nat -> buf + sz j * m < buf_end -> buf + sz j * m + sz j <= buf_end.
Proof.
  intros Hj. unfold buf_end. rewrite (sz_0 j Hj). pose proof (sz_pos j Hj).
  replace (nmax * (4 ^ Z.of_nat j * sz j)) with (sz j * (nmax * 4 ^ Z.of_nat j)) by ring.
  intros Hlt. assert (m < nmax * 4 ^ Z.of_nat j) by nia. nia.
Qed.

Lemma owned_below L j a : forest_ok L -> (S j < n)%nat -> owns (sz (S j)) (L (S j)) a -> a < buf_end.
Proof.
  intros F Hj (q & i & Hq & Hi & ->).
  destruct (fo_split L F j (mem_blocks q)) as (Ho & Hlt & _); [done| |].
  { apply elem_of_bases. by exists q. }
  destruct (owns_aligned L j _ F ltac:(lia) Ho) as (m & Hm & E). rewrite E in *.
  pose proof (aligned_fits j m ltac:(lia) Hlt). rewrite (sz_succ j) in * by done.
  pose proof (sz_pos (S j) Hj). nia.
Qed.

Lemma avail_below L j a : forest_ok L -> (j < n)%nat -> avail (sz j) (L j) a -> a < buf_end.
Proof.
  intros F Hj Ha. destruct j as [|j]; [by apply (fo_root_avail L F)|].
  eapply owned_below; [done..|]. by apply avail_owns.
Qed.

Lemma owned_positive L j a : forest_ok L -> (j < n)%nat -> owns (sz j) (L j) a -> 0 < a.
Proof.
  intros F Hj (m & Hm & ->)%owns_aligned; [|done..]. pose proof (sz_pos j Hj).
  pose proof (di_buf D). nia.
Qed.

Lemma base_owned L j q : q ∈ L j -> owns (sz j) (L j) (mem_blocks q).
Proof. intros Hq. exists q, 0. split; [done|]. split; lia. Qed.

(** A block aligned as a quad-block of its set is the base of one. *)
Lemma owned_at_base L j m :
  forest_ok L -> (S j < n)%nat -> owns (sz (S j)) (L (S j)) (buf + sz j * m) ->
  buf + sz j * m ∈ bases (L (S j)).
Proof.
  intros F Hj (q & i & Hq & Hi & E). apply elem_of_bases. exists q. split; [done|].
  destruct (base_aligned L (S j) q F Hj Hq) as (m' & _ & Em). rewrite Em in *.
  rewrite (sz_succ j) in * by done. pose proof (sz_pos (S j) Hj).
  assert (4 * m = 4 * m' + i) by (apply (Z.mul_reg_l _ _ (sz (S j))); lia).
  assert (i = 0) as -> by lia. rewrite E. lia.
Qed.

(** *** The four changes of a forest *)
Lemma status_insert (U' : list k_mem_pool_quad_block) L j :
  (forall j, status_ok (L j)) -> status_ok U' -> forall i, status_ok (<[j := U']> L i).
Proof.
  intros H1 H2 i. destruct (decide (i = j)) as [->|]; [by rewrite fn_lookup_insert|].
  by rewrite fn_lookup_insert_ne.
Qed.

(** Changing status bits of one set only. *)
Lemma forest_same_bases L j U' :
  forest_ok L -> (j < n)%nat -> bases U' = bases (L j) -> status_ok U' ->
  (forall b, avail (sz j) U' b -> b ∉ bases (L (S j)) /\ b < buf_end) ->
  forest_ok (<[j := U']> L).
Proof.
  intros F Hj Eb Hst Hav.
  assert (Hb : forall i, bases (<[j := U']> L i) = bases (L i)).
  { intros i. destruct (decide (i = j)) as [->|]; [by rewrite fn_lookup_insert|].
    by rewrite fn_lookup_insert_ne. }
  split.
  - apply status_insert; [apply F|done].
  - intros i. rewrite Hb. apply F.
  - rewrite Hb. apply F.
  - intros a. destruct (decide (0%nat = j)) as [<-|Hne].
    + rewrite fn_lookup_insert. apply Hav.
    + rewrite fn_lookup_insert_ne by done. apply F.
  - intros i b Hi. rewrite Hb. intros Hin. destruct (fo_split L F i b Hi Hin) as (Ho & Hlt & Hna).
    destruct (decide (i = j)) as [->|Hne].
    + rewrite fn_lookup_insert. rewrite owns_same_bases by done. split_and!; [done..|].
      intros Ha. by apply (Hav b).
    + by rewrite fn_lookup_insert_ne.
  - intros i Hi. rewrite fn_lookup_insert_ne by lia. by apply (fo_none L F).
Qed.

Lemma live_same_bases L j U' i a :
  bases U' = bases (L j) ->
  live (<[j := U']> L) i a <->
  (i < n)%nat /\ owns (sz i) (L i) a /\ a < buf_end /\ a ∉ bases (L (S i)) /\
  ~ avail (sz i) (if decide (i = j) then U' else L i) a.
Proof.
  intros Eb.
  assert (Hb : forall i, bases (<[j := U']> L i) = bases (L i)).
  { intros x. destruct (decide (x = j)) as [->|]; [by rewrite fn_lookup_insert|].
    by rewrite fn_lookup_insert_ne. }
  unfold live. rewrite Hb, (owns_same_bases (sz i) (L i)) by done.
  destruct (decide (i = j)) as [->|]; [rewrite fn_lookup_insert|rewrite fn_lookup_insert_ne by done];
    tauto.
Qed.

Lemma avail_not_base L j b :
  forest_ok L -> (j < n)%nat -> avail (sz j) (L j) b -> b ∉ bases (L (S j)).
Proof.
  intros F Hj Ha Hin. destruct (decide (S j < n)%nat) as [Hlt|Hge].
  - by destruct (fo_split L F j b Hlt Hin) as (_ & _ & Hna).
  - rewrite (fo_none L F) in Hin by lia. by apply elem_of_nil in Hin.
Qed.

Lemma forest_take L j U' a :
  forest_ok L -> (j < n)%nat -> status_ok U' -> takes (sz j) (L j) U' a ->
  forest_ok (<[j := U']> L) /\ ~ live L j a /\
  (forall i b, live (<[j := U']> L) i b <-> live L i b \/ (i = j /\ b = a)).
Proof.
  intros F Hj Hst (Eb & Ha & Hav).
  pose proof (avail_not_base L j a F Hj Ha) as Hnb. split_and!.
  - apply forest_same_bases; try done. intros b Hb. apply Hav in Hb as [Hb _].
    split; [by apply avail_not_base|by eapply avail_below].
  - by intros (_ & _ & _ & ? & _).
  - intros i b. rewrite live_same_bases by done. unfold live.
    destruct (decide (i = j)) as [->|Hne]; [|naive_solver].
    rewrite Hav. destruct (decide (b = a)) as [->|]; [|naive_solver].
    pose proof (avail_owns _ _ _ Ha). pose proof (avail_below L j a F Hj Ha). naive_solver.
Qed.

Lemma forest_give L j U' a :
  forest_ok L -> live L j a -> status_ok U' -> gives (sz j) (L j) U' a ->
  forest_ok (<[j := U']> L) /\
  (forall i b, live (<[j := U']> L) i b <-> live L i b /\ ~ (i = j /\ b = a)).
Proof.
  intros F (Hj & Ho & Hlt & Hna & Hnb) Hst (Eb & _ & Hav). split.
  - apply forest_same_bases; try done. intros b [Hb| ->]%Hav; [|done].
    split; [by apply avail_not_base|by eapply avail_below].
  - intros i b. rewrite live_same_bases by done. unfold live.
    destruct (decide (i = j)) as [->|Hne]; [|naive_solver].
    rewrite Hav. destruct (decide (b = a)) as [->|]; naive_solver.
Qed.

(** What the new quad-block of a split block makes available. *)
Lemma avail_snoc size U q b :
  avail size (U ++ [q]) b <->
  avail size U b \/ exists i, in_quad size q i b /\ Z.testbit (mem_status q) i = true.
Proof.
  unfold avail. setoid_rewrite elem_of_app. setoid_rewrite list_elem_of_singleton. naive_solver.
Qed.

Lemma owns_snoc size U q b :
  owns size (U ++ [q]) b <-> owns size U b \/ exists i, in_quad size q i b.
Proof.
  unfold owns. setoid_rewrite elem_of_app. setoid_rewrite list_elem_of_singleton. naive_solver.
Qed.

Definition split_quad a : k_mem_pool_quad_block := mk_quad a 14.

Lemma split_bits i : 0 <= i < 4 -> Z.testbit 14 i = negb (i =? 0).
Proof. intros. assert (i = 0 \/ i = 1 \/ i = 2 \/ i = 3) as [->|[->|[->| ->]]] by lia; done. Qed.

Lemma forest_bases_owned L j b :
  forest_ok L -> b ∈ bases (L (S j)) -> (j < n)%nat -> owns (sz j) (L j) b.
Proof.
  intros F Hb Hj. destruct (decide (S j < n)%nat) as [Hlt|Hge].
  - by destruct (fo_split L F j b Hlt Hb).
  - rewrite (fo_none L F) in Hb by lia. by apply elem_of_nil in Hb.
Qed.

(** The blocks of a split block are new to their set. *)
Lemma split_fresh L j a i b :
  forest_ok L -> live L j a -> (S j < n)%nat -> in_quad (sz (S j)) (split_quad a) i b ->
  ~ owns (sz (S j)) (L (S j)) b.
Proof.
  intros F (Hj & Ho & _ & _ & Hnb) Hl [Hi ->] (q & i' & Hq & Hi' & E). apply Hnb.
  destruct (owns_aligned L j a F Hj Ho) as (m & _ & Ea).
  destruct (base_aligned L (S j) q F Hl Hq) as (m' & _ & Em).
  apply elem_of_bases. exists q. split; [done|]. cbn [mem_blocks split_quad] in E.
  rewrite Ea, Em in *. rewrite (sz_succ j) in * by done. pose proof (sz_pos (S j) Hl).
  assert (4 * m + i = 4 * m' + i') by (apply (Z.mul_reg_l _ _ (sz (S j))); lia).
  assert (m = m') by lia. lia.
Qed.

Lemma forest_split_ok L j a :
  forest_ok L -> live L j a -> (S j < n)%nat ->
  forest_ok (<[S j := L (S j) ++ [split_quad a]]> L).
Proof.
  intros F Hlive Hl. pose proof Hlive as (Hj & Ho & Hlt & Hna & Hnb).
  pose proof (fun i b => split_fresh L j a i b F Hlive Hl) as Hfresh. split.
  - apply status_insert; [apply F|]. intros q [Hq| ->%list_elem_of_singleton]%elem_of_app;
      [by eapply F|cbn; lia].
  - intros i. destruct (decide (i = S j)) as [->|]; [|rewrite fn_lookup_insert_ne by done; apply F].
    rewrite fn_lookup_insert. unfold bases. rewrite fmap_app. apply NoDup_app. split_and!.
    + apply F.
    + by intros x Hx ->%list_elem_of_singleton.
    + apply NoDup_singleton.
  - rewrite fn_lookup_insert_ne by lia. apply F.
  - intros x. rewrite fn_lookup_insert_ne by lia. apply F.
  - intros i b Hi. destruct (decide (i = j)) as [->|Hij].
    + rewrite fn_lookup_insert, fn_lookup_insert_ne by lia. unfold bases. rewrite fmap_app.
      intros [Hb| ->%list_elem_of_singleton]%elem_of_app; [by apply F|done].
    + rewrite (fn_lookup_insert_ne _ (S j) (S i)) by lia. intros Hb.
      destruct (fo_split L F i b Hi Hb) as (Ho' & Hlt' & Hna').
      destruct (decide (i = S j)) as [->|]; [|by rewrite fn_lookup_insert_ne].
      rewrite fn_lookup_insert, owns_snoc, avail_snoc. split_and!; [by left|done|].
      intros [?|(x & Hx & _)]; [done|]. by apply (Hfresh x b).
  - intros i Hi. rewrite fn_lookup_insert_ne by lia. by apply (fo_none L F).
Qed.

Lemma forest_split_live L j a i b :
  forest_ok L -> live L j a -> (S j < n)%nat ->
  live (<[S j := L (S j) ++ [split_quad a]]> L) i b <->
  (live L i b /\ ~ (i = j /\ b = a)) \/ (i = S j /\ b = a).
Proof.
  intros F Hlive Hl. pose proof Hlive as (Hj & Ho & Hlt & Hna & Hnb).
  pose proof (fun x => split_fresh L j a x b F Hlive Hl) as Hin.
  unfold live. destruct (decide (i = S j)) as [->|Hne].
  - rewrite fn_lookup_insert, (fn_lookup_insert_ne _ (S j) (S (S j))) by lia.
    rewrite owns_snoc, avail_snoc.
    split.
    + intros (_ & [Hob|[x Hx]] & Hb & Hav & Hnb').
      * left. split; [|lia]. split_and!; [done..| |done]. tauto.
      * right. split; [done|]. destruct Hx as [Hx ->]. cbn [mem_blocks split_quad].
         destruct (decide (x = 0)) as [->|Hx0]; [lia|]. exfalso. apply Hav. right. exists x.
         split; [done|]. cbn [mem_status split_quad]. rewrite split_bits by done.
         by rewrite (proj2 (Z.eqb_neq _ _)).
    + intros [[(_ & Hob & Hb & Hav & Hnb') _]|[_ ->]].
      * split_and!; [done|by left|done| |done].
         intros [?|(x & Hx & _)]; [done|]. by apply (Hin x).
      * assert (in_quad (sz (S j)) (split_quad a) 0 a) as H0 by (split; cbn; lia).
         split_and!; [done|right; by exists 0|done| |].
         -- intros [Ha%avail_owns|(x & [Hx Hxa] & Ht)]; [by apply (Hin 0)|].
            pose proof (sz_pos (S j) Hl). cbn [mem_blocks split_quad] in Hxa.
            assert (x = 0) as -> by nia. done.
         -- intros Hb%forest_bases_owned; [|done..]. by apply (Hin 0).
  - rewrite (fn_lookup_insert_ne _ (S j) i) by done. destruct (decide (i = j)) as [->|Hij].
    + rewrite fn_lookup_insert. unfold bases at 1. rewrite fmap_app, not_elem_of_app.
      fold (bases (L (S j))). cbn. rewrite list_elem_of_singleton. naive_solver.
    + rewrite fn_lookup_insert_ne by lia. naive_solver.
Qed.

(** Removing a quad-block that is entirely unused. *)
Lemma full_bits i : 0 <= i < 4 -> Z.testbit 15 i = true.
Proof. intros. assert (i = 0 \/ i = 1 \/ i = 2 \/ i = 3) as [->|[->|[->| ->]]] by lia; done. Qed.

Lemma removed_parts L j q U' b :
  forest_ok L -> (j < n)%nat -> L j ≡ₚ q :: U' -> mem_status q = 15 ->
  (owns (sz j) (L j) b <-> (exists i, in_quad (sz j) q i b) \/ owns (sz j) U' b) /\
  (avail (sz j) (L j) b <-> (exists i, in_quad (sz j) q i b) \/ avail (sz j) U' b) /\
  ((exists i, in_quad (sz j) q i b) -> ~ owns (sz j) U' b).
Proof.
  intros F Hj Hp Est.
  assert (Hin : forall x, x ∈ L j <-> x = q \/ x ∈ U') by (intros x; by rewrite Hp, elem_of_cons).
  split_and!.
  - unfold owns. setoid_rewrite Hin. naive_solver.
  - unfold avail. setoid_rewrite Hin. split; [naive_solver|].
    intros [(i & Hi)|(x & i & Hx & Hi)]; [|naive_solver]. exists q, i. split_and!; [by left|done|].
    rewrite Est. apply full_bits, Hi.
  - intros (i & Hi) (x & i' & Hx & Hi').
    destruct (in_quad_unique (sz j) (L j) q x i i' b) as [<- _]; try done.
    + by apply sz_pos.
    + by apply spaced_level.
    + apply Hin. by left.
    + apply Hin. by right.
    + pose proof (fo_bases L F j) as Hn. unfold bases in Hn. rewrite Hp in Hn.
      apply NoDup_cons in Hn as [Hn _]. apply Hn, elem_of_bases. by exists q.
Qed.

Lemma removed_bases L j q U' b :
  forest_ok L -> L j ≡ₚ q :: U' ->
  (b ∈ bases (L j) <-> b = mem_blocks q \/ b ∈ bases U') /\ NoDup (bases U') /\
  mem_blocks q ∉ bases U'.
Proof.
  intros F Hp. pose proof (fo_bases L F j) as Hn. unfold bases in *. rewrite Hp in Hn |- *.
  rewrite fmap_cons in *. apply NoDup_cons in Hn as [? ?]. by rewrite elem_of_cons.
Qed.

(** The quad-block [q] of the lower set leaves [U']; the upper set becomes [V']. *)
Definition merged L j U' V' : nat -> list k_mem_pool_quad_block := <[S j := U']> (<[j := V']> L).

Lemma merged_lower L j U' V' : merged L j U' V' (S j) = U'.
Proof. unfold merged. by rewrite fn_lookup_insert. Qed.

Lemma merged_upper L j U' V' : merged L j U' V' j = V'.
Proof. unfold merged. rewrite fn_lookup_insert_ne by apply Nat.neq_succ_diag_l. by rewrite fn_lookup_insert. Qed.

Lemma merged_other L j U' V' i : i <> j -> i <> S j -> merged L j U' V' i = L i.
Proof. intros. unfold merged. by rewrite !fn_lookup_insert_ne by auto. Qed.

(** Blocks that are split are not in the removed quad-block. *)
Lemma split_not_removed L j q U' b i :
  forest_ok L -> (S j < n)%nat -> L (S j) ≡ₚ q :: U' -> mem_status q = 15 ->
  b ∈ bases (L (S (S j))) -> ~ in_quad (sz (S j)) q i b.
Proof.
  intros F Hj Hp Est Hb Hi. destruct (removed_parts L (S j) q U' b F Hj Hp Est) as (_ & Ha & _).
  assert (avail (sz (S j)) (L (S j)) b) as Hav by (apply Ha; left; by exists i).
  by apply (avail_not_base L (S j) b F Hj Hav).
Qed.

Lemma merged_ok L j q U' V' :
  forest_ok L -> (S j < n)%nat -> L (S j) ≡ₚ q :: U' -> mem_status q = 15 ->
  status_ok V' -> gives (sz j) (L j) V' (mem_blocks q) -> forest_ok (merged L j U' V').
Proof.
  intros F Hj Hp Est HV (Eb & Ho & Hav).
  destruct (removed_bases L (S j) q U' 0 F Hp) as (_ & Hn & Hnq). split.
  - apply status_insert; [apply status_insert; [apply F|done]|]. intros x Hx.
    apply (fo_status L F (S j)). rewrite Hp. by apply elem_of_cons; right.
  - intros i. destruct (decide (i = S j)) as [->|]; [by rewrite merged_lower|].
    destruct (decide (i = j)) as [->|]; [rewrite merged_upper, Eb; apply F|].
    rewrite merged_other by done. apply F.
  - destruct (decide (0%nat = j)) as [<-|]; [rewrite merged_upper, Eb; apply F|].
    rewrite merged_other by lia. apply F.
  - intros a. destruct (decide (0%nat = j)) as [<-|]; [|rewrite merged_other by lia; apply F].
    rewrite merged_upper, Hav. intros [?| ->]; [by apply (fo_root_avail L F)|].
    apply (fo_split L F 0); [done|]. apply (removed_bases L 1 q U'); [done..|]. by left.
  - intros i b Hi. destruct (decide (S i = S j)) as [[= ->]|Hij].
    + rewrite merged_lower, merged_upper. intros Hb.
      destruct (fo_split L F j b) as (Hob & Hlt & Hna); [done| |].
      { apply (removed_bases L (S j) q U'); [done..|]. by right. }
      rewrite owns_same_bases by done. split_and!; [done..|].
      rewrite Hav. intros [?| ->]; done.
    + destruct (decide (i = S j)) as [->|].
      * rewrite merged_lower, merged_other by lia. intros Hb.
        destruct (fo_split L F (S j) b Hi Hb) as (Hob & Hlt & Hna).
        destruct (removed_parts L (S j) q U' b F Hj Hp Est) as (Hoq & Haq & _).
        pose proof (fun x => split_not_removed L j q U' b x F Hj Hp Est). naive_solver.
      * destruct (decide (S i = j)) as [<-|]; [rewrite merged_upper|rewrite merged_other by lia].
        -- rewrite merged_other, Eb by lia. by apply F.
        -- rewrite merged_other by lia. by apply F.
  - intros i Hi. rewrite merged_other by lia. by apply F.
Qed.

Lemma merged_live L j q U' V' i b :
  forest_ok L -> (S j < n)%nat -> L (S j) ≡ₚ q :: U' -> mem_status q = 15 ->
  gives (sz j) (L j) V' (mem_blocks q) -> live (merged L j U' V') i b <-> live L i b.
Proof.
  intros F Hj Hp Est (Eb & Ho & Hav). unfold live.
  destruct (decide (i = S j)) as [->|].
  - rewrite merged_lower, merged_other by lia.
    destruct (removed_parts L (S j) q U' b F Hj Hp Est) as (Hoq & Haq & Hd).
    rewrite Hoq, Haq. pose proof (avail_owns (sz (S j)) U' b). naive_solver.
  - destruct (decide (i = j)) as [->|].
    + rewrite merged_upper, merged_lower, owns_same_bases, Hav by done.
      destruct (removed_bases L (S j) q U' b F Hp) as (Hb & _ & Hnq). rewrite Hb. naive_solver.
    + rewrite (merged_other L j U' V' i) by done. destruct (decide (S i = j)) as [<-|].
      * rewrite merged_upper, Eb. done.
      * by rewrite merged_other by lia.
Qed.

(** *** Blocks in use do not overlap *)
Lemma ancestor L j d a :
  forest_ok L -> (j + S d < n)%nat -> owns (sz (j + S d)) (L (j + S d)%nat) a ->
  exists b, b ∈ bases (L (S j)) /\ b <= a /\ a + sz (j + S d) <= b + sz j.
Proof.
  intros F. revert a. induction d as [|d IH]; intros a Hd (q & i & Hq & Hi & ->).
  - rewrite Nat.add_1_r in *. exists (mem_blocks q). rewrite (sz_succ j) by done.
    pose proof (sz_pos (S j) Hd). split_and!; [|nia|nia]. apply elem_of_bases. by exists q.
  - replace (j + S (S d))%nat with (S (j + S d)) in * by lia.
    destruct (fo_split L F (j + S d) (mem_blocks q)) as (Ho & _); [done| |].
    { apply elem_of_bases. by exists q. }
    destruct (IH _ ltac:(lia) Ho) as (b & Hb & H1 & H2). exists b.
    rewrite (sz_succ (j + S d)) in H2 by done. pose proof (sz_pos (S (j + S d)) Hd).
    split_and!; [done|nia|nia].
Qed.

Lemma aligned_disjoint L j a b :
  forest_ok L -> (j < n)%nat -> owns (sz j) (L j) a -> owns (sz j) (L j) b -> a <> b ->
  disjoint_from a (sz j) b (sz j).
Proof.
  intros F Hj (m & _ & ->)%owns_aligned (m' & _ & ->)%owns_aligned Hne; try done.
  pose proof (sz_pos j Hj). unfold disjoint_from.
  destruct (Z.lt_trichotomy m m') as [?|[->|?]]; [left; nia|done|right; nia].
Qed.

Lemma live_below_disjoint L j d a a' :
  forest_ok L -> live L j a -> live L (j + S d) a' ->
  disjoint_from a (sz j) a' (sz (j + S d)).
Proof.
  intros F (Hj & Ho & _ & _ & Hnb) (Hd & Ho' & _).
  destruct (ancestor L j d a' F Hd Ho') as (b & Hb & H1 & H2).
  destruct (aligned_disjoint L j a b F Hj Ho) as [?|?];
    [by apply forest_bases_owned|by intros ->|left; lia|right; lia].
Qed.

Lemma live_disjoint L j a j' a' :
  forest_ok L -> live L j a -> live L j' a' -> (j, a) <> (j', a') ->
  disjoint_from a (sz j) a' (sz j').
Proof.
  intros F Hl Hl' Hne. destruct (Nat.lt_trichotomy j j') as [Hlt|[->|Hlt]].
  - assert (j' = j + S (j' - j - 1))%nat as E by lia. rewrite E in Hl' |- *.
    by apply (live_below_disjoint L).
  - apply (aligned_disjoint L); [done|apply Hl|apply Hl|apply Hl'|congruence].
  - assert (j = j' + S (j - j' - 1))%nat as E by lia. rewrite E in Hl |- *.
    pose proof (live_below_disjoint L _ _ _ _ F Hl' Hl) as Hd. unfold disjoint_from in *. lia.
Qed.

(** A block in use lies inside the buffer. *)
Lemma live_inside L j a : forest_ok L -> live L j a -> buf <= a /\ a + sz j <= buf_end.
Proof.
  intros F (Hj & Ho & Hlt & _). destruct (owns_aligned L j a F Hj Ho) as (m & Hm & ->).
  pose proof (sz_pos j Hj). split; [nia|]. by apply aligned_fits.
Qed.

(** *** Room for the quad-block of a split block *)
Definition cap j : Z := match j with O => (nmax + 3) / 4 | S j => nmax * 4 ^ Z.of_nat j end.

Lemma room L j a :
  forest_ok L -> live L j a -> (S j < n)%nat -> Z.of_nat (length (L (S j))) < cap (S j).
Proof.
  intros F Hl Hj. pose proof Hl as (Hj' & Ho & Hlt & _ & Hnb). cbn [cap].
  assert (0 <= nmax * 4 ^ Z.of_nat j) as Hpos.
  { pose proof (di_max D). assert (0 < 4 ^ Z.of_nat j) by (apply Z.pow_pos_nonneg; lia). nia. }
  assert (length (a :: bases (L (S j))) <= Z.to_nat (nmax * 4 ^ Z.of_nat j))%nat as Hle.
  { rewrite <- (length_seqZ 0), <- (length_fmap (fun m => buf + sz j * m) (seqZ _ _)).
    apply submseteq_length, NoDup_submseteq; [apply NoDup_cons; split; [done|apply F]|].
    intros x Hx. assert (owns (sz j) (L j) x /\ x < buf_end) as [Hox Hxlt].
    { apply elem_of_cons in Hx as [->|Hx]; [done|].
      destruct (fo_split L F j x Hj Hx) as (? & ? & _). done. }
    destruct (owns_aligned L j x F Hj' Hox) as (m & Hm & ->). apply list_elem_of_fmap.
    exists m. split; [done|]. apply elem_of_seqZ. pose proof (sz_pos j Hj').
    unfold buf_end in Hxlt. rewrite (sz_0 j Hj') in Hxlt. split; [done|]. nia. }
  cbn [length] in Hle. unfold bases in Hle. rewrite length_fmap in Hle. lia.
Qed.

(** *** When nothing is left to merge, a failed search is no accident *)

(** No quad-block of a set after [index] is entirely unused. *)
Definition all_merged L (index : nat) : Prop :=
  forall j q, (index < j < n)%nat -> q ∈ L j -> mem_status q <> 15.

Definition none_free L (index : nat) : Prop :=
  forall j a, (j <= index)%nat -> ~ avail (sz j) (L j) a.

Lemma clear_bit st : 0 <= st <= 15 -> st <> 15 -> exists i, 0 <= i < 4 /\ Z.testbit st i = false.
Proof.
  intros H1 H2. destruct (Z.testbit st 0) eqn:E0; [|by exists 0].
  destruct (Z.testbit st 1) eqn:E1; [|by exists 1]. destruct (Z.testbit st 2) eqn:E2; [|by exists 2].
  destruct (Z.testbit st 3) eqn:E3; [|by exists 3]. exfalso. apply H2. apply Z.bits_inj'.
  intros i Hi. destruct (decide (i < 4)).
  - assert (i = 0 \/ i = 1 \/ i = 2 \/ i = 3) as [->|[->|[->| ->]]] by lia; done.
  - rewrite !Z.bits_above_log2; [done|lia|cbn; lia|lia|].
    apply Z.le_lt_trans with 3; [|lia]. change 3 with (Z.log2 15). apply Z.log2_le_mono. lia.
Qed.

(** A block that is not free holds a block in use. *)
Lemma live_inside_busy L j a :
  forest_ok L -> all_merged L j -> (j < n)%nat -> owns (sz j) (L j) a -> a < buf_end ->
  ~ avail (sz j) (L j) a ->
  exists j' b, live L j' b /\ a <= b /\ b + sz j' <= a + sz j.
Proof.
  intros F. remember (n - j)%nat as d eqn:Ed. revert j a Ed.
  induction d as [|d IH]; intros j a Ed Hm Hj Ho Hlt Hna; [lia|].
  destruct (decide (a ∈ bases (L (S j)))) as [Hb|Hb]; [|exists j, a; split; [done|lia]].
  destruct (decide (S j < n)%nat) as [Hl|Hge];
    [|rewrite (fo_none L F) in Hb by lia; by apply elem_of_nil in Hb].
  apply elem_of_bases in Hb as (q & Hq & <-).
  destruct (clear_bit (mem_status q)) as (i & Hi & Ht).
  { by apply (fo_status L F (S j)). } { by apply (Hm (S j)); [lia|]. }
  assert (in_quad (sz (S j)) q i (mem_blocks q + i * sz (S j))) as Hin by done.
  destruct (IH (S j) (mem_blocks q + i * sz (S j))) as (j' & b & Hlive & H1 & H2); try done.
  - lia.
  - intros x y Hx. apply Hm. lia.
  - by exists q, i.
  - eapply owned_below; [done..|]. by exists q, i.
  - rewrite (avail_bit (sz (S j)) _ q i); [by rewrite Ht|by apply sz_pos|by apply spaced_level|done..].
  - exists j', b. rewrite (sz_succ j) by done. pose proof (sz_pos (S j) Hl). split_and!; [done|nia|nia].
Qed.

(** An aligned region is a block of its set or is inside a larger, undivided one. *)
Lemma region_block L j m :
  forest_ok L -> (j < n)%nat -> 0 <= m < nmax * 4 ^ Z.of_nat j ->
  exists i b, (i <= j)%nat /\ owns (sz i) (L i) b /\ b < buf_end /\
    b <= buf + sz j * m /\ buf + sz j * m + sz j <= b + sz i /\ (i = j \/ b ∉ bases (L (S i))).
Proof.
  intros F. revert m. induction j as [|j IH]; intros m Hj Hm.
  - exists 0%nat, (buf + sz 0 * m). pose proof (sz_pos 0 Hj). rewrite Z.pow_0_r in Hm.
    split_and!; [lia| |unfold buf_end; nia|lia|lia|by left].
    apply owns_bases. exists (buf + 4 * sz 0 * (m / 4)), (m mod 4).
    rewrite (fo_root L F). pose proof (Z.div_mod m 4 ltac:(lia)).
    pose proof (Z.mod_pos_bound m 4 ltac:(lia)). split_and!; [|lia..|nia].
    apply list_elem_of_fmap. exists (m / 4). split; [done|]. apply elem_of_seqZ.
    split; [apply Z.div_pos; lia|]. rewrite Z.add_0_l. apply Z.lt_le_trans with (m / 4 + 1); [lia|].
    apply Z.div_le_lower_bound; lia.
  - rewrite Nat2Z.inj_succ, Z.pow_succ_r in Hm by lia.
    pose proof (Z.div_mod m 4 ltac:(lia)) as Em. pose proof (Z.mod_pos_bound m 4 ltac:(lia)) as Hr.
    destruct (IH (m / 4)) as (i & b & Hi & Ho & Hb & H1 & H2 & H3); [lia|lia|].
    rewrite (sz_succ j) in H1, H2 by done. pose proof (sz_pos (S j) Hj).
    destruct H3 as [->|Hnb]; [|exists i, b; split_and!; [lia|done|done|nia|nia|by right]].
    rewrite (sz_succ j) in H2 by done. assert (b = buf + 4 * sz (S j) * (m / 4)) as Eb by lia.
    destruct (decide (b ∈ bases (L (S j)))) as [Hin|Hnin].
    + exists (S j), (buf + sz (S j) * m). 
      assert (owns (sz (S j)) (L (S j)) (buf + sz (S j) * m)) as Hos.
      { apply owns_bases. exists b, (m mod 4). split_and!; [done|lia|lia|]. rewrite Eb. nia. }
      split_and!; [lia|done| |lia|lia|by left]. by eapply owned_below.
    + exists j, b. pose proof (sz_succ j Hj). split_and!; [lia|done|done|nia|nia|by right].
Qed.

Lemma search_complete L index m :
  forest_ok L -> (index < n)%nat -> all_merged L index -> none_free L index ->
  0 <= m < nmax * 4 ^ Z.of_nat index ->
  exists j b, live L j b /\ ~ disjoint_from (buf + sz index * m) (sz index) b (sz j).
Proof.
  intros F Hi Hm Hf Hr. pose proof (sz_pos index Hi).
  destruct (region_block L index m F Hi Hr) as (i & b & Hle & Ho & Hb & H1 & H2 & H3).
  destruct (decide (b ∈ bases (L (S i)))) as [Hin|Hnb].
  - destruct H3 as [->|?]; [|done].
    destruct (live_inside_busy L index b F Hm Hi Ho Hb (Hf index b ltac:(lia)))
      as (j' & c & Hl & H4 & H5).
    exists j', c. split; [done|]. pose proof (sz_pos j' ltac:(apply Hl)). unfold disjoint_from. lia.
  - exists i, b. pose proof (sz_pos i ltac:(lia)). split; [|unfold disjoint_from; lia].
    split_and!; [lia|done|done|by apply Hf|done].
Qed.
End Forest.

(** ** The arrays hold a forest *)
Section Arrays.
Context (buf min nmax : Z) (n : nat) (D : dims_ok buf min nmax n).
Implicit Types (L : nat -> list k_mem_pool_quad_block) (U qs nulls : list k_mem_pool_quad_block)
  (s : k_mem_pool_block_set) (sets : list k_mem_pool_block_set) (a : Z) (j : nat).
Local Abbreviation sz := (sz min n).
Local Abbreviation cap := (cap nmax).
Local Abbreviation forest_ok := (forest_ok buf min nmax n).
Local Abbreviation live := (live buf min nmax n).

Definition unused q : Prop := mem_blocks q = 0.

Record set_is j U s : Prop := {
  si_size : block_size s = sz j;
  si_entries : nr_of_entries s = cap j;
  si_length : Z.of_nat (length (quad_block s)) = cap j;
  si_quads : exists nulls, quad_block s = U ++ nulls /\ Forall unused nulls
}.

Definition repr sets L : Prop :=
  length sets = n /\ forall j, (j < n)%nat -> exists s, sets !! j = Some s /\ set_is j (L j) s.

Lemma repr_lookup sets L j :
  repr sets L -> (j < n)%nat -> exists s, sets !! j = Some s /\ set_is j (L j) s.
Proof. intros [_ H]. apply H. Qed.

Lemma repr_insert sets L j U s :
  repr sets L -> set_is j U s -> repr (<[j := s]> sets) (<[j := U]> L).
Proof.
  intros [Hl H] Hs. split; [by rewrite length_insert|]. intros i Hi.
  destruct (decide (i = j)) as [->|Hne].
  - exists s. rewrite list_lookup_insert_eq by (by rewrite Hl). by rewrite fn_lookup_insert.
  - destruct (H i Hi) as (s' & ? & ?). exists s'.
    by rewrite list_lookup_insert_ne, fn_lookup_insert_ne by done.
Qed.

Lemma cap_pos j : 0 < cap j.
Proof.
  pose proof (di_max _ _ _ _ D). destruct j as [|j]; cbn [MemPool.cap].
  - assert (1 <= (nmax + 3) / 4) by (apply Z.div_le_lower_bound; lia). lia.
  - assert (0 < 4 ^ Z.of_nat j) by (apply Z.pow_pos_nonneg; lia). nia.
Qed.

Lemma level_used L j q : forest_ok L -> (j < n)%nat -> q ∈ L j -> mem_blocks q <> 0.
Proof.
  intros F Hj Hq. pose proof (owned_positive buf min nmax n D L j (mem_blocks q) F Hj
    (base_owned min n L j q Hq)). lia.
Qed.

(** *** Searching a block set *)
Lemma lookup_middle {A} (l1 l2 : list A) x : (l1 ++ x :: l2) !! length l1 = Some x.
Proof. by rewrite lookup_app_r, Nat.sub_diag by lia. Qed.

Lemma get_existing_from_skip s U1 U2 q rest :
  quad_block s = U1 ++ U2 ++ q :: rest ->
  nr_of_entries s = Z.of_nat (length (quad_block s)) ->
  (forall q, q ∈ U2 -> mem_blocks q <> 0 /\ mem_status q = 0) ->
  get_existing_from (length (quad_block s) - length U1) (length U1) s =
  get_existing_from (length (quad_block s) - length (U1 ++ U2)) (length (U1 ++ U2)) s.
Proof.
  revert U1. induction U2 as [|x U2 IH]; intros U1 E Hnr Hz; [by rewrite app_nil_r|].
  destruct (Hz x) as [Hx0 Hxs]; [set_solver|].
  assert (quad_block s !! length U1 = Some x) as Hlk by (rewrite E; apply lookup_middle).
  assert (quad_block s = (U1 ++ [x]) ++ U2 ++ q :: rest) as E' by (rewrite E; by rewrite <- app_assoc).
  assert (length (quad_block s) = length U1 + S (length U2 + S (length rest)))%nat as Hl.
  { rewrite E, !length_app. cbn [length]. lia. }
  destruct (length (quad_block s) - length U1)%nat as [|f] eqn:Ef; [lia|]. cbn [get_existing_from].
  rewrite Hlk. cbn [mbind option_bind].
  rewrite (proj2 (Z.eqb_neq _ _) Hx0), Hxs. cbn [negb Z.eqb _QUAD_BLOCK_ALLOCATED].
  rewrite Hnr, (proj2 (Z.ltb_lt _ _)) by lia.
  specialize (IH (U1 ++ [x]) E' Hnr ltac:(intros; apply Hz; set_solver)).
  rewrite <- app_assoc, length_app in IH. cbn [length app] in IH.
  replace (length (quad_block s) - (length U1 + 1))%nat with f in IH by lia.
  by rewrite Nat.add_1_r in IH.
Qed.

Lemma get_existing_skip s U q rest :
  quad_block s = U ++ q :: rest -> nr_of_entries s = Z.of_nat (length (quad_block s)) ->
  (forall q, q ∈ U -> mem_blocks q <> 0 /\ mem_status q = 0) ->
  get_existing_from (length (quad_block s)) 0 s =
  get_existing_from (length (quad_block s) - length U) (length U) s.
Proof.
  intros E Hnr Hz. pose proof (get_existing_from_skip s [] U q rest E Hnr Hz) as Hs.
  cbn [length app] in Hs. by rewrite Nat.sub_0_r in Hs.
Qed.

(** No block: the index of the first unused entry, or of the end of the array. *)
Lemma get_existing_from_none s U nulls :
  quad_block s = U ++ nulls -> Forall unused nulls -> quad_block s <> [] ->
  nr_of_entries s = Z.of_nat (length (quad_block s)) ->
  (forall q, q ∈ U -> mem_blocks q <> 0 /\ mem_status q = 0) ->
  get_existing_from (length (quad_block s)) 0 s = Some (0, s, length U).
Proof.
  intros E Hn Hne Hnr Hz. destruct nulls as [|q nulls].
  - rewrite app_nil_r in E. destruct (exists_last Hne) as (U1 & q & Eq).
    assert (U = U1 ++ [q]) as -> by congruence. destruct (Hz q) as [Hq0 Hqs]; [set_solver|].
    rewrite (get_existing_skip s U1 q []); [|done|done|intros; apply Hz; set_solver].
    rewrite Eq at 1. rewrite length_app, Nat.add_sub_swap, Nat.sub_diag by lia.
    cbn [get_existing_from length Nat.add].
    assert (quad_block s !! length U1 = Some q) as -> by (rewrite Eq; apply lookup_middle).
    cbn [mbind option_bind].
    rewrite (proj2 (Z.eqb_neq _ _) Hq0), Hqs. cbn [negb Z.eqb _QUAD_BLOCK_ALLOCATED].
    rewrite Hnr, Eq, length_app. cbn [length].
    rewrite (proj2 (Z.ltb_ge _ _)) by lia. by rewrite Nat.add_1_r.
  - apply Forall_cons in Hn as [Hq _].
    rewrite (get_existing_skip s U q nulls) by done.
    assert (length (quad_block s) = length U + S (length nulls))%nat as Hl by (by rewrite E, length_app).
    destruct (length (quad_block s) - length U)%nat as [|f] eqn:Ef; [lia|]. cbn [get_existing_from].
    assert (quad_block s !! length U = Some q) as -> by (rewrite E; apply lookup_middle).
    cbn [mbind option_bind]. by rewrite Hq.
Qed.

Lemma first_available U :
  status_ok U ->
  (forall q, q ∈ U -> mem_status q = 0) \/
  exists U1 q U2, U = U1 ++ q :: U2 /\ mem_status q <> 0 /\ (forall x, x ∈ U1 -> mem_status x = 0).
Proof.
  induction U as [|q U IH]; intros Hs; [left; by intros q ?%elem_of_nil|].
  destruct (decide (mem_status q = 0)) as [E|E].
  - destruct IH as [Hz|(U1 & x & U2 & -> & Hx & Hz)]; [intros x Hx; apply Hs; set_solver|..].
    + left. by intros x [->|?%Hz]%elem_of_cons.
    + right. exists (q :: U1), x, U2. split_and!; [done..|]. by intros y [->|?%Hz]%elem_of_cons.
  - right. exists [], q, U. split_and!; [done..|]. by intros x ?%elem_of_nil.
Qed.

Lemma nibble_bits x y : 0 <= x <= 15 -> 0 <= y <= 15 ->
  (0 <= Z.lxor x y <= 15) /\ (0 <= Z.lor x y <= 15).
Proof.
  intros Hx Hy.
  assert (Hlow : forall z, 0 <= z -> (forall i, 4 <= i -> Z.testbit z i = false) -> z <= 15).
  { intros z Hz Hb. destruct (Z.le_gt_cases z 15) as [?|Hgt]; [done|]. exfalso.
    assert (4 <= Z.log2 z) as Hl by (change 4 with (Z.log2 16); apply Z.log2_le_mono; lia).
    pose proof (Hb (Z.log2 z) Hl) as E. rewrite Z.bit_log2 in E by lia. done. }
  assert (Hhigh : forall z i, 0 <= z <= 15 -> 4 <= i -> Z.testbit z i = false).
  { intros z i Hz Hi. apply Z.bits_above_log2; [lia|].
    apply Z.le_lt_trans with (Z.log2 15); [apply Z.log2_le_mono; lia|cbn; lia]. }
  assert (0 <= Z.lxor x y) by (apply Z.lxor_nonneg; lia).
  assert (0 <= Z.lor x y) by (apply Z.lor_nonneg; lia).
  split; (split; [done|apply Hlow; [done|]]); intros i Hi.
  - by rewrite Z.lxor_spec, !Hhigh.
  - by rewrite Z.lor_spec, !Hhigh.
Qed.

Lemma bit_nibble i : 0 <= i < 4 -> 0 <= Z.shiftl 1 i <= 15.
Proof. intros. assert (i = 0 \/ i = 1 \/ i = 2 \/ i = 3) as [->|[->|[->| ->]]] by lia; vm_compute; intuition discriminate. Qed.

Lemma status_replace U1 q q' U2 :
  status_ok (U1 ++ q :: U2) -> 0 <= mem_status q' <= 15 -> status_ok (U1 ++ q' :: U2).
Proof.
  intros Hs Hq x [Hx|[->|Hx]%elem_of_cons]%elem_of_app; [|done|]; apply Hs; set_solver.
Qed.

Lemma set_is_update j U U' s nulls :
  set_is j U s -> quad_block s = U ++ nulls -> Forall unused nulls -> length U' = length U ->
  set_is j U' (with_quads (U' ++ nulls) s).
Proof.
  intros [Hsz Hen Hl _] E Hn El. split; cbn [with_quads block_size nr_of_entries quad_block]; try done.
  - rewrite <- Hl, E, !length_app, El. done.
  - by exists nulls.
Qed.

Definition existing sets L j (r : Z * list k_mem_pool_block_set * nat) : Prop :=
  let '(found, sets', i) := r in
  if decide (found = 0) then sets' = sets /\ i = length (L j) /\ (forall a, ~ avail (sz j) (L j) a)
  else exists U', repr sets' (<[j := U']> L) /\ status_ok U' /\ takes (sz j) (L j) U' found.

Lemma none_avail U size : (forall q, q ∈ U -> mem_status q = 0) -> forall a, ~ avail size U a.
Proof. intros Hz a (q & i & Hq & _ & Ht). rewrite (Hz q Hq), Z.bits_0 in Ht. done. Qed.

Lemma get_existing_block_ok sets L j :
  repr sets L -> forest_ok L -> (j < n)%nat ->
  exists r, get_existing_block j sets = Some r /\ existing sets L j r.
Proof.
  intros Hr F Hj. destruct (repr_lookup sets L j Hr Hj) as (s & Es & Hs).
  pose proof Hs as [Hsz Hen Hlen (nulls & E & Hn)]. pose proof (cap_pos j) as Hcap.
  pose proof (fun q => level_used L j q F Hj) as Hused. rewrite <- Hlen in Hen.
  unfold get_existing_block. rewrite Es. cbn [mbind option_bind].
  destruct (first_available (L j) (fo_status _ _ _ _ L F j)) as [Hz|(U1 & q & U2 & EU & Hq & Hz)].
  - rewrite (get_existing_from_none s (L j) nulls E Hn); [|by intros E0; rewrite E0 in Hlen; cbn in Hlen; lia|done|auto].
    cbn [mbind option_bind]. eexists. split; [done|]. rewrite list_insert_id by done. cbn.
    split_and!; [done..|]. by apply none_avail.
  - assert (q ∈ L j) as Hin by (rewrite EU; set_solver).
    destruct (fo_status _ _ _ _ L F j q Hin) as [Hlo Hhi].
    destruct (find_lsb_set_spec (mem_status q)) as (m & Hm & Elsb & Ht & _); [unfold UINT32_MAX; lia|done|].
    assert (m < 4) as Hm4.
    { destruct (Z.lt_ge_cases m 4) as [?|Hge]; [done|]. rewrite Z.bits_above_log2 in Ht; [done|lia|].
      apply Z.le_lt_trans with (Z.log2 15); [apply Z.log2_le_mono; lia|cbn; lia]. }
    assert (quad_block s = U1 ++ q :: U2 ++ nulls) as E' by (rewrite E, EU; by rewrite <- app_assoc).
    rewrite (get_existing_skip s U1 q (U2 ++ nulls)); [|done|done|].
    2: { intros x Hx. split; [apply Hused; rewrite EU; set_solver|auto]. }
    destruct (length (quad_block s) - length U1)%nat as [|f] eqn:Ef.
    { rewrite E', length_app in Ef. cbn [length] in Ef. lia. }
    cbn [get_existing_from]. assert (quad_block s !! length U1 = Some q) as -> by (rewrite E'; apply lookup_middle).
    cbn [mbind option_bind]. rewrite (proj2 (Z.eqb_neq _ _) (Hused q Hin)).
    unfold _QUAD_BLOCK_ALLOCATED. rewrite (proj2 (Z.eqb_neq _ _) Hq). cbn [negb]. rewrite Elsb, Z.add_simpl_r.
    cbn [mbind option_bind]. eexists. split; [done|].
    rewrite Hsz. set (a := mem_blocks q + m * sz j). set (q' := mk_quad _ _).
    assert (in_quad (sz j) q m a) as Hia by (split; [lia|done]).
    assert (0 < a) as Ha by (eapply owned_positive; [exact D|exact F|exact Hj|by exists q, m]).
    cbn. destruct (decide (a = 0)); [lia|]. exists (U1 ++ q' :: U2).
    split_and!.
    + replace (<[length U1 := q']> (quad_block s)) with ((U1 ++ q' :: U2) ++ nulls).
      * apply repr_insert; [done|]. eapply set_is_update; [done..|].
        rewrite EU, !length_app. done.
      * rewrite E'. rewrite insert_app_r_alt, Nat.sub_diag by lia. by rewrite <- app_assoc.
    + eapply status_replace; [rewrite <- EU; apply F|]. apply nibble_bits; [done|]. apply bit_nibble. lia.
    + rewrite EU. apply take_bit; [by eapply sz_pos|rewrite <- EU; by eapply spaced_level|done..].
Qed.

(** *** Freeing a block *)
Lemma find_block_ok size q (i a : Z) :
  0 < size -> in_quad size q i a -> find_block 4 0 a (mem_blocks q) size = Some i.
Proof.
  intros Hs [Hi ->]. assert (i = 0 \/ i = 1 \/ i = 2 \/ i = 3) as [->|[->|[->| ->]]] by lia;
    cbn [find_block]; repeat (match goal with |- context [?x =? ?y] =>
      destruct (Z.eqb_spec x y); [try done; lia|] end); lia.
Qed.

Lemma find_block_none size q a :
  (forall i, ~ in_quad size q i a) -> find_block 4 0 a (mem_blocks q) size = None.
Proof.
  intros Hn. cbn [find_block].
  repeat (match goal with |- context [?x =? ?y] => destruct (Z.eqb_spec x y) as [E|_] end); try done;
    exfalso; [apply (Hn 0)|apply (Hn 1)|apply (Hn 2)|apply (Hn 3)]; split; lia.
Qed.

Lemma free_in_quads_ok size U1 q U2 rest (i a : Z) :
  0 < size -> spaced size (U1 ++ q :: U2) -> (forall x, x ∈ U1 ++ q :: U2 -> mem_blocks x <> 0) ->
  in_quad size q i a ->
  free_in_quads a size ((U1 ++ q :: U2) ++ rest) =
    Some ((U1 ++ mk_quad (mem_blocks q) (Z.lor (mem_status q) (Z.shiftl 1 i)) :: U2) ++ rest).
Proof.
  intros Hs Hsp Hu Hi.
  assert (Hother : forall x, x ∈ U1 -> forall i', ~ in_quad size x i' a).
  { intros x Hx i' Hi'. destruct (in_quad_unique size (U1 ++ q :: U2) q x i i' a) as [<- _];
      [done|done|set_solver|set_solver|done|done|].
    destruct Hsp as [Hnd _]. unfold bases in Hnd. rewrite fmap_app, fmap_cons in Hnd.
    apply NoDup_app in Hnd as (_ & Hd & _). apply (Hd (mem_blocks q)).
    - apply list_elem_of_fmap. by exists q.
    - apply elem_of_cons. by left. }
  clear Hsp. revert Hu Hother. induction U1 as [|x U1 IH]; intros Hu Hother.
  - cbn [app free_in_quads]. rewrite (proj2 (Z.eqb_neq _ _)) by (apply Hu; set_solver).
    by rewrite (find_block_ok size q i a).
  - cbn [app free_in_quads]. rewrite (proj2 (Z.eqb_neq _ _)) by (apply Hu; set_solver).
    rewrite find_block_none by (apply Hother; set_solver).
    rewrite IH by (intros; first [apply Hu|apply Hother]; set_solver). done.
Qed.

Lemma free_existing_block_ok sets L j a :
  repr sets L -> forest_ok L -> (j < n)%nat -> owns (sz j) (L j) a ->
  exists U' sets', free_existing_block a j sets = Some sets' /\
    (exists s', sets' = <[j := s']> sets) /\
    repr sets' (<[j := U']> L) /\ status_ok U' /\ gives (sz j) (L j) U' a.
Proof.
  intros Hr F Hj (q & i & Hq & Hi). destruct (repr_lookup sets L j Hr Hj) as (s & Es & Hs).
  pose proof Hs as [Hsz _ _ (nulls & E & Hn)].
  apply list_elem_of_split in Hq as (U1 & U2 & EU).
  assert (spaced (sz j) (L j)) as Hsp by (by eapply spaced_level).
  assert (0 < sz j) as Hpos by (by eapply sz_pos).
  unfold free_existing_block. rewrite Es. cbn [mbind option_bind]. rewrite E, EU, Hsz.
  rewrite (free_in_quads_ok (sz j) U1 q U2 nulls i a);
    [|done|by rewrite <- EU|intros x Hx; eapply level_used; [done..|by rewrite EU]|done].
  cbn [mbind option_bind]. set (q' := mk_quad _ _). eexists (U1 ++ q' :: U2), _. split_and!.
  - done.
  - by eexists.
  - apply repr_insert; [done|]. eapply set_is_update; [done..|]. rewrite EU, !length_app. done.
  - pose proof (fo_status _ _ _ _ L F j) as Hst. rewrite EU in Hst.
    eapply status_replace; [done|]. apply nibble_bits; [apply Hst; set_solver|]. apply bit_nibble, Hi.
  - rewrite EU in *. by apply give_bit.
Qed.

(** *** Removing a quad-block *)
Lemma last_quad_ok fuel U nulls k :
  Forall unused nulls -> (forall q, q ∈ U -> mem_blocks q <> 0) ->
  (k < length U)%nat -> (length U - k <= S fuel)%nat ->
  last_quad fuel k (Z.of_nat (length (U ++ nulls))) (U ++ nulls) = Some (length U - 1)%nat.
Proof.
  intros Hn Hu. revert k. induction fuel as [|fuel IH]; intros k Hk Hf; cbn [last_quad].
  - destruct (Z.eqb_spec (Z.of_nat (k + 1)) (Z.of_nat (length (U ++ nulls)))); [f_equal; lia|].
    rewrite length_app in *. rewrite lookup_app_r by lia.
    destruct nulls as [|q nulls]; [cbn [length] in *; lia|].
    replace (k + 1 - length U)%nat with 0%nat by lia. cbn. apply Forall_cons in Hn as [-> _].
    cbn. f_equal. lia.
  - destruct (Z.eqb_spec (Z.of_nat (k + 1)) (Z.of_nat (length (U ++ nulls)))) as [E|E];
      [rewrite length_app in E; f_equal; lia|].
    destruct (decide (k + 1 < length U)%nat) as [Hlt|Hge].
    + rewrite lookup_app_l by done. destruct (lookup_lt_is_Some_2 U (k + 1) Hlt) as [q Hq].
      rewrite Hq. cbn [mbind option_bind]. rewrite (proj2 (Z.eqb_neq _ _)).
      * apply IH; lia.
      * eapply Hu, list_elem_of_lookup_2, Hq.
    + rewrite length_app in *. rewrite lookup_app_r by lia.
      destruct nulls as [|q nulls]; [cbn [length] in *; lia|].
      replace (k + 1 - length U)%nat with 0%nat by lia. cbn. apply Forall_cons in Hn as [-> _].
      cbn. f_equal. lia.
Qed.

Lemma delete_quad_ok U1 q U2 nulls :
  Forall unused nulls -> (forall x, x ∈ U1 ++ q :: U2 -> mem_blocks x <> 0) ->
  exists U3 nulls', U2 ≡ₚ U3 /\ Forall unused nulls' /\
    delete_quad (length U1) (Z.of_nat (length ((U1 ++ q :: U2) ++ nulls))) ((U1 ++ q :: U2) ++ nulls) =
      Some ((U1 ++ U3) ++ nulls') /\
    length ((U1 ++ U3) ++ nulls') = length ((U1 ++ q :: U2) ++ nulls).
Proof.
  intros Hn Hu. unfold delete_quad.
  rewrite last_quad_ok; [|done|done|rewrite length_app; cbn; lia|rewrite !length_app; cbn; lia].
  cbn [mbind option_bind]. destruct U2 as [|x U2 _] using rev_ind.
  - rewrite length_app. cbn [length]. rewrite Nat.add_sub. rewrite <- app_assoc.
    cbn [app]. rewrite lookup_middle. cbn [mbind option_bind].
    exists [], (mk_quad 0 (mem_status q) :: nulls). split_and!; [done|by constructor| |].
    + rewrite app_nil_r, !insert_app_r_alt, Nat.sub_diag by lia. done.
    + rewrite app_nil_r, !length_app. done.
  - assert (U1 ++ q :: U2 ++ [x] = (U1 ++ q :: U2) ++ [x]) as -> by (by rewrite <- app_assoc).
    rewrite length_app, <- (app_assoc (U1 ++ q :: U2)). cbn [length app]. rewrite Nat.add_sub.
    rewrite lookup_middle. cbn [mbind option_bind].
    exists (x :: U2), (mk_quad 0 (mem_status x) :: nulls).
    split_and!; [symmetry; apply Permutation_cons_append|by constructor| |].
    + f_equal. rewrite <- (app_assoc U1 (q :: U2)), (insert_app_r_alt U1), Nat.sub_diag by lia.
      cbn [app insert list_insert]. rewrite app_comm_cons, (app_assoc U1).
      replace (length (U1 ++ q :: U2)) with (length (U1 ++ x :: U2)) by (rewrite !length_app; done).
      rewrite (insert_app_r_alt (U1 ++ x :: U2)), Nat.sub_diag by lia. done.
    + rewrite !length_app. cbn [length]. lia.
Qed.

(** *** Merging *)
Definition same_live L L' : Prop := forall i b, live L' i b <-> live L i b.

Lemma same_live_trans L1 L2 L3 : same_live L1 L2 -> same_live L2 L3 -> same_live L1 L3.
Proof. intros H1 H2 i b. by rewrite (H2 i b), (H1 i b). Qed.

(** One turn of the loop that merges a quad-block. *)
Lemma defrag_turn sets L j s U1 q U2 :
  repr sets L -> forest_ok L -> (S j < n)%nat -> sets !! S j = Some s ->
  L (S j) = U1 ++ q :: U2 -> mem_status q = 15 ->
  exists sets1 qs U3 L', free_existing_block (mem_blocks q) (S j - 1) sets = Some sets1 /\
    delete_quad (length U1) (nr_of_entries s) (quad_block s) = Some qs /\
    repr (<[S j := with_quads qs s]> sets1) L' /\ forest_ok L' /\ same_live L L' /\
    U2 ≡ₚ U3 /\ L' (S j) = U1 ++ U3 /\ (forall k, k <> j -> k <> S j -> L' k = L k).
Proof.
  intros Hr F Hj Es EU Hst. destruct (repr_lookup sets L (S j) Hr Hj) as (s' & Es' & Hs).
  rewrite Es in Es'. injection Es' as <-. pose proof Hs as [Hsz Hen Hlen (nulls & E & Hn)].
  assert (q ∈ L (S j)) as Hq by (rewrite EU; set_solver).
  destruct (fo_split _ _ _ _ L F j (mem_blocks q) Hj) as (Ho & _).
  { apply elem_of_bases. by exists q. }
  destruct (free_existing_block_ok sets L j (mem_blocks q) Hr F ltac:(lia) Ho)
    as (V' & sets1 & E1 & [s1 ->] & Hr1 & HV & HG).
  destruct (delete_quad_ok U1 q U2 nulls Hn) as (U3 & nulls' & Hp & Hn' & E2 & El).
  { intros x Hx. eapply level_used; [done|exact Hj|by rewrite EU]. }
  rewrite EU in E. rewrite Hen, <- Hlen, E. rewrite <- E in El.
  assert (L (S j) ≡ₚ q :: U1 ++ U3) as HP by (rewrite EU, <- Hp; by rewrite Permutation_middle).
  eexists _, _, U3, (merged L j (U1 ++ U3) V'). rewrite Nat.sub_succ, Nat.sub_0_r.
  split_and!; [exact E1|exact E2| | | |done|by rewrite merged_lower|intros; by apply merged_other].
  - apply repr_insert; [done|].
    split; cbn [with_quads block_size nr_of_entries quad_block]; [done|done|by rewrite El|].
    by exists nulls'.
  - by eapply merged_ok.
  - intros i b. by eapply merged_live.
Qed.

Lemma defrag_set_ok fuel j i sets L :
  repr sets L -> forest_ok L -> (S j < n)%nat -> (i <= length (L (S j)))%nat ->
  Z.of_nat i < cap (S j) -> (length (L (S j)) - i < fuel)%nat ->
  (forall q, q ∈ take i (L (S j)) -> mem_status q <> 15) ->
  exists sets' L', defrag_set fuel (S j) i sets = Some sets' /\ repr sets' L' /\ forest_ok L' /\
    same_live L L' /\ (forall q, q ∈ L' (S j) -> mem_status q <> 15) /\
    (forall k, k <> j -> k <> S j -> L' k = L k).
Proof.
  revert i sets L. induction fuel as [|fuel IH]; intros i sets L Hr F Hj Hi Hc Hf Hm; [lia|].
  destruct (repr_lookup sets L (S j) Hr Hj) as (s & Es & Hs).
  pose proof Hs as [Hsz Hen Hlen (nulls & E & Hn)]. cbn [defrag_set]. rewrite Es. cbn [mbind option_bind].
  destruct (decide (i = length (L (S j)))) as [->|Hne].
  - destruct nulls as [|q nulls]; [rewrite app_nil_r in E; rewrite E in Hlen; lia|].
    rewrite E, lookup_middle. cbn [mbind option_bind]. apply Forall_cons in Hn as [-> _]. cbn.
    rewrite take_ge in Hm by lia. by exists sets, L.
  - destruct (lookup_lt_is_Some_2 (L (S j)) i ltac:(lia)) as [q Hq].
    pose proof (take_drop_middle _ _ _ Hq) as EU. set (U1 := take i (L (S j))) in *.
    set (U2 := drop (S i) (L (S j))) in *.
    assert (length U1 = i) as HU1 by (unfold U1; rewrite length_take; lia).
    assert (q ∈ L (S j)) as Hin by (by eapply list_elem_of_lookup_2).
    rewrite E, lookup_app_l, Hq by lia. cbn [mbind option_bind].
    rewrite (proj2 (Z.eqb_neq _ _)) by (by apply (level_used L (S j))).
    unfold _QUAD_BLOCK_AVAILABLE. destruct (Z.eqb_spec (mem_status q) 15) as [Hst|Hst].
    + destruct (defrag_turn sets L j s U1 q U2 Hr F Hj Es (eq_sym EU) Hst)
        as (sets1 & qs & U3 & L' & E1 & E2 & Hr' & F' & Hlv & Hp & EL' & Hk).
      rewrite HU1 in E2. rewrite E1. cbn [mbind option_bind]. rewrite <- E, E2.
      cbn [mbind option_bind]. rewrite Hen, (proj2 (Z.ltb_lt _ _) Hc).
      assert (length (L (S j)) = S (length (L' (S j)))) as Hll.
      { rewrite EL', <- EU, !length_app, <- Hp. cbn [length]. lia. }
      destruct (IH i _ L' Hr' F' Hj) as (sets2 & L2 & -> & Hr2 & F2 & Hlv2 & Hm2 & Hk2).
      * rewrite EL', length_app. lia.
      * done.
      * lia.
      * rewrite EL', take_app_le, take_ge by lia. done.
      * exists sets2, L2. split_and!; [done..| |done|].
        -- by eapply same_live_trans.
        -- intros k H1 H2. rewrite Hk2, Hk by done. done.
    + assert (Hm' : forall x, x ∈ take (S i) (L (S j)) -> mem_status x <> 15).
      { intros x. rewrite (take_S_r _ _ q) by done. fold U1.
        intros [Hx| ->%list_elem_of_singleton]%elem_of_app; [by apply Hm|done]. }
      cbn [mbind option_bind]. rewrite Hen.
      destruct (Z.ltb_spec (Z.of_nat (S i)) (cap (S j))).
      * apply IH; try done; lia.
      * rewrite E, length_app in Hlen. rewrite take_ge in Hm' by lia. by exists sets, L.
Qed.

Lemma defrag_sets_ok m last sets L :
  repr sets L -> forest_ok L -> (last + m < n)%nat -> all_merged n L (last + m) ->
  exists sets' L', defrag_sets m last sets = Some sets' /\ repr sets' L' /\ forest_ok L' /\
    same_live L L' /\ all_merged n L' last /\ (forall k, (k < last)%nat -> L' k = L k).
Proof.
  revert sets L. induction m as [|m IH]; intros sets L Hr F Hl Hm.
  - rewrite Nat.add_0_r in Hm. by exists sets, L.
  - cbn [defrag_sets]. rewrite Nat.add_succ_r in *.
    destruct (repr_lookup sets L (S (last + m)) Hr Hl) as (s & Es & Hs).
    pose proof Hs as [_ _ Hlen (nulls & E & _)]. rewrite Es. cbn [mbind option_bind].
    assert (length (L (S (last + m))) <= length (quad_block s))%nat by (rewrite E, length_app; lia).
    destruct (defrag_set_ok (S (length (quad_block s))) (last + m) 0 sets L Hr F Hl)
      as (sets1 & L1 & -> & Hr1 & F1 & Hlv1 & Hm1 & Hk1); [lia|apply cap_pos|lia| |].
    { rewrite take_0. by intros q ?%elem_of_nil. }
    cbn [mbind option_bind].
    destruct (IH sets1 L1 Hr1 F1 ltac:(lia)) as (sets2 & L2 & -> & Hr2 & F2 & Hlv2 & Hm2 & Hk2).
    + intros k q Hk Hq. destruct (decide (k = S (last + m))) as [->|]; [by apply Hm1|].
      rewrite Hk1 in Hq by lia. apply (Hm k); [lia|done].
    + exists sets2, L2. split_and!; [done..|by eapply same_live_trans|done|].
      intros k Hk. rewrite Hk2, Hk1 by lia. done.
Qed.

(** *** Allocating *)
Definition took L (index : nat) a L' : Prop :=
  (index < n)%nat /\ a <> 0 /\ ~ live L index a /\
  forall i b, live L' i b <-> live L i b \/ (i = index /\ b = a).

Lemma took_live L index a L' : took L index a L' -> live L' index a.
Proof. intros (_ & _ & _ & H). apply H. by right. Qed.

(** What a search found, from the result of looking in one block set. *)
Lemma existing_took sets L j r :
  forest_ok L -> (j < n)%nat -> existing sets L j r ->
  let '(found, sets', i) := r in
  (found = 0 /\ sets' = sets /\ i = length (L j) /\ (forall a, ~ avail (sz j) (L j) a)) \/
  exists U', repr sets' (<[j := U']> L) /\ forest_ok (<[j := U']> L) /\
    took L j found (<[j := U']> L).
Proof.
  destruct r as [[found sets'] i]. unfold existing. intros F Hj.
  destruct (decide (found = 0)) as [->|Hne]; [intros (? & ? & ?); by left|].
  intros (U' & Hr & Hst & Ht). right. exists U'.
  destruct (forest_take buf min nmax n D L j U' found F Hj Hst Ht) as (F' & Hnl & Hl).
  done.
Qed.

Lemma add_quad_ok sets L j a :
  repr sets L -> forest_ok L -> live L j a -> (S j < n)%nat ->
  exists sets', add_quad (S j) (length (L (S j))) a sets = Some sets' /\
    repr sets' (<[S j := L (S j) ++ [split_quad a]]> L).
Proof.
  intros Hr F Hl Hj. destruct (repr_lookup sets L (S j) Hr Hj) as (s & Es & Hs).
  pose proof Hs as [Hsz Hen Hlen (nulls & E & Hn)].
  pose proof (room _ _ _ _ D L j a F Hl Hj) as Hroom. rewrite <- Hlen, E, length_app in Hroom.
  unfold add_quad. rewrite Es. cbn [mbind option_bind]. unfold write_quad.
  rewrite decide_True by (rewrite E, length_app; lia). cbn [mbind option_bind].
  eexists. split; [done|]. apply repr_insert; [done|].
  destruct nulls as [|q nulls]; [cbn [length] in Hroom; lia|]. apply Forall_cons in Hn as [_ Hn].
  split; cbn [with_quads block_size nr_of_entries quad_block]; [done|done|by rewrite length_insert|].
  exists nulls. split; [|done]. rewrite E, insert_app_r_alt, Nat.sub_diag by lia.
  cbn [insert list_insert]. by rewrite <- app_assoc.
Qed.

(** Splitting the block just taken from the set before. *)
Lemma took_split L j a L1 :
  forest_ok L1 -> took L j a L1 -> (S j < n)%nat ->
  took L (S j) a (<[S j := L1 (S j) ++ [split_quad a]]> L1) /\
  forest_ok (<[S j := L1 (S j) ++ [split_quad a]]> L1).
Proof.
  intros F1 Ht Hj. pose proof (took_live L j a L1 Ht) as Hl1.
  destruct Ht as (Hj' & Ha & Hnl & Hlive).
  split; [|by eapply forest_split_ok]. split_and!; [done|done| |].
  - intros Hla. assert (live L1 (S j) a) as Hl2 by (apply Hlive; by left).
    destruct (live_disjoint buf min nmax n D L1 j a (S j) a F1 Hl1 Hl2) as [Hd|Hd];
      [congruence|..]; pose proof (sz_pos buf min nmax n D j Hj');
      pose proof (sz_pos buf min nmax n D (S j) Hj); lia.
  - intros i b. rewrite (forest_split_live buf min nmax n D L1 j a i b F1 Hl1 Hj), Hlive.
    destruct (decide (i = j)) as [->|]; [|naive_solver].
    destruct (decide (b = a)) as [->|]; naive_solver.
Qed.

(** The result of a search that does not merge. *)
Definition searched sets L m a sets' L' : Prop :=
  (a = 0 /\ sets' = sets /\ L' = L /\ forall j b, (j < m)%nat -> ~ avail (sz j) (L j) b) \/
  (exists index, m = S index /\ took L index a L').

Lemma split_step (policy : mem_pool_policy) nr index start sets L i
    (K : list k_mem_pool_block_set -> option (Z * list k_mem_pool_block_set)) :
  repr sets L -> forest_ok L -> (index < n)%nat -> i = length (L index) ->
  (exists a sets' L', get_block_recursive policy nr index start sets = Some (a, sets') /\
     repr sets' L' /\ forest_ok L' /\ (forall k, (index <= k)%nat -> L' k = L k) /\
     searched sets L index a sets' L') ->
  let r :=
    r ← get_block_recursive policy nr index start sets;
    let '(larger_block, sets) := r in
    if negb (larger_block =? 0)
    then sets ← add_quad index i larger_block sets; Some (larger_block, sets) else K sets in
  (r = K sets /\ forall j b, (j < index)%nat -> ~ avail (sz j) (L j) b) \/
  (exists a sets' L', r = Some (a, sets') /\ repr sets' L' /\ forest_ok L' /\
     (forall k, (index < k)%nat -> L' k = L k) /\ took L index a L').
Proof.
  intros Hr F Hi -> (a & sets' & L' & E & Hr' & F' & Hk & Hs). cbn zeta. rewrite E.
  cbn [mbind option_bind]. destruct Hs as [(-> & -> & -> & Hna)|(j & -> & Ht)]; [by left|].
  right. pose proof Ht as (_ & Ha & _). rewrite (proj2 (Z.eqb_neq _ _) Ha). cbn [negb].
  destruct (add_quad_ok sets' L' j a Hr' F' (took_live _ _ _ _ Ht) Hi) as (sets2 & E2 & Hr2).
  rewrite <- (Hk (S j)) by lia. rewrite E2. cbn [mbind option_bind].
  destruct (took_split L j a L' F' Ht Hi) as [Ht2 F2].
  eexists _, _, _. split; [done|]. split_and!; [done..| |done].
  intros k Hlt. rewrite fn_lookup_insert_ne by lia. apply Hk. lia.
Qed.

(** Below the block set asked for, the search never merges. *)
Lemma get_below_ok policy nr m start sets L :
  policy = SPLIT_ONLY \/ (m <= start)%nat -> repr sets L -> forest_ok L -> (m <= n)%nat ->
  exists a sets' L', get_block_recursive policy nr m start sets = Some (a, sets') /\
    repr sets' L' /\ forest_ok L' /\ (forall k, (m <= k)%nat -> L' k = L k) /\
    searched sets L m a sets' L'.
Proof.
  revert sets L. induction m as [|index IH]; intros sets L Hp Hr F Hm.
  - exists 0, sets, L. split_and!; [done..|]. left. split_and!; [done..|lia].
  - destruct (get_existing_block_ok sets L index Hr F Hm) as (r & E & Hex).
    pose proof (existing_took sets L index r F Hm Hex) as Hcase. destruct r as [[found sets1] i].
    cbn [get_block_recursive]. rewrite E. cbn [mbind option_bind].
    destruct Hcase as [(-> & -> & Ei & Hna)|(U' & Hr' & F' & Ht)].
    2: { pose proof Ht as (_ & Ha & _). rewrite (proj2 (Z.eqb_neq _ _) Ha). cbn [negb].
         eexists _, _, _. split; [done|]. split_and!; [done..| |right; by exists index].
         intros k Hk. by rewrite fn_lookup_insert_ne by lia. }
    cbn [negb Z.eqb].
    set (K := fun sets : list k_mem_pool_block_set =>
      match policy with
      | SPLIT_BEFORE_DEFRAG =>
          if decide (index = start) then
            r ← defrag_and_get nr index sets; let '(found, sets, _) := r in Some (found, sets)
          else Some (0, sets)
      | _ => Some (0, sets)
      end).
    assert (K sets = Some (0, sets)) as EK.
    { unfold K. destruct policy; [|done|done]. destruct Hp; [done|]. by rewrite decide_False by lia. }
    assert (E1 : (match policy with
        | DEFRAG_BEFORE_SPLIT => if decide (index = start) then defrag_and_get nr index sets
                                 else Some (0, sets, i)
        | _ => Some (0, sets, i) end) = Some (0, sets, i)).
    { destruct policy; [done| |done]. destruct Hp; [done|]. by rewrite decide_False by lia. }
    rewrite E1. cbn [mbind option_bind negb Z.eqb].
    destruct (split_step policy nr index start sets L i K Hr F Hm Ei) as [[Er Hna']|Hs].
    + apply IH; [|done..|lia]. destruct Hp; [by left|right; lia].
    + unfold K in Er at 1. cbn zeta in Er. rewrite Er, EK. exists 0, sets, L. split_and!; [done..|].
      left. split_and!; [done..|]. intros j b Hj. destruct (decide (j = index)) as [->|]; [done|].
      apply Hna'. lia.
    + destruct Hs as (a & sets' & L' & Er & Hr' & F' & Hk & Ht). cbn zeta in Er. unfold K in Er.
      rewrite Er. exists a, sets', L'. split_and!; [done..|]. right. by exists index.
Qed.

Lemma defrag_ok index sets L :
  repr sets L -> forest_ok L -> (index < n)%nat ->
  exists sets' L', defrag (n - 1) index sets = Some sets' /\ repr sets' L' /\ forest_ok L' /\
    same_live L L' /\ all_merged n L' index /\ (forall k, (k < index)%nat -> L' k = L k).
Proof.
  intros Hr F Hi. unfold defrag. apply (defrag_sets_ok (n - 1 - index) index sets L Hr F); [lia|].
  intros j q Hj. lia.
Qed.

Lemma took_same_live L L1 index a L' : same_live L L1 -> took L1 index a L' -> took L index a L'.
Proof.
  intros Hs (Hi & Ha & Hn & Hl). split_and!; [done|done|by rewrite <- (Hs index a)|].
  intros i b. by rewrite Hl, (Hs i b).
Qed.

Lemma defrag_and_get_ok index sets L :
  repr sets L -> forest_ok L -> (index < n)%nat ->
  exists found sets' i L', defrag_and_get n index sets = Some (found, sets', i) /\
    repr sets' L' /\ forest_ok L' /\
    ((found = 0 /\ same_live L L' /\ all_merged n L' index /\ i = length (L' index) /\
      (forall k, (k < index)%nat -> L' k = L k) /\ forall a, ~ avail (sz index) (L' index) a) \/
     took L index found L').
Proof.
  intros Hr F Hi. unfold defrag_and_get.
  destruct (defrag_ok index sets L Hr F Hi) as (sets1 & L1 & -> & Hr1 & F1 & Hlv & Hm & Hk).
  cbn [mbind option_bind].
  destruct (get_existing_block_ok sets1 L1 index Hr1 F1 Hi) as (r & E & Hex).
  pose proof (existing_took sets1 L1 index r F1 Hi Hex) as Hcase. destruct r as [[found sets2] i].
  destruct Hcase as [(-> & -> & Ei & Hna)|(U' & Hr' & F' & Ht)].
  - exists 0, sets1, i, L1. split_and!; [done..|]. left. by split_and!.
  - eexists _, _, _, _. split; [done|]. split_and!; [done..|]. right. by eapply took_same_live.
Qed.

(** What a call from outside gives: a block of the right size that was not in
    use, or none, and then none is free in this or a larger size, even after
    merging when the policy merges. *)
Definition allocated (policy : mem_pool_policy) L index a L' : Prop :=
  (a = 0 /\ same_live L L' /\ none_free min n L' index /\
   (policy <> SPLIT_ONLY -> all_merged n L' index)) \/
  took L index a L'.

Lemma none_free_split L index :
  (forall a, ~ avail (sz index) (L index) a) ->
  (forall j b, (j < index)%nat -> ~ avail (sz j) (L j) b) -> none_free min n L index.
Proof. intros H1 H2 j a Hj. destruct (decide (j = index)) as [->|]; [done|]. apply H2. lia. Qed.

Lemma get_block_ok policy index sets L :
  repr sets L -> forest_ok L -> (index < n)%nat ->
  exists a sets' L', get_block_recursive policy n (S index) index sets = Some (a, sets') /\
    repr sets' L' /\ forest_ok L' /\ allocated policy L index a L'.
Proof.
  intros Hr F Hi.
  assert (forall sets L, repr sets L -> forest_ok L -> exists a sets' L',
    get_block_recursive policy n index index sets = Some (a, sets') /\ repr sets' L' /\ forest_ok L' /\
    (forall k, (index <= k)%nat -> L' k = L k) /\ searched sets L index a sets' L') as Hbelow.
  { intros sets0 L0 Hr0 F0. apply get_below_ok; [by right|done|done|lia]. }
  destruct (get_existing_block_ok sets L index Hr F Hi) as (r & E & Hex).
  pose proof (existing_took sets L index r F Hi Hex) as Hcase. destruct r as [[found sets1] i].
  cbn [get_block_recursive]. rewrite E. cbn [mbind option_bind].
  destruct Hcase as [(-> & -> & Ei & Hna)|(U' & Hr' & F' & Ht)].
  2: { pose proof Ht as (_ & Ha & _). rewrite (proj2 (Z.eqb_neq _ _) Ha). cbn [negb].
       eexists _, _, _. split; [done|]. split_and!; [done..|]. by right. }
  cbn [negb Z.eqb]. destruct policy.
  - cbn [mbind option_bind negb Z.eqb].
    destruct (split_step SPLIT_BEFORE_DEFRAG n index index sets L i (fun sets =>
      if decide (index = index) then
        r ← defrag_and_get n index sets; let '(found, sets, _) := r in Some (found, sets)
      else Some (0, sets)) Hr F Hi Ei (Hbelow _ _ Hr F)) as [[-> Hnb]|(a & sets' & L' & -> & Hr' & F' & _ & Ht)].
    + rewrite decide_True by done. destruct (defrag_and_get_ok index sets L Hr F Hi)
        as (found & sets' & i' & L' & -> & Hr' & F' & Hc). cbn [mbind option_bind].
      exists found, sets', L'. split_and!; [done..|].
      destruct Hc as [(-> & Hlv & Hm & _ & Hk & Hna')|Ht]; [left|by right].
      split_and!; [done..| |done]. apply none_free_split; [done|]. intros j b Hj.
      rewrite Hk by done. by apply Hnb.
    + exists a, sets', L'. split_and!; [done..|]. by right.
  - rewrite decide_True by done.
    destruct (defrag_and_get_ok index sets L Hr F Hi)
      as (found & sets1 & i1 & L1 & -> & Hr1 & F1 & Hc). cbn [mbind option_bind].
    destruct Hc as [(-> & Hlv & Hm & Ei1 & _ & Hna1)|Ht].
    2: { pose proof Ht as (_ & Ha & _). rewrite (proj2 (Z.eqb_neq _ _) Ha). cbn [negb].
         exists found, sets1, L1. split_and!; [done..|]. by right. }
    cbn [negb Z.eqb].
    destruct (split_step DEFRAG_BEFORE_SPLIT n index index sets1 L1 i1 (fun sets => Some (0, sets))
      Hr1 F1 Hi Ei1 (Hbelow _ _ Hr1 F1)) as [[-> Hnb]|(a & sets' & L' & -> & Hr' & F' & _ & Ht)].
    + exists 0, sets1, L1. split_and!; [done..|]. left. split_and!; [done..| |done].
      by apply none_free_split.
    + exists a, sets', L'. split_and!; [done..|]. right. by eapply took_same_live.
  - cbn [mbind option_bind negb Z.eqb].
    destruct (split_step SPLIT_ONLY n index index sets L i (fun sets => Some (0, sets))
      Hr F Hi Ei (Hbelow _ _ Hr F)) as [[-> Hnb]|(a & sets' & L' & -> & Hr' & F' & _ & Ht)].
    + exists 0, sets, L. split_and!; [done..|]. left. split_and!; [done..| |done].
      by apply none_free_split.
    + exists a, sets', L'. split_and!; [done..|]. by right.
Qed.
End Arrays.

(** ** Pools *)
Section Pools.
Implicit Types (pool : k_mem_pool) (L : nat -> list k_mem_pool_quad_block).

(** Sizes up to [MAX_REQUEST] do not overflow the [int] arithmetic of the search. *)
Definition MAX_REQUEST : Z := 2 ^ 29.

Definition nr_sets pool : nat := Z.to_nat (nr_of_block_sets pool).
Definition size_of pool (j : nat) : Z := sz (min_block_size pool) (nr_sets pool) j.

Record pool_ok pool L : Prop := {
  po_dims : dims_ok (bufblock pool) (min_block_size pool) (nr_of_maxblocks pool) (nr_sets pool);
  po_repr : repr (min_block_size pool) (nr_of_maxblocks pool) (nr_sets pool) (block_set pool) L;
  po_forest : forest_ok (bufblock pool) (min_block_size pool) (nr_of_maxblocks pool) (nr_sets pool) L;
  po_limit : size_of pool 0 <= MAX_REQUEST
}.

(** The blocks of the pool that are in use: [in_use pool L j a] is the block of
    set [j] at address [a]. *)
Definition in_use pool L (j : nat) (a : Z) : Prop :=
  live (bufblock pool) (min_block_size pool) (nr_of_maxblocks pool) (nr_sets pool) L j a.

(** *** The block set for a request *)
Lemma index_loop_ok fuel size bs offset :
  0 < bs -> size <= MAX_REQUEST -> size <= bs * 4 ^ Z.of_nat fuel ->
  exists d, 0 <= d /\ block_set_index_loop fuel size bs offset = Some (offset - d) /\
    size <= bs * 4 ^ d /\ (0 < d -> bs * 4 ^ (d - 1) < size).
Proof.
  unfold MAX_REQUEST. revert bs offset. induction fuel as [|fuel IH]; intros bs offset Hb Hm Hs;
    cbn [block_set_index_loop].
  - rewrite (proj2 (Z.ltb_ge _ _)) by lia. exists 0. rewrite Z.sub_0_r. split_and!; [lia|done|lia|lia].
  - destruct (Z.ltb_spec bs size) as [Hlt|Hge].
    2: { exists 0. rewrite Z.sub_0_r. split_and!; [lia|done|lia|lia]. }
    rewrite i32_small by (unfold INT32_MIN, INT32_MAX; lia).
    rewrite Nat2Z.inj_succ, Z.pow_succ_r in Hs by lia.
    destruct (IH (bs * 4) (offset - 1)) as (d & Hd & -> & H1 & H2); [lia|lia|lia|].
    exists (d + 1). split_and!; [lia|f_equal; lia| |].
    + rewrite Z.pow_add_r by lia. lia.
    + intros _. rewrite Z.add_simpl_r. destruct (decide (d = 0)) as [->|]; [lia|].
      specialize (H2 ltac:(lia)). replace d with (1 + (d - 1)) by lia. rewrite Z.pow_add_r by lia. lia.
Qed.

(** The smallest blocks that hold the request; a negative index when none does. *)
Lemma block_set_index_ok pool L size :
  pool_ok pool L -> 0 <= size <= MAX_REQUEST ->
  exists offset, compute_block_set_index pool size = Some offset /\
    offset < nr_of_block_sets pool /\
    if decide (0 <= offset)
    then size <= size_of pool (Z.to_nat offset) /\
         (offset + 1 < nr_of_block_sets pool -> size_of pool (Z.to_nat (offset + 1)) < size)
    else size_of pool 0 < size.
Proof.
  intros [[Hn Hmin _ _] _ _ Hlim] Hs. unfold MAX_REQUEST, size_of, nr_sets, sz in *.
  set (min := min_block_size pool) in *. set (n := nr_of_block_sets pool) in *.
  assert (min <= 2 ^ 29) as Hmin'.
  { assert (0 < 4 ^ (Z.of_nat (Z.to_nat n) - 1 - Z.of_nat 0)) by (apply Z.pow_pos_nonneg; lia). nia. }
  unfold compute_block_set_index. fold min n. rewrite !i32_small by (unfold INT32_MIN, INT32_MAX; lia).
  destruct (index_loop_ok 32 size min (n - 1)) as (d & Hd & -> & H1 & H2);
    [done|unfold MAX_REQUEST; lia|assert (2 ^ 29 <= 4 ^ Z.of_nat 32) by (vm_compute; discriminate); nia|].
  exists (n - 1 - d). split_and!; [done|lia|]. destruct (decide (0 <= n - 1 - d)).
  - split.
    + replace (Z.of_nat (Z.to_nat n) - 1 - Z.of_nat (Z.to_nat (n - 1 - d))) with d by lia. done.
    + intros Hlt. replace (Z.of_nat (Z.to_nat n) - 1 - Z.of_nat (Z.to_nat (n - 1 - d + 1)))
        with (d - 1) by lia. apply H2. lia.
  - replace (Z.of_nat (Z.to_nat n) - 1 - Z.of_nat 0) with (n - 1) by lia.
    apply Z.le_lt_trans with (min * 4 ^ (d - 1)); [|apply H2; lia].
    apply Z.mul_le_mono_nonneg_l; [lia|]. apply Z.pow_le_mono_r; lia.
Qed.

(** *** The arrays of a new pool *)
Definition set_entries (n_max : Z) : Z :=
  if n_max mod 4 =? 0 then Z.shiftr n_max 2 else Z.shiftr n_max 2 + 1.

Lemma build_ok d fuel n_max min :
  0 < min -> (d <= fuel)%nat ->
  length (_build_block_set fuel n_max (min * 4 ^ Z.of_nat d) min) = S d /\
  forall j, (j <= d)%nat ->
    _build_block_set fuel n_max (min * 4 ^ Z.of_nat d) min !! j =
      Some (let e := set_entries (n_max * 4 ^ Z.of_nat j) in
            mk_set (min * 4 ^ (Z.of_nat d - Z.of_nat j)) e (replicate (Z.to_nat e) (mk_quad 0 0))).
Proof.
  intros Hmin. revert fuel n_max. induction d as [|d IH]; intros fuel n_max Hf.
  - rewrite Z.pow_0_r, Z.mul_1_r. assert (Z.shiftr min 2 - min < 0).
    { rewrite Z.shiftr_div_pow2 by lia. change (2 ^ 2) with 4.
      pose proof (Z.div_lt min 4 Hmin ltac:(lia)). lia. }
    assert (_build_block_set fuel n_max min min =
      [mk_set min (set_entries n_max) (replicate (Z.to_nat (set_entries n_max)) (mk_quad 0 0))]) as ->.
    { destruct fuel; [done|]. cbn [_build_block_set]. by rewrite (proj2 (Z.leb_gt _ _)) by lia. }
    split; [done|]. intros j Hj. assert (j = 0%nat) as -> by lia. cbn [Z.of_nat].
    by rewrite Z.sub_0_r, Z.pow_0_r, !Z.mul_1_r.
  - destruct fuel as [|fuel]; [lia|]. cbn [_build_block_set].
    assert (Z.shiftr (min * 4 ^ Z.of_nat (S d)) 2 = min * 4 ^ Z.of_nat d) as Esh.
    { rewrite Z.shiftr_div_pow2 by lia. change (2 ^ 2) with 4.
      rewrite Nat2Z.inj_succ, Z.pow_succ_r by lia.
      replace (min * (4 * 4 ^ Z.of_nat d)) with (min * 4 ^ Z.of_nat d * 4) by ring.
      by rewrite Z.div_mul. }
    rewrite Esh. rewrite (proj2 (Z.leb_le _ _)).
    2: { assert (0 < 4 ^ Z.of_nat d) by (apply Z.pow_pos_nonneg; lia). nia. }
    destruct (IH fuel (n_max * 4) ltac:(lia)) as [Hl Hj]. split; [cbn [length]; by rewrite Hl|].
    intros [|j] Hle; cbn [lookup list_lookup].
    + fold (set_entries n_max). cbn [Z.of_nat]. by rewrite Z.pow_0_r, Z.mul_1_r, Z.sub_0_r.
    + etransitivity; [apply Hj; lia|]. cbn zeta. rewrite !Nat2Z.inj_succ, Z.pow_succ_r by lia.
      replace (Z.succ (Z.of_nat d) - Z.succ (Z.of_nat j)) with (Z.of_nat d - Z.of_nat j) by lia.
      by rewrite Z.mul_assoc.
Qed.

(** *** Initialisation *)
Definition initial_status (remaining : Z) : Z :=
  if 4 <=? remaining then 15 else Z.shiftr 15 (4 - remaining).

Definition initial_quads (remaining size ptr : Z) : list k_mem_pool_quad_block :=
  (fun i => mk_quad (ptr + 4 * size * i) (initial_status (remaining - 4 * i)))
    <$> seqZ 0 ((remaining + 3) / 4).

Lemma initial_quads_step remaining size ptr :
  4 <= remaining ->
  initial_quads remaining size ptr =
    mk_quad ptr 15 :: initial_quads (remaining - 4) size (ptr + size * 4).
Proof.
  intros Hr. unfold initial_quads.
  replace ((remaining + 3) / 4) with (Z.succ ((remaining - 4 + 3) / 4)).
  2: { replace (remaining + 3) with (remaining - 4 + 3 + 1 * 4) by lia.
       rewrite Z.div_add by lia. lia. }
  assert (0 <= (remaining - 4 + 3) / 4) by (apply Z.div_pos; lia).
  rewrite seqZ_cons by lia. rewrite fmap_cons, Z.pred_succ. f_equal.
  - rewrite Z.mul_0_r, Z.add_0_r, Z.sub_0_r. unfold initial_status. by rewrite (proj2 (Z.leb_le _ _)).
  - replace (Z.succ 0) with (1 + 0) by lia. rewrite <- (fmap_add_seqZ 1 0), <- list_fmap_compose. apply list_fmap_ext.
    intros _ i _. unfold compose. cbn. f_equal; [lia|]. f_equal. lia.
Qed.

Lemma init_quads_ok fuel remaining size ptr (P N : list k_mem_pool_quad_block) :
  0 <= remaining <= Z.of_nat fuel -> (remaining + 3) / 4 = Z.of_nat (length N) ->
  init_quads fuel remaining (length P) size ptr (P ++ N) =
    Some (P ++ initial_quads remaining size ptr).
Proof.
  revert remaining ptr P N. induction fuel as [|fuel IH]; intros remaining ptr P N Hr Hl;
    cbn [init_quads].
  - assert (remaining = 0) as -> by lia. change ((0 + 3) / 4) with 0 in Hl.
    destruct N; [|cbn [length] in Hl; lia].
    done.
  - destruct (Z.leb_spec 4 remaining) as [H4|H4].
    + assert ((remaining - 4 + 3) / 4 = Z.of_nat (length N) - 1) as Hl'.
      { rewrite <- Hl. replace (remaining + 3) with (remaining - 4 + 3 + 1 * 4) by lia.
        rewrite Z.div_add by lia. lia. }
      assert (0 <= (remaining - 4 + 3) / 4) by (apply Z.div_pos; lia).
      destruct N as [|x N]; [cbn in Hl'; lia|]. cbn [length] in Hl'. unfold write_quad.
      rewrite decide_True by (rewrite length_app; cbn; lia). cbn [mbind option_bind].
      rewrite insert_app_r_alt, Nat.sub_diag by lia. cbn [insert list_insert].
      rewrite cons_middle, app_assoc.
      replace (S (length P)) with (length (P ++ [mk_quad ptr _QUAD_BLOCK_AVAILABLE]))
        by (rewrite length_app; cbn; lia).
      rewrite IH by lia. rewrite (initial_quads_step remaining) by done.
      by rewrite <- app_assoc.
    + destruct (Z.eqb_spec remaining 0) as [->|Hne]; cbn [negb].
      * change ((0 + 3) / 4) with 0 in Hl. destruct N; [done|cbn [length] in Hl; lia].
      * assert ((remaining + 3) / 4 = 1) as E1.
        { symmetry. apply (Z.div_unique _ _ _ (remaining - 1)); lia. }
        rewrite E1 in Hl. destruct N as [|x [|]]; cbn [length] in Hl; try lia.
        unfold write_quad. rewrite decide_True by (rewrite length_app; cbn; lia).
        rewrite insert_app_r_alt, Nat.sub_diag by lia. cbn [insert list_insert].
        do 2 f_equal. unfold initial_quads. rewrite E1, (seqZ_cons 0 1), seqZ_nil by lia.
        rewrite fmap_cons, Z.mul_0_r, Z.add_0_r, Z.mul_0_r, Z.sub_0_r. unfold initial_status.
        by rewrite (proj2 (Z.leb_gt _ _)) by lia.
Qed.

Lemma initial_bits r i : 0 < r -> 0 <= i < 4 -> Z.testbit (initial_status r) i = true -> i < r.
Proof.
  intros Hr Hi. unfold initial_status. destruct (Z.leb_spec 4 r); [lia|].
  assert (r = 1 \/ r = 2 \/ r = 3) as [->|[->| ->]] by lia;
    assert (i = 0 \/ i = 1 \/ i = 2 \/ i = 3) as [->|[->|[->| ->]]] by lia; vm_compute; intuition discriminate.
Qed.

Lemma initial_bits_set r i : 0 <= i < 4 -> i < r -> Z.testbit (initial_status r) i = true.
Proof.
  intros Hi Hr. unfold initial_status. destruct (Z.leb_spec 4 r); [by apply full_bits|].
  assert (r = 1 \/ r = 2 \/ r = 3) as [->|[->| ->]] by lia;
    assert (i = 0 \/ i = 1 \/ i = 2 \/ i = 3) as [->|[->|[->| ->]]] by lia; first [done|lia].
Qed.

Lemma initial_status_range r : 0 < r -> 0 <= initial_status r <= 15.
Proof.
  intros Hr. unfold initial_status. destruct (Z.leb_spec 4 r); [lia|].
  assert (r = 1 \/ r = 2 \/ r = 3) as [->|[->| ->]] by lia; vm_compute; intuition discriminate.
Qed.

Definition initial_forest (nmax size buf : Z) (j : nat) : list k_mem_pool_quad_block :=
  match j with O => initial_quads nmax size buf | S _ => [] end.

Lemma initial_forest_ok buf min nmax n :
  dims_ok buf min nmax n -> forest_ok buf min nmax n (initial_forest nmax (sz min n 0) buf).
Proof.
  intros D. pose proof (di_max _ _ _ _ D). pose proof (sz_pos _ _ _ _ D 0 (di_sets _ _ _ _ D)) as Hsz.
  assert (Hin : forall i, i ∈ seqZ 0 ((nmax + 3) / 4) -> 0 <= i /\ 0 < nmax - 4 * i).
  { intros i [Hi1 Hi2]%elem_of_seqZ. split; [done|].
    assert (4 * ((nmax + 3) / 4) <= nmax + 3) by (apply Z.mul_div_le; lia). lia. }
  split; try done.
  - intros [|j]; [|by intros q ?%elem_of_nil]. intros q (i & -> & Hi%Hin)%list_elem_of_fmap.
    apply initial_status_range. lia.
  - intros [|j]; [|constructor]. unfold bases, initial_forest, initial_quads.
    rewrite <- list_fmap_compose. apply NoDup_fmap_2_strong; [|apply NoDup_seqZ].
    intros x y _ _. unfold compose. cbn. intros E. apply (Z.mul_reg_l _ _ (4 * sz min n 0)); lia.
  - unfold bases, initial_forest, initial_quads. rewrite <- list_fmap_compose. done.
  - intros a (q & i & (x & -> & [Hx0 Hx]%Hin)%list_elem_of_fmap & [Hi ->] & Ht). cbn in Ht |- *.
    apply initial_bits in Ht; [|done|done]. unfold buf_end. nia.
  - by intros j b _ ?%elem_of_nil.
  - intros [|j] Hj; [|done]. pose proof (di_sets _ _ _ _ D). lia.
Qed.

Lemma set_entries_cap nmax j : 0 < nmax -> set_entries (nmax * 4 ^ Z.of_nat j) = cap nmax j.
Proof.
  intros Hn. unfold set_entries. rewrite Z.shiftr_div_pow2 by lia. change (2 ^ 2) with 4.
  destruct j as [|j]; cbn [cap].
  - cbn [Z.of_nat]. rewrite Z.pow_0_r, Z.mul_1_r. pose proof (Z.div_mod nmax 4 ltac:(lia)).
    pose proof (Z.mod_pos_bound nmax 4 ltac:(lia)).
    destruct (Z.eqb_spec (nmax mod 4) 0);
      [apply (Z.div_unique _ _ _ 3)|apply (Z.div_unique _ _ _ (nmax mod 4 - 1))]; lia.
  - rewrite Nat2Z.inj_succ, Z.pow_succ_r by lia.
    replace (nmax * (4 * 4 ^ Z.of_nat j)) with (nmax * 4 ^ Z.of_nat j * 4) by ring.
    rewrite Z.mod_mul by lia. cbn [Z.eqb]. by rewrite Z.div_mul by lia.
Qed.

Lemma pool_init d min nmax buf wq k :
  0 < min -> 0 < nmax -> 0 < buf -> (d <= 16)%nat -> min * 4 ^ Z.of_nat d <= MAX_REQUEST ->
  let pool := K_MEM_POOL_DEFINE min (min * 4 ^ Z.of_nat d) nmax buf wq in
  exists pool' L, init_one_memory_pool pool k = Some (pool', upd_wait_q wq [] k) /\
    pool_ok pool' L /\ (forall j a, ~ in_use pool' L j a) /\ (exists sets, pool' = with_sets sets pool) /\
    wait_q pool' = wq /\ bufblock pool' = buf /\ nr_of_block_sets pool' = Z.of_nat d + 1.
Proof.
  intros Hmin Hmax Hbuf Hd Hlim. cbn zeta. unfold init_one_memory_pool, K_MEM_POOL_DEFINE.
  cbn [nr_of_maxblocks block_set bufblock wait_q].
  destruct (build_ok d 16 nmax min Hmin Hd) as [Hl Hj].
  set (sets := _build_block_set 16 nmax (min * 4 ^ Z.of_nat d) min) in *.
  assert (dims_ok buf min nmax (S d)) as D by (split; [lia|done..]).
  assert (Hsz : forall j, (j <= d)%nat -> sz min (S d) j = min * 4 ^ (Z.of_nat d - Z.of_nat j)).
  { intros j Hle. unfold sz. do 2 f_equal. lia. }
  rewrite (Hj 0%nat) by lia. cbn [mbind option_bind block_size quad_block].
  rewrite set_entries_cap by done. rewrite <- Hsz by lia.
  pose proof (init_quads_ok (Z.to_nat nmax) nmax (sz min (S d) 0) buf []
    (replicate (Z.to_nat (cap nmax 0)) (mk_quad 0 0))) as Hiq. cbn [length app] in Hiq. rewrite Hiq.
  2: lia. 2: { rewrite length_replicate. pose proof (cap_pos _ _ _ _ D 0). cbn [cap] in *. lia. }
  cbn [mbind option_bind].
  eexists _, (initial_forest nmax (sz min (S d) 0) buf). split; [done|].
  unfold with_sets. cbn [max_block_size min_block_size nr_of_maxblocks nr_of_block_sets block_set bufblock wait_q].
  rewrite Hl. assert (Z.to_nat (Z.of_nat (S d)) = S d) as En by lia.
  split_and!; [|..]; [|intros j a|by eexists|done|done|lia].
  - split; unfold nr_sets, size_of, nr_sets;
      cbn [bufblock min_block_size nr_of_maxblocks nr_of_block_sets block_set]; rewrite ?En.
    + done.
    + split; [by rewrite length_insert|]. intros j Hlt. destruct j as [|j].
      * eexists. rewrite list_lookup_insert_eq by lia. split; [done|].
        split; cbn [with_quads block_size nr_of_entries quad_block]; [done|done| |].
        -- unfold initial_quads. rewrite length_fmap, length_seqZ.
           pose proof (cap_pos _ _ _ _ D 0). cbn [cap] in *. lia.
        -- exists []. by rewrite app_nil_r.
      * eexists. rewrite list_lookup_insert_ne by lia. rewrite Hj by lia. split; [done|].
        cbn zeta. rewrite set_entries_cap by done.
        split; cbn [block_size nr_of_entries quad_block initial_forest]; [by rewrite Hsz by lia|done| |].
        -- rewrite length_replicate. pose proof (cap_pos _ _ _ _ D (S j)). lia.
        -- eexists. split; [done|]. by apply Forall_replicate.
    + by apply initial_forest_ok.
    + rewrite Hsz by lia. by rewrite Z.sub_0_r.
  - unfold in_use, nr_sets. cbn [bufblock min_block_size nr_of_maxblocks nr_of_block_sets].
    rewrite En. intros (Hlt & (q & i & Hq & [Hi ->]) & Hb & Hna & _). destruct j as [|j];
      [|by apply elem_of_nil in Hq]. apply Hna. exists q, i. split_and!; [done|done|].
    apply list_elem_of_fmap in Hq as (x & -> & Hx%elem_of_seqZ). cbn [mem_blocks mem_status] in *.
    pose proof (sz_pos _ _ _ _ D 0 ltac:(lia)). unfold buf_end in Hb.
    assert (i < nmax - 4 * x) as Hlt' by nia.
    apply initial_bits_set; lia.
Qed.
End Pools.
