(* ===== verification/MemPoolApi.v ===== *)
(** * Memory pools: the services (kernel/unified/mem_pool.c)

    Allocation, freeing and defragmentation, with the threads that wait for a
    block; the heap ([k_malloc], [k_free]). Pools are named by their addresses,
    as the descriptor of a block names its pool. *)
From S2P Require Import Prelude Kernel ReadyQ TimeoutQ Sched SchedInv SchedApi Thread Boot MemPool.

Definition poolid := positive.

Record k_mem_block := mk_block {
  pool_id : poolid;
  addr_in_pool : Z;
  data : Z;
  req_size : Z
}.

Section Operations.
Context `{KConfig} (policy : mem_pool_policy).
Implicit Types (pool : k_mem_pool) (pools : poolid -> k_mem_pool) (k : kernel) (block : k_mem_block).

(** [sys_dlist_peek_next] on the sequence of a wait queue. *)
Fixpoint peek_next_waiter (l : list tid) (t : tid) : option tid :=
  match l with
  | [] => None
  | x :: l => if decide (x = t) then head l else peek_next_waiter l t
  end.

(** The loop over the waiters; [None] also when the fuel runs out. *)
Fixpoint waiters_loop (fuel : nat) (waiter : option tid) pool k : option (k_mem_pool * kernel) :=
  match waiter with
  | None => Some (pool, k)
  | Some t =>
      match fuel with
      | O => None
      | S fuel =>
          let size := u32 (swap_data (threads k t)) in
          offset ← compute_block_set_index pool size;
          r ← get_block policy offset pool;
          let '(found_block, pool) := r in
          let next_waiter := peek_next_waiter (wait_qs k (wait_q pool)) t in
          k ← (if negb (found_block =? 0) then
                 let k := _set_thread_return_value_with_data t 0 found_block k in
                 k ← _unpend_thread t k;
                 let '(_, k) := _abort_thread_timeout t k in
                 _ready_thread t k
               else Some k);
          waiters_loop fuel next_waiter pool k
      end
  end.

Definition block_waiters_check pool k : option (k_mem_pool * kernel) :=
  waiters_loop (length (wait_qs k (wait_q pool))) (head (wait_qs k (wait_q pool))) pool k.

Definition k_mem_pool_defrag (p : poolid) pools k : option ((poolid -> k_mem_pool) * kernel) :=
  let k := _sched_lock k in
  let pool := pools p in
  sets ← defrag (Z.to_nat (nr_of_block_sets pool) - 1) 0 (block_set pool);
  r ← block_waiters_check (with_sets sets pool) k;
  let '(pool, k) := r in
  k ← k_sched_unlock k;
  Some (<[p := pool]> pools, k).

(** The result and the descriptor written through [block], if any. *)
Definition k_mem_pool_alloc (p : poolid) (size timeout : Z) pools k
    : option (outcome (Z * option k_mem_block) * (poolid -> k_mem_pool) * kernel) :=
  let k := _sched_lock k in
  offset ← compute_block_set_index (pools p) size;
  r ← get_block policy offset (pools p);
  let '(found_block, pool) := r in
  let pools := <[p := pool]> pools in
  if negb (found_block =? 0) then
    k ← k_sched_unlock k;
    Some (Returns (0, Some (mk_block p found_block found_block size)), pools, k)
  else if negb (timeout =? K_NO_WAIT) then
    let k := _sched_unlock_no_reschedule k in
    let k := upd_thread (current k) (with_swap_data size) k in
    k ← _pend_current_thread (wait_q pool) timeout k;
    k ← _Swap k;
    Some (Blocks, pools, k)
  else
    k ← k_sched_unlock k;
    Some (Returns (- ENOMEM, None), pools, k).

(** The end of an allocation that blocked in thread [t]. *)
Definition k_mem_pool_alloc_resume (t : tid) (p : poolid) (size : Z) k : Z * option k_mem_block :=
  let result := swap_return_value (threads k t) in
  let a := swap_data (threads k t) in
  (result, if result =? 0 then Some (mk_block p a a size) else None).

(** A negative index is a read outside the array of block sets. *)
Definition k_mem_pool_free block pools k : option ((poolid -> k_mem_pool) * kernel) :=
  let p := pool_id block in
  let pool := pools p in
  let k := _sched_lock k in
  offset ← compute_block_set_index pool (req_size block);
  if offset <? 0 then None else
  sets ← free_existing_block (addr_in_pool block) (Z.to_nat offset) (block_set pool);
  r ← block_waiters_check (with_sets sets pool) k;
  let '(pool, k) := r in
  k ← k_sched_unlock k;
  Some (<[p := pool]> pools, k).

(** *** The heap

    [heap] is the pool [_HEAP_MEM_POOL]; [mem a] is the descriptor stored at
    address [a], of [SIZEOF_BLOCK] bytes. *)
Definition SIZEOF_BLOCK : Z := 16.

Definition k_malloc (heap : poolid) (size : Z) pools (mem : Z -> k_mem_block) k
    : option (Z * (poolid -> k_mem_pool) * (Z -> k_mem_block) * kernel) :=
  let size := u32 (size + SIZEOF_BLOCK) in
  r ← k_mem_pool_alloc heap size K_NO_WAIT pools k;
  let '(o, pools, k) := r in
  match o with
  | Returns (_, Some block) =>
      Some (data block + SIZEOF_BLOCK, pools, <[data block := block]> mem, k)
  | _ => Some (0, pools, mem, k)
  end.

Definition k_free (ptr : Z) pools (mem : Z -> k_mem_block) k
    : option ((poolid -> k_mem_pool) * kernel) :=
  if negb (ptr =? 0) then k_mem_pool_free (mem (ptr - SIZEOF_BLOCK)) pools k
  else Some (pools, k).
End Operations.

(** ** The allocator, seen from the services *)
Section Allocator.
Implicit Types (pool : k_mem_pool) (L : nat -> list k_mem_pool_quad_block) (policy : mem_pool_policy).

(** Block set [j] has the smallest blocks that hold [size] bytes. *)
Definition best_fit pool (j : nat) (size : Z) : Prop :=
  (j < nr_sets pool)%nat /\ size <= size_of pool j /\
  ((S j < nr_sets pool)%nat -> size_of pool (S j) < size).

(** Every place for a block of set [j] overlaps a block in use. *)
Definition full_for pool L (j : nat) : Prop :=
  forall m, 0 <= m < nr_of_maxblocks pool * 4 ^ Z.of_nat j ->
  exists i b, in_use pool L i b /\
    ~ disjoint_from (bufblock pool + size_of pool j * m) (size_of pool j) b (size_of pool i).

Definition exhausted pool L (size : Z) : Prop :=
  size_of pool 0 < size \/ exists j, best_fit pool j size /\ full_for pool L j.

Definition same_shape pool pool' : Prop := exists sets, pool' = with_sets sets pool.

Definition same_use pool L pool' L' : Prop := forall i b, in_use pool' L' i b <-> in_use pool L i b.

(** [a] is a block for [size] bytes that was not in use, and is now. *)
Definition newly_used pool L (j : nat) (a : Z) pool' L' : Prop :=
  a <> 0 /\ ~ in_use pool L j a /\
  forall i b, in_use pool' L' i b <-> in_use pool L i b \/ (i = j /\ b = a).

Lemma same_shape_refl pool : same_shape pool pool.
Proof. exists (block_set pool). by destruct pool. Qed.

Lemma same_shape_trans p1 p2 p3 : same_shape p1 p2 -> same_shape p2 p3 -> same_shape p1 p3.
Proof. intros [s1 ->] [s2 ->]. by exists s2. Qed.

Lemma size_of_mono pool L i j :
  pool_ok pool L -> (i < j < nr_sets pool)%nat -> size_of pool j < size_of pool i.
Proof.
  intros [D _ _ _] Hij. unfold size_of, sz. pose proof (di_min _ _ _ _ D).
  apply Z.mul_lt_mono_pos_l; [done|]. apply Z.pow_lt_mono_r; lia.
Qed.

Lemma best_fit_unique pool L i j size :
  pool_ok pool L -> best_fit pool i size -> best_fit pool j size -> i = j.
Proof.
  intros Hok (Hi & Hi1 & Hi2) (Hj & Hj1 & Hj2).
  assert (Hle : forall i j, (i < j)%nat -> (j < nr_sets pool)%nat ->
    ((S i < nr_sets pool)%nat -> size_of pool (S i) < size) -> size <= size_of pool j -> False).
  { intros x y Hxy Hy H1 H2. specialize (H1 ltac:(lia)).
    destruct (decide (y = S x)) as [->|]; [lia|].
    pose proof (size_of_mono pool L (S x) y Hok ltac:(lia)). lia. }
  destruct (Nat.lt_trichotomy i j) as [?|[?|?]]; [|done|]; exfalso.
  - by eapply (Hle i j).
  - by eapply (Hle j i).
Qed.

(** The index is that of the best fit, or negative for a request larger than any block. *)
Lemma index_best_fit pool L size :
  pool_ok pool L -> 0 <= size <= MAX_REQUEST ->
  exists offset, compute_block_set_index pool size = Some offset /\
    ((offset < 0 /\ size_of pool 0 < size) \/
     (0 <= offset /\ best_fit pool (Z.to_nat offset) size)).
Proof.
  intros Hok Hs. destruct (block_set_index_ok pool L size Hok Hs) as (offset & E & Hlt & Hcase).
  exists offset. split; [done|]. destruct (decide (0 <= offset)) as [H0|H0]; [right|left; lia].
  destruct Hcase as [H1 H2]. split; [done|]. unfold best_fit, nr_sets in *. split_and!; [lia|done|].
  intros Hs'. replace (S (Z.to_nat offset)) with (Z.to_nat (offset + 1)) by lia. apply H2. lia.
Qed.

Definition gave policy pool L (size a : Z) pool' L' : Prop :=
  same_shape pool pool' /\ pool_ok pool' L' /\
  if decide (a = 0)
  then same_use pool L pool' L' /\ (policy <> SPLIT_ONLY -> exhausted pool' L' size)
  else exists j, best_fit pool j size /\ newly_used pool L j a pool' L'.

Lemma get_block_gave policy pool L size :
  pool_ok pool L -> 0 <= size <= MAX_REQUEST ->
  exists offset a pool' L', compute_block_set_index pool size = Some offset /\
    get_block policy offset pool = Some (a, pool') /\ gave policy pool L size a pool' L'.
Proof.
  intros Hok Hs. destruct (index_best_fit pool L size Hok Hs) as (offset & E & Hcase).
  exists offset. pose proof Hok as [D Hr F Hlim]. unfold get_block.
  destruct Hcase as [[Hneg Hbig]|[Hpos Hfit]].
  - exists 0, (with_sets (block_set pool) pool), L. replace (Z.to_nat (offset + 1)) with 0%nat by lia.
    split; [done|]. split; [done|]. split; [by eexists|]. split.
    + by destruct pool.
    + rewrite decide_True by done. split; [intros i b; by destruct pool|]. intros _. left.
      by destruct pool.
  - replace (Z.to_nat (offset + 1)) with (S (Z.to_nat offset)) by lia.
    set (j := Z.to_nat offset) in *. pose proof Hfit as (Hj & _).
    destruct (get_block_ok _ _ _ _ D policy j (block_set pool) L Hr F Hj)
      as (a & sets' & L' & Eg & Hr' & F' & Ha).
    unfold nr_sets in Eg. rewrite Eg. cbn [mbind option_bind].
    assert (pool_ok (with_sets sets' pool) L') as Hok' by by split.
    exists a, (with_sets sets' pool), L'.
    split; [done|]. split; [done|]. split; [by eexists|]. split; [done|].
    destruct Ha as [(-> & Hlv & Hnf & Hm)|(_ & Hne & Hnl & Hlv)].
    + rewrite decide_True by done. split; [done|]. intros Hp. right. exists j. split; [done|].
      intros m Hmr. by apply (search_complete _ _ _ _ D L' j m F' Hj (Hm Hp) Hnf Hmr).
    + rewrite decide_False by done. by exists j.
Qed.

(** Blocks in use lie inside the pool's buffer and never overlap, whatever
    their sizes. *)
Lemma in_use_disjoint pool L i a j b :
  pool_ok pool L -> in_use pool L i a -> in_use pool L j b -> (i, a) <> (j, b) ->
  disjoint_from a (size_of pool i) b (size_of pool j).
Proof. intros [D _ F _] Ha Hb Hne. by eapply live_disjoint. Qed.

Definition inside pool (j : nat) (a : Z) : Prop :=
  bufblock pool <= a /\ a + size_of pool j <= bufblock pool + nr_of_maxblocks pool * size_of pool 0.

Lemma in_use_inside pool L j a : pool_ok pool L -> in_use pool L j a -> inside pool j a.
Proof. intros [D _ F _] Ha. by apply (live_inside _ _ _ _ D L j a F). Qed.

(** A block newly in use is apart from all the others. *)
Definition apart pool L (j : nat) (a : Z) : Prop :=
  inside pool j a /\
  forall i b, in_use pool L i b -> disjoint_from a (size_of pool j) b (size_of pool i).

Lemma newly_used_apart pool L j a pool' L' :
  same_shape pool pool' -> pool_ok pool' L' -> newly_used pool L j a pool' L' -> apart pool L j a.
Proof.
  intros [sets ->] Hok (_ & Hn & Hu).
  assert (in_use (with_sets sets pool) L' j a) as Ha by (apply Hu; by right).
  split; [by apply (in_use_inside _ _ _ _ Hok Ha)|]. intros i b Hb.
  apply (in_use_disjoint _ L' j a i b Hok); [done|apply Hu; by left|]. intros [= <- <-]. done.
Qed.

Lemma defrag_pool_ok pool L :
  pool_ok pool L ->
  exists sets L', defrag (Z.to_nat (nr_of_block_sets pool) - 1) 0 (block_set pool) = Some sets /\
    pool_ok (with_sets sets pool) L' /\ same_use pool L (with_sets sets pool) L'.
Proof.
  intros [D Hr F Hlim]. destruct (defrag_ok _ _ _ _ D 0 (block_set pool) L Hr F (di_sets _ _ _ _ D))
    as (sets & L' & E & Hr' & F' & Hlv & _). exists sets, L'. split_and!; [done|by split|done].
Qed.

Lemma free_pool_ok pool L j a :
  pool_ok pool L -> in_use pool L j a ->
  exists sets L', free_existing_block a j (block_set pool) = Some sets /\
    pool_ok (with_sets sets pool) L' /\
    (forall i b, in_use (with_sets sets pool) L' i b <-> in_use pool L i b /\ ~ (i = j /\ b = a)).
Proof.
  intros [D Hr F Hlim] Hl. pose proof Hl as (Hj & Ho & _).
  destruct (free_existing_block_ok _ _ _ _ D (block_set pool) L j a Hr F Hj Ho)
    as (U' & sets & E & _ & Hr' & Hst & HG).
  destruct (forest_give _ _ _ _ D L j U' a F Hl Hst HG) as [F' Hlv].
  exists sets, (<[j := U']> L). split_and!; [done|by split|done].
Qed.
End Allocator.

(** ** The waiters *)
Section Waiters.
Context `{KConfig} (policy : mem_pool_policy).
Implicit Types (pool : k_mem_pool) (L : nat -> list k_mem_pool_quad_block) (k : kernel)
  (K : toid -> Prop) (S : list (tid * (nat * Z))) (l : list tid) (t x : tid) (w : wqid).

(** [S] lists the waiters that got a block, with the block set and the address. *)
Record served w S k k' : Prop := {
  se_others w' : w' <> w -> wait_qs k' w' = wait_qs k w';
  se_ready t : t ∈ S.*1 -> wakeable k t = true -> t ∈ ready_list k';
  se_kept x : x ∈ ready_list k -> x ∈ ready_list k';
  se_current : current k' = current k;
  se_isr : in_isr k' = in_isr k;
  se_threads x : x ∉ S.*1 -> threads k' x = threads k x;
  se_result t j a : (t, (j, a)) ∈ S ->
    swap_return_value (threads k' t) = 0 /\ swap_data (threads k' t) = a
}.

(** The blocks of [S] are distinct blocks that were not in use, each the best
    fit for the request of its waiter in [k]. *)
Record granted pool L S k pool' L' : Prop := {
  gr_fit t j a : (t, (j, a)) ∈ S ->
    best_fit pool j (swap_data (threads k t)) /\ ~ in_use pool L j a /\ a <> 0;
  gr_distinct : NoDup (S.*2);
  gr_use i b : in_use pool' L' i b <-> in_use pool L i b \/ (i, b) ∈ S.*2
}.

Lemma served_nil w k : served w [] k k.
Proof. split; try done; intros *; by rewrite elem_of_nil. Qed.

Lemma granted_nil pool L k pool' L' : same_use pool L pool' L' -> granted pool L [] k pool' L'.
Proof.
  intros Hs. split; [intros *; by rewrite elem_of_nil|constructor|].
  intros i b. rewrite (Hs i b), elem_of_nil. tauto.
Qed.

Lemma elem_of_fst S t : t ∈ S.*1 <-> exists j a, (t, (j, a)) ∈ S.
Proof.
  rewrite list_elem_of_fmap. split; [intros ([t' [j a]] & -> & Hin); by exists j, a|].
  intros (j & a & Hin). by exists (t, (j, a)).
Qed.

(** A waiter is served, then others. *)
Lemma served_cons w S t l j a k k1 k' :
  handed w t l (fun th => with_swap_data a (with_return_value 0 th)) k k1 -> t ∉ S.*1 ->
  served w S k1 k' -> served w ((t, (j, a)) :: S) k k'.
Proof.
  intros Hh Hnt [B1 B2 B3 B4 B5 B6 B7]. destruct Hh as [A1 A2 A3 A4 A5 A6 A7 A8 [f A9]].
  split; rewrite ?fmap_cons; cbn [fst].
  - intros w' Hw. by rewrite B1, A2.
  - intros x [->|Hx]%elem_of_cons Hwk; [by apply B3, A3|].
    apply B2; [done|]. assert (x <> t) by (by intros ->). unfold wakeable, fbit in *. by rewrite A8.
  - auto.
  - congruence.
  - congruence.
  - intros x [Hx Hxs]%not_elem_of_cons. rewrite B6, A8 by done. done.
  - intros x i b [[= -> -> ->]|Hin]%elem_of_cons; [|by eapply B7].
    rewrite B6, A9 by done. done.
Qed.

Lemma granted_cons pool L S t j a k k1 pool1 L1 pool' L' :
  same_shape pool pool1 -> best_fit pool j (swap_data (threads k t)) ->
  newly_used pool L j a pool1 L1 -> (forall x, x ∈ S.*1 -> threads k1 x = threads k x) ->
  granted pool1 L1 S k1 pool' L' -> granted pool L ((t, (j, a)) :: S) k pool' L'.
Proof.
  intros [sets ->] Hfit (Ha & Hn & Hu) Hth [G1 G2 G3]. split.
  - intros x i b [[= -> -> ->]|Hin]%elem_of_cons; [done|].
    destruct (G1 x i b Hin) as (Hf & Hnu & Hb). rewrite Hth in Hf by (apply elem_of_fst; by exists i, b).
    split_and!; [done| |done]. intros Hin'. apply Hnu, Hu. by left.
  - rewrite fmap_cons. apply NoDup_cons. split; [|done]. intros ([x [i b]] & E & Hin)%list_elem_of_fmap.
    cbn in E. injection E as <- <-. destruct (G1 x j a Hin) as (_ & Hnu & _). apply Hnu, Hu. by right.
  - intros i b. rewrite G3, (Hu i b), fmap_cons, elem_of_cons. cbn. naive_solver.
Qed.

Lemma granted_skip pool L S k pool1 L1 pool' L' :
  same_shape pool pool1 -> same_use pool L pool1 L1 -> granted pool1 L1 S k pool' L' ->
  granted pool L S k pool' L'.
Proof.
  intros [sets ->] Hs [G1 G2 G3]. split; [|done|].
  - intros x i b Hin. destruct (G1 x i b Hin) as (? & Hnu & ?). rewrite (Hs i b) in Hnu. done.
  - intros i b. by rewrite G3, (Hs i b).
Qed.

(** More blocks in use leave a request that could not be met unmet. *)
Lemma exhausted_mono pool L pool' L' size :
  same_shape pool pool' -> (forall i b, in_use pool L i b -> in_use pool' L' i b) ->
  exhausted pool L size -> exhausted pool' L' size.
Proof.
  intros [sets ->] Hu [?|(j & Hfit & Hfull)]; [by left|right]. exists j. split; [done|].
  intros m Hm. destruct (Hfull m Hm) as (i & b & Hin & Hov). exists i, b. split; [by apply Hu|done].
Qed.

Lemma peek_next_middle l t l' : t ∉ l -> peek_next_waiter (l ++ t :: l') t = head l'.
Proof.
  induction l as [|x l IH]; intros Hn; cbn [app peek_next_waiter]; [by rewrite decide_True|].
  apply not_elem_of_cons in Hn as [? ?]. rewrite decide_False by congruence. auto.
Qed.

(** The request of a waiter. *)
Definition request_ok k t : Prop := 0 <= swap_data (threads k t) <= MAX_REQUEST.

(** What examining the waiters [l] does. *)
Definition examined K pool L l k pool' L' k' S : Prop :=
  running K k' /\ same_shape pool pool' /\ pool_ok pool' L' /\
  (forall t, t ∈ S.*1 -> t ∈ l) /\ served (wait_q pool) S k k' /\ granted pool L S k pool' L' /\
  (policy <> SPLIT_ONLY -> forall t, t ∈ l -> t ∉ S.*1 ->
     exhausted pool' L' (swap_data (threads k t))).

Lemma examined_served K pool L t l j a k k1 pool1 L1 pool' L' k' S q :
  same_shape pool pool1 -> best_fit pool j (swap_data (threads k t)) ->
  newly_used pool L j a pool1 L1 -> t ∉ l ->
  handed (wait_q pool) t q (fun th => with_swap_data a (with_return_value 0 th)) k k1 ->
  examined K pool1 L1 l k1 pool' L' k' S ->
  examined K pool L (t :: l) k pool' L' k' ((t, (j, a)) :: S).
Proof.
  intros Hsh Hfit Hnew Hnt Hh (Hru & Hsh' & Hok & Hsub & Hse & Hgr & Hex).
  assert (t ∉ S.*1) as HtS by (intros ?%Hsub; done).
  assert (Ew : wait_q pool1 = wait_q pool) by (by destruct Hsh as [? ->]). rewrite Ew in Hse.
  split_and!; [done|by eapply same_shape_trans|done|..].
  - intros x. rewrite fmap_cons. cbn [fst]. rewrite !elem_of_cons. intros [->|?]; [by left|right; auto].
  - by eapply served_cons.
  - eapply granted_cons; [done..| |done]. intros x Hx. apply (ha_threads _ _ _ _ _ _ Hh). by intros ->.
  - intros Hp x [->|Hx]%elem_of_cons; rewrite fmap_cons; cbn [fst]; rewrite not_elem_of_cons;
      [intros [Hne _]; by destruct Hne|]. intros [Hne HxS].
    rewrite <- (ha_threads _ _ _ _ _ _ Hh) by done. auto.
Qed.

Lemma examined_unserved K pool L t l k pool1 L1 pool' L' k' S :
  same_shape pool pool1 -> same_use pool L pool1 L1 ->
  (policy <> SPLIT_ONLY -> exhausted pool1 L1 (swap_data (threads k t))) ->
  examined K pool1 L1 l k pool' L' k' S -> examined K pool L (t :: l) k pool' L' k' S.
Proof.
  intros Hsh Hu Ht (Hru & Hsh' & Hok & Hsub & Hse & Hgr & Hex).
  assert (Ew : wait_q pool1 = wait_q pool) by (by destruct Hsh as [? ->]). rewrite Ew in Hse.
  split_and!; [done|by eapply same_shape_trans|done|..].
  - intros x Hx. apply elem_of_cons. auto.
  - done.
  - by eapply granted_skip.
  - intros Hp x [->|Hx]%elem_of_cons Hn; [|auto]. eapply exhausted_mono; [done| |by apply Ht].
    intros i b Hb. apply (gr_use _ _ _ _ _ _ Hgr). by left.
Qed.

Lemma filter_left_served t l S j a :
  t ∉ l -> filter (fun x => x ∉ S.*1) l = filter (fun x => x ∉ ((t, (j, a)) :: S).*1) (t :: l).
Proof.
  intros Hn. rewrite filter_cons_False by (rewrite fmap_cons; intros Hx; apply Hx, elem_of_cons; by left).
  induction l as [|x l IH]; [done|]. apply not_elem_of_cons in Hn as [Hne Hn].
  destruct (decide (x ∈ S.*1)) as [Hin|Hin].
  - rewrite !filter_cons_False; [auto| |by intros ?].
    intros Hx. apply Hx. rewrite fmap_cons. apply elem_of_cons. by right.
  - rewrite !filter_cons_True; [f_equal; auto| |done].
    rewrite fmap_cons. apply not_elem_of_cons. split; [by apply not_eq_sym|done].
Qed.

Lemma waiters_loop_ok K l kept pool L k :
  running K k -> pool_ok pool L -> wait_qs k (wait_q pool) = kept ++ l ->
  (forall t, t ∈ l -> request_ok k t) ->
  exists pool' L' k' S, waiters_loop policy (length l) (head l) pool k = Some (pool', k') /\
    examined K pool L l k pool' L' k' S /\
    wait_qs k' (wait_q pool) = kept ++ filter (fun t => t ∉ S.*1) l.
Proof.
  revert kept pool L k. induction l as [|t l IH]; intros kept pool L k Hru Hok Hq Hreq.
  { exists pool, L, k, []. split_and!; [done| |done]. split_and!; [done|apply same_shape_refl|done|..].
    - by intros t ?%elem_of_nil.
    - apply served_nil.
    - apply granted_nil. by intros i b.
    - by intros _ t ?%elem_of_nil. }
  assert (t ∈ wait_qs k (wait_q pool)) as Htq by (rewrite Hq; set_solver).
  pose proof (kw_wq_nodup K None k (ru_wf K k Hru) (wait_q pool)) as Hnd. rewrite Hq in Hnd.
  apply NoDup_app in Hnd as (_ & Hdis & [Hntl _]%NoDup_cons).
  assert (t ∉ kept) as Hnk by (intros Hin; apply (Hdis t Hin), elem_of_cons; by left).
  assert (request_ok k t) as Ht by (apply Hreq, elem_of_cons; by left).
  cbn [length head waiters_loop]. rewrite u32_small by (unfold request_ok, MAX_REQUEST, UINT32_MAX in *; lia).
  destruct (get_block_gave policy pool L _ Hok Ht) as (offset & a & pool1 & L1 & -> & Eg & Hsh & Hok1 & Hc).
  cbn [mbind option_bind]. rewrite Eg. cbn [mbind option_bind].
  assert (wait_q pool1 = wait_q pool) as Ew by (by destruct Hsh as [? ->]).
  rewrite Ew, Hq, peek_next_middle by done.
  destruct (decide (a = 0)) as [->|Ha].
  - destruct Hc as [Hu Hex]. cbn [Z.eqb negb mbind option_bind].
    destruct (IH (kept ++ [t]) pool1 L1 k) as (pool' & L' & k' & S & -> & Hexam & Eq'); [done|done| | |].
    + rewrite Ew, Hq, <- app_assoc. done.
    + intros x Hx. apply Hreq, elem_of_cons. by right.
    + assert (t ∉ S.*1) as HtS by (destruct Hexam as (_ & _ & _ & Hsub & _); intros ?%Hsub; done).
      exists pool', L', k', S. split_and!; [done|by eapply examined_unserved|].
      rewrite Ew in Eq'. by rewrite Eq', filter_cons_True, <- app_assoc.
  - destruct Hc as (j & Hfit & Hnew). rewrite (proj2 (Z.eqb_neq _ _) Ha). cbn [negb].
    destruct (hand_waiter K k (wait_q pool) t _ Hru Htq (with_data_setter 0 a))
      as (k1 & k2 & E1 & E2 & Hru2 & Hh).
    unfold _set_thread_return_value_with_data. rewrite E1. cbn [mbind option_bind].
    unfold wake in E2. destruct (_abort_thread_timeout t k1) as [r ka]. rewrite E2. cbn [mbind option_bind].
    destruct (IH kept pool1 L1 k2) as (pool' & L' & k' & S & -> & Hexam & Eq'); [done|done| | |].
    + rewrite Ew, (ha_queue _ _ _ _ _ _ Hh), Hq. by apply remove_node_mid.
    + intros x Hx. unfold request_ok. rewrite (ha_threads _ _ _ _ _ _ Hh) by (by intros ->).
      apply Hreq, elem_of_cons. by right.
    + assert (t ∉ S.*1) as HtS by (destruct Hexam as (_ & _ & _ & Hsub & _); intros ?%Hsub; done).
      exists pool', L', k', ((t, (j, a)) :: S). split_and!; [done|by eapply examined_served|].
      rewrite Ew in Eq'. rewrite Eq'. f_equal. by apply filter_left_served.
Qed.
End Waiters.

(** ** The services *)
Section Promises.
Context `{KConfig} (policy : mem_pool_policy).
Implicit Types (pools : poolid -> k_mem_pool) (L : nat -> list k_mem_pool_quad_block) (k : kernel)
  (K : toid -> Prop) (S : list (tid * (nat * Z))) (p : poolid).

(** The pool's arrays are in order, and so is every pending request. *)
Definition pool_inv p pools L k : Prop :=
  pool_ok (pools p) L /\ forall t, t ∈ wait_qs k (wait_q (pools p)) -> request_ok k t.

(** What the end of a service leaves of a kernel in which [S] was served. *)
Record services w S k k' : Prop := {
  sr_queue : wait_qs k' w = filter (fun t => t ∉ S.*1) (wait_qs k w);
  sr_others w' : w' <> w -> wait_qs k' w' = wait_qs k w';
  sr_ready t : t ∈ S.*1 -> wakeable k t = true -> t ∈ ready_list k';
  sr_kept x : x ∈ ready_list k -> x ∈ ready_list k';
  sr_threads x : x ∉ S.*1 -> x <> current k -> threads k' x = threads k x;
  sr_result t j a : (t, (j, a)) ∈ S ->
    swap_return_value (threads k' t) = 0 /\ swap_data (threads k' t) = a;
  sr_preempt : no_more_urgent k'
}.

(** Examining the waiters under the lock, then unlocking. *)
Lemma check_and_unlock K pool L k :
  running K k -> may_lock k -> pool_ok pool L ->
  (forall t, t ∈ wait_qs k (wait_q pool) -> request_ok k t) ->
  exists pool' L' k1 k' S, block_waiters_check policy pool (_sched_lock k) = Some (pool', k1) /\
    k_sched_unlock k1 = Some k' /\ running K k' /\ same_shape pool pool' /\ pool_ok pool' L' /\
    services (wait_q pool) S k k' /\ granted pool L S k pool' L' /\
    (forall t, t ∈ S.*1 -> t ∈ wait_qs k (wait_q pool)) /\
    (policy <> SPLIT_ONLY -> forall t, t ∈ wait_qs k' (wait_q pool) ->
       exhausted pool' L' (swap_data (threads k t))).
Proof.
  intros Hru Hlk Hok Hreq. pose proof (lock_running K k Hru) as Hru0. set (k0 := _sched_lock k) in *.
  assert (Hnc : forall t, t ∈ wait_qs k (wait_q pool) -> threads k0 t = threads k t).
  { intros t Ht. apply lock_threads. by eapply waiter_not_current. }
  destruct (waiters_loop_ok policy K (wait_qs k0 (wait_q pool)) [] pool L k0 Hru0 Hok eq_refl)
    as (pool' & L' & k1 & S & E1 & (Hru1 & Hsh & Hok' & Hsub & Hse & Hgr & Hex) & Hq).
  { intros t Ht. unfold request_ok. rewrite Hnc by done. by apply Hreq. }
  assert (current k ∉ S.*1) as HcS.
  { intros Hin%Hsub. by apply (waiter_not_current K k (wait_q pool) (current k) Hru Hin). }
  destruct Hse as [B1 B2 B3 B4 B5 B6 B7].
  assert (in_isr k1 = false) as Hi1 by (rewrite B5; apply Hlk).
  assert (0 < sched_locked (threads k1 (current k1))) as Hl1.
  { apply (lock_held k k1 Hlk); [done|]. by apply B6. }
  destruct (sched_unlock_done K k1 Hru1 Hi1 Hl1) as (k2 & E2 & Hru2 & Hsq & Hnu & Ht2).
  assert (Hc1 : current k1 = current k) by done. rewrite Hc1 in Ht2.
  assert (Ew : forall w, wait_qs k2 w = wait_qs k1 w) by (intros; by rewrite (sq_wait_qs _ _ Hsq)).
  assert (El : ready_list k2 = ready_list k1) by (by rewrite (same_queues_ready _ _ Hsq)).
  exists pool', L', k1, k2, S. split_and!; try done.
  - split; try done.
    + by rewrite Ew.
    + intros w' Hw. by rewrite Ew, B1.
    + intros t Ht Hwk. rewrite El. apply B2; [done|]. unfold wakeable, fbit in *.
      by rewrite Hnc by (by apply Hsub).
    + intros x Hx. rewrite El. by apply B3.
    + intros x Hx Hxc. rewrite Ht2, B6 by done. by apply lock_threads.
    + intros t j a Hin. rewrite Ht2; [by eapply B7|]. intros ->. apply HcS, elem_of_fst. by exists j, a.
  - destruct Hgr as [G1 G2 G3]. split; [|done|done]. intros t j a Hin.
    rewrite <- Hnc by (apply Hsub, elem_of_fst; by exists j, a). by apply G1.
  - intros Hp t. rewrite Ew, Hq. cbn [app]. intros [HtS Ht]%list_elem_of_filter.
    rewrite <- Hnc by done. by apply Hex.
Qed.

(** The requests left are those of threads that did not move. *)
Lemma services_requests K pool k k' S :
  running K k -> (forall t, t ∈ wait_qs k (wait_q pool) -> request_ok k t) ->
  services (wait_q pool) S k k' ->
  forall t, t ∈ wait_qs k' (wait_q pool) -> request_ok k' t.
Proof.
  intros Hru Hreq [A1 _ _ _ A5 _ _] t. rewrite A1. intros [HtS Ht]%list_elem_of_filter.
  unfold request_ok. rewrite A5; [by apply Hreq|done|by eapply waiter_not_current].
Qed.

(** Defragmenting a pool succeeds, changes no block in use, and then serves
    every waiter for which a block of its best-fitting size can now be had: each
    gets return value 0 and a block of its own that was not in use, and leaves
    the queue; under the merging policies, a waiter is left only if every place
    for its request overlaps a block in use. *)
Theorem pool_defrag_correct K p pools L k :
  running K k -> may_lock k -> pool_inv p pools L k ->
  exists pools' L' k' S, k_mem_pool_defrag policy p pools k = Some (pools', k') /\ running K k' /\
    pool_inv p pools' L' k' /\ services (wait_q (pools p)) S k k' /\
    granted (pools p) L S k (pools' p) L' /\
    (policy <> SPLIT_ONLY -> forall t, t ∈ wait_qs k' (wait_q (pools p)) ->
       exhausted (pools' p) L' (swap_data (threads k t))).
Proof.
  intros Hru Hlk [Hok Hreq]. destruct (defrag_pool_ok _ _ Hok) as (sets & L1 & E & Hok1 & Hu).
  set (pool := with_sets sets (pools p)) in *.
  destruct (check_and_unlock K pool L1 k Hru Hlk Hok1 Hreq)
    as (pool' & L' & k1 & k' & S & E1 & E2 & Hru' & Hsh & Hok' & Hsr & Hgr & _ & Hex).
  exists (<[p := pool']> pools), L', k', S. unfold k_mem_pool_defrag. rewrite E. cbn [mbind option_bind].
  fold pool. rewrite E1. cbn [mbind option_bind]. rewrite E2. cbn [mbind option_bind].
  rewrite fn_lookup_insert. split_and!; [done|done| |done| |done].
  - split; rewrite fn_lookup_insert; [done|]. destruct Hsh as [? ->].
    apply (services_requests K pool k k' S Hru Hreq Hsr).
  - eapply granted_skip; [by exists sets|done|done].
Qed.

Lemma alloc_ok K p size ms pools L k :
  running K k -> may_lock k -> pool_inv p pools L k -> 0 <= size <= MAX_REQUEST ->
  current k <> _idle_thread -> timeout_ok ms ->
  exists r pools' L' k', k_mem_pool_alloc policy p size ms pools k = Some (r, pools', k') /\
    running K k' /\ pool_inv p pools' L' k' /\
    same_shape (pools p) (pools' p) /\ (forall p', p' <> p -> pools' p' = pools p') /\
    ((exists j a, r = Returns (0, Some (mk_block p a a size)) /\ best_fit (pools p) j size /\
        newly_used (pools p) L j a (pools' p) L' /\ apart (pools p) L j a /\
        (forall w, wait_qs k' w = wait_qs k w)) \/
     (same_use (pools p) L (pools' p) L' /\
      (policy <> SPLIT_ONLY -> exhausted (pools' p) L' size) /\
      if ms =? K_NO_WAIT
      then r = Returns (- ENOMEM, None) /\ (forall w, wait_qs k' w = wait_qs k w)
      else r = Blocks /\ blocked (wait_q (pools p)) ms k k' /\
           swap_data (threads k' (current k)) = size)).
Proof.
  intros Hru Hlk [Hok Hreq] Hs Hid Hms.
  destruct (get_block_gave policy _ L size Hok Hs)
    as (offset & a & pool' & L' & E1 & E2 & Hsh & Hok' & Hc).
  unfold k_mem_pool_alloc. rewrite E1. cbn [mbind option_bind]. rewrite E2. cbn [mbind option_bind].
  assert (wait_q pool' = wait_q (pools p)) as Ew by (by destruct Hsh as [? ->]).
  assert (Hpools : same_shape (pools p) (<[p := pool']> pools p) /\
    forall p', p' <> p -> <[p := pool']> pools p' = pools p')
    by (rewrite fn_lookup_insert; split; [done|intros; by apply fn_lookup_insert_ne]).
  destruct Hpools as [Hsh' Hpools].
  destruct (sched_unlock_done K (_sched_lock k) (lock_running K k Hru) ltac:(apply Hlk))
    as (k' & Eu & Hru' & Hsq & _ & Hth); [by apply (lock_held k)|].
  assert (Hw : forall w, wait_qs k' w = wait_qs k w) by (intros; by rewrite (sq_wait_qs _ _ Hsq)).
  assert (Hinv : pool_inv p (<[p := pool']> pools) L' k').
  { split; rewrite fn_lookup_insert; [done|]. rewrite Ew. intros t. rewrite Hw. intros Ht.
    unfold request_ok. assert (t <> current k) by (by eapply waiter_not_current).
    rewrite Hth, lock_threads by done. by apply Hreq. }
  destruct (decide (a = 0)) as [->|Ha].
  - destruct Hc as [Hu Hex]. cbn [Z.eqb negb].
    destruct (Z.eqb_spec ms K_NO_WAIT) as [Em|Em]; cbn [negb].
    + rewrite Eu. cbn [mbind option_bind]. eexists _, _, L', k'. split; [done|].
      split_and!; [done..|]. right. rewrite fn_lookup_insert. by split_and!.
    + set (k1 := _sched_unlock_no_reschedule (_sched_lock k)).
      assert (running K k1) as Hru1 by (by apply (running_sched_locked K (_sched_lock k)), lock_running).
      destruct (block_after_upd K k1 (wait_q pool') ms (with_swap_data size) Hru1 Hid Hms ltac:(done))
        as (k2 & E & Hru2 & Hb & Hd).
      unfold block_current in E. destruct (_pend_current_thread _ _ _) as [k3|]; [|done].
      cbn [mbind option_bind] in *. rewrite E. cbn [mbind option_bind].
      change (swap_data (threads k2 (current k)) = size) in Hd.
      assert (blocked (wait_q (pools p)) ms k k2) as Hbk.
      { rewrite Ew in Hb. do 2 (eapply blocked_upd_before in Hb; [|done]). done. }
      eexists _, _, L', k2. split; [done|]. split_and!; [done| |done|done|].
      * split; rewrite fn_lookup_insert; [done|]. rewrite Ew. intros t.
        rewrite (bl_wait_q _ _ _ _ Hbk), elem_of_prio_insert. unfold request_ok.
        destruct (decide (t = current k)) as [->|Hne]; [by rewrite Hd|].
        intros [?|Ht]; [done|]. rewrite (bl_threads _ _ _ _ Hbk) by done. by apply Hreq.
      * right. rewrite fn_lookup_insert. by split_and!.
  - destruct Hc as (j & Hfit & Hnew). rewrite (proj2 (Z.eqb_neq _ _) Ha). cbn [negb].
    rewrite Eu. cbn [mbind option_bind]. eexists _, _, L', k'. split; [done|].
    split_and!; [done..|]. left. exists j, a. rewrite fn_lookup_insert. split_and!; [done..| |done].
    exact (newly_used_apart _ _ _ _ _ _ Hsh Hok' Hnew).
Qed.

(** C24: a request of at most 2^29 bytes to a pool, for which the [int] arithmetic
    of the search does not overflow, gets a block of the best-fitting size that was
    not in use and now is, inside the buffer and apart from every block in use, or
    none. With none, the call fails with -ENOMEM, or waits with its request. Under
    the policies that merge blocks that happens only if the request exceeds the
    largest blocks or every place for the block overlaps a block in use; under
    SPLIT_ONLY, which does not merge, it may happen earlier. No other block changes
    hands. *)
Theorem pool_alloc_correct K p size ms pools L k :
  running K k -> may_lock k -> pool_inv p pools L k -> 0 <= size <= MAX_REQUEST ->
  current k <> _idle_thread -> timeout_ok ms ->
  exists r pools' L' k', k_mem_pool_alloc policy p size ms pools k = Some (r, pools', k') /\
    running K k' /\ pool_inv p pools' L' k' /\
    same_shape (pools p) (pools' p) /\ (forall p', p' <> p -> pools' p' = pools p') /\
    ((exists j a, r = Returns (0, Some (mk_block p a a size)) /\ best_fit (pools p) j size /\
        newly_used (pools p) L j a (pools' p) L' /\ apart (pools p) L j a /\
        (forall w, wait_qs k' w = wait_qs k w)) \/
     (same_use (pools p) L (pools' p) L' /\
      (policy <> SPLIT_ONLY -> exhausted (pools' p) L' size) /\
      if ms =? K_NO_WAIT
      then r = Returns (- ENOMEM, None) /\ (forall w, wait_qs k' w = wait_qs k w)
      else r = Blocks /\ blocked (wait_q (pools p)) ms k k' /\
           swap_data (threads k' (current k)) = size)).
Proof. apply alloc_ok. Qed.

(** [S] was served from the pool after block [a] of set [j] was given back. *)
Definition recycled pool L (j : nat) (a : Z) S k pool' L' : Prop :=
  (forall i b, in_use pool' L' i b <-> (in_use pool L i b /\ ~ (i = j /\ b = a)) \/ (i, b) ∈ S.*2) /\
  NoDup (S.*2) /\
  (forall t i b, (t, (i, b)) ∈ S -> best_fit pool i (swap_data (threads k t))).

Lemma free_ok K block j pools L k :
  let p := pool_id block in
  running K k -> may_lock k -> pool_inv p pools L k ->
  in_use (pools p) L j (addr_in_pool block) -> best_fit (pools p) j (req_size block) ->
  0 <= req_size block <= MAX_REQUEST ->
  exists pools' L' k' S, k_mem_pool_free policy block pools k = Some (pools', k') /\ running K k' /\
    pool_inv p pools' L' k' /\ services (wait_q (pools p)) S k k' /\
    recycled (pools p) L j (addr_in_pool block) S k (pools' p) L' /\
    (forall t, t ∈ S.*1 -> t ∈ wait_qs k (wait_q (pools p))) /\
    (policy <> SPLIT_ONLY -> forall t, t ∈ wait_qs k' (wait_q (pools p)) ->
       exhausted (pools' p) L' (swap_data (threads k t))).
Proof.
  cbn zeta. set (p := pool_id block). set (a := addr_in_pool block).
  intros Hru Hlk [Hok Hreq] Hin Hfit Hs.
  destruct (index_best_fit _ L _ Hok Hs) as (offset & E & [[_ Hbig]|[H0 Hfit']]).
  { destruct Hfit as (Hj & Hle & _). destruct j as [|j]; [lia|].
    pose proof (size_of_mono (pools p) L 0 (Datatypes.S j) Hok ltac:(lia)). lia. }
  pose proof (best_fit_unique _ L _ _ _ Hok Hfit Hfit') as Ej.
  destruct (free_pool_ok _ _ _ _ Hok Hin) as (sets & L1 & Ef & Hok1 & Hu).
  set (pool := with_sets sets (pools p)) in *.
  destruct (check_and_unlock K pool L1 k Hru Hlk Hok1 Hreq)
    as (pool' & L' & k1 & k' & S & E1 & E2 & Hru' & Hsh & Hok' & Hsr & Hgr & Hsub & Hex).
  exists (<[p := pool']> pools), L', k', S. unfold k_mem_pool_free. fold p. rewrite E.
  cbn [mbind option_bind]. rewrite (proj2 (Z.ltb_ge _ _) H0), <- Ej. fold a. rewrite Ef.
  cbn [mbind option_bind]. fold pool. rewrite E1. cbn [mbind option_bind]. rewrite E2.
  cbn [mbind option_bind]. rewrite fn_lookup_insert. destruct Hgr as [G1 G2 G3].
  split_and!; [done|done| |done| |done|done].
  - split; rewrite fn_lookup_insert; [done|]. destruct Hsh as [? ->].
    apply (services_requests K pool k k' S Hru Hreq Hsr).
  - split_and!; [|done|].
    + intros i b. by rewrite G3, Hu.
    + intros t i b Ht. by destruct (G1 t i b Ht).
Qed.

(** C25: freeing a block that is in use, with the size it was requested for,
    succeeds: the block is in use no more unless a waiter gets it, every waiter
    that can be served gets a block of its own with return value 0 and is
    readied, and under the merging policies those left waiting could not be
    served; all other blocks stay in use. *)
Theorem pool_free_correct K block j pools L k :
  let p := pool_id block in
  running K k -> may_lock k -> pool_inv p pools L k ->
  in_use (pools p) L j (addr_in_pool block) -> best_fit (pools p) j (req_size block) ->
  0 <= req_size block <= MAX_REQUEST ->
  exists pools' L' k' S, k_mem_pool_free policy block pools k = Some (pools', k') /\ running K k' /\
    pool_inv p pools' L' k' /\ services (wait_q (pools p)) S k k' /\
    recycled (pools p) L j (addr_in_pool block) S k (pools' p) L' /\
    (forall t, t ∈ S.*1 -> t ∈ wait_qs k (wait_q (pools p))) /\
    (policy <> SPLIT_ONLY -> forall t, t ∈ wait_qs k' (wait_q (pools p)) ->
       exhausted (pools' p) L' (swap_data (threads k t))).
Proof. apply free_ok. Qed.

(** [k_malloc] and [k_free] are inverse. [k_malloc] gives null, or a pointer
    behind the descriptor at the start of a block that was not in use and holds
    the descriptor and [size] bytes; null only, under the merging policies, when
    no place is left. Freeing that pointer later, from any thread, with the
    memory as it was left, makes the blocks in use the ones before. *)
Theorem malloc_free_roundtrip K heap size pools L mem k :
  running K k -> may_lock k -> pool_inv heap pools L k -> current k <> _idle_thread ->
  0 <= size -> size + SIZEOF_BLOCK <= MAX_REQUEST ->
  exists ptr pools1 L1 mem1 k1, k_malloc policy heap size pools mem k = Some (ptr, pools1, mem1, k1) /\
    running K k1 /\ pool_inv heap pools1 L1 k1 /\
    ((ptr = 0 /\ same_use (pools heap) L (pools1 heap) L1 /\
      (policy <> SPLIT_ONLY -> exhausted (pools1 heap) L1 (size + SIZEOF_BLOCK))) \/
     (exists j, size + SIZEOF_BLOCK <= size_of (pools1 heap) j /\ ptr <> 0 /\
        newly_used (pools heap) L j (ptr - SIZEOF_BLOCK) (pools1 heap) L1 /\
        forall k2, running K k2 -> may_lock k2 -> wait_qs k2 (wait_q (pools1 heap)) = [] ->
        exists pools2 L2 k3, k_free policy ptr pools1 mem1 k2 = Some (pools2, k3) /\ running K k3 /\
          pool_inv heap pools2 L2 k3 /\ same_use (pools heap) L (pools2 heap) L2)).
Proof.
  intros Hru Hlk Hinv Hid Hs Hmax. unfold SIZEOF_BLOCK in *. unfold k_malloc, SIZEOF_BLOCK.
  rewrite u32_small by (unfold MAX_REQUEST, UINT32_MAX in *; lia).
  destruct (alloc_ok K heap (size + 16) K_NO_WAIT pools L k Hru Hlk Hinv ltac:(lia) Hid)
    as (r & pools1 & L1 & k1 & -> & Hru1 & Hinv1 & Hsh & _ & Hc).
  { right. vm_compute. intuition discriminate. }
  cbn [mbind option_bind]. destruct Hc as [(j & a & -> & Hfit & Hnew & _ & _)|(Hu & Hex & Hr)].
  - eexists _, pools1, L1, _, k1. split; [done|]. split_and!; [done|done|]. right. exists j.
    cbn [data]. rewrite Z.add_simpl_r.
    assert (best_fit (pools1 heap) j (size + 16)) as Hfit1 by (by destruct Hsh as [? ->]).
    pose proof Hnew as (_ & _ & Hu). assert (in_use (pools1 heap) L1 j a) as Hin by (apply Hu; by right).
    assert (0 < a) as Ha.
    { pose proof Hinv1 as [[D _ F _] _]. pose proof (live_inside _ _ _ _ D L1 j a F Hin).
      pose proof (di_buf _ _ _ _ D). lia. }
    split_and!; [by apply Hfit1|lia|done|]. intros k2 Hru2 Hlk2 Hq2.
    unfold k_free, SIZEOF_BLOCK. rewrite (proj2 (Z.eqb_neq _ _)) by lia.
    cbn [negb]. rewrite Z.add_simpl_r, fn_lookup_insert.
    destruct (free_ok K (mk_block heap a a (size + 16)) j pools1 L1 k2 Hru2 Hlk2)
      as (pools2 & L2 & k3 & S & -> & Hru3 & Hinv3 & _ & (Hu2 & _ & _) & Hsub & _);
      cbn [pool_id addr_in_pool req_size] in *; [|done|done|lia|].
    + split; [apply Hinv1|]. intros t. rewrite Hq2. by intros ?%elem_of_nil.
    + exists pools2, L2, k3. split_and!; [done..|]. intros i b. rewrite Hu2, Hu.
      assert (S = []) as ->.
      { destruct S as [|[t [i' b']] S]; [done|]. rewrite Hq2 in Hsub.
        pose proof (Hsub t) as Ht. rewrite elem_of_nil in Ht. destruct Ht. rewrite fmap_cons.
        apply elem_of_cons. by left. }
      destruct Hnew as (_ & Hnu & _). cbn. rewrite elem_of_nil. naive_solver.
  - rewrite Z.eqb_refl in Hr. destruct Hr as [-> _].
    eexists _, pools1, L1, _, k1. split; [done|]. split_and!; [done|done|]. by left.
Qed.
End Promises.

Section Initialisation.

(** A pool defined by K_MEM_POOL_DEFINE, its largest blocks 4^d times its
    smallest, is initialised to a well-formed pool in which no block is in use,
    with [d] + 1 block sets and an empty wait queue. *)
Theorem pool_init_correct d min nmax buf wq k :
  0 < min -> 0 < nmax -> 0 < buf -> (d <= 16)%nat -> min * 4 ^ Z.of_nat d <= MAX_REQUEST ->
  let pool := K_MEM_POOL_DEFINE min (min * 4 ^ Z.of_nat d) nmax buf wq in
  exists pool' L k', init_one_memory_pool pool k = Some (pool', k') /\
    pool_ok pool' L /\ (forall j a, ~ in_use pool' L j a) /\
    wait_qs k' (wait_q pool') = [] /\ nr_of_block_sets pool' = Z.of_nat d + 1.
Proof.
  intros H1 H2 H3 H4 H5. cbn zeta.
  destruct (pool_init d min nmax buf wq k H1 H2 H3 H4 H5)
    as (pool' & L & E & Hok & Hu & _ & Ew & _ & En).
  exists pool', L, (upd_wait_q wq [] k). split_and!; [done..| |done].
  rewrite Ew. cbn. by rewrite fn_lookup_insert.
Qed.
End Initialisation.

Section Witnesses.
Definition demo_pool : k_mem_pool := K_MEM_POOL_DEFINE 16 256 2 1000 60%positive.

Lemma pool_init_correct_witness :
  exists pool' L k', init_one_memory_pool demo_pool booted = Some (pool', k') /\ pool_ok pool' L /\
    nr_of_block_sets pool' = 3.
Proof.
  destruct (pool_init_correct 2 16 2 1000 60%positive booted) as (pool' & L & k' & E & Hok & _ & _ & En);
    [lia|lia|lia|lia|vm_compute; discriminate|].
  exists pool', L, k'. split; [exact E|split; [exact Hok|exact En]].
Defined.

(** A pool with nothing in use, and nobody waiting. *)
Lemma demo_inv :
  exists pools L, pool_inv 1%positive pools L unlocked /\
    (forall j a, ~ in_use (pools 1%positive) L j a) /\ size_of (pools 1%positive) 0 = 256 /\
    nr_of_maxblocks (pools 1%positive) = 2 /\ nr_sets (pools 1%positive) = 3%nat.
Proof.
  destruct unlocked_ok as (_ & _ & Ew & _).
  destruct (pool_init 2 16 2 1000 60%positive unlocked) as (pool & L & _ & Hok & Hu & [sets ->] & _);
    [lia|lia|lia|lia|vm_compute; discriminate|].
  exists (fun _ => with_sets sets (K_MEM_POOL_DEFINE 16 (16 * 4 ^ Z.of_nat 2) 2 1000 60%positive)), L.
  split; [|split; [exact Hu|split; [|split]; vm_compute; reflexivity]].
  split; [exact Hok|]. intros t. rewrite Ew. by intros ?%elem_of_nil.
Qed.

(** An empty pool cannot be exhausted for a request it can hold. *)
Lemma empty_not_exhausted pool L size :
  pool_ok pool L -> (forall j a, ~ in_use pool L j a) -> 0 <= size <= size_of pool 0 ->
  ~ exhausted pool L size.
Proof.
  intros Hok Hn Hs [?|(j & _ & Hfull)]; [lia|].
  destruct (Hfull 0) as (i & b & Hin & _); [|by apply (Hn i b)].
  pose proof (di_max _ _ _ _ (po_dims _ _ Hok)).
  assert (0 < 4 ^ Z.of_nat j) by (apply Z.pow_pos_nonneg; lia). nia.
Qed.

Lemma pool_alloc_correct_witness :
  exists pools a pools' k', k_mem_pool_alloc SPLIT_BEFORE_DEFRAG 1%positive 20 K_NO_WAIT pools unlocked =
    Some (Returns (0, Some (mk_block 1%positive a a 20)), pools', k').
Proof.
  destruct demo_inv as (pools & L & Hinv & Hn & Esz & _).
  destruct unlocked_ok as (Hru & Hlk & _ & Hid).
  destruct (pool_alloc_correct SPLIT_BEFORE_DEFRAG boot_threads 1%positive 20 K_NO_WAIT pools L unlocked
    Hru Hlk Hinv ltac:(vm_compute; intuition discriminate) Hid no_wait_ok)
    as (r & pools' & L' & k' & E & _ & [Hok' _] & Hsh & _ & Hc).
  destruct Hc as [(j & a & -> & _)|(Hu & Hex & _)].
  - exists pools, a, pools', k'. exact E.
  - exfalso. apply (empty_not_exhausted (pools' 1%positive) L' 20 Hok').
    + intros j a Hin. apply (Hn j a). by apply (Hu j a).
    + destruct Hsh as [sets ->]. change (size_of (with_sets sets (pools 1%positive)) 0)
        with (size_of (pools 1%positive) 0). rewrite Esz. lia.
    + apply Hex. discriminate.
Defined.

Lemma pool_defrag_correct_witness :
  exists pools pools' k', k_mem_pool_defrag SPLIT_ONLY 1%positive pools unlocked = Some (pools', k').
Proof.
  destruct demo_inv as (pools & L & Hinv & _). destruct unlocked_ok as (Hru & Hlk & _).
  destruct (pool_defrag_correct SPLIT_ONLY boot_threads 1%positive pools L unlocked Hru Hlk Hinv)
    as (pools' & L' & k' & S & E & _).
  exists pools, pools', k'. exact E.
Defined.

(** Pools with a block of 20 bytes in use. *)
Lemma demo_block :
  exists pools L j a, pool_inv 1%positive pools L unlocked /\ in_use (pools 1%positive) L j a /\
    best_fit (pools 1%positive) j 20.
Proof.
  destruct demo_inv as (pools & L & Hinv & Hn & Esz & _).
  destruct unlocked_ok as (Hru & Hlk & Ew & Hid).
  destruct (alloc_ok SPLIT_BEFORE_DEFRAG boot_threads 1%positive 20 K_NO_WAIT pools L unlocked
    Hru Hlk Hinv ltac:(vm_compute; intuition discriminate) Hid no_wait_ok)
    as (r & pools' & L' & k' & E & _ & [Hok' _] & Hsh & _ & Hc).
  destruct Hc as [(j & a & _ & Hfit & (_ & _ & Hu) & _)|(Hu & Hex & _)].
  - exists pools', L', j, a. split; [|split].
    + split; [done|]. intros t. rewrite Ew. by intros ?%elem_of_nil.
    + apply Hu. by right.
    + by destruct Hsh as [sets ->].
  - exfalso. apply (empty_not_exhausted (pools' 1%positive) L' 20 Hok').
    + intros j a Hin. apply (Hn j a). by apply (Hu j a).
    + destruct Hsh as [sets ->]. change (size_of (with_sets sets (pools 1%positive)) 0)
        with (size_of (pools 1%positive) 0). rewrite Esz. lia.
    + by apply Hex.
Qed.

Lemma pool_free_correct_witness :
  exists pools a pools' k',
    k_mem_pool_free SPLIT_BEFORE_DEFRAG (mk_block 1%positive a a 20) pools unlocked = Some (pools', k').
Proof.
  destruct demo_block as (pools & L & j & a & Hinv & Hin & Hfit). destruct unlocked_ok as (Hru & Hlk & _).
  destruct (pool_free_correct SPLIT_BEFORE_DEFRAG boot_threads (mk_block 1%positive a a 20) j pools L
    unlocked Hru Hlk Hinv Hin Hfit ltac:(vm_compute; intuition discriminate))
    as (pools' & L' & k' & S & E & _).
  exists pools, a, pools', k'. exact E.
Defined.

Lemma malloc_free_roundtrip_witness :
  exists pools mem r, k_malloc DEFRAG_BEFORE_SPLIT 1%positive 20 pools mem unlocked = Some r.
Proof.
  destruct demo_inv as (pools & L & Hinv & _). destruct unlocked_ok as (Hru & Hlk & _ & Hid).
  destruct (malloc_free_roundtrip DEFRAG_BEFORE_SPLIT boot_threads 1%positive 20 pools L
    (fun _ => mk_block 1%positive 0 0 0) unlocked Hru Hlk Hinv Hid ltac:(lia)
    ltac:(vm_compute; discriminate)) as (ptr & pools1 & L1 & mem1 & k1 & E & _).
  exists pools, (fun _ => mk_block 1%positive 0 0 0), (ptr, pools1, mem1, k1). exact E.
Defined.
End Witnesses.
