(* ===== verification/LibcString.v ===== *)
(** * Strings and memory blocks (lib/libc/minimal/source/string/string.c, strstr.c)

    Memory maps an address to a byte; [char] is unsigned on ARM. A loop over a
    counted block is a recursion on the count; a loop that runs to the end of a
    string has fuel, [None] when it runs out. [Prelude.memcpy] is the reference
    for the block functions: the bytes of the destination are those the source
    had before. *)
From S2P Require Import Prelude.

Abbreviation memory := (Z -> Z).

(** A word access of the little-endian processor. *)
Definition load32 (m : memory) (a : Z) : Z :=
  Z.lor (m a) (Z.lor (Z.shiftl (m (a + 1)) 8)
    (Z.lor (Z.shiftl (m (a + 2)) 16) (Z.shiftl (m (a + 3)) 24))).

Definition store32 (a w : Z) (m : memory) : memory :=
  <[a + 3 := u8 (Z.shiftr w 24)]> (<[a + 2 := u8 (Z.shiftr w 16)]>
    (<[a + 1 := u8 (Z.shiftr w 8)]> (<[a := u8 w]> m))).

(** ** The functions *)
Module Str.
Section Blocks.
Implicit Types (m : memory) (d s : Z).

(** [while (n > 0) { *d++ = *s++; n--; }] *)
Fixpoint copy_bytes (n : nat) d s m : memory :=
  match n with
  | O => m
  | S n => copy_bytes n (d + 1) (s + 1) (<[d := m s]> m)
  end.

(** The loop up to the first aligned address: [inr] when the function returns. *)
Fixpoint copy_align (n : nat) d s m : (nat * Z * Z * memory) + memory :=
  if Z.land d 3 =? 0 then inl (n, d, s, m) else
  match n with
  | O => inr m
  | S n => copy_align n (d + 1) (s + 1) (<[d := m s]> m)
  end.

Fixpoint copy_words (n : nat) d s m : nat * Z * Z * memory :=
  match n with
  | S (S (S (S n'))) => copy_words n' (d + 4) (s + 4) (store32 d (load32 m s) m)
  | _ => (n, d, s, m)
  end.

Definition memcpy d s (n : Z) m : memory :=
  let n := Z.to_nat n in
  if Z.land (Z.lxor d s) 3 =? 0 then
    match copy_align n d s m with
    | inr m => m
    | inl (n, d, s, m) => let '(n, d, s, m) := copy_words n d s m in copy_bytes n d s m
    end
  else copy_bytes n d s m.

(** [while (n > 0) { n--; dest[n] = src[n]; }] *)
Fixpoint copy_back (n : nat) d s m : memory :=
  match n with
  | O => m
  | S n => copy_back n d s (<[d + Z.of_nat n := m (s + Z.of_nat n)]> m)
  end.

Definition memmove d s (n : Z) m : memory :=
  if u32 (d - s) <? n then copy_back (Z.to_nat n) d s m else copy_bytes (Z.to_nat n) d s m.

Fixpoint set_bytes (n : nat) d (c : Z) m : memory :=
  match n with
  | O => m
  | S n => set_bytes n (d + 1) c (<[d := c]> m)
  end.

Fixpoint set_align (n : nat) d (c : Z) m : (nat * Z * memory) + memory :=
  if Z.land d 3 =? 0 then inl (n, d, m) else
  match n with
  | O => inr m
  | S n => set_align n (d + 1) c (<[d := c]> m)
  end.

Fixpoint set_words (n : nat) d (w : Z) m : nat * Z * memory :=
  match n with
  | S (S (S (S n'))) => set_words n' (d + 4) w (store32 d w m)
  | _ => (n, d, m)
  end.

Definition memset (buf c n : Z) m : memory :=
  let c_byte := u8 c in
  match set_align (Z.to_nat n) buf c_byte m with
  | inr m => m
  | inl (n, d, m) =>
      let c_word := u8 c in
      let c_word := Z.lor c_word (u32 (Z.shiftl c_word 8)) in
      let c_word := Z.lor c_word (u32 (Z.shiftl c_word 16)) in
      let '(n, d, m) := set_words n d c_word m in
      set_bytes n d c_byte m
  end.

(** The loop; [n] is the count after the first [--n]. *)
Fixpoint memcmp_loop (n : nat) (c1 c2 : Z) m : Z :=
  match n with
  | O => m c1 - m c2
  | S n => if m c1 =? m c2 then memcmp_loop n (c1 + 1) (c2 + 1) m else m c1 - m c2
  end.

Definition memcmp (m1 m2 n : Z) m : Z :=
  if n =? 0 then 0 else memcmp_loop (Z.to_nat (n - 1)) m1 m2 m.

Fixpoint memchr_loop (n : nat) (p c : Z) m : Z :=
  match n with
  | O => 0
  | S n => if m p =? c then p else memchr_loop n (p + 1) c m
  end.

Definition memchr (s c n : Z) m : Z := memchr_loop (Z.to_nat n) s (u8 c) m.
End Blocks.

Section Strings.
Implicit Types (m : memory) (d s : Z).

Fixpoint strlen_from (fuel : nat) (n : Z) s m : option Z :=
  if m s =? 0 then Some n else
  match fuel with O => None | S fuel => strlen_from fuel (u32 (n + 1)) (s + 1) m end.

Definition strlen (fuel : nat) s m : option Z := strlen_from fuel 0 s m.

Fixpoint strcpy (fuel : nat) d s m : option memory :=
  if negb (m s =? 0) then
    match fuel with O => None | S fuel => strcpy fuel (d + 1) (s + 1) (<[d := m s]> m) end
  else Some (<[d := 0]> m).

(** The loop that copies, then the one that pads. *)
Fixpoint strncpy (n : nat) d s m : memory :=
  match n with
  | O => m
  | S n' => if negb (m s =? 0) then strncpy n' (d + 1) (s + 1) (<[d := m s]> m)
            else set_bytes n d 0 m
  end.

Fixpoint strchr_loop (fuel : nat) s (tmp : Z) m : option Z :=
  if negb (m s =? tmp) && negb (m s =? 0) then
    match fuel with O => None | S fuel => strchr_loop fuel (s + 1) tmp m end
  else Some (if m s =? tmp then s else 0).

Definition strchr (fuel : nat) s (c : Z) m : option Z := strchr_loop fuel s (u8 c) m.

Fixpoint strrchr_loop (fuel : nat) s (c mtch : Z) m : option Z :=
  let mtch := if m s =? c then s else mtch in
  if m s =? 0 then Some mtch else
  match fuel with O => None | S fuel => strrchr_loop fuel (s + 1) c mtch m end.

Definition strrchr (fuel : nat) s (c : Z) m : option Z := strrchr_loop fuel s (u8 c) 0 m.

Fixpoint strcmp (fuel : nat) (s1 s2 : Z) m : option Z :=
  if (m s1 =? m s2) && negb (m s1 =? 0) then
    match fuel with O => None | S fuel => strcmp fuel (s1 + 1) (s2 + 1) m end
  else Some (m s1 - m s2).

Fixpoint strncmp (n : nat) (s1 s2 : Z) m : Z :=
  match n with
  | O => 0
  | S n => if (m s1 =? m s2) && negb (m s1 =? 0) then strncmp n (s1 + 1) (s2 + 1) m
           else m s1 - m s2
  end.

Definition strcat (fuel : nat) (dest src : Z) m : option memory :=
  n ← strlen fuel dest m; strcpy fuel (dest + n) src m.

Fixpoint strncat_loop (n : nat) (dest src : Z) m : memory :=
  match n with
  | O => <[dest := 0]> m
  | S n => if negb (m src =? 0) then strncat_loop n (dest + 1) (src + 1) (<[dest := m src]> m)
           else <[dest := 0]> m
  end.

Definition strncat (fuel : nat) (dest src n : Z) m : option memory :=
  len ← strlen fuel dest m; Some (strncat_loop (Z.to_nat n) (dest + len) src m).

(** strstr.c: the inner loop looks for the first character [c] of the pattern,
    the outer compares the rest, of length [len]. *)
Fixpoint strstr_loop (fuel : nat) s (c find len : Z) m : option Z :=
  let sc := m s in
  if sc =? 0 then Some 0
  else if (sc =? c) && (strncmp (Z.to_nat len) (s + 1) find m =? 0) then Some s
  else match fuel with O => None | S fuel => strstr_loop fuel (s + 1) c find len m end.

Definition strstr (fuel : nat) s (find : Z) m : option Z :=
  let c := m find in
  if negb (c =? 0) then
    len ← strlen fuel (find + 1) m;
    strstr_loop fuel s c (find + 1) len m
  else Some s.
End Strings.
End Str.

(** ** Block functions *)
Section BlockLemmas.
Implicit Types (m : memory) (d s a : Z).

Definition bytes_ok m : Prop := forall a, 0 <= m a < 256.

Lemma byte_high b i : 0 <= b < 256 -> 8 <= i -> Z.testbit b i = false.
Proof.
  intros Hb Hi. destruct (Z.eq_dec b 0) as [->|]; [apply Z.bits_0|].
  apply Z.bits_above_log2; [lia|]. apply Z.lt_le_trans with 8; [|done].
  apply Z.log2_lt_pow2; lia.
Qed.

Lemma byte_eq b b' :
  0 <= b < 256 -> 0 <= b' < 256 -> (forall i, 0 <= i < 8 -> Z.testbit b i = Z.testbit b' i) -> b = b'.
Proof.
  intros Hb Hb' He. apply Z.bits_inj'. intros i Hi. destruct (Z.lt_ge_cases i 8); [by apply He|].
  by rewrite !byte_high.
Qed.

Lemma u8_range z : 0 <= u8 z < 256.
Proof. unfold wrap_u. apply Z.mod_pos_bound. lia. Qed.

Lemma u8_small z : 0 <= z < 256 -> u8 z = z.
Proof. unfold wrap_u. intros. by apply Z.mod_small. Qed.

(** The byte [j] of a word that was put together from bytes. *)
Lemma word_byte m a j :
  bytes_ok m -> 0 <= j < 4 -> u8 (Z.shiftr (load32 m a) (8 * j)) = m (a + j).
Proof.
  intros Hm Hj. apply byte_eq; [apply u8_range|apply Hm|]. intros i Hi.
  rewrite wrap_u_testbit by lia. rewrite Z.shiftr_spec by lia. unfold load32.
  rewrite !Z.lor_spec, !Z.shiftl_spec by lia.
  assert (Hb : forall x y, 8 <= y \/ y < 0 -> Z.testbit (m x) y = false).
  { intros x y [?|?]; [apply byte_high; [apply Hm|done]|by apply Z.testbit_neg_r]. }
  assert (j = 0 \/ j = 1 \/ j = 2 \/ j = 3) as [->|[->|[->| ->]]] by lia.
  - rewrite (Hb (a + 1)), (Hb (a + 2)), (Hb (a + 3)) by lia. rewrite !orb_false_r. do 2 f_equal; lia.
  - rewrite (Hb a), (Hb (a + 2)), (Hb (a + 3)) by lia. rewrite !orb_false_r. cbn [orb]. f_equal; lia.
  - rewrite (Hb a), (Hb (a + 1)), (Hb (a + 3)) by lia. rewrite !orb_false_r. cbn [orb]. f_equal; lia.
  - rewrite (Hb a), (Hb (a + 1)), (Hb (a + 2)) by lia. cbn [orb]. f_equal; lia.
Qed.

Lemma store32_spec a w m b :
  store32 a w m b = if (a <=? b) && (b <? a + 4) then u8 (Z.shiftr w (8 * (b - a))) else m b.
Proof.
  unfold store32. destruct (Z.leb_spec a b), (Z.ltb_spec b (a + 4)); cbn [andb].
  - assert (b = a \/ b = a + 1 \/ b = a + 2 \/ b = a + 3) as [->|[->|[->| ->]]] by lia.
    + rewrite !fn_lookup_insert_ne, fn_lookup_insert by lia. by rewrite Z.sub_diag, Z.shiftr_0_r.
    + rewrite !fn_lookup_insert_ne, fn_lookup_insert by lia. do 2 f_equal. lia.
    + rewrite fn_lookup_insert_ne, fn_lookup_insert by lia. do 2 f_equal. lia.
    + rewrite fn_lookup_insert by lia. do 2 f_equal. lia.
  - by rewrite !fn_lookup_insert_ne by lia.
  - by rewrite !fn_lookup_insert_ne by lia.
  - lia.
Qed.

(** Memories are compared pointwise. *)
Definition same_mem m m' : Prop := forall a, m' a = m a.

#[global] Instance same_mem_equiv : Equivalence same_mem.
Proof.
  split; [by intros m a|by intros m m' H a; rewrite H|].
  intros m1 m2 m3 H1 H2 a. by rewrite H2, H1.
Qed.

#[global] Instance memcpy_proper d s n : Proper (same_mem ==> same_mem) (memcpy d s n).
Proof. intros m m' Hm a. unfold memcpy. by destruct (_ && _); rewrite Hm. Qed.

#[global] Instance insert_proper (d v : Z) : Proper (same_mem ==> same_mem) (fun m => <[d := v]> m).
Proof. intros m m' Hm a. unfold insert, fn_insert. by case_decide. Qed.

Lemma memcpy_in d s n m a : d <= a < d + n -> memcpy d s n m a = m (s + (a - d)).
Proof.
  intros. unfold memcpy. by rewrite (proj2 (Z.leb_le _ _)), (proj2 (Z.ltb_lt _ _)) by lia.
Qed.

Lemma memcpy_out d s n m a : ~ (d <= a < d + n) -> memcpy d s n m a = m a.
Proof.
  intros. unfold memcpy. destruct (Z.leb_spec d a), (Z.ltb_spec a (d + n)); try done. lia.
Qed.

(** Copying in two parts, the first not touching the rest of the source. *)
Lemma memcpy_app d s j n m :
  0 <= j -> 0 <= n -> d <= s \/ s + (j + n) <= d ->
  same_mem (memcpy d s (j + n) m) (memcpy (d + j) (s + j) n (memcpy d s j m)).
Proof.
  intros Hj Hn Hd a.
  destruct (decide (d + j <= a < d + j + n)).
  - rewrite (memcpy_in (d + j)), (memcpy_in d s (j + n)), memcpy_out by lia. f_equal. lia.
  - rewrite (memcpy_out (d + j)) by lia. destruct (decide (d <= a < d + j)).
    + by rewrite !memcpy_in by lia.
    + by rewrite !memcpy_out by lia.
Qed.

Lemma memcpy_0 d s m : same_mem m (memcpy d s 0 m).
Proof. intros a. by rewrite memcpy_out by lia. Qed.

Lemma copy_bytes_spec n d s m :
  d <= s \/ s + Z.of_nat n <= d -> same_mem (memcpy d s (Z.of_nat n) m) (Str.copy_bytes n d s m).
Proof.
  revert d s m. induction n as [|n IH]; intros d s m Hd; [symmetry; apply memcpy_0|].
  cbn [Str.copy_bytes]. rewrite <- IH by lia.
  assert (same_mem (memcpy d s 1 m) (<[d := m s]> m)) as H1.
  { intros a. destruct (decide (a = d)) as [->|].
    - rewrite fn_lookup_insert, memcpy_in by lia. f_equal. lia.
    - by rewrite fn_lookup_insert_ne, memcpy_out by lia. }
  rewrite <- H1. replace (Z.of_nat (S n)) with (1 + Z.of_nat n) by lia.
  by apply memcpy_app; lia.
Qed.

Lemma copy_back_spec n d s m :
  s <= d -> same_mem (memcpy d s (Z.of_nat n) m) (Str.copy_back n d s m).
Proof.
  revert m. induction n as [|n IH]; intros m Hd; [symmetry; apply memcpy_0|].
  cbn [Str.copy_back]. rewrite <- IH by lia. intros a.
  destruct (decide (a = d + Z.of_nat n)) as [->|].
  - rewrite memcpy_out, fn_lookup_insert, memcpy_in by lia. f_equal. lia.
  - destruct (decide (d <= a < d + Z.of_nat n)).
    + rewrite !memcpy_in, fn_lookup_insert_ne by lia. done.
    + rewrite !memcpy_out, fn_lookup_insert_ne by lia. done.
Qed.

Lemma copy_align_spec n d s m :
  d <= s \/ s + Z.of_nat n <= d ->
  match Str.copy_align n d s m with
  | inr m' => same_mem (memcpy d s (Z.of_nat n) m) m'
  | inl (n', d', s', m') => exists j, 0 <= j /\ Z.of_nat n = j + Z.of_nat n' /\ d' = d + j /\ s' = s + j /\
      same_mem (memcpy d s j m) m'
  end.
Proof.
  revert d s m. induction n as [|n IH]; intros d s m Hd; cbn [Str.copy_align]; destruct (_ =? 0).
  - exists 0. split_and!; [lia..|]. symmetry. apply memcpy_0.
  - symmetry. apply memcpy_0.
  - exists 0. split_and!; [lia..|]. symmetry. apply memcpy_0.
  - pose proof (copy_bytes_spec 1 d s m ltac:(lia)) as H1. cbn [Str.copy_bytes] in H1.
    specialize (IH (d + 1) (s + 1) (<[d := m s]> m) ltac:(lia)).
    destruct (Str.copy_align n _ _ _) as [[[[n' d'] s'] m']|m'].
    + destruct IH as (j & Hj & En & -> & -> & Hm). exists (1 + j). split_and!; [lia..|].
      rewrite <- Hm, <- H1. apply memcpy_app; lia.
    + rewrite <- IH, <- H1. replace (Z.of_nat (S n)) with (1 + Z.of_nat n) by lia. apply memcpy_app; lia.
Qed.

Lemma copy_word_spec d s m :
  bytes_ok m -> same_mem (memcpy d s 4 m) (store32 d (load32 m s) m).
Proof.
  intros Hm a. rewrite store32_spec. unfold memcpy. destruct (_ && _) eqn:E; [|done].
  bool_facts. rewrite word_byte by (done || lia). done.
Qed.

Lemma bytes_ok_same m m' : same_mem m m' -> bytes_ok m -> bytes_ok m'.
Proof. intros H Hm a. rewrite H. apply Hm. Qed.

Lemma bytes_ok_memcpy d s n m : bytes_ok m -> bytes_ok (memcpy d s n m).
Proof. intros Hm a. unfold memcpy. destruct (_ && _); apply Hm. Qed.

Lemma copy_words_spec k n d s m :
  (n <= k)%nat -> bytes_ok m -> disjoint_from d (Z.of_nat n) s (Z.of_nat n) ->
  let '(n', d', s', m') := Str.copy_words n d s m in
  exists j, 0 <= j /\ Z.of_nat n = j + Z.of_nat n' /\ d' = d + j /\ s' = s + j /\
    same_mem (memcpy d s j m) m'.
Proof.
  unfold disjoint_from. revert n d s m. induction k as [|k IH]; intros n d s m Hk Hm Hd.
  { destruct n; [|lia]. exists 0. split_and!; [lia..|]. symmetry. apply memcpy_0. }
  destruct n as [|[|[|[|n]]]]; cbn [Str.copy_words];
    try (exists 0; split_and!; [lia..|]; symmetry; apply memcpy_0).
  pose proof (copy_word_spec d s m Hm) as H1.
  specialize (IH n (d + 4) (s + 4) (store32 d (load32 m s) m) ltac:(lia)).
  destruct (Str.copy_words n _ _ _) as [[[n' d'] s'] m'].
  destruct IH as (j & Hj & En & -> & -> & Hs).
  - eapply bytes_ok_same; [exact H1|]. by apply bytes_ok_memcpy.
  - lia.
  - exists (4 + j). split_and!; [lia..|]. rewrite <- Hs, <- H1. apply memcpy_app; lia.
Qed.
End BlockLemmas.

Section BlockTheorems.
Implicit Types (m : memory) (d s a : Z).

Lemma memcpy_ok d s n m :
  bytes_ok m -> 0 <= n -> disjoint_from d n s n -> same_mem (memcpy d s n m) (Str.memcpy d s n m).
Proof.
  intros Hm Hn Hd. unfold Str.memcpy.
  destruct (Z_of_nat_complete n Hn) as [k ->]. rewrite Nat2Z.id. unfold disjoint_from in Hd.
  destruct (_ =? 0); [|by apply copy_bytes_spec; lia].
  pose proof (copy_align_spec k d s m ltac:(lia)) as Ha.
  destruct (Str.copy_align k d s m) as [[[[n1 d1] s1] m1]|m1]; [|done].
  destruct Ha as (j1 & Hj1 & E1 & -> & -> & H1).
  assert (bytes_ok m1) as Hm1 by (eapply bytes_ok_same; [exact H1|by apply bytes_ok_memcpy]).
  pose proof (copy_words_spec n1 n1 (d + j1) (s + j1) m1 ltac:(lia) Hm1) as Hw.
  unfold disjoint_from in Hw. specialize (Hw ltac:(lia)).
  destruct (Str.copy_words n1 _ _ _) as [[[n2 d2] s2] m2].
  destruct Hw as (j2 & Hj2 & E2 & -> & -> & H2).
  rewrite <- (copy_bytes_spec n2) by lia. rewrite <- H2, <- H1.
  rewrite <- (memcpy_app d s j1 j2 m) by lia. rewrite <- (Z.add_assoc d), <- (Z.add_assoc s).
  rewrite E1, E2, Z.add_assoc. apply memcpy_app; lia.
Qed.

Lemma memmove_ok d s n m :
  0 <= n -> 0 <= d -> 0 <= s -> d + n <= 2 ^ 32 -> s + n <= 2 ^ 32 ->
  same_mem (memcpy d s n m) (Str.memmove d s n m).
Proof.
  intros Hn Hd Hs Hdn Hsn. unfold Str.memmove.
  destruct (Z_of_nat_complete n Hn) as [k ->]. rewrite Nat2Z.id.
  destruct (Z.leb_spec s d).
  - destruct (Z.eq_dec (Z.of_nat k) 0) as [E0|].
    { rewrite E0. assert (k = 0%nat) as -> by lia. destruct (_ <? 0); symmetry; apply memcpy_0. }
    rewrite u32_small by (unfold UINT32_MAX; lia). destruct (Z.ltb_spec (d - s) (Z.of_nat k)).
    + by apply copy_back_spec.
    + apply copy_bytes_spec. lia.
  - assert (u32 (d - s) = d - s + 2 ^ 32) as ->.
    { unfold wrap_u. symmetry. apply (Z.mod_unique _ _ (-1)); lia. }
    rewrite (proj2 (Z.ltb_ge _ _)) by lia. apply copy_bytes_spec. lia.
Qed.

(** *** Filling *)
Definition fill d (n c : Z) m : memory := fun a => if (d <=? a) && (a <? d + n) then c else m a.

#[global] Instance fill_proper d n c : Proper (same_mem ==> same_mem) (fill d n c).
Proof. intros m m' Hm a. unfold fill. by destruct (_ && _). Qed.

Lemma fill_app d j n c m :
  0 <= j -> 0 <= n -> same_mem (fill d (j + n) c m) (fill (d + j) n c (fill d j c m)).
Proof.
  intros Hj Hn a. unfold fill.
  destruct (Z.leb_spec (d + j) a), (Z.ltb_spec a (d + j + n)), (Z.leb_spec d a),
    (Z.ltb_spec a (d + j)), (Z.ltb_spec a (d + (j + n))); cbn [andb]; try done; lia.
Qed.

Lemma fill_0 d c m : same_mem m (fill d 0 c m).
Proof.
  intros a. unfold fill. destruct (Z.leb_spec d a), (Z.ltb_spec a (d + 0)); try done; lia.
Qed.

Lemma fill_1 d c m : same_mem (fill d 1 c m) (<[d := c]> m).
Proof.
  intros a. unfold fill. destruct (decide (a = d)) as [->|].
  - rewrite fn_lookup_insert. by rewrite Z.leb_refl, (proj2 (Z.ltb_lt _ _)) by lia.
  - rewrite fn_lookup_insert_ne by done.
    destruct (Z.leb_spec d a), (Z.ltb_spec a (d + 1)); try done; lia.
Qed.

Lemma set_bytes_spec n d c m : same_mem (fill d (Z.of_nat n) c m) (Str.set_bytes n d c m).
Proof.
  revert d m. induction n as [|n IH]; intros d m; [symmetry; apply fill_0|].
  cbn [Str.set_bytes]. rewrite <- IH, <- fill_1.
  replace (Z.of_nat (S n)) with (1 + Z.of_nat n) by lia. apply fill_app; lia.
Qed.

Lemma set_align_spec n d c m :
  match Str.set_align n d c m with
  | inr m' => same_mem (fill d (Z.of_nat n) c m) m'
  | inl (n', d', m') => exists j, 0 <= j /\ Z.of_nat n = j + Z.of_nat n' /\ d' = d + j /\
      same_mem (fill d j c m) m'
  end.
Proof.
  revert d m. induction n as [|n IH]; intros d m; cbn [Str.set_align]; destruct (_ =? 0).
  - exists 0. split_and!; [lia..|]. symmetry. apply fill_0.
  - symmetry. apply fill_0.
  - exists 0. split_and!; [lia..|]. symmetry. apply fill_0.
  - specialize (IH (d + 1) (<[d := c]> m)). destruct (Str.set_align n _ _ _) as [[[n' d'] m']|m'].
    + destruct IH as (j & Hj & En & -> & Hm). exists (1 + j). split_and!; [lia..|].
      rewrite <- Hm, <- fill_1. apply fill_app; lia.
    + rewrite <- IH, <- fill_1. replace (Z.of_nat (S n)) with (1 + Z.of_nat n) by lia. apply fill_app; lia.
Qed.

(** The word that holds a byte four times. *)
Definition four_times (c : Z) : Z :=
  let w := Z.lor c (u32 (Z.shiftl c 8)) in Z.lor w (u32 (Z.shiftl w 16)).

Lemma four_times_byte c j : 0 <= c < 256 -> 0 <= j < 4 -> u8 (Z.shiftr (four_times c) (8 * j)) = c.
Proof.
  intros Hc Hj. apply byte_eq; [apply u8_range|done|]. intros i Hi.
  rewrite wrap_u_testbit by lia. rewrite Z.shiftr_spec by lia. unfold four_times. cbn zeta.
  assert (Hb : forall y, 8 <= y \/ y < 0 -> Z.testbit c y = false).
  { intros y [?|?]; [by apply byte_high|by apply Z.testbit_neg_r]. }
  rewrite Z.lor_spec, wrap_u_testbit, Z.shiftl_spec by lia.
  rewrite Z.lor_spec, wrap_u_testbit, Z.shiftl_spec by lia.
  assert (j = 0 \/ j = 1 \/ j = 2 \/ j = 3) as [->|[->|[->| ->]]] by lia.
  - rewrite (Z.testbit_neg_r (Z.lor c (u32 (Z.shiftl c 8)))), (Hb (i + 8 * 0 - 8)) by lia.
    rewrite !orb_false_r. f_equal. lia.
  - rewrite (Z.testbit_neg_r (Z.lor c (u32 (Z.shiftl c 8)))), (Hb (i + 8 * 1)) by lia.
    rewrite !orb_false_r. cbn [orb]. f_equal. lia.
  - rewrite (Hb (i + 8 * 2)), (Hb (i + 8 * 2 - 8)) by lia. cbn [orb].
    rewrite Z.lor_spec, wrap_u_testbit, Z.shiftl_spec, (Hb (i + 8 * 2 - 16 - 8)) by lia.
    rewrite orb_false_r. f_equal. lia.
  - rewrite (Hb (i + 8 * 3)), (Hb (i + 8 * 3 - 8)) by lia. cbn [orb].
    rewrite Z.lor_spec, wrap_u_testbit, Z.shiftl_spec, (Hb (i + 8 * 3 - 16)) by lia.
    cbn [orb]. f_equal. lia.
Qed.

Lemma set_words_spec k n d c m :
  (n <= k)%nat -> 0 <= c < 256 ->
  let '(n', d', m') := Str.set_words n d (four_times c) m in
  exists j, 0 <= j /\ Z.of_nat n = j + Z.of_nat n' /\ d' = d + j /\ same_mem (fill d j c m) m'.
Proof.
  intros Hk Hc. revert n d m Hk. induction k as [|k IH]; intros n d m Hk.
  { destruct n; [|lia]. exists 0. split_and!; [lia..|]. symmetry. apply fill_0. }
  destruct n as [|[|[|[|n]]]]; cbn [Str.set_words];
    try (exists 0; split_and!; [lia..|]; symmetry; apply fill_0).
  assert (same_mem (fill d 4 c m) (store32 d (four_times c) m)) as H1.
  { intros a. rewrite store32_spec. unfold fill. destruct (_ && _) eqn:E; [|done].
    bool_facts. by rewrite four_times_byte by (done || lia). }
  specialize (IH n (d + 4) (store32 d (four_times c) m) ltac:(lia)).
  destruct (Str.set_words n _ _ _) as [[n' d'] m'].
  destruct IH as (j & Hj & En & -> & Hs). exists (4 + j). split_and!; [lia..|].
  rewrite <- Hs, <- H1. apply fill_app; lia.
Qed.

Lemma memset_ok d c n m : 0 <= n -> same_mem (fill d n (u8 c) m) (Str.memset d c n m).
Proof.
  intros Hn. unfold Str.memset.
  destruct (Z_of_nat_complete n Hn) as [k ->]. rewrite Nat2Z.id.
  pose proof (set_align_spec k d (u8 c) m) as Ha.
  destruct (Str.set_align k d (u8 c) m) as [[[n1 d1] m1]|m1]; [|done].
  destruct Ha as (j1 & Hj1 & E1 & -> & H1). fold (four_times (u8 c)).
  pose proof (set_words_spec n1 n1 (d + j1) (u8 c) m1 ltac:(lia) (u8_range c)) as Hw.
  destruct (Str.set_words n1 _ _ _) as [[n2 d2] m2].
  destruct Hw as (j2 & Hj2 & E2 & -> & H2). rewrite <- set_bytes_spec, <- H2, <- H1.
  rewrite <- (fill_app d j1 j2) by lia. rewrite <- (Z.add_assoc d), E1, E2, Z.add_assoc. apply fill_app; lia.
Qed.

(** *** Comparing and scanning *)

(** The difference of the first bytes that differ. *)
Fixpoint diff (l1 l2 : list Z) : Z :=
  match l1, l2 with
  | [], [] => 0
  | [], c :: _ => - c
  | c :: _, [] => c
  | a :: l1, b :: l2 => if a =? b then diff l1 l2 else a - b
  end.

Lemma read_bytes_S m a (n : nat) :
  read_bytes m a (Z.of_nat (S n)) = m a :: read_bytes m (a + 1) (Z.of_nat n).
Proof.
  unfold read_bytes. rewrite seqZ_cons by lia. cbn [fmap list_fmap].
  repeat f_equal; lia.
Qed.

Lemma diff_same_length l1 l2 : length l1 = length l2 -> diff l1 l2 = 0 <-> l1 = l2.
Proof.
  revert l2. induction l1 as [|a l1 IH]; intros [|b l2] Hl; cbn [diff length] in *; [done|done|done|].
  destruct (Z.eqb_spec a b) as [->|Hne].
  - rewrite IH by lia. naive_solver.
  - split; [lia|naive_solver].
Qed.

Lemma memcmp_loop_ok n s1 s2 m :
  Str.memcmp_loop n s1 s2 m =
  diff (read_bytes m s1 (Z.of_nat (S n))) (read_bytes m s2 (Z.of_nat (S n))).
Proof.
  revert s1 s2. induction n as [|n IH]; intros s1 s2;
    rewrite (read_bytes_S m s1), (read_bytes_S m s2); cbn [Str.memcmp_loop diff].
  - destruct (Z.eqb_spec (m s1) (m s2)); [|done]. rewrite e. apply Z.sub_diag.
  - destruct (Z.eqb_spec (m s1) (m s2)); [|done]. apply IH.
Qed.

Lemma memcmp_ok s1 s2 n m :
  0 <= n -> Str.memcmp s1 s2 n m = diff (read_bytes m s1 n) (read_bytes m s2 n).
Proof.
  intros Hn. unfold Str.memcmp. destruct (Z.eqb_spec n 0) as [->|]; [done|].
  rewrite memcmp_loop_ok. by replace (Z.of_nat (S (Z.to_nat (n - 1)))) with n by lia.
Qed.

(** [r] is the address of the first of the [n] bytes at [s] that is [c], or null. *)
Definition first_byte (c s n : Z) m (r : Z) : Prop :=
  (exists i, 0 <= i < n /\ r = s + i /\ m (s + i) = c /\ forall j, 0 <= j < i -> m (s + j) <> c) \/
  (r = 0 /\ forall j, 0 <= j < n -> m (s + j) <> c).

Lemma memchr_loop_ok n s c m : first_byte c s (Z.of_nat n) m (Str.memchr_loop n s c m).
Proof.
  revert s. induction n as [|n IH]; intros s; cbn [Str.memchr_loop].
  { right. split; [done|lia]. }
  destruct (Z.eqb_spec (m s) c) as [E|E].
  - left. exists 0. rewrite Z.add_0_r. split_and!; [lia..|done|lia].
  - assert (Hs : forall j, 0 <= j -> (0 < j -> m (s + 1 + (j - 1)) <> c) -> m (s + j) <> c).
    { intros j Hj Hn. destruct (Z.eq_dec j 0) as [->|]; [by rewrite Z.add_0_r|].
      replace (s + j) with (s + 1 + (j - 1)) by lia. apply Hn. lia. }
    destruct (IH (s + 1)) as [(i & Hi & -> & Hc & Hj)|[-> Hj]].
    + left. exists (i + 1). replace (s + (i + 1)) with (s + 1 + i) by lia.
      split_and!; [lia..|done|]. intros j Hlt. apply Hs; [lia|]. intros ?. apply Hj. lia.
    + right. split; [done|]. intros j Hlt. apply Hs; [lia|]. intros ?. apply Hj. lia.
Qed.

Lemma memchr_ok s c n m : 0 <= n -> first_byte (u8 c) s n m (Str.memchr s c n m).
Proof.
  intros Hn. unfold Str.memchr. rewrite <- (Z2Nat.id n) at 1 by done. apply memchr_loop_ok.
Qed.

(** C27: the block functions do what their optimised loops obscure. [memcpy], word
    by word where the alignments agree, leaves the destination with the bytes of
    the source and nothing else changed; [memmove] does so for regions that
    overlap in any way; [memset], word by word, fills exactly the block. [memcmp]
    gives the difference of the first bytes that differ, so zero exactly for
    blocks of the same bytes; [memchr] finds the first byte, or gives null. *)
Theorem block_functions_correct d s n c m :
  bytes_ok m -> 0 <= n -> 0 <= d -> 0 <= s -> d + n <= 2 ^ 32 -> s + n <= 2 ^ 32 ->
  (disjoint_from d n s n -> same_mem (memcpy d s n m) (Str.memcpy d s n m)) /\
  same_mem (memcpy d s n m) (Str.memmove d s n m) /\
  same_mem (fill d n (u8 c) m) (Str.memset d c n m) /\
  Str.memcmp d s n m = diff (read_bytes m d n) (read_bytes m s n) /\
  (Str.memcmp d s n m = 0 <-> read_bytes m d n = read_bytes m s n) /\
  first_byte (u8 c) s n m (Str.memchr s c n m).
Proof.
  intros Hm Hn Hd Hs Hdn Hsn. split_and!; [intros; by apply memcpy_ok|by apply memmove_ok|by apply memset_ok| | |].
  - by apply memcmp_ok.
  - rewrite memcmp_ok by done. apply diff_same_length. unfold read_bytes.
    by rewrite !length_fmap, !length_seqZ.
  - by apply memchr_ok.
Qed.

(** Overlapping regions, at the bytes 16 to 23; the byte 20 is found. *)
Lemma block_functions_correct_witness :
  Str.memmove 18 16 6 (fun a => a mod 256) 23 = 21 /\
  Str.memcmp 18 16 6 (fun a => a mod 256) = 2 /\
  first_byte 20 16 6 (fun a => a mod 256) 20.
Proof.
  destruct (block_functions_correct 18 16 6 20 (fun a => a mod 256)) as (_ & Hmv & _ & Hcmp & _ & Hchr);
    [intros a; apply Z.mod_pos_bound; lia|lia..|].
  split; [rewrite (Hmv 23); reflexivity|]. split; [rewrite Hcmp; reflexivity|exact Hchr].
Defined.
End BlockTheorems.

(** ** Strings *)
Abbreviation len l := (Z.of_nat (length l)).

Section StringLemmas.
Implicit Types (m : memory) (d s a : Z) (l : list Z) (fuel : nat).

(** The characters [l], none of them null, are at [s], with a null behind. *)
Fixpoint cstr m s l : Prop :=
  match l with
  | [] => m s = 0
  | c :: l => m s = c /\ c <> 0 /\ cstr m (s + 1) l
  end.

Lemma cstr_ext m m' s l :
  (forall a, s <= a <= s + len l -> m' a = m a) -> cstr m s l -> cstr m' s l.
Proof.
  revert s. induction l as [|c l IH]; intros s He; cbn [cstr length] in *.
  - intros <-. apply He. lia.
  - intros (Hc & Hc0 & Hl). split_and!; [rewrite <- Hc; apply He; lia|done|].
    apply IH; [|done]. intros a Ha. apply He. lia.
Qed.

Lemma cstr_lookup m s l (i : nat) : cstr m s l -> (i <= length l)%nat -> m (s + Z.of_nat i) = nth i l 0.
Proof.
  revert s i. induction l as [|c l IH]; intros s [|i] Hs Hi; cbn [cstr length nth] in *; rewrite ?Z.add_0_r.
  - done.
  - lia.
  - by destruct Hs.
  - destruct Hs as (_ & _ & Hs). rewrite <- (IH (s + 1) i Hs) by lia. f_equal. lia.
Qed.

Lemma cstr_nonzero m s l c : cstr m s l -> c ∈ l -> c <> 0.
Proof.
  revert s. induction l as [|x l IH]; intros s Hs; [by intros ?%elem_of_nil|].
  destruct Hs as (_ & Hx & Hs). intros [->|Hc]%elem_of_cons; [done|]. by eapply IH.
Qed.

(** A string is copied by copying its bytes, the null included. *)
Lemma cstr_memcpy m d s l : cstr m s l -> cstr (memcpy d s (len l + 1) m) d l.
Proof.
  revert d s. 
  assert (Hg : forall l d s m', cstr m s l ->
    (forall i, 0 <= i <= len l -> m' (d + i) = m (s + i)) -> cstr m' d l).
  { clear l. intros l. induction l as [|c l IH]; intros d s m' Hs He; cbn [cstr length] in *.
    - specialize (He 0 ltac:(lia)). rewrite !Z.add_0_r in He. congruence.
    - destruct Hs as (Hc & Hc0 & Hs). split_and!; [|done|].
      + specialize (He 0 ltac:(lia)). rewrite !Z.add_0_r in He. congruence.
      + apply (IH _ (s + 1)); [done|]. intros i Hi. rewrite <- !Z.add_assoc. apply He. lia. }
  intros d s Hs. apply (Hg l d s); [done|]. intros i Hi. rewrite memcpy_in by lia. f_equal. lia.
Qed.

Lemma strlen_from_ok fuel n m s l :
  cstr m s l -> (length l <= fuel)%nat -> 0 <= n -> n + len l <= UINT32_MAX ->
  Str.strlen_from fuel n s m = Some (n + len l).
Proof.
  revert fuel n s. induction l as [|c l IH]; intros fuel n s Hs Hf Hn Hm; cbn [cstr length] in *.
  - destruct fuel; cbn [Str.strlen_from]; rewrite Hs; cbn [Z.eqb]; f_equal; lia.
  - destruct Hs as (Hc & Hc0 & Hs). destruct fuel as [|fuel]; [lia|]. cbn [Str.strlen_from].
    rewrite Hc, (proj2 (Z.eqb_neq _ _) Hc0). rewrite u32_small by lia.
    rewrite (IH fuel) by (done || lia). f_equal. lia.
Qed.

Lemma strlen_ok fuel m s l :
  cstr m s l -> (length l <= fuel)%nat -> len l <= UINT32_MAX -> Str.strlen fuel s m = Some (len l).
Proof. intros. unfold Str.strlen. by rewrite (strlen_from_ok _ _ _ _ l) by (done || lia). Qed.

Lemma strcpy_ok fuel m d s l :
  cstr m s l -> (length l <= fuel)%nat -> disjoint_from d (len l + 1) s (len l + 1) ->
  exists m', Str.strcpy fuel d s m = Some m' /\ same_mem (memcpy d s (len l + 1) m) m'.
Proof.
  unfold disjoint_from. revert fuel d s m. induction l as [|c l IH]; intros fuel d s m Hs Hf Hd;
    cbn [cstr length] in *.
  - destruct fuel; cbn [Str.strcpy]; rewrite Hs; cbn [Z.eqb negb]; eexists; (split; [done|]);
      pose proof (copy_bytes_spec 1 d s m ltac:(lia)) as H1; cbn [Str.copy_bytes] in H1;
      rewrite Hs in H1; exact H1.
  - destruct Hs as (Hc & Hc0 & Hs). destruct fuel as [|fuel]; [lia|]. cbn [Str.strcpy].
    rewrite Hc, (proj2 (Z.eqb_neq _ _) Hc0). cbn [negb]. rewrite <- Hc.
    pose proof (copy_bytes_spec 1 d s m ltac:(lia)) as H1. cbn [Str.copy_bytes] in H1.
    destruct (IH fuel (d + 1) (s + 1) (<[d := m s]> m)) as (m' & E & Hm').
    + eapply cstr_ext; [|exact Hs]. intros a Ha. apply fn_lookup_insert_ne. lia.
    + lia.
    + lia.
    + exists m'. split; [done|]. rewrite <- Hm', <- H1.
      replace (Z.of_nat (S (length l)) + 1) with (1 + (len l + 1)) by lia. apply memcpy_app; lia.
Qed.

(** *** Comparing *)

Lemma diff_eq l1 l2 : (forall c, c ∈ l1 -> c <> 0) -> (forall c, c ∈ l2 -> c <> 0) ->
  diff l1 l2 = 0 <-> l1 = l2.
Proof.
  revert l2. induction l1 as [|a l1 IH]; intros [|b l2] H1 H2; cbn [diff]; [done|..].
  - specialize (H2 b ltac:(set_solver)). split; [lia|done].
  - specialize (H1 a ltac:(set_solver)). split; [lia|done].
  - destruct (Z.eqb_spec a b) as [->|Hne].
    + rewrite IH; [|intros; apply H1; set_solver|intros; apply H2; set_solver]. naive_solver.
    + split; [lia|naive_solver].
Qed.

Lemma strcmp_ok fuel m s1 s2 l1 l2 :
  cstr m s1 l1 -> cstr m s2 l2 -> (length l1 <= fuel)%nat ->
  Str.strcmp fuel s1 s2 m = Some (diff l1 l2).
Proof.
  revert fuel s1 s2 l2. induction l1 as [|a l1 IH]; intros fuel s1 s2 l2 H1 H2 Hf;
    cbn [cstr length] in H1, Hf.
  - destruct l2 as [|b l2]; cbn [cstr] in H2; [|destruct H2 as (H2 & Hb & _)];
      destruct fuel; cbn [Str.strcmp]; rewrite H1, H2, ?(proj2 (Z.eqb_neq 0 b)) by lia; done.
  - destruct H1 as (Ha & Ha0 & H1). destruct fuel as [|fuel]; [lia|]. cbn [Str.strcmp].
    rewrite Ha, (proj2 (Z.eqb_neq _ _) Ha0). cbn [negb]. rewrite andb_true_r.
    destruct l2 as [|b l2]; cbn [cstr] in H2.
    + rewrite H2, (proj2 (Z.eqb_neq _ _) Ha0). cbn [diff]. f_equal. lia.
    + destruct H2 as (Hb & Hb0 & H2). rewrite Hb. cbn [diff]. destruct (a =? b); [|done].
      apply IH; [done|done|lia].
Qed.

(** The first [n] characters, and the strings' ends, compare equal. *)
Lemma strncmp_prefix m s1 s2 l1 l2 :
  cstr m s1 l1 -> cstr m s2 l2 ->
  Str.strncmp (length l2) s1 s2 m = 0 <-> l2 `prefix_of` l1.
Proof.
  revert s1 s2 l1. induction l2 as [|b l2 IH]; intros s1 s2 l1 H1 H2.
  { cbn. split; [intros _; by apply prefix_nil|done]. }
  destruct H2 as (Hb & Hb0 & H2). cbn [length Str.strncmp]. rewrite Hb.
  destruct l1 as [|a l1]; cbn [cstr] in H1.
  - rewrite H1. rewrite (proj2 (Z.eqb_neq 0 b)) by lia. cbn [andb].
    split; [lia|]. intros [? [=]].
  - destruct H1 as (Ha & Ha0 & H1). rewrite Ha. destruct (Z.eqb_spec a b) as [->|Hne].
    + rewrite (proj2 (Z.eqb_neq _ _) Hb0). cbn [andb negb]. rewrite IH by done.
      split; [apply prefix_cons|]. intros Hp. by eapply prefix_cons_inv_2.
    + cbn [andb]. split; [lia|]. intros Hp. apply prefix_cons_inv_1 in Hp. congruence.
Qed.

(** *** Searching *)

(** [r] is the address of the first place of [l], at [s], where [P] holds, or null. *)
Definition first_at (P : list Z -> Prop) s l (r : Z) : Prop :=
  (exists i : nat, (i <= length l)%nat /\ r = s + Z.of_nat i /\ P (drop i l) /\
     forall j, (j < i)%nat -> ~ P (drop j l)) \/
  (r = 0 /\ forall j, (j <= length l)%nat -> ~ P (drop j l)).

Definition last_at (P : list Z -> Prop) s l (r : Z) : Prop :=
  (exists i : nat, (i <= length l)%nat /\ r = s + Z.of_nat i /\ P (drop i l) /\
     forall j, (i < j <= length l)%nat -> ~ P (drop j l)) \/
  (r = 0 /\ forall j, (j <= length l)%nat -> ~ P (drop j l)).

(** The character at the head, the null at the end of the string. *)
Definition starts_with (c : Z) l : Prop := hd 0 l = c.

Lemma first_at_here P s l : P l -> first_at P s l s.
Proof. intros HP. left. exists 0%nat. rewrite drop_0. split_and!; [lia|lia|done|lia]. Qed.

Lemma first_at_none P s : ~ P [] -> first_at P s [] 0.
Proof. intros HP. right. split; [done|]. intros [|j] Hj; [done|]. cbn [length] in Hj. lia. Qed.

Lemma first_at_cons P s c l r :
  ~ P (c :: l) -> first_at P (s + 1) l r -> first_at P s (c :: l) r.
Proof.
  intros HP [(i & Hi & -> & Hd & Hj)|[-> Hj]].
  - left. exists (S i). cbn [length drop]. split_and!; [lia|lia|done|].
    intros [|j] Hlt; [done|]. apply Hj. lia.
  - right. split; [done|]. intros [|j] Hle; [done|]. apply Hj. cbn [length] in Hle. lia.
Qed.

Lemma strchr_ok fuel m s l c :
  cstr m s l -> (length l <= fuel)%nat ->
  exists r, Str.strchr fuel s c m = Some r /\ first_at (starts_with (u8 c)) s l r.
Proof.
  unfold Str.strchr. set (x := u8 c). revert fuel s. induction l as [|a l IH]; intros fuel s Hs Hf;
    cbn [cstr length] in *.
  - assert (Str.strchr_loop fuel s x m = Some (if 0 =? x then s else 0)) as ->
      by (destruct fuel; cbn [Str.strchr_loop]; rewrite Hs; by destruct (0 =? x)).
    destruct (Z.eqb_spec 0 x) as [E|E]; eexists; (split; [done|]);
      [by apply first_at_here|by apply first_at_none].
  - destruct Hs as (Ha & Ha0 & Hs). destruct fuel as [|fuel]; [lia|]. cbn [Str.strchr_loop].
    rewrite Ha, (proj2 (Z.eqb_neq _ _) Ha0). cbn [negb]. rewrite andb_true_r.
    destruct (Z.eqb_spec a x) as [E|E]; cbn [negb].
    + eexists. split; [done|]. by apply first_at_here.
    + destruct (IH fuel (s + 1) Hs ltac:(lia)) as (r & Er & Hr). exists r. split; [done|].
      by apply first_at_cons.
Qed.

Lemma strrchr_loop_ok fuel m s l c mtch :
  cstr m s l -> (length l <= fuel)%nat -> 0 < s ->
  exists r, Str.strrchr_loop fuel s c mtch m = Some r /\
    (last_at (starts_with c) s l r /\ r <> 0 \/
     r = mtch /\ forall j, (j <= length l)%nat -> ~ starts_with c (drop j l)).
Proof.
  revert fuel s mtch. induction l as [|a l IH]; intros fuel s mtch Hs Hf H0; cbn [cstr length] in *.
  - assert (Str.strrchr_loop fuel s c mtch m = Some (if 0 =? c then s else mtch)) as ->
      by (destruct fuel; cbn [Str.strrchr_loop]; by rewrite Hs).
    destruct (Z.eqb_spec 0 c) as [E|E]; eexists; (split; [done|]).
    + left. split; [|lia]. left. exists 0%nat. split_and!; [lia|lia|done|intros j Hj; cbn [length] in Hj; lia].
    + right. split; [done|]. intros [|j] Hj; [done|lia].
  - destruct Hs as (Ha & Ha0 & Hs). destruct fuel as [|fuel]; [lia|]. cbn [Str.strrchr_loop].
    rewrite Ha, (proj2 (Z.eqb_neq _ _) Ha0).
    destruct (IH fuel (s + 1) (if a =? c then s else mtch) Hs ltac:(lia) ltac:(lia)) as (r & -> & Hr).
    exists r. split; [done|]. destruct Hr as [[[(i & Hi & -> & HP & Hj)|[-> _]] Hne]|[-> Hj]].
    + left. split; [|done]. left. exists (S i). cbn [length drop]. split_and!; [lia|lia|done|].
      intros [|j] Hlt; [lia|]. apply Hj. lia.
    + done.
    + destruct (Z.eqb_spec a c) as [E|E].
      * left. split; [|lia]. left. exists 0%nat. cbn [length drop]. split_and!; [lia|lia|done|].
        intros [|j] Hlt; [lia|]. apply Hj. lia.
      * right. split; [done|]. intros [|j] Hle; [done|]. cbn [length] in Hle. apply Hj. lia.
Qed.

Lemma strrchr_ok fuel m s l c :
  cstr m s l -> (length l <= fuel)%nat -> 0 < s ->
  exists r, Str.strrchr fuel s c m = Some r /\ last_at (starts_with (u8 c)) s l r.
Proof.
  intros Hs Hf H0. unfold Str.strrchr.
  destruct (strrchr_loop_ok fuel m s l (u8 c) 0 Hs Hf H0) as (r & E & [[Hr _]|[-> Hr]]);
    eexists; (split; [done|]); [done|]. by right.
Qed.

Lemma strstr_loop_ok fuel m s l c f find :
  cstr m s l -> (length l <= fuel)%nat -> cstr m find f -> c <> 0 ->
  exists r, Str.strstr_loop fuel s c find (len f) m = Some r /\
    first_at (fun l => (c :: f) `prefix_of` l) s l r.
Proof.
  revert fuel s. induction l as [|a l IH]; intros fuel s Hs Hf Hfind Hc0; cbn [cstr length] in *.
  - exists 0. split; [destruct fuel; cbn [Str.strstr_loop]; by rewrite Hs|].
    apply first_at_none. by intros [? [=]].
  - destruct Hs as (Ha & Ha0 & Hs). destruct fuel as [|fuel]; [lia|]. cbn [Str.strstr_loop].
    rewrite Ha, (proj2 (Z.eqb_neq _ _) Ha0), Nat2Z.id.
    pose proof (strncmp_prefix m (s + 1) find l f Hs Hfind) as Hp.
    destruct (Z.eqb_spec a c) as [->|E]; [destruct (Z.eqb_spec (Str.strncmp (length f) (s + 1) find m) 0) as [E0|E0]|];
      cbn [andb].
    + exists s. split; [done|]. apply first_at_here, prefix_cons. by apply Hp.
    + destruct (IH fuel (s + 1) Hs ltac:(lia) Hfind Hc0) as (r & -> & Hr). exists r. split; [done|].
      apply first_at_cons; [|done]. intros Hpre. apply E0, Hp. by eapply prefix_cons_inv_2.
    + destruct (IH fuel (s + 1) Hs ltac:(lia) Hfind Hc0) as (r & -> & Hr). exists r. split; [done|].
      apply first_at_cons; [|done]. intros Hpre. apply E. symmetry. by eapply prefix_cons_inv_1.
Qed.

Lemma strstr_ok fuel m s l find f :
  cstr m s l -> cstr m find f -> (length l <= fuel)%nat -> (length f <= fuel)%nat ->
  len f <= UINT32_MAX ->
  exists r, Str.strstr fuel s find m = Some r /\ first_at (fun l => f `prefix_of` l) s l r.
Proof.
  intros Hs Hf Hfl Hff Hm. unfold Str.strstr. destruct f as [|c f]; cbn [cstr length] in *.
  - rewrite Hf. exists s. split; [done|]. apply first_at_here, prefix_nil.
  - destruct Hf as (Hc & Hc0 & Hf). rewrite Hc, (proj2 (Z.eqb_neq _ _) Hc0). cbn [negb].
    rewrite (strlen_ok fuel m (find + 1) f Hf) by lia. cbn [mbind option_bind].
    by apply strstr_loop_ok.
Qed.
(** *** Counted copies and concatenation *)

(** The [n] bytes at [d] are the characters [l], followed by nulls. *)
Definition put_str d (n : Z) l m : memory :=
  fun a => if (d <=? a) && (a <? d + n) then nth (Z.to_nat (a - d)) l 0 else m a.

#[global] Instance put_str_proper d n l : Proper (same_mem ==> same_mem) (put_str d n l).
Proof. intros m m' Hm a. unfold put_str. by destruct (_ && _). Qed.

Lemma put_str_in d n l m (i : nat) : Z.of_nat i < n -> put_str d n l m (d + Z.of_nat i) = nth i l 0.
Proof.
  intros Hi. unfold put_str. rewrite (proj2 (Z.leb_le _ _)), (proj2 (Z.ltb_lt _ _)) by lia.
  cbn [andb]. f_equal. lia.
Qed.

Lemma put_str_out d n l m a : ~ (d <= a < d + n) -> put_str d n l m a = m a.
Proof.
  intros. unfold put_str. destruct (Z.leb_spec d a), (Z.ltb_spec a (d + n)); try done. lia.
Qed.

Lemma put_str_cons d n c l m :
  0 <= n -> same_mem (put_str d (1 + n) (c :: l) m) (put_str (d + 1) n l (<[d := c]> m)).
Proof.
  intros Hn a. destruct (decide (d <= a < d + (1 + n))) as [Ha|Ha].
  - destruct (Z.eq_dec a d) as [->|].
    + rewrite put_str_out, fn_lookup_insert by lia.
      pose proof (put_str_in d (1 + n) (c :: l) m 0 ltac:(lia)) as H0.
      by rewrite Z.add_0_r in H0.
    + replace a with (d + 1 + Z.of_nat (Z.to_nat (a - d - 1))) at 1 by lia.
      replace a with (d + Z.of_nat (S (Z.to_nat (a - d - 1)))) at 2 by lia.
      by rewrite !put_str_in by lia.
  - by rewrite !put_str_out, fn_lookup_insert_ne by lia.
Qed.

Lemma put_str_nil d n m : same_mem (put_str d n [] m) (fill d n 0 m).
Proof. intros a. unfold fill, put_str. destruct (_ && _); [|done]. by destruct (Z.to_nat _). Qed.

Lemma cstr_insert m d c s l :
  ~ (s <= d <= s + len l) -> cstr m s l -> cstr (<[d := c]> m) s l.
Proof. intros Hd. apply cstr_ext. intros a Ha. apply fn_lookup_insert_ne. lia. Qed.

Lemma strncpy_put (n : nat) m d s l :
  cstr m s l -> disjoint_from d (Z.of_nat n) s (len l + 1) ->
  same_mem (put_str d (Z.of_nat n) l m) (Str.strncpy n d s m).
Proof.
  unfold disjoint_from. revert d s l m. induction n as [|n IH]; intros d s l m Hs Hd.
  { intros a. cbn [Str.strncpy]. by rewrite put_str_out by lia. }
  cbn [Str.strncpy]. destruct l as [|c l]; cbn [cstr length] in *.
  - rewrite Hs. cbn [Z.eqb negb]. rewrite <- set_bytes_spec, <- put_str_nil. done.
  - destruct Hs as (Hc & Hc0 & Hs). rewrite Hc, (proj2 (Z.eqb_neq _ _) Hc0). cbn [negb].
    rewrite <- (IH _ _ l); [|apply cstr_insert; [lia|done]|lia].
    replace (Z.of_nat (S n)) with (1 + Z.of_nat n) by lia. apply put_str_cons. lia.
Qed.

Lemma strncat_loop_ok (n : nat) m d s l :
  cstr m s l -> disjoint_from d (len (take n l) + 1) s (len l + 1) ->
  same_mem (put_str d (len (take n l) + 1) (take n l) m) (Str.strncat_loop n d s m).
Proof.
  unfold disjoint_from. revert d s l m. induction n as [|n IH]; intros d s l m Hs Hd.
  { cbn [Str.strncat_loop take]. by rewrite put_str_nil, fill_1. }
  cbn [Str.strncat_loop]. destruct l as [|c l]; cbn [cstr length take] in *.
  - rewrite Hs. cbn [Z.eqb negb]. by rewrite put_str_nil, fill_1.
  - destruct Hs as (Hc & Hc0 & Hs). rewrite Hc, (proj2 (Z.eqb_neq _ _) Hc0). cbn [negb].
    rewrite <- (IH _ _ l); [|apply cstr_insert; [lia|done]|lia].
    replace (Z.of_nat (S (length (take n l))) + 1) with (1 + (len (take n l) + 1)) by lia.
    apply put_str_cons. lia.
Qed.

Lemma put_str_head d l m : put_str d (len l + 1) l m d = hd 0 l.
Proof.
  pose proof (put_str_in d (len l + 1) l m 0 ltac:(lia)) as H0. rewrite Z.add_0_r in H0.
  rewrite H0. by destruct l.
Qed.

Lemma cstr_put_str d l m : (forall c, c ∈ l -> c <> 0) -> cstr (put_str d (len l + 1) l m) d l.
Proof.
  revert d m. induction l as [|c l IH]; intros d m Hl; cbn [cstr length].
  - by apply (put_str_head d [] m).
  - split_and!; [by apply (put_str_head d (c :: l) m)|apply Hl; set_solver|].
    + apply (cstr_ext (put_str (d + 1) (len l + 1) l (<[d := c]> m))); [|apply IH; set_solver].
      intros a _. replace (Z.of_nat (S (length l)) + 1) with (1 + (len l + 1)) by lia.
      symmetry. by rewrite (put_str_cons d (len l + 1)) by lia.
Qed.

(** A string behind the characters of another. *)
Lemma cstr_app m m' s l l2 :
  cstr m s l -> cstr m' (s + len l) l2 -> (forall a, s <= a < s + len l -> m' a = m a) ->
  cstr m' s (l ++ l2).
Proof.
  revert s. induction l as [|c l IH]; intros s Hs Hs2 He; cbn [cstr length app] in *.
  - by rewrite Z.add_0_r in Hs2.
  - destruct Hs as (Hc & Hc0 & Hs). split_and!; [rewrite <- Hc; apply He; lia|done|].
    apply IH; [done| |intros a Ha; apply He; lia].
    by replace (s + 1 + len l) with (s + Z.of_nat (S (length l))) by lia.
Qed.

Lemma strcat_ok fuel m d l s l2 :
  cstr m d l -> cstr m s l2 -> (length l <= fuel)%nat -> (length l2 <= fuel)%nat -> len l <= UINT32_MAX ->
  disjoint_from (d + len l) (len l2 + 1) s (len l2 + 1) ->
  exists m', Str.strcat fuel d s m = Some m' /\ cstr m' d (l ++ l2) /\
    same_mem (memcpy (d + len l) s (len l2 + 1) m) m'.
Proof.
  intros Hd Hs Hf Hf2 Hm Hdis. unfold Str.strcat. rewrite (strlen_ok _ _ _ l) by done.
  cbn [mbind option_bind]. destruct (strcpy_ok fuel m (d + len l) s l2) as (m' & E & Hm'); [done..|].
  exists m'. split_and!; [done| |done]. apply (cstr_app m); [done| |].
  - apply (cstr_ext (memcpy (d + len l) s (len l2 + 1) m)); [intros; apply Hm'|by apply cstr_memcpy].
  - intros a Ha. by rewrite Hm', memcpy_out by lia.
Qed.

Lemma strncat_ok fuel m d l s l2 n :
  cstr m d l -> cstr m s l2 -> (length l <= fuel)%nat -> len l <= UINT32_MAX ->
  let k := take (Z.to_nat n) l2 in
  disjoint_from (d + len l) (len k + 1) s (len l2 + 1) ->
  exists m', Str.strncat fuel d s n m = Some m' /\ cstr m' d (l ++ k) /\
    same_mem (put_str (d + len l) (len k + 1) k m) m'.
Proof.
  intros Hd Hs Hf Hm k Hdis. unfold Str.strncat. rewrite (strlen_ok _ _ _ l) by done.
  cbn [mbind option_bind].
  pose proof (strncat_loop_ok (Z.to_nat n) m (d + len l) s l2 Hs Hdis) as Hm'. fold k in Hm'.
  eexists. split; [done|]. split; [|done]. apply (cstr_app m); [done| |].
  - apply (cstr_ext (put_str (d + len l) (len k + 1) k m)); [intros; apply Hm'|].
    apply cstr_put_str. intros c Hc. apply (cstr_nonzero m s l2 c Hs).
    by apply (subseteq_take (Z.to_nat n)) in Hc.
  - intros a Ha. by rewrite Hm', put_str_out by lia.
Qed.

Lemma strncmp_ok (n : nat) m s1 s2 l1 l2 :
  cstr m s1 l1 -> cstr m s2 l2 -> Str.strncmp n s1 s2 m = diff (take n l1) (take n l2).
Proof.
  revert s1 s2 l1 l2. induction n as [|n IH]; intros s1 s2 l1 l2 H1 H2; [done|]. cbn [Str.strncmp].
  destruct l1 as [|a l1], l2 as [|b l2]; cbn [cstr take diff] in *.
  - by rewrite H1, H2.
  - destruct H2 as (H2 & Hb & _). rewrite H1, H2, (proj2 (Z.eqb_neq 0 b)) by lia. done.
  - destruct H1 as (H1 & Ha & _). rewrite H1, H2, (proj2 (Z.eqb_neq a 0)) by lia. cbn [andb]. lia.
  - destruct H1 as (-> & Ha & H1), H2 as (-> & Hb & H2).
    rewrite (proj2 (Z.eqb_neq a 0)) by lia. cbn [negb]. rewrite andb_true_r.
    destruct (a =? b); [|done]. by apply IH.
Qed.
End StringLemmas.

Section StringTheorems.
Implicit Types (m : memory) (d s : Z) (l : list Z) (fuel : nat).

(** C28: on strings shorter than the fuel, so on every terminated string, the
    string functions return. [strlen] counts the characters; [strcpy] leaves a
    copy of the string, null included, and changes nothing else; [strncpy] writes
    [n] bytes, the characters and then nulls; [strcat] and [strncat] put the
    string, or its first [n] characters, behind the one that is there and change
    nothing else; [strcmp] gives the difference of the first characters that
    differ, so zero exactly for equal strings, [strncmp] that of the first [n]
    characters of each; [strchr], [strrchr] and [strstr] find the first, the last
    and the first occurrence, or give null when there is none. *)
Theorem string_functions_correct fuel m d s l s2 l2 c n :
  cstr m s l -> cstr m s2 l2 -> (length l <= fuel)%nat -> (length l2 <= fuel)%nat ->
  len l <= UINT32_MAX -> len l2 <= UINT32_MAX -> 0 < s ->
  Str.strlen fuel s m = Some (len l) /\
  (disjoint_from d (len l + 1) s (len l + 1) ->
   exists m', Str.strcpy fuel d s m = Some m' /\ cstr m' d l /\
     same_mem (memcpy d s (len l + 1) m) m') /\
  (disjoint_from d (Z.of_nat n) s (len l + 1) ->
   same_mem (put_str d (Z.of_nat n) l m) (Str.strncpy n d s m)) /\
  (disjoint_from (s + len l) (len l2 + 1) s2 (len l2 + 1) ->
   exists m', Str.strcat fuel s s2 m = Some m' /\ cstr m' s (l ++ l2) /\
     same_mem (memcpy (s + len l) s2 (len l2 + 1) m) m') /\
  (disjoint_from (s + len l) (len (take n l2) + 1) s2 (len l2 + 1) ->
   exists m', Str.strncat fuel s s2 (Z.of_nat n) m = Some m' /\ cstr m' s (l ++ take n l2) /\
     same_mem (put_str (s + len l) (len (take n l2) + 1) (take n l2) m) m') /\
  Str.strncmp n s s2 m = diff (take n l) (take n l2) /\
  (exists r, Str.strcmp fuel s s2 m = Some r /\ r = diff l l2 /\ (r = 0 <-> l = l2)) /\
  (exists r, Str.strchr fuel s c m = Some r /\ first_at (starts_with (u8 c)) s l r) /\
  (exists r, Str.strrchr fuel s c m = Some r /\ last_at (starts_with (u8 c)) s l r) /\
  (exists r, Str.strstr fuel s s2 m = Some r /\ first_at (fun l => l2 `prefix_of` l) s l r).
Proof.
  intros Hs Hs2 Hf Hf2 Hm Hm2 H0. split_and!.
  - by apply strlen_ok.
  - intros Hd. destruct (strcpy_ok fuel m d s l Hs Hf Hd) as (m' & E & Hm'). exists m'.
    split_and!; [done| |done]. apply (cstr_ext (memcpy d s (len l + 1) m)).
    + intros a _. apply Hm'.
    + by apply cstr_memcpy.
  - intros Hd. by apply strncpy_put.
  - intros Hd. by apply strcat_ok.
  - intros Hd. pose proof (strncat_ok fuel m s l s2 l2 (Z.of_nat n) Hs Hs2 Hf Hm) as Hn.
    rewrite Nat2Z.id in Hn. by apply Hn.
  - by apply strncmp_ok.
  - eexists. split; [by apply strcmp_ok|]. split; [done|].
    apply diff_eq; intros x Hx; [apply (cstr_nonzero m s l x Hs Hx)|apply (cstr_nonzero m s2 l2 x Hs2 Hx)].
  - by apply strchr_ok.
  - by apply strrchr_ok.
  - by apply strstr_ok.
Qed.

Definition hello : memory :=
  fun a => if (a =? 120) || (a =? 121) then 108
           else nth (Z.to_nat (a - 100)) [104; 101; 108; 108; 111] 0.

(** The strings "hello" at 100 and "ll" at 120. *)
Lemma string_functions_correct_witness :
  Str.strlen 9 100 hello = Some 5 /\
  Str.strncpy 7 200 100 hello 206 = 0 /\
  (exists m', Str.strncat 9 100 120 1 hello = Some m' /\ cstr m' 100 [104; 101; 108; 108; 111; 108]) /\
  exists r, Str.strstr 9 100 120 hello = Some r /\
    first_at (fun l => [108; 108] `prefix_of` l) 100 [104; 101; 108; 108; 111] r.
Proof.
  pose proof (fun n => string_functions_correct 9 hello 200 100 [104; 101; 108; 108; 111] 120 [108; 108] 111 n
    ltac:(repeat split; discriminate) ltac:(repeat split; discriminate) ltac:(simpl; lia) ltac:(simpl; lia)
    ltac:(vm_compute; discriminate) ltac:(vm_compute; discriminate) ltac:(lia)) as H.
  destruct (H 7%nat) as (E & _ & Hn & _). destruct (H 1%nat) as (_ & _ & _ & _ & Hc & _ & _ & _ & _ & Hs).
  split; [exact E|]. split.
  - rewrite (Hn ltac:(unfold disjoint_from; simpl; lia) 206). reflexivity.
  - split; [|exact Hs]. destruct (Hc ltac:(unfold disjoint_from; simpl; lia)) as (m' & E' & Hm' & _).
    exists m'. split; [exact E'|exact Hm'].
Defined.
End StringTheorems.
