(* ===== verification/LibcStdlib.v ===== *)
(** * Numbers in strings (lib/libc/minimal: ctype.h, atoi.c, strtol.c, strtoul.c)

    The conversions, reading memory through pointers as the code does, at 32-bit
    width; loops over the string have fuel. *)
From S2P Require Import Prelude LibcString.

(** ** ctype.h: the arguments are [int]s, compared as [unsigned] *)
Definition isupper (a : Z) : bool := u32 (a - 65) <? 26.
Definition isalpha (c : Z) : bool := u32 (Z.lor (u32 c) 32 - 97) <? 26.
Definition isspace (c : Z) : bool := (c =? 32) || (u32 (c - 9) <? 5).
Definition isgraph (c : Z) : bool := (32 <? u32 c) && (u32 c <=? 126).
Definition isprint (c : Z) : bool := (32 <=? u32 c) && (u32 c <=? 126).
Definition isdigit (a : Z) : bool := u32 (a - 48) <? 10.
Definition isxdigit (a : Z) : bool :=
  (u32 (a - 48) <? 10) || (u32 (a - 97) <? 6) || (u32 (a - 65) <? 6).
Definition tolower (chr : Z) : Z := if (65 <=? chr) && (chr <=? 90) then chr + 32 else chr.
Definition toupper (chr : Z) : Z := if (97 <=? chr) && (chr <=? 122) then chr - 32 else chr.

Definition LONG_MAX : Z := 2147483647.
Definition LONG_MIN : Z := -2147483648.
Definition ULONG_MAX : Z := 4294967295.
Definition ERANGE : Z := 34.

Section Conversions.
Implicit Types (m : memory) (s c base : Z) (fuel : nat).

(** [while (isspace( *s)) s++;] *)
Fixpoint skip_spaces fuel s m : option Z :=
  if isspace (m s) then
    match fuel with O => None | S fuel => skip_spaces fuel (s + 1) m end
  else Some s.

(** [while (isdigit( *s)) n = 10*n - ( *s++ - '0');] *)
Fixpoint atoi_digits fuel s (n : Z) m : option Z :=
  if isdigit (m s) then
    match fuel with
    | O => None
    | S fuel => atoi_digits fuel (s + 1) (i32 (10 * n - (m s - 48))) m
    end
  else Some n.

Definition atoi fuel s m : option Z :=
  s ← skip_spaces fuel s m;
  let '(neg, s) := if m s =? 45 then (true, s + 1)
                   else if m s =? 43 then (false, s + 1) else (false, s) in
  n ← atoi_digits fuel s 0 m;
  Some (if neg then n else i32 (- n)).

(** [do { c = *s++; } while (isspace(c));] *)
Fixpoint next_nonspace fuel s m : option (Z * Z) :=
  let c := m s in
  if isspace c then
    match fuel with O => None | S fuel => next_nonspace fuel (s + 1) m end
  else Some (c, s + 1).

(** The digit a character stands for, if any. *)
Definition digit c : option Z :=
  if isdigit c then Some (c - 48)
  else if isalpha c then Some (c - (if isupper c then 55 else 87))
  else None.

(** The [for] loop: the accumulator, [any], and [s] at the end. *)
Fixpoint digits_loop fuel c s (acc any : Z) base (cutoff cutlim : Z) m : option (Z * Z * Z) :=
  match digit c with
  | None => Some (acc, any, s)
  | Some c =>
      if base <=? c then Some (acc, any, s) else
      let '(acc, any) :=
        if (any <? 0) || (cutoff <? acc) || ((acc =? cutoff) && (cutlim <? c)) then (acc, -1)
        else (u32 (u32 (acc * base) + c), 1) in
      match fuel with
      | O => None
      | S fuel => digits_loop fuel (m s) (s + 1) acc any base cutoff cutlim m
      end
  end.

(** What both functions do before the loop: the sign, the character after it,
    the pointer behind that character, and the base. *)
Definition strtol_prefix fuel (nptr base : Z) m : option (bool * Z * Z * Z) :=
  r ← next_nonspace fuel nptr m;
  let '(c, s) := r in
  let '(neg, c, s) := if c =? 45 then (true, m s, s + 1)
                      else if c =? 43 then (false, m s, s + 1) else (false, c, s) in
  let '(c, s, base) :=
    if ((base =? 0) || (base =? 16)) && (c =? 48) && ((m s =? 120) || (m s =? 88))
    then (m (s + 1), s + 2, 16) else (c, s, base) in
  let base := if base =? 0 then (if c =? 48 then 8 else 10) else base in
  Some (neg, c, s, base).

(** The result, whether [errno] is set to ERANGE, and the end pointer. *)
Definition strtol fuel (nptr base : Z) m : option (Z * bool * Z) :=
  r ← strtol_prefix fuel nptr base m;
  let '(neg, c, s, base) := r in
  let cutoff := if (neg : bool) then u32 (- LONG_MIN) else LONG_MAX in
  let cutlim := cutoff mod base in
  let cutoff := cutoff / base in
  r ← digits_loop fuel c s 0 0 base cutoff cutlim m;
  let '(acc, any, s) := r in
  let '(acc, erange) :=
    if any <? 0 then (if neg then u32 LONG_MIN else LONG_MAX, true)
    else if (neg : bool) then (u32 (- acc), false) else (acc, false) in
  Some (i32 acc, erange, if negb (any =? 0) then s - 1 else nptr).

Definition strtoul fuel (nptr base : Z) m : option (Z * bool * Z) :=
  r ← strtol_prefix fuel nptr base m;
  let '(neg, c, s, base) := r in
  let cutoff := ULONG_MAX / base in
  let cutlim := ULONG_MAX mod base in
  r ← digits_loop fuel c s 0 0 base cutoff cutlim m;
  let '(acc, any, s) := r in
  let '(acc, erange) :=
    if any <? 0 then (ULONG_MAX, true)
    else if (neg : bool) then (u32 (- acc), false) else (acc, false) in
  Some (acc, erange, if negb (any =? 0) then s - 1 else nptr).
End Conversions.

(** ** The numbers that digits stand for *)
Section Values.
Implicit Types (ds l : list Z) (base c : Z).

Definition value base ds : Z := foldl (fun acc d => acc * base + d) 0 ds.

Lemma value_snoc base ds d : value base (ds ++ [d]) = value base ds * base + d.
Proof. unfold value. by rewrite foldl_app. Qed.

Definition digits_ok base ds : Prop := forall d, d ∈ ds -> 0 <= d < base.

Lemma value_nonneg base ds : 0 < base -> digits_ok base ds -> 0 <= value base ds.
Proof.
  intros Hb. induction ds as [|d ds IH] using rev_ind; intros Hd; [done|]. rewrite value_snoc.
  specialize (IH ltac:(intros x Hx; apply Hd; set_solver)). specialize (Hd d ltac:(set_solver)). nia.
Qed.

(** More digits never make a number smaller. *)
Lemma value_app_le base ds ds' :
  0 < base -> digits_ok base (ds ++ ds') -> value base ds <= value base (ds ++ ds').
Proof.
  intros Hb. induction ds' as [|d ds' IH] using rev_ind; intros Hd; [by rewrite app_nil_r|].
  rewrite app_assoc, value_snoc. rewrite app_assoc in Hd.
  specialize (IH ltac:(intros x Hx; apply Hd; set_solver)).
  pose proof (value_nonneg base (ds ++ ds') Hb ltac:(intros x Hx; apply Hd; set_solver)).
  specialize (Hd d ltac:(set_solver)). nia.
Qed.

(** The characters [cs] are the digits [ds] of a number in base [base]. *)
Definition spells base (cs ds : list Z) : Prop :=
  Forall2 (fun c d => digit c = Some d /\ 0 <= d < base) cs ds.

(** [l] does not go on with a digit. *)
Definition stops base l : Prop := forall d, digit (hd 0 l) = Some d -> base <= d.

Lemma spells_ok base cs ds : spells base cs ds -> digits_ok base ds.
Proof.
  intros H. induction H as [|c d cs ds [_ Hd] _ IH]; [by intros x ?%elem_of_nil|].
  intros x [->|Hx]%elem_of_cons; [done|by apply IH].
Qed.
End Values.

(** ** The loops *)
Section Loops.
Implicit Types (m : memory) (s p c base : Z) (fuel : nat) (cs ds rest : list Z).

(** After the digits [ds]: the accumulator holds their value, or it exceeded [L]. *)
Definition accumulated base (L : Z) ds (acc any : Z) : Prop :=
  (any = -1 /\ L < value base ds) \/
  (any = (if decide (ds = []) then 0 else 1) /\ acc = value base ds /\ acc <= L).

Lemma cutoff_test base L acc d :
  0 < base -> 0 <= d < base -> 0 <= L ->
  (L / base <? acc) || ((acc =? L / base) && (L mod base <? d)) = (L <? acc * base + d).
Proof.
  intros Hb Hd HL. pose proof (Z.div_mod L base ltac:(lia)). pose proof (Z.mod_pos_bound L base Hb).
  destruct (Z.ltb_spec (L / base) acc), (Z.eqb_spec acc (L / base)), (Z.ltb_spec (L mod base) d),
    (Z.ltb_spec L (acc * base + d)); cbn [orb andb]; try done; try lia; nia.
Qed.

Lemma accumulate_step base L ds d acc any :
  0 < base -> 0 <= L <= ULONG_MAX -> digits_ok base (ds ++ [d]) -> accumulated base L ds acc any ->
  let '(acc, any) :=
    if (any <? 0) || (L / base <? acc) || ((acc =? L / base) && (L mod base <? d)) then (acc, -1)
    else (u32 (u32 (acc * base) + d), 1) in
  accumulated base L (ds ++ [d]) acc any.
Proof.
  intros Hb HL Hd Hacc. pose proof (Hd d ltac:(set_solver)) as Hdr.
  pose proof (value_nonneg base ds Hb ltac:(intros x Hx; apply Hd; set_solver)) as Hv.
  destruct Hacc as [[-> Hover]|(Ea & -> & Hle)].
  - cbn [Z.ltb Z.compare orb]. left. split; [done|].
    pose proof (value_app_le base ds [d] Hb Hd). lia.
  - assert (any <? 0 = false) as -> by (apply Z.ltb_ge; destruct (decide (ds = [])); lia).
    cbn [orb]. rewrite (cutoff_test base L (value base ds) d Hb Hdr ltac:(lia)), <- value_snoc.
    destruct (Z.ltb_spec L (value base (ds ++ [d]))); [by left|]. right.
    rewrite decide_False by (by destruct ds). split; [done|].
    rewrite value_snoc in *. unfold ULONG_MAX in HL.
    rewrite (u32_small (value base ds * base)) by (unfold UINT32_MAX; nia).
    rewrite u32_small by (unfold UINT32_MAX; lia). done.
Qed.

Lemma digits_loop_ok fuel base L m p cs ds0 ds rest acc any :
  0 < base -> 0 <= L <= ULONG_MAX -> cstr m p (cs ++ rest) -> spells base cs ds -> stops base rest ->
  digits_ok base ds0 -> (length cs <= fuel)%nat -> accumulated base L ds0 acc any ->
  exists acc' any', digits_loop fuel (m p) (p + 1) acc any base (L / base) (L mod base) m =
    Some (acc', any', p + 1 + len cs) /\ accumulated base L (ds0 ++ ds) acc' any'.
Proof.
  intros Hb HL Hs Hsp Hst. revert fuel p ds0 acc any Hs. induction Hsp as [|c d cs ds [Hc Hd] Hsp IH];
    intros fuel p ds0 acc any Hs Hok Hf Hacc.
  - assert (m p = hd 0 rest) as -> by (destruct rest; [done|by destruct Hs]).
    exists acc, any. rewrite app_nil_r. split; [|done]. cbn [length]. rewrite Z.add_0_r.
    destruct fuel; cbn [digits_loop]; (destruct (digit (hd 0 rest)) as [d|] eqn:E; [|done]);
      specialize (Hst d E); by rewrite (proj2 (Z.leb_le _ _) Hst).
  - cbn [app cstr length] in Hs, Hf. destruct Hs as (-> & _ & Hs). destruct fuel as [|fuel]; [lia|].
    cbn [digits_loop]. rewrite Hc. rewrite (proj2 (Z.leb_gt _ _)) by lia.
    assert (digits_ok base (ds0 ++ [d])) as Hok'.
    { intros x [Hx| ->%list_elem_of_singleton]%elem_of_app; [by apply Hok|done]. }
    pose proof (accumulate_step base L ds0 d acc any Hb HL Hok' Hacc) as Hstep.
    destruct (if (any <? 0) || _ || _ then _ else _) as [acc1 any1].
    destruct (IH fuel (p + 1) (ds0 ++ [d]) acc1 any1 Hs Hok' ltac:(lia) Hstep) as (acc' & any' & E & Hr).
    exists acc', any'. rewrite E. rewrite <- app_assoc in Hr. split; [|done]. do 2 f_equal.
    cbn [length]. lia.
Qed.

Lemma atoi_digits_ok fuel m p cs ds0 ds rest :
  cstr m p (cs ++ rest) -> Forall2 (fun c d => c = 48 + d /\ 0 <= d < 10) cs ds ->
  isdigit (hd 0 rest) = false -> digits_ok 10 ds0 -> (length cs <= fuel)%nat ->
  value 10 (ds0 ++ ds) <= 2 ^ 31 ->
  atoi_digits fuel p (- value 10 ds0) m = Some (- value 10 (ds0 ++ ds)).
Proof.
  intros Hs Hsp Hst. revert fuel p ds0 Hs. induction Hsp as [|c d cs ds [-> Hd] Hsp IH];
    intros fuel p ds0 Hs Hok Hf Hv.
  - rewrite app_nil_r. assert (m p = hd 0 rest) as Ep by (destruct rest; [done|by destruct Hs]).
    destruct fuel; cbn [atoi_digits]; by rewrite Ep, Hst.
  - cbn [app cstr length] in Hs, Hf. destruct Hs as (Ec & _ & Hs). destruct fuel as [|fuel]; [lia|].
    cbn [atoi_digits]. rewrite Ec.
    assert (isdigit (48 + d) = true) as ->.
    { unfold isdigit. rewrite u32_small by (unfold UINT32_MAX; lia). apply Z.ltb_lt. lia. }
    assert (digits_ok 10 (ds0 ++ [d])) as Hok'.
    { intros x [Hx| ->%list_elem_of_singleton]%elem_of_app; [by apply Hok|done]. }
    rewrite cons_middle, app_assoc in Hv |- *.
    assert (digits_ok 10 ((ds0 ++ [d]) ++ ds)) as Hall.
    { intros x [Hx|Hx]%elem_of_app; [by apply Hok'|].
      clear - Hsp Hx. induction Hsp as [|a b la lb [_ Hb] _ IH]; [by apply elem_of_nil in Hx|].
      apply elem_of_cons in Hx as [->|Hx]; auto. }
    pose proof (value_app_le 10 (ds0 ++ [d]) ds ltac:(lia) Hall) as Hle.
    pose proof (value_nonneg 10 (ds0 ++ [d]) ltac:(lia) Hok') as Hnn.
    replace (10 * - value 10 ds0 - (48 + d - 48)) with (- value 10 (ds0 ++ [d]))
      by (rewrite value_snoc; lia).
    rewrite i32_small by (unfold INT32_MIN, INT32_MAX; lia). apply IH; [done|done|lia|done].
Qed.
End Loops.

(** ** The conversions *)
Section Theorems.
Implicit Types (m : memory) (s base : Z) (fuel : nat) (sp sg cs ds rest : list Z).

(** White space, an optional sign, digits, and something that is not a digit. *)
Record numeral base sp sg cs ds rest : Prop := {
  nu_spaces : Forall (fun c => isspace c = true) sp;
  nu_sign : sg = [] \/ sg = [45] \/ sg = [43];
  nu_digits : spells base cs ds;
  nu_some : cs <> [];
  nu_stops : stops base rest
}.

Definition signed sg (v : Z) : Z := if decide (sg = [45]) then - v else v.

Lemma digit_range c d base : digit c = Some d -> 0 <= d < base -> base <= 36 -> 48 <= c <= 122.
Proof.
  unfold digit. intros Hd Hr Hb. destruct (isdigit c); [injection Hd as <-; lia|].
  destruct (isalpha c); [|done]. destruct (isupper c); injection Hd as <-; lia.
Qed.

Lemma not_space c : 33 <= c <= 122 -> isspace c = false.
Proof.
  intros. unfold isspace. rewrite (proj2 (Z.eqb_neq _ _)) by lia.
  rewrite u32_small by (unfold UINT32_MAX; lia). cbn [orb]. apply Z.ltb_ge. lia.
Qed.

Lemma next_nonspace_ok fuel m s sp l :
  cstr m s (sp ++ l) -> Forall (fun c => isspace c = true) sp -> isspace (hd 0 l) = false ->
  (length sp <= fuel)%nat ->
  next_nonspace fuel s m = Some (m (s + len sp), s + len sp + 1) /\ cstr m (s + len sp) l.
Proof.
  intros Hs Hsp Hl. revert fuel s Hs. induction Hsp as [|c sp Hc _ IH]; intros fuel s Hs Hf.
  - cbn [length app] in *. rewrite Z.add_0_r. split; [|done].
    assert (m s = hd 0 l) as E by (destruct l; [done|by destruct Hs]).
    destruct fuel; cbn [next_nonspace]; by rewrite E, Hl.
  - cbn [length app cstr] in *. destruct Hs as (Ec & _ & Hs). destruct fuel as [|fuel]; [lia|].
    cbn [next_nonspace]. rewrite Ec, Hc. destruct (IH fuel (s + 1) Hs ltac:(lia)) as [-> Hl'].
    replace (s + Z.of_nat (S (length sp))) with (s + 1 + len sp) by lia. done.
Qed.

Lemma skip_spaces_ok fuel m s sp l :
  cstr m s (sp ++ l) -> Forall (fun c => isspace c = true) sp -> isspace (hd 0 l) = false ->
  (length sp <= fuel)%nat -> skip_spaces fuel s m = Some (s + len sp).
Proof.
  intros Hs Hsp Hl. revert fuel s Hs. induction Hsp as [|c sp Hc _ IH]; intros fuel s Hs Hf.
  - cbn [length app] in *. rewrite Z.add_0_r.
    assert (m s = hd 0 l) as E by (destruct l; [done|by destruct Hs]).
    destruct fuel; cbn [skip_spaces]; by rewrite E, Hl.
  - cbn [length app cstr] in *. destruct Hs as (Ec & _ & Hs). destruct fuel as [|fuel]; [lia|].
    cbn [skip_spaces]. rewrite Ec, Hc. rewrite (IH fuel (s + 1) Hs ltac:(lia)). f_equal. lia.
Qed.

(** The first character of the digits. *)
Lemma spells_head base cs ds :
  spells base cs ds -> cs <> [] -> base <= 36 -> exists c cs', cs = c :: cs' /\ 48 <= c <= 122.
Proof.
  intros [|c d cs' ds' [Hc Hd] _] Hne Hb; [done|]. exists c, cs'. split; [done|].
  by eapply digit_range.
Qed.

(** Behind the white space and the sign, the conversion starts at the digits. *)
Lemma strtol_prefix_ok fuel m s base sp sg cs ds rest :
  numeral base sp sg cs ds rest -> cstr m s (sp ++ sg ++ cs ++ rest) -> (length sp <= fuel)%nat ->
  2 <= base <= 36 -> base <> 16 ->
  let p := s + len sp + len sg in
  strtol_prefix fuel s base m = Some (bool_decide (sg = [45]), m p, p + 1, base) /\
  cstr m p (cs ++ rest).
Proof.
  intros [Hsp Hsg Hds Hne _] Hs Hf Hb H16. cbn zeta.
  destruct (spells_head base cs ds Hds Hne ltac:(lia)) as (c & cs' & -> & Hc).
  assert (isspace (hd 0 (sg ++ (c :: cs') ++ rest)) = false) as Hns.
  { destruct Hsg as [->|[->| ->]]; cbn [app hd]; [apply not_space; lia|done|done]. }
  destruct (next_nonspace_ok fuel m s sp _ Hs Hsp Hns Hf) as [E Hl].
  unfold strtol_prefix. rewrite E. cbn [mbind option_bind].
  rewrite (proj2 (Z.eqb_neq base 0)), (proj2 (Z.eqb_neq base 16)) by lia. cbn [orb andb].
  destruct Hsg as [->|[->| ->]]; cbn [app length cstr] in Hl |- *.
  - destruct Hl as (Ec & Hc0 & Hl). rewrite Z.add_0_r, Ec.
    rewrite (proj2 (Z.eqb_neq c 45)), (proj2 (Z.eqb_neq c 43)) by lia. cbn [andb].
    rewrite (proj2 (Z.eqb_neq base 0)) by lia. done.
  - destruct Hl as (Ec & _ & Hl). rewrite Ec. cbn [Z.eqb Pos.eqb andb].
    rewrite (proj2 (Z.eqb_neq base 0)) by lia. done.
  - destruct Hl as (Ec & _ & Hl). rewrite Ec. cbn [Z.eqb Pos.eqb andb].
    rewrite (proj2 (Z.eqb_neq base 0)) by lia. done.
Qed.

Definition in_long (v : Z) : bool := (LONG_MIN <=? v) && (v <=? LONG_MAX).
Definition clamp_long (v : Z) : Z := Z.max LONG_MIN (Z.min LONG_MAX v).

Lemma strtol_ok fuel m s base sp sg cs ds rest :
  numeral base sp sg cs ds rest -> cstr m s (sp ++ sg ++ cs ++ rest) ->
  (length sp <= fuel)%nat -> (length cs <= fuel)%nat -> 2 <= base <= 36 -> base <> 16 ->
  let v := signed sg (value base ds) in
  strtol fuel s base m = Some (clamp_long v, negb (in_long v), s + len (sp ++ sg ++ cs)).
Proof.
  intros Hnu Hs Hf1 Hf2 Hb H16. cbn zeta.
  destruct (strtol_prefix_ok fuel m s base sp sg cs ds rest Hnu Hs Hf1 Hb H16) as [E Hp].
  destruct Hnu as [_ Hsg Hds Hne Hst]. unfold strtol. rewrite E. cbn [mbind option_bind].
  set (neg := bool_decide (sg = [45])). set (L := if neg then u32 (- LONG_MIN) else LONG_MAX).
  set (p := s + len sp + len sg) in *.
  assert (L = if neg then 2147483648 else 2147483647) as EL by (unfold L; by destruct neg).
  assert (0 <= L <= ULONG_MAX) as HL by (rewrite EL; unfold ULONG_MAX; destruct neg; lia).
  destruct (digits_loop_ok fuel base L m p cs [] ds rest 0 0) as (acc & any & El & Hacc); try done.
  { lia. } { by intros x ?%elem_of_nil. }
  { right. rewrite decide_True by done. split_and!; [done|done|lia]. }
  rewrite El. cbn [mbind option_bind app] in Hacc |- *.
  pose proof (value_nonneg base ds ltac:(lia) (spells_ok base cs ds Hds)) as Hv.
  assert (ds <> []) as Hds0 by (intros ->; by inversion Hds; subst).
  assert (Hend : p + 1 + len cs - 1 = s + len (sp ++ sg ++ cs))
    by (unfold p; rewrite !length_app; lia).
  unfold signed, clamp_long, in_long, LONG_MIN, LONG_MAX in *. fold neg.
  assert ((if decide (sg = [45]) then - value base ds else value base ds) =
    if neg then - value base ds else value base ds) as ->.
  { unfold neg. destruct (decide (sg = [45])); [by rewrite bool_decide_true|by rewrite bool_decide_false]. }
  destruct Hacc as [[-> Hover]|(Ea & -> & Hle)].
  - cbn [Z.ltb Z.compare negb Z.eqb]. rewrite EL in Hover. rewrite Hend. destruct neg.
    + rewrite (proj2 (Z.leb_gt _ _)) by lia. cbn [andb negb].
      change (i32 (u32 (-2147483648))) with (-2147483648). do 3 f_equal. lia.
    + rewrite andb_comm, (proj2 (Z.leb_gt _ _)) by lia. cbn [andb negb].
      change (i32 2147483647) with 2147483647. do 3 f_equal. lia.
  - rewrite decide_False in Ea by done. subst any. cbn [Z.ltb Z.compare negb Z.eqb Pos.eqb].
    rewrite EL in Hle. rewrite Hend. destruct neg.
    + rewrite (proj2 (Z.leb_le (-2147483648) _)), (proj2 (Z.leb_le _ 2147483647)) by lia.
      cbn [andb negb]. do 3 f_equal.
      rewrite Z.min_r, Z.max_r by lia. unfold wrap_s, wrap_u.
      rewrite Zplus_mod_idemp_l. rewrite Z.mod_small by (cbn; lia). lia.
    + rewrite (proj2 (Z.leb_le (-2147483648) _)), (proj2 (Z.leb_le _ 2147483647)) by lia.
      cbn [andb negb]. do 3 f_equal. rewrite Z.min_r, Z.max_r by lia.
      apply i32_small. unfold INT32_MIN, INT32_MAX. lia.
Qed.

Lemma strtoul_ok fuel m s base sp sg cs ds rest :
  numeral base sp sg cs ds rest -> cstr m s (sp ++ sg ++ cs ++ rest) ->
  (length sp <= fuel)%nat -> (length cs <= fuel)%nat -> 2 <= base <= 36 -> base <> 16 ->
  let v := value base ds in
  strtoul fuel s base m =
    Some (if ULONG_MAX <? v then ULONG_MAX else u32 (signed sg v), ULONG_MAX <? v, s + len (sp ++ sg ++ cs)).
Proof.
  intros Hnu Hs Hf1 Hf2 Hb H16. cbn zeta.
  destruct (strtol_prefix_ok fuel m s base sp sg cs ds rest Hnu Hs Hf1 Hb H16) as [E Hp].
  destruct Hnu as [_ Hsg Hds Hne Hst]. unfold strtoul. rewrite E. cbn [mbind option_bind].
  set (p := s + len sp + len sg) in *.
  destruct (digits_loop_ok fuel base ULONG_MAX m p cs [] ds rest 0 0) as (acc & any & El & Hacc); try done.
  { lia. } { by intros x ?%elem_of_nil. }
  { right. rewrite decide_True by done. by split_and!. }
  rewrite El. cbn [mbind option_bind app] in Hacc |- *.
  pose proof (value_nonneg base ds ltac:(lia) (spells_ok base cs ds Hds)) as Hv.
  assert (ds <> []) as Hds0 by (intros ->; by inversion Hds; subst).
  assert (Hend : p + 1 + len cs - 1 = s + len (sp ++ sg ++ cs))
    by (unfold p; rewrite !length_app; lia).
  unfold signed. destruct Hacc as [[-> Hover]|(Ea & -> & Hle)].
  - cbn [Z.ltb Z.compare negb Z.eqb]. rewrite Hend. by rewrite (proj2 (Z.ltb_lt _ _) Hover).
  - rewrite decide_False in Ea by done. subst any. cbn [Z.ltb Z.compare negb Z.eqb Pos.eqb].
    rewrite Hend, (proj2 (Z.ltb_ge _ _) Hle). unfold ULONG_MAX in Hle.
    destruct (decide (sg = [45])); [by rewrite bool_decide_true|rewrite bool_decide_false by done].
    rewrite u32_small by (unfold UINT32_MAX; lia). done.
Qed.

Lemma decimal_digit c d : digit c = Some d -> 0 <= d < 10 -> c = 48 + d.
Proof.
  unfold digit. intros Hd Hr. destruct (isdigit c); [injection Hd as <-; lia|].
  destruct (isalpha c) eqn:Ea; [|done]. destruct (isupper c) eqn:Eu; injection Hd as <-; exfalso.
  - revert Eu. assert (c = 55 \/ c = 56 \/ c = 57 \/ c = 58 \/ c = 59 \/ c = 60 \/ c = 61 \/ c = 62 \/
      c = 63 \/ c = 64) as Hc by lia. clear -Hc. by destruct_or!; subst.
  - revert Ea Eu. assert (c = 87 \/ c = 88 \/ c = 89 \/ c = 90 \/ c = 91 \/ c = 92 \/ c = 93 \/ c = 94 \/
      c = 95 \/ c = 96) as Hc by lia. clear -Hc. by destruct_or!; subst.
Qed.

Lemma cstr_skip m s l1 l2 : cstr m s (l1 ++ l2) -> cstr m (s + len l1) l2.
Proof.
  revert s. induction l1 as [|c l1 IH]; intros s Hs; cbn [app length cstr] in *; [by rewrite Z.add_0_r|].
  destruct Hs as (_ & _ & Hs). apply IH in Hs.
  by replace (s + Z.of_nat (S (length l1))) with (s + 1 + len l1) by lia.
Qed.

Lemma cstr_head m s l : cstr m s l -> m s = hd 0 l.
Proof. destruct l; [done|by intros [? _]]. Qed.

Lemma stops_decimal l : 0 <= hd 0 l < 256 -> stops 10 l -> isdigit (hd 0 l) = false.
Proof.
  intros Hb Hst. destruct (isdigit (hd 0 l)) eqn:Er; [|done]. specialize (Hst (hd 0 l - 48)).
  unfold digit in Hst. rewrite Er in Hst. specialize (Hst eq_refl). unfold isdigit in Er.
  rewrite u32_small in Er by (unfold UINT32_MAX; lia). apply Z.ltb_lt in Er. lia.
Qed.

Lemma atoi_ok fuel m s sp sg cs ds rest :
  bytes_ok m -> numeral 10 sp sg cs ds rest -> cstr m s (sp ++ sg ++ cs ++ rest) ->
  (length sp <= fuel)%nat -> (length cs <= fuel)%nat -> in_long (signed sg (value 10 ds)) = true ->
  atoi fuel s m = Some (signed sg (value 10 ds)).
Proof.
  intros Hm [Hsp Hsg Hds Hne Hst] Hs Hf1 Hf2 Hin.
  destruct (spells_head 10 cs ds Hds Hne ltac:(lia)) as (c & cs' & Ecs & Hc).
  assert (isspace (hd 0 (sg ++ cs ++ rest)) = false) as Hns.
  { rewrite Ecs. destruct Hsg as [->|[->| ->]]; cbn [app hd]; [apply not_space; lia|done|done]. }
  pose proof (cstr_skip m s sp _ Hs) as Hl.
  unfold atoi. rewrite (skip_spaces_ok fuel m s sp _ Hs Hsp Hns Hf1). cbn [mbind option_bind].
  set (p := s + len sp) in *.
  assert (Hcs : Forall2 (fun c d => c = 48 + d /\ 0 <= d < 10) cs ds).
  { eapply Forall2_impl; [exact Hds|]. intros x d [Hx Hd]. split; [by apply decimal_digit|done]. }
  assert (Hrest : isdigit (hd 0 rest) = false).
  { apply stops_decimal; [|done]. rewrite <- (cstr_head m (p + len sg + len cs)); [apply Hm|].
    by do 2 apply cstr_skip. }
  pose proof (value_nonneg 10 ds ltac:(lia) (spells_ok 10 cs ds Hds)) as Hv.
  unfold in_long, LONG_MIN, LONG_MAX in Hin. apply andb_true_iff in Hin as [H1%Z.leb_le H2%Z.leb_le].
  pose proof (cstr_skip m p sg _ Hl) as Hd.
  assert (Hloop : value 10 ds <= 2 ^ 31 ->
    atoi_digits fuel (p + len sg) 0 m = Some (- value 10 ds)).
  { intros Hmax. apply (atoi_digits_ok fuel m (p + len sg) cs [] ds rest); try done.
    by intros x ?%elem_of_nil. }
  pose proof (cstr_head _ _ _ Hl) as Ehd. unfold signed in *.
  destruct Hsg as [->|[->| ->]]; cbn [app hd length] in Ehd, Hloop;
    try change (Z.of_nat 1) with 1 in Hloop.
  - rewrite Ecs in Ehd. cbn [app hd] in Ehd. rewrite Ehd, Z.add_0_r in *.
    rewrite (proj2 (Z.eqb_neq c 45)), (proj2 (Z.eqb_neq c 43)) by lia.
    rewrite decide_False in * by done. rewrite Hloop by lia. cbn [mbind option_bind].
    rewrite i32_small by (unfold INT32_MIN, INT32_MAX; lia). f_equal. lia.
  - rewrite Ehd. cbn [Z.eqb Pos.eqb]. rewrite decide_True in * by done. by rewrite Hloop by lia.
  - rewrite Ehd. cbn [Z.eqb Pos.eqb]. rewrite decide_False in * by done.
    rewrite Hloop by lia. cbn [mbind option_bind].
    rewrite i32_small by (unfold INT32_MIN, INT32_MAX; lia). f_equal. lia.
Qed.

(** [strtol], [strtoul] and [atoi] read numerals right: after white space and
    a sign, up to the first character that is not a digit of the base, which is
    where the end pointer points. [strtol] gives the number when it is in range,
    and otherwise the nearer limit with ERANGE; [strtoul] gives ULONG_MAX with
    ERANGE above its range; [atoi] agrees with [strtol] on numbers in range. *)
Theorem number_conversions_correct fuel m s base sp sg cs ds rest :
  bytes_ok m -> numeral base sp sg cs ds rest -> cstr m s (sp ++ sg ++ cs ++ rest) ->
  (length sp <= fuel)%nat -> (length cs <= fuel)%nat -> 2 <= base <= 36 -> base <> 16 ->
  let v := value base ds in
  strtol fuel s base m =
    Some (clamp_long (signed sg v), negb (in_long (signed sg v)), s + len (sp ++ sg ++ cs)) /\
  strtoul fuel s base m =
    Some (if ULONG_MAX <? v then ULONG_MAX else u32 (signed sg v), ULONG_MAX <? v,
          s + len (sp ++ sg ++ cs)) /\
  (base = 10 -> in_long (signed sg v) = true -> atoi fuel s m = Some (signed sg v)).
Proof.
  intros Hm Hnu Hs Hf1 Hf2 Hb H16. cbn zeta. split_and!.
  - by eapply strtol_ok.
  - by eapply strtoul_ok.
  - intros ->. by eapply atoi_ok.
Qed.

(** "  -4294967296,": below the range. *)
Definition too_small : memory :=
  fun a => nth (Z.to_nat (a - 100)) [32; 32; 45; 52; 50; 57; 52; 57; 54; 55; 50; 57; 54; 44] 0.

Lemma number_conversions_correct_witness :
  strtol 20 100 10 too_small = Some (LONG_MIN, true, 113).
Proof.
  destruct (number_conversions_correct 20 too_small 100 10 [32; 32] [45]
    [52; 50; 57; 52; 57; 54; 55; 50; 57; 54] [4; 2; 9; 4; 9; 6; 7; 2; 9; 6] [44]) as (E & _).
  - intros a. unfold too_small.
    assert (Forall (fun b => 0 <= b < 256) [32; 32; 45; 52; 50; 57; 52; 57; 54; 55; 50; 57; 54; 44]) as HF
      by (repeat constructor; lia).
    destruct (nth_in_or_default (Z.to_nat (a - 100))
      [32; 32; 45; 52; 50; 57; 52; 57; 54; 55; 50; 57; 54; 44] 0) as [Hin| ->]; [|lia].
    rewrite Forall_forall in HF. apply HF. by apply list_elem_of_In.
  - split.
    + repeat constructor.
    + right. by left.
    + repeat constructor; lia.
    + discriminate.
    + intros d. vm_compute. discriminate.
  - repeat split; discriminate.
  - simpl. lia.
  - simpl. lia.
  - lia.
  - discriminate.
  - exact E.
Defined.
End Theorems.
