(* ===== verification/Printk.v ===== *)
(** * Formatted output (misc/printk.c)

    The formatter is written against the output function it is passed, as in the
    code: [out c ctx] is the context after the character [c]. The format and the
    strings are read from memory as the output has left it, [read ctx], so that
    a buffer that overlaps them is treated as the code treats it; the variable
    arguments are the sequence of their 32-bit values. *)
From S2P Require Import Prelude LibcString LibcStdlib.

Section Formatter.
Context {C : Type} (out : Z -> C -> C) (read : C -> memory).
Implicit Types (ctx : C) (num min_width : Z) (pad_zero : bool).

Definition pad_char pad_zero : Z := if pad_zero then 48 else 32.

(** The [for] loop of [_printk_hex_ulong]. *)
Fixpoint hex_loop (size : nat) num pad_zero min_width (found : bool) (remaining : Z) ctx : C :=
  match size with
  | O => ctx
  | S size' =>
      let nibble := Z.land (Z.shiftr num (Z.shiftl (Z.of_nat size') 2)) 15 in
      if negb (nibble =? 0) || found || (size =? 1)%nat then
        let nibble := nibble + (if 9 <? nibble then 87 else 48) in
        hex_loop size' num pad_zero min_width true remaining (out nibble ctx)
      else
        let ctx := if remaining <=? min_width then out (pad_char pad_zero) ctx else ctx in
        hex_loop size' num pad_zero min_width found (remaining - 1) ctx
  end.

Definition _printk_hex_ulong num pad_zero min_width ctx : C :=
  hex_loop 8 num pad_zero min_width false 8 ctx.

(** The [while] loop of [_printk_dec_ulong]: [pos] is below ten after nine turns. *)
Fixpoint dec_loop (fuel : nat) (pos remainder : Z) pad_zero min_width (found : bool)
    (remaining : Z) ctx : option (Z * C) :=
  if 9 <=? pos then
    match fuel with
    | O => None
    | S fuel =>
        let '(found, ctx) :=
          if found || (pos <? remainder) then (true, out (remainder / (pos + 1) + 48) ctx)
          else (found, if remaining <=? min_width then out (pad_char pad_zero) ctx else ctx) in
        dec_loop fuel (pos / 10) (remainder mod (pos + 1)) pad_zero min_width found (remaining - 1) ctx
    end
  else Some (remainder, ctx).

Definition _printk_dec_ulong num pad_zero min_width ctx : option C :=
  let min_width := if min_width <=? 0 then 1 else min_width in
  r ← dec_loop 9 999999999 num pad_zero min_width false 10 ctx;
  let '(remainder, ctx) := r in
  Some (out (remainder + 48) ctx).

(** [while ( *s) out( *s++, ctx);] *)
Fixpoint out_string (fuel : nat) (s : Z) ctx : option C :=
  if negb (read ctx s =? 0) then
    match fuel with O => None | S fuel => out_string fuel (s + 1) (out (read ctx s) ctx) end
  else Some ctx.

(** The loop over the format: [n] bounds its length, [fuel] that of the strings
    printed. [None] when they do not suffice, and for a missing argument. *)
Fixpoint vprintk_loop (fuel n : nat) (fmt : Z) (might_format pad_zero : bool)
    (min_width : Z) (ap : list Z) ctx : option C :=
  let c := read ctx fmt in
  if c =? 0 then Some ctx else
  match n with
  | O => None
  | S n =>
      let fmt := fmt + 1 in
      if negb might_format then
        if negb (c =? 37) then vprintk_loop fuel n fmt false pad_zero min_width ap (out c ctx)
        else vprintk_loop fuel n fmt true false (-1) ap ctx
      else if (c =? 48) && (min_width <? 0) && negb pad_zero then
        vprintk_loop fuel n fmt true true min_width ap ctx
      else if (48 <=? c) && (c <=? 57) then
        let min_width := if min_width <? 0 then c - 48 else i32 (10 * min_width + c - 48) in
        vprintk_loop fuel n fmt true pad_zero min_width ap ctx
      else if (c =? 122) || (c =? 108) || (c =? 104) then
        vprintk_loop fuel n fmt true pad_zero min_width ap ctx
      else if (c =? 100) || (c =? 105) then
        match ap with
        | [] => None
        | d :: ap =>
            let d := i32 d in
            let '(d, ctx, min_width) :=
              if d <? 0 then (i32 (- d), out 45 ctx, min_width - 1) else (d, ctx, min_width) in
            ctx ← _printk_dec_ulong (u32 d) pad_zero min_width ctx;
            vprintk_loop fuel n fmt false pad_zero min_width ap ctx
        end
      else if c =? 117 then
        match ap with
        | [] => None
        | u :: ap =>
            ctx ← _printk_dec_ulong (u32 u) pad_zero min_width ctx;
            vprintk_loop fuel n fmt false pad_zero min_width ap ctx
        end
      else if (c =? 112) || (c =? 120) || (c =? 88) then
        let '(pad_zero, min_width, ctx) :=
          if c =? 112 then (true, 8, out 120 (out 48 ctx)) else (pad_zero, min_width, ctx) in
        match ap with
        | [] => None
        | x :: ap =>
            vprintk_loop fuel n fmt false pad_zero min_width ap
              (_printk_hex_ulong (u32 x) pad_zero min_width ctx)
        end
      else if c =? 115 then
        match ap with
        | [] => None
        | s :: ap =>
            ctx ← out_string fuel s ctx;
            vprintk_loop fuel n fmt false pad_zero min_width ap ctx
        end
      else if c =? 99 then
        match ap with
        | [] => None
        | x :: ap => vprintk_loop fuel n fmt false pad_zero min_width ap (out x ctx)
        end
      else if c =? 37 then vprintk_loop fuel n fmt false pad_zero min_width ap (out 37 ctx)
      else vprintk_loop fuel n fmt false pad_zero min_width ap (out c (out 37 ctx))
  end.

Definition _vprintk (fuel : nat) (fmt : Z) (ap : list Z) ctx : option C :=
  vprintk_loop fuel fuel fmt false false (-1) ap ctx.
End Formatter.

(** ** The callers *)

(** [printk]: the console's characters, in order, and the count. *)
Definition char_out (c : Z) (ctx : list Z * Z) : list Z * Z := (fst ctx ++ [c], i32 (snd ctx + 1)).

Definition printk (fuel : nat) (fmt : Z) (ap : list Z) (m : memory) : option (list Z * Z) :=
  _vprintk char_out (fun _ => m) fuel fmt ap ([], 0).

Record str_context := mk_str { str : Z; max : Z; count : Z; mem : memory }.

Definition str_out (c : Z) (ctx : str_context) : str_context :=
  let n := count ctx in
  if (str ctx =? 0) || (max ctx <=? n) then mk_str (str ctx) (max ctx) (i32 (n + 1)) (mem ctx)
  else if n =? max ctx - 1
  then mk_str (str ctx) (max ctx) (i32 (n + 1)) (<[str ctx + n := 0]> (mem ctx))
  else mk_str (str ctx) (max ctx) (i32 (n + 1)) (<[str ctx + n := u8 c]> (mem ctx)).

(** [snprintk] and [vsnprintk]. *)
Definition snprintk (fuel : nat) (s size fmt : Z) (ap : list Z) (m : memory) : option (Z * memory) :=
  ctx ← _vprintk str_out mem fuel fmt ap (mk_str s (i32 size) 0 m);
  Some (count ctx, if count ctx <? max ctx then <[s + count ctx := 0]> (mem ctx) else mem ctx).

(** ** What is to be printed *)

(** *** Numerals *)
Section Numerals.
Context (base : Z).

(** The [k] lowest digits of a number, the highest first. *)
Fixpoint low_digits (k : nat) (n : Z) : list Z :=
  match k with
  | O => []
  | S k => (n / base ^ Z.of_nat k) mod base :: low_digits k n
  end.

(** How many digits a number has, of at most [S k]; zero has one. *)
Fixpoint digit_count (k : nat) (n : Z) : nat :=
  match k with
  | O => 1
  | S k' => if base ^ Z.of_nat k <=? n then S k else digit_count k' n
  end.
End Numerals.

Definition hex_char (d : Z) : Z := d + (if 9 <? d then 87 else 48).
Definition dec_char (d : Z) : Z := d + 48.

(** The digits of a number, padded to a width of at most [k + 1] characters. *)
Definition numeral (base : Z) (k : nat) (char : Z -> Z) (n : Z) (pad : bool) (w : Z) : list Z :=
  let c := digit_count base k n in
  replicate (Z.to_nat (Z.min w (Z.of_nat k + 1)) - c) (pad_char pad) ++ (char <$> low_digits base c n).

Definition decimal := numeral 10 9 dec_char.
Definition hexadecimal := numeral 16 7 hex_char.

(** *** Formats *)

(** An argument: a number or a string. *)
Inductive arg := Num (x : Z) | Str (l : list Z).

(** What the conversion [c], with its flags, makes of the arguments: the text and
    the arguments left. [None] when there is none of the kind it takes. *)
Definition conversion (c : Z) (pad : bool) (w : Z) (args : list arg) : option (list Z * list arg) :=
  if (c =? 100) || (c =? 105) then
    match args with
    | Num x :: args =>
        let d := i32 x in
        Some (if d <? 0 then 45 :: decimal (- d) pad (w - 1) else decimal d pad w, args)
    | _ => None
    end
  else if c =? 117 then
    match args with Num x :: args => Some (decimal (u32 x) pad w, args) | _ => None end
  else if c =? 112 then
    match args with Num x :: args => Some (48 :: 120 :: hexadecimal (u32 x) true 8, args) | _ => None end
  else if (c =? 120) || (c =? 88) then
    match args with Num x :: args => Some (hexadecimal (u32 x) pad w, args) | _ => None end
  else if c =? 115 then
    match args with Str l :: args => Some (l, args) | _ => None end
  else if c =? 99 then
    match args with Num x :: args => Some ([x], args) | _ => None end
  else if c =? 37 then Some ([37], args)
  else Some ([37; c], args).

(** The text of a format, from outside of a conversion or, with its flags, from
    inside of one. *)
Fixpoint text_from (fmt : list Z) (flags : option (bool * Z)) (args : list arg) : option (list Z) :=
  match fmt with
  | [] => Some []
  | c :: fmt =>
      match flags with
      | None => if c =? 37 then text_from fmt (Some (false, -1)) args
                else o ← text_from fmt None args; Some (c :: o)
      | Some (pad, w) =>
          if (c =? 48) && (w <? 0) && negb pad then text_from fmt (Some (true, w)) args
          else if (48 <=? c) && (c <=? 57) then
            text_from fmt (Some (pad, if w <? 0 then c - 48 else i32 (10 * w + c - 48))) args
          else if (c =? 122) || (c =? 108) || (c =? 104) then text_from fmt (Some (pad, w)) args
          else '(o, args) ← conversion c pad w args; o' ← text_from fmt None args; Some (o ++ o')
      end
  end.

Definition text (fmt : list Z) (args : list arg) : option (list Z) := text_from fmt None args.

(** ** Printing numbers *)
Section Numbers.
Implicit Types (n rem w : Z) (k : nat) (o : list Z).

(** Collecting the characters. *)
Definition collect (c : Z) o : list Z := o ++ [c].

Lemma length_low_digits base k n : length (low_digits base k n) = k.
Proof. induction k as [|k IH]; cbn [low_digits length]; [done|]. by rewrite IH. Qed.

Lemma low_digits_ok base k n : 0 < base -> digits_ok base (low_digits base k n).
Proof.
  intros Hb. induction k as [|k IH]; cbn [low_digits]; [by intros x ?%elem_of_nil|].
  intros x [->|Hx]%elem_of_cons; [by apply Z.mod_pos_bound|by apply IH].
Qed.

Lemma low_digits_mod base k j n :
  0 < base -> (k <= j)%nat -> low_digits base k (n mod base ^ Z.of_nat j) = low_digits base k n.
Proof.
  intros Hb. induction k as [|k IH]; intros Hj; cbn [low_digits]; [done|]. rewrite IH by lia. f_equal.
  replace (Z.of_nat j) with (Z.of_nat k + Z.of_nat (j - k)) by lia.
  assert (0 < base ^ Z.of_nat k /\ 0 < base ^ Z.of_nat (j - k)) as [? ?]
    by (split; apply Z.pow_pos_nonneg; lia).
  rewrite Z.pow_add_r, Z.rem_mul_r by lia. rewrite (Z.mul_comm (base ^ Z.of_nat k)).
  rewrite Z.div_add by lia. rewrite (Z.div_small (n mod _)), Z.add_0_l by (apply Z.mod_pos_bound; lia).
  replace (Z.of_nat (j - k)) with (1 + Z.of_nat (j - k - 1)) by lia.
  rewrite Z.pow_add_r, Z.pow_1_r, Z.rem_mul_r by (try apply Z.pow_nonzero; lia).
  rewrite Z.mul_comm, Z.mod_add by lia. by rewrite Z.mod_mod by lia.
Qed.

Lemma value_cons base d ds : value base (d :: ds) = d * base ^ len ds + value base ds.
Proof.
  induction ds as [|x ds IH] using rev_ind; [cbn; lia|].
  rewrite app_comm_cons, !value_snoc, IH, length_app. cbn [length].
  replace (Z.of_nat (length ds + 1)) with (len ds + 1) by lia. rewrite Z.pow_add_r by lia. lia.
Qed.

Lemma value_low_digits base k n : 0 < base -> value base (low_digits base k n) = n mod base ^ Z.of_nat k.
Proof.
  intros Hb. induction k as [|k IH]; cbn [low_digits]; [cbn; by rewrite Z.mod_1_r|].
  rewrite value_cons, IH, length_low_digits. rewrite Nat2Z.inj_succ, <- Z.add_1_r, Z.pow_add_r, Z.pow_1_r by lia.
  rewrite Z.rem_mul_r by (try apply Z.pow_nonzero; lia). lia.
Qed.

Lemma digit_count_range base k n : (1 <= digit_count base k n <= S k)%nat.
Proof. induction k as [|k IH]; cbn [digit_count]; [lia|]. destruct (_ <=? _); lia. Qed.

Lemma digit_count_enough base k n :
  n < base ^ Z.of_nat (S k) -> n < base ^ Z.of_nat (digit_count base k n).
Proof.
  induction k as [|k IH]; intros Hn; cbn [digit_count]; [done|].
  destruct (Z.leb_spec (base ^ Z.of_nat (S k)) n); [done|]. by apply IH.
Qed.

(** A position before the first digit, and that of the first digit. *)
Lemma numeral_leading base k char n pad w :
  n < base ^ Z.of_nat (S k) ->
  numeral base (S k) char n pad w =
  (if Z.of_nat (S k) + 1 <=? w then [pad_char pad] else []) ++ numeral base k char n pad w.
Proof.
  intros Hn. unfold numeral. cbn [digit_count]. rewrite (proj2 (Z.leb_gt _ _)) by done.
  pose proof (digit_count_range base k n). rewrite app_assoc. f_equal.
  destruct (Z.leb_spec (Z.of_nat (S k) + 1) w); cbn [app].
  - rewrite !Z.min_r by lia.
    replace (Z.to_nat (Z.of_nat (S k) + 1) - digit_count base k n)%nat
      with (S (Z.to_nat (Z.of_nat k + 1) - digit_count base k n)) by lia. done.
  - f_equal. lia.
Qed.

Lemma numeral_full base k char n pad w :
  base ^ Z.of_nat (S k) <= n -> numeral base (S k) char n pad w = char <$> low_digits base (S (S k)) n.
Proof.
  intros Hn. unfold numeral. cbn [digit_count]. rewrite (proj2 (Z.leb_le _ _)) by done.
  by replace (Z.to_nat (Z.min w (Z.of_nat (S k) + 1)) - S (S k))%nat with 0%nat by lia.
Qed.

Lemma top_digit base k n :
  1 < base -> 0 <= n < base ^ Z.of_nat (S k) -> (n / base ^ Z.of_nat k) mod base = n / base ^ Z.of_nat k.
Proof.
  intros Hb Hn. assert (0 < base ^ Z.of_nat k) by (apply Z.pow_pos_nonneg; lia).
  rewrite Nat2Z.inj_succ, Z.pow_succ_r in Hn by lia.
  apply Z.mod_small. split; [apply Z.div_pos; lia|]. apply Z.div_lt_upper_bound; lia.
Qed.

Lemma hex_nibble k n :
  Z.land (Z.shiftr n (Z.shiftl (Z.of_nat k) 2)) 15 = (n / 16 ^ Z.of_nat k) mod 16.
Proof.
  change 15 with (Z.ones 4). rewrite Z.land_ones by lia.
  rewrite Z.shiftl_mul_pow2, Z.shiftr_div_pow2 by lia.
  replace (2 ^ (Z.of_nat k * 2 ^ 2)) with (16 ^ Z.of_nat k)
    by (rewrite Z.mul_comm, Z.pow_mul_r by lia; done). done.
Qed.

(** A hexadecimal number, once a digit was printed and from the start. *)
Lemma hex_loop_found k n pad w r o :
  hex_loop collect k n pad w true r o = o ++ (hex_char <$> low_digits 16 k n).
Proof.
  revert o. induction k as [|k IH]; intros o; cbn [hex_loop low_digits]; [by rewrite app_nil_r|].
  rewrite orb_true_r. cbn [orb]. rewrite IH, hex_nibble. unfold collect. by rewrite <- app_assoc.
Qed.

Lemma hex_loop_step k n pad w found r o :
  hex_loop collect (S k) n pad w found r o =
  let d := (n / 16 ^ Z.of_nat k) mod 16 in
  if negb (d =? 0) || found || (S k =? 1)%nat
  then hex_loop collect k n pad w true r (collect (hex_char d) o)
  else hex_loop collect k n pad w found (r - 1) (if r <=? w then collect (pad_char pad) o else o).
Proof. cbn [hex_loop]. by rewrite hex_nibble. Qed.

Lemma hex_loop_leading k n pad w o :
  0 <= n < 16 ^ Z.of_nat (S k) ->
  hex_loop collect (S k) n pad w false (Z.of_nat k + 1) o = o ++ numeral 16 k hex_char n pad w.
Proof.
  revert o. induction k as [|k IH]; intros o Hn.
  - cbn [hex_loop Nat.eqb]. rewrite !orb_true_r, hex_nibble. unfold numeral. cbn [digit_count low_digits].
    by replace (Z.to_nat (Z.min w (Z.of_nat 0 + 1)) - 1)%nat with 0%nat by lia.
  - pose proof (top_digit 16 (S k) n ltac:(lia) Hn) as En.
    assert (0 < 16 ^ Z.of_nat (S k)) as Hp by (apply Z.pow_pos_nonneg; lia).
    destruct (Z.leb_spec (16 ^ Z.of_nat (S k)) n) as [Hge|Hlt].
    + assert (0 < n / 16 ^ Z.of_nat (S k)) by (apply Z.div_str_pos; lia).
      rewrite numeral_full, <- (hex_loop_found _ n pad w (Z.of_nat (S k) + 1)) by done.
      rewrite (hex_loop_step _ _ _ _ false), (hex_loop_step _ _ _ _ true). cbn zeta. rewrite orb_true_r.
      by rewrite (proj2 (Z.eqb_neq _ _)) by lia.
    + rewrite numeral_leading by done.
      rewrite hex_loop_step. cbn zeta. rewrite En, Z.div_small by lia. cbn [Z.eqb negb orb Nat.eqb].
      replace (Z.of_nat (S k) + 1 - 1) with (Z.of_nat k + 1) by lia.
      destruct (_ <=? w); rewrite IH by lia; [|done]. unfold collect. by rewrite <- app_assoc.
Qed.

Lemma hex_ok n pad w o :
  0 <= n <= ULONG_MAX -> _printk_hex_ulong collect n pad w o = o ++ hexadecimal n pad w.
Proof.
  intros Hn. apply (hex_loop_leading 7). unfold ULONG_MAX in Hn. change (16 ^ Z.of_nat 8) with 4294967296. lia.
Qed.

(** A decimal number: the same. *)
Abbreviation pow10 k := (10 ^ Z.of_nat k).

Lemma pos_step k : (pow10 (S k) - 1) / 10 = pow10 k - 1 /\ pow10 (S k) = 10 * pow10 k /\ 0 < pow10 k.
Proof.
  assert (0 < pow10 k) by (apply Z.pow_pos_nonneg; lia).
  rewrite Nat2Z.inj_succ, Z.pow_succ_r by lia. split_and!; [|lia|lia].
  symmetry. apply (Z.div_unique _ _ _ 9); lia.
Qed.

Lemma dec_loop_found k rem pad w r o :
  0 <= rem < pow10 (S k) ->
  exists rem' o', dec_loop collect k (pow10 k - 1) rem pad w true r o = Some (rem', o') /\
    collect (rem' + 48) o' = o ++ (dec_char <$> low_digits 10 (S k) rem).
Proof.
  revert rem r o. induction k as [|k IH]; intros rem r o Hr.
  - exists rem, o. split; [done|]. cbn [low_digits fmap list_fmap]. change (10 ^ Z.of_nat 0) with 1.
    rewrite Z.div_1_r, Z.mod_small by (cbn in Hr; lia). done.
  - cbn [dec_loop]. destruct (pos_step k) as (Ep & E10 & Hp).
    rewrite (proj2 (Z.leb_le _ _)) by lia. cbn [orb]. rewrite Ep, Z.sub_add.
    destruct (IH (rem mod pow10 (S k)) (r - 1) (collect (rem / pow10 (S k) + 48) o))
      as (rem' & o' & E & Eo); [apply Z.mod_pos_bound; lia|].
    exists rem', o'. split; [done|]. rewrite Eo, low_digits_mod by lia. unfold collect.
    rewrite <- app_assoc. cbn [low_digits fmap list_fmap app]. do 2 f_equal.
    unfold dec_char. by rewrite top_digit by lia.
Qed.

Lemma dec_loop_leading k rem pad w o :
  0 <= rem < pow10 (S k) ->
  exists rem' o', dec_loop collect k (pow10 k - 1) rem pad w false (Z.of_nat k + 1) o = Some (rem', o') /\
    collect (rem' + 48) o' = o ++ numeral 10 k dec_char rem pad w.
Proof.
  revert o. induction k as [|k IH]; intros o Hr.
  - exists rem, o. split; [done|]. unfold numeral. cbn [digit_count low_digits].
    replace (Z.to_nat (Z.min w (Z.of_nat 0 + 1)) - 1)%nat with 0%nat by lia.
    change (10 ^ Z.of_nat 0) with 1. rewrite Z.div_1_r, Z.mod_small by (cbn in Hr; lia). done.
  - cbn [dec_loop]. destruct (pos_step k) as (Ep & E10 & Hp).
    rewrite (proj2 (Z.leb_le _ _)) by lia. cbn [orb]. rewrite Ep, Z.sub_add.
    replace (Z.of_nat (S k) + 1 - 1) with (Z.of_nat k + 1) by lia.
    destruct (Z.ltb_spec (pow10 (S k) - 1) rem) as [Hlt|Hge].
    + destruct (dec_loop_found k (rem mod pow10 (S k)) pad w (Z.of_nat k + 1)
        (collect (rem / pow10 (S k) + 48) o)) as (rem' & o' & E & Eo); [apply Z.mod_pos_bound; lia|].
      exists rem', o'. split; [done|]. rewrite Eo, low_digits_mod, numeral_full by lia. unfold collect.
      rewrite <- app_assoc. cbn [low_digits fmap list_fmap app]. do 2 f_equal.
      unfold dec_char. by rewrite top_digit by lia.
    + rewrite Z.mod_small, numeral_leading by lia.
      destruct (Z.of_nat (S k) + 1 <=? w);
        [destruct (IH (collect (pad_char pad) o) ltac:(lia)) as (rem' & o' & E & Eo)
        |destruct (IH o ltac:(lia)) as (rem' & o' & E & Eo)]; exists rem', o'; (split; [done|]); rewrite Eo; [|done].
      unfold collect. by rewrite <- app_assoc.
Qed.

Lemma dec_ok n pad w o :
  0 <= n <= ULONG_MAX -> _printk_dec_ulong collect n pad w o = Some (o ++ decimal n pad w).
Proof.
  intros Hn. unfold _printk_dec_ulong. set (w' := if w <=? 0 then 1 else w).
  destruct (dec_loop_leading 9 n pad w' o) as (rem & o' & E & Eo).
  { unfold ULONG_MAX in Hn. change (pow10 10) with 10000000000. lia. }
  change (pow10 9 - 1) with 999999999 in E. change (Z.of_nat 9 + 1) with 10 in E. rewrite E.
  cbn [mbind option_bind]. rewrite Eo. do 2 f_equal. unfold decimal, numeral. do 2 f_equal.
  pose proof (digit_count_range 10 9 n). unfold w'. destruct (Z.leb_spec w 0); lia.
Qed.
End Numbers.

(** ** What is printed does not depend on where it goes

    [keep] are the addresses the output leaves alone: they hold the format and the
    strings. *)
Section Emission.
Context {C : Type} (out : Z -> C -> C).

Definition emit (ctx : C) (o : list Z) : C := foldl (fun s c => out c s) ctx o.

Lemma emit_collect ctx o c : emit ctx (collect c o) = out c (emit ctx o).
Proof. unfold emit, collect. by rewrite foldl_app. Qed.

Lemma hex_loop_emit size num pad w found r ctx o :
  hex_loop out size num pad w found r (emit ctx o) =
  emit ctx (hex_loop collect size num pad w found r o).
Proof.
  revert found r o. induction size as [|size IH]; intros found r o; cbn [hex_loop]; [done|].
  destruct (_ || _ || _).
  - by rewrite <- emit_collect, IH.
  - destruct (r <=? w); [by rewrite <- emit_collect, IH|by rewrite IH].
Qed.

Lemma hex_emit num pad w ctx o :
  0 <= num <= ULONG_MAX ->
  _printk_hex_ulong out num pad w (emit ctx o) = emit ctx (o ++ hexadecimal num pad w).
Proof. intros Hn. rewrite <- hex_ok by done. apply hex_loop_emit. Qed.

Lemma dec_loop_emit fuel pos rem pad w found r ctx o :
  dec_loop out fuel pos rem pad w found r (emit ctx o) =
  match dec_loop collect fuel pos rem pad w found r o with
  | Some (rem', o') => Some (rem', emit ctx o')
  | None => None
  end.
Proof.
  revert pos rem found r o. induction fuel as [|fuel IH]; intros pos rem found r o; cbn [dec_loop];
    (destruct (9 <=? pos); [|done]); [done|].
  destruct (found || (pos <? rem)); [by rewrite <- emit_collect, IH|].
  destruct (r <=? w); [by rewrite <- emit_collect, IH|by rewrite IH].
Qed.

Lemma dec_emit num pad w ctx o :
  0 <= num <= ULONG_MAX ->
  _printk_dec_ulong out num pad w (emit ctx o) = Some (emit ctx (o ++ decimal num pad w)).
Proof.
  intros Hn. pose proof (dec_ok num pad w o Hn) as E. unfold _printk_dec_ulong in *. rewrite dec_loop_emit.
  destruct (dec_loop collect _ _ _ _ _ _ _ _) as [[rem o']|]; cbn in *; [|done].
  injection E as <-. by rewrite <- emit_collect.
Qed.

Context (read : C -> memory) (m : memory) (keep : Z -> Prop) (limit : Z) (ctx0 : C).
Hypothesis Hkeep : forall o a, len o <= limit -> keep a -> read (emit ctx0 o) a = m a.

(** The string [l] is at [s], where the output does not go. *)
Definition kept_str (s : Z) (l : list Z) : Prop :=
  cstr m s l /\ forall a, s <= a <= s + len l -> keep a.

Lemma kept_cons s c l :
  kept_str s (c :: l) ->
  (forall o, len o <= limit -> read (emit ctx0 o) s = c) /\ c <> 0 /\ kept_str (s + 1) l.
Proof.
  intros [(Hc & Hc0 & Hl) Hk]. cbn [length] in Hk. split_and!; [|done|split; [done|]].
  - intros o Ho. rewrite Hkeep; [done|done|]. apply Hk. lia.
  - intros a Ha. apply Hk. lia.
Qed.

Lemma kept_nil s : kept_str s [] -> forall o, len o <= limit -> read (emit ctx0 o) s = 0.
Proof. intros [Hc Hk] o Ho. rewrite Hkeep; [done|done|]. apply Hk. cbn [length]. lia. Qed.

Lemma out_string_ok fuel s l o :
  kept_str s l -> (length l <= fuel)%nat -> len (o ++ l) <= limit ->
  out_string out read fuel s (emit ctx0 o) = Some (emit ctx0 (o ++ l)).
Proof.
  revert fuel s o. induction l as [|c l IH]; intros fuel s o Hs Hf Hl.
  - rewrite app_nil_r in *. destruct fuel; cbn [out_string]; by rewrite (kept_nil s Hs).
  - apply kept_cons in Hs as (Hc & Hc0 & Hs). cbn [length] in Hf. destruct fuel as [|fuel]; [lia|].
    rewrite length_app in Hl. cbn [length] in Hl.
    cbn [out_string]. rewrite Hc, (proj2 (Z.eqb_neq _ _) Hc0) by lia. cbn [negb].
    rewrite <- emit_collect, IH; unfold collect; rewrite <- ?app_assoc; [done|done|lia|].
    rewrite length_app. cbn [length app]. lia.
Qed.

(** The value of an argument: the number, or the address of the string. *)
Definition passed (fuel : nat) (a : arg) (x : Z) : Prop :=
  match a with
  | Num y => x = y
  | Str l => kept_str x l /\ (length l <= fuel)%nat
  end.

Lemma u32_ulong z : 0 <= u32 z <= ULONG_MAX.
Proof. apply u32_range. Qed.

(** The magnitude of a number, the most negative one included. *)
Lemma magnitude x : i32 x < 0 -> u32 (i32 (- i32 x)) = - i32 x.
Proof.
  intros Hx. pose proof (i32_range x) as Hr. unfold INT32_MIN, INT32_MAX in Hr.
  destruct (Z.eq_dec (i32 x) (-2147483648)) as [->|]; [done|].
  rewrite i32_small by (unfold INT32_MIN, INT32_MAX; lia).
  rewrite u32_small by (unfold UINT32_MAX; lia). lia.
Qed.

(** The loop prints the text of the format. *)
Lemma vprintk_loop_ok fuel n fmt l mf pad w args ap o t :
  kept_str fmt l -> (length l <= n)%nat -> Forall2 (passed fuel) args ap ->
  text_from l (if mf : bool then Some (pad, w) else None) args = Some t -> len (o ++ t) <= limit ->
  vprintk_loop out read fuel n fmt mf pad w ap (emit ctx0 o) = Some (emit ctx0 (o ++ t)).
Proof.
  revert n fmt mf pad w args ap o t.
  induction l as [|c l IH]; intros n fmt mf pad w args ap o t Hs Hn Hap Ht Hl.
  { injection Ht as <-. rewrite app_nil_r in *. destruct n; cbn [vprintk_loop]; by rewrite (kept_nil fmt Hs). }
  apply kept_cons in Hs as (Hc & Hc0 & Hs). cbn [length] in Hn. destruct n as [|n]; [lia|].
  assert (len o <= limit) as Hlo by (rewrite length_app in Hl; lia).
  cbn [vprintk_loop]. rewrite Hc, (proj2 (Z.eqb_neq _ _) Hc0) by done.
  specialize (IH n (fmt + 1)). cbn [text_from] in Ht.
  destruct mf; cbn [negb].
  2: { destruct (c =? 37); cbn [negb]; [by eapply IH; eauto with lia|].
       destruct (text_from l None args) as [t'|] eqn:Et; [|done]. injection Ht as <-.
       rewrite <- emit_collect, (IH false pad w args ap (collect c o) t'); unfold collect;
         rewrite <- ?app_assoc; (done || lia). }
  destruct ((c =? 48) && (w <? 0) && negb pad); [by eapply IH; eauto with lia|].
  destruct ((48 <=? c) && (c <=? 57)); [by eapply IH; eauto with lia|].
  destruct ((c =? 122) || (c =? 108) || (c =? 104)); [by eapply IH; eauto with lia|].
  destruct (conversion c pad w args) as [[o1 args']|] eqn:Ec; [|done].
  cbn [mbind option_bind] in Ht. destruct (text_from l None args') as [o'|] eqn:Et; [|done].
  injection Ht as <-.
  assert (forall pad w ap', Forall2 (passed fuel) args' ap' ->
    vprintk_loop out read fuel n (fmt + 1) false pad w ap' (emit ctx0 (o ++ o1)) =
    Some (emit ctx0 (o ++ o1 ++ o'))) as K.
  { intros p' w' ap' Hap'. rewrite app_assoc in *.
    eapply IH; [done|lia|done|done|done]. }
  assert (len (o ++ o1) <= limit) as Hl1 by (rewrite !length_app in *; lia).
  unfold conversion in Ec. destruct ((c =? 100) || (c =? 105)).
  { destruct Hap as [|[x|] ? args'' ap Hx Hap]; [done| |done]. cbn in Hx. subst.
    injection Ec as <- ->. destruct (Z.ltb_spec (i32 x) 0).
    - rewrite magnitude, <- emit_collect by done. rewrite dec_emit.
      + unfold collect in *. rewrite <- app_assoc in *. by apply K.
      + pose proof (i32_range x). unfold INT32_MIN, INT32_MAX, ULONG_MAX in *. lia.
    - pose proof (i32_range x). unfold INT32_MIN, INT32_MAX in *.
      rewrite u32_small by (unfold UINT32_MAX; lia). rewrite dec_emit by (unfold ULONG_MAX; lia). by apply K. }
  destruct (c =? 117).
  { destruct Hap as [|[x|] ? args'' ap Hx Hap]; [done| |done]. cbn in Hx. subst. injection Ec as <- ->.
    rewrite dec_emit by apply u32_ulong. by apply K. }
  destruct (c =? 112); cbn [orb].
  { destruct Hap as [|[x|] ? args'' ap Hx Hap]; [done| |done]. cbn in Hx. subst. injection Ec as <- ->.
    rewrite <- !emit_collect, hex_emit by apply u32_ulong. unfold collect. rewrite <- !app_assoc. by apply K. }
  destruct ((c =? 120) || (c =? 88)).
  { destruct Hap as [|[x|] ? args'' ap Hx Hap]; [done| |done]. cbn in Hx. subst. injection Ec as <- ->.
    rewrite hex_emit by apply u32_ulong. by apply K. }
  destruct (c =? 115).
  { destruct Hap as [|[|l1] x args'' ap Hx Hap]; [done|done|]. destruct Hx as [Hx Hf]. injection Ec as <- ->.
    rewrite (out_string_ok fuel x l1 o Hx Hf) by done. by apply K. }
  destruct (c =? 99).
  { destruct Hap as [|[x|] ? args'' ap Hx Hap]; [done| |done]. cbn in Hx. subst. injection Ec as <- ->.
    rewrite <- emit_collect. by apply K. }
  destruct (c =? 37); injection Ec as <- ->; rewrite <- !emit_collect; unfold collect; rewrite <- ?app_assoc; by apply K.
Qed.
End Emission.

(** ** Bounds of [snprintk] *)
Section Bounded.
Implicit Types (o : list Z) (m : memory) (s : Z).

(** The state after the characters [o]: the buffer holds the ones that fit
    before its last byte, which is null once it is reached. *)
Record holds s (max : Z) o m (ctx : str_context) : Prop := {
  ho_str : str ctx = s;
  ho_max : Printk.max ctx = max;
  ho_count : count ctx = len o;
  ho_in (i : nat) : (i < length o)%nat -> Z.of_nat i < max - 1 ->
    mem ctx (s + Z.of_nat i) = u8 (nth i o 0);
  ho_last : 0 < max <= len o -> mem ctx (s + (max - 1)) = 0;
  ho_out a : ~ (s <= a < s + Z.min max (len o)) -> mem ctx a = m a
}.

Lemma str_out_holds s max o m ctx c :
  s <> 0 -> 0 <= max -> len o < INT32_MAX -> holds s max o m ctx ->
  holds s max (o ++ [c]) m (str_out c ctx).
Proof.
  intros Hs Hmax Hlen [E1 E2 E3 Hin Hlast Hout]. unfold str_out. rewrite E1, E2, E3.
  assert (i32 (len o + 1) = len (o ++ [c])) as Ec.
  { rewrite length_app. cbn [length]. rewrite i32_small; [lia|]. unfold INT32_MIN, INT32_MAX in *. lia. }
  assert (len (o ++ [c]) = len o + 1) as El by (rewrite length_app; cbn [length]; lia).
  rewrite (proj2 (Z.eqb_neq _ _) Hs). cbn [orb]. destruct (Z.leb_spec max (len o)).
  - split; cbn [str Printk.max count mem]; try done; rewrite ?El.
    + intros i Hi Him. rewrite app_nth1 by lia. apply Hin; lia.
    + intros Hm. apply Hlast. lia.
    + intros a Ha. apply Hout. lia.
  - destruct (Z.eqb_spec (len o) (max - 1)) as [El'|Hne]; split; cbn [str Printk.max count mem]; try done;
      rewrite ?El.
    + intros i Hi Him. rewrite fn_lookup_insert_ne by lia. rewrite app_nth1 by lia. apply Hin; lia.
    + intros _. rewrite El'. apply fn_lookup_insert.
    + intros a Ha. rewrite fn_lookup_insert_ne by lia. apply Hout. lia.
    + intros i Hi Him. destruct (decide (i = length o)) as [->|Hio].
      * rewrite fn_lookup_insert, app_nth2, Nat.sub_diag by lia. done.
      * rewrite length_app in Hi. cbn [length] in Hi.
        rewrite fn_lookup_insert_ne by lia. rewrite app_nth1 by lia. apply Hin; lia.
    + lia.
    + intros a Ha. rewrite fn_lookup_insert_ne by lia. apply Hout. lia.
Qed.

Lemma emit_holds s max o m :
  s <> 0 -> 0 <= max -> len o <= INT32_MAX ->
  holds s max o m (emit str_out (mk_str s max 0 m) o).
Proof.
  intros Hs Hmax. induction o as [|c o IH] using rev_ind; intros Hl.
  - split; cbn [str Printk.max count mem length emit foldl]; try done; try lia.
  - rewrite length_app in Hl. cbn [length] in Hl. unfold emit. rewrite foldl_app. cbn [foldl].
    apply str_out_holds; [done|done|lia|]. apply IH. lia.
Qed.
End Bounded.

(** ** What the callers promise *)
Section Promises.
Implicit Types (m : memory) (s size d fmt : Z) (o ap : list Z).

Lemma char_out_emit o o0 n :
  0 <= n -> n + len o <= INT32_MAX -> emit char_out (o0, n) o = (o0 ++ o, n + len o).
Proof.
  intros Hn. revert o0 n Hn. induction o as [|c o IH]; intros o0 n Hn Hm.
  - cbn. by rewrite app_nil_r, Z.add_0_r.
  - cbn [length] in Hm. unfold emit. cbn [foldl]. unfold char_out at 2. cbn [fst snd].
    rewrite i32_small by (unfold INT32_MIN, INT32_MAX in *; lia).
    fold (emit char_out (o0 ++ [c], n + 1) o). rewrite IH by lia.
    rewrite <- app_assoc. cbn [length app]. f_equal. lia.
Qed.

(** The final null included. *)
Definition filled s size o m m' : Prop :=
  (forall a, ~ (s <= a < s + size) -> m' a = m a) /\
  (forall i : nat, (i < length o)%nat -> Z.of_nat i < size - 1 -> m' (s + Z.of_nat i) = u8 (nth i o 0)) /\
  (0 < size -> m' (s + Z.min (len o) (size - 1)) = 0).

(** Where the output does not go. *)
Definition outside s size : Z -> Prop := fun a => ~ (s <= a < s + size).

Lemma snprintk_ok fuel s size fmt l args ap m o :
  text l args = Some o -> kept_str m (outside s size) fmt l -> (length l <= fuel)%nat ->
  Forall2 (passed m (outside s size) fuel) args ap ->
  s <> 0 -> 0 <= size <= INT32_MAX -> len o <= INT32_MAX ->
  exists m', snprintk fuel s size fmt ap m = Some (len o, m') /\ filled s size o m m'.
Proof.
  intros Eo Hfmt Hf Hap Hs Hsize Hl. unfold snprintk, _vprintk. rewrite i32_small by (unfold INT32_MIN; lia).
  rewrite (vprintk_loop_ok str_out mem m (outside s size) INT32_MAX (mk_str s size 0 m)) with
    (l := l) (args := args) (o := []) (t := o); [|..|done].
  - cbn [app mbind option_bind].
    destruct (emit_holds s size o m Hs ltac:(lia) Hl) as [E1 E2 E3 Hin Hlast Hout].
    set (ctx := emit str_out _ o) in *. rewrite E2, E3. eexists. split; [done|].
    destruct (Z.ltb_spec (len o) size) as [Hlt|Hge]; split_and!.
    + intros a Ha. rewrite fn_lookup_insert_ne by lia. apply Hout. lia.
    + intros i Hi Him. rewrite fn_lookup_insert_ne by lia. by apply Hin.
    + intros _. rewrite Z.min_l by lia. apply fn_lookup_insert.
    + intros a Ha. apply Hout. lia.
    + intros i Hi Him. by apply Hin.
    + intros H0. rewrite Z.min_r by lia. apply Hlast. lia.
  - intros o' a Ho' Ha. unfold outside in Ha. apply (emit_holds s size o' m Hs); [lia|done|lia].
  - done.
  - done.
  - done.
  - done.
Qed.

(** C29: a call of [snprintk] with a buffer of at most 2^31 - 1 bytes, which is not
    null, a format and strings outside of the buffer, and arguments of the kinds
    the format asks for, ends: it writes nothing outside the [size] bytes of its
    buffer, leaves in it the characters of the text that fit and a null behind
    them, and returns how many characters the whole text has, which must not be
    more than an [int] counts; [printk] prints the same characters and counts
    them. The text is that of [text]: literal characters, numerals padded to the
    width, and strings. *)
Theorem snprintk_bounded fuel s size fmt l args ap m o :
  text l args = Some o -> kept_str m (outside s size) fmt l -> (length l <= fuel)%nat ->
  Forall2 (passed m (outside s size) fuel) args ap ->
  s <> 0 -> 0 <= size <= INT32_MAX -> len o <= INT32_MAX ->
  (exists m', snprintk fuel s size fmt ap m = Some (len o, m') /\ filled s size o m m') /\
  printk fuel fmt ap m = Some (o, len o).
Proof.
  intros Eo Hfmt Hf Hap Hs Hsize Hl. split; [by eapply snprintk_ok|]. unfold printk, _vprintk.
  rewrite (vprintk_loop_ok char_out (fun _ => m) m (outside s size) INT32_MAX ([], 0)) with
    (l := l) (args := args) (o := []) (t := o); [|done..].
  cbn [app]. by rewrite char_out_emit.
Qed.

(** *** Numbers *)
Definition sign d : list Z := if d <? 0 then [45] else [].

Lemma decimal_plain n w :
  0 <= n < 10 ^ 10 -> w <= 1 ->
  exists ds, decimal n false w = (dec_char <$> ds) /\ value 10 ds = n /\ digits_ok 10 ds /\ ds <> [] /\
    (length ds <= 10)%nat.
Proof.
  intros Hn Hw. pose proof (digit_count_range 10 9 n) as Hc. exists (low_digits 10 (digit_count 10 9 n) n).
  pose proof (digit_count_enough 10 9 n) as He. rewrite length_low_digits. split_and!.
  - unfold decimal, numeral.
    by replace (Z.to_nat (Z.min w (Z.of_nat 9 + 1)) - digit_count 10 9 n)%nat with 0%nat by lia.
  - rewrite value_low_digits by lia. apply Z.mod_small. split; [lia|]. apply He. apply Hn.
  - apply low_digits_ok. lia.
  - destruct (digit_count 10 9 n); [lia|done].
  - lia.
Qed.

Lemma text_d d :
  LONG_MIN <= d <= LONG_MAX ->
  exists ds, text [37; 100] [Num d] = Some (sign d ++ (dec_char <$> ds)) /\
    value 10 ds = Z.abs d /\ digits_ok 10 ds /\ ds <> [] /\ (length ds <= 10)%nat.
Proof.
  unfold LONG_MIN, LONG_MAX. intros Hd. unfold text, sign.
  destruct (decimal_plain (Z.abs d) (if d <? 0 then -2 else -1)) as (ds & E & Hds); [lia|destruct (d <? 0); lia|].
  exists ds. split; [|done]. cbn [text_from Z.eqb Pos.eqb]. cbn.
  rewrite (i32_small d) by (unfold INT32_MIN, INT32_MAX; lia). rewrite app_nil_r, <- E.
  destruct (Z.ltb_spec d 0); cbn [app]; do 2 f_equal; [f_equal|]; f_equal; lia.
Qed.

Lemma ascii_spells ds : digits_ok 10 ds -> spells 10 (dec_char <$> ds) ds.
Proof.
  intros Hd. induction ds as [|d ds IH]; [constructor|]. rewrite fmap_cons.
  pose proof (Hd d ltac:(set_solver)) as Hr. constructor.
  - split; [|done]. unfold digit, isdigit, dec_char. rewrite u32_small by (unfold UINT32_MAX; lia).
    rewrite (proj2 (Z.ltb_lt _ _)) by lia. f_equal. lia.
  - apply IH. intros x Hx. apply Hd. set_solver.
Qed.

Lemma filled_cstr s size o m m' :
  filled s size o m m' -> len o < size -> (forall c, c ∈ o -> 0 < c < 256) -> cstr m' s o.
Proof.
  intros (_ & Hin & Hz) Hl Hc. specialize (Hz ltac:(lia)). rewrite Z.min_l in Hz by lia.
  assert (Hgen : forall o1 o2, o = o1 ++ o2 -> cstr m' (s + len o1) o2).
  { intros o1 o2. revert o1. induction o2 as [|c o2 IH]; intros o1 E.
    - rewrite app_nil_r in E. subst o. done.
    - assert (Hlo : (length o1 < length o)%nat) by (rewrite E, length_app; cbn; lia).
      pose proof (Hc c ltac:(rewrite E; set_solver)) as Hr. cbn [cstr]. split_and!.
      + rewrite Hin by lia. rewrite E, app_nth2, Nat.sub_diag by lia. cbn [nth]. by apply u8_small; lia.
      + lia.
      + replace (s + len o1 + 1) with (s + len (o1 ++ [c])) by (rewrite length_app; cbn; lia).
        apply IH. rewrite E. by rewrite <- app_assoc. }
  specialize (Hgen [] o eq_refl). cbn [length] in Hgen. by rewrite Z.add_0_r in Hgen.
Qed.

(** C40: a number printed with %d and read back is the same number, for every
    [long], the most negative included: [snprintk] into a buffer of at least
    twelve bytes that does not hold the format, then [strtol] in base ten, which
    consumes the whole string and reports no error. *)
Theorem print_parse_roundtrip fuel s size fmt d m :
  LONG_MIN <= d <= LONG_MAX -> s <> 0 -> 12 <= size <= INT32_MAX -> (10 <= fuel)%nat ->
  kept_str m (outside s size) fmt [37; 100] ->
  exists n m', snprintk fuel s size fmt [d] m = Some (n, m') /\
    strtol fuel s 10 m' = Some (d, false, s + n).
Proof.
  intros Hd Hs Hsize Hfuel Hfmt. destruct (text_d d Hd) as (ds & Eo & Hv & Hok & Hne & Hl).
  set (o := sign d ++ _) in *. assert (len o <= 11) as Hlo.
  { unfold o, sign. rewrite length_app, length_fmap. destruct (d <? 0); cbn [length]; lia. }
  destruct (snprintk_ok fuel s size fmt [37; 100] [Num d] [d] m o Eo Hfmt) as (m' & E & Hfill);
    [cbn; lia|by repeat constructor|done|lia|unfold INT32_MAX in *; lia|].
  exists (len o), m'. split; [done|].
  assert (cstr m' s o) as Hcs.
  { eapply filled_cstr; [done|lia|]. unfold o, sign. intros c [Hc|Hc]%elem_of_app.
    - destruct (d <? 0); [apply list_elem_of_singleton in Hc as ->; lia|by apply elem_of_nil in Hc].
    - apply list_elem_of_fmap in Hc as (x & -> & Hx%Hok). unfold dec_char. lia. }
  rewrite (strtol_ok fuel m' s 10 [] (sign d) (dec_char <$> ds) ds []); try (done || lia).
  - assert (signed (sign d) (value 10 ds) = d) as ->.
    { unfold signed, sign. rewrite Hv. destruct (Z.ltb_spec d 0); [rewrite decide_True by done|rewrite decide_False by done]; lia. }
    assert (in_long d = true) as ->.
    { unfold in_long. by rewrite (proj2 (Z.leb_le _ _)), (proj2 (Z.leb_le _ _)) by lia. }
    unfold clamp_long. rewrite Z.min_r, Z.max_r by lia. done.
  - split; [constructor| | | |].
    + unfold sign. destruct (d <? 0); auto.
    + by apply ascii_spells.
    + by destruct ds.
    + intros x Hx. done.
  - rewrite app_nil_r. exact Hcs.
  - cbn. lia.
  - rewrite length_fmap. lia.
Qed.

(** The format "%05d!%s" at 300, the string "ab" at 310, a buffer of four bytes. *)
Definition formats : memory :=
  fun a => if 310 <=? a then nth (Z.to_nat (a - 310)) [97; 98] 0
           else nth (Z.to_nat (a - 300)) [37; 48; 53; 100; 33; 37; 115] 0.

Lemma snprintk_bounded_witness :
  exists m', snprintk 7 100 4 300 [42; 310] formats = Some (8, m') /\
    filled 100 4 [48; 48; 48; 52; 50; 33; 97; 98] formats m'.
Proof.
  destruct (snprintk_bounded 7 100 4 300 [37; 48; 53; 100; 33; 37; 115] [Num 42; Str [97; 98]] [42; 310]
    formats [48; 48; 48; 52; 50; 33; 97; 98]) as [H _].
  - reflexivity.
  - split; [repeat split; discriminate|unfold outside; simpl; lia].
  - simpl. lia.
  - constructor; [reflexivity|]. constructor; [|constructor].
    split; [split; [repeat split; discriminate|unfold outside; simpl; lia]|simpl; lia].
  - discriminate.
  - vm_compute; intuition discriminate.
  - vm_compute; discriminate.
  - exact H.
Defined.

(** The format "%d" at 300. *)
Lemma print_parse_roundtrip_witness :
  exists n m', snprintk 10 100 16 300 [LONG_MIN] (fun a => if a =? 300 then 37 else if a =? 301 then 100 else 0)
      = Some (n, m') /\
    strtol 10 100 10 m' = Some (LONG_MIN, false, 100 + n).
Proof.
  apply (print_parse_roundtrip 10 100 16 300 LONG_MIN);
    [vm_compute; intuition discriminate|discriminate|vm_compute; intuition discriminate|lia|].
  split; [repeat split; discriminate|unfold outside; simpl; lia].
Defined.
End Promises.
