(* ===== verification/PipeBuf.v ===== *)
(** * The circular buffer of a pipe (kernel/unified/pipes.c, first half)

    [struct k_pipe], the byte copy and the two functions that move bytes into
    and out of the circular buffer. All sizes are 32-bit [size_t]s. The model is
    of the configuration without asynchronous messages
    (CONFIG_NUM_PIPE_ASYNC_MSGS is 0). *)
From S2P Require Import Prelude Kernel LibcString.

Record k_pipe := mk_pipe {
  pipe_buffer : Z;
  pipe_size : Z;
  bytes_used : Z;
  read_index : Z;
  write_index : Z;
  readers : wqid;
  writers : wqid
}.

Section Operations.
Implicit Types (p : k_pipe) (m : memory).

Definition _pipe_xfer (dest dest_size src src_size : Z) m : Z * memory :=
  let num_bytes := Z.min dest_size src_size in
  (num_bytes, Str.copy_bytes (Z.to_nat num_bytes) dest src m).

(** One of the two turns of the loop of [_pipe_buffer_put]. *)
Definition put_run (src src_size written : Z) p m : Z * k_pipe * memory :=
  let run_length := Z.min (u32 (pipe_size p - bytes_used p)) (u32 (pipe_size p - write_index p)) in
  let '(bytes_copied, m) := _pipe_xfer (pipe_buffer p + write_index p) run_length
                              (src + written) (u32 (src_size - written)) m in
  let wi := u32 (write_index p + bytes_copied) in
  (u32 (written + bytes_copied),
   mk_pipe (pipe_buffer p) (pipe_size p) (u32 (bytes_used p + bytes_copied)) (read_index p)
     (if wi =? pipe_size p then 0 else wi) (readers p) (writers p),
   m).

Definition _pipe_buffer_put (src src_size : Z) p m : Z * k_pipe * memory :=
  let '(n, p, m) := put_run src src_size 0 p m in put_run src src_size n p m.

Definition get_run (dest dest_size nread : Z) p m : Z * k_pipe * memory :=
  let run_length := Z.min (bytes_used p) (u32 (pipe_size p - read_index p)) in
  let '(bytes_copied, m) := _pipe_xfer (dest + nread) (u32 (dest_size - nread))
                              (pipe_buffer p + read_index p) run_length m in
  let ri := u32 (read_index p + bytes_copied) in
  (u32 (nread + bytes_copied),
   mk_pipe (pipe_buffer p) (pipe_size p) (u32 (bytes_used p - bytes_copied))
     (if ri =? pipe_size p then 0 else ri) (write_index p) (readers p) (writers p),
   m).

Definition _pipe_buffer_get (dest dest_size : Z) p m : Z * k_pipe * memory :=
  let '(n, p, m) := get_run dest dest_size 0 p m in get_run dest dest_size n p m.
End Operations.

(** ** The buffer as a queue of bytes *)
Section Ring.
Implicit Types (p : k_pipe) (m : memory) (a n : Z).

(** Memory outside [[a, a + n)] is left alone. *)
Definition writes_only a n m m' : Prop := forall x, ~ (a <= x < a + n) -> m' x = m x.

Lemma writes_only_refl a n m : writes_only a n m m.
Proof. by intros x _. Qed.

Lemma writes_only_trans a n m1 m2 m3 : writes_only a n m1 m2 -> writes_only a n m2 m3 -> writes_only a n m1 m3.
Proof. intros H1 H2 x Hx. by rewrite H2, H1. Qed.

Lemma writes_only_weaken a n b k m m' :
  writes_only a n m m' -> b <= a -> a + n <= b + k -> writes_only b k m m'.
Proof. intros Hw ?? x Hx. apply Hw. lia. Qed.

Lemma writes_only_read a n m m' b k :
  writes_only a n m m' -> disjoint_from a n b k -> read_bytes m' b k = read_bytes m b k.
Proof. intros Hw Hd. apply read_bytes_ext. intros i Hi. apply Hw. unfold disjoint_from in Hd. lia. Qed.

Lemma disjoint_from_sym a n b k : disjoint_from a n b k -> disjoint_from b k a n.
Proof. unfold disjoint_from. lia. Qed.

Lemma disjoint_from_sub a n b k a' n' b' k' :
  disjoint_from a n b k -> a <= a' -> a' + n' <= a + n -> b <= b' -> b' + k' <= b + k ->
  disjoint_from a' n' b' k'.
Proof. unfold disjoint_from. lia. Qed.

Lemma read_bytes_length m a n : 0 <= n -> Z.of_nat (length (read_bytes m a n)) = n.
Proof. intros. unfold read_bytes. rewrite length_fmap, length_seqZ. lia. Qed.

Lemma read_bytes_app m a n k : 0 <= n -> 0 <= k -> read_bytes m a (n + k) = read_bytes m a n ++ read_bytes m (a + n) k.
Proof. intros. unfold read_bytes. by rewrite seqZ_app, fmap_app by lia. Qed.

Lemma read_bytes_0 m a : read_bytes m a 0 = [].
Proof. done. Qed.

(** Reading a part of a region. *)
Lemma read_bytes_split m a n c :
  0 <= c <= n -> read_bytes m a n = read_bytes m a c ++ read_bytes m (a + c) (n - c).
Proof. intros. rewrite <- read_bytes_app by lia. f_equal. lia. Qed.

Lemma xfer_ok dest dest_size src src_size m :
  0 <= dest_size -> 0 <= src_size ->
  let n := Z.min dest_size src_size in
  disjoint_from dest n src n ->
  exists m', _pipe_xfer dest dest_size src src_size m = (n, m') /\
    read_bytes m' dest n = read_bytes m src n /\ writes_only dest n m m'.
Proof.
  intros H1 H2 n Hd. unfold _pipe_xfer. fold n. eexists. split; [reflexivity|].
  destruct (Z_of_nat_complete n ltac:(lia)) as [j Ej]. rewrite Ej in *. rewrite Nat2Z.id.
  assert (Hc : same_mem (memcpy dest src (Z.of_nat j) m) (Str.copy_bytes j dest src m))
    by (apply copy_bytes_spec; unfold disjoint_from in Hd; lia).
  split.
  - rewrite <- (read_memcpy_same m dest src). apply read_bytes_ext. intros i _. apply Hc.
  - intros x Hx. rewrite Hc. by apply memcpy_out.
Qed.

Record ring_ok p : Prop := {
  rg_size : 0 <= pipe_size p <= UINT32_MAX;
  rg_used : 0 <= bytes_used p <= pipe_size p;
  rg_read : 0 <= read_index p < pipe_size p \/ (pipe_size p = 0 /\ read_index p = 0);
  rg_write : 0 <= write_index p < pipe_size p \/ (pipe_size p = 0 /\ write_index p = 0);
  rg_index : write_index p = (read_index p + bytes_used p) `mod` pipe_size p
}.

(** The bytes in the buffer, oldest first. *)
Definition contents p m : list Z :=
  (fun i => m (pipe_buffer p + (read_index p + i) `mod` pipe_size p)) <$> seqZ 0 (bytes_used p).

(** What the two functions leave alone. *)
Definition same_pipe p p' : Prop :=
  pipe_buffer p' = pipe_buffer p /\ pipe_size p' = pipe_size p /\
  readers p' = readers p /\ writers p' = writers p.

Lemma contents_ext p m m' :
  ring_ok p -> (forall x, pipe_buffer p <= x < pipe_buffer p + pipe_size p -> m' x = m x) ->
  contents p m' = contents p m.
Proof.
  intros [Hs Hu _ _ _] Hm. apply list_fmap_ext. intros i x Hx.
  apply list_elem_of_lookup_2, elem_of_seqZ in Hx. apply Hm.
  pose proof (Z.mod_pos_bound (read_index p + x) (pipe_size p)). lia.
Qed.

Lemma contents_length p m : ring_ok p -> Z.of_nat (length (contents p m)) = bytes_used p.
Proof. intros [_ Hu _ _ _]. unfold contents. rewrite length_fmap, length_seqZ. lia. Qed.

(** Two positions of the ring. *)
Lemma ring_apart s r i j : 0 < s -> 0 <= i < s -> 0 <= j < s -> (r + i) `mod` s = (r + j) `mod` s -> i = j.
Proof.
  intros Hs Hi Hj E. assert (Hd : ((r + i) - (r + j)) `mod` s = 0)
    by (rewrite Zminus_mod, E, Z.sub_diag; apply Z.mod_0_l; lia).
  apply Z.mod_divide in Hd as [q Hq]; [|lia]. assert (q = 0) by nia. lia.
Qed.

Lemma ring_step s r u c :
  0 < s -> 0 <= c -> (r + u) `mod` s + c < s -> (r + (u + c)) `mod` s = (r + u) `mod` s + c.
Proof.
  intros Hs Hc Hl. pose proof (Z.mod_pos_bound (r + u) s Hs).
  replace (r + (u + c)) with ((r + u) + c) by lia. rewrite <- Zplus_mod_idemp_l.
  by rewrite Z.mod_small by lia.
Qed.

Lemma ring_wrap s x : 0 < s -> 0 <= x <= s -> x `mod` s = if x =? s then 0 else x.
Proof.
  intros Hs Hx. destruct (Z.eqb_spec x s) as [->|]; [apply Z.mod_same; lia|apply Z.mod_small; lia].
Qed.

Lemma put_run_ok src n k p m :
  ring_ok p -> 0 <= k <= n -> n <= UINT32_MAX ->
  disjoint_from (pipe_buffer p) (pipe_size p) src n ->
  let c := Z.min (Z.min (pipe_size p - bytes_used p) (pipe_size p - write_index p)) (n - k) in
  exists p' m', put_run src n k p m = (k + c, p', m') /\ ring_ok p' /\ same_pipe p p' /\
    bytes_used p' = bytes_used p + c /\ (c = pipe_size p - write_index p -> write_index p' = 0) /\
    contents p' m' = contents p m ++ read_bytes m (src + k) c /\
    writes_only (pipe_buffer p) (pipe_size p) m m'.
Proof.
  intros [Hs Hu Hr Hw Hi] Hk Hn Hd c.
  assert (Hc : 0 <= c) by lia. assert (Hwc : write_index p + c <= pipe_size p) by lia.
  unfold put_run. rewrite !(u32_small (_ - _)) by lia.
  destruct (xfer_ok (pipe_buffer p + write_index p)
    (Z.min (pipe_size p - bytes_used p) (pipe_size p - write_index p)) (src + k) (n - k) m)
    as (m' & -> & Hread & Hwr); [lia|lia|apply (disjoint_from_sub _ _ _ _ _ _ _ _ Hd); lia|].
  fold c in Hread, Hwr |- *. rewrite !u32_small by lia.
  assert (Hwo : writes_only (pipe_buffer p) (pipe_size p) m m')
    by (apply (writes_only_weaken _ _ _ _ _ _ Hwr); lia).
  eexists _, m'. split; [reflexivity|].
  destruct (decide (pipe_size p = 0)) as [E0|E0].
  { assert (c = 0) as Ec by lia. rewrite Ec in *. split_and!; try done; cbn [bytes_used write_index pipe_size].
    - split; cbn [pipe_size bytes_used read_index write_index]; try lia.
      + right. split; [done|]. by destruct (_ =? _) eqn:?; bool_facts; lia.
      + rewrite E0, Zmod_0_r. destruct (_ =? _) eqn:?; bool_facts; lia.
    - intros ?. destruct (_ =? _) eqn:?; bool_facts; lia.
    - rewrite read_bytes_0, app_nil_r. unfold contents. cbn [bytes_used].
      by rewrite !(seqZ_nil _ (_ + 0)), !(seqZ_nil _ (bytes_used p)) by lia. }
  assert (Hpos : 0 < pipe_size p) by lia.
  split_and!; try done; cbn [bytes_used write_index pipe_size].
  - split; cbn [pipe_size bytes_used read_index write_index]; try lia.
    + left. destruct (_ =? _) eqn:?; bool_facts; lia.
    + rewrite <- (ring_wrap (pipe_size p)) by lia. rewrite Hi, Zplus_mod_idemp_l. f_equal. lia.
  - intros ->. rewrite (proj2 (Z.eqb_eq _ _)) by lia. done.
  - unfold contents. cbn [bytes_used read_index pipe_buffer pipe_size].
    rewrite seqZ_app by lia. rewrite fmap_app. f_equal.
    + apply list_fmap_ext. intros j i Hx. apply list_elem_of_lookup_2, elem_of_seqZ in Hx.
      apply Hwr. rewrite Hi. intros Hin.
      pose proof (ring_step (pipe_size p) (read_index p) (bytes_used p)
        ((read_index p + i) `mod` pipe_size p - (read_index p + bytes_used p) `mod` pipe_size p)
        Hpos ltac:(lia) ltac:(pose proof (Z.mod_pos_bound (read_index p + i) (pipe_size p)); lia)) as E.
      set (j' := (read_index p + i) `mod` pipe_size p - _) in *.
      replace ((read_index p + bytes_used p) `mod` pipe_size p + j')
        with ((read_index p + i) `mod` pipe_size p) in E by lia.
      apply ring_apart in E; lia.
    + rewrite <- Hread. unfold read_bytes. rewrite <- (Z.add_0_r (pipe_buffer p + write_index p)).
      apply list_eq. intros j. rewrite !list_lookup_fmap.
      destruct (decide (Z.of_nat j < c)) as [Hj|Hj]; [|by rewrite !lookup_seqZ_ge by lia].
      rewrite !lookup_seqZ_lt by lia. cbn [fmap option_fmap option_map]. do 2 f_equal.
      rewrite Z.add_0_l, ring_step by lia. lia.
Qed.

Lemma get_run_ok dest n k p m :
  ring_ok p -> 0 <= k <= n -> n <= UINT32_MAX ->
  disjoint_from (pipe_buffer p) (pipe_size p) dest n ->
  let c := Z.min (n - k) (Z.min (bytes_used p) (pipe_size p - read_index p)) in
  exists p' m', get_run dest n k p m = (k + c, p', m') /\ ring_ok p' /\ same_pipe p p' /\
    bytes_used p' = bytes_used p - c /\ (c = pipe_size p - read_index p -> read_index p' = 0) /\
    contents p m = read_bytes m' (dest + k) c ++ contents p' m' /\
    writes_only (dest + k) c m m'.
Proof.
  intros [Hs Hu Hr Hw Hi] Hk Hn Hd c.
  assert (Hc : 0 <= c) by lia. assert (Hrc : read_index p + c <= pipe_size p) by lia.
  unfold get_run. rewrite !(u32_small (_ - _)) by lia.
  destruct (xfer_ok (dest + k) (n - k) (pipe_buffer p + read_index p)
    (Z.min (bytes_used p) (pipe_size p - read_index p)) m)
    as (m' & -> & Hread & Hwr); [lia|lia|apply disjoint_from_sym, (disjoint_from_sub _ _ _ _ _ _ _ _ Hd); lia|].
  fold c in Hread, Hwr |- *. rewrite !u32_small by lia.
  assert (Hbuf : forall x, pipe_buffer p <= x < pipe_buffer p + pipe_size p -> m' x = m x)
    by (intros x Hx; apply Hwr; unfold disjoint_from in Hd; lia).
  eexists _, m'. split; [reflexivity|].
  destruct (decide (pipe_size p = 0)) as [E0|E0].
  { assert (c = 0) as Ec by lia. rewrite Ec in *. split_and!; try done; cbn [bytes_used read_index pipe_size].
    - split; cbn [pipe_size bytes_used read_index write_index]; try lia.
      + right. split; [done|]. by destruct (_ =? _) eqn:?; bool_facts; lia.
      + rewrite E0, Zmod_0_r in *. destruct (_ =? _) eqn:?; bool_facts; lia.
    - intros ?. destruct (_ =? _) eqn:?; bool_facts; lia.
    - unfold contents. cbn [bytes_used].
      by rewrite !(seqZ_nil _ (bytes_used p)), !(seqZ_nil _ (_ - 0)) by lia. }
  assert (Hpos : 0 < pipe_size p) by lia.
  split_and!; try done; cbn [bytes_used read_index pipe_size].
  - split; cbn [pipe_size bytes_used read_index write_index]; try lia.
    + left. destruct (_ =? _) eqn:?; bool_facts; lia.
    + rewrite <- (ring_wrap (pipe_size p)) by lia. rewrite Zplus_mod_idemp_l, Hi. f_equal. lia.
  - intros ->. rewrite (proj2 (Z.eqb_eq _ _)) by lia. done.
  - unfold contents. cbn [bytes_used read_index pipe_buffer pipe_size].
    replace (bytes_used p) with (c + (bytes_used p - c)) at 1 by lia.
    rewrite seqZ_app by lia. rewrite fmap_app, Hread. f_equal.
    + unfold read_bytes. apply list_eq. intros j. rewrite !list_lookup_fmap.
      destruct (decide (Z.of_nat j < c)) as [Hj|Hj]; [|by rewrite !lookup_seqZ_ge by lia].
      rewrite !lookup_seqZ_lt by lia. cbn [fmap option_fmap option_map]. do 2 f_equal.
      rewrite Z.mod_small by lia. lia.
    + apply list_eq. intros j. rewrite !list_lookup_fmap.
      destruct (decide (Z.of_nat j < bytes_used p - c)) as [Hj|Hj]; [|by rewrite !lookup_seqZ_ge by lia].
      rewrite !lookup_seqZ_lt by lia. cbn [fmap option_fmap option_map]. f_equal.
      rewrite <- (ring_wrap (pipe_size p)) by lia. rewrite Zplus_mod_idemp_l.
      rewrite Hbuf by (pose proof (Z.mod_pos_bound (read_index p + c + (0 + Z.of_nat j)) (pipe_size p)); lia).
      do 3 f_equal. lia.
Qed.

(** Putting appends as many bytes as fit. *)
Lemma buffer_put_ok src n p m :
  ring_ok p -> 0 <= n <= UINT32_MAX -> disjoint_from (pipe_buffer p) (pipe_size p) src n ->
  let c := Z.min n (pipe_size p - bytes_used p) in
  exists p' m', _pipe_buffer_put src n p m = (c, p', m') /\ ring_ok p' /\ same_pipe p p' /\
    bytes_used p' = bytes_used p + c /\
    contents p' m' = contents p m ++ read_bytes m src c /\
    writes_only (pipe_buffer p) (pipe_size p) m m'.
Proof.
  intros Hok Hn Hd c. unfold _pipe_buffer_put. pose proof Hok as [? ? ? ? _].
  destruct (put_run_ok src n 0 p m Hok ltac:(lia) ltac:(lia) Hd)
    as (p1 & m1 & -> & Hok1 & Hsp1 & Hu1 & Hw1 & Hc1 & Hwo1).
  set (c1 := Z.min (Z.min _ _) (n - 0)) in *. destruct Hsp1 as (Eb & Es & Er & Ew).
  destruct (put_run_ok src n (0 + c1) p1 m1 Hok1 ltac:(lia) ltac:(lia))
    as (p2 & m2 & E2 & Hok2 & Hsp2 & Hu2 & _ & Hc2 & Hwo2); [by rewrite Eb, Es|].
  set (c2 := Z.min (Z.min _ _) (n - (0 + c1))) in *. pose proof Hok1 as [? ? ? ? _].
  assert (E : c1 + c2 = c).
  { destruct (decide (c1 = pipe_size p - write_index p)) as [E|E].
    - specialize (Hw1 E). lia.
    - lia. }
  rewrite Eb, Es in *.
  exists p2, m2. split_and!; try done.
  - rewrite E2. do 2 f_equal. lia.
  - unfold same_pipe in *. rewrite Eb, Es, Er, Ew in Hsp2. done.
  - lia.
  - rewrite Hc2, Hc1, <- app_assoc. f_equal. rewrite !Z.add_0_l, !Z.add_0_r.
    rewrite (writes_only_read _ _ _ _ _ _ Hwo1) by (apply (disjoint_from_sub _ _ _ _ _ _ _ _ Hd); lia).
    rewrite <- read_bytes_app by lia. f_equal. lia.
  - by eapply writes_only_trans.
Qed.

(** Getting takes the oldest bytes, as many as there are. *)
Lemma buffer_get_ok dest n p m :
  ring_ok p -> 0 <= n <= UINT32_MAX -> disjoint_from (pipe_buffer p) (pipe_size p) dest n ->
  let c := Z.min n (bytes_used p) in
  exists p' m', _pipe_buffer_get dest n p m = (c, p', m') /\ ring_ok p' /\ same_pipe p p' /\
    bytes_used p' = bytes_used p - c /\
    contents p m = read_bytes m' dest c ++ contents p' m' /\
    writes_only dest c m m'.
Proof.
  intros Hok Hn Hd c. unfold _pipe_buffer_get. pose proof Hok as [? ? ? ? _].
  destruct (get_run_ok dest n 0 p m Hok ltac:(lia) ltac:(lia) Hd)
    as (p1 & m1 & -> & Hok1 & Hsp1 & Hu1 & Hw1 & Hc1 & Hwo1).
  set (c1 := Z.min (n - 0) (Z.min _ _)) in *. destruct Hsp1 as (Eb & Es & Er & Ew).
  destruct (get_run_ok dest n (0 + c1) p1 m1 Hok1 ltac:(lia) ltac:(lia))
    as (p2 & m2 & E2 & Hok2 & Hsp2 & Hu2 & _ & Hc2 & Hwo2); [by rewrite Eb, Es|].
  set (c2 := Z.min (n - (0 + c1)) (Z.min _ _)) in *. pose proof Hok1 as [? ? ? ? _].
  assert (E : c1 + c2 = c).
  { destruct (decide (c1 = pipe_size p - read_index p)) as [E|E].
    - specialize (Hw1 E). lia.
    - lia. }
  exists p2, m2. split_and!; try done.
  - rewrite E2. do 2 f_equal. lia.
  - unfold same_pipe in *. rewrite Eb, Es, Er, Ew in Hsp2. done.
  - lia.
  - rewrite Hc1, Hc2, app_assoc. f_equal. rewrite !Z.add_0_l, !Z.add_0_r in *.
    rewrite <- E, read_bytes_app by lia. f_equal. symmetry.
    apply (writes_only_read _ _ _ _ _ _ Hwo2). unfold disjoint_from. lia.
  - apply (writes_only_trans _ _ _ m1); eapply writes_only_weaken; try done; lia.
Qed.
End Ring.
