(* ===== verification/Pipes.v ===== *)
(** * Pipes (kernel/unified/pipes.c)

    Readers and writers exchange bytes through the pipe's buffer and, when
    threads wait, directly. The state of a call: the pipe, the byte memory, the
    descriptors ([struct k_pipe_desc]) of the waiting threads - each lives on
    its thread's stack and [swap_data] points to it, so it is known by the
    thread - and the kernel. The model is of the configuration without
    asynchronous messages (CONFIG_NUM_PIPE_ASYNC_MSGS is 0). *)
From S2P Require Import Prelude Kernel ReadyQ TimeoutQ Sched SchedInv SchedApi Transit Thread Boot.
From S2P Require Import LibcString PipeBuf.

Record k_pipe_desc := mk_pipe_desc { desc_buffer : Z; bytes_to_xfer : Z }.

Record pipe_world := mk_pipe_world {
  pw_pipe : k_pipe;
  pw_mem : memory;
  pw_descs : tid -> k_pipe_desc;
  pw_kernel : kernel
}.

Definition set_pw_kernel (k : kernel) (w : pipe_world) : pipe_world :=
  mk_pipe_world (pw_pipe w) (pw_mem w) (pw_descs w) k.
Definition set_pw_buffer (p : k_pipe) (m : memory) (w : pipe_world) : pipe_world :=
  mk_pipe_world p m (pw_descs w) (pw_kernel w).
Definition set_pw_desc (t : tid) (d : k_pipe_desc) (w : pipe_world) : pipe_world :=
  mk_pipe_world (pw_pipe w) (pw_mem w) (<[t := d]> (pw_descs w)) (pw_kernel w).

Section Operations.
Context `{KConfig}.
Implicit Types (w : pipe_world) (t : tid) (wq : wqid) (k : kernel) (descs : tid -> k_pipe_desc).

Definition k_pipe_init (buffer size : Z) (rq wq : wqid) w : pipe_world :=
  mk_pipe_world (mk_pipe buffer size 0 0 0 rq wq) (pw_mem w) (pw_descs w)
    (upd_wait_q rq [] (upd_wait_q wq [] (pw_kernel w))).

(** [_pipe_xfer_prepare]: the bytes that the waiters could transfer, counted up
    to the request ... *)
Fixpoint waiting_bytes (l : list tid) (num_bytes request : Z) descs : Z :=
  match l with
  | [] => num_bytes
  | t :: l =>
      let num_bytes := u32 (num_bytes + bytes_to_xfer (descs t)) in
      if request <=? num_bytes then num_bytes else waiting_bytes l num_bytes request descs
  end.

(** ... and the loop that moves to the transfer list the waiters that can be
    satisfied, leaving on the queue the first that cannot. *)
Fixpoint take_waiters (fuel : nat) wq (num_bytes request : Z) (xfer_list : list tid) descs k
    : option (list tid * option tid * kernel) :=
  match fuel with
  | O => None
  | S fuel =>
      match wait_qs k wq with
      | [] => Some (xfer_list, None, k)
      | t :: _ =>
          let num_bytes := u32 (num_bytes + bytes_to_xfer (descs t)) in
          if request <? num_bytes then Some (xfer_list, Some t, k)
          else
            k ← _unpend_thread t k;
            let '(_, k) := _abort_thread_timeout t k in
            take_waiters fuel wq num_bytes request (xfer_list ++ [t]) descs k
      end
  end.

(** The result [Some None] is [false]: the request is unsatisfiable. *)
Definition _pipe_xfer_prepare wq (pipe_space request min_xfer timeout : Z) descs k
    : option (option (list tid * option tid * kernel)) :=
  if (timeout =? K_NO_WAIT)
     && (u32 (waiting_bytes (wait_qs k wq) 0 request descs + pipe_space) <? min_xfer)
  then Some None
  else r ← take_waiters (S (length (wait_qs k wq))) wq 0 request [] descs k; Some (Some r).

Definition _pipe_return_code (min_xfer bytes_remaining bytes_requested : Z) : Z :=
  if min_xfer <=? u32 (bytes_requested - bytes_remaining) then 0 else - EAGAIN.

(** What a descriptor looks like once [n] of its bytes have been transferred. *)
Definition advance_desc (n : Z) (d : k_pipe_desc) : k_pipe_desc :=
  mk_pipe_desc (desc_buffer d + n) (u32 (bytes_to_xfer d - n)).

(** A copy from the caller's data, of which [n] bytes have been written, to the
    buffer of the reader [t]. *)
Definition copy_to_reader t (data bytes_to_write n : Z) w : Z * pipe_world :=
  let d := pw_descs w t in
  let '(bytes_copied, m) := _pipe_xfer (desc_buffer d) (bytes_to_xfer d) (data + n)
                              (u32 (bytes_to_write - n)) (pw_mem w) in
  (u32 (n + bytes_copied), set_pw_desc t (advance_desc bytes_copied d) (set_pw_buffer (pw_pipe w) m w)).

Fixpoint feed_readers (xfer_list : list tid) (data bytes_to_write n : Z) w : option (Z * pipe_world) :=
  match xfer_list with
  | [] => Some (n, w)
  | t :: l =>
      let '(n, w) := copy_to_reader t data bytes_to_write n w in
      k ← _ready_thread t (pw_kernel w);
      feed_readers l data bytes_to_write n (set_pw_kernel k w)
  end.

(** The end of both calls: [n] of [total] bytes have been transferred. *)
Definition pipe_finish wq (data total n min_xfer timeout : Z) w : option (outcome (Z * Z) * pipe_world) :=
  if n =? total then k ← k_sched_unlock (pw_kernel w); Some (Returns (0, n), set_pw_kernel k w)
  else
    let d := mk_pipe_desc (data + n) (u32 (total - n)) in
    if negb (timeout =? K_NO_WAIT) then
      let w := set_pw_desc (current (pw_kernel w)) d w in
      let k := _sched_unlock_no_reschedule (pw_kernel w) in
      k ← _pend_current_thread wq timeout k;
      k ← _Swap k;
      Some (Blocks, set_pw_kernel k w)
    else
      k ← k_sched_unlock (pw_kernel w);
      Some (Returns (_pipe_return_code min_xfer (bytes_to_xfer d) total, u32 (total - bytes_to_xfer d)),
            set_pw_kernel k w).

(** What a call that blocked returns: the code and the bytes transferred. *)
Definition pipe_resume t (total min_xfer : Z) w : Z * Z :=
  let left := bytes_to_xfer (pw_descs w t) in
  (_pipe_return_code min_xfer left total, u32 (total - left)).

(** The copying of [_k_pipe_put_internal]: to the readers that will be ready, to
    the one left waiting, and to the circular buffer. *)
Definition put_transfer (xfer_list : list tid) (reader : option tid) (data bytes_to_write : Z) w
    : option (Z * pipe_world) :=
  '(n, w) ← feed_readers xfer_list data bytes_to_write 0 w;
  let '(n, w) := match reader with
                 | Some t => copy_to_reader t data bytes_to_write n w
                 | None => (n, w)
                 end in
  let '(c, p, m) := _pipe_buffer_put (data + n) (u32 (bytes_to_write - n)) (pw_pipe w) (pw_mem w) in
  Some (u32 (n + c), set_pw_buffer p m w).

(** The value is the return code with [*bytes_written]. *)
Definition k_pipe_put (data bytes_to_write min_xfer timeout : Z) w
    : option (outcome (Z * Z) * pipe_world) :=
  if negb (min_xfer <=? bytes_to_write) then None else
  let p := pw_pipe w in
  r ← _pipe_xfer_prepare (readers p) (u32 (pipe_size p - bytes_used p)) bytes_to_write min_xfer timeout
        (pw_descs w) (pw_kernel w);
  match r with
  | None => Some (Returns (- EIO, 0), w)
  | Some (xfer_list, reader, k) =>
      '(n, w) ← put_transfer xfer_list reader data bytes_to_write (set_pw_kernel (_sched_lock k) w);
      pipe_finish (writers p) data bytes_to_write n min_xfer timeout w
  end.

(** A copy from the buffer of the writer [t] to the caller's. *)
Definition copy_from_writer t (data bytes_to_read n : Z) w : Z * pipe_world :=
  let d := pw_descs w t in
  let '(bytes_copied, m) := _pipe_xfer (data + n) (u32 (bytes_to_read - n)) (desc_buffer d)
                              (bytes_to_xfer d) (pw_mem w) in
  (u32 (n + bytes_copied), set_pw_desc t (advance_desc bytes_copied d) (set_pw_buffer (pw_pipe w) m w)).

(** The first loop of [k_pipe_get]; it returns the writers it has not finished,
    the first of them being the variable [thread] after the loop. *)
Fixpoint drain_writers (xfer_list : list tid) (data bytes_to_read n : Z) w
    : option (list tid * Z * pipe_world) :=
  match xfer_list with
  | [] => Some ([], n, w)
  | t :: l =>
      if n <? bytes_to_read then
        let '(n, w) := copy_from_writer t data bytes_to_read n w in
        if n =? bytes_to_read then Some (t :: l, n, w)
        else k ← _ready_thread t (pw_kernel w); drain_writers l data bytes_to_read n (set_pw_kernel k w)
      else Some (t :: l, n, w)
  end.

(** What the writer [t] still has goes to the circular buffer. *)
Definition refill_from t w : pipe_world :=
  let d := pw_descs w t in
  let '(c, p, m) := _pipe_buffer_put (desc_buffer d) (bytes_to_xfer d) (pw_pipe w) (pw_mem w) in
  set_pw_desc t (advance_desc c d) (set_pw_buffer p m w).

Fixpoint refill (xfer_list : list tid) w : option pipe_world :=
  match xfer_list with
  | [] => Some w
  | t :: l =>
      let w := refill_from t w in
      k ← _ready_thread t (pw_kernel w);
      refill l (set_pw_kernel k w)
  end.

(** The copying of [k_pipe_get]: from the circular buffer, from the writers that
    will be ready and from the one left waiting; what these writers still have
    goes to the circular buffer. *)
Definition get_transfer (xfer_list : list tid) (writer : option tid) (data bytes_to_read : Z) w
    : option (Z * pipe_world) :=
  let '(n, p, m) := _pipe_buffer_get data bytes_to_read (pw_pipe w) (pw_mem w) in
  '(xfer_list, n, w) ← drain_writers xfer_list data bytes_to_read n (set_pw_buffer p m w);
  let '(n, w) := match writer with
                 | Some t => if n <? bytes_to_read then copy_from_writer t data bytes_to_read n w
                             else (n, w)
                 | None => (n, w)
                 end in
  w ← refill xfer_list w;
  Some (n, match writer with Some t => refill_from t w | None => w end).

Definition k_pipe_get (data bytes_to_read min_xfer timeout : Z) w
    : option (outcome (Z * Z) * pipe_world) :=
  if negb (min_xfer <=? bytes_to_read) then None else
  let p := pw_pipe w in
  r ← _pipe_xfer_prepare (writers p) (bytes_used p) bytes_to_read min_xfer timeout
        (pw_descs w) (pw_kernel w);
  match r with
  | None => Some (Returns (- EIO, 0), w)
  | Some (xfer_list, writer, k) =>
      '(n, w) ← get_transfer xfer_list writer data bytes_to_read (set_pw_kernel (_sched_lock k) w);
      pipe_finish (readers p) data bytes_to_read n min_xfer timeout w
  end.
End Operations.

(** ** Choosing the waiters *)
Section Waiters.
Context `{KConfig}.
Implicit Types (w : pipe_world) (t : tid) (wq : wqid) (k : kernel) (descs : tid -> k_pipe_desc)
  (K : toid -> Prop) (l S rest : list tid).

(** The bytes that the threads [l] want to transfer. *)
Definition total descs l : Z := foldr (fun t n => bytes_to_xfer (descs t) + n) 0 l.

Lemma total_app descs l1 l2 : total descs (l1 ++ l2) = total descs l1 + total descs l2.
Proof. induction l1 as [|t l1 IH]; [done|]. cbn [app total foldr]. fold (total descs (l1 ++ l2)) (total descs l1). lia. Qed.

Lemma total_ext descs descs' l : (forall t, t ∈ l -> descs' t = descs t) -> total descs' l = total descs l.
Proof.
  induction l as [|t l IH]; intros He; [done|]. cbn [total foldr]. fold (total descs' l) (total descs l).
  rewrite He by (apply elem_of_cons; by left). rewrite IH; [done|]. intros x Hx. apply He, elem_of_cons. by right.
Qed.

(** Requests whose sizes leave room for 32-bit sums. *)
Definition fits (request : Z) descs l : Prop :=
  forall t, t ∈ l -> 0 <= bytes_to_xfer (descs t) /\ request + bytes_to_xfer (descs t) <= UINT32_MAX.

Lemma fits_cons request descs t l : fits request descs (t :: l) -> fits request descs l.
Proof. intros Hf x Hx. apply Hf, elem_of_cons. by right. Qed.

Lemma fits_head request descs t l :
  fits request descs (t :: l) -> 0 <= bytes_to_xfer (descs t) /\ request + bytes_to_xfer (descs t) <= UINT32_MAX.
Proof. intros Hf. apply Hf, elem_of_cons. by left. Qed.

Lemma total_nonneg request descs l : fits request descs l -> 0 <= total descs l.
Proof.
  induction l as [|t l IH]; intros Hf; [done|]. cbn [total foldr]. fold (total descs l).
  pose proof (fits_head _ _ _ _ Hf). pose proof (IH (fits_cons _ _ _ _ Hf)). lia.
Qed.

Lemma waiting_bytes_ok request space descs l num :
  fits (request + space) descs l -> 0 <= num <= request -> 0 <= space -> num + space <= UINT32_MAX ->
  let v := waiting_bytes l num request descs in
  0 <= v /\ v + space <= UINT32_MAX /\ Z.min request v = Z.min request (num + total descs l).
Proof.
  revert num. induction l as [|t l IH]; intros num Hf Hn Hs Hsp; cbn [waiting_bytes total foldr].
  - split_and!; lia.
  - fold (total descs l). pose proof (fits_head _ _ _ _ Hf) as Ht. pose proof (fits_cons _ _ _ _ Hf) as Hf'.
    pose proof (total_nonneg _ _ _ Hf'). rewrite u32_small by lia.
    destruct (Z.leb_spec request (num + bytes_to_xfer (descs t))); [split_and!; lia|].
    destruct (IH (num + bytes_to_xfer (descs t)) Hf') as (? & ? & E); [lia..|].
    split_and!; [lia|lia|]. rewrite E. f_equal. lia.
Qed.

Lemma take_waiters_ok K descs wq request l fuel num xfer k :
  transit K xfer k -> wait_qs k wq = l -> (length l < fuel)%nat -> 0 <= num <= request ->
  fits request descs l ->
  exists S rest k', take_waiters fuel wq num request xfer descs k = Some (xfer ++ S, head rest, k') /\
    l = S ++ rest /\ transit K (xfer ++ S) k' /\ departed wq S rest k k' /\
    num + total descs S <= request /\
    (forall t rest', rest = t :: rest' -> request < num + total descs S + bytes_to_xfer (descs t)).
Proof.
  revert fuel num xfer k. induction l as [|t l IH]; intros fuel num xfer k Htr Eq Hfu Hn Hf;
    destruct fuel as [|fuel]; try (cbn in Hfu; lia); cbn [take_waiters]; rewrite Eq.
  - pose proof (departed_nil wq k) as Hd. rewrite Eq in Hd.
    exists [], [], k. rewrite app_nil_r. split_and!; try done. cbn. lia.
  - pose proof (fits_head _ _ _ _ Hf) as Ht. pose proof (fits_cons _ _ _ _ Hf) as Hf'. rewrite u32_small by lia.
    destruct (Z.ltb_spec request (num + bytes_to_xfer (descs t))) as [Hlt|Hge].
    + pose proof (departed_nil wq k) as Hd. rewrite Eq in Hd.
      exists [], (t :: l), k. rewrite app_nil_r. split_and!; try done.
      * cbn. lia.
      * intros ?? [= <- <-]. cbn. lia.
    + destruct (park_first K xfer k wq t l Htr Eq) as (k1 & E1 & Htr1 & Hpk).
      unfold park in E1. destruct (_unpend_thread t k) as [ku|]; [|done]. cbn [mbind option_bind] in *.
      destruct (_abort_thread_timeout t ku) as [r ka]. injection E1 as <-.
      destruct (IH fuel (num + bytes_to_xfer (descs t)) (xfer ++ [t]) ka Htr1 (pk_queue _ _ _ _ _ Hpk))
        as (S & rest & k' & E & -> & Htr' & Hdp & Hle & Hgt); [cbn in Hfu; lia|lia|done|].
      rewrite <- app_assoc in E, Htr'. exists (t :: S), rest, k'. split_and!; try done.
      * by eapply departed_cons.
      * cbn [total foldr]. fold (total descs S). lia.
      * intros x rest' Er. specialize (Hgt x rest' Er). cbn [total foldr]. fold (total descs S). lia.
Qed.
End Waiters.

(** ** Copying *)
Section Copying.
Context `{KConfig}.
Implicit Types (w : pipe_world) (t : tid) (d : k_pipe_desc) (descs : tid -> k_pipe_desc) (m : memory)
  (K : toid -> Prop) (l S : list tid) (data R n : Z).

Definition desc_data m d : list Z := read_bytes m (desc_buffer d) (bytes_to_xfer d).
(** The bytes the threads [l] have in their buffers, or have asked for. *)
Definition pending m descs l : list Z := l ≫= (fun t => desc_data m (descs t)).

(** A request, a part of which has been served. *)
Definition narrowed d d' : Prop :=
  desc_buffer d <= desc_buffer d' /\ 0 <= bytes_to_xfer d' /\
  desc_buffer d' + bytes_to_xfer d' = desc_buffer d + bytes_to_xfer d.

(** The buffers of [l] do not meet the region [[a, a + n)]. *)
Definition clear_of (a n : Z) descs l : Prop :=
  forall t, t ∈ l -> 0 <= bytes_to_xfer (descs t) <= UINT32_MAX /\
    disjoint_from a n (desc_buffer (descs t)) (bytes_to_xfer (descs t)).

Lemma clear_cons a n descs t l : clear_of a n descs (t :: l) -> clear_of a n descs l.
Proof. intros Hc x Hx. apply Hc, elem_of_cons. by right. Qed.

Lemma clear_head a n descs t l :
  clear_of a n descs (t :: l) -> 0 <= bytes_to_xfer (descs t) <= UINT32_MAX /\
    disjoint_from a n (desc_buffer (descs t)) (bytes_to_xfer (descs t)).
Proof. intros Hc. apply Hc, elem_of_cons. by left. Qed.

Lemma clear_narrowed a n descs descs' l :
  clear_of a n descs l -> (forall t, t ∈ l -> narrowed (descs t) (descs' t)) -> clear_of a n descs' l.
Proof.
  intros Hc Hn t Ht. destruct (Hc t Ht) as [Hb Hd]. destruct (Hn t Ht) as (? & ? & ?).
  split; [lia|]. apply (disjoint_from_sub _ _ _ _ _ _ _ _ Hd); lia.
Qed.

Lemma clear_ext a n descs descs' l :
  clear_of a n descs l -> (forall t, t ∈ l -> descs' t = descs t) -> clear_of a n descs' l.
Proof. intros Hc He t Ht. rewrite He by done. by apply Hc. Qed.

Lemma narrowed_refl d : 0 <= bytes_to_xfer d -> narrowed d d.
Proof. unfold narrowed. lia. Qed.

Lemma narrowed_trans d1 d2 d3 : narrowed d1 d2 -> narrowed d2 d3 -> narrowed d1 d3.
Proof. unfold narrowed. lia. Qed.

Lemma pending_cons m descs t l : pending m descs (t :: l) = desc_data m (descs t) ++ pending m descs l.
Proof. done. Qed.

Lemma pending_app m descs l1 l2 : pending m descs (l1 ++ l2) = pending m descs l1 ++ pending m descs l2.
Proof. apply bind_app. Qed.

Lemma pending_same m descs descs' l :
  (forall t, t ∈ l -> descs' t = descs t) -> pending m descs' l = pending m descs l.
Proof.
  intros He. induction l as [|t l IH]; [done|]. rewrite !pending_cons.
  rewrite He by (apply elem_of_cons; by left). f_equal. apply IH. intros x Hx. apply He, elem_of_cons. by right.
Qed.

(** Writing elsewhere changes nothing of what is pending. *)
Lemma pending_ext m m' descs descs' l a n :
  writes_only a n m m' -> clear_of a n descs l -> (forall t, t ∈ l -> descs' t = descs t) ->
  pending m' descs' l = pending m descs l.
Proof.
  intros Hw Hc He. induction l as [|t l IH]; [done|]. rewrite !pending_cons.
  rewrite He by (apply elem_of_cons; by left). f_equal.
  - apply (writes_only_read _ _ _ _ _ _ Hw). by apply (clear_head _ _ _ _ _ Hc).
  - apply IH; [by eapply clear_cons|]. intros x Hx. apply He, elem_of_cons. by right.
Qed.

Lemma pending_length m descs l :
  (forall t, t ∈ l -> 0 <= bytes_to_xfer (descs t)) -> Z.of_nat (length (pending m descs l)) = total descs l.
Proof.
  induction l as [|t l IH]; intros Hp; [done|]. rewrite pending_cons, length_app.
  cbn [total foldr]. fold (total descs l). rewrite <- IH by (intros; apply Hp, elem_of_cons; by right).
  unfold desc_data. rewrite Nat2Z.inj_add, read_bytes_length by (apply Hp, elem_of_cons; by left). done.
Qed.

Lemma desc_data_split m d c :
  0 <= c <= bytes_to_xfer d ->
  desc_data m d = read_bytes m (desc_buffer d) c ++ desc_data m (mk_pipe_desc (desc_buffer d + c) (bytes_to_xfer d - c)).
Proof. intros. unfold desc_data. by apply read_bytes_split. Qed.

Lemma copy_from_writer_ok t data R n w :
  let d := pw_descs w t in
  0 <= n <= R -> R <= UINT32_MAX -> 0 <= bytes_to_xfer d <= UINT32_MAX ->
  disjoint_from data R (desc_buffer d) (bytes_to_xfer d) ->
  let c := Z.min (R - n) (bytes_to_xfer d) in
  exists m', copy_from_writer t data R n w =
      (n + c, set_pw_desc t (mk_pipe_desc (desc_buffer d + c) (bytes_to_xfer d - c))
                (set_pw_buffer (pw_pipe w) m' w)) /\
    read_bytes m' data (n + c) ++ desc_data m' (mk_pipe_desc (desc_buffer d + c) (bytes_to_xfer d - c)) =
      read_bytes (pw_mem w) data n ++ desc_data (pw_mem w) d /\
    writes_only (data + n) c (pw_mem w) m'.
Proof.
  intros d Hn HR Hx Hd c. unfold copy_from_writer. fold d. rewrite !(u32_small (R - n)) by lia.
  destruct (xfer_ok (data + n) (R - n) (desc_buffer d) (bytes_to_xfer d) (pw_mem w))
    as (m' & -> & Hr & Hw); [lia|lia|apply (disjoint_from_sub _ _ _ _ _ _ _ _ Hd); lia|].
  fold c in Hr, Hw |- *. exists m'. unfold advance_desc. rewrite !u32_small by lia. split_and!; [done| |done].
  rewrite read_bytes_app by lia. rewrite Hr, (desc_data_split (pw_mem w) d c) by lia.
  rewrite <- app_assoc. f_equal; [|f_equal].
  - apply (writes_only_read _ _ _ _ _ _ Hw). unfold disjoint_from. lia.
  - apply (writes_only_read _ _ _ _ _ _ Hw). cbn. apply (disjoint_from_sub _ _ _ _ _ _ _ _ Hd); lia.
Qed.

(** What draining the writers [S] from [n] bytes on does. *)
Record drained K data R S n w (S' : list tid) n' w' D : Prop := {
  dr_split : S = D ++ S';
  dr_transit : transit K S' (pw_kernel w');
  dr_arrived : arrived D (pw_kernel w) (pw_kernel w');
  dr_pipe : pw_pipe w' = pw_pipe w;
  dr_mem : writes_only data R (pw_mem w) (pw_mem w');
  dr_others x : x ∉ S -> pw_descs w' x = pw_descs w x;
  dr_done t : t ∈ D -> bytes_to_xfer (pw_descs w' t) = 0;
  dr_narrowed t : t ∈ S -> narrowed (pw_descs w t) (pw_descs w' t);
  dr_n : n <= n' <= R;
  dr_stop : S' <> [] -> n' = R;
  dr_count : n' - n + total (pw_descs w') S' = total (pw_descs w) S;
  dr_data : read_bytes (pw_mem w') data n' ++ pending (pw_mem w') (pw_descs w') S' =
            read_bytes (pw_mem w) data n ++ pending (pw_mem w) (pw_descs w) S
}.

Lemma set_desc_other t d w x : x <> t -> pw_descs (set_pw_desc t d w) x = pw_descs w x.
Proof. intros. cbn. by apply fn_lookup_insert_ne. Qed.
Lemma set_desc_same t d w : pw_descs (set_pw_desc t d w) t = d.
Proof. cbn. apply fn_lookup_insert. Qed.

Lemma drain_ok K data R S n w :
  transit K S (pw_kernel w) -> 0 <= n <= R -> R <= UINT32_MAX -> clear_of data R (pw_descs w) S ->
  exists S' n' w' D, drain_writers S data R n w = Some (S', n', w') /\ drained K data R S n w S' n' w' D.
Proof.
  revert n w. induction S as [|t S IH]; intros n w Htr Hn HR Hc; cbn [drain_writers].
  { exists [], n, w, []. split; [done|]. split; try done; [apply arrived_nil|by intros t ?%elem_of_nil..|lia|cbn; lia]. }
  pose proof (clear_head _ _ _ _ _ Hc) as [Hx Hd]. pose proof (clear_cons _ _ _ _ _ Hc) as Hc'.
  destruct (Z.ltb_spec n R) as [Hlt|Hge].
  2:{ exists (t :: S), n, w, []. split; [done|].
      split; try done; [apply arrived_nil|by intros x ?%elem_of_nil| |lia|intros; lia|lia].
      intros x Hin. apply narrowed_refl. by apply (Hc x). }
  destruct (copy_from_writer_ok t data R n w Hn HR Hx Hd) as (m1 & -> & Hdata & Hwr).
  set (d := pw_descs w t) in *. set (c := Z.min (R - n) (bytes_to_xfer d)) in *.
  set (d1 := mk_pipe_desc _ _) in *. set (w1 := set_pw_desc t d1 _).
  assert (HtS : t ∉ S) by (by apply (tr_nodup _ _ _), NoDup_cons in Htr as [? _]).
  assert (Hne : forall x, x ∈ S -> x <> t) by (intros x Hin ->; done).
  assert (Ed1 : pw_descs w1 t = d1) by apply set_desc_same.
  assert (Edo : forall x, x <> t -> pw_descs w1 x = pw_descs w x) by (intros; unfold w1; by rewrite set_desc_other).
  assert (Hwo : writes_only data R (pw_mem w) m1) by (apply (writes_only_weaken _ _ _ _ _ _ Hwr); lia).
  assert (Hp1 : pending m1 (pw_descs w1) S = pending (pw_mem w) (pw_descs w) S)
    by (apply (pending_ext _ _ _ _ _ _ _ Hwo Hc'); intros; by apply Edo, Hne).
  assert (Hnar : narrowed d d1) by (unfold narrowed, d1; cbn; lia).
  assert (Ht1 : total (pw_descs w1) S = total (pw_descs w) S) by (apply total_ext; intros; by apply Edo, Hne).
  destruct (Z.eqb_spec (n + c) R) as [Ec|Ec].
  - exists (t :: S), (n + c), w1, []. split; [done|].
    split; try done; [apply arrived_nil|..].
    + intros x [Hxt _]%not_elem_of_cons. by apply Edo.
    + by intros x ?%elem_of_nil.
    + intros x [->|Hin]%elem_of_cons; [by rewrite Ed1|]. rewrite Edo by auto. apply narrowed_refl. by apply (Hc' x).
    + lia.
    + cbn [total foldr]. fold (total (pw_descs w1) S) (total (pw_descs w) S). rewrite Ed1, Ht1. fold d. cbn. lia.
    + change (pw_mem w1) with m1. rewrite !pending_cons, Ed1, Hp1. fold d. rewrite !app_assoc. by f_equal.
  - destruct (arrive_first K t S (pw_kernel w) Htr) as (k1 & E1 & Htr1 & Har1).
    change (pw_kernel w1) with (pw_kernel w). rewrite E1. cbn [mbind option_bind].
    assert (c = bytes_to_xfer d) as Ecd by lia.
    destruct (IH (n + c) (set_pw_kernel k1 w1) Htr1 ltac:(lia) HR) as (S' & n' & w' & D & E & Hdr).
    { apply (clear_ext data R (pw_descs w)); [done|]. intros x Hin. cbn -[set_pw_desc]. apply Edo; auto. }
    exists S', n', w', (t :: D). split; [exact E|]. destruct Hdr as [A1 A2 A3 A4 A5 A6 A7 A8 A9 A10 A11 A12].
    assert (pw_descs w' t = d1) as Et by (rewrite A6 by done; exact Ed1).
    split; try done.
    + by rewrite A1.
    + change (t :: D) with ([t] ++ D). apply (arrived_app _ _ _ k1); [|done|done].
      apply (tr_nodup _ _ _) in Htr. rewrite A1 in Htr.
      by apply (NoDup_app (t :: D) S') in Htr as [? _].
    + by eapply writes_only_trans.
    + intros x [Hxt HxS]%not_elem_of_cons. rewrite A6 by done. by apply Edo.
    + intros x [->|Hin]%elem_of_cons; [|by apply A7]. rewrite Et. cbn. lia.
    + intros x [->|Hin]%elem_of_cons; [by rewrite Et|]. rewrite <- (Edo x) by auto. by apply A8.
    + lia.
    + cbn [total foldr]. fold (total (pw_descs w) S). rewrite <- Ht1. fold d.
      change (total (pw_descs (set_pw_kernel k1 w1)) S) with (total (pw_descs w1) S) in A11. lia.
    + rewrite A12. cbn [pw_mem pw_descs set_pw_kernel].
      change (pw_mem w1) with m1. rewrite Hp1, pending_cons. fold d. rewrite !app_assoc. f_equal.
      rewrite <- Hdata. unfold desc_data, d1. cbn [bytes_to_xfer]. replace (bytes_to_xfer d - c) with 0 by lia.
      by rewrite read_bytes_0, app_nil_r.
Qed.

Lemma same_pipe_refl (p : k_pipe) : same_pipe p p.
Proof. done. Qed.

Lemma same_pipe_trans (p1 p2 p3 : k_pipe) : same_pipe p1 p2 -> same_pipe p2 p3 -> same_pipe p1 p3.
Proof. unfold same_pipe. intuition congruence. Qed.

Lemma refill_from_ok t w :
  let d := pw_descs w t in let p := pw_pipe w in
  ring_ok p -> 0 <= bytes_to_xfer d <= UINT32_MAX ->
  disjoint_from (pipe_buffer p) (pipe_size p) (desc_buffer d) (bytes_to_xfer d) ->
  let c := Z.min (bytes_to_xfer d) (pipe_size p - bytes_used p) in
  let d' := mk_pipe_desc (desc_buffer d + c) (bytes_to_xfer d - c) in
  exists p' m', refill_from t w = set_pw_desc t d' (set_pw_buffer p' m' w) /\
    ring_ok p' /\ same_pipe p p' /\ bytes_used p' = bytes_used p + c /\
    contents p' m' ++ desc_data m' d' = contents p (pw_mem w) ++ desc_data (pw_mem w) d /\
    writes_only (pipe_buffer p) (pipe_size p) (pw_mem w) m'.
Proof.
  intros d p Hok Hx Hd c d'. unfold refill_from. fold d p. pose proof Hok as [? ? _ _ _].
  destruct (buffer_put_ok (desc_buffer d) (bytes_to_xfer d) p (pw_mem w) Hok Hx Hd)
    as (p' & m' & -> & Hok' & Hsp & Hu & Hcon & Hw). fold c in Hu, Hcon |- *.
  unfold advance_desc. rewrite u32_small by lia. exists p', m'. split_and!; try done.
  rewrite Hcon, (desc_data_split (pw_mem w) d c), <- app_assoc by lia. do 2 f_equal.
  apply (writes_only_read _ _ _ _ _ _ Hw). cbn. apply (disjoint_from_sub _ _ _ _ _ _ _ _ Hd); lia.
Qed.

(** The writers [S] fit into the circular buffer. *)
Record refilled K S w w' : Prop := {
  rf_transit : transit K [] (pw_kernel w');
  rf_arrived : arrived S (pw_kernel w) (pw_kernel w');
  rf_ring : ring_ok (pw_pipe w');
  rf_pipe : same_pipe (pw_pipe w) (pw_pipe w');
  rf_used : bytes_used (pw_pipe w') = bytes_used (pw_pipe w) + total (pw_descs w) S;
  rf_mem : writes_only (pipe_buffer (pw_pipe w)) (pipe_size (pw_pipe w)) (pw_mem w) (pw_mem w');
  rf_others x : x ∉ S -> pw_descs w' x = pw_descs w x;
  rf_done t : t ∈ S -> bytes_to_xfer (pw_descs w' t) = 0;
  rf_data : contents (pw_pipe w') (pw_mem w') =
            contents (pw_pipe w) (pw_mem w) ++ pending (pw_mem w) (pw_descs w) S
}.

Lemma refill_ok K S w :
  transit K S (pw_kernel w) -> ring_ok (pw_pipe w) ->
  clear_of (pipe_buffer (pw_pipe w)) (pipe_size (pw_pipe w)) (pw_descs w) S ->
  bytes_used (pw_pipe w) + total (pw_descs w) S <= pipe_size (pw_pipe w) ->
  exists w', refill S w = Some w' /\ refilled K S w w'.
Proof.
  revert w. induction S as [|t S IH]; intros w Htr Hok Hc Hfit; cbn [refill].
  { exists w. split; [done|]. split; try done; [apply arrived_nil|cbn; lia|by intros t ?%elem_of_nil|].
    by rewrite app_nil_r. }
  pose proof (clear_head _ _ _ _ _ Hc) as [Hx Hd]. pose proof (clear_cons _ _ _ _ _ Hc) as Hc'.
  cbn [total foldr] in Hfit. fold (total (pw_descs w) S) in Hfit.
  assert (Hpos : 0 <= total (pw_descs w) S).
  { rewrite <- (pending_length (pw_mem w)); [lia|]. intros x Hin. by apply (Hc' x). }
  destruct (refill_from_ok t w Hok Hx Hd) as (p1 & m1 & -> & Hok1 & Hsp1 & Hu1 & Hdat & Hwo).
  set (d := pw_descs w t) in *. set (c := Z.min _ _) in *. assert (c = bytes_to_xfer d) as Ec by lia.
  set (d1 := mk_pipe_desc _ _) in *. set (w1 := set_pw_desc t d1 _).
  assert (HtS : t ∉ S) by (by apply (tr_nodup _ _ _), NoDup_cons in Htr as [? _]).
  assert (Hne : forall x, x ∈ S -> x <> t) by (intros x Hin ->; done).
  assert (Ed1 : pw_descs w1 t = d1) by apply set_desc_same.
  assert (Edo : forall x, x <> t -> pw_descs w1 x = pw_descs w x)
    by (intros; unfold w1; by rewrite set_desc_other).
  destruct (arrive_first K t S (pw_kernel w) Htr) as (k1 & E1 & Htr1 & Har1).
  change (pw_kernel w1) with (pw_kernel w). rewrite E1. cbn [mbind option_bind].
  pose proof Hsp1 as (Eb & Es & _ & _).
  assert (Ht1 : total (pw_descs w1) S = total (pw_descs w) S) by (apply total_ext; intros; by apply Edo, Hne).
  assert (Hp1 : pending m1 (pw_descs w1) S = pending (pw_mem w) (pw_descs w) S)
    by (apply (pending_ext _ _ _ _ _ _ _ Hwo Hc'); intros; by apply Edo, Hne).
  destruct (IH (set_pw_kernel k1 w1)) as (w' & E & [A1 A2 A3 A4 A5 A6 A7 A8 A9]).
  - done.
  - done.
  - cbn. rewrite Eb, Es. apply (clear_ext _ _ (pw_descs w)); [done|]. intros x Hin. apply (Edo x). auto.
  - change (bytes_used p1 + total (pw_descs w1) S <= pipe_size p1). rewrite Ht1, Es, Hu1. lia.
  - exists w'. split; [exact E|]. split; try done.
    + change (t :: S) with ([t] ++ S). apply (arrived_app _ _ _ k1); [|done|done].
      by apply (tr_nodup _ _ _) in Htr.
    + eapply same_pipe_trans; [exact Hsp1|exact A4].
    + rewrite A5. change (bytes_used p1 + total (pw_descs w1) S = bytes_used (pw_pipe w) + total (pw_descs w) (t :: S)).
      rewrite Ht1, Hu1. cbn [total foldr]. fold (total (pw_descs w) S) d. lia.
    + cbn [pw_pipe pw_mem set_pw_kernel set_pw_desc set_pw_buffer w1] in A6. rewrite Eb, Es in A6.
      by eapply writes_only_trans.
    + intros x [Hxt HxS]%not_elem_of_cons. rewrite A7 by done. by apply Edo.
    + intros x [->|Hin]%elem_of_cons; [|by apply A8]. rewrite A7 by done.
      change (bytes_to_xfer (pw_descs w1 t) = 0). rewrite Ed1. cbn. lia.
    + rewrite A9. change (contents p1 m1 ++ pending m1 (pw_descs w1) S =
        contents (pw_pipe w) (pw_mem w) ++ pending (pw_mem w) (pw_descs w) (t :: S)).
      rewrite Hp1, pending_cons, app_assoc. f_equal. fold d. rewrite <- Hdat.
      unfold desc_data, d1. cbn [bytes_to_xfer]. replace (bytes_to_xfer d - c) with 0 by lia.
      by rewrite read_bytes_0, app_nil_r.
Qed.
End Copying.

(** ** Reading *)
Section Reading.
Context `{KConfig}.
Implicit Types (w : pipe_world) (t : tid) (descs : tid -> k_pipe_desc) (m : memory) (p : k_pipe)
  (K : toid -> Prop) (l S rest : list tid) (data R n : Z).

Lemma contents_nil p m : bytes_used p = 0 -> contents p m = [].
Proof. intros E. unfold contents. by rewrite E. Qed.

Lemma contents_other p a n m m' :
  ring_ok p -> writes_only a n m m' -> disjoint_from (pipe_buffer p) (pipe_size p) a n ->
  contents p m' = contents p m.
Proof.
  intros Hok Hw Hd. apply contents_ext; [done|]. intros x Hx. apply Hw. unfold disjoint_from in Hd. lia.
Qed.

(** The circular buffer is read, then the writers. *)
Lemma get_drain K data R S w :
  let p := pw_pipe w in
  transit K S (pw_kernel w) -> ring_ok p -> 0 <= R <= UINT32_MAX ->
  disjoint_from (pipe_buffer p) (pipe_size p) data R -> clear_of data R (pw_descs w) S ->
  exists c p1 m1 S' n w2 D,
    _pipe_buffer_get data R p (pw_mem w) = (c, p1, m1) /\
    drain_writers S data R c (set_pw_buffer p1 m1 w) = Some (S', n, w2) /\
    S = D ++ S' /\ transit K S' (pw_kernel w2) /\ arrived D (pw_kernel w) (pw_kernel w2) /\
    pw_pipe w2 = p1 /\ ring_ok p1 /\ same_pipe p p1 /\ writes_only data R (pw_mem w) (pw_mem w2) /\
    (forall x, x ∉ S -> pw_descs w2 x = pw_descs w x) /\
    (forall t, t ∈ D -> bytes_to_xfer (pw_descs w2 t) = 0) /\
    (forall t, t ∈ S -> narrowed (pw_descs w t) (pw_descs w2 t)) /\
    0 <= n <= R /\ (n < R -> S' = [] /\ bytes_used p1 = 0) /\
    n + bytes_used p1 + total (pw_descs w2) S' = bytes_used p + total (pw_descs w) S /\
    (S' <> [] -> bytes_used p1 = bytes_used p - Z.min R (bytes_used p)) /\
    read_bytes (pw_mem w2) data n ++ contents p1 (pw_mem w2) ++ pending (pw_mem w2) (pw_descs w2) S' =
      contents p (pw_mem w) ++ pending (pw_mem w) (pw_descs w) S.
Proof.
  intros p Htr Hok HR Hd Hc. pose proof Hok as [? ? _ _ _].
  destruct (buffer_get_ok data R p (pw_mem w) Hok HR Hd) as (p1 & m1 & E1 & Hok1 & Hsp1 & Hu1 & Hcon1 & Hw1).
  set (c := Z.min R (bytes_used p)) in *. set (w1 := set_pw_buffer p1 m1 w).
  assert (Hwo1 : writes_only data R (pw_mem w) m1) by (apply (writes_only_weaken _ _ _ _ _ _ Hw1); lia).
  destruct (drain_ok K data R S c w1 Htr ltac:(lia) ltac:(lia) Hc)
    as (S' & n & w2 & D & E2 & [A1 A2 A3 A4 A5 A6 A7 A8 A9 A10 A11 A12]).
  change (pw_descs w1) with (pw_descs w) in *. change (pw_mem w1) with m1 in *.
  change (pw_pipe w1) with p1 in A4.
  assert (Hp1 : pending m1 (pw_descs w) S = pending (pw_mem w) (pw_descs w) S)
    by (by apply (pending_ext _ _ _ _ _ _ _ Hwo1 Hc)).
  assert (Hc2 : contents p1 (pw_mem w2) = contents p1 m1).
  { apply (contents_other p1 data R); [done|done|]. destruct Hsp1 as (-> & -> & _ & _). done. }
  exists c, p1, m1, S', n, w2, D. split_and!; try done; try lia.
  - eapply writes_only_trans; [exact Hwo1|exact A5].
  - intros Hlt. split; [|lia]. destruct S'; [done|]. specialize (A10 ltac:(done)). lia.
  - rewrite Hc2, Hcon1, <- Hp1. destruct (decide (c = R)) as [EcR|EcR].
    + assert (n = c) as En by lia. rewrite En in A12.
      apply app_inj_1 in A12 as [Er Ep].
      * rewrite En, Er, Ep. by rewrite app_assoc.
      * apply Nat2Z.inj. by rewrite !read_bytes_length by lia.
    + rewrite (contents_nil p1 m1) by lia. rewrite app_nil_r. exact A12.
Qed.

(** The writer that stays on the queue. *)
Lemma get_writer data R n S' t w :
  let d := pw_descs w t in let p := pw_pipe w in
  0 <= n <= R -> R <= UINT32_MAX -> 0 <= bytes_to_xfer d <= UINT32_MAX ->
  disjoint_from data R (desc_buffer d) (bytes_to_xfer d) -> (n < R -> S' = [] /\ bytes_used p = 0) ->
  exists n' w', (if n <? R then copy_from_writer t data R n w else (n, w)) = (n', w') /\
    pw_kernel w' = pw_kernel w /\ pw_pipe w' = p /\ (forall x, x <> t -> pw_descs w' x = pw_descs w x) /\
    narrowed d (pw_descs w' t) /\ n' + bytes_to_xfer (pw_descs w' t) = n + bytes_to_xfer d /\
    n <= n' <= R /\ (n' < R -> bytes_to_xfer (pw_descs w' t) = 0) /\
    writes_only data R (pw_mem w) (pw_mem w') /\ (n = R -> pw_mem w' = pw_mem w) /\
    read_bytes (pw_mem w') data n' ++ contents p (pw_mem w') ++ pending (pw_mem w') (pw_descs w') S' ++
      desc_data (pw_mem w') (pw_descs w' t) =
    read_bytes (pw_mem w) data n ++ contents p (pw_mem w) ++ pending (pw_mem w) (pw_descs w) S' ++
      desc_data (pw_mem w) d.
Proof.
  intros d p Hn HR Hx Hd Hshort. destruct (Z.ltb_spec n R) as [Hlt|Hge].
  - destruct (Hshort Hlt) as [-> Hu].
    destruct (copy_from_writer_ok t data R n w Hn HR Hx Hd) as (m1 & -> & Hdata & Hwr). fold d in Hdata, Hwr |- *.
    set (c := Z.min _ _) in *. set (d1 := mk_pipe_desc _ _) in *.
    eexists _, _. split; [reflexivity|]. rewrite set_desc_same. split_and!; try done; try (cbn; lia).
    + intros x Hxt. by rewrite set_desc_other.
    + unfold narrowed, d1. cbn. lia.
    + apply (writes_only_weaken _ _ _ _ _ _ Hwr); lia.
    + rewrite !(contents_nil p) by done. exact Hdata.
  - exists n, w. fold d. split_and!; try done; try lia. apply narrowed_refl. lia.
Qed.

Record received K data R S rest w n w' : Prop := {
  rc_transit : transit K [] (pw_kernel w');
  rc_arrived : arrived S (pw_kernel w) (pw_kernel w');
  rc_ring : ring_ok (pw_pipe w');
  rc_pipe : same_pipe (pw_pipe w) (pw_pipe w');
  rc_n : 0 <= n <= R;
  rc_short : n < R -> rest = [] /\ bytes_used (pw_pipe w') = 0;
  rc_full : rest <> [] -> bytes_used (pw_pipe w') = pipe_size (pw_pipe w);
  rc_done t : t ∈ S -> bytes_to_xfer (pw_descs w' t) = 0;
  rc_others x : x ∉ S -> head rest <> Some x -> pw_descs w' x = pw_descs w x;
  rc_left t : head rest = Some t -> narrowed (pw_descs w t) (pw_descs w' t) /\ 0 < bytes_to_xfer (pw_descs w' t);
  rc_mem x : ~ (data <= x < data + R) ->
    ~ (pipe_buffer (pw_pipe w) <= x < pipe_buffer (pw_pipe w) + pipe_size (pw_pipe w)) ->
    pw_mem w' x = pw_mem w x;
  rc_data : contents (pw_pipe w) (pw_mem w) ++ pending (pw_mem w) (pw_descs w) (S ++ rest) =
    read_bytes (pw_mem w') data n ++ contents (pw_pipe w') (pw_mem w') ++
      pending (pw_mem w') (pw_descs w') rest
}.

(** Without a writer left on the queue. *)
Lemma get_transfer_all K data R S w :
  let p := pw_pipe w in
  transit K S (pw_kernel w) -> ring_ok p -> 0 <= R <= UINT32_MAX ->
  disjoint_from (pipe_buffer p) (pipe_size p) data R -> clear_of data R (pw_descs w) S ->
  clear_of (pipe_buffer p) (pipe_size p) (pw_descs w) S -> total (pw_descs w) S <= R ->
  exists n w', get_transfer S None data R w = Some (n, w') /\ received K data R S [] w n w'.
Proof.
  intros p Htr Hok HR Hd Hc Hcp Htot. unfold get_transfer. pose proof Hok as [? ? _ _ _].
  destruct (get_drain K data R S w Htr Hok HR Hd Hc) as (c & p1 & m1 & S' & n & w2 & D & -> & -> & ES &
    Htr2 & Har2 & Ep2 & Hok1 & Hsp1 & Hwo & Hoth & Hdone & Hnar & Hn & Hshort & Hcnt & Hu1 & Hdata).
  cbn [mbind option_bind]. pose proof Hsp1 as (Eb & Es & _ & _). fold p in Hcnt, Hu1, Hdata.
  assert (HS' : forall t, t ∈ S' -> t ∈ S) by (intros t Ht; rewrite ES; apply elem_of_app; by right).
  destruct (refill_ok K S' w2 Htr2) as (w3 & -> & [F1 F2 F3 F4 F5 F6 F7 F8 F9]).
  { by rewrite Ep2. }
  { rewrite Ep2, Eb, Es. apply (clear_narrowed _ _ (pw_descs w)); [intros t Ht; by apply Hcp, HS'|].
    intros t Ht. by apply Hnar, HS'. }
  { rewrite Ep2, Es. fold p. destruct S'; [cbn; fold p in Es; pose proof Hok1 as [? ? _ _ _]; lia|].
    specialize (Hu1 ltac:(done)).
    assert (n = R) as En by (destruct (decide (n < R)) as [Hlt|]; [by destruct (Hshort Hlt)|lia]).
    lia. }
  rewrite Ep2 in *. cbn [mbind option_bind]. exists n, w3. split; [done|]. split; try done.
  - rewrite ES. apply (arrived_app _ _ _ (pw_kernel w2)); [|done|done].
    rewrite <- ES. apply (tr_nodup _ _ _ Htr).
  - by eapply same_pipe_trans.
  - intros Hlt. destruct (Hshort Hlt) as [-> Hz]. split; [done|]. rewrite F5. cbn. lia.
  - intros t Ht. destruct (decide (t ∈ S')) as [Hin|Hin]; [by apply F8|]. rewrite F7 by done.
    apply Hdone. rewrite ES in Ht. by apply elem_of_app in Ht as [?|?].
  - intros x Hx _. rewrite F7 by (intros Hin; by apply Hx, HS'). by apply Hoth.
  - intros x Hx1 Hx2. rewrite F6 by (by rewrite Eb, Es). by apply Hwo.
  - rewrite !app_nil_r. fold p. rewrite <- Hdata, F9. f_equal. symmetry. apply (writes_only_read _ _ _ _ _ _ F6).
    rewrite Eb, Es. fold p. apply (disjoint_from_sub _ _ _ _ _ _ _ _ Hd); lia.
Qed.

(** Refilling the buffer from the writers [S] and then from [t], who does not get
    rid of everything. *)
Record refilled_left K S t w w' : Prop := {
  rl_transit : transit K [] (pw_kernel w');
  rl_arrived : arrived S (pw_kernel w) (pw_kernel w');
  rl_ring : ring_ok (pw_pipe w');
  rl_pipe : same_pipe (pw_pipe w) (pw_pipe w');
  rl_full : bytes_used (pw_pipe w') = pipe_size (pw_pipe w);
  rl_mem : writes_only (pipe_buffer (pw_pipe w)) (pipe_size (pw_pipe w)) (pw_mem w) (pw_mem w');
  rl_done x : x ∈ S -> bytes_to_xfer (pw_descs w' x) = 0;
  rl_others x : x ∉ S -> x <> t -> pw_descs w' x = pw_descs w x;
  rl_left : narrowed (pw_descs w t) (pw_descs w' t) /\ 0 < bytes_to_xfer (pw_descs w' t);
  rl_data : contents (pw_pipe w') (pw_mem w') ++ desc_data (pw_mem w') (pw_descs w' t) =
            contents (pw_pipe w) (pw_mem w) ++ pending (pw_mem w) (pw_descs w) S ++
            desc_data (pw_mem w) (pw_descs w t)
}.

Lemma refill_left K S t w :
  let p := pw_pipe w in
  transit K S (pw_kernel w) -> ring_ok p -> clear_of (pipe_buffer p) (pipe_size p) (pw_descs w) S -> t ∉ S ->
  0 <= bytes_to_xfer (pw_descs w t) <= UINT32_MAX ->
  disjoint_from (pipe_buffer p) (pipe_size p) (desc_buffer (pw_descs w t)) (bytes_to_xfer (pw_descs w t)) ->
  bytes_used p + total (pw_descs w) S <= pipe_size p ->
  pipe_size p < bytes_used p + total (pw_descs w) S + bytes_to_xfer (pw_descs w t) ->
  exists w1, refill S w = Some w1 /\ refilled_left K S t w (refill_from t w1).
Proof.
  intros p Htr Hok Hc HtS Hx Hd Hfit Hover.
  destruct (refill_ok K S w Htr Hok Hc Hfit) as (w1 & E1 & [F1 F2 F3 F4 F5 F6 F7 F8 F9]). exists w1. split; [done|].
  pose proof F4 as (Eb & Es & _ & _). fold p in Eb, Es, F5, F6. pose proof (F7 t HtS) as Et.
  destruct (refill_from_ok t w1 F3) as (p5 & m5 & -> & Hok5 & Hsp5 & Hu5 & Hdata5 & Hwo5); [by rewrite Et|by rewrite Et, Eb, Es|].
  rewrite Et, Es in *. rewrite Eb in Hwo5. set (c5 := Z.min (bytes_to_xfer _) _) in *. set (d5 := mk_pipe_desc _ _) in *.
  pose proof F3 as [? ? _ _ _]. assert (Ec5 : c5 = pipe_size p - bytes_used (pw_pipe w1)) by lia.
  split; cbn [pw_kernel pw_pipe pw_mem pw_descs set_pw_desc set_pw_buffer]; fold p; try done.
  - by eapply same_pipe_trans.
  - lia.
  - by eapply writes_only_trans.
  - intros x Hx'. rewrite fn_lookup_insert_ne by (by intros ->). by apply F8.
  - intros x Hx' Hne. rewrite fn_lookup_insert_ne by done. by apply F7.
  - rewrite fn_lookup_insert. split; [|cbn; lia]. unfold narrowed, d5. cbn. lia.
  - rewrite fn_lookup_insert, Hdata5, F9, <- app_assoc. do 2 f_equal. by apply (writes_only_read _ _ _ _ _ _ F6).
Qed.

(** What the writers behind are waiting with is not touched by two transfers. *)
Lemma pending_untouched a n b k m1 m2 m3 descs descs' l :
  writes_only a n m1 m2 -> writes_only b k m2 m3 -> clear_of a n descs l -> clear_of b k descs l ->
  (forall x, x ∈ l -> descs' x = descs x) -> pending m3 descs' l = pending m1 descs l.
Proof.
  intros W1 W2 C1 C2 He. rewrite <- (pending_ext m1 m2 descs descs l a n W1 C1) by done.
  by apply (pending_ext _ _ _ _ _ _ _ W2 C2).
Qed.

(** With one: then the request is met in full, the buffer is full again and the
    writer still has something to write. *)
Lemma get_transfer_left K data R S t rest w :
  let p := pw_pipe w in
  transit K S (pw_kernel w) -> ring_ok p -> bytes_used p = pipe_size p -> 0 <= R <= UINT32_MAX ->
  disjoint_from (pipe_buffer p) (pipe_size p) data R -> clear_of data R (pw_descs w) (S ++ t :: rest) ->
  clear_of (pipe_buffer p) (pipe_size p) (pw_descs w) (S ++ t :: rest) -> NoDup (S ++ t :: rest) ->
  total (pw_descs w) S <= R -> R < total (pw_descs w) S + bytes_to_xfer (pw_descs w t) ->
  exists n w', get_transfer S (Some t) data R w = Some (n, w') /\ received K data R S (t :: rest) w n w'.
Proof.
  intros p Htr Hok Hfull HR Hd Hca Hcpa Hnd Htot Hgt. unfold get_transfer. pose proof Hok as [? ? _ _ _].
  apply NoDup_app in Hnd as (_ & HdS & [Htrest _]%NoDup_cons).
  assert (t ∉ S) as HtS by (intros Hin; apply (HdS t Hin), elem_of_cons; by left).
  assert (Hsub : forall a b, clear_of a b (pw_descs w) (S ++ t :: rest) ->
    clear_of a b (pw_descs w) S /\ clear_of a b (pw_descs w) rest) by (intros a b Hcl; split; intros x Hx; apply Hcl; set_solver).
  destruct (Hsub _ _ Hca) as [Hc Hcr], (Hsub _ _ Hcpa) as [Hcp Hcpr].
  assert (t ∈ S ++ t :: rest) as Hin by (apply elem_of_app; right; apply elem_of_cons; by left).
  destruct (Hca t Hin) as [Hxt Hdt], (Hcpa t Hin) as [_ Hdpt].
  destruct (get_drain K data R S w Htr Hok HR Hd Hc) as (c & p1 & m1 & S' & n & w2 & D & -> & -> & ES &
    Htr2 & Har2 & Ep2 & Hok1 & Hsp1 & Hwo & Hoth & Hdone & Hnar & Hn & Hshort & Hcnt & Hu1 & Hdata).
  cbn [mbind option_bind]. pose proof Hsp1 as (Eb & Es & _ & _). fold p in Hcnt, Hu1, Hdata, Eb, Es.
  assert (HS' : forall t, t ∈ S' -> t ∈ S) by (intros x Hx; rewrite ES; apply elem_of_app; by right).
  assert (pw_descs w2 t = pw_descs w t) as Et2 by (by apply Hoth).
  destruct (get_writer data R n S' t w2 Hn ltac:(lia)) as (n3 & w3 & -> & Ek3 & Ep3 & Ho3 & Hnar3 & Hsum3 &
    Hn3 & Hx3 & Hwo3 & _ & Hdata3); [by rewrite Et2|by rewrite Et2|by rewrite Ep2|].
  rewrite Ep2 in Ep3, Hdata3. rewrite Et2 in Hnar3, Hsum3, Hdata3. pose proof Hnar3 as Hnarp. unfold narrowed in Hnarp.
  assert (n3 = R) as En3.
  { destruct (decide (n3 < R)) as [Hlt|]; [|lia]. specialize (Hx3 Hlt). destruct (Hshort ltac:(lia)) as [-> Hz].
    rewrite Hz in Hcnt. cbn in Hcnt. lia. }
  assert (HtS' : t ∉ S') by (intros Hx; by apply HtS, HS').
  assert (Eds : forall x, x ∈ S' -> pw_descs w3 x = pw_descs w2 x) by (intros x Hx; apply Ho3; by intros ->).
  assert (Etot : total (pw_descs w3) S' = total (pw_descs w2) S') by (by apply total_ext).
  assert (Hfit : bytes_used p1 + total (pw_descs w2) S' <= pipe_size p).
  { destruct S' as [|y S']; [cbn; pose proof Hok1 as [? ? _ _ _]; lia|]. specialize (Hu1 ltac:(done)).
    assert (n = R) as En by (destruct (decide (n < R)) as [Hlt|]; [by destruct (Hshort Hlt)|lia]). lia. }
  destruct (refill_left K S' t w3) as (w4 & -> & [F1 F2 F3 F4 F5 F6 F7 F8 F9 F10]);
    rewrite ?Ek3, ?Ep3, ?Eb, ?Es, ?Etot in *; try done; try lia.
  { apply (clear_narrowed _ _ (pw_descs w)); [intros x Hx; by apply Hcp, HS'|].
    intros x Hx. rewrite Eds by done. by apply Hnar, HS'. }
  { apply (disjoint_from_sub _ _ _ _ _ _ _ _ Hdpt); lia. }
  cbn [mbind option_bind]. exists n3, (refill_from t w4). split; [done|].
  pose proof (writes_only_trans _ _ _ _ _ Hwo Hwo3) as HwoD.
  split; try done; try lia.
  - rewrite ES. apply (arrived_app _ _ _ (pw_kernel w2)); [|done..].
    rewrite <- ES. apply (tr_nodup _ _ _ Htr).
  - by eapply same_pipe_trans.
  - intros x Hx. destruct (decide (x ∈ S')) as [Hin'|Hin']; [by apply F7|].
    rewrite F8, Ho3 by (done || by intros ->). apply Hdone. rewrite ES in Hx. by apply elem_of_app in Hx as [?|?].
  - intros x Hx Hh. assert (x <> t) by (intros ->; by apply Hh).
    rewrite F8, Ho3 by (done || (intros Hx'; by apply Hx, HS')). by apply Hoth.
  - intros x [= <-]. split; [|apply F9]. apply (narrowed_trans _ (pw_descs w3 t)); [done|apply F9].
  - intros x Hx1 Hx2. by rewrite F6, HwoD.
  - rewrite pending_app, !pending_cons, app_assoc. fold p. rewrite <- Hdata.
    rewrite (pending_untouched data R (pipe_buffer p) (pipe_size p) (pw_mem w) (pw_mem w3) _ (pw_descs w) _ rest HwoD F6 Hcr Hcpr).
    2:{ intros x Hx. assert (x <> t) by (by intros ->). assert (x ∉ S) by (intros HxS; apply (HdS x HxS), elem_of_cons; by right).
        rewrite F8, Ho3 by (done || (intros Hx'; by apply HS' in Hx')). by apply Hoth. }
    rewrite (writes_only_read _ _ _ _ _ _ F6) by (apply (disjoint_from_sub _ _ _ _ _ _ _ _ Hd); lia).
    rewrite (app_assoc (contents (pw_pipe (refill_from t w4)) _)), F10, !app_assoc. f_equal.
    rewrite <- !app_assoc, Hdata3. do 3 f_equal. symmetry. by apply (writes_only_read _ _ _ _ _ _ Hwo).
Qed.
End Reading.

(** ** Writing *)
Section Writing.
Context `{KConfig}.
Implicit Types (w : pipe_world) (t : tid) (d : k_pipe_desc) (descs : tid -> k_pipe_desc) (m : memory)
  (p : k_pipe) (K : toid -> Prop) (l S rest : list tid) (data N n : Z).

(** Only the buffers of the threads [l] are written. *)
Definition writes_buffers descs l m m' : Prop :=
  forall x, (forall t, t ∈ l -> ~ (desc_buffer (descs t) <= x < desc_buffer (descs t) + bytes_to_xfer (descs t))) ->
    m' x = m x.

(** The buffers of the threads [l] are apart. *)
Definition apart descs l : Prop :=
  forall t1 t2, t1 ∈ l -> t2 ∈ l -> t1 <> t2 ->
    disjoint_from (desc_buffer (descs t1)) (bytes_to_xfer (descs t1))
                  (desc_buffer (descs t2)) (bytes_to_xfer (descs t2)).

Lemma apart_cons descs t l : apart descs (t :: l) -> apart descs l.
Proof. intros Ha t1 t2 H1 H2. apply Ha; apply elem_of_cons; by right. Qed.

Lemma writes_buffers_read descs l m m' a n :
  writes_buffers descs l m m' ->
  (forall t, t ∈ l -> disjoint_from a n (desc_buffer (descs t)) (bytes_to_xfer (descs t))) ->
  read_bytes m' a n = read_bytes m a n.
Proof.
  intros Hw Hd. apply read_bytes_ext. intros i Hi. apply Hw. intros t Ht. specialize (Hd t Ht).
  unfold disjoint_from in Hd. lia.
Qed.

Lemma writes_buffers_clear descs l m m' a n :
  writes_buffers descs l m m' -> clear_of a n descs l -> read_bytes m' a n = read_bytes m a n.
Proof. intros Hw Hc. apply (writes_buffers_read descs l); [done|]. intros t Ht. by apply Hc. Qed.

Lemma copy_to_reader_ok t data N n w :
  let d := pw_descs w t in
  0 <= n <= N -> N <= UINT32_MAX -> 0 <= bytes_to_xfer d <= UINT32_MAX ->
  disjoint_from data N (desc_buffer d) (bytes_to_xfer d) ->
  let c := Z.min (bytes_to_xfer d) (N - n) in
  exists m', copy_to_reader t data N n w =
      (n + c, set_pw_desc t (mk_pipe_desc (desc_buffer d + c) (bytes_to_xfer d - c))
                (set_pw_buffer (pw_pipe w) m' w)) /\
    read_bytes m' (desc_buffer d) c = read_bytes (pw_mem w) (data + n) c /\
    writes_only (desc_buffer d) c (pw_mem w) m'.
Proof.
  intros d Hn HN Hx Hd c. unfold copy_to_reader. fold d. rewrite !(u32_small (N - n)) by lia.
  destruct (xfer_ok (desc_buffer d) (bytes_to_xfer d) (data + n) (N - n) (pw_mem w))
    as (m' & -> & Hr & Hw); [lia|lia|apply disjoint_from_sym, (disjoint_from_sub _ _ _ _ _ _ _ _ Hd); lia|].
  fold c in Hr, Hw |- *. exists m'. unfold advance_desc. rewrite !u32_small by lia. done.
Qed.

Record fed K data S n w w' : Prop := {
  fd_transit : transit K [] (pw_kernel w');
  fd_arrived : arrived S (pw_kernel w) (pw_kernel w');
  fd_pipe : pw_pipe w' = pw_pipe w;
  fd_others x : x ∉ S -> pw_descs w' x = pw_descs w x;
  fd_done t : t ∈ S -> bytes_to_xfer (pw_descs w' t) = 0;
  fd_mem : writes_buffers (pw_descs w) S (pw_mem w) (pw_mem w');
  fd_data : pending (pw_mem w') (pw_descs w) S = read_bytes (pw_mem w) (data + n) (total (pw_descs w) S)
}.

Lemma feed_ok K data N S n w :
  transit K S (pw_kernel w) -> 0 <= n -> n + total (pw_descs w) S <= N -> N <= UINT32_MAX ->
  clear_of data N (pw_descs w) S -> apart (pw_descs w) S ->
  exists w', feed_readers S data N n w = Some (n + total (pw_descs w) S, w') /\ fed K data S n w w'.
Proof.
  revert n w. induction S as [|t S IH]; intros n w Htr Hn Hfit HN Hc Ha; cbn [feed_readers].
  { exists w. split; [cbn; do 2 f_equal; lia|]. split; try done; [apply arrived_nil|by intros t ?%elem_of_nil]. }
  pose proof (clear_head _ _ _ _ _ Hc) as [Hx Hd]. pose proof (clear_cons _ _ _ _ _ Hc) as Hc'.
  cbn [total foldr] in Hfit |- *. fold (total (pw_descs w) S) in Hfit |- *.
  assert (Hpos : 0 <= total (pw_descs w) S).
  { rewrite <- (pending_length (pw_mem w)); [lia|]. intros x Hin. by apply (Hc' x). }
  destruct (copy_to_reader_ok t data N n w ltac:(lia) HN Hx Hd) as (m1 & -> & Hr & Hw).
  set (d := pw_descs w t) in *. assert (Z.min (bytes_to_xfer d) (N - n) = bytes_to_xfer d) as Ec by lia.
  rewrite Ec in *. set (d1 := mk_pipe_desc _ _). set (w1 := set_pw_desc t d1 _).
  assert (HtS : t ∉ S) by (by apply (tr_nodup _ _ _), NoDup_cons in Htr as [? _]).
  assert (Hne : forall x, x ∈ S -> x <> t) by (intros x Hin ->; done).
  assert (Ed1 : pw_descs w1 t = d1) by apply set_desc_same.
  assert (Edo : forall x, x <> t -> pw_descs w1 x = pw_descs w x)
    by (intros; unfold w1; by rewrite set_desc_other).
  destruct (arrive_first K t S (pw_kernel w) Htr) as (k1 & E1 & Htr1 & Har1).
  change (pw_kernel w1) with (pw_kernel w). rewrite E1. cbn [mbind option_bind].
  assert (Ht1 : total (pw_descs w1) S = total (pw_descs w) S) by (apply total_ext; intros; by apply Edo, Hne).
  destruct (IH (n + bytes_to_xfer d) (set_pw_kernel k1 w1)) as (w' & E & [A1 A2 A3 A4 A5 A6 A7]).
  - done.
  - lia.
  - change (n + bytes_to_xfer d + total (pw_descs w1) S <= N). lia.
  - done.
  - apply (clear_ext _ _ (pw_descs w)); [done|]. intros x Hin. apply (Edo x). auto.
  - intros t1 t2 H1 H2 H12. cbn -[set_pw_desc]. rewrite !Edo by auto. by apply (apart_cons _ _ _ Ha).
  - change (total (pw_descs (set_pw_kernel k1 w1)) S) with (total (pw_descs w1) S) in *. rewrite Ht1 in *.
    change (pw_mem (set_pw_kernel k1 w1)) with m1 in *. change (pw_descs (set_pw_kernel k1 w1)) with (pw_descs w1) in *.
    assert (Hw' : writes_buffers (pw_descs w) S m1 (pw_mem w')).
    { intros x Hx'. apply A6. intros y Hy. rewrite Edo by auto. by apply Hx'. }
    exists w'. split; [rewrite E; do 2 f_equal; lia|]. split; try done.
    + change (t :: S) with ([t] ++ S). apply (arrived_app _ _ _ k1); [|done|done].
      by apply (tr_nodup _ _ _) in Htr.
    + intros x [Hxt HxS]%not_elem_of_cons. rewrite A4 by done. by apply Edo.
    + intros x [->|Hin]%elem_of_cons; [|by apply A5]. rewrite A4, Ed1 by done. cbn. lia.
    + intros x Hx'. rewrite Hw' by (intros y Hy; apply Hx', elem_of_cons; by right).
      apply Hw. apply Hx', elem_of_cons. by left.
    + change (total (pw_descs w) (t :: S)) with (bytes_to_xfer d + total (pw_descs w) S).
      rewrite pending_cons, read_bytes_app by lia. f_equal.
      * fold d. unfold desc_data. rewrite <- Hr. apply (writes_buffers_read _ _ _ _ _ _ Hw').
        intros y Hy. apply Ha; [apply elem_of_cons; by left|apply elem_of_cons; by right|]. intros <-. by apply (Hne t).
      * rewrite <- (pending_same _ (pw_descs w) (pw_descs w1)) by (intros y Hy; by apply Edo, Hne).
        rewrite A7. rewrite Z.add_assoc. apply (writes_only_read _ _ _ _ _ _ Hw). apply disjoint_from_sym.
        apply (disjoint_from_sub _ _ _ _ _ _ _ _ Hd); lia.
Qed.

(** What the readers [S], the reader left on the queue and the circular buffer
    get of the caller's data. *)
Record sent K data N S rest w n w' : Prop := {
  sn_transit : transit K [] (pw_kernel w');
  sn_arrived : arrived S (pw_kernel w) (pw_kernel w');
  sn_ring : ring_ok (pw_pipe w');
  sn_pipe : same_pipe (pw_pipe w) (pw_pipe w');
  sn_n : 0 <= n <= N;
  sn_short : n < N -> rest = [] /\ bytes_used (pw_pipe w') = pipe_size (pw_pipe w);
  sn_count : rest = [] ->
    n = Z.min N (pipe_size (pw_pipe w) - bytes_used (pw_pipe w) + total (pw_descs w) S);
  sn_rest : rest <> [] -> n = N /\ bytes_used (pw_pipe w') = bytes_used (pw_pipe w);
  sn_used : bytes_used (pw_pipe w) <= bytes_used (pw_pipe w');
  sn_done t : t ∈ S -> bytes_to_xfer (pw_descs w' t) = 0;
  sn_others x : x ∉ S -> head rest <> Some x -> pw_descs w' x = pw_descs w x;
  sn_left t : head rest = Some t -> narrowed (pw_descs w t) (pw_descs w' t) /\ 0 < bytes_to_xfer (pw_descs w' t);
  sn_data : exists got added,
    read_bytes (pw_mem w) data n = pending (pw_mem w') (pw_descs w) S ++ got ++ added /\
    contents (pw_pipe w') (pw_mem w') = contents (pw_pipe w) (pw_mem w) ++ added /\
    match head rest with
    | Some t => added = [] /\
        got = read_bytes (pw_mem w') (desc_buffer (pw_descs w t))
                (bytes_to_xfer (pw_descs w t) - bytes_to_xfer (pw_descs w' t))
    | None => got = []
    end
}.

(** The part of the caller's data left for the circular buffer. *)
Lemma put_rest data N n w :
  let p := pw_pipe w in
  ring_ok p -> 0 <= n <= N -> N <= UINT32_MAX -> disjoint_from (pipe_buffer p) (pipe_size p) data N ->
  let c := Z.min (N - n) (pipe_size p - bytes_used p) in
  exists p' m', _pipe_buffer_put (data + n) (u32 (N - n)) p (pw_mem w) = (c, p', m') /\
    u32 (n + c) = n + c /\ ring_ok p' /\ same_pipe p p' /\ bytes_used p' = bytes_used p + c /\
    contents p' m' = contents p (pw_mem w) ++ read_bytes (pw_mem w) (data + n) c /\
    writes_only (pipe_buffer p) (pipe_size p) (pw_mem w) m'.
Proof.
  intros p Hok Hn HN Hd c. rewrite (u32_small (N - n)) by lia. pose proof Hok as [? ? _ _ _].
  destruct (buffer_put_ok (data + n) (N - n) p (pw_mem w) Hok ltac:(lia)) as (p' & m' & E & ? & ? & ? & ? & ?);
    [apply (disjoint_from_sub _ _ _ _ _ _ _ _ Hd); lia|].
  exists p', m'. fold c in E. split_and!; try done. apply u32_small. lia.
Qed.

Lemma contents_buffers p descs l m m' :
  ring_ok p -> writes_buffers descs l m m' -> clear_of (pipe_buffer p) (pipe_size p) descs l ->
  contents p m' = contents p m.
Proof.
  intros Hok Hw Hc. apply contents_ext; [done|]. intros x Hx. apply Hw. intros t Ht.
  destruct (Hc t Ht) as [_ Hd]. unfold disjoint_from in Hd. lia.
Qed.

(** The received bytes of [l] survive writes to the pipe's buffer. *)
Lemma pending_pipe a n descs l m m' :
  writes_only a n m m' -> clear_of a n descs l -> pending m' descs l = pending m descs l.
Proof. intros Hw Hc. by apply (pending_ext m m' descs descs l a n). Qed.

Lemma put_transfer_all K data N S w :
  let p := pw_pipe w in
  transit K S (pw_kernel w) -> ring_ok p -> 0 <= N <= UINT32_MAX ->
  disjoint_from (pipe_buffer p) (pipe_size p) data N -> clear_of data N (pw_descs w) S ->
  clear_of (pipe_buffer p) (pipe_size p) (pw_descs w) S -> apart (pw_descs w) S ->
  total (pw_descs w) S <= N ->
  exists n w', put_transfer S None data N w = Some (n, w') /\ sent K data N S [] w n w'.
Proof.
  intros p Htr Hok HN Hd Hc Hcp Ha Htot. unfold put_transfer.
  assert (Hpos : 0 <= total (pw_descs w) S).
  { rewrite <- (pending_length (pw_mem w)); [lia|]. intros x Hin. by apply (Hc x). }
  destruct (feed_ok K data N S 0 w Htr ltac:(lia) ltac:(lia) ltac:(lia) Hc Ha)
    as (w1 & -> & [A1 A2 A3 A4 A5 A6 A7]). cbn [mbind option_bind]. rewrite !Z.add_0_l, !Z.add_0_r in *.
  set (n1 := total (pw_descs w) S) in *. fold p in A3.
  destruct (put_rest data N n1 w1) as (p' & m' & E & Eu & Hok' & Hsp & Hu & Hcon & Hw);
    [by rewrite A3|lia|lia|by rewrite A3|].
  rewrite A3 in *. rewrite E, Eu. eexists _, _. split; [reflexivity|]. pose proof Hok as [? ? _ _ _].
  split; cbn [pw_kernel pw_pipe pw_mem pw_descs set_pw_buffer]; try done; fold p.
  - lia.
  - intros Hlt. split; [done|lia].
  - intros _. lia.
  - lia.
  - intros x Hx _. by apply A4.
  - exists [], (read_bytes (pw_mem w1) (data + n1) (Z.min (N - n1) (pipe_size p - bytes_used p))).
    split_and!; [|by rewrite Hcon, (contents_buffers p _ _ _ _ Hok A6 Hcp)|done].
    rewrite (pending_pipe _ _ _ _ _ _ Hw Hcp), A7, app_nil_l.
    rewrite (writes_buffers_read _ _ _ _ _ _ A6).
    + by rewrite <- read_bytes_app by lia.
    + intros t Ht. destruct (Hc t Ht) as [_ Hdt]. apply (disjoint_from_sub _ _ _ _ _ _ _ _ Hdt); lia.
Qed.

Lemma put_transfer_left K data N S t rest w :
  let p := pw_pipe w in let d := pw_descs w t in
  transit K S (pw_kernel w) -> ring_ok p -> 0 <= N <= UINT32_MAX ->
  disjoint_from (pipe_buffer p) (pipe_size p) data N -> clear_of data N (pw_descs w) (S ++ t :: rest) ->
  clear_of (pipe_buffer p) (pipe_size p) (pw_descs w) (S ++ t :: rest) -> apart (pw_descs w) (S ++ t :: rest) ->
  NoDup (S ++ t :: rest) -> total (pw_descs w) S <= N -> N < total (pw_descs w) S + bytes_to_xfer d ->
  exists n w', put_transfer S (Some t) data N w = Some (n, w') /\ sent K data N S (t :: rest) w n w'.
Proof.
  intros p d Htr Hok HN Hd Hca Hcpa Haa Hnd Htot Hgt. unfold put_transfer.
  apply NoDup_app in Hnd as (_ & HdS & _).
  assert (t ∉ S) as HtS by (intros Hin; apply (HdS t Hin), elem_of_cons; by left).
  assert (HinS : forall x, x ∈ S -> x ∈ S ++ t :: rest) by (intros; apply elem_of_app; by left).
  assert (t ∈ S ++ t :: rest) as Hin by (apply elem_of_app; right; apply elem_of_cons; by left).
  assert (Hc : clear_of data N (pw_descs w) S) by (intros x Hx; by apply Hca, HinS).
  assert (Hcp : clear_of (pipe_buffer p) (pipe_size p) (pw_descs w) S) by (intros x Hx; by apply Hcpa, HinS).
  assert (Ha : apart (pw_descs w) S) by (intros x y Hx Hy; apply Haa; by apply HinS).
  destruct (Hca t Hin) as [Hxt Hdt]. destruct (Hcpa t Hin) as [_ Hdpt]. fold d in Hxt, Hdt, Hdpt.
  assert (Hpos : 0 <= total (pw_descs w) S).
  { rewrite <- (pending_length (pw_mem w)); [lia|]. intros x Hx. by apply (Hc x). }
  destruct (feed_ok K data N S 0 w Htr ltac:(lia) ltac:(lia) ltac:(lia) Hc Ha)
    as (w1 & -> & [A1 A2 A3 A4 A5 A6 A7]). cbn [mbind option_bind]. rewrite !Z.add_0_l, !Z.add_0_r in *.
  set (n1 := total (pw_descs w) S) in *. fold p in A3. assert (pw_descs w1 t = d) as Et1 by (by apply A4).
  destruct (copy_to_reader_ok t data N n1 w1) as (m2 & -> & Hr2 & Hw2); try (rewrite Et1; done || lia); [lia..|].
  rewrite Et1 in *. assert (Z.min (bytes_to_xfer d) (N - n1) = N - n1) as Ec by lia. rewrite Ec in *.
  replace (n1 + (N - n1)) with N by lia. set (d2 := mk_pipe_desc _ _). set (w2 := set_pw_desc t d2 _).
  destruct (put_rest data N N w2) as (p' & m' & E & Eu & Hok' & Hsp & Hu & Hcon & Hw);
    [cbn; by rewrite A3|lia|lia|cbn; by rewrite A3|].
  change (pw_pipe w2) with (pw_pipe w1) in *. change (pw_mem w2) with m2 in *. rewrite A3 in *.
  pose proof Hok as [? ? _ _ _].
  replace (Z.min (N - N) (pipe_size p - bytes_used p)) with 0 in * by lia. rewrite E, Eu, Z.add_0_r.
  eexists _, _. split; [reflexivity|]. rewrite read_bytes_0, app_nil_r in Hcon.
  split; cbn [pw_kernel pw_pipe pw_mem pw_descs set_pw_buffer set_pw_desc w2]; try done; fold p; try lia.
  - intros x Hx. rewrite fn_lookup_insert_ne by (by intros ->). by apply A5.
  - intros x Hx Hh. rewrite fn_lookup_insert_ne by (intros ->; by apply Hh). by apply A4.
  - intros x [= <-]. rewrite fn_lookup_insert. fold d. split; [unfold narrowed, d2|]; cbn; lia.
  - exists (read_bytes m2 (desc_buffer d) (N - n1)), []. cbn [head]. rewrite fn_lookup_insert. fold d.
    assert (HwT : writes_buffers (pw_descs w) [t] (pw_mem w1) m2).
    { intros x Hx. apply Hw2. specialize (Hx t ltac:(by apply list_elem_of_singleton)). fold d in Hx. lia. }
    split_and!; [| |done|].
    + rewrite (pending_pipe _ _ _ _ _ _ Hw Hcp), app_nil_r, Hr2.
      rewrite (writes_buffers_read _ _ _ _ _ _ A6).
      2:{ intros x Hx. destruct (Hc x Hx) as [_ Hdx]. apply (disjoint_from_sub _ _ _ _ _ _ _ _ Hdx); lia. }
      rewrite (read_bytes_split (pw_mem w) data N n1) by lia. rewrite <- A7. f_equal. symmetry.
      apply (pending_ext _ _ _ _ _ _ _ Hw2); [|done]. intros x Hx. split; [by apply Hc|].
      apply (disjoint_from_sub _ _ _ _ _ _ _ _ (Haa t x Hin (HinS x Hx) ltac:(by intros <-))); fold d; lia.
    + rewrite Hcon, app_nil_r. rewrite (contents_buffers p _ _ _ _ Hok HwT).
      * by rewrite (contents_buffers p _ _ _ _ Hok A6 Hcp).
      * intros x ->%list_elem_of_singleton. by apply Hcpa.
    + cbn [bytes_to_xfer d2]. replace (bytes_to_xfer d - (bytes_to_xfer d - (N - n1))) with (N - n1) by lia.
      symmetry. apply (writes_only_read _ _ _ _ _ _ Hw). apply (disjoint_from_sub _ _ _ _ _ _ _ _ Hdpt); lia.
Qed.
End Writing.
