(* ===== verification/PipesApi.v ===== *)
(** * What pipes promise

    The two services of Pipes on a running kernel: a pipe is a stream of bytes,
    the bytes of its buffer followed by those of the waiting writers. *)
From S2P Require Import Prelude Kernel ReadyQ TimeoutQ Sched SchedInv SchedApi Transit Thread Boot.
From S2P Require Import LibcString PipeBuf Pipes.

Abbreviation writers_q w := (wait_qs (pw_kernel w) (writers (pw_pipe w))).
Abbreviation readers_q w := (wait_qs (pw_kernel w) (readers (pw_pipe w))).

Section Invariant.
Context `{KConfig}.
Implicit Types (w : pipe_world) (t : tid) (K : toid -> Prop) (S rest : list tid) (k : kernel).

(** Writers wait only for a full buffer, readers only for an empty one and when
    no writer waits; the buffers of the waiting threads are apart from the
    pipe's, and those of the readers from each other. *)
Record pipe_ok w : Prop := {
  pi_ring : ring_ok (pw_pipe w);
  pi_queues : readers (pw_pipe w) <> writers (pw_pipe w);
  pi_full : writers_q w <> [] -> bytes_used (pw_pipe w) = pipe_size (pw_pipe w);
  pi_empty : readers_q w <> [] -> bytes_used (pw_pipe w) = 0 /\ writers_q w = [];
  pi_positive t : t ∈ writers_q w \/ t ∈ readers_q w -> 0 < bytes_to_xfer (pw_descs w t);
  pi_writers : clear_of (pipe_buffer (pw_pipe w)) (pipe_size (pw_pipe w)) (pw_descs w) (writers_q w);
  pi_readers : clear_of (pipe_buffer (pw_pipe w)) (pipe_size (pw_pipe w)) (pw_descs w) (readers_q w);
  pi_apart t1 t2 : t1 ∈ readers_q w -> t2 ∈ readers_q w -> t1 <> t2 ->
    disjoint_from (desc_buffer (pw_descs w t1)) (bytes_to_xfer (pw_descs w t1))
                  (desc_buffer (pw_descs w t2)) (bytes_to_xfer (pw_descs w t2))
}.

(** The bytes that can be read from a pipe, in order. *)
Definition stream w : list Z :=
  contents (pw_pipe w) (pw_mem w) ++ pending (pw_mem w) (pw_descs w) (writers_q w).

(** How much can be written without waiting. *)
Definition room w : Z :=
  pipe_size (pw_pipe w) - bytes_used (pw_pipe w) + total (pw_descs w) (readers_q w).

(** The caller's buffer is apart from the pipe's and from those of the waiting
    threads, and the sizes are such that sums of them do not wrap. *)
Record call_ok (data n : Z) w : Prop := {
  co_size : 0 <= n /\ n + pipe_size (pw_pipe w) <= UINT32_MAX;
  co_buffer : disjoint_from (pipe_buffer (pw_pipe w)) (pipe_size (pw_pipe w)) data n;
  co_writers : clear_of data n (pw_descs w) (writers_q w);
  co_readers : clear_of data n (pw_descs w) (readers_q w);
  co_fits_writers : fits (n + pipe_size (pw_pipe w)) (pw_descs w) (writers_q w);
  co_fits_readers : fits (n + pipe_size (pw_pipe w)) (pw_descs w) (readers_q w)
}.

Lemma stream_length w :
  pipe_ok w -> Z.of_nat (length (stream w)) = bytes_used (pw_pipe w) + total (pw_descs w) (writers_q w).
Proof.
  intros Hok. unfold stream. rewrite length_app, Nat2Z.inj_add, contents_length by apply Hok.
  rewrite pending_length; [done|]. intros t Ht. by apply (pi_writers w Hok).
Qed.

(** The end of a call: [n] bytes have been transferred. *)
Record ended wq (data tot n min ms : Z) w r w' : Prop := {
  en_pipe : pw_pipe w' = pw_pipe w;
  en_mem : pw_mem w' = pw_mem w;
  en_others wq' : wq' <> wq -> wait_qs (pw_kernel w') wq' = wait_qs (pw_kernel w) wq';
  en_ready x : x ∈ ready_list (pw_kernel w) -> x <> current (pw_kernel w) -> x ∈ ready_list (pw_kernel w');
  en_case :
    (r = Returns (if min <=? n then 0 else - EAGAIN, n) /\ (n = tot \/ ms = K_NO_WAIT) /\
     pw_descs w' = pw_descs w /\ wait_qs (pw_kernel w') wq = wait_qs (pw_kernel w) wq) \/
    (r = Blocks /\ n < tot /\ ms <> K_NO_WAIT /\
     pw_descs w' = <[current (pw_kernel w) := mk_pipe_desc (data + n) (tot - n)]> (pw_descs w) /\
     wait_qs (pw_kernel w') wq =
       prio_insert (thread_prio (pw_kernel w)) (current (pw_kernel w)) (wait_qs (pw_kernel w) wq))
}.

Lemma finish_ok K wq data tot n min ms w :
  let k := pw_kernel w in
  running K k -> in_isr k = false -> 0 < sched_locked (threads k (current k)) ->
  current k <> _idle_thread -> timeout_ok ms -> 0 <= n <= tot -> tot <= UINT32_MAX -> min <= tot ->
  exists r w', pipe_finish wq data tot n min ms w = Some (r, w') /\ running K (pw_kernel w') /\
    ended wq data tot n min ms w r w'.
Proof.
  intros k Hru Hi Hl Hid Hms Hn Ht Hmin. unfold pipe_finish. fold k.
  destruct (sched_unlock_done K k Hru Hi Hl) as (k1 & E1 & Hru1 & Hsq & _ & _).
  assert (Hw1 : forall wq, wait_qs k1 wq = wait_qs k wq) by (intros; by rewrite (sq_wait_qs _ _ Hsq)).
  assert (Hl1 : ready_list k1 = ready_list k) by (by rewrite (same_queues_ready _ _ Hsq)).
  destruct (Z.eqb_spec n tot) as [->|Hne].
  { rewrite E1. cbn [mbind option_bind]. eexists _, _. split; [done|]. split; [done|].
    split; cbn; try done; [by intros x Hx _; rewrite Hl1|]. left. split_and!; [|by left|done|done].
    rewrite (proj2 (Z.leb_le _ _)) by done. done. }
  rewrite (u32_small (tot - n)) by lia.
  destruct (Z.eqb_spec ms K_NO_WAIT) as [->|Hnw]; cbn [negb].
  { rewrite E1. cbn [mbind option_bind]. eexists _, _. split; [done|]. split; [done|].
    split; cbn; try done; [by intros x Hx _; rewrite Hl1|]. left. split_and!; [|by right|done|done].
    unfold _pipe_return_code. replace (tot - (tot - n)) with n by lia. by rewrite u32_small by lia. }
  set (k2 := _sched_unlock_no_reschedule k).
  assert (running K k2) as Hru2 by (by apply running_sched_locked).
  destruct (block_current_running K k2 wq ms Hru2 Hid Hms) as (k3 & E3 & Hru3 & Hb).
  unfold block_current in E3. cbn [pw_kernel set_pw_desc]. fold k k2.
  destruct (_pend_current_thread wq ms k2) as [k4|]; [|done]. cbn [mbind option_bind] in *. rewrite E3.
  cbn [mbind option_bind]. eexists _, _. split; [done|]. split; [done|].
  assert (Hbk : blocked wq ms k k3) by (eapply blocked_upd_before; [|exact Hb]; done).
  split; cbn; try done.
  - intros. by apply (bl_wait_qs _ _ _ _ Hbk).
  - intros x Hx Hxc. rewrite (bl_ready _ _ _ _ Hbk), elem_of_remove_node. done.
  - right. split_and!; [done|lia|done|done|]. apply (bl_wait_q _ _ _ _ Hbk).
Qed.

(** The first part of both calls. *)
Lemma prepare_ok K wq space request min ms descs k :
  running K k -> may_lock k -> 0 <= space -> 0 <= min <= request -> request + space <= UINT32_MAX ->
  fits (request + space) descs (wait_qs k wq) ->
  if (ms =? K_NO_WAIT) && (space + total descs (wait_qs k wq) <? min)
  then _pipe_xfer_prepare wq space request min ms descs k = Some None
  else exists S rest k1, _pipe_xfer_prepare wq space request min ms descs k = Some (Some (S, head rest, k1)) /\
    wait_qs k wq = S ++ rest /\ transit K S (_sched_lock k1) /\ departed wq S rest k k1 /\
    total descs S <= request /\
    (forall t rest', rest = t :: rest' -> request < total descs S + bytes_to_xfer (descs t)) /\
    (forall k2, current k2 = current k -> threads k2 (current k) = threads (_sched_lock k1) (current k) ->
       0 < sched_locked (threads k2 (current k2))).
Proof.
  intros Hru Hlk Hs Hmin Hsum Hf. unfold _pipe_xfer_prepare.
  destruct (waiting_bytes_ok request space descs (wait_qs k wq) 0 Hf) as (V1 & V2 & V3); [lia..|].
  set (v := waiting_bytes _ _ _ _) in *. rewrite u32_small by lia.
  assert (Hf' : fits request descs (wait_qs k wq)) by (intros t Ht; specialize (Hf t Ht); lia).
  pose proof (total_nonneg _ _ _ Hf') as Htn.
  assert ((v + space <? min) = (space + total descs (wait_qs k wq) <? min)) as ->.
  { destruct (Z.ltb_spec (v + space) min), (Z.ltb_spec (space + total descs (wait_qs k wq)) min); lia. }
  destruct (_ && _); [done|].
  destruct (take_waiters_ok K descs wq request (wait_qs k wq) (S (length (wait_qs k wq))) 0 [] k)
    as (Q & rest & k1 & -> & Eq & Htr & Hdp & Hle & Hgt); [by apply transit_nil|done|lia|lia|done|].
  cbn [mbind option_bind app] in *. exists Q, rest, k1. split_and!; try done.
  - by apply transit_lock.
  - intros k2 Ec Eth. assert (HcQ : current k ∉ Q).
    { intros Hin. apply (waiter_not_current K k wq (current k) Hru); [|done]. rewrite Eq. apply elem_of_app. by left. }
    assert (Hlk1 : may_lock k1).
    { destruct Hlk as [Hi Hl]. split; [by rewrite (dp_isr _ _ _ _ _ Hdp)|].
      rewrite (dp_current _ _ _ _ _ Hdp), (dp_threads _ _ _ _ _ Hdp) by done. done. }
    pose proof (dp_current _ _ _ _ _ Hdp) as Ec1. apply (lock_held k1 k2 Hlk1); [congruence|]. by rewrite Ec1.
Qed.
End Invariant.

(** ** Reading *)
Section Get.
Context `{KConfig}.
Implicit Types (w : pipe_world) (t : tid) (K : toid -> Prop) (S rest : list tid) (k : kernel).

Lemma get_transfer_ok K data R S rest w :
  let p := pw_pipe w in
  transit K S (pw_kernel w) -> ring_ok p -> (rest <> [] -> bytes_used p = pipe_size p) ->
  0 <= R <= UINT32_MAX -> disjoint_from (pipe_buffer p) (pipe_size p) data R ->
  clear_of data R (pw_descs w) (S ++ rest) ->
  clear_of (pipe_buffer p) (pipe_size p) (pw_descs w) (S ++ rest) -> NoDup (S ++ rest) ->
  total (pw_descs w) S <= R ->
  (forall t rest', rest = t :: rest' -> R < total (pw_descs w) S + bytes_to_xfer (pw_descs w t)) ->
  exists n w', get_transfer S (head rest) data R w = Some (n, w') /\ received K data R S rest w n w'.
Proof.
  intros p Htr Hok Hfull HR Hd Hc Hcp Hnd Htot Hgt. destruct rest as [|t rest]; cbn [head].
  - rewrite app_nil_r in *. by apply get_transfer_all.
  - apply get_transfer_left; try done; [by apply Hfull|by eapply Hgt].
Qed.

(** The state of the queues when the copying is done. *)
Record phase wq S rest w w2 : Prop := {
  ph_queue : wait_qs (pw_kernel w) wq = S ++ rest;
  ph_queue' : wait_qs (pw_kernel w2) wq = rest;
  ph_others wq' : wq' <> wq -> wait_qs (pw_kernel w2) wq' = wait_qs (pw_kernel w) wq';
  ph_current : current (pw_kernel w2) = current (pw_kernel w);
  ph_isr : in_isr (pw_kernel w2) = in_isr (pw_kernel w);
  ph_prio x : x ∉ S -> thread_prio (pw_kernel w2) x = thread_prio (pw_kernel w) x;
  ph_ready t : t ∈ S -> wakeable (pw_kernel w) t = true -> t ∈ ready_list (pw_kernel w2)
}.

Lemma phase_ok K wq S rest w k1 k2 w2 :
  running K (pw_kernel w) -> wait_qs (pw_kernel w) wq = S ++ rest ->
  departed wq S rest (pw_kernel w) k1 -> arrived S (_sched_lock k1) k2 -> pw_kernel w2 = k2 ->
  phase wq S rest w w2.
Proof.
  intros Hru Eq [D1 D2 D3 D4 D5 D6 D7] [A1 A2 A3 A4 A5 A6] Ek. split; rewrite ?Ek; try done.
  - by rewrite A1.
  - intros w' Hne. rewrite A1. by apply D2.
  - by rewrite A4.
  - by rewrite A5.
  - intros x Hx. unfold thread_prio.
    rewrite A6 by done. destruct (decide (x = current k1)) as [->|Hne].
    + cbn. rewrite fn_lookup_alter. cbn. by rewrite D6.
    + rewrite lock_threads by done. by rewrite D6.
  - intros t Ht Hw. apply A2; [done|]. unfold wakeable, fbit. rewrite lock_threads.
    + fold (fbit k1 t 15) (fbit k1 t 16) (fbit k1 t 17). fold (wakeable k1 t). by rewrite D7.
    + rewrite D4. apply (waiter_not_current K _ wq); [done|]. rewrite Eq. apply elem_of_app. by left.
Qed.

Lemma phase_caller K wq S rest w w2 :
  running K (pw_kernel w) -> phase wq S rest w w2 -> current (pw_kernel w) ∉ S.
Proof.
  intros Hru Hph Hin. apply (waiter_not_current K _ wq (current (pw_kernel w)) Hru); [|done].
  rewrite (ph_queue _ _ _ _ _ Hph). apply elem_of_app. by left.
Qed.

(** What both calls return, and whom they have served. *)
Lemma ended_result K wq0 wq S rest data tot n min ms w w2 r w' :
  running K (pw_kernel w) -> wq <> wq0 -> phase wq0 S rest w w2 -> ended wq data tot n min ms w2 r w' ->
  0 <= min <= tot -> (ms = K_NO_WAIT -> min <= n) ->
  if (n =? tot) || (ms =? K_NO_WAIT) then r = Returns (0, n)
  else r = Blocks /\ pw_descs w' (current (pw_kernel w)) = mk_pipe_desc (data + n) (tot - n) /\
       wait_qs (pw_kernel w') wq =
         prio_insert (thread_prio (pw_kernel w)) (current (pw_kernel w)) (wait_qs (pw_kernel w) wq).
Proof.
  intros Hru Hne Hph [_ _ _ _ N5] Hmin Hms. destruct N5 as [(-> & Hc & _)|(-> & Hlt & Hnw & Ed & Eq)].
  - assert (min <= n) as Hle by (destruct Hc as [->|Hc]; [lia|auto]). rewrite (proj2 (Z.leb_le _ _) Hle).
    destruct Hc as [->| ->]; [by rewrite Z.eqb_refl|]. by rewrite orb_true_r.
  - rewrite (proj2 (Z.eqb_neq n tot)), (proj2 (Z.eqb_neq ms K_NO_WAIT)) by (done || lia). cbn [orb].
    rewrite (ph_current _ _ _ _ _ Hph) in *. split_and!; [done|rewrite Ed; apply fn_lookup_insert|].
    rewrite Eq, (ph_others _ _ _ _ _ Hph wq Hne). apply prio_insert_ext. intros x Hx.
    apply (ph_prio _ _ _ _ _ Hph). destruct Hx as [->|Hx]; [by eapply phase_caller|].
    intros HxS. apply Hne. apply (kw_wq_disj K None _ (ru_wf K _ Hru) _ _ x Hx).
    rewrite (ph_queue _ _ _ _ _ Hph). apply elem_of_app. by left.
Qed.

Lemma ended_served K wq0 wq S rest data tot n min ms w w2 r w' :
  running K (pw_kernel w) -> phase wq0 S rest w w2 -> ended wq data tot n min ms w2 r w' ->
  (forall t, t ∈ S -> bytes_to_xfer (pw_descs w2 t) = 0) ->
  forall t, t ∈ S -> bytes_to_xfer (pw_descs w' t) = 0 /\
    (wakeable (pw_kernel w) t = true -> t ∈ ready_list (pw_kernel w')).
Proof.
  intros Hru Hph [_ _ _ N4 N5] Hd t Ht. pose proof (phase_caller K _ _ _ _ _ Hru Hph) as Hc.
  assert (t <> current (pw_kernel w)) as Hne by (by intros ->). rewrite (ph_current _ _ _ _ _ Hph) in *. split.
  - rewrite <- (Hd t Ht). destruct N5 as [(_ & _ & -> & _)|(_ & _ & _ & -> & _)]; [done|].
    by rewrite fn_lookup_insert_ne.
  - intros Hw. apply N4; [|done]. by apply (ph_ready _ _ _ _ _ Hph).
Qed.

(** The descriptors when the copying is done: those of the threads on other
    queues are as before, and the threads left still want something. *)
Lemma phase_descs K wq wq' S rest w w2 :
  running K (pw_kernel w) -> wq' <> wq -> phase wq S rest w w2 ->
  (forall t, t ∈ wait_qs (pw_kernel w) wq -> 0 < bytes_to_xfer (pw_descs w t)) ->
  (forall x, x ∉ S -> head rest <> Some x -> pw_descs w2 x = pw_descs w x) ->
  (forall t, head rest = Some t -> narrowed (pw_descs w t) (pw_descs w2 t) /\ 0 < bytes_to_xfer (pw_descs w2 t)) ->
  (forall t, t ∈ wait_qs (pw_kernel w) wq' -> pw_descs w2 t = pw_descs w t) /\
  (forall t, t ∈ rest -> narrowed (pw_descs w t) (pw_descs w2 t) /\ 0 < bytes_to_xfer (pw_descs w2 t)).
Proof.
  intros Hru Hne Hph Hpos Hoth Hleft. pose proof (ph_queue _ _ _ _ _ Hph) as Eq.
  pose proof (kw_wq_nodup K None _ (ru_wf K _ Hru) wq) as Hnd. rewrite Eq in Hnd.
  apply NoDup_app in Hnd as (_ & HdS & _). split.
  - intros t Ht. assert (Hnw : t ∉ S ++ rest).
    { rewrite <- Eq. intros Hw. by apply Hne, (kw_wq_disj K None _ (ru_wf K _ Hru) _ _ t). }
    apply not_elem_of_app in Hnw as [HtS Htr]. apply Hoth; [done|].
    destruct rest; [done|]. intros [= ->]. apply Htr, elem_of_cons. by left.
  - intros t Ht. destruct (decide (head rest = Some t)) as [Eh|Eh]; [by apply Hleft|].
    assert (t ∈ wait_qs (pw_kernel w) wq) as Hin by (rewrite Eq; apply elem_of_app; by right).
    rewrite Hoth; [|intros HtS; by apply (HdS t)|done].
    specialize (Hpos t Hin). split; [apply narrowed_refl; lia|lia].
Qed.

(** The queue that the caller may have joined, and the descriptors at the end. *)
Lemma ended_descs K wq0 wq S rest data tot n min ms w w2 r w' :
  running K (pw_kernel w) -> wq <> wq0 -> phase wq0 S rest w w2 -> ended wq data tot n min ms w2 r w' ->
  (forall t, t ∈ wait_qs (pw_kernel w) wq -> pw_descs w2 t = pw_descs w t) ->
  (forall t, t ∈ rest -> pw_descs w' t = pw_descs w2 t) /\
  (forall t, t ∈ wait_qs (pw_kernel w') wq ->
     (t ∈ wait_qs (pw_kernel w) wq /\ pw_descs w' t = pw_descs w t) \/
     (t = current (pw_kernel w) /\ n < tot /\ pw_descs w' t = mk_pipe_desc (data + n) (tot - n))).
Proof.
  intros Hru Hne Hph [N1 N2 N3 _ N5] Hdr.
  assert (Hcur : forall wq, current (pw_kernel w) ∉ wait_qs (pw_kernel w) wq)
    by (intros q Hin; by apply (waiter_not_current K _ q (current (pw_kernel w)) Hru)).
  assert (Hdesc : forall t q, t ∈ wait_qs (pw_kernel w) q -> pw_descs w' t = pw_descs w2 t).
  { intros t q Ht. destruct N5 as [(_ & _ & -> & _)|(_ & _ & _ & -> & _)]; [done|].
    apply fn_lookup_insert_ne. rewrite (ph_current _ _ _ _ _ Hph). intros <-. by eapply Hcur. }
  split.
  - intros t Ht. apply (Hdesc t wq0). rewrite (ph_queue _ _ _ _ _ Hph). apply elem_of_app. by right.
  - intros t. destruct N5 as [(_ & _ & _ & ->)|(_ & Hlt & _ & Ed & ->)];
      rewrite (ph_others _ _ _ _ _ Hph wq Hne).
    + intros Ht. left. split; [done|]. rewrite (Hdesc t wq) by done. by apply Hdr.
    + rewrite (ph_current _ _ _ _ _ Hph) in *. intros [->|Ht]%elem_of_prio_insert.
      * right. split_and!; try done. rewrite Ed. apply fn_lookup_insert.
      * left. split; [done|]. rewrite (Hdesc t wq) by done. by apply Hdr.
Qed.

(** Reading from a pipe nobody writes to leaves nothing in its buffer. *)
Lemma get_empty K data R S rest n w k1 w2 :
  bytes_used (pw_pipe w) = 0 -> S ++ rest = [] -> ring_ok (pw_pipe w2) ->
  received K data R S rest (set_pw_kernel (_sched_lock k1) w) n w2 ->
  bytes_used (pw_pipe w2) = 0.
Proof.
  intros Hu Enil Hr Hrc. pose proof (rc_data _ _ _ _ _ _ _ _ Hrc) as Hd. cbn in Hd.
  rewrite Enil, (contents_nil (pw_pipe w)) in Hd by done.
  rewrite <- (contents_length _ (pw_mem w2) Hr). apply app_eq_nil in Hd as [_ Hd] || (symmetry in Hd; apply app_eq_nil in Hd as [_ Hd]).
  apply app_eq_nil in Hd as [-> _]. done.
Qed.

Lemma get_invariant K data R S rest n min ms w k1 w2 r w' :
  running K (pw_kernel w) -> pipe_ok w -> call_ok data R w ->
  phase (writers (pw_pipe w)) S rest w w2 ->
  received K data R S rest (set_pw_kernel (_sched_lock k1) w) n w2 ->
  ended (readers (pw_pipe w)) data R n min ms w2 r w' ->
  pipe_ok w' /\ stream w = read_bytes (pw_mem w') data n ++ stream w'.
Proof.
  intros Hru Hok Hco Hph Hrc Hend. pose proof Hend as [N1 N2 N3 _ N5].
  destruct (phase_descs K _ (readers (pw_pipe w)) S rest w w2 Hru (pi_queues w Hok) Hph) as [Hdr Hdw];
    [intros; apply (pi_positive w Hok); by left|apply (rc_others _ _ _ _ _ _ _ _ Hrc)|apply (rc_left _ _ _ _ _ _ _ _ Hrc)|].
  destruct (ended_descs K _ _ S rest _ _ _ _ _ w w2 r w' Hru (pi_queues w Hok) Hph Hend Hdr) as [Hdesc Hrq].
  pose proof (rc_pipe _ _ _ _ _ _ _ _ Hrc) as (Eb & Es & Er & Ew). cbn [pw_pipe set_pw_kernel] in Eb, Es, Er, Ew.
  pose proof (pi_queues w Hok) as Hq.
  assert (Ewq : writers_q w' = rest).
  { rewrite N1, Ew, N3 by done. apply (ph_queue' _ _ _ _ _ Hph). }
  assert (Erq2 : wait_qs (pw_kernel w2) (readers (pw_pipe w)) = readers_q w) by (by apply (ph_others _ _ _ _ _ Hph)).
  assert (Hrest : forall t, t ∈ rest -> t ∈ writers_q w)
    by (intros t Ht; rewrite (ph_queue _ _ _ _ _ Hph); apply elem_of_app; by right).
  assert (Erq' : readers_q w' = wait_qs (pw_kernel w') (readers (pw_pipe w))) by (by rewrite N1, Er).
  pose proof (rc_ring _ _ _ _ _ _ _ _ Hrc) as Hring. pose proof (rc_n _ _ _ _ _ _ _ _ Hrc) as Hn.
  pose proof (co_size _ _ _ Hco) as HR. pose proof Hring as [Hrs _ _ _ _].
  split.
  - split.
    + by rewrite N1.
    + by rewrite N1, Er, Ew.
    + rewrite Ewq, N1. intros Hne. rewrite (rc_full _ _ _ _ _ _ _ _ Hrc Hne). by rewrite Es.
    + rewrite Ewq, N1, Er. intros Hne.
      destruct N5 as [(_ & _ & _ & E)|(_ & Hlt & _)]; [|by destruct (rc_short _ _ _ _ _ _ _ _ Hrc Hlt)].
      rewrite E, Erq2 in Hne. destruct (pi_empty w Hok Hne) as [Hu Enil]. rewrite (ph_queue _ _ _ _ _ Hph) in Enil.
      split; [by eapply get_empty|]. by apply app_eq_nil in Enil as [_ ?].
    + rewrite Ewq. intros t [Ht|Ht].
      * rewrite Hdesc by done. by apply Hdw.
      * rewrite Erq' in Ht. destruct (Hrq t Ht) as [[Ht' ->]|(_ & Hlt & ->)]; [apply (pi_positive w Hok); by right|cbn; lia].
    + rewrite Ewq, N1, Eb, Es. apply (clear_narrowed _ _ (pw_descs w)).
      * intros t Ht. by apply (pi_writers w Hok), Hrest.
      * intros t Ht. rewrite Hdesc by done. by apply Hdw.
    + rewrite Erq', N1, Eb, Es. intros t Ht.
      destruct (Hrq t Ht) as [[Ht' ->]|(_ & Hlt & ->)]; [by apply (pi_readers w Hok)|]. cbn [bytes_to_xfer desc_buffer].
      split; [lia|]. apply (disjoint_from_sub _ _ _ _ _ _ _ _ (co_buffer _ _ _ Hco)); lia.
    + rewrite Erq'. intros t1 t2 Ht1 Ht2 Hne.
      destruct (Hrq t1 Ht1) as [[Hi1 ->]|(E1 & Hl1 & ->)], (Hrq t2 Ht2) as [[Hi2 ->]|(E2 & Hl2 & ->)].
      * by apply (pi_apart w Hok).
      * cbn [bytes_to_xfer desc_buffer]. destruct (co_readers _ _ _ Hco t1 Hi1) as [Hb Hd]. apply disjoint_from_sym.
        apply (disjoint_from_sub _ _ _ _ _ _ _ _ Hd); lia.
      * cbn [bytes_to_xfer desc_buffer]. destruct (co_readers _ _ _ Hco t2 Hi2) as [Hb Hd].
        apply (disjoint_from_sub _ _ _ _ _ _ _ _ Hd); lia.
      * congruence.
  - unfold stream. rewrite (ph_queue _ _ _ _ _ Hph), Ewq, N1, N2.
    pose proof (rc_data _ _ _ _ _ _ _ _ Hrc) as Hdata. cbn [pw_pipe pw_mem pw_descs set_pw_kernel] in Hdata.
    rewrite Hdata. do 2 f_equal. symmetry. apply pending_same. intros t Ht. by apply Hdesc.
Qed.

(** The steps of a call that goes through. *)
Lemma get_steps K data R min ms w :
  running K (pw_kernel w) -> may_lock (pw_kernel w) -> current (pw_kernel w) <> _idle_thread ->
  timeout_ok ms -> pipe_ok w -> call_ok data R w -> 0 <= min <= R ->
  if (ms =? K_NO_WAIT) && (Z.of_nat (length (stream w)) <? min)
  then k_pipe_get data R min ms w = Some (Returns (- EIO, 0), w)
  else exists S rest k1 n w2 r w', k_pipe_get data R min ms w = Some (r, w') /\ running K (pw_kernel w') /\
    phase (writers (pw_pipe w)) S rest w w2 /\
    received K data R S rest (set_pw_kernel (_sched_lock k1) w) n w2 /\
    ended (readers (pw_pipe w)) data R n min ms w2 r w'.
Proof.
  intros Hru Hlk Hid Hms Hok Hco Hmin. pose proof (pi_ring w Hok) as Hring.
  pose proof Hring as [Hsz Hus _ _ _]. pose proof (co_size _ _ _ Hco) as [HR HR2].
  assert (Hfit : fits (R + bytes_used (pw_pipe w)) (pw_descs w) (writers_q w)).
  { intros t Ht. pose proof (co_fits_writers _ _ _ Hco t Ht). lia. }
  unfold k_pipe_get. rewrite (proj2 (Z.leb_le _ _)) by lia. cbn [negb].
  pose proof (prepare_ok K (writers (pw_pipe w)) (bytes_used (pw_pipe w)) R min ms (pw_descs w) (pw_kernel w)
    Hru Hlk ltac:(lia) Hmin ltac:(lia) Hfit) as Hprep. rewrite stream_length by done.
  destruct (_ && _) eqn:Eio; [by rewrite Hprep|].
  destruct Hprep as (S & rest & k1 & -> & Eq & Htr & Hdp & Htot & Hgt & Hlock). cbn [mbind option_bind].
  set (w1 := set_pw_kernel (_sched_lock k1) w).
  destruct (get_transfer_ok K data R S rest w1 Htr Hring) as (n2 & w2 & -> & Hrc); try done.
  { intros Hne. apply (pi_full w Hok). rewrite Eq. intros E. by apply app_eq_nil in E as [_ ?]. }
  { lia. }
  { apply (co_buffer _ _ _ Hco). }
  { rewrite <- Eq. apply (co_writers _ _ _ Hco). }
  { rewrite <- Eq. apply (pi_writers w Hok). }
  { rewrite <- Eq. apply (kw_wq_nodup K None _ (ru_wf K _ Hru)). }
  cbn [mbind option_bind]. pose proof (rc_n _ _ _ _ _ _ _ _ Hrc) as Hn2.
  pose proof (proj1 (transit_nil K _) (rc_transit _ _ _ _ _ _ _ _ Hrc)) as Hru2.
  pose proof (rc_arrived _ _ _ _ _ _ _ _ Hrc) as Har.
  pose proof (phase_ok K _ S rest w k1 _ w2 Hru Eq Hdp Har eq_refl) as Hph.
  destruct (finish_ok K (readers (pw_pipe w)) data R n2 min ms w2 Hru2) as (r & w' & E & Hru' & Hend); try lia; try done.
  { rewrite (ph_isr _ _ _ _ _ Hph). apply Hlk. }
  { apply Hlock; [apply (ph_current _ _ _ _ _ Hph)|]. apply (ar_threads _ _ _ Har).
    by apply (phase_caller K _ _ _ _ _ Hru Hph). }
  { by rewrite (ph_current _ _ _ _ _ Hph). }
  by exists S, rest, k1, n2, w2, r, w'.
Qed.

(** How much is read. *)
Lemma get_count K data R S rest n min ms w k1 w2 r w' :
  pipe_ok w -> pipe_ok w' -> phase (writers (pw_pipe w)) S rest w w2 ->
  received K data R S rest (set_pw_kernel (_sched_lock k1) w) n w2 ->
  ended (readers (pw_pipe w)) data R n min ms w2 r w' ->
  writers_q w' = rest /\
  (stream w = read_bytes (pw_mem w') data n ++ stream w' -> n = Z.min R (Z.of_nat (length (stream w)))).
Proof.
  intros Hok Hok' Hph Hrc Hend. pose proof (rc_n _ _ _ _ _ _ _ _ Hrc) as Hn.
  destruct (rc_pipe _ _ _ _ _ _ _ _ Hrc) as (_ & _ & _ & Ew).
  assert (Ewq : writers_q w' = rest).
  { rewrite (en_pipe _ _ _ _ _ _ _ _ _ Hend), Ew.
    rewrite (en_others _ _ _ _ _ _ _ _ _ Hend) by (apply not_eq_sym, (pi_queues w Hok)).
    apply (ph_queue' _ _ _ _ _ Hph). }
  split; [done|]. intros Hst.
  pose proof (f_equal (fun l => Z.of_nat (length l)) Hst) as El. cbn beta in El.
  rewrite length_app, Nat2Z.inj_add, read_bytes_length in El by lia.
  destruct (decide (n < R)) as [Hlt|]; [|lia]. destruct (rc_short _ _ _ _ _ _ _ _ Hrc Hlt) as [Er Hu].
  rewrite (stream_length w' Hok'), Ewq, Er, (en_pipe _ _ _ _ _ _ _ _ _ Hend), Hu in El. cbn in El. lia.
Qed.

(** C21: reading [R] bytes from a pipe, at least [min]. A call that may not wait
    and finds less than [min] fails with -EIO and changes nothing. Otherwise the
    caller gets the first bytes of the stream, as many as there are up to [R],
    and exactly these leave the stream, with the rest in order; the writers
    whose data has been taken in full are ready, the others wait on. The call
    then returns 0 with the count, or, short of [R] bytes, waits for the rest. *)
Theorem pipe_get_correct K data R min ms w :
  running K (pw_kernel w) -> may_lock (pw_kernel w) -> current (pw_kernel w) <> _idle_thread ->
  timeout_ok ms -> pipe_ok w -> call_ok data R w -> 0 <= min <= R ->
  let avail := Z.of_nat (length (stream w)) in let n := Z.min R avail in
  exists r w', k_pipe_get data R min ms w = Some (r, w') /\ running K (pw_kernel w') /\ pipe_ok w' /\
    if (ms =? K_NO_WAIT) && (avail <? min) then r = Returns (- EIO, 0) /\ w' = w
    else
      stream w = read_bytes (pw_mem w') data n ++ stream w' /\
      (if (n =? R) || (ms =? K_NO_WAIT) then r = Returns (0, n)
       else r = Blocks /\ pw_descs w' (current (pw_kernel w)) = mk_pipe_desc (data + n) (R - n) /\
            readers_q w' = prio_insert (thread_prio (pw_kernel w)) (current (pw_kernel w)) (readers_q w)) /\
      exists served, writers_q w = served ++ writers_q w' /\
        forall t, t ∈ served -> bytes_to_xfer (pw_descs w' t) = 0 /\
          (wakeable (pw_kernel w) t = true -> t ∈ ready_list (pw_kernel w')).
Proof.
  intros Hru Hlk Hid Hms Hok Hco Hmin avail n.
  pose proof (get_steps K data R min ms w Hru Hlk Hid Hms Hok Hco Hmin) as Hsteps. fold avail in Hsteps.
  destruct (_ && _) eqn:Eio; [eexists _, w; by split_and!|].
  destruct Hsteps as (S & rest & k1 & n2 & w2 & r & w' & E & Hru' & Hph & Hrc & Hend).
  destruct (get_invariant K data R S rest n2 min ms w k1 w2 r w' Hru Hok Hco Hph Hrc Hend) as [Hok' Hst].
  destruct (get_count K data R S rest n2 min ms w k1 w2 r w' Hok Hok' Hph Hrc Hend) as [Ewq En].
  specialize (En Hst). fold avail n in En. subst n2. exists r, w'. split_and!; try done.
  - assert (Erq : readers (pw_pipe w') = readers (pw_pipe w)).
    { rewrite (en_pipe _ _ _ _ _ _ _ _ _ Hend). by destruct (rc_pipe _ _ _ _ _ _ _ _ Hrc) as (_ & _ & ? & _). }
    rewrite Erq. apply (ended_result K (writers (pw_pipe w)) _ S rest _ _ _ min ms w w2); try done; [apply Hok|].
    intros ->. apply andb_false_iff in Eio as [?|?%Z.ltb_ge]; [done|lia].
  - exists S. rewrite Ewq. split; [apply (ph_queue _ _ _ _ _ Hph)|].
    eapply ended_served; try done. apply (rc_done _ _ _ _ _ _ _ _ Hrc).
Qed.
End Get.

(** ** Writing *)
Section Put.
Context `{KConfig}.
Implicit Types (w : pipe_world) (t : tid) (K : toid -> Prop) (S rest : list tid) (k : kernel).

Lemma put_transfer_ok K data N S rest w :
  let p := pw_pipe w in
  transit K S (pw_kernel w) -> ring_ok p -> 0 <= N <= UINT32_MAX ->
  disjoint_from (pipe_buffer p) (pipe_size p) data N -> clear_of data N (pw_descs w) (S ++ rest) ->
  clear_of (pipe_buffer p) (pipe_size p) (pw_descs w) (S ++ rest) -> apart (pw_descs w) (S ++ rest) ->
  NoDup (S ++ rest) -> total (pw_descs w) S <= N ->
  (forall t rest', rest = t :: rest' -> N < total (pw_descs w) S + bytes_to_xfer (pw_descs w t)) ->
  exists n w', put_transfer S (head rest) data N w = Some (n, w') /\ sent K data N S rest w n w'.
Proof.
  intros p Htr Hok HN Hd Hc Hcp Ha Hnd Htot Hgt. destruct rest as [|t rest]; cbn [head].
  - rewrite app_nil_r in *. by apply put_transfer_all.
  - apply put_transfer_left; try done. by eapply Hgt.
Qed.

Lemma put_invariant K data N S rest n min ms w k1 w2 r w' :
  running K (pw_kernel w) -> pipe_ok w -> call_ok data N w ->
  phase (readers (pw_pipe w)) S rest w w2 ->
  sent K data N S rest (set_pw_kernel (_sched_lock k1) w) n w2 ->
  ended (writers (pw_pipe w)) data N n min ms w2 r w' ->
  pipe_ok w' /\ readers_q w' = rest.
Proof.
  intros Hru Hok Hco Hph Hsn Hend. pose proof Hend as [N1 N2 N3 _ N5].
  destruct (phase_descs K _ (writers (pw_pipe w)) S rest w w2 Hru (not_eq_sym (pi_queues w Hok)) Hph) as [Hdr Hdw];
    [intros; apply (pi_positive w Hok); by right|apply (sn_others _ _ _ _ _ _ _ _ Hsn)|apply (sn_left _ _ _ _ _ _ _ _ Hsn)|].
  destruct (ended_descs K _ _ S rest _ _ _ _ _ w w2 r w' Hru (not_eq_sym (pi_queues w Hok)) Hph Hend Hdr) as [Hdesc Hwq].
  pose proof (sn_pipe _ _ _ _ _ _ _ _ Hsn) as (Eb & Es & Er & Ew). cbn [pw_pipe set_pw_kernel] in Eb, Es, Er, Ew.
  pose proof (pi_queues w Hok) as Hq.
  assert (Erq : readers_q w' = rest).
  { rewrite N1, Er, N3 by done. apply (ph_queue' _ _ _ _ _ Hph). }
  assert (Ewq2 : wait_qs (pw_kernel w2) (writers (pw_pipe w)) = writers_q w) by (apply (ph_others _ _ _ _ _ Hph); done).
  assert (Hrest : forall t, t ∈ rest -> t ∈ readers_q w)
    by (intros t Ht; rewrite (ph_queue _ _ _ _ _ Hph); apply elem_of_app; by right).
  assert (Ewq' : writers_q w' = wait_qs (pw_kernel w') (writers (pw_pipe w))) by (by rewrite N1, Ew).
  pose proof (sn_ring _ _ _ _ _ _ _ _ Hsn) as Hring. pose proof (sn_n _ _ _ _ _ _ _ _ Hsn) as Hn.
  pose proof (co_size _ _ _ Hco) as HN. pose proof Hring as [Hrs Hru2 _ _ _].
  assert (Hnar : forall t, t ∈ rest -> narrowed (pw_descs w t) (pw_descs w' t))
    by (intros t Ht; rewrite Hdesc by done; by apply Hdw).
  split; [|done]. split.
  - by rewrite N1.
  - by rewrite N1, Er, Ew.
  - rewrite N1, Ew, Es. intros Hne.
    destruct N5 as [(_ & _ & _ & E)|(_ & Hlt & _)]; [|by destruct (sn_short _ _ _ _ _ _ _ _ Hsn Hlt)].
    rewrite E, Ewq2 in Hne. pose proof (pi_full w Hok Hne) as Hf.
    pose proof (sn_used _ _ _ _ _ _ _ _ Hsn) as Hle. cbn [pw_pipe set_pw_kernel] in Hle. lia.
  - rewrite Erq. intros Hne. destruct (pi_empty w Hok) as [Hu Ewn].
    { rewrite (ph_queue _ _ _ _ _ Hph). intros E. by apply app_eq_nil in E as [_ ?]. }
    destruct (sn_rest _ _ _ _ _ _ _ _ Hsn Hne) as [En Eu]. cbn [pw_pipe set_pw_kernel] in Eu.
    rewrite N1, Ew. split; [by rewrite Eu|].
    destruct N5 as [(_ & _ & _ & E)|(_ & Hlt & _)]; [by rewrite E, Ewq2|lia].
  - rewrite Erq. intros t [Ht|Ht].
    + rewrite Ewq' in Ht. destruct (Hwq t Ht) as [[Ht' ->]|(_ & Hlt & ->)]; [apply (pi_positive w Hok); by left|cbn; lia].
    + rewrite Hdesc by done. by apply Hdw.
  - rewrite Ewq', N1, Eb, Es. intros t Ht.
    destruct (Hwq t Ht) as [[Ht' ->]|(_ & Hlt & ->)]; [by apply (pi_writers w Hok)|]. cbn [bytes_to_xfer desc_buffer].
    split; [lia|]. apply (disjoint_from_sub _ _ _ _ _ _ _ _ (co_buffer _ _ _ Hco)); lia.
  - rewrite Erq, N1, Eb, Es. apply (clear_narrowed _ _ (pw_descs w)); [|done].
    intros t Ht. by apply (pi_readers w Hok), Hrest.
  - rewrite Erq. intros t1 t2 Ht1 Ht2 Hne. destruct (Hnar t1 Ht1) as (? & ? & ?), (Hnar t2 Ht2) as (? & ? & ?).
    apply (disjoint_from_sub _ _ _ _ _ _ _ _ (pi_apart w Hok t1 t2 (Hrest t1 Ht1) (Hrest t2 Ht2) Hne)); lia.
Qed.

Lemma put_steps K data N min ms w :
  running K (pw_kernel w) -> may_lock (pw_kernel w) -> current (pw_kernel w) <> _idle_thread ->
  timeout_ok ms -> pipe_ok w -> call_ok data N w -> 0 <= min <= N ->
  if (ms =? K_NO_WAIT) && (room w <? min)
  then k_pipe_put data N min ms w = Some (Returns (- EIO, 0), w)
  else exists S rest k1 n w2 r w', k_pipe_put data N min ms w = Some (r, w') /\ running K (pw_kernel w') /\
    phase (readers (pw_pipe w)) S rest w w2 /\ total (pw_descs w) S <= N /\
    (forall t rest', rest = t :: rest' -> N < total (pw_descs w) S + bytes_to_xfer (pw_descs w t)) /\
    sent K data N S rest (set_pw_kernel (_sched_lock k1) w) n w2 /\
    ended (writers (pw_pipe w)) data N n min ms w2 r w'.
Proof.
  intros Hru Hlk Hid Hms Hok Hco Hmin. pose proof (pi_ring w Hok) as Hring.
  pose proof Hring as [Hsz Hus _ _ _]. pose proof (co_size _ _ _ Hco) as [HN HN2].
  set (space := pipe_size (pw_pipe w) - bytes_used (pw_pipe w)).
  assert (Hfit : fits (N + space) (pw_descs w) (readers_q w)).
  { intros t Ht. pose proof (co_fits_readers _ _ _ Hco t Ht). lia. }
  unfold k_pipe_put. rewrite (proj2 (Z.leb_le _ _)) by lia. cbn [negb]. fold space. rewrite (u32_small space) by lia.
  pose proof (prepare_ok K (readers (pw_pipe w)) space N min ms (pw_descs w) (pw_kernel w)
    Hru Hlk ltac:(lia) Hmin ltac:(lia) Hfit) as Hprep. unfold room. fold space.
  destruct (_ && _) eqn:Eio; [by rewrite Hprep|].
  destruct Hprep as (S & rest & k1 & -> & Eq & Htr & Hdp & Htot & Hgt & Hlock). cbn [mbind option_bind].
  set (w1 := set_pw_kernel (_sched_lock k1) w).
  destruct (put_transfer_ok K data N S rest w1 Htr Hring) as (n2 & w2 & -> & Hsn); try done.
  { lia. }
  { apply (co_buffer _ _ _ Hco). }
  { rewrite <- Eq. apply (co_readers _ _ _ Hco). }
  { rewrite <- Eq. apply (pi_readers w Hok). }
  { rewrite <- Eq. intros t1 t2. apply (pi_apart w Hok). }
  { rewrite <- Eq. apply (kw_wq_nodup K None _ (ru_wf K _ Hru)). }
  cbn [mbind option_bind]. pose proof (sn_n _ _ _ _ _ _ _ _ Hsn) as Hn2.
  pose proof (proj1 (transit_nil K _) (sn_transit _ _ _ _ _ _ _ _ Hsn)) as Hru2.
  pose proof (sn_arrived _ _ _ _ _ _ _ _ Hsn) as Har.
  pose proof (phase_ok K _ S rest w k1 _ w2 Hru Eq Hdp Har eq_refl) as Hph.
  destruct (finish_ok K (writers (pw_pipe w)) data N n2 min ms w2 Hru2) as (r & w' & E & Hru' & Hend); try lia; try done.
  { rewrite (ph_isr _ _ _ _ _ Hph). apply Hlk. }
  { apply Hlock; [apply (ph_current _ _ _ _ _ Hph)|]. apply (ar_threads _ _ _ Har).
    by apply (phase_caller K _ _ _ _ _ Hru Hph). }
  { by rewrite (ph_current _ _ _ _ _ Hph). }
  by exists S, rest, k1, n2, w2, r, w'.
Qed.

(** How much is written. *)
Lemma put_count K data N S rest n w k1 w2 :
  pipe_ok w -> call_ok data N w -> phase (readers (pw_pipe w)) S rest w w2 ->
  (forall t rest', rest = t :: rest' -> N < total (pw_descs w) S + bytes_to_xfer (pw_descs w t)) ->
  sent K data N S rest (set_pw_kernel (_sched_lock k1) w) n w2 -> n = Z.min N (room w).
Proof.
  intros Hok Hco Hph Hgt Hsn. unfold room. rewrite (ph_queue _ _ _ _ _ Hph), total_app.
  destruct rest as [|t rest].
  - rewrite (sn_count _ _ _ _ _ _ _ _ Hsn eq_refl). cbn. lia.
  - destruct (sn_rest _ _ _ _ _ _ _ _ Hsn ltac:(done)) as [-> _]. specialize (Hgt t rest eq_refl).
    cbn [total foldr]. fold (total (pw_descs w) rest). pose proof (pi_ring w Hok) as [? ? _ _ _].
    assert (0 <= total (pw_descs w) rest); [|lia].
    apply (total_nonneg (N + pipe_size (pw_pipe w))). intros x Hx. apply (co_fits_readers _ _ _ Hco).
    rewrite (ph_queue _ _ _ _ _ Hph). apply elem_of_app. right. apply elem_of_cons. by right.
Qed.

(** C20: writing [N] bytes to a pipe, at least [min]. A call that may not wait and
    finds room for less than [min] fails with -EIO and changes nothing.
    Otherwise as many bytes as there is room for go, in order, to the waiting
    readers, the first of them first, and then to the end of the buffer; the
    readers that got all they asked for are ready, the next one has its share
    and waits on, and nothing is buffered while a reader waits. The call then
    returns 0 with the count, or, with bytes left, waits to write them. *)
Theorem pipe_put_correct K data N min ms w :
  running K (pw_kernel w) -> may_lock (pw_kernel w) -> current (pw_kernel w) <> _idle_thread ->
  timeout_ok ms -> pipe_ok w -> call_ok data N w -> 0 <= min <= N ->
  let n := Z.min N (room w) in
  exists r w', k_pipe_put data N min ms w = Some (r, w') /\ running K (pw_kernel w') /\ pipe_ok w' /\
    if (ms =? K_NO_WAIT) && (room w <? min) then r = Returns (- EIO, 0) /\ w' = w
    else
      (if (n =? N) || (ms =? K_NO_WAIT) then r = Returns (0, n)
       else r = Blocks /\ pw_descs w' (current (pw_kernel w)) = mk_pipe_desc (data + n) (N - n) /\
            writers_q w' = prio_insert (thread_prio (pw_kernel w)) (current (pw_kernel w)) (writers_q w)) /\
      exists served got added, readers_q w = served ++ readers_q w' /\
        (forall t, t ∈ served -> bytes_to_xfer (pw_descs w' t) = 0 /\
           (wakeable (pw_kernel w) t = true -> t ∈ ready_list (pw_kernel w'))) /\
        read_bytes (pw_mem w) data n = pending (pw_mem w') (pw_descs w) served ++ got ++ added /\
        contents (pw_pipe w') (pw_mem w') = contents (pw_pipe w) (pw_mem w) ++ added /\
        match readers_q w' with
        | [] => got = []
        | t :: _ => added = [] /\
            got = read_bytes (pw_mem w') (desc_buffer (pw_descs w t))
                    (bytes_to_xfer (pw_descs w t) - bytes_to_xfer (pw_descs w' t))
        end.
Proof.
  intros Hru Hlk Hid Hms Hok Hco Hmin n.
  pose proof (put_steps K data N min ms w Hru Hlk Hid Hms Hok Hco Hmin) as Hsteps.
  destruct (_ && _) eqn:Eio; [eexists _, w; by split_and!|].
  destruct Hsteps as (S & rest & k1 & n2 & w2 & r & w' & E & Hru' & Hph & Htot & Hgt & Hsn & Hend).
  destruct (put_invariant K data N S rest n2 min ms w k1 w2 r w' Hru Hok Hco Hph Hsn Hend) as [Hok' Erq].
  assert (n2 = n) as -> by (by eapply put_count). exists r, w'. split_and!; try done.
  - assert (Ewq : writers (pw_pipe w') = writers (pw_pipe w)).
    { rewrite (en_pipe _ _ _ _ _ _ _ _ _ Hend). by destruct (sn_pipe _ _ _ _ _ _ _ _ Hsn) as (_ & _ & _ & ?). }
    rewrite Ewq. apply (ended_result K (readers (pw_pipe w)) _ S rest _ _ _ min ms w w2); try done;
      [apply not_eq_sym, (pi_queues w Hok)|].
    intros ->. apply andb_false_iff in Eio as [?|?%Z.ltb_ge]; [done|lia].
  - destruct (sn_data _ _ _ _ _ _ _ _ Hsn) as (got & added & Hd1 & Hd2 & Hd3). exists S, got, added.
    cbn [pw_pipe pw_mem pw_descs set_pw_kernel] in *.
    rewrite Erq, (en_mem _ _ _ _ _ _ _ _ _ Hend), (en_pipe _ _ _ _ _ _ _ _ _ Hend).
    split_and!; try done; [apply (ph_queue _ _ _ _ _ Hph)|..].
    + eapply ended_served; try done. apply (sn_done _ _ _ _ _ _ _ _ Hsn).
    + destruct rest as [|t rest]; [done|]. cbn [head] in Hd3.
      destruct (ended_descs K (readers (pw_pipe w)) _ S (t :: rest) _ _ _ _ _ w w2 r w' Hru
        (not_eq_sym (pi_queues w Hok)) Hph Hend) as [Hde _].
      { intros x Hx. apply (sn_others _ _ _ _ _ _ _ _ Hsn).
        - intros HxS. apply (pi_queues w Hok), (kw_wq_disj K None _ (ru_wf K _ Hru) _ _ x); [|done].
          rewrite (ph_queue _ _ _ _ _ Hph). apply elem_of_app. by left.
        - intros [= ->]. apply (pi_queues w Hok), (kw_wq_disj K None _ (ru_wf K _ Hru) _ _ x); [|done].
          rewrite (ph_queue _ _ _ _ _ Hph). apply elem_of_app. right. apply elem_of_cons. by left. }
      rewrite Hde by (apply elem_of_cons; by left). done.
Qed.
End Put.

(** ** Witnesses *)
Section Witnesses.
(** Three bytes in a buffer of eight, across its end; nobody waits. *)
Definition pipe_demo (k : kernel) : pipe_world :=
  mk_pipe_world (mk_pipe 1000 8 3 6 1 20%positive 21%positive) (fun a => a `mod` 256)
    (fun _ => mk_pipe_desc 0 0) k.

Lemma pipe_demo_ok k data n :
  (forall wq, wait_qs k wq = []) -> 0 <= n <= 100 -> 1008 <= data ->
  pipe_ok (pipe_demo k) /\ call_ok data n (pipe_demo k).
Proof.
  intros Ew Hn Hd. split; split; cbn [pw_pipe pw_kernel pipe_demo readers writers pipe_buffer pipe_size]; rewrite ?Ew; try done.
  - split; cbn; try (left; lia); try (unfold UINT32_MAX); try lia. done.
  - by intros t [?%elem_of_nil|?%elem_of_nil].
  - by intros t ?%elem_of_nil.
  - by intros t ?%elem_of_nil.
  - by intros t1 t2 ?%elem_of_nil.
  - unfold UINT32_MAX. lia.
  - unfold disjoint_from. lia.
  - by intros t ?%elem_of_nil.
  - by intros t ?%elem_of_nil.
  - by intros t ?%elem_of_nil.
  - by intros t ?%elem_of_nil.
Qed.

Lemma pipe_demo_stream k : (forall wq, wait_qs k wq = []) -> stream (pipe_demo k) = [238; 239; 232].
Proof. intros Ew. unfold stream. cbn [pw_pipe pw_kernel pipe_demo writers]. rewrite Ew. reflexivity. Qed.

Lemma pipe_demo_room k : (forall wq, wait_qs k wq = []) -> room (pipe_demo k) = 5.
Proof. intros Ew. unfold room. cbn [pw_pipe pw_kernel pipe_demo readers]. rewrite Ew. reflexivity. Qed.

Lemma pipe_get_correct_witness :
  exists w', k_pipe_get 2000 5 2 K_NO_WAIT (pipe_demo unlocked) = Some (Returns (0, 3), w') /\
    [238; 239; 232] = read_bytes (pw_mem w') 2000 3 ++ stream w'.
Proof.
  destruct unlocked_ok as (Hru & Hl & Ew & Hid).
  destruct (pipe_demo_ok unlocked 2000 5 Ew ltac:(lia) ltac:(lia)) as [Hok Hco].
  destruct (pipe_get_correct boot_threads 2000 5 2 K_NO_WAIT (pipe_demo unlocked) Hru Hl Hid
    no_wait_ok Hok Hco ltac:(lia)) as (r & w' & E & _ & _ & Hc).
  rewrite (pipe_demo_stream unlocked Ew) in Hc. destruct Hc as (Hs & Hr & _).
  exists w'. split; [|exact Hs]. rewrite E. cbn in Hr. by rewrite Hr.
Defined.

Lemma pipe_put_correct_witness :
  exists w', k_pipe_put 2000 4 4 K_NO_WAIT (pipe_demo unlocked) = Some (Returns (0, 4), w') /\ pipe_ok w'.
Proof.
  destruct unlocked_ok as (Hru & Hl & Ew & Hid).
  destruct (pipe_demo_ok unlocked 2000 4 Ew ltac:(lia) ltac:(lia)) as [Hok Hco].
  destruct (pipe_put_correct boot_threads 2000 4 4 K_NO_WAIT (pipe_demo unlocked) Hru Hl Hid
    no_wait_ok Hok Hco ltac:(lia)) as (r & w' & E & _ & Hok' & Hc).
  rewrite (pipe_demo_room unlocked Ew) in Hc. destruct Hc as (Hr & _).
  exists w'. split; [|exact Hok']. rewrite E. cbn in Hr. by rewrite Hr.
Defined.
End Witnesses.
