(* ===== verification/Mailbox.v ===== *)
(** * Mailboxes (kernel/unified/mailbox.c)

    A sender and a receiver meet in a mailbox: each names the other or accepts
    anyone, the descriptors of the two ([struct k_mbox_msg], on the stacks of
    the threads, known by their addresses) are matched, and the sender waits, on
    no queue, until the receiver has consumed the data. The state of a call: the
    descriptors, the byte memory, the memory pools of message blocks and the
    kernel. The model is of the configuration without asynchronous messages
    (CONFIG_NUM_MBOX_ASYNC_MSGS is 0). *)
From S2P Require Import Prelude Kernel ReadyQ TimeoutQ Sched SchedInv SchedApi Transit Thread Boot.
From S2P Require Import MemPool MemPoolApi.

(** [K_ANY] and [NULL] are [None]; a block descriptor whose [pool_id] is null
    is [None]. *)
Record k_mbox_msg := mk_mbox_msg {
  size : Z;
  info : Z;
  tx_data : Z;
  tx_block : option k_mem_block;
  rx_source_thread : option tid;
  tx_target_thread : option tid;
  _syncing_thread : option tid
}.

Section Setters.
Implicit Type m : k_mbox_msg.
Definition set_size (n : Z) m := mk_mbox_msg n (info m) (tx_data m) (tx_block m)
  (rx_source_thread m) (tx_target_thread m) (_syncing_thread m).
Definition set_info (i : Z) m := mk_mbox_msg (size m) i (tx_data m) (tx_block m)
  (rx_source_thread m) (tx_target_thread m) (_syncing_thread m).
Definition set_data (d : Z) m := mk_mbox_msg (size m) (info m) d (tx_block m)
  (rx_source_thread m) (tx_target_thread m) (_syncing_thread m).
Definition set_block (b : option k_mem_block) m := mk_mbox_msg (size m) (info m) (tx_data m) b
  (rx_source_thread m) (tx_target_thread m) (_syncing_thread m).
Definition set_source (t : option tid) m := mk_mbox_msg (size m) (info m) (tx_data m) (tx_block m)
  t (tx_target_thread m) (_syncing_thread m).
Definition set_target (t : option tid) m := mk_mbox_msg (size m) (info m) (tx_data m) (tx_block m)
  (rx_source_thread m) t (_syncing_thread m).
Definition set_syncing (t : option tid) m := mk_mbox_msg (size m) (info m) (tx_data m) (tx_block m)
  (rx_source_thread m) (tx_target_thread m) t.
End Setters.

Record k_mbox := mk_mbox { tx_msg_queue : wqid; rx_msg_queue : wqid }.

Record mbox_world := mk_mbox_world {
  mw_msgs : Z -> k_mbox_msg;
  mw_mem : Z -> Z;
  mw_pools : poolid -> k_mem_pool;
  mw_kernel : kernel
}.

Definition set_mw_kernel (k : kernel) (w : mbox_world) : mbox_world :=
  mk_mbox_world (mw_msgs w) (mw_mem w) (mw_pools w) k.
Definition set_mw_msgs (msgs : Z -> k_mbox_msg) (w : mbox_world) : mbox_world :=
  mk_mbox_world msgs (mw_mem w) (mw_pools w) (mw_kernel w).
Definition set_mw_mem (m : Z -> Z) (w : mbox_world) : mbox_world :=
  mk_mbox_world (mw_msgs w) m (mw_pools w) (mw_kernel w).
(** An assignment through a pointer to a descriptor. *)
Definition upd_msg (a : Z) (f : k_mbox_msg -> k_mbox_msg) (w : mbox_world) : mbox_world :=
  set_mw_msgs (alter f a (mw_msgs w)) w.

Section Operations.
Context `{KConfig} (policy : mem_pool_policy).
Implicit Types (w : mbox_world) (mbox : k_mbox) (msgs : Z -> k_mbox_msg) (tx_msg rx_msg : Z)
  (k : kernel) (t : tid).

Definition k_mbox_init mbox k : kernel :=
  upd_wait_q (rx_msg_queue mbox) [] (upd_wait_q (tx_msg_queue mbox) [] k).

(** The condition of [_mbox_message_match]. *)
Definition compatible (tx rx : k_mbox_msg) : bool :=
  (bool_decide (tx_target_thread tx = None)
   || bool_decide (tx_target_thread tx = tx_target_thread rx))
  && (bool_decide (rx_source_thread rx = None)
      || bool_decide (rx_source_thread rx = rx_source_thread tx)).

Definition _mbox_message_match tx_msg rx_msg msgs : Z * (Z -> k_mbox_msg) :=
  if compatible (msgs tx_msg) (msgs rx_msg) then
    let msgs := alter (set_source (rx_source_thread (msgs tx_msg))) rx_msg msgs in
    let msgs := alter (set_target (tx_target_thread (msgs rx_msg))) tx_msg msgs in
    let temp_info := info (msgs rx_msg) in
    let msgs := alter (set_info (info (msgs tx_msg))) rx_msg msgs in
    let msgs := alter (set_info temp_info) tx_msg msgs in
    let msgs := if size (msgs tx_msg) <? size (msgs rx_msg)
                then alter (set_size (size (msgs tx_msg))) rx_msg msgs else msgs in
    let msgs := alter (set_data (tx_data (msgs tx_msg))) rx_msg msgs in
    let msgs := alter (set_block (tx_block (msgs tx_msg))) rx_msg msgs in
    let msgs := if negb (tx_data (msgs rx_msg) =? 0) then alter (set_block None) rx_msg msgs
                else match tx_block (msgs rx_msg) with
                     | Some block => alter (set_data (data block)) rx_msg msgs
                     | None => msgs
                     end in
    (0, alter (set_syncing (_syncing_thread (msgs tx_msg))) rx_msg msgs)
  else (-1, msgs).

(** The end of [_mbox_message_dispose]: the sender is recovered, told the size
    and woken. *)
Definition dispose_sender rx_msg w : option mbox_world :=
  sending_thread ← _syncing_thread (mw_msgs w rx_msg);
  let w := upd_msg rx_msg (set_syncing None) w in
  let tx_msg := swap_data (threads (mw_kernel w) sending_thread) in
  let w := upd_msg tx_msg (set_size (size (mw_msgs w rx_msg))) w in
  let k := _set_thread_return_value sending_thread 0 (mw_kernel w) in
  let k := _mark_thread_as_not_pending sending_thread k in
  k ← _ready_thread sending_thread k;
  k ← _reschedule_threads k;
  Some (set_mw_kernel k w).

(** What is left to do when [k_mem_pool_free] switched to another thread. *)
Definition _mbox_message_dispose_resume rx_msg w : option mbox_world :=
  dispose_sender rx_msg (upd_msg rx_msg (set_block None) w).

Definition _mbox_message_dispose rx_msg w : option (outcome unit * mbox_world) :=
  match _syncing_thread (mw_msgs w rx_msg) with
  | None => Some (Returns tt, w)
  | Some _ =>
      match tx_block (mw_msgs w rx_msg) with
      | Some block =>
          r ← k_mem_pool_free policy block (mw_pools w) (mw_kernel w);
          let '(pools, k) := r in
          let w' := mk_mbox_world (mw_msgs w) (mw_mem w) pools k in
          if bool_decide (current k = current (mw_kernel w))
          then w' ← _mbox_message_dispose_resume rx_msg w'; Some (Returns tt, w')
          else Some (Blocks, w')
      | None => w ← dispose_sender rx_msg w; Some (Returns tt, w)
      end
  end.

(** The search of the rx queue for the first compatible receiver ... *)
Fixpoint find_receiver tx_msg (l : list tid) k msgs : option (tid * (Z -> k_mbox_msg)) :=
  match l with
  | [] => None
  | receiving_thread :: l =>
      let rx_msg := swap_data (threads k receiving_thread) in
      let '(r, msgs) := _mbox_message_match tx_msg rx_msg msgs in
      if r =? 0 then Some (receiving_thread, msgs) else find_receiver tx_msg l k msgs
  end.

(** ... and that of the tx queue for the first compatible sender. *)
Fixpoint find_sender rx_msg (l : list tid) k msgs : option (tid * (Z -> k_mbox_msg)) :=
  match l with
  | [] => None
  | sending_thread :: l =>
      let tx_msg := swap_data (threads k sending_thread) in
      let '(r, msgs) := _mbox_message_match tx_msg rx_msg msgs in
      if r =? 0 then Some (sending_thread, msgs) else find_sender rx_msg l k msgs
  end.

Definition _mbox_message_put mbox tx_msg (timeout : Z) w : option (outcome Z * mbox_world) :=
  let w := upd_msg tx_msg (set_source (Some (current (mw_kernel w)))) w in
  sending_thread ← _syncing_thread (mw_msgs w tx_msg);
  let k := upd_thread sending_thread (with_swap_data tx_msg) (mw_kernel w) in
  match find_receiver tx_msg (wait_qs k (rx_msg_queue mbox)) k (mw_msgs w) with
  | Some (receiving_thread, msgs) =>
      k ← _unpend_thread receiving_thread k;
      let '(_, k) := _abort_thread_timeout receiving_thread k in
      let k := _set_thread_return_value receiving_thread 0 k in
      k ← _ready_thread receiving_thread k;
      k ← block_unqueued k;
      Some (Blocks, set_mw_kernel k (set_mw_msgs msgs w))
  | None =>
      if timeout =? K_NO_WAIT then Some (Returns (- ENOMSG), set_mw_kernel k w)
      else k ← block_current (tx_msg_queue mbox) timeout k; Some (Blocks, set_mw_kernel k w)
  end.

Definition k_mbox_put mbox tx_msg (timeout : Z) w : option (outcome Z * mbox_world) :=
  _mbox_message_put mbox tx_msg timeout
    (upd_msg tx_msg (set_syncing (Some (current (mw_kernel w)))) w).

Definition k_mbox_data_get rx_msg (buffer : Z) w : option (outcome unit * mbox_world) :=
  if buffer =? 0 then _mbox_message_dispose rx_msg (upd_msg rx_msg (set_size 0) w)
  else
    let m := mw_msgs w rx_msg in
    let w := if negb (tx_data m =? 0) && (0 <? size m)
             then set_mw_mem (memcpy buffer (tx_data m) (size m) (mw_mem w)) w else w in
    _mbox_message_dispose rx_msg w.

(** The end of [k_mbox_data_block_get] once the allocation is over. *)
Definition block_get_resume rx_msg (alloc : Z * option k_mem_block) w
    : option (outcome (Z * option k_mem_block) * mbox_world) :=
  match alloc with
  | (result, Some block) =>
      if negb (result =? 0) then Some (Returns (result, None), w)
      else
        r ← k_mbox_data_get rx_msg (data block) w;
        match r with
        | (Returns _, w) => Some (Returns (0, Some block), w)
        | (Blocks, w) => Some (Blocks, w)
        end
  | (result, None) => Some (Returns (result, None), w)
  end.

(** The result and what is written through [block]; [Blocks] when the thread is
    switched out before the end. *)
Definition k_mbox_data_block_get rx_msg (pool : option poolid) (timeout : Z) w
    : option (outcome (Z * option k_mem_block) * mbox_world) :=
  match pool with
  | None =>
      r ← _mbox_message_dispose rx_msg (upd_msg rx_msg (set_size 0) w);
      match r with
      | (Returns _, w) => Some (Returns (0, None), w)
      | (Blocks, w) => Some (Blocks, w)
      end
  | Some p =>
      match tx_block (mw_msgs w rx_msg) with
      | Some block =>
          r ← _mbox_message_dispose rx_msg (upd_msg rx_msg (set_block None) w);
          match r with
          | (Returns _, w) => Some (Returns (0, Some block), w)
          | (Blocks, w) => Some (Blocks, w)
          end
      | None =>
          r ← k_mem_pool_alloc policy p (size (mw_msgs w rx_msg)) timeout (mw_pools w) (mw_kernel w);
          let '(o, pools, k) := r in
          let w' := mk_mbox_world (mw_msgs w) (mw_mem w) pools k in
          match o with
          | Returns alloc =>
              if bool_decide (current k = current (mw_kernel w))
              then block_get_resume rx_msg alloc w' else Some (Blocks, w')
          | Blocks => Some (Blocks, w')
          end
      end
  end.

Definition _mbox_message_data_check rx_msg (buffer : Z) w : option (outcome Z * mbox_world) :=
  r ← (if negb (buffer =? 0) then k_mbox_data_get rx_msg buffer w
       else if size (mw_msgs w rx_msg) =? 0 then _mbox_message_dispose rx_msg w
       else Some (Returns tt, w));
  match r with
  | (Returns _, w) => Some (Returns 0, w)
  | (Blocks, w) => Some (Blocks, w)
  end.

Definition k_mbox_get mbox rx_msg (buffer timeout : Z) w : option (outcome Z * mbox_world) :=
  let w := upd_msg rx_msg (set_target (Some (current (mw_kernel w)))) w in
  let k := mw_kernel w in
  match find_sender rx_msg (wait_qs k (tx_msg_queue mbox)) k (mw_msgs w) with
  | Some (sending_thread, msgs) =>
      k ← _unpend_thread sending_thread k;
      let '(_, k) := _abort_thread_timeout sending_thread k in
      _mbox_message_data_check rx_msg buffer (set_mw_kernel k (set_mw_msgs msgs w))
  | None =>
      if timeout =? K_NO_WAIT then Some (Returns (- ENOMSG), w)
      else k ← block_current_with_data (rx_msg_queue mbox) rx_msg timeout k;
           Some (Blocks, set_mw_kernel k w)
  end.

(** The end of a [k_mbox_get] that blocked in thread [t]. *)
Definition k_mbox_get_resume t rx_msg (buffer : Z) w : option (outcome Z * mbox_world) :=
  let result := swap_return_value (threads (mw_kernel w) t) in
  if result =? 0 then _mbox_message_data_check rx_msg buffer w
  else Some (Returns result, w).
End Operations.

(** ** Matching *)

Lemma find_ext {A} (p q : A -> bool) (l : list A) :
  (forall x, x ∈ l -> p x = q x) -> List.find p l = List.find q l.
Proof.
  induction l as [|x l IH]; intros Hpq; [done|]. cbn. rewrite Hpq by left.
  rewrite IH; [done|]. intros y Hy. apply Hpq. by right.
Qed.

Lemma find_elem {A} (p : A -> bool) (l : list A) x : List.find p l = Some x -> x ∈ l.
Proof. intros [E _]%List.find_some. by apply list_elem_of_In. Qed.

Lemma find_none_all {A} (p : A -> bool) (l : list A) :
  List.find p l = None -> forall x, x ∈ l -> p x = false.
Proof. intros E x Hx. eapply List.find_none; [done|]. by apply list_elem_of_In. Qed.

Section Matching.
Context `{KConfig}.
Implicit Types (tx rx : k_mbox_msg) (msgs : Z -> k_mbox_msg) (l : list tid) (k : kernel) (a b : Z).

(** What the receiver's and the sender's descriptor hold once matched. *)
Definition received tx rx : k_mbox_msg :=
  mk_mbox_msg (Z.min (size rx) (size tx)) (info tx)
    (if tx_data tx =? 0 then from_option data 0 (tx_block tx) else tx_data tx)
    (if tx_data tx =? 0 then tx_block tx else None)
    (rx_source_thread tx) (tx_target_thread rx) (_syncing_thread tx).
Definition sent tx rx : k_mbox_msg := set_info (info rx) (set_target (tx_target_thread rx) tx).

(** The two descriptors at [a] and [b] have been matched in [msgs]. *)
Record matched a b msgs msgs' : Prop := {
  mt_tx : msgs' a = sent (msgs a) (msgs b);
  mt_rx : msgs' b = received (msgs a) (msgs b);
  mt_others x : x <> a -> x <> b -> msgs' x = msgs x
}.

(** [msgs'] holds [p] at [a], [q] at [b], and agrees with [msgs] elsewhere. *)
Definition two_msgs a b (p q : k_mbox_msg) msgs msgs' : Prop :=
  msgs' a = p /\ msgs' b = q /\ forall x, x <> a -> x <> b -> msgs' x = msgs x.

Lemma two_msgs_tx a b p q msgs msgs' f :
  a <> b -> two_msgs a b p q msgs msgs' -> two_msgs a b (f p) q msgs (alter f a msgs').
Proof.
  intros Hne (<- & <- & Hx). split_and!; [apply fn_lookup_alter|by apply fn_lookup_alter_ne|].
  intros x Ha Hb. rewrite fn_lookup_alter_ne by done. by apply Hx.
Qed.

Lemma two_msgs_rx a b p q msgs msgs' f :
  a <> b -> two_msgs a b p q msgs msgs' -> two_msgs a b p (f q) msgs (alter f b msgs').
Proof.
  intros Hne (<- & <- & Hx). split_and!; [by apply fn_lookup_alter_ne|apply fn_lookup_alter|].
  intros x Ha Hb. rewrite fn_lookup_alter_ne by done. by apply Hx.
Qed.

Lemma message_match a b msgs :
  a <> b ->
  if compatible (msgs a) (msgs b)
  then exists msgs', _mbox_message_match a b msgs = (0, msgs') /\ matched a b msgs msgs'
  else _mbox_message_match a b msgs = (-1, msgs).
Proof.
  intros Hne. unfold _mbox_message_match. destruct (compatible _ _); [|done].
  assert (two_msgs a b (msgs a) (msgs b) msgs msgs) as H0 by done.
  set (tx := msgs a) in *. set (rx := msgs b) in *.
  apply (two_msgs_rx _ _ _ _ _ _ (set_source (rx_source_thread tx))) in H0 as H1; [|done].
  set (m1 := alter _ b msgs) in *.
  apply (two_msgs_tx _ _ _ _ _ _ (set_target (tx_target_thread (m1 b)))) in H1 as H2; [|done].
  set (m2 := alter _ a m1) in *.
  apply (two_msgs_rx _ _ _ _ _ _ (set_info (info (m2 a)))) in H2 as H3; [|done].
  set (m3 := alter _ b m2) in *.
  apply (two_msgs_tx _ _ _ _ _ _ (set_info (info (m2 b)))) in H3 as H4; [|done].
  set (m4 := alter _ a m3) in *.
  destruct H1 as (_ & E1 & _), H2 as (E2 & E2' & _). rewrite E1, E2, E2' in H4.
  set (m5 := if _ <? _ then _ else m4).
  assert (two_msgs a b (sent tx rx) (set_size (Z.min (size rx) (size tx))
    (set_info (info tx) (set_source (rx_source_thread tx) rx))) msgs m5) as H5.
  { unfold m5. pose proof H4 as (Ea & Eb & Hx). rewrite Ea, Eb. cbn.
    destruct (Z.ltb_spec (size tx) (size rx)).
    - rewrite Z.min_r by lia. by apply two_msgs_rx.
    - rewrite Z.min_l by lia. split_and!; [done|by rewrite Eb|done]. }
  apply (two_msgs_rx _ _ _ _ _ _ (set_data (tx_data (m5 a)))) in H5 as H6; [|done].
  set (m6 := alter _ b m5) in *.
  apply (two_msgs_rx _ _ _ _ _ _ (set_block (tx_block (m6 a)))) in H6 as H7; [|done].
  set (m7 := alter _ b m6) in *.
  destruct H5 as (E5 & _ & _), H6 as (E6 & _ & _). rewrite E5, E6 in H7.
  set (m8 := if negb _ then alter (set_block None) b m7 else _).
  assert (exists q, two_msgs a b (sent tx rx) q msgs m8 /\ set_syncing (_syncing_thread tx) q = received tx rx)
    as (q & H8 & Hq).
  { unfold m8, received. pose proof H7 as (Ea & Eb & Hx). rewrite Eb. cbn.
    destruct (Z.eqb_spec (tx_data tx) 0) as [Ed|Ed]; cbn; [|eexists; split; [by apply two_msgs_rx|done]].
    destruct (tx_block tx) as [blk|] eqn:Eb'; cbn.
    - eexists. split; [apply two_msgs_rx; [done|exact H7]|]. cbn. by rewrite Eb'.
    - eexists. split; [exact H7|]. cbn. by rewrite Eb', Ed. }
  eexists. split; [reflexivity|].
  apply (two_msgs_rx _ _ _ _ _ _ (set_syncing (_syncing_thread (m8 a)))) in H8 as H9; [|done].
  destruct H8 as (E8 & _ & _). rewrite E8 in *. cbn [_syncing_thread sent set_info set_target] in *.
  rewrite Hq in H9. destruct H9 as (F1 & F2 & F3). by split.
Qed.

(** The searches find the first compatible partner and match it. *)
Lemma find_receiver_ok a l k msgs :
  (forall t, t ∈ l -> swap_data (threads k t) <> a) ->
  match List.find (fun t => compatible (msgs a) (msgs (swap_data (threads k t)))) l with
  | Some t => exists msgs', find_receiver a l k msgs = Some (t, msgs') /\
      matched a (swap_data (threads k t)) msgs msgs'
  | None => find_receiver a l k msgs = None
  end.
Proof.
  induction l as [|t l IH]; intros Hne; [done|]. cbn.
  assert (a <> swap_data (threads k t)) as Ha by (intros E; by apply (Hne t); [left|]).
  pose proof (message_match a _ msgs Ha) as Hm. destruct (compatible _ _).
  - destruct Hm as (msgs' & -> & Hm). by exists msgs'.
  - rewrite Hm. cbn. apply IH. intros x Hx. apply Hne. by right.
Qed.

Lemma find_sender_ok b l k msgs :
  (forall t, t ∈ l -> swap_data (threads k t) <> b) ->
  match List.find (fun t => compatible (msgs (swap_data (threads k t))) (msgs b)) l with
  | Some t => exists msgs', find_sender b l k msgs = Some (t, msgs') /\
      matched (swap_data (threads k t)) b msgs msgs'
  | None => find_sender b l k msgs = None
  end.
Proof.
  induction l as [|t l IH]; intros Hne; [done|]. cbn.
  assert (swap_data (threads k t) <> b) as Ha by (apply (Hne t); left).
  pose proof (message_match _ b msgs Ha) as Hm. destruct (compatible _ _).
  - destruct Hm as (msgs' & -> & Hm). by exists msgs'.
  - rewrite Hm. cbn. apply IH. intros x Hx. apply Hne. by right.
Qed.
End Matching.
