(* ===== verification/MailboxApi.v ===== *)
(** * Mailboxes: what the services promise

    The invariant of a mailbox and the correctness of sending and receiving.
    [F] are the threads whose message has been taken but not yet consumed: they
    wait on no queue. *)
From S2P Require Import Prelude Kernel ReadyQ TimeoutQ Sched SchedInv SchedApi Transit Thread Boot.
From S2P Require Import MemPool MemPoolApi Mailbox.

Section Invariant.
Context `{KConfig}.
Implicit Types (K : toid -> Prop) (F : list tid) (k : kernel) (w : mbox_world) (mbox : k_mbox)
  (t x s r : tid) (a : Z) (m : k_mbox_msg).

Definition addr_of k t : Z := swap_data (threads k t).
Definition msg_of w t : k_mbox_msg := mw_msgs w (addr_of (mw_kernel w) t).
Definition senders mbox w : list tid := wait_qs (mw_kernel w) (tx_msg_queue mbox).
Definition receivers mbox w : list tid := wait_qs (mw_kernel w) (rx_msg_queue mbox).

(** The message is empty or in memory: a pool block would have to be freed. *)
Definition located m : Prop := tx_data m <> 0 \/ tx_block m = None.

(** A descriptor address that no thread concerned uses. *)
Definition fresh mbox F w a : Prop :=
  forall t, t ∈ senders mbox w \/ t ∈ receivers mbox w \/ t ∈ F -> addr_of (mw_kernel w) t <> a.

Record mbox_ok K F mbox w : Prop := {
  mb_away : away K F (mw_kernel w);
  mb_queues : tx_msg_queue mbox <> rx_msg_queue mbox;
  mb_sender t : t ∈ senders mbox w ->
    rx_source_thread (msg_of w t) = Some t /\ _syncing_thread (msg_of w t) = Some t /\ located (msg_of w t);
  mb_receiver t : t ∈ receivers mbox w -> tx_target_thread (msg_of w t) = Some t;
  mb_apart t x :
    t ∈ senders mbox w \/ t ∈ receivers mbox w \/ t ∈ F ->
    x ∈ senders mbox w \/ x ∈ receivers mbox w \/ x ∈ F ->
    addr_of (mw_kernel w) t = addr_of (mw_kernel w) x -> t = x;
  mb_unmatched s r : s ∈ senders mbox w -> r ∈ receivers mbox w ->
    compatible (msg_of w s) (msg_of w r) = false
}.

Lemma queued_not_current K F mbox w t :
  mbox_ok K F mbox w -> t ∈ senders mbox w \/ t ∈ receivers mbox w \/ t ∈ F -> t <> current (mw_kernel w).
Proof.
  intros Hok [Ht|[Ht|Ht]]; [by eapply waiter_not_current; [apply (mb_away _ _ _ _ Hok)|]..|].
  by eapply away_current; [apply Hok|].
Qed.

Lemma waiting_not_away K F mbox w t :
  mbox_ok K F mbox w -> t ∈ senders mbox w \/ t ∈ receivers mbox w -> t ∉ F.
Proof.
  intros Hok Ht HF. destruct (aw_running _ _ _ (mb_away _ _ _ _ Hok)) as [Hwf _ _].
  destruct Ht as [Ht|Ht]; destruct (kw_wq _ _ _ Hwf _ _ Ht) as [[_ Hn] _]; by apply (Hn t).
Qed.

Lemma sender_not_receiver K F mbox w t :
  mbox_ok K F mbox w -> t ∈ senders mbox w -> t ∉ receivers mbox w.
Proof.
  intros Hok H1 H2. destruct (aw_running _ _ _ (mb_away _ _ _ _ Hok)) as [Hwf _ _].
  by apply (mb_queues _ _ _ _ Hok), (kw_wq_disj _ _ _ Hwf _ _ t).
Qed.

(** Fewer threads wait, and their descriptors are as they were. *)
Lemma mbox_ok_fewer K F F' mbox w w' :
  mbox_ok K F mbox w -> away K F' (mw_kernel w') ->
  (forall t, t ∈ senders mbox w' -> t ∈ senders mbox w /\ msg_of w' t = msg_of w t) ->
  (forall t, t ∈ receivers mbox w' -> t ∈ receivers mbox w /\ msg_of w' t = msg_of w t) ->
  (forall t x, t ∈ senders mbox w' \/ t ∈ receivers mbox w' \/ t ∈ F' ->
    x ∈ senders mbox w' \/ x ∈ receivers mbox w' \/ x ∈ F' ->
    addr_of (mw_kernel w') t = addr_of (mw_kernel w') x -> t = x) ->
  mbox_ok K F' mbox w'.
Proof.
  intros [_ H2 H3 H4 _ H6] Haw Hs Hr Hap. split; try done.
  - intros t Ht. destruct (Hs t Ht) as [? ->]. by apply H3.
  - intros t Ht. destruct (Hr t Ht) as [? ->]. by apply H4.
  - intros s r Hs' Hr'. destruct (Hs s Hs') as [? ->], (Hr r Hr') as [? ->]. by apply H6.
Qed.
End Invariant.

Section Put.
Context `{KConfig}.
Implicit Types (K : toid -> Prop) (F : list tid) (k : kernel) (w : mbox_world) (mbox : k_mbox)
  (t x s r : tid) (a tx : Z) (m : k_mbox_msg).

(** The sender's descriptor as the search finds it. *)
Definition offer t m : k_mbox_msg := set_source (Some t) (set_syncing (Some t) m).

(** The state in which the search runs. *)
Definition offered tx w : mbox_world :=
  let t := current (mw_kernel w) in
  set_mw_kernel (upd_thread t (with_swap_data tx) (mw_kernel w))
    (upd_msg tx (set_source (Some t)) (upd_msg tx (set_syncing (Some t)) w)).

Lemma offered_msg tx w : mw_msgs (offered tx w) tx = offer (current (mw_kernel w)) (mw_msgs w tx).
Proof. cbn. by rewrite !fn_lookup_alter. Qed.

Lemma offered_other tx w a : a <> tx -> mw_msgs (offered tx w) a = mw_msgs w a.
Proof. intros Ha. cbn. by rewrite !fn_lookup_alter_ne. Qed.

Lemma offered_kept tx w t :
  t <> current (mw_kernel w) -> addr_of (mw_kernel w) t <> tx ->
  addr_of (mw_kernel (offered tx w)) t = addr_of (mw_kernel w) t /\ msg_of (offered tx w) t = msg_of w t.
Proof.
  intros Hc Ha. assert (addr_of (mw_kernel (offered tx w)) t = addr_of (mw_kernel w) t) as E
    by (unfold addr_of; cbn; by rewrite fn_lookup_alter_ne).
  split; [done|]. unfold msg_of. rewrite E. cbn. by rewrite !fn_lookup_alter_ne.
Qed.

Lemma offered_ok K F mbox tx w :
  mbox_ok K F mbox w -> fresh mbox F w tx ->
  mbox_ok K F mbox (offered tx w) /\ fresh mbox F (offered tx w) tx /\
  addr_of (mw_kernel (offered tx w)) (current (mw_kernel w)) = tx /\
  forall t, t ∈ senders mbox w \/ t ∈ receivers mbox w \/ t ∈ F ->
    addr_of (mw_kernel (offered tx w)) t = addr_of (mw_kernel w) t /\ msg_of (offered tx w) t = msg_of w t.
Proof.
  intros Hok Hf. pose proof (fun t => queued_not_current K F mbox w t Hok) as Hc.
  assert (Hk : forall t, t ∈ senders mbox w \/ t ∈ receivers mbox w \/ t ∈ F ->
    addr_of (mw_kernel (offered tx w)) t = addr_of (mw_kernel w) t /\ msg_of (offered tx w) t = msg_of w t).
  { intros t Ht. apply offered_kept; [by apply Hc|by apply Hf]. }
  split_and!; [| | |done].
  - apply (mbox_ok_fewer K F F mbox w); try done.
    + by apply away_upd_fields, Hok.
    + intros t Ht. split; [done|]. apply Hk. by left.
    + intros t Ht. split; [done|]. apply Hk. by right; left.
    + intros t x Ht Hx. destruct (Hk t Ht) as [-> _], (Hk x Hx) as [-> _]. by apply (mb_apart _ _ _ _ Hok).
  - intros t Ht. destruct (Hk t Ht) as [-> _]. by apply Hf.
  - unfold addr_of. cbn. by rewrite fn_lookup_alter.
Qed.

Lemma mbox_put_eq mbox tx ms w :
  k_mbox_put mbox tx ms w =
  let w := offered tx w in let k := mw_kernel w in
  match find_receiver tx (receivers mbox w) k (mw_msgs w) with
  | Some (t, msgs) =>
      k ← park t k; k ← _ready_thread t (_set_thread_return_value t 0 k);
      k ← block_unqueued k; Some (Blocks, set_mw_kernel k (set_mw_msgs msgs w))
  | None =>
      if ms =? K_NO_WAIT then Some (Returns (- ENOMSG), w)
      else k ← block_current (tx_msg_queue mbox) ms k; Some (Blocks, set_mw_kernel k w)
  end.
Proof.
  unfold k_mbox_put, _mbox_message_put. cbn. rewrite !fn_lookup_alter. cbn.
  unfold receivers, park. cbn. destruct (find_receiver _ _ _ _) as [[t msgs]|]; [|done].
  destruct (_unpend_thread t _) as [k1|]; [|done]. cbn.
  by destruct (_abort_thread_timeout t k1) as [v k2].
Qed.

(** A receiver that waits is given the message, and the sender is set aside. *)
Record met mbox t w w' : Prop := {
  me_receivers : receivers mbox w' = remove_node t (receivers mbox w);
  me_senders : senders mbox w' = senders mbox w;
  me_ready : wakeable (mw_kernel w) t = true -> t ∈ ready_list (mw_kernel w');
  me_value : swap_return_value (threads (mw_kernel w') t) = 0;
  me_next : head (ready_list (mw_kernel w')) = Some (current (mw_kernel w'));
  me_unready : current (mw_kernel w) ∉ ready_list (mw_kernel w');
  me_addr x : addr_of (mw_kernel w') x = addr_of (mw_kernel w) x
}.

Lemma meet_kernel K F mbox w t :
  away K F (mw_kernel w) -> tx_msg_queue mbox <> rx_msg_queue mbox ->
  t ∈ receivers mbox w -> current (mw_kernel w) <> _idle_thread ->
  exists k1 k2 k', park t (mw_kernel w) = Some k1 /\
    _ready_thread t (_set_thread_return_value t 0 k1) = Some k2 /\ block_unqueued k2 = Some k' /\
    away K (F ++ [current (mw_kernel w)]) k' /\
    forall msgs, met mbox t w (set_mw_kernel k' (set_mw_msgs msgs w)).
Proof.
  intros Haw Hq Ht Hid.
  destruct (hand_waiter_away K F (mw_kernel w) _ t 0 Haw Ht) as (k1 & k2 & E1 & E2 & Haw2 & Hh & HtF).
  assert (t <> current (mw_kernel w)) as Hc
    by (eapply waiter_not_current; [apply (aw_running _ _ _ Haw)|done]).
  destruct Hh as [A1 A2 A3 A4 A5 A6 A7 A8 [f A9]].
  destruct (block_unqueued_away K F k2 Haw2) as (k' & E3 & Haw3 & Hsa); [by rewrite A6|].
  destruct Hsa as [B1 B2 B3 [g B4] B5 B6 B7 B8]. rewrite A6 in *.
  exists k1, k2, k'. split_and!; [done..|]. intros msgs. split; cbn.
  - unfold receivers in *. cbn. by rewrite B1.
  - unfold senders in *. cbn. rewrite B1. by apply A2.
  - intros Hw. rewrite B2, elem_of_remove_node. auto.
  - rewrite B5, A9 by done. done.
  - done.
  - rewrite B2, elem_of_remove_node. naive_solver.
  - intros x. unfold addr_of. destruct (decide (x = current (mw_kernel w))) as [->|Hx].
    + rewrite B4. cbn. by rewrite A8.
    + rewrite B5 by done. destruct (decide (x = t)) as [->|Hxt]; [by rewrite A9|by rewrite A8].
Qed.

Lemma meet_ok K F mbox w w' t tx :
  mbox_ok K F mbox w -> fresh mbox F w tx -> addr_of (mw_kernel w) (current (mw_kernel w)) = tx ->
  t ∈ receivers mbox w -> met mbox t w w' -> away K (F ++ [current (mw_kernel w)]) (mw_kernel w') ->
  matched tx (addr_of (mw_kernel w) t) (mw_msgs w) (mw_msgs w') ->
  mbox_ok K (F ++ [current (mw_kernel w)]) mbox w'.
Proof.
  intros Hok Hf Htx Ht [M1 M2 _ _ _ _ M7] Haw [_ _ Hm].
  pose proof (mb_apart _ _ _ _ Hok) as Hap. set (c := current (mw_kernel w)) in *.
  assert (Hsub : forall x, x ∈ receivers mbox w' -> x ∈ receivers mbox w /\ x <> t)
    by (intros x; rewrite M1, elem_of_remove_node; naive_solver).
  assert (Hmsg : forall x, x <> t -> x ∈ senders mbox w \/ x ∈ receivers mbox w \/ x ∈ F ->
    msg_of w' x = msg_of w x).
  { intros x Hx Hin. unfold msg_of. rewrite M7. apply Hm; [by apply Hf|].
    intros E. apply Hx, Hap; [done|by right; left|done]. }
  apply (mbox_ok_fewer K F _ mbox w); try done.
  - intros x. rewrite M2. intros Hx. split; [done|]. apply Hmsg; [|by left].
    intros ->. by eapply sender_not_receiver.
  - intros x [Hx Hxt]%Hsub. split; [done|]. apply Hmsg; [done|by right; left].
  - assert (Hin : forall x, x ∈ senders mbox w' \/ x ∈ receivers mbox w' \/ x ∈ F ++ [c] ->
      x = c \/ (x ∈ senders mbox w \/ x ∈ receivers mbox w \/ x ∈ F)).
    { intros x. rewrite M2, elem_of_app, list_elem_of_singleton. intros [?|[?%Hsub|[?| ->]]]; naive_solver. }
    intros x y Hx%Hin Hy%Hin. rewrite !M7.
    destruct Hx as [->|Hx], Hy as [->|Hy]; [done|..|by apply Hap].
    + rewrite Htx. intros E. by destruct (Hf y Hy).
    + rewrite Htx. intros E. by destruct (Hf x Hx).
Qed.

(** A sender that finds no receiver joins the queue. *)
Lemma queue_sender_ok K F mbox w k' ms tx :
  mbox_ok K F mbox w -> fresh mbox F w tx -> addr_of (mw_kernel w) (current (mw_kernel w)) = tx ->
  rx_source_thread (mw_msgs w tx) = Some (current (mw_kernel w)) ->
  _syncing_thread (mw_msgs w tx) = Some (current (mw_kernel w)) -> located (mw_msgs w tx) ->
  (forall r, r ∈ receivers mbox w -> compatible (mw_msgs w tx) (msg_of w r) = false) ->
  away K F k' -> blocked (tx_msg_queue mbox) ms (mw_kernel w) k' -> addr_of k' (current (mw_kernel w)) = tx ->
  mbox_ok K F mbox (set_mw_kernel k' w).
Proof.
  intros Hok Hf Htx Hsrc Hsy Hl Hno Haw Hb Hd. set (c := current (mw_kernel w)) in *.
  set (w' := set_mw_kernel k' w).
  assert (Hs : forall x, x ∈ senders mbox w' <-> x = c \/ x ∈ senders mbox w).
  { intros x. unfold senders. cbn. by rewrite (bl_wait_q _ _ _ _ Hb), elem_of_prio_insert. }
  assert (Hr : receivers mbox w' = receivers mbox w)
    by (apply (bl_wait_qs _ _ _ _ Hb), not_eq_sym, Hok).
  assert (Ha : forall x, addr_of k' x = addr_of (mw_kernel w) x).
  { intros x. destruct (decide (x = c)) as [->|Hx]; [by rewrite Hd|]. unfold addr_of.
    by rewrite (bl_threads _ _ _ _ Hb). }
  assert (Hmsg : forall x, msg_of w' x = msg_of w x) by (intros x; unfold msg_of; cbn; by rewrite Ha).
  assert (msg_of w c = mw_msgs w tx) as Hc by (unfold msg_of; by rewrite Htx).
  destruct Hok as [_ H2 H3 H4 H5 H6]. split; try done.
  - intros x. rewrite Hmsg. intros [->|Hx]%Hs; [by rewrite Hc|by apply H3].
  - intros x. rewrite Hmsg, Hr. apply H4.
  - assert (Hin : forall x, x ∈ senders mbox w' \/ x ∈ receivers mbox w' \/ x ∈ F ->
      x = c \/ (x ∈ senders mbox w \/ x ∈ receivers mbox w \/ x ∈ F)).
    { intros x. rewrite Hr, Hs. naive_solver. }
    intros x y Hx%Hin Hy%Hin. cbn. rewrite !Ha.
    destruct Hx as [->|Hx], Hy as [->|Hy]; [done|..|by apply H5].
    + rewrite Htx. intros E. by destruct (Hf y Hy).
    + rewrite Htx. intros E. by destruct (Hf x Hx).
  - intros x y. rewrite !Hmsg, Hr. intros [->|Hx]%Hs Hy; [rewrite Hc; by apply Hno|by apply H6].
Qed.

Lemma put_ok K F mbox tx ms w :
  let k := mw_kernel w in let s := offer (current k) (mw_msgs w tx) in
  mbox_ok K F mbox w -> fresh mbox F w tx -> located (mw_msgs w tx) ->
  current k <> _idle_thread -> timeout_ok ms ->
  exists (o : outcome Z) w', k_mbox_put mbox tx ms w = Some (o, w') /\
    mw_mem w' = mw_mem w /\ mw_pools w' = mw_pools w /\
    match List.find (fun t => compatible s (msg_of w t)) (receivers mbox w) with
    | Some t =>
        o = Blocks /\ mbox_ok K (F ++ [current k]) mbox w' /\
        addr_of (mw_kernel w') (current k) = tx /\ mw_msgs w' tx = sent s (msg_of w t) /\
        msg_of w' t = received s (msg_of w t) /\
        (forall a, a <> tx -> a <> addr_of k t -> mw_msgs w' a = mw_msgs w a) /\
        receivers mbox w' = remove_node t (receivers mbox w) /\ senders mbox w' = senders mbox w /\
        (wakeable k t = true -> t ∈ ready_list (mw_kernel w')) /\
        swap_return_value (threads (mw_kernel w') t) = 0 /\
        current k ∉ ready_list (mw_kernel w') /\
        head (ready_list (mw_kernel w')) = Some (current (mw_kernel w'))
    | None =>
        mbox_ok K F mbox w' /\ mw_msgs w' tx = s /\ (forall a, a <> tx -> mw_msgs w' a = mw_msgs w a) /\
        if ms =? K_NO_WAIT
        then o = Returns (- ENOMSG) /\ senders mbox w' = senders mbox w /\ receivers mbox w' = receivers mbox w
        else o = Blocks /\ blocked (tx_msg_queue mbox) ms k (mw_kernel w') /\
             addr_of (mw_kernel w') (current k) = tx
    end.
Proof.
  cbn zeta. intros Hok Hf Hl Hid Hms. set (c := current (mw_kernel w)) in *.
  destruct (offered_ok K F mbox tx w Hok Hf) as (Hok1 & Hf1 & Htx & Hkept). fold c in Htx.
  rewrite mbox_put_eq. cbn zeta. pose proof (offered_msg tx w) as Hs. fold c in Hs.
  pose proof (fun a => offered_other tx w a) as Ho.
  set (w1 := offered tx w) in *. set (s := offer c (mw_msgs w tx)) in *.
  pose proof (find_receiver_ok tx (receivers mbox w1) (mw_kernel w1) (mw_msgs w1)) as Hfind.
  rewrite (find_ext _ (fun t => compatible s (msg_of w t))) in Hfind.
  2: { intros t Ht. rewrite Hs. f_equal. apply Hkept. by right; left. }
  specialize (Hfind (fun t Ht => Hf1 t (or_intror (or_introl Ht)))).
  change (receivers mbox w1) with (receivers mbox w) in *.
  destruct (List.find _ (receivers mbox w)) as [t|] eqn:Ef.
  - apply find_elem in Ef. destruct Hfind as (msgs & -> & Hm).
    destruct (meet_kernel K F mbox w1 t (mb_away _ _ _ _ Hok1) (mb_queues _ _ _ _ Hok1) Ef Hid)
      as (k1 & k2 & k' & -> & E2 & E3 & Haw & Hmet).
    cbn [mbind option_bind]. rewrite E2. cbn [mbind option_bind]. rewrite E3. cbn [mbind option_bind].
    specialize (Hmet msgs). set (w' := set_mw_kernel k' (set_mw_msgs msgs w1)) in *.
    pose proof (meet_ok K F mbox w1 w' t tx Hok1 Hf1 Htx Ef Hmet Haw Hm) as Hok'.
    destruct Hm as [Hmt Hmr Hmo]. destruct Hmet as [M1 M2 M3 M4 M5 M6 M7].
    destruct (Hkept t) as [Ea Em]; [by right; left|]. unfold msg_of in Em. rewrite Ea in Em.
    assert (wakeable (mw_kernel w) t = true -> wakeable (mw_kernel w1) t = true) as Hwk.
    { unfold wakeable, fbit. cbn. unfold alter, fn_alter.
      destruct (decide _) as [<-|]; done. }
    fold (addr_of (mw_kernel w1) t) in Hmt, Hmr. rewrite Ea, Hs, Em in Hmt, Hmr.
    exists Blocks, w'. split_and!; try done; [by rewrite M7|..].
    + unfold msg_of at 1. rewrite M7, Ea. exact Hmr.
    + intros a Ha1 Ha2. rewrite <- (Ho a Ha1). apply Hmo; [done|]. fold (addr_of (mw_kernel w1) t). by rewrite Ea.
    + intros Hw. by apply M3, Hwk.
  - rewrite Hfind. pose proof (find_none_all _ _ Ef) as Hno.
    destruct (Z.eqb_spec ms K_NO_WAIT) as [_|Hnw].
    { exists (Returns (- ENOMSG)), w1. split_and!; first [exact Hok1|exact Hs|exact Ho|reflexivity]. }
    destruct (block_current_away K F (mw_kernel w1) (tx_msg_queue mbox) ms) as (k' & E & Haw & Hb & Hd);
      [apply Hok1|done|done|]. rewrite E. cbn [mbind option_bind].
    exists Blocks, (set_mw_kernel k' w1). split_and!; try done.
    + apply (queue_sender_ok K F mbox w1 k' ms tx Hok1 Hf1 Htx); try done.
      * by rewrite Hs.
      * by rewrite Hs.
      * by rewrite Hs.
      * intros r Hr. destruct (Hkept r) as [_ ->]; [by right; left|]. rewrite Hs. by apply Hno.
      * rewrite <- Htx. exact Hd.
    + eapply blocked_upd_before; [|exact Hb]. done.
    + rewrite <- Htx. exact Hd.
Qed.

(** C22: sending to a mailbox. The message goes to the first receiver waiting, in
    order of urgency, that accepts this sender and that the sender accepts: that
    receiver leaves the queue with return value 0 and is made ready, its
    descriptor holds the sender, the information and the data of the message
    with the smaller of the two sizes, the sender's holds the receiver and the
    receiver's information, and the sender waits on no queue until the message
    is consumed. With no such receiver the call fails with -ENOMSG or waits among
    the senders. The invariant, that no sender and receiver that accept each
    other both wait, is kept on every branch. *)
Theorem mbox_put_correct K F mbox tx ms w :
  let k := mw_kernel w in let s := offer (current k) (mw_msgs w tx) in
  mbox_ok K F mbox w -> fresh mbox F w tx -> located (mw_msgs w tx) ->
  current k <> _idle_thread -> timeout_ok ms ->
  exists (o : outcome Z) w', k_mbox_put mbox tx ms w = Some (o, w') /\
    mw_mem w' = mw_mem w /\ mw_pools w' = mw_pools w /\
    match List.find (fun t => compatible s (msg_of w t)) (receivers mbox w) with
    | Some t =>
        o = Blocks /\ mbox_ok K (F ++ [current k]) mbox w' /\
        addr_of (mw_kernel w') (current k) = tx /\ mw_msgs w' tx = sent s (msg_of w t) /\
        msg_of w' t = received s (msg_of w t) /\
        (forall a, a <> tx -> a <> addr_of k t -> mw_msgs w' a = mw_msgs w a) /\
        receivers mbox w' = remove_node t (receivers mbox w) /\ senders mbox w' = senders mbox w /\
        (wakeable k t = true -> t ∈ ready_list (mw_kernel w')) /\
        swap_return_value (threads (mw_kernel w') t) = 0 /\
        current k ∉ ready_list (mw_kernel w') /\
        head (ready_list (mw_kernel w')) = Some (current (mw_kernel w'))
    | None =>
        mbox_ok K F mbox w' /\ mw_msgs w' tx = s /\ (forall a, a <> tx -> mw_msgs w' a = mw_msgs w a) /\
        if ms =? K_NO_WAIT
        then o = Returns (- ENOMSG) /\ senders mbox w' = senders mbox w /\ receivers mbox w' = receivers mbox w
        else o = Blocks /\ blocked (tx_msg_queue mbox) ms k (mw_kernel w') /\
             addr_of (mw_kernel w') (current k) = tx
    end.
Proof. apply put_ok. Qed.
End Put.

Section Consume.
Context `{KConfig} (policy : mem_pool_policy).
Implicit Types (K : toid -> Prop) (F : list tid) (k : kernel) (w : mbox_world) (mbox : k_mbox)
  (t x s r : tid) (a rx : Z) (m : k_mbox_msg).

(** The sender [t] of the message at [rx] has been told and made ready. *)
Record disposed t rx w w' : Prop := {
  ds_mem : mw_mem w' = mw_mem w;
  ds_pools : mw_pools w' = mw_pools w;
  ds_rx : mw_msgs w' rx = set_syncing None (mw_msgs w rx);
  ds_tx : msg_of w' t = set_size (size (mw_msgs w rx)) (msg_of w t);
  ds_msgs a : a <> rx -> a <> addr_of (mw_kernel w) t -> mw_msgs w' a = mw_msgs w a;
  ds_wait_qs : wait_qs (mw_kernel w') = wait_qs (mw_kernel w);
  ds_ready : wakeable (mw_kernel w) t = true -> t ∈ ready_list (mw_kernel w');
  ds_value : swap_return_value (threads (mw_kernel w') t) = 0;
  ds_addr x : x <> current (mw_kernel w) -> addr_of (mw_kernel w') x = addr_of (mw_kernel w) x;
  ds_preempt : no_more_urgent (mw_kernel w')
}.

Lemma dispose_ok K F t rx w :
  away K (t :: F) (mw_kernel w) -> in_isr (mw_kernel w) = false ->
  _syncing_thread (mw_msgs w rx) = Some t -> tx_block (mw_msgs w rx) = None ->
  addr_of (mw_kernel w) t <> rx ->
  exists w', _mbox_message_dispose policy rx w = Some (Returns tt, w') /\
    away K F (mw_kernel w') /\ disposed t rx w w'.
Proof.
  intros Haw Hi Hsy Hb Ha. unfold _mbox_message_dispose. rewrite Hsy, Hb.
  unfold dispose_sender. rewrite Hsy. cbn [mbind option_bind]. cbn zeta.
  destruct (bring_back_away K F (mw_kernel w) t 0 Haw) as (k1 & E1 & Haw1 & Hbb).
  unfold bring_back in E1. cbn [mw_kernel upd_msg set_mw_msgs]. rewrite E1. cbn [mbind option_bind].
  destruct Hbb as [B1 B2 B3 [f B4] B5 B6 B7 B8].
  destruct (reschedule_away K F k1 Haw1) as (k2 & E2 & Haw2 & Hsq & Hnu & Hth); [by rewrite B8|].
  rewrite E2. cbn [mbind option_bind]. eexists. split; [done|].
  cbn [mw_kernel set_mw_kernel mw_msgs upd_msg set_mw_msgs]. split; [done|].
  assert (t <> current k1) as Htc by (rewrite B7; by eapply away_current; [|left]).
  assert (Hax : forall x, x <> current (mw_kernel w) -> addr_of k2 x = addr_of (mw_kernel w) x).
  { intros x Hx. unfold addr_of. rewrite Hth by (by rewrite B7).
    destruct (decide (x = t)) as [->|Hxt]; [by rewrite B4|by rewrite B5]. }
  split; cbn [mw_mem mw_pools mw_kernel set_mw_kernel mw_msgs upd_msg set_mw_msgs]; try done.
  - fold (addr_of (mw_kernel w) t). rewrite fn_lookup_alter_ne by done. by rewrite fn_lookup_alter.
  - unfold msg_of. cbn [mw_msgs mw_kernel set_mw_kernel upd_msg set_mw_msgs].
    rewrite Hax by (by rewrite B7 in Htc). fold (addr_of (mw_kernel w) t).
    by rewrite !fn_lookup_alter, fn_lookup_alter_ne by done.
  - intros a Ha1 Ha2. by rewrite !fn_lookup_alter_ne by done.
  - rewrite (sq_wait_qs _ _ Hsq). done.
  - intros Hw. rewrite (same_queues_ready _ _ Hsq). by apply B2.
  - rewrite Hth by done. by rewrite B4.
Qed.

(** The message at [rx], from the sender [t] that is away, goes to [buffer]. *)
Definition copied (buffer : Z) m (mem : Z -> Z) : Z -> Z :=
  if negb (buffer =? 0) && (negb (tx_data m =? 0) && (0 <? size m))
  then memcpy buffer (tx_data m) (size m) mem else mem.

Lemma data_get_ok K F t rx buffer w :
  away K (t :: F) (mw_kernel w) -> in_isr (mw_kernel w) = false ->
  _syncing_thread (mw_msgs w rx) = Some t -> tx_block (mw_msgs w rx) = None ->
  addr_of (mw_kernel w) t <> rx -> buffer <> 0 ->
  exists w', k_mbox_data_get policy rx buffer w = Some (Returns tt, w') /\ away K F (mw_kernel w') /\
    disposed t rx (set_mw_mem (copied buffer (mw_msgs w rx) (mw_mem w)) w) w'.
Proof.
  intros Haw Hi Hsy Hb Ha Hbuf. unfold k_mbox_data_get, copied.
  rewrite (proj2 (Z.eqb_neq _ _) Hbuf). cbn [negb andb].
  destruct (negb _ && _); [by apply dispose_ok|]. destruct w. by apply dispose_ok.
Qed.

Lemma perm_remove t F : NoDup F -> t ∈ F -> F ≡ₚ t :: remove_node t F.
Proof.
  intros Hnd (l1 & l2 & ->)%list_elem_of_split. pose proof Hnd as (_ & Hd & [Hn2 _]%NoDup_cons)%NoDup_app.
  assert (t ∉ l1) by (intros ?; apply (Hd t); [done|left]).
  rewrite remove_node_mid by done. symmetry. apply Permutation_middle.
Qed.

(** Consuming a message keeps the invariant: the sender is away no more. *)
Lemma disposed_ok K F mbox t rx w w' :
  mbox_ok K F mbox w -> fresh mbox F w rx -> t ∈ F -> disposed t rx w w' ->
  away K (remove_node t F) (mw_kernel w') -> mbox_ok K (remove_node t F) mbox w'.
Proof.
  intros Hok Hf Ht [_ _ _ _ D5 D6 _ _ D9 _] Haw.
  pose proof (fun x => queued_not_current K F mbox w x Hok) as Hc.
  assert (Hs : senders mbox w' = senders mbox w) by (unfold senders; by rewrite D6).
  assert (Hr : receivers mbox w' = receivers mbox w) by (unfold receivers; by rewrite D6).
  assert (Hm : forall x, x ∈ senders mbox w \/ x ∈ receivers mbox w -> msg_of w' x = msg_of w x).
  { intros x Hx. assert (x ∈ senders mbox w \/ x ∈ receivers mbox w \/ x ∈ F) as Hin by tauto.
    unfold msg_of. rewrite D9 by (by apply Hc). apply D5; [by apply Hf|].
    intros E. apply (waiting_not_away K F mbox w x Hok Hx).
    by rewrite (mb_apart _ _ _ _ Hok x t Hin (or_intror (or_intror Ht)) E). }
  apply (mbox_ok_fewer K F _ mbox w); try done.
  - intros x. rewrite Hs. intros Hx. split; [done|]. apply Hm. by left.
  - intros x. rewrite Hr. intros Hx. split; [done|]. apply Hm. by right.
  - assert (Hin : forall x, x ∈ senders mbox w' \/ x ∈ receivers mbox w' \/ x ∈ remove_node t F ->
      x ∈ senders mbox w \/ x ∈ receivers mbox w \/ x ∈ F)
      by (intros x; rewrite Hs, Hr, elem_of_remove_node; tauto).
    intros x y Hx%Hin Hy%Hin. rewrite !D9 by (by apply Hc). by apply (mb_apart _ _ _ _ Hok).
Qed.

(** What is done with a message that has been matched. *)
Lemma data_check_ok K F mbox t rx buffer w :
  mbox_ok K F mbox w -> fresh mbox F w rx -> t ∈ F -> in_isr (mw_kernel w) = false ->
  _syncing_thread (mw_msgs w rx) = Some t -> tx_block (mw_msgs w rx) = None ->
  exists w', _mbox_message_data_check policy rx buffer w = Some (Returns 0, w') /\
    if negb (buffer =? 0) || (size (mw_msgs w rx) =? 0)
    then mbox_ok K (remove_node t F) mbox w' /\
         disposed t rx (set_mw_mem (copied buffer (mw_msgs w rx) (mw_mem w)) w) w'
    else w' = w.
Proof.
  intros Hok Hf Ht Hi Hsy Hb. pose proof (mb_away _ _ _ _ Hok) as Haw.
  apply (away_perm _ _ _ _ (perm_remove t F (aw_nodup _ _ _ Haw) Ht)) in Haw as Haw'.
  assert (addr_of (mw_kernel w) t <> rx) as Ha by (apply Hf; by right; right).
  unfold _mbox_message_data_check. destruct (Z.eqb_spec buffer 0) as [->|Hbuf]; cbn [negb orb].
  - destruct (Z.eqb_spec (size (mw_msgs w rx)) 0) as [Hz|Hz]; [|by exists w].
    destruct (dispose_ok K _ t rx w Haw' Hi Hsy Hb Ha) as (w' & E & Haw2 & Hd).
    rewrite E. cbn [mbind option_bind]. exists w'. split_and!; [done|by eapply disposed_ok|].
    destruct w. done.
  - destruct (data_get_ok K _ t rx buffer w Haw' Hi Hsy Hb Ha Hbuf) as (w' & E & Haw2 & Hd).
    rewrite E. cbn [mbind option_bind]. exists w'. split_and!; [done| |done].
    eapply (disposed_ok K F mbox t rx (set_mw_mem _ w)); try done.
    destruct Hok as [A1 A2 A3 A4 A5 A6]. by split.
Qed.
End Consume.

Section Get.
Context `{KConfig} (policy : mem_pool_policy).
Implicit Types (K : toid -> Prop) (F : list tid) (k : kernel) (w : mbox_world) (mbox : k_mbox)
  (t x s r : tid) (a rx : Z) (m : k_mbox_msg).

(** The state in which the search runs. *)
Definition requested rx w : mbox_world := upd_msg rx (set_target (Some (current (mw_kernel w)))) w.

Lemma requested_ok K F mbox rx w :
  mbox_ok K F mbox w -> fresh mbox F w rx ->
  mbox_ok K F mbox (requested rx w) /\ fresh mbox F (requested rx w) rx /\
  forall t, t ∈ senders mbox w \/ t ∈ receivers mbox w \/ t ∈ F -> msg_of (requested rx w) t = msg_of w t.
Proof.
  intros Hok Hf.
  assert (Hk : forall t, t ∈ senders mbox w \/ t ∈ receivers mbox w \/ t ∈ F ->
    msg_of (requested rx w) t = msg_of w t).
  { intros t Ht. unfold msg_of. cbn. apply fn_lookup_alter_ne. intros E. by apply (Hf t Ht). }
  split_and!; [|done|done]. apply (mbox_ok_fewer K F F mbox w); try done.
  - apply Hok.
  - intros t Ht. split; [done|]. apply Hk. by left.
  - intros t Ht. split; [done|]. apply Hk. by right; left.
  - apply (mb_apart _ _ _ _ Hok).
Qed.

(** A sender is taken off the queue: it is away until its message is consumed. *)
Lemma take_sender_ok K F mbox rx w k' t msgs :
  mbox_ok K F mbox w -> fresh mbox F w rx -> t ∈ senders mbox w ->
  away K (F ++ [t]) k' ->
  parked (tx_msg_queue mbox) t (remove_node t (senders mbox w)) (mw_kernel w) k' ->
  matched (addr_of (mw_kernel w) t) rx (mw_msgs w) msgs ->
  let w' := set_mw_kernel k' (set_mw_msgs msgs w) in
  mbox_ok K (F ++ [t]) mbox w' /\ fresh mbox (F ++ [t]) w' rx /\
  (forall x, addr_of k' x = addr_of (mw_kernel w) x) /\
  senders mbox w' = remove_node t (senders mbox w) /\ receivers mbox w' = receivers mbox w.
Proof.
  intros Hok Hf Ht Haw [P1 P2 _ _ _ _ P7 [f P8] _] [_ _ Hm]. cbn zeta.
  set (w' := set_mw_kernel k' (set_mw_msgs msgs w)).
  pose proof (mb_apart _ _ _ _ Hok) as Hap.
  assert (Ha : forall x, addr_of k' x = addr_of (mw_kernel w) x).
  { intros x. unfold addr_of. destruct (decide (x = t)) as [->|Hx]; [by rewrite P8|by rewrite P7]. }
  assert (Hs : senders mbox w' = remove_node t (senders mbox w)) by done.
  assert (Hr : receivers mbox w' = receivers mbox w) by (apply P2, not_eq_sym, Hok).
  assert (Hmsg : forall x, x <> t -> x ∈ senders mbox w \/ x ∈ receivers mbox w \/ x ∈ F ->
    msg_of w' x = msg_of w x).
  { intros x Hx Hin. unfold msg_of. cbn. rewrite Ha. apply Hm; [|by apply Hf].
    intros E. apply Hx, Hap; [done|by left|done]. }
  assert (Hin : forall x, x ∈ senders mbox w' \/ x ∈ receivers mbox w' \/ x ∈ F ++ [t] ->
    x ∈ senders mbox w \/ x ∈ receivers mbox w \/ x ∈ F).
  { intros x. rewrite Hs, Hr, elem_of_remove_node, elem_of_app, list_elem_of_singleton. naive_solver. }
  split_and!; try done.
  - apply (mbox_ok_fewer K F _ mbox w); try done.
    + intros x. rewrite Hs, elem_of_remove_node. intros [Hx Hin']. split; [done|]. apply Hmsg; [done|by left].
    + intros x. rewrite Hr. intros Hx. split; [done|]. apply Hmsg; [|by right; left].
      intros ->. by eapply sender_not_receiver.
    + intros x y Hx%Hin Hy%Hin. cbn. rewrite !Ha. by apply Hap.
  - intros x Hx%Hin. cbn. rewrite Ha. by apply Hf.
Qed.

(** A receiver that finds no sender joins the queue. *)
Lemma queue_receiver_ok K F mbox w k' ms rx :
  mbox_ok K F mbox w -> fresh mbox F w rx ->
  tx_target_thread (mw_msgs w rx) = Some (current (mw_kernel w)) ->
  (forall s, s ∈ senders mbox w -> compatible (msg_of w s) (mw_msgs w rx) = false) ->
  away K F k' -> blocked (rx_msg_queue mbox) ms (mw_kernel w) k' -> addr_of k' (current (mw_kernel w)) = rx ->
  mbox_ok K F mbox (set_mw_kernel k' w).
Proof.
  intros Hok Hf Htg Hno Haw Hb Hd. set (c := current (mw_kernel w)) in *.
  set (w' := set_mw_kernel k' w).
  pose proof (fun x => queued_not_current K F mbox w x Hok) as Hc.
  assert (Hr : forall x, x ∈ receivers mbox w' <-> x = c \/ x ∈ receivers mbox w).
  { intros x. unfold receivers. cbn. by rewrite (bl_wait_q _ _ _ _ Hb), elem_of_prio_insert. }
  assert (Hs : senders mbox w' = senders mbox w) by (apply (bl_wait_qs _ _ _ _ Hb), Hok).
  assert (Ha : forall x, x <> c -> addr_of k' x = addr_of (mw_kernel w) x).
  { intros x Hx. unfold addr_of. by rewrite (bl_threads _ _ _ _ Hb). }
  assert (Hmsg : forall x, x <> c -> msg_of w' x = msg_of w x)
    by (intros x Hx; unfold msg_of; cbn; by rewrite Ha).
  assert (msg_of w' c = mw_msgs w rx) as Hmc by (unfold msg_of; cbn; by rewrite Hd).
  destruct Hok as [_ H2 H3 H4 H5 H6]. split; try done.
  - intros x. rewrite Hs. intros Hx. rewrite Hmsg by (apply Hc; by left). by apply H3.
  - intros x [->|Hx]%Hr; [by rewrite Hmc|]. rewrite Hmsg by (apply Hc; by right; left). by apply H4.
  - assert (Hin : forall x, x ∈ senders mbox w' \/ x ∈ receivers mbox w' \/ x ∈ F ->
      x = c \/ (x ∈ senders mbox w \/ x ∈ receivers mbox w \/ x ∈ F)).
    { intros x. rewrite Hs, Hr. naive_solver. }
    intros x y Hx%Hin Hy%Hin. cbn.
    destruct Hx as [->|Hx], Hy as [->|Hy]; [done|..|by rewrite !Ha by (by apply Hc); apply H5].
    + rewrite Hd, Ha by (by apply Hc). intros E. by destruct (Hf y Hy).
    + rewrite Hd, Ha by (by apply Hc). intros E. by destruct (Hf x Hx).
  - intros x y. rewrite Hs. intros Hx [->|Hy]%Hr; rewrite Hmsg by (apply Hc; by left).
    + rewrite Hmc. by apply Hno.
    + rewrite Hmsg by (apply Hc; by right; left). by apply H6.
Qed.

Lemma mbox_get_eq mbox rx buffer ms w :
  k_mbox_get policy mbox rx buffer ms w =
  let w := requested rx w in let k := mw_kernel w in
  match find_sender rx (senders mbox w) k (mw_msgs w) with
  | Some (t, msgs) =>
      k ← park t k; _mbox_message_data_check policy rx buffer (set_mw_kernel k (set_mw_msgs msgs w))
  | None =>
      if ms =? K_NO_WAIT then Some (Returns (- ENOMSG), w)
      else k ← block_current_with_data (rx_msg_queue mbox) rx ms k; Some (Blocks, set_mw_kernel k w)
  end.
Proof.
  unfold k_mbox_get, senders, park. cbn. destruct (find_sender _ _ _ _) as [[t msgs]|]; [|done].
  destruct (_unpend_thread t _) as [k1|]; [|done]. cbn.
  by destruct (_abort_thread_timeout t k1) as [v k2].
Qed.

(** The search has found the sender [t]. *)
Lemma get_from_sender K F mbox rx buffer w t msgs :
  mbox_ok K F mbox w -> fresh mbox F w rx -> in_isr (mw_kernel w) = false -> t ∈ senders mbox w ->
  matched (addr_of (mw_kernel w) t) rx (mw_msgs w) msgs ->
  let m := received (msg_of w t) (mw_msgs w rx) in let tx := sent (msg_of w t) (mw_msgs w rx) in
  exists k1 w', park t (mw_kernel w) = Some k1 /\
    _mbox_message_data_check policy rx buffer (set_mw_kernel k1 (set_mw_msgs msgs w)) = Some (Returns 0, w') /\
    mw_pools w' = mw_pools w /\ senders mbox w' = remove_node t (senders mbox w) /\
    receivers mbox w' = receivers mbox w /\
    (forall a, a <> rx -> a <> addr_of (mw_kernel w) t -> mw_msgs w' a = mw_msgs w a) /\
    if negb (buffer =? 0) || (size m =? 0)
    then mbox_ok K F mbox w' /\ mw_mem w' = copied buffer m (mw_mem w) /\
         mw_msgs w' rx = set_syncing None m /\ msg_of w' t = set_size (size m) tx /\
         (wakeable (mw_kernel w) t = true -> t ∈ ready_list (mw_kernel w')) /\
         swap_return_value (threads (mw_kernel w') t) = 0 /\ no_more_urgent (mw_kernel w')
    else mbox_ok K (F ++ [t]) mbox w' /\ mw_mem w' = mw_mem w /\ mw_msgs w' rx = m /\
         msg_of w' t = tx /\ current (mw_kernel w') = current (mw_kernel w).
Proof.
  cbn zeta. intros Hok Hf Hi Ht Hm.
  destruct (park_waiter K F (mw_kernel w) _ t (mb_away _ _ _ _ Hok) Ht) as (k1 & E1 & Haw & HtF & Hpk & _).
  destruct (take_sender_ok K F mbox rx w k1 t msgs Hok Hf Ht Haw Hpk Hm) as (Hok2 & Hf2 & Ha & Hs & Hr).
  set (w2 := set_mw_kernel k1 (set_mw_msgs msgs w)) in *.
  destruct (mb_sender _ _ _ _ Hok t Ht) as (Hsrc & Hsy & Hl).
  destruct Hm as [Hmt Hmr Hmo]. fold (msg_of w t) in Hmt, Hmr.
  set (m := received (msg_of w t) (mw_msgs w rx)) in *.
  assert (tx_block m = None) as Hb.
  { unfold m, received. cbn. destruct (Z.eqb_spec (tx_data (msg_of w t)) 0); [|done]. by destruct Hl. }
  destruct (data_check_ok policy K (F ++ [t]) mbox t rx buffer w2 Hok2 Hf2) as (w' & E & Hc).
  { apply elem_of_app. right. by apply list_elem_of_singleton. }
  { cbn. by rewrite (pk_isr _ _ _ _ _ Hpk). }
  { cbn. rewrite Hmr. exact Hsy. }
  { cbn. by rewrite Hmr. }
  exists k1, w'. split; [exact E1|]. split; [exact E|].
  change (mw_msgs w2 rx) with (msgs rx) in Hc. rewrite Hmr in Hc.
  assert (msg_of w2 t = sent (msg_of w t) (mw_msgs w rx)) as Emt
    by (unfold msg_of at 1; cbn; rewrite Ha; exact Hmt).
  destruct (negb (buffer =? 0) || (size m =? 0)).
  - destruct Hc as [Hok' [D1 D2 D3 D4 D5 D6 D7 D8 D9 D10]].
    rewrite remove_node_app, remove_node_not_in, remove_node_cons_eq, app_nil_r in Hok' by (done || by intros ?%elem_of_nil).
    cbn in D3. rewrite Hmr in D3. cbn in D6.
    assert (Hwq : forall wq, wait_qs (mw_kernel w') wq = wait_qs k1 wq) by (intros; by rewrite D6).
    split_and!; try done.
    + unfold senders at 1. rewrite Hwq. exact Hs.
    + unfold receivers at 1. rewrite Hwq. exact Hr.
    + intros a Ha1 Ha2. rewrite D5; [by apply Hmo|done|]. cbn. by rewrite Ha.
    + rewrite D4. cbn. rewrite Hmr. f_equal. exact Emt.
    + intros Hw. apply D7. cbn. by rewrite (pk_wakeable _ _ _ _ _ Hpk).
  - subst w'. split_and!; try done; [intros a Ha1 Ha2; by apply Hmo|].
    cbn. by rewrite (pk_current _ _ _ _ _ Hpk).
Qed.

(** C23: receiving from a mailbox. The message comes from the first sender waiting,
    in order of urgency, that accepts this receiver and that the receiver
    accepts. That sender leaves the queue, and the receiver's descriptor holds
    the sender, the information and the smaller of the two sizes. With a buffer,
    or for an empty message, the data is copied to the buffer, at most as many
    bytes as the receiver asked for, the sender is told the size and made ready
    with return value 0; without a buffer the sender stays away until the data
    is retrieved. With no such sender the call fails with -ENOMSG or waits among
    the receivers. The invariant is kept on every branch. *)
Theorem mbox_get_correct K F mbox rx buffer ms w :
  let k := mw_kernel w in let q := set_target (Some (current k)) (mw_msgs w rx) in
  mbox_ok K F mbox w -> fresh mbox F w rx -> in_isr k = false ->
  ms = K_NO_WAIT \/ current k <> _idle_thread -> timeout_ok ms ->
  exists o w', k_mbox_get policy mbox rx buffer ms w = Some (o, w') /\ mw_pools w' = mw_pools w /\
    match List.find (fun t => compatible (msg_of w t) q) (senders mbox w) with
    | Some t =>
        let m := received (msg_of w t) q in
        o = Returns 0 /\ senders mbox w' = remove_node t (senders mbox w) /\
        receivers mbox w' = receivers mbox w /\
        (forall a, a <> rx -> a <> addr_of k t -> mw_msgs w' a = mw_msgs w a) /\
        if negb (buffer =? 0) || (size m =? 0)
        then mbox_ok K F mbox w' /\ mw_mem w' = copied buffer m (mw_mem w) /\
             mw_msgs w' rx = set_syncing None m /\
             msg_of w' t = set_size (size m) (sent (msg_of w t) q) /\
             (wakeable k t = true -> t ∈ ready_list (mw_kernel w')) /\
             swap_return_value (threads (mw_kernel w') t) = 0 /\ no_more_urgent (mw_kernel w')
        else mbox_ok K (F ++ [t]) mbox w' /\ mw_mem w' = mw_mem w /\ mw_msgs w' rx = m /\
             msg_of w' t = sent (msg_of w t) q /\ current (mw_kernel w') = current k
    | None =>
        mbox_ok K F mbox w' /\ mw_mem w' = mw_mem w /\ mw_msgs w' rx = q /\
        (forall a, a <> rx -> mw_msgs w' a = mw_msgs w a) /\
        if ms =? K_NO_WAIT
        then o = Returns (- ENOMSG) /\ mw_kernel w' = k
        else o = Blocks /\ blocked (rx_msg_queue mbox) ms k (mw_kernel w') /\
             addr_of (mw_kernel w') (current k) = rx
    end.
Proof.
  cbn zeta. intros Hok Hf Hi Hid Hms. set (c := current (mw_kernel w)) in *.
  destruct (requested_ok K F mbox rx w Hok Hf) as (Hok1 & Hf1 & Hkept). rewrite mbox_get_eq. cbn zeta.
  assert (mw_msgs (requested rx w) rx = set_target (Some c) (mw_msgs w rx)) as Hq
    by (cbn; by rewrite fn_lookup_alter).
  assert (Ho : forall a, a <> rx -> mw_msgs (requested rx w) a = mw_msgs w a)
    by (intros a Ha; cbn; by rewrite fn_lookup_alter_ne).
  set (w1 := requested rx w) in *. set (q := set_target (Some c) (mw_msgs w rx)) in *.
  pose proof (find_sender_ok rx (senders mbox w1) (mw_kernel w1) (mw_msgs w1)) as Hfind.
  rewrite (find_ext _ (fun t => compatible (msg_of w t) q)) in Hfind.
  2: { intros t Ht. rewrite Hq. f_equal. apply Hkept. by left. }
  specialize (Hfind (fun t Ht => Hf1 t (or_introl Ht))).
  change (senders mbox w1) with (senders mbox w) in *.
  destruct (List.find _ (senders mbox w)) as [t|] eqn:Ef.
  - apply find_elem in Ef. destruct Hfind as (msgs & -> & Hm).
    destruct (get_from_sender K F mbox rx buffer w1 t msgs Hok1 Hf1 Hi Ef Hm)
      as (k1 & w' & -> & E & Hp & Hs & Hr & Hc). cbn [mbind option_bind].
    rewrite Hkept, Hq in Hc by (by left). destruct Hc as [Ho' Hc]. exists (Returns 0), w'.
    split_and!; try done. intros a Ha1 Ha2. rewrite <- (Ho a Ha1). by apply Ho'.
  - rewrite Hfind. pose proof (find_none_all _ _ Ef) as Hno.
    destruct (Z.eqb_spec ms K_NO_WAIT) as [_|Hnw].
    { exists (Returns (- ENOMSG)), w1. split_and!; first [exact Hok1|exact Hq|exact Ho|reflexivity]. }
    destruct (block_with_data_away K F (mw_kernel w1) (rx_msg_queue mbox) ms rx) as (k' & E & Haw & Hb & Hd);
      [apply Hok1|by destruct Hid|done|]. rewrite E. cbn [mbind option_bind].
    exists Blocks, (set_mw_kernel k' w1). split_and!; try done.
    apply (queue_receiver_ok K F mbox w1 k' ms rx Hok1 Hf1); try done.
    + by rewrite Hq.
    + intros s Hs. rewrite Hkept by (by left). rewrite Hq. by apply Hno.
Qed.

(** Retrieving the data of a message received without a buffer, whose sender [t]
    is away: the data is copied, or dropped with a null buffer, and the sender is
    told how much was taken and made ready with return value 0. *)
Theorem mbox_data_get_correct K F mbox t rx buffer w :
  let m := mw_msgs w rx in let n := if buffer =? 0 then 0 else size m in
  mbox_ok K F mbox w -> fresh mbox F w rx -> t ∈ F -> in_isr (mw_kernel w) = false ->
  _syncing_thread m = Some t -> tx_block m = None ->
  exists w', k_mbox_data_get policy rx buffer w = Some (Returns tt, w') /\
    mbox_ok K (remove_node t F) mbox w' /\ mw_mem w' = copied buffer m (mw_mem w) /\
    mw_msgs w' rx = set_syncing None (set_size n m) /\ msg_of w' t = set_size n (msg_of w t) /\
    senders mbox w' = senders mbox w /\ receivers mbox w' = receivers mbox w /\
    (wakeable (mw_kernel w) t = true -> t ∈ ready_list (mw_kernel w')) /\
    swap_return_value (threads (mw_kernel w') t) = 0 /\ no_more_urgent (mw_kernel w').
Proof.
  cbn zeta. intros Hok Hf Ht Hi Hsy Hb. pose proof (mb_away _ _ _ _ Hok) as Haw.
  apply (away_perm _ _ _ _ (perm_remove t F (aw_nodup _ _ _ Haw) Ht)) in Haw as Haw'.
  assert (addr_of (mw_kernel w) t <> rx) as Ha by (apply Hf; by right; right).
  destruct (Z.eqb_spec buffer 0) as [->|Hbuf].
  - unfold k_mbox_data_get. cbn [Z.eqb]. set (w1 := upd_msg rx (set_size 0) w).
    assert (mw_msgs w1 rx = set_size 0 (mw_msgs w rx)) as E1 by (cbn; by rewrite fn_lookup_alter).
    destruct (dispose_ok policy K _ t rx w1 Haw' Hi) as (w' & E & Haw2 & Hd); [by rewrite E1..|done|].
    assert (Hm : forall a, a <> rx -> mw_msgs w1 a = mw_msgs w a) by (intros; by apply fn_lookup_alter_ne).
    assert (mbox_ok K F mbox w1) as Hok1.
    { apply (mbox_ok_fewer K F F mbox w); try done; [..|apply (mb_apart _ _ _ _ Hok)];
        intros x Hx; (split; [done|]); apply Hm, Hf; tauto. }
    pose proof (disposed_ok K F mbox t rx w1 w' Hok1 Hf Ht Hd Haw2) as Hok'.
    destruct Hd as [D1 D2 D3 D4 D5 D6 D7 D8 D9 D10]. exists w'. rewrite E1 in *.
    split_and!; try done.
    + rewrite D4. cbn [set_size size]. f_equal. by apply Hm.
    + unfold senders. by rewrite D6.
    + unfold receivers. by rewrite D6.
  - destruct (data_get_ok policy K _ t rx buffer w Haw' Hi Hsy Hb Ha Hbuf) as (w' & E & Haw2 & Hd).
    set (w1 := set_mw_mem _ w) in *.
    assert (mbox_ok K F mbox w1) as Hok1 by (destruct Hok as [A1 A2 A3 A4 A5 A6]; by split).
    pose proof (disposed_ok K F mbox t rx w1 w' Hok1 Hf Ht Hd Haw2) as Hok'.
    destruct Hd as [D1 D2 D3 D4 D5 D6 D7 D8 D9 D10]. exists w'. cbn in D6.
    assert (set_size (size (mw_msgs w rx)) (mw_msgs w rx) = mw_msgs w rx) as Es
      by (by destruct (mw_msgs w rx)).
    rewrite Es. split_and!; try done.
    + unfold senders. by rewrite D6.
    + unfold receivers. by rewrite D6.
Qed.

(** A receiver that waited resumes: with the result 0 it does with the message
    what [k_mbox_get] does with one it finds; otherwise it reports the time-out. *)
Theorem mbox_get_resume_correct K F mbox c t rx buffer w :
  let m := mw_msgs w rx in
  mbox_ok K F mbox w -> fresh mbox F w rx -> in_isr (mw_kernel w) = false ->
  (swap_return_value (threads (mw_kernel w) c) = 0 ->
     t ∈ F /\ _syncing_thread m = Some t /\ tx_block m = None) ->
  exists w', k_mbox_get_resume policy c rx buffer w =
      Some (Returns (swap_return_value (threads (mw_kernel w) c)), w') /\
    if (swap_return_value (threads (mw_kernel w) c) =? 0) && (negb (buffer =? 0) || (size m =? 0))
    then mbox_ok K (remove_node t F) mbox w' /\
         disposed t rx (set_mw_mem (copied buffer m (mw_mem w)) w) w'
    else w' = w.
Proof.
  cbn zeta. intros Hok Hf Hi Hm. unfold k_mbox_get_resume.
  destruct (Z.eqb_spec (swap_return_value (threads (mw_kernel w) c)) 0) as [E0|E0]; [|by exists w].
  destruct (Hm E0) as (Ht & Hsy & Hb). rewrite E0. by apply data_check_ok.
Qed.
End Get.

(** ** Witnesses *)
Section Witnesses.
Implicit Types (k : kernel) (w : mbox_world).
Definition demo_mbox : k_mbox := mk_mbox 30%positive 31%positive.

(** Descriptors at 100 and 200: 10 bytes from address 1000 for anyone, and up to 4
    bytes from anyone. *)
Definition demo_msgs (a : Z) : k_mbox_msg :=
  if a =? 100 then mk_mbox_msg 10 7 1000 None None None None
  else mk_mbox_msg 4 9 0 None None None None.
Definition mbox_demo k : mbox_world :=
  mk_mbox_world demo_msgs (fun a => a `mod` 256) (fun _ => demo_pool) k.

Lemma mbox_demo_ok K k a :
  running K k -> (forall wq, wait_qs k wq = []) ->
  mbox_ok K [] demo_mbox (mbox_demo k) /\ fresh demo_mbox [] (mbox_demo k) a.
Proof.
  intros Hru Ew. unfold senders, receivers. split; [split|].
  - by apply away_nil.
  - done.
  - intros t. unfold senders. cbn. rewrite Ew. by intros ?%elem_of_nil.
  - intros t. unfold receivers. cbn. rewrite Ew. by intros ?%elem_of_nil.
  - intros t x. unfold senders, receivers. cbn. rewrite !Ew. rewrite !elem_of_nil. tauto.
  - intros t x. unfold senders. cbn. rewrite Ew. by intros ?%elem_of_nil.
  - intros t. unfold senders, receivers. cbn. rewrite !Ew. rewrite !elem_of_nil. tauto.
Qed.

(** The main thread sends and waits. *)
Lemma mbox_put_correct_witness :
  exists w', k_mbox_put demo_mbox 100 K_FOREVER (mbox_demo unlocked) = Some (Blocks, w') /\
    mbox_ok boot_threads [] demo_mbox w' /\ senders demo_mbox w' = [current unlocked].
Proof.
  destruct unlocked_ok as (Hru & _ & Ew & Hid).
  destruct (mbox_demo_ok boot_threads unlocked 100 Hru Ew) as [Hok Hf].
  destruct (mbox_put_correct boot_threads [] demo_mbox 100 K_FOREVER (mbox_demo unlocked) Hok Hf)
    as (o & w' & E & _ & _ & Hc); [by left|exact Hid|by left|].
  unfold receivers in Hc. cbn [mw_kernel mbox_demo] in Hc. rewrite Ew in Hc. cbn [List.find] in Hc.
  destruct Hc as (Hok' & _ & _ & Hc). change (K_FOREVER =? K_NO_WAIT) with false in Hc.
  destruct Hc as (-> & Hb & _).
  exists w'. split; [exact E|]. split; [exact Hok'|].
  unfold senders. rewrite (bl_wait_q _ _ _ _ Hb), Ew. done.
Defined.

Lemma demo_sent K k :
  running K k -> (forall wq, wait_qs k wq = []) -> current k <> _idle_thread -> in_isr k = false ->
  exists w, mbox_ok K [] demo_mbox w /\ senders demo_mbox w = [current k] /\ receivers demo_mbox w = [] /\
    msg_of w (current k) = offer (current k) (demo_msgs 100) /\ mw_msgs w 200 = demo_msgs 200 /\
    addr_of (mw_kernel w) (current k) = 100 /\ in_isr (mw_kernel w) = false /\
    mw_mem w = mw_mem (mbox_demo k).
Proof.
  intros Hru Ew Hid Hi. destruct (mbox_demo_ok K k 100 Hru Ew) as [Hok Hf].
  destruct (put_ok K [] demo_mbox 100 K_FOREVER (mbox_demo k) Hok Hf)
    as (o & w & E & Em & _ & Hc); [by left|exact Hid|by left|].
  unfold receivers in Hc. cbn [mw_kernel mbox_demo] in Hc. rewrite Ew in Hc. cbn [List.find] in Hc.
  destruct Hc as (Hok' & E1 & E2 & Hc). change (K_FOREVER =? K_NO_WAIT) with false in Hc.
  destruct Hc as (-> & Hb & Ha). exists w. split_and!; try done.
  - unfold senders. by rewrite (bl_wait_q _ _ _ _ Hb), Ew.
  - unfold receivers. by rewrite (bl_wait_qs _ _ _ _ Hb), Ew.
  - unfold msg_of. by rewrite Ha.
  - by rewrite E2.
  - by rewrite (bl_in_isr _ _ _ _ Hb).
Qed.

(** The message the main thread sent is received, cut to four bytes. *)
Lemma mbox_get_correct_witness :
  exists w w', senders demo_mbox w = [current unlocked] /\
    k_mbox_get SPLIT_ONLY demo_mbox 200 5000 K_NO_WAIT w = Some (Returns 0, w') /\
    senders demo_mbox w' = [] /\ size (msg_of w' (current unlocked)) = 4 /\
    read_bytes (mw_mem w') 5000 4 = [232; 233; 234; 235].
Proof.
  destruct unlocked_ok as (Hru & [Hi _] & Ew & Hid).
  destruct (demo_sent boot_threads unlocked Hru Ew Hid Hi) as (w & Hok & Es & Er & Em & E2 & Ea & Hi' & Hmem).
  exists w. destruct (mbox_get_correct SPLIT_ONLY boot_threads [] demo_mbox 200 5000 K_NO_WAIT w)
    as (o & w' & E & _ & Hc); [exact Hok| |exact Hi'|by left|exact no_wait_ok|].
  { intros t. rewrite Es, Er. rewrite !elem_of_nil, list_elem_of_singleton.
    intros [->|[[]|[]]]. rewrite Ea. lia. }
  rewrite Es in Hc. cbn [List.find] in Hc. rewrite Em, E2 in Hc.
  assert (Hcomp : forall c t, compatible (offer t (demo_msgs 100)) (set_target (Some c) (demo_msgs 200)) = true)
    by reflexivity.
  rewrite Hcomp in Hc. destruct Hc as (-> & Hs & _ & _ & Hc). cbn [demo_msgs negb Z.eqb orb] in Hc.
  destruct Hc as (_ & Hm & _ & Ht & _). exists w'.
  split; [exact Es|]. split; [exact E|]. split.
  { rewrite Hs. apply remove_node_cons_eq. by intros ?%elem_of_nil. }
  rewrite Em in Ht, Hm. split; [rewrite Ht; reflexivity|]. rewrite Hm, Hmem. reflexivity.
Defined.
End Witnesses.
