(* ===== verification/Bytes.v ===== *)
(** * Messages in byte memory

    Accesses to 16-bit fields in network order (include/misc/byteorder.h,
    include/net/net_ip.h, include/toolchain/gcc.h), and the vocabulary in which
    the packet encoders and decoders are specified: a list of bytes written from
    an address on, and a list of bytes found there. *)
From S2P Require Import Prelude LibcString.

(** ** Byte order *)
Definition __bswap_16 (x : Z) : Z :=
  u16 (Z.lor (Z.land (Z.shiftr x 8) 255) (Z.shiftl (Z.land x 255) 8)).
Definition htons : Z -> Z := __bswap_16.
Definition ntohs : Z -> Z := __bswap_16.

(** Halfword accesses of the little-endian processor. *)
Definition UNALIGNED_PUT (v a : Z) (m : memory) : memory :=
  <[a + 1 := u8 (Z.shiftr v 8)]> (<[a := u8 v]> m).
Definition UNALIGNED_GET (m : memory) (a : Z) : Z := Z.lor (m a) (Z.shiftl (m (a + 1)) 8).

(** The two bytes of a 16-bit value in network order, and back. *)
Definition be16 (v : Z) : list Z := [v / 256; v `mod` 256].

Lemma u16_small z : 0 <= z < 65536 -> u16 z = z.
Proof. intros. unfold wrap_u. by apply Z.mod_small. Qed.

(** Conversions to a width that the value fits, innermost first. *)
Ltac fits16 :=
  repeat match goal with
  | |- context [wrap_u 16 ?x] =>
      lazymatch x with context [wrap_u 16 _] => fail | _ => rewrite (u16_small x) by lia end
  end.

Section ByteOrder.
Implicit Types (m : memory) (a v b c : Z).

Lemma join_bytes b c : 0 <= b < 256 -> Z.lor b (Z.shiftl c 8) = b + 256 * c.
Proof.
  intros Hb. rewrite Z.shiftl_mul_pow2 by lia. change (2 ^ 8) with 256.
  assert (Z.land b (c * 256) = 0) as E.
  { apply Z.bits_inj'. intros i Hi. rewrite Z.land_spec, Z.bits_0. change 256 with (2 ^ 8).
    rewrite Z.mul_pow2_bits by lia. destruct (Z.lt_ge_cases i 8) as [H8|H8].
    - rewrite (Z.testbit_neg_r c) by lia. apply andb_false_r.
    - by rewrite byte_high. }
  rewrite <- Z.lxor_lor, <- Z.add_nocarry_lxor by done. lia.
Qed.

Lemma land_255 v : Z.land v 255 = v `mod` 256.
Proof. change 255 with (Z.ones 8). by rewrite Z.land_ones by lia. Qed.

Lemma shiftr_8 v : Z.shiftr v 8 = v / 256.
Proof. by rewrite Z.shiftr_div_pow2 by lia. Qed.

Lemma bswap_value v : 0 <= v < 65536 -> __bswap_16 v = 256 * (v `mod` 256) + v / 256.
Proof.
  intros Hv. unfold __bswap_16. rewrite !land_255, shiftr_8.
  pose proof (Z.mod_pos_bound (v / 256) 256). pose proof (Z.mod_pos_bound v 256).
  rewrite join_bytes by lia.
  assert (0 <= v / 256 < 256) by (split; [apply Z.div_pos; lia|apply Z.div_lt_upper_bound; lia]).
  rewrite (Z.mod_small (v / 256)) by lia.
  unfold wrap_u. change (2 ^ 16) with 65536. rewrite Z.mod_small by lia. lia.
Qed.

Lemma be16_range v : 0 <= v < 65536 -> 0 <= v / 256 < 256 /\ 0 <= v `mod` 256 < 256.
Proof.
  intros Hv. split; [split; [apply Z.div_pos; lia|apply Z.div_lt_upper_bound; lia]|].
  apply Z.mod_pos_bound. lia.
Qed.

Lemma put_htons v a m :
  0 <= v < 65536 -> UNALIGNED_PUT (htons v) a m = <[a + 1 := v `mod` 256]> (<[a := v / 256]> m).
Proof.
  intros Hv. destruct (be16_range v Hv). unfold UNALIGNED_PUT, htons. rewrite bswap_value by done.
  rewrite shiftr_8. unfold wrap_u. change (2 ^ 8) with 256.
  rewrite (Z.mul_comm 256), Z.div_add_l by lia. rewrite (Z.div_small (v / 256)) by lia.
  rewrite Z.add_0_r, (Z.mod_small (v `mod` 256)) by lia.
  replace (v `mod` 256 * 256 + v / 256) with (v / 256 + v `mod` 256 * 256) by lia.
  rewrite Z.mod_add by lia. by rewrite (Z.mod_small (v / 256)) by lia.
Qed.

Lemma get_ntohs m a :
  0 <= m a < 256 -> 0 <= m (a + 1) < 256 -> ntohs (UNALIGNED_GET m a) = 256 * m a + m (a + 1).
Proof.
  intros H0 H1. unfold UNALIGNED_GET, ntohs. rewrite join_bytes by done. rewrite bswap_value by lia.
  rewrite (Z.mul_comm 256 (m (a + 1))), Z.mod_add, Z.div_add by lia.
  rewrite (Z.mod_small (m a)), (Z.div_small (m a)) by lia. lia.
Qed.
End ByteOrder.

(** ** Bytes written and bytes found *)
Section Bytes.
Implicit Types (m : memory) (a b v n : Z) (l k : list Z).

Definition write a l m : memory :=
  fun x => if (a <=? x) && (x <? a + len l) then nth (Z.to_nat (x - a)) l 0 else m x.

(** The bytes [l] are at [a]. *)
Definition found m a l : Prop := forall i : nat, (i < length l)%nat -> m (a + Z.of_nat i) = nth i l 0.

Lemma write_out a l m x : x < a \/ a + len l <= x -> write a l m x = m x.
Proof. intros Hx. unfold write. destruct (Z.leb_spec a x), (Z.ltb_spec x (a + len l)); try done. lia. Qed.

Lemma write_in a l m (i : nat) : (i < length l)%nat -> write a l m (a + Z.of_nat i) = nth i l 0.
Proof.
  intros Hi. unfold write. rewrite (proj2 (Z.leb_le _ _)), (proj2 (Z.ltb_lt _ _)) by lia.
  cbn [andb]. f_equal. lia.
Qed.

Lemma write_nil a m : same_mem m (write a [] m).
Proof. intros x. apply write_out. cbn. lia. Qed.

(** A message grows at its end: by a byte, by a 16-bit field, by a copy. *)
Lemma write_app a l k m : same_mem (write a (l ++ k) m) (write (a + len l) k (write a l m)).
Proof.
  intros x. unfold write at 1 3. rewrite length_app, Nat2Z.inj_add.
  destruct (Z.leb_spec (a + len l) x), (Z.ltb_spec x (a + len l + len k)); cbn [andb].
  - rewrite (proj2 (Z.leb_le a _)), (proj2 (Z.ltb_lt x _)) by lia. cbn [andb].
    rewrite app_nth2 by lia. f_equal. lia.
  - rewrite write_out by lia. rewrite (proj2 (Z.ltb_ge x _)) by lia. by rewrite andb_false_r.
  - unfold write. rewrite (proj2 (Z.ltb_lt x _)), (proj2 (Z.ltb_lt x (a + (len l + len k)))) by lia.
    destruct (Z.leb_spec a x); cbn [andb]; [|done]. rewrite app_nth1 by lia. done.
  - lia.
Qed.

#[global] Instance write_proper a l : Proper (same_mem ==> same_mem) (write a l).
Proof. intros m m' Hm x. unfold write. by destruct (_ && _). Qed.

Lemma write_byte a b m : same_mem (write a [b] m) (<[a := b]> m).
Proof.
  intros x. destruct (decide (x = a)) as [->|Hx].
  - rewrite fn_lookup_insert. pose proof (write_in a [b] m 0) as E. rewrite Z.add_0_r in E.
    symmetry. apply E. cbn. lia.
  - rewrite fn_lookup_insert_ne by done. symmetry. apply write_out. cbn. lia.
Qed.

Lemma write_memcpy d s n m : 0 <= n -> same_mem (write d (read_bytes m s n) m) (memcpy d s n m).
Proof.
  intros Hn x. assert (len (read_bytes m s n) = n) as El
    by (unfold read_bytes; rewrite length_fmap, length_seqZ; lia).
  unfold write, memcpy. rewrite El. destruct (_ && _) eqn:E; [|done]. bool_facts.
  unfold read_bytes. assert (seqZ s n !! Z.to_nat (x - d) = Some (s + (x - d))) as Hs
    by (rewrite lookup_seqZ_lt by lia; f_equal; lia).
  rewrite (nth_lookup_Some _ _ _ (m (s + (x - d)))); [done|]. rewrite list_lookup_fmap, Hs. done.
Qed.

(** [appended a l m m']: [m'] is [m] with the message [l] at [a]. *)
Definition appended a l m m' : Prop := same_mem (write a l m) m'.

Lemma appended_nil a m : appended a [] m m.
Proof. unfold appended. symmetry. apply write_nil. Qed.

Lemma appended_byte a l b m m' :
  appended a l m m' -> appended a (l ++ [b]) m (<[a + len l := b]> m').
Proof. unfold appended. intros Hm. rewrite write_app, Hm. apply write_byte. Qed.

Lemma appended_first a b m : appended a [b] m (<[a := b]> m).
Proof. apply write_byte. Qed.

Lemma appended_put16 a l v m m' :
  appended a l m m' -> 0 <= v < 65536 ->
  appended a (l ++ be16 v) m (UNALIGNED_PUT (htons v) (a + len l) m').
Proof.
  intros Hm Hv. rewrite put_htons by done. unfold be16.
  apply (appended_byte a l (v / 256)) in Hm. apply (appended_byte a (l ++ [v / 256]) (v `mod` 256)) in Hm.
  rewrite <- app_assoc in Hm. cbn [app] in Hm.
  replace (a + len l + 1) with (a + len (l ++ [v / 256])) by (rewrite length_app; cbn; lia). done.
Qed.

Lemma appended_byte_at a l b x m m' :
  appended a l m m' -> x = a + len l -> appended a (l ++ [b]) m (<[x := b]> m').
Proof. intros Hm ->. by apply appended_byte. Qed.

Lemma appended_put16_at a l v x m m' :
  appended a l m m' -> x = a + len l -> 0 <= v < 65536 ->
  appended a (l ++ be16 v) m (UNALIGNED_PUT (htons v) x m').
Proof. intros Hm -> Hv. by apply appended_put16. Qed.

Lemma appended_memcpy a l s n m m' :
  appended a l m m' -> 0 <= n -> disjoint_from a (len l) s n ->
  appended a (l ++ read_bytes m s n) m (memcpy (a + len l) s n m').
Proof.
  unfold appended. intros Hm Hn Hd.
  assert (read_bytes m' s n = read_bytes m s n) as Hr.
  { apply read_bytes_ext. intros i Hi. rewrite (Hm i). apply write_out. unfold disjoint_from in Hd. lia. }
  rewrite write_app, <- (write_memcpy _ s n m') by done. rewrite Hr. by apply write_proper.
Qed.

Lemma appended_out a l m m' x : appended a l m m' -> x < a \/ a + len l <= x -> m' x = m x.
Proof. intros Hm Hx. rewrite (Hm x). by apply write_out. Qed.

Lemma appended_found a l m m' : appended a l m m' -> found m' a l.
Proof. intros Hm i Hi. rewrite (Hm _). by apply write_in. Qed.

(** Reading a message. *)
Lemma found_app m a l k : found m a (l ++ k) <-> found m a l /\ found m (a + len l) k.
Proof.
  unfold found. split.
  - intros Hf. split; intros i Hi.
    + rewrite Hf by (rewrite length_app; lia). by rewrite app_nth1 by lia.
    + rewrite <- Z.add_assoc, <- Nat2Z.inj_add, Hf by (rewrite length_app; lia).
      rewrite app_nth2 by lia. f_equal. lia.
  - intros [Hl Hk] i Hi. rewrite length_app in Hi. destruct (Nat.lt_ge_cases i (length l)) as [H1|H1].
    + rewrite app_nth1 by done. by apply Hl.
    + rewrite app_nth2 by done. rewrite <- Hk by lia. f_equal. lia.
Qed.

Lemma found_cons m a b l : found m a (b :: l) <-> m a = b /\ found m (a + 1) l.
Proof.
  change (b :: l) with ([b] ++ l). rewrite found_app. cbn [length].
  assert (found m a [b] <-> m a = b) as ->; [|done]. unfold found. cbn [length]. split.
  - intros Hf. specialize (Hf O ltac:(lia)). by rewrite Z.add_0_r in Hf.
  - intros Hb [|i] Hi; [by rewrite Z.add_0_r|lia].
Qed.

Lemma found_be16 m a v l :
  0 <= v < 65536 -> found m a (be16 v ++ l) -> ntohs (UNALIGNED_GET m a) = v /\ found m (a + 2) l.
Proof.
  intros Hv. unfold be16. cbn [app]. rewrite !found_cons. intros (H0 & H1 & Hl).
  destruct (be16_range v Hv). rewrite get_ntohs by lia. rewrite H0, H1.
  replace (a + 2) with (a + 1 + 1) by lia. split; [|done].
  pose proof (Z.div_mod v 256 ltac:(lia)). lia.
Qed.

Lemma found_read m a l : found m a l -> read_bytes m a (len l) = l.
Proof.
  intros Hf. unfold read_bytes. apply list_eq. intros i. rewrite list_lookup_fmap.
  destruct (Nat.lt_ge_cases i (length l)) as [Hi|Hi].
  - rewrite lookup_seqZ_lt by lia. cbn. rewrite Hf by done. rewrite nth_lookup.
    destruct (lookup_lt_is_Some_2 l i Hi) as [x ->]. done.
  - rewrite lookup_seqZ_ge by lia. cbn. symmetry. by apply lookup_ge_None.
Qed.
End Bytes.
