(* ===== verification/Mqtt.v ===== *)
(** * MQTT packets (lib/iot/mqtt/mqtt_pkt.c)

    The packer and unpacker of MQTT 3.1.1 messages, on byte memory. A buffer, a
    string or a value is the address of its first byte, 0 when null; sizes have
    the widths of the code. A packer gives its return code, what it writes
    through [length] ([None] if nothing) and the memory; an unpacker gives its
    return code and what it has stored in the message. [fuel] bounds the strings
    measured, [None] when it runs out. [memcpy] is the byte-wise function that
    LibcString proves the C library's to be equal to on regions that are apart. An
    array has its elements in a list, whose length is the 8-bit count the code
    passes beside it. *)
From S2P Require Import Prelude Kernel LibcString Bytes.

Module Mqtt.

(** include/iot/mqtt_types.h: [enum mqtt_packet] and [enum mqtt_qos] *)
Definition MQTT_CONNECT : Z := 1.
Definition MQTT_CONNACK : Z := 2.
Definition MQTT_PUBLISH : Z := 3.
Definition MQTT_PUBACK : Z := 4.
Definition MQTT_PUBREC : Z := 5.
Definition MQTT_PUBREL : Z := 6.
Definition MQTT_PUBCOMP : Z := 7.
Definition MQTT_SUBSCRIBE : Z := 8.
Definition MQTT_SUBACK : Z := 9.
Definition MQTT_UNSUBSCRIBE : Z := 10.
Definition MQTT_UNSUBACK : Z := 11.
Definition MQTT_PINGREQ : Z := 12.
Definition MQTT_PINGRESP : Z := 13.
Definition MQTT_DISCONNECT : Z := 14.
Definition MQTT_QoS0 : Z := 0.
Definition MQTT_QoS1 : Z := 1.
Definition MQTT_QoS2 : Z := 2.

Record mqtt_connect_msg := mk_connect {
  clean_session : Z;
  client_id : Z;
  client_id_len : Z;
  will_flag : Z;
  will_qos : Z;
  will_retain : Z;
  will_topic : Z;
  will_topic_len : Z;
  will_msg : Z;
  will_msg_len : Z;
  keep_alive : Z;
  user_name : Z;
  user_name_len : Z;
  password : Z;
  password_len : Z
}.

Record mqtt_publish_msg := mk_publish {
  dup : Z;
  qos : Z;
  retain : Z;
  pkt_id : Z;
  topic : Z;
  topic_len : Z;
  msg : Z;
  msg_len : Z
}.

(** The sizes of the fields *)
Definition PACKET_TYPE_SIZE : Z := 1.
Definition ENCLENBUF_MAX_SIZE : Z := 4.
Definition CONNECT_VARIABLE_HDR_SIZE : Z := 10.
Definition CONNECT_MIN_SIZE : Z := 12.
Definition CONNACK_SIZE : Z := 4.
Definition CONNACK_REMLEN : Z := 2.
Definition MSG_PKTID_ONLY_SIZE : Z := 4.
Definition PUBREL_RESERVED : Z := 2.
Definition INT_SIZE : Z := 2.
Definition KEEP_ALIVE_SIZE : Z := 2.
Definition PACKET_ID_SIZE : Z := 2.
Definition QoS_SIZE : Z := 1.
Definition FLAGS_SIZE : Z := 1.
Definition SUBSCRIBE_RESERVED : Z := 2.
Definition MSG_ZEROLEN_SIZE : Z := 2.
Definition TOPIC_MIN_SIZE : Z := 4.

Section Operations.
Implicit Types (m : memory) (buf size : Z) (fuel : nat).

Definition mqtt_strlen fuel (str : Z) m : option Z :=
  if negb (str =? 0) then n ← Str.strlen fuel str m; Some (u16 n) else Some 0.

(** [None] is -EINVAL. *)
Definition compute_rlen_size (len : Z) : option Z :=
  if len <=? 127 then Some 1
  else if (128 <=? len) && (len <=? 16383) then Some 2
  else if (16384 <=? len) && (len <=? 2097151) then Some 3
  else if (2097152 <=? len) && (len <=? 268435455) then Some 4
  else None.

(** The loop ends within five turns, [len] being an [int]. *)
Fixpoint rlen_encode_loop (turns : nat) buf (len i : Z) m : memory :=
  match turns with
  | O => m
  | S turns =>
      let encoded := u8 (Z.rem len 128) in
      let len := Z.quot len 128 in
      let encoded := if 0 <? len then Z.lor encoded 128 else encoded in
      let m := <[buf + i := encoded]> m in
      if 0 <? len then rlen_encode_loop turns buf len (u8 (i + 1)) m else m
  end.

Definition rlen_encode buf (len : Z) m : memory := rlen_encode_loop 5 buf len 0 m.

(** [turns] is ENCLENBUF_MAX_SIZE - i; [None] is -ENOMEM. *)
Fixpoint rlen_decode_loop (turns : nat) buf size (value mult i : Z) m : option (Z * Z) :=
  match turns with
  | O => None
  | S turns =>
      if size <? i then None
      else
        let encoded := m (buf + i) in
        let i := u16 (i + 1) in
        let value := u16 (value + Z.land encoded 127 * mult) in
        let mult := u16 (mult * 128) in
        if negb (Z.land encoded 128 =? 0) then rlen_decode_loop turns buf size value mult i m
        else Some (value, i)
  end.

(** The remaining length and the size of its encoding. *)
Definition rlen_decode buf size m : option (Z * Z) :=
  rlen_decode_loop (Z.to_nat ENCLENBUF_MAX_SIZE) buf size 0 1 0 m.

Definition mqtt_pack_connack buf size (session_present ret_code : Z) m : Z * option Z * memory :=
  if size <? CONNACK_SIZE then (- ENOMEM, None, m)
  else
    let m := <[buf := Z.shiftl MQTT_CONNACK 4]> m in
    let m := <[buf + 1 := CONNACK_REMLEN]> m in
    let m := <[buf + 2 := if negb (session_present =? 0) then 1 else 0]> m in
    let m := <[buf + 3 := Z.land ret_code 255]> m in
    (0, Some CONNACK_SIZE, m).

Definition pack_pkt_id buf size (type reserved id : Z) m : Z * option Z * memory :=
  if size <? MSG_PKTID_ONLY_SIZE then (- ENOMEM, None, m)
  else
    let m := <[buf := u8 (Z.shiftl type 4 + Z.land reserved 15)]> m in
    let m := <[buf + 1 := PACKET_ID_SIZE]> m in
    let m := UNALIGNED_PUT (htons id) (buf + PACKET_ID_SIZE) m in
    (0, Some MSG_PKTID_ONLY_SIZE, m).

Definition mqtt_pack_puback buf size (id : Z) m := pack_pkt_id buf size MQTT_PUBACK 0 id m.
Definition mqtt_pack_pubrec buf size (id : Z) m := pack_pkt_id buf size MQTT_PUBREC 0 id m.
Definition mqtt_pack_pubrel buf size (id : Z) m := pack_pkt_id buf size MQTT_PUBREL PUBREL_RESERVED id m.
Definition mqtt_pack_pubcomp buf size (id : Z) m := pack_pkt_id buf size MQTT_PUBCOMP 0 id m.
Definition mqtt_pack_unsuback buf size (id : Z) m := pack_pkt_id buf size MQTT_UNSUBACK 0 id m.

(** [for (i = 0; i < elements; i++) buf[offset + i] = granted_qos[i];] *)
Fixpoint put_qos (granted_qos : list Z) (a : Z) m : memory :=
  match granted_qos with
  | [] => m
  | q :: l => put_qos l (a + 1) (<[a := u8 q]> m)
  end.

(** The array has [elements] elements. *)
Definition mqtt_pack_suback buf size (id : Z) (granted_qos : list Z) m : Z * option Z * memory :=
  let rlen := u16 (PACKET_ID_SIZE + QoS_SIZE * Z.of_nat (length granted_qos)) in
  match compute_rlen_size rlen with
  | None => (- EINVAL, None, m)
  | Some rlen_size =>
      let length := u16 (PACKET_TYPE_SIZE + rlen_size + rlen) in
      if size <? length then (- ENOMEM, Some length, m)
      else
        let m := <[buf := u8 (Z.shiftl MQTT_SUBACK 4)]> m in
        let m := rlen_encode (buf + PACKET_TYPE_SIZE) rlen m in
        let offset := u16 (PACKET_TYPE_SIZE + rlen_size) in
        let m := UNALIGNED_PUT (htons id) (buf + offset) m in
        let offset := u16 (offset + PACKET_ID_SIZE) in
        (0, Some length, put_qos granted_qos (buf + offset) m)
  end.

(** A length and the value it counts: [UNALIGNED_PUT(htons(len), buf + offset);
    offset += INT_SIZE; memcpy(buf + offset, val, len); offset += len;] *)
Definition put_value buf (offset val len : Z) m : Z * memory :=
  let m := UNALIGNED_PUT (htons len) (buf + offset) m in
  let offset := u16 (offset + INT_SIZE) in
  let m := memcpy (buf + offset) val len m in
  (u16 (offset + len), m).

Definition connect_flags (c : mqtt_connect_msg) : Z :=
  u8 (Z.lor (if negb (user_name c =? 0) then Z.shiftl 1 7 else 0)
     (Z.lor (if negb (password_len c =? 0) then Z.shiftl 1 6 else 0)
     (Z.lor (if negb (will_retain c =? 0) then Z.shiftl 1 5 else 0)
     (Z.lor (Z.shiftl (Z.land (will_qos c) 3) 3)
     (Z.lor (if negb (will_flag c =? 0) then Z.shiftl 1 2 else 0)
            (if negb (clean_session c =? 0) then Z.shiftl 1 1 else 0)))))).

(** The assignments to the lengths of the strings of the message. *)
Definition measure_connect fuel (c : mqtt_connect_msg) m : option mqtt_connect_msg :=
  cl ← mqtt_strlen fuel (client_id c) m;
  wl ← (if negb (will_flag c =? 0) then mqtt_strlen fuel (will_topic c) m else Some (will_topic_len c));
  ul ← (if negb (user_name c =? 0) then mqtt_strlen fuel (user_name c) m else Some (user_name_len c));
  Some (mk_connect (clean_session c) (client_id c) cl (will_flag c) (will_qos c) (will_retain c)
    (will_topic c) wl (will_msg c) (will_msg_len c) (keep_alive c) (user_name c) ul
    (password c) (password_len c)).

(** The size of the payload and of the variable header. *)
Definition connect_size (c : mqtt_connect_msg) : Z :=
  let s := INT_SIZE in
  let s := u16 (s + client_id_len c) in
  let s := if negb (will_flag c =? 0) then
             let s := u16 (s + INT_SIZE) in
             let s := u16 (s + will_topic_len c) in
             let s := u16 (s + INT_SIZE) in
             u16 (s + will_msg_len c)
           else s in
  let s := if negb (user_name c =? 0) then
             let s := u16 (s + INT_SIZE) in u16 (s + user_name_len c)
           else s in
  let s := if negb (password c =? 0) then
             let s := u16 (s + INT_SIZE) in u16 (s + password_len c)
           else s in
  u16 (s + CONNECT_VARIABLE_HDR_SIZE).

Definition connect_header buf (offset : Z) (c : mqtt_connect_msg) m : memory :=
  let m := <[buf + (offset + 0) := 0]> m in
  let m := <[buf + (offset + 1) := 4]> m in
  let m := <[buf + (offset + 2) := 77]> m in
  let m := <[buf + (offset + 3) := 81]> m in
  let m := <[buf + (offset + 4) := 84]> m in
  let m := <[buf + (offset + 5) := 84]> m in
  let m := <[buf + (offset + 6) := 4]> m in
  let m := <[buf + (offset + 7) := connect_flags c]> m in
  UNALIGNED_PUT (htons (keep_alive c)) (buf + (offset + 8)) m.

Definition connect_payload buf (offset : Z) (c : mqtt_connect_msg) m : Z * memory :=
  let '(offset, m) := put_value buf offset (client_id c) (client_id_len c) m in
  let '(offset, m) :=
    if negb (will_flag c =? 0) then
      let '(offset, m) := put_value buf offset (will_topic c) (will_topic_len c) m in
      put_value buf offset (will_msg c) (will_msg_len c) m
    else (offset, m) in
  let '(offset, m) :=
    if negb (user_name c =? 0) then put_value buf offset (user_name c) (user_name_len c) m
    else (offset, m) in
  if negb (password c =? 0) then put_value buf offset (password c) (password_len c) m
  else (offset, m).

Definition mqtt_pack_connect fuel buf size (c : mqtt_connect_msg) m
    : option (Z * option Z * mqtt_connect_msg * memory) :=
  c ← measure_connect fuel c m;
  let pkt_size := connect_size c in
  match compute_rlen_size pkt_size with
  | None => Some (- EINVAL, None, c, m)
  | Some rlen_size =>
      let total_buf_size := u16 (PACKET_TYPE_SIZE + rlen_size + pkt_size) in
      if size <? total_buf_size then Some (- ENOMEM, None, c, m)
      else
        let m := <[buf := Z.shiftl MQTT_CONNECT 4]> m in
        let m := rlen_encode (buf + PACKET_TYPE_SIZE) pkt_size m in
        let offset := u16 (PACKET_TYPE_SIZE + rlen_size) in
        let m := connect_header buf offset c m in
        let offset := u16 (offset + (8 + INT_SIZE)) in
        let '(_, m) := connect_payload buf offset c m in
        Some (0, Some total_buf_size, c, m)
  end.

(** [None] is -EINVAL: the address of the value and its length. *)
Definition recover_value_len buf (length : Z) m : option (Z * Z) :=
  if length <? INT_SIZE then None
  else
    let val_len := ntohs (UNALIGNED_GET m buf) in
    if length <? INT_SIZE + val_len then None else Some (buf + INT_SIZE, val_len).

(** The assignments from the connect flags and the keep-alive time. *)
Definition set_connect_header (flags keep : Z) : mqtt_connect_msg :=
  mk_connect (if negb (Z.land flags 2 =? 0) then 1 else 0) 0 0
    (if negb (Z.land flags 4 =? 0) then 1 else 0) (Z.shiftr (Z.land flags 24) 3)
    (if negb (Z.land flags 32 =? 0) then 1 else 0) 0 0 0 0 keep 0 0 0 0.
Definition set_client_id (v l : Z) (c : mqtt_connect_msg) : mqtt_connect_msg :=
  mk_connect (clean_session c) v l (will_flag c) (will_qos c) (will_retain c) (will_topic c)
    (will_topic_len c) (will_msg c) (will_msg_len c) (keep_alive c) (user_name c) (user_name_len c)
    (password c) (password_len c).
Definition set_will_topic (v l : Z) (c : mqtt_connect_msg) : mqtt_connect_msg :=
  mk_connect (clean_session c) (client_id c) (client_id_len c) (will_flag c) (will_qos c)
    (will_retain c) v l (will_msg c) (will_msg_len c) (keep_alive c) (user_name c) (user_name_len c)
    (password c) (password_len c).
Definition set_will_msg (v l : Z) (c : mqtt_connect_msg) : mqtt_connect_msg :=
  mk_connect (clean_session c) (client_id c) (client_id_len c) (will_flag c) (will_qos c)
    (will_retain c) (will_topic c) (will_topic_len c) v l (keep_alive c) (user_name c)
    (user_name_len c) (password c) (password_len c).
Definition set_user_name (v l : Z) (c : mqtt_connect_msg) : mqtt_connect_msg :=
  mk_connect (clean_session c) (client_id c) (client_id_len c) (will_flag c) (will_qos c)
    (will_retain c) (will_topic c) (will_topic_len c) (will_msg c) (will_msg_len c) (keep_alive c)
    v l (password c) (password_len c).
Definition set_password (v l : Z) (c : mqtt_connect_msg) : mqtt_connect_msg :=
  mk_connect (clean_session c) (client_id c) (client_id_len c) (will_flag c) (will_qos c)
    (will_retain c) (will_topic c) (will_topic_len c) (will_msg c) (will_msg_len c) (keep_alive c)
    (user_name c) (user_name_len c) v l.

(** One field of the payload: [recover_value_len], the assignment to the
    message, and the 8-bit [offset] behind the value. *)
Definition get_value buf (length offset : Z) (set : Z -> Z -> mqtt_connect_msg -> mqtt_connect_msg)
    (c : mqtt_connect_msg) m : option (mqtt_connect_msg * Z) :=
  r ← recover_value_len (buf + offset) (u16 (length - offset)) m;
  let '(val, val_len) := r in
  Some (set val val_len c, u8 (offset + (INT_SIZE + val_len))).

(** The optional fields that the flags announce. *)
Definition unpack_connect_payload buf (length offset flags : Z) (c : mqtt_connect_msg) m
    : option mqtt_connect_msg :=
  r ← get_value buf length offset set_client_id c m;
  let '(c, offset) := r in
  r ← (if negb (will_flag c =? 0) then
         r ← get_value buf length offset set_will_topic c m;
         let '(c, offset) := r in get_value buf length offset set_will_msg c m
       else Some (c, offset));
  let '(c, offset) := r in
  r ← (if negb (Z.land flags 128 =? 0) then get_value buf length offset set_user_name c m
       else Some (c, offset));
  let '(c, offset) := r in
  r ← (if negb (Z.land flags 64 =? 0) then get_value buf length offset set_password c m
       else Some (c, offset));
  Some (fst r).

(** The message, which starts zeroed, is given on success only. *)
Definition mqtt_unpack_connect buf (length : Z) m : Z * option mqtt_connect_msg :=
  if length <? CONNECT_MIN_SIZE then (- EINVAL, None)
  else if negb (m buf =? Z.shiftl MQTT_CONNECT 4) then (- EINVAL, None)
  else
    match rlen_decode (buf + PACKET_TYPE_SIZE) (u16 (length - PACKET_TYPE_SIZE)) m with
    | None => (- ENOMEM, None)
    | Some (payload_len, rlen_size) =>
        let offset := u8 (PACKET_TYPE_SIZE + rlen_size) in
        if negb (m (buf + (offset + 0)) =? 0) || negb (m (buf + (offset + 1)) =? 4) then (- EINVAL, None)
        else
          let offset := u8 (offset + INT_SIZE) in
          if negb (m (buf + (offset + 0)) =? 77) || negb (m (buf + (offset + 1)) =? 81)
             || negb (m (buf + (offset + 2)) =? 84) || negb (m (buf + (offset + 3)) =? 84)
             || negb (m (buf + (offset + 4)) =? 4) then (- EINVAL, None)
          else
            let offset := u8 (offset + 5) in
            let flags := m (buf + offset) in
            if negb (Z.land flags 1 =? 0) then (- EINVAL, None)
            else
              let offset := u8 (offset + FLAGS_SIZE) in
              let keep := ntohs (UNALIGNED_GET m (buf + offset)) in
              let offset := u8 (offset + KEEP_ALIVE_SIZE) in
              match unpack_connect_payload buf length offset flags (set_connect_header flags keep) m with
              | None => (- EINVAL, None)
              | Some c => (0, Some c)
              end
    end.

(** The topics and their lengths, in the order of the array. *)
Fixpoint topic_sizes fuel (topics : list Z) (with_qos : bool) (size : Z) m : option Z :=
  match topics with
  | [] => Some size
  | t :: topics =>
      n ← mqtt_strlen fuel t m;
      topic_sizes fuel topics with_qos (u16 (size + (n + if with_qos then QoS_SIZE else 0))) m
  end.

(** The payload size and the size of its encoding; the inner [None] is -EINVAL. *)
Definition subscribe_size fuel (topics : list Z) (with_qos : bool) m : option (option (Z * Z)) :=
  payload ← topic_sizes fuel topics with_qos PACKET_ID_SIZE m;
  let payload := u16 (payload + Z.of_nat (length topics) * INT_SIZE) in
  Some (rlen_size ← compute_rlen_size payload; Some (rlen_size, payload)).

Fixpoint put_topics fuel (topics qos : list Z) (type : Z) buf (offset : Z) m : option (Z * memory) :=
  match topics with
  | [] => Some (offset, m)
  | t :: topics =>
      topic_len ← mqtt_strlen fuel t m;
      let '(offset, m) := put_value buf offset t topic_len m in
      if type =? MQTT_SUBSCRIBE then
        q ← head qos;
        let m := <[buf + offset := Z.land q 3]> m in
        put_topics fuel topics (tail qos) type buf (u16 (offset + QoS_SIZE)) m
      else put_topics fuel topics qos type buf offset m
  end.

(** The array of topics has [items] elements; the one of the qualities of
    service as many, when it is read. *)
Definition mqtt_pack_subscribe_unsubscribe fuel buf size (id : Z) (topics qos : list Z) (type : Z) m
    : option (Z * option Z * memory) :=
  if Z.of_nat (length topics) <=? 0 then Some (- EINVAL, None, m)
  else if negb (type =? MQTT_SUBSCRIBE) && negb (type =? MQTT_UNSUBSCRIBE) then Some (- EINVAL, None, m)
  else
    r ← subscribe_size fuel topics (type =? MQTT_SUBSCRIBE) m;
    match r with
    | None => Some (- EINVAL, None, m)
    | Some (rlen_size, payload) =>
        if size <? rlen_size + payload + 1 then Some (- ENOMEM, None, m)
        else
          let m := <[buf := u8 (Z.shiftl type 4 + 2)]> m in
          let m := rlen_encode (buf + PACKET_TYPE_SIZE) payload m in
          let offset := u16 (PACKET_TYPE_SIZE + rlen_size) in
          let m := UNALIGNED_PUT (htons id) (buf + offset) m in
          r ← put_topics fuel topics qos type buf (u16 (offset + PACKET_ID_SIZE)) m;
          let '(offset, m) := r in Some (0, Some offset, m)
    end.

Definition mqtt_pack_subscribe fuel buf size (id : Z) (topics qos : list Z) m :=
  mqtt_pack_subscribe_unsubscribe fuel buf size id topics qos MQTT_SUBSCRIBE m.
Definition mqtt_pack_unsubscribe fuel buf size (id : Z) (topics : list Z) m :=
  mqtt_pack_subscribe_unsubscribe fuel buf size id topics [] MQTT_UNSUBSCRIBE m.

(** The loop over the topics of a SUBSCRIBE message: the return code and the
    entries stored, each a topic, its length and its quality of service. *)
Fixpoint get_topics (elements : nat) buf (length offset : Z) m : Z * list (Z * Z * Z) :=
  match elements with
  | O => (0, [])
  | S elements =>
      if length <? offset + TOPIC_MIN_SIZE then (- EINVAL, [])
      else
        let topic_len := ntohs (UNALIGNED_GET m (buf + offset)) in
        let offset := u16 (offset + INT_SIZE) in
        if length <? offset + topic_len + QoS_SIZE then (- EINVAL, [])
        else
          let topic := buf + offset in
          let offset := u16 (offset + topic_len) in
          let qos := m (buf + offset) in
          let offset := u16 (offset + QoS_SIZE) in
          if offset =? length then (0, [(topic, topic_len, qos)])
          else let '(rc, l) := get_topics elements buf length offset m in
               (rc, (topic, topic_len, qos) :: l)
  end.

(** The packet identifier if it was read; [*items] is the number of entries. *)
Definition mqtt_unpack_subscribe buf (length elements : Z) m : Z * option Z * list (Z * Z * Z) :=
  match rlen_decode (buf + PACKET_TYPE_SIZE) (u16 (length - PACKET_TYPE_SIZE)) m with
  | None => (- EINVAL, None, [])
  | Some (rmlen, rmlen_size) =>
      if length <? PACKET_TYPE_SIZE + rmlen_size + rmlen then (- EINVAL, None, [])
      else if rmlen <? PACKET_ID_SIZE + TOPIC_MIN_SIZE then (- EINVAL, None, [])
      else if negb (m buf =? Z.lor (Z.shiftl MQTT_SUBSCRIBE 4) SUBSCRIBE_RESERVED)
      then (- EINVAL, None, [])
      else
        let offset := u16 (PACKET_TYPE_SIZE + rmlen_size) in
        let id := ntohs (UNALIGNED_GET m (buf + offset)) in
        let offset := u16 (offset + PACKET_ID_SIZE) in
        let '(rc, l) := get_topics (Z.to_nat elements) buf length offset m in (rc, Some id, l)
  end.

(** [for (i = 0; i < *items; i++)]: the return code and the qualities stored. *)
Fixpoint get_qos (items : nat) (a : Z) m : Z * list Z :=
  match items with
  | O => (0, [])
  | S items =>
      let q := m a in
      if (q <? MQTT_QoS0) || (MQTT_QoS2 <? q) then (- EINVAL, [])
      else let '(rc, l) := get_qos items (a + QoS_SIZE) m in (rc, q :: l)
  end.

(** The return code, the packet identifier, [*items] and the array. *)
Definition mqtt_unpack_suback buf (length elements : Z) m : Z * Z * Z * list Z :=
  if elements <=? 0 then (- EINVAL, 0, 0, [])
  else if negb (m buf =? Z.shiftl MQTT_SUBACK 4) then (- EINVAL, 0, 0, [])
  else
    match rlen_decode (buf + PACKET_TYPE_SIZE) (u16 (length - PACKET_TYPE_SIZE)) m with
    | None => (- EINVAL, 0, 0, [])
    | Some (rlen, rlen_size) =>
        if length <? PACKET_TYPE_SIZE + rlen + rlen_size then (- EINVAL, 0, 0, [])
        else
          let offset := u16 (PACKET_TYPE_SIZE + rlen_size) in
          let id := ntohs (UNALIGNED_GET m (buf + offset)) in
          let offset := u16 (offset + PACKET_ID_SIZE) in
          let items := u8 (length - offset) in
          if elements <? items then (- EINVAL, id, items, [])
          else let '(rc, l) := get_qos (Z.to_nat items) (buf + offset) m in (rc, id, items, l)
    end.

Definition set_topic_len (n : Z) (p : mqtt_publish_msg) : mqtt_publish_msg :=
  mk_publish (dup p) (qos p) (retain p) (pkt_id p) (topic p) n (msg p) (msg_len p).

Definition mqtt_pack_publish fuel buf size (p : mqtt_publish_msg) m
    : option (Z * option Z * mqtt_publish_msg * memory) :=
  if (qos p <? MQTT_QoS0) || (MQTT_QoS2 <? qos p) then Some (- EINVAL, None, p, m)
  else
    n ← mqtt_strlen fuel (topic p) m;
    let p := set_topic_len n p in
    let payload := u16 (INT_SIZE + topic_len p + (if MQTT_QoS0 <? qos p then PACKET_ID_SIZE else 0)
                        + msg_len p) in
    match compute_rlen_size payload with
    | None => Some (- EINVAL, None, p, m)
    | Some rlen_size =>
        if size <? PACKET_TYPE_SIZE + rlen_size + payload then Some (- ENOMEM, None, p, m)
        else
          let m := <[buf := u8 (Z.lor (Z.shiftl MQTT_PUBLISH 4)
                      (Z.lor (Z.shiftl (if negb (dup p =? 0) then 1 else 0) 3)
                      (Z.lor (Z.shiftl (qos p) 1) (if negb (retain p =? 0) then 1 else 0))))]> m in
          let m := rlen_encode (buf + PACKET_TYPE_SIZE) payload m in
          let offset := u16 (PACKET_TYPE_SIZE + rlen_size) in
          let '(offset, m) := put_value buf offset (topic p) (topic_len p) m in
          let '(offset, m) :=
            if MQTT_QoS0 <? qos p
            then (u16 (offset + PACKET_ID_SIZE), UNALIGNED_PUT (htons (pkt_id p)) (buf + offset) m)
            else (offset, m) in
          let m := memcpy (buf + offset) (msg p) (msg_len p) m in
          let offset := u16 (offset + msg_len p) in
          Some (0, Some offset, p, m)
    end.

(** The message is given on success only. *)
Definition mqtt_unpack_publish buf (length : Z) m : Z * option mqtt_publish_msg :=
  if negb (Z.shiftr (m buf) 4 =? MQTT_PUBLISH) then (- EINVAL, None)
  else
    let dup := Z.shiftr (Z.land (m buf) 8) 3 in
    let qos := Z.shiftr (Z.land (m buf) 6) 1 in
    let retain := Z.land (m buf) 1 in
    match rlen_decode (buf + PACKET_TYPE_SIZE) (u16 (length - PACKET_TYPE_SIZE)) m with
    | None => (- EINVAL, None)
    | Some (rmlen, rmlen_size) =>
        if length <? PACKET_TYPE_SIZE + rmlen_size + rmlen then (- EINVAL, None)
        else
          let offset := u16 (PACKET_TYPE_SIZE + rmlen_size) in
          let topic_len := ntohs (UNALIGNED_GET m (buf + offset)) in
          let offset := u16 (offset + INT_SIZE) in
          if length <? offset + topic_len then (- EINVAL, None)
          else
            let topic := buf + offset in
            let offset := u16 (offset + topic_len) in
            let val_u16 := UNALIGNED_GET m (buf + offset) in
            let '(id, offset) :=
              if (qos =? MQTT_QoS1) || (qos =? MQTT_QoS2)
              then (ntohs val_u16, u16 (offset + PACKET_ID_SIZE)) else (0, offset) in
            (0, Some (mk_publish dup qos retain id topic topic_len (buf + offset) (u16 (length - offset))))
    end.

(** The session flag and the return code of the broker. *)
Definition mqtt_unpack_connack buf (length : Z) m : Z * option (Z * Z) :=
  if length <? CONNACK_SIZE then (- EINVAL, None)
  else if negb (m buf =? Z.shiftl MQTT_CONNACK 4) || negb (m (buf + 1) =? 2) then (- EINVAL, None)
  else if 1 <? m (buf + 2) then (- EINVAL, None)
  else (0, Some (m (buf + 2), m (buf + 3))).

Definition pack_zerolen buf size (pkt_type reserved : Z) m : Z * option Z * memory :=
  if size <? MSG_ZEROLEN_SIZE then (- ENOMEM, None, m)
  else
    let m := <[buf := u8 (Z.shiftl pkt_type 4 + Z.land reserved 15)]> m in
    (0, Some MSG_ZEROLEN_SIZE, <[buf + 1 := 0]> m).

Definition mqtt_pack_pingreq buf size m := pack_zerolen buf size MQTT_PINGREQ 0 m.
Definition mqtt_pack_pingresp buf size m := pack_zerolen buf size MQTT_PINGRESP 0 m.
Definition mqtt_pack_disconnect buf size m := pack_zerolen buf size MQTT_DISCONNECT 0 m.

(** The packet type, the reserved flags and the packet identifier. *)
Definition unpack_pktid buf (length : Z) m : Z * option (Z * Z * Z) :=
  if length <? MSG_PKTID_ONLY_SIZE then (- EINVAL, None)
  else if negb (m (buf + 1) =? PACKET_ID_SIZE) then (- EINVAL, None)
  else (0, Some (Z.shiftr (m buf) 4, Z.land (m buf) 15, ntohs (UNALIGNED_GET m (buf + 2)))).

(** The return code and the packet identifier, which is stored even when the
    type or the flags are not those expected. *)
Definition unpack_pktid_validate buf (length expected_type expected_reserv : Z) m : Z * option Z :=
  match unpack_pktid buf length m with
  | (rc, Some (type, reserved, id)) =>
      if negb (type =? expected_type) || negb (reserved =? expected_reserv)
      then (- EINVAL, Some id) else (0, Some id)
  | (rc, None) => (rc, None)
  end.

Definition mqtt_unpack_puback buf (length : Z) m := unpack_pktid_validate buf length MQTT_PUBACK 0 m.
Definition mqtt_unpack_pubrec buf (length : Z) m := unpack_pktid_validate buf length MQTT_PUBREC 0 m.
Definition mqtt_unpack_pubrel buf (length : Z) m :=
  unpack_pktid_validate buf length MQTT_PUBREL PUBREL_RESERVED m.
Definition mqtt_unpack_pubcomp buf (length : Z) m := unpack_pktid_validate buf length MQTT_PUBCOMP 0 m.
Definition mqtt_unpack_unsuback buf (length : Z) m := unpack_pktid_validate buf length MQTT_UNSUBACK 0 m.

(** The packet type and the reserved flags. *)
Definition unpack_zerolen buf (length : Z) m : Z * option (Z * Z) :=
  if length <? MSG_ZEROLEN_SIZE then (- EINVAL, None)
  else
    let r := Some (Z.shiftr (m buf) 4, Z.land (m buf) 15) in
    if negb (m (buf + 1) =? 0) then (- EINVAL, r) else (0, r).

Definition unpack_zerolen_validate buf (length expected_type expected_reserved : Z) m : Z :=
  match unpack_zerolen buf length m with
  | (rc, r) =>
      if negb (rc =? 0) then rc
      else match r with
           | Some (type, reserved) =>
               if negb (type =? expected_type) || negb (reserved =? expected_reserved) then - EINVAL else 0
           | None => rc
           end
  end.

Definition mqtt_unpack_pingreq buf (length : Z) m := unpack_zerolen_validate buf length MQTT_PINGREQ 0 m.
Definition mqtt_unpack_pingresp buf (length : Z) m := unpack_zerolen_validate buf length MQTT_PINGRESP 0 m.
Definition mqtt_unpack_disconnect buf (length : Z) m :=
  unpack_zerolen_validate buf length MQTT_DISCONNECT 0 m.
End Operations.
End Mqtt.
