(* ===== verification/MqttCodec.v ===== *)
(** * MQTT packets: encoding and decoding

    The packets of MQTT 3.1.1 as lists of bytes; the packers write exactly
    these, and the unpackers recover from them what was packed. *)
From S2P Require Import Prelude Kernel LibcString Bytes Mqtt.
Import Mqtt.

(** ** The remaining length *)
Section RemainingLength.
Implicit Types (m : memory) (a n b buf : Z) (l : list Z).

(** MQTT 2.2.3: seven bits in each byte, the eighth set in all but the last. *)
Definition rlen_bytes n : list Z :=
  if n <=? 127 then [n]
  else if n <=? 16383 then [128 + n `mod` 128; n / 128]
  else [128 + n `mod` 128; 128 + (n / 128) `mod` 128; n / 16384].

(** A fact about every number below a bound, by computation. *)
Lemma below (P : Z -> bool) (bound b : Z) :
  forallb P (seqZ 0 bound) = true -> 0 <= b < bound -> P b = true.
Proof.
  intros Hf Hb. rewrite forallb_forall in Hf. apply Hf, list_elem_of_In, elem_of_seqZ. lia.
Qed.

Lemma more_bit b : 0 <= b < 128 ->
  Z.lor b 128 = 128 + b /\ Z.land (128 + b) 127 = b /\ Z.land (128 + b) 128 = 128 /\
  Z.land b 127 = b /\ Z.land b 128 = 0.
Proof.
  intros Hb. pose proof (below (fun b => (Z.lor b 128 =? 128 + b) && (Z.land (128 + b) 127 =? b)
    && (Z.land (128 + b) 128 =? 128) && (Z.land b 127 =? b) && (Z.land b 128 =? 0)) 128 b eq_refl Hb) as Hc.
  cbn beta in Hc. bool_facts. done.
Qed.

Lemma rlen_size_ok n : 0 <= n <= 65535 -> compute_rlen_size n = Some (len (rlen_bytes n)).
Proof.
  intros Hn. unfold compute_rlen_size, rlen_bytes.
  destruct (Z.leb_spec n 127); [done|]. rewrite (proj2 (Z.leb_le 128 n)) by lia. cbn [andb].
  destruct (Z.leb_spec n 16383); [done|]. rewrite (proj2 (Z.leb_le 16384 n)), (proj2 (Z.leb_le n 2097151)) by lia.
  done.
Qed.

Lemma rlen_len n : 1 <= len (rlen_bytes n) <= 3.
Proof. unfold rlen_bytes. destruct (n <=? 127), (n <=? 16383); cbn; lia. Qed.

Lemma split7 n : 0 <= n -> n = n `mod` 128 + 128 * (n / 128) /\ 0 <= n `mod` 128 < 128 /\ 0 <= n / 128.
Proof.
  intros Hn. pose proof (Z.div_mod n 128 ltac:(lia)). pose proof (Z.mod_pos_bound n 128 ltac:(lia)).
  pose proof (Z.div_pos n 128). lia.
Qed.

Lemma encode_step t buf k i m :
  0 <= k ->
  rlen_encode_loop (S t) buf k i m =
  let m := <[buf + i := if 0 <? k / 128 then 128 + k `mod` 128 else k `mod` 128]> m in
  if 0 <? k / 128 then rlen_encode_loop t buf (k / 128) (u8 (i + 1)) m else m.
Proof.
  intros Hk. cbn [rlen_encode_loop]. rewrite Z.rem_mod_nonneg, Z.quot_div_nonneg by lia.
  destruct (split7 k Hk) as (_ & Hr & _). rewrite (u8_small (k `mod` 128)) by lia.
  by destruct (more_bit (k `mod` 128) Hr) as [-> _].
Qed.

Lemma rlen_encode_ok a l n m m' :
  appended a l m m' -> 0 <= n <= 65535 ->
  appended a (l ++ rlen_bytes n) m (rlen_encode (a + len l) n m').
Proof.
  intros Hm Hn. unfold rlen_encode, rlen_bytes. destruct (split7 n ltac:(lia)) as (E1 & Hr1 & Hq1).
  destruct (split7 (n / 128) Hq1) as (E2 & Hr2 & Hq2).
  destruct (split7 (n / 128 / 128) Hq2) as (E3 & Hr3 & Hq3).
  assert (n / 16384 = n / 128 / 128) as Ed by (rewrite Z.div_div by lia; done).
  set (r1 := n `mod` 128) in *. set (q1 := n / 128) in *. set (r2 := q1 `mod` 128) in *.
  set (q2 := q1 / 128) in *. set (r3 := q2 `mod` 128) in *. set (q3 := q2 / 128) in *.
  rewrite encode_step by lia. fold q1 r1. cbn zeta. apply (appended_byte a l (128 + r1)) in Hm as Hm1.
  destruct (Z.leb_spec n 127).
  { rewrite (proj2 (Z.ltb_ge 0 q1)) by lia. rewrite Z.add_0_r. replace n with r1 by lia. by apply appended_byte. }
  rewrite (proj2 (Z.ltb_lt 0 q1)) by lia. rewrite Z.add_0_r. rewrite encode_step by lia. fold q2 r2. cbn zeta.
  change (u8 (0 + 1)) with 1.
  apply (appended_byte _ _ (128 + r2)) in Hm1 as Hm2.
  destruct (Z.leb_spec n 16383).
  { rewrite (proj2 (Z.ltb_ge 0 q2)) by lia. replace q1 with r2 by lia.
    apply (appended_byte _ _ r2) in Hm1. rewrite <- app_assoc, length_app in Hm1. cbn in Hm1.
    by replace (a + len l + 1) with (a + Z.of_nat (length l + 1)) by lia. }
  rewrite (proj2 (Z.ltb_lt 0 q2)) by lia. rewrite encode_step by lia. fold q3 r3. cbn zeta.
  change (u8 (1 + 1)) with 2. rewrite (proj2 (Z.ltb_ge 0 q3)) by lia. rewrite Ed. replace q2 with r3 by lia.
  apply (appended_byte _ _ r3) in Hm2. rewrite <- !app_assoc, !length_app in Hm2. cbn in Hm2.
  replace (a + len l + 1) with (a + Z.of_nat (length l + 1)) by lia.
  by replace (a + len l + 2) with (a + Z.of_nat (length l + 2)) by lia.
Qed.

(** Every packet starts with its type and the length of its body. *)
Lemma packet_start buf h n m :
  0 <= n <= 65535 ->
  appended buf ([h] ++ rlen_bytes n) m (rlen_encode (buf + 1) n (<[buf := h]> m)) /\
  len ([h] ++ rlen_bytes n) = 1 + len (rlen_bytes n).
Proof.
  intros Hn. split; [|rewrite length_app; cbn [length]; lia].
  exact (rlen_encode_ok buf [h] n m _ (appended_first buf h m) Hn).
Qed.

Lemma decode_more t buf size v k i b m :
  m (buf + i) = 128 + b -> 0 <= b < 128 -> 0 <= i <= size -> i < 4 -> 0 <= v + b * k < 65536 ->
  rlen_decode_loop (S t) buf size v k i m =
  rlen_decode_loop t buf size (v + b * k) (u16 (k * 128)) (i + 1) m.
Proof.
  intros Hm Hb Hi H4 Hv. cbn [rlen_decode_loop]. rewrite (proj2 (Z.ltb_ge size i)) by lia. rewrite Hm.
  destruct (more_bit b Hb) as (_ & -> & -> & _). cbn [Z.eqb negb].
  by rewrite (u16_small (v + _)), (u16_small (i + 1)) by lia.
Qed.

Lemma decode_last t buf size v k i b m :
  m (buf + i) = b -> 0 <= b < 128 -> 0 <= i <= size -> i < 4 -> 0 <= v + b * k < 65536 ->
  rlen_decode_loop (S t) buf size v k i m = Some (v + b * k, i + 1).
Proof.
  intros Hm Hb Hi H4 Hv. cbn [rlen_decode_loop]. rewrite (proj2 (Z.ltb_ge size i)) by lia. rewrite Hm.
  destruct (more_bit b Hb) as (_ & _ & _ & -> & ->). cbn [Z.eqb negb].
  by rewrite (u16_small (v + _)), (u16_small (i + 1)) by lia.
Qed.

Lemma rlen_decode_ok a n size m l :
  found m a (rlen_bytes n ++ l) -> 0 <= n <= 65535 -> len (rlen_bytes n) <= size + 1 ->
  rlen_decode a size m = Some (n, len (rlen_bytes n)) /\ found m (a + len (rlen_bytes n)) l.
Proof.
  intros Hf Hn Hs. rewrite found_app in Hf. destruct Hf as [Hf Hl]. split; [|done]. clear Hl.
  unfold rlen_decode. change (Z.to_nat ENCLENBUF_MAX_SIZE) with 4%nat. unfold rlen_bytes in *.
  destruct (split7 n ltac:(lia)) as (E1 & Hr1 & Hq1). destruct (split7 (n / 128) Hq1) as (E2 & Hr2 & Hq2).
  assert (n / 16384 = n / 128 / 128) as Ed by (rewrite Z.div_div by lia; done). rewrite Ed in *.
  destruct (Z.leb_spec n 127) as [Hc|Hc]; [|destruct (Z.leb_spec n 16383) as [Hc'|Hc']];
    cbn [length] in *; rewrite !found_cons in Hf.
  - destruct Hf as [H0 _].
    rewrite (decode_last _ a size 0 1 0 n) by (rewrite ?Z.add_0_r; done || lia). do 2 f_equal. lia.
  - destruct Hf as (H0 & H1 & _).
    rewrite (decode_more _ a size 0 1 0 (n `mod` 128)) by (rewrite ?Z.add_0_r; done || lia).
    change (u16 (1 * 128)) with 128. rewrite (decode_last _ a size _ _ _ (n / 128)) by (done || lia).
    do 2 f_equal. lia.
  - destruct Hf as (H0 & H1 & H2 & _). rewrite <- Z.add_assoc in H2.
    rewrite (decode_more _ a size 0 1 0 (n `mod` 128)) by (rewrite ?Z.add_0_r; done || lia).
    change (u16 (1 * 128)) with 128.
    rewrite (decode_more _ a size _ _ _ ((n / 128) `mod` 128)) by (done || lia).
    change (u16 (128 * 128)) with 16384.
    rewrite (decode_last _ a size _ _ _ (n / 128 / 128)) by (done || lia). do 2 f_equal. lia.
Qed.
End RemainingLength.

(** ** Strings and counted values *)
Section Values.
Implicit Types (m : memory) (buf a s n off : Z) (l v : list Z) (fuel : nat).

(** MQTT 1.5.3: a value behind its length. *)
Definition field v : list Z := be16 (len v) ++ v.

(** The string [l] is at [s]; the null pointer stands for the empty string. *)
Definition string_at m s l : Prop :=
  (s <> 0 /\ cstr m s l \/ s = 0 /\ l = []) /\ len l <= 65535.

Lemma string_read m s l : string_at m s l -> read_bytes m s (len l) = l.
Proof.
  intros [[[_ Hs]|[_ ->]] _]; [|done]. apply found_read. intros i Hi. apply cstr_lookup; [done|lia].
Qed.

Lemma mqtt_strlen_ok fuel m s l :
  string_at m s l -> (length l <= fuel)%nat -> mqtt_strlen fuel s m = Some (len l).
Proof.
  intros [Hs Hl] Hf. unfold mqtt_strlen. destruct Hs as [[Hs0 Hs]|[-> ->]]; [|done].
  rewrite (proj2 (Z.eqb_neq _ _) Hs0). cbn [negb].
  rewrite (strlen_ok fuel m s l Hs Hf) by (unfold UINT32_MAX; lia). cbn [mbind option_bind].
  by rewrite u16_small by lia.
Qed.

Lemma string_ext m m' s l :
  (forall x, s <= x <= s + len l -> m' x = m x) -> string_at m s l -> string_at m' s l.
Proof.
  intros He [Hs Hl]. split; [|done]. destruct Hs as [[H0 Hs]|Hs]; [left|by right].
  split; [done|]. by eapply cstr_ext.
Qed.

Lemma be16_len n : len (be16 n) = 2.
Proof. done. Qed.

Lemma field_len v : len (field v) = 2 + len v.
Proof. unfold field. rewrite length_app. cbn [be16 length]. lia. Qed.

Lemma read_len m a n : 0 <= n -> len (read_bytes m a n) = n.
Proof. intros Hn. unfold read_bytes. rewrite length_fmap, length_seqZ. lia. Qed.

Lemma put_value_ok buf l s n m m' :
  appended buf l m m' -> 0 <= n -> len l + (2 + n) <= 65535 -> disjoint_from buf (len l + 2) s n ->
  exists m'', put_value buf (len l) s n m' = (len l + (2 + n), m'') /\
    appended buf (l ++ field (read_bytes m s n)) m m''.
Proof.
  intros Hm Hn Hmax Hd. unfold put_value, INT_SIZE.
  apply (appended_put16 buf l n) in Hm; [|lia].
  assert (len (l ++ be16 n) = len l + 2) as El by (rewrite length_app; cbn; lia).
  apply (appended_memcpy _ _ s n) in Hm; [|lia|by rewrite El].
  rewrite (u16_small (len l + 2)), u16_small by lia. eexists. split; [f_equal; lia|].
  unfold field. rewrite read_len by done. rewrite app_assoc. by rewrite <- El.
Qed.

Lemma get_field m a v l :
  found m a (field v ++ l) -> len v <= 65535 ->
  ntohs (UNALIGNED_GET m a) = len v /\ read_bytes m (a + 2) (len v) = v /\ found m (a + (2 + len v)) l.
Proof.
  intros Hf Hv. unfold field in Hf. rewrite <- app_assoc in Hf. apply found_be16 in Hf; [|lia].
  destruct Hf as [-> Hf]. rewrite found_app in Hf. destruct Hf as [Hf Hl].
  split_and!; [done|by apply found_read|]. by rewrite Z.add_assoc.
Qed.
(** Flags and optional parts. *)
Definition flag (z : Z) : Z := if z =? 0 then 0 else 1.
Definition present (z : Z) : bool := negb (z =? 0).
Definition optional (b : bool) l : list Z := if b then l else [].

Lemma optional_len b l : len (optional b l) = if b then len l else 0.
Proof. by destruct b. Qed.

(** A value found in the packet. *)
Definition value m (a n : Z) l : Prop := n = len l /\ read_bytes m a n = l.
End Values.

(** ** The short messages *)
Section Short.
Implicit Types (m : memory) (buf size id type reserved : Z) (qs : list Z).

(** MQTT 3.4 and its like, MQTT 3.12 and its like, MQTT 3.2. *)
Definition pktid_packet type reserved id : list Z := [16 * type + reserved; 2] ++ be16 id.
Definition zerolen_packet type : list Z := [16 * type; 0].
Definition connack_packet (session rc : Z) : list Z := [32; 2; flag session; rc].

Lemma head_byte type reserved :
  0 <= type < 16 -> 0 <= reserved < 16 ->
  let h := u8 (Z.shiftl type 4 + Z.land reserved 15) in
  h = 16 * type + reserved /\ Z.shiftr h 4 = type /\ Z.land h 15 = reserved.
Proof.
  intros Ht Hr. cbn zeta.
  pose proof (below (fun x => let t := x / 16 in let r := x `mod` 16 in
    let h := u8 (Z.shiftl t 4 + Z.land r 15) in
    (h =? 16 * t + r) && (Z.shiftr h 4 =? t) && (Z.land h 15 =? r)) 256 (16 * type + reserved) eq_refl) as Hb.
  cbn beta zeta in Hb. rewrite (Z.mul_comm 16), Z.div_add_l, Z.div_small, Z.add_0_r in Hb by lia.
  rewrite Z.add_comm, Z.mod_add, Z.mod_small in Hb by lia. specialize (Hb ltac:(lia)). bool_facts. done.
Qed.

(** The messages that carry a packet identifier only, and those that carry
    nothing, are recovered by the unpacker of their type and refused by the
    unpackers of the other types. *)
Lemma pktid_roundtrip buf size type reserved id m :
  0 <= type < 16 -> 0 <= reserved < 16 -> 0 <= id <= 65535 -> 4 <= size ->
  exists m', pack_pkt_id buf size type reserved id m = (0, Some 4, m') /\
    appended buf (pktid_packet type reserved id) m m' /\
    unpack_pktid_validate buf 4 type reserved m' = (0, Some id) /\
    forall t r, t <> type \/ r <> reserved -> unpack_pktid_validate buf 4 t r m' = (- EINVAL, Some id).
Proof.
  intros Ht Hr Hid Hs. unfold pack_pkt_id, MSG_PKTID_ONLY_SIZE, PACKET_ID_SIZE.
  rewrite (proj2 (Z.ltb_ge size 4)) by lia. destruct (head_byte type reserved Ht Hr) as (Eh & Et & Er).
  rewrite Eh in *. set (h := 16 * type + reserved) in *. eexists. split; [done|].
  assert (Ha : appended buf (pktid_packet type reserved id) m
    (UNALIGNED_PUT (htons id) (buf + 2) (<[buf + 1 := 2]> (<[buf := h]> m)))).
  { unfold pktid_packet. fold h. apply appended_put16_at; [|cbn [length]; lia|lia].
    change [h; 2] with ([h] ++ [2]). apply appended_byte_at; [apply appended_first|done]. }
  split; [done|]. set (m' := UNALIGNED_PUT _ _ _) in *. pose proof (appended_found _ _ _ _ Ha) as Hf.
  unfold pktid_packet in Hf. cbn [app] in Hf. rewrite !found_cons in Hf. destruct Hf as (F0 & F1 & Hf).
  rewrite <- (app_nil_r (be16 id)) in Hf. apply found_be16 in Hf; [|lia]. destruct Hf as [Fid _].
  replace (buf + 1 + 1) with (buf + 2) in Fid by lia.
  assert (Eu : unpack_pktid buf 4 m' = (0, Some (type, reserved, id))).
  { unfold unpack_pktid. cbn [Z.ltb Z.compare Pos.compare Pos.compare_cont MSG_PKTID_ONLY_SIZE].
    rewrite F1. cbn [PACKET_ID_SIZE Z.eqb Pos.eqb negb]. fold h in F0. by rewrite F0, Et, Er, Fid. }
  unfold unpack_pktid_validate. rewrite Eu. rewrite !Z.eqb_refl. split; [done|].
  intros t r Htr. by rewrite (proj2 (orb_true_iff (negb (type =? t)) (negb (reserved =? r))))
    by (rewrite !negb_true_iff, !Z.eqb_neq; lia).
Qed.

Lemma zerolen_roundtrip buf size type m :
  0 <= type < 16 -> 2 <= size ->
  exists m', pack_zerolen buf size type 0 m = (0, Some 2, m') /\
    appended buf (zerolen_packet type) m m' /\ unpack_zerolen_validate buf 2 type 0 m' = 0 /\
    forall t, t <> type -> unpack_zerolen_validate buf 2 t 0 m' = - EINVAL.
Proof.
  intros Ht Hs. unfold pack_zerolen, MSG_ZEROLEN_SIZE. rewrite (proj2 (Z.ltb_ge size 2)) by lia.
  destruct (head_byte type 0 Ht ltac:(lia)) as (Eh & Et & Er). rewrite Eh in *. set (h := 16 * type + 0) in *.
  eexists. split; [done|].
  assert (Ha : appended buf (zerolen_packet type) m (<[buf + 1 := 0]> (<[buf := h]> m))).
  { unfold zerolen_packet. replace (16 * type) with h by lia. change [h; 0] with ([h] ++ [0]).
    apply appended_byte_at; [apply appended_first|done]. }
  split; [done|]. set (m' := <[buf + 1 := 0]> _) in *. pose proof (appended_found _ _ _ _ Ha) as Hf.
  unfold zerolen_packet in Hf. rewrite !found_cons in Hf. destruct Hf as (F0 & F1 & _).
  assert (Eu : unpack_zerolen buf 2 m' = (0, Some (type, 0))).
  { unfold unpack_zerolen. cbn [Z.ltb Z.compare Pos.compare Pos.compare_cont MSG_ZEROLEN_SIZE].
    rewrite F0, F1. replace (16 * type) with h by lia. by rewrite Et, Er. }
  unfold unpack_zerolen_validate. rewrite Eu. cbn [Z.eqb negb]. rewrite Z.eqb_refl. split; [done|].
  intros t Hne. by rewrite (proj2 (Z.eqb_neq type t)) by congruence.
Qed.

Lemma connack_roundtrip buf size session rc m :
  0 <= rc < 256 -> 4 <= size ->
  exists m', mqtt_pack_connack buf size session rc m = (0, Some 4, m') /\
    appended buf (connack_packet session rc) m m' /\
    mqtt_unpack_connack buf 4 m' = (0, Some (flag session, rc)).
Proof.
  intros Hrc Hs. unfold mqtt_pack_connack, CONNACK_SIZE. rewrite (proj2 (Z.ltb_ge size 4)) by lia.
  rewrite land_255, (Z.mod_small rc) by lia.
  replace (if negb (session =? 0) then 1 else 0) with (flag session) by (unfold flag; by destruct (session =? 0)).
  eexists. split; [done|].
  assert (Ha : appended buf (connack_packet session rc) m
    (<[buf + 3 := rc]> (<[buf + 2 := flag session]> (<[buf + 1 := 2]> (<[buf := 32]> m))))).
  { change (connack_packet session rc) with ((([32] ++ [2]) ++ [flag session]) ++ [rc]).
    repeat (apply appended_byte_at; [|done]). apply appended_first. }
  split; [exact Ha|]. pose proof (appended_found _ _ _ _ Ha) as Hf. unfold connack_packet in Hf.
  rewrite !found_cons in Hf. destruct Hf as (F0 & F1 & F2 & F3 & _). rewrite <- !Z.add_assoc in *.
  change (Z.shiftl MQTT_CONNACK 4) with 32. set (m' := <[buf + 3 := rc]> _) in *.
  unfold mqtt_unpack_connack. cbn [Z.ltb Z.compare Pos.compare Pos.compare_cont CONNACK_SIZE].
  assert (G2 : m' (buf + 2) = flag session) by (rewrite <- F2; f_equal; lia).
  assert (G3 : m' (buf + 3) = rc) by (rewrite <- F3; f_equal; lia).
  rewrite F0, F1, G2, G3. cbn. unfold flag. by destruct (session =? 0).
Qed.
End Short.

(** ** PUBLISH *)
Section Publish.
Implicit Types (m : memory) (buf size : Z) (tl pl : list Z) (p : mqtt_publish_msg) (fuel : nat).

(** MQTT 3.3 *)
Definition publish_body p tl pl : list Z :=
  field tl ++ (if 0 <? qos p then be16 (pkt_id p) else []) ++ pl.
Definition publish_packet p tl pl : list Z :=
  [48 + 8 * flag (dup p) + 2 * qos p + flag (retain p)]
  ++ rlen_bytes (len (publish_body p tl pl)) ++ publish_body p tl pl.

(** A message that can be packed at [buf]: the topic [tl] and the payload [pl] do
    not overlap the packet, which is no longer than a 16-bit length can tell. *)
Record publish_ok m buf p tl pl : Prop := {
  po_qos : 0 <= qos p <= 2;
  po_id : 0 <= pkt_id p <= 65535;
  po_topic : string_at m (topic p) tl;
  po_payload : read_bytes m (msg p) (msg_len p) = pl;
  po_len : 0 <= msg_len p;
  po_total : len (publish_packet p tl pl) <= 65535;
  po_topic_apart : disjoint_from buf (len (publish_packet p tl pl)) (topic p) (len tl);
  po_payload_apart : disjoint_from buf (len (publish_packet p tl pl)) (msg p) (msg_len p)
}.

Lemma publish_head p :
  0 <= qos p <= 2 ->
  u8 (Z.lor (Z.shiftl MQTT_PUBLISH 4) (Z.lor (Z.shiftl (if negb (dup p =? 0) then 1 else 0) 3)
    (Z.lor (Z.shiftl (qos p) 1) (if negb (retain p =? 0) then 1 else 0))))
  = 48 + 8 * flag (dup p) + 2 * qos p + flag (retain p).
Proof.
  intros Hq. unfold flag. assert (qos p = 0 \/ qos p = 1 \/ qos p = 2) as [->|[->| ->]] by lia;
    destruct (dup p =? 0), (retain p =? 0); reflexivity.
Qed.

Lemma publish_body_len p tl pl :
  len (publish_body p tl pl) = 2 + len tl + (if 0 <? qos p then 2 else 0) + len pl.
Proof.
  unfold publish_body. rewrite !length_app. pose proof (field_len tl).
  destruct (0 <? qos p); cbn [be16 length]; lia.
Qed.

Lemma publish_packet_len p tl pl :
  len (publish_packet p tl pl) = 1 + len (rlen_bytes (len (publish_body p tl pl))) + len (publish_body p tl pl).
Proof. unfold publish_packet. rewrite !length_app. cbn [length]. lia. Qed.

Lemma pack_publish_ok fuel buf size p tl pl m :
  publish_ok m buf p tl pl -> (length tl <= fuel)%nat ->
  let total := len (publish_packet p tl pl) in
  if total <=? size
  then exists m', mqtt_pack_publish fuel buf size p m = Some (0, Some total, set_topic_len (len tl) p, m') /\
         appended buf (publish_packet p tl pl) m m'
  else mqtt_pack_publish fuel buf size p m = Some (- ENOMEM, None, set_topic_len (len tl) p, m).
Proof.
  intros [Hq Hid Ht Hp Hl Hmax Hd1 Hd2] Hfuel. cbn zeta. pose proof (publish_packet_len p tl pl) as Etot.
  pose proof (publish_body_len p tl pl) as Ebody. pose proof (rlen_len (len (publish_body p tl pl))) as Hrl.
  assert (len pl = msg_len p) as Epl by (rewrite <- Hp; by apply read_len).
  unfold mqtt_pack_publish, MQTT_QoS0, MQTT_QoS2. rewrite (proj2 (Z.ltb_ge (qos p) 0)), (proj2 (Z.ltb_ge 2 (qos p))) by lia.
  cbn [orb]. rewrite (mqtt_strlen_ok fuel m _ tl Ht Hfuel). cbn [mbind option_bind].
  cbn [set_topic_len topic_len qos msg_len dup retain topic pkt_id msg]. unfold INT_SIZE, PACKET_ID_SIZE.
  set (body := publish_body p tl pl) in *.
  replace (u16 (2 + len tl + (if 0 <? qos p then 2 else 0) + msg_len p)) with (len body)
    by (rewrite u16_small; destruct (0 <? qos p); lia).
  rewrite rlen_size_ok by lia. unfold PACKET_TYPE_SIZE.
  replace (size <? 1 + len (rlen_bytes (len body)) + len body) with (negb (len (publish_packet p tl pl) <=? size))
    by (rewrite Etot; destruct (Z.leb_spec (1 + len (rlen_bytes (len body)) + len body) size), (Z.ltb_spec size (1 + len (rlen_bytes (len body)) + len body)); try done; lia).
  destruct (Z.leb_spec (len (publish_packet p tl pl)) size) as [Hfit|Hfit]; cbn [negb]; [|done].
  rewrite publish_head by done. set (h := 48 + 8 * flag (dup p) + 2 * qos p + flag (retain p)).
  pose proof (packet_start buf h (len body) m ltac:(lia)) as [A2 E2].
  set (m2 := rlen_encode (buf + 1) _ _) in *. set (l2 := [h] ++ rlen_bytes (len body)) in *.
  rewrite (u16_small (1 + _)) by lia. rewrite <- E2.
  destruct (put_value_ok buf l2 (topic p) (len tl) m m2 A2) as (m3 & E3 & A3);
    [lia|destruct (0 <? qos p); lia|unfold disjoint_from in *; destruct (0 <? qos p); lia|].
  rewrite E3, (string_read m (topic p) tl Ht) in *. set (l3 := l2 ++ field tl) in *.
  assert (len l3 = len l2 + (2 + len tl)) as El3 by (unfold l3; rewrite length_app; pose proof (field_len tl); lia).
  rewrite <- El3.
  set (ids := if 0 <? qos p then be16 (pkt_id p) else []) in *.
  assert (exists m4, (if 0 <? qos p then (u16 (len l3 + 2), UNALIGNED_PUT (htons (pkt_id p)) (buf + len l3) m3)
    else (len l3, m3)) = (len (l3 ++ ids), m4) /\ appended buf (l3 ++ ids) m m4) as (m4 & -> & A4).
  { unfold ids. destruct (0 <? qos p).
    - eexists. split; [|apply appended_put16; [done|lia]]. rewrite length_app, u16_small by lia.
      f_equal. cbn [be16 length]. lia.
    - rewrite app_nil_r. by exists m3. }
  assert (len (l3 ++ ids) = len l3 + (if 0 <? qos p then 2 else 0)) as El4
    by (rewrite length_app; unfold ids; destruct (0 <? qos p); cbn [be16 length]; lia).
  apply (appended_memcpy _ _ (msg p) (msg_len p)) in A4; [|done|unfold disjoint_from in *; lia].
  rewrite Hp in A4. eexists. split.
  - rewrite (u16_small (len (l3 ++ ids) + _)) by lia. replace (len (l3 ++ ids) + msg_len p) with (len (publish_packet p tl pl)) by lia.
    reflexivity.
  - assert (publish_packet p tl pl = (l3 ++ ids) ++ pl) as ->; [|done].
    unfold publish_packet, l3, l2, body. by rewrite <- !app_assoc.
Qed.

Lemma publish_head_bits p :
  0 <= qos p <= 2 ->
  let h := 48 + 8 * flag (dup p) + 2 * qos p + flag (retain p) in
  Z.shiftr h 4 = MQTT_PUBLISH /\ Z.shiftr (Z.land h 8) 3 = flag (dup p) /\
  Z.shiftr (Z.land h 6) 1 = qos p /\ Z.land h 1 = flag (retain p).
Proof.
  intros Hq. cbn zeta. unfold flag. assert (qos p = 0 \/ qos p = 1 \/ qos p = 2) as [->|[->| ->]] by lia;
    destruct (dup p =? 0), (retain p =? 0); by vm_compute.
Qed.

Lemma unpack_publish_ok buf p tl pl m :
  0 <= qos p <= 2 -> 0 <= pkt_id p <= 65535 -> len (publish_packet p tl pl) <= 65535 ->
  found m buf (publish_packet p tl pl) ->
  exists ta ma, mqtt_unpack_publish buf (len (publish_packet p tl pl)) m =
      (0, Some (mk_publish (flag (dup p)) (qos p) (flag (retain p))
         (if 0 <? qos p then pkt_id p else 0) ta (len tl) ma (len pl))) /\
    read_bytes m ta (len tl) = tl /\ read_bytes m ma (len pl) = pl.
Proof.
  intros Hq Hid Hmax Hf. pose proof (publish_packet_len p tl pl) as Etot.
  pose proof (publish_body_len p tl pl) as Ebody. pose proof (rlen_len (len (publish_body p tl pl))) as Hrl.
  set (total := len (publish_packet p tl pl)) in *. unfold publish_packet in Hf.
  set (body := publish_body p tl pl) in *. cbn [app] in Hf. rewrite found_cons in Hf. destruct Hf as [Hh Hf].
  unfold mqtt_unpack_publish. rewrite Hh. destruct (publish_head_bits p Hq) as (-> & -> & -> & ->).
  rewrite Z.eqb_refl. cbn [negb]. unfold PACKET_TYPE_SIZE, INT_SIZE, PACKET_ID_SIZE, MQTT_QoS1, MQTT_QoS2.
  rewrite (u16_small (total - 1)) by (destruct (0 <? qos p); lia).
  destruct (rlen_decode_ok (buf + 1) (len body) (total - 1) m body Hf) as [-> Hb];
    [destruct (0 <? qos p); lia|destruct (0 <? qos p); lia|].
  set (rb := len (rlen_bytes (len body))) in *.
  rewrite (proj2 (Z.ltb_ge total _)) by lia. rewrite (u16_small (1 + rb)) by lia.
  rewrite <- Z.add_assoc in Hb. unfold body, publish_body in Hb.
  apply get_field in Hb; [|destruct (0 <? qos p); lia]. destruct Hb as (-> & Htl & Hb).
  rewrite (u16_small (1 + rb + 2)) by (destruct (0 <? qos p); lia).
  rewrite (proj2 (Z.ltb_ge total _)) by (destruct (0 <? qos p); lia).
  rewrite (u16_small (1 + rb + 2 + len tl)) by (destruct (0 <? qos p); lia).
  destruct (Z.ltb_spec 0 (qos p)) as [Hp|Hp].
  - rewrite (proj2 (orb_true_iff (qos p =? 1) (qos p =? 2))) by (rewrite !Z.eqb_eq; lia).
    apply found_be16 in Hb; [|lia]. destruct Hb as [Hi Hb].
    replace (buf + (1 + rb + 2 + len tl)) with (buf + (1 + rb) + (2 + len tl)) by lia. rewrite Hi.
    rewrite (u16_small (_ + 2)), u16_small by lia. eexists _, _. split_and!.
    + do 3 f_equal. lia.
    + by rewrite Z.add_assoc.
    + apply found_read. by replace (buf + (1 + rb + 2 + len tl + 2)) with (buf + (1 + rb) + (2 + len tl) + 2) by lia.
  - rewrite (proj2 (orb_false_iff (qos p =? 1) (qos p =? 2))) by (rewrite !Z.eqb_neq; lia).
    rewrite u16_small by lia. eexists _, _. split_and!.
    + do 3 f_equal. lia.
    + by rewrite Z.add_assoc.
    + apply found_read. by replace (buf + (1 + rb + 2 + len tl)) with (buf + (1 + rb) + (2 + len tl)) by lia.
Qed.

(** C30: packing a PUBLISH message into a buffer, for packets of at most 65535 bytes
    (the size of a longer one wraps, [publish_size_wraps]). When the packet fits, exactly the
    bytes the standard prescribes are written, at the start of the buffer and
    nowhere else, and unpacking them recovers the flags, the quality of service,
    the packet identifier, the topic and the payload; when it does not fit, the
    call fails with -ENOMEM and writes nothing; a bad quality of service is
    refused with -EINVAL. *)
Theorem mqtt_publish_roundtrip fuel buf size p tl pl m :
  publish_ok m buf p tl pl -> (length tl <= fuel)%nat ->
  let packet := publish_packet p tl pl in
  (forall q, qos q < 0 \/ 2 < qos q -> mqtt_pack_publish fuel buf size q m = Some (- EINVAL, None, q, m)) /\
  (size < len packet -> exists p', mqtt_pack_publish fuel buf size p m = Some (- ENOMEM, None, p', m)) /\
  (len packet <= size ->
     exists p' m' ta ma, mqtt_pack_publish fuel buf size p m = Some (0, Some (len packet), p', m') /\
       read_bytes m' buf (len packet) = packet /\
       (forall x, x < buf \/ buf + len packet <= x -> m' x = m x) /\
       mqtt_unpack_publish buf (len packet) m' =
         (0, Some (mk_publish (flag (dup p)) (qos p) (flag (retain p))
            (if 0 <? qos p then pkt_id p else 0) ta (len tl) ma (len pl))) /\
       read_bytes m' ta (len tl) = tl /\ read_bytes m' ma (len pl) = pl).
Proof.
  intros Hok Hf. cbn zeta. pose proof (pack_publish_ok fuel buf size p tl pl m Hok Hf) as Hp. cbn zeta in Hp.
  split_and!.
  - intros q Hq. unfold mqtt_pack_publish, MQTT_QoS0, MQTT_QoS2.
    by rewrite (proj2 (orb_true_iff (qos q <? 0) (2 <? qos q))) by (rewrite !Z.ltb_lt; lia).
  - intros Hs. rewrite (proj2 (Z.leb_gt _ _) Hs) in Hp. by eexists.
  - intros Hs. rewrite (proj2 (Z.leb_le _ _) Hs) in Hp. destruct Hp as (m' & E & Ha).
    pose proof (appended_found _ _ _ _ Ha) as Hfd. destruct Hok.
    destruct (unpack_publish_ok buf p tl pl m') as (ta & ma & Eu & Ht & Hpl); [done..|].
    exists (set_topic_len (len tl) p), m', ta, ma. split_and!; [done|by apply found_read| |done..].
    intros x Hx. by eapply appended_out.
Qed.
(** A topic at 100 and a payload at 200. *)
Definition publish_memory : memory :=
  fun a => if a <? 200 then nth (Z.to_nat (a - 100)) [97; 47; 98] 0 else nth (Z.to_nat (a - 200)) [1; 2; 3; 4] 0.
Definition publish_message : mqtt_publish_msg := mk_publish 0 1 1 258 100 0 200 4.

Lemma mqtt_publish_roundtrip_witness :
  exists p' m' ta ma,
    mqtt_pack_publish 3 1000 64 publish_message publish_memory = Some (0, Some 13, p', m') /\
    read_bytes m' 1000 13 = [51; 11; 0; 3; 97; 47; 98; 1; 2; 1; 2; 3; 4] /\
    mqtt_unpack_publish 1000 13 m' = (0, Some (mk_publish 0 1 1 258 ta 3 ma 4)) /\
    read_bytes m' ta 3 = [97; 47; 98] /\ read_bytes m' ma 4 = [1; 2; 3; 4].
Proof.
  destruct (mqtt_publish_roundtrip 3 1000 64 publish_message [97; 47; 98] [1; 2; 3; 4] publish_memory)
    as (_ & _ & H).
  - split; try (vm_compute; split; congruence); try reflexivity; try (vm_compute; congruence).
    + split; [left|vm_compute; congruence]. split; [discriminate|]. repeat split; discriminate.
    + right. vm_compute. congruence.
    + right. vm_compute. congruence.
  - simpl. lia.
  - destruct H as (p' & m' & ta & ma & E & R & _ & H); [vm_compute; congruence|].
    exists p', m', ta, ma. split; [exact E|]. split; [exact R|exact H].
Defined.

(** The size of a packet is computed in 16 bits: with a payload of 65535 bytes and
    no topic it is taken for 3, so that every buffer of at least 3 bytes is
    accepted and the payload is copied over what is behind it. *)
Lemma publish_size_wraps buf size src m :
  0 <= buf -> 3 <= size -> disjoint_from buf 65539 src 65535 ->
  exists p' m', mqtt_pack_publish 0 buf size (mk_publish 0 0 0 0 0 0 src 65535) m = Some (0, Some 3, p', m') /\
    forall i, 4 <= i < 65539 -> m' (buf + i) = m (src + (i - 4)).
Proof.
  intros Hb Hs Hd. unfold mqtt_pack_publish. cbn [qos topic mqtt_strlen Z.eqb negb mbind option_bind].
  change (mqtt_strlen 0 0 m) with (Some 0).
  cbn [mbind option_bind set_topic_len topic_len msg_len qos topic dup retain msg pkt_id].
  change ((0 <? MQTT_QoS0) || (MQTT_QoS2 <? 0)) with false. change (MQTT_QoS0 <? 0) with false.
  cbv iota. change (u16 (INT_SIZE + 0 + 0 + 65535)) with 1. change (compute_rlen_size 1) with (Some 1). cbv iota.
  change (PACKET_TYPE_SIZE + 1 + 1) with 3. rewrite (proj2 (Z.ltb_ge size 3)) by lia.
  change (u16 (PACKET_TYPE_SIZE + 1)) with 2.
  pose proof (packet_start buf 48 1 m ltac:(lia)) as [A _]. change (u8 _) with 48. change PACKET_TYPE_SIZE with 1.
  set (m1 := rlen_encode _ _ _) in *.
  destruct (put_value_ok buf ([48] ++ rlen_bytes 1) 0 0 m m1 A) as (m2 & E2 & A2);
    [lia|vm_compute; congruence|right; lia|].
  change (len ([48] ++ rlen_bytes 1)) with 2 in E2. rewrite E2. eexists _, _. split; [reflexivity|].
  intros i Hi. change (2 + (2 + 0)) with 4. rewrite memcpy_in by lia.
  replace (src + (buf + i - (buf + 4))) with (src + (i - 4)) by lia.
  apply (appended_out _ _ _ _ _ A2). unfold disjoint_from in Hd. change (len _) with 4. lia.
Qed.

(** A PUBLISH packet of quality 1 that ends behind its topic, without the packet
    identifier it announces, is accepted, with a payload of 65534 bytes. *)
Lemma publish_without_identifier :
  mqtt_unpack_publish 0 5 (fun a => nth (Z.to_nat a) [50; 3; 0; 1; 97] 0) =
  (0, Some (mk_publish 0 1 0 0 4 1 7 65534)).
Proof. done. Qed.
End Publish.
