(* ===== verification/MqttConnect.v ===== *)
(** * MQTT packets: CONNECT

    The packer of CONNECT messages writes the bytes the standard prescribes, and
    the unpacker recovers the message from them. *)
From S2P Require Import Prelude Kernel LibcString Bytes Mqtt MqttCodec.
Import Mqtt.

(** Arithmetic with optional parts. *)
Ltac if_lia :=
  repeat match goal with H : context [if ?b then _ else _] |- _ => destruct b end; try discriminate; lia.

Section Connect.
Implicit Types (m : memory) (buf size : Z) (cl wt wm un pw l v : list Z) (c : mqtt_connect_msg) (fuel : nat).

(** The strings and values of a message. *)
Record connect_values := mk_values { v_client : list Z; v_topic : list Z; v_will : list Z; v_user : list Z; v_pass : list Z }.
Implicit Type vs : connect_values.

(** MQTT 3.1 *)
Definition connect_flag_byte c : Z :=
  128 * b2z (present (user_name c)) + 64 * b2z (present (password c)) + 32 * b2z (present (will_retain c))
  + 8 * will_qos c + 4 * b2z (present (will_flag c)) + 2 * b2z (present (clean_session c)).
Definition connect_head c : list Z := [0; 4; 77; 81; 84; 84; 4; connect_flag_byte c] ++ be16 (keep_alive c).
Definition connect_fields c vs : list Z :=
  field (v_client vs)
  ++ optional (present (will_flag c)) (field (v_topic vs) ++ field (v_will vs))
  ++ optional (present (user_name c)) (field (v_user vs))
  ++ optional (present (password c)) (field (v_pass vs)).
Definition connect_body c vs : list Z := connect_head c ++ connect_fields c vs.
Definition connect_packet c vs : list Z :=
  [16] ++ rlen_bytes (len (connect_body c vs)) ++ connect_body c vs.

(** A message that can be packed at [buf]: its strings and values do not overlap
    the packet, and a password is given exactly when its length is not 0. *)
Record connect_ok m buf c vs : Prop := {
  co_qos : 0 <= will_qos c <= 3;
  co_keep : 0 <= keep_alive c <= 65535;
  co_client : string_at m (client_id c) (v_client vs);
  co_topic : present (will_flag c) = true -> string_at m (will_topic c) (v_topic vs);
  co_will : 0 <= will_msg_len c /\ read_bytes m (will_msg c) (will_msg_len c) = v_will vs;
  co_user : present (user_name c) = true -> string_at m (user_name c) (v_user vs);
  co_pass : 0 <= password_len c /\ read_bytes m (password c) (password_len c) = v_pass vs;
  co_pass_len : present (password_len c) = present (password c);
  co_total : len (connect_packet c vs) <= 65535;
  co_apart a n : (a, n) ∈ [(client_id c, len (v_client vs)); (will_topic c, len (v_topic vs));
      (will_msg c, len (v_will vs)); (user_name c, len (v_user vs)); (password c, len (v_pass vs))] ->
    disjoint_from buf (len (connect_packet c vs)) a n
}.

Lemma connect_flags_ok c :
  0 <= will_qos c <= 3 -> present (password_len c) = present (password c) ->
  connect_flags c = connect_flag_byte c.
Proof.
  intros Hq Hp. unfold connect_flags, connect_flag_byte. unfold present in *. rewrite Hp.
  assert (will_qos c = 0 \/ will_qos c = 1 \/ will_qos c = 2 \/ will_qos c = 3) as [->|[->|[->| ->]]] by lia;
    destruct (user_name c =? 0), (password c =? 0), (will_retain c =? 0), (will_flag c =? 0),
      (clean_session c =? 0); reflexivity.
Qed.

Lemma connect_flag_bits c :
  0 <= will_qos c <= 3 ->
  let f := connect_flag_byte c in
  Z.land f 1 = 0 /\ negb (Z.land f 128 =? 0) = present (user_name c) /\
  negb (Z.land f 64 =? 0) = present (password c) /\ negb (Z.land f 32 =? 0) = present (will_retain c) /\
  Z.shiftr (Z.land f 24) 3 = will_qos c /\ negb (Z.land f 4 =? 0) = present (will_flag c) /\
  negb (Z.land f 2 =? 0) = present (clean_session c).
Proof.
  intros Hq. cbn zeta. unfold connect_flag_byte, present.
  assert (will_qos c = 0 \/ will_qos c = 1 \/ will_qos c = 2 \/ will_qos c = 3) as [->|[->|[->| ->]]] by lia;
    destruct (user_name c =? 0), (password c =? 0), (will_retain c =? 0), (will_flag c =? 0),
      (clean_session c =? 0); by vm_compute.
Qed.

Lemma connect_fields_len c vs :
  len (connect_fields c vs) = 2 + len (v_client vs)
    + (if present (will_flag c) then 4 + len (v_topic vs) + len (v_will vs) else 0)
    + (if present (user_name c) then 2 + len (v_user vs) else 0)
    + (if present (password c) then 2 + len (v_pass vs) else 0).
Proof.
  unfold connect_fields. rewrite !length_app, !Nat2Z.inj_add, !optional_len, length_app, Nat2Z.inj_add, !field_len.
  destruct (present (will_flag c)), (present (user_name c)), (present (password c)); lia.
Qed.

Lemma connect_packet_len c vs :
  len (connect_packet c vs) = 1 + len (rlen_bytes (len (connect_body c vs))) + len (connect_body c vs) /\
  len (connect_body c vs) = 10 + len (connect_fields c vs).
Proof. unfold connect_packet, connect_body. rewrite !length_app. cbn [connect_head be16 app length]. lia. Qed.

(** What [measure_connect] leaves. *)
Definition measured c vs : mqtt_connect_msg :=
  mk_connect (clean_session c) (client_id c) (len (v_client vs)) (will_flag c) (will_qos c) (will_retain c)
    (will_topic c) (if present (will_flag c) then len (v_topic vs) else will_topic_len c)
    (will_msg c) (will_msg_len c) (keep_alive c) (user_name c)
    (if present (user_name c) then len (v_user vs) else user_name_len c) (password c) (password_len c).

Definition fuel_for vs fuel : Prop :=
  (length (v_client vs) <= fuel /\ length (v_topic vs) <= fuel /\ length (v_user vs) <= fuel)%nat.

Lemma measure_ok fuel buf c vs m :
  connect_ok m buf c vs -> fuel_for vs fuel -> measure_connect fuel c m = Some (measured c vs).
Proof.
  intros Hok (F1 & F2 & F3). unfold measure_connect, measured.
  rewrite (mqtt_strlen_ok fuel m _ _ (co_client _ _ _ _ Hok) F1). cbn [mbind option_bind].
  fold (present (will_flag c)) (present (user_name c)).
  destruct (present (will_flag c)) eqn:Ew;
    [rewrite (mqtt_strlen_ok fuel m _ _ (co_topic _ _ _ _ Hok Ew) F2)|]; cbn [mbind option_bind];
    (destruct (present (user_name c)) eqn:Eu;
      [rewrite (mqtt_strlen_ok fuel m _ _ (co_user _ _ _ _ Hok Eu) F3)|]; done).
Qed.

Lemma connect_size_ok c vs :
  will_msg_len c = len (v_will vs) -> password_len c = len (v_pass vs) ->
  len (connect_body c vs) <= 65535 -> connect_size (measured c vs) = len (connect_body c vs).
Proof.
  intros Ew Ep Hmax. destruct (connect_packet_len c vs) as [_ Eb]. pose proof (connect_fields_len c vs) as Ef.
  unfold connect_size, measured, INT_SIZE, CONNECT_VARIABLE_HDR_SIZE.
  cbn [client_id_len will_flag will_topic_len will_msg_len user_name user_name_len password password_len].
  fold (present (will_flag c)) (present (user_name c)) (present (password c)). rewrite Ew, Ep.
  rewrite Eb, Ef in *. clear Eb Ef. revert Hmax.
  destruct (present (will_flag c)), (present (user_name c)), (present (password c));
    intros Hmax; fits16; lia.
Qed.

Lemma connect_header_ok buf l c vs m m' :
  appended buf l m m' -> 0 <= will_qos c <= 3 -> present (password_len c) = present (password c) ->
  0 <= keep_alive c <= 65535 ->
  appended buf (l ++ connect_head c) m (connect_header buf (len l) (measured c vs) m').
Proof.
  intros Hm Hq Hp Hk. unfold connect_header. change (connect_flags (measured c vs)) with (connect_flags c).
  rewrite connect_flags_ok by done.
  assert (l ++ connect_head c = ((((((((l ++ [0]) ++ [4]) ++ [77]) ++ [81]) ++ [84]) ++ [84]) ++ [4])
    ++ [connect_flag_byte c]) ++ be16 (keep_alive c)) as -> by (by rewrite <- !app_assoc).
  apply appended_put16_at; [|rewrite !length_app; cbn [length]; lia|cbn; lia].
  repeat (apply appended_byte_at; [|rewrite ?length_app; cbn [length]; lia]). done.
Qed.

(** A field that may be absent. *)
Lemma put_optional_ok (b : bool) buf l s n m m' v :
  appended buf l m m' -> read_bytes m s n = v -> 0 <= n ->
  (b = true -> len l + (2 + n) <= 65535 /\ disjoint_from buf (len l + 2) s n) ->
  exists m'', (if b then put_value buf (len l) s n m' else (len l, m')) = (len (l ++ optional b (field v)), m'') /\
    appended buf (l ++ optional b (field v)) m m''.
Proof.
  intros Hm <- Hn Hb. destruct b; cbn [optional].
  - destruct (Hb eq_refl) as [Hmax Hd]. destruct (put_value_ok buf l s n m m' Hm Hn Hmax Hd) as (m'' & -> & Ha).
    exists m''. split; [|done]. f_equal. rewrite length_app, Nat2Z.inj_add, field_len, read_len by done. done.
  - rewrite app_nil_r. by exists m'.
Qed.

(** The topic and the message of a will, when there is one. *)
Lemma put_will_ok (b : bool) buf l t tn w wn m m' vt vw :
  appended buf l m m' -> 0 <= tn -> 0 <= wn -> read_bytes m w wn = vw ->
  (b = true -> read_bytes m t tn = vt /\ len l + (4 + tn + wn) <= 65535 /\
     disjoint_from buf (len l + (4 + tn + wn)) t tn /\ disjoint_from buf (len l + (4 + tn + wn)) w wn) ->
  exists m2, (if b then let '(o, m) := put_value buf (len l) t tn m' in put_value buf o w wn m else (len l, m')) =
      (len (l ++ optional b (field vt ++ field vw)), m2) /\
    appended buf (l ++ optional b (field vt ++ field vw)) m m2.
Proof.
  intros Hm Ht Hw Hvw Hb. destruct b; cbn [optional]; [|rewrite app_nil_r; by exists m'].
  destruct (Hb eq_refl) as (Hvt & Hmax & Hd1 & Hd2). clear Hb. unfold disjoint_from in Hd1, Hd2.
  destruct (put_optional_ok true buf l t tn m m' vt Hm) as (m1 & -> & A1);
    [done|done|intros _; split; [lia|unfold disjoint_from; lia]|].
  assert (tn = len vt) as Et by (rewrite <- Hvt; symmetry; by apply read_len).
  assert (len (l ++ field vt) = len l + (2 + tn)) as El
    by (rewrite length_app, Nat2Z.inj_add, field_len; by rewrite <- Et).
  destruct (put_optional_ok true buf _ w wn m m1 vw A1) as (m2 & E2 & A2);
    [done|done|intros _; cbn [optional]; split; [lia|unfold disjoint_from; lia]|].
  cbn [optional] in *. rewrite E2. rewrite <- app_assoc in *. by exists m2.
Qed.

(** The fields written after [l] stay inside the packet, and so apart from their
    sources. *)
Lemma connect_payload_ok buf l c vs m m' :
  connect_ok m buf c vs -> appended buf l m m' ->
  len l + len (connect_fields c vs) = len (connect_packet c vs) ->
  exists off m'', connect_payload buf (len l) (measured c vs) m' = (off, m'') /\
    appended buf (l ++ connect_fields c vs) m m''.
Proof.
  intros [_ _ Hc Ht [Hw0 Hw] Hu [Hp0 Hp] _ Hmax Hd] Hm Hl. pose proof (connect_fields_len c vs) as Ef.
  assert (will_msg_len c = len (v_will vs)) as Ew by (rewrite <- Hw; symmetry; by apply read_len).
  assert (password_len c = len (v_pass vs)) as Ep by (rewrite <- Hp; symmetry; by apply read_len).
  rewrite Ew in Hw. rewrite Ep in Hp.
  assert (Hdis : forall a n k, (a, n) ∈ [(client_id c, len (v_client vs)); (will_topic c, len (v_topic vs));
      (will_msg c, len (v_will vs)); (user_name c, len (v_user vs)); (password c, len (v_pass vs))] ->
    k <= len (connect_packet c vs) -> disjoint_from buf k a n).
  { intros a n k Hin Hk. specialize (Hd a n Hin). unfold disjoint_from in *. lia. }
  unfold connect_payload, measured. cbn [client_id client_id_len will_flag will_topic will_topic_len will_msg
    will_msg_len user_name user_name_len password password_len].
  fold (present (will_flag c)) (present (user_name c)) (present (password c)). rewrite Ew, Ep.
  destruct (put_optional_ok true buf l (client_id c) (len (v_client vs)) m m' (v_client vs) Hm) as (m1 & E1 & A1);
    [by apply string_read|lia|intros _; split; [if_lia|apply Hdis; [by left|if_lia]]|].
  cbn [optional] in E1, A1. rewrite E1. clear E1. set (l1 := l ++ field (v_client vs)) in *.
  assert (len l1 = len l + (2 + len (v_client vs))) as El1
    by (unfold l1; by rewrite length_app, Nat2Z.inj_add, field_len).
  set (wf := optional (present (will_flag c)) (field (v_topic vs) ++ field (v_will vs))).
  destruct (put_will_ok (present (will_flag c)) buf l1 (will_topic c) (len (v_topic vs)) (will_msg c)
    (len (v_will vs)) m m1 (v_topic vs) (v_will vs) A1) as (m2 & E2 & A2); [lia|lia|done| |].
  { intros Eb. rewrite Eb in *. split_and!; [by apply string_read, Ht|if_lia|apply Hdis|apply Hdis];
      (by right; left) || (by right; right; left) || if_lia. }
  fold wf in E2, A2.
  assert (E2' : (if present (will_flag c)
      then let '(o, mm) := put_value buf (len l1) (will_topic c)
             (if present (will_flag c) then len (v_topic vs) else will_topic_len c) m1 in
           put_value buf o (will_msg c) (len (v_will vs)) mm
      else (len l1, m1)) = (len (l1 ++ wf), m2)) by (rewrite <- E2; by destruct (present (will_flag c))).
  rewrite E2'. clear E2 E2'.
  set (l2 := l1 ++ wf) in *.
  assert (len l2 = len l1 + (if present (will_flag c) then 4 + len (v_topic vs) + len (v_will vs) else 0)) as El2.
  { unfold l2, wf. rewrite length_app, Nat2Z.inj_add, optional_len, length_app, Nat2Z.inj_add, !field_len.
    destruct (present (will_flag c)); lia. }
  assert (Hun : exists m3, (if present (user_name c)
      then put_value buf (len l2) (user_name c) (if present (user_name c) then len (v_user vs) else user_name_len c) m2
      else (len l2, m2)) = (len (l2 ++ optional (present (user_name c)) (field (v_user vs))), m3) /\
    appended buf (l2 ++ optional (present (user_name c)) (field (v_user vs))) m m3).
  { destruct (present (user_name c)) eqn:Eb; [|cbn [optional]; rewrite app_nil_r; by exists m2].
    apply (put_optional_ok true); [done|by apply string_read, Hu|lia|].
    intros _. split; [if_lia|apply Hdis; [by right; right; right; left|if_lia]]. }
  destruct Hun as (m3 & -> & A3). set (l3 := l2 ++ optional _ _) in *.
  assert (len l3 = len l2 + (if present (user_name c) then 2 + len (v_user vs) else 0)) as El3.
  { unfold l3. by rewrite length_app, Nat2Z.inj_add, optional_len, field_len. }
  destruct (put_optional_ok (present (password c)) buf l3 (password c) (len (v_pass vs)) m m3 (v_pass vs) A3)
    as (m4 & -> & A4); [done|lia| |].
  { intros Eb. split; [if_lia|apply Hdis; [by right; right; right; right; left|if_lia]]. }
  exists (len (l3 ++ optional (present (password c)) (field (v_pass vs)))), m4. split; [done|].
  unfold connect_fields. fold wf. unfold l3, l2, l1 in A4. by rewrite <- !app_assoc in A4.
Qed.

Lemma pack_connect_ok fuel buf size c vs m :
  connect_ok m buf c vs -> fuel_for vs fuel ->
  let total := len (connect_packet c vs) in
  if total <=? size
  then exists m', mqtt_pack_connect fuel buf size c m = Some (0, Some total, measured c vs, m') /\
         appended buf (connect_packet c vs) m m'
  else mqtt_pack_connect fuel buf size c m = Some (- ENOMEM, None, measured c vs, m).
Proof.
  intros Hok Hf. cbn zeta. destruct (connect_packet_len c vs) as [Etot Eb].
  pose proof (connect_fields_len c vs) as Ef. pose proof (rlen_len (len (connect_body c vs))) as Hrl.
  pose proof Hok as [Hq Hk _ _ [Hw0 Hw] _ [Hp0 Hp] Hpl Hmax _].
  unfold mqtt_pack_connect. rewrite (measure_ok fuel buf c vs m Hok Hf). cbn [mbind option_bind].
  rewrite (connect_size_ok c vs) by (by (rewrite <- ?Hw, <- ?Hp; symmetry; apply read_len) || if_lia).
  rewrite rlen_size_ok by if_lia. unfold PACKET_TYPE_SIZE, INT_SIZE. set (body := connect_body c vs) in *.
  rewrite (u16_small (1 + _ + _)) by if_lia. rewrite <- Etot.
  rewrite Z.ltb_antisym. destruct (Z.leb_spec (len (connect_packet c vs)) size) as [Hfit|Hfit]; cbn [negb]; [|done].
  pose proof (packet_start buf 16 (len body) m ltac:(if_lia)) as [A2 E2]. change (Z.shiftl MQTT_CONNECT 4) with 16.
  set (m2 := rlen_encode (buf + 1) _ _) in *. set (l2 := [16] ++ rlen_bytes (len body)) in *.
  rewrite (u16_small (1 + _)) by lia. rewrite <- E2.
  pose proof (connect_header_ok buf l2 c vs m m2 A2 Hq Hpl Hk) as A3.
  assert (len (l2 ++ connect_head c) = len l2 + 10) as E3 by (rewrite length_app; cbn [connect_head be16 app length]; lia).
  change (8 + 2) with 10. rewrite (u16_small (_ + 10)) by if_lia. rewrite <- E3.
  destruct (connect_payload_ok buf (l2 ++ connect_head c) c vs m _ Hok A3) as (off & m4 & E4 & A4); [lia|].
  rewrite E4. exists m4. split; [done|].
  assert (connect_packet c vs = (l2 ++ connect_head c) ++ connect_fields c vs) as ->; [|done].
  unfold connect_packet, l2, body, connect_body. by rewrite <- !app_assoc.
Qed.

Lemma get_value_ok buf total off set c m v l :
  found m (buf + off) (field v ++ l) -> 0 <= off -> off + (2 + len v) <= total -> total <= 255 ->
  get_value buf total off set c m = Some (set (buf + off + 2) (len v) c, off + (2 + len v)) /\
  value m (buf + off + 2) (len v) v /\ found m (buf + (off + (2 + len v))) l.
Proof.
  intros Hf H0 Hl Hmax. apply get_field in Hf; [|lia]. destruct Hf as (Hn & Hr & Hf).
  unfold get_value, recover_value_len, INT_SIZE. rewrite (u16_small (total - off)) by lia.
  rewrite (proj2 (Z.ltb_ge (total - off) 2)) by lia. rewrite Hn.
  rewrite (proj2 (Z.ltb_ge (total - off) (2 + len v))) by lia. cbn [mbind option_bind].
  rewrite u8_small by lia. split_and!; [done|by split|]. by rewrite Z.add_assoc.
Qed.

(** What the unpacker recovers of a message: everything that was packed, and
    null for what was not. *)
Record recovered m c vs c' : Prop := {
  rv_clean : clean_session c' = b2z (present (clean_session c));
  rv_flag : will_flag c' = b2z (present (will_flag c));
  rv_qos : will_qos c' = will_qos c;
  rv_retain : will_retain c' = b2z (present (will_retain c));
  rv_keep : keep_alive c' = keep_alive c;
  rv_client : value m (client_id c') (client_id_len c') (v_client vs);
  rv_will : if present (will_flag c)
            then value m (will_topic c') (will_topic_len c') (v_topic vs) /\
                 value m (will_msg c') (will_msg_len c') (v_will vs)
            else will_topic c' = 0 /\ will_msg c' = 0;
  rv_user : if present (user_name c) then value m (user_name c') (user_name_len c') (v_user vs)
            else user_name c' = 0;
  rv_pass : if present (password c) then value m (password c') (password_len c') (v_pass vs)
            else password c' = 0
}.

Lemma unpack_payload_ok buf total off f c c0 vs m :
  c0 = set_connect_header f (keep_alive c) -> f = connect_flag_byte c -> 0 <= will_qos c <= 3 ->
  found m (buf + off) (connect_fields c vs) -> 0 <= off -> off + len (connect_fields c vs) <= total ->
  total <= 255 ->
  exists c', unpack_connect_payload buf total off f c0 m = Some c' /\ recovered m c vs c'.
Proof.
  intros Hc0 Hfl Hq Hf H0 Hl Hmax. pose proof (connect_fields_len c vs) as Ef.
  destruct (connect_flag_bits c Hq) as (_ & Hu & Hp & Hr & Hqs & Hw & Hcs). rewrite <- Hfl in *.
  assert (will_flag c0 = b2z (present (will_flag c))) as Ewf by (rewrite Hc0; unfold b2z; by rewrite <- Hw).
  assert (H00 : will_topic c0 = 0 /\ will_msg c0 = 0 /\ user_name c0 = 0 /\ password c0 = 0) by (by rewrite Hc0).
  assert (Hh : clean_session c0 = b2z (present (clean_session c)) /\ will_qos c0 = will_qos c /\
    will_retain c0 = b2z (present (will_retain c)) /\ keep_alive c0 = keep_alive c).
  { rewrite Hc0. unfold b2z. rewrite <- Hr, <- Hcs. by split_and!. }
  clear Hc0. destruct H00 as (Z1 & Z2 & Z3 & Z4), Hh as (B1 & B2 & B3 & B4).
  unfold unpack_connect_payload. rewrite Hu, Hp. clear Hu Hp Hr Hcs Hw Hfl.
  unfold connect_fields in *. rewrite <- (app_nil_r (_ ++ _)) in Hf. rewrite <- !app_assoc in Hf.
  apply (get_value_ok buf total off set_client_id c0) in Hf as (-> & Hc & Hf); [|done|if_lia|done].
  cbn [mbind option_bind will_flag set_client_id]. rewrite Ewf.
  destruct (present (will_flag c)) eqn:E1, (present (user_name c)) eqn:E2, (present (password c)) eqn:E3;
    cbn [b2z Z.eqb negb optional app mbind option_bind] in *; rewrite <- ?app_assoc in Hf;
    repeat (match goal with |- context [get_value ?b ?t ?o ?s ?c ?m] =>
      apply (get_value_ok b t o s c) in Hf as (-> & ? & Hf); [|lia..] end; cbn [mbind option_bind]);
    (eexists; split; [reflexivity|]; split; rewrite ?E1, ?E2, ?E3; cbn; solve [done|by split]).
Qed.

Lemma unpack_connect_ok buf c vs m :
  0 <= will_qos c <= 3 -> 0 <= keep_alive c <= 65535 -> len (connect_packet c vs) <= 255 ->
  found m buf (connect_packet c vs) ->
  exists c', mqtt_unpack_connect buf (len (connect_packet c vs)) m = (0, Some c') /\ recovered m c vs c'.
Proof.
  intros Hq Hk Hmax Hf. destruct (connect_packet_len c vs) as [Etot Eb].
  pose proof (connect_fields_len c vs) as Ef. pose proof (rlen_len (len (connect_body c vs))) as Hrl.
  set (total := len (connect_packet c vs)) in *. unfold connect_packet in Hf. cbn [app] in Hf.
  rewrite found_cons in Hf. destruct Hf as [Hh Hf].
  unfold mqtt_unpack_connect, CONNECT_MIN_SIZE, PACKET_TYPE_SIZE, INT_SIZE, FLAGS_SIZE, KEEP_ALIVE_SIZE.
  rewrite (proj2 (Z.ltb_ge total 12)) by if_lia. rewrite Hh.
  change (16 =? Z.shiftl MQTT_CONNECT 4) with true. cbn [negb]. rewrite (u16_small (total - 1)) by if_lia.
  destruct (rlen_decode_ok (buf + 1) (len (connect_body c vs)) (total - 1) m (connect_body c vs) Hf) as [-> Hb];
    [if_lia|if_lia|].
  set (rb := len (rlen_bytes _)) in *. rewrite <- Z.add_assoc in Hb. rewrite (u8_small (1 + rb)) by lia.
  unfold connect_body, connect_head in Hb. cbn [app] in Hb. set (o := 1 + rb) in *.
  rewrite (u8_small (o + 2)), (u8_small (o + 2 + 5)), (u8_small (o + 2 + 5 + 1)), (u8_small (o + 2 + 5 + 1 + 2)) by lia.
  rewrite !found_cons in Hb. destruct Hb as (H0 & H1 & H2 & H3 & H4 & H5 & H6 & H7 & Hb).
  replace (m (buf + (o + 0))) with 0 by (rewrite <- H0; f_equal; lia).
  replace (m (buf + (o + 1))) with 4 by (rewrite <- H1; f_equal; lia).
  replace (m (buf + (o + 2 + 0))) with 77 by (rewrite <- H2; f_equal; lia).
  replace (m (buf + (o + 2 + 1))) with 81 by (rewrite <- H3; f_equal; lia).
  replace (m (buf + (o + 2 + 2))) with 84 by (rewrite <- H4; f_equal; lia).
  replace (m (buf + (o + 2 + 3))) with 84 by (rewrite <- H5; f_equal; lia).
  replace (m (buf + (o + 2 + 4))) with 4 by (rewrite <- H6; f_equal; lia).
  replace (m (buf + (o + 2 + 5))) with (connect_flag_byte c) by (rewrite <- H7; f_equal; lia).
  cbn [Z.eqb Pos.eqb negb orb]. destruct (connect_flag_bits c Hq) as [-> _]. cbn [Z.eqb negb].
  apply found_be16 in Hb; [|lia]. destruct Hb as [Hkv Hb].
  replace (ntohs (UNALIGNED_GET m (buf + (o + 2 + 5 + 1)))) with (keep_alive c)
    by (rewrite <- Hkv; do 2 f_equal; lia).
  destruct (unpack_payload_ok buf total (o + 2 + 5 + 1 + 2) _ c _ vs m eq_refl eq_refl Hq) as (c' & -> & Hr).
  - by replace (buf + (o + 2 + 5 + 1 + 2)) with (buf + o + 1 + 1 + 1 + 1 + 1 + 1 + 1 + 1 + 2) by lia.
  - lia.
  - lia.
  - done.
  - by exists c'.
Qed.

(** Packing a CONNECT message into a buffer. When the packet fits, exactly the
    bytes the standard prescribes are written, at the start of the buffer and
    nowhere else; when it does not fit, the call fails with -ENOMEM and writes
    nothing. Unpacking a packet of at most 255 bytes recovers the flags, the
    keep-alive time, the client identifier and the optional will, user name and
    password, with null for those that are absent. *)
Theorem mqtt_connect_roundtrip fuel buf size c vs m :
  connect_ok m buf c vs -> fuel_for vs fuel ->
  let packet := connect_packet c vs in
  (size < len packet -> exists c', mqtt_pack_connect fuel buf size c m = Some (- ENOMEM, None, c', m)) /\
  (len packet <= size ->
     exists c1 m', mqtt_pack_connect fuel buf size c m = Some (0, Some (len packet), c1, m') /\
       read_bytes m' buf (len packet) = packet /\
       (forall x, x < buf \/ buf + len packet <= x -> m' x = m x) /\
       (len packet <= 255 ->
          exists c', mqtt_unpack_connect buf (len packet) m' = (0, Some c') /\ recovered m' c vs c')).
Proof.
  intros Hok Hf. cbn zeta. pose proof (pack_connect_ok fuel buf size c vs m Hok Hf) as Hp. cbn zeta in Hp. split.
  - intros Hs. rewrite (proj2 (Z.leb_gt _ _) Hs) in Hp. by eexists.
  - intros Hs. rewrite (proj2 (Z.leb_le _ _) Hs) in Hp. destruct Hp as (m' & E & Ha).
    exists (measured c vs), m'. split_and!; [done|by apply found_read, (appended_found _ _ m)| |].
    + intros x Hx. by eapply appended_out.
    + intros H255. destruct Hok. apply unpack_connect_ok; [done..|]. by apply (appended_found _ _ m).
Qed.
(** A client identifier at 100 and a user name at 200. *)
Definition connect_memory : memory :=
  fun a => if a <? 200 then nth (Z.to_nat (a - 100)) [97; 98] 0 else nth (Z.to_nat (a - 200)) [109; 101] 0.
Definition connect_message : mqtt_connect_msg := mk_connect 1 100 0 0 0 0 0 0 0 0 60 200 0 0 0.
Definition connect_strings : connect_values := mk_values [97; 98] [] [] [109; 101] [].

Lemma mqtt_connect_roundtrip_witness :
  exists c1 m' c', mqtt_pack_connect 2 1000 64 connect_message connect_memory = Some (0, Some 20, c1, m') /\
    read_bytes m' 1000 20 = [16; 18; 0; 4; 77; 81; 84; 84; 4; 130; 0; 60; 0; 2; 97; 98; 0; 2; 109; 101] /\
    mqtt_unpack_connect 1000 20 m' = (0, Some c') /\ recovered m' connect_message connect_strings c'.
Proof.
  destruct (mqtt_connect_roundtrip 2 1000 64 connect_message connect_strings connect_memory) as (_ & H).
  - split; try (vm_compute; split; congruence); try reflexivity; try (vm_compute; congruence).
    + split; [left|vm_compute; congruence]. split; [discriminate|]. repeat split; discriminate.
    + intros _. split; [left|vm_compute; congruence]. split; [discriminate|]. repeat split; discriminate.
    + intros a n Hin. right. repeat (apply elem_of_cons in Hin as [[= -> ->]|Hin]; [vm_compute; congruence|]).
      by apply elem_of_nil in Hin.
  - repeat split; cbn [connect_strings v_client v_topic v_user length]; lia.
  - destruct H as (c1 & m' & E & R & _ & H); [vm_compute; congruence|].
    destruct H as (c' & U & Hr); [vm_compute; congruence|].
    exists c1, m', c'. split; [exact E|]. split; [exact R|]. split; [exact U|exact Hr].
Defined.

(** The unpacker keeps its offset in 8 bits. A CONNECT message with a client
    identifier of 250 characters and a user name is packed, but the packet is
    refused when it is unpacked: the user name is looked for 256 bytes too early. *)
Definition long_memory : memory :=
  fun a => if a <? 350 then 97 else nth (Z.to_nat (a - 399)) [0; 109; 101] 0.
Definition long_message : mqtt_connect_msg := mk_connect 1 100 0 0 0 0 0 0 0 0 60 400 0 0 0.

Lemma connect_long_refused :
  (r ← mqtt_pack_connect 250 1000 512 long_message long_memory;
   let '(rc, n, _, m') := r in Some (rc, n, mqtt_unpack_connect 1000 269 m')) =
  Some (0, Some 269, (- EINVAL, None)).
Proof. by vm_compute. Qed.
End Connect.
