(* ===== verification/MqttSubscribe.v ===== *)
(** * MQTT packets: SUBSCRIBE, UNSUBSCRIBE and SUBACK

    The packers write the bytes the standard prescribes, and the unpackers
    recover the topics and the qualities of service from them. *)
From S2P Require Import Prelude Kernel LibcString Bytes Mqtt MqttCodec.
Import Mqtt.

(** ** SUBSCRIBE and UNSUBSCRIBE *)
Section Subscribe.
Implicit Types (m : memory) (buf size id : Z) (topics qs : list Z) (ts : list (list Z)) (fuel : nat).

(** MQTT 3.8.3 and 3.10.3: the topics, each with its quality of service when
    subscribing. *)
Fixpoint topic_fields (with_qos : bool) ts qs : list Z :=
  match ts with
  | [] => []
  | t :: ts => field t ++ optional with_qos [Z.land (hd 0 qs) 3] ++ topic_fields with_qos ts (tl qs)
  end.
Definition topics_packet (type : Z) (with_qos : bool) id ts qs : list Z :=
  let body := be16 id ++ topic_fields with_qos ts qs in
  [16 * type + 2] ++ rlen_bytes (len body) ++ body.

Fixpoint chars ts : Z := match ts with [] => 0 | t :: ts => len t + chars ts end.

Lemma chars_nonneg ts : 0 <= chars ts.
Proof. induction ts; cbn [chars]; lia. Qed.

Lemma topic_fields_len b ts qs :
  len (topic_fields b ts qs) = chars ts + Z.of_nat (length ts) * (if b then 3 else 2).
Proof.
  revert qs. induction ts as [|t ts IH]; intros qs; [done|]. cbn [topic_fields chars length].
  rewrite !length_app, !Nat2Z.inj_add, IH, field_len, optional_len. cbn [length]. destruct b; lia.
Qed.

Lemma topic_fields_plain ts qs qs' : topic_fields false ts qs = topic_fields false ts qs'.
Proof. revert qs qs'. induction ts as [|t ts IH]; intros qs qs'; [done|].
  cbn [topic_fields optional app]. by rewrite (IH (tl qs) (tl qs')). Qed.

(** The strings are where the array points, apart from the packet. *)
Definition topics_at m buf (n : Z) topics ts : Prop :=
  Forall2 (fun a t => string_at m a t /\ disjoint_from buf n a (len t + 1)) topics ts.

Lemma topic_sizes_ok fuel b topics ts n0 m buf n :
  topics_at m buf n topics ts -> Forall (fun t => (length t <= fuel)%nat) ts -> 0 <= n0 ->
  n0 + chars ts + Z.of_nat (length ts) * (if b : bool then 1 else 0) <= 65535 ->
  topic_sizes fuel topics b n0 m = Some (n0 + chars ts + Z.of_nat (length ts) * (if b then 1 else 0)).
Proof.
  intros Ht. revert n0. induction Ht as [|a t topics ts [Hs _] _ IH]; intros n0 Hf H0 Hmax.
  { cbn. f_equal. destruct b; lia. }
  apply Forall_cons in Hf as [Hft Hf]. cbn [topic_sizes]. rewrite (mqtt_strlen_ok fuel m a t Hs Hft).
  cbn [mbind option_bind]. cbn [chars length] in *. pose proof (chars_nonneg ts).
  unfold QoS_SIZE. destruct b; (rewrite u16_small by lia; rewrite IH by (done || lia); f_equal; lia).
Qed.

Lemma put_topics_ok fuel type topics ts qs buf l n m m' :
  let b := type =? MQTT_SUBSCRIBE in
  topics_at m buf n topics ts -> Forall (fun t => (length t <= fuel)%nat) ts ->
  (b = true -> length qs = length ts) -> appended buf l m m' ->
  len l + len (topic_fields b ts qs) <= n -> n <= 65535 ->
  exists m'', put_topics fuel topics qs type buf (len l) m' = Some (len (l ++ topic_fields b ts qs), m'') /\
    appended buf (l ++ topic_fields b ts qs) m m''.
Proof.
  cbn zeta. intros Ht. revert qs l m'. induction Ht as [|a t topics ts [Hs Hd] _ IH]; intros qs l m' Hf Hq Hm Hn Hmax.
  { cbn [topic_fields]. rewrite app_nil_r. by exists m'. }
  apply Forall_cons in Hf as [Hft Hf]. cbn [put_topics topic_fields] in *.
  rewrite !length_app, !Nat2Z.inj_add, field_len, optional_len in Hn.
  assert (string_at m' a t) as Hs'.
  { eapply string_ext; [|exact Hs]. intros x Hx. apply (appended_out buf l m m' x Hm).
    unfold disjoint_from in Hd. destruct (type =? MQTT_SUBSCRIBE); cbn [length] in *; lia. }
  rewrite (mqtt_strlen_ok fuel m' a t Hs' Hft). cbn [mbind option_bind].
  destruct (put_value_ok buf l a (len t) m m' Hm) as (m1 & E1 & A1);
    [lia|destruct (type =? MQTT_SUBSCRIBE); cbn [length] in *; lia
    |unfold disjoint_from in *; destruct (type =? MQTT_SUBSCRIBE); cbn [length] in *; lia|].
  rewrite E1, (string_read m a t Hs) in *.
  assert (len (l ++ field t) = len l + (2 + len t)) as El by (by rewrite length_app, Nat2Z.inj_add, field_len).
  rewrite <- El. destruct (type =? MQTT_SUBSCRIBE) eqn:Eb; cbn [optional] in *.
  - destruct qs as [|q qs]; [by specialize (Hq eq_refl)|]. cbn [head hd_error hd tl tail length] in *.
    cbn [mbind option_bind]. apply (appended_byte _ _ (Z.land q 3)) in A1.
    rewrite (u16_small (len (l ++ field t) + QoS_SIZE)) by (unfold QoS_SIZE; lia).
    replace (len (l ++ field t) + QoS_SIZE) with (len ((l ++ field t) ++ [Z.land q 3]))
      by (rewrite (length_app (l ++ field t)); unfold QoS_SIZE; cbn [length]; lia).
    destruct (IH qs _ _ Hf ltac:(by intros _; injection (Hq eq_refl)) A1) as (m2 & E2 & A2); [|lia|].
    + rewrite (length_app (l ++ field t)). cbn [length]. lia.
    + exists m2. rewrite E2. rewrite <- !app_assoc in *. done.
  - cbn [app]. rewrite (topic_fields_plain ts (tl qs) qs) in *.
    destruct (IH qs _ _ Hf ltac:(done) A1) as (m2 & E2 & A2); [lia|lia|].
    exists m2. rewrite E2. rewrite <- !app_assoc in *. done.
Qed.

(** What can be packed: the identifier, topics that do not overlap the packet, and
    a packet no longer than a 16-bit length can tell. *)
Record subscribe_ok m buf type id topics qs ts : Prop := {
  so_id : 0 <= id <= 65535;
  so_some : ts <> [];
  so_qos : type = MQTT_SUBSCRIBE -> length qs = length ts;
  so_total : len (topics_packet type (type =? MQTT_SUBSCRIBE) id ts qs) <= 65535;
  so_topics : topics_at m buf (len (topics_packet type (type =? MQTT_SUBSCRIBE) id ts qs)) topics ts
}.

Lemma topics_packet_len type b id ts qs :
  let body := len (be16 id ++ topic_fields b ts qs) in
  len (topics_packet type b id ts qs) = 1 + len (rlen_bytes body) + body /\
  body = 2 + len (topic_fields b ts qs).
Proof. cbn zeta. unfold topics_packet. rewrite !length_app. cbn [be16 length]. lia. Qed.

Lemma pack_topics_ok fuel buf size type id topics qs ts m :
  type = MQTT_SUBSCRIBE \/ type = MQTT_UNSUBSCRIBE ->
  subscribe_ok m buf type id topics qs ts -> Forall (fun t => (length t <= fuel)%nat) ts ->
  let packet := topics_packet type (type =? MQTT_SUBSCRIBE) id ts qs in
  if len packet <=? size
  then exists m', mqtt_pack_subscribe_unsubscribe fuel buf size id topics qs type m = Some (0, Some (len packet), m') /\
         appended buf packet m m'
  else mqtt_pack_subscribe_unsubscribe fuel buf size id topics qs type m = Some (- ENOMEM, None, m).
Proof.
  intros Hty [Hid Hne Hq Hmax Ht] Hf. cbn zeta. set (b := type =? MQTT_SUBSCRIBE) in *.
  destruct (topics_packet_len type b id ts qs) as [Etot Eb]. cbn zeta in Etot, Eb.
  pose proof (topic_fields_len b ts qs) as El. pose proof (chars_nonneg ts) as Hc.
  set (packet := topics_packet type b id ts qs) in *. set (body := be16 id ++ topic_fields b ts qs) in *.
  pose proof (rlen_len (len body)) as Hrl. pose proof (Forall2_length _ _ _ Ht) as Hlen.
  unfold mqtt_pack_subscribe_unsubscribe. rewrite (proj2 (Z.leb_gt (Z.of_nat (length topics)) 0))
    by (destruct ts; [done|]; rewrite Hlen; cbn [length]; lia).
  replace (negb (type =? MQTT_SUBSCRIBE) && negb (type =? MQTT_UNSUBSCRIBE)) with false
    by (destruct Hty as [-> | ->]; reflexivity). fold b.
  unfold subscribe_size, PACKET_ID_SIZE. rewrite (topic_sizes_ok fuel b topics ts 2 m buf (len packet) Ht Hf)
    by (destruct b; lia). cbn [mbind option_bind]. unfold INT_SIZE.
  replace (u16 _) with (len body) by (rewrite u16_small; destruct b; lia).
  rewrite rlen_size_ok by lia. cbn [mbind option_bind]. rewrite Z.ltb_antisym.
  replace (len (rlen_bytes (len body)) + len body + 1) with (len packet) by lia.
  destruct (Z.leb_spec (len packet) size) as [Hfit|Hfit]; cbn [negb]; [|done].
  set (h := u8 (Z.shiftl type 4 + 2)).
  assert (h = 16 * type + 2) as Eh by (unfold h; destruct Hty as [-> | ->]; reflexivity).
  pose proof (packet_start buf h (len body) m ltac:(lia)) as [A2 E2]. change PACKET_TYPE_SIZE with 1.
  set (m2 := rlen_encode (buf + 1) _ _) in *. set (l2 := [h] ++ rlen_bytes (len body)) in *.
  rewrite (u16_small (1 + _)) by lia. rewrite <- E2.
  apply (appended_put16 _ _ id) in A2; [|lia]. set (m3 := UNALIGNED_PUT _ _ m2) in *.
  assert (len (l2 ++ be16 id) = len l2 + 2) as E3 by (rewrite length_app; cbn [be16 length]; lia).
  rewrite (u16_small (len l2 + 2)) by lia. rewrite <- E3.
  destruct (put_topics_ok fuel type topics ts qs buf (l2 ++ be16 id) (len packet) m m3 Ht Hf) as (m4 & E4 & A4);
    [intros Hb; by apply Hq, Z.eqb_eq|done|fold b; lia|done|]. fold b in E4, A4.
  assert (packet = (l2 ++ be16 id) ++ topic_fields b ts qs) as Ep.
  { unfold packet, topics_packet. fold body. rewrite <- Eh. unfold l2, body. by rewrite <- !app_assoc. }
  rewrite E4. cbn [mbind option_bind]. exists m4. by rewrite Ep.
Qed.

(** An entry the unpacker stores: a topic of the packet and its quality. *)
Definition entry_of m (e : Z * Z * Z) (tq : list Z * Z) : Prop :=
  value m (fst (fst e)) (snd (fst e)) (fst tq) /\ snd e = Z.land (snd tq) 3.

Lemma get_topics_ok (n : nat) buf total off ts qs m :
  found m (buf + off) (topic_fields true ts qs) -> length qs = length ts -> ts <> [] ->
  Forall (fun t => t <> []) ts -> (length ts <= n)%nat -> 0 <= off ->
  off + len (topic_fields true ts qs) = total -> total <= 65535 ->
  exists es, get_topics n buf total off m = (0, es) /\ Forall2 (entry_of m) es (zip ts qs).
Proof.
  revert off ts qs. induction n as [|n IH]; intros off [|t ts] [|q qs] Hf Hl Hne Hall Hn H0 Htot Hmax;
    cbn [length] in *; try done; try lia.
  apply Forall_cons in Hall as [Ht Hall]. pose proof (topic_fields_len true ts qs) as Ef. pose proof (chars_nonneg ts) as Hc.
  cbn [topic_fields hd tl optional] in Hf, Htot.
  rewrite (length_app (field t)), (length_app [_]), !Nat2Z.inj_add, field_len in Htot. cbn [length] in Htot.
  assert (1 <= len t) as Ht1 by (destruct t; [done|cbn [length]; lia]).
  apply get_field in Hf; [|lia]. destruct Hf as (Hlen & Hread & Hf). cbn [app] in Hf.
  rewrite found_cons in Hf. destruct Hf as [Hqv Hf].
  cbn [get_topics]. unfold TOPIC_MIN_SIZE, INT_SIZE, QoS_SIZE. rewrite (proj2 (Z.ltb_ge total (off + 4))) by lia.
  rewrite Hlen. rewrite (u16_small (off + 2)) by lia. rewrite (proj2 (Z.ltb_ge total _)) by lia.
  rewrite (u16_small (off + 2 + len t)), (u16_small (off + 2 + len t + 1)) by lia.
  replace (m (buf + (off + 2 + len t))) with (Z.land q 3) by (rewrite <- Hqv; f_equal; lia).
  assert (entry_of m (buf + (off + 2), len t, Z.land q 3) (t, q)) as He.
  { split; [|done]. split; [done|]. cbn. by rewrite Z.add_assoc. }
  destruct (Z.eqb_spec (off + 2 + len t + 1) total) as [E|E].
  - exists [(buf + (off + 2), len t, Z.land q 3)]. split; [done|].
    assert (ts = []) as -> by (destruct ts; [done|]; cbn [length] in Ef; lia).
    cbn. by constructor.
  - destruct (IH (off + 2 + len t + 1) ts qs) as (es & -> & Hes); try done; try lia.
    + by replace (buf + (off + 2 + len t + 1)) with (buf + off + (2 + len t) + 1) by lia.
    + intros ->. cbn in Htot. lia.
    + exists ((buf + (off + 2), len t, Z.land q 3) :: es). split; [done|]. cbn. by constructor.
Qed.

Lemma unpack_subscribe_ok buf id ts qs elements m :
  let packet := topics_packet MQTT_SUBSCRIBE true id ts qs in
  found m buf packet -> 0 <= id <= 65535 -> len packet <= 65535 -> length qs = length ts -> ts <> [] ->
  Forall (fun t => t <> []) ts -> Z.of_nat (length ts) <= elements ->
  exists es, mqtt_unpack_subscribe buf (len packet) elements m = (0, Some id, es) /\
    Forall2 (entry_of m) es (zip ts qs).
Proof.
  cbn zeta. intros Hf Hid Hmax Hl Hne Hall Hn.
  destruct (topics_packet_len MQTT_SUBSCRIBE true id ts qs) as [Etot Eb]. cbn zeta in Etot, Eb.
  pose proof (topic_fields_len true ts qs) as Ef. pose proof (chars_nonneg ts) as Hc.
  assert (1 <= chars ts /\ 1 <= Z.of_nat (length ts)) as [Hc1 Hl1].
  { destruct ts as [|t ts]; [done|]. apply Forall_cons in Hall as [Ht _]. cbn [chars length] in *.
    pose proof (chars_nonneg ts). destruct t; [done|]. cbn [length]. lia. }
  set (total := len (topics_packet _ _ _ _ _)) in *. unfold topics_packet in Hf.
  set (body := be16 id ++ topic_fields true ts qs) in *. pose proof (rlen_len (len body)) as Hrl.
  cbn [app] in Hf. rewrite found_cons in Hf. destruct Hf as [Hh Hf].
  unfold mqtt_unpack_subscribe, PACKET_TYPE_SIZE, PACKET_ID_SIZE, TOPIC_MIN_SIZE.
  rewrite (u16_small (total - 1)) by lia.
  destruct (rlen_decode_ok (buf + 1) (len body) (total - 1) m body Hf) as [-> Hb]; [lia|lia|].
  set (rb := len (rlen_bytes (len body))) in *.
  rewrite (proj2 (Z.ltb_ge total _)), (proj2 (Z.ltb_ge (len body) _)) by lia. rewrite Hh.
  change (16 * MQTT_SUBSCRIBE + 2 =? Z.lor (Z.shiftl MQTT_SUBSCRIBE 4) SUBSCRIBE_RESERVED) with true. cbn [negb].
  rewrite (u16_small (1 + rb)), (u16_small (1 + rb + 2)) by lia.
  apply found_be16 in Hb; [|lia]. destruct Hb as [Hi Hb].
  replace (ntohs (UNALIGNED_GET m (buf + (1 + rb)))) with id by (rewrite <- Hi; do 2 f_equal; lia).
  destruct (get_topics_ok (Z.to_nat elements) buf total (1 + rb + 2) ts qs m) as (es & -> & Hes); try done; try lia.
  - by replace (buf + (1 + rb + 2)) with (buf + 1 + rb + 2) by lia.
  - by exists es.
Qed.

(** packing a SUBSCRIBE message. When the packet fits, exactly the bytes the
    standard prescribes are written, at the start of the buffer and nowhere
    else, and unpacking them into arrays that are large enough recovers the
    packet identifier and every topic with its quality of service, in order;
    when it does not fit, the call fails with -ENOMEM and writes nothing. *)
Theorem mqtt_subscribe_roundtrip fuel buf size id topics qs ts elements m :
  subscribe_ok m buf MQTT_SUBSCRIBE id topics qs ts -> Forall (fun t => (length t <= fuel)%nat) ts ->
  Forall (fun t => t <> []) ts -> Z.of_nat (length ts) <= elements ->
  let packet := topics_packet MQTT_SUBSCRIBE true id ts qs in
  (size < len packet -> mqtt_pack_subscribe fuel buf size id topics qs m = Some (- ENOMEM, None, m)) /\
  (len packet <= size ->
     exists m' es, mqtt_pack_subscribe fuel buf size id topics qs m = Some (0, Some (len packet), m') /\
       read_bytes m' buf (len packet) = packet /\
       (forall x, x < buf \/ buf + len packet <= x -> m' x = m x) /\
       mqtt_unpack_subscribe buf (len packet) elements m' = (0, Some id, es) /\
       Forall2 (entry_of m') es (zip ts qs)).
Proof.
  intros Hok Hf Hall Hn. cbn zeta.
  pose proof (pack_topics_ok fuel buf size MQTT_SUBSCRIBE id topics qs ts m (or_introl eq_refl) Hok Hf) as Hp.
  cbn zeta in Hp. change (MQTT_SUBSCRIBE =? MQTT_SUBSCRIBE) with true in Hp. unfold mqtt_pack_subscribe. split.
  - intros Hs. by rewrite (proj2 (Z.leb_gt _ _) Hs) in Hp.
  - intros Hs. rewrite (proj2 (Z.leb_le _ _) Hs) in Hp. destruct Hp as (m' & E & Ha).
    destruct Hok as [Hid Hne Hq Hmax _].
    destruct (unpack_subscribe_ok buf id ts qs elements m') as (es & Eu & Hes); try done;
      [by apply (appended_found _ _ m)|by apply Hq|].
    exists m', es. split_and!; try done; [by apply found_read, (appended_found _ _ m)|].
    intros x Hx. by eapply appended_out.
Qed.
(** Topics at 100 and 200. *)
Definition topics_memory : memory :=
  fun a => if a <? 200 then nth (Z.to_nat (a - 100)) [97; 47; 98] 0 else nth (Z.to_nat (a - 200)) [99] 0.

Lemma mqtt_subscribe_roundtrip_witness :
  exists m' es, mqtt_pack_subscribe 3 1000 64 7 [100; 200] [1; 2] topics_memory = Some (0, Some 14, m') /\
    read_bytes m' 1000 14 = [130; 12; 0; 7; 0; 3; 97; 47; 98; 1; 0; 1; 99; 2] /\
    mqtt_unpack_subscribe 1000 14 4 m' = (0, Some 7, es) /\
    Forall2 (entry_of m') es [([97; 47; 98], 1); ([99], 2)].
Proof.
  destruct (mqtt_subscribe_roundtrip 3 1000 64 7 [100; 200] [1; 2] [[97; 47; 98]; [99]] 4 topics_memory) as (_ & H).
  - split; try (vm_compute; split; congruence); try (vm_compute; congruence); try reflexivity.
    apply Forall2_cons. split; [|apply Forall2_cons; split; [|by constructor]];
      (split; [split; [left|vm_compute; congruence]|right; vm_compute; congruence]);
      (split; [discriminate|]; repeat split; discriminate).
  - repeat constructor.
  - repeat constructor; discriminate.
  - vm_compute. congruence.
  - destruct H as (m' & es & E & R & _ & U & He); [vm_compute; congruence|].
    exists m', es. split; [exact E|]. split; [exact R|]. split; [exact U|exact He].
Defined.
End Subscribe.

(** ** SUBACK *)
Section Suback.
Implicit Types (m : memory) (buf size id elements : Z) (qs l : list Z).

(** MQTT 3.9 *)
Definition suback_body id qs : list Z := be16 id ++ qs.
Definition suback_packet id qs : list Z := [144] ++ rlen_bytes (len (suback_body id qs)) ++ suback_body id qs.

Lemma put_qos_ok buf l qs m m' :
  appended buf l m m' -> Forall (fun q => 0 <= q <= 2) qs -> appended buf (l ++ qs) m (put_qos qs (buf + len l) m').
Proof.
  intros Hm Hq. revert l m' Hm. induction Hq as [|q qs Hq _ IH]; intros l m' Hm; cbn [put_qos].
  { by rewrite app_nil_r. }
  rewrite (u8_small q) by lia. apply (appended_byte _ _ q) in Hm. specialize (IH _ _ Hm).
  rewrite length_app, <- app_assoc in IH. cbn [length app] in IH.
  by replace (buf + len l + 1) with (buf + Z.of_nat (length l + 1)) by lia.
Qed.

Lemma get_qos_ok a qs m :
  found m a qs -> Forall (fun q => 0 <= q <= 2) qs -> get_qos (length qs) a m = (0, qs).
Proof.
  intros Hf Hq. revert a Hf. induction Hq as [|q qs Hq _ IH]; intros a Hf; [done|].
  rewrite found_cons in Hf. destruct Hf as [Ha Hf]. cbn [length get_qos]. rewrite Ha.
  unfold MQTT_QoS0, MQTT_QoS2, QoS_SIZE. rewrite (proj2 (Z.ltb_ge q 0)), (proj2 (Z.ltb_ge 2 q)) by lia.
  cbn [orb]. by rewrite IH.
Qed.

Lemma suback_packet_len id qs :
  len (suback_packet id qs) = 1 + len (rlen_bytes (2 + len qs)) + (2 + len qs) /\
  len (suback_body id qs) = 2 + len qs.
Proof.
  assert (len (suback_body id qs) = 2 + len qs) as E
    by (unfold suback_body; rewrite length_app; cbn [be16 length]; lia).
  unfold suback_packet. rewrite E, !length_app. cbn [length]. lia.
Qed.

(** Acknowledging a subscription: the qualities granted are recovered by an array
    that is large enough. *)
Lemma suback_roundtrip buf size id qs elements m :
  0 <= id <= 65535 -> Forall (fun q => 0 <= q <= 2) qs -> len qs <= elements <= 255 -> 0 < elements ->
  let packet := suback_packet id qs in
  if len packet <=? size
  then exists m', mqtt_pack_suback buf size id qs m = (0, Some (len packet), m') /\
    appended buf packet m m' /\
    mqtt_unpack_suback buf (len packet) elements m' = (0, id, len qs, qs)
  else mqtt_pack_suback buf size id qs m = (- ENOMEM, Some (len packet), m).
Proof.
  intros Hid Hq He He0. cbn zeta. destruct (suback_packet_len id qs) as [Etot Eb].
  pose proof (rlen_len (2 + len qs)) as Hrl. set (total := len (suback_packet id qs)) in *.
  unfold mqtt_pack_suback, PACKET_ID_SIZE, QoS_SIZE, PACKET_TYPE_SIZE.
  rewrite Z.mul_1_l, (u16_small (2 + len qs)) by lia. rewrite rlen_size_ok by lia.
  rewrite (u16_small (1 + _ + _)) by lia. rewrite <- Etot, Z.ltb_antisym.
  destruct (Z.leb_spec total size) as [Hfit|Hfit]; cbn [negb]; [|done].
  change (u8 (Z.shiftl MQTT_SUBACK 4)) with 144.
  pose proof (packet_start buf 144 (2 + len qs) m ltac:(lia)) as [A2 E2].
  set (m2 := rlen_encode _ _ _) in *. set (l2 := [144] ++ _) in *.
  rewrite (u16_small (1 + _)) by lia. rewrite <- E2. apply (appended_put16 _ _ id) in A2; [|lia].
  assert (len (l2 ++ be16 id) = len l2 + 2) as E3 by (rewrite length_app; cbn [be16 length]; lia).
  rewrite (u16_small (len l2 + 2)) by lia. rewrite <- E3. apply (put_qos_ok buf _ qs) in A2; [|done].
  assert (suback_packet id qs = (l2 ++ be16 id) ++ qs) as Ep.
  { unfold suback_packet, l2. rewrite Eb. unfold suback_body. by rewrite <- !app_assoc. }
  rewrite <- Ep in A2. eexists. split_and!; [done|done|].
  set (m' := put_qos qs _ _) in *. pose proof (appended_found _ _ _ _ A2) as Hf.
  unfold suback_packet in Hf. rewrite Eb in Hf. cbn [app] in Hf. rewrite found_cons in Hf. destruct Hf as [Hh Hf].
  unfold mqtt_unpack_suback, PACKET_TYPE_SIZE, PACKET_ID_SIZE. rewrite (proj2 (Z.leb_gt elements 0)) by lia.
  rewrite Hh. change (144 =? Z.shiftl MQTT_SUBACK 4) with true. cbn [negb]. rewrite (u16_small (total - 1)) by lia.
  destruct (rlen_decode_ok (buf + 1) (2 + len qs) (total - 1) m' (suback_body id qs) Hf) as [-> Hb]; [lia|lia|].
  set (rb := len (rlen_bytes (2 + len qs))) in *. rewrite (proj2 (Z.ltb_ge total _)) by lia.
  rewrite (u16_small (1 + rb)), (u16_small (1 + rb + 2)) by lia.
  apply found_be16 in Hb; [|lia]. destruct Hb as [Hi Hb].
  replace (ntohs (UNALIGNED_GET m' (buf + (1 + rb)))) with id by (rewrite <- Hi; do 2 f_equal; lia).
  replace (total - (1 + rb + 2)) with (len qs) by lia. rewrite (u8_small (len qs)) by lia.
  rewrite (proj2 (Z.ltb_ge elements _)) by lia. rewrite Nat2Z.id.
  rewrite get_qos_ok; [done| |done]. by replace (buf + (1 + rb + 2)) with (buf + 1 + rb + 2) by lia.
Qed.
End Suback.
