(* ===== verification/BitField.v ===== *)
(** * Fields of hardware registers

    A field of [n] bits at position [sh] of a register: reading it, replacing it,
    and the laws of the two; single bits. A register is a 32-bit word. *)
From S2P Require Import Prelude.

Section Fields.
Implicit Types (r v sh n i : Z).

Definition slice r sh n : Z := Z.land (Z.shiftr r sh) (Z.ones n).
Definition update r sh n v : Z := Z.lor (Z.land r (Z.lnot (Z.shiftl (Z.ones n) sh))) (Z.shiftl v sh).

Definition word_ok r : Prop := 0 <= r < 2 ^ 32.

Lemma high_bit n v i : 0 <= v < 2 ^ n -> 0 <= n <= i -> Z.testbit v i = false.
Proof. intros Hv Hi. rewrite <- (Z.mod_small v (2 ^ n)) by lia. apply Z.mod_pow2_bits_high. lia. Qed.

Lemma slice_bit r sh n i :
  0 <= sh -> 0 <= n -> 0 <= i -> Z.testbit (slice r sh n) i = (i <? n) && Z.testbit r (i + sh).
Proof.
  intros Hsh Hn Hi. unfold slice. rewrite Z.land_spec, Z.shiftr_spec, Z.testbit_ones_nonneg by lia. apply andb_comm.
Qed.

Lemma update_bit r sh n v i :
  0 <= sh -> 0 <= n -> 0 <= v < 2 ^ n -> 0 <= i ->
  Z.testbit (update r sh n v) i = if (sh <=? i) && (i <? sh + n) then Z.testbit v (i - sh) else Z.testbit r i.
Proof.
  intros Hsh Hn Hv Hi. unfold update. rewrite Z.lor_spec, Z.land_spec, Z.lnot_spec, !Z.shiftl_spec by lia.
  destruct (Z.leb_spec sh i), (Z.ltb_spec i (sh + n)); cbn [andb].
  - rewrite Z.testbit_ones_nonneg by lia. rewrite (proj2 (Z.ltb_lt (i - sh) n)) by lia.
    cbn [negb]. by rewrite andb_false_r.
  - rewrite (high_bit n v), Z.testbit_ones_nonneg by lia. rewrite (proj2 (Z.ltb_ge (i - sh) n)) by lia.
    cbn [negb]. by rewrite andb_true_r, orb_false_r.
  - rewrite !(Z.testbit_neg_r _ (i - sh)) by lia. cbn [negb]. by rewrite andb_true_r, orb_false_r.
  - rewrite !(Z.testbit_neg_r _ (i - sh)) by lia. cbn [negb]. by rewrite andb_true_r, orb_false_r.
Qed.

Lemma slice_update r sh n v : 0 <= sh -> 0 <= n -> 0 <= v < 2 ^ n -> slice (update r sh n v) sh n = v.
Proof.
  intros Hsh Hn Hv. apply Z.bits_inj'. intros i Hi. rewrite slice_bit, update_bit by lia.
  destruct (Z.ltb_spec i n); cbn [andb].
  - rewrite (proj2 (Z.leb_le sh (i + sh))), (proj2 (Z.ltb_lt (i + sh) (sh + n))) by lia.
    cbn [andb]. f_equal. lia.
  - symmetry. apply (high_bit n); lia.
Qed.

Lemma slice_update_ne r sh n v sh' n' :
  0 <= sh -> 0 <= n -> 0 <= v < 2 ^ n -> 0 <= sh' -> 0 <= n' -> sh' + n' <= sh \/ sh + n <= sh' ->
  slice (update r sh n v) sh' n' = slice r sh' n'.
Proof.
  intros Hsh Hn Hv Hsh' Hn' Hd. apply Z.bits_inj'. intros i Hi. rewrite !slice_bit, update_bit by lia.
  destruct (Z.ltb_spec i n'); cbn [andb]; [|done].
  destruct (Z.leb_spec sh (i + sh')), (Z.ltb_spec (i + sh') (sh + n)); cbn [andb]; try done. lia.
Qed.

Lemma slice_range r sh n : 0 <= n -> 0 <= slice r sh n < 2 ^ n.
Proof. intros Hn. unfold slice. rewrite Z.land_ones by lia. apply Z.mod_pos_bound. lia. Qed.

Lemma slice_ext r r' sh n :
  0 <= sh -> 0 <= n -> (forall i, sh <= i < sh + n -> Z.testbit r' i = Z.testbit r i) -> slice r' sh n = slice r sh n.
Proof.
  intros Hsh Hn Hb. apply Z.bits_inj'. intros i Hi. rewrite !slice_bit by done.
  destruct (Z.ltb_spec i n); cbn [andb]; [|done]. apply Hb. lia.
Qed.

(** A number whose bits from [n] on are clear is below [2 ^ n]. *)
Lemma bits_range n v :
  0 <= v -> 0 <= n -> (forall i, n <= i -> Z.testbit v i = false) -> 0 <= v < 2 ^ n.
Proof.
  intros Hv Hn Hb. assert (v = v `mod` 2 ^ n) as ->; [|apply Z.mod_pos_bound; lia].
  apply Z.bits_inj'. intros i Hi. destruct (Z.lt_ge_cases i n).
  - by rewrite Z.mod_pow2_bits_low.
  - rewrite Z.mod_pow2_bits_high by lia. by apply Hb.
Qed.

Lemma update_word r sh n v :
  word_ok r -> 0 <= sh -> 0 <= n -> sh + n <= 32 -> 0 <= v < 2 ^ n -> word_ok (update r sh n v).
Proof.
  intros [H0 Hr] Hsh Hn Hw Hv. apply bits_range; [|lia|].
  - unfold update. apply Z.lor_nonneg. rewrite Z.land_nonneg, Z.shiftl_nonneg. lia.
  - intros i Hi. rewrite update_bit by lia. rewrite (proj2 (Z.ltb_ge i (sh + n))), andb_false_r by lia.
    apply (high_bit 32); lia.
Qed.

(** Setting and clearing one bit. *)
Lemma set_bit_spec r b i :
  0 <= b -> 0 <= i -> Z.testbit (Z.lor r (Z.shiftl 1 b)) i = Z.testbit r i || bool_decide (i = b).
Proof.
  intros Hb Hi. rewrite Z.lor_spec, Z.shiftl_spec by lia. f_equal. case_bool_decide as E.
  - subst. by rewrite Z.sub_diag.
  - destruct (Z.lt_ge_cases i b); [by rewrite Z.testbit_neg_r by lia|].
    by rewrite (high_bit 1 1) by lia.
Qed.

Lemma clear_bit_spec r b i :
  0 <= b -> 0 <= i ->
  Z.testbit (Z.land r (Z.lnot (Z.shiftl 1 b))) i = Z.testbit r i && negb (bool_decide (i = b)).
Proof.
  intros Hb Hi. rewrite Z.land_spec, Z.lnot_spec by lia. do 2 f_equal.
  pose proof (set_bit_spec 0 b i Hb Hi) as Hs. by rewrite Z.lor_0_l, Z.bits_0 in Hs.
Qed.

Lemma test_bit_spec r b : 0 <= b -> negb (Z.land r (Z.shiftl 1 b) =? 0) = Z.testbit r b.
Proof.
  intros Hb. rewrite Z.shiftl_1_l, land_pow2_eqb by done. apply negb_involutive.
Qed.

Lemma wrap_word r : word_ok r -> u32 r = r.
Proof. intros Hr. unfold wrap_u. by rewrite Z.mod_small. Qed.

Lemma word_bits_eq r s : word_ok r -> word_ok s -> (forall i, 0 <= i < 32 -> Z.testbit r i = Z.testbit s i) -> r = s.
Proof.
  intros Hr Hs Hb. apply Z.bits_inj'. intros i Hi. destruct (Z.lt_ge_cases i 32); [by apply Hb|].
  by rewrite (high_bit 32 r), (high_bit 32 s) by (unfold word_ok in *; lia).
Qed.

Lemma lor_word r s : word_ok r -> word_ok s -> word_ok (Z.lor r s).
Proof.
  intros [Hr0 Hr] [Hs0 Hs]. apply bits_range; [by apply Z.lor_nonneg|lia|].
  intros i Hi. by rewrite Z.lor_spec, (high_bit 32 r), (high_bit 32 s) by lia.
Qed.

Lemma land_word r z : word_ok r -> word_ok (Z.land r z).
Proof.
  intros [Hr0 Hr]. apply bits_range; [apply Z.land_nonneg; by left|lia|].
  intros i Hi. by rewrite Z.land_spec, (high_bit 32 r) by lia.
Qed.

Lemma u32_word z : word_ok (u32 z).
Proof. apply Z.mod_pos_bound. lia. Qed.

Lemma bit_word b : 0 <= b < 32 -> word_ok (Z.shiftl 1 b).
Proof. intros Hb. unfold word_ok. rewrite Z.shiftl_1_l. split; [lia|]. apply Z.pow_lt_mono_r; lia. Qed.

Lemma u32_bit b : 0 <= b < 32 -> u32 (Z.shiftl 1 b) = Z.shiftl 1 b.
Proof. intros Hb. by apply wrap_word, bit_word. Qed.

Lemma land_wrap r z : word_ok r -> Z.land r (u32 z) = Z.land r z.
Proof.
  intros [H0 Hr]. apply Z.bits_inj'. intros i Hi. rewrite !Z.land_spec. destruct (Z.lt_ge_cases i 32).
  - by rewrite wrap_u_testbit by lia.
  - by rewrite (high_bit 32 r) by lia.
Qed.

(** Setting or clearing one bit decides that bit and keeps the others. *)
Lemma set_bit_word r b i :
  0 <= b < 32 -> 0 <= i ->
  Z.testbit (Z.lor r (u32 (Z.shiftl 1 b))) i = if i =? b then true else Z.testbit r i.
Proof.
  intros Hb Hi. rewrite u32_bit, set_bit_spec by lia. destruct (Z.eqb_spec i b).
  - rewrite bool_decide_eq_true_2 by done. apply orb_true_r.
  - rewrite bool_decide_eq_false_2 by done. apply orb_false_r.
Qed.

Lemma clear_bit_word r b i :
  word_ok r -> 0 <= b < 32 -> 0 <= i ->
  Z.testbit (Z.land r (u32 (Z.lnot (Z.shiftl 1 b)))) i = if i =? b then false else Z.testbit r i.
Proof.
  intros Hr Hb Hi. rewrite land_wrap, clear_bit_spec by (done || lia). destruct (Z.eqb_spec i b).
  - rewrite bool_decide_eq_true_2 by done. apply andb_false_r.
  - rewrite bool_decide_eq_false_2 by done. apply andb_true_r.
Qed.
End Fields.

Create HintDb words.
#[export] Hint Resolve lor_word land_word u32_word bit_word update_word : words.
