(* ===== verification/Systick.v ===== *)
(** * The system timer (drivers/timer/cortex_m_systick.c)

    The driver without tickless idle, which is what the jasontek_f103rb board is
    configured for, together with the kernel it announces ticks to. The counter
    behind the registers is the class [SysTickHardware]. *)
From S2P Require Import Prelude Kernel ReadyQ TimeoutQ Sched SchedInv SchedApi Thread Boot Clock Core CoreTime BitField.

(** include/arch/arm/cortex_m/scs.h; [stcsr] has the bits enable, tickint, clksource
    and, at 16, countflag. *)
Record systick := mk_systick { stcsr : Z; strvr : Z; stcvr : Z }.

Definition enable (s : systick) : bool := Z.testbit (stcsr s) 0.
Definition tickint (s : systick) : bool := Z.testbit (stcsr s) 1.
Definition countflag (s : systick) : bool := Z.testbit (stcsr s) 16.

(** ARMv7-M B3.3: a counter that is enabled counts down at every cycle and is
    reloaded at the cycle after it has reached zero; when it counts from one to zero,
    countflag is set and, if its interrupt is enabled, the exception becomes
    pending. Reading the control register clears countflag, which cannot be written;
    a write to the current value clears both, whatever is written. *)
Class SysTickHardware := {
  cycle : systick -> systick;
  pends : systick -> bool;
  read_stcsr : systick -> systick;
  write_stcsr : Z -> systick -> systick;
  write_stcvr : Z -> systick -> systick;
  cycle_reload s : enable s = true -> stcvr s = 0 -> stcvr (cycle s) = strvr s;
  cycle_down s : enable s = true -> 0 < stcvr s -> stcvr (cycle s) = stcvr s - 1;
  cycle_stopped s : enable s = false -> cycle s = s;
  cycle_keeps s : strvr (cycle s) = strvr s /\ enable (cycle s) = enable s /\ tickint (cycle s) = tickint s;
  cycle_countflag s : countflag (cycle s) = countflag s || (enable s && (stcvr s =? 1));
  pends_spec s : pends s = enable s && tickint s && (stcvr s =? 1);
  read_stcsr_spec s : strvr (read_stcsr s) = strvr s /\ stcvr (read_stcsr s) = stcvr s /\
    enable (read_stcsr s) = enable s /\ tickint (read_stcsr s) = tickint s /\ countflag (read_stcsr s) = false;
  write_stcsr_spec v s : strvr (write_stcsr v s) = strvr s /\ stcvr (write_stcsr v s) = stcvr s /\
    enable (write_stcsr v s) = Z.testbit v 0 /\ tickint (write_stcsr v s) = Z.testbit v 1 /\
    countflag (write_stcsr v s) = countflag s;
  write_stcvr_spec v s : stcvr (write_stcvr v s) = 0 /\ strvr (write_stcvr v s) = strvr s /\
    enable (write_stcvr v s) = enable s /\ tickint (write_stcvr v s) = tickint s /\ countflag (write_stcvr v s) = false
}.

(** The timer, whether its exception is pending, the driver's running total, the
    cycles since the timer was started, and the kernel. *)
Record machine := mk_machine {
  timer : systick; pending : bool; clock_accumulated_count : Z; cycles : Z; ker : kernel
}.

Section Driver.
Context `{KConfig} {HW : SysTickHardware}.
Context (sys_clock_hw_cycles_per_tick : Z).
Context (run_func : positive -> toid -> kernel -> option kernel).
Implicit Types (s : systick) (m : machine).

Definition sysTickReloadSet (count : Z) s : systick :=
  write_stcvr 0 (mk_systick (stcsr s) count (stcvr s)).

Definition sysTickStop s : systick :=
  let reg := stcsr s in
  let s := read_stcsr s in
  let reg := update reg 0 1 0 in
  let reg := update reg 1 1 0 in
  write_stcsr reg s.

(** [{1, 1, 1, 0, 0, 0}] *)
Definition _sys_clock_driver_init s : option systick :=
  if sys_clock_hw_cycles_per_tick <=? Z.shiftl 1 24 then
    let s := sysTickReloadSet (u32 (sys_clock_hw_cycles_per_tick - 1)) s in
    Some (write_stcsr 7 s)
  else None.

(** [_sys_idle_elapsed_ticks] stays at 1; [_ExcExit] is the exit of [timer_isr]. *)
Definition _timer_int_handler m : option machine :=
  let count := u32 (clock_accumulated_count m + sys_clock_hw_cycles_per_tick) in
  k ← timer_isr run_func 1 (ker m);
  Some (mk_machine (timer m) (pending m) count (cycles m) k).

Definition k_cycle_get_32 m : Z :=
  u32 (clock_accumulated_count m + u32 (strvr (timer m) - stcvr (timer m))).

Definition sys_clock_disable m : machine :=
  mk_machine (sysTickStop (timer m)) (pending m) (clock_accumulated_count m) (cycles m) (ker m).
End Driver.

(** ** The timer and the kernel running together *)
Section Machine.
Context `{KConfig} {HW : SysTickHardware}.
Context (N : Z) (run_func : positive -> toid -> kernel -> option kernel)
        (run_abort : positive -> kernel -> option kernel).
Implicit Types (s : systick) (m : machine) (K : toid -> Prop) (k : kernel).

(** One cycle of the processor clock. *)
Definition clock_cycle m : machine :=
  mk_machine (cycle (timer m)) (pending m || pends (timer m)) (clock_accumulated_count m) (cycles m + 1) (ker m).

(** The exception is taken: it is no longer pending when its handler starts. *)
Definition take_interrupt m : option machine :=
  _timer_int_handler N run_func (mk_machine (timer m) false (clock_accumulated_count m) (cycles m) (ker m)).

Definition with_kernel k m : machine :=
  mk_machine (timer m) (pending m) (clock_accumulated_count m) (cycles m) k.

(** From boot, cycles, timer interrupts and services in any order, as long as an
    interrupt is taken before the next one becomes pending: interrupts are not
    locked for longer than a tick. Services and handlers take no time here. *)
Inductive runs (t0 : Z) : (toid -> Prop) -> machine -> Prop :=
  | runs_boot p k k' s s' :
      zeroed k -> in_isr k = false -> _ASSERT_VALID_PRIO p = true -> _Cstart p k = Some k' ->
      _sys_clock_driver_init N s = Some s' -> tick_count k' = t0 -> - 2 ^ 63 <= t0 < 2 ^ 63 ->
      runs t0 boot_threads (mk_machine s' false 0 0 k')
  | runs_cycle K m :
      runs t0 K m -> pending m && pends (timer m) = false -> runs t0 K (clock_cycle m)
  | runs_interrupt K m m' :
      runs t0 K m -> pending m = true -> take_interrupt m = Some m' -> runs t0 K m'
  | runs_service K m e k :
      runs t0 K m -> allowed K (ker m) e -> (forall n, e <> Tick n) -> exec run_func run_abort e (ker m) = Some k ->
      runs t0 (known_after e K) (with_kernel k m).

(** The invariant: the counter holds what is left of the tick, and the kernel has
    been told of every tick but the one that is pending. *)
Record on_time (t0 : Z) K m : Prop := {
  ot_kernel : running K (ker m);
  ot_isr : in_isr (ker m) = false;
  ot_forward : forward (ker m);
  ot_on : enable (timer m) = true /\ tickint (timer m) = true;
  ot_reload : strvr (timer m) = N - 1;
  ot_cycles : 0 <= cycles m;
  ot_counter : stcvr (timer m) = (- cycles m) `mod` N;
  ot_total : clock_accumulated_count m = u32 (N * (cycles m / N - b2z (pending m)));
  ot_ticks : tick_count (ker m) = i64 (t0 + (cycles m / N - b2z (pending m)))
}.

Context (HN : 2 <= N <= 2 ^ 24).

Lemma i64_add_l a b : i64 (i64 a + b) = i64 (a + b).
Proof.
  unfold wrap_s. f_equal. replace (a + b + 2 ^ (64 - 1)) with (a + 2 ^ (64 - 1) + b) by lia.
  rewrite <- (Zplus_mod_idemp_l (a + 2 ^ (64 - 1)) b). f_equal. lia.
Qed.

(** A tick is complete at every [N]th cycle. *)
Lemma next_cycle c :
  0 <= c ->
  (c + 1) / N = c / N + b2z ((- c) `mod` N =? 1) /\
  (- (c + 1)) `mod` N = if (- c) `mod` N =? 0 then N - 1 else (- c) `mod` N - 1.
Proof.
  intros Hc. pose proof (Z.div_mod c N ltac:(lia)) as Ed. pose proof (Z.mod_pos_bound c N ltac:(lia)) as Rc.
  rewrite Z.opp_add_distr. destruct (Z.eqb_spec (c `mod` N) 0) as [E0|E0].
  - rewrite (Z.mod_opp_l_z c N) by lia. rewrite (proj2 (Z.eqb_neq 0 1)), Z.eqb_refl by lia. split.
    + cbn [b2z]. rewrite Z.add_0_r. symmetry. apply (Z.div_unique _ _ _ 1); lia.
    + symmetry. apply (Z.mod_unique_pos _ _ (- (c / N) - 1)); lia.
  - rewrite (Z.mod_opp_l_nz c N) by lia. rewrite (proj2 (Z.eqb_neq (N - c `mod` N) 0)) by lia. split.
    + symmetry. destruct (Z.eqb_spec (N - c `mod` N) 1) as [E1|E1]; cbn [b2z];
        [apply (Z.div_unique _ _ _ 0)|apply (Z.div_unique _ _ _ (c `mod` N + 1))]; lia.
    + symmetry. apply (Z.mod_unique_pos _ _ (- (c / N) - 1)); lia.
Qed.

Lemma boot_on_time t0 p k k' s s' :
  zeroed k -> in_isr k = false -> _ASSERT_VALID_PRIO p = true -> _Cstart p k = Some k' ->
  _sys_clock_driver_init N s = Some s' -> tick_count k' = t0 -> - 2 ^ 63 <= t0 < 2 ^ 63 ->
  on_time t0 boot_threads (mk_machine s' false 0 0 k').
Proof.
  intros Hz Hi Hp E Es Et Rt. destruct (cstart_ok p k Hz Hp) as (k1 & E1 & Hru & _ & _ & Eq & _ & Ei).
  rewrite E in E1. injection E1 as <-.
  unfold _sys_clock_driver_init in Es. change (Z.shiftl 1 24) with (2 ^ 24) in Es.
  rewrite (proj2 (Z.leb_le N (2 ^ 24))) in Es by lia. injection Es as <-.
  unfold sysTickReloadSet. set (w := mk_systick (stcsr s) (u32 (N - 1)) (stcvr s)).
  destruct (write_stcvr_spec 0 w) as (E0 & E1 & _), (write_stcsr_spec 7 (write_stcvr 0 w)) as (W1 & W2 & W3 & W4 & _).
  split; cbn [timer pending clock_accumulated_count cycles ker]; rewrite ?W1, ?W2, ?W3, ?W4; try done; try congruence.
  - intros o a. unfold schedule. rewrite Eq. by intros ?%elem_of_nil.
  - rewrite E1. cbn [w strvr]. apply u32_small. unfold UINT32_MAX. lia.
  - rewrite Z.div_0_l by lia. change (0 - b2z false) with 0. by rewrite Z.mul_0_r.
  - rewrite Z.div_0_l by lia. change (0 - b2z false) with 0. rewrite Z.add_0_r, Et. symmetry. by apply i64_small.
Qed.

Lemma cycle_on_time t0 K m :
  on_time t0 K m -> pending m && pends (timer m) = false -> on_time t0 K (clock_cycle m).
Proof.
  intros [Hru Hi Hf [Hon Hint] Hr Hc Hcnt Htot Htick] Hone.
  destruct (cycle_keeps (timer m)) as (Er & Ee & Et). destruct (next_cycle (cycles m) Hc) as [Hq Hn].
  assert (Ep : pends (timer m) = ((- cycles m) `mod` N =? 1)) by (by rewrite pends_spec, Hon, Hint, Hcnt).
  assert (Eb : (cycles m + 1) / N - b2z (pending m || pends (timer m)) = cycles m / N - b2z (pending m)).
  { rewrite Hq, Ep in *. destruct (pending m), (_ =? 1); cbn in *; done || lia. }
  split; cbn [clock_cycle timer pending clock_accumulated_count cycles ker]; try done; rewrite ?Eb; try congruence; [split; congruence|lia|].
  rewrite Hn. destruct (Z.eqb_spec ((- cycles m) `mod` N) 0) as [E0|E0].
  - rewrite cycle_reload; [done|done|congruence].
  - rewrite cycle_down; [congruence|done|]. pose proof (Z.mod_pos_bound (- cycles m) N). lia.
Qed.

Lemma interrupt_on_time t0 K m :
  on_time t0 K m -> pending m = true -> exists m', take_interrupt m = Some m' /\ on_time t0 K m' /\ pending m' = false.
Proof.
  intros [Hru Hi Hf Hon Hr Hc Hcnt Htot Htick] Hp. unfold take_interrupt, _timer_int_handler.
  cbn [ker timer pending clock_accumulated_count cycles].
  assert (Ha : allowed K (ker m) (Tick 1)) by (by apply forward_tick).
  destruct (exec_running run_func run_abort (Tick 1) K (ker m) Hru Hi Ha) as (k' & E & Hru').
  pose proof (exec_tick run_func run_abort (Tick 1) K (ker m) k' Hru Ha E) as Ht.
  pose proof (exec_forward run_func run_abort (Tick 1) K (ker m) k' Hru Hi Ha ltac:(congruence) E Hf) as Hf'.
  pose proof (exec_isr run_func run_abort (Tick 1) K (ker m) k' Hi Ha E) as Hi'.
  cbn [exec] in E. rewrite E. cbn [mbind option_bind]. eexists. split; [reflexivity|]. split; [|done].
  rewrite Hp in *. split; cbn [timer pending clock_accumulated_count cycles ker]; try done.
  - rewrite Htot, u32_add_l. f_equal. unfold b2z. lia.
  - cbn in Ht. rewrite Ht, Htick, i64_add_l. f_equal. unfold b2z. lia.
Qed.

Lemma runs_on_time t0 K m : runs t0 K m -> on_time t0 K m.
Proof.
  induction 1 as [p k k' s s'|K m _ IH Hone|K m m' _ IH Hp E|K m e k _ IH Ha Hn E].
  - by eapply boot_on_time.
  - by apply cycle_on_time.
  - destruct (interrupt_on_time t0 K m IH Hp) as (m1 & E1 & ? & _). congruence.
  - destruct IH as [Hru Hi Hf Hon Hr Hc Hcnt Htot Htick].
    destruct (exec_running run_func run_abort e K (ker m) Hru Hi Ha) as (k1 & E1 & Hru1). assert (k1 = k) as -> by congruence.
    split; cbn [with_kernel timer pending clock_accumulated_count cycles ker]; try done.
    + by apply (exec_isr run_func run_abort e K (ker m)).
    + apply (exec_forward run_func run_abort e K (ker m)); try done. intros n ->. by destruct (Hn n).
    + rewrite (exec_tick run_func run_abort e K (ker m) k Hru Ha E). destruct e; try done. by destruct (Hn ticks).
Qed.

(** Stopping the timer keeps the count and loses countflag. Once it is stopped it
    stands still and no exception becomes pending. *)
Lemma systick_stop_ok s :
  let s' := sysTickStop s in
  strvr s' = strvr s /\ stcvr s' = stcvr s /\ enable s' = false /\ tickint s' = false /\ countflag s' = false.
Proof.
  cbn zeta. unfold sysTickStop. destruct (read_stcsr_spec s) as (R1 & R2 & _ & _ & R5).
  edestruct (write_stcsr_spec (update (update (stcsr s) 0 1 0) 1 1 0) (read_stcsr s)) as (-> & -> & -> & -> & ->).
  rewrite !update_bit by lia. by rewrite R1, R2, R5.
Qed.

Lemma stopped s : cycle (sysTickStop s) = sysTickStop s /\ pends (sysTickStop s) = false.
Proof.
  destruct (systick_stop_ok s) as (_ & _ & E & _). split; [by apply cycle_stopped|]. by rewrite pends_spec, E.
Qed.

(** The cycle counter, in terms of the cycles that have passed. *)
Lemma cycle_get_ok t0 K m :
  on_time t0 K m ->
  k_cycle_get_32 m = u32 (cycles m - 1 + N * (b2z (stcvr (timer m) =? 0) - b2z (pending m))).
Proof.
  intros [_ _ _ _ Hr Hc Hcnt Htot _]. unfold k_cycle_get_32. rewrite Hr, Htot, u32_add_l, Z.add_comm, u32_add_l.
  f_equal. pose proof (Z.div_mod (cycles m) N ltac:(lia)) as Ed. rewrite Hcnt.
  destruct (Z.eqb_spec (cycles m `mod` N) 0) as [E0|E0].
  - rewrite Z.mod_opp_l_z by lia. cbn [Z.eqb b2z]. lia.
  - rewrite Z.mod_opp_l_nz by lia. pose proof (Z.mod_pos_bound (cycles m) N ltac:(lia)).
    rewrite (proj2 (Z.eqb_neq (N - cycles m `mod` N) 0)) by lia. cbn [b2z]. lia.
Qed.

(** C36: the system timer keeps the kernel's time. However cycles, timer interrupts
    and services are interleaved since boot, as long as no timer interrupt is kept
    waiting for a whole tick, the tick count is the number of complete ticks that
    have passed, less the one whose interrupt is pending; the cycle counter is the
    number of cycles (of which the first is spent on loading the counter), less a
    tick while the interrupt is pending and ahead by a tick in the cycle in which
    the counter is zero; every timeout lies in the future, a pending interrupt
    always runs to its end, and so does every service the interface allows. *)
Theorem systick_keeps_time t0 K m :
  runs t0 K m ->
  tick_count (ker m) = i64 (t0 + cycles m / N - b2z (pending m)) /\
  k_cycle_get_32 m = u32 (cycles m - 1 + N * (b2z (stcvr (timer m) =? 0) - b2z (pending m))) /\
  forward (ker m) /\
  (pending m = true -> exists m', take_interrupt m = Some m' /\ runs t0 K m' /\ pending m' = false) /\
  forall e, allowed K (ker m) e -> (forall n, e <> Tick n) ->
    exists k, exec run_func run_abort e (ker m) = Some k /\ runs t0 (known_after e K) (with_kernel k m).
Proof.
  intros Hr. pose proof (runs_on_time t0 K m Hr) as Hot. split_and!.
  - rewrite (ot_ticks _ _ _ Hot). f_equal. lia.
  - by eapply cycle_get_ok.
  - apply Hot.
  - intros Hp. destruct (interrupt_on_time t0 K m Hot Hp) as (m' & E & _ & Hp'). exists m'.
    split_and!; [done|by eapply runs_interrupt|done].
  - intros e Ha Hn. destruct (exec_running run_func run_abort e K (ker m)) as (k & E & _); [apply Hot|apply Hot|done|].
    exists k. split; [done|]. by apply runs_service.
Qed.
End Machine.

(** ** A witness *)

(** The counter as the manual has it. *)
Definition set_countflag (b : bool) (v : Z) : Z := update v 16 1 (b2z b).
Definition count_cycle (s : systick) : systick :=
  if enable s then
    mk_systick (set_countflag (countflag s || (stcvr s =? 1)) (stcsr s)) (strvr s)
      (if stcvr s =? 0 then strvr s else stcvr s - 1)
  else s.

Lemma set_countflag_bits b v :
  Z.testbit (set_countflag b v) 0 = Z.testbit v 0 /\ Z.testbit (set_countflag b v) 1 = Z.testbit v 1 /\
  Z.testbit (set_countflag b v) 16 = b.
Proof. unfold set_countflag. rewrite !update_bit by (destruct b; simpl; lia). by destruct b. Qed.

#[global] Program Instance systick_counter : SysTickHardware := {|
  cycle := count_cycle;
  pends s := enable s && tickint s && (stcvr s =? 1);
  read_stcsr s := mk_systick (set_countflag false (stcsr s)) (strvr s) (stcvr s);
  write_stcsr v s := mk_systick (set_countflag (countflag s) v) (strvr s) (stcvr s);
  write_stcvr v s := mk_systick (set_countflag false (stcsr s)) (strvr s) 0
|}.
Next Obligation. intros s E E0. unfold count_cycle. by rewrite E, E0. Qed.
Next Obligation. intros s E E0. unfold count_cycle. rewrite E. cbn [stcvr]. by rewrite (proj2 (Z.eqb_neq (stcvr s) 0)) by lia. Qed.
Next Obligation. intros s E. unfold count_cycle. by rewrite E. Qed.
Next Obligation.
  intros s. unfold count_cycle. destruct (enable s) eqn:E; [|by rewrite E]. split; [done|].
  rewrite <- E. split; apply set_countflag_bits.
Qed.
Next Obligation.
  intros s. unfold count_cycle. destruct (enable s); [|by rewrite orb_false_r]. apply set_countflag_bits.
Qed.
Next Obligation. done. Qed.
Next Obligation. intros s. split_and!; try done; apply set_countflag_bits. Qed.
Next Obligation. intros v s. split_and!; try done; apply set_countflag_bits. Qed.
Next Obligation. intros v s. split_and!; try done; apply set_countflag_bits. Qed.

(** A tick of three cycles: after the third cycle the interrupt is pending. *)
Definition started : machine :=
  mk_machine (mk_systick 7 2 0) false 0 0 booted.
Definition first_tick : machine := clock_cycle (clock_cycle (clock_cycle started)).

Lemma first_tick_runs : runs 3 no_func no_abort 0 boot_threads first_tick.
Proof.
  do 3 (apply runs_cycle; [|reflexivity]).
  apply (runs_boot 3 no_func no_abort 0 0 blank_kernel booted (mk_systick 0 0 0));
    [apply blank_zeroed|reflexivity|reflexivity|apply booted_eq|by vm_compute| |lia].
  pose proof booted_eq as E. vm_compute in E |- *. reflexivity.
Qed.

Lemma systick_keeps_time_witness :
  k_cycle_get_32 first_tick = 2 /\ exists m', take_interrupt 3 no_func first_tick = Some m' /\ pending m' = false.
Proof.
  destruct (systick_keeps_time 3 no_func no_abort ltac:(lia) 0 boot_threads first_tick first_tick_runs)
    as (_ & Ec & _ & Hi & _).
  split; [exact Ec|]. destruct (Hi eq_refl) as (m' & E & _ & Hp). exists m'. split; [exact E|exact Hp].
Defined.

(** The cycle counter is not monotonic: while the interrupt is pending it falls
    behind by a tick when the counter has been reloaded. *)
Lemma cycle_counter_steps_back :
  k_cycle_get_32 first_tick = 2 /\ k_cycle_get_32 (clock_cycle first_tick) = 0.
Proof. by vm_compute. Qed.
