(* ===== verification/Tickless.v ===== *)
(** * Tickless idle (drivers/timer/cortex_m_systick.c)

    The part of the driver under CONFIG_TICKLESS_IDLE: while the kernel is idle the
    timer is programmed to fire once, several ticks later. The ticks announced to
    the kernel are recorded in the order of the calls. *)
From S2P Require Import Prelude BitField Systick.

Definition TIMER_MODE_PERIODIC : Z := 0.
Definition TIMER_MODE_ONE_SHOT : Z := 1.
Definition IDLE_NOT_TICKLESS : Z := 0.
Definition IDLE_TICKLESS : Z := 1.

(** The registers, the static variables of the driver, [_sys_idle_elapsed_ticks] of
    the kernel, and the ticks announced. *)
Record driver := mk_driver {
  regs : systick;
  default_load_value : Z;
  idle_original_count : Z;
  max_system_ticks : Z;
  idle_original_ticks : Z;
  max_load_value : Z;
  timer_idle_skew : Z;
  timer_mode : Z;
  idle_mode : Z;
  total_count : Z;
  _sys_idle_elapsed_ticks : Z;
  announced : list Z
}.

Section Operations.
Context {HW : SysTickHardware}.
Implicit Types (s : systick) (d : driver).

Definition set_regs s d : driver :=
  mk_driver s (default_load_value d) (idle_original_count d) (max_system_ticks d) (idle_original_ticks d)
    (max_load_value d) (timer_idle_skew d) (timer_mode d) (idle_mode d) (total_count d) (_sys_idle_elapsed_ticks d)
    (announced d).
Definition set_idle (count ticks : Z) d : driver :=
  mk_driver (regs d) (default_load_value d) count (max_system_ticks d) ticks
    (max_load_value d) (timer_idle_skew d) (timer_mode d) (idle_mode d) (total_count d) (_sys_idle_elapsed_ticks d)
    (announced d).
Definition set_modes (tm im : Z) d : driver :=
  mk_driver (regs d) (default_load_value d) (idle_original_count d) (max_system_ticks d) (idle_original_ticks d)
    (max_load_value d) (timer_idle_skew d) tm im (total_count d) (_sys_idle_elapsed_ticks d) (announced d).
Definition set_total (v : Z) d : driver :=
  mk_driver (regs d) (default_load_value d) (idle_original_count d) (max_system_ticks d) (idle_original_ticks d)
    (max_load_value d) (timer_idle_skew d) (timer_mode d) (idle_mode d) v (_sys_idle_elapsed_ticks d) (announced d).
Definition set_elapsed (v : Z) d : driver :=
  mk_driver (regs d) (default_load_value d) (idle_original_count d) (max_system_ticks d) (idle_original_ticks d)
    (max_load_value d) (timer_idle_skew d) (timer_mode d) (idle_mode d) (total_count d) v (announced d).

Definition _sys_clock_tick_announce d : driver :=
  mk_driver (regs d) (default_load_value d) (idle_original_count d) (max_system_ticks d) (idle_original_ticks d)
    (max_load_value d) (timer_idle_skew d) (timer_mode d) (idle_mode d) (total_count d) (_sys_idle_elapsed_ticks d)
    (announced d ++ [_sys_idle_elapsed_ticks d]).

Definition _sys_clock_final_tick_announce d : driver := _sys_clock_tick_announce (set_elapsed 1 d).

Definition sysTickStart s : systick :=
  let reg := stcsr s in
  let s := read_stcsr s in
  let reg := update reg 0 1 1 in
  let reg := update reg 1 1 1 in
  let reg := update reg 2 1 1 in
  write_stcsr reg s.

Definition sysTickCurrentGet s : Z := stcvr s.
Definition sysTickReloadGet s : Z := strvr s.

(** [__scs.systick.stcsr.val |= stcsr.val], with [{1, 0, 1, 0, 0, 0}] *)
Definition start_counting s : systick := write_stcsr (Z.lor (stcsr s) 5) (read_stcsr s).

(** The counter runs while the time that reprogramming takes is measured; [start]
    and [stop] are what the first and the last read of it give. [None] is a division
    by zero. *)
Definition sysTickTicklessIdleInit (start stop : Z) d : option driver :=
  let default := sysTickReloadGet (regs d) in
  if default =? 0 then None
  else
    let max_ticks := 16777215 / default in
    let s := start_counting (start_counting (start_counting (regs d))) in
    let s := sysTickReloadSet default (sysTickStop s) in
    Some (mk_driver s default (idle_original_count d) max_ticks (idle_original_ticks d) (u32 (max_ticks * default))
            (u32 (start - stop)) TIMER_MODE_PERIODIC (idle_mode d) (total_count d) (_sys_idle_elapsed_ticks d) (announced d)).

Definition _timer_idle_enter (ticks : Z) d : driver :=
  let d := set_regs (sysTickStop (regs d)) d in
  let count := u32 (sysTickCurrentGet (regs d) - timer_idle_skew d) in
  let d :=
    if (ticks =? -1) || (max_system_ticks d <? u32 ticks) then
      set_idle (u32 (count + u32 (max_load_value d - default_load_value d))) (u32 (max_system_ticks d - 1)) d
    else
      let t := u32 (ticks - 1) in set_idle (u32 (count + u32 (t * default_load_value d))) t d in
  let d := set_modes TIMER_MODE_ONE_SHOT IDLE_TICKLESS d in
  set_regs (sysTickStart (sysTickReloadSet (idle_original_count d) (regs d))) d.

(** The branch of [_timer_idle_exit] for a timer that has not fired: the elapsed
    "counter time" in ticks, and the timer set to interrupt again. *)
Definition idle_interrupted (count : Z) d : driver :=
  let elapsed := u32 (idle_original_count d - count) in
  let remaining := elapsed `mod` default_load_value d in
  let d := if remaining =? 0 then
             set_modes TIMER_MODE_PERIODIC (idle_mode d) (set_regs (sysTickReloadSet (default_load_value d) (regs d)) d)
           else if remaining <? count then set_regs (sysTickReloadSet remaining (regs d)) d
           else d in
  let d := set_elapsed (i32 (elapsed / default_load_value d)) d in
  if _sys_idle_elapsed_ticks d =? 0 then d else _sys_clock_tick_announce d.

Definition _timer_idle_exit d : driver :=
  if timer_mode d =? TIMER_MODE_PERIODIC then d
  else
    let d := set_regs (sysTickStop (regs d)) d in
    let count := sysTickCurrentGet (regs d) in
    let d :=
      if (count =? 0) || countflag (regs d) then
        let d := set_regs (sysTickReloadSet (default_load_value d) (regs d)) d in
        let d := set_modes TIMER_MODE_PERIODIC (idle_mode d) d in
        _sys_clock_tick_announce (set_elapsed (i32 (idle_original_ticks d - 1)) d)
      else idle_interrupted count d in
    let d := set_modes (timer_mode d) IDLE_NOT_TICKLESS d in
    set_regs (sysTickStart (regs d)) d.

(** [_timer_int_handler] up to the accounting of idle time. *)
Definition tickless_handler d : driver :=
  let d := if timer_mode d =? TIMER_MODE_ONE_SHOT then
             let s := sysTickStart (sysTickReloadSet (default_load_value d) (sysTickStop (regs d))) in
             set_modes TIMER_MODE_PERIODIC (idle_mode d) (set_regs s d)
           else d in
  let d := if idle_mode d =? IDLE_TICKLESS then
             let d := set_modes (timer_mode d) IDLE_NOT_TICKLESS d in
             _sys_clock_tick_announce (set_elapsed (i32 (idle_original_ticks d + 1)) d)
           else _sys_clock_final_tick_announce d in
  set_total (u32 (total_count d + u32 (default_load_value d * _sys_idle_elapsed_ticks d))) d.
End Operations.

(** ** Idling *)
Section Idling.
Context {HW : SysTickHardware}.
Implicit Types (s : systick) (d : driver) (ticks count : Z).

Lemma systick_start_ok s :
  let s' := sysTickStart s in strvr s' = strvr s /\ stcvr s' = stcvr s /\ enable s' = true /\ tickint s' = true.
Proof.
  cbn zeta. unfold sysTickStart. destruct (read_stcsr_spec s) as (R1 & R2 & _).
  edestruct (write_stcsr_spec (update (update (update (stcsr s) 0 1 1) 1 1 1) 2 1 1) (read_stcsr s))
    as (-> & -> & -> & -> & _).
  rewrite !update_bit by lia. by rewrite R1, R2.
Qed.

Lemma reload_ok count s : let s' := sysTickReloadSet count s in strvr s' = count /\ stcvr s' = 0.
Proof. cbn zeta. unfold sysTickReloadSet. edestruct (write_stcvr_spec 0) as (-> & -> & _). done. Qed.

(** What [sysTickTicklessIdleInit] has computed, and a counter that runs. *)
Record ready_to_idle d : Prop := {
  rt_default : 1 <= default_load_value d <= 16777215;
  rt_ticks : max_system_ticks d = 16777215 / default_load_value d;
  rt_load : max_load_value d = max_system_ticks d * default_load_value d;
  rt_skew : 0 <= timer_idle_skew d <= stcvr (regs d);
  rt_counter : stcvr (regs d) <= default_load_value d
}.

Lemma tickless_init_ok start stop d :
  1 <= strvr (regs d) <= 16777215 -> 0 <= start - stop < 2 ^ 32 ->
  exists d', sysTickTicklessIdleInit start stop d = Some d' /\
    default_load_value d' = strvr (regs d) /\ max_system_ticks d' = 16777215 / strvr (regs d) /\
    max_load_value d' = max_system_ticks d' * strvr (regs d) /\ timer_idle_skew d' = start - stop /\
    strvr (regs d') = strvr (regs d) /\ stcvr (regs d') = 0.
Proof.
  intros Hd Hs. unfold sysTickTicklessIdleInit, sysTickReloadGet. rewrite (proj2 (Z.eqb_neq _ _)) by lia.
  eexists. split; [reflexivity|]. cbn [default_load_value max_system_ticks max_load_value timer_idle_skew regs].
  pose proof (Z.mul_div_le 16777215 (strvr (regs d)) ltac:(lia)).
  pose proof (Z.div_pos 16777215 (strvr (regs d)) ltac:(lia) ltac:(lia)).
  edestruct (reload_ok (strvr (regs d))) as [-> ->]. split_and!; try done; apply u32_small; unfold UINT32_MAX; [nia|lia].
Qed.

(** How many ticks are slept: all of them when as many do not fit the counter. *)
Definition idle_ticks ticks d : Z :=
  if (ticks =? -1) || (max_system_ticks d <? ticks) then max_system_ticks d else ticks.

Lemma max_ticks_ok d : ready_to_idle d ->
  1 <= max_system_ticks d /\ max_system_ticks d * default_load_value d <= 16777215.
Proof.
  intros [HD HM _ _ _]. rewrite HM. pose proof (Z.mul_div_le 16777215 (default_load_value d) ltac:(lia)).
  split; [|lia]. apply Z.div_le_lower_bound; lia.
Qed.

(** The state in which the timer has been told to fire [t] ticks later. *)
Record idling (t : Z) d0 d : Prop := {
  id_count : idle_original_count d = stcvr (regs d0) - timer_idle_skew d0 + (t - 1) * default_load_value d0;
  id_fits : 0 <= idle_original_count d <= 16777215;
  id_ticks : idle_original_ticks d = t - 1 /\ 1 <= t <= max_system_ticks d0;
  id_default : default_load_value d = default_load_value d0;
  id_modes : timer_mode d = TIMER_MODE_ONE_SHOT /\ idle_mode d = IDLE_TICKLESS;
  id_announced : announced d = announced d0;
  id_total : total_count d = total_count d0
}.

Lemma idle_enter_ok ticks d :
  ready_to_idle d -> ticks = -1 \/ 1 <= ticks <= INT32_MAX ->
  let d' := _timer_idle_enter ticks d in
  idling (idle_ticks ticks d) d d' /\ strvr (regs d') = idle_original_count d' /\ stcvr (regs d') = 0 /\
  enable (regs d') = true /\ tickint (regs d') = true.
Proof.
  intros Hr Ht. destruct (max_ticks_ok d Hr) as [HM HL]. destruct Hr as [HD HMD Hload Hskew Hcnt]. cbn zeta.
  set (t := idle_ticks ticks d).
  assert (Rt : 1 <= t <= max_system_ticks d).
  { unfold t, idle_ticks. destruct (Z.eqb_spec ticks (-1)), (Z.ltb_spec (max_system_ticks d) ticks); cbn [orb]; lia. }
  set (c := stcvr (regs d) - timer_idle_skew d + (t - 1) * default_load_value d).
  assert (Rc : 0 <= c <= 16777215) by (unfold c; nia).
  destruct (systick_stop_ok (regs d)) as (_ & Ecv & _).
  assert (Eu : u32 (stcvr (regs d) - timer_idle_skew d) = stcvr (regs d) - timer_idle_skew d)
    by (apply u32_small; unfold UINT32_MAX; lia).
  assert (E : exists d1, _timer_idle_enter ticks d = set_regs (sysTickStart (sysTickReloadSet c (sysTickStop (regs d)))) d1
    /\ d1 = set_modes TIMER_MODE_ONE_SHOT IDLE_TICKLESS (set_idle c (t - 1) (set_regs (sysTickStop (regs d)) d))).
  { unfold _timer_idle_enter, sysTickCurrentGet. cbn [set_regs regs timer_idle_skew max_system_ticks max_load_value default_load_value].
    rewrite Ecv, Eu.
    assert (Eb : (ticks =? -1) || (max_system_ticks d <? u32 ticks) = (ticks =? -1) || (max_system_ticks d <? ticks)).
    { destruct (Z.eqb_spec ticks (-1)) as [|Hne]; [done|]. by rewrite u32_small by (unfold UINT32_MAX, INT32_MAX in *; lia). }
    rewrite Eb. unfold t, idle_ticks in *. unfold c. destruct ((ticks =? -1) || _);
      (eexists; split; [|reflexivity]);
      [rewrite (u32_small (max_load_value d - _)), (u32_small (max_system_ticks d - 1)) by (unfold UINT32_MAX; nia);
       rewrite (u32_small (_ + (max_load_value d - _))) by (unfold UINT32_MAX; nia)
      |rewrite (u32_small (ticks - 1)) by (unfold UINT32_MAX; nia);
       rewrite (u32_small ((ticks - 1) * _)) by (unfold UINT32_MAX; nia); rewrite u32_small by (unfold UINT32_MAX; nia)];
      cbn [set_idle set_modes idle_original_count set_regs regs]; do 3 f_equal; rewrite ?Hload; ring. }
  destruct E as (d1 & -> & ->). cbn [set_regs regs].
  destruct (systick_start_ok (sysTickReloadSet c (sysTickStop (regs d)))) as (-> & -> & -> & ->).
  destruct (reload_ok c (sysTickStop (regs d))) as [-> ->]. by split.
Qed.

(** The idle time has passed: the handler finds a timer that has fired. *)
Lemma idle_complete t d0 d s :
  ready_to_idle d0 -> idling t d0 d ->
  let d' := tickless_handler (set_regs s d) in
  announced d' = announced d0 ++ [t] /\ timer_mode d' = TIMER_MODE_PERIODIC /\ idle_mode d' = IDLE_NOT_TICKLESS /\
  strvr (regs d') = default_load_value d0 /\ stcvr (regs d') = 0 /\ enable (regs d') = true /\
  tickint (regs d') = true /\ total_count d' = u32 (total_count d0 + default_load_value d0 * t).
Proof.
  intros Hr [_ _ [Et Rt] ED [Em Ei] Ea Etot]. destruct (max_ticks_ok d0 Hr) as [_ HL]. pose proof (rt_default d0 Hr) as HD.
  cbn zeta. unfold tickless_handler. cbn [set_regs timer_mode]. rewrite Em, Z.eqb_refl.
  cbn [set_modes set_regs idle_mode]. rewrite Ei, Z.eqb_refl.
  cbn [_sys_clock_tick_announce set_elapsed set_modes set_regs set_total idle_original_ticks announced timer_mode idle_mode
    regs default_load_value _sys_idle_elapsed_ticks total_count].
  rewrite Et, ED, Ea, Etot, Z.sub_add. assert (i32 t = t) as -> by (apply i32_small; unfold INT32_MIN, INT32_MAX; nia).
  edestruct (systick_start_ok (sysTickReloadSet (default_load_value d0) (sysTickStop s))) as (-> & -> & -> & ->).
  edestruct (reload_ok (default_load_value d0) (sysTickStop s)) as [-> ->].
  split_and!; try done. rewrite Z.add_comm, u32_add_l. f_equal. lia.
Qed.

(** Something else has woken the processor, with [count] cycles left. *)
Lemma idle_interrupted_ok t d0 d s :
  ready_to_idle d0 -> idling t d0 d -> 0 < stcvr s <= idle_original_count d ->
  let elapsed := idle_original_count d - stcvr s in
  let n := elapsed / default_load_value d0 in
  let d' := _timer_idle_exit (set_regs s d) in
  announced d' = announced d0 ++ (if n =? 0 then [] else [n]) /\ 0 <= n < t /\ idle_mode d' = IDLE_NOT_TICKLESS /\
  enable (regs d') = true /\ tickint (regs d') = true.
Proof.
  intros Hr [Ec Rc [_ Rt] ED [Em _] Ea _] Hs. destruct (max_ticks_ok d0 Hr) as [_ HL].
  destruct Hr as [HD _ _ Hskew Hcnt]. cbn zeta. set (e := idle_original_count d - stcvr s).
  assert (Re : 0 <= e /\ e < t * default_load_value d0) by (unfold e; nia).
  assert (Rn : 0 <= e / default_load_value d0 < t)
    by (split; [apply Z.div_pos; lia|apply Z.div_lt_upper_bound; nia]).
  destruct (systick_stop_ok s) as (_ & Ecv & _ & _ & Ecf).
  unfold _timer_idle_exit. cbn [set_regs timer_mode]. rewrite Em. cbn [Z.eqb].
  change (TIMER_MODE_ONE_SHOT =? TIMER_MODE_PERIODIC) with false. cbn iota. unfold sysTickCurrentGet.
  cbn [set_regs regs]. rewrite Ecv, Ecf, (proj2 (Z.eqb_neq (stcvr s) 0)) by lia. cbn [orb].
  unfold idle_interrupted. cbn [set_regs idle_original_count default_load_value]. fold e.
  assert (u32 e = e) as -> by (apply u32_small; unfold UINT32_MAX, e; lia). rewrite ED.
  set (d1 := if e `mod` default_load_value d0 =? 0 then _ else _).
  assert (announced d1 = announced d0 /\ default_load_value d1 = default_load_value d0) as [Ea1 ED1].
  { unfold d1. destruct (_ =? 0); [|destruct (_ <? _)]; by cbn. }
  assert (Hi : i32 (e / default_load_value d1) = e / default_load_value d0).
  { rewrite ED1. apply i32_small. unfold INT32_MIN, INT32_MAX. nia. }
  cbn [set_elapsed _sys_idle_elapsed_ticks]. rewrite Hi.
  destruct (e / default_load_value d0 =? 0); cbn [set_elapsed set_modes set_regs announced idle_mode regs _sys_clock_tick_announce _sys_idle_elapsed_ticks];
    rewrite Ea1; (match goal with |- context [sysTickStart ?x] => destruct (systick_start_ok x) as (_ & _ & -> & ->) end);
    split_and!; solve [done | apply Rn | by rewrite app_nil_r].
Qed.

(** What tickless idle programs and announces, in terms of the registers. Asked to
    sleep for some ticks, or for as long as possible, the driver programs the counter
    with what is left of the current tick and the further ticks, at most as many as
    the 24 bits of the counter hold, and nothing overflows on the way. The handler
    announces the ticks that were programmed; [_timer_idle_exit], with the counter at
    a value other than zero, the whole ticks it has counted down, fewer than were
    programmed. That these are the ticks that have passed holds only if the timer has
    not fired before [_timer_idle_exit] is called: see the lemmas below. *)
Theorem tickless_idle_correct ticks d :
  ready_to_idle d -> ticks = -1 \/ 1 <= ticks <= INT32_MAX ->
  let t := idle_ticks ticks d in
  let d1 := _timer_idle_enter ticks d in
  let D := default_load_value d in
  (1 <= t <= max_system_ticks d /\ idle_original_count d1 = stcvr (regs d) - timer_idle_skew d + (t - 1) * D /\
   0 <= idle_original_count d1 < 2 ^ 24 /\ strvr (regs d1) = idle_original_count d1 /\ stcvr (regs d1) = 0 /\
   enable (regs d1) = true /\ tickint (regs d1) = true /\ announced d1 = announced d) /\
  (forall s, let d2 := tickless_handler (set_regs s d1) in
     announced d2 = announced d ++ [t] /\ timer_mode d2 = TIMER_MODE_PERIODIC /\ idle_mode d2 = IDLE_NOT_TICKLESS /\
     strvr (regs d2) = D /\ stcvr (regs d2) = 0 /\ enable (regs d2) = true /\ tickint (regs d2) = true) /\
  (forall s, 0 < stcvr s <= idle_original_count d1 ->
     let n := (idle_original_count d1 - stcvr s) / D in
     let d2 := _timer_idle_exit (set_regs s d1) in
     announced d2 = announced d ++ (if n =? 0 then [] else [n]) /\ 0 <= n < t /\ idle_mode d2 = IDLE_NOT_TICKLESS /\
     enable (regs d2) = true /\ tickint (regs d2) = true).
Proof.
  intros Hr Ht. cbn zeta. destruct (idle_enter_ok ticks d Hr Ht) as (Hid & Es & Ec & Ee & Eti).
  destruct Hid as [I1 I2 I3 I4 I5 I6 I7] eqn:EI. clear EI. split_and!; try done; try lia.
  - intros s. destruct (idle_complete (idle_ticks ticks d) d (_timer_idle_enter ticks d) s Hr Hid)
      as (? & ? & ? & ? & ? & ? & ? & _). by split_and!.
  - intros s Hs. by apply (idle_interrupted_ok (idle_ticks ticks d) d).
Qed.
End Idling.

(** ** Witness and defects *)

(** A tick of ten cycles (and one for reloading), none of which has passed. *)
Definition idle_driver : driver :=
  mk_driver (mk_systick 7 10 10) 10 0 1677721 0 16777210 0 TIMER_MODE_PERIODIC IDLE_NOT_TICKLESS 0 1 [].

Lemma tickless_idle_correct_witness :
  announced (tickless_handler (_timer_idle_enter 3 idle_driver)) = [3].
Proof.
  destruct (tickless_idle_correct 3 idle_driver) as (_ & H & _).
  - split; vm_compute; intuition discriminate.
  - right. unfold INT32_MAX. lia.
  - destruct (H (regs (_timer_idle_enter 3 idle_driver))) as (E & _). vm_compute in E |- *. exact E.
Defined.

Definition idling_driver : driver := _timer_idle_enter 3 idle_driver.
Definition woken (count : Z) (flag : bool) : driver :=
  set_regs (mk_systick (if flag then 65543 else 7) 30 count) idling_driver.

(** A timer that has fired when [_timer_idle_exit] is called, and has not been
    reloaded: with the interrupt that follows, one tick of the three is lost. *)
Lemma expired_idle_loses_tick : announced (tickless_handler (_timer_idle_exit (woken 0 true))) = [1; 1].
Proof. by vm_compute. Qed.

(** If it has been reloaded, countflag tells that it has fired, but stopping the
    timer has cleared it: two of the three ticks are lost. *)
Lemma countflag_is_lost : announced (tickless_handler (_timer_idle_exit (woken 30 true))) = [1].
Proof. by vm_compute. Qed.

(** Woken eleven cycles into the idle time, nine cycles before the next tick, the
    timer is programmed to fire one cycle later. *)
Lemma next_tick_misplaced :
  announced (_timer_idle_exit (woken 19 false)) = [1] /\ strvr (regs (_timer_idle_exit (woken 19 false))) = 1.
Proof. by vm_compute. Qed.
