(* ===== verification/Stm32Gpio.v ===== *)
(** * Pins of the STM32F1 (arch/arm/soc/st_stm32/stm32f1)

    The part of the GPIO driver that is specific to the chip (soc_gpio.c), and
    the pin multiplexer (soc_config.c, drivers/pinmux/stm32) with the pins of the
    jasontek_f103rb board. Registers are 32-bit words. A port is named by the
    address of its registers; the clock of the peripherals is the two enable
    registers of the RCC. *)
From S2P Require Import Prelude Kernel BitField.

Module Stm32.

(** soc.h: [enum stm32f10x_pin_config_mode] *)
Definition STM32F10X_PIN_CONFIG_BIAS_HIGH_IMPEDANCE : Z := 0.
Definition STM32F10X_PIN_CONFIG_BIAS_PULL_UP : Z := 1.
Definition STM32F10X_PIN_CONFIG_BIAS_PULL_DOWN : Z := 2.
Definition STM32F10X_PIN_CONFIG_ANALOG : Z := 3.
Definition STM32F10X_PIN_CONFIG_DRIVE_OPEN_DRAIN : Z := 4.
Definition STM32F10X_PIN_CONFIG_DRIVE_PUSH_PULL : Z := 5.
Definition STM32F10X_PIN_CONFIG_AF_PUSH_PULL : Z := 6.
Definition STM32F10X_PIN_CONFIG_AF_OPEN_DRAIN : Z := 7.

(** include/gpio.h *)
Definition GPIO_DIR_OUT : Z := 1.
Definition GPIO_DIR_MASK : Z := 1.
Definition GPIO_PUD_PULL_UP : Z := Z.shiftl 1 8.
Definition GPIO_PUD_PULL_DOWN : Z := Z.shiftl 2 8.
Definition GPIO_PUD_MASK : Z := Z.shiftl 3 8.

(** gpio_registers.h *)
Record stm32f10x_gpio := mk_gpio {
  crl : Z; crh : Z; idr : Z; odr : Z; bsrr : Z; brr : Z; lckr : Z
}.
Record stm32f10x_afio := mk_afio {
  evcr : Z; mapr : Z; exticr1 : Z; exticr2 : Z; exticr3 : Z; exticr4 : Z; mapr2 : Z
}.

Section Pins.
Implicit Types (g : stm32f10x_gpio) (a : stm32f10x_afio) (pin conf flags : Z).

Definition __func_to_mode (func : Z) : Z :=
  if (func =? STM32F10X_PIN_CONFIG_ANALOG) || (func =? STM32F10X_PIN_CONFIG_BIAS_HIGH_IMPEDANCE)
     || (func =? STM32F10X_PIN_CONFIG_BIAS_PULL_UP) || (func =? STM32F10X_PIN_CONFIG_BIAS_PULL_DOWN) then 0
  else if (func =? STM32F10X_PIN_CONFIG_DRIVE_OPEN_DRAIN) || (func =? STM32F10X_PIN_CONFIG_DRIVE_PUSH_PULL)
     || (func =? STM32F10X_PIN_CONFIG_AF_PUSH_PULL) || (func =? STM32F10X_PIN_CONFIG_AF_OPEN_DRAIN) then 1
  else 0.

Definition __func_to_cnf (func : Z) : Z :=
  if func =? STM32F10X_PIN_CONFIG_ANALOG then 0
  else if func =? STM32F10X_PIN_CONFIG_BIAS_HIGH_IMPEDANCE then 1
  else if (func =? STM32F10X_PIN_CONFIG_BIAS_PULL_UP) || (func =? STM32F10X_PIN_CONFIG_BIAS_PULL_DOWN) then 2
  else if func =? STM32F10X_PIN_CONFIG_DRIVE_PUSH_PULL then 0
  else if func =? STM32F10X_PIN_CONFIG_DRIVE_OPEN_DRAIN then 1
  else if func =? STM32F10X_PIN_CONFIG_AF_PUSH_PULL then 2
  else if func =? STM32F10X_PIN_CONFIG_AF_OPEN_DRAIN then 3
  else 0.

(** [pincfg] is not null: the return code and what is stored there. *)
Definition stm32_gpio_flags_to_conf flags : Z * Z :=
  let direction := Z.land flags GPIO_DIR_MASK in
  if direction =? GPIO_DIR_OUT then (0, STM32F10X_PIN_CONFIG_DRIVE_PUSH_PULL)
  else
    let pud := Z.land flags GPIO_PUD_MASK in
    if pud =? GPIO_PUD_PULL_UP then (0, STM32F10X_PIN_CONFIG_BIAS_PULL_UP)
    else if pud =? GPIO_PUD_PULL_DOWN then (0, STM32F10X_PIN_CONFIG_BIAS_PULL_DOWN)
    else (0, STM32F10X_PIN_CONFIG_BIAS_HIGH_IMPEDANCE).

Definition set_crl v g : stm32f10x_gpio := mk_gpio v (crh g) (idr g) (odr g) (bsrr g) (brr g) (lckr g).
Definition set_crh v g : stm32f10x_gpio := mk_gpio (crl g) v (idr g) (odr g) (bsrr g) (brr g) (lckr g).
Definition set_odr v g : stm32f10x_gpio := mk_gpio (crl g) (crh g) (idr g) v (bsrr g) (brr g) (lckr g).

(** [*reg &= ~(0xf << (crpin * 4)); *reg |= (cnf << (crpin * 4 + 2) | mode << (crpin * 4));] *)
Definition configure_reg (reg crpin cnf mode : Z) : Z :=
  let reg := Z.land reg (u32 (Z.lnot (Z.shiftl 15 (crpin * 4)))) in
  Z.lor reg (u32 (Z.lor (Z.shiftl cnf (crpin * 4 + 2)) (Z.shiftl mode (crpin * 4)))).

Definition stm32_gpio_configure pin conf g : Z * stm32f10x_gpio :=
  let cnf := __func_to_cnf conf in
  let mode := __func_to_mode conf in
  let g := if 7 <? pin then set_crh (configure_reg (crh g) (pin - 8) cnf mode) g
           else set_crl (configure_reg (crl g) pin cnf mode) g in
  let g := if conf =? STM32F10X_PIN_CONFIG_BIAS_PULL_UP then
             set_odr (Z.lor (odr g) (u32 (Z.shiftl 1 pin))) g
           else if conf =? STM32F10X_PIN_CONFIG_BIAS_PULL_DOWN then
             set_odr (Z.land (odr g) (u32 (Z.lnot (Z.shiftl 1 pin)))) g
           else g in
  (0, g).

Definition stm32_gpio_set pin (value : Z) g : Z * stm32f10x_gpio :=
  let pval := Z.shiftl 1 (Z.land pin 15) in
  if negb (value =? 0) then (0, set_odr (Z.lor (odr g) pval) g)
  else (0, set_odr (Z.land (odr g) (u32 (Z.lnot pval))) g).

Definition stm32_gpio_get pin g : Z := Z.land (Z.shiftr (idr g) pin) 1.

(** [exticr->val &= ~(0xf << shift); exticr->val |= port << shift;] *)
Definition route (port shift val : Z) : Z :=
  Z.lor (Z.land val (u32 (Z.lnot (Z.shiftl 15 shift)))) (u32 (Z.shiftl port shift)).

Definition stm32_gpio_enable_int (port pin : Z) a : Z * stm32f10x_afio :=
  let set := route port (4 * Z.rem pin 4) in
  if pin <=? 3 then (0, mk_afio (evcr a) (mapr a) (set (exticr1 a)) (exticr2 a) (exticr3 a) (exticr4 a) (mapr2 a))
  else if pin <=? 7 then (0, mk_afio (evcr a) (mapr a) (exticr1 a) (set (exticr2 a)) (exticr3 a) (exticr4 a) (mapr2 a))
  else if pin <=? 11 then (0, mk_afio (evcr a) (mapr a) (exticr1 a) (exticr2 a) (set (exticr3 a)) (exticr4 a) (mapr2 a))
  else if pin <=? 15 then (0, mk_afio (evcr a) (mapr a) (exticr1 a) (exticr2 a) (exticr3 a) (set (exticr4 a)) (mapr2 a))
  else (- EINVAL, a).
End Pins.

(** ** The clocks of the peripherals (drivers/clock_control/stm32f10x_clock.c) *)

(** include/drivers/clock_control/stm32f1_clock_control.h *)
Definition STM32F10X_CLOCK_APB2_BASE : Z := u32 (Z.shiftl 1 31).
Definition STM32F10X_CLOCK_SUBSYS_AFIO : Z := Z.lor STM32F10X_CLOCK_APB2_BASE (Z.shiftl 1 0).
Definition STM32F10X_CLOCK_SUBSYS_IOPA : Z := Z.lor STM32F10X_CLOCK_APB2_BASE (Z.shiftl 1 2).
Definition STM32F10X_CLOCK_SUBSYS_IOPB : Z := Z.lor STM32F10X_CLOCK_APB2_BASE (Z.shiftl 1 3).
Definition STM32F10X_CLOCK_SUBSYS_IOPC : Z := Z.lor STM32F10X_CLOCK_APB2_BASE (Z.shiftl 1 4).
Definition STM32F10X_CLOCK_SUBSYS_IOPD : Z := Z.lor STM32F10X_CLOCK_APB2_BASE (Z.shiftl 1 5).
Definition STM32F10X_CLOCK_SUBSYS_IOPE : Z := Z.lor STM32F10X_CLOCK_APB2_BASE (Z.shiftl 1 6).

(** rcc_registers.h *)
Record stm32f10x_rcc := mk_rcc {
  cr : Z; cfgr : Z; cir : Z; apb2rstr : Z; apb1rstr : Z; ahbenr : Z; apb2enr : Z; apb1enr : Z; bdcr : Z; csr : Z
}.

Section PeripheralClock.
Implicit Types (r : stm32f10x_rcc) (subsys : Z).

Definition set_apb2enr v r : stm32f10x_rcc :=
  mk_rcc (cr r) (cfgr r) (cir r) (apb2rstr r) (apb1rstr r) (ahbenr r) v (apb1enr r) (bdcr r) (csr r).
Definition set_apb1enr v r : stm32f10x_rcc :=
  mk_rcc (cr r) (cfgr r) (cir r) (apb2rstr r) (apb1rstr r) (ahbenr r) (apb2enr r) v (bdcr r) (csr r).

Definition stm32f10x_clock_control_on subsys r : Z * stm32f10x_rcc :=
  if STM32F10X_CLOCK_APB2_BASE <? subsys then
    let subsys := Z.land subsys (u32 (Z.lnot STM32F10X_CLOCK_APB2_BASE)) in
    (0, set_apb2enr (Z.lor (apb2enr r) subsys) r)
  else (0, set_apb1enr (Z.lor (apb1enr r) subsys) r).

Definition stm32f10x_clock_control_off subsys r : Z * stm32f10x_rcc :=
  if STM32F10X_CLOCK_APB2_BASE <? subsys then
    let subsys := Z.land subsys (u32 (Z.lnot STM32F10X_CLOCK_APB2_BASE)) in
    (0, set_apb2enr (Z.land (apb2enr r) (u32 (Z.lnot subsys))) r)
  else (0, set_apb1enr (Z.land (apb1enr r) (u32 (Z.lnot subsys))) r).
End PeripheralClock.

(** ** The pin multiplexer *)

(** drivers/pinmux/stm32/pinmux_stm32.h and pinmux_stm32f1.h *)
Definition STM32_PORTA : Z := 0.
Definition STM32_PORTB : Z := 1.
Definition STM32_PORTE : Z := 4.
Definition STM32PIN (_port _pin : Z) : Z := Z.lor (Z.shiftl _port 4) _pin.
Definition STM32_PORT (__pin : Z) : Z := Z.shiftr __pin 4.
Definition STM32_PIN (__pin : Z) : Z := Z.land __pin 15.
Definition STM32_PINMUX_FUNC_GPIO : Z := 0.
Definition STM32_PINMUX_FUNC_ANALOG : Z := 16.
Definition STM32F1_PINMUX_FUNC_PA9_USART1_TX : Z := 1.
Definition STM32F1_PINMUX_FUNC_PA10_USART1_RX : Z := 1.
Definition STM32F1_PINMUX_FUNC_PA8_PWM1_CH1 : Z := 2.

Record stm32_pinmux_conf := mk_conf { conf_pin : Z; funcs : list Z }.
Record pin_config := mk_pin { pin_num : Z; pin_mode : Z }.

(** [ext/hal/.../stm32f103xb.h] and soc.h *)
Definition GPIOA_BASE : Z := 1073741824 + 65536 + 2048.
Definition GPIO_PORTS_BASE : Z := GPIOA_BASE.
Definition GPIO_REG_SIZE : Z := 1024.

(** The alternate functions of each pin; entries between the designated ones are
    zero, which is [STM32F10X_PIN_CONFIG_BIAS_HIGH_IMPEDANCE]. *)
Definition pins : list stm32_pinmux_conf :=
  [mk_conf (STM32PIN STM32_PORTA 0) [0; 0; 0; STM32F10X_PIN_CONFIG_AF_PUSH_PULL];
   mk_conf (STM32PIN STM32_PORTA 2) [STM32F10X_PIN_CONFIG_AF_PUSH_PULL];
   mk_conf (STM32PIN STM32_PORTA 3) [STM32F10X_PIN_CONFIG_BIAS_HIGH_IMPEDANCE];
   mk_conf (STM32PIN STM32_PORTA 8) [0; STM32F10X_PIN_CONFIG_AF_PUSH_PULL];
   mk_conf (STM32PIN STM32_PORTA 9) [STM32F10X_PIN_CONFIG_AF_PUSH_PULL];
   mk_conf (STM32PIN STM32_PORTA 10) [STM32F10X_PIN_CONFIG_BIAS_HIGH_IMPEDANCE];
   mk_conf (STM32PIN STM32_PORTB 10) [STM32F10X_PIN_CONFIG_AF_PUSH_PULL];
   mk_conf (STM32PIN STM32_PORTB 11) [STM32F10X_PIN_CONFIG_BIAS_HIGH_IMPEDANCE]].

(** The loop over [pins]; [None] is a read outside [funcs]. *)
Fixpoint find_pin (l : list stm32_pinmux_conf) (pin func : Z) : option Z :=
  match l with
  | [] => Some (- EINVAL)
  | c :: l =>
      if conf_pin c =? pin then
        if Z.of_nat (length (funcs c)) <? u32 func then Some (- EINVAL)
        else funcs c !! Z.to_nat (u32 func)
      else find_pin l pin func
  end.

Definition stm32_get_pin_config (pin func : Z) : option Z :=
  if func =? STM32_PINMUX_FUNC_GPIO then Some STM32F10X_PIN_CONFIG_BIAS_HIGH_IMPEDANCE
  else if func =? STM32_PINMUX_FUNC_ANALOG then Some STM32F10X_PIN_CONFIG_ANALOG
  else find_pin pins pin (func - 1).

(** 0 is null. *)
Definition stm32_get_port_clock (port : Z) : Z :=
  let ports_to_clock := [STM32F10X_CLOCK_SUBSYS_IOPA; STM32F10X_CLOCK_SUBSYS_IOPB; STM32F10X_CLOCK_SUBSYS_IOPC;
                         STM32F10X_CLOCK_SUBSYS_IOPD; STM32F10X_CLOCK_SUBSYS_IOPE] in
  if STM32_PORTE <? port then 0 else nth (Z.to_nat port) ports_to_clock 0.

(** The registers the multiplexer touches: the ports by address, and the RCC. *)
Record chip := mk_chip { ports : Z -> stm32f10x_gpio; rcc : stm32f10x_rcc }.

Section Pinmux.
Implicit Types (s : chip) (pin func : Z).

Definition enable_port (port : Z) s : Z * chip :=
  let subsys := stm32_get_port_clock port in
  let '(rc, r) := stm32f10x_clock_control_on subsys (rcc s) in (rc, mk_chip (ports s) r).

Definition stm32_pin_configure pin func s : Z * chip :=
  let offset := u32 (STM32_PORT pin * GPIO_REG_SIZE) in
  let port_base := GPIO_PORTS_BASE + offset in
  let '(rc, g) := stm32_gpio_configure (STM32_PIN pin) func (ports s port_base) in
  (rc, mk_chip (<[port_base := g]> (ports s)) (rcc s)).

Definition _pinmux_stm32_set pin func s : option (Z * chip) :=
  let '(rc, s) := enable_port (STM32_PORT pin) s in
  if negb (rc =? 0) then Some (- EIO, s)
  else config ← stm32_get_pin_config pin func; Some (stm32_pin_configure pin config s).

Fixpoint stm32_setup_pins (pinconf : list pin_config) s : option chip :=
  match pinconf with
  | [] => Some s
  | p :: pinconf => r ← _pinmux_stm32_set (pin_num p) (pin_mode p) s; stm32_setup_pins pinconf (snd r)
  end.

(** The pins of the board, with CONFIG_UART_STM32_PORT_1 and CONFIG_PWM_STM32_1. *)
Definition pinconf : list pin_config :=
  [mk_pin (STM32PIN STM32_PORTA 9) STM32F1_PINMUX_FUNC_PA9_USART1_TX;
   mk_pin (STM32PIN STM32_PORTA 10) STM32F1_PINMUX_FUNC_PA10_USART1_RX;
   mk_pin (STM32PIN STM32_PORTA 8) STM32F1_PINMUX_FUNC_PA8_PWM1_CH1].

Definition pinmux_stm32_init s : option chip := stm32_setup_pins pinconf s.
End Pinmux.
End Stm32.
Import Stm32.

(** ** What configuring a pin does *)
Section Configure.
Implicit Types (g : stm32f10x_gpio) (a : stm32f10x_afio) (pin conf q r : Z).

(** RM0008 9.2.1 and 9.2.2: the four configuration bits of a pin, CNF above MODE. *)
Definition pin_field g q : Z := slice (if 7 <? q then crh g else crl g) (4 * (q `mod` 8)) 4.

(** RM0008 table 20: floating and pulled inputs, analog, outputs at 10 MHz,
    alternate function outputs, in the order of the enumeration. *)
Definition setting conf : Z := nth (Z.to_nat conf) [4; 8; 8; 0; 5; 1; 9; 13] 0.

Definition port_ok g : Prop := word_ok (crl g) /\ word_ok (crh g) /\ word_ok (odr g).

Lemma setting_ok conf :
  0 <= conf < 8 ->
  setting conf = 4 * __func_to_cnf conf + __func_to_mode conf /\
  0 <= __func_to_cnf conf < 4 /\ 0 <= __func_to_mode conf < 4.
Proof.
  intros Hc. assert (conf = 0 \/ conf = 1 \/ conf = 2 \/ conf = 3 \/ conf = 4 \/ conf = 5 \/ conf = 6 \/ conf = 7)
    as Hcases by lia.
  repeat destruct Hcases as [->|Hcases]; try (by vm_compute). subst. by vm_compute.
Qed.

Lemma setting_range conf : 0 <= conf < 8 -> 0 <= setting conf < 2 ^ 4.
Proof. intros Hc. destruct (setting_ok conf Hc) as (-> & ? & ?). lia. Qed.

(** The two ways the code writes a field: through a mask, with a value that is
    shifted into place. *)
Lemma update_masked r sh v :
  word_ok r -> 0 <= sh <= 28 -> 0 <= v < 2 ^ 4 ->
  Z.lor (Z.land r (u32 (Z.lnot (Z.shiftl 15 sh)))) (u32 (Z.shiftl v sh)) = update r sh 4 v.
Proof.
  intros Hr Hsh Hv. rewrite land_wrap by done. unfold update. change (Z.ones 4) with 15. f_equal.
  apply wrap_word. unfold word_ok. rewrite Z.shiftl_mul_pow2 by lia. split; [lia|].
  assert (2 ^ sh <= 2 ^ 28) by (apply Z.pow_le_mono_r; lia). change (2 ^ 32) with (2 ^ 4 * 2 ^ 28). nia.
Qed.

Lemma configure_reg_ok r c cnf mode :
  word_ok r -> 0 <= c < 8 -> 0 <= cnf < 4 -> 0 <= mode < 4 ->
  configure_reg r c cnf mode = update r (4 * c) 4 (4 * cnf + mode).
Proof.
  intros Hr Hc Hcnf Hm. unfold configure_reg. rewrite (Z.mul_comm c 4).
  replace (Z.lor (Z.shiftl cnf (4 * c + 2)) (Z.shiftl mode (4 * c))) with (Z.shiftl (4 * cnf + mode) (4 * c)).
  { apply update_masked; [done|lia|lia]. }
  rewrite (Z.add_comm (4 * c)), <- Z.shiftl_shiftl, <- Z.shiftl_lor by lia. f_equal.
  assert (cnf = 0 \/ cnf = 1 \/ cnf = 2 \/ cnf = 3) as [->|[->|[->| ->]]] by lia;
    assert (mode = 0 \/ mode = 1 \/ mode = 2 \/ mode = 3) as [->|[->|[->| ->]]] by lia; done.
Qed.

(** The registers after configuring a pin. *)
Definition configured pin conf g g' : Prop :=
  port_ok g' /\
  (forall q, 0 <= q < 16 -> pin_field g' q = if q =? pin then setting conf else pin_field g q) /\
  (forall q, 0 <= q -> Z.testbit (odr g') q =
     if q =? pin then (if conf =? STM32F10X_PIN_CONFIG_BIAS_PULL_UP then true
                       else if conf =? STM32F10X_PIN_CONFIG_BIAS_PULL_DOWN then false else Z.testbit (odr g) q)
     else Z.testbit (odr g) q) /\
  idr g' = idr g /\ bsrr g' = bsrr g /\ brr g' = brr g /\ lckr g' = lckr g.

Lemma pin_position q : 0 <= q < 16 -> q `mod` 8 = (if 7 <? q then q - 8 else q) /\ 0 <= q `mod` 8 < 8.
Proof.
  intros Hq. split; [|apply Z.mod_pos_bound; lia]. destruct (Z.ltb_spec 7 q).
  - rewrite <- (Z.mod_small (q - 8) 8) by lia. replace q with (q - 8 + 1 * 8) at 1 by lia. by rewrite Z.mod_add.
  - by rewrite Z.mod_small by lia.
Qed.

(** Replacing the field of a pin leaves those of the other pins. *)
Lemma pin_field_update pin v g q :
  0 <= pin < 16 -> 0 <= q < 16 -> 0 <= v < 2 ^ 4 ->
  let g' := if 7 <? pin then set_crh (update (crh g) (4 * (pin `mod` 8)) 4 v) g
            else set_crl (update (crl g) (4 * (pin `mod` 8)) 4 v) g in
  pin_field g' q = if q =? pin then v else pin_field g q.
Proof.
  intros Hp Hq Hv. cbn zeta. destruct (pin_position pin Hp) as [Ep Rp], (pin_position q Hq) as [Eq Rq].
  unfold pin_field. destruct (Z.eqb_spec q pin) as [->|Hne].
  - destruct (7 <? pin); cbn [set_crh set_crl crh crl]; apply slice_update; lia.
  - destruct (Z.ltb_spec 7 pin), (Z.ltb_spec 7 q); cbn [set_crh set_crl crh crl]; try done;
      apply slice_update_ne; lia.
Qed.

Lemma stm32_gpio_configure_ok pin conf g :
  0 <= pin < 16 -> 0 <= conf < 8 -> port_ok g ->
  exists g', stm32_gpio_configure pin conf g = (0, g') /\ configured pin conf g g'.
Proof.
  intros Hp Hc (Hl & Hh & Ho). destruct (setting_ok conf Hc) as (Es & Rc & Rm), (pin_position pin Hp) as [Ep Rp].
  pose proof (setting_range conf Hc) as Rs. unfold stm32_gpio_configure.
  set (g1 := if 7 <? pin then _ else _).
  assert (E1 : g1 = if 7 <? pin then set_crh (update (crh g) (4 * (pin `mod` 8)) 4 (setting conf)) g
               else set_crl (update (crl g) (4 * (pin `mod` 8)) 4 (setting conf)) g).
  { unfold g1. rewrite Es, Ep in *. destruct (7 <? pin); by rewrite configure_reg_ok by (done || lia). }
  assert (Hf : forall q, 0 <= q < 16 -> pin_field g1 q = if q =? pin then setting conf else pin_field g q)
    by (intros q Hq; rewrite E1; by apply pin_field_update).
  assert (Hw : word_ok (crl g1) /\ word_ok (crh g1) /\ odr g1 = odr g /\ idr g1 = idr g /\ bsrr g1 = bsrr g /\
    brr g1 = brr g /\ lckr g1 = lckr g).
  { rewrite E1. destruct (7 <? pin); cbn; split_and!; try done; apply update_word; done || lia. }
  clearbody g1. destruct Hw as (W1 & W2 & Eo & Hrest). eexists. split; [done|].
  destruct (Z.eqb_spec conf STM32F10X_PIN_CONFIG_BIAS_PULL_UP) as [E|E];
    [|destruct (Z.eqb_spec conf STM32F10X_PIN_CONFIG_BIAS_PULL_DOWN) as [E'|E']];
    (split; [split_and!; cbn [set_odr crl crh odr]; rewrite ?Eo; auto with words|]; split; [done|]; split; [|done]);
    intros q Hq; cbn [set_odr odr]; rewrite ?Eo.
  - rewrite (proj2 (Z.eqb_eq _ _) E). apply set_bit_word; lia.
  - rewrite (proj2 (Z.eqb_neq _ _) E), (proj2 (Z.eqb_eq _ _) E'). apply clear_bit_word; done || lia.
  - rewrite (proj2 (Z.eqb_neq _ _) E), (proj2 (Z.eqb_neq _ _) E'). by destruct (q =? pin).
Qed.
End Configure.

(** ** Interrupt routing, output and input *)
Section Routing.
Implicit Types (g : stm32f10x_gpio) (a : stm32f10x_afio) (pin port q : Z).

(** RM0008 9.4.3 to 9.4.6: the port whose pin [q] drives the EXTI line [q]. *)
Definition exticr a q : Z :=
  if q <=? 3 then exticr1 a else if q <=? 7 then exticr2 a else if q <=? 11 then exticr3 a else exticr4 a.
Definition routed a q : Z := slice (exticr a q) (4 * (q `mod` 4)) 4.
Definition afio_ok a : Prop :=
  word_ok (exticr1 a) /\ word_ok (exticr2 a) /\ word_ok (exticr3 a) /\ word_ok (exticr4 a).

Lemma route_ok port sh v : word_ok v -> 0 <= sh <= 28 -> 0 <= port < 16 -> route port sh v = update v sh 4 port.
Proof. intros. by apply update_masked. Qed.

Lemma stm32_gpio_enable_int_ok port pin a :
  0 <= pin < 16 -> 0 <= port < 16 -> afio_ok a ->
  exists a', stm32_gpio_enable_int port pin a = (0, a') /\ afio_ok a' /\
    (forall q, 0 <= q < 16 -> routed a' q = if q =? pin then port else routed a q) /\
    evcr a' = evcr a /\ mapr a' = mapr a /\ mapr2 a' = mapr2 a.
Proof.
  intros Hp Hport (W1 & W2 & W3 & W4). unfold stm32_gpio_enable_int. rewrite Z.rem_mod_nonneg by lia.
  pose proof (Z.mod_pos_bound pin 4 ltac:(lia)) as Hm. rewrite (proj2 (Z.leb_le pin 15)) by lia.
  assert (Hne : forall q, q <> pin -> q / 4 = pin / 4 -> q `mod` 4 <> pin `mod` 4).
  { intros q Hq Hd He. apply Hq. rewrite (Z.div_mod q 4), (Z.div_mod pin 4) by lia. congruence. }
  destruct (Z.leb_spec pin 3); [|destruct (Z.leb_spec pin 7); [|destruct (Z.leb_spec pin 11)]];
    (eexists; split; [done|]; rewrite !route_ok by (done || lia); split;
      [split_and!; cbn [exticr1 exticr2 exticr3 exticr4]; try done; apply update_word; done || lia|];
     split; [|done]; intros q Hq; pose proof (Z.mod_pos_bound q 4 ltac:(lia)) as Hmq;
     unfold routed, exticr; cbn [exticr1 exticr2 exticr3 exticr4];
     destruct (Z.eqb_spec q pin) as [->|Hd];
     [repeat match goal with |- context [?x <=? ?y] => destruct (Z.leb_spec x y); try lia end; apply slice_update; lia
     |destruct (Z.leb_spec q 3); [|destruct (Z.leb_spec q 7); [|destruct (Z.leb_spec q 11)]]; try done;
      apply slice_update_ne; try lia; assert (q / 4 = pin / 4) as E by (Z.div_mod_to_equations; lia);
      specialize (Hne q Hd E); lia]).
Qed.

Lemma stm32_gpio_set_ok pin value g :
  0 <= pin < 16 -> word_ok (odr g) ->
  exists g', stm32_gpio_set pin value g = (0, g') /\ word_ok (odr g') /\
    (forall q, 0 <= q -> Z.testbit (odr g') q = if q =? pin then negb (value =? 0) else Z.testbit (odr g) q) /\
    crl g' = crl g /\ crh g' = crh g /\ idr g' = idr g.
Proof.
  intros Hp Hw. unfold stm32_gpio_set. change 15 with (Z.ones 4).
  rewrite Z.land_ones, Z.mod_small by lia. pose proof (bit_word pin ltac:(lia)) as Hb.
  destruct (value =? 0); cbn [negb]; (eexists; split; [done|]; cbn [set_odr odr crl crh idr];
    split; [auto with words|]; split; [|done]); intros q Hq.
  - apply clear_bit_word; done || lia.
  - rewrite <- (u32_bit pin) by lia. apply set_bit_word; lia.
Qed.

Lemma stm32_gpio_get_ok pin g : 0 <= pin -> stm32_gpio_get pin g = b2z (Z.testbit (idr g) pin).
Proof.
  intros Hp. unfold stm32_gpio_get. change 1 with (Z.ones 1) at 1. rewrite Z.land_ones by lia.
  change (2 ^ 1) with 2. rewrite <- Z.bit0_mod, Z.shiftr_spec by lia. rewrite Z.add_0_l. reflexivity.
Qed.
End Routing.

(** ** The clocks and the pins of the board *)
Section Board.
Implicit Types (s : chip) (r : stm32f10x_rcc) (subsys i q : Z).

(** A subsystem is a set of bits of one of two registers, which bit 31 tells. *)
Definition on_apb2 subsys : bool := STM32F10X_CLOCK_APB2_BASE <? subsys.

Lemma clock_on_ok subsys r :
  exists r', stm32f10x_clock_control_on subsys r = (0, r') /\
    (forall i, 0 <= i < 31 ->
       Z.testbit (apb2enr r') i = Z.testbit (apb2enr r) i || (on_apb2 subsys && Z.testbit subsys i) /\
       Z.testbit (apb1enr r') i = Z.testbit (apb1enr r) i || (negb (on_apb2 subsys) && Z.testbit subsys i)) /\
    cr r' = cr r /\ cfgr r' = cfgr r.
Proof.
  unfold stm32f10x_clock_control_on. fold (on_apb2 subsys).
  destruct (on_apb2 subsys) eqn:E; (eexists; split; [done|]; split; [|done]);
    intros i Hi; cbn [set_apb2enr set_apb1enr apb2enr apb1enr negb]; rewrite Z.lor_spec, ?orb_false_r; [|done].
  split; [|done]. f_equal. rewrite Z.land_spec, wrap_u_testbit, Z.lnot_spec by lia.
  unfold STM32F10X_CLOCK_APB2_BASE. rewrite u32_bit, Z.shiftl_spec, (Z.testbit_neg_r 1) by lia. apply andb_true_r.
Qed.

Lemma clock_off_ok subsys r :
  word_ok (apb1enr r) -> word_ok (apb2enr r) ->
  exists r', stm32f10x_clock_control_off subsys r = (0, r') /\
    (forall i, 0 <= i < 31 ->
       Z.testbit (apb2enr r') i = Z.testbit (apb2enr r) i && negb (on_apb2 subsys && Z.testbit subsys i) /\
       Z.testbit (apb1enr r') i = Z.testbit (apb1enr r) i && negb (negb (on_apb2 subsys) && Z.testbit subsys i)) /\
    cr r' = cr r /\ cfgr r' = cfgr r.
Proof.
  intros W1 W2. unfold stm32f10x_clock_control_off. fold (on_apb2 subsys).
  destruct (on_apb2 subsys) eqn:E; (eexists; split; [done|]; split; [|done]);
    intros i Hi; cbn [set_apb2enr set_apb1enr apb2enr apb1enr negb];
    rewrite land_wrap, Z.land_spec, Z.lnot_spec, ?andb_true_r by (done || lia); [|done].
  split; [|done]. do 2 f_equal. rewrite Z.land_spec, wrap_u_testbit, Z.lnot_spec by lia.
  unfold STM32F10X_CLOCK_APB2_BASE. rewrite u32_bit, Z.shiftl_spec, (Z.testbit_neg_r 1) by lia. apply andb_true_r.
Qed.

Definition port_base (port : Z) : Z := GPIO_PORTS_BASE + port * GPIO_REG_SIZE.

Lemma port_clock_ok port i :
  0 <= port <= 4 -> 0 <= i < 31 ->
  on_apb2 (stm32_get_port_clock port) = true /\ Z.testbit (stm32_get_port_clock port) i = (i =? 2 + port).
Proof.
  intros Hp Hi. assert (stm32_get_port_clock port = Z.lor STM32F10X_CLOCK_APB2_BASE (Z.shiftl 1 (2 + port))
    /\ on_apb2 (stm32_get_port_clock port) = true) as [-> ->].
  { assert (port = 0 \/ port = 1 \/ port = 2 \/ port = 3 \/ port = 4) as [->|[->|[->|[->| ->]]]] by lia;
      split; reflexivity. }
  split; [done|]. rewrite <- (u32_bit (2 + port)), set_bit_word by lia.
  destruct (i =? 2 + port); [done|]. unfold STM32F10X_CLOCK_APB2_BASE.
  by rewrite u32_bit, Z.shiftl_spec, Z.testbit_neg_r by lia.
Qed.

Lemma pin_split pin : 0 <= pin < 80 ->
  STM32_PORT pin = pin / 16 /\ 0 <= pin / 16 <= 4 /\ STM32_PIN pin = pin `mod` 16 /\ 0 <= pin `mod` 16 < 16.
Proof.
  intros Hp. unfold STM32_PORT, STM32_PIN. rewrite Z.shiftr_div_pow2 by lia. change 15 with (Z.ones 4).
  rewrite Z.land_ones by lia. change (2 ^ 4) with 16. Z.div_mod_to_equations. lia.
Qed.

(** The registers after a pin has been given a function. *)
Definition pin_set pin conf s s' : Prop :=
  let base := port_base (pin / 16) in
  configured (pin `mod` 16) conf (ports s base) (ports s' base) /\
  (forall b, b <> base -> ports s' b = ports s b) /\
  (forall i, 0 <= i < 31 ->
     Z.testbit (apb2enr (rcc s')) i = Z.testbit (apb2enr (rcc s)) i || (i =? 2 + pin / 16) /\
     Z.testbit (apb1enr (rcc s')) i = Z.testbit (apb1enr (rcc s)) i).

Lemma pinmux_set_ok pin func conf s :
  0 <= pin < 80 -> stm32_get_pin_config pin func = Some conf -> 0 <= conf < 8 ->
  port_ok (ports s (port_base (pin / 16))) ->
  exists s', _pinmux_stm32_set pin func s = Some (0, s') /\ pin_set pin conf s s'.
Proof.
  intros Hp Hc Rc Hok. destruct (pin_split pin Hp) as (Eport & Rport & Epin & Rpin).
  unfold _pinmux_stm32_set, enable_port. rewrite Eport.
  destruct (clock_on_ok (stm32_get_port_clock (pin / 16)) (rcc s)) as (r & -> & Hr & _).
  cbn [Z.eqb negb]. rewrite Hc. cbn [mbind option_bind]. unfold stm32_pin_configure. rewrite Eport, Epin.
  cbn [ports]. assert (u32 (pin / 16 * GPIO_REG_SIZE) = pin / 16 * GPIO_REG_SIZE) as ->
    by (apply wrap_word; unfold word_ok, GPIO_REG_SIZE; lia).
  fold (port_base (pin / 16)).
  destruct (stm32_gpio_configure_ok (pin `mod` 16) conf _ Rpin Rc Hok) as (g & -> & Hg).
  eexists. split; [done|]. split_and!; cbn [ports rcc].
  - by rewrite fn_lookup_insert.
  - intros b Hb. by rewrite fn_lookup_insert_ne.
  - intros i Hi. destruct (Hr i Hi) as [-> ->]. destruct (port_clock_ok (pin / 16) i Rport Hi) as [-> ->].
    by rewrite orb_false_r.
Qed.

(** Setting up the pins of the jasontek_f103rb board. The transmitter of
    USART1 (PA9) and the PWM output (PA8) become alternate function outputs and
    the receiver (PA10) a floating input, the clock of port A is switched on, and
    every other pin, port and clock is as before. *)
Theorem board_pins_correct s :
  port_ok (ports s GPIOA_BASE) ->
  exists s', pinmux_stm32_init s = Some s' /\
    (forall q, 0 <= q < 16 -> pin_field (ports s' GPIOA_BASE) q =
       if (q =? 8) || (q =? 9) then setting STM32F10X_PIN_CONFIG_AF_PUSH_PULL
       else if q =? 10 then setting STM32F10X_PIN_CONFIG_BIAS_HIGH_IMPEDANCE
       else pin_field (ports s GPIOA_BASE) q) /\
    (forall q, 0 <= q -> Z.testbit (odr (ports s' GPIOA_BASE)) q = Z.testbit (odr (ports s GPIOA_BASE)) q) /\
    (forall b, b <> GPIOA_BASE -> ports s' b = ports s b) /\
    (forall i, 0 <= i < 31 ->
       Z.testbit (apb2enr (rcc s')) i = Z.testbit (apb2enr (rcc s)) i || (i =? 2) /\
       Z.testbit (apb1enr (rcc s')) i = Z.testbit (apb1enr (rcc s)) i).
Proof.
  intros Hok. unfold pinmux_stm32_init, pinconf. cbn [stm32_setup_pins pin_num pin_mode].
  destruct (pinmux_set_ok 9 1 6 s) as (s1 & E1 & (O1 & F1 & D1 & _) & P1 & C1); [lia|done|lia|done|].
  destruct (pinmux_set_ok 10 1 0 s1) as (s2 & E2 & (O2 & F2 & D2 & _) & P2 & C2); [lia|done|lia|exact O1|].
  destruct (pinmux_set_ok 8 2 6 s2) as (s3 & E3 & (O3 & F3 & D3 & _) & P3 & C3); [lia|done|lia|exact O2|].
  change (STM32PIN STM32_PORTA 9) with 9. change (STM32PIN STM32_PORTA 10) with 10.
  change (STM32PIN STM32_PORTA 8) with 8. unfold STM32F1_PINMUX_FUNC_PA9_USART1_TX,
    STM32F1_PINMUX_FUNC_PA10_USART1_RX, STM32F1_PINMUX_FUNC_PA8_PWM1_CH1.
  rewrite E1. cbn [mbind option_bind snd]. rewrite E2. cbn [mbind option_bind snd]. rewrite E3.
  cbn [mbind option_bind snd]. exists s3. change (port_base (8 / 16)) with GPIOA_BASE in *.
  change (port_base (9 / 16)) with GPIOA_BASE in *. change (port_base (10 / 16)) with GPIOA_BASE in *.
  change (9 `mod` 16) with 9 in *. change (10 `mod` 16) with 10 in *. change (8 `mod` 16) with 8 in *.
  split_and!; [done| | | |].
  - intros q Hq. rewrite F3, F2, F1 by done.
    destruct (Z.eqb_spec q 8), (Z.eqb_spec q 9), (Z.eqb_spec q 10); done || lia.
  - intros q Hq. rewrite D3, D2, D1 by done. by destruct (q =? 8), (q =? 9), (q =? 10).
  - intros b Hb. by rewrite P3, P2, P1.
  - intros i Hi. destruct (C1 i Hi) as [A1 B1], (C2 i Hi) as [A2 B2], (C3 i Hi) as [A3 B3].
    rewrite A3, A2, A1, B3, B2, B1. change (2 + 8 / 16) with 2. change (2 + 9 / 16) with 2.
    change (2 + 10 / 16) with 2. by destruct (i =? 2), (Z.testbit (apb2enr (rcc s)) i).
Qed.

(** After reset every pin is a floating input and the clocks are off. *)
Definition reset_gpio : stm32f10x_gpio := mk_gpio 1145324612 1145324612 0 0 0 0 0.
Definition reset_rcc : stm32f10x_rcc := mk_rcc 131 0 0 0 0 20 0 0 0 0.
Definition reset_chip : chip := mk_chip (fun _ => reset_gpio) reset_rcc.

Lemma board_pins_correct_witness :
  exists s', pinmux_stm32_init reset_chip = Some s' /\
    pin_field (ports s' GPIOA_BASE) 9 = 9 /\ pin_field (ports s' GPIOA_BASE) 5 = 4.
Proof.
  destruct (board_pins_correct reset_chip) as (s' & E & F & _).
  - vm_compute. repeat split; discriminate.
  - exists s'. split; [exact E|]. split; rewrite F by lia; reflexivity.
Defined.

(** The test for the number of functions admits one too many: asked for the second
    function of a pin that has one, it reads behind the array. *)
Lemma pin_config_out_of_bounds : stm32_get_pin_config (STM32PIN STM32_PORTA 9) 2 = None.
Proof. done. Qed.

(** A function that a pin does not have is not refused: the error code is taken for
    a configuration, and the pin becomes an analog input. *)
Lemma unknown_function_accepted :
  exists s', _pinmux_stm32_set (STM32PIN STM32_PORTA 1) 1 reset_chip = Some (0, s') /\
    pin_field (ports s' GPIOA_BASE) 1 = setting STM32F10X_PIN_CONFIG_ANALOG.
Proof. eexists. split; [reflexivity|]. by vm_compute. Qed.
End Board.
