(* ===== verification/GpioDriver.v ===== *)
(** * External interrupts and the GPIO driver

    drivers/interrupt_controller/exti_stm32.c, drivers/gpio/gpio_stm32.c,
    drivers/gpio/gpio_utils.h and the interface of include/gpio.h, on the STM32F1.
    The lists of callbacks are the pointer structures of [SList]. A device is named
    by the number of its port. The reaction of the pending register to a write is
    the class [ExtiHardware]; the handlers of the application and the users of the
    EXTI driver other than the GPIO driver are parameters; whether assertions are
    checked is the class [Assertions]. [None] is a failed assertion, a null pointer
    followed, an access outside an array, or fuel that has run out. *)
From S2P Require Import Prelude Kernel BitField SList Stm32Gpio.
Import Stm32.

Definition ENODEV : Z := 19.
Definition ENOTSUP : Z := 35.

(** RM0008 10.3.6: writing ones to the pending register clears these bits. *)
Class ExtiHardware := {
  pr_write : Z -> Z -> Z;
  pr_write_spec pr v i : 0 <= i < 32 -> Z.testbit (pr_write pr v) i = Z.testbit pr i && negb (Z.testbit v i)
}.

(** CONFIG_ASSERT, off by default: a failed [__ASSERT] ends in a tight loop. *)
Class Assertions := CONFIG_ASSERT : bool.

Module Gpio.
Definition EXTI_LINES : Z := 19.
Definition STM32F1_IRQ_EXTI0 : Z := 6.
Definition STM32F1_IRQ_EXTI1 : Z := 7.
Definition STM32F1_IRQ_EXTI2 : Z := 8.
Definition STM32F1_IRQ_EXTI3 : Z := 9.
Definition STM32F1_IRQ_EXTI4 : Z := 10.
Definition STM32F1_IRQ_EXTI9_5 : Z := 23.
Definition STM32F1_IRQ_EXTI15_10 : Z := 40.
Definition STM32_EXTI_TRIG_RISING : Z := 1.
Definition STM32_EXTI_TRIG_FALLING : Z := 2.

(** include/gpio.h *)
Definition GPIO_ACCESS_BY_PIN : Z := 0.
Definition GPIO_ACCESS_BY_PORT : Z := 1.
Definition GPIO_INT : Z := Z.shiftl 1 1.
Definition GPIO_INT_ACTIVE_HIGH : Z := Z.shiftl 1 2.
Definition GPIO_INT_EDGE : Z := Z.shiftl 1 5.
Definition GPIO_INT_DOUBLE_EDGE : Z := Z.shiftl 1 6.
Definition BIT (n : Z) : Z := u32 (Z.shiftl 1 n).

Record stm32_exti := mk_exti { imr : Z; emr : Z; rtsr : Z; ftsr : Z; swier : Z; pr : Z }.

(** The functions that may be registered for a line. *)
Inductive exti_fn := GpioStm32Isr | OtherIsr (f : Z).
Record __exti_cb := mk_cb { cb : option exti_fn; cb_arg : Z }.

Record gpio_callback := mk_callback { handler : option Z; pin_mask : Z }.
Record gpio_stm32_config_t := mk_cfg { base : Z; port : Z; clock_subsys : Z }.
Record gpio_stm32_data := mk_data { cb_pins : Z; data_cb : SList.sys_slist }.

(** The registers, the interrupt controller, the data of the two drivers, the
    callbacks with their links, and what belongs to the application. *)
Record world (A : Type) := mk_world {
  soc : chip;
  afio : stm32f10x_afio;
  exti : stm32_exti;
  irqs : Z -> bool;
  exti_data : list __exti_cb;
  devices : Z -> gpio_stm32_data;
  links : SList.node -> option SList.node;
  callbacks : SList.node -> gpio_callback;
  app : A
}.
#[global] Arguments mk_world {A}.
#[global] Arguments soc {A}.
#[global] Arguments afio {A}.
#[global] Arguments exti {A}.
#[global] Arguments irqs {A}.
#[global] Arguments exti_data {A}.
#[global] Arguments devices {A}.
#[global] Arguments links {A}.
#[global] Arguments callbacks {A}.
#[global] Arguments app {A}.

Section Setters.
Context {A : Type}.
Implicit Type w : world A.

Definition set_soc v w : world A :=
  mk_world v (afio w) (exti w) (irqs w) (exti_data w) (devices w) (links w) (callbacks w) (app w).
Definition set_afio v w : world A :=
  mk_world (soc w) v (exti w) (irqs w) (exti_data w) (devices w) (links w) (callbacks w) (app w).
Definition set_exti v w : world A :=
  mk_world (soc w) (afio w) v (irqs w) (exti_data w) (devices w) (links w) (callbacks w) (app w).
Definition set_irqs v w : world A :=
  mk_world (soc w) (afio w) (exti w) v (exti_data w) (devices w) (links w) (callbacks w) (app w).
Definition set_exti_data v w : world A :=
  mk_world (soc w) (afio w) (exti w) (irqs w) v (devices w) (links w) (callbacks w) (app w).
Definition set_devices v w : world A :=
  mk_world (soc w) (afio w) (exti w) (irqs w) (exti_data w) v (links w) (callbacks w) (app w).
Definition set_links v w : world A :=
  mk_world (soc w) (afio w) (exti w) (irqs w) (exti_data w) (devices w) v (callbacks w) (app w).
Definition set_callbacks v w : world A :=
  mk_world (soc w) (afio w) (exti w) (irqs w) (exti_data w) (devices w) (links w) v (app w).
Definition set_app v w : world A :=
  mk_world (soc w) (afio w) (exti w) (irqs w) (exti_data w) (devices w) (links w) (callbacks w) v.
End Setters.

(** ** The EXTI driver *)
Section Exti.
Context {A : Type} {HW : ExtiHardware} {CA : Assertions}.
Implicit Types (w : world A) (line : Z).

Definition set_imr v (e : stm32_exti) : stm32_exti := mk_exti v (emr e) (rtsr e) (ftsr e) (swier e) (pr e).
Definition set_rtsr v (e : stm32_exti) : stm32_exti := mk_exti (imr e) (emr e) v (ftsr e) (swier e) (pr e).
Definition set_ftsr v (e : stm32_exti) : stm32_exti := mk_exti (imr e) (emr e) (rtsr e) v (swier e) (pr e).
Definition set_pr v (e : stm32_exti) : stm32_exti := mk_exti (imr e) (emr e) (rtsr e) (ftsr e) (swier e) v.

(** The interrupt of a line. *)
Definition irqnum line : Z :=
  if (5 <=? line) && (line <=? 9) then STM32F1_IRQ_EXTI9_5
  else if (10 <=? line) && (line <=? 15) then STM32F1_IRQ_EXTI15_10
  else STM32F1_IRQ_EXTI0 + line.

Definition stm32_exti_enable line w : world A :=
  let w := set_exti (set_imr (Z.lor (imr (exti w)) (u32 (Z.shiftl 1 line))) (exti w)) w in
  set_irqs (<[irqnum line := true]> (irqs w)) w.

Definition stm32_exti_disable line w : world A :=
  set_exti (set_imr (Z.land (imr (exti w)) (u32 (Z.lnot (Z.shiftl 1 line)))) (exti w)) w.

Definition stm32_exti_is_pending line w : bool := negb (Z.land (pr (exti w)) (u32 (Z.shiftl 1 line)) =? 0).

Definition stm32_exti_clear_pending line w : world A :=
  set_exti (set_pr (pr_write (pr (exti w)) (u32 (Z.shiftl 1 line))) (exti w)) w.

Definition stm32_exti_trigger line (trigger : Z) w : world A :=
  let w := if negb (Z.land trigger STM32_EXTI_TRIG_RISING =? 0)
           then set_exti (set_rtsr (Z.lor (rtsr (exti w)) (u32 (Z.shiftl 1 line))) (exti w)) w else w in
  if negb (Z.land trigger STM32_EXTI_TRIG_FALLING =? 0)
  then set_exti (set_ftsr (Z.lor (ftsr (exti w)) (u32 (Z.shiftl 1 line))) (exti w)) w else w.

(** The loop from [line] on, [n] lines; [run] calls a registered function. *)
Fixpoint exti_isr_loop (run : exti_fn -> Z -> Z -> world A -> option (world A)) (n : nat) line w : option (world A) :=
  match n with
  | O => Some w
  | S n =>
      if stm32_exti_is_pending line w then
        let w := stm32_exti_clear_pending line w in
        c ← exti_data w !! Z.to_nat line;
        match cb c with
        | None => exti_isr_loop run n (line + 1) w
        | Some f => w ← run f line (cb_arg c) w; exti_isr_loop run n (line + 1) w
        end
      else exti_isr_loop run n (line + 1) w
  end.

Definition __stm32_exti_isr run (min max : Z) w : option (world A) :=
  exti_isr_loop run (Z.to_nat (max - min)) min w.

Definition __stm32_exti_isr_0 run w := __stm32_exti_isr run 0 1 w.
Definition __stm32_exti_isr_1 run w := __stm32_exti_isr run 1 2 w.
Definition __stm32_exti_isr_2 run w := __stm32_exti_isr run 2 3 w.
Definition __stm32_exti_isr_3 run w := __stm32_exti_isr run 3 4 w.
Definition __stm32_exti_isr_4 run w := __stm32_exti_isr run 4 5 w.
Definition __stm32_exti_isr_9_5 run w := __stm32_exti_isr run 5 10 w.
Definition __stm32_exti_isr_15_10 run w := __stm32_exti_isr run 10 16 w.

(** The service routine that is connected to an interrupt. *)
Definition __stm32_exti_connect_irqs (irq : Z)
    : option ((exti_fn -> Z -> Z -> world A -> option (world A)) -> world A -> option (world A)) :=
  if irq =? STM32F1_IRQ_EXTI0 then Some __stm32_exti_isr_0
  else if irq =? STM32F1_IRQ_EXTI1 then Some __stm32_exti_isr_1
  else if irq =? STM32F1_IRQ_EXTI2 then Some __stm32_exti_isr_2
  else if irq =? STM32F1_IRQ_EXTI3 then Some __stm32_exti_isr_3
  else if irq =? STM32F1_IRQ_EXTI4 then Some __stm32_exti_isr_4
  else if irq =? STM32F1_IRQ_EXTI9_5 then Some __stm32_exti_isr_9_5
  else if irq =? STM32F1_IRQ_EXTI15_10 then Some __stm32_exti_isr_15_10
  else None.

Definition stm32_exti_set_callback line (f : exti_fn) (arg : Z) w : option (world A) :=
  c ← exti_data w !! Z.to_nat line;
  if CONFIG_ASSERT && bool_decide (is_Some (cb c)) then None
  else Some (set_exti_data (<[Z.to_nat line := mk_cb (Some f) arg]> (exti_data w)) w).

Definition stm32_exti_unset_callback line w : option (world A) :=
  _ ← exti_data w !! Z.to_nat line;
  Some (set_exti_data (<[Z.to_nat line := mk_cb None 0]> (exti_data w)) w).
End Exti.

(** ** The GPIO driver *)
Section Driver.
Context {A : Type} {HW : ExtiHardware} {CA : Assertions}.
(** The handlers of the application: the device, the callback and the pins. *)
Context (call : Z -> Z -> SList.node -> Z -> world A -> option (world A)).
(** The other users of the EXTI driver. *)
Context (other : Z -> Z -> Z -> world A -> option (world A)).
Implicit Types (w : world A) (dev pin flags access_op : Z) (c : SList.node) (fuel : nat).

Definition _gpio_manage_callback fuel (l : SList.sys_slist) c (set : bool) w
    : option (SList.sys_slist * world A) :=
  if CONFIG_ASSERT && bool_decide (handler (callbacks w c) = None) then None
  else if set then
    let '(l, m) := SList.sys_slist_prepend l c (links w) in Some (l, set_links m w)
  else
    '(l, m) ← SList.sys_slist_find_and_remove fuel l c (links w); Some (l, set_links m w).

(** [SYS_SLIST_FOR_EACH_NODE]: the link is read after the handler has run. *)
Fixpoint fire_loop fuel (node : option SList.node) dev (pins : Z) w : option (world A) :=
  match node with
  | None => Some w
  | Some c =>
      match fuel with
      | O => None
      | S fuel =>
          w ← (if negb (Z.land (pin_mask (callbacks w c)) pins =? 0) then
                 h ← handler (callbacks w c); call h dev c pins w
               else Some w);
          fire_loop fuel (SList.sys_slist_peek_next (Some c) (links w)) dev pins w
      end
  end.

Definition _gpio_fire_callbacks fuel (l : SList.sys_slist) dev (pins : Z) w : option (world A) :=
  fire_loop fuel (SList.sys_slist_peek_head l) dev pins w.

Definition gpio_stm32_isr fuel (line arg : Z) w : option (world A) :=
  let dev := arg in
  let data := devices w dev in
  if negb (Z.land (BIT line) (cb_pins data) =? 0)
  then _gpio_fire_callbacks fuel (data_cb data) dev (BIT line) w else Some w.

(** Calling a function registered for a line. *)
Definition run_exti fuel (f : exti_fn) (line arg : Z) w : option (world A) :=
  match f with GpioStm32Isr => gpio_stm32_isr fuel line arg w | OtherIsr f => other f line arg w end.

(** [GPIO_DEVICE_INIT] of the ports A to E. *)
Definition gpio_stm32_cfg dev : gpio_stm32_config_t :=
  mk_cfg (GPIO_PORTS_BASE + dev * GPIO_REG_SIZE) dev
    (Z.lor (nth (Z.to_nat dev) [STM32F10X_CLOCK_SUBSYS_IOPA; STM32F10X_CLOCK_SUBSYS_IOPB;
       STM32F10X_CLOCK_SUBSYS_IOPC; STM32F10X_CLOCK_SUBSYS_IOPD; STM32F10X_CLOCK_SUBSYS_IOPE] 0)
      STM32F10X_CLOCK_SUBSYS_AFIO).

Definition edge_of flags : Z :=
  if negb (Z.land flags GPIO_INT_DOUBLE_EDGE =? 0) then Z.lor STM32_EXTI_TRIG_RISING STM32_EXTI_TRIG_FALLING
  else if negb (Z.land flags GPIO_INT_ACTIVE_HIGH =? 0) then STM32_EXTI_TRIG_RISING
  else STM32_EXTI_TRIG_FALLING.

Definition gpio_stm32_config dev access_op pin flags w : option (Z * world A) :=
  let cfg := gpio_stm32_cfg dev in
  if negb (access_op =? GPIO_ACCESS_BY_PIN) then Some (- ENODEV, w)
  else
    let '(map_res, pincfg) := stm32_gpio_flags_to_conf flags in
    if negb (map_res =? 0) then Some (map_res, w)
    else
      let '(rc, g) := stm32_gpio_configure pin pincfg (ports (soc w) (base cfg)) in
      let w := set_soc (mk_chip (<[base cfg := g]> (ports (soc w))) (rcc (soc w))) w in
      if negb (rc =? 0) then Some (- EIO, w)
      else if negb (Z.land flags GPIO_INT =? 0) then
        w ← stm32_exti_set_callback pin GpioStm32Isr dev w;
        let '(_, a) := stm32_gpio_enable_int (port cfg) pin (afio w) in
        let w := set_afio a w in
        let w := if negb (Z.land flags GPIO_INT_EDGE =? 0)
                 then stm32_exti_trigger pin (edge_of flags) w else w in
        Some (0, stm32_exti_enable pin w)
      else Some (0, w).

Definition gpio_stm32_write dev access_op pin (value : Z) w : Z * world A :=
  let cfg := gpio_stm32_cfg dev in
  if negb (access_op =? GPIO_ACCESS_BY_PIN) then (- ENOTSUP, w)
  else
    let '(rc, g) := stm32_gpio_set pin value (ports (soc w) (base cfg)) in
    (rc, set_soc (mk_chip (<[base cfg := g]> (ports (soc w))) (rcc (soc w))) w).

(** The return code and what is stored through [value], if anything. *)
Definition gpio_stm32_read dev access_op pin w : Z * option Z :=
  if negb (access_op =? GPIO_ACCESS_BY_PIN) then (- ENOTSUP, None)
  else (0, Some (stm32_gpio_get pin (ports (soc w) (base (gpio_stm32_cfg dev))))).

Definition gpio_stm32_manage_callback fuel dev c (set : bool) w : option (Z * world A) :=
  '(l, w) ← _gpio_manage_callback fuel (data_cb (devices w dev)) c set w;
  Some (0, set_devices (<[dev := mk_data (cb_pins (devices w dev)) l]> (devices w)) w).

Definition gpio_stm32_enable_callback dev access_op pin w : Z * world A :=
  if negb (access_op =? GPIO_ACCESS_BY_PIN) then (- ENOTSUP, w)
  else (0, set_devices (<[dev := mk_data (Z.lor (cb_pins (devices w dev)) (BIT pin)) (data_cb (devices w dev))]>
             (devices w)) w).

Definition gpio_stm32_disable_callback dev access_op pin w : Z * world A :=
  if negb (access_op =? GPIO_ACCESS_BY_PIN) then (- ENOTSUP, w)
  else (0, set_devices (<[dev := mk_data (Z.land (cb_pins (devices w dev)) (u32 (Z.lnot (BIT pin))))
             (data_cb (devices w dev))]> (devices w)) w).

Definition gpio_stm32_init dev w : Z * world A :=
  let '(_, r) := stm32f10x_clock_control_on (clock_subsys (gpio_stm32_cfg dev)) (rcc (soc w)) in
  (0, set_soc (mk_chip (ports (soc w)) r) w).

(** *** The interface of include/gpio.h *)
Definition gpio_pin_configure dev pin flags w := gpio_stm32_config dev GPIO_ACCESS_BY_PIN pin flags w.
Definition gpio_pin_write dev pin (value : Z) w := gpio_stm32_write dev GPIO_ACCESS_BY_PIN pin value w.
Definition gpio_pin_read dev pin w := gpio_stm32_read dev GPIO_ACCESS_BY_PIN pin w.
Definition gpio_init_callback c (h mask : Z) w : world A :=
  set_callbacks (<[c := mk_callback (Some h) mask]> (callbacks w)) w.
Definition gpio_add_callback fuel dev c w := gpio_stm32_manage_callback fuel dev c true w.
Definition gpio_remove_callback fuel dev c w := gpio_stm32_manage_callback fuel dev c false w.
Definition gpio_pin_enable_callback dev pin w := gpio_stm32_enable_callback dev GPIO_ACCESS_BY_PIN pin w.
Definition gpio_pin_disable_callback dev pin w := gpio_stm32_disable_callback dev GPIO_ACCESS_BY_PIN pin w.
Definition gpio_port_configure dev flags w := gpio_stm32_config dev GPIO_ACCESS_BY_PORT 0 flags w.
Definition gpio_port_write dev (value : Z) w := gpio_stm32_write dev GPIO_ACCESS_BY_PORT 0 value w.
Definition gpio_port_read dev w := gpio_stm32_read dev GPIO_ACCESS_BY_PORT 0 w.
Definition gpio_port_enable_callback dev w := gpio_stm32_enable_callback dev GPIO_ACCESS_BY_PORT 0 w.
Definition gpio_port_disable_callback dev w := gpio_stm32_disable_callback dev GPIO_ACCESS_BY_PORT 0 w.
End Driver.
End Gpio.
