(* ===== verification/GpioSpec.v ===== *)
(** * External interrupts and the GPIO driver: what they do

    Configuring a pin sets its mode, its interrupt and nothing else; an interrupt
    runs the handlers of the callbacks that wait for the pin, each once and in the
    order of the list. *)
From S2P Require Import Prelude Kernel BitField SList Stm32Gpio GpioDriver.
Import Stm32 Gpio.

(** ** Configuring a pin *)
Section Config.
Context {A : Type} {HW : ExtiHardware} {CA : Assertions}.
Implicit Types (w : world A) (dev pin flags q i : Z).

Lemma land_field r sh n : 0 <= sh -> 0 <= n -> Z.land r (Z.shiftl (Z.ones n) sh) = Z.shiftl (slice r sh n) sh.
Proof.
  intros Hsh Hn. apply Z.bits_inj'. intros i Hi. rewrite Z.land_spec, !Z.shiftl_spec by lia.
  destruct (Z.lt_ge_cases i sh).
  - by rewrite !(Z.testbit_neg_r _ (i - sh)), andb_false_r by lia.
  - rewrite slice_bit, Z.testbit_ones_nonneg by lia. rewrite andb_comm. do 2 f_equal. lia.
Qed.

Lemma shiftl_eqb a b sh : 0 <= sh -> (Z.shiftl a sh =? Z.shiftl b sh) = (a =? b).
Proof.
  intros Hsh. rewrite !Z.shiftl_mul_pow2 by done. assert (0 < 2 ^ sh) by (apply Z.pow_pos_nonneg; lia).
  destruct (Z.eqb_spec a b) as [->|Hne]; [apply Z.eqb_refl|]. apply Z.eqb_neq. nia.
Qed.

(** What the flags ask for: an output, or an input that is pulled up, pulled down
    or floating. *)
Definition conf_of flags : Z :=
  if Z.testbit flags 0 then STM32F10X_PIN_CONFIG_DRIVE_PUSH_PULL
  else if slice flags 8 2 =? 1 then STM32F10X_PIN_CONFIG_BIAS_PULL_UP
  else if slice flags 8 2 =? 2 then STM32F10X_PIN_CONFIG_BIAS_PULL_DOWN
  else STM32F10X_PIN_CONFIG_BIAS_HIGH_IMPEDANCE.

Lemma flags_to_conf_ok flags : stm32_gpio_flags_to_conf flags = (0, conf_of flags) /\ 0 <= conf_of flags < 8.
Proof.
  assert (E0 : (Z.land flags GPIO_DIR_MASK =? GPIO_DIR_OUT) = Z.testbit flags 0).
  { unfold GPIO_DIR_MASK, GPIO_DIR_OUT. rewrite <- (test_bit_spec flags 0) by lia. change (Z.shiftl 1 0) with 1.
    change 1 with (Z.ones 1) at 1 3. rewrite Z.land_ones by lia. change (2 ^ 1) with 2.
    pose proof (Z.mod_pos_bound flags 2). destruct (Z.eqb_spec (flags `mod` 2) 1), (Z.eqb_spec (flags `mod` 2) 0); done || lia. }
  assert (E1 : Z.land flags GPIO_PUD_MASK = Z.shiftl (slice flags 8 2) 8) by (by apply (land_field flags 8 2)).
  unfold stm32_gpio_flags_to_conf, conf_of. rewrite E0, E1. unfold GPIO_PUD_PULL_UP, GPIO_PUD_PULL_DOWN.
  rewrite !shiftl_eqb by lia.
  destruct (Z.testbit flags 0), (slice flags 8 2 =? 1), (slice flags 8 2 =? 2); (split; [done|]); by vm_compute.
Qed.

(** The edges an interrupt is asked for: none if it is not edge-triggered. *)
Definition rising flags : bool := Z.testbit flags 5 && (Z.testbit flags 6 || Z.testbit flags 2).
Definition falling flags : bool := Z.testbit flags 5 && (Z.testbit flags 6 || negb (Z.testbit flags 2)).

Definition driver_ok w : Prop := afio_ok (afio w) /\ length (exti_data w) = Z.to_nat EXTI_LINES.

Definition words_ok (e : stm32_exti) : Prop := word_ok (imr e) /\ word_ok (rtsr e) /\ word_ok (ftsr e).

(** What arming the interrupt of a pin changes. *)
Record armed dev pin flags w w' : Prop := {
  ar_route q : 0 <= q < 16 -> routed (afio w') q = if q =? pin then dev else routed (afio w) q;
  ar_afio : afio_ok (afio w');
  ar_mask i : 0 <= i -> Z.testbit (imr (exti w')) i = if i =? pin then true else Z.testbit (imr (exti w)) i;
  ar_rising i : 0 <= i -> Z.testbit (rtsr (exti w')) i = if (i =? pin) && rising flags then true else Z.testbit (rtsr (exti w)) i;
  ar_falling i : 0 <= i -> Z.testbit (ftsr (exti w')) i = if (i =? pin) && falling flags then true else Z.testbit (ftsr (exti w)) i;
  ar_pending : pr (exti w') = pr (exti w);
  ar_words : words_ok (exti w) -> words_ok (exti w');
  ar_irq : irqs w' = <[irqnum pin := true]> (irqs w);
  ar_callback : exti_data w' = <[Z.to_nat pin := mk_cb (Some GpioStm32Isr) dev]> (exti_data w)
}.

Lemma trigger_ok pin flags w :
  0 <= pin < 16 ->
  let w' := if negb (Z.land flags GPIO_INT_EDGE =? 0) then stm32_exti_trigger pin (edge_of flags) w else w in
  exists e, w' = set_exti e w /\ imr e = imr (exti w) /\ pr e = pr (exti w) /\ (words_ok (exti w) -> words_ok e) /\
    (forall i, 0 <= i -> Z.testbit (rtsr e) i = if (i =? pin) && rising flags then true else Z.testbit (rtsr (exti w)) i) /\
    (forall i, 0 <= i -> Z.testbit (ftsr e) i = if (i =? pin) && falling flags then true else Z.testbit (ftsr (exti w)) i).
Proof.
  intros Hp. cbn zeta. unfold stm32_exti_trigger, edge_of, GPIO_INT_EDGE, GPIO_INT_DOUBLE_EDGE, GPIO_INT_ACTIVE_HIGH.
  rewrite !test_bit_spec by lia. unfold rising, falling.
  destruct (Z.testbit flags 5); cbn [andb].
  2:{ exists (exti w). split; [by destruct w|]. split_and!; try done; intros i Hi; by rewrite andb_false_r. }
  destruct (Z.testbit flags 6); cbn [orb]; [|destruct (Z.testbit flags 2); cbn [negb]];
    (eexists; split; [reflexivity|]; cbn [set_rtsr set_ftsr set_exti exti imr pr rtsr ftsr]; split_and!; try done;
     try (intros (? & ? & ?); refine (conj _ (conj _ _)); solve [done | by apply lor_word; auto with words]);
     intros i Hi; rewrite ?andb_true_r, ?andb_false_r; try done; apply set_bit_word; lia).
Qed.

(** The assertion of the EXTI driver passes: the line is not in use, or it is not
    checked. *)
Definition line_free pin w : Prop := CONFIG_ASSERT = false \/ cb <$> exti_data w !! Z.to_nat pin = Some None.

(** What configuring a pin changes. *)
Definition pin_configured dev pin flags w w' : Prop :=
  configured pin (conf_of flags) (ports (soc w) (port_base dev)) (ports (soc w') (port_base dev)) /\
  (forall b, b <> port_base dev -> ports (soc w') b = ports (soc w) b) /\ rcc (soc w') = rcc (soc w) /\
  devices w' = devices w /\ links w' = links w /\ callbacks w' = callbacks w /\ app w' = app w /\
  if Z.testbit flags 1 then armed dev pin flags w w'
  else afio w' = afio w /\ exti w' = exti w /\ irqs w' = irqs w /\ exti_data w' = exti_data w.

Lemma pin_configure_ok dev pin flags w :
  0 <= dev <= 4 -> 0 <= pin < 16 -> port_ok (ports (soc w) (port_base dev)) -> driver_ok w ->
  Z.testbit flags 1 = false \/ line_free pin w ->
  exists w', gpio_pin_configure dev pin flags w = Some (0, w') /\ pin_configured dev pin flags w w'.
Proof.
  intros Hd Hp Hport [Haf Hlen] Hfree. destruct (flags_to_conf_ok flags) as [Ef Rf].
  destruct (stm32_gpio_configure_ok pin (conf_of flags) _ Hp Rf Hport) as (g & Eg & Hg).
  unfold gpio_pin_configure, gpio_stm32_config, pin_configured.
  change (negb (GPIO_ACCESS_BY_PIN =? GPIO_ACCESS_BY_PIN)) with false.
  change (base (gpio_stm32_cfg dev)) with (port_base dev). rewrite Ef. cbn [Z.eqb negb]. rewrite Eg.
  unfold GPIO_INT. rewrite test_bit_spec by lia. unfold stm32_exti_set_callback.
  cbn [set_soc exti_data]. destruct (Z.testbit flags 1).
  2:{ eexists. split; [reflexivity|]. cbn [soc set_soc ports rcc afio exti irqs exti_data devices links callbacks app].
      rewrite fn_lookup_insert. split_and!; try done. intros b Hb. by rewrite fn_lookup_insert_ne. }
  destruct Hfree as [Hfree|Hfree]; [done|].
  destruct (lookup_lt_is_Some_2 (exti_data w) (Z.to_nat pin)) as [c Ec];
    [rewrite Hlen; unfold EXTI_LINES; lia|]. rewrite Ec. cbn [mbind option_bind].
  assert (CONFIG_ASSERT && bool_decide (is_Some (cb c)) = false) as ->.
  { destruct Hfree as [->|Hc]; [done|]. rewrite Ec in Hc. injection Hc as ->.
    by rewrite bool_decide_false, andb_false_r by apply is_Some_None. }
  cbn [mbind option_bind]. change (port (gpio_stm32_cfg dev)) with dev.
  destruct (stm32_gpio_enable_int_ok dev pin (afio w) Hp ltac:(lia) Haf) as (a & Ea & Ha & Hr & _).
  cbn [set_exti_data set_soc afio]. rewrite Ea. set (w1 := set_afio a _).
  destruct (trigger_ok pin flags w1 Hp) as (e & -> & Ei & Epr & Hw & Hri & Hfa). eexists. split; [reflexivity|].
  cbn [stm32_exti_enable set_irqs set_exti set_imr soc ports rcc devices links callbacks app w1 set_afio set_exti_data set_soc].
  rewrite fn_lookup_insert. split_and!; try done; [intros b Hb; by rewrite fn_lookup_insert_ne|].
  split; cbn [stm32_exti_enable set_irqs set_exti set_imr afio exti irqs exti_data imr rtsr ftsr pr w1 set_afio set_exti_data set_soc];
    try done.
  - intros i Hi. rewrite Ei. apply set_bit_word; lia.
  - intros (? & ? & ?)%Hw. refine (conj _ (conj _ _)); cbn [imr rtsr ftsr]; try done. by apply lor_word; auto with words.
Qed.

(** Configuring a pin of a GPIO port. The pin gets the direction and the pull
    the flags ask for and no other pin of any port changes. Without the interrupt
    flag nothing else changes; with it the port is routed to the EXTI line, the
    edges are selected in addition to those selected before, the line is unmasked,
    its interrupt is enabled and the driver is registered for it, while all the
    other lines stay as they are; only when assertions are checked, and the line is
    in use, does the call fail. Configuring a whole port is refused. *)
Theorem gpio_config_correct dev pin flags w :
  0 <= dev <= 4 -> 0 <= pin < 16 -> port_ok (ports (soc w) (port_base dev)) -> driver_ok w ->
  gpio_port_configure dev flags w = Some (- ENODEV, w) /\
  match exti_data w !! Z.to_nat pin with
  | None => False
  | Some (mk_cb (Some _) _) =>
      Z.testbit flags 1 = true -> CONFIG_ASSERT = true -> gpio_pin_configure dev pin flags w = None
  | Some (mk_cb None _) => True
  end /\
  (Z.testbit flags 1 = false \/ line_free pin w ->
   exists w', gpio_pin_configure dev pin flags w = Some (0, w') /\ pin_configured dev pin flags w w').
Proof.
  intros Hd Hp Hport Hok. split; [done|]. split; [|by apply pin_configure_ok].
  assert (exists c, exti_data w !! Z.to_nat pin = Some c) as [[[f|] arg] Ec]
    by (apply lookup_lt_is_Some_2; rewrite (proj2 Hok); unfold EXTI_LINES; lia); rewrite Ec; [|done].
  intros Hint Has. unfold gpio_pin_configure, gpio_stm32_config.
  change (negb (GPIO_ACCESS_BY_PIN =? GPIO_ACCESS_BY_PIN)) with false.
  rewrite (proj1 (flags_to_conf_ok flags)). cbn [Z.eqb negb stm32_gpio_configure].
  unfold GPIO_INT. rewrite test_bit_spec, Hint by lia. unfold stm32_exti_set_callback.
  cbn [set_soc exti_data]. by rewrite Ec, Has.
Qed.
End Config.

(** ** Interrupts *)
Section Interrupts.
Context {A : Type} {HW : ExtiHardware} {CA : Assertions}.
Context (call : Z -> Z -> SList.node -> Z -> world A -> option (world A)).
Context (other : Z -> Z -> Z -> world A -> option (world A)).
Implicit Types (w : world A) (dev line i v : Z) (c : SList.node) (l : list SList.node) (fuel : nat).

(** What a handler may not change here: the callbacks and the lists of them, and the
    EXTI controller with the functions registered for its lines. It may change the
    state of the application, the pins, and for which pins the callbacks are enabled. *)
Record leaves w w' : Prop := {
  lv_links : links w' = links w;
  lv_callbacks : callbacks w' = callbacks w;
  lv_lists dev : data_cb (devices w' dev) = data_cb (devices w dev);
  lv_exti : exti w' = exti w;
  lv_lines : exti_data w' = exti_data w
}.

#[global] Instance leaves_preorder : PreOrder leaves.
Proof.
  split; [by intros w|]. intros w1 w2 w3 [] []. split; intros; etransitivity; eauto.
Qed.

(** The handlers return, having left these alone. *)
Context (Hcall : forall h dev c pins w, exists w', call h dev c pins w = Some w' /\ leaves w w').
Context (Hother : forall f line arg w, exists w', other f line arg w = Some w' /\ leaves w w').

(** One thing after the other. *)
Fixpoint in_turn {X} (f : X -> world A -> option (world A)) (l : list X) w : option (world A) :=
  match l with
  | [] => Some w
  | x :: l => w ← f x w; in_turn f l w
  end.

(** The callbacks of [l] that wait for one of [pins]. *)
Definition waiting (cbs : SList.node -> gpio_callback) (pins : Z) l : list SList.node :=
  filter (fun c => Z.land (pin_mask (cbs c)) pins <> 0) l.

(** Their handlers, in order. *)
Definition fired (cbs : SList.node -> gpio_callback) dev (pins : Z) l : world A -> option (world A) :=
  in_turn (fun c w => h ← handler (cbs c); call h dev c pins w) (waiting cbs pins l).

(** Serving one line: the callbacks of the port that is registered for it, if the
    pin is enabled there. [xs] gives the callbacks of every port. *)
Definition served (cbs : SList.node -> gpio_callback) (lines : list __exti_cb) (xs : Z -> list SList.node) line w
    : option (world A) :=
  match lines !! Z.to_nat line with
  | Some (mk_cb (Some GpioStm32Isr) dev) =>
      if Z.testbit (cb_pins (devices w dev)) line then fired cbs dev (BIT line) (xs dev) w else Some w
  | Some (mk_cb (Some (OtherIsr f)) arg) => other f line arg w
  | _ => Some w
  end.

Lemma fire_loop_ok fuel p l dev pins w :
  SList.seg (links w) p l None -> (forall c, c ∈ l -> is_Some (handler (callbacks w c))) -> (length l <= fuel)%nat ->
  exists w', fire_loop call fuel p dev pins w = Some w' /\ fired (callbacks w) dev pins l w = Some w' /\ leaves w w'.
Proof.
  revert fuel p w. induction l as [|c l IH]; intros fuel p w Hs Hh Hf; cbn [SList.seg] in Hs.
  { subst p. exists w. by destruct fuel. }
  destruct Hs as [-> Hs]. destruct fuel as [|fuel]; [cbn [length] in Hf; lia|]. cbn [fire_loop].
  destruct (Hh c ltac:(by left)) as [h Eh]. cbn [length] in Hf. unfold fired, waiting. rewrite filter_cons.
  destruct (Z.eqb_spec (Z.land (pin_mask (callbacks w c)) pins) 0) as [E0|E0]; cbn [negb mbind option_bind].
  - rewrite decide_False by (by intros ?). cbn [SList.sys_slist_peek_next].
    apply IH; [done|intros; apply Hh; by right|lia].
  - rewrite decide_True by done. cbn [in_turn]. rewrite Eh. cbn [mbind option_bind].
    destruct (Hcall h dev c pins w) as (w1 & E1 & L1). rewrite E1. cbn [mbind option_bind SList.sys_slist_peek_next].
    destruct (IH fuel (links w1 c) w1) as (w2 & E2 & F2 & L2); [by rewrite (lv_links _ _ L1)|
      rewrite (lv_callbacks _ _ L1); intros; apply Hh; by right|lia|].
    exists w2. split_and!; [done| |by etransitivity].
    unfold fired, waiting in F2. by rewrite (lv_callbacks _ _ L1) in F2.
Qed.

(** The callback lists of the ports that are registered for a line. *)
Definition lists_ok fuel w (xs : Z -> list SList.node) : Prop :=
  length (exti_data w) = Z.to_nat EXTI_LINES /\
  forall dev, SList.slist (links w) (data_cb (devices w dev)) (xs dev) /\ (length (xs dev) <= fuel)%nat /\
    forall c, c ∈ xs dev -> is_Some (handler (callbacks w c)).

Lemma lists_left fuel w w' xs : leaves w w' -> lists_ok fuel w xs -> lists_ok fuel w' xs.
Proof. intros [E1 E2 E3 _ E5] [Hl Hx]. split; [by rewrite E5|]. intros dev. by rewrite E1, E2, E3. Qed.

Lemma pending_ok line w : 0 <= line < 32 -> stm32_exti_is_pending line w = Z.testbit (pr (exti w)) line.
Proof. intros Hl. unfold stm32_exti_is_pending. by rewrite u32_bit, test_bit_spec by lia. Qed.

Lemma clear_pending_ok line w i :
  0 <= line < 32 -> 0 <= i < 32 ->
  Z.testbit (pr_write (pr (exti w)) (u32 (Z.shiftl 1 line))) i = Z.testbit (pr (exti w)) i && negb (i =? line).
Proof.
  intros Hl Hi. rewrite pr_write_spec by done. do 2 f_equal.
  pose proof (set_bit_word 0 line i ltac:(lia) ltac:(lia)) as E. rewrite Z.lor_0_l, Z.bits_0 in E. rewrite E.
  by destruct (i =? line).
Qed.

(** Running what is registered for a line. *)
Lemma run_line_ok fuel xs w line (c : __exti_cb) f :
  lists_ok fuel w xs -> 0 <= line < 32 -> exti_data w !! Z.to_nat line = Some c -> cb c = Some f ->
  exists w', run_exti call other fuel f line (cb_arg c) w = Some w' /\
    served (callbacks w) (exti_data w) xs line w = Some w' /\ leaves w w'.
Proof.
  intros [_ Hx] Hl Ec Ef. unfold served. rewrite Ec. destruct c as [o arg]. cbn [cb cb_arg] in *. subst o.
  destruct f as [|f]; cbn [run_exti].
  2:{ destruct (Hother f line arg w) as (w' & E & L). by exists w'. }
  unfold gpio_stm32_isr, BIT. rewrite Z.land_comm, u32_bit, test_bit_spec by lia.
  destruct (Z.testbit (cb_pins (devices w arg)) line); [|by exists w].
  destruct (Hx arg) as (Hs & Hf & Hh). unfold _gpio_fire_callbacks, SList.sys_slist_peek_head.
  by apply (fire_loop_ok fuel _ (xs arg)); [apply Hs| |].
Qed.

(** Serving the pending ones of some lines, in order; the pending bit of a line is
    cleared before its handlers run. *)
Definition served_lines (cbs : SList.node -> gpio_callback) (lines : list __exti_cb) (xs : Z -> list SList.node)
    (pending : list Z) : world A -> option (world A) :=
  in_turn (fun i w => served cbs lines xs i (stm32_exti_clear_pending i w)) pending.

Definition pending_of (p : Z) (l : list Z) : list Z := filter (fun i => Z.testbit p i = true) l.

Lemma pending_later p p' line (n : nat) :
  0 <= line -> line + 1 + Z.of_nat n <= 32 ->
  (forall i, 0 <= i < 32 -> Z.testbit p' i = Z.testbit p i && negb (i =? line)) ->
  pending_of p' (seqZ (line + 1) (Z.of_nat n)) = pending_of p (seqZ (line + 1) (Z.of_nat n)).
Proof.
  intros Hl Hn Hp. unfold pending_of.
  assert (forall i, i ∈ seqZ (line + 1) (Z.of_nat n) -> Z.testbit p' i = Z.testbit p i) as Hsame.
  { intros i Hi%elem_of_seqZ. rewrite Hp by lia. rewrite (proj2 (Z.eqb_neq i line)) by lia. apply andb_true_r. }
  induction (seqZ (line + 1) (Z.of_nat n)) as [|i l IH]; [done|].
  rewrite !filter_cons, (Hsame i), IH by (by left) || (intros; apply Hsame; by right). done.
Qed.

Lemma range_succ line (n : nat) i :
  (line <=? i) && (i <? line + Z.succ (Z.of_nat n)) =
  (i =? line) || ((line + 1 <=? i) && (i <? line + 1 + Z.of_nat n)).
Proof.
  destruct (Z.leb_spec line i), (Z.ltb_spec i (line + Z.succ (Z.of_nat n))), (Z.eqb_spec i line),
    (Z.leb_spec (line + 1) i), (Z.ltb_spec i (line + 1 + Z.of_nat n)); cbn; lia || done.
Qed.

Lemma isr_loop_ok fuel xs n line w :
  lists_ok fuel w xs -> 0 <= line -> line + Z.of_nat n <= EXTI_LINES ->
  exists w' v, exti_isr_loop (run_exti call other fuel) n line w = Some w' /\
    served_lines (callbacks w) (exti_data w) xs (pending_of (pr (exti w)) (seqZ line (Z.of_nat n))) w = Some w' /\
    leaves (set_exti (set_pr v (exti w)) w) w' /\
    forall i, 0 <= i < 32 ->
      Z.testbit v i = Z.testbit (pr (exti w)) i && negb ((line <=? i) && (i <? line + Z.of_nat n)).
Proof.
  revert line w. induction n as [|n IH]; intros line w Hok Hl Hn; unfold EXTI_LINES in Hn.
  { exists w, (pr (exti w)). split_and!; [done|done|by destruct w as [? ? []]|]. intros i Hi.
    replace (line + Z.of_nat 0) with line by lia.
    destruct (Z.leb_spec line i), (Z.ltb_spec i line); cbn [andb negb]; try lia; by rewrite andb_true_r. }
  rewrite Nat2Z.inj_succ, seqZ_cons by lia. rewrite Z.pred_succ. cbn [exti_isr_loop].
  rewrite pending_ok by lia. unfold pending_of. rewrite filter_cons.
  pose proof (range_succ line n) as Hrange.
  destruct (Z.testbit (pr (exti w)) line) eqn:Ep.
  2:{ rewrite decide_False by done.
      destruct (IH (line + 1) w Hok) as (w' & v & -> & Hs & Hv & Hb); [lia|unfold EXTI_LINES; lia|].
      exists w', v. split_and!; [done|done|done|].
      intros i Hi. rewrite Hb, Hrange by done. destruct (Z.eqb_spec i line) as [->|]; [by rewrite Ep|done]. }
  rewrite decide_True by done. unfold served_lines. cbn [in_turn]. set (w1 := stm32_exti_clear_pending line w).
  assert (Hw1 : forall i, 0 <= i < 32 -> Z.testbit (pr (exti w1)) i = Z.testbit (pr (exti w)) i && negb (i =? line))
    by (intros i Hi; apply clear_pending_ok; lia).
  destruct (lookup_lt_is_Some_2 (exti_data w) (Z.to_nat line)) as [c Ec];
    [rewrite (proj1 Hok); unfold EXTI_LINES; lia|].
  change (exti_data w1) with (exti_data w). rewrite Ec. cbn [mbind option_bind].
  assert (exists w2, (match cb c with None => Some w1 | Some f => run_exti call other fuel f line (cb_arg c) w1 end) = Some w2 /\
    served (callbacks w) (exti_data w) xs line w1 = Some w2 /\ leaves w1 w2) as (w2 & Er & Es & L2).
  { destruct (cb c) as [f|] eqn:Ef; [by apply (run_line_ok fuel xs w1 line c f); [exact Hok|lia|done|done]|].
    exists w1. split_and!; [done| |done]. unfold served. rewrite Ec. by destruct c as [[]]. }
  rewrite Es. cbn [mbind option_bind].
  destruct (IH (line + 1) w2) as (w' & v & E & Hs & Hv & Hb); [by eapply lists_left|lia|unfold EXTI_LINES; lia|].
  exists w', v. destruct L2 as [L21 L22 L23 L24 L25].
  rewrite L22, L24, L25, (pending_later (pr (exti w))) in Hs by (done || lia). split_and!.
  - rewrite <- E. destruct (cb c); [by rewrite Er|by injection Er as ->].
  - exact Hs.
  - destruct Hv as [V1 V2 V3 V4 V5]. cbn [set_exti links callbacks devices exti exti_data] in *.
    split; cbn [set_exti links callbacks devices exti exti_data]; intros; rewrite ?V1, ?V2, ?V3, ?V4, ?V5, ?L23; try done.
    by rewrite L24.
  - intros i Hi. rewrite Hb by done. rewrite L24, Hw1, Hrange, negb_orb, andb_assoc by done. done.
Qed.

(** The lines that share the interrupt of a line. *)
Definition lines_of line : list Z := if line <? 5 then [line] else if line <? 10 then seqZ 5 5 else seqZ 10 6.

Lemma isr_of_line line :
  0 <= line < 16 ->
  exists min max isr, __stm32_exti_connect_irqs (A := A) (irqnum line) = Some isr /\
    (forall run w, isr run w = __stm32_exti_isr run min max w) /\ lines_of line = seqZ min (max - min) /\
    min <= line < max /\ 0 <= min /\ max <= EXTI_LINES.
Proof.
  intros Hl. unfold lines_of, irqnum, EXTI_LINES. destruct (Z.ltb_spec line 5) as [H5|H5].
  - exists line, (line + 1). replace (line + 1 - line) with 1 by lia.
    assert (line = 0 \/ line = 1 \/ line = 2 \/ line = 3 \/ line = 4) as [->|[->|[->|[->| ->]]]] by lia;
      (eexists; split; [reflexivity|]; split_and!; done || lia).
  - rewrite (proj2 (Z.leb_le 5 line)) by lia. destruct (Z.ltb_spec line 10) as [H10|H10].
    + rewrite (proj2 (Z.leb_le line 9)) by lia. exists 5, 10. eexists. split; [reflexivity|]. split_and!; done || lia.
    + rewrite (proj2 (Z.leb_gt line 9)), (proj2 (Z.leb_le 10 line)), (proj2 (Z.leb_le line 15)) by lia.
      exists 10, 16. eexists. split; [reflexivity|]. split_and!; done || lia.
Qed.

(** C38: the interrupt that the driver enables for a line of a pin is connected to a
    service routine that handles the line. For handlers that leave the callbacks,
    their lists and the EXTI controller alone (they may enable and disable callbacks
    and write pins), every pending line of that interrupt is served, in order: its
    pending bit is cleared and the handlers of exactly the callbacks that wait for
    the pin at the port registered for the line run, each once and in the order of
    the list, provided the pin is enabled there at that time. In the end the pending
    bits of these lines and no others are cleared, and the lists, the callbacks and
    the other registers of the controller are as they were. *)
Theorem gpio_interrupt_correct fuel xs line w :
  0 <= line < 16 -> lists_ok fuel w xs ->
  exists isr w' v, __stm32_exti_connect_irqs (irqnum line) = Some isr /\ line ∈ lines_of line /\
    isr (run_exti call other fuel) w = Some w' /\
    served_lines (callbacks w) (exti_data w) xs (pending_of (pr (exti w)) (lines_of line)) w = Some w' /\
    leaves (set_exti (set_pr v (exti w)) w) w' /\
    forall i, 0 <= i < 32 -> Z.testbit v i = Z.testbit (pr (exti w)) i && negb (bool_decide (i ∈ lines_of line)).
Proof.
  intros Hl Hok.
  destruct (isr_of_line line Hl) as (min & max & isr & Ei & Hisr & -> & Hin & H0 & Hmax).
  destruct (isr_loop_ok fuel xs (Z.to_nat (max - min)) min w Hok H0) as (w' & v & E & Hs & Hk & Hv); [lia|].
  rewrite Z2Nat.id in Hs, Hv by lia. exists isr, w', v. split_and!; [done|apply elem_of_seqZ; lia| |done|done|].
  - rewrite Hisr. exact E.
  - intros i Hi. rewrite Hv by done. do 2 f_equal. rewrite (bool_decide_ext _ _ (elem_of_seqZ _ _ _)).
    destruct (Z.leb_spec min i), (Z.ltb_spec i (min + (max - min))); cbn [andb]; symmetry;
      (apply bool_decide_eq_true; lia) || (apply bool_decide_eq_false; lia).
Qed.
End Interrupts.

(** ** Witnesses *)

(** The pending register as RM0008 has it. *)
Lemma clear_ones pr v i :
  0 <= i < 32 -> Z.testbit (Z.land pr (Z.lnot v)) i = Z.testbit pr i && negb (Z.testbit v i).
Proof. intros Hi. by rewrite Z.land_spec, Z.lnot_spec by lia. Qed.
#[global] Instance exti_hardware : ExtiHardware :=
  {| pr_write := fun pr v => Z.land pr (Z.lnot v); pr_write_spec := clear_ones |}.

#[global] Instance asserting : Assertions := true.

(** Port C with two callbacks, 1 and 2, the first waiting for the pins 13 and 14 and
    the second for pin 14, line 13 being pending. The handlers are recorded. *)
Definition example_world : world (list Z) :=
  mk_world reset_chip (mk_afio 0 0 0 0 0 0 0) (mk_exti 0 0 0 0 0 (2 ^ 13)) (fun _ => false)
    (<[13%nat := mk_cb (Some GpioStm32Isr) 2]> (repeat (mk_cb None 0) 19))
    (<[2 := mk_data (2 ^ 13) (SList.mk_slist (Some 1%positive) (Some 2%positive))]> (fun _ => mk_data 0 SList.sys_slist_init))
    (<[1%positive := Some 2%positive]> (fun _ => None))
    (<[1%positive := mk_callback (Some 71) (2 ^ 13 + 2 ^ 14)]> (fun _ => mk_callback (Some 72) (2 ^ 14))) [].

(** A handler that disables the callbacks of the pin and tells the application. *)
Definition record_call (h dev : Z) (c : SList.node) (pins : Z) (w : world (list Z)) : option (world (list Z)) :=
  Some (set_app (app w ++ [h]) (snd (gpio_pin_disable_callback dev 13 w))).
Definition ignore (f line arg : Z) (w : world (list Z)) : option (world (list Z)) := Some w.

Lemma record_call_leaves h dev c pins w : exists w', record_call h dev c pins w = Some w' /\ leaves w w'.
Proof.
  eexists. split; [done|]. split; try done. intros d. cbn.
  destruct (decide (d = dev)) as [->|]; [by rewrite fn_lookup_insert|by rewrite fn_lookup_insert_ne].
Qed.

Lemma ignore_leaves f line arg w : exists w', ignore f line arg w = Some w' /\ leaves w w'.
Proof. by exists w. Qed.

Lemma gpio_config_correct_witness :
  exists w', gpio_pin_configure 2 3 (GPIO_INT + GPIO_INT_EDGE) example_world = Some (0, w') /\
    routed (afio w') 3 = 2 /\ Z.testbit (ftsr (exti w')) 3 = true.
Proof.
  destruct (gpio_config_correct 2 3 (GPIO_INT + GPIO_INT_EDGE) example_world) as (_ & _ & H).
  - lia.
  - lia.
  - vm_compute. repeat split; discriminate.
  - split; [vm_compute; repeat split; discriminate|reflexivity].
  - destruct H as (w' & E & _ & _ & _ & _ & _ & _ & _ & Ha); [by right; right|].
    exists w'. split; [exact E|]. split; [rewrite (ar_route _ _ _ _ _ Ha) by lia; reflexivity|].
    rewrite (ar_falling _ _ _ _ _ Ha) by lia. reflexivity.
Defined.

Lemma gpio_interrupt_correct_witness :
  exists isr w', __stm32_exti_connect_irqs (irqnum 13) = Some isr /\
    isr (run_exti record_call ignore 2) example_world = Some w' /\ app w' = [71] /\
    cb_pins (devices w' 2) = 0.
Proof.
  destruct (gpio_interrupt_correct record_call ignore record_call_leaves ignore_leaves
    2 (fun dev => if dev =? 2 then [1%positive; 2%positive] else []) 13 example_world) as (isr & w' & v & Ei & _ & Er & Es & _).
  - lia.
  - split; [reflexivity|]. intros dev. cbn [example_world links devices callbacks].
    destruct (Z.eqb_spec dev 2) as [->|Hne].
    + rewrite fn_lookup_insert. split_and!; [split; [vm_compute; auto|reflexivity|]|simpl; lia|].
      * apply NoDup_ListNoDup. repeat constructor; simpl; intuition discriminate.
      * intros c Hc. apply elem_of_cons in Hc as [->|Hc]; [by eexists|].
        apply elem_of_cons in Hc as [->|Hc]; [by eexists|]. by apply elem_of_nil in Hc.
    + rewrite fn_lookup_insert_ne by done. split_and!; [apply SList.slist_nil|simpl; lia|].
      intros c Hc. by apply elem_of_nil in Hc.
  - exists isr, w'. split; [exact Ei|]. split; [exact Er|]. vm_compute in Es. injection Es as <-. split; reflexivity.
Defined.

(** A handler that removes its own callback hides the callbacks behind it: the link
    is read after the removal has cleared it. Of the two callbacks of the list, both
    waiting for pin 13, the handler of the first removes it and the second is not
    called. *)
Definition removing_call (h dev : Z) (c : SList.node) (pins : Z) (w : world (list Z)) : option (world (list Z)) :=
  snd <$> gpio_remove_callback 2 dev c (set_app (app w ++ [h]) w).

Lemma self_removal_hides_callbacks :
  app <$> gpio_stm32_isr removing_call 2 13 2
    (set_callbacks (<[1%positive := mk_callback (Some 71) (2 ^ 13)]> (fun _ => mk_callback (Some 72) (2 ^ 13))) example_world) =
  Some [71].
Proof. by vm_compute. Qed.
