(* ===== verification/GpioInv.v ===== *)
(** * The GPIO driver as a state machine

    Every sequence of calls of the interface of include/gpio.h, of edges at the pins
    and of interrupts, with handlers that call the interface themselves, leaves the
    registers and the lists of callbacks in order, and the next call or interrupt
    succeeds. *)
From S2P Require Import Prelude Kernel BitField SList Stm32Gpio GpioDriver GpioSpec.
Import Stm32 Gpio.

(** ** Lists that share the memory of their links *)
Section Frame.
Implicit Types (l : SList.sys_slist) (m : SList.node -> option SList.node) (n x : SList.node).

Lemma slist_frame m m' l xs :
  (forall x, x ∈ xs -> m' x = m x) -> SList.slist m l xs -> SList.slist m' l xs.
Proof. intros Hf []. split; [by apply (SList.seg_frame m)|done|done]. Qed.

(** Removing a node writes only to nodes of the list. *)
Lemma find_loop_frame fuel l prev test n m l' m' ys :
  SList.seg m test ys None -> SList.find_loop fuel l prev test n m = Some (l', m') ->
  forall x, prev <> Some x -> x ∉ ys -> m' x = m x.
Proof.
  revert prev test ys. induction fuel as [|fuel IH]; intros prev [t|] ys Hs E x Hp Hx; simpl in E; simplify_eq; try done.
  destruct ys as [|y ys]; [done|]. destruct Hs as [[= ->] Hs]. apply not_elem_of_cons in Hx as [Hxy Hx].
  destruct (decide (y = n)) as [->|Hne].
  - injection E as E. unfold SList.sys_slist_remove in E.
    destruct prev as [p|]; [|by injection E as _ <-; rewrite fn_lookup_insert_ne].
    injection E as _ <-. rewrite !fn_lookup_insert_ne; [done|congruence|done].
  - eapply IH; [exact Hs|exact E| |done]. congruence.
Qed.

Lemma find_and_remove_ok fuel l n m xs :
  SList.slist m l xs -> (length xs <= fuel)%nat ->
  exists l' m', SList.sys_slist_find_and_remove fuel l n m = Some (l', m') /\
    SList.slist m' l' (remove_node n xs) /\ forall x, x ∉ xs -> m' x = m x.
Proof.
  intros Hl Hf. destruct (SList.find_loop_ok m l n xs [] fuel) as (l' & m' & E & Hr); [done|set_solver|done|].
  assert (E' : SList.sys_slist_find_and_remove fuel l n m = Some (l', m')).
  { rewrite <- E. unfold SList.sys_slist_find_and_remove. f_equal. destruct Hl as [Hs _ _].
    destruct xs; simpl in Hs; [done|by destruct Hs]. }
  exists l', m'. split_and!; [done|exact Hr|]. intros x Hx.
  by eapply (find_loop_frame fuel l None _ n m l' m' xs); [apply Hl|exact E'| |].
Qed.
End Frame.

(** ** The state machine *)
Section Machine.
Context {A : Type} {HW : ExtiHardware} {CA : Assertions}.
Context (call : Z -> Z -> SList.node -> Z -> world A -> option (world A)).
Context (other : Z -> Z -> Z -> world A -> option (world A)).
Implicit Types (w : world A) (dev pin line flags : Z) (c : SList.node) (xs : Z -> list SList.node) (fuel : nat).

(** The calls of the interface; [Edge], which sets a pending bit; and the interrupt
    of a line. *)
Inductive event :=
  | Init dev
  | Configure dev pin flags
  | Write dev pin (value : Z)
  | InitCallback c (h mask : Z)
  | AddCallback dev c
  | RemoveCallback dev c
  | EnableCallback dev pin
  | DisableCallback dev pin
  | Edge line
  | Interrupt line.

Definition exec fuel (e : event) w : option (world A) :=
  match e with
  | Init dev => Some (snd (gpio_stm32_init dev w))
  | Configure dev pin flags => snd <$> gpio_pin_configure dev pin flags w
  | Write dev pin v => Some (snd (gpio_pin_write dev pin v w))
  | InitCallback c h mask => Some (gpio_init_callback c h mask w)
  | AddCallback dev c => snd <$> gpio_add_callback fuel dev c w
  | RemoveCallback dev c => snd <$> gpio_remove_callback fuel dev c w
  | EnableCallback dev pin => Some (snd (gpio_pin_enable_callback dev pin w))
  | DisableCallback dev pin => Some (snd (gpio_pin_disable_callback dev pin w))
  | Edge line => Some (set_exti (set_pr (Z.lor (pr (exti w)) (Z.shiftl 1 line)) (exti w)) w)
  | Interrupt line => isr ← __stm32_exti_connect_irqs (irqnum line); isr (run_exti call other fuel) w
  end.

(** The callbacks of every port, as the application has added and removed them. *)
Definition lists_after (e : event) xs : Z -> list SList.node :=
  match e with
  | AddCallback dev c => <[dev := c :: xs dev]> xs
  | RemoveCallback dev c => <[dev := remove_node c (xs dev)]> xs
  | _ => xs
  end.

(** What the interface asks of its users: a pin of one of the five ports; a callback
    with a handler, that is on no list when it is added. *)
Definition permitted (e : event) xs w : Prop :=
  match e with
  | Init dev => 0 <= dev <= 4
  | Configure dev pin _ | Write dev pin _ | EnableCallback dev pin | DisableCallback dev pin => 0 <= dev <= 4 /\ 0 <= pin < 16
  | InitCallback _ _ _ => True
  | AddCallback dev c => 0 <= dev <= 4 /\ is_Some (handler (callbacks w c)) /\ forall d, c ∉ xs d
  | RemoveCallback dev c => 0 <= dev <= 4 /\ is_Some (handler (callbacks w c))
  | Edge line | Interrupt line => 0 <= line < 16
  end.

(** The assertion of the EXTI driver, if it is checked: the interrupt of a pin is asked
    for once. *)
Definition assertions_pass (e : event) w : Prop :=
  match e with
  | Configure _ pin flags => Z.testbit flags 1 = false \/ line_free pin w
  | _ => True
  end.

(** What a handler may do: change the state of the application, and use the interface,
    except for adding and removing callbacks; edges may come meanwhile. *)
Definition from_handler (e : event) : Prop :=
  match e with AddCallback _ _ | RemoveCallback _ _ | Interrupt _ => False | _ => True end.

Inductive acts xs : world A -> world A -> Prop :=
  | acts_done w : acts xs w w
  | acts_app a w w' : acts xs (set_app a w) w' -> acts xs w w'
  | acts_event e w w1 w' :
      from_handler e -> permitted e xs w -> exec 0 e w = Some w1 -> acts xs w1 w' -> acts xs w w'.

(** At boot no line is registered and no callback is there; the ports, the routing
    and the masks hold anything a register can hold. *)
Record booted w : Prop := {
  bt_ports dev : 0 <= dev <= 4 -> port_ok (ports (soc w) (port_base dev));
  bt_afio : afio_ok (afio w);
  bt_exti : words_ok (exti w);
  bt_lines : exti_data w = repeat (mk_cb None 0) (Z.to_nat EXTI_LINES);
  bt_devices dev : devices w dev = mk_data 0 SList.sys_slist_init
}.

Inductive reach fuel : list event -> (Z -> list SList.node) -> world A -> Prop :=
  | reach_boot w : booted w -> reach fuel [] (fun _ => []) w
  | reach_step es xs w e w' :
      reach fuel es xs w -> permitted e xs w -> exec fuel e w = Some w' ->
      reach fuel (e :: es) (lists_after e xs) w'.

(** Registers are words; a line that is registered for a port is routed from that
    port, unmasked, and its interrupt is enabled; the lists are as the application
    has made them, without a node in common, and their callbacks have handlers. *)
Record wf w xs : Prop := {
  wf_ports dev : 0 <= dev <= 4 -> port_ok (ports (soc w) (port_base dev));
  wf_driver : driver_ok w;
  wf_exti : words_ok (exti w);
  wf_line pin dev : 0 <= pin < 16 -> exti_data w !! Z.to_nat pin = Some (mk_cb (Some GpioStm32Isr) dev) ->
    0 <= dev <= 4 /\ routed (afio w) pin = dev /\ Z.testbit (imr (exti w)) pin = true /\ irqs w (irqnum pin) = true;
  wf_pins dev : word_ok (cb_pins (devices w dev));
  wf_list dev : SList.slist (links w) (data_cb (devices w dev)) (xs dev);
  wf_handler dev c : c ∈ xs dev -> is_Some (handler (callbacks w c));
  wf_disjoint dev dev' c : c ∈ xs dev -> c ∈ xs dev' -> dev = dev'
}.
End Machine.

(** ** Every step keeps the state in order *)
Section Steps.
Context {A : Type} {HW : ExtiHardware} {CA : Assertions}.
Implicit Types (w : world A) (dev pin line flags : Z) (c : SList.node) (xs : Z -> list SList.node) (fuel : nat).

Lemma booted_wf w : booted w -> wf w (fun _ => []).
Proof.
  intros [Hp Ha He Hl Hd]. split; try done.
  - split; [done|]. by rewrite Hl, repeat_length.
  - intros pin dev _ E. rewrite Hl in E. by apply list_elem_of_lookup_2, list_elem_of_In, repeat_spec in E.
  - intros dev. rewrite Hd. done.
  - intros dev. rewrite Hd. apply SList.slist_nil.
  - intros dev c Hc. by apply elem_of_nil in Hc.
  - intros dev dev' c Hc. by apply elem_of_nil in Hc.
Qed.

Lemma port_base_inj dev dev' : port_base dev = port_base dev' -> dev = dev'.
Proof. unfold port_base, GPIO_REG_SIZE. lia. Qed.

Lemma configure_wf dev pin flags w xs :
  wf w xs -> permitted (Configure dev pin flags) xs w -> assertions_pass (Configure dev pin flags) w ->
  exists w', gpio_pin_configure dev pin flags w = Some (0, w') /\ wf w' xs /\ links w' = links w.
Proof.
  intros [Hp [Ha Hlen] He Hl Hpins Hlist Hh Hdis] (Hd & Hpin) Hfree.
  destruct (pin_configure_ok dev pin flags w) as (w' & E & Hc & Hother & _ & Edev & Elinks & Ecb & _ & Hint);
    [done..|by apply Hp|done|done|].
  exists w'. split; [exact E|]. split; [|done].
  assert (Hports : forall d, 0 <= d <= 4 -> port_ok (ports (soc w') (port_base d))).
  { intros d Hd'. destruct (decide (d = dev)) as [->|Hne]; [apply Hc|].
    rewrite Hother by (intros Eb; by apply port_base_inj in Eb). by apply Hp. }
  destruct (Z.testbit flags 1).
  2:{ destruct Hint as (Eaf & Eex & Eirq & Edata). unfold driver_ok.
      split; unfold driver_ok; rewrite ?Edev, ?Elinks, ?Ecb, ?Eaf, ?Eex, ?Eirq, ?Edata; try done.
      all: intros ? ?; rewrite ?Edata, ?Eaf, ?Eirq, ?Ecb; auto. }
  destruct Hint as [Hr Haf Hm _ _ _ Hw Hirq Hcb].
  split; unfold driver_ok; rewrite ?Edev, ?Elinks, ?Ecb; try done.
  - split; [done|]. by rewrite Hcb, length_insert.
  - by apply Hw.
  - intros q d Hq. rewrite Hcb, Hirq, Hr, Hm by lia. intros Eq. destruct (Z.eqb_spec q pin) as [->|Hne].
    + rewrite list_lookup_insert_eq in Eq by (rewrite Hlen; unfold EXTI_LINES; lia). injection Eq as <-.
      rewrite fn_lookup_insert. done.
    + rewrite list_lookup_insert_ne in Eq by lia. destruct (Hl q d Hq Eq) as (? & ? & ? & Hi). split_and!; try done; try lia.
      destruct (decide (irqnum q = irqnum pin)) as [->|]; [by rewrite fn_lookup_insert|by rewrite fn_lookup_insert_ne].
Qed.

Lemma add_callback_wf fuel dev c w xs :
  wf w xs -> permitted (AddCallback dev c) xs w ->
  exists w', gpio_add_callback fuel dev c w = Some (0, w') /\ wf w' (<[dev := c :: xs dev]> xs).
Proof.
  intros [Hp Hdr He Hl Hpins Hlist Hh Hdis] (Hd & [h Eh] & Hnew).
  unfold gpio_add_callback, gpio_stm32_manage_callback, _gpio_manage_callback. rewrite Eh.
  rewrite bool_decide_false, andb_false_r by done.
  pose proof (SList.prepend_ok (links w) _ (xs dev) c (Hlist dev) (Hnew dev)) as Hl'.
  assert (Hf : forall x, x <> c -> snd (SList.sys_slist_prepend (data_cb (devices w dev)) c (links w)) x = links w x)
    by (intros x Hx; cbn; by rewrite fn_lookup_insert_ne).
  destruct (SList.sys_slist_prepend (data_cb (devices w dev)) c (links w)) as [l m]. cbn [snd] in Hf.
  eexists. split; [reflexivity|]. split; try done; cbn [set_devices set_links devices links callbacks].
  - intros d. destruct (decide (d = dev)) as [->|Hne]; [rewrite fn_lookup_insert|rewrite fn_lookup_insert_ne by done]; apply Hpins.
  - intros d. destruct (decide (d = dev)) as [->|Hne]; [by rewrite !fn_lookup_insert|].
    rewrite !fn_lookup_insert_ne by done. apply (slist_frame (links w)); [|done].
    intros x Hx. apply Hf. intros ->. by apply (Hnew d).
  - intros d x Hx. destruct (decide (x = c)) as [->|Hne]; [by exists h|]. apply (Hh d).
    destruct (decide (d = dev)) as [->|]; [rewrite fn_lookup_insert in Hx; set_solver|by rewrite fn_lookup_insert_ne in Hx].
  - intros d d' x Hx Hx'. destruct (decide (x = c)) as [->|Hne].
    + destruct (decide (d = dev)) as [->|], (decide (d' = dev)) as [->|]; try done;
        rewrite ?fn_lookup_insert_ne in * by done; exfalso; naive_solver.
    + apply (Hdis d d' x); [destruct (decide (d = dev)) as [->|]|destruct (decide (d' = dev)) as [->|]];
        rewrite ?fn_lookup_insert in *; rewrite ?fn_lookup_insert_ne in * by done; set_solver.
Qed.

Lemma remove_callback_wf fuel dev c w xs :
  wf w xs -> (length (xs dev) <= fuel)%nat -> is_Some (handler (callbacks w c)) ->
  exists w', gpio_remove_callback fuel dev c w = Some (0, w') /\ wf w' (<[dev := remove_node c (xs dev)]> xs).
Proof.
  intros [Hp Hdr He Hl Hpins Hlist Hh Hdis] Hfuel [h Eh].
  unfold gpio_remove_callback, gpio_stm32_manage_callback, _gpio_manage_callback. rewrite Eh.
  rewrite bool_decide_false, andb_false_r by done.
  destruct (find_and_remove_ok fuel (data_cb (devices w dev)) c (links w) (xs dev) (Hlist dev) Hfuel)
    as (l & m & -> & Hl' & Hf). cbn [mbind option_bind].
  assert (Hsub : forall d x, x ∈ (<[dev := remove_node c (xs dev)]> xs) d -> x ∈ xs d).
  { intros d x. destruct (decide (d = dev)) as [->|]; [|by rewrite fn_lookup_insert_ne].
    rewrite fn_lookup_insert. by intros [_ ?]%elem_of_remove_node. }
  eexists. split; [reflexivity|]. split; try done; cbn [set_devices set_links devices links callbacks].
  - intros d. destruct (decide (d = dev)) as [->|Hne]; [rewrite fn_lookup_insert|rewrite fn_lookup_insert_ne by done]; apply Hpins.
  - intros d. destruct (decide (d = dev)) as [->|Hne]; [by rewrite !fn_lookup_insert|].
    rewrite !fn_lookup_insert_ne by done. apply (slist_frame (links w)); [|done].
    intros x Hx. apply Hf. intros Hx'. by apply Hne, (Hdis d dev x).
  - intros d x Hx. by apply (Hh d), Hsub.
  - intros d d' x Hx Hx'. apply (Hdis d d' x); by apply Hsub.
Qed.
End Steps.

Section Safety.
Context {A : Type} {HW : ExtiHardware} {CA : Assertions}.
Context (call : Z -> Z -> SList.node -> Z -> world A -> option (world A)).
Context (other : Z -> Z -> Z -> world A -> option (world A)).
Implicit Types (w : world A) (dev pin line flags : Z) (c : SList.node) (xs : Z -> list SList.node) (fuel : nat).

Lemma write_wf dev pin v w xs : wf w xs -> 0 <= dev <= 4 -> 0 <= pin < 16 -> wf (snd (gpio_pin_write dev pin v w)) xs.
Proof.
  intros [Hp Hdr He Hl Hpins Hlist Hh Hdis] Hd Hpin. unfold gpio_pin_write, gpio_stm32_write.
  change (negb (GPIO_ACCESS_BY_PIN =? GPIO_ACCESS_BY_PIN)) with false. cbn iota.
  change (base (gpio_stm32_cfg dev)) with (port_base dev). destruct (Hp dev Hd) as (W1 & W2 & W3).
  destruct (stm32_gpio_set_ok pin v (ports (soc w) (port_base dev)) Hpin W3) as (g & -> & Wg & _ & E1 & E2 & _).
  cbn [snd]. split; try done. intros d Hd'. cbn [set_soc soc ports]. destruct (decide (d = dev)) as [->|Hne].
  - rewrite fn_lookup_insert. unfold port_ok. by rewrite E1, E2.
  - rewrite fn_lookup_insert_ne; [by apply Hp|]. intros E. by apply Hne, eq_sym, port_base_inj.
Qed.

(** Changing the pins a port is enabled for. *)
Lemma pins_wf dev v w xs :
  wf w xs -> word_ok v -> wf (set_devices (<[dev := mk_data v (data_cb (devices w dev))]> (devices w)) w) xs.
Proof.
  intros [Hp Hdr He Hl Hpins Hlist Hh Hdis] Hv. split; try done; cbn [set_devices devices links]; intros d;
    (destruct (decide (d = dev)) as [->|Hne]; [rewrite fn_lookup_insert|rewrite fn_lookup_insert_ne by done]);
    solve [done | apply Hpins | apply Hlist].
Qed.

(** The configuration fails only by the assertion. *)
Lemma configure_assertion dev pin flags w w' xs :
  wf w xs -> permitted (Configure dev pin flags) xs w -> exec call other 0 (Configure dev pin flags) w = Some w' ->
  assertions_pass (Configure dev pin flags) w.
Proof.
  intros Hwf [Hd Hp] E. destruct (wf_driver _ _ Hwf) as [_ Hlen].
  destruct (Z.testbit flags 1) eqn:E1; [right|by left].
  unfold line_free. destruct CONFIG_ASSERT eqn:EA; [right|by left].
  destruct (lookup_lt_is_Some_2 (exti_data w) (Z.to_nat pin)) as [[[f|] arg] Ec];
    [rewrite Hlen; unfold EXTI_LINES; lia| |by rewrite Ec].
  exfalso. cbn [exec] in E. unfold gpio_pin_configure, gpio_stm32_config in E.
  change (negb (GPIO_ACCESS_BY_PIN =? GPIO_ACCESS_BY_PIN)) with false in E. cbv iota in E.
  rewrite (proj1 (flags_to_conf_ok flags)) in E. cbn [Z.eqb negb stm32_gpio_configure] in E.
  unfold GPIO_INT in E. rewrite test_bit_spec, E1 in E by lia. unfold stm32_exti_set_callback in E.
  cbn [set_soc exti_data] in E. rewrite Ec, EA in E. by cbn in E.
Qed.

(** What does not touch the lists. *)
Lemma event_wf fuel e w xs :
  wf w xs -> from_handler e -> permitted e xs w -> assertions_pass e w ->
  exists w', exec call other fuel e w = Some w' /\ wf w' xs /\ links w' = links w.
Proof.
  intros Hwf Hfrom He Ha.
  destruct e as [dev|dev pin flags|dev pin v|c h mask|dev c|dev c|dev pin|dev pin|line|line]; try done;
    cbn [permitted] in He.
  - eexists. split; [reflexivity|]. unfold gpio_stm32_init.
    destruct (clock_on_ok (clock_subsys (gpio_stm32_cfg dev)) (rcc (soc w))) as (r & -> & _).
    split; [|done]. destruct Hwf. by split.
  - destruct (configure_wf dev pin flags w xs Hwf He Ha) as (w' & E & Hw'). exists w'. cbn [exec]. by rewrite E.
  - eexists. split; [reflexivity|]. destruct He. split; [by apply write_wf|].
    unfold gpio_pin_write, gpio_stm32_write. cbn [negb Z.eqb]. change (negb (GPIO_ACCESS_BY_PIN =? GPIO_ACCESS_BY_PIN)) with false.
    cbv iota. by destruct (stm32_gpio_set _ _ _).
  - eexists. split; [reflexivity|]. split; [|done]. destruct Hwf as [? ? ? ? ? ? Hh ?]. split; try done.
    intros d x Hx. cbn [gpio_init_callback set_callbacks callbacks].
    destruct (decide (x = c)) as [->|]; [rewrite fn_lookup_insert; by eexists|]. rewrite fn_lookup_insert_ne by done. by apply (Hh d).
  - eexists. split; [reflexivity|]. split; [|done]. apply pins_wf; [done|]. apply lor_word; [apply Hwf|apply u32_word].
  - eexists. split; [reflexivity|]. split; [|done]. apply pins_wf; [done|]. apply land_word, Hwf.
  - eexists. split; [reflexivity|]. split; [|done]. destruct Hwf. by split.
Qed.

Lemma acts_wf xs w w' : acts call other xs w w' -> wf w xs -> wf w' xs /\ links w' = links w.
Proof.
  induction 1 as [w|a w w' _ IH|e w w1 w' Hf Hp E _ IH]; intros Hwf; [done|apply IH; by destruct Hwf|].
  assert (assertions_pass e w) as Ha by (destruct e; try done; by eapply configure_assertion).
  destruct (event_wf 0 e w xs Hwf Hf Hp Ha) as (w2 & E2 & Hw2 & El). rewrite E in E2. injection E2 as <-.
  destruct (IH Hw2) as [? ?]. split; [done|congruence].
Qed.

(** The handlers, and the other users of the EXTI driver, return, having done what a
    handler may do. *)
Context (Hcall : forall h dev c pins xs w, wf w xs -> exists w', call h dev c pins w = Some w' /\ acts call other xs w w').
Context (Hother : forall f line arg xs w, wf w xs -> exists w', other f line arg w = Some w' /\ acts call other xs w w').

Lemma fire_wf fuel p l dev pins w xs :
  wf w xs -> SList.seg (links w) p l None -> (forall c, c ∈ l -> c ∈ xs dev) -> (length l <= fuel)%nat ->
  exists w', fire_loop call fuel p dev pins w = Some w' /\ wf w' xs.
Proof.
  revert fuel p w. induction l as [|c l IH]; intros fuel p w Hwf Hs Hin Hf; cbn [SList.seg] in Hs.
  { subst p. exists w. by destruct fuel. }
  destruct Hs as [-> Hs]. destruct fuel as [|fuel]; [cbn [length] in Hf; lia|]. cbn [fire_loop length] in *.
  destruct (wf_handler _ _ Hwf dev c) as [h Eh]; [apply Hin; by left|].
  destruct (negb _); cbn [mbind option_bind SList.sys_slist_peek_next].
  - rewrite Eh. cbn [mbind option_bind]. destruct (Hcall h dev c pins xs w Hwf) as (w1 & -> & Ha).
    destruct (acts_wf _ _ _ Ha Hwf) as [Hwf1 El]. cbn [mbind option_bind]. rewrite El.
    apply IH; [done|by rewrite El|intros; apply Hin; by right|lia].
  - apply IH; [done|done|intros; apply Hin; by right|lia].
Qed.

Lemma run_wf fuel f line arg w xs :
  wf w xs -> (forall dev, (length (xs dev) <= fuel)%nat) ->
  exists w', run_exti call other fuel f line arg w = Some w' /\ wf w' xs.
Proof.
  intros Hwf Hf. destruct f as [|f]; cbn [run_exti].
  - unfold gpio_stm32_isr. destruct (negb _); [|by exists w].
    eapply (fire_wf fuel _ (xs arg)); [done|apply (wf_list _ _ Hwf)|done|done].
  - destruct (Hother f line arg xs w Hwf) as (w' & E & Ha). exists w'. split; [done|]. by eapply acts_wf.
Qed.

Lemma isr_loop_wf fuel n line w xs :
  wf w xs -> (forall dev, (length (xs dev) <= fuel)%nat) -> 0 <= line -> line + Z.of_nat n <= EXTI_LINES ->
  exists w', exti_isr_loop (run_exti call other fuel) n line w = Some w' /\ wf w' xs.
Proof.
  revert line w. induction n as [|n IH]; intros line w Hwf Hf H0 Hn; [by exists w|]. cbn [exti_isr_loop].
  unfold EXTI_LINES in *. destruct (stm32_exti_is_pending line w); [|apply IH; done || lia].
  set (w1 := stm32_exti_clear_pending line w). assert (wf w1 xs) as Hwf1 by (destruct Hwf; by split).
  destruct (wf_driver _ _ Hwf1) as [_ Hlen]. unfold EXTI_LINES in Hlen.
  destruct (lookup_lt_is_Some_2 (exti_data w1) (Z.to_nat line)) as [c Ec]; [lia|].
  rewrite Ec. cbn [mbind option_bind]. destruct (cb c) as [f|]; [|apply IH; done || lia].
  destruct (run_wf fuel f line (cb_arg c) w1 xs Hwf1 Hf) as (w2 & -> & Hwf2). cbn [mbind option_bind].
  apply IH; done || lia.
Qed.

Lemma interrupt_wf fuel line w xs :
  wf w xs -> (forall dev, (length (xs dev) <= fuel)%nat) -> 0 <= line < 16 ->
  exists w', exec call other fuel (Interrupt line) w = Some w' /\ wf w' xs.
Proof.
  intros Hwf Hf Hl. destruct (isr_of_line (A := A) line Hl) as (min & max & isr & Ei & Hisr & _ & Hin & H0 & Hmax).
  cbn [exec]. rewrite Ei. cbn [mbind option_bind]. rewrite Hisr. unfold __stm32_exti_isr.
  apply isr_loop_wf; [done|done|done|lia].
Qed.

Lemma step_ok fuel n e w xs :
  wf w xs -> (forall dev, (length (xs dev) <= n)%nat) -> (n <= fuel)%nat -> permitted e xs w -> assertions_pass e w ->
  exists w', exec call other fuel e w = Some w' /\ wf w' (lists_after e xs) /\
    forall dev, (length (lists_after e xs dev) <= S n)%nat.
Proof.
  intros Hwf Hn Hf He Ha.
  assert (Hn' : forall dev, (length (xs dev) <= S n)%nat) by (intros dev; specialize (Hn dev); lia).
  destruct e as [dev|dev pin flags|dev pin v|c h mask|dev c|dev c|dev pin|dev pin|line|line].
  1-4, 7-9: edestruct (event_wf fuel) as (w' & E & Hw' & _); [exact Hwf| |exact He|exact Ha|];
    [exact I|by exists w'].
  - destruct (add_callback_wf fuel dev c w xs Hwf He) as (w' & E & Hw'). exists w'. cbn [exec lists_after]. rewrite E. split_and!; [done..|].
    intros d. destruct (decide (d = dev)) as [->|]; [|by rewrite fn_lookup_insert_ne].
    rewrite fn_lookup_insert. specialize (Hn dev). cbn [length]. lia.
  - destruct He as [Hd Hh]. destruct (remove_callback_wf fuel dev c w xs Hwf) as (w' & E & Hw'); [specialize (Hn dev); lia|done|].
    exists w'. cbn [exec lists_after]. rewrite E. split_and!; [done..|]. intros d.
    destruct (decide (d = dev)) as [->|]; [|by rewrite fn_lookup_insert_ne]. rewrite fn_lookup_insert.
    specialize (Hn dev). unfold remove_node. pose proof (length_filter (fun x => x <> c) (xs dev)). lia.
  - destruct (interrupt_wf fuel line w xs Hwf) as (w' & E & Hw'); [intros dev; specialize (Hn dev); lia|done|].
    exists w'. by split_and!.
Qed.

Lemma reach_wf fuel es xs w :
  reach call other fuel es xs w -> (length es <= fuel)%nat -> wf w xs /\ forall dev, (length (xs dev) <= length es)%nat.
Proof.
  induction 1 as [w Hb|es xs w e w' _ IH Hp E]; intros Hf; [split; [by apply booted_wf|done]|].
  cbn [length] in *. destruct IH as [Hwf Hn]; [lia|].
  assert (assertions_pass e w) as Ha by (destruct e; try done; by eapply configure_assertion).
  destruct (step_ok fuel (length es) e w xs Hwf Hn) as (w1 & E1 & Hw1 & Hn1); [lia|done|done|].
  rewrite E in E1. by injection E1 as <-.
Qed.

(** C37: whatever the sequence of calls to the GPIO interface, of edges at the pins
    and of interrupts since boot, with pins that exist and callbacks that have a
    handler and are added once, and with handlers that return and may use the
    interface themselves, except for adding and removing callbacks: all registers hold
    32-bit words, every line the driver is registered for is routed from the port it
    is registered with, unmasked and its interrupt enabled, the callback lists of
    the ports are disjoint and hold exactly the callbacks added and not removed, in
    that order, each with a handler; and every call and every interrupt that may
    come next runs to its end, unless assertions are checked and the interrupt of a
    pin is asked for a second time. *)
Theorem gpio_driver_safe fuel es xs w :
  reach call other fuel es xs w -> (length es <= fuel)%nat ->
  wf w xs /\ forall e, permitted e xs w -> assertions_pass e w -> exists w', exec call other fuel e w = Some w'.
Proof.
  intros Hr Hf. destruct (reach_wf fuel es xs w Hr Hf) as [Hwf Hn]. split; [done|].
  intros e He Ha. destruct (step_ok fuel (length es) e w xs Hwf Hn Hf He Ha) as (w' & E & _). by exists w'.
Qed.
End Safety.

(** A button on pin 13 of port C, with its callback; an edge has set the line pending. *)
Definition boot_world : world (list Z) :=
  mk_world reset_chip (mk_afio 0 0 0 0 0 0 0) (mk_exti 0 0 0 0 0 0) (fun _ => false)
    (repeat (mk_cb None 0) 19) (fun _ => mk_data 0 SList.sys_slist_init) (fun _ => None) (fun _ => mk_callback None 0) [].

Definition button_events : list event :=
  [Edge 13; EnableCallback 2 13; AddCallback 2 1%positive; InitCallback 1%positive 71 (2 ^ 13);
   Configure 2 13 (GPIO_INT + GPIO_INT_EDGE)].

(** The handler that disables the callbacks of pin 13 of its port, as the driver of a
    sensor does (hts221_trigger.c), and tells the application. *)
Definition disable_and_record h dev c pins (w : world (list Z)) : option (world (list Z)) :=
  if (0 <=? dev) && (dev <=? 4) then record_call h dev c pins w else Some w.

Lemma disable_and_record_acts h dev c pins xs w :
  wf w xs -> exists w', disable_and_record h dev c pins w = Some w' /\ acts disable_and_record ignore xs w w'.
Proof.
  intros _. unfold disable_and_record at 1. destruct ((0 <=? dev) && (dev <=? 4)) eqn:Ed; [|exists w; split; [done|constructor]].
  bool_facts. eexists. split; [done|].
  eapply (acts_event _ _ _ (DisableCallback dev 13)); [done|split; lia|reflexivity|].
  eapply acts_app, acts_done.
Qed.

Lemma ignore_acts f line arg (xs : Z -> list SList.node) (w : world (list Z)) call :
  wf w xs -> exists w', ignore f line arg w = Some w' /\ acts call ignore xs w w'.
Proof. intros _. exists w. split; [done|constructor]. Qed.

Lemma gpio_driver_safe_witness :
  exists w w', reach disable_and_record ignore 5 button_events (<[2 := [1%positive]]> (fun _ => [])) w /\
    Z.testbit (imr (exti w)) 13 = true /\ exec disable_and_record ignore 5 (Interrupt 13) w = Some w' /\
    app w' = [71] /\ cb_pins (devices w' 2) = 0.
Proof.
  assert (booted boot_world) as Hb by (split; try done; intros; vm_compute; intuition discriminate).
  pose proof (reach_boot disable_and_record ignore 5 boot_world Hb) as R.
  eapply (reach_step _ _ _ _ _ _ (Configure 2 13 (GPIO_INT + GPIO_INT_EDGE))) in R; [|split; lia|reflexivity].
  eapply (reach_step _ _ _ _ _ _ (InitCallback 1%positive 71 (2 ^ 13))) in R; [|done|reflexivity].
  eapply (reach_step _ _ _ _ _ _ (AddCallback 2 1%positive)) in R;
    [|split_and!; [lia|lia|by eexists|intros d Hd; by apply elem_of_nil in Hd]|reflexivity].
  eapply (reach_step _ _ _ _ _ _ (EnableCallback 2 13)) in R; [|split; lia|reflexivity].
  eapply (reach_step _ _ _ _ _ _ (Edge 13)) in R; [|cbn [permitted]; lia|reflexivity].
  destruct (gpio_driver_safe disable_and_record ignore disable_and_record_acts
    (fun f line arg xs w => ignore_acts f line arg xs w disable_and_record) 5 _ _ _ R) as [Hwf Hnext]; [simpl; lia|].
  destruct (Hnext (Interrupt 13)) as [w' E]; [cbn [permitted]; lia|done|]. eexists _, w'. split; [exact R|].
  split; [by apply (wf_line _ _ Hwf 13 2)|]. split; [exact E|]. vm_compute in E. injection E as <-. split; reflexivity.
Defined.
