(* ===== verification/Stm32Clock.v ===== *)
(** * The clock tree (drivers/clock_control/stm32f10x_clock.c)

    The driver programs the oscillators, the PLL and the prescalers, and waits for
    the hardware to report that it is ready. The options of Kconfig are the class
    [ClockConfig]; the hardware behind the registers is the class [RccHardware],
    whose laws are those of the reference manual. Peripheral clocks are switched in
    [Stm32Gpio]. *)
From S2P Require Import Prelude Kernel BitField Stm32Gpio.
Import Stm32.

(** drivers/clock_control/Kconfig.stm32f10x, with the values it allows. *)
Class ClockConfig := {
  SYS_CLOCK_HW_CYCLES_PER_SEC : Z;
  SYSCLK_SRC_PLL : bool;
  SYSCLK_SRC_HSE : bool;
  PLL_SRC_HSI : bool;
  PLL_SRC_HSE : bool;
  HSE_BYPASS : bool;
  PLL_XTPRE : bool;
  PLL_MULTIPLIER : Z;
  AHB_PRESCALER : Z;
  APB1_PRESCALER : Z;
  APB2_PRESCALER : Z;
  cycles_range : 0 <= SYS_CLOCK_HW_CYCLES_PER_SEC < 2 ^ 32;
  sysclk_choice : SYSCLK_SRC_PLL && SYSCLK_SRC_HSE = false;
  pll_choice : xorb PLL_SRC_HSI PLL_SRC_HSE = SYSCLK_SRC_PLL /\ PLL_SRC_HSI && PLL_SRC_HSE = false;
  multiplier_range : 2 <= PLL_MULTIPLIER <= 16;
  ahb_values : AHB_PRESCALER ∈ [0; 2; 4; 8; 16; 64; 128; 256; 512];
  apb1_values : APB1_PRESCALER ∈ [0; 2; 4; 8; 16];
  apb2_values : APB2_PRESCALER ∈ [0; 2; 4; 8; 16]
}.

Module Rcc.

(** rcc_registers.h: the fields of RCC_CR and RCC_CFGR that are used. *)
Definition hsion (r : stm32f10x_rcc) : Z := slice (cr r) 0 1.
Definition hsirdy (r : stm32f10x_rcc) : Z := slice (cr r) 1 1.
Definition hseon (r : stm32f10x_rcc) : Z := slice (cr r) 16 1.
Definition hserdy (r : stm32f10x_rcc) : Z := slice (cr r) 17 1.
Definition hsebyp (r : stm32f10x_rcc) : Z := slice (cr r) 18 1.
Definition pllon (r : stm32f10x_rcc) : Z := slice (cr r) 24 1.
Definition pllrdy (r : stm32f10x_rcc) : Z := slice (cr r) 25 1.
Definition sw (r : stm32f10x_rcc) : Z := slice (cfgr r) 0 2.
Definition sws (r : stm32f10x_rcc) : Z := slice (cfgr r) 2 2.
Definition hpre (r : stm32f10x_rcc) : Z := slice (cfgr r) 4 4.
Definition ppre1 (r : stm32f10x_rcc) : Z := slice (cfgr r) 8 3.
Definition ppre2 (r : stm32f10x_rcc) : Z := slice (cfgr r) 11 3.
Definition pllsrc (r : stm32f10x_rcc) : Z := slice (cfgr r) 16 1.
Definition pllxtpre (r : stm32f10x_rcc) : Z := slice (cfgr r) 17 1.
Definition pllmul (r : stm32f10x_rcc) : Z := slice (cfgr r) 18 4.

(** Assigning to a field keeps as many bits as the field has. *)
Definition set_cr (sh v : Z) (r : stm32f10x_rcc) : stm32f10x_rcc :=
  mk_rcc (update (cr r) sh 1 (v `mod` 2 ^ 1)) (cfgr r) (cir r) (apb2rstr r) (apb1rstr r) (ahbenr r) (apb2enr r)
    (apb1enr r) (bdcr r) (csr r).
Definition set_cfgr (sh n v : Z) (r : stm32f10x_rcc) : stm32f10x_rcc :=
  mk_rcc (cr r) (update (cfgr r) sh n (v `mod` 2 ^ n)) (cir r) (apb2rstr r) (apb1rstr r) (ahbenr r) (apb2enr r)
    (apb1enr r) (bdcr r) (csr r).

Definition STM32F10X_RCC_CFG_SYSCLK_SRC_HSI : Z := 0.
Definition STM32F10X_RCC_CFG_SYSCLK_SRC_HSE : Z := 1.
Definition STM32F10X_RCC_CFG_SYSCLK_SRC_PLL : Z := 2.
Definition STM32F10X_RCC_CFG_PLL_SRC_HSI : Z := 0.
Definition STM32F10X_RCC_CFG_PLL_SRC_HSE : Z := 1.
Definition STM32F10X_RCC_CFG_PLL_XTPRE_DIV_0 : Z := 0.
Definition STM32F10X_RCC_CFG_PLL_XTPRE_DIV_2 : Z := 1.
Definition STM32F10X_FLASH_LATENCY_0 : Z := 0.
Definition STM32F10X_FLASH_LATENCY_1 : Z := 1.
Definition STM32F10X_FLASH_LATENCY_2 : Z := 2.

(** A map is a list of settings with their register values. *)
Fixpoint map_reg_val (map : list (Z * Z)) (val : Z) : Z :=
  match map with
  | [] => 0
  | (v, reg) :: map => if v =? val then reg else map_reg_val map val
  end.

Definition __apb_prescaler (prescaler : Z) : Z :=
  if prescaler =? 0 then 0 else map_reg_val [(0, 0); (2, 4); (4, 5); (8, 6); (16, 7)] prescaler.

Definition __ahb_prescaler (prescaler : Z) : Z :=
  if prescaler =? 0 then 0
  else map_reg_val [(0, 0); (2, 8); (4, 9); (8, 10); (16, 11); (64, 12); (128, 13); (256, 14); (512, 15)] prescaler.

Definition __pllmul (mul : Z) : Z := mul - 2.

Definition __get_apb_clock (ahb_clock prescaler : Z) : Z :=
  let prescaler := if prescaler =? 0 then 1 else prescaler in ahb_clock / prescaler.
End Rcc.
Import Rcc.

(** RM0008 7.2 and 7.3: what the hardware does between two reads of the registers.
    Only the ready flags and the status of the clock switch change; an oscillator
    that is on becomes ready, the PLL too once its source is, and stays so; the
    switch follows its setting when the clock selected is ready, each within
    [turns] reads. *)
Class RccHardware := {
  settle : stm32f10x_rcc -> stm32f10x_rcc;
  turns : nat;
  settle_cr r i : 0 <= i -> i <> 1 -> i <> 17 -> i <> 25 -> Z.testbit (cr (settle r)) i = Z.testbit (cr r) i;
  settle_cfgr r i : 0 <= i -> i <> 2 -> i <> 3 -> Z.testbit (cfgr (settle r)) i = Z.testbit (cfgr r) i;
  settle_enables r : apb1enr (settle r) = apb1enr r /\ apb2enr (settle r) = apb2enr r;
  hsi_stays r : hsion r = 1 -> hsirdy r = 1 -> hsirdy (settle r) = 1;
  hse_stays r : hseon r = 1 -> hserdy r = 1 -> hserdy (settle r) = 1;
  pll_stays r : pllon r = 1 -> pllrdy r = 1 -> pllrdy (settle r) = 1;
  hsi_starts r : hsion r = 1 -> exists n, (n < turns)%nat /\ hsirdy (Nat.iter (S n) settle r) = 1;
  hse_starts r : hseon r = 1 -> exists n, (n < turns)%nat /\ hserdy (Nat.iter (S n) settle r) = 1;
  pll_starts r : pllon r = 1 -> (if pllsrc r =? 0 then hsion r = 1 /\ hsirdy r = 1 else hseon r = 1 /\ hserdy r = 1) ->
    exists n, (n < turns)%nat /\ pllrdy (Nat.iter (S n) settle r) = 1;
  switch_follows r :
    (sw r = 0 /\ hsion r = 1 /\ hsirdy r = 1) \/ (sw r = 1 /\ hseon r = 1 /\ hserdy r = 1) \/
    (sw r = 2 /\ pllon r = 1 /\ pllrdy r = 1) ->
    exists n, (n < turns)%nat /\ sws (Nat.iter (S n) settle r) = sw r
}.

Module Clk.
Section Operations.
Context {CFG : ClockConfig} {HW : RccHardware}.
Implicit Types (r : stm32f10x_rcc) (fuel : nat) (acr : Z).

Definition __get_ahb_clock (sysclk : Z) : Z :=
  let sysclk_div := AHB_PRESCALER in
  let sysclk_div := if sysclk_div =? 0 then 1 else sysclk_div in sysclk / sysclk_div.

(** The return code and [*rate]. *)
Definition stm32f10x_clock_control_get_subsys_rate (subsys : Z) : Z * Z :=
  let prescaler := APB1_PRESCALER in
  let prescaler := if STM32F10X_CLOCK_APB2_BASE <? subsys then APB2_PRESCALER else prescaler in
  let ahb_clock := __get_ahb_clock SYS_CLOCK_HW_CYCLES_PER_SEC in
  (0, __get_apb_clock ahb_clock prescaler).

(** The access control register of the flash memory, whose low bits are the latency. *)
Definition __setup_flash acr : Z :=
  if SYS_CLOCK_HW_CYCLES_PER_SEC <=? 24000000 then update acr 0 3 STM32F10X_FLASH_LATENCY_0
  else if SYS_CLOCK_HW_CYCLES_PER_SEC <=? 48000000 then update acr 0 3 STM32F10X_FLASH_LATENCY_1
  else if SYS_CLOCK_HW_CYCLES_PER_SEC <=? 72000000 then update acr 0 3 STM32F10X_FLASH_LATENCY_2
  else acr.

(** [while (...) {}]: every turn reads the register again. *)
Fixpoint wait fuel (ready : stm32f10x_rcc -> bool) r : option stm32f10x_rcc :=
  match fuel with
  | O => None
  | S fuel => let r := settle r in if ready r then Some r else wait fuel ready r
  end.

(** The parts of the initialisation, in the order of the code. *)
Definition start_pll_source fuel r : option stm32f10x_rcc :=
  r ← (if PLL_SRC_HSI then
         let r := set_cr 0 1 r in
         r ← wait fuel (fun r => hsirdy r =? 1) r;
         Some (set_cfgr 16 1 STM32F10X_RCC_CFG_PLL_SRC_HSI r)
       else Some r);
  if PLL_SRC_HSE then
    let r := set_cr 16 1 r in
    r ← wait fuel (fun r => hserdy r =? 1) r;
    let r := set_cfgr 17 1 (if PLL_XTPRE then STM32F10X_RCC_CFG_PLL_XTPRE_DIV_2
                            else STM32F10X_RCC_CFG_PLL_XTPRE_DIV_0) r in
    Some (set_cfgr 16 1 STM32F10X_RCC_CFG_PLL_SRC_HSE r)
  else Some r.

Definition start_sysclk_source fuel r : option (Z * stm32f10x_rcc) :=
  if SYSCLK_SRC_PLL then
    let r := set_cfgr 18 4 (__pllmul PLL_MULTIPLIER) r in
    let r := set_cr 24 1 r in
    r ← wait fuel (fun r => pllrdy r =? 1) r;
    Some (STM32F10X_RCC_CFG_SYSCLK_SRC_PLL, r)
  else if SYSCLK_SRC_HSE then
    let r := set_cr 16 1 r in
    r ← wait fuel (fun r => hserdy r =? 1) r;
    Some (STM32F10X_RCC_CFG_SYSCLK_SRC_HSE, r)
  else Some (STM32F10X_RCC_CFG_SYSCLK_SRC_HSI, r).

Definition set_prescalers r : stm32f10x_rcc :=
  set_cfgr 11 3 (__apb_prescaler APB2_PRESCALER)
    (set_cfgr 8 3 (__apb_prescaler APB1_PRESCALER) (set_cfgr 4 4 (__ahb_prescaler AHB_PRESCALER) r)).

Definition stm32f10x_clock_control_init fuel r acr : option (Z * stm32f10x_rcc * Z) :=
  let r := set_cr 24 0 r in
  let r := set_cr 16 0 r in
  let r := if HSE_BYPASS then set_cr 18 1 r else r in
  r ← start_pll_source fuel r;
  let r := set_prescalers r in
  '(sysclk_src, r) ← start_sysclk_source fuel r;
  let acr := __setup_flash acr in
  let r := set_cfgr 0 2 sysclk_src r in
  r ← wait fuel (fun r => sws r =? sysclk_src) r;
  Some (0, r, acr).
End Operations.
End Clk.
Import Clk.

(** ** Fields and waiting *)

(** Reads a field of a register after assignments to fields. *)
Ltac field_side := first [lia | apply Z.mod_pos_bound; apply Z.pow_pos_nonneg; lia].
Ltac fields :=
  unfold hsion, hsirdy, hseon, hserdy, hsebyp, pllon, pllrdy, sw, sws, hpre, ppre1, ppre2, pllsrc, pllxtpre, pllmul in *;
  cbn [set_cr set_cfgr cr cfgr apb1enr apb2enr] in *;
  repeat match goal with
    | |- context [slice (update ?r ?sh ?n ?v) ?sh ?n] => rewrite (slice_update r sh n v) by field_side
    | |- context [slice (update ?r ?sh ?n ?v) ?sh' ?n'] => rewrite (slice_update_ne r sh n v sh' n') by field_side
    | H : context [slice (update ?r ?sh ?n ?v) ?sh ?n] |- _ => rewrite (slice_update r sh n v) in H by field_side
    | H : context [slice (update ?r ?sh ?n ?v) ?sh' ?n'] |- _ =>
        rewrite (slice_update_ne r sh n v sh' n') in H by field_side
    end.

Section Waiting.
Context {CFG : ClockConfig} {HW : RccHardware}.
Implicit Types (r : stm32f10x_rcc) (fuel : nat).

(** What does not change while the hardware is left alone. *)
Record after r r' : Prop := {
  af_hsion : hsion r' = hsion r;
  af_hseon : hseon r' = hseon r;
  af_pllon : pllon r' = pllon r;
  af_sw : sw r' = sw r;
  af_hpre : hpre r' = hpre r;
  af_ppre1 : ppre1 r' = ppre1 r;
  af_ppre2 : ppre2 r' = ppre2 r;
  af_pllsrc : pllsrc r' = pllsrc r;
  af_pllxtpre : pllxtpre r' = pllxtpre r;
  af_pllmul : pllmul r' = pllmul r;
  af_enables : apb1enr r' = apb1enr r /\ apb2enr r' = apb2enr r;
  af_hsirdy : hsion r = 1 -> hsirdy r = 1 -> hsirdy r' = 1;
  af_hserdy : hseon r = 1 -> hserdy r = 1 -> hserdy r' = 1;
  af_pllrdy : pllon r = 1 -> pllrdy r = 1 -> pllrdy r' = 1
}.

Lemma after_settle r : after r (settle r).
Proof.
  split; try (unfold hsion, hseon, pllon, sw, hpre, ppre1, ppre2, pllsrc, pllxtpre, pllmul; apply slice_ext; [lia|lia|];
    intros i Hi; (apply settle_cr || apply settle_cfgr); lia).
  - apply settle_enables.
  - apply hsi_stays.
  - apply hse_stays.
  - apply pll_stays.
Qed.

Lemma after_trans r1 r2 r3 : after r1 r2 -> after r2 r3 -> after r1 r3.
Proof.
  intros [] []. split; try congruence; [by split; destruct_and!; congruence|..];
    intros Ha Hb; eauto with congruence.
Qed.

Lemma after_iter n r : after r (Nat.iter (S n) settle r).
Proof.
  induction n as [|n IH]; [apply after_settle|]. exact (after_trans _ _ _ IH (after_settle _)).
Qed.

(** A loop that waits for something the hardware does within [turns] reads ends. *)
Lemma wait_ok fuel ready r :
  (exists n, (n < turns)%nat /\ ready (Nat.iter (S n) settle r) = true) -> (turns <= fuel)%nat ->
  exists r', wait fuel ready r = Some r' /\ ready r' = true /\ after r r'.
Proof.
  intros (n & Hn & Hr) Hf. assert (n < fuel)%nat as Hnf by lia. clear Hn Hf. revert r n Hr Hnf.
  induction fuel as [|fuel IH]; intros r n Hr Hn; [lia|]. cbn [wait].
  destruct (ready (settle r)) eqn:E; [exists (settle r); eauto using after_settle|].
  destruct n as [|n]; [by rewrite (Hr : ready (settle r) = true) in E|].
  destruct (IH (settle r) n) as (r' & Ew & Hr' & Ha); [|lia|].
  - by rewrite <- Nat.iter_succ_r.
  - exists r'. split_and!; [done..|]. exact (after_trans _ _ _ (after_settle r) Ha).
Qed.
End Waiting.

(** ** The clock tree that is programmed *)
Section Frequencies.
Implicit Types (r : stm32f10x_rcc) (hse : Z).

(** RM0008 7.2 (figure 8) and 7.3.2, with an external oscillator of [hse] Hz and the
    internal one of 8 MHz: the frequencies the registers select. *)
Definition pll_input hse r : Z :=
  if pllsrc r =? 0 then 4000000 else if pllxtpre r =? 1 then hse / 2 else hse.
Definition sysclk_hz hse r : Z :=
  if sws r =? 0 then 8000000 else if sws r =? 1 then hse else pll_input hse r * Z.min (pllmul r + 2) 16.
Definition ahb_div (f : Z) : Z := nth (Z.to_nat f) [1; 1; 1; 1; 1; 1; 1; 1; 2; 4; 8; 16; 64; 128; 256; 512] 0.
Definition apb_div (f : Z) : Z := nth (Z.to_nat f) [1; 1; 1; 1; 2; 4; 8; 16] 0.
Definition bus_hz hse r (apb2 : bool) : Z :=
  sysclk_hz hse r / ahb_div (hpre r) / apb_div (if apb2 then ppre2 r else ppre1 r).

Lemma ahb_prescaler_ok p :
  p ∈ [0; 2; 4; 8; 16; 64; 128; 256; 512] ->
  0 <= __ahb_prescaler p < 16 /\ ahb_div (__ahb_prescaler p) = if p =? 0 then 1 else p.
Proof. rewrite !elem_of_cons, elem_of_nil. intros Hp. destruct_or!; subst; done. Qed.

Lemma apb_prescaler_ok p :
  p ∈ [0; 2; 4; 8; 16] -> 0 <= __apb_prescaler p < 8 /\ apb_div (__apb_prescaler p) = if p =? 0 then 1 else p.
Proof. rewrite !elem_of_cons, elem_of_nil. intros Hp. destruct_or!; subst; done. Qed.
End Frequencies.

Section Init.
Context {CFG : ClockConfig} {HW : RccHardware}.
Implicit Types (r : stm32f10x_rcc) (fuel : nat) (hse acr : Z).

(** The frequency the options ask for. *)
Definition configured_hz hse : Z :=
  if SYSCLK_SRC_PLL then
    (if PLL_SRC_HSI then 4000000 else if PLL_XTPRE then hse / 2 else hse) * PLL_MULTIPLIER
  else if SYSCLK_SRC_HSE then hse else 8000000.

Definition enables r : Z * Z := (apb1enr r, apb2enr r).

(** The source of the PLL is running and selected. *)
Definition pll_source_ready r : Prop :=
  if PLL_SRC_HSI then pllsrc r = 0
  else PLL_SRC_HSE = true -> hseon r = 1 /\ hserdy r = 1 /\ pllsrc r = 1 /\ pllxtpre r = b2z PLL_XTPRE.

Definition hsi_running r : Prop := hsion r = 1 /\ hsirdy r = 1.

Lemma start_pll_source_ok fuel r :
  hsi_running r -> (turns <= fuel)%nat ->
  exists r', start_pll_source fuel r = Some r' /\ hsi_running r' /\ pll_source_ready r' /\ enables r' = enables r.
Proof.
  intros [Hon Hrdy] Hf. unfold start_pll_source, pll_source_ready, hsi_running, enables.
  destruct pll_choice as [_ Hone]. destruct PLL_SRC_HSI; cbn [andb] in Hone; cbn [mbind option_bind].
  - rewrite Hone. destruct (wait_ok fuel (fun r => hsirdy r =? 1) (set_cr 0 1 r)) as (r1 & -> & Er & Ha); [|done|].
    { destruct (hsi_starts (set_cr 0 1 r)) as (n & Hn & E); [by fields|]. exists n. by rewrite E. }
    apply Z.eqb_eq in Er. cbn [mbind option_bind]. eexists. split; [done|].
    destruct Ha as [A1 _ _ _ _ _ _ _ _ _ [E1 E2] _ _ _]. split_and!; fields; try done. by rewrite E1, E2.
  - destruct PLL_SRC_HSE; [|by exists r].
    destruct (wait_ok fuel (fun r => hserdy r =? 1) (set_cr 16 1 r)) as (r1 & -> & Er & Ha); [|done|].
    { destruct (hse_starts (set_cr 16 1 r)) as (n & Hn & E); [by fields|]. exists n. by rewrite E. }
    apply Z.eqb_eq in Er. cbn [mbind option_bind]. eexists. split; [done|].
    destruct Ha as [A1 A2 _ _ _ _ _ _ _ _ [E1 E2] A3 _ _]. split_and!; fields.
    + congruence.
    + by apply A3.
    + intros _. split_and!; fields; try done. by destruct PLL_XTPRE.
    + by rewrite E1, E2.
Qed.

(** The prescalers are programmed as the options ask. *)
Definition prescaled r : Prop :=
  hpre r = __ahb_prescaler AHB_PRESCALER /\ ppre1 r = __apb_prescaler APB1_PRESCALER /\
  ppre2 r = __apb_prescaler APB2_PRESCALER.

Lemma set_prescalers_ok r :
  let r' := set_prescalers r in
  prescaled r' /\ (hsi_running r -> hsi_running r') /\ (pll_source_ready r -> pll_source_ready r') /\
  enables r' = enables r.
Proof.
  cbn zeta. destruct (ahb_prescaler_ok _ ahb_values) as [R0 _], (apb_prescaler_ok _ apb1_values) as [R1 _],
    (apb_prescaler_ok _ apb2_values) as [R2 _].
  unfold prescaled, hsi_running, pll_source_ready, enables, set_prescalers.
  split_and!; fields; try done; rewrite Z.mod_small; done || lia.
Qed.

(** The clock selected is running, with the frequency asked for. *)
Definition selected (src : Z) r : Prop :=
  (src = 0 /\ hsi_running r /\ SYSCLK_SRC_PLL = false /\ SYSCLK_SRC_HSE = false) \/
  (src = 1 /\ hseon r = 1 /\ hserdy r = 1 /\ SYSCLK_SRC_PLL = false /\ SYSCLK_SRC_HSE = true) \/
  (src = 2 /\ pllon r = 1 /\ pllrdy r = 1 /\ SYSCLK_SRC_PLL = true /\ pllmul r = PLL_MULTIPLIER - 2 /\
   (if PLL_SRC_HSI then pllsrc r = 0 else pllsrc r = 1 /\ pllxtpre r = b2z PLL_XTPRE)).

Lemma start_sysclk_source_ok fuel r :
  hsi_running r -> pll_source_ready r -> prescaled r -> (turns <= fuel)%nat ->
  exists src r', start_sysclk_source fuel r = Some (src, r') /\ selected src r' /\ prescaled r' /\
    enables r' = enables r.
Proof.
  intros [Hon Hrdy] Hsrc (D1 & D2 & D3) Hf. unfold start_sysclk_source, selected, prescaled, enables, hsi_running in *.
  pose proof multiplier_range as Hm. destruct SYSCLK_SRC_PLL eqn:Epll.
  - set (r0 := set_cr 24 1 (set_cfgr 18 4 (__pllmul PLL_MULTIPLIER) r)).
    destruct (wait_ok fuel (fun r => pllrdy r =? 1) r0) as (r1 & -> & Er & Ha); [|done|].
    { destruct (pll_starts r0) as (n & Hn & E); [unfold r0; by fields| |exists n; by rewrite E].
      destruct pll_choice as [Hx _]. rewrite Epll in Hx. unfold pll_source_ready in Hsrc. unfold r0.
      destruct PLL_SRC_HSI; [|destruct PLL_SRC_HSE; [|done]]; fields.
      - by rewrite Hsrc.
      - by destruct (Hsrc eq_refl) as (-> & -> & -> & _). }
    apply Z.eqb_eq in Er. cbn [mbind option_bind]. exists 2, r1. split; [done|].
    destruct Ha as [_ _ A1 _ A2 A3 A4 A5 A6 A7 [E1 E2] _ _ _]. unfold r0 in *. fields.
    split_and!; try congruence.
    + right; right. rewrite A1, Er, A7. unfold __pllmul. rewrite (Z.mod_small (PLL_MULTIPLIER - 2)) by lia.
      split_and!; try done. destruct pll_choice as [Hx _]. rewrite Epll in Hx. unfold pll_source_ready in Hsrc.
      destruct PLL_SRC_HSI; [by rewrite A5|]. destruct PLL_SRC_HSE; [|done].
      destruct (Hsrc eq_refl) as (_ & _ & H3 & H4). fields. by rewrite A5, A6.
  - destruct SYSCLK_SRC_HSE eqn:Ehse; [|exists 0, r; split; [done|]; split; [by left|done]].
    destruct (wait_ok fuel (fun r => hserdy r =? 1) (set_cr 16 1 r)) as (r1 & -> & Er & Ha); [|done|].
    { destruct (hse_starts (set_cr 16 1 r)) as (n & Hn & E); [by fields|]. exists n. by rewrite E. }
    apply Z.eqb_eq in Er. cbn [mbind option_bind]. exists 1, r1. split; [done|].
    destruct Ha as [_ A1 _ _ A2 A3 A4 _ _ _ [E1 E2] _ _ _]. fields. split_and!; try congruence.
    right; left. by rewrite A1, Er.
Qed.

Lemma selected_frequency hse src r r' :
  selected src r -> sws r' = src -> pllsrc r' = pllsrc r -> pllxtpre r' = pllxtpre r -> pllmul r' = pllmul r ->
  sysclk_hz hse r' = configured_hz hse.
Proof.
  intros Hs Esw E1 E2 E3. pose proof multiplier_range as Hm. unfold sysclk_hz, configured_hz, pll_input.
  rewrite Esw, E1, E2, E3. destruct Hs as [(-> & _ & -> & ->)|[(-> & _ & _ & -> & ->)|(-> & _ & _ & -> & -> & Hsrc)]];
    [done|done|]. cbn [Z.eqb Pos.eqb]. replace (Z.min (PLL_MULTIPLIER - 2 + 2) 16) with PLL_MULTIPLIER by lia.
  f_equal. destruct PLL_SRC_HSI; [by rewrite Hsrc|]. destruct Hsrc as [-> ->]. by destruct PLL_XTPRE.
Qed.

(** C39: initialising the clocks, for every configuration that Kconfig allows and
    hardware that becomes ready within a bounded number of reads. The waiting loops
    end; the system clock then runs at the frequency configured, the buses at the
    rates that the driver reports for their peripherals, the flash memory has the
    latency that the frequency needs, and no peripheral clock has changed. *)
Theorem clock_init_correct fuel hse r acr :
  hsi_running r -> (turns <= fuel)%nat -> SYS_CLOCK_HW_CYCLES_PER_SEC = configured_hz hse ->
  exists r' acr', stm32f10x_clock_control_init fuel r acr = Some (0, r', acr') /\
    sysclk_hz hse r' = SYS_CLOCK_HW_CYCLES_PER_SEC /\
    (forall subsys, stm32f10x_clock_control_get_subsys_rate subsys = (0, bus_hz hse r' (on_apb2 subsys))) /\
    (SYS_CLOCK_HW_CYCLES_PER_SEC <= 72000000 ->
       slice acr' 0 3 = if SYS_CLOCK_HW_CYCLES_PER_SEC <=? 24000000 then 0
                        else if SYS_CLOCK_HW_CYCLES_PER_SEC <=? 48000000 then 1 else 2) /\
    enables r' = enables r.
Proof.
  intros Hhsi Hf Hcfg. unfold stm32f10x_clock_control_init.
  set (r0 := if HSE_BYPASS then _ else _).
  assert (H0 : hsi_running r0 /\ enables r0 = enables r)
    by (unfold r0, hsi_running, enables in *; destruct HSE_BYPASS; split_and!; fields; done || apply Hhsi).
  clearbody r0. destruct H0 as [H0 E0].
  destruct (start_pll_source_ok fuel r0 H0 Hf) as (r1 & -> & H1 & P1 & E1). cbn [mbind option_bind].
  destruct (set_prescalers_ok r1) as (D2 & H2 & P2 & E2). set (r2 := set_prescalers r1) in *. clearbody r2.
  destruct (start_sysclk_source_ok fuel r2 (H2 H1) (P2 P1) D2 Hf) as (src & r3 & -> & S3 & D3 & E3).
  cbn [mbind option_bind]. set (r4 := set_cfgr 0 2 src r3).
  assert (Esw : sw r4 = src).
  { unfold r4. fields. apply Z.mod_small. destruct S3 as [[-> _]|[[-> _]|[-> _]]]; lia. }
  destruct (wait_ok fuel (fun r => sws r =? src) r4) as (r5 & -> & Er & Ha); [|done|].
  { destruct (switch_follows r4) as (n & Hn & E); [|exists n; split; [done|]; apply Z.eqb_eq; congruence].
    rewrite Esw. unfold r4, selected, hsi_running in *. fields. naive_solver. }
  apply Z.eqb_eq in Er. cbn [mbind option_bind]. exists r5, (__setup_flash acr). split; [done|].
  destruct Ha as [_ _ _ _ A1 A2 A3 A4 A5 A6 [A7 A8] _ _ _]. unfold r4 in *. unfold enables in *. fields.
  assert (Efreq : sysclk_hz hse r5 = SYS_CLOCK_HW_CYCLES_PER_SEC) by (rewrite Hcfg; by apply (selected_frequency hse src r3)).
  split_and!; [done| | |congruence].
  - intros subsys. unfold stm32f10x_clock_control_get_subsys_rate, __get_ahb_clock, __get_apb_clock, bus_hz.
    fold (on_apb2 subsys). rewrite Efreq. destruct D3 as (D31 & D32 & D33). fields. rewrite A1, A2, A3, D31, D32, D33.
    rewrite (proj2 (ahb_prescaler_ok _ ahb_values)).
    destruct (on_apb2 subsys);
      [by rewrite (proj2 (apb_prescaler_ok _ apb2_values))|by rewrite (proj2 (apb_prescaler_ok _ apb1_values))].
  - intros H72. unfold __setup_flash. rewrite (proj2 (Z.leb_le _ 72000000) H72).
    destruct (_ <=? 24000000); [|destruct (_ <=? 48000000)]; apply slice_update; by vm_compute.
Qed.
End Init.

(** ** The board

    An oscillator of the hardware below is ready at the next read. The options are
    those of boards/arm/jasontek_f103rb: the PLL multiplies half of the internal
    oscillator by 16. *)
Definition ready_at_once (r : stm32f10x_rcc) : stm32f10x_rcc :=
  set_cfgr 2 2 (sw r) (set_cr 25 (pllon r) (set_cr 17 (hseon r) (set_cr 1 (hsion r) r))).

Lemma update_other (r sh n v i : Z) :
  0 <= sh -> 0 <= n -> 0 <= i -> i < sh \/ sh + n <= i -> Z.testbit (update r sh n (v `mod` 2 ^ n)) i = Z.testbit r i.
Proof.
  intros Hsh Hn Hi Hd. rewrite update_bit by first [lia|apply Z.mod_pos_bound; apply Z.pow_pos_nonneg; lia].
  destruct (Z.leb_spec sh i), (Z.ltb_spec i (sh + n)); cbn [andb]; done || lia.
Qed.

Lemma ready_now r :
  hsirdy (ready_at_once r) = hsion r /\ hserdy (ready_at_once r) = hseon r /\ pllrdy (ready_at_once r) = pllon r /\
  sws (ready_at_once r) = sw r.
Proof.
  unfold ready_at_once. fields.
  split_and!; rewrite Z.mod_small; try done; apply slice_range; lia.
Qed.

Lemma ready_cr r i :
  0 <= i -> i <> 1 -> i <> 17 -> i <> 25 -> Z.testbit (cr (ready_at_once r)) i = Z.testbit (cr r) i.
Proof. intros. unfold ready_at_once. cbn [set_cr set_cfgr cr]. by rewrite !update_other by lia. Qed.

Lemma ready_cfgr r i :
  0 <= i -> i <> 2 -> i <> 3 -> Z.testbit (cfgr (ready_at_once r)) i = Z.testbit (cfgr r) i.
Proof. intros. unfold ready_at_once. cbn [set_cr set_cfgr cfgr]. by rewrite update_other by lia. Qed.

Lemma ready_next (P : stm32f10x_rcc -> Prop) r :
  P (ready_at_once r) -> exists n, (n < 1)%nat /\ P (Nat.iter (S n) ready_at_once r).
Proof. intros HP. exists 0%nat. split; [lia|done]. Qed.

#[global] Program Instance ready_hardware : RccHardware := {| settle := ready_at_once; turns := 1 |}.
Next Obligation. intros. by apply ready_cr. Qed.
Next Obligation. intros. by apply ready_cfgr. Qed.
Next Obligation. done. Qed.
Next Obligation. intros r Hon _. by rewrite (proj1 (ready_now r)). Qed.
Next Obligation. intros r Hon _. by rewrite (proj1 (proj2 (ready_now r))). Qed.
Next Obligation. intros r Hon _. by rewrite (proj1 (proj2 (proj2 (ready_now r)))). Qed.
Next Obligation. intros r Hon. apply (ready_next (fun r => hsirdy r = 1)). by rewrite (proj1 (ready_now r)). Qed.
Next Obligation. intros r Hon. apply (ready_next (fun r => hserdy r = 1)). by rewrite (proj1 (proj2 (ready_now r))). Qed.
Next Obligation.
  intros r Hon _. apply (ready_next (fun r => pllrdy r = 1)). by rewrite (proj1 (proj2 (proj2 (ready_now r)))).
Qed.
Next Obligation. intros r _. apply (ready_next (fun r' => sws r' = sw r)). apply ready_now. Qed.

#[global] Program Instance jasontek_f103rb : ClockConfig := {|
  SYS_CLOCK_HW_CYCLES_PER_SEC := 64000000;
  SYSCLK_SRC_PLL := true; SYSCLK_SRC_HSE := false; PLL_SRC_HSI := true; PLL_SRC_HSE := false;
  HSE_BYPASS := false; PLL_XTPRE := false; PLL_MULTIPLIER := 16;
  AHB_PRESCALER := 0; APB1_PRESCALER := 2; APB2_PRESCALER := 0
|}.
Next Obligation. done. Qed.
Next Obligation. done. Qed.
Next Obligation. done. Qed.
Next Obligation. done. Qed.
Next Obligation. by left. Qed.
Next Obligation. by right; left. Qed.
Next Obligation. by left. Qed.

(** The bus of the slow peripherals, which allows 36 MHz, runs at 32 MHz. *)
Lemma clock_init_correct_witness :
  exists r' acr', stm32f10x_clock_control_init 1 reset_rcc 0 = Some (0, r', acr') /\
    sysclk_hz 0 r' = 64000000 /\ bus_hz 0 r' false = 32000000 /\ slice acr' 0 3 = 2.
Proof.
  destruct (clock_init_correct 1 0 reset_rcc 0) as (r' & acr' & E & Ef & Eb & Ea & _).
  - split; reflexivity.
  - apply le_n.
  - reflexivity.
  - exists r', acr'. split; [exact E|]. split; [exact Ef|]. specialize (Eb 0). specialize (Ea ltac:(discriminate)).
    split; [|exact Ea]. exact (eq_sym (f_equal snd Eb)).
Defined.
