(* ===== verification/Zoap.v ===== *)
(** * CoAP packets and exchanges (lib/iot/zoap/zoap.c, zoap.h)

    The messages of the Constrained Application Protocol in network buffers:
    header, token, options and payload; requests waiting for an acknowledgment,
    handlers of replies, observers of resources, the choice of the method of a
    request, and block-wise transfers.

    A network buffer is named by its address; its bytes are in the byte memory of
    LibcString. A packet points to a buffer, whose first fragment holds the
    message. Sizes have the widths of the code ([size_t] has 32 bits). [option]
    is a null pointer followed, or fuel that ran out in a loop over the options
    of a packet. An array of the code is a list, an element of it its index, and a
    local array has its address as an argument. [memcpy] and [fill] are the
    functions that LibcString proves the C library's [memcpy] and [memset] to be
    equal to. *)
From S2P Require Import Prelude Kernel LibcString Bytes.

Module Zoap.

(** lib/libc/minimal/include/errno.h *)
Definition ENOENT : Z := 2.

(** ** Network buffers (include/net/buf.h, subsys/net/buf.c) *)
Record net_buf := mk_net_buf {
  nb_frags : Z;
  nb_data : Z;
  nb_len : Z;
  nb_size : Z;
  nb_buf : Z
}.

Record net := mk_net { mem : memory; bufs : Z -> net_buf }.

Definition on_mem (f : memory -> memory) (w : net) : net := mk_net (f (mem w)) (bufs w).
Definition set_nb_len (n : Z) (b : net_buf) : net_buf :=
  mk_net_buf (nb_frags b) (nb_data b) n (nb_size b) (nb_buf b).
Definition set_len (b n : Z) (w : net) : net :=
  mk_net (mem w) (<[b := set_nb_len (u16 n) (bufs w b)]> (bufs w)).

Definition net_buf_simple_tail (b : net_buf) : Z := nb_data b + nb_len b.
Definition net_buf_simple_headroom (b : net_buf) : Z := u32 (nb_data b - nb_buf b).
Definition net_buf_simple_tailroom (b : net_buf) : Z :=
  u32 (nb_size b - net_buf_simple_headroom b - nb_len b).
Definition net_buf_add (b n : Z) (w : net) : Z * net :=
  (net_buf_simple_tail (bufs w b), set_len b (nb_len (bufs w b) + n) w).

(** include/misc/byteorder.h *)
Definition sys_get_be16 (m : memory) (a : Z) : Z := u16 (Z.lor (Z.shiftl (m a) 8) (m (a + 1))).
Definition sys_put_be16 (v dst : Z) (m : memory) : memory :=
  <[dst + 1 := u8 v]> (<[dst := u8 (Z.shiftr (u16 v) 8)]> m).
Definition sys_put_be32 (v dst : Z) (m : memory) : memory :=
  sys_put_be16 v (dst + 2) (sys_put_be16 (Z.shiftr (u32 v) 16) dst m).

(** ** Packets *)
Record zoap_packet := mk_packet { pk_buf : Z; pk_start : Z }.
Record zoap_option := mk_option { op_value : Z; op_len : Z }.
Record option_context := mk_context { oc_buf : Z; oc_delta : Z; oc_used : Z; oc_buflen : Z }.

Definition COAP_MARKER : Z := 255.
Definition BASIC_HEADER_SIZE : Z := 4.

Definition ZOAP_OPTION_OBSERVE : Z := 6.
Definition ZOAP_OPTION_URI_PATH : Z := 11.
Definition ZOAP_OPTION_CONTENT_FORMAT : Z := 12.
Definition ZOAP_OPTION_URI_QUERY : Z := 15.
Definition ZOAP_OPTION_BLOCK2 : Z := 23.
Definition ZOAP_OPTION_BLOCK1 : Z := 27.
Definition ZOAP_OPTION_SIZE2 : Z := 28.
Definition ZOAP_OPTION_SIZE1 : Z := 60.
Definition ZOAP_METHOD_GET : Z := 1.
Definition ZOAP_METHOD_POST : Z := 2.
Definition ZOAP_METHOD_PUT : Z := 3.
Definition ZOAP_METHOD_DELETE : Z := 4.
Definition ZOAP_REQUEST_MASK : Z := 7.
Definition ZOAP_CODE_EMPTY : Z := 0.
Definition zoap_make_response_code (clas det : Z) : Z := Z.lor (Z.shiftl clas 5) det.

Section Packets.
Implicit Types (w : net) (m : memory) (pkt : zoap_packet) (c : option_context).

Definition frag_addr w pkt : Z := nb_frags (bufs w (pk_buf pkt)).
Definition frag w pkt : net_buf := bufs w (frag_addr w pkt).
Definition appdata w pkt : Z := nb_data (frag w pkt).

(** *** Options *)
Definition coap_option_header_get_delta (b : Z) : Z := Z.shiftr (Z.land b 240) 4.
Definition coap_option_header_get_len (b : Z) : Z := Z.land b 15.
Definition coap_option_header_set_delta (a delta : Z) m : memory :=
  <[a := u8 (Z.shiftl (Z.land delta 15) 4)]> m.
Definition coap_option_header_set_len (a n : Z) m : memory :=
  <[a := u8 (Z.lor (m a) (Z.land n 15))]> m.

(** The length of the extension and the number decoded; [None] is -EINVAL. *)
Definition decode_delta m (num buf buflen : Z) : option (Z * Z) :=
  if num =? 13 then
    if buflen <? 1 then None else Some (1, u16 (m buf + 13))
  else if num =? 14 then
    if buflen <? 2 then None else Some (2, u16 (sys_get_be16 m buf + 269))
  else if num =? 15 then None
  else Some (0, u16 num).

(** [context->buf += n; context->used += n; context->buflen -= n] *)
Definition ctx_advance (n : Z) c : option_context :=
  mk_context (oc_buf c + n) (oc_delta c) (oc_used c + n) (oc_buflen c - n).
Definition add_delta (d : Z) c : option_context :=
  mk_context (oc_buf c) (oc_delta c + d) (oc_used c) (oc_buflen c).

(** The return value, the context, and what is stored through [value] and
    [vlen]. *)
Definition coap_parse_option m c : Z * option_context * option zoap_option :=
  if oc_buflen c <? 1 then (0, c, None)
  else if m (oc_buf c) =? COAP_MARKER then (0, c, None)
  else
    let delta := coap_option_header_get_delta (m (oc_buf c)) in
    let len := coap_option_header_get_len (m (oc_buf c)) in
    let c := ctx_advance 1 c in
    match decode_delta m delta (oc_buf c) (wrap_s 16 (oc_buflen c)) with
    | None => (- EINVAL, c, None)
    | Some (r, delta) =>
        let c := ctx_advance r c in
        match decode_delta m len (oc_buf c) (wrap_s 16 (oc_buflen c)) with
        | None => (- EINVAL, c, None)
        | Some (r, len) =>
            if oc_buflen c <? r + len then (- EINVAL, c, None)
            else
              let value := oc_buf c + r in
              let c := add_delta delta (ctx_advance (r + len) c) in
              (oc_used c, c, Some (mk_option value len))
        end
    end.

Fixpoint parse_options_loop (fuel : nat) m c : option Z :=
  match fuel with
  | O => None
  | S fuel =>
      let '(r, c, _) := coap_parse_option m c in
      if r <? 0 then Some (- EINVAL)
      else if r =? 0 then Some (oc_used c)
      else parse_options_loop fuel m c
  end.

Definition coap_parse_options (fuel : nat) w pkt (offset : Z) : option Z :=
  let f := frag w pkt in
  parse_options_loop fuel (mem w)
    (mk_context (nb_data f + offset) 0 0 (i32 (nb_len f - offset))).

(** *** Header *)
Definition coap_header_get_tkl w pkt : Z := Z.land (mem w (appdata w pkt)) 15.

Definition coap_get_header_len w pkt : Z :=
  let len := nb_len (frag w pkt) in
  if len <? BASIC_HEADER_SIZE then - EINVAL
  else
    let tkl := coap_header_get_tkl w pkt in
    if 8 <? tkl then - EINVAL
    else if len <? BASIC_HEADER_SIZE + tkl then - EINVAL
    else BASIC_HEADER_SIZE + tkl.

Definition zoap_header_get_version w pkt : Z := Z.shiftr (Z.land (mem w (appdata w pkt)) 192) 6.
Definition zoap_header_get_type w pkt : Z := Z.shiftr (Z.land (mem w (appdata w pkt)) 48) 4.
Definition coap_header_get_code w pkt : Z := mem w (appdata w pkt + 1).

(** The token, null when it is empty, and its length. *)
Definition zoap_header_get_token w pkt : Z * Z :=
  let tkl := coap_header_get_tkl w pkt in
  if tkl =? 0 then (0, 0) else (appdata w pkt + BASIC_HEADER_SIZE, tkl).

(** The methods, the response codes and the empty code *)
Definition known_codes : list Z :=
  [ZOAP_METHOD_GET; ZOAP_METHOD_POST; ZOAP_METHOD_PUT; ZOAP_METHOD_DELETE] ++
  (zoap_make_response_code 2 <$> [0; 1; 2; 3; 4; 5]) ++
  (zoap_make_response_code 4 <$> [0; 1; 2; 3; 4; 5; 6; 12; 13]) ++
  (zoap_make_response_code 5 <$> [0; 1; 2; 3; 4; 5]) ++ [ZOAP_CODE_EMPTY].

Definition zoap_header_get_code w pkt : Z :=
  let code := coap_header_get_code w pkt in
  if bool_decide (code ∈ known_codes) then code else ZOAP_CODE_EMPTY.

Definition zoap_header_get_id w pkt : Z := sys_get_be16 (mem w) (appdata w pkt + 2).

(** [appdata[0] |= v] *)
Definition or_first (v : Z) w pkt : net :=
  on_mem (<[appdata w pkt := u8 (Z.lor (mem w (appdata w pkt)) v)]>) w.
Definition zoap_header_set_version w pkt (ver : Z) : net :=
  or_first (Z.shiftl (Z.land ver 3) 6) w pkt.
Definition zoap_header_set_type w pkt (type : Z) : net :=
  or_first (Z.shiftl (Z.land type 3) 4) w pkt.

Definition zoap_header_set_token w pkt (token tokenlen : Z) : Z * net :=
  let f := frag w pkt in
  if net_buf_simple_tailroom f <? BASIC_HEADER_SIZE + tokenlen then (- EINVAL, w)
  else if 8 <? tokenlen then (- EINVAL, w)
  else
    let w := set_len (frag_addr w pkt) (nb_len f + tokenlen) w in
    let w := or_first (Z.land tokenlen 15) w pkt in
    (0, on_mem (memcpy (nb_data f + BASIC_HEADER_SIZE) token tokenlen) w).

Definition zoap_header_set_code w pkt (code : Z) : net :=
  on_mem (<[appdata w pkt + 1 := code]>) w.
Definition zoap_header_set_id w pkt (id : Z) : net :=
  on_mem (sys_put_be16 id (appdata w pkt + 2)) w.

Definition zoap_next_id (message_id : Z) : Z := u16 (message_id + 1).

(** *** Receiving and creating a packet *)
Definition zoap_packet_parse (fuel : nat) w (buf : Z) : option (Z * zoap_packet) :=
  if buf =? 0 then None
  else
    let pkt := mk_packet buf 0 in
    let f := frag w pkt in
    let hdrlen := coap_get_header_len w pkt in
    if hdrlen <? 0 then Some (- EINVAL, pkt)
    else
      match coap_parse_options fuel w pkt hdrlen with
      | None => None
      | Some optlen =>
          if optlen <? 0 then Some (- EINVAL, pkt)
          else if nb_len f <? hdrlen + optlen then Some (- EINVAL, pkt)
          else if nb_len f <=? hdrlen + optlen + 1 then Some (0, mk_packet buf 0)
          else Some (0, mk_packet buf (nb_data f + hdrlen + optlen + 1))
      end.

Definition zoap_packet_init w pkt (buf : Z) : option (Z * zoap_packet * net) :=
  if buf =? 0 then None
  else
    let fa := nb_frags (bufs w buf) in
    if net_buf_simple_tailroom (bufs w fa) <? BASIC_HEADER_SIZE then Some (- ENOMEM, pkt, w)
    else
      let '(data, w) := net_buf_add fa BASIC_HEADER_SIZE w in
      Some (0, mk_packet buf 0, on_mem (fill data BASIC_HEADER_SIZE 0) w).

(** *** Adding and finding options *)

(** What is written through [value], the memory, the return value; [None] is
    -EINVAL, before anything is written. *)
Definition delta_encode (num buf buflen : Z) m : option (Z * Z * memory) :=
  if num <? 13 then Some (0, u8 num, m)
  else if num <? 269 then
    if buflen <? 1 then None else Some (1, 13, <[buf := u8 (num - 13)]> m)
  else if buflen <? 2 then None
  else Some (2, 14, UNALIGNED_PUT (__bswap_16 (num - 269)) buf m).

Definition coap_option_encode m c (code value len : Z) : Z * memory :=
  let delta := code - oc_delta c in
  match delta_encode delta (oc_buf c + 1) (u32 (oc_buflen c - 1)) m with
  | None => (- EINVAL, m)
  | Some (r, data, m) =>
      let offset := 1 + r in
      let m := coap_option_header_set_delta (oc_buf c) data m in
      match delta_encode len (oc_buf c + offset) (u32 (oc_buflen c - offset)) m with
      | None => (- EINVAL, m)
      | Some (r, data, m) =>
          let offset := offset + r in
          let m := coap_option_header_set_len (oc_buf c) data m in
          if oc_buflen c <? offset + len then (- EINVAL, m)
          else (offset + len, memcpy (oc_buf c + offset) value len m)
      end
  end.

(** The loop of [zoap_add_option] over the options there are: [inl] is the error
    returned, [inr] the context in which the option is added. *)
Fixpoint add_option_loop (fuel : nat) m c (code : Z) : option (Z + option_context) :=
  match fuel with
  | O => None
  | S fuel =>
      if oc_delta c <=? code then
        let '(r, c, _) := coap_parse_option m c in
        if r <? 0 then Some (inl (- ENOENT))
        else if r =? 0 then Some (inr c)
        else if code <? oc_delta c then Some (inl (- EINVAL))
        else add_option_loop fuel m c code
      else Some (inr c)
  end.

Definition zoap_add_option (fuel : nat) w pkt (code value len : Z) : option (Z * net) :=
  let f := frag w pkt in
  if negb (pk_start pkt =? 0) then Some (- EINVAL, w)
  else
    let offset := coap_get_header_len w pkt in
    if offset <? 0 then Some (- EINVAL, w)
    else
      match add_option_loop fuel (mem w)
              (mk_context (nb_data f + offset) 0 0 (nb_len f - offset)) code with
      | None => None
      | Some (inl e) => Some (e, w)
      | Some (inr c) =>
          let c := mk_context (oc_buf c) (oc_delta c) (oc_used c)
                     (i32 (net_buf_simple_tailroom f - (offset + oc_used c))) in
          let '(r, m) := coap_option_encode (mem w) c code value len in
          let w := mk_net m (bufs w) in
          if r <? 0 then Some (- EINVAL, w)
          else Some (0, set_len (frag_addr w pkt) (nb_len f + r) w)
      end.

(** [data] is the address of the local array. *)
Definition zoap_add_option_int (fuel : nat) w pkt (code val data : Z) : option (Z * net) :=
  let '(len, m) :=
    if val =? 0 then (0, <[data := 0]> (mem w))
    else if val <? 255 then (1, <[data := u8 val]> (mem w))
    else if val <? 65535 then (2, sys_put_be16 val data (mem w))
    else if val <? 16777215 then
      (3, <[data + 2 := u8 (Z.shiftr val 16)]> (sys_put_be16 val data (mem w)))
    else (4, sys_put_be32 val data (mem w)) in
  zoap_add_option fuel (mk_net m (bufs w)) pkt code data len.

(** The elements of [options] that are filled, in order. *)
Fixpoint find_options_loop (fuel : nat) m c (code veclen count : Z) (options : list zoap_option)
    : option (Z * list zoap_option) :=
  match fuel with
  | O => None
  | S fuel =>
      if (oc_delta c <=? code) && (count <? veclen) then
        match coap_parse_option m c with
        | (used, c, o) =>
            if used <? 0 then Some (- ENOENT, options)
            else if used =? 0 then Some (count, options)
            else if code =? oc_delta c then
              find_options_loop fuel m c code veclen (count + 1)
                (options ++ match o with Some o => [o] | None => [] end)
            else find_options_loop fuel m c code veclen count options
        end
      else Some (count, options)
  end.

Definition zoap_find_options (fuel : nat) w pkt (code veclen : Z)
    : option (Z * list zoap_option) :=
  let f := frag w pkt in
  let hdrlen := coap_get_header_len w pkt in
  if hdrlen <? 0 then Some (- EINVAL, [])
  else find_options_loop fuel (mem w)
         (mk_context (nb_data f + hdrlen) 0 0 (nb_len f - hdrlen)) code veclen 0 [].

Definition zoap_option_value_to_int m (o : zoap_option) : Z :=
  let v i := m (op_value o + i) in
  if op_len o =? 0 then 0
  else if op_len o =? 1 then v 0
  else if op_len o =? 2 then Z.lor (v 0) (Z.shiftl (v 1) 8)
  else if op_len o =? 3 then Z.lor (Z.lor (v 0) (Z.shiftl (v 1) 8)) (Z.shiftl (v 2) 16)
  else if op_len o =? 4 then
    u32 (Z.lor (Z.lor (Z.lor (v 0) (Z.shiftl (v 1) 8)) (Z.shiftl (v 2) 16)) (Z.shiftl (v 3) 24))
  else 0.

(** *** Payload *)

(** The payload (null when there is no room for it), its length, the packet. *)
Definition zoap_packet_get_payload w pkt : Z * Z * zoap_packet * net :=
  let f := frag w pkt in
  let fa := frag_addr w pkt in
  if pk_start pkt =? 0 then
    if net_buf_simple_tailroom f <? nb_len f + 1 then (0, 0, pkt, w)
    else
      let w := set_len fa (nb_len f + 1) (on_mem (<[nb_data f + nb_len f := COAP_MARKER]>) w) in
      let f := bufs w fa in
      let start := nb_data f + nb_len f in
      (start, u16 (net_buf_simple_tailroom f - nb_len f), mk_packet (pk_buf pkt) start, w)
  else (pk_start pkt, u16 (net_buf_simple_tailroom f - nb_len f), pkt, w).

Definition zoap_packet_set_used w pkt (len : Z) : Z * net :=
  let f := frag w pkt in
  if net_buf_simple_tailroom f <? nb_len f + len then (- ENOMEM, w)
  else (0, set_len (frag_addr w pkt) (nb_len f + len) w).

(** The fragment, the packet. *)
Definition zoap_packet_get_buf w pkt : Z * zoap_packet * net :=
  let fa := frag_addr w pkt in
  if pk_start pkt =? 0 then
    let '(str, w) := net_buf_add fa 1 w in
    (fa, mk_packet (pk_buf pkt) (str + 1), on_mem (<[str := COAP_MARKER]>) w)
  else (fa, pkt, w).

End Packets.

(** ** Exchanges *)

(** The index of the first element that satisfies [f]. *)
Fixpoint first_index {A} (f : A -> bool) (l : list A) : option nat :=
  match l with
  | [] => None
  | x :: l => if f x then Some O else S <$> first_index f l
  end.

Record zoap_pending := mk_pending { request : zoap_packet; timeout : Z }.

Record zoap_reply := mk_reply {
  reply : option Z;
  age : Z;
  token : list Z;
  tkl : Z
}.

(** include/net/net_ip.h: an address by its words *)
Record sockaddr := mk_sockaddr { family : Z; addr32 : Z -> Z }.
Definition AF_UNSPEC : Z := 0.
Definition AF_INET : Z := 2.
Definition AF_INET6 : Z := 10.

Record zoap_observer := mk_observer {
  ob_addr : sockaddr;
  ob_token : list Z;
  ob_tkl : Z
}.

(** A resource: its methods, its notifier, the components of its path, its user
    data (the metadata of link-format.h, with the attributes), its observers in order
    and its age. The pointers to functions are addresses, null pointers [None]. *)
Record zoap_resource := mk_resource {
  get : option Z;
  post : option Z;
  put : option Z;
  del : option Z;
  notify : option Z;
  path : list Z;
  user_data : option (option (list Z));
  observers : list Z;
  rs_age : Z
}.

Section Exchanges.
Implicit Types (w : net) (m : memory) (pkt : zoap_packet).

(** *** Pending requests *)
Definition zoap_pending_init pkt : zoap_pending := mk_pending pkt 0.

Definition zoap_pending_next_unused (pendings : list zoap_pending) : option nat :=
  first_index (fun p => (timeout p =? 0) && (pk_buf (request p) =? 0)) pendings.

Definition zoap_reply_next_unused (replies : list zoap_reply) : option nat :=
  first_index (fun r => match reply r with None => true | Some _ => false end) replies.

Definition match_response w (request response : zoap_packet) : bool :=
  if negb (zoap_header_get_id w request =? zoap_header_get_id w response) then false
  else
    let '(req_token, req_tkl) := zoap_header_get_token w request in
    let '(resp_token, resp_tkl) := zoap_header_get_token w response in
    if negb (req_tkl =? resp_tkl) then false
    else (req_tkl =? 0) || (Str.memcmp req_token resp_token req_tkl (mem w) =? 0).

Definition zoap_pending_clear (p : zoap_pending) : zoap_pending := mk_pending (request p) 0.

Fixpoint zoap_pending_received w (response : zoap_packet) (pendings : list zoap_pending)
    : option nat * list zoap_pending :=
  match pendings with
  | [] => (None, [])
  | p :: ps =>
      if (timeout p =? 0) || negb (match_response w (request p) response) then
        let '(i, ps) := zoap_pending_received w response ps in (S <$> i, p :: ps)
      else (Some O, zoap_pending_clear p :: ps)
  end.

(** [found] is the element found so far. *)
Fixpoint next_to_expire_loop (i : nat) (found : option (nat * zoap_pending))
    (pendings : list zoap_pending) : option nat :=
  match pendings with
  | [] => fst <$> found
  | p :: ps =>
      let later := match found with None => true | Some (_, q) => timeout q <? timeout p end in
      next_to_expire_loop (S i) (if negb (timeout p =? 0) && later then Some (i, p) else found) ps
  end.
Definition zoap_pending_next_to_expire (pendings : list zoap_pending) : option nat :=
  next_to_expire_loop 0 None pendings.

Definition LAST_TIMEOUT : Z := 2345 * 4.
Definition next_timeout (previous : Z) : Z :=
  if previous =? 0 then 2345
  else if previous =? 2345 then 2345 * 2
  else if previous =? 2345 * 2 then LAST_TIMEOUT
  else if previous =? LAST_TIMEOUT then LAST_TIMEOUT
  else 2345.
Definition zoap_pending_cycle (p : zoap_pending) : bool * zoap_pending :=
  let p' := mk_pending (request p) (next_timeout (timeout p)) in
  (negb (timeout p =? timeout p'), p').

(** *** Requests: the method of the resource they name *)

(** [i] counts the options compared; the lists are what is left of the two. *)
Fixpoint path_loop (fuel : nat) m (options : list zoap_option) (path : list Z) : option bool :=
  match options, path with
  | o :: options, p :: path =>
      match Str.strlen fuel p m with
      | None => None
      | Some len =>
          if negb (op_len o =? len) then Some false
          else if negb (Str.memcmp (op_value o) p len m =? 0) then Some false
          else path_loop fuel m options path
      end
  | [], [] => Some true
  | _, _ => Some false
  end.

Definition uri_path_eq (fuel : nat) w pkt (path : list Z) : option bool :=
  match zoap_find_options fuel w pkt ZOAP_OPTION_URI_PATH 16 with
  | None => None
  | Some (r, options) => if r <? 0 then Some false else path_loop fuel (mem w) options path
  end.

Definition method_from_code (r : zoap_resource) (code : Z) : option Z :=
  if code =? ZOAP_METHOD_GET then get r
  else if code =? ZOAP_METHOD_POST then post r
  else if code =? ZOAP_METHOD_PUT then put r
  else if code =? ZOAP_METHOD_DELETE then del r
  else None.

(** [inl] is a value returned; [inr] the method whose result is returned, with
    the index of its resource. *)
Fixpoint zoap_handle_request_from (i : nat) (fuel : nat) w pkt (resources : list zoap_resource)
    : option (Z + Z * nat) :=
  match resources with
  | [] => Some (inl (- ENOENT))
  | r :: rs =>
      match uri_path_eq fuel w pkt (path r) with
      | None => None
      | Some false => zoap_handle_request_from (S i) fuel w pkt rs
      | Some true =>
          match method_from_code r (zoap_header_get_code w pkt) with
          | None => Some (inl 0)
          | Some f => Some (inr (f, i))
          end
      end
  end.
Definition zoap_handle_request := zoap_handle_request_from 0.

(** *** Replies *)
Definition get_observe_option (fuel : nat) w pkt : option Z :=
  match zoap_find_options fuel w pkt ZOAP_OPTION_OBSERVE 1 with
  | None => None
  | Some (r, options) =>
      if r <=? 0 then Some (- ENOENT)
      else i32 ∘ zoap_option_value_to_int (mem w) <$> head options
  end.

Definition set_age (a : Z) (r : zoap_reply) : zoap_reply := mk_reply (reply r) a (token r) (tkl r).

(** [memcmp(r->token, token, tkl)] is zero. *)
Definition token_eq m (l : list Z) (token tkl : Z) : bool :=
  bool_decide (take (Z.to_nat tkl) l = read_bytes m token tkl).

(** The reply whose handler is called, and the replies; a handler that is null is
    a null pointer followed. *)
Fixpoint zoap_response_received (fuel : nat) w (response : zoap_packet) (replies : list zoap_reply)
    : option (option nat * list zoap_reply) :=
  match replies with
  | [] => Some (None, [])
  | r :: rs =>
      let skip :=
        match zoap_response_received fuel w response rs with
        | None => None
        | Some (i, rs) => Some (S <$> i, r :: rs)
        end in
      let call r := match reply r with None => None | Some _ => Some (Some O, r :: rs) end in
      let '(tok, n) := zoap_header_get_token w response in
      if negb (tkl r =? n) then skip
      else if (0 <? n) && negb (token_eq (mem w) (token r) tok n) then skip
      else
        match get_observe_option fuel w response with
        | None => None
        | Some a =>
            if 0 <? a then
              if (a <? age r) && negb (a =? 2) then skip else call (set_age a r)
            else call r
        end
  end.

(** A token of [n] bytes copied into an array. *)
Definition copy_token m (tok n : Z) (l : list Z) : list Z :=
  if 0 <? n then read_bytes m tok n ++ drop (Z.to_nat n) l else l.

Definition zoap_reply_init (fuel : nat) w (r : zoap_reply) (request : zoap_packet)
    : option zoap_reply :=
  let '(tok, n) := zoap_header_get_token w request in
  match get_observe_option fuel w request with
  | None => None
  | Some a =>
      Some (mk_reply (reply r) (if a =? 0 then 2 else age r) (copy_token (mem w) tok n (token r)) n)
  end.

Definition zoap_reply_clear (r : zoap_reply) : zoap_reply := mk_reply None (age r) (token r) (tkl r).

(** *** Observers *)
Definition is_addr_unspecified (a : sockaddr) : bool :=
  if family a =? AF_UNSPEC then true
  else if family a =? AF_INET6 then
    (addr32 a 0 =? 0) && (addr32 a 1 =? 0) && (addr32 a 2 =? 0) && (addr32 a 3 =? 0)
  else if family a =? AF_INET then addr32 a 0 =? 0
  else false.

Definition zoap_observer_next_unused (obs : list zoap_observer) : option nat :=
  first_index (fun o => is_addr_unspecified (ob_addr o)) obs.

Definition zoap_request_is_observe (fuel : nat) w (request : zoap_packet) : option bool :=
  (fun a => a =? 0) <$> get_observe_option fuel w request.

Definition zoap_observer_init w (o : zoap_observer) (request : zoap_packet) (a : sockaddr)
    : zoap_observer :=
  let '(tok, n) := zoap_header_get_token w request in
  mk_observer a (copy_token (mem w) tok n (ob_token o)) n.

Definition set_observers (l : list Z) (a : Z) (r : zoap_resource) : zoap_resource :=
  mk_resource (get r) (post r) (put r) (del r) (notify r) (path r) (user_data r) l a.

Definition zoap_register_observer (r : zoap_resource) (observer : Z) : bool * zoap_resource :=
  let first := rs_age r =? 0 in
  (first, set_observers (observers r ++ [observer]) (if first then 2 else rs_age r) r).

Fixpoint remove_first (x : Z) (l : list Z) : list Z :=
  match l with
  | [] => []
  | y :: l => if y =? x then l else y :: remove_first x l
  end.
Definition zoap_remove_observer (r : zoap_resource) (observer : Z) : zoap_resource :=
  set_observers (remove_first observer (observers r)) (rs_age r) r.

(** The return value, the resource, and the observers the notifier is called
    for, in order. *)
Definition zoap_resource_notify (r : zoap_resource) : Z * zoap_resource * list Z :=
  let r := set_observers (observers r) (i32 (rs_age r + 1)) r in
  match notify r with
  | None => (- ENOENT, r, [])
  | Some _ => (0, r, observers r)
  end.
End Exchanges.

(** ** Block-wise transfers *)
Record zoap_block_context := mk_block { total_size : Z; current : Z; block_size : Z }.

Section Blocks.
Implicit Types (w : net) (pkt : zoap_packet) (ctx : zoap_block_context).

Definition zoap_block_size_to_bytes (block_size : Z) : Z := u16 (Z.shiftl 1 (block_size + 4)).

Definition zoap_block_transfer_init (block_size total_size : Z) : zoap_block_context :=
  mk_block total_size 0 block_size.

Definition GET_BLOCK_SIZE (v : Z) : Z := Z.land v 7.
Definition GET_MORE (v : Z) : bool := negb (Z.land v 8 =? 0).
Definition GET_NUM (v : Z) : Z := Z.shiftr v 4.
Definition SET_BLOCK_SIZE (v b : Z) : Z := Z.lor v (Z.land b 7).
Definition SET_MORE (v : Z) (m : bool) : Z := Z.lor v (if m then 8 else 0).
Definition SET_NUM (v n : Z) : Z := Z.lor v (u32 (Z.shiftl n 4)).

Definition is_request w pkt : bool :=
  Z.land (zoap_header_get_code w pkt) (Z.lnot ZOAP_REQUEST_MASK) =? 0.

Definition more_blocks ctx : bool :=
  u32 (current ctx + zoap_block_size_to_bytes (block_size ctx)) <? total_size ctx.

Definition zoap_add_block1_option (fuel : nat) w pkt ctx (data : Z) : option (Z * net) :=
  let bytes := zoap_block_size_to_bytes (block_size ctx) in
  let val :=
    if is_request w pkt then
      SET_NUM (SET_MORE (SET_BLOCK_SIZE 0 (block_size ctx)) (more_blocks ctx)) (current ctx / bytes)
    else SET_NUM (SET_BLOCK_SIZE 0 (block_size ctx)) (current ctx / bytes) in
  zoap_add_option_int fuel w pkt ZOAP_OPTION_BLOCK1 val data.

Definition zoap_add_block2_option (fuel : nat) w pkt ctx (data : Z) : option (Z * net) :=
  let bytes := zoap_block_size_to_bytes (block_size ctx) in
  let val :=
    if is_request w pkt then SET_NUM (SET_BLOCK_SIZE 0 (block_size ctx)) (current ctx / bytes)
    else
      SET_NUM (SET_MORE (SET_BLOCK_SIZE 0 (block_size ctx)) (more_blocks ctx)) (current ctx / bytes) in
  zoap_add_option_int fuel w pkt ZOAP_OPTION_BLOCK2 val data.

Definition zoap_add_size1_option (fuel : nat) w pkt ctx (data : Z) : option (Z * net) :=
  zoap_add_option_int fuel w pkt ZOAP_OPTION_SIZE1 (total_size ctx) data.
Definition zoap_add_size2_option (fuel : nat) w pkt ctx (data : Z) : option (Z * net) :=
  zoap_add_option_int fuel w pkt ZOAP_OPTION_SIZE2 (total_size ctx) data.

Definition get_block_option (fuel : nat) w pkt (code : Z) : option Z :=
  match zoap_find_options fuel w pkt code 1 with
  | None => None
  | Some (count, options) =>
      if count <=? 0 then Some 0 else zoap_option_value_to_int (mem w) <$> head options
  end.

Definition new_current (block : Z) : Z := u32 (Z.shiftl (GET_NUM block) (GET_BLOCK_SIZE block + 4)).

Definition update_descriptive_block ctx (block size : Z) : Z * zoap_block_context :=
  if block =? 0 then (- ENOENT, ctx)
  else if negb (size =? 0) && negb (total_size ctx =? 0) && negb (total_size ctx =? u32 size) then
    (- EINVAL, ctx)
  else if (0 <? block_size ctx) && (block_size ctx <? GET_BLOCK_SIZE block) then (- EINVAL, ctx)
  else if negb (total_size ctx =? 0) && (total_size ctx <? new_current block) then (- EINVAL, ctx)
  else
    (0, mk_block (if size =? 0 then total_size ctx else u32 size) (new_current block)
          (GET_BLOCK_SIZE block)).

Definition update_control_block1 ctx (block size : Z) : Z * zoap_block_context :=
  if block =? 0 then (0, ctx)
  else if negb (new_current block =? current ctx) then (- EINVAL, ctx)
  else if block_size ctx <? GET_BLOCK_SIZE block then (- EINVAL, ctx)
  else (0, mk_block (u32 size) (current ctx) (GET_BLOCK_SIZE block)).

Definition update_control_block2 ctx (block size : Z) : Z * zoap_block_context :=
  if block =? 0 then (0, ctx)
  else if GET_MORE block then (- EINVAL, ctx)
  else if (0 <? GET_NUM block) && negb (GET_BLOCK_SIZE block =? block_size ctx) then (- EINVAL, ctx)
  else (0, mk_block (u32 size) (new_current block) (GET_BLOCK_SIZE block)).

(** The options are converted to [int] as arguments. *)
Definition zoap_update_from_block (fuel : nat) w pkt ctx : option (Z * zoap_block_context) :=
  match get_block_option fuel w pkt ZOAP_OPTION_BLOCK1, get_block_option fuel w pkt ZOAP_OPTION_BLOCK2,
        get_block_option fuel w pkt ZOAP_OPTION_SIZE1, get_block_option fuel w pkt ZOAP_OPTION_SIZE2 with
  | Some block1, Some block2, Some size1, Some size2 =>
      if is_request w pkt then
        let '(r, ctx) := update_control_block2 ctx (i32 block2) (i32 size2) in
        if negb (r =? 0) then Some (r, ctx)
        else Some (update_descriptive_block ctx (i32 block1) (i32 size1))
      else
        let '(r, ctx) := update_control_block1 ctx (i32 block1) (i32 size1) in
        if negb (r =? 0) then Some (r, ctx)
        else Some (update_descriptive_block ctx (i32 block2) (i32 size2))
  | _, _, _, _ => None
  end.

Definition zoap_next_block ctx : Z * zoap_block_context :=
  if total_size ctx <=? current ctx then (0, ctx)
  else
    let c := u32 (current ctx + zoap_block_size_to_bytes (block_size ctx)) in
    (c, mk_block (total_size ctx) c (block_size ctx)).
End Blocks.
End Zoap.
