(* ===== verification/ZoapOptions.v ===== *)
(** * The options of a CoAP packet (lib/iot/zoap/zoap.c)

    The encoding of options that the protocol defines, as lists of bytes, and the
    proof that the reader of Zoap reads exactly those and that its writer writes
    them. An option on the wire has the difference of its number to the one before
    it and its length, each in four bits with an extension of one or two bytes. *)
From S2P Require Import Prelude Kernel LibcString Bytes Zoap.

Module ZoapOptions.
Import Zoap.

(** ** The encoding *)

(** A number: the four bits in the first byte, and the bytes that extend it. *)
Definition nibble (n : Z) : Z := if n <? 13 then n else if n <? 269 then 13 else 14.
Definition extension (n : Z) : list Z :=
  if n <? 13 then [] else if n <? 269 then [n - 13] else be16 (n - 269).

(** An option as it is sent: the reader takes its numbers modulo 65536. *)
Record wire := mk_wire { w_delta : Z; w_length : Z; w_value : list Z }.

Definition wire_bytes (o : wire) : list Z :=
  nibble (w_delta o) * 16 + nibble (w_length o)
    :: extension (w_delta o) ++ extension (w_length o) ++ w_value o.

Definition LAST_NUMBER : Z := 65535 + 269.

(** The options the reader takes: a length of 65536 or more, which the encoding can
    express, stands for the value with 65536 bytes less. *)
Record wire_ok (o : wire) : Prop := {
  wo_delta : 0 <= w_delta o <= LAST_NUMBER;
  wo_length : 0 <= w_length o <= LAST_NUMBER;
  wo_value : len (w_value o) = u16 (w_length o)
}.

Definition wires_bytes (os : list wire) : list Z := mjoin (wire_bytes <$> os).

Lemma found_nil m a : found m a [].
Proof. intros i Hi. cbn in Hi. lia. Qed.

Lemma found_at m a b l : found m a l -> a = b -> found m b l.
Proof. by intros ? <-. Qed.

Section Numbers.
Implicit Types (m : memory) (a k n num r x : Z).

Lemma nibble_range n : 0 <= n -> 0 <= nibble n <= 14.
Proof. intros. unfold nibble. repeat case_match; bool_facts; lia. Qed.

Lemma extension_length n : 0 <= len (extension n) <= 2.
Proof. unfold extension. repeat case_match; cbn; lia. Qed.

Lemma get_be16 m a :
  0 <= m a < 256 -> 0 <= m (a + 1) < 256 -> sys_get_be16 m a = 256 * m a + m (a + 1).
Proof.
  intros H0 H1. unfold sys_get_be16. rewrite Z.lor_comm, join_bytes by done.
  rewrite u16_small by lia. lia.
Qed.

Lemma found_get_be16 m a v : 0 <= v < 65536 -> found m a (be16 v) -> sys_get_be16 m a = v.
Proof.
  intros Hv. unfold be16. rewrite !found_cons. intros (H0 & H1 & _). destruct (be16_range v Hv).
  rewrite get_be16 by lia. rewrite H0, H1. pose proof (Z.div_mod v 256 ltac:(lia)). lia.
Qed.

(** Decoding a number that is there. *)
Lemma decode_number m a k n :
  0 <= n <= LAST_NUMBER -> found m a (extension n) -> len (extension n) <= k ->
  decode_delta m (nibble n) a k = Some (len (extension n), u16 n).
Proof.
  unfold LAST_NUMBER, decode_delta, nibble, extension. intros Hn Hf Hk.
  destruct (Z.ltb_spec n 13); [|destruct (Z.ltb_spec n 269)].
  - rewrite !(proj2 (Z.eqb_neq _ _)) by lia. done.
  - cbn [length] in *. change (13 =? 13) with true. cbv iota.
    rewrite (proj2 (Z.ltb_ge _ _)) by lia. apply found_cons in Hf as [-> _].
    do 2 f_equal. f_equal. lia.
  - change (len (be16 (n - 269))) with 2 in *. change (14 =? 13) with false. change (14 =? 14) with true.
    cbv iota. rewrite (proj2 (Z.ltb_ge _ _)) by lia. rewrite (found_get_be16 m a (n - 269)) by (done || lia).
    do 2 f_equal. f_equal. lia.
Qed.

(** Every number decoded is there. *)
Lemma decoded_number m a k num r x :
  (forall i, 0 <= i < k -> 0 <= m (a + i) < 256) -> 0 <= num < 16 ->
  decode_delta m num a k = Some (r, x) ->
  exists n, 0 <= n <= LAST_NUMBER /\ num = nibble n /\ found m a (extension n) /\
    r = len (extension n) /\ (r <= k \/ r = 0) /\ x = u16 n.
Proof.
  unfold LAST_NUMBER, decode_delta. intros Hb Hnum.
  destruct (Z.eqb_spec num 13) as [->|H13]; [|destruct (Z.eqb_spec num 14) as [->|H14]; [|
    destruct (Z.eqb_spec num 15) as [->|H15]; [done|]]].
  - destruct (Z.ltb_spec k 1); [done|]. intros [= <- <-]. specialize (Hb 0 ltac:(lia)).
    rewrite Z.add_0_r in Hb. exists (m a + 13). unfold nibble, extension.
    rewrite (proj2 (Z.ltb_ge _ 13)), (proj2 (Z.ltb_lt _ 269)) by lia. repeat split; try (cbn; lia).
    apply found_cons. split; [lia|apply found_nil].
  - destruct (Z.ltb_spec k 2); [done|]. intros [= <- <-].
    pose proof (Hb 0 ltac:(lia)) as H0. pose proof (Hb 1 ltac:(lia)) as H1.
    rewrite Z.add_0_r in H0. rewrite get_be16 by done.
    exists (256 * m a + m (a + 1) + 269). unfold nibble, extension, be16.
    rewrite (proj2 (Z.ltb_ge _ 13)), (proj2 (Z.ltb_ge _ 269)) by lia. repeat split; try (cbn; lia).
    replace (256 * m a + m (a + 1) + 269 - 269) with (m (a + 1) + m a * 256) by lia.
    rewrite Z.div_add, Z.mod_add, Z.div_small, Z.mod_small by lia.
    rewrite !found_cons. repeat split; try lia. apply found_nil.
  - intros [= <- <-]. exists num. unfold nibble, extension. rewrite (proj2 (Z.ltb_lt _ 13)) by lia.
    repeat split; try (cbn; lia). apply found_nil.
Qed.

(** A number is decoded from the bytes of the buffer only. *)
Lemma decode_reads m m' a k num :
  (forall i, 0 <= i < k -> m' (a + i) = m (a + i)) -> decode_delta m' num a k = decode_delta m num a k.
Proof.
  intros Hm. unfold decode_delta, sys_get_be16.
  destruct (num =? 13); [|destruct (num =? 14); [|done]].
  - destruct (Z.ltb_spec k 1); [done|]. specialize (Hm 0 ltac:(lia)). rewrite Z.add_0_r in Hm.
    by rewrite Hm.
  - destruct (Z.ltb_spec k 2); [done|]. rewrite (Hm 1) by lia. specialize (Hm 0 ltac:(lia)).
    rewrite Z.add_0_r in Hm. by rewrite Hm.
Qed.
End Numbers.

(** ** Reading an option *)
Section Reading.
Implicit Types (m : memory) (c : option_context) (o : wire).

Lemma header_delta b : coap_option_header_get_delta b = (b / 16) `mod` 16.
Proof.
  unfold coap_option_header_get_delta. rewrite Z.shiftr_land. change (Z.shiftr 240 4) with (Z.ones 4).
  rewrite Z.land_ones, Z.shiftr_div_pow2 by lia. done.
Qed.

Lemma header_len b : coap_option_header_get_len b = b `mod` 16.
Proof. unfold coap_option_header_get_len. change 15 with (Z.ones 4). by rewrite Z.land_ones by lia. Qed.

Lemma header_parts x y :
  0 <= x < 16 -> 0 <= y < 16 ->
  coap_option_header_get_delta (x * 16 + y) = x /\ coap_option_header_get_len (x * 16 + y) = y.
Proof.
  intros Hx Hy. rewrite header_delta, header_len.
  replace (x * 16 + y) with (y + x * 16) by lia. rewrite Z.div_add, Z.mod_add by lia.
  rewrite Z.div_small, !Z.mod_small by lia. lia.
Qed.

Lemma header_whole b :
  0 <= b < 256 ->
  0 <= coap_option_header_get_delta b < 16 /\ 0 <= coap_option_header_get_len b < 16 /\
  b = coap_option_header_get_delta b * 16 + coap_option_header_get_len b.
Proof.
  intros Hb. rewrite header_delta, header_len.
  assert (0 <= b / 16 < 16) by (split; [apply Z.div_pos; lia|apply Z.div_lt_upper_bound; lia]).
  rewrite (Z.mod_small (b / 16)) by lia. pose proof (Z.div_mod b 16). pose proof (Z.mod_pos_bound b 16). lia.
Qed.

Lemma i16_small z : -32768 <= z < 32768 -> wrap_s 16 z = z.
Proof. intros. unfold wrap_s. rewrite Z.mod_small by lia. lia. Qed.

Lemma u16_range z : 0 <= u16 z < 65536.
Proof. unfold wrap_u. apply Z.mod_pos_bound. lia. Qed.

(** The context after an option of [n] bytes. *)
Definition past (n d : Z) c : option_context :=
  mk_context (oc_buf c + n) (oc_delta c + d) (oc_used c + n) (oc_buflen c - n).

Lemma wire_length o :
  wire_ok o ->
  len (wire_bytes o) = 1 + len (extension (w_delta o)) + len (extension (w_length o)) + u16 (w_length o).
Proof. intros []. unfold wire_bytes. cbn [length]. rewrite !length_app. lia. Qed.

Lemma wire_not_marker o : wire_ok o -> nibble (w_delta o) * 16 + nibble (w_length o) <> COAP_MARKER.
Proof.
  intros [Hd Hl _]. pose proof (nibble_range (w_delta o)). pose proof (nibble_range (w_length o)).
  unfold COAP_MARKER. lia.
Qed.

(** An option that is in the buffer is read. *)
Lemma parse_wire m c o :
  wire_ok o -> found m (oc_buf c) (wire_bytes o) -> len (wire_bytes o) <= oc_buflen c <= 32768 ->
  let n := len (wire_bytes o) in
  coap_parse_option m c =
    (oc_used c + n, past n (u16 (w_delta o)) c,
     Some (mk_option (oc_buf c + n - u16 (w_length o)) (u16 (w_length o)))).
Proof.
  intros Ho Hf Hn. pose proof (wire_not_marker o Ho) as Hmk. pose proof (wire_length o Ho) as El.
  rewrite El in *. destruct Ho as [Hd Hl Hv]. unfold wire_bytes in Hf.
  apply found_cons in Hf as [Hb Hf]. apply found_app in Hf as [Hfd Hf]. apply found_app in Hf as [Hfl _].
  pose proof (nibble_range (w_delta o)). pose proof (nibble_range (w_length o)).
  destruct (header_parts (nibble (w_delta o)) (nibble (w_length o))) as [E1 E2]; [lia..|].
  pose proof (u16_range (w_length o)). pose proof (extension_length (w_delta o)).
  pose proof (extension_length (w_length o)).
  unfold coap_parse_option. rewrite (proj2 (Z.ltb_ge _ _)) by lia. rewrite Hb.
  rewrite (proj2 (Z.eqb_neq _ _)) by done. rewrite E1, E2. cbn [ctx_advance oc_buf oc_buflen oc_delta oc_used].
  rewrite i16_small by lia. rewrite (decode_number _ _ _ (w_delta o)) by (done || lia).
  cbn [ctx_advance oc_buf oc_buflen oc_delta oc_used]. rewrite i16_small by lia.
  rewrite (decode_number _ _ _ (w_length o)) by (done || lia). rewrite (proj2 (Z.ltb_ge _ _)) by lia.
  unfold past, ctx_advance, add_delta. cbn [oc_buf oc_buflen oc_delta oc_used].
  f_equal; [f_equal; [|f_equal]|do 2 f_equal]; lia.
Qed.

(** What is read is in the buffer. *)
Lemma parsed_wire m c r c' v :
  (forall i, 0 <= i < oc_buflen c -> 0 <= m (oc_buf c + i) < 256) -> oc_buflen c <= 32768 ->
  coap_parse_option m c = (r, c', Some v) ->
  exists o, wire_ok o /\ found m (oc_buf c) (wire_bytes o) /\ len (wire_bytes o) <= oc_buflen c /\
    r = oc_used c + len (wire_bytes o) /\ c' = past (len (wire_bytes o)) (u16 (w_delta o)) c /\
    v = mk_option (oc_buf c + len (wire_bytes o) - len (w_value o)) (len (w_value o)).
Proof.
  intros Hb Hk. unfold coap_parse_option.
  destruct (Z.ltb_spec (oc_buflen c) 1); [done|].
  destruct (Z.eqb_spec (m (oc_buf c)) COAP_MARKER) as [|Hmk]; [done|].
  pose proof (Hb 0 ltac:(lia)) as H0. rewrite Z.add_0_r in H0.
  destruct (header_whole _ H0) as (Hd & Hl & E). cbn [ctx_advance oc_buf oc_buflen oc_delta oc_used].
  rewrite i16_small by lia.
  destruct (decode_delta m _ (oc_buf c + 1) _) as [[r1 x1]|] eqn:E1; [|done].
  apply decoded_number in E1 as (d & Hdr & Ed & Fd & -> & Kd & ->); [..|lia].
  2: { intros i Hi. replace (oc_buf c + 1 + i) with (oc_buf c + (1 + i)) by lia. apply Hb. lia. }
  pose proof (extension_length d). rewrite i16_small by lia.
  destruct (decode_delta m _ (_ + len (extension d)) _) as [[r2 x2]|] eqn:E2; [|done].
  apply decoded_number in E2 as (l & Hlr & El & Fl & -> & Kl & ->); [..|lia].
  2: { intros i Hi. replace (_ + _ + i) with (oc_buf c + (1 + len (extension d) + i)) by lia. apply Hb. lia. }
  destruct (Z.ltb_spec (oc_buflen c - 1 - len (extension d)) (len (extension l) + u16 l)) as [|Hfit]; [done|].
  intros [= <- <- <-]. pose proof (u16_range l) as Hu.
  set (val := read_bytes m (oc_buf c + 1 + len (extension d) + len (extension l)) (u16 l)).
  assert (len val = u16 l) as Ev by (unfold val, read_bytes; rewrite length_fmap, length_seqZ; lia).
  exists (mk_wire d l val). assert (wire_ok (mk_wire d l val)) as Ho by (split; done).
  pose proof (wire_length _ Ho) as En. cbn [w_delta w_length w_value] in *. rewrite En, Ev.
  split_and!; [done| |lia|lia| |].
  - unfold wire_bytes. cbn [w_delta w_length w_value]. apply found_cons. split; [lia|].
    apply found_app. split; [done|]. apply found_app. split; [done|].
    intros i Hi. unfold val, read_bytes. rewrite nth_lookup, list_lookup_fmap, lookup_seqZ_lt by lia. done.
  - unfold past, add_delta, ctx_advance. cbn [oc_buf oc_buflen oc_delta oc_used]. f_equal; lia.
  - f_equal. lia.
Qed.

(** The length of the buffer is converted to 16 bits, which never makes it larger. *)
Lemma i16_le z : 0 <= z < 65536 -> wrap_s 16 z <= z.
Proof.
  intros Hz. destruct (Z.lt_ge_cases z 32768) as [?|Hge]; [rewrite i16_small; lia|].
  unfold wrap_s. change (2 ^ (16 - 1)) with 32768. change (2 ^ 16) with 65536.
  pose proof (Z.mod_pos_bound (z + 32768) 65536). lia.
Qed.

Lemma decode_range m num a k r x :
  decode_delta m num a k = Some (r, x) -> 0 <= r <= 2 /\ (r <= k \/ r = 0) /\ 0 <= x < 65536.
Proof.
  unfold decode_delta. intros E. repeat case_match; simplify_eq; bool_facts;
    (split_and!; try apply u16_range; lia).
Qed.

(** The reader stays in the buffer, whatever its length, and reads nothing outside
    it. *)
Lemma parse_advances m c r c' v :
  oc_buflen c < 65536 -> coap_parse_option m c = (r, c', v) ->
  match v with
  | None => r = - EINVAL \/ (r = 0 /\ c' = c)
  | Some v => exists n d, 1 <= n <= oc_buflen c /\ 0 <= d < 65536 /\ c' = past n d c /\ r = oc_used c + n
                /\ oc_buf c < op_value v /\ op_value v + op_len v = oc_buf c + n /\ 0 <= op_len v
  end.
Proof.
  intros Hk. unfold coap_parse_option. destruct (Z.ltb_spec (oc_buflen c) 1); [naive_solver|].
  destruct (m (oc_buf c) =? COAP_MARKER); [naive_solver|].
  destruct (decode_delta m _ _ _) as [[r1 d]|] eqn:E1; [|naive_solver].
  destruct (decode_delta m (coap_option_header_get_len _) _ _) as [[r2 l]|] eqn:E2; [|naive_solver].
  apply decode_range in E1, E2. cbn [ctx_advance oc_buf oc_buflen oc_delta oc_used] in *.
  destruct (Z.ltb_spec (oc_buflen c - 1 - r1) (r2 + l)); [naive_solver|]. intros [= <- <- <-].
  exists (1 + r1 + r2 + l), d. unfold past, add_delta, ctx_advance.
  cbn [oc_buf oc_buflen oc_delta oc_used op_value op_len]. split_and!; try lia. f_equal; lia.
Qed.

Lemma parse_reads m m' c :
  oc_buflen c < 65536 -> (forall i, 0 <= i < oc_buflen c -> m' (oc_buf c + i) = m (oc_buf c + i)) ->
  coap_parse_option m' c = coap_parse_option m c.
Proof.
  intros Hk Hm. unfold coap_parse_option. destruct (Z.ltb_spec (oc_buflen c) 1); [done|].
  pose proof (Hm 0 ltac:(lia)) as H0. rewrite Z.add_0_r in H0. rewrite !H0.
  destruct (m (oc_buf c) =? COAP_MARKER); [done|]. cbn [ctx_advance oc_buf oc_buflen oc_delta oc_used].
  assert (forall j, 1 <= j <= oc_buflen c -> forall i, 0 <= i < wrap_s 16 (oc_buflen c - j) ->
    m' (oc_buf c + j + i) = m (oc_buf c + j + i)) as Hj.
  { intros j Hj i Hi. pose proof (i16_le (oc_buflen c - j) ltac:(lia)). rewrite <- Z.add_assoc. apply Hm. lia. }
  rewrite (decode_reads m m') by (apply Hj; lia).
  destruct (decode_delta m _ (oc_buf c + 1) _) as [[r d]|] eqn:E; [|done].
  apply decode_range in E as (Hr & Hk' & _). pose proof (i16_le (oc_buflen c - 1) ltac:(lia)).
  rewrite <- Z.add_assoc, <- Z.sub_add_distr. rewrite (decode_reads m m') by (apply Hj; lia). done.
Qed.
End Reading.
(** The fields of a context that has advanced. *)
Ltac fields := cbn [past ctx_advance add_delta oc_buf oc_delta oc_used oc_buflen] in *.

(** ** Reading all options *)
Section Options.
Implicit Types (m : memory) (c : option_context) (o : wire) (os : list wire).

Lemma wires_cons o os : wires_bytes (o :: os) = wire_bytes o ++ wires_bytes os.
Proof. done. Qed.

Lemma wires_app os os' : wires_bytes (os ++ os') = wires_bytes os ++ wires_bytes os'.
Proof. unfold wires_bytes. rewrite fmap_app, join_app. done. Qed.

Lemma wire_pos o : wire_ok o -> 1 <= len (wire_bytes o).
Proof. intros Ho. unfold wire_bytes. cbn [length]. lia. Qed.

Lemma wires_count os : Forall wire_ok os -> len os <= len (wires_bytes os).
Proof.
  induction 1 as [|o os Ho _ IH]; [done|]. rewrite wires_cons, length_app. cbn [length].
  pose proof (wire_pos o Ho). lia.
Qed.

(** The options end at the end of the buffer or at the marker. *)
Definition ends m c : Prop := oc_buflen c = 0 \/ m (oc_buf c) = COAP_MARKER.

Lemma parse_end m c : ends m c -> coap_parse_option m c = (0, c, None).
Proof.
  unfold ends, coap_parse_option. intros Hc. destruct (Z.ltb_spec (oc_buflen c) 1); [done|].
  destruct Hc as [|Hc]; [lia|]. by rewrite Hc.
Qed.

Lemma past_past n n' d d' c : past n' d' (past n d c) = past (n + n') (d + d') c.
Proof. unfold past. cbn. f_equal; lia. Qed.

(** The sum of the numbers read. *)
Fixpoint deltas os : Z :=
  match os with [] => 0 | o :: os => u16 (w_delta o) + deltas os end.

Lemma deltas_app os os' : deltas (os ++ os') = deltas os + deltas os'.
Proof. induction os; cbn; lia. Qed.

Lemma deltas_pos os : 0 <= deltas os.
Proof. induction os; cbn; [lia|]. pose proof (u16_range (w_delta a)). lia. Qed.

(** [at_options m c os]: the options [os], and no other, start at [c]. *)
Record at_options m c os : Prop := {
  ao_ok : Forall wire_ok os;
  ao_found : found m (oc_buf c) (wires_bytes os);
  ao_fits : len (wires_bytes os) <= oc_buflen c <= 32768;
  ao_used : 0 <= oc_used c;
  ao_ends : ends m (past (len (wires_bytes os)) (deltas os) c)
}.

Lemma past_0 c : past 0 0 c = c.
Proof. destruct c. unfold past. cbn. f_equal; lia. Qed.

Lemma at_options_nil m c : at_options m c [] -> coap_parse_option m c = (0, c, None).
Proof. intros [_ _ _ _ He]. apply parse_end. cbn in He. by rewrite past_0 in He. Qed.

Lemma at_options_cons m c o os :
  at_options m c (o :: os) ->
  let n := len (wire_bytes o) in
  let c' := past n (u16 (w_delta o)) c in
  coap_parse_option m c =
    (oc_used c', c', Some (mk_option (oc_buf c' - len (w_value o)) (len (w_value o)))) /\
  0 < oc_used c' /\ at_options m c' os.
Proof.
  intros [Hok Hf Hfit Hu He]. rewrite wires_cons in *. apply Forall_cons in Hok as [Ho Hok].
  apply found_app in Hf as [Hf Hfs]. rewrite length_app in *. pose proof (wire_pos o Ho).
  cbn zeta. pose proof (wo_value o Ho) as Ev. split; [|split].
  - rewrite (parse_wire m c o) by (done || lia). by rewrite Ev.
  - fields. lia.
  - split; fields; [done|done|lia|lia|]. rewrite past_past. cbn [deltas] in He.
    by rewrite Nat2Z.inj_add in He.
Qed.

Lemma parse_options_at fuel m c os :
  at_options m c os -> (length os < fuel)%nat ->
  parse_options_loop fuel m c = Some (oc_used c + len (wires_bytes os)).
Proof.
  revert fuel c. induction os as [|o os IH]; intros [|fuel] c Hc Hl; [cbn in Hl; lia| |cbn in Hl; lia|].
  - cbn [parse_options_loop]. rewrite at_options_nil by done. cbn. f_equal. lia.
  - cbn [parse_options_loop]. destruct (at_options_cons _ _ _ _ Hc) as (-> & Hu & Hc').
    rewrite (proj2 (Z.ltb_ge _ _)), (proj2 (Z.eqb_neq _ _)) by lia.
    rewrite IH by (done || (cbn in Hl; lia)). rewrite wires_cons, length_app. fields. f_equal. lia.
Qed.

(** The options are all found, or the buffer does not start with options. *)
Lemma options_or_error fuel m c :
  bytes_ok m -> 0 <= oc_used c -> oc_buflen c <= 32768 -> 0 <= oc_buflen c < Z.of_nat fuel ->
  (exists os, at_options m c os) \/ parse_options_loop fuel m c = Some (- EINVAL).
Proof.
  intros Hm. revert c. induction fuel as [|fuel IH]; intros c Hu H1 H2; [lia|].
  cbn [parse_options_loop]. destruct (coap_parse_option m c) as [[r c'] [v|]] eqn:E.
  - apply parsed_wire in E as (o & Ho & Hf & Hfit & -> & -> & _); [|intros; apply Hm|done].
    pose proof (wire_pos o Ho).
    rewrite (proj2 (Z.ltb_ge _ _)), (proj2 (Z.eqb_neq _ _)) by lia.
    destruct (IH (past (len (wire_bytes o)) (u16 (w_delta o)) c)) as [[os [Ok Fs Fit _ He]]|He];
      [fields; lia..| |by right].
    left. exists (o :: os). fields. split; rewrite ?wires_cons, ?length_app.
    + by constructor.
    + by apply found_app.
    + lia.
    + done.
    + rewrite past_past in He. rewrite Nat2Z.inj_add. done.
  - pose proof (parse_advances m c r c' None ltac:(lia) E) as [->|[-> ->]]; [by right|].
    left. exists []. split; [done|apply found_nil|cbn; lia|done|]. cbn [length wires_bytes deltas].
    change (Z.of_nat (length (wires_bytes []))) with 0. rewrite past_0.
    unfold coap_parse_option in E. unfold ends. destruct (Z.ltb_spec (oc_buflen c) 1); [left; lia|].
    destruct (Z.eqb_spec (m (oc_buf c)) COAP_MARKER); [by right|].
    exfalso. repeat case_match; simplify_eq.
Qed.

(** Of any buffer: the loop ends, and reads the buffer only. *)
Lemma parse_options_ends fuel m m' c :
  0 <= oc_used c -> oc_buflen c < 65536 -> oc_buflen c < Z.of_nat fuel -> 0 <= oc_buflen c ->
  (forall i, 0 <= i < oc_buflen c -> m' (oc_buf c + i) = m (oc_buf c + i)) ->
  parse_options_loop fuel m' c = parse_options_loop fuel m c /\
  exists v, parse_options_loop fuel m c = Some v /\ (v = - EINVAL \/ oc_used c <= v <= oc_used c + oc_buflen c).
Proof.
  revert c. induction fuel as [|fuel IH]; intros c Hu Hk Hfuel Hk0 Hm; [lia|].
  cbn [parse_options_loop]. rewrite (parse_reads m m') by done.
  destruct (coap_parse_option m c) as [[r c'] v] eqn:E. apply parse_advances in E; [|done].
  destruct v as [v|].
  - destruct E as (n & d & Hn & _ & -> & -> & _).
    rewrite (proj2 (Z.ltb_ge _ _)), (proj2 (Z.eqb_neq _ _)) by lia.
    destruct (IH (past n d c)) as [E1 (x & E2 & Hx)]; [fields; lia..| |].
    { intros i Hi. fields. rewrite <- Z.add_assoc. apply Hm. lia. }
    split; [done|]. exists x. fields. split; [done|lia].
  - destruct E as [->|[-> ->]]; split; try done.
    + exists (- EINVAL). split; [done|by left].
    + exists (oc_used c). split; [done|lia].
Qed.
End Options.
End ZoapOptions.
