(* ===== verification/ZoapPacket.v ===== *)
(** * CoAP packets received (lib/iot/zoap/zoap.c)

    The messages of the protocol, the form of the packets that [zoap_packet_parse]
    accepts, which is more lenient, and the proof that it accepts exactly the
    latter, ends on every packet and reads nothing outside it. *)
From S2P Require Import Prelude Kernel LibcString Bytes Zoap ZoapOptions.

Module ZoapPacket.
Import Zoap ZoapOptions.

(** ** Messages *)

(** The messages of the protocol: a header of four bytes with the version 1, a
    token of at most eight bytes whose length is in the header, options whose
    numbers add up to at most 65535 and that are as long as they say, and then
    nothing, or the marker and a payload that is not empty. *)
Record option_standard (o : wire) : Prop := {
  os_delta : 0 <= w_delta o;
  os_length : len (w_value o) = w_length o /\ w_length o <= 65535
}.

Definition option_numbers (os : list wire) : Z := foldr (fun o n => w_delta o + n) 0 os.

Record coap_message (l hdr tok : list Z) (os : list wire) (tail : list Z) : Prop := {
  cm_bytes : l = hdr ++ tok ++ wires_bytes os ++ tail;
  cm_header : len hdr = 4;
  cm_version : Z.shiftr (hd 0 hdr) 6 = 1;
  cm_token : len tok = Z.land (hd 0 hdr) 15 /\ len tok <= 8;
  cm_options : Forall option_standard os;
  cm_numbers : option_numbers os <= 65535;
  cm_tail : tail = [] \/ exists b payload, tail = COAP_MARKER :: b :: payload
}.

(** The packets the parser accepts: it takes the version for granted, the numbers
    and lengths of the options modulo 65536, and a marker with nothing behind. *)
Record accepted_form (l hdr tok : list Z) (os : list wire) (tail : list Z) : Prop := {
  af_bytes : l = hdr ++ tok ++ wires_bytes os ++ tail;
  af_header : len hdr = 4;
  af_token : len tok = Z.land (hd 0 hdr) 15 /\ len tok <= 8;
  af_options : Forall wire_ok os;
  af_tail : tail = [] \/ hd 0 tail = COAP_MARKER
}.

Lemma option_numbers_bound os o :
  Forall option_standard os -> o ∈ os -> w_delta o <= option_numbers os.
Proof.
  intros Hos. assert (forall os, Forall option_standard os -> 0 <= option_numbers os) as H0.
  { intros l. induction 1 as [|x l [Hx _] _ IH]; unfold option_numbers in *; cbn in *; lia. }
  induction Hos as [|x l Hx Hl IH]; intros [->|Ho]%elem_of_cons || intros ?%elem_of_nil; [done|..].
  - specialize (H0 l Hl). unfold option_numbers in *. cbn. lia.
  - specialize (IH Ho). destruct Hx as [Hx _]. unfold option_numbers in *. cbn. lia.
Qed.

(** Every message of the protocol has the form that is accepted, and what has that
    form and keeps to the rules the parser does not check is such a message. *)
Lemma message_accepted l hdr tok os tail : coap_message l hdr tok os tail -> accepted_form l hdr tok os tail.
Proof.
  intros [E Hh _ Ht Hos Hn Htail]. split; [done|done|done| |].
  - rewrite Forall_forall in *. intros o Ho. destruct (Hos o Ho) as [Hd [Hl Hl']].
    assert (w_delta o <= option_numbers os) by (apply option_numbers_bound; [by apply Forall_forall|done]).
    unfold LAST_NUMBER. split; [unfold LAST_NUMBER; lia|unfold LAST_NUMBER; lia|].
    rewrite u16_small by lia. done.
  - destruct Htail as [->|(b & p & ->)]; [by left|by right].
Qed.

Lemma accepted_message l hdr tok os tail :
  accepted_form l hdr tok os tail -> Z.shiftr (hd 0 hdr) 6 = 1 -> Forall (fun o => w_length o <= 65535) os ->
  option_numbers os <= 65535 -> tail <> [COAP_MARKER] -> coap_message l hdr tok os tail.
Proof.
  intros [E Hh Ht Hos Htail] Hv Hl Hn Hm. split; try done.
  - rewrite Forall_forall in *. intros o Ho. specialize (Hos o Ho) as [Hd Hlo Hval]. specialize (Hl o Ho).
    split; [lia|]. rewrite u16_small in Hval by lia. lia.
  - destruct tail as [|b [|b' p]]; [by left| |]; (destruct Htail as [|Hb]; [done|]); cbn in Hb; subst b;
      [done|right; by exists b', p].
Qed.

Lemma read_found m a n : found m a (read_bytes m a n).
Proof.
  intros i Hi. unfold read_bytes in *. rewrite length_fmap, length_seqZ in Hi.
  rewrite nth_lookup, list_lookup_fmap, lookup_seqZ_lt by lia. done.
Qed.

Lemma read_length m a n : 0 <= n -> len (read_bytes m a n) = n.
Proof. intros. unfold read_bytes. rewrite length_fmap, length_seqZ. lia. Qed.

Lemma read_app m a n k :
  0 <= n -> 0 <= k -> read_bytes m a (n + k) = read_bytes m a n ++ read_bytes m (a + n) k.
Proof. intros. unfold read_bytes. by rewrite seqZ_app, fmap_app by lia. Qed.

Lemma read_cons (m : memory) (a n : Z) : 0 < n -> read_bytes m a n = m a :: read_bytes m (a + 1) (n - 1).
Proof. intros. replace n with (1 + (n - 1)) at 1 by lia. rewrite read_app by lia. done. Qed.

Lemma read_nil (m : memory) (a n : Z) : n <= 0 -> read_bytes m a n = [].
Proof. intros. unfold read_bytes. by rewrite seqZ_nil by lia. Qed.

Section Parsing.
Context (w : net) (pkt : zoap_packet).
Let f := frag w pkt.
Let m := mem w.

Definition content : list Z := read_bytes (mem w) (nb_data (frag w pkt)) (nb_len (frag w pkt)).

Context (Hlen : 0 <= nb_len f < 65536).

Lemma content_length : len content = nb_len f.
Proof. unfold content. apply read_length, Hlen. Qed.

(** *** The header *)
Lemma header_of_message hdr tok rest :
  found m (nb_data f) (hdr ++ tok ++ rest) -> len hdr = 4 -> len tok = Z.land (hd 0 hdr) 15 ->
  len tok <= 8 -> len hdr + len tok + len rest = nb_len f ->
  coap_get_header_len w pkt = 4 + len tok.
Proof.
  intros Hf Hh Ht H8 Hl. unfold coap_get_header_len, coap_header_get_tkl, BASIC_HEADER_SIZE, appdata.
  fold f m. rewrite (proj2 (Z.ltb_ge _ _)) by lia.
  destruct hdr as [|b hdr]; [done|]. apply found_cons in Hf as [-> _]. cbn [hd] in Ht.
  rewrite <- Ht. rewrite (proj2 (Z.ltb_ge 8 _)), (proj2 (Z.ltb_ge (nb_len f) _)) by lia. done.
Qed.

Lemma header_or_error :
  (exists hdr tok rest, content = hdr ++ tok ++ rest /\ len hdr = 4 /\ len tok = Z.land (hd 0 hdr) 15 /\
     len tok <= 8 /\ coap_get_header_len w pkt = 4 + len tok /\
     rest = read_bytes m (nb_data f + (4 + len tok)) (nb_len f - (4 + len tok))) \/
  coap_get_header_len w pkt = - EINVAL.
Proof.
  unfold coap_get_header_len, BASIC_HEADER_SIZE. fold f.
  destruct (Z.ltb_spec (nb_len f) 4); [by right|].
  set (tkl := coap_header_get_tkl w pkt). destruct (Z.ltb_spec 8 tkl); [by right|].
  destruct (Z.ltb_spec (nb_len f) (4 + tkl)); [by right|]. left.
  assert (0 <= tkl) as Htkl by (apply Z.land_nonneg; right; lia).
  exists (read_bytes m (nb_data f) 4), (read_bytes m (nb_data f + 4) tkl),
    (read_bytes m (nb_data f + (4 + tkl)) (nb_len f - (4 + tkl))).
  rewrite !read_length by lia. split_and!; try done.
  unfold content. fold f m. rewrite Z.add_assoc, <- !read_app by lia. f_equal. lia.
Qed.

Lemma header_len_range : coap_get_header_len w pkt = - EINVAL \/ 4 <= coap_get_header_len w pkt <= nb_len f.
Proof.
  destruct header_or_error as [(h & t & rest & E & Hh & _ & _ & -> & _)|]; [right|by left].
  pose proof content_length as Ec. rewrite E, !length_app in Ec. lia.
Qed.

(** *** The options *)
Definition options_context (n : Z) : option_context :=
  mk_context (nb_data (frag w pkt) + n) 0 0 (nb_len (frag w pkt) - n).

Lemma options_of_message hdr tok os tail :
  accepted_form content hdr tok os tail -> nb_len f <= 32768 ->
  coap_get_header_len w pkt = 4 + len tok /\ at_options m (options_context (4 + len tok)) os /\
  nb_len f = 4 + len tok + len (wires_bytes os) + len tail.
Proof.
  intros [E Hh [Ht H8] Hos Htail] H32. pose proof content_length as Ec. rewrite E, !length_app in Ec.
  assert (found m (nb_data f) (hdr ++ tok ++ wires_bytes os ++ tail)) as Hf
    by (rewrite <- E; apply read_found).
  assert (coap_get_header_len w pkt = 4 + len tok) as EH
    by (apply (header_of_message hdr tok (wires_bytes os ++ tail)); rewrite ?length_app; done || lia).
  split; [done|]. split; [|lia]. rewrite !found_app, Hh in Hf. destruct Hf as (_ & _ & Hfo & Hft).
  split; unfold options_context; fold f; fields; [done| |lia|lia|].
  - by rewrite Z.add_assoc.
  - unfold ends. fields. destruct tail as [|b tail]; [left; cbn in Ec; lia|right].
    destruct Htail as [|Eb]; [done|]. cbn in Eb. subst b. apply found_cons in Hft as [Hft _].
    rewrite <- Hft. f_equal. lia.
Qed.

(** Where the options end there is nothing, or the marker. *)
Lemma message_of_options hdr tok rest os :
  content = hdr ++ tok ++ rest -> len hdr = 4 -> len tok = Z.land (hd 0 hdr) 15 -> len tok <= 8 ->
  rest = read_bytes m (nb_data f + (4 + len tok)) (nb_len f - (4 + len tok)) ->
  at_options m (options_context (4 + len tok)) os ->
  exists tail, accepted_form content hdr tok os tail.
Proof.
  intros E Hh Ht H8 Hr [Hok Hf Hfit _ He]. unfold options_context in Hf, Hfit, He. fold f in Hf, Hfit, He. fields.
  set (n := len (wires_bytes os)) in *. set (a := nb_data f + (4 + len tok)) in *.
  set (k := nb_len f - (4 + len tok)) in *.
  assert (rest = wires_bytes os ++ read_bytes m (a + n) (k - n)) as Er.
  { rewrite Hr. replace k with (n + (k - n)) at 1 by lia. rewrite read_app by lia. f_equal.
    by apply found_read. }
  exists (read_bytes m (a + n) (k - n)). split; [by rewrite E, Er|done|done|done|].
  unfold ends in He. fields. destruct (decide (k - n = 0)) as [->|Hkn]; [by left|right].
  destruct He as [He|He]; [lia|]. replace (k - n) with (1 + (k - n - 1)) by lia.
  rewrite read_app by lia. cbn. done.
Qed.

(** *** The parser *)
Definition packet_fuel : nat := S (Z.to_nat (nb_len (frag w pkt))).

Lemma parse_options_context n :
  0 <= n <= nb_len f ->
  coap_parse_options packet_fuel w pkt n = parse_options_loop packet_fuel m (options_context n).
Proof.
  intros Hn. unfold coap_parse_options, options_context. fold f.
  rewrite i32_small by (unfold INT32_MIN, INT32_MAX; lia). done.
Qed.

(** What the parser returns, given the length of the options. *)
Definition parsed (hdrlen optlen : Z) : Z * zoap_packet :=
  if optlen <? 0 then (- EINVAL, mk_packet (pk_buf pkt) 0)
  else (0, mk_packet (pk_buf pkt)
             (if nb_len (frag w pkt) <=? hdrlen + optlen + 1 then 0
              else nb_data (frag w pkt) + hdrlen + optlen + 1)).
End Parsing.

Section Parser.
Context (w : net) (buf : Z).
Let pkt := mk_packet buf 0.
Let f := frag w pkt.
Context (Hbuf : buf <> 0) (Hlen : 0 <= nb_len f < 65536).

Lemma packet_parse_error :
  coap_get_header_len w pkt = - EINVAL ->
  zoap_packet_parse (packet_fuel w pkt) w buf = Some (- EINVAL, pkt).
Proof.
  intros E. unfold zoap_packet_parse. rewrite (proj2 (Z.eqb_neq _ _)) by done. fold pkt.
  rewrite E. done.
Qed.

Lemma packet_parse_options hdrlen optlen :
  coap_get_header_len w pkt = hdrlen -> 0 <= hdrlen <= nb_len f ->
  parse_options_loop (packet_fuel w pkt) (mem w) (options_context w pkt hdrlen) = Some optlen ->
  optlen = - EINVAL \/ optlen <= nb_len f - hdrlen ->
  zoap_packet_parse (packet_fuel w pkt) w buf = Some (parsed w pkt hdrlen optlen).
Proof.
  intros Eh Hh Eo Ho. unfold zoap_packet_parse. rewrite (proj2 (Z.eqb_neq _ _)) by done. fold pkt.
  rewrite Eh, (proj2 (Z.ltb_ge _ _)) by lia. rewrite parse_options_context, Eo by done.
  unfold parsed. fold f. destruct (Z.ltb_spec optlen 0); [done|].
  destruct Ho as [->|Ho]; [done|]. rewrite (proj2 (Z.ltb_ge _ _)) by lia. by case_match.
Qed.

(** The parser ends, and its result is one of the results there are. *)
Lemma header_reads m' :
  (forall i, 0 <= i < nb_len f -> m' (nb_data f + i) = mem w (nb_data f + i)) ->
  coap_get_header_len (mk_net m' (bufs w)) pkt = coap_get_header_len w pkt.
Proof.
  intros Hm. unfold coap_get_header_len, coap_header_get_tkl, appdata, BASIC_HEADER_SIZE.
  change (frag (mk_net m' (bufs w)) pkt) with f. fold f. cbn [mem].
  destruct (Z.ltb_spec (nb_len f) 4); [done|]. specialize (Hm 0 ltac:(lia)). rewrite Z.add_0_r in Hm.
  by rewrite Hm.
Qed.

Lemma packet_parse_total m' :
  (forall i, 0 <= i < nb_len f -> m' (nb_data f + i) = mem w (nb_data f + i)) ->
  exists r pkt', zoap_packet_parse (packet_fuel w pkt) w buf = Some (r, pkt') /\
    zoap_packet_parse (packet_fuel w pkt) (mk_net m' (bufs w)) buf = Some (r, pkt') /\
    (r = 0 \/ r = - EINVAL) /\ pk_buf pkt' = buf /\
    (pk_start pkt' = 0 \/ nb_data f + 4 < pk_start pkt' < nb_data f + nb_len f).
Proof.
  intros Hm. pose proof (header_reads m' Hm) as Eh.
  unfold zoap_packet_parse at 2. rewrite (proj2 (Z.eqb_neq _ _)) by done. fold pkt. rewrite Eh.
  destruct (header_len_range w pkt Hlen) as [E|Hh].
  { rewrite packet_parse_error by done. rewrite E. exists (- EINVAL), pkt. split_and!; try done; by (left + right). }
  set (h := coap_get_header_len w pkt) in *. rewrite (proj2 (Z.ltb_ge h _)) by lia.
  fold f in Hh.
  assert (coap_parse_options (packet_fuel w pkt) (mk_net m' (bufs w)) pkt h =
    parse_options_loop (packet_fuel w pkt) m' (options_context w pkt h)) as ->.
  { apply (parse_options_context (mk_net m' (bufs w)) pkt Hlen).
    change (frag (mk_net m' (bufs w)) pkt) with f. lia. }
  destruct (parse_options_ends (packet_fuel w pkt) (mem w) m' (options_context w pkt h)) as [E1 (v & E2 & Hv)];
    [unfold options_context, packet_fuel; fold f; fields; lia..| |].
  { unfold options_context. fold f. fields. intros i Hi. rewrite <- Z.add_assoc. apply Hm. lia. }
  rewrite E1, E2.
  unfold options_context in Hv. fold f in Hv. fields.
  rewrite (packet_parse_options h v) by (done || lia).
  change (frag (mk_net m' (bufs w)) pkt) with f. unfold parsed. fold f.
  destruct (Z.ltb_spec v 0); [eexists _, _; split_and!; [done|done|by right|done|by left]|].
  destruct Hv as [->|Hv]; [done|]. rewrite (proj2 (Z.ltb_ge (nb_len f) _)) by lia.
  destruct (Z.leb_spec (nb_len f) (h + v + 1)); (eexists _, _; split_and!; [done|done|by left|done|]);
    [by left|right; cbn; lia].
Qed.

(** It accepts the messages, and nothing else. *)
Lemma packet_parse_message hdr tok os tail :
  nb_len f <= 32768 -> accepted_form (content w pkt) hdr tok os tail ->
  zoap_packet_parse (packet_fuel w pkt) w buf =
    Some (0, mk_packet buf (if len tail <=? 1 then 0 else nb_data f + nb_len f - (len tail - 1))).
Proof.
  intros H32 Hm. destruct (options_of_message w pkt Hlen _ _ _ _ Hm H32) as (Eh & Ho & El). fold f in El.
  pose proof (wires_count os (af_options _ _ _ _ _ Hm)).
  rewrite (packet_parse_options (4 + len tok) (0 + len (wires_bytes os))); [|done|lia| |lia].
  - unfold parsed. fold f. rewrite (proj2 (Z.ltb_ge _ _)) by lia. do 3 f_equal.
    destruct (Z.leb_spec (len tail) 1), (Z.leb_spec (nb_len f) (4 + len tok + (0 + len (wires_bytes os)) + 1));
      lia.
  - apply (parse_options_at _ _ _ os Ho). unfold packet_fuel. fold f. lia.
Qed.

Lemma packet_parse_accepts pkt' :
  bytes_ok (mem w) -> nb_len f <= 32768 -> zoap_packet_parse (packet_fuel w pkt) w buf = Some (0, pkt') ->
  exists hdr tok os tail, accepted_form (content w pkt) hdr tok os tail.
Proof.
  intros Hb H32 E.
  destruct (header_or_error w pkt) as [(hdr & tok & rest & Ec & Hh & Ht & H8 & Eh & Er)|Eh].
  2: { rewrite packet_parse_error in E by done. done. }
  assert (4 + len tok <= nb_len f) as Hfit.
  { pose proof (content_length w pkt Hlen) as El. rewrite Ec, !length_app in El. fold f in El. lia. }
  destruct (options_or_error (packet_fuel w pkt) (mem w) (options_context w pkt (4 + len tok))) as [[os Ho]|Eo];
    try (unfold options_context, packet_fuel; fold f; fields; lia); [done| |].
  - exists hdr, tok, os. by eapply message_of_options.
  - rewrite (packet_parse_options _ _ Eh) in E by (done || lia || by left). done.
Qed.
End Parser.


(** A packet of 9 bytes: a GET with a token of one byte, the option Uri-Path with
    the value "a", and a payload of one byte. *)
Definition sample_packet : list Z := [65; 1; 18; 52; 7; 177; 97; 255; 33].
Definition sample_net : net :=
  mk_net (write 1000 sample_packet (fun _ => 0))
    (fun b => if b =? 1 then mk_net_buf 2 0 0 0 0 else mk_net_buf 0 1000 9 64 1000).

Lemma bytes_ok_list a l :
  Forall (fun b => 0 <= b < 256) l -> bytes_ok (write a l (fun _ => 0)).
Proof.
  intros Hl x. unfold write. case_match; [|lia]. bool_facts.
  destruct (nth_in_or_default (Z.to_nat (x - a)) l 0) as [Hin| ->]; [|lia].
  rewrite Forall_forall in Hl. apply Hl. by apply list_elem_of_In.
Qed.


(** What is accepted beyond the protocol: an option that says it has 65536 bytes
    and has none, a marker without a payload, the version 0. *)
Definition net_of (l : list Z) : net :=
  mk_net (write 1000 l (fun _ => 0))
    (fun b => if b =? 1 then mk_net_buf 2 0 0 0 0 else mk_net_buf 0 1000 (len l) 64 1000).

Lemma malformed_packets_accepted :
  zoap_packet_parse 8 (net_of [64; 1; 0; 0; 14; 254; 243]) 1 = Some (0, mk_packet 1 0) /\
  zoap_packet_parse 8 (net_of [64; 1; 0; 0; 255]) 1 = Some (0, mk_packet 1 0) /\
  zoap_packet_parse 8 (net_of [0; 1; 0; 0]) 1 = Some (0, mk_packet 1 0).
Proof. by vm_compute. Qed.
End ZoapPacket.
