(* ===== verification/ZoapBuild.v ===== *)
(** * CoAP packets built (lib/iot/zoap/zoap.c)

    Adding an option writes its encoding after the options there are; finding the
    options of a number gives the values that were added under it. *)
From S2P Require Import Prelude Kernel LibcString Bytes Zoap ZoapOptions ZoapPacket.

Module ZoapBuild.
Import Zoap ZoapOptions ZoapPacket.

(** ** Writing an option *)
Section Writing.
Implicit Types (m : memory) (a b k n : Z) (l : list Z) (c : option_context) (o : wire).

Lemma write_cons a b l m : same_mem (write a (b :: l) m) (<[a := b]> (write (a + 1) l m)).
Proof.
  intros x. unfold write at 2. cbn [length]. destruct (decide (x = a)) as [->|Hx].
  - rewrite fn_lookup_insert, (proj2 (Z.leb_le _ _)), (proj2 (Z.ltb_lt _ _)) by lia. by rewrite Z.sub_diag.
  - rewrite fn_lookup_insert_ne by done. unfold write.
    destruct (Z.leb_spec a x), (Z.ltb_spec x (a + Z.of_nat (S (length l)))), (Z.leb_spec (a + 1) x),
      (Z.ltb_spec x (a + 1 + len l)); cbn [andb]; try done; try lia.
    replace (Z.to_nat (x - a)) with (S (Z.to_nat (x - (a + 1)))) by lia. done.
Qed.

(** The first byte is written again. *)
Lemma appended_head a b b' l m m' : appended a (b :: l) m m' -> appended a (b' :: l) m (<[a := b']> m').
Proof.
  unfold appended. intros Hm. rewrite <- Hm. rewrite !write_cons. intros x.
  destruct (decide (x = a)) as [->|Hx]; [by rewrite !fn_lookup_insert|].
  by rewrite !fn_lookup_insert_ne by done.
Qed.

Lemma appended_cons a b l m m' : appended (a + 1) l m m' -> appended a (b :: l) m (<[a := b]> m').
Proof. unfold appended. intros Hm. by rewrite write_cons, Hm. Qed.

Lemma appended_app a l l' m m' m'' :
  appended a l m m' -> appended (a + len l) l' m' m'' -> appended a (l ++ l') m m''.
Proof. unfold appended. intros H1 H2. by rewrite write_app, H1. Qed.

Lemma encode_number num a k m :
  0 <= num < 65536 -> len (extension num) <= k ->
  exists m', delta_encode num a k m = Some (len (extension num), nibble num, m') /\
    appended a (extension num) m m'.
Proof.
  intros Hn Hk. unfold delta_encode, extension, nibble in *.
  destruct (Z.ltb_spec num 13); [|destruct (Z.ltb_spec num 269)].
  - exists m. rewrite u8_small by lia. split; [done|apply appended_nil].
  - cbn [length] in *. rewrite (proj2 (Z.ltb_ge _ _)) by lia. rewrite u8_small by lia.
    eexists. split; [done|apply appended_first].
  - change (len (be16 (num - 269))) with 2 in *. rewrite (proj2 (Z.ltb_ge _ _)) by lia.
    eexists. split; [done|]. fold (htons (num - 269)).
    pose proof (appended_put16 a [] (num - 269) m m (appended_nil a m) ltac:(lia)) as Hp.
    cbn [app length] in Hp. by rewrite Z.add_0_r in Hp.
Qed.

Lemma or_fields x y k :
  0 <= k -> 0 <= x -> 0 <= y < 2 ^ k -> Z.lor (x * 2 ^ k) y = x * 2 ^ k + y.
Proof.
  intros Hk Hx Hy. assert (Z.land (x * 2 ^ k) y = 0) as E.
  { rewrite <- Z.shiftl_mul_pow2 by lia. apply Z.bits_inj'. intros i Hi.
    rewrite Z.land_spec, Z.bits_0, Z.shiftl_spec by lia. destruct (Z.lt_ge_cases i k).
    - by rewrite Z.testbit_neg_r by lia.
    - rewrite <- (Z.mod_small y (2 ^ k)) by lia. rewrite Z.mod_pow2_bits_high by lia. apply andb_false_r. }
  rewrite <- Z.lxor_lor, <- Z.add_nocarry_lxor by done. done.
Qed.

Lemma low_bits x k : 0 <= k -> 0 <= x < 2 ^ k -> Z.land x (Z.ones k) = x.
Proof. intros. rewrite Z.land_ones by lia. apply Z.mod_small. lia. Qed.

Lemma set_nibbles x y :
  0 <= x < 16 -> 0 <= y < 16 ->
  u8 (Z.shiftl (Z.land x 15) 4) = x * 16 /\ u8 (Z.lor (x * 16) (Z.land y 15)) = x * 16 + y.
Proof.
  intros Hx Hy. change 15 with (Z.ones 4). rewrite !low_bits by (cbn; lia).
  rewrite Z.shiftl_mul_pow2 by lia. change (2 ^ 4) with 16. rewrite u8_small by lia. split; [done|].
  change 16 with (2 ^ 4) at 1. rewrite or_fields by (cbn; lia). apply u8_small. cbn. lia.
Qed.

Lemma u32_fits z : 0 <= z < 4294967296 -> u32 z = z.
Proof. intros. apply u32_small. unfold UINT32_MAX. lia. Qed.

(** The option a call is to add. *)
Definition new_wire m c (code value n : Z) : wire :=
  mk_wire (code - oc_delta c) n (read_bytes m value n).

Lemma new_wire_ok m c code value n :
  0 <= code - oc_delta c < 65536 -> 0 <= n < 65536 -> wire_ok (new_wire m c code value n).
Proof.
  intros. split; cbn; unfold LAST_NUMBER; [lia|lia|]. rewrite read_length by lia. by rewrite u16_small by lia.
Qed.

(** With room for it, the option is written. *)
Lemma encode_option m c code value n :
  let o := new_wire m c code value n in
  let k := len (wire_bytes o) in
  0 <= code - oc_delta c < 65536 -> 0 <= n < 65536 -> k <= oc_buflen c < 65536 ->
  disjoint_from (oc_buf c) k value n ->
  exists m', coap_option_encode m c code value n = (k, m') /\ appended (oc_buf c) (wire_bytes o) m m'.
Proof.
  intros o k Hd Hn Hk Hdis. pose proof (new_wire_ok m c code value n Hd Hn) as Ho. fold o in Ho.
  pose proof (wire_length o Ho) as El. fold k in El. unfold o in El. cbn [w_delta w_length new_wire] in El.
  rewrite u16_small in El by lia. set (d := code - oc_delta c) in *.
  pose proof (extension_length d). pose proof (extension_length n).
  pose proof (nibble_range d). pose proof (nibble_range n).
  destruct (set_nibbles (nibble d) (nibble n)) as [N1 N2]; [lia..|].
  unfold coap_option_encode. fold d. rewrite u32_fits by lia.
  destruct (encode_number d (oc_buf c + 1) (oc_buflen c - 1) m) as (m1 & -> & A1); [lia..|].
  unfold coap_option_header_set_delta. rewrite N1. apply (appended_cons _ (nibble d * 16)) in A1.
  set (m2 := <[oc_buf c := nibble d * 16]> m1) in *. rewrite u32_fits by lia.
  destruct (encode_number n (oc_buf c + (1 + len (extension d))) (oc_buflen c - (1 + len (extension d))) m2)
    as (m3 & -> & A2); [lia..|].
  assert (appended (oc_buf c) ((nibble d * 16 :: extension d) ++ extension n) m m3) as A3.
  { apply (appended_app _ _ _ _ m2); [done|]. cbn [length].
    replace (oc_buf c + Z.of_nat (S (length (extension d)))) with (oc_buf c + (1 + len (extension d))) by lia.
    done. }
  cbn [app] in A3. unfold coap_option_header_set_len.
  assert (m3 (oc_buf c) = nibble d * 16) as E3.
  { apply appended_found in A3. by apply found_cons in A3 as [? _]. }
  rewrite E3, N2. apply (appended_head _ _ (nibble d * 16 + nibble n)) in A3.
  rewrite (proj2 (Z.ltb_ge (oc_buflen c) _)) by lia. eexists. split; [f_equal; lia|].
  assert (len (nibble d * 16 + nibble n :: extension d ++ extension n) = 1 + len (extension d) + len (extension n))
    as El' by (cbn [length]; rewrite length_app; lia).
  apply (appended_memcpy _ _ value n) in A3; [|lia|rewrite El'; unfold disjoint_from in *; lia].
  rewrite El' in A3. unfold wire_bytes, o, new_wire. cbn [w_delta w_length w_value]. fold d.
  rewrite app_comm_cons, app_assoc. rewrite <- app_comm_cons in *. exact A3.
Qed.

Lemma encoded_number num a k m r x m' :
  0 <= num < 65536 -> delta_encode num a k m = Some (r, x, m') ->
  r = len (extension num) /\ appended a (extension num) m m'.
Proof.
  intros Hn E. destruct (Z.ltb_spec num 13) as [H13|H13].
  { unfold delta_encode, extension in *. rewrite (proj2 (Z.ltb_lt _ _)) in * by done. simplify_eq.
    split; [done|apply appended_nil]. }
  assert (len (extension num) <= k) as Hk.
  { unfold delta_encode in E. unfold extension. rewrite (proj2 (Z.ltb_ge _ 13)) in * by done.
    destruct (num <? 269).
    - destruct (Z.ltb_spec k 1); [done|cbn; lia].
    - destruct (Z.ltb_spec k 2); [done|cbn; lia]. }
  destruct (encode_number num a k m Hn Hk) as (m1 & E1 & A). rewrite E in E1. by simplify_eq.
Qed.

(** Without room the call fails, with at most five bytes written. *)
Lemma encode_option_fails m c code value n :
  let o := new_wire m c code value n in
  0 <= code - oc_delta c < 65536 -> 0 <= n < 65536 -> oc_buflen c < len (wire_bytes o) ->
  exists m', coap_option_encode m c code value n = (- EINVAL, m') /\
    forall x, x < oc_buf c \/ oc_buf c + 5 <= x -> m' x = m x.
Proof.
  intros o Hd Hn Hk. pose proof (new_wire_ok m c code value n Hd Hn) as Ho.
  fold o in Ho. rewrite (wire_length _ Ho) in Hk. unfold o in Hk. cbn [w_delta w_length new_wire] in Hk. rewrite u16_small in Hk by lia.
  set (d := code - oc_delta c) in *. pose proof (extension_length d). pose proof (extension_length n).
  unfold coap_option_encode. fold d.
  destruct (delta_encode d _ _ m) as [[[r1 x1] m1]|] eqn:E1; [|by exists m].
  apply encoded_number in E1 as [-> A1]; [|done]. set (m2 := coap_option_header_set_delta _ _ m1).
  assert (forall x, x < oc_buf c \/ oc_buf c + 3 <= x -> m2 x = m x) as F2.
  { intros x Hx. unfold m2, coap_option_header_set_delta. rewrite fn_lookup_insert_ne by lia.
    apply (appended_out _ _ _ _ _ A1). lia. }
  destruct (delta_encode n _ _ m2) as [[[r2 x2] m3]|] eqn:E2.
  2: { exists m2. split; [done|]. intros x Hx. apply F2. lia. }
  apply encoded_number in E2 as [-> A2]; [|done]. rewrite (proj2 (Z.ltb_lt _ _)) by lia.
  eexists. split; [done|]. intros x Hx. unfold coap_option_header_set_len.
  rewrite fn_lookup_insert_ne by lia. rewrite (appended_out _ _ _ _ _ A2) by lia. apply F2. lia.
Qed.
End Writing.

(** ** Options by their numbers *)

(** Numbers in order, and values, that options can have. *)
Fixpoint opts_ordered (prev : Z) (opts : list (Z * list Z)) : Prop :=
  match opts with
  | [] => True
  | (code, v) :: opts => prev <= code < 65536 /\ len v < 65536 /\ opts_ordered code opts
  end.

Fixpoint wires (prev : Z) (opts : list (Z * list Z)) : list wire :=
  match opts with
  | [] => []
  | (code, v) :: opts => mk_wire (code - prev) (len v) v :: wires code opts
  end.

Fixpoint last_code (prev : Z) (opts : list (Z * list Z)) : Z :=
  match opts with [] => prev | (code, _) :: opts => last_code code opts end.

(** The values that options of one number have, in order. *)
Definition values_of (code : Z) (opts : list (Z * list Z)) : list (list Z) :=
  snd <$> filter (fun cv => cv.1 = code) opts.

Section Numbered.
Implicit Types (m : memory) (opts : list (Z * list Z)) (prev code : Z).

Lemma wires_ok prev opts : 0 <= prev -> opts_ordered prev opts -> Forall wire_ok (wires prev opts).
Proof.
  revert prev. induction opts as [|[code v] opts IH]; intros prev Hp Hok; [constructor|].
  destruct Hok as (Hc & Hv & Hok). constructor; [|apply IH; [lia|done]].
  split; cbn; unfold LAST_NUMBER; [lia|lia|]. by rewrite u16_small by lia.
Qed.

Lemma last_code_ge prev opts : opts_ordered prev opts -> prev <= last_code prev opts.
Proof.
  revert prev. induction opts as [|[code v] opts IH]; intros prev Hok; [cbn; lia|].
  destruct Hok as (Hc & _ & Hok). specialize (IH _ Hok). cbn. lia.
Qed.

Lemma wires_deltas prev opts :
  0 <= prev -> opts_ordered prev opts -> prev + deltas (wires prev opts) = last_code prev opts.
Proof.
  revert prev. induction opts as [|[code v] opts IH]; intros prev Hp Hok; [cbn; lia|].
  destruct Hok as (Hc & _ & Hok). cbn [wires deltas last_code w_delta]. rewrite u16_small by lia.
  rewrite <- (IH code) by (done || lia). lia.
Qed.

Lemma wires_cat prev opts l : wires prev (opts ++ l) = wires prev opts ++ wires (last_code prev opts) l.
Proof. revert prev. induction opts as [|[c x] opts IH]; intros prev; cbn; [done|]. by rewrite IH. Qed.

Lemma opts_ordered_cat prev opts l :
  opts_ordered prev (opts ++ l) <-> opts_ordered prev opts /\ opts_ordered (last_code prev opts) l.
Proof.
  revert prev. induction opts as [|[c x] opts IH]; intros prev; cbn; [tauto|]. rewrite IH. tauto.
Qed.

Lemma values_of_later prev opts code : opts_ordered prev opts -> code < prev -> values_of code opts = [].
Proof.
  revert prev. induction opts as [|[c x] opts IH]; intros prev; [done|].
  intros (? & ? & ?) ?. unfold values_of. rewrite filter_cons_False by (cbn; lia).
  apply (IH c); [done|lia].
Qed.

(** *** The loops over the options *)
Lemma wire_value m a o :
  wire_ok o -> found m a (wire_bytes o) ->
  read_bytes m (a + len (wire_bytes o) - len (w_value o)) (len (w_value o)) = w_value o.
Proof.
  intros Ho Hf. apply found_read. unfold wire_bytes in *. cbn [length]. rewrite !length_app.
  apply found_cons in Hf as [_ Hf]. rewrite !found_app in Hf. destruct Hf as (_ & _ & Hf).
  eapply found_at; [exact Hf|lia].
Qed.

(** Adding: the loop goes to the end of the options, unless one has a larger number. *)
Lemma add_option_at fuel m c os code :
  at_options m c os -> (length os < fuel)%nat -> oc_delta c <= code ->
  add_option_loop fuel m c code =
    Some (if oc_delta c + deltas os <=? code then inr (past (len (wires_bytes os)) (deltas os) c)
          else inl (- EINVAL)).
Proof.
  revert fuel c. induction os as [|o os IH]; intros [|fuel] c Hc Hl Hle; [cbn in Hl; lia| |cbn in Hl; lia|];
    cbn [add_option_loop]; rewrite (proj2 (Z.leb_le _ _)) by done.
  - rewrite at_options_nil by done. cbn [deltas]. change (len (wires_bytes [])) with 0.
    rewrite past_0, Z.add_0_r, (proj2 (Z.leb_le _ _)) by done. done.
  - destruct (at_options_cons _ _ _ _ Hc) as (-> & Hu & Hc').
    rewrite (proj2 (Z.ltb_ge _ 0)), (proj2 (Z.eqb_neq _ 0)) by lia.
    pose proof (deltas_pos os). cbn [deltas]. fields.
    destruct (Z.ltb_spec code (oc_delta c + u16 (w_delta o))).
    + rewrite (proj2 (Z.leb_gt _ _)) by lia. done.
    + rewrite IH by (done || (cbn in Hl; lia) || (fields; lia)). fields.
      rewrite past_past, wires_cons, length_app, Nat2Z.inj_add, Z.add_assoc. done.
Qed.

(** Finding: the loop gives the values of the number, as many as there is room for. *)
Definition value_at m (o : zoap_option) : list Z := read_bytes m (op_value o) (op_len o).

Lemma find_options_at fuel m c opts code veclen count acc :
  at_options m c (wires (oc_delta c) opts) -> 0 <= oc_delta c -> opts_ordered (oc_delta c) opts ->
  (length opts < fuel)%nat ->
  exists l, find_options_loop fuel m c code veclen count acc = Some (count + len l, acc ++ l) /\
    value_at m <$> l = take (Z.to_nat (veclen - count)) (values_of code opts) /\
    Forall (fun o => 0 <= op_len o) l.
Proof.
  revert fuel c count acc.
  induction opts as [|[num v] opts IH]; intros [|fuel] c count acc Hc H0 Hok Hl;
    [cbn in Hl; lia| |cbn in Hl; lia|]; cbn [find_options_loop].
  - exists []. cbn [wires] in Hc. rewrite at_options_nil by done. rewrite app_nil_r, Z.add_0_r.
    change (values_of code []) with (@nil (list Z)). rewrite take_nil. split; [by destruct (_ && _)|done].
  - destruct (Z.leb_spec (oc_delta c) code) as [Hcd|Hcd], (Z.ltb_spec count veclen) as [Hv|Hv]; cbn [andb];
      try (exists []; rewrite app_nil_r, Z.add_0_r; split; [done|split; [|constructor]]).
    2,4: by replace (Z.to_nat (veclen - count)) with O by lia.
    2: by rewrite (values_of_later (oc_delta c)), take_nil by done.
    cbn [wires] in Hc. destruct Hok as (Hn & Hvl & Hok).
    pose proof (Forall_inv (ao_ok _ _ _ Hc)) as Ho. pose proof (ao_found _ _ _ Hc) as Hf.
    rewrite wires_cons in Hf. apply found_app in Hf as [Hf _]. pose proof (wire_value m _ _ Ho Hf) as Hval.
    destruct (at_options_cons _ _ _ _ Hc) as (-> & Hu & Hc').
    rewrite (proj2 (Z.ltb_ge _ 0)), (proj2 (Z.eqb_neq _ 0)) by lia. cbn [w_delta w_value] in *.
    rewrite u16_small in * by lia.
    set (c' := past _ _ c) in *. assert (oc_delta c' = num) as Ec by (unfold c'; fields; lia).
    rewrite <- Ec in Hok, Hc'. rewrite Ec.
    destruct (Z.eqb_spec code num) as [->|Hne].
    + destruct (IH fuel c' (count + 1) (acc ++ [mk_option (oc_buf c' - len v) (len v)]) Hc')
        as (l & E & El & Hl'); [lia|done|cbn in Hl; lia|].
      rewrite E. eexists (_ :: l). rewrite <- app_assoc. split; [cbn [length app]; do 2 f_equal; lia|].
      split; [|constructor; [cbn; lia|done]].
      unfold values_of. rewrite filter_cons_True by done. rewrite !fmap_cons.
      replace (Z.to_nat (veclen - count)) with (S (Z.to_nat (veclen - (count + 1)))) by lia.
      cbn [take]. rewrite El. f_equal. exact Hval.
    + destruct (IH fuel c' count acc Hc') as (l & E & El & Hl'); [lia|done|cbn in Hl; lia|].
      rewrite E. exists l. split; [done|]. split; [|done]. rewrite El. unfold values_of.
      by rewrite filter_cons_False by (cbn; congruence).
Qed.
End Numbered.
End ZoapBuild.
