(* ===== verification/ZoapMessage.v ===== *)
(** * CoAP messages made by the sender (lib/iot/zoap/zoap.c)

    A packet under construction as the message it holds: what
    [zoap_packet_init], the setters of the header and [zoap_add_option] make of
    it. *)
From S2P Require Import Prelude Kernel LibcString Bytes Zoap ZoapOptions ZoapPacket ZoapBuild.

Module ZoapMessage.
Import Zoap ZoapOptions ZoapPacket ZoapBuild.

(** ** Buffers *)
Record frag_ok (f : net_buf) : Prop := {
  fo_data : 0 < nb_data f;
  fo_head : 0 <= nb_data f - nb_buf f;
  fo_len : 0 <= nb_len f;
  fo_fits : nb_data f - nb_buf f + nb_len f <= nb_size f;
  fo_size : nb_size f < 65536
}.

(** The bytes a fragment has room for from its data on. *)
Definition capacity (f : net_buf) : Z := nb_size f - (nb_data f - nb_buf f).

Lemma tailroom_ok f : frag_ok f -> net_buf_simple_tailroom f = capacity f - nb_len f.
Proof.
  intros [? ? ? ? ?]. unfold net_buf_simple_tailroom, net_buf_simple_headroom, capacity.
  rewrite (u32_fits (nb_data f - nb_buf f)), u32_fits by lia. done.
Qed.

Section Frags.
Implicit Types (w : net) (pkt : zoap_packet).

Lemma frag_addr_set_len w pkt n : frag_addr (set_len (frag_addr w pkt) n w) pkt = frag_addr w pkt.
Proof.
  unfold frag_addr at 1, set_len. cbn [bufs]. destruct (decide (pk_buf pkt = frag_addr w pkt)) as [E|E].
  - rewrite E, fn_lookup_insert. cbn [set_nb_len nb_frags]. by rewrite <- E.
  - by rewrite fn_lookup_insert_ne by done.
Qed.

Lemma frag_set_len w pkt n :
  frag (set_len (frag_addr w pkt) n w) pkt = set_nb_len (u16 n) (frag w pkt).
Proof.
  unfold frag at 1. rewrite frag_addr_set_len. unfold set_len. cbn [bufs]. by rewrite fn_lookup_insert.
Qed.

Lemma frag_on_mem g w pkt : frag (on_mem g w) pkt = frag w pkt.
Proof. done. Qed.

Lemma frag_ok_set_len f n : frag_ok f -> 0 <= n <= capacity f -> frag_ok (set_nb_len n f).
Proof. intros [] Hn. unfold capacity in Hn. split; cbn; lia. Qed.
End Frags.

(** ** Packets under construction *)
Record building (w : net) (pkt : zoap_packet) (hdr tok : list Z) (opts : list (Z * list Z)) : Prop := {
  bd_start : pk_start pkt = 0;
  bd_frag : frag_ok (frag w pkt);
  bd_header : len hdr = 4;
  bd_token : len tok = Z.land (hd 0 hdr) 15 /\ len tok <= 8;
  bd_options : opts_ordered 0 opts;
  bd_bytes : content w pkt = hdr ++ tok ++ wires_bytes (wires 0 opts);
  bd_small : nb_len (frag w pkt) <= 32768
}.

(** A packet that holds a message, with what follows the options. *)
Record holds (w : net) (pkt : zoap_packet) (hdr tok : list Z) (opts : list (Z * list Z)) (tail : list Z)
    : Prop := {
  ho_message : accepted_form (content w pkt) hdr tok (wires 0 opts) tail;
  ho_options : opts_ordered 0 opts;
  ho_len : 0 <= nb_len (frag w pkt) <= 32768
}.

Lemma held_options w pkt hdr tok opts tail :
  holds w pkt hdr tok opts tail ->
  coap_get_header_len w pkt = 4 + len tok /\
  at_options (mem w) (options_context w pkt (4 + len tok)) (wires 0 opts) /\
  nb_len (frag w pkt) = 4 + len tok + len (wires_bytes (wires 0 opts)) + len tail.
Proof. intros [Hm _ Hl]. apply (options_of_message w pkt ltac:(lia) _ _ _ _ Hm). lia. Qed.

(** *** Finding options *)
Lemma find_held w pkt hdr tok opts tail fuel code veclen :
  holds w pkt hdr tok opts tail -> (length opts < fuel)%nat ->
  exists l, zoap_find_options fuel w pkt code veclen = Some (len l, l) /\
    value_at (mem w) <$> l = take (Z.to_nat veclen) (values_of code opts) /\
    Forall (fun o => 0 <= op_len o) l.
Proof.
  intros Hb Hfuel. destruct (held_options _ _ _ _ _ _ Hb) as (E & Ho & _). unfold zoap_find_options.
  rewrite E, (proj2 (Z.ltb_ge _ _)) by lia.
  destruct (find_options_at fuel (mem w) (options_context w pkt (4 + len tok)) opts code veclen 0 [] Ho)
    as (l & El & Hl & Hlen); [cbn; lia|apply Hb|done|].
  exists l. rewrite Z.sub_0_r in Hl. split; [exact El|done].
Qed.

Section Building.
Context (w : net) (pkt : zoap_packet) (hdr tok : list Z) (opts : list (Z * list Z)).
Context (Hb : building w pkt hdr tok opts).
Let f := frag w pkt.

Lemma building_len : 0 <= nb_len f < 65536.
Proof. destruct (bd_frag _ _ _ _ _ Hb). pose proof (bd_small _ _ _ _ _ Hb). unfold f. lia. Qed.

Lemma building_holds : holds w pkt hdr tok opts [].
Proof.
  destruct (bd_frag _ _ _ _ _ Hb). destruct Hb. split; [|done|lia].
  split; [by rewrite app_nil_r|done|done| |by left]. by apply wires_ok.
Qed.

Lemma building_options :
  coap_get_header_len w pkt = 4 + len tok /\
  at_options (mem w) (options_context w pkt (4 + len tok)) (wires 0 opts) /\
  nb_len f = 4 + len tok + len (wires_bytes (wires 0 opts)).
Proof.
  destruct (held_options _ _ _ _ _ _ building_holds) as (E & Ho & El). cbn in El. fold f in El.
  split_and!; [done|done|lia].
Qed.

Lemma wires_length prev l : length (wires prev l) = length l.
Proof. revert prev. induction l as [|[c v] l IH]; intros prev; cbn; auto. Qed.

(** *** Adding an option *)

(** The option, after those there are. *)
Definition added (code value n : Z) : wire :=
  mk_wire (code - last_code 0 opts) n (read_bytes (mem w) value n).

Definition add_context : option_context :=
  mk_context (nb_data f + nb_len f) (last_code 0 opts) (len (wires_bytes (wires 0 opts)))
    (capacity f - nb_len f - nb_len f).

Lemma add_built fuel code value n :
  (length opts < fuel)%nat -> 0 <= code ->
  zoap_add_option fuel w pkt code value n =
    Some (if last_code 0 opts <=? code then
            let '(r, m) := coap_option_encode (mem w) add_context code value n in
            if r <? 0 then (- EINVAL, mk_net m (bufs w))
            else (0, set_len (frag_addr w pkt) (nb_len f + r) (mk_net m (bufs w)))
          else (- EINVAL, w)).
Proof.
  intros Hfuel Hc. destruct building_options as (E & Ho & El). destruct (bd_frag _ _ _ _ _ Hb) as [? ? ? ? ?].
  pose proof (wires_deltas 0 opts ltac:(lia) (bd_options _ _ _ _ _ Hb)) as Ed.
  unfold zoap_add_option. rewrite (bd_start _ _ _ _ _ Hb). cbn [Z.eqb negb].
  rewrite E, (proj2 (Z.ltb_ge _ _)) by lia. fold (options_context w pkt (4 + len tok)).
  rewrite (add_option_at _ _ _ _ _ Ho) by (rewrite ?wires_length; cbn; done || lia).
  cbn [options_context oc_delta]. rewrite Ed. destruct (last_code 0 opts <=? code); [|done].
  unfold options_context. fields. rewrite Ed. rewrite tailroom_ok by (apply Hb). unfold capacity. fold f.
  rewrite i32_small by (unfold INT32_MIN, INT32_MAX, f in *; lia).
  assert (mk_context (nb_data f + (4 + len tok) + len (wires_bytes (wires 0 opts))) (last_code 0 opts)
      (0 + len (wires_bytes (wires 0 opts)))
      (nb_size f - (nb_data f - nb_buf f) - nb_len f - (4 + len tok + (0 + len (wires_bytes (wires 0 opts)))))
    = add_context) as -> by (unfold add_context, capacity; f_equal; lia).
  destruct (coap_option_encode _ _ _ _ _) as [r m']. by case_match.
Qed.

(** The number is smaller than that of an option there is. *)
Lemma add_out_of_order fuel code value n :
  (length opts < fuel)%nat -> 0 <= code < last_code 0 opts ->
  zoap_add_option fuel w pkt code value n = Some (- EINVAL, w).
Proof.
  intros Hfuel Hc. rewrite add_built by (done || lia). by rewrite (proj2 (Z.leb_gt _ _)) by lia.
Qed.

(** There is no room: the code counts the bytes of the packet twice. *)
Lemma add_no_room fuel code value n :
  (length opts < fuel)%nat -> last_code 0 opts <= code < 65536 -> 0 <= n < 65536 ->
  capacity f < 2 * nb_len f + len (wire_bytes (added code value n)) ->
  exists m', zoap_add_option fuel w pkt code value n = Some (- EINVAL, mk_net m' (bufs w)) /\
    forall x, x < nb_data f + nb_len f \/ nb_data f + nb_len f + 5 <= x -> m' x = mem w x.
Proof.
  intros Hfuel Hc Hn Hroom. pose proof (last_code_ge 0 opts (bd_options _ _ _ _ _ Hb)).
  rewrite add_built by (done || lia). rewrite (proj2 (Z.leb_le _ _)) by lia.
  destruct (encode_option_fails (mem w) add_context code value n) as (m' & -> & Hm'); [cbn; lia|done| |].
  { change (new_wire (mem w) add_context code value n) with (added code value n). cbn [add_context oc_buflen]. lia. }
  exists m'. split; [done|exact Hm'].
Qed.

(** There is room: the option is added, and nothing else is changed. *)
Lemma add_room fuel code value n :
  let k := len (wire_bytes (added code value n)) in
  (length opts < fuel)%nat -> last_code 0 opts <= code < 65536 -> 0 <= n < 65536 ->
  2 * nb_len f + k <= capacity f -> nb_len f + k <= 32768 ->
  disjoint_from (nb_data f + nb_len f) k value n ->
  exists m', let w' := set_len (frag_addr w pkt) (nb_len f + k) (mk_net m' (bufs w)) in
    zoap_add_option fuel w pkt code value n = Some (0, w') /\
    building w' pkt hdr tok (opts ++ [(code, read_bytes (mem w) value n)]) /\
    forall x, x < nb_data f + nb_len f \/ nb_data f + nb_len f + k <= x -> m' x = mem w x.
Proof.
  intros k Hfuel Hc Hn Hroom H32 Hdis. pose proof (last_code_ge 0 opts (bd_options _ _ _ _ _ Hb)).
  pose proof building_len as Hlen. pose proof (bd_frag _ _ _ _ _ Hb) as Hf.
  assert (0 <= k) by lia.
  destruct (encode_option (mem w) add_context code value n) as (m' & E & A);
    [cbn; lia|done| |done|].
  { change (len (wire_bytes (new_wire (mem w) add_context code value n))) with k.
    cbn [add_context oc_buflen]. unfold capacity. destruct Hf. unfold f in *. unfold capacity in Hroom. lia. }
  change (new_wire (mem w) add_context code value n) with (added code value n) in E, A. fold k in E.
  exists m'. cbn zeta. rewrite add_built by (done || lia). rewrite (proj2 (Z.leb_le _ _)), E by lia.
  rewrite (proj2 (Z.ltb_ge _ _)) by lia. cbn [add_context oc_buf] in A.
  split; [done|]. split; [|intros x Hx; by apply (appended_out _ _ _ _ _ A)].
  assert (frag (set_len (frag_addr w pkt) (nb_len f + k) (mk_net m' (bufs w))) pkt =
    set_nb_len (nb_len f + k) f) as Ef.
  { change (frag_addr w pkt) with (frag_addr (mk_net m' (bufs w)) pkt).
    rewrite frag_set_len, u16_small by lia. done. }
  destruct Hb as [Hs Hfo Hh Ht Ho By _]. split; rewrite ?Ef; try done.
  - apply frag_ok_set_len; [done|]. lia.
  - apply opts_ordered_cat. cbn [opts_ordered]. rewrite read_length by lia. repeat (done || split || lia).
  - unfold content. rewrite Ef. cbn [set_nb_len nb_data nb_len set_len mem]. rewrite read_app by lia.
    rewrite wires_cat, wires_app. cbn [wires]. rewrite read_length by lia. rewrite !app_assoc. f_equal.
    + rewrite <- app_assoc, <- By. unfold content. fold f. apply read_bytes_ext. intros i Hi.
      apply (appended_out _ _ _ _ _ A). lia.
    + apply appended_found, found_read in A. fold k in A. rewrite A. unfold wires_bytes. cbn. by rewrite app_nil_r.
Qed.
End Building.

(** ** The header *)
Lemma read_insert m a n i b :
  0 <= i < n -> read_bytes (<[a + i := b]> m) a n = <[Z.to_nat i := b]> (read_bytes m a n).
Proof.
  intros Hi. unfold read_bytes. apply list_eq. intros j. rewrite list_lookup_fmap.
  destruct (decide (j = Z.to_nat i)) as [->|Hj].
  - rewrite list_lookup_insert_eq by (rewrite length_fmap, length_seqZ; lia).
    rewrite lookup_seqZ_lt by lia. cbn. by rewrite Z2Nat.id, fn_lookup_insert by lia.
  - rewrite list_lookup_insert_ne by done. rewrite list_lookup_fmap.
    destruct (decide (Z.of_nat j < n)); [|by rewrite lookup_seqZ_ge by lia].
    rewrite lookup_seqZ_lt by lia. cbn. by rewrite fn_lookup_insert_ne by lia.
Qed.

Section Header.
Implicit Types (w : net) (pkt : zoap_packet).

Lemma set_header_byte w pkt hdr tok opts i b :
  building w pkt hdr tok opts -> 0 <= i < 4 -> (i = 0 -> Z.land b 15 = Z.land (hd 0 hdr) 15) ->
  building (on_mem (<[appdata w pkt + i := b]>) w) pkt (<[Z.to_nat i := b]> hdr) tok opts.
Proof.
  intros [Hs Hf Hh Ht Ho By H32] Hi Hb0. split; try done.
  - by rewrite length_insert.
  - destruct (decide (i = 0)) as [->|Hne].
    + destruct hdr as [|b0 hdr]; [done|]. change (hd 0 (<[Z.to_nat 0 := b]> (b0 :: hdr))) with b.
      by rewrite Hb0.
    + destruct hdr; [done|]. replace (Z.to_nat i) with (S (Z.to_nat (i - 1))) by lia. done.
  - assert (4 <= nb_len (frag w pkt)) as H4.
    { pose proof (f_equal length By) as El. unfold content in El.
      rewrite length_app in El. unfold read_bytes in El. rewrite length_fmap, length_seqZ in El. lia. }
    unfold content. rewrite frag_on_mem. cbn [on_mem mem]. rewrite read_insert by lia.
    unfold content in By. rewrite By, insert_app_l by lia. done.
Qed.

(** The fields of the first byte. *)
Definition first_byte (ver type tkl : Z) : Z := ver * 64 + type * 16 + tkl.

(** A header with a byte replaced, as a list again. *)
Ltac header_list H :=
  change (<[Z.to_nat 0 := ?x]> [?a; ?b; ?c; ?d]) with [x; b; c; d] in H ||
  change (<[Z.to_nat 1 := ?x]> [?a; ?b; ?c; ?d]) with [a; x; c; d] in H ||
  change (<[Z.to_nat 2 := ?x]> [?a; ?b; ?c; ?d]) with [a; b; x; d] in H ||
  change (<[Z.to_nat 3 := ?x]> [?a; ?b; ?c; ?d]) with [a; b; c; x] in H.

Lemma set_first_byte ver type tkl :
  0 <= ver < 4 -> 0 <= type < 4 -> 0 <= tkl < 16 ->
  u8 (Z.lor 0 (Z.shiftl (Z.land ver 3) 6)) = first_byte ver 0 0 /\
  u8 (Z.lor (first_byte ver 0 0) (Z.shiftl (Z.land type 3) 4)) = first_byte ver type 0 /\
  u8 (Z.lor (first_byte ver type 0) (Z.land tkl 15)) = first_byte ver type tkl.
Proof.
  intros Hv Ht Hk. unfold first_byte. change 3 with (Z.ones 2). change 15 with (Z.ones 4).
  rewrite !low_bits by (cbn; lia). rewrite !Z.shiftl_mul_pow2 by lia. rewrite Z.lor_0_l.
  change (2 ^ 6) with 64. change (2 ^ 4) with 16. split; [rewrite u8_small; lia|]. split.
  - replace (ver * 64 + 0 * 16 + 0) with (ver * 2 ^ 6) by lia.
    rewrite or_fields by (cbn; lia). rewrite u8_small by (cbn; lia). cbn. lia.
  - replace (ver * 64 + type * 16 + 0) with ((ver * 4 + type) * 2 ^ 4) by lia.
    rewrite or_fields by (cbn; lia). rewrite u8_small by (cbn; lia). cbn. lia.
Qed.

Lemma get_first_byte ver type tkl :
  0 <= ver < 4 -> 0 <= type < 4 -> 0 <= tkl < 16 ->
  Z.shiftr (Z.land (first_byte ver type tkl) 192) 6 = ver /\
  Z.shiftr (Z.land (first_byte ver type tkl) 48) 4 = type /\
  Z.land (first_byte ver type tkl) 15 = tkl.
Proof.
  intros Hv Ht Hk. rewrite !Z.shiftr_land. change (Z.shiftr 192 6) with (Z.ones 2).
  change (Z.shiftr 48 4) with (Z.ones 2). change 15 with (Z.ones 4).
  rewrite !Z.land_ones, !Z.shiftr_div_pow2 by lia. unfold first_byte.
  change (2 ^ 6) with 64. change (2 ^ 4) with 16. change (2 ^ 2) with 4. split_and!.
  - replace (ver * 64 + type * 16 + tkl) with ((type * 16 + tkl) + ver * 64) by lia.
    rewrite Z.div_add, Z.div_small, Z.mod_small by lia. lia.
  - replace (ver * 64 + type * 16 + tkl) with (tkl + (ver * 4 + type) * 16) by lia.
    rewrite Z.div_add, Z.div_small by lia.
    replace (0 + (ver * 4 + type)) with (type + ver * 4) by lia. rewrite Z.mod_add, Z.mod_small by lia. done.
  - replace (ver * 64 + type * 16 + tkl) with (tkl + (ver * 4 + type) * 16) by lia.
    rewrite Z.mod_add, Z.mod_small by lia. done.
Qed.

Lemma building_found w pkt hdr tok opts :
  building w pkt hdr tok opts ->
  found (mem w) (appdata w pkt) (hdr ++ tok ++ wires_bytes (wires 0 opts)).
Proof. intros Hb. rewrite <- (bd_bytes _ _ _ _ _ Hb). apply read_found. Qed.

(** Calls that write into the fragment of a packet, and nothing else. *)
Record within w pkt w' : Prop := {
  wi_frag : exists n, frag w' pkt = set_nb_len n (frag w pkt);
  wi_mem : forall x, x < nb_data (frag w pkt) \/ nb_data (frag w pkt) + capacity (frag w pkt) <= x ->
    mem w' x = mem w x
}.

Lemma within_trans w pkt w' w'' : within w pkt w' -> within w' pkt w'' -> within w pkt w''.
Proof.
  intros [[n Ef] Hm] [[n' Ef'] Hm']. split; [exists n'; by rewrite Ef', Ef|].
  intros x Hx. rewrite Hm' by (rewrite Ef; exact Hx). by apply Hm.
Qed.

Lemma within_read w pkt w' a n :
  within w pkt w' -> disjoint_from (nb_data (frag w pkt)) (capacity (frag w pkt)) a n ->
  read_bytes (mem w') a n = read_bytes (mem w) a n.
Proof.
  intros [_ Hm] Hd. apply read_bytes_ext. intros i Hi. apply Hm. unfold disjoint_from in Hd. lia.
Qed.

Lemma within_byte w pkt hdr tok opts i b :
  building w pkt hdr tok opts -> 0 <= i < 4 -> within w pkt (on_mem (<[appdata w pkt + i := b]>) w).
Proof.
  intros Hb Hi. destruct (building_options _ _ _ _ _ Hb) as (_ & _ & El). destruct (bd_frag _ _ _ _ _ Hb).
  unfold capacity. split.
  - exists (nb_len (frag w pkt)). rewrite frag_on_mem. by destruct (frag w pkt).
  - intros x Hx. unfold capacity in Hx. cbn. apply fn_lookup_insert_ne. unfold appdata. lia.
Qed.

Lemma header_step w pkt hdr tok opts i b :
  building w pkt hdr tok opts -> 0 <= i < 4 -> (i = 0 -> Z.land b 15 = Z.land (hd 0 hdr) 15) ->
  let w' := on_mem (<[appdata w pkt + i := b]>) w in
  building w' pkt (<[Z.to_nat i := b]> hdr) tok opts /\ within w pkt w'.
Proof. intros. split; [by apply set_header_byte|by eapply within_byte]. Qed.

Lemma or_first_byte w pkt b0 hdr tok opts v :
  building w pkt (b0 :: hdr) tok opts ->
  or_first v w pkt = on_mem (<[appdata w pkt + 0 := u8 (Z.lor b0 v)]>) w.
Proof.
  intros Hb. apply building_found, found_cons in Hb as [E _]. unfold or_first. by rewrite E, Z.add_0_r.
Qed.

(** *** A new packet *)
Lemma init_ok w pkt0 buf :
  let pkt := mk_packet buf 0 in
  buf <> 0 -> frag_ok (frag w pkt) -> nb_len (frag w pkt) = 0 -> 4 <= capacity (frag w pkt) ->
  exists w', zoap_packet_init w pkt0 buf = Some (0, pkt, w') /\
    building w' pkt [0; 0; 0; 0] [] [] /\ within w pkt w'.
Proof.
  intros pkt Hbuf Hf H0 H4. unfold zoap_packet_init. rewrite (proj2 (Z.eqb_neq _ _)) by done.
  change (bufs w (nb_frags (bufs w buf))) with (frag w pkt).
  rewrite tailroom_ok, (proj2 (Z.ltb_ge _ _)) by (unfold BASIC_HEADER_SIZE; lia || done).
  unfold net_buf_add. change (nb_frags (bufs w buf)) with (frag_addr w pkt).
  change (bufs w (frag_addr w pkt)) with (frag w pkt). unfold net_buf_simple_tail. rewrite H0, Z.add_0_r.
  eexists. split; [done|]. set (w' := on_mem _ _).
  assert (frag w' pkt = set_nb_len 4 (frag w pkt)) as Ef.
  { unfold w'. rewrite frag_on_mem, frag_set_len, u16_small by (unfold BASIC_HEADER_SIZE; lia). done. }
  split; [split|split]; rewrite ?Ef; try done.
  - apply frag_ok_set_len; [done|lia].
  - unfold content. rewrite Ef. cbn [set_nb_len nb_data nb_len]. apply (found_read _ _ [0; 0; 0; 0]).
    intros i Hi. cbn [length] in Hi. unfold w', on_mem, set_len, fill, BASIC_HEADER_SIZE. cbn [mem].
    rewrite (proj2 (Z.leb_le _ _)), (proj2 (Z.ltb_lt _ _)) by lia. destruct i as [|[|[|[|i]]]]; (done || lia).
  - by exists 4.
  - intros x Hx. unfold w', on_mem, set_len, fill, BASIC_HEADER_SIZE. cbn [mem].
    destruct (Z.leb_spec (nb_data (frag w pkt)) x), (Z.ltb_spec x (nb_data (frag w pkt) + 4)); try done. lia.
Qed.

(** *** The fields *)
Lemma set_fields w pkt ver type code id :
  building w pkt [0; 0; 0; 0] [] [] -> 0 <= ver < 4 -> 0 <= type < 4 -> 0 <= id < 65536 ->
  let w1 := zoap_header_set_version w pkt ver in
  let w2 := zoap_header_set_type w1 pkt type in
  let w3 := zoap_header_set_code w2 pkt code in
  let w4 := zoap_header_set_id w3 pkt id in
  building w4 pkt [first_byte ver type 0; code; id / 256; id `mod` 256] [] [] /\ within w pkt w4.
Proof.
  intros Hb Hv Ht Hid w1 w2 w3 w4. destruct (set_first_byte ver type 0) as (E1 & E2 & _); [lia..|].
  assert (forall v t, 0 <= v < 4 -> 0 <= t < 4 -> Z.land (first_byte v t 0) 15 = 0) as H15
    by (intros v t ? ?; apply (get_first_byte v t 0); lia).
  assert (w1 = on_mem (<[appdata w pkt + 0 := first_byte ver 0 0]>) w) as W1
    by (unfold w1, zoap_header_set_version; rewrite (or_first_byte _ _ 0 _ _ _ _ Hb), E1; done).
  destruct (header_step _ _ _ _ _ 0 (first_byte ver 0 0) Hb) as [B1 I1]; [lia|intros _; by rewrite H15 by lia|].
  rewrite <- W1 in B1, I1. header_list B1.
  assert (w2 = on_mem (<[appdata w1 pkt + 0 := first_byte ver type 0]>) w1) as W2
    by (unfold w2, zoap_header_set_type; rewrite (or_first_byte _ _ _ _ _ _ _ B1), E2; done).
  destruct (header_step _ _ _ _ _ 0 (first_byte ver type 0) B1) as [B2 I2];
    [lia|intros _; cbn [hd]; by rewrite !H15 by lia|].
  rewrite <- W2 in B2, I2. header_list B2.
  destruct (header_step _ _ _ _ _ 1 code B2) as [B3 I3]; [lia|lia|]. fold w3 in B3, I3. header_list B3.
  destruct (header_step _ _ _ _ _ 2 (id / 256) B3) as [B4 I4]; [lia|lia|]. header_list B4.
  destruct (header_step _ _ _ _ _ 3 (id `mod` 256) B4) as [B5 I5]; [lia|lia|]. header_list B5.
  assert (w4 = on_mem (<[appdata w3 pkt + 3 := id `mod` 256]>)
    (on_mem (<[appdata w3 pkt + 2 := id / 256]>) w3)) as ->.
  { unfold w4, zoap_header_set_id, on_mem, sys_put_be16. cbn [mem bufs]. f_equal.
    rewrite u16_small, shiftr_8 by lia. destruct (be16_range id Hid). rewrite (u8_small (id / 256)) by lia.
    replace (appdata w3 pkt + 2 + 1) with (appdata w3 pkt + 3) by lia. done. }
  split; [exact B5|]. do 4 (eapply within_trans; [first [exact I1|exact I2|exact I3|exact I4]|]). exact I5.
Qed.

(** *** The token *)
Lemma set_token w pkt ver type b1 b2 b3 token n :
  building w pkt [first_byte ver type 0; b1; b2; b3] [] [] -> 0 <= ver < 4 -> 0 <= type < 4 -> 0 <= n <= 8 ->
  8 + n <= capacity (frag w pkt) ->
  disjoint_from (nb_data (frag w pkt)) (capacity (frag w pkt)) token n ->
  exists w', zoap_header_set_token w pkt token n = (0, w') /\
    building w' pkt [first_byte ver type n; b1; b2; b3] (read_bytes (mem w) token n) [] /\ within w pkt w'.
Proof.
  intros Hb Hv Ht Hn Hcap Hdis. set (f := frag w pkt) in *.
  destruct (set_first_byte ver type n) as (_ & _ & E3); [lia..|].
  destruct (building_options _ _ _ _ _ Hb) as (_ & _ & El). change (nb_len f = 4) in El.
  pose proof (bd_frag _ _ _ _ _ Hb) as Hf. fold f in Hf.
  unfold zoap_header_set_token, BASIC_HEADER_SIZE. fold f. rewrite (tailroom_ok f Hf), El.
  rewrite !(proj2 (Z.ltb_ge _ _)) by lia. eexists. split; [done|].
  set (w1 := set_len _ _ w).
  assert (frag w1 pkt = set_nb_len (4 + n) f) as Ef
    by (unfold w1; rewrite frag_set_len, u16_small by lia; done).
  assert (or_first (Z.land n 15) w1 pkt = on_mem (<[nb_data f + 0 := first_byte ver type n]>) w1) as ->.
  { apply building_found, found_cons in Hb as [E _]. unfold appdata in E. fold f in E.
    unfold or_first, appdata. rewrite Ef. cbn [set_nb_len nb_data w1 set_len mem]. by rewrite E, E3, Z.add_0_r. }
  set (w' := on_mem _ _). assert (frag w' pkt = set_nb_len (4 + n) f) as Ef' by done.
  assert (mem w' = memcpy (nb_data f + 4) token n (<[nb_data f + 0 := first_byte ver type n]> (mem w))) as Em
    by done.
  assert (len (read_bytes (mem w) token n) = n) as Er by (apply read_length; lia).
  destruct Hb as [Hs _ _ _ _ By _]. unfold content in By. fold f in By. rewrite El in By.
  unfold disjoint_from in Hdis. pose proof Hf as [? ? ? ? ?]. unfold capacity in *.
  split; [split|split]; rewrite ?Ef'; try done.
  - apply frag_ok_set_len; [done|]. unfold capacity. lia.
  - rewrite Er. cbn [hd]. destruct (get_first_byte ver type n) as (_ & _ & ->); lia.
  - unfold content. rewrite Ef', Em. cbn [set_nb_len nb_data nb_len]. rewrite read_app by lia.
    rewrite read_memcpy_same, read_memcpy_other by (unfold disjoint_from; lia).
    rewrite read_insert by lia. cbn in By. rewrite By. cbn [wires_bytes wires]. rewrite app_nil_r.
    f_equal. apply read_bytes_ext. intros i Hi. apply fn_lookup_insert_ne. lia.
  - cbn [set_nb_len nb_len]. lia.
  - by exists (4 + n).
  - intros x Hx. fold f in Hx. unfold capacity in Hx. rewrite Em, memcpy_out by lia. apply fn_lookup_insert_ne. lia.
Qed.
End Header.

(** ** Many options *)

(** Options (number, value and length) added one after the other, until a call
    fails. *)
Fixpoint add_options (fuel : nat) (w : net) (pkt : zoap_packet) (l : list (Z * Z * Z)) : option (Z * net) :=
  match l with
  | [] => Some (0, w)
  | (code, value, n) :: l =>
      match zoap_add_option fuel w pkt code value n with
      | None => None
      | Some (r, w) => if r <? 0 then Some (r, w) else add_options fuel w pkt l
      end
  end.

(** The options with the bytes of their values. *)
Definition values (m : memory) (l : list (Z * Z * Z)) : list (Z * list Z) :=
  (fun '(code, value, n) => (code, read_bytes m value n)) <$> l.

(** Regions of memory apart from the storage of a fragment. *)
Definition apart (f : net_buf) (a n : Z) : Prop := disjoint_from (nb_data f) (capacity f) a n.

Lemma values_within w pkt w' l :
  within w pkt w' -> Forall (fun '(_, value, n) => apart (frag w pkt) value n) l ->
  values (mem w') l = values (mem w) l.
Proof.
  intros Hw Hl. apply list_fmap_ext. intros i [[c v] n] Hi. f_equal.
  rewrite Forall_forall in Hl. apply list_elem_of_lookup_2, Hl in Hi. by eapply within_read.
Qed.

Lemma add_one w pkt hdr tok opts fuel code value n :
  let k := len (wire_bytes (added w opts code value n)) in
  building w pkt hdr tok opts -> (length opts < fuel)%nat -> last_code 0 opts <= code < 65536 ->
  0 <= n < 65536 -> 2 * (nb_len (frag w pkt) + k) <= capacity (frag w pkt) ->
  nb_len (frag w pkt) + k <= 32768 -> apart (frag w pkt) value n ->
  exists w', zoap_add_option fuel w pkt code value n = Some (0, w') /\
    building w' pkt hdr tok (opts ++ [(code, read_bytes (mem w) value n)]) /\ within w pkt w'.
Proof.
  intros k Hb Hfuel Hc Hn Hroom H32 Hap. destruct (building_len _ _ _ _ _ Hb) as [H0 _].
  set (f := frag w pkt) in *. assert (0 <= k) by lia.
  destruct (add_room w pkt hdr tok opts Hb fuel code value n) as (m' & E & Hb' & Hm'); fold f k; try done; try lia.
  { unfold apart, disjoint_from in *. lia. }
  fold f k in E, Hb', Hm'. eexists. split_and!; [exact E|exact Hb'|]. split.
  - exists (u16 (nb_len f + k)). change (frag_addr w pkt) with (frag_addr (mk_net m' (bufs w)) pkt).
    by rewrite frag_set_len.
  - intros x Hx. fold f in Hx. apply Hm'. lia.
Qed.

Lemma add_options_ok fuel l : forall w pkt hdr tok opts,
  let all := opts ++ values (mem w) l in
  let total := 4 + len tok + len (wires_bytes (wires 0 all)) in
  building w pkt hdr tok opts -> opts_ordered 0 all ->
  Forall (fun '(_, value, n) => 0 <= n < 65536 /\ apart (frag w pkt) value n) l ->
  2 * total <= capacity (frag w pkt) -> total <= 32768 -> (length all < fuel)%nat ->
  exists w', add_options fuel w pkt l = Some (0, w') /\ building w' pkt hdr tok all /\ within w pkt w'.
Proof.
  induction l as [|[[code value] n] l IH]; intros w pkt hdr tok opts all total Hb Hok Hl Hroom H32 Hfuel.
  - exists w. unfold all. cbn. rewrite app_nil_r. split_and!; [done|done|]. split; [|done].
    exists (nb_len (frag w pkt)). by destruct (frag w pkt).
  - apply Forall_cons in Hl as [[Hn Hap] Hl]. set (v := read_bytes (mem w) value n).
    assert (all = (opts ++ [(code, v)]) ++ values (mem w) l) as Eall by (unfold all; rewrite <- app_assoc; done).
    pose proof Hok as Hok'. rewrite Eall in Hok'. apply opts_ordered_cat in Hok' as [Hok1 _].
    apply opts_ordered_cat in Hok1 as [_ (Hc & _ & _)].
    destruct (building_options _ _ _ _ _ Hb) as (_ & _ & El).
    assert (nb_len (frag w pkt) + len (wire_bytes (added w opts code value n)) <= total) as Htot.
    { unfold total. rewrite El, Eall, wires_cat, wires_cat, !wires_app, !length_app. cbn [wires].
      rewrite wires_cons, length_app. unfold v, added. rewrite read_length by lia. lia. }
    assert (length all = S (length opts + length l)) as Elen
      by (unfold all; rewrite length_app; unfold values; rewrite length_fmap; cbn; lia).
    destruct (add_one w pkt hdr tok opts fuel code value n) as (w' & E & Hb' & Hw); try done; try lia.
    fold v in Hb'. cbn [add_options]. rewrite E. cbn [Z.ltb Z.compare].
    assert (values (mem w') l = values (mem w) l) as Ev.
    { apply (values_within _ pkt); [done|]. eapply Forall_impl; [exact Hl|]. by intros [[? ?] ?] [? ?]. }
    destruct (wi_frag _ _ _ Hw) as [n' Ef].
    destruct (IH w' pkt hdr tok (opts ++ [(code, v)])) as (w'' & E' & Hb'' & Hw'');
      rewrite ?Ev, <- ?Eall, ?Ef; try done.
    exists w''. rewrite Ev, <- Eall in Hb''. split_and!; [done|done|]. by eapply within_trans.
Qed.

End ZoapMessage.
