(* ===== verification/ZoapRoundtrip.v ===== *)
(** * CoAP messages, from the sender to the receiver (lib/iot/zoap/zoap.c)

    The calls that make a message, with its payload, and that the receiver gets
    back the header, the token, the options and the payload. *)
From S2P Require Import Prelude Kernel LibcString Bytes Zoap ZoapOptions ZoapPacket ZoapBuild ZoapMessage.

Module ZoapRoundtrip.
Import Zoap ZoapOptions ZoapPacket ZoapBuild ZoapMessage.

(** ** The sender *)

(** The payload, copied to where [zoap_packet_get_payload] says. *)
Definition add_payload (w : net) (pkt : zoap_packet) (payload n : Z) : Z * zoap_packet * net :=
  if n =? 0 then (0, pkt, w)
  else
    let '(p, _, pkt, w) := zoap_packet_get_payload w pkt in
    if p =? 0 then (- ENOMEM, pkt, w)
    else
      let '(r, w) := zoap_packet_set_used (on_mem (memcpy p payload n) w) pkt n in (r, pkt, w).

(** A new packet, its header and token, its options, its payload; the first error
    ends it. *)
Definition make_message (fuel : nat) (w : net) (pkt : zoap_packet)
    (buf ver type code id token tkl : Z) (l : list (Z * Z * Z)) (payload n : Z)
    : option (Z * zoap_packet * net) :=
  match zoap_packet_init w pkt buf with
  | None => None
  | Some (r, pkt, w) =>
      if r <? 0 then Some (r, pkt, w)
      else
        let w := zoap_header_set_version w pkt ver in
        let w := zoap_header_set_type w pkt type in
        let w := zoap_header_set_code w pkt code in
        let w := zoap_header_set_id w pkt id in
        let '(r, w) := zoap_header_set_token w pkt token tkl in
        if r <? 0 then Some (r, pkt, w)
        else
          match add_options fuel w pkt l with
          | None => None
          | Some (r, w) => if r <? 0 then Some (r, pkt, w) else Some (add_payload w pkt payload n)
          end
  end.

(** What follows the options. *)
Definition payload_part (v : list Z) : list Z := if len v =? 0 then [] else COAP_MARKER :: v.

Lemma payload_ok w pkt hdr tok opts payload n :
  let f := frag w pkt in
  building w pkt hdr tok opts -> 0 < n -> apart f payload n ->
  2 * (nb_len f + 1 + n) <= capacity f -> nb_len f + 1 + n <= 32768 ->
  exists s w', add_payload w pkt payload n = (0, mk_packet (pk_buf pkt) s, w') /\
    content w' pkt = content w pkt ++ COAP_MARKER :: read_bytes (mem w) payload n /\
    nb_len (frag w' pkt) = nb_len f + 1 + n.
Proof.
  intros f Hb Hn Hap Hroom H32. pose proof (bd_frag _ _ _ _ _ Hb) as Hf. fold f in Hf.
  pose proof Hf as [Hd ? ? ? ?]. unfold add_payload. rewrite (proj2 (Z.eqb_neq n 0)) by lia.
  unfold zoap_packet_get_payload. rewrite (bd_start _ _ _ _ _ Hb). cbn [Z.eqb]. fold f.
  rewrite (tailroom_ok f Hf), (proj2 (Z.ltb_ge _ _)) by lia.
  set (w1 := on_mem _ w). change (frag_addr w pkt) with (frag_addr w1 pkt). set (w2 := set_len _ _ w1).
  assert (frag w2 pkt = set_nb_len (nb_len f + 1) f) as Ef2
    by (unfold w2; rewrite frag_set_len, u16_small by lia; done).
  assert (bufs w2 (frag_addr w1 pkt) = set_nb_len (nb_len f + 1) f) as Eb
    by (rewrite <- Ef2; unfold frag; unfold w2 at 3; by rewrite frag_addr_set_len).
  rewrite Eb. cbn [set_nb_len nb_data nb_len]. rewrite (proj2 (Z.eqb_neq _ _)) by lia.
  set (pkt' := mk_packet _ _). unfold zoap_packet_set_used.
  set (w3 := on_mem _ w2). change (frag w3 pkt') with (frag w2 pkt). rewrite Ef2.
  rewrite tailroom_ok, (proj2 (Z.ltb_ge _ _))
    by (apply frag_ok_set_len; [done|lia] || (unfold capacity in *; cbn in *; lia)).
  change (frag_addr w3 pkt') with (frag_addr w3 pkt). cbn [set_nb_len nb_len].
  eexists _, _. split; [done|]. set (w4 := set_len _ _ w3).
  assert (frag w4 pkt = set_nb_len (nb_len f + 1 + n) f) as Ef4.
  { unfold w4. rewrite frag_set_len, u16_small by lia. change (frag w3 pkt) with (frag w2 pkt). by rewrite Ef2. }
  split; [|by rewrite Ef4]. unfold content. rewrite Ef4. fold f. cbn [set_nb_len nb_data nb_len].
  change (mem w4) with (memcpy (nb_data f + (nb_len f + 1)) payload n (mem w1)).
  unfold apart, disjoint_from, capacity in *. rewrite !read_app by lia. rewrite <- app_assoc.
  rewrite (read_cons _ _ 1), (read_nil _ _ (1 - 1)) by lia. cbn [app]. f_equal; [|f_equal].
  - apply read_bytes_ext. intros i Hi. rewrite memcpy_out by lia. apply fn_lookup_insert_ne. lia.
  - rewrite memcpy_out by lia. apply fn_lookup_insert.
  - rewrite read_memcpy_same. apply read_bytes_ext. intros i Hi. apply fn_lookup_insert_ne. lia.
Qed.

(** ** The receiver *)

(** The codes that zoap.h defines: the methods, the responses and the empty one. *)
Definition defined_codes : list Z :=
  [ZOAP_METHOD_GET; ZOAP_METHOD_POST; ZOAP_METHOD_PUT; ZOAP_METHOD_DELETE] ++
  (zoap_make_response_code 2 <$> [0; 1; 2; 3; 4; 5]) ++
  (zoap_make_response_code 4 <$> [0; 1; 2; 3; 4; 5; 6; 8; 12; 13; 15]) ++
  (zoap_make_response_code 5 <$> [0; 1; 2; 3; 4; 5]) ++ [ZOAP_CODE_EMPTY].

(** The receiver takes 4.08 and 4.15, and what is no code, for the empty code. *)
Definition lost_codes : list Z := zoap_make_response_code 4 <$> [8; 15].
Definition read_code (code : Z) : Z :=
  if bool_decide (code ∈ defined_codes /\ code ∉ lost_codes) then code else ZOAP_CODE_EMPTY.

Lemma known_codes_are code : code ∈ known_codes <-> code ∈ defined_codes /\ code ∉ lost_codes.
Proof.
  assert (Forall (fun c => c ∈ defined_codes /\ c ∉ lost_codes) known_codes) as H1
    by (apply (bool_decide_unpack _); by vm_compute).
  assert (Forall (fun c => c ∉ lost_codes -> c ∈ known_codes) defined_codes) as H2
    by (apply (bool_decide_unpack _); by vm_compute).
  rewrite Forall_forall in H1, H2. split; [apply H1|]. intros [Hc Hl]. by apply H2.
Qed.

(** Two of the codes that zoap.h defines are not read back. *)
Lemma two_codes_lost :
  Forall (fun code => code ∈ defined_codes /\ read_code code = ZOAP_CODE_EMPTY) lost_codes.
Proof. apply (bool_decide_unpack _). by vm_compute. Qed.

(** What the functions of the receiver give on a packet. *)
Record message_received (w : net) (buf ver type code id : Z) (tok : list Z) (opts : list (Z * list Z))
    (payload : list Z) : Prop := {
  rc_parse : exists s,
    zoap_packet_parse (S (Z.to_nat (nb_len (frag w (mk_packet buf 0))))) w buf = Some (0, mk_packet buf s) /\
    (payload = [] -> s = 0) /\
    (payload <> [] -> read_bytes (mem w) s (len payload) = payload /\
       s + len payload = nb_data (frag w (mk_packet buf 0)) + nb_len (frag w (mk_packet buf 0)));
  rc_version : zoap_header_get_version w (mk_packet buf 0) = ver;
  rc_type : zoap_header_get_type w (mk_packet buf 0) = type;
  rc_code : zoap_header_get_code w (mk_packet buf 0) = read_code code;
  rc_id : zoap_header_get_id w (mk_packet buf 0) = id;
  rc_token : let '(t, n) := zoap_header_get_token w (mk_packet buf 0) in
             n = len tok /\ (0 < n -> read_bytes (mem w) t n = tok);
  rc_find : forall num veclen, exists l,
    zoap_find_options (S (length opts)) w (mk_packet buf 0) num veclen = Some (len l, l) /\
    value_at (mem w) <$> l = take (Z.to_nat veclen) (values_of num opts)
}.

Section Receiver.
Context (w : net) (buf ver type code id : Z) (tok : list Z) (opts : list (Z * list Z)) (payload : list Z).
Let pkt := mk_packet buf 0.
Context (Hbuf : buf <> 0) (Hver : 0 <= ver < 4) (Htype : 0 <= type < 4)
  (Hid : 0 <= id < 65536).
Context (Hh : holds w pkt [first_byte ver type (len tok); code; id / 256; id `mod` 256] tok opts
  (payload_part payload)).

Lemma held_found :
  found (mem w) (nb_data (frag w pkt))
    ([first_byte ver type (len tok); code; id / 256; id `mod` 256] ++ tok ++ wires_bytes (wires 0 opts) ++
     payload_part payload).
Proof. rewrite <- (af_bytes _ _ _ _ _ (ho_message _ _ _ _ _ _ Hh)). apply read_found. Qed.

Lemma received_payload : exists s,
  zoap_packet_parse (S (Z.to_nat (nb_len (frag w pkt)))) w buf = Some (0, mk_packet buf s) /\
  (payload = [] -> s = 0) /\
  (payload <> [] -> read_bytes (mem w) s (len payload) = payload /\
     s + len payload = nb_data (frag w pkt) + nb_len (frag w pkt)).
Proof.
  pose proof (ho_len _ _ _ _ _ _ Hh) as Hlen. pose proof (ho_message _ _ _ _ _ _ Hh) as Hm.
  destruct (held_options _ _ _ _ _ _ Hh) as (_ & _ & El). pose proof held_found as Hf.
  eexists. split; [apply (packet_parse_message w buf Hbuf ltac:(fold pkt; lia) _ _ _ _ ltac:(fold pkt; lia) Hm)|].
  fold pkt. unfold payload_part in *. destruct payload as [|b v]; cbn [length] in *; [done|].
  rewrite (proj2 (Z.eqb_neq (Z.of_nat _) 0)) in * by lia. cbn [length] in *.
  rewrite (proj2 (Z.leb_gt _ _)) by lia. split; [done|]. intros _. split; [|lia].
  apply (found_read _ _ (b :: v)). rewrite !found_app in Hf. destruct Hf as (_ & _ & _ & Hf).
  apply found_cons in Hf as [_ Hf]. cbn [length] in *. eapply found_at; [exact Hf|lia].
Qed.

Lemma receives : message_received w buf ver type code id tok opts payload.
Proof.
  pose proof (proj2 (af_token _ _ _ _ _ (ho_message _ _ _ _ _ _ Hh))) as H8. pose proof held_found as Hf.
  destruct (get_first_byte ver type (len tok)) as (E1 & E2 & E3); [lia..|].
  apply found_app in Hf as [Hf Htok]. apply found_app in Htok as [Htok _].
  rewrite !found_cons in Hf. destruct Hf as (F0 & F1 & F2 & F3 & _).
  fold (appdata w pkt) in F0, F1, F2, F3, Htok. split; fold pkt.
  - apply received_payload.
  - unfold zoap_header_get_version. by rewrite F0.
  - unfold zoap_header_get_type. by rewrite F0.
  - unfold zoap_header_get_code, coap_header_get_code. rewrite F1. unfold read_code.
    by rewrite (bool_decide_ext _ _ (known_codes_are code)).
  - unfold zoap_header_get_id. destruct (be16_range id Hid). pose proof (Z.div_mod id 256 ltac:(lia)).
    replace (appdata w pkt + 1 + 1) with (appdata w pkt + 2) in F2, F3 by lia.
    rewrite get_be16 by (rewrite ?F2, ?F3; lia). rewrite F2, F3. lia.
  - unfold zoap_header_get_token, coap_header_get_tkl. rewrite F0, E3.
    destruct (Z.eqb_spec (len tok) 0) as [E|E]; [by rewrite E|]. split; [done|]. intros _.
    by apply found_read.
  - intros num veclen. destruct (find_held _ _ _ _ _ _ (S (length opts)) num veclen Hh) as (l & E & El & _); [lia|].
    by exists l.
Qed.
End Receiver.

(** ** The message made *)
Section Sender.
Context (fuel : nat) (w : net) (pkt0 : zoap_packet) (buf ver type code id token tkl : Z)
  (l : list (Z * Z * Z)) (payload n : Z).
Let pkt := mk_packet buf 0.
Let f := frag w pkt.
Let opts := values (mem w) l.
Let tok := read_bytes (mem w) token tkl.
Let hdr := [first_byte ver type (len tok); code; id / 256; id `mod` 256].
Context (Hbuf : buf <> 0) (Hf : frag_ok f) (H0 : nb_len f = 0).
Context (Hver : 0 <= ver < 4) (Htype : 0 <= type < 4) (Hid : 0 <= id < 65536) (Htkl : 0 <= tkl <= 8).
Context (Htok : apart f token tkl) (Hok : opts_ordered 0 opts)
  (Hl : Forall (fun '(_, value, n) => 0 <= n < 65536 /\ apart f value n) l).
Context (Hfuel : (length l < fuel)%nat).

Lemma make_options :
  let total := 4 + tkl + len (wires_bytes (wires 0 opts)) in
  2 * total <= capacity f -> total <= 32768 ->
  exists w', make_message fuel w pkt0 buf ver type code id token tkl l payload n
               = Some (add_payload w' pkt payload n) /\
    building w' pkt hdr tok opts /\ within w pkt w'.
Proof.
  intros total Hroom H32. assert (len tok = tkl) as En by (apply read_length; lia).
  destruct (init_ok w pkt0 buf Hbuf Hf H0) as (w1 & E1 & B1 & I1); [fold pkt f; lia|]. fold pkt in E1, B1, I1.
  destruct (set_fields w1 pkt ver type code id B1 Hver Htype Hid) as [B2 I2]. cbn zeta in B2, I2.
  set (w2 := zoap_header_set_id _ _ _) in B2, I2. pose proof (within_trans _ _ _ _ I1 I2) as I3.
  destruct (wi_frag _ _ _ I3) as [n2 Ef2]. fold f in Ef2.
  destruct (set_token w2 pkt ver type code (id / 256) (id `mod` 256) token tkl B2 Hver Htype Htkl)
    as (w3 & E3 & B3 & I4).
  { rewrite Ef2. change (capacity (set_nb_len n2 f)) with (capacity f). lia. }
  { rewrite Ef2. exact Htok. }
  rewrite (within_read _ _ _ _ _ I3 Htok) in B3. fold tok in B3. pose proof (within_trans _ _ _ _ I3 I4) as I5.
  destruct (wi_frag _ _ _ I5) as [n3 Ef3]. fold f in Ef3.
  assert (values (mem w3) l = opts) as Ev.
  { apply (values_within _ pkt); [done|]. eapply Forall_impl; [exact Hl|]. by intros [[? ?] ?] [? ?]. }
  destruct (add_options_ok fuel l w3 pkt _ _ _ B3) as (w4 & E4 & B4 & I6); cbn [app]; rewrite ?Ev, ?En, ?Ef3; try done.
  { unfold opts, values. by rewrite length_fmap. }
  exists w4. rewrite Ev in B4. cbn [app] in B4. rewrite <- En in B4.
  split_and!; [|exact B4|by eapply within_trans]. unfold make_message. rewrite E1. cbn [Z.ltb Z.compare].
  fold w2. rewrite E3. cbn [Z.ltb Z.compare]. by rewrite E4.
Qed.

Lemma make_bytes :
  let body := read_bytes (mem w) payload n in
  let total := 4 + tkl + len (wires_bytes (wires 0 opts)) + len (payload_part body) in
  0 <= n -> apart f payload n -> 2 * total <= capacity f -> total <= 32768 ->
  exists s w', make_message fuel w pkt0 buf ver type code id token tkl l payload n = Some (0, mk_packet buf s, w') /\
    accepted_form (content w' pkt) hdr tok (wires 0 opts) (payload_part body) /\ nb_len (frag w' pkt) = total.
Proof.
  intros body total Hn Hap Hroom H32. assert (len body = n) as En by (apply read_length; lia).
  destruct make_options as (w1 & E & B & I); [lia..|]. destruct (wi_frag _ _ _ I) as [n1 Ef]. fold f in Ef.
  pose proof (building_holds _ _ _ _ _ B) as Hh. pose proof (held_options _ _ _ _ _ _ Hh) as (_ & _ & El).
  destruct Hh as [Hm _ _]. assert (len tok = tkl) as Et by (apply read_length; lia).
  unfold payload_part in *. unfold total in *. clear total. rewrite En in Hroom, H32 |- *.
  destruct (Z.eqb_spec n 0) as [->|Hn0].
  - exists 0, w1. rewrite E. split_and!; [done|done|]. cbn in El |- *. rewrite El, Et. lia.
  - cbn [length] in *.
    destruct (payload_ok w1 pkt hdr tok opts payload n B) as (s & w2 & E2 & Ec & El2); [lia| |..].
    + rewrite Ef. exact Hap.
    + rewrite Ef. change (capacity (set_nb_len n1 f)) with (capacity f). rewrite Ef in El. cbn in El |- *. lia.
    + cbn in El. lia.
    + exists s, w2. rewrite E, E2. split_and!; [done| |cbn in El; lia].
      destruct Hm as [By ? ? ? _]. split; [|done|done|done|by right].
      rewrite Ec, By, app_nil_r, <- !app_assoc. do 3 f_equal. f_equal. by apply (within_read _ _ _ _ _ I).
Qed.
End Sender.

(** C32: A CoAP message from the sender to the receiver. A packet made with
    [zoap_packet_init], the setters of the header and the token,
    [zoap_add_option] for options in the order of their numbers, and
    [zoap_packet_get_payload] and [zoap_packet_set_used] for the payload, in a
    buffer with room for twice the message, is made without an error; and on every
    buffer that holds the same bytes, [zoap_packet_parse] accepts it and finds the
    payload, the getters return the version, type, identifier and token that were
    set, and the code if it is one that zoap.h defines, 4.08 and 4.15 excepted, which
    are read as the empty code ([two_codes_lost]); and [zoap_find_options] returns, of every number, the values added
    under it, in order, up to the number asked for. *)
Theorem zoap_message_roundtrip fuel w pkt0 buf ver type code id token tkl l payload n :
  let f := frag w (mk_packet buf 0) in
  let opts := values (mem w) l in
  let body := read_bytes (mem w) payload n in
  let total := 4 + tkl + len (wires_bytes (wires 0 opts)) + len (payload_part body) in
  buf <> 0 -> frag_ok f -> nb_len f = 0 ->
  0 <= ver < 4 -> 0 <= type < 4 -> 0 <= code < 256 -> 0 <= id < 65536 -> 0 <= tkl <= 8 ->
  apart f token tkl -> opts_ordered 0 opts ->
  Forall (fun '(_, value, n) => 0 <= n < 65536 /\ apart f value n) l ->
  0 <= n -> apart f payload n ->
  2 * total <= capacity f -> total <= 32768 -> (length l < fuel)%nat ->
  exists s w', make_message fuel w pkt0 buf ver type code id token tkl l payload n
                 = Some (0, mk_packet buf s, w') /\
    forall w2 buf2, buf2 <> 0 -> frag_ok (frag w2 (mk_packet buf2 0)) ->
      content w2 (mk_packet buf2 0) = content w' (mk_packet buf 0) ->
      message_received w2 buf2 ver type code id (read_bytes (mem w) token tkl) opts body.
Proof.
  intros f opts body total Hbuf Hf H0 Hv Ht Hc Hid Hn8 Htok Hok Hl Hn Hap Hroom H32 Hfuel.
  destruct (make_bytes fuel w pkt0 buf ver type code id token tkl l payload n) as (s & w' & E & Hm & El);
    try done; try lia.
  exists s, w'. split; [done|]. intros w2 buf2 Hbuf2 Hf2 Ec.
  apply receives; try done. split; [by rewrite Ec|done|].
  apply (f_equal length) in Ec. unfold content, read_bytes in Ec. rewrite !length_fmap, !length_seqZ in Ec.
  destruct Hf2. fold opts body in El. lia.
Qed.

(** A response with two components of a path, a content format and a payload. *)
Definition blank_net : net :=
  mk_net (write 3000 [7; 9; 97; 98; 99; 40; 33; 34] (fun _ => 0))
    (fun b => if b =? 1 then mk_net_buf 2 0 0 0 0 else mk_net_buf 0 1000 0 64 1000).
Definition sample_options : list (Z * Z * Z) := [(11, 3002, 1); (11, 3003, 2); (12, 3005, 1)].

Lemma zoap_message_roundtrip_witness :
  exists s w', make_message 4 blank_net (mk_packet 0 0) 1 1 2 69 4660 3000 2 sample_options 3006 2
                 = Some (0, mk_packet 1 s, w') /\
    message_received w' 1 1 2 69 4660 [7; 9] [(11, [97]); (11, [98; 99]); (12, [40])] [33; 34].
Proof.
  destruct (zoap_message_roundtrip 4 blank_net (mk_packet 0 0) 1 1 2 69 4660 3000 2 sample_options 3006 2)
    as (s & w' & E & Hr); [lia|split; done|done|lia|lia|lia|lia|lia|left; done| | |lia|
      left; done|by vm_compute|by vm_compute|cbn; lia|].
  - vm_compute. repeat split; done.
  - repeat constructor; try done; left; done.
  - exists s, w'. split; [exact E|]. assert (frag w' (mk_packet 1 0) = mk_net_buf 0 1000 16 64 1000) as Ef.
    { assert ((fun x => frag x.2 (mk_packet 1 0)) <$>
        make_message 4 blank_net (mk_packet 0 0) 1 1 2 69 4660 3000 2 sample_options 3006 2 =
        Some (mk_net_buf 0 1000 16 64 1000)) as H by (vm_compute; reflexivity).
      rewrite E in H. by injection H. }
    exact (Hr w' 1 ltac:(done) ltac:(rewrite Ef; split; done) eq_refl).
Defined.
End ZoapRoundtrip.
