(* ===== verification/ZoapExchange.v ===== *)
(** * CoAP exchanges (lib/iot/zoap/zoap.c)

    Which pending request a response acknowledges, which handler of replies it is
    given to, which method of which resource a request calls, and the times of the
    retransmissions. *)
From S2P Require Import Prelude Kernel LibcString Bytes Zoap ZoapOptions ZoapPacket ZoapBuild ZoapMessage.

Module ZoapExchange.
Import Zoap ZoapOptions ZoapPacket ZoapBuild ZoapMessage.

(** ** Comparing bytes *)
Section Compare.
Implicit Types (m : memory) (a b n : Z).

Lemma memcmp_loop_zero (n : nat) a b m :
  Str.memcmp_loop n a b m = 0 <-> read_bytes m a (Z.of_nat (S n)) = read_bytes m b (Z.of_nat (S n)).
Proof.
  revert a b. induction n as [|n IH]; intros a b; rewrite (read_cons m a), (read_cons m b) by lia; cbn [Str.memcmp_loop].
  - change (read_bytes m (a + 1) (Z.of_nat 1 - 1)) with (@nil Z).
    change (read_bytes m (b + 1) (Z.of_nat 1 - 1)) with (@nil Z).
    split; [intros; by assert (m a = m b) as -> by lia|intros [= E]; lia].
  - replace (Z.of_nat (S (S n)) - 1) with (Z.of_nat (S n)) by lia.
    destruct (Z.eqb_spec (m a) (m b)) as [E|E].
    + rewrite IH, E. split; [by intros ->|by intros [= ->]].
    + split; [lia|intros [= E' _]; lia].
Qed.

Lemma memcmp_zero a b n m :
  0 <= n -> Str.memcmp a b n m = 0 <-> read_bytes m a n = read_bytes m b n.
Proof.
  intros Hn. unfold Str.memcmp. destruct (Z.eqb_spec n 0) as [->|H0]; [done|].
  rewrite memcmp_loop_zero. by replace (Z.of_nat (S (Z.to_nat (n - 1)))) with n by lia.
Qed.
End Compare.

(** ** Pending requests *)
Section Pending.
Implicit Types (w : net) (pkt : zoap_packet) (p : zoap_pending).

Definition token_bytes w pkt : list Z :=
  let '(t, n) := zoap_header_get_token w pkt in read_bytes (mem w) t n.

Lemma token_length w pkt : len (token_bytes w pkt) = (zoap_header_get_token w pkt).2.
Proof.
  unfold token_bytes, zoap_header_get_token. destruct (_ =? 0); [done|]. cbn [snd].
  apply read_length. apply Z.land_nonneg. right. lia.
Qed.

(** A response belongs to a request when the identifiers and the tokens agree. *)
Definition answers w (request response : zoap_packet) : Prop :=
  zoap_header_get_id w request = zoap_header_get_id w response /\
  token_bytes w request = token_bytes w response.

#[global] Instance answers_dec w request response : Decision (answers w request response).
Proof. apply and_dec; apply _. Defined.

Lemma match_response_ok w request response :
  match_response w request response = bool_decide (answers w request response).
Proof.
  unfold match_response, answers. case_bool_decide as Ha; destruct (Z.eqb_spec (zoap_header_get_id w request)
    (zoap_header_get_id w response)) as [Ei|Ei]; cbn [negb]; try done; [|naive_solver|];
    pose proof (token_length w request) as L1; pose proof (token_length w response) as L2;
    unfold token_bytes in *;
    destruct (zoap_header_get_token w request) as [t1 n1], (zoap_header_get_token w response) as [t2 n2];
    cbn [snd] in *.
  - destruct Ha as [_ E]. assert (n1 = n2) as -> by (rewrite <- L1, <- L2; by rewrite E).
    rewrite Z.eqb_refl. cbn [negb]. apply orb_true_iff. right. apply Z.eqb_eq, memcmp_zero; [lia|done].
  - destruct (Z.eqb_spec n1 n2) as [->|]; [|done]. cbn [negb]. apply orb_false_iff. split.
    + apply Z.eqb_neq. intros ->. apply Ha. done.
    + apply Z.eqb_neq. intros E. apply memcmp_zero in E; [|lia]. by apply Ha.
Qed.

(** The request waits for its acknowledgment, and this is it. *)
Definition awaits w (response : zoap_packet) p : Prop :=
  timeout p <> 0 /\ answers w (request p) response.

#[global] Instance awaits_dec w response p : Decision (awaits w response p).
Proof. apply and_dec; apply _. Defined.

Lemma pending_received_ok w response pendings :
  zoap_pending_received w response pendings =
    match list_find (awaits w response) pendings with
    | Some (i, p) => (Some i, <[i := zoap_pending_clear p]> pendings)
    | None => (None, pendings)
    end.
Proof.
  induction pendings as [|p ps IH]; [done|]. cbn [zoap_pending_received list_find].
  rewrite match_response_ok, IH. unfold awaits.
  destruct (decide (timeout p <> 0 /\ answers w (request p) response)) as [[Ht Ha]|Hn].
  - rewrite (proj2 (Z.eqb_neq _ _)), bool_decide_true by done. done.
  - assert ((timeout p =? 0) || negb (bool_decide (answers w (request p) response)) = true) as ->.
    { destruct (Z.eqb_spec (timeout p) 0); [done|]. by rewrite bool_decide_false by naive_solver. }
    by destruct (list_find _ ps) as [[i q]|].
Qed.

(** The times of the retransmissions, as often as the request is cycled. *)
Fixpoint cycles (n : nat) p : list (bool * Z) :=
  match n with
  | O => []
  | S n => let '(b, p) := zoap_pending_cycle p in (b, timeout p) :: cycles n p
  end.

Lemma cycles_last n pkt : cycles n (mk_pending pkt LAST_TIMEOUT) = replicate n (false, LAST_TIMEOUT).
Proof. induction n as [|n IH]; [done|]. cbn [cycles replicate]. by rewrite <- IH. Qed.

Lemma cycles_init n pkt :
  cycles (3 + n) (zoap_pending_init pkt) =
    [(true, 2345); (true, 2345 * 2); (true, 2345 * 4)] ++ replicate n (false, LAST_TIMEOUT).
Proof. cbn. by rewrite <- cycles_last with (pkt := pkt). Qed.
End Pending.

(** ** Requests *)
Section Requests.
Implicit Types (m : memory) (w : net) (pkt : zoap_packet).

Lemma cstr_read m p l : cstr m p l -> read_bytes m p (len l) = l.
Proof. intros Hp. apply found_read. intros i Hi. apply cstr_lookup; [done|lia]. Qed.

(** The components of a path, as strings that [fuel] is enough to measure. *)
Definition strings_at (fuel : nat) m (path : list Z) (strs : list (list Z)) : Prop :=
  Forall2 (fun p s => cstr m p s /\ (length s <= fuel)%nat /\ len s <= UINT32_MAX) path strs.

Lemma path_loop_ok fuel m l path strs :
  Forall (fun o => 0 <= op_len o) l -> strings_at fuel m path strs ->
  path_loop fuel m l path = Some (bool_decide (value_at m <$> l = strs)).
Proof.
  intros Hl Hs. revert l Hl. induction Hs as [|p s path strs (Hp & Hf & Hu) Hs IH]; intros l Hl.
  { by destruct Hl. }
  destruct Hl as [|o l Ho Hl]; [done|]. cbn [path_loop]. rewrite (strlen_ok _ _ _ s) by done.
  assert (len (value_at m o) = op_len o) as El by (apply read_length; done).
  pose proof (cstr_read m p s Hp) as Er. rewrite fmap_cons.
  destruct (Z.eqb_spec (op_len o) (len s)) as [E|E]; cbn [negb].
  - destruct (Z.eqb_spec (Str.memcmp (op_value o) p (len s) m) 0) as [Em|Em]; cbn [negb].
    + rewrite IH by done. f_equal. apply memcmp_zero in Em; [|lia]. rewrite Er, <- E in Em.
      apply bool_decide_ext. unfold value_at at 2. rewrite Em. split; [by intros ->|by intros [= ->]].
    + rewrite bool_decide_false; [done|]. intros [= Ev _]. apply Em, memcmp_zero; [lia|].
      rewrite Er, <- E. exact Ev.
  - rewrite bool_decide_false; [done|]. intros [= Ev _]. apply E. by rewrite <- El, Ev.
Qed.

Lemma uri_path_eq_ok fuel w pkt hdr tok opts tail path strs :
  holds w pkt hdr tok opts tail -> (length opts < fuel)%nat -> strings_at fuel (mem w) path strs ->
  uri_path_eq fuel w pkt path = Some (bool_decide (take 16 (values_of ZOAP_OPTION_URI_PATH opts) = strs)).
Proof.
  intros Hb Hfuel Hs. unfold uri_path_eq.
  destruct (find_held _ _ _ _ _ _ fuel ZOAP_OPTION_URI_PATH 16 Hb Hfuel) as (l & -> & El & Hl).
  rewrite (proj2 (Z.ltb_ge _ _)) by lia. rewrite (path_loop_ok _ _ _ _ strs) by done. by rewrite El.
Qed.

(** The method a request calls. [zoap_handle_request] calls the method that
    the code of the request names (GET, POST, PUT, DELETE) of the first resource
    whose path is the sequence of the Uri-Path options of the request, of which it
    looks at the first sixteen; it returns 0 without a call if that resource has no
    such method, and -ENOENT if there is no such resource. *)
Theorem zoap_handle_request_correct fuel w pkt hdr tok opts tail resources paths :
  holds w pkt hdr tok opts tail -> (length opts < fuel)%nat ->
  Forall2 (fun r strs => strings_at fuel (mem w) (path r) strs) resources paths ->
  let code := zoap_header_get_code w pkt in
  zoap_handle_request fuel w pkt resources =
    Some (match list_find (eq (take 16 (values_of ZOAP_OPTION_URI_PATH opts))) paths with
          | None => inl (- ENOENT)
          | Some (i, _) =>
              match resources !! i ≫= (fun r => method_from_code r code) with
              | None => inl 0
              | Some f => inr (f, i)
              end
          end).
Proof.
  intros Hb Hfuel Hr code. set (uri := take 16 _).
  assert (forall k, zoap_handle_request_from k fuel w pkt resources =
    Some (match list_find (eq uri) paths with
          | None => inl (- ENOENT)
          | Some (i, _) =>
              match resources !! i ≫= (fun r => method_from_code r code) with
              | None => inl 0
              | Some f => inr (f, (k + i)%nat)
              end
          end)) as H; [|exact (H O)].
  induction Hr as [|r strs resources paths Hs Hr IH]; intros k; [done|].
  cbn [zoap_handle_request_from list_find].
  rewrite (uri_path_eq_ok _ _ _ _ _ _ _ _ strs Hb Hfuel Hs). fold uri.
  destruct (decide (uri = strs)) as [E|E].
  - rewrite bool_decide_true by done. cbn. fold code. destruct (method_from_code r code); [|done].
    by rewrite Nat.add_0_r.
  - rewrite bool_decide_false, IH by done. destruct (list_find (eq uri) paths) as [[i x]|]; [|done].
    cbn. by rewrite Nat.add_succ_r.
Qed.
End Requests.

(** ** Integer options *)

(** What [zoap_option_value_to_int] makes of the bytes: at most four, the first the
    least significant. *)
Fixpoint little_endian (v : list Z) : Z := match v with [] => 0 | b :: v => b + 256 * little_endian v end.
Definition option_int (v : list Z) : Z := if len v <=? 4 then little_endian v else 0.

Section Integers.
Implicit Types (m : memory).

Lemma option_value_ok m o :
  bytes_ok m -> 0 <= op_len o -> zoap_option_value_to_int m o = option_int (value_at m o).
Proof.
  intros Hm Ho. unfold option_int, value_at. rewrite read_length by done.
  destruct o as [a n]. cbn [op_value op_len] in *. unfold zoap_option_value_to_int. cbn [op_value op_len].
  assert (forall i x k, 0 <= x < 2 ^ k -> 0 <= k -> Z.lor x (Z.shiftl (m (a + i)) k) = x + m (a + i) * 2 ^ k) as Hor.
  { intros i x k Hx Hk. rewrite Z.lor_comm, Z.shiftl_mul_pow2 by done. rewrite or_fields by (done || apply Hm). lia. }
  pose proof (Hm (a + 0)). pose proof (Hm (a + 1)). pose proof (Hm (a + 2)). pose proof (Hm (a + 3)).
  destruct (decide (n <= 4)) as [H4|H4].
  2: { rewrite (proj2 (Z.leb_gt _ _)), !(proj2 (Z.eqb_neq _ _)) by lia. done. }
  rewrite (proj2 (Z.leb_le _ _)) by done.
  assert (n = 0 \/ n = 1 \/ n = 2 \/ n = 3 \/ n = 4) as [ -> | [ -> | [ -> | [ -> | -> ] ] ] ] by lia.
  all: cbn [Z.eqb Pos.eqb]; rewrite ?(Hor 1) by (cbn; lia); rewrite ?(Hor 2) by (cbn; lia);
    rewrite ?(Hor 3) by (cbn; lia); rewrite ?u32_fits by (cbn; lia);
    repeat (rewrite read_cons by lia); rewrite read_nil by lia; cbn [little_endian];
    replace (a + 1 + 1) with (a + 2) by lia; replace (a + 2 + 1) with (a + 3) by lia; rewrite ?Z.add_0_r in *; lia.
Qed.

(** The value of the first option of a number; [d] when there is none. *)
Definition first_int (d : Z) (vs : list (list Z)) : Z :=
  match vs with [] => d | v :: _ => option_int v end.

Lemma first_option_ok fuel w pkt hdr tok opts tail num :
  bytes_ok (mem w) -> holds w pkt hdr tok opts tail -> (length opts < fuel)%nat ->
  exists r l, zoap_find_options fuel w pkt num 1 = Some (r, l) /\ r = len l /\
    zoap_option_value_to_int (mem w) <$> head l = option_int <$> head (values_of num opts) /\
    (r <=? 0) = bool_decide (values_of num opts = []).
Proof.
  intros Hm Hb Hfuel. destruct (find_held _ _ _ _ _ _ fuel num 1 Hb Hfuel) as (l & E & El & Hl).
  exists (len l), l. split_and!; [done|done| |].
  - destruct l as [|o l]; cbn in El; destruct (values_of num opts) as [|v vs]; try done.
    injection El as El _. apply Forall_cons in Hl as [Ho _]. cbn. f_equal. rewrite <- El. by apply option_value_ok.
  - destruct l as [|o l]; cbn in El; destruct (values_of num opts) as [|v vs]; done.
Qed.

Lemma observe_ok fuel w pkt hdr tok opts tail :
  bytes_ok (mem w) -> holds w pkt hdr tok opts tail -> (length opts < fuel)%nat ->
  get_observe_option fuel w pkt =
    Some (match values_of ZOAP_OPTION_OBSERVE opts with [] => - ENOENT | v :: _ => i32 (option_int v) end).
Proof.
  intros Hm Hb Hfuel. unfold get_observe_option.
  destruct (first_option_ok fuel w pkt hdr tok opts tail ZOAP_OPTION_OBSERVE Hm Hb Hfuel) as (r & l & -> & -> & Ev & ->).
  destruct (values_of ZOAP_OPTION_OBSERVE opts) as [|v vs]; [done|]. cbn. cbn in Ev.
  destruct l as [|o l]; [done|]. cbn in *. by injection Ev as ->.
Qed.

Lemma block_option_ok fuel w pkt hdr tok opts tail num :
  bytes_ok (mem w) -> holds w pkt hdr tok opts tail -> (length opts < fuel)%nat ->
  get_block_option fuel w pkt num = Some (first_int 0 (values_of num opts)).
Proof.
  intros Hm Hb Hfuel. unfold get_block_option.
  destruct (first_option_ok fuel w pkt hdr tok opts tail num Hm Hb Hfuel) as (r & l & -> & -> & Ev & ->).
  destruct (values_of num opts) as [|v vs]; [done|]. cbn. exact Ev.
Qed.
End Integers.

(** ** Responses *)
Section Responses.
Implicit Types (w : net) (pkt : zoap_packet) (r : zoap_reply).

(** The handler [r] is for responses with the token [tok], and has seen none that
    is newer than the one of the age [a]; the age 2 is newer than every other. *)
Definition concerns (tok : list Z) (a : Z) r : Prop :=
  tkl r = len tok /\ take (length tok) (token r) = tok /\ ~ (0 < a /\ a < age r /\ a <> 2).

#[global] Instance concerns_dec tok a r : Decision (concerns tok a r).
Proof. unfold concerns. apply _. Defined.

Definition seen (a : Z) r : zoap_reply := if 0 <? a then set_age a r else r.

Lemma response_received_cons fuel w pkt a r rs :
  get_observe_option fuel w pkt = Some a ->
  zoap_response_received fuel w pkt (r :: rs) =
    if decide (concerns (token_bytes w pkt) a r) then
      match reply r with None => None | Some _ => Some (Some O, seen a r :: rs) end
    else
      match zoap_response_received fuel w pkt rs with
      | None => None
      | Some (i, rs) => Some (S <$> i, r :: rs)
      end.
Proof.
  intros Ea. pose proof (token_length w pkt) as Hlen. unfold token_bytes in *.
  cbn [zoap_response_received]. rewrite Ea. set (skip := match zoap_response_received _ _ _ _ with None => _ | Some _ => _ end).
  destruct (zoap_header_get_token w pkt) as [t n]. cbn [snd] in Hlen. unfold token_eq.
  remember (read_bytes (mem w) t n) as tok eqn:Etok. clear Etok.
  replace (Z.to_nat n) with (length tok) by lia. unfold seen.
  destruct (Z.eqb_spec (tkl r) n) as [Et|Et]; cbn [negb].
  2: { rewrite decide_False; [done|]. intros (? & _). lia. }
  destruct ((0 <? n) && negb (bool_decide (take (length tok) (token r) = tok))) eqn:Etok.
  { rewrite decide_False; [done|]. intros (_ & E & _). by rewrite bool_decide_true, andb_false_r in Etok. }
  assert (take (length tok) (token r) = tok) as Etake.
  { apply andb_false_iff in Etok as [H0|Hd]; [|by case_bool_decide]. bool_facts.
    by destruct tok; [|cbn in Hlen; lia]. }
  destruct (Z.ltb_spec 0 a) as [H0|H0].
  - destruct ((a <? age r) && negb (a =? 2)) eqn:E.
    + rewrite decide_False; [done|]. bool_facts. intros (_ & _ & Hn). lia.
    + rewrite decide_True; [by destruct r as [[] ? ? ?]|]. split_and!; [lia|done|]. intros (_ & H1 & H2).
      apply andb_false_iff in E as [E|E]; bool_facts; lia.
  - rewrite decide_True; [done|]. split_and!; [lia|done|lia].
Qed.

Lemma response_received_ok fuel w pkt a replies :
  get_observe_option fuel w pkt = Some a ->
  zoap_response_received fuel w pkt replies =
    match list_find (concerns (token_bytes w pkt) a) replies with
    | None => Some (None, replies)
    | Some (i, r) =>
        match reply r with None => None | Some _ => Some (Some i, <[i := seen a r]> replies) end
    end.
Proof.
  intros Ea. induction replies as [|r rs IH]; [done|]. rewrite (response_received_cons _ _ _ a), IH by done.
  cbn [list_find]. destruct (decide (concerns (token_bytes w pkt) a r)); [done|].
  destruct (list_find _ rs) as [[i q]|]; [|done]. cbn. by destruct (reply q).
Qed.

(** The age of a response that is a notification: the value of its Observe option,
    whose bytes are in network order, and what the code takes it for. *)
Definition big_endian (v : list Z) : Z := foldl (fun n b => 256 * n + b) 0 v.

Definition observe_age (opts : list (Z * list Z)) : Z :=
  match values_of ZOAP_OPTION_OBSERVE opts with [] => - ENOENT | v :: _ => big_endian v end.

Definition read_age (opts : list (Z * list Z)) : Z :=
  match values_of ZOAP_OPTION_OBSERVE opts with [] => - ENOENT | v :: _ => i32 (option_int v) end.

Lemma read_age_ok opts :
  Forall (fun v => len v <= 1 /\ Forall (fun b => 0 <= b < 256) v) (values_of ZOAP_OPTION_OBSERVE opts) ->
  read_age opts = observe_age opts.
Proof.
  unfold read_age, observe_age. intros [|v l [Hv Hb] _]; [done|].
  destruct v as [|b [|]]; cbn [length] in Hv; [done| |lia].
  apply Forall_cons in Hb as [Hb _]. unfold option_int, big_endian. cbn [length foldl little_endian].
  change (Z.of_nat 1 <=? 4) with true. cbv iota. rewrite i32_small; [lia|]. unfold INT32_MIN, INT32_MAX. lia.
Qed.

(** When no two requests wait for the response, none does afterwards. *)
Lemma pending_received_all w pkt pendings :
  (forall i j p q, pendings !! i = Some p -> pendings !! j = Some q ->
     awaits w pkt p -> awaits w pkt q -> i = j) ->
  Forall (fun p => ~ awaits w pkt p) (zoap_pending_received w pkt pendings).2.
Proof.
  intros Hu. rewrite pending_received_ok. destruct (list_find (awaits w pkt) pendings) as [[i p]|] eqn:E.
  - apply list_find_Some in E as (Hi & Hp & _). cbn. apply Forall_lookup. intros j q Hq Hw.
    apply list_lookup_insert_Some in Hq as [(-> & <- & _)|[Hj Hq]]; [by destruct Hw|].
    by apply Hj, (Hu i j p q).
  - by apply list_find_None in E.
Qed.

(** C33: What a response is matched with. [zoap_pending_received] stops the
    retransmission of the first request that waits for its acknowledgment and has
    the identifier and the token of the response, and changes nothing else; so of
    all of them, as documented, only when no two requests have both in common.
    [zoap_response_received] gives the response to the first handler with its token
    that has not seen a newer notification (the age 2 starts anew), and records its
    age there; that handler must not be null. The age is read with the first byte
    as the least significant: it is the one in network order for an Observe option of
    at most one byte. A request that is cycled is sent again after 2345, 4690 and
    9380 ms, and then told that it was the last time. *)
Theorem zoap_response_correct fuel w pkt hdr tok opts tail pendings replies req n :
  bytes_ok (mem w) -> holds w pkt hdr tok opts tail -> (length opts < fuel)%nat ->
  zoap_pending_received w pkt pendings =
    (match list_find (awaits w pkt) pendings with
     | Some (i, p) => (Some i, <[i := mk_pending (request p) 0]> pendings)
     | None => (None, pendings)
     end) /\
  ((forall i j p q, pendings !! i = Some p -> pendings !! j = Some q ->
      awaits w pkt p -> awaits w pkt q -> i = j) ->
   Forall (fun p => ~ awaits w pkt p) (zoap_pending_received w pkt pendings).2) /\
  zoap_response_received fuel w pkt replies =
    (match list_find (concerns (token_bytes w pkt) (read_age opts)) replies with
     | None => Some (None, replies)
     | Some (i, r) =>
         match reply r with
         | None => None
         | Some _ => Some (Some i, <[i := seen (read_age opts) r]> replies)
         end
     end) /\
  (Forall (fun v => len v <= 1 /\ Forall (fun b => 0 <= b < 256) v) (values_of ZOAP_OPTION_OBSERVE opts) ->
   read_age opts = observe_age opts) /\
  cycles (3 + n) (zoap_pending_init req) =
    [(true, 2345); (true, 4690); (true, 9380)] ++ replicate n (false, 9380).
Proof.
  intros Hm Hh Hfuel. split_and!.
  - apply pending_received_ok.
  - apply pending_received_all.
  - apply response_received_ok. by eapply observe_ok.
  - apply read_age_ok.
  - apply cycles_init.
Qed.
End Responses.

(** ** Observers *)

Lemma remove_first_last x l : x ∉ l -> remove_first x (l ++ [x]) = l.
Proof.
  induction l as [|y l IH]; intros Hx; cbn; [by rewrite Z.eqb_refl|].
  apply not_elem_of_cons in Hx as [Hy Hx]. rewrite (proj2 (Z.eqb_neq y x)) by congruence. by rewrite IH.
Qed.

(** An observer is notified after those registered before it, until it is removed; the
    age of a resource starts at 2 with its first observer. *)
Lemma observers_ok r o f :
  notify r = Some f -> o ∉ observers r ->
  let '(first, r1) := zoap_register_observer r o in
  first = (rs_age r =? 0) /\ rs_age r1 = (if rs_age r =? 0 then 2 else rs_age r) /\
  (zoap_resource_notify r1).2 = observers r ++ [o] /\
  observers (zoap_remove_observer r1 o) = observers r.
Proof.
  intros Hn Ho. unfold zoap_register_observer, zoap_resource_notify, zoap_remove_observer. cbn. rewrite Hn. cbn.
  split_and!; try done. by apply remove_first_last.
Qed.

(** ** Examples *)

(** The sample packet, and the strings "b" and "a". *)
Definition exchange_net : net :=
  mk_net (write 1000 (sample_packet ++ [98; 0; 97; 0]) (fun _ => 0)) (bufs sample_net).

Lemma exchange_holds :
  holds exchange_net (mk_packet 1 0) [65; 1; 18; 52] [7] [(11, [97])] [255; 33].
Proof.
  split; [split; [by vm_compute|done|done|repeat constructor; done|by right]|cbn; lia|vm_compute; split; done].
Qed.

Definition sample_resource (p : Z) : zoap_resource :=
  mk_resource (Some p) None None None None [p] None [] 0.

Lemma zoap_handle_request_correct_witness :
  zoap_handle_request 2 exchange_net (mk_packet 1 0) [sample_resource 1009; sample_resource 1011]
    = Some (inr (1011, 1%nat)).
Proof.
  rewrite (zoap_handle_request_correct 2 exchange_net (mk_packet 1 0) [65; 1; 18; 52] [7] [(11, [97])] [255; 33]
    _ [[[98]]; [[97]]] exchange_holds).
  - vm_compute. reflexivity.
  - cbn. lia.
  - repeat constructor; done.
Defined.

Lemma zoap_response_correct_witness :
  zoap_pending_received exchange_net (mk_packet 1 0)
    [mk_pending (mk_packet 1 0) 0; mk_pending (mk_packet 1 0) 2345]
  = (Some 1%nat, [mk_pending (mk_packet 1 0) 0; mk_pending (mk_packet 1 0) 0]) /\
  zoap_response_received 2 exchange_net (mk_packet 1 0)
    [mk_reply (Some 5) 0 [8; 0] 1; mk_reply (Some 6) 0 [7; 0] 1]
  = Some (Some 1%nat, [mk_reply (Some 5) 0 [8; 0] 1; mk_reply (Some 6) 0 [7; 0] 1]).
Proof.
  destruct (zoap_response_correct 2 exchange_net (mk_packet 1 0) [65; 1; 18; 52] [7] [(11, [97])] [255; 33]
    [mk_pending (mk_packet 1 0) 0; mk_pending (mk_packet 1 0) 2345]
    [mk_reply (Some 5) 0 [8; 0] 1; mk_reply (Some 6) 0 [7; 0] 1] (mk_packet 1 0) 0) as (-> & _ & -> & _).
  - apply bytes_ok_list. repeat constructor; done.
  - apply exchange_holds.
  - cbn. lia.
  - split; vm_compute; reflexivity.
Defined.

(** *** Where the code does not do what its comments say *)

(** A handler that was cleared, or never set, is called all the same: with no token
    in the response, the first free one is a null pointer followed. *)
Definition no_token_net : net :=
  mk_net (write 1000 [64; 69; 18; 52] (fun _ => 0))
    (fun b => if b =? 1 then mk_net_buf 2 0 0 0 0 else mk_net_buf 0 1000 4 64 1000).

Lemma cleared_reply_called :
  let free := zoap_reply_clear (mk_reply (Some 5) 0 (repeat 0 8) 0) in
  zoap_reply_next_unused [free] = Some O /\
  zoap_response_received 2 no_token_net (mk_packet 1 0) [free] = None.
Proof. split; vm_compute; reflexivity. Qed.

(** Of two requests with the identifier and the token of the response, the second
    is sent again. *)
Lemma second_pending_kept :
  zoap_pending_received exchange_net (mk_packet 1 0)
    [mk_pending (mk_packet 1 0) 2345; mk_pending (mk_packet 1 0) 2345]
  = (Some O, [mk_pending (mk_packet 1 0) 0; mk_pending (mk_packet 1 0) 2345]).
Proof. vm_compute. reflexivity. Qed.

(** The age 256 is in network order the bytes 1 and 0, which are read as 1: the
    notification is taken to be older than that of the age 255. *)
Lemma age_byte_order :
  let opts v := [(ZOAP_OPTION_OBSERVE, v)] in
  (observe_age (opts [255]), read_age (opts [255])) = (255, 255) /\
  (observe_age (opts [1; 0]), read_age (opts [1; 0])) = (256, 1).
Proof. split; reflexivity. Qed.

(** A pending request that was cleared is not available again. *)
Lemma cleared_pending_not_unused pkt t :
  pk_buf pkt <> 0 -> zoap_pending_next_unused [zoap_pending_clear (mk_pending pkt t)] = None.
Proof.
  intros Hp. unfold zoap_pending_next_unused. cbn. by rewrite (proj2 (Z.eqb_neq _ _)) by done.
Qed.

(** The pending request found is the last one to expire. *)
Lemma next_to_expire_is_last pkt :
  zoap_pending_next_to_expire [mk_pending pkt 2345; mk_pending pkt 9380] = Some 1%nat.
Proof. reflexivity. Qed.
End ZoapExchange.
