(* ===== verification/ZoapBlock.v ===== *)
(** * Block-wise transfers of CoAP (lib/iot/zoap/zoap.c)

    The blocks of a transfer, the integer options, and the option that tells the
    receiver which block a message carries. *)
From S2P Require Import Prelude Kernel LibcString Bytes Zoap ZoapOptions ZoapPacket ZoapBuild ZoapMessage ZoapExchange.

Module ZoapBlock.
Import Zoap ZoapOptions ZoapPacket ZoapBuild ZoapMessage ZoapExchange.

(** ** Integer options *)

(** The bytes [zoap_add_option_int] makes of a value. *)
Definition int_bytes (v : Z) : list Z :=
  if v =? 0 then []
  else if v <? 255 then [v]
  else if v <? 65535 then be16 v
  else if v <? 16777215 then be16 (v `mod` 65536) ++ [v / 65536]
  else be16 (v / 65536) ++ be16 (v `mod` 65536).

Section Integers.
Implicit Types (m : memory) (v a : Z).

Lemma put_be16 v a m : appended a (be16 (v `mod` 65536)) m (sys_put_be16 v a m).
Proof.
  unfold sys_put_be16. assert (u16 v = v `mod` 65536) as E by done.
  assert (0 <= v `mod` 65536 < 65536) as Hv by (apply Z.mod_pos_bound; lia).
  destruct (be16_range _ Hv). rewrite E, shiftr_8. rewrite (u8_small (_ / 256)) by lia.
  assert (u8 v = (v `mod` 65536) `mod` 256) as ->.
  { unfold wrap_u. change (2 ^ 8) with 256. change 65536 with (256 * 256).
    rewrite Z.rem_mul_r by lia. rewrite Z.mul_comm, Z.mod_add by lia. by rewrite Z.mod_mod by lia. }
  unfold be16. apply (appended_byte_at _ [_]); [apply appended_first|cbn; lia].
Qed.

(** The writes of [zoap_add_option_int] to its local array. *)
Definition int_mem m v a : Z * memory :=
  if v =? 0 then (0, <[a := 0]> m)
  else if v <? 255 then (1, <[a := u8 v]> m)
  else if v <? 65535 then (2, sys_put_be16 v a m)
  else if v <? 16777215 then (3, <[a + 2 := u8 (Z.shiftr v 16)]> (sys_put_be16 v a m))
  else (4, sys_put_be32 v a m).

Lemma int_mem_ok m v a :
  0 <= v < 4294967296 ->
  (int_mem m v a).1 = len (int_bytes v) /\ found (int_mem m v a).2 a (int_bytes v) /\
  forall x, x < a \/ a + 4 <= x -> (int_mem m v a).2 x = m x.
Proof.
  intros Hv. unfold int_mem, int_bytes.
  assert (0 <= v / 65536 < 65536) as Hh by (split; [apply Z.div_pos|apply Z.div_lt_upper_bound]; lia).
  destruct (Z.eqb_spec v 0) as [->|H0]; [|destruct (Z.ltb_spec v 255); [|destruct (Z.ltb_spec v 65535);
    [|destruct (Z.ltb_spec v 16777215)]]]; cbn [fst snd].
  - split_and!; [done|apply found_nil|]. intros x Hx. apply fn_lookup_insert_ne. lia.
  - rewrite u8_small by lia. split_and!; [done|apply (appended_found _ _ m), appended_first|].
    intros x Hx. apply fn_lookup_insert_ne. lia.
  - pose proof (put_be16 v a m) as A. rewrite Z.mod_small in A by lia.
    split_and!; [done|by eapply appended_found|]. intros x Hx. apply (appended_out _ _ _ _ _ A). cbn. lia.
  - pose proof (appended_byte_at _ _ (v / 65536) (a + 2) _ _ (put_be16 v a m) eq_refl) as A.
    assert (u8 (Z.shiftr v 16) = v / 65536) as ->.
    { rewrite Z.shiftr_div_pow2 by lia. apply u8_small. change (2 ^ 16) with 65536.
      split; [lia|apply Z.div_lt_upper_bound; lia]. }
    split_and!; [done|by eapply appended_found|]. intros x Hx. apply (appended_out _ _ _ _ _ A). unfold be16. cbn [length app]. lia.
  - unfold sys_put_be32. rewrite u32_fits by lia. rewrite Z.shiftr_div_pow2 by lia. change (2 ^ 16) with 65536.
    pose proof (put_be16 (v / 65536) a m) as A1. rewrite Z.mod_small in A1 by lia.
    pose proof (appended_app _ _ _ _ _ _ A1 (put_be16 v (a + 2) (sys_put_be16 (v / 65536) a m))) as A.
    split_and!; [done|by eapply appended_found|]. intros x Hx. apply (appended_out _ _ _ _ _ A). unfold be16. cbn [length app]. lia.
Qed.

(** What is read back: the value, when one byte is enough; with more the reader takes
    the bytes in the other order. *)
Lemma small_int v : 0 <= v < 255 -> option_int (int_bytes v) = v.
Proof.
  intros Hv. unfold int_bytes. destruct (Z.eqb_spec v 0) as [->|]; [done|].
  rewrite (proj2 (Z.ltb_lt _ _)) by lia. unfold option_int. cbn [length]. change (Z.of_nat 1 <=? 4) with true. cbn [little_endian]. lia.
Qed.

Lemma two_byte_int v : 255 <= v < 65535 -> option_int (int_bytes v) = 256 * (v `mod` 256) + v / 256.
Proof.
  intros Hv. unfold int_bytes. rewrite (proj2 (Z.eqb_neq _ _)) by lia.
  rewrite (proj2 (Z.ltb_ge _ 255)), (proj2 (Z.ltb_lt _ 65535)) by lia. unfold be16, option_int. cbn [length].
  change (Z.of_nat 2 <=? 4) with true. cbn [little_endian]. lia.
Qed.

Lemma int_bytes_length v : 0 <= len (int_bytes v) <= 4.
Proof. unfold int_bytes. repeat case_match; cbn; lia. Qed.
End Integers.

Lemma building_agree w pkt hdr tok opts m' :
  building w pkt hdr tok opts ->
  (forall x, nb_data (frag w pkt) <= x < nb_data (frag w pkt) + capacity (frag w pkt) -> m' x = mem w x) ->
  building (mk_net m' (bufs w)) pkt hdr tok opts.
Proof.
  intros [Hs [? ? ? ? ?] Hh Ht Ho By H32] Hm. split; try done. rewrite <- By.
  apply read_bytes_ext. intros i Hi. change (frag (mk_net m' (bufs w)) pkt) with (frag w pkt) in *.
  apply Hm. unfold capacity. lia.
Qed.

Lemma add_int_ok fuel w pkt hdr tok opts code v data :
  building w pkt hdr tok opts -> (length opts < fuel)%nat -> last_code 0 opts <= code < 65536 ->
  0 <= v < 4294967296 -> apart (frag w pkt) data 4 ->
  2 * (nb_len (frag w pkt) + 7) <= capacity (frag w pkt) -> nb_len (frag w pkt) + 7 <= 32768 ->
  exists w', zoap_add_option_int fuel w pkt code v data = Some (0, w') /\
    building w' pkt hdr tok (opts ++ [(code, int_bytes v)]).
Proof.
  intros Hb Hfuel Hc Hv Hap Hroom H32. destruct (int_mem_ok (mem w) v data Hv) as (En & Hf & Hm).
  pose proof (int_bytes_length v) as H4. pose proof (last_code_ge 0 opts (bd_options _ _ _ _ _ Hb)).
  unfold zoap_add_option_int. fold (int_mem (mem w) v data). destruct (int_mem (mem w) v data) as [n m'].
  cbn [fst snd] in *. subst n. set (w1 := mk_net m' (bufs w)).
  assert (building w1 pkt hdr tok opts) as Hb1.
  { apply building_agree; [done|]. intros x Hx. apply Hm. unfold apart, disjoint_from in Hap. lia. }
  assert (len (wire_bytes (added w1 opts code data (len (int_bytes v)))) <= 7) as Hk.
  { rewrite wire_length by (apply (new_wire_ok (mem w1) (mk_context 0 (last_code 0 opts) 0 0)); cbn; lia).
    cbn [added w_delta w_length]. rewrite u16_small by lia. pose proof (extension_length (code - last_code 0 opts)).
    unfold extension at 2. rewrite (proj2 (Z.ltb_lt _ 13)) by lia. cbn [length]. lia. }
  destruct (add_one w1 pkt hdr tok opts fuel code data (len (int_bytes v))) as (w' & E & Hb' & _);
    change (frag w1 pkt) with (frag w pkt) in *; try done; try lia.
  { unfold apart, disjoint_from in *. lia. }
  exists w'. change (mem w1) with m' in Hb'. rewrite (found_read _ _ _ Hf) in Hb'. done.
Qed.

(** ** The blocks of a transfer *)
Lemma block_bytes b :
  0 <= b <= 6 -> zoap_block_size_to_bytes b = 2 ^ (b + 4) /\ 16 <= zoap_block_size_to_bytes b <= 1024.
Proof.
  intros Hb. unfold zoap_block_size_to_bytes. rewrite Z.shiftl_mul_pow2, Z.mul_1_l by lia.
  assert (16 <= 2 ^ (b + 4) <= 1024).
  { split; [apply (Z.pow_le_mono_r 2 4); lia|apply (Z.pow_le_mono_r 2 _ 10); lia]. }
  rewrite u16_small by lia. lia.
Qed.

Section Transfer.
Context (b total : Z) (Hb : 0 <= b <= 6) (Htotal : 0 < total).
Let bytes := zoap_block_size_to_bytes b.
Let k := (total + bytes - 1) / bytes.
Context (Hfits : total + bytes <= 4294967296).

(** The state after [i] calls of [zoap_next_block]. *)
Fixpoint after (i : nat) (ctx : zoap_block_context) : zoap_block_context :=
  match i with O => ctx | S i => (zoap_next_block (after i ctx)).2 end.

(** Block [i] starts before the end of the data exactly when [i] is smaller than
    their number. *)
Lemma block_before_end i : 0 <= i -> i * bytes < total <-> i < k.
Proof.
  intros Hi. destruct (block_bytes b Hb) as [_ Hr]. fold bytes in Hr. unfold k. pose proof (Z.div_mod (total + bytes - 1) bytes ltac:(lia)).
  pose proof (Z.mod_pos_bound (total + bytes - 1) bytes ltac:(lia)). nia.
Qed.

Lemma blocks_after (i : nat) : Z.of_nat i <= k -> after i (zoap_block_transfer_init b total) = mk_block total (Z.of_nat i * bytes) b.
Proof.
  induction i as [|i IH]; intros Hi; [done|]. cbn [after]. rewrite IH by lia.
  unfold zoap_next_block. cbn [total_size current block_size]. pose proof (block_before_end (Z.of_nat i) ltac:(lia)).
  rewrite (proj2 (Z.leb_gt _ _)) by lia. cbn [snd]. fold bytes. destruct (block_bytes b Hb) as [_ Hr]. fold bytes in Hr.
  rewrite u32_fits by nia. f_equal. lia.
Qed.

Lemma next_block (i : nat) :
  Z.of_nat i < k ->
  (zoap_next_block (mk_block total (Z.of_nat i * bytes) b)).1 = (Z.of_nat i + 1) * bytes /\
  more_blocks (mk_block total (Z.of_nat i * bytes) b) = (Z.of_nat i + 1 <? k).
Proof.
  intros Hi. pose proof (block_before_end (Z.of_nat i) ltac:(lia)) as Hs. destruct (block_bytes b Hb) as [_ Hr]. fold bytes in Hr.
  unfold zoap_next_block, more_blocks. cbn [total_size current block_size]. fold bytes.
  rewrite (proj2 (Z.leb_gt _ _)) by lia. cbn [fst]. rewrite u32_fits by nia. split; [lia|].
  pose proof (block_before_end (Z.of_nat i + 1) ltac:(lia)) as Hs'.
  destruct (Z.ltb_spec (Z.of_nat i + 1) k); [apply Z.ltb_lt; lia|apply Z.ltb_ge; lia].
Qed.

Lemma no_next_block : zoap_next_block (mk_block total (k * bytes) b) = (0, mk_block total (k * bytes) b).
Proof.
  unfold zoap_next_block. cbn [total_size current]. rewrite (proj2 (Z.leb_le _ _)); [done|].
  destruct (block_bytes b Hb) as [_ Hr]. fold bytes in Hr. assert (0 <= k) by (apply Z.div_pos; lia).
  pose proof (block_before_end k). lia.
Qed.
End Transfer.

(** ** The option that names a block *)
Definition block_value (i b : Z) (more : bool) : Z := i * 16 + (if more then 8 else 0) + b.

Lemma block_value_set i b more :
  0 <= b <= 6 -> 0 <= i < 16 ->
  SET_NUM (SET_MORE (SET_BLOCK_SIZE 0 b) more) i = block_value i b more.
Proof.
  intros Hb Hi. unfold SET_NUM, SET_MORE, SET_BLOCK_SIZE, block_value. rewrite Z.lor_0_l.
  change 7 with (Z.ones 3). rewrite low_bits by (cbn; lia).
  rewrite Z.shiftl_mul_pow2 by lia. change (2 ^ 4) with 16. rewrite u32_fits by lia.
  assert (Z.lor b (if more then 8 else 0) = (if more then 8 else 0) + b) as ->.
  { destruct more; [|by rewrite Z.lor_0_r]. rewrite Z.lor_comm. change 8 with (1 * 2 ^ 3). by rewrite or_fields by (cbn; lia). }
  rewrite Z.lor_comm. change 16 with (2 ^ 4). rewrite or_fields by (destruct more; cbn; lia). lia.
Qed.

Lemma block_value_get i b more :
  0 <= b <= 6 -> 0 <= i ->
  GET_BLOCK_SIZE (block_value i b more) = b /\ GET_NUM (block_value i b more) = i.
Proof.
  intros Hb Hi. unfold GET_BLOCK_SIZE, GET_NUM, block_value. change 7 with (Z.ones 3).
  rewrite Z.land_ones, Z.shiftr_div_pow2 by lia. change (2 ^ 3) with 8. change (2 ^ 4) with 16. split.
  - replace (i * 16 + (if more then 8 else 0) + b) with (b + (i * 2 + (if more then 1 else 0)) * 8)
      by (destruct more; lia). rewrite Z.mod_add, Z.mod_small by lia. done.
  - replace (i * 16 + (if more then 8 else 0) + b) with ((if more then 8 else 0) + b + i * 16)
      by (destruct more; lia). rewrite Z.div_add, Z.div_small by (destruct more; lia). lia.
Qed.

(** Requests and responses, by their header. *)
Definition request_header (hdr : list Z) : bool :=
  let code := nth 1 hdr 0 in
  Z.land (if bool_decide (code ∈ known_codes) then code else ZOAP_CODE_EMPTY) (Z.lnot ZOAP_REQUEST_MASK) =? 0.

Lemma is_request_held w pkt hdr tok opts tail :
  holds w pkt hdr tok opts tail -> is_request w pkt = request_header hdr.
Proof.
  intros [[By Hh _ _ _] _ _]. unfold is_request, request_header, zoap_header_get_code, coap_header_get_code, appdata.
  assert (found (mem w) (nb_data (frag w pkt)) hdr) as Hf.
  { pose proof (read_found (mem w) (nb_data (frag w pkt)) (nb_len (frag w pkt))) as H. fold (content w pkt) in H.
    rewrite By in H. by apply found_app in H as [? _]. }
  specialize (Hf 1%nat ltac:(lia)). change (Z.of_nat 1) with 1 in Hf. by rewrite Hf.
Qed.

(** The number of the option: BLOCK1 in a request, BLOCK2 in a response. *)
Definition block_option (request : bool) : Z := if request then ZOAP_OPTION_BLOCK1 else ZOAP_OPTION_BLOCK2.
Definition add_block_option (request : bool) := if request then zoap_add_block1_option else zoap_add_block2_option.

Lemma values_of_cat code opts l : values_of code (opts ++ l) = values_of code opts ++ values_of code l.
Proof. unfold values_of. by rewrite filter_app, fmap_app. Qed.

Lemma values_of_one num code v : values_of num [(code, v)] = if code =? num then [v] else [].
Proof.
  unfold values_of. destruct (Z.eqb_spec code num) as [E|E].
  - by rewrite filter_cons_True by done.
  - by rewrite filter_cons_False by done.
Qed.

Lemma add_block_ok fuel w pkt hdr tok opts data b total i :
  let request := request_header hdr in
  let ctx := mk_block total (i * zoap_block_size_to_bytes b) b in
  let v := block_value i b (more_blocks ctx) in
  0 <= b <= 6 -> 0 <= i < 16 ->
  building w pkt hdr tok opts -> (length opts < fuel)%nat -> last_code 0 opts <= block_option request ->
  apart (frag w pkt) data 4 -> 2 * (nb_len (frag w pkt) + 7) <= capacity (frag w pkt) ->
  nb_len (frag w pkt) + 7 <= 32768 ->
  exists w', add_block_option request fuel w pkt ctx data = Some (0, w') /\
    building w' pkt hdr tok (opts ++ [(block_option request, int_bytes v)]).
Proof.
  intros request ctx v Hb Hi Hbd Hfuel Hlast Hap Hroom H32.
  pose proof (is_request_held _ _ _ _ _ _ (building_holds _ _ _ _ _ Hbd)) as Er. fold request in Er.
  assert (current ctx / zoap_block_size_to_bytes (block_size ctx) = i) as Ei.
  { cbn [ctx current block_size]. apply Z.div_mul. destruct (block_bytes b Hb) as [_ ?]. lia. }
  assert (exists w', zoap_add_option_int fuel w pkt (block_option request) v data = Some (0, w') /\
    building w' pkt hdr tok (opts ++ [(block_option request, int_bytes v)])) as (w' & E & Hbd').
  { apply add_int_ok; try done; unfold v, block_value, block_option, ZOAP_OPTION_BLOCK1, ZOAP_OPTION_BLOCK2 in *.
    - destruct request; lia.
    - destruct (more_blocks ctx); lia. }
  exists w'. split; [|done]. unfold add_block_option, block_option in *.
  destruct request; unfold zoap_add_block1_option, zoap_add_block2_option; rewrite Er, Ei, block_value_set by done; exact E.
Qed.

(** The receiver of a message with the option learns which block it has. *)
Lemma update_block_ok fuel w pkt hdr tok opts tail ctx b i more :
  let request := request_header hdr in
  let v := block_value i b more in
  0 <= b <= 6 -> 0 <= i < 16 -> 0 < v ->
  Forall (fun num => values_of num opts = [])
    [ZOAP_OPTION_BLOCK1; ZOAP_OPTION_BLOCK2; ZOAP_OPTION_SIZE1; ZOAP_OPTION_SIZE2] ->
  bytes_ok (mem w) -> holds w pkt hdr tok (opts ++ [(block_option request, int_bytes v)]) tail ->
  (S (length opts) < fuel)%nat ->
  block_size ctx = 0 \/ b <= block_size ctx ->
  total_size ctx = 0 \/ i * zoap_block_size_to_bytes b <= total_size ctx ->
  zoap_update_from_block fuel w pkt ctx =
    Some (0, mk_block (total_size ctx) (i * zoap_block_size_to_bytes b) b).
Proof.
  intros request v Hb Hi Hv Hno Hm Hh Hfuel Hsz Htot.
  assert (0 < v < 255) as Hv' by (unfold v, block_value in *; destruct more; lia).
  destruct (block_value_get i b more Hb ltac:(lia)) as [Es En]. fold v in Es, En.
  destruct (block_bytes b Hb) as [Eb Hr].
  assert (new_current v = i * zoap_block_size_to_bytes b) as Ec.
  { unfold new_current. rewrite Es, En, Z.shiftl_mul_pow2, <- Eb by lia. apply u32_fits. nia. }
  assert (update_descriptive_block ctx v 0 = (0, mk_block (total_size ctx) (i * zoap_block_size_to_bytes b) b)) as Ed.
  { unfold update_descriptive_block. rewrite Es, Ec. rewrite (proj2 (Z.eqb_neq v 0)) by lia. cbn [Z.eqb negb andb].
    assert ((0 <? block_size ctx) && (block_size ctx <? b) = false) as ->
      by (destruct Hsz as [->|?]; [done|]; rewrite (proj2 (Z.ltb_ge _ b)) by lia; apply andb_false_r).
    assert (negb (total_size ctx =? 0) && (total_size ctx <? i * zoap_block_size_to_bytes b) = false) as ->; [|done].
    destruct Htot as [->|?]; [done|]. rewrite (proj2 (Z.ltb_ge _ _)) by lia. apply andb_false_r. }
  rewrite !Forall_cons in Hno. destruct Hno as (N1 & N2 & N3 & N4 & _).
  unfold zoap_update_from_block.
  rewrite !(block_option_ok fuel w pkt _ _ _ _ _ Hm Hh) by (rewrite length_app; cbn; lia).
  rewrite !values_of_cat, N1, N2, N3, N4. rewrite (is_request_held _ _ _ _ _ _ Hh). fold request.
  rewrite !values_of_one. change (i32 0) with 0.
  unfold block_option, ZOAP_OPTION_BLOCK1, ZOAP_OPTION_BLOCK2, ZOAP_OPTION_SIZE1, ZOAP_OPTION_SIZE2.
  destruct request; cbn [Z.eqb Pos.eqb app first_int]; rewrite (small_int v) by lia;
    rewrite (i32_small v) by (unfold INT32_MIN, INT32_MAX; lia); change (i32 0) with 0;
    unfold update_control_block1, update_control_block2; cbn [Z.eqb negb]; by rewrite Ed.
Qed.

(** C34: A block-wise transfer. The calls of [zoap_next_block] go through the data
    block by block: after [i] of them the context is at the offset of block [i], as
    long as there is one, and after the last block the call returns 0. The BLOCK1
    option of a request, or the BLOCK2 option of a response, made from the context
    at block [i] (one of the first sixteen) tells the receiver, whatever follows the
    options, to expect that block: [zoap_update_from_block] sets the offset and the
    size of the block the sender is at. Excepted is the only block of data that fit
    in one block of 16 bytes, whose option has the value 0 and is not recognised
    ([single_block_not_found]). *)
Theorem zoap_block_transfer_correct fuel w pkt hdr tok opts data b total (i : nat) :
  let bytes := zoap_block_size_to_bytes b in
  let k := (total + bytes - 1) / bytes in
  let ctx := after i (zoap_block_transfer_init b total) in
  let request := request_header hdr in
  let option := (block_option request, int_bytes (block_value (Z.of_nat i) b (more_blocks ctx))) in
  0 <= b <= 6 -> 0 < total -> total + bytes <= 4294967296 -> Z.of_nat i < k -> Z.of_nat i < 16 ->
  0 < block_value (Z.of_nat i) b (more_blocks ctx) ->
  building w pkt hdr tok opts -> (length opts < fuel)%nat -> last_code 0 opts <= block_option request ->
  Forall (fun num => values_of num opts = [])
    [ZOAP_OPTION_BLOCK1; ZOAP_OPTION_BLOCK2; ZOAP_OPTION_SIZE1; ZOAP_OPTION_SIZE2] ->
  apart (frag w pkt) data 4 -> 2 * (nb_len (frag w pkt) + 7) <= capacity (frag w pkt) ->
  nb_len (frag w pkt) + 7 <= 32768 ->
  current ctx = Z.of_nat i * bytes /\ current ctx < total /\
  (zoap_next_block ctx).1 = (Z.of_nat i + 1) * bytes /\ more_blocks ctx = (Z.of_nat i + 1 <? k) /\
  (zoap_next_block (after (Z.to_nat k) (zoap_block_transfer_init b total))).1 = 0 /\
  exists w', add_block_option request fuel w pkt ctx data = Some (0, w') /\
    building w' pkt hdr tok (opts ++ [option]) /\
    forall w2 pkt2 tail ctx2, bytes_ok (mem w2) -> holds w2 pkt2 hdr tok (opts ++ [option]) tail ->
      block_size ctx2 = 0 \/ b <= block_size ctx2 ->
      total_size ctx2 = 0 \/ current ctx <= total_size ctx2 ->
      zoap_update_from_block (S fuel) w2 pkt2 ctx2 = Some (0, mk_block (total_size ctx2) (current ctx) b).
Proof.
  intros bytes k ctx request option Hb Ht Hfits Hi H16 Hv Hbd Hfuel Hlast Hno Hap Hroom H32.
  assert (ctx = mk_block total (Z.of_nat i * bytes) b) as Ec by (apply blocks_after; done || (fold bytes k; lia)).
  destruct (next_block b total Hb Ht Hfits i Hi) as [En Em]. fold bytes k in En, Em. rewrite <- Ec in En, Em.
  assert (current ctx = Z.of_nat i * bytes) as Ecur by (by rewrite Ec).
  destruct (add_block_ok fuel w pkt hdr tok opts data b total (Z.of_nat i)) as (w' & E & Hbd'); try done; try lia.
  fold bytes request in E, Hbd'. rewrite <- Ec in E, Hbd'.
  split_and!; try done.
  - rewrite Ecur. apply (block_before_end b total); done || lia.
  - assert (0 <= k) by lia. rewrite blocks_after by (done || (rewrite Z2Nat.id by lia; fold bytes k; lia)).
    rewrite Z2Nat.id by lia. exact (f_equal fst (no_next_block b total Hb Ht Hfits)).
  - exists w'. split_and!; [done|done|]. intros w2 pkt2 tail ctx2 Hm Hh Hsz Htot. rewrite Ecur in *.
    eapply update_block_ok; try done; lia.
Qed.

(** A GET without options, in a buffer of 64 bytes, and block 2 of 100 bytes in
    blocks of 32. *)
Definition block_net : net :=
  mk_net (write 1000 [64; 1; 18; 52] (fun _ => 0))
    (fun b => if b =? 1 then mk_net_buf 2 0 0 0 0 else mk_net_buf 0 1000 4 64 1000).

Lemma zoap_block_transfer_correct_witness :
  exists w', zoap_add_block1_option 1 block_net (mk_packet 1 0) (mk_block 100 64 1) 5000 = Some (0, w') /\
    building w' (mk_packet 1 0) [64; 1; 18; 52] [] [(ZOAP_OPTION_BLOCK1, [41])].
Proof.
  destruct (zoap_block_transfer_correct 1 block_net (mk_packet 1 0) [64; 1; 18; 52] [] [] 5000 1 100 2)
    as (_ & _ & _ & _ & _ & w' & E & Hb & _);
    [lia|lia|by vm_compute|by vm_compute|lia|by vm_compute| |cbn; lia|by vm_compute| |left; by vm_compute|
     by vm_compute|by vm_compute|].
  - split; [done|split; done|done|done|done|by vm_compute|by vm_compute].
  - repeat constructor.
  - exists w'. split; [exact E|exact Hb].
Defined.

(** *** Where the code does not do what its comments say *)

(** From the seventeenth block on the receiver reads another block number: block 16
    of 16 bytes, at the offset 256, is taken for block 128 of 32 bytes. *)
Lemma late_block_misread :
  let v := block_value 16 0 true in
  option_int (int_bytes v) <> v /\ new_current (option_int (int_bytes v)) = 4096.
Proof. split; [by vm_compute|reflexivity]. Qed.

(** The only block of a transfer of at most 16 bytes is taken for a missing option. *)
Lemma single_block_not_found ctx :
  update_descriptive_block ctx (block_value 0 0 false) 0 = (- ENOENT, ctx).
Proof. done. Qed.

(** The largest value of one byte takes two. *)
Lemma one_byte_value_takes_two : int_bytes 255 = [0; 255].
Proof. reflexivity. Qed.

(** A full buffer: the option is refused, but its first bytes are written behind the
    end of the storage. *)
Lemma full_buffer_overrun :
  let w := mk_net (write 1000 [64; 1; 18; 52] (fun _ => 0))
             (fun b => if b =? 1 then mk_net_buf 2 0 0 0 0 else mk_net_buf 0 1000 4 4 1000) in
  match zoap_add_option 1 w (mk_packet 1 0) 300 5000 0 with
  | Some (r, w') => r = - EINVAL /\ mem w' 1004 = 224 /\ mem w' 1006 = 31
  | None => False
  end.
Proof. vm_compute. done. Qed.
End ZoapBlock.
