(* ===== verification/LinkFormat.v ===== *)
(** * The list of resources of a CoAP server (lib/iot/zoap/link-format.c)

    The resource .well-known/core: which resources a query selects, and the text
    that describes them. A path or the attributes of a resource are the addresses of
    the strings, without the null pointer that ends the array. *)
From S2P Require Import Prelude Kernel LibcString Bytes Zoap ZoapOptions ZoapPacket ZoapBuild ZoapMessage ZoapExchange.

Module LinkFormat.
Import Zoap ZoapOptions ZoapPacket ZoapBuild ZoapMessage ZoapExchange.

(** ** The code *)
Definition ZOAP_TYPE_ACK : Z := 2.
Definition ZOAP_RESPONSE_CODE_CONTENT : Z := zoap_make_response_code 2 5.
Definition ZOAP_RESPONSE_CODE_BAD_REQUEST : Z := zoap_make_response_code 4 0.

Section Format.
Implicit Types (w : net) (fa : Z).

(** [str = net_buf_add(buf, 1); *str = c] *)
Definition add_char (c : Z) fa w : net :=
  let '(str, w) := net_buf_add fa 1 w in on_mem (<[str := c]>) w.

(** The loops over the components of a path and over attributes: the strings, with a
    separator between them; [conv] is the conversion of the length. *)
Fixpoint format_strings (fuel : nat) (conv : Z -> Z) (sep : Z) (strs : list Z) fa w : option net :=
  match strs with
  | [] => Some w
  | p :: strs =>
      match Str.strlen fuel p (mem w) with
      | None => None
      | Some n =>
          let '(str, w) := net_buf_add fa (conv n) w in
          let w := on_mem (Str.strncpy (Z.to_nat (conv n)) str p) w in
          let w := match strs with [] => w | _ => add_char sep fa w end in
          format_strings fuel conv sep strs fa w
      end
  end.

Definition format_uri (fuel : nat) (path : list Z) fa w : option net :=
  let '(str, w) := net_buf_add fa 2 w in
  let w := on_mem (fun m => <[str + 1 := 47]> (<[str := 60]> m)) w in
  match format_strings fuel u16 47 path fa w with
  | None => None
  | Some w => Some (add_char 62 fa w)
  end.

Definition format_attributes (fuel : nat) (attributes : option (list Z)) fa w : option net :=
  match attributes with
  | None => Some (add_char 59 fa w)
  | Some attributes =>
      match format_strings fuel i32 59 attributes fa w with
      | None => None
      | Some w => Some (add_char 59 fa w)
      end
  end.

(** [meta && meta->attributes] *)
Definition attributes_of (r : zoap_resource) : option (list Z) := mjoin (user_data r).

Definition format_resource (fuel : nat) (r : zoap_resource) fa w : option net :=
  match format_uri fuel (path r) fa w with
  | None => None
  | Some w => format_attributes fuel (attributes_of r) fa w
  end.
End Format.

Section Match.
Implicit Types (m : memory).

(** The loop from [i] on, [n] turns; [p] is the rest of the path, [None] when it is
    null. *)
Fixpoint match_path_loop (fuel : nat) m (uri len : Z) (n : nat) (i : Z) (p : option (list Z)) (plen j : Z)
    : option bool :=
  match n with
  | O => Some true
  | S n =>
      match p with
      | None => None
      | Some [] => Some false
      | Some (s :: _) =>
          let c := m (uri + i) in
          if (j =? plen) && (c =? 47) then match_path_loop fuel m uri len n (i + 1) None plen j
          else if (c =? 42) && (i + 1 =? len) then Some true
          else if negb (c =? m (s + j)) then Some false
          else match_path_loop fuel m uri len n (i + 1) p plen (j + 1)
      end
  end.

Definition match_path_uri (fuel : nat) m (path : list Z) (uri len : Z) : option bool :=
  if (len <=? 1) || negb (m uri =? 47) then Some false
  else
    match path with
    | [] => Some false
    | s :: _ =>
        match Str.strlen fuel s m with
        | None => None
        | Some plen =>
            if plen =? 0 then Some false
            else match_path_loop fuel m uri len (Z.to_nat (len - 1)) 1 (Some path) plen 0
        end
    end.

Fixpoint match_attributes (fuel : nat) m (attributes : list Z) (query : zoap_option) : option bool :=
  match attributes with
  | [] => Some false
  | a :: attributes =>
      match Str.strlen fuel a m with
      | None => None
      | Some n =>
          let attr_len := u16 n in
          if negb (op_len query =? attr_len) then match_attributes fuel m attributes query
          else if Str.strncmp (Z.to_nat attr_len) (op_value query) a m =? 0 then Some true
          else match_attributes fuel m attributes query
      end
  end.

(** The characters of "href" *)
Definition href : list Z := [104; 114; 101; 102].

Definition match_queries_resource (fuel : nat) m (r : zoap_resource) (query : zoap_option) (num_queries : Z)
    : option bool :=
  if num_queries =? 0 then Some true
  else
    match attributes_of r with
    | None => Some false
    | Some attributes =>
        if (5 <? op_len query) && bool_decide (read_bytes m (op_value query) 4 = href) then
          match_path_uri fuel m (path r) (op_value query + 5) (u16 (op_len query - 5))
        else match_attributes fuel m attributes query
    end.

(** The loop over the resources after the one of the list itself. *)
Fixpoint core_loop (fuel : nat) w (response : zoap_packet) (resources : list zoap_resource)
    (query : zoap_option) (num_queries r : Z) : option (Z * zoap_packet * net) :=
  match resources with
  | [] => Some (r, response, w)
  | res :: resources =>
      match match_queries_resource fuel (mem w) res query num_queries with
      | None => None
      | Some false => core_loop fuel w response resources query num_queries r
      | Some true =>
          let '(fa, response, w) := zoap_packet_get_buf w response in
          match format_resource fuel res fa w with
          | None => None
          | Some w => core_loop fuel w response resources query num_queries 0
          end
      end
  end.

(** [net_buf_frag_add] on a buffer that has no fragment yet. *)
Definition net_buf_frag_add (buf frag : Z) w : net :=
  let b := bufs w buf in
  mk_net (mem w) (<[buf := mk_net_buf frag (nb_data b) (nb_len b) (nb_size b) (nb_buf b)]> (bufs w)).

(** The answer to a request. [buf] and [frag] are what [net_nbuf_get_tx] and
    [net_nbuf_get_data] return, 0 when null; [format] is the address of the local
    variable. [inl] is an error returned, [inr] the packet given to
    [net_context_sendto]. When the packet cannot be made, its code is set all the
    same, through a pointer that was never set. *)
Definition _zoap_well_known_core_get (fuel : nat) w (request : zoap_packet) (buf frag format : Z)
    (resources : list zoap_resource) : option (Z + zoap_packet * net) :=
  let id := zoap_header_get_id w request in
  let '(token, tkl) := zoap_header_get_token w request in
  match zoap_find_options fuel w request ZOAP_OPTION_URI_QUERY 1 with
  | None => None
  | Some (r, options) =>
      if r <? 0 then Some (inl r)
      else
        let query := default (mk_option 0 0) (head options) in
        let num_queries := r in
        if buf =? 0 then Some (inl (- ENOMEM))
        else if frag =? 0 then Some (inl (- ENOMEM))
        else
          let w := net_buf_frag_add buf frag w in
          match zoap_packet_init w (mk_packet 0 0) buf with
          | None => None
          | Some (r, response, w) =>
              if r <? 0 then None
              else
                let w := zoap_header_set_version w response 1 in
                let w := zoap_header_set_type w response ZOAP_TYPE_ACK in
                let w := zoap_header_set_code w response ZOAP_RESPONSE_CODE_CONTENT in
                let w := zoap_header_set_id w response id in
                let '(_, w) := zoap_header_set_token w response token tkl in
                let w := on_mem (<[format := 40]>) w in
                match zoap_add_option fuel w response ZOAP_OPTION_CONTENT_FORMAT format 1 with
                | None => None
                | Some (r, w) =>
                    if r <? 0 then Some (inl (- EINVAL))
                    else
                      match core_loop fuel w response resources query num_queries (- ENOENT) with
                      | None => None
                      | Some (r, response, w) =>
                          Some (inr (response,
                            if r <? 0 then zoap_header_set_code w response ZOAP_RESPONSE_CODE_BAD_REQUEST else w))
                      end
                end
          end
  end.
End Match.

(** ** The text of a resource *)

(** Strings with a separator between them. *)
Fixpoint separated (sep : Z) (strs : list (list Z)) : list Z :=
  match strs with
  | [] => []
  | [s] => s
  | s :: strs => s ++ [sep] ++ separated sep strs
  end.

(** "</", the path, ">", the attributes, ";". *)
Definition link_text (path : list (list Z)) (attributes : option (list (list Z))) : list Z :=
  [60; 47] ++ separated 47 path ++ [62] ++ (default [] (separated 59 <$> attributes)) ++ [59].

Section Text.
Implicit Types (m : memory) (w : net) (fa : Z) (l : list Z).

Lemma strncpy_ok m d s l :
  cstr m s l -> disjoint_from d (len l) s (len l + 1) -> appended d l m (Str.strncpy (length l) d s m).
Proof.
  revert m d s. induction l as [|c l IH]; intros m d s Hs Hd; [apply appended_nil|].
  destruct Hs as (Hc & Hc0 & Hs). cbn [length Str.strncpy]. rewrite Hc, (proj2 (Z.eqb_neq _ _)) by done.
  cbn [negb length] in *. unfold disjoint_from in *.
  apply (appended_app _ [c] l _ (<[d := c]> m)); [apply appended_first|]. apply IH; [|cbn; lia].
  eapply cstr_ext; [|exact Hs]. intros a Ha. apply fn_lookup_insert_ne. lia.
Qed.

(** [w'] is [w] with the bytes [l] added to the fragment [fa]. *)
Record adds fa l w w' : Prop := {
  ad_frag : bufs w' fa = set_nb_len (nb_len (bufs w fa) + len l) (bufs w fa);
  ad_mem : appended (net_buf_simple_tail (bufs w fa)) l (mem w) (mem w')
}.

Lemma adds_app fa l l' w w' w'' : adds fa l w w' -> adds fa l' w' w'' -> adds fa (l ++ l') w w''.
Proof.
  intros [Hf Hm] [Hf' Hm']. split.
  - rewrite Hf', Hf. unfold set_nb_len. cbn. rewrite length_app. f_equal. lia.
  - eapply appended_app; [exact Hm|]. rewrite Hf in Hm'. unfold net_buf_simple_tail in *. cbn in Hm'.
    by rewrite Z.add_assoc in Hm'.
Qed.

Lemma adds_nil fa w : adds fa [] w w.
Proof. split; [|apply appended_nil]. cbn. rewrite Z.add_0_r. by destruct (bufs w fa). Qed.

(** The fragment has room for [n] more bytes. *)
Definition has_room fa n w : Prop := 0 <= nb_len (bufs w fa) /\ nb_len (bufs w fa) + n < 65536.

Lemma net_buf_add_ok fa (n : Z) l w w' m' :
  has_room fa n w -> len l = n -> net_buf_add fa n w = (net_buf_simple_tail (bufs w fa), w') ->
  appended (net_buf_simple_tail (bufs w fa)) l (mem w) m' -> adds fa l w (mk_net m' (bufs w')).
Proof.
  intros [H0 H1] El [= <-] Hm. split; [|done]. cbn. rewrite fn_lookup_insert, u16_small by lia. by rewrite El.
Qed.

Lemma add_char_ok c fa w : has_room fa 1 w -> adds fa [c] w (add_char c fa w).
Proof.
  intros Hr. unfold add_char, net_buf_add, on_mem. eapply net_buf_add_ok; [done|done|done|]. apply appended_first.
Qed.

Lemma room_adds fa l w w' n : adds fa l w w' -> 0 <= n -> has_room fa (len l + n) w -> has_room fa n w'.
Proof. intros [Hf _] Hn [? ?]. unfold has_room. rewrite Hf. cbn. lia. Qed.

(** Strings that lie apart from what may still be written. *)
Definition strings_apart (fuel : nat) m (lo hi : Z) (ps : list Z) (strs : list (list Z)) : Prop :=
  Forall2 (fun p s => cstr m p s /\ (length s <= fuel)%nat /\ disjoint_from lo (hi - lo) p (len s + 1)) ps strs.

Lemma strings_apart_adds fuel fa l w w' lo hi ps strs :
  adds fa l w w' -> strings_apart fuel (mem w) lo hi ps strs ->
  lo <= net_buf_simple_tail (bufs w fa) -> net_buf_simple_tail (bufs w fa) + len l <= hi ->
  strings_apart fuel (mem w') lo hi ps strs.
Proof.
  intros [_ Hm] Hs Hlo Hhi. eapply Forall2_impl; [exact Hs|]. intros p s (Hp & Hf & Hd). split_and!; try done.
  eapply cstr_ext; [|exact Hp]. intros a Ha. apply (appended_out _ _ _ _ _ Hm). unfold disjoint_from in Hd. lia.
Qed.

(** The place where [n] more bytes go: inside [lo, hi), with room for them. *)
Definition place fa (lo hi n : Z) w : Prop :=
  lo <= net_buf_simple_tail (bufs w fa) /\ net_buf_simple_tail (bufs w fa) + n <= hi /\ has_room fa n w.

Lemma place_adds fa l lo hi n w w' : adds fa l w w' -> 0 <= n -> place fa lo hi (len l + n) w -> place fa lo hi n w'.
Proof.
  intros Ha Hn (Hlo & Hhi & Hr). split_and!; [..|by eapply room_adds]; destruct Ha as [Hf _];
    unfold net_buf_simple_tail in *; rewrite Hf; cbn; lia.
Qed.

Lemma place_le fa lo hi n n' w : n' <= n -> place fa lo hi n w -> place fa lo hi n' w.
Proof. unfold place, has_room. lia. Qed.

Lemma place_strings fuel fa l lo hi n w w' ps strs :
  adds fa l w w' -> 0 <= n -> place fa lo hi (len l + n) w -> strings_apart fuel (mem w) lo hi ps strs ->
  strings_apart fuel (mem w') lo hi ps strs.
Proof. intros Ha Hn (Hlo & Hhi & _) Hs. eapply strings_apart_adds; try done. lia. Qed.

Lemma add_string_ok fuel (conv : Z -> Z) fa lo hi n p str w :
  (forall n, 0 <= n < 65536 -> conv n = n) -> 0 <= n ->
  cstr (mem w) p str -> (length str <= fuel)%nat -> disjoint_from lo (hi - lo) p (len str + 1) ->
  place fa lo hi (len str + n) w ->
  exists w1, Str.strlen fuel p (mem w) = Some (len str) /\
    net_buf_add fa (conv (len str)) w = (net_buf_simple_tail (bufs w fa), w1) /\
    adds fa str w (on_mem (Str.strncpy (Z.to_nat (conv (len str))) (net_buf_simple_tail (bufs w fa)) p) w1).
Proof.
  intros Hconv Hn Hp Hf Hd (Hlo & Hhi & [H0 H1]). rewrite Hconv by lia. eexists. split_and!; [|done|].
  - apply strlen_ok; [done|done|]. unfold UINT32_MAX. lia.
  - eapply (net_buf_add_ok fa (len str)); [split; lia|done|done|]. cbn. rewrite Nat2Z.id. apply strncpy_ok; [done|].
    unfold disjoint_from in *. lia.
Qed.

Lemma format_strings_ok fuel conv sep fa lo hi n ps strs w :
  (forall n, 0 <= n < 65536 -> conv n = n) -> 0 <= n ->
  strings_apart fuel (mem w) lo hi ps strs -> place fa lo hi (len (separated sep strs) + n) w ->
  exists w', format_strings fuel conv sep ps fa w = Some w' /\ adds fa (separated sep strs) w w'.
Proof.
  intros Hconv Hn Hs. revert w Hs. revert ps strs.
  induction ps as [|p ps IH]; intros strs w Hs Hpl; inversion Hs as [|? str ? strs' (Hp & Hf & Hd) Hs']; subst.
  { exists w. split; [done|apply adds_nil]. }
  destruct strs' as [|s2 strs'].
  - inversion Hs'; subst. cbn [separated] in *. cbn [format_strings].
    destruct (add_string_ok fuel conv fa lo hi n p str w) as (w1 & -> & -> & Ha); try done.
    eexists. split; [done|exact Ha].
  - destruct ps as [|p2 ps]; [inversion Hs'|].
    change (separated sep (str :: s2 :: strs')) with (str ++ [sep] ++ separated sep (s2 :: strs')) in *.
    set (rest := separated sep (s2 :: strs')) in *. rewrite !length_app, !Nat2Z.inj_add in Hpl. cbn [length] in Hpl.
    cbn [format_strings].
    destruct (add_string_ok fuel conv fa lo hi (1 + (len rest + n)) p str w) as (w1 & -> & -> & Ha);
      try done; [lia|eapply place_le; [|exact Hpl]; lia|].
    set (w2 := on_mem _ w1) in *.
    assert (place fa lo hi (1 + (len rest + n)) w2) as Hp2
      by (eapply place_adds; [exact Ha|lia|]; eapply place_le; [|exact Hpl]; lia).
    assert (adds fa [sep] w2 (add_char sep fa w2)) as Hc
      by (apply add_char_ok; destruct Hp2 as (_ & _ & [? ?]); split; lia).
    destruct (IH (s2 :: strs') (add_char sep fa w2)) as (w' & E & Ha').
    + eapply (place_strings _ _ [sep] _ _ (len rest + n)); [exact Hc|lia|exact Hp2|].
      eapply (place_strings _ _ str _ _ (1 + (len rest + n))); [exact Ha|lia| |exact Hs'].
      eapply place_le; [|exact Hpl]; lia.
    + eapply (place_adds _ [sep]); [exact Hc|lia|exact Hp2].
    + exists w'. split; [exact E|]. eapply adds_app; [exact Ha|]. eapply adds_app; [exact Hc|exact Ha'].
Qed.

(** The strings of a resource. *)
Definition resource_strings (fuel : nat) m (lo hi : Z) (r : zoap_resource)
    (ps : list (list Z)) (attrs : option (list (list Z))) : Prop :=
  strings_apart fuel m lo hi (path r) ps /\
  match attributes_of r, attrs with
  | None, None => True
  | Some l, Some strs => strings_apart fuel m lo hi l strs
  | _, _ => False
  end.

(** A resource is described by its text, added to the fragment. *)
Theorem format_resource_correct fuel r ps attrs fa lo hi w :
  resource_strings fuel (mem w) lo hi r ps attrs -> place fa lo hi (len (link_text ps attrs)) w ->
  exists w', format_resource fuel r fa w = Some w' /\ adds fa (link_text ps attrs) w w'.
Proof.
  intros [Hps Hat] Hpl. unfold link_text in *. set (at_ := default [] (separated 59 <$> attrs)) in *.
  rewrite !length_app, !Nat2Z.inj_add in Hpl. cbn [length] in Hpl.
  unfold format_resource, format_uri. cbn [net_buf_add].
  set (w1 := on_mem _ _).
  assert (adds fa [60; 47] w w1) as A1.
  { eapply (net_buf_add_ok fa 2); [destruct Hpl as (_ & _ & [? ?]); split; lia|done|done|].
    apply (appended_byte_at _ [60]); [apply appended_first|cbn; lia]. }
  assert (place fa lo hi (len (separated 47 ps) + (1 + (len at_ + 1))) w1) as P1
    by (eapply place_adds; [exact A1|lia|]; eapply place_le; [|exact Hpl]; cbn; lia).
  assert (forall l strs, strings_apart fuel (mem w) lo hi l strs -> strings_apart fuel (mem w1) lo hi l strs) as S1.
  { intros l strs. eapply (place_strings _ _ _ _ _ 0); [exact A1|lia|]. eapply place_le; [|exact Hpl]; cbn; lia. }
  destruct (format_strings_ok fuel u16 47 fa lo hi (1 + (len at_ + 1)) (path r) ps w1) as (w2 & -> & A2);
    [apply u16_small|lia|by apply S1|done|].
  assert (place fa lo hi (1 + (len at_ + 1)) w2) as P2 by (eapply place_adds; [exact A2|lia|exact P1]).
  assert (adds fa [62] w2 (add_char 62 fa w2)) as A3
    by (apply add_char_ok; destruct P2 as (_ & _ & [? ?]); split; lia).
  assert (place fa lo hi (len at_ + 1) (add_char 62 fa w2)) as P3 by (eapply (place_adds _ [62]); [exact A3|lia|exact P2]).
  assert (exists w', format_attributes fuel (attributes_of r) fa (add_char 62 fa w2) = Some w' /\
    adds fa (at_ ++ [59]) (add_char 62 fa w2) w') as (w' & E & A4).
  { unfold format_attributes. destruct (attributes_of r) as [l|], attrs as [strs|]; try done.
    - destruct (format_strings_ok fuel i32 59 fa lo hi 1 l strs (add_char 62 fa w2)) as (w3 & -> & A4);
        [intros; apply i32_small; unfold INT32_MIN, INT32_MAX; lia|lia| |done|].
      + eapply (place_strings _ _ [62] _ _ (len at_ + 1)); [exact A3|lia|exact P2|].
        eapply place_strings; [exact A2| |exact P1|by apply S1]. lia.
      + eexists. split; [done|]. eapply adds_app; [exact A4|]. apply add_char_ok.
        eapply room_adds; [exact A4|lia|]. destruct P3 as (_ & _ & [? ?]). split; cbn in *; lia.
    - eexists. split; [done|]. cbn. apply add_char_ok. destruct P3 as (_ & _ & [? ?]). split; cbn in *; lia. }
  exists w'. split; [exact E|].
  eapply adds_app; [exact A1|]. eapply adds_app; [exact A2|]. eapply adds_app; [exact A3|exact A4].
Qed.
End Text.

(** ** The paths a query selects *)

(** The characters of a path against a component: those it starts with, or those
    before a final asterisk. *)
Fixpoint selects (rest comp : list Z) : bool :=
  match rest with
  | [] => true
  | c :: rest' =>
      if (c =? 42) && bool_decide (rest' = []) then true
      else match comp with [] => false | x :: comp => (c =? x) && selects rest' comp end
  end.

Section Select.
Implicit Types (m : memory).

Lemma match_path_loop_ok fuel m uri n s ps comp plen rest i j :
  cstr m s comp -> found m (uri + i) rest -> Forall (fun c => c <> 0 /\ c <> 47) rest ->
  n = i + len rest -> 0 <= j <= len comp ->
  match_path_loop fuel m uri n (length rest) i (Some (s :: ps)) plen j =
    Some (selects rest (drop (Z.to_nat j) comp)).
Proof.
  intros Hs. revert i j. induction rest as [|c rest IH]; intros i j Hf Hc Hn Hj; [done|].
  apply found_cons in Hf as [Ec Hf]. apply Forall_cons in Hc as [[H0 H47] Hc]. cbn [length] in *.
  cbn [match_path_loop selects]. rewrite Ec. rewrite (proj2 (Z.eqb_neq c 47)), andb_false_r by done.
  assert ((i + 1 =? n) = bool_decide (rest = [])) as ->.
  { destruct rest; [apply Z.eqb_eq|apply Z.eqb_neq]; cbn in *; lia. }
  destruct ((c =? 42) && bool_decide (rest = [])); [done|].
  pose proof (cstr_lookup m s comp (Z.to_nat j) Hs ltac:(lia)) as Ex. rewrite Z2Nat.id in Ex by lia. rewrite Ex.
  destruct (decide (j = len comp)) as [->|Hlt].
  - rewrite Nat2Z.id. rewrite nth_overflow, drop_ge by lia. by rewrite (proj2 (Z.eqb_neq c 0)) by done.
  - rewrite nth_lookup. destruct (lookup_lt_is_Some_2 comp (Z.to_nat j)) as [x Hx]; [lia|]. rewrite Hx. cbn [default].
    rewrite (drop_S _ _ _ Hx). unfold id. destruct (c =? x); cbn [negb andb]; [|done].
    rewrite IH; [|by rewrite Z.add_assoc|done|lia|lia]. by replace (Z.to_nat (j + 1)) with (S (Z.to_nat j)) by lia.
Qed.

(** A path of one component in a query: it selects the resources whose first
    component it selects. *)
Theorem match_path_uri_correct fuel m s ps comp uri rest :
  cstr m s comp -> comp <> [] -> (length comp <= fuel)%nat -> len comp <= UINT32_MAX ->
  found m uri (47 :: rest) -> rest <> [] -> Forall (fun c => c <> 0 /\ c <> 47) rest ->
  match_path_uri fuel m (s :: ps) uri (1 + len rest) = Some (selects rest comp).
Proof.
  intros Hs Hne Hf Hu Hfound Hr Hc. apply found_cons in Hfound as [E47 Hrest]. unfold match_path_uri.
  assert (0 < len rest) by (destruct rest; [done|cbn; lia]).
  assert (0 < len comp) by (destruct comp; [done|cbn; lia]).
  rewrite (proj2 (Z.leb_gt _ _)) by lia. rewrite E47. change (negb (47 =? 47)) with false. cbn [orb].
  rewrite (strlen_ok fuel m s comp) by done. rewrite (proj2 (Z.eqb_neq _ _)) by lia.
  replace (Z.to_nat (1 + len rest - 1)) with (length rest) by lia.
  by rewrite (match_path_loop_ok _ _ _ _ s ps comp) by (done || lia).
Qed.

(** A query with a second component follows a null pointer, also on the path it
    names. *)
Lemma second_component_null :
  let m := write 1000 [97; 0; 98; 0; 47; 97; 47; 98] (fun _ => 0) in
  match_path_uri 8 m [1000; 1002] 1004 4 = None.
Proof. vm_compute. reflexivity. Qed.

(** The start of a component is enough, without an asterisk. *)
Lemma prefix_selects : selects [97] [97; 98] = true.
Proof. reflexivity. Qed.
End Select.

(** ** A run: a list of one resource "a" with the attribute "b" *)
Definition core_net : net :=
  mk_net (write 1000 [97; 0; 98; 0; 64; 1; 18; 52] (fun _ => 0))
    (fun b => if b =? 1 then mk_net_buf 2 0 0 0 0
              else if b =? 2 then mk_net_buf 0 1004 4 4 1004
              else if b =? 3 then mk_net_buf 0 0 0 0 0 else mk_net_buf 0 2000 0 64 2000).

Lemma core_get_runs :
  match _zoap_well_known_core_get 8 core_net (mk_packet 1 0) 3 4 5000
          [mk_resource None None None None None [1000] (Some (Some [1002])) [] 0] with
  | Some (inr (response, w)) =>
      content w response = [96; 69; 18; 52; 193; 40; 255] ++ link_text [[97]] (Some [[98]])
  | _ => False
  end.
Proof. vm_compute. reflexivity. Qed.
End LinkFormat.
