(* ===== verification/Dns.v ===== *)
(** * The DNS client (lib/iot/dns)

    Queries and responses of dns_pack.c and dns_pack.h, and the resolver of
    dns_client.c, on byte memory at the widths of the code. [None] is fuel that ran
    out: in a string that is measured, or in a chain of fragments or of answers. What the network
    does with a query is an argument of [dns_resolve]. *)
From S2P Require Import Prelude Kernel LibcString Bytes Zoap.

Module Dns.
Import Zoap.

(** dns_pack.h *)
Definition DNS_MSG_HEADER_SIZE : Z := 12.
Definition DNS_RR_TYPE_A : Z := 1.
Definition DNS_RR_TYPE_CNAME : Z := 5.
Definition DNS_RR_TYPE_AAAA : Z := 28.
Definition DNS_RESPONSE_INVALID : Z := - EINVAL.
Definition DNS_RESPONSE_IP : Z := - EINVAL + 1.
Definition DNS_RESPONSE_CNAME_WITH_IP : Z := - EINVAL + 2.
Definition DNS_RESPONSE_CNAME_NO_IP : Z := - EINVAL + 3.
Definition DNS_CLASS_IN : Z := 1.
Definition DNS_QUERY : Z := 0.
Definition DNS_RESPONSE : Z := 1.
Definition DNS_HEADER_NOERROR : Z := 0.

Record dns_msg_t := mk_dns_msg {
  msg : Z;
  response_type : Z;
  response_position : Z;
  response_length : Z;
  query_offset : Z;
  answer_offset : Z;
  msg_size : Z
}.

Section Fields.
Implicit Types (m : memory) (header question answer : Z).

(** A 16-bit field in the byte order of the network. *)
Definition field16 m (a : Z) : Z := ntohs (UNALIGNED_GET m a).

Definition dns_unpack_header_id m header : Z := field16 m header.
Definition dns_header_qr m header : Z := if Z.land (m (header + 2)) 128 =? 0 then 0 else 1.
Definition dns_header_opcode m header : Z := Z.shiftr (Z.land (m (header + 2)) 112) 1.
Definition dns_header_z m header : Z := Z.shiftr (Z.land (m (header + 3)) 112) 4.
Definition dns_header_rcode m header : Z := Z.land (m (header + 3)) 15.
Definition dns_header_qdcount m header : Z := field16 m (header + 4).
Definition dns_unpack_header_qdcount m header : Z := field16 m (header + 4).
Definition dns_header_ancount m header : Z := field16 m (header + 6).
Definition dns_unpack_header_ancount m header : Z := field16 m (header + 6).
Definition dns_unpack_query_qtype m question : Z := field16 m question.
Definition dns_unpack_query_qclass m question : Z := field16 m (question + 2).
Definition dns_response_type m (dname_size : Z) answer : Z := m (answer + dname_size + 1).
Definition dns_answer_class m (dname_size : Z) answer : Z := m (answer + dname_size + 3).
Definition dns_answer_ttl m (dname_size : Z) answer : Z :=
  let a := answer + dname_size + 4 in
  Z.lor (Z.shiftl (field16 m a) 16) (field16 m (a + 2)).
Definition dns_unpack_answer_rdlength m (dname_size : Z) answer : Z := field16 m (answer + dname_size + 8).
End Fields.

(** ** dns_pack.c *)
Definition DNS_LABEL_MAX_SIZE : Z := 63.
Definition DNS_ANSWER_MIN_SIZE : Z := 12.
Definition DNS_COMMON_UINT_SIZE : Z := 2.
Definition DNS_HEADER_ID_LEN : Z := 2.
Definition DNS_HEADER_FLAGS_LEN : Z := 2.
Definition DNS_QTYPE_LEN : Z := 2.
Definition DNS_QCLASS_LEN : Z := 2.
Definition DNS_QDCOUNT_LEN : Z := 2.
Definition DNS_ANCOUNT_LEN : Z := 2.
Definition DNS_NSCOUNT_LEN : Z := 2.
Definition DNS_FLAGS1 : Z := 1.
Definition DNS_FLAGS2 : Z := 0.

Section Pack.
Implicit Types (m : memory).

Definition dns_strlen (fuel : nat) (str : Z) m : option Z :=
  if str =? 0 then Some 0 else (fun n => u16 n) <$> Str.strlen fuel str m.

(** The loop over the name; [n] turns are left. The return value, the length. *)
Fixpoint pack_qname_loop (n : nat) (buf size name i lb_start lb_index lb_size : Z) m : Z * option Z * memory :=
  match n with
  | O => (0, Some lb_index, m)
  | S n =>
      if size <=? lb_index then (- ENOMEM, None, m)
      else
        let c := m (name + i) in
        if c =? 46 then
          pack_qname_loop n buf size name (i + 1) lb_index (u16 (lb_index + 1)) 0
            (<[buf + lb_start := u8 lb_size]> m)
        else if c =? 0 then
          pack_qname_loop n buf size name (i + 1) lb_start (u16 (lb_index + 1)) lb_size
            (<[buf + lb_index := 0]> (<[buf + lb_start := u8 lb_size]> m))
        else
          pack_qname_loop n buf size name (i + 1) lb_start (u16 (lb_index + 1)) (u16 (lb_size + 1))
            (<[buf + lb_index := c]> m)
  end.

Definition dns_msg_pack_qname (fuel : nat) (buf size domain_name : Z) m : option (Z * option Z * memory) :=
  match dns_strlen fuel domain_name m with
  | None => None
  | Some dn_size =>
      if dn_size =? 0 then Some (- EINVAL, None, m)
      else Some (pack_qname_loop (Z.to_nat (dn_size + 1)) buf size domain_name 0 0 1 0 m)
  end.

Definition dns_msg_pack_query_header (buf size id : Z) m : Z * memory :=
  if size <? DNS_MSG_HEADER_SIZE then (- ENOMEM, m)
  else
    let m := UNALIGNED_PUT (htons id) buf m in
    let offset := DNS_HEADER_ID_LEN in
    let m := <[buf + offset := DNS_FLAGS1]> m in
    let m := <[buf + offset + 1 := DNS_FLAGS2]> m in
    let offset := offset + DNS_HEADER_FLAGS_LEN in
    let m := UNALIGNED_PUT (htons 1) (buf + offset) m in
    let offset := offset + DNS_QDCOUNT_LEN in
    let m := store32 (buf + offset) 0 m in
    let offset := offset + DNS_ANCOUNT_LEN + DNS_NSCOUNT_LEN in
    (0, UNALIGNED_PUT 0 (buf + offset) m).

(** The return value, the length, the memory. *)
Definition dns_msg_pack_query (buf size qname qname_len id qtype : Z) m : Z * option Z * memory :=
  let msg_size := DNS_MSG_HEADER_SIZE + DNS_QTYPE_LEN + DNS_QCLASS_LEN in
  if size <? msg_size + qname_len then (- ENOMEM, None, m)
  else
    let '(rc, m) := dns_msg_pack_query_header buf size id m in
    if negb (rc =? 0) then (rc, None, m)
    else
      let offset := DNS_MSG_HEADER_SIZE in
      let m := memcpy (buf + offset) qname qname_len m in
      let offset := u16 (offset + qname_len) in
      let m := UNALIGNED_PUT (htons qtype) (buf + offset) m in
      let offset := u16 (offset + DNS_QTYPE_LEN) in
      let m := UNALIGNED_PUT (htons DNS_CLASS_IN) (buf + offset) m in
      (0, Some (u16 (offset + DNS_QCLASS_LEN)), m).

(** [*qname_size] counts the bytes looked at; [n] are left. *)
Fixpoint find_null_loop (n : nat) m (buf qname_size : Z) : Z * Z :=
  match n with
  | O => (- ENOMEM, qname_size)
  | S n => if m (buf + qname_size) =? 0 then (0, qname_size + 1) else find_null_loop n m buf (qname_size + 1)
  end.
Definition dns_find_null m (buf size : Z) : Z * Z := find_null_loop (Z.to_nat size) m buf 0.
End Pack.

Section Unpack.
Implicit Types (m : memory) (d : dns_msg_t).

Definition set_query_offset (n : Z) d : dns_msg_t :=
  mk_dns_msg (msg d) (response_type d) (response_position d) (response_length d) n (answer_offset d) (msg_size d).
Definition set_answer_offset (n : Z) d : dns_msg_t :=
  mk_dns_msg (msg d) (response_type d) (response_position d) (response_length d) (query_offset d) n (msg_size d).
Definition set_dns_msg_response d (type pos len : Z) : dns_msg_t :=
  mk_dns_msg (msg d) type pos len (query_offset d) (answer_offset d) (msg_size d).

(** The return value, what is stored through [ttl], the message. *)
Definition dns_unpack_answer m d (dname_ptr : Z) : Z * option Z * dns_msg_t :=
  let answer := msg d + answer_offset d in
  if m answer <? DNS_LABEL_MAX_SIZE then (- ENOMEM, None, d)
  else
    let ptr := Z.shiftl (Z.land (m answer) DNS_LABEL_MAX_SIZE) 8 + m (answer + 1) in
    if negb (ptr =? dname_ptr) then (- ENOMEM, None, d)
    else
      let buf_size := u16 (msg_size d - answer_offset d) in
      if buf_size <? DNS_ANSWER_MIN_SIZE then (- ENOMEM, None, d)
      else if negb (dns_answer_class m DNS_COMMON_UINT_SIZE answer =? DNS_CLASS_IN) then (- EINVAL, None, d)
      else
        let ttl := dns_answer_ttl m DNS_COMMON_UINT_SIZE answer in
        let pos := u16 (answer_offset d + DNS_ANSWER_MIN_SIZE) in
        let len := dns_unpack_answer_rdlength m DNS_COMMON_UINT_SIZE answer in
        let type := dns_response_type m DNS_COMMON_UINT_SIZE answer in
        if (type =? DNS_RR_TYPE_A) || (type =? DNS_RR_TYPE_AAAA) then
          (0, Some ttl, set_dns_msg_response d DNS_RESPONSE_IP pos len)
        else if type =? DNS_RR_TYPE_CNAME then
          (0, Some ttl, set_dns_msg_response d DNS_RESPONSE_CNAME_NO_IP pos len)
        else (- EINVAL, Some ttl, d).

Definition dns_unpack_response_header m d (src_id : Z) : Z :=
  let dns_header := msg d in
  if msg_size d <? DNS_MSG_HEADER_SIZE then - ENOMEM
  else if negb (dns_unpack_header_id m dns_header =? src_id) then - EINVAL
  else if negb (dns_header_qr m dns_header =? DNS_RESPONSE) then - EINVAL
  else if negb (dns_header_opcode m dns_header =? DNS_QUERY) then - EINVAL
  else if negb (dns_header_z m dns_header =? 0) then - EINVAL
  else
    let rc := dns_header_rcode m dns_header in
    if negb (rc =? DNS_HEADER_NOERROR) then rc
    else
      let qdcount := dns_unpack_header_qdcount m dns_header in
      let ancount := dns_unpack_header_ancount m dns_header in
      if (qdcount <? 1) || (ancount <? 1) then - EINVAL else 0.

Definition dns_unpack_response_query m d : Z * dns_msg_t :=
  let d := set_query_offset DNS_MSG_HEADER_SIZE d in
  let dns_query := msg d + query_offset d in
  let remaining_size := msg_size d - query_offset d in
  let '(rc, qname_size) := dns_find_null m dns_query (u16 remaining_size) in
  if negb (rc =? 0) then (rc, d)
  else
    let offset := query_offset d + qname_size + (DNS_QTYPE_LEN + DNS_QCLASS_LEN) in
    if msg_size d <? offset then (- ENOMEM, d)
    else
      let buf := dns_query + qname_size in
      if negb (dns_unpack_query_qtype m buf =? DNS_RR_TYPE_A) &&
         negb (dns_unpack_query_qtype m buf =? DNS_RR_TYPE_AAAA) then (- EINVAL, d)
      else if negb (dns_unpack_query_qclass m buf =? DNS_CLASS_IN) then (- EINVAL, d)
      else
        (0, set_answer_offset (u16 (query_offset d + qname_size + DNS_QTYPE_LEN + DNS_QCLASS_LEN)) d).
End Unpack.

(** ** dns_client.c *)
Definition DNS_MAX_NAME_LEN : Z := 255.
Definition DNS_RESOLVER_MAX_BUF_SIZE : Z := 512.
Definition DNS_ANSWER_PTR_LEN : Z := 12.
Definition DNS_QUERY_POS : Z := 12.
Definition DNS_IPV4_LEN : Z := 4.
Definition DNS_IPV6_LEN : Z := 16.
Definition DNS_QUERY_TYPE_A : Z := 1.
Definition DNS_QUERY_TYPE_AAAA : Z := 28.

Section Client.
Implicit Types (m : memory) (d : dns_msg_t).

(** The first loop: the fragment to start copying from, and the offset in it. *)
Fixpoint find_frag (fuel : nat) (w : net) (src offset : Z) : option (Z * Z) :=
  match fuel with
  | O => None
  | S fuel =>
      if negb (src =? 0) && (nb_len (bufs w src) <=? offset) then
        find_frag fuel w (nb_frags (bufs w src)) (offset - nb_len (bufs w src))
      else Some (src, offset)
  end.

(** The second loop: the bytes that are left, and the buffers. *)
Fixpoint copy_frags (fuel : nat) (w : net) (dst src offset len copied : Z) : option (Z * net) :=
  match fuel with
  | O => None
  | S fuel =>
      if negb (src =? 0) && (0 <? len) then
        let b := bufs w src in
        let to_copy := Z.min len (nb_len b - offset) in
        let w := on_mem (memcpy (nb_data (bufs w dst) + copied) (nb_data b + offset) to_copy) w in
        copy_frags fuel w dst (nb_frags b) 0 (len - to_copy) (copied + to_copy)
      else Some (len, w)
  end.

Definition nbuf_copy (fuel : nat) (w : net) (dst src offset len : Z) : option (Z * net) :=
  match find_frag fuel w src offset with
  | None => None
  | Some (src, offset) =>
      match copy_frags fuel w dst src offset len 0 with
      | None => None
      | Some (len, w) => Some (if 0 <? len then - ENOMEM else 0, w)
      end
  end.

Definition address_size (type : Z) : Z := if type =? DNS_QUERY_TYPE_A then DNS_IPV4_LEN else DNS_IPV6_LEN.

(** How the loop over the answers ends: an error returned, the addresses asked for
    found ([exit_ok]), or no answer left. *)
Inductive traversed :=
| Error (rc items : Z) (m : memory)
| Enough (items : Z) (m : memory)
| End (d : dns_msg_t) (items : Z) (m : memory).

Fixpoint answers_loop (fuel : nat) m d (answer_ptr type addresses elements items i : Z) : option traversed :=
  match fuel with
  | O => None
  | S fuel =>
      if i <? dns_header_ancount m (msg d) then
        let '(rc, _, d) := dns_unpack_answer m d answer_ptr in
        if negb (rc =? 0) then Some (Error (- EINVAL) items m)
        else
          let next d := set_answer_offset
            (u16 (u16 (answer_offset d + DNS_ANSWER_PTR_LEN) + response_length d)) d in
          if response_type d =? DNS_RESPONSE_IP then
            if response_length d <? address_size type then Some (Error (- EINVAL) items m)
            else
              let src := msg d + response_position d in
              let dst := addresses + items * address_size type in
              let m := memcpy dst src (address_size type) m in
              let items := items + 1 in
              if elements <=? items then Some (Enough items m)
              else answers_loop fuel m (next d) answer_ptr type addresses elements items (i + 1)
          else if response_type d =? DNS_RESPONSE_CNAME_NO_IP then
            answers_loop fuel m (next d) (response_position d) type addresses elements items (i + 1)
          else Some (Error (- EINVAL) items m)
      else Some (End d items m)
  end.

(** What becomes of [dns_recv]: an error, no packet because [cb_recv] was called with
    a status other than 0, or the application data of the packet, which is the end of
    its fragments. *)
Inductive reception := RecvError | RecvNothing | Received (rx : list Z).

(** [nbuf_copy] takes the last [data_len] bytes of the packet to the buffer at [data].
    The return value, [*items], the memory, and the length of the name stored at
    [cname], if any. [None] when [rx] is null, which the code follows, or when the
    fuel is used up. *)
Definition dns_read (fuel : nat) m (received : reception) (data dns_id type addresses items elements cname : Z)
    : option (Z * Z * memory * option Z) :=
  if elements <=? 0 then Some (- EINVAL, items, m, None)
  else
    match received with
    | RecvError => Some (- EIO, items, m, None)
    | RecvNothing => None
    | Received rx =>
        let data_len := Z.min (len rx) DNS_RESOLVER_MAX_BUF_SIZE in
        let offset := len rx - data_len in
        let m := write data (drop (Z.to_nat offset) rx) m in
        let d := mk_dns_msg data 0 0 0 0 0 data_len in
        if negb (dns_unpack_response_header m d dns_id =? 0) then Some (- EINVAL, items, m, None)
        else if negb (dns_header_qdcount m (msg d) =? 1) then Some (- EINVAL, items, m, None)
        else
          let '(rc, d) := dns_unpack_response_query m d in
          if negb (rc =? 0) then Some (- EINVAL, items, m, None)
          else
            match answers_loop fuel m d DNS_QUERY_POS type addresses elements 0 0 with
            | None => None
            | Some (Error rc items m) => Some (rc, items, m, None)
            | Some (Enough items m) => Some (0, items, m, None)
            | Some (End d items m) =>
                if (items =? 0) && (response_type d =? DNS_RESPONSE_CNAME_NO_IP) then
                  Some (0, items, memcpy cname (msg d + response_position d) (response_length d) m,
                        Some (response_length d))
                else Some (0, items, m, None)
            end
    end.

(** [dns_write]: the query is packed, and [send] is what becomes of it: the error of
    a buffer or of the network, or 0 and what is received afterwards. *)
Definition dns_write m (send : list Z -> Z * reception) (data dns_id type qname qname_len : Z)
    : Z * reception * memory :=
  let '(rc, query_len, m) :=
    dns_msg_pack_query data DNS_RESOLVER_MAX_BUF_SIZE qname qname_len dns_id type m in
  match query_len with
  | None => (- EINVAL, RecvError, m)
  | Some query_len => (send (read_bytes m data query_len), m)
  end.

(** The queries; [n] may follow this one. [network i] is the [send] of the [i]-th. *)
Fixpoint resolve_loop (n fuel : nat) m (network : nat -> list Z -> Z * reception) (i : nat)
    (data qname qname_len dns_id type addresses items elements : Z) : option (Z * Z * memory) :=
  let '(rc, received, m) := dns_write m (network i) data dns_id type qname qname_len in
  if negb (rc =? 0) then Some (rc, items, m)
  else
    match dns_read fuel m received data dns_id type addresses items elements qname with
    | None => None
    | Some (rc, items, m, cname_len) =>
        if negb (rc =? 0) then Some (rc, items, m)
        else
          let qname_len := default qname_len cname_len in
          if 0 <? items then Some (0, items, m)
          else
            match n with
            | O => Some (if items <=? 0 then - EINVAL else 0, items, m)
            | S n => resolve_loop n fuel m network (S i) data qname qname_len dns_id type addresses items elements
            end
    end.

(** [additional] is CONFIG_DNS_RESOLVER_ADDITIONAL_QUERIES. [data] and [qname] are the
    buffers allocated, null when there was none in time. *)
Definition dns_resolve (additional fuel : nat) m (network : nat -> list Z -> Z * reception)
    (data qname dns_id addresses items elements name type : Z) : option (Z * Z * memory) :=
  if data =? 0 then Some (- ENOMEM, items, m) else
  if qname =? 0 then Some (- ENOMEM, items, m) else
  match dns_msg_pack_qname fuel qname DNS_MAX_NAME_LEN name m with
  | None => None
  | Some (rc, qname_len, m) =>
      match qname_len with
      | None => Some (- EINVAL, items, m)
      | Some qname_len =>
          resolve_loop additional fuel m network 0 data qname qname_len dns_id type addresses items elements
      end
  end.

Definition dns4_resolve (additional fuel : nat) m network (data qname dns_id addresses items elements name : Z) :=
  dns_resolve additional fuel m network data qname dns_id addresses items elements name DNS_QUERY_TYPE_A.
Definition dns6_resolve (additional fuel : nat) m network (data qname dns_id addresses items elements name : Z) :=
  dns_resolve additional fuel m network data qname dns_id addresses items elements name DNS_QUERY_TYPE_AAAA.
End Client.
End Dns.
