(* ===== verification/DnsPack.v ===== *)
(** * DNS queries (lib/iot/dns/dns_pack.c)

    The name in a query is the sequence of its labels, each with its length before
    it; the query is exactly the message of the standard. *)
From S2P Require Import Prelude Kernel LibcString Bytes Zoap ZoapBuild Dns.

Module DnsPack.
Import Zoap ZoapBuild Dns.

(** ** Names *)

(** Labels with dots between them, and as they are sent. *)
Fixpoint dotted (labels : list (list Z)) : list Z :=
  match labels with
  | [] => []
  | [l] => l
  | l :: labels => l ++ 46 :: dotted labels
  end.

Definition label_bytes (l : list Z) : list Z := len l :: l.
Definition qname_bytes (labels : list (list Z)) : list Z := mjoin (label_bytes <$> labels) ++ [0].

Definition label_ok (l : list Z) : Prop := Forall (fun c => c <> 0 /\ c <> 46) l /\ len l < 256.

Lemma cstr_after m a l c rest : cstr m a (l ++ c :: rest) -> cstr m (a + len l + 1) rest.
Proof.
  revert a. induction l as [|x l IH]; intros a Hs; cbn [app cstr length] in *; destruct Hs as (_ & _ & Hs).
  - by rewrite Z.add_0_r.
  - apply IH in Hs. by replace (a + Z.of_nat (S (length l)) + 1) with (a + 1 + len l + 1) by lia.
Qed.

Section Name.
Context (buf size name : Z).
Implicit Types (m : memory) (l : list Z).

(** The characters of a label are copied. *)
Lemma pack_label n l : forall i lb_start lb_index lb_size m,
  (forall k : nat, (k < length l)%nat -> m (name + i + Z.of_nat k) = nth k l 0) ->
  Forall (fun c => c <> 0 /\ c <> 46) l ->
  disjoint_from (buf + lb_index) (len l) (name + i) (len l) ->
  lb_index + len l <= size -> size < 65536 -> 0 <= lb_index -> 0 <= lb_size -> lb_size + len l < 65536 ->
  exists m', pack_qname_loop (length l + n) buf size name i lb_start lb_index lb_size m =
      pack_qname_loop n buf size name (i + len l) lb_start (lb_index + len l) (lb_size + len l) m' /\
    appended (buf + lb_index) l m m'.
Proof.
  induction l as [|c l IH]; intros i lb_start lb_index lb_size m Hn Hc Hd Hsz H16 Hi Hs Hls.
  - exists m. cbn. rewrite !Z.add_0_r. split; [done|apply appended_nil].
  - apply Forall_cons in Hc as [[Hc0 Hc46] Hc]. cbn [length] in *.
    pose proof (Hn O ltac:(lia)) as E0. cbn in E0. rewrite Z.add_0_r in E0.
    cbn [Nat.add pack_qname_loop]. rewrite (proj2 (Z.leb_gt _ _)) by lia. rewrite E0.
    rewrite (proj2 (Z.eqb_neq c 46)), (proj2 (Z.eqb_neq c 0)) by done. rewrite !u16_small by lia.
    unfold disjoint_from in *.
    destruct (IH (i + 1) lb_start (lb_index + 1) (lb_size + 1) (<[buf + lb_index := c]> m)) as (m' & E & A); try lia.
    + intros k Hk. rewrite fn_lookup_insert_ne by lia. specialize (Hn (S k) ltac:(lia)). cbn [nth] in Hn.
      rewrite <- Hn. f_equal. lia.
    + done.
    + exists m'. rewrite E. split; [f_equal; lia|]. apply (appended_app _ [c] l _ (<[buf + lb_index := c]> m)).
      * apply appended_first.
      * cbn [length]. by replace (buf + lb_index + Z.of_nat 1) with (buf + (lb_index + 1)) by lia.
Qed.

Lemma dotted_cons l l2 labels : dotted (l :: l2 :: labels) = l ++ 46 :: dotted (l2 :: labels).
Proof. done. Qed.

Lemma qname_cons l labels : qname_bytes (l :: labels) = label_bytes l ++ qname_bytes labels.
Proof. unfold qname_bytes. cbn. by rewrite <- app_assoc. Qed.

Lemma qname_length labels : labels <> [] -> len (qname_bytes labels) = len (dotted labels) + 2.
Proof.
  induction labels as [|l labels IH]; intros Hne; [done|]. rewrite qname_cons, length_app. cbn [label_bytes length].
  destruct labels as [|l2 labels]; [cbn; lia|]. rewrite dotted_cons, length_app. specialize (IH ltac:(done)).
  cbn [length] in *. lia.
Qed.

(** A label, its length before it. *)
Lemma pack_one_label n l i s m rest :
  label_ok l -> cstr m (name + i) (l ++ rest) -> disjoint_from (buf + s) (1 + len l) (name + i) (len l) ->
  0 <= s -> s + 1 + len l <= size -> size < 65536 ->
  exists m', pack_qname_loop (length l + n) buf size name i s (s + 1) 0 m =
      pack_qname_loop n buf size name (i + len l) s (s + 1 + len l) (len l) m' /\
    appended (buf + s) (label_bytes l) m (<[buf + s := u8 (len l)]> m').
Proof.
  intros [Hc Hl] Hs Hd H0 Hsz H16. unfold disjoint_from in *.
  destruct (pack_label n l i s (s + 1) 0 m) as (m' & E & A); try done; try lia.
  - intros k Hk. rewrite (cstr_lookup _ _ _ k Hs) by (rewrite length_app; lia). by rewrite app_nth1 by lia.
  - unfold disjoint_from. lia.
  - exists m'. split; [by rewrite E|]. rewrite u8_small by lia. apply appended_cons.
    by rewrite Z.add_assoc in A.
Qed.

(** A character of the name after a label was written. *)
Lemma name_kept i (k : nat) s n m m' full :
  cstr m (name + i) full -> (k <= length full)%nat -> disjoint_from (buf + s) n (name + i) (len full + 1) ->
  (forall x, x < buf + s \/ buf + s + n <= x -> m' x = m x) -> m' (name + (i + Z.of_nat k)) = nth k full 0.
Proof.
  intros Hs Hk Hd Hm. unfold disjoint_from in Hd. rewrite Hm by lia. rewrite Z.add_assoc. by apply cstr_lookup.
Qed.

Lemma label_frame l s m m' :
  appended (buf + s) (label_bytes l) m (<[buf + s := u8 (len l)]> m') ->
  forall x, x < buf + s \/ buf + s + (1 + len l) <= x -> m' x = m x.
Proof.
  intros A x Hx. pose proof (appended_out _ _ _ _ x A) as E. unfold label_bytes in E. cbn [length] in E.
  rewrite <- E by lia. symmetry. apply fn_lookup_insert_ne. lia.
Qed.

Lemma pack_name labels : forall i s m,
  labels <> [] -> Forall label_ok labels -> cstr m (name + i) (dotted labels) ->
  disjoint_from (buf + s) (len (qname_bytes labels)) (name + i) (len (dotted labels) + 1) ->
  0 <= s -> s + len (qname_bytes labels) <= size -> size < 65536 ->
  exists m', pack_qname_loop (S (length (dotted labels))) buf size name i s (s + 1) 0 m =
      (0, Some (s + len (qname_bytes labels)), m') /\
    appended (buf + s) (qname_bytes labels) m m'.
Proof.
  induction labels as [|l labels IH]; intros i s m Hne Hok Hs Hd H0 Hsz H16; [done|].
  pose proof (qname_length _ Hne) as Eq. rewrite Eq in *. apply Forall_cons in Hok as [Hl Hok].
  destruct labels as [|l2 labels].
  - cbn [dotted] in *. replace (S (length l)) with (length l + 1)%nat by lia. clear IH.
    destruct (pack_one_label 1 l i s m []) as (m1 & E & A);
      [done|by rewrite app_nil_r|unfold disjoint_from in *; lia|lia|lia|lia|]. rewrite E.
    cbn [pack_qname_loop]. rewrite (proj2 (Z.leb_gt _ _)) by lia.
    rewrite (name_kept i (length l) s (1 + len l) m m1 l) by
      (done || lia || (unfold disjoint_from in *; lia) || by apply label_frame).
    rewrite nth_overflow by lia. change (0 =? 46) with false. change (0 =? 0) with true. cbv iota.
    rewrite u16_small by lia. eexists. split; [f_equal; f_equal; f_equal; lia|].
    rewrite qname_cons. apply appended_byte_at; [exact A|]. unfold label_bytes. cbn [length]. lia.
  - rewrite dotted_cons in *. set (rest := dotted (l2 :: labels)) in *. rewrite !length_app in *. cbn [length] in *.
    replace (S (length l + S (length rest))) with (length l + S (S (length rest)))%nat by lia.
    destruct (pack_one_label (S (S (length rest))) l i s m (46 :: rest)) as (m1 & E & A);
      [done|done|unfold disjoint_from in *; lia|lia|lia|lia|]. rewrite E.
    cbn [pack_qname_loop]. rewrite (proj2 (Z.leb_gt _ _)) by lia.
    rewrite (name_kept i (length l) s (1 + len l) m m1 (l ++ 46 :: rest)) by
      (done || (rewrite length_app; cbn [length]; lia) || (rewrite length_app; cbn [length]; unfold disjoint_from in *; lia)
       || by apply label_frame).
    rewrite app_nth2, Nat.sub_diag by lia. change (nth 0 (46 :: rest) 0) with 46. change (46 =? 46) with true.
    cbv iota. rewrite u16_small by lia. set (m2 := <[_ := _]> m1) in *.
    pose proof (qname_length (l2 :: labels) ltac:(done)) as Eq2. fold rest in Eq2.
    destruct (IH (i + len l + 1) (s + 1 + len l) m2) as (m' & E' & A'); try done; try lia.
    + assert (cstr m (name + (i + len l + 1)) rest) as Hr.
      { replace (name + (i + len l + 1)) with (name + i + len l + 1) by lia. by eapply cstr_after. }
      eapply cstr_ext; [|exact Hr]. intros x Hx. apply (appended_out _ _ _ _ _ A). unfold label_bytes. cbn [length].
      unfold disjoint_from in Hd. lia.
    + unfold disjoint_from in *. fold rest. lia.
    + fold rest in E'. cbn [pack_qname_loop] in E' |- *. rewrite E'. exists m'. split; [do 3 f_equal; lia|].
      rewrite qname_cons. eapply appended_app; [exact A|]. unfold label_bytes. cbn [length].
      by replace (buf + s + Z.of_nat (S (length l))) with (buf + (s + 1 + len l)) by lia.
Qed.
End Name.

(** ** Queries *)
Definition query_header (id : Z) : list Z := be16 id ++ [1; 0] ++ be16 1 ++ [0; 0; 0; 0; 0; 0].
Definition query_bytes (id : Z) (qname : list Z) (qtype : Z) : list Z :=
  query_header id ++ qname ++ be16 qtype ++ be16 1.

Section Query.
Implicit Types (m : memory).

Lemma appended_zero32_at a l x m m' :
  appended a l m m' -> x = a + len l -> appended a (l ++ [0; 0; 0; 0]) m (store32 x 0 m').
Proof.
  intros A ->. unfold store32. change (u8 (Z.shiftr 0 24)) with 0. change (u8 (Z.shiftr 0 16)) with 0.
  change (u8 (Z.shiftr 0 8)) with 0. change (u8 0) with 0.
  change [0; 0; 0; 0] with ([0] ++ [0] ++ [0] ++ [0]). rewrite !app_assoc.
  repeat (apply appended_byte_at; [|rewrite ?length_app; cbn [length]; lia]). exact A.
Qed.

Lemma pack_header_ok buf size id m :
  0 <= id < 65536 -> 12 <= size ->
  exists m', dns_msg_pack_query_header buf size id m = (0, m') /\ appended buf (query_header id) m m'.
Proof.
  intros Hid Hsz. unfold dns_msg_pack_query_header, DNS_MSG_HEADER_SIZE. rewrite (proj2 (Z.ltb_ge _ _)) by lia.
  eexists. split; [done|]. change (UNALIGNED_PUT 0) with (UNALIGNED_PUT (htons 0)).
  unfold query_header, DNS_HEADER_ID_LEN, DNS_HEADER_FLAGS_LEN, DNS_QDCOUNT_LEN, DNS_ANCOUNT_LEN, DNS_NSCOUNT_LEN.
  change [0; 0; 0; 0; 0; 0] with ([0; 0; 0; 0] ++ be16 0). change [1; 0] with ([1] ++ [0]). rewrite !app_assoc.
  apply appended_put16_at; [|rewrite !length_app; unfold be16; cbn [length]; lia|lia].
  apply appended_zero32_at; [|rewrite !length_app; unfold be16; cbn [length]; lia].
  apply appended_put16_at; [|rewrite !length_app; unfold be16; cbn [length]; lia|lia].
  apply appended_byte_at; [|rewrite !length_app; unfold be16; cbn [length]; lia].
  apply appended_byte_at; [|unfold be16; cbn [length]; lia].
  pose proof (appended_put16 buf [] id m m (appended_nil buf m) Hid) as A. cbn [app length] in A.
  by rewrite Z.add_0_r in A.
Qed.

Lemma pack_query_ok buf size qname n id qtype m :
  0 <= id < 65536 -> 0 <= qtype < 65536 -> 0 <= n -> 16 + n <= size -> size < 65536 ->
  disjoint_from buf 12 qname n ->
  exists m', dns_msg_pack_query buf size qname n id qtype m = (0, Some (16 + n), m') /\
    appended buf (query_bytes id (read_bytes m qname n) qtype) m m'.
Proof.
  intros Hid Hq Hn Hsz H16 Hd. unfold dns_msg_pack_query, DNS_MSG_HEADER_SIZE, DNS_QTYPE_LEN, DNS_QCLASS_LEN, DNS_CLASS_IN.
  rewrite (proj2 (Z.ltb_ge _ _)) by lia. destruct (pack_header_ok buf size id m Hid ltac:(lia)) as (m1 & -> & A).
  cbn [Z.eqb negb]. fits16. eexists. split; [do 2 f_equal; f_equal; lia|].
  assert (len (query_header id) = 12) as L12 by done.
  assert (len (read_bytes m qname n) = n) as Ln by (unfold read_bytes; rewrite length_fmap, length_seqZ; lia).
  apply (appended_memcpy _ _ qname n) in A; [|lia|by rewrite L12]. rewrite L12 in A.
  apply (appended_put16_at _ _ qtype (buf + (12 + n))) in A; [|rewrite length_app; lia|lia].
  apply (appended_put16_at _ _ 1 (buf + (12 + n + 2))) in A; [|rewrite !length_app; change (length (be16 qtype)) with 2%nat; lia|lia].
  unfold query_bytes. by rewrite <- !app_assoc in A.
Qed.
End Query.
End DnsPack.
