(* ===== verification/DnsRead.v ===== *)
(** * DNS responses (lib/iot/dns/dns_client.c, dns_pack.c)

    A response as a list of records, what a resolver makes of them, and the proof
    that [dns_read] does so on the bytes of the response. *)
From S2P Require Import Prelude Kernel LibcString Bytes Zoap ZoapOptions ZoapBuild Dns DnsPack.

Module DnsRead.
Import Zoap ZoapOptions ZoapBuild Dns DnsPack.

(** ** Records *)

(** An answer: the position of the name it is about, its type, the time it lives, its
    data. *)
Record answer := mk_answer { an_ptr : Z; an_type : Z; an_ttl : list Z; an_data : list Z }.

Definition answer_bytes (a : answer) : list Z :=
  be16 (49152 + an_ptr a) ++ be16 (an_type a) ++ be16 1 ++ an_ttl a ++ be16 (len (an_data a)) ++ an_data a.

Record answer_ok (a : answer) : Prop := {
  ao_ptr : 0 <= an_ptr a < 16384;
  ao_type : 0 <= an_type a < 256;
  ao_ttl : len (an_ttl a) = 4;
  ao_data : len (an_data a) < 65536
}.

Lemma answer_length a : answer_ok a -> len (answer_bytes a) = 12 + len (an_data a).
Proof. intros [_ _ Ht _]. unfold answer_bytes. rewrite !length_app. unfold be16. cbn [length]. lia. Qed.

(** ** What a resolver makes of the answers *)

Inductive status := Malformed | Found | Over (last : option (list Z)).
#[export] Instance status_eq_dec : EqDecision status.
Proof. solve_decision. Defined.

(** The answers from the position [pos] on, about the name at [ptr]: the addresses of
    the type asked for, at most [elements] with those found before, or the last alias. *)
Fixpoint resolve (type elements pos ptr : Z) (l : list answer) (addrs : list (list Z)) (last : option (list Z))
    : status * list (list Z) :=
  match l with
  | [] => (Over last, addrs)
  | a :: l =>
      let next := pos + 12 + len (an_data a) in
      if negb (an_ptr a =? ptr) then (Malformed, addrs)
      else if an_type a =? type then
        if negb (len (an_data a) =? address_size type) then (Malformed, addrs)
        else
          let addrs := addrs ++ [an_data a] in
          if elements <=? len addrs then (Found, addrs)
          else resolve type elements next ptr l addrs None
      else if an_type a =? DNS_RR_TYPE_CNAME then
        resolve type elements next (pos + 12) l addrs (Some (an_data a))
      else (Malformed, addrs)
  end.

(** What the client makes of them: it takes the first bytes of every address that is
    long enough, of either kind. *)
Fixpoint resolve_any (asz elements pos ptr : Z) (l : list answer) (addrs : list (list Z)) (last : option (list Z))
    : status * list (list Z) :=
  match l with
  | [] => (Over last, addrs)
  | a :: l =>
      let next := pos + 12 + len (an_data a) in
      if negb (an_ptr a =? ptr) then (Malformed, addrs)
      else if (an_type a =? DNS_RR_TYPE_A) || (an_type a =? DNS_RR_TYPE_AAAA) then
        if len (an_data a) <? asz then (Malformed, addrs)
        else
          let addrs := addrs ++ [take (Z.to_nat asz) (an_data a)] in
          if elements <=? len addrs then (Found, addrs)
          else resolve_any asz elements next ptr l addrs None
      else if an_type a =? DNS_RR_TYPE_CNAME then
        resolve_any asz elements next (pos + 12) l addrs (Some (an_data a))
      else (Malformed, addrs)
  end.

Definition is_address (a : answer) : bool := (an_type a =? DNS_RR_TYPE_A) || (an_type a =? DNS_RR_TYPE_AAAA).

(** An address is of the type asked for, and not longer than such an address. *)
Definition kind_ok (type : Z) (a : answer) : Prop :=
  is_address a = true -> an_type a = type /\ len (an_data a) <= address_size type.

(** It is the same when the server sends no other addresses. *)
Lemma resolve_any_ok type elements l : forall pos ptr addrs last,
  type = DNS_QUERY_TYPE_A \/ type = DNS_QUERY_TYPE_AAAA -> Forall (kind_ok type) l ->
  resolve_any (address_size type) elements pos ptr l addrs last = resolve type elements pos ptr l addrs last.
Proof.
  induction l as [|a l IH]; intros pos ptr addrs last Ht Hl; [done|]. apply Forall_cons in Hl as [Ha Hl].
  cbn [resolve_any resolve]. fold (is_address a). unfold kind_ok in Ha.
  destruct (negb _); [done|]. destruct (is_address a) eqn:Ea.
  - destruct (Ha eq_refl) as [-> Hlen]. rewrite Z.eqb_refl.
    destruct (Z.ltb_spec (len (an_data a)) (address_size type)).
    + by rewrite (proj2 (Z.eqb_neq _ _)) by lia.
    + rewrite (proj2 (Z.eqb_eq (len (an_data a)) _)) by lia. cbn [negb]. rewrite take_ge by lia.
      destruct (_ <=? _); [done|]. by apply IH.
  - assert ((an_type a =? type) = false) as ->.
    { unfold is_address in Ea. apply orb_false_iff in Ea as [E1 E2]. by destruct Ht as [-> | ->]. }
    destruct (_ =? _); [|done]. by apply IH.
Qed.

Section Fields.
Implicit Types (m : memory).

Lemma field16_found m a v : 0 <= v < 65536 -> found m a (be16 v) -> field16 m a = v.
Proof.
  intros Hv Hf. destruct (found_be16 m a v [] Hv) as [E _]; [by rewrite app_nil_r|]. exact E.
Qed.

Lemma found_byte m a l (k : nat) : found m a l -> (k < length l)%nat -> m (a + Z.of_nat k) = nth k l 0.
Proof. intros Hf Hk. by apply Hf. Qed.

(** The pieces of an answer in memory. *)
Lemma answer_found m a x :
  answer_ok a -> found m x (answer_bytes a) ->
  DNS_LABEL_MAX_SIZE <= m x /\
  Z.shiftl (Z.land (m x) DNS_LABEL_MAX_SIZE) 8 + m (x + 1) = an_ptr a /\
  dns_response_type m 2 x = an_type a /\ dns_answer_class m 2 x = 1 /\
  dns_unpack_answer_rdlength m 2 x = len (an_data a) /\ found m (x + 12) (an_data a).
Proof.
  intros [Hp Ht H4 Hd] Hf. unfold answer_bytes in Hf. rewrite !found_app in Hf.
  destruct Hf as (F0 & F1 & F2 & F3 & F4 & F5). rewrite H4 in *.
  change (len (be16 (49152 + an_ptr a))) with 2 in *. change (len (be16 (an_type a))) with 2 in *.
  change (len (be16 1)) with 2 in *. change (len (be16 (len (an_data a)))) with 2 in *.
  unfold be16 in F0. rewrite !found_cons in F0. destruct F0 as (B0 & B1 & _).
  assert ((49152 + an_ptr a) / 256 = 192 + an_ptr a / 256) as Ed.
  { replace (49152 + an_ptr a) with (an_ptr a + 192 * 256) by lia. rewrite Z.div_add by lia. lia. }
  assert ((49152 + an_ptr a) `mod` 256 = an_ptr a `mod` 256) as Em.
  { replace (49152 + an_ptr a) with (an_ptr a + 192 * 256) by lia. by rewrite Z.mod_add by lia. }
  assert (0 <= an_ptr a / 256 < 64) as Hh by (split; [apply Z.div_pos; lia|apply Z.div_lt_upper_bound; lia]).
  rewrite Ed in B0. rewrite Em in B1. unfold DNS_LABEL_MAX_SIZE. split_and!.
  - lia.
  - rewrite B0, B1. change 63 with (Z.ones 6). rewrite Z.land_ones by lia.
    replace (192 + an_ptr a / 256) with (an_ptr a / 256 + 3 * 2 ^ 6) by (cbn; lia). rewrite Z.mod_add by lia.
    rewrite Z.mod_small by (cbn; lia). rewrite Z.shiftl_mul_pow2 by lia. pose proof (Z.div_mod (an_ptr a) 256). cbn; lia.
  - unfold dns_response_type. unfold be16 in F1. rewrite !found_cons in F1. destruct F1 as (_ & B & _). rewrite B.
    apply Z.mod_small. lia.
  - unfold dns_answer_class. unfold be16 in F2. rewrite !found_cons in F2. destruct F2 as (_ & B & _).
    by replace (x + 2 + 3) with (x + 2 + 2 + 1) by lia.
  - unfold dns_unpack_answer_rdlength. apply field16_found; [lia|]. eapply found_at; [exact F4|lia].
  - eapply found_at; [exact F5|lia].
Qed.
End Fields.

(** ** The loop over the answers *)
Section Answers.
Implicit Types (m : memory) (d : dns_msg_t).

Lemma unpack_answer_ok m d a ptr :
  answer_ok a -> found m (msg d + answer_offset d) (answer_bytes a) -> 0 <= answer_offset d ->
  answer_offset d + 12 + len (an_data a) <= msg_size d -> msg_size d < 65536 ->
  exists ttl, dns_unpack_answer m d ptr =
    if negb (an_ptr a =? ptr) then (- ENOMEM, None, d)
    else if is_address a then
      (0, ttl, set_dns_msg_response d DNS_RESPONSE_IP (answer_offset d + 12) (len (an_data a)))
    else if an_type a =? DNS_RR_TYPE_CNAME then
      (0, ttl, set_dns_msg_response d DNS_RESPONSE_CNAME_NO_IP (answer_offset d + 12) (len (an_data a)))
    else (- EINVAL, ttl, d).
Proof.
  intros Ha Hf H0 Hfit Hsz. destruct (answer_found m a _ Ha Hf) as (E1 & E2 & E3 & E4 & E5 & _).
  unfold dns_unpack_answer, DNS_COMMON_UINT_SIZE, DNS_ANSWER_MIN_SIZE, DNS_CLASS_IN. eexists.
  rewrite (proj2 (Z.ltb_ge _ _)) by done. rewrite E2. destruct (an_ptr a =? ptr); cbn [negb]; [|done].
  rewrite !u16_small by lia. rewrite (proj2 (Z.ltb_ge _ _)) by lia. rewrite E3, E4, E5. cbn [Z.eqb Pos.eqb negb].
  unfold is_address. destruct (_ || _); [done|]. by destruct (an_type a =? DNS_RR_TYPE_CNAME).
Qed.

Lemma found_frame m m' a l :
  (forall x, a <= x < a + len l -> m' x = m x) -> found m a l -> found m' a l.
Proof. intros Hm Hf i Hi. rewrite Hm by lia. by apply Hf. Qed.

(** The last record is an alias with this name, or is none. *)
Definition describes m d (last : option (list Z)) : Prop :=
  match last with
  | Some v => response_type d = DNS_RESPONSE_CNAME_NO_IP /\ response_length d = len v /\
      0 <= response_position d /\ response_position d + len v <= msg_size d /\
      found m (msg d + response_position d) v
  | None => response_type d <> DNS_RESPONSE_CNAME_NO_IP
  end.

Definition answers_bytes (l : list answer) : list Z := mjoin (answer_bytes <$> l).

(** How the loop ends, by what a resolver makes of the answers. *)
Definition ends_as d (st : status) (n : Z) m' (t : traversed) : Prop :=
  match st with
  | Malformed => t = Error (- EINVAL) n m'
  | Found => t = Enough n m'
  | Over last => exists d', t = End d' n m' /\ msg d' = msg d /\ msg_size d' = msg_size d /\ describes m' d' last
  end.

Context (type addresses elements : Z).
Let asz := address_size type.

Lemma address_size_pos : 4 <= asz <= 16.
Proof. unfold asz, address_size, DNS_IPV4_LEN, DNS_IPV6_LEN. case_match; lia. Qed.

(** The state of the loop: the answers [l] are next, the addresses are written apart
    from the message. *)
Record at_answers m d (l : list answer) (i items : Z) : Prop := {
  at_ok : Forall answer_ok l;
  at_found : found m (msg d + answer_offset d) (answers_bytes l);
  at_count : dns_header_ancount m (msg d) = i + len l;
  at_offset : 12 <= answer_offset d;
  at_fits : answer_offset d + len (answers_bytes l) <= msg_size d < 65536;
  at_apart : disjoint_from addresses (elements * asz) (msg d) (msg_size d);
  at_items : 0 <= items < elements
}.

Definition step_over d (a : answer) (rt : Z) : dns_msg_t :=
  mk_dns_msg (msg d) rt (answer_offset d + 12) (len (an_data a)) (query_offset d)
    (answer_offset d + 12 + len (an_data a)) (msg_size d).

Lemma answers_cons a l : answers_bytes (a :: l) = answer_bytes a ++ answers_bytes l.
Proof. done. Qed.

(** After an answer, with addresses written behind those before. *)
Lemma at_answers_next m m' d a l i items items' rt :
  at_answers m d (a :: l) i items -> items <= items' < elements ->
  (forall x, x < addresses + items * asz \/ addresses + items' * asz <= x -> m' x = m x) ->
  at_answers m' (step_over d a rt) l (i + 1) items'.
Proof.
  intros [Hok Hf Hc Ho Hfit Hd Hi] Hi' Hm. apply Forall_cons in Hok as [Ha Hok]. pose proof address_size_pos.
  rewrite answers_cons in *. rewrite length_app, Nat2Z.inj_add, answer_length in Hfit by done.
  apply found_app in Hf as [_ Hf]. rewrite answer_length in Hf by done. unfold disjoint_from in Hd.
  assert (forall x, msg d <= x < msg d + msg_size d -> m' x = m x) as Hmsg by (intros x Hx; apply Hm; nia).
  split; cbn [step_over msg answer_offset msg_size]; try done; try lia.
  - eapply found_frame; [|eapply found_at; [exact Hf|lia]]. intros x Hx. apply Hmsg. lia.
  - cbn [length] in Hc. replace (i + 1 + len l) with (i + Z.of_nat (S (length l))) by lia. rewrite <- Hc.
    unfold dns_header_ancount, field16, UNALIGNED_GET. by rewrite !Hmsg by lia.
Qed.

(** The first answer, read. *)
Lemma first_answer m d a l i items :
  at_answers m d (a :: l) i items ->
  answer_ok a /\ found m (msg d + answer_offset d) (answer_bytes a) /\
  answer_offset d + 12 + len (an_data a) <= msg_size d /\
  (i <? dns_header_ancount m (msg d)) = true /\
  forall rt, set_answer_offset (u16 (u16 (answer_offset d + DNS_ANSWER_PTR_LEN) + len (an_data a)))
      (set_dns_msg_response d rt (answer_offset d + 12) (len (an_data a))) = step_over d a rt.
Proof.
  intros [Hok Hf Hc Ho Hfit _ _]. apply Forall_cons in Hok as [Ha _]. rewrite answers_cons in *.
  rewrite length_app, Nat2Z.inj_add, answer_length in Hfit by done. apply found_app in Hf as [Hf _].
  split_and!; try done; try lia.
  - apply Z.ltb_lt. cbn [length] in Hc. lia.
  - intros rt. unfold DNS_ANSWER_PTR_LEN. fits16. done.
Qed.

Lemma address_copied m d a l i items :
  at_answers m d (a :: l) i items -> asz <= len (an_data a) ->
  let addr := take (Z.to_nat asz) (an_data a) in
  len addr = asz /\
  appended (addresses + items * asz) addr m
    (memcpy (addresses + items * asz) (msg d + (answer_offset d + 12)) asz m).
Proof.
  intros Hat Hlen addr. pose proof address_size_pos. destruct (first_answer _ _ _ _ _ _ Hat) as (Ha & Hf & _).
  destruct (answer_found m a _ Ha Hf) as (_ & _ & _ & _ & _ & Hd).
  assert (len addr = asz) as El by (unfold addr; rewrite length_take; lia). split; [done|].
  assert (read_bytes m (msg d + (answer_offset d + 12)) asz = addr) as Er.
  { rewrite <- El. apply found_read. rewrite <- (take_drop (Z.to_nat asz) (an_data a)) in Hd.
    apply found_app in Hd as [Hd _]. eapply found_at; [exact Hd|lia]. }
  unfold appended. rewrite <- Er. apply write_memcpy. lia.
Qed.

Lemma answers_loop_ok fuel : forall l m d ptr addrs last i,
  at_answers m d l i (len addrs) -> describes m d last -> (length l < fuel)%nat ->
  let '(st, all) := resolve_any asz elements (answer_offset d) ptr l addrs last in
  exists new m' t, all = addrs ++ new /\
    answers_loop fuel m d ptr type addresses elements (len addrs) i = Some t /\
    appended (addresses + len addrs * asz) (mjoin new) m m' /\ ends_as d st (len all) m' t.
Proof.
  induction fuel as [|fuel IH]; intros l m d ptr addrs last i Hat Hlast Hfuel; [lia|].
  destruct l as [|a l]; cbn [resolve_any answers_loop].
  { pose proof (at_count _ _ _ _ _ Hat) as Hc. cbn [length] in Hc. rewrite (proj2 (Z.ltb_ge _ _)) by lia.
    exists [], m. eexists. rewrite app_nil_r. split_and!; [done|done|apply appended_nil|]. by exists d. }
  destruct (first_answer _ _ _ _ _ _ Hat) as (Ha & Hf & Hfit & Hi & Hnext). rewrite Hi.
  destruct (unpack_answer_ok m d a ptr Ha Hf) as [ttl ->]; [apply at_offset in Hat; lia|done|apply (at_fits _ _ _ _ _ Hat)|].
  fold (is_address a).
  assert (forall st t, ends_as d st (len addrs) m t -> exists new m' t', addrs = addrs ++ new /\
    Some t = Some t' /\ appended (addresses + len addrs * asz) (mjoin new) m m' /\ ends_as d st (len addrs) m' t') as Hstop.
  { intros st t Ht. exists [], m, t. rewrite app_nil_r. split_and!; try done. apply appended_nil. }
  destruct (an_ptr a =? ptr); cbn [negb]; [|by apply Hstop].
  destruct (is_address a) eqn:Eaddr.
  - cbn [Z.eqb negb response_type set_dns_msg_response response_length]. rewrite Z.eqb_refl. fold asz.
    destruct (Z.ltb_spec (len (an_data a)) asz) as [Hs|Hs]; [by apply Hstop|].
    destruct (address_copied _ _ _ _ _ _ Hat Hs) as [El A]. set (addr := take (Z.to_nat asz) (an_data a)) in *.
    assert (len (addrs ++ [addr]) = len addrs + 1) as Elen by (rewrite length_app; cbn [length]; lia). rewrite Elen.
    cbn [msg response_position]. set (m1 := memcpy _ _ _ m) in *. destruct (Z.leb_spec elements (len addrs + 1)) as [He|He].
    + exists [addr], m1. eexists. split_and!; [done|done|by (cbn; rewrite app_nil_r)|]. by rewrite Elen.
    + cbn [answer_offset]. rewrite Hnext.
      destruct (resolve_any _ _ _ _ _ _ _) as [st all] eqn:Er.
      specialize (IH l m1 (step_over d a DNS_RESPONSE_IP) ptr (addrs ++ [addr]) None (i + 1)). rewrite Elen in IH.
      cbn [step_over answer_offset] in IH. rewrite Er in IH. destruct IH as (new & m' & t & -> & E & A' & Ht).
      * eapply at_answers_next; [exact Hat|lia|]. intros x Hx. apply (appended_out _ _ _ _ _ A). nia.
      * done.
      * cbn [length] in Hfuel. lia.
      * exists (addr :: new), m', t. rewrite <- app_assoc. split_and!; [done|exact E| |by rewrite <- app_assoc in Ht].
        cbn [mjoin list_join]. eapply appended_app; [exact A|].
        by replace (addresses + len addrs * asz + len addr) with (addresses + (len addrs + 1) * asz) by lia.
  - destruct (an_type a =? DNS_RR_TYPE_CNAME) eqn:Ec; [|by apply Hstop].
    cbn [Z.eqb negb response_type set_dns_msg_response response_length]. change (DNS_RESPONSE_CNAME_NO_IP =? DNS_RESPONSE_IP) with false.
    rewrite Z.eqb_refl. cbn [answer_offset response_position]. rewrite Hnext.
    destruct (resolve_any _ _ _ _ _ _ _) as [st all] eqn:Er.
    specialize (IH l m (step_over d a DNS_RESPONSE_CNAME_NO_IP) (answer_offset d + 12) addrs (Some (an_data a)) (i + 1)).
    cbn [step_over answer_offset] in IH. rewrite Er in IH. apply IH.
    + eapply at_answers_next; [exact Hat|pose proof (at_items _ _ _ _ _ Hat); lia|done].
    + cbn. split_and!; try done; try lia; [pose proof (at_offset _ _ _ _ _ Hat); lia|].
      destruct (answer_found m a _ Ha Hf) as (_ & _ & _ & _ & _ & Hd). eapply found_at; [exact Hd|lia].
    + cbn [length] in Hfuel. lia.
Qed.
End Answers.
End DnsRead.
