(* ===== verification/DnsClient.v ===== *)
(** * The DNS resolver (lib/iot/dns/dns_client.c)

    Responses as messages, what [dns_read] makes of their bytes, and the refinement:
    [dns_resolve] follows the aliases a server answers with, query by query, to the
    addresses. *)
From S2P Require Import Prelude Kernel LibcString Bytes Zoap ZoapOptions ZoapBuild Dns DnsPack DnsRead.

Module DnsClient.
Import Zoap ZoapOptions ZoapBuild Dns DnsPack DnsRead.

(** ** Responses *)

(** The bits AA, TC and RD, the bit RA, the code, the two counts that are not read, the
    question, the answers, and what is behind them. *)
Record response := mk_response {
  rs_flags : Z;
  rs_ra : bool;
  rs_rcode : Z;
  rs_counts : list Z;
  rs_qname : list Z;
  rs_qtype : Z;
  rs_answers : list answer;
  rs_more : list Z
}.

Definition response_bytes (id : Z) (r : response) : list Z :=
  be16 id ++ [128 + rs_flags r; (if rs_ra r then 128 else 0) + rs_rcode r] ++ be16 1 ++ be16 (len (rs_answers r)) ++
  rs_counts r ++ (rs_qname r ++ [0]) ++ be16 (rs_qtype r) ++ be16 1 ++ answers_bytes (rs_answers r) ++ rs_more r.

Record response_ok (r : response) : Prop := {
  ro_flags : 0 <= rs_flags r < 8;
  ro_rcode : 0 <= rs_rcode r < 16;
  ro_counts : len (rs_counts r) = 4;
  ro_qname : Forall (fun c => c <> 0) (rs_qname r);
  ro_qtype : rs_qtype r = DNS_RR_TYPE_A \/ rs_qtype r = DNS_RR_TYPE_AAAA;
  ro_answers : Forall answer_ok (rs_answers r);
  ro_size : len (response_bytes 0 r) <= DNS_RESOLVER_MAX_BUF_SIZE
}.

Definition answers_at (r : response) : Z := 12 + (len (rs_qname r) + 1) + 4.

(** What a resolver makes of a response. *)
Definition verdict (type elements : Z) (r : response) : status * list (list Z) :=
  if negb (rs_rcode r =? 0) then (Malformed, [])
  else
    match rs_answers r with
    | [] => (Malformed, [])
    | l => resolve type elements (answers_at r) DNS_QUERY_POS l [] None
    end.

(** The name to ask for next. *)
Definition alias (v : status * list (list Z)) : option (list Z) :=
  match v with (Over last, []) => last | _ => None end.

Definition status_rc (s : status) : Z := match s with Malformed => - EINVAL | _ => 0 end.

Lemma response_bytes_length id r : len (response_bytes id r) = len (response_bytes 0 r).
Proof. unfold response_bytes. rewrite !length_app. done. Qed.

Lemma response_size r : response_ok r ->
  len (response_bytes 0 r) = answers_at r + len (answers_bytes (rs_answers r)) + len (rs_more r).
Proof.
  intros Hr. pose proof (ro_counts r Hr). unfold response_bytes, answers_at. rewrite !length_app. unfold be16. cbn [length]. lia.
Qed.

Section Response.
Implicit Types (m : memory) (r : response).

(** The pieces of a response in memory. *)
Lemma response_found m data id r :
  response_ok r -> found m data (response_bytes id r) ->
  found m data (be16 id) /\ m (data + 2) = 128 + rs_flags r /\
  m (data + 3) = (if rs_ra r then 128 else 0) + rs_rcode r /\
  found m (data + 4) (be16 1) /\ found m (data + 6) (be16 (len (rs_answers r))) /\
  found m (data + 12) (rs_qname r ++ [0]) /\ found m (data + 12 + (len (rs_qname r) + 1)) (be16 (rs_qtype r)) /\
  found m (data + 12 + (len (rs_qname r) + 1) + 2) (be16 1) /\
  found m (data + answers_at r) (answers_bytes (rs_answers r)).
Proof.
  intros Hr Hf. pose proof (ro_counts r Hr) as H4. unfold response_bytes in Hf.
  rewrite (found_app _ _ (be16 id)) in Hf. destruct Hf as (F0 & Hf).
  change (len (be16 id)) with 2 in Hf. cbn [app] in Hf. rewrite !found_cons in Hf. destruct Hf as (B2 & B3 & Hf).
  rewrite (found_app _ _ (be16 1)) in Hf. destruct Hf as (F4 & Hf). change (len (be16 1)) with 2 in Hf.
  rewrite (found_app _ _ (be16 _)) in Hf. destruct Hf as (F6 & Hf). change (len (be16 (len (rs_answers r)))) with 2 in Hf.
  rewrite (found_app _ _ (rs_counts r)), H4 in Hf. destruct Hf as (_ & Hf).
  rewrite (found_app _ _ (rs_qname r ++ [0])), length_app in Hf. destruct Hf as (F12 & Hf).
  rewrite (found_app _ _ (be16 _)) in Hf. destruct Hf as (Fq & Hf). change (len (be16 (rs_qtype r))) with 2 in Hf.
  rewrite (found_app _ _ (be16 1)) in Hf. destruct Hf as (Fc & Hf). change (len (be16 1)) with 2 in Hf.
  rewrite (found_app _ _ (answers_bytes _)) in Hf. destruct Hf as (Fa & _). unfold answers_at. cbn [length] in *.
  split_and!; try done; match goal with
  | |- m _ = _ => rewrite <- B3; f_equal; lia
  | |- found _ (data + 4) _ => apply (found_at _ _ _ _ F4)
  | |- _ => eapply found_at; [eassumption|]
  end; lia.
Qed.

Lemma find_null_ok m buf q : forall n k,
  found m (buf + k) (q ++ [0]) -> Forall (fun c => c <> 0) q -> (length q < n)%nat ->
  find_null_loop n m buf k = (0, k + len q + 1).
Proof.
  induction q as [|c q IH]; intros n k Hf Hq Hn; (destruct n as [|n]; [cbn [length] in Hn; lia|]);
    cbn [app find_null_loop] in *; apply found_cons in Hf as [B Hf]; rewrite B.
  - rewrite Z.eqb_refl. f_equal. cbn. lia.
  - apply Forall_cons in Hq as [Hc Hq]. rewrite (proj2 (Z.eqb_neq c 0)) by done. rewrite (IH n (k + 1)).
    + f_equal. cbn [length]. lia.
    + eapply found_at; [exact Hf|lia].
    + done.
    + cbn [length] in Hn. lia.
Qed.

(** The bits of the two bytes of flags. *)
Lemma flags_read m data r :
  response_ok r -> m (data + 2) = 128 + rs_flags r -> m (data + 3) = (if rs_ra r then 128 else 0) + rs_rcode r ->
  dns_header_qr m data = 1 /\ dns_header_opcode m data = 0 /\ dns_header_z m data = 0 /\ dns_header_rcode m data = rs_rcode r.
Proof.
  intros [Hf Hc _ _ _ _ _] B2 B3. unfold dns_header_qr, dns_header_opcode, dns_header_z, dns_header_rcode.
  rewrite B2, B3. clear B2 B3.
  assert (forall f, 0 <= f < 8 -> (Z.land (128 + f) 128 =? 0) = false /\ Z.land (128 + f) 112 = 0) as Hflags.
  { intros f Hr. assert (f = 0 \/ f = 1 \/ f = 2 \/ f = 3 \/ f = 4 \/ f = 5 \/ f = 6 \/ f = 7) as Hf' by lia.
    destruct_or! Hf'; by subst f. }
  destruct (Hflags _ Hf) as [-> ->].
  assert (forall (ra : bool) c, 0 <= c < 16 -> let b := (if ra then 128 else 0) + c in Z.land b 112 = 0 /\ Z.land b 15 = c) as Hcode.
  { intros ra c Hr. assert (Z.to_nat c < 16)%nat as Hn by lia. rewrite <- (Z2Nat.id c) by lia.
    revert Hn. generalize (Z.to_nat c). intros n Hn. do 16 (destruct n as [|n]; [by destruct ra|]). lia. }
  destruct (Hcode (rs_ra r) _ Hc) as [-> ->]. done.
Qed.
End Response.

(** ** Reading a response *)
Section Read.
Implicit Types (m : memory) (r : response) (d : dns_msg_t).

Lemma answers_count l : Forall answer_ok l -> len l <= len (answers_bytes l).
Proof.
  induction 1 as [|a l Ha Hl IH]; [done|]. rewrite answers_cons, length_app. pose proof (answer_length a Ha).
  cbn [length]. lia.
Qed.

Lemma answers_fit r : response_ok r -> len (rs_answers r) <= 512.
Proof.
  intros Hr. pose proof (answers_count _ (ro_answers r Hr)). pose proof (response_size r Hr). pose proof (ro_size r Hr).
  unfold answers_at, DNS_RESOLVER_MAX_BUF_SIZE in *. lia.
Qed.

Lemma header_ok m data id r :
  response_ok r -> 0 <= id < 65536 -> found m data (response_bytes id r) ->
  let d := mk_dns_msg data 0 0 0 0 0 (len (response_bytes id r)) in
  dns_unpack_response_header m d id =
    (if negb (rs_rcode r =? 0) then rs_rcode r else match rs_answers r with [] => - EINVAL | _ => 0 end) /\
  dns_header_qdcount m data = 1 /\ dns_header_ancount m data = len (rs_answers r).
Proof.
  intros Hr Hid Hf d. destruct (response_found _ _ _ _ Hr Hf) as (F0 & B2 & B3 & F4 & F6 & _).
  destruct (flags_read _ _ _ Hr B2 B3) as (Eqr & Eop & Ez & Erc).
  pose proof (response_size r Hr) as Hsz. pose proof (ro_size r Hr) as Hmax. unfold answers_at, DNS_RESOLVER_MAX_BUF_SIZE in *.
  pose proof (answers_fit r Hr) as Hcount.
  assert (dns_unpack_header_qdcount m data = 1) as Eqd by (apply field16_found; [lia|done]).
  assert (dns_unpack_header_ancount m data = len (rs_answers r)) as Ean by (apply field16_found; [lia|done]).
  split_and!; [|exact Eqd|exact Ean].
  unfold dns_unpack_response_header, DNS_MSG_HEADER_SIZE. cbn [d msg msg_size]. rewrite response_bytes_length.
  rewrite (proj2 (Z.ltb_ge _ _)) by lia. unfold dns_unpack_header_id. rewrite (field16_found m data id Hid F0).
  rewrite Z.eqb_refl, Eqr, Eop, Ez, Erc, Eqd, Ean. cbn [Z.eqb negb]. unfold DNS_RESPONSE, DNS_QUERY, DNS_HEADER_NOERROR.
  cbn [Z.eqb Pos.eqb negb]. destruct (rs_rcode r =? 0); cbn [negb]; [|done].
  destruct (rs_answers r) as [|a l]; [done|]. by rewrite (proj2 (Z.ltb_ge (len (a :: l)) 1)) by (cbn [length]; lia).
Qed.

Lemma question_ok m data id r :
  response_ok r -> found m data (response_bytes id r) ->
  dns_unpack_response_query m (mk_dns_msg data 0 0 0 0 0 (len (response_bytes id r))) =
    (0, mk_dns_msg data 0 0 0 12 (answers_at r) (len (response_bytes id r))).
Proof.
  intros Hr Hf. destruct (response_found _ _ _ _ Hr Hf) as (_ & _ & _ & _ & _ & F12 & Fq & Fc & _).
  pose proof (response_size r Hr) as Hsz. pose proof (ro_size r Hr) as Hmax. rewrite response_bytes_length.
  unfold answers_at, DNS_RESOLVER_MAX_BUF_SIZE in *.
  unfold dns_unpack_response_query, DNS_MSG_HEADER_SIZE, DNS_QTYPE_LEN, DNS_QCLASS_LEN, dns_find_null.
  cbn [set_query_offset msg query_offset msg_size response_type response_position response_length answer_offset].
  rewrite (find_null_ok m (data + 12) (rs_qname r)) by
    (try apply (ro_qname r Hr); try (rewrite Z.add_0_r; exact F12); rewrite u16_small by lia; lia).
  cbn [Z.eqb negb]. rewrite Z.add_0_l. rewrite (proj2 (Z.ltb_ge _ _)) by lia.
  assert (0 <= rs_qtype r < 65536) as Hq by (destruct (ro_qtype r Hr) as [-> | ->]; unfold DNS_RR_TYPE_A, DNS_RR_TYPE_AAAA; lia).
  unfold dns_unpack_query_qtype, dns_unpack_query_qclass. rewrite (field16_found _ _ _ Hq Fq), (field16_found _ _ 1 ltac:(lia) Fc).
  unfold DNS_CLASS_IN. cbn [Z.eqb Pos.eqb negb].
  assert (negb (rs_qtype r =? DNS_RR_TYPE_A) && negb (rs_qtype r =? DNS_RR_TYPE_AAAA) = false) as ->
    by (by destruct (ro_qtype r Hr) as [-> | ->]).
  unfold set_answer_offset. cbn [msg query_offset msg_size response_type response_position response_length]. fits16.
  do 2 f_equal. lia.
Qed.

Context (type addresses elements data id cname : Z).
Let asz := address_size type.

(** The result is the verdict: the addresses are written one behind the other, the
    name to ask for next is at [cname]. *)
Definition read_as m0 (v : status * list (list Z)) (res : option (Z * Z * memory * option Z)) : Prop :=
  exists n m1 m2, res = Some (status_rc v.1, n, m2, (fun a => len a) <$> alias v) /\
    (v.1 <> Malformed -> n = len v.2) /\
    appended addresses (mjoin v.2) m0 m1 /\ appended cname (default [] (alias v)) m1 m2.

Lemma read_as_malformed m0 items : read_as m0 (Malformed, []) (Some (- EINVAL, items, m0, None)).
Proof. exists items, m0, m0. split_and!; try done; apply appended_nil. Qed.

Lemma read_as_end m0 (v : status * list (list Z)) d m1 t :
  appended addresses (mjoin v.2) m0 m1 -> ends_as d v.1 (len v.2) m1 t ->
  read_as m0 v
    (match t with
     | Error rc items m => Some (rc, items, m, None)
     | Enough items m => Some (0, items, m, None)
     | End d items m =>
         if (items =? 0) && (response_type d =? DNS_RESPONSE_CNAME_NO_IP) then
           Some (0, items, memcpy cname (msg d + response_position d) (response_length d) m, Some (response_length d))
         else Some (0, items, m, None)
     end).
Proof.
  destruct v as [st addrs]. cbn [fst snd]. intros A Ht. destruct st as [| |last]; cbn [ends_as] in Ht.
  - subst t. exists (len addrs), m1, m1. split_and!; try done. apply appended_nil.
  - subst t. exists (len addrs), m1, m1. split_and!; try done. apply appended_nil.
  - destruct Ht as (d' & -> & _ & _ & Hl). unfold read_as. cbn [fst snd status_rc alias].
    destruct addrs as [|a l]; cbn [length].
    + rewrite Z.eqb_refl. cbn [andb]. destruct last as [v|]; cbn [describes] in Hl.
      * destruct Hl as (-> & -> & H0 & _ & Hf). rewrite Z.eqb_refl. cbn [fmap option_fmap option_map default].
        eexists _, m1, _. split_and!; [done|done|done|]. cbn [default]. unfold appended. rewrite <- (found_read _ _ _ Hf) at 1.
        apply write_memcpy. lia.
      * rewrite (proj2 (Z.eqb_neq _ _)) by done. exists 0, m1, m1. split_and!; try done. apply appended_nil.
    + rewrite (proj2 (Z.eqb_neq _ _)) by lia. cbn [andb]. exists (len (a :: l)), m1, m1.
      split_and!; try done. apply appended_nil.
Qed.

(** What is read from the bytes of a response is what a resolver makes of it. *)
Lemma dns_read_ok fuel m r items :
  type = DNS_QUERY_TYPE_A \/ type = DNS_QUERY_TYPE_AAAA -> Forall (kind_ok type) (rs_answers r) -> response_ok r -> 0 <= id < 65536 -> 0 < elements -> (length (rs_answers r) < fuel)%nat ->
  disjoint_from addresses (elements * asz) data DNS_RESOLVER_MAX_BUF_SIZE ->
  read_as (write data (response_bytes id r) m) (verdict type elements r)
    (dns_read fuel m (Received (response_bytes id r)) data id type addresses items elements cname).
Proof.
  intros Ht Hkind Hr Hid He Hfuel Hd. pose proof (ro_size r Hr) as Hmax. pose proof (response_size r Hr) as Hsz.
  rewrite <- (response_bytes_length id) in Hmax, Hsz.
  assert (found (write data (response_bytes id r) m) data (response_bytes id r)) as Hf by (by eapply appended_found).
  unfold dns_read. rewrite (proj2 (Z.leb_gt _ _)) by lia. rewrite Z.min_l, Z.sub_diag by lia.
  change (Z.to_nat 0) with 0%nat. rewrite drop_0. set (m0 := write _ _ m) in *.
  destruct (header_ok m0 data id r Hr Hid Hf) as (Eh & Eqd & Ean). cbn [msg]. rewrite Eh, Eqd. unfold verdict.
  destruct (Z.eqb_spec (rs_rcode r) 0) as [E0|E0]; cbn [negb].
  2: { rewrite (proj2 (Z.eqb_neq _ _)) by done. apply read_as_malformed. }
  destruct (rs_answers r) as [|a l] eqn:El; [apply read_as_malformed|]. rewrite <- El in *. cbn [Z.eqb Pos.eqb negb].
  rewrite question_ok by done. cbn [Z.eqb negb]. set (d := mk_dns_msg _ _ _ _ _ _ _).
  destruct (response_found _ _ _ _ Hr Hf) as (_ & _ & _ & _ & _ & _ & _ & _ & Fa).
  pose proof (answers_loop_ok type addresses elements fuel (rs_answers r) m0 d DNS_QUERY_POS [] None 0) as HL.
  cbn [answer_offset d] in HL. rewrite (resolve_any_ok type) in HL by done. destruct (resolve _ _ _ _ _ _ _) as [st all].
  destruct HL as (new & m1 & t & -> & E & A & Hend); [| |done|].
  - unfold answers_at, DNS_RESOLVER_MAX_BUF_SIZE in *. split; cbn [d msg answer_offset msg_size length]; try done; try lia.
    + apply (ro_answers r Hr).
    + unfold disjoint_from in *. fold asz. lia.
  - done.
  - change (len []) with 0 in E. rewrite E. change (len (@nil (list Z))) with 0 in A. rewrite Z.mul_0_l, Z.add_0_r in A.
    cbn [app] in *. by apply (read_as_end m0 (st, new) d m1 t).
Qed.
End Read.

(** ** Resolving a name *)
Section Resolve.
Implicit Types (m : memory) (r : response).

(** What resolving a name is: [server i query] is what becomes of the [i]-th query: an
    error of sending it, no response in time, or a response. An alias is asked for next,
    [n] times at most. *)
Fixpoint lookup_name (server : nat -> list Z -> Z * option response) (id type elements : Z) (n i : nat) (name : list Z)
    : Z * list (list Z) :=
  match server i (query_bytes id name type) with
  | (rc, received) =>
      if negb (rc =? 0) then (rc, [])
      else
        match received with
        | None => (- EIO, [])
        | Some r =>
            let v := verdict type elements r in
            match v with
            | (Malformed, _) => (- EINVAL, [])
            | (_, []) =>
                match n with
                | O => (- EINVAL, [])
                | S n => lookup_name server id type elements n (S i) (default name (alias v))
                end
            | (_, addrs) => (0, addrs)
            end
        end
  end.

(** The bytes the client sees. *)
Definition on_the_wire (server : nat -> list Z -> Z * option response) (id : Z) : nat -> list Z -> Z * reception :=
  fun i q => ((server i q).1, match (server i q).2 with None => RecvError | Some r => Received (response_bytes id r) end).

(** A server whose responses are messages that fit, with answers that name what they
    are about by a pointer, with no addresses but of the type asked for and of their
    length at most, and with aliases that fit where names are kept. *)
Definition server_ok (type : Z) (server : nat -> list Z -> Z * option response) : Prop :=
  forall i q r, (server i q).2 = Some r -> response_ok r /\ Forall (kind_ok type) (rs_answers r) /\
    Forall (fun a => an_type a = DNS_RR_TYPE_CNAME -> len (an_data a) <= DNS_MAX_NAME_LEN) (rs_answers r).

Lemma resolve_alias type elements l : forall pos ptr addrs last v all,
  resolve type elements pos ptr l addrs last = (Over (Some v), all) ->
  last = Some v \/ exists a, a ∈ l /\ an_type a = DNS_RR_TYPE_CNAME /\ an_data a = v.
Proof.
  induction l as [|a l IH]; intros pos ptr addrs last v all; cbn [resolve].
  - intros [= -> ->]. by left.
  - destruct (negb _); [done|]. destruct (an_type a =? type).
    + destruct (negb _); [done|]. destruct (_ <=? _); [done|]. intros E. apply IH in E as [?|(b & Hb & ?)]; [done|].
      right. exists b. split; [by right|done].
    + destruct (Z.eqb_spec (an_type a) DNS_RR_TYPE_CNAME) as [Ec|]; [|done]. intros E.
      apply IH in E as [[= <-]|(b & Hb & ?)]; right; [exists a; split; [by left|done]|exists b; split; [by right|done]].
Qed.

Lemma alias_short type elements r v :
  Forall (fun a => an_type a = DNS_RR_TYPE_CNAME -> len (an_data a) <= DNS_MAX_NAME_LEN) (rs_answers r) ->
  alias (verdict type elements r) = Some v -> len v <= DNS_MAX_NAME_LEN.
Proof.
  intros Hs. unfold verdict. destruct (negb _); [done|]. destruct (rs_answers r) as [|a l] eqn:El; [done|].
  rewrite <- El in *. destruct (resolve _ _ _ _ _ _ _) as [st all] eqn:E. destruct st as [| |last]; [done|done|].
  destruct all; [|done]. cbn. intros ->. apply resolve_alias in E as [?|(b & Hb & Hc & <-)]; [done|].
  rewrite Forall_forall in Hs. by apply Hs.
Qed.

(** At most [elements] addresses, each of its size. *)
Lemma resolve_addresses type elements l : forall pos ptr addrs last,
  len addrs < elements -> Forall (fun a => len a = address_size type) addrs ->
  let all := (resolve type elements pos ptr l addrs last).2 in
  len all <= elements /\ Forall (fun a => len a = address_size type) all.
Proof.
  induction l as [|a l IH]; intros pos ptr addrs last He Hf; cbn [resolve]; [split; [cbn; lia|done]|].
  destruct (negb _); [split; [cbn; lia|done]|]. destruct (an_type a =? type).
  - destruct (Z.eqb_spec (len (an_data a)) (address_size type)); cbn [negb]; [|split; [cbn; lia|done]].
    assert (Forall (fun a => len a = address_size type) (addrs ++ [an_data a])) as Hf'
      by (apply Forall_app; split; [done|by apply Forall_singleton]).
    assert (len (addrs ++ [an_data a]) = len addrs + 1) as El by (rewrite length_app; cbn [length]; lia).
    destruct (Z.leb_spec elements (len (addrs ++ [an_data a]))); [split; [cbn [snd]; lia|done]|]. by apply IH.
  - destruct (an_type a =? DNS_RR_TYPE_CNAME); [by apply IH|split; [cbn; lia|done]].
Qed.

Lemma verdict_count type elements r :
  0 < elements -> len (verdict type elements r).2 <= elements /\
    Forall (fun a => len a = address_size type) (verdict type elements r).2.
Proof.
  intros He. unfold verdict. destruct (negb _); [split; [cbn; lia|done]|].
  destruct (rs_answers r) as [|a l]; [split; [cbn; lia|done]|]. by apply resolve_addresses.
Qed.

Lemma joined_length asz (l : list (list Z)) : Forall (fun a => len a = asz) l -> len (mjoin l) = len l * asz.
Proof.
  induction 1 as [|a l Ha Hl IH]; [done|]. change (mjoin (a :: l)) with (a ++ mjoin l). rewrite length_app. cbn [length]. lia.
Qed.

Lemma verdict_size type elements r :
  0 < elements -> len (mjoin (verdict type elements r).2) <= elements * address_size type.
Proof.
  intros He. pose proof (address_size_pos type) as Ha.
  destruct (verdict_count type elements r He) as [Hn Hs]. rewrite (joined_length _ _ Hs). nia.
Qed.

(** Addresses are returned only without an error, and then at least one and at most
    [elements]. *)
Lemma lookup_count server id type elements n : forall i name,
  0 < elements -> let '(rc, addrs) := lookup_name server id type elements n i name in
  rc = 0 -> 1 <= len addrs <= elements /\ Forall (fun a => len a = address_size type) addrs.
Proof.
  assert (forall r, 0 < elements -> len (verdict type elements r).2 <= elements /\
    Forall (fun a => len a = address_size type) (verdict type elements r).2) as Hv.
  { intros r. apply verdict_count. }
  induction n as [|n IH]; intros i name He; cbn [lookup_name]; destruct (server i _) as [rc received];
    (destruct (Z.eqb_spec rc 0) as [->|]; cbn [negb]; [|done]); (destruct received as [r|]; [|done]);
    specialize (Hv r He); destruct (verdict _ _ r) as [st [|a l]]; destruct st; try done; try (by apply IH);
    intros _; (split; [cbn [length snd] in *; lia|apply Hv]).
Qed.
End Resolve.

(** The buffers of the client: the message, the name, the addresses. *)
Section Client.
Context (fuel : nat) (server : nat -> list Z -> Z * option response) (type addresses elements data qname id : Z).
Context (Hserver : server_ok type server) (Hfuel : (512 < fuel)%nat).
Context (Hid : 0 <= id < 65536) (Htype : type = DNS_QUERY_TYPE_A \/ type = DNS_QUERY_TYPE_AAAA) (Hel : 0 < elements).
Let asz := address_size type.
Context (Hd1 : disjoint_from addresses (elements * asz) data DNS_RESOLVER_MAX_BUF_SIZE).
Context (Hd2 : disjoint_from data DNS_RESOLVER_MAX_BUF_SIZE qname DNS_MAX_NAME_LEN).
Implicit Types (m : memory) (r : response).

(** Nothing but the buffers is written. *)
Definition kept m m' : Prop := forall x,
  x < data \/ data + DNS_RESOLVER_MAX_BUF_SIZE <= x -> x < qname \/ qname + DNS_MAX_NAME_LEN <= x ->
  x < addresses \/ addresses + elements * asz <= x -> m' x = m x.

Lemma kept_trans m1 m2 m3 : kept m1 m2 -> kept m2 m3 -> kept m1 m3.
Proof. intros H1 H2 x A B C. by rewrite H2, H1. Qed.

Lemma kept_appended a l m m' :
  appended a l m m' ->
  (a = data /\ len l <= DNS_RESOLVER_MAX_BUF_SIZE) \/ (a = qname /\ len l <= DNS_MAX_NAME_LEN) \/
  (a = addresses /\ len l <= elements * asz) -> kept m m'.
Proof. intros A Ha x Hx Hy Hz. apply (appended_out _ _ _ _ _ A). destruct_or! Ha; destruct Ha as [-> ?]; lia. Qed.

(** A query is sent. *)
Lemma write_round send m name :
  found m qname name -> len name <= DNS_MAX_NAME_LEN ->
  exists m', dns_write m send data id type qname (len name) = (send (query_bytes id name type), m') /\
    kept m m' /\ found m' qname name.
Proof.
  intros Hf Hn. unfold dns_write. unfold DNS_MAX_NAME_LEN, DNS_RESOLVER_MAX_BUF_SIZE, disjoint_from in *.
  assert (0 <= type < 65536) as Ht by (destruct Htype as [-> | ->]; unfold DNS_QUERY_TYPE_A, DNS_QUERY_TYPE_AAAA; lia).
  destruct (pack_query_ok data 512 qname (len name) id type m) as (m' & -> & A); try lia; [unfold disjoint_from; lia|].
  rewrite (found_read _ _ _ Hf) in A. exists m'.
  assert (len (query_bytes id name type) = 16 + len name) as El.
  { unfold query_bytes. rewrite !length_app. change (length (query_header id)) with 12%nat. unfold be16. cbn [length]. lia. }
  split_and!.
  - rewrite <- El, (found_read m' data); [done|]. by eapply appended_found.
  - eapply kept_appended; [exact A|]. left. split; [done|unfold DNS_RESOLVER_MAX_BUF_SIZE; lia].
  - eapply found_frame; [|exact Hf]. intros x Hx. apply (appended_out _ _ _ _ _ A). lia.
Qed.

Lemma appended_none a m m' x : appended a [] m m' -> m' x = m x.
Proof. intros A. apply (appended_out _ _ _ _ _ A). cbn. lia. Qed.

(** A response is read. *)
Lemma read_round i q m r items :
  (server i q).2 = Some r ->
  let v := verdict type elements r in
  exists n m', dns_read fuel m (Received (response_bytes id r)) data id type addresses items elements qname =
      Some (status_rc v.1, n, m', (fun a => len a) <$> alias v) /\
    kept m m' /\ (v.1 <> Malformed -> n = len v.2) /\ (alias v = None -> found m' addresses (mjoin v.2)) /\
    (v.2 = [] -> forall name, found m qname name -> len name <= DNS_MAX_NAME_LEN ->
       found m' qname (default name (alias v)) /\ len (default name (alias v)) <= DNS_MAX_NAME_LEN).
Proof.
  intros Hr v. destruct (Hserver i q r Hr) as (Hok & Hkind & Hshort).
  assert (length (rs_answers r) < fuel)%nat as Hcount by (pose proof (answers_fit r Hok); lia).
  destruct (dns_read_ok type addresses elements data id qname fuel m r items) as (n & m1 & m2 & E & Hn & A1 & A2); try done.
  fold asz in E, Hn, A1, A2. fold v in E, Hn, A1, A2. set (bs := response_bytes id r) in *.
  assert (appended data bs m (write data bs m)) as A0 by done. exists n, m2.
  assert (len bs <= DNS_RESOLVER_MAX_BUF_SIZE) as Hbs.
  { unfold bs. rewrite response_bytes_length. apply (ro_size r Hok). }
  assert (forall w, alias v = Some w -> len w <= DNS_MAX_NAME_LEN) as Hal by (intros w; by apply alias_short).
  split_and!; [exact E| |exact Hn| |].
  - eapply kept_trans; [by eapply kept_appended; [exact A0|left]|].
    eapply kept_trans; eapply kept_appended; [exact A1|right; right|exact A2|right; left]; (split; [done|]).
    + by apply verdict_size.
    + destruct (alias v) as [w|] eqn:Ew; [by apply Hal|done].
  - intros Ea. rewrite Ea in A2. eapply found_frame; [|by eapply appended_found]. intros x _. by eapply appended_none.
  - intros Ev name Hf Hl. destruct (alias v) as [w|] eqn:Ew; cbn [default] in *.
    + split; [by eapply appended_found|by apply Hal].
    + split; [|done]. eapply found_frame; [|exact Hf]. intros x Hx. rewrite (appended_none _ _ _ _ A2).
      rewrite Ev in A1. rewrite (appended_none _ _ _ _ A1). apply (appended_out _ _ _ _ _ A0).
      unfold disjoint_from in Hd2. lia.
Qed.

(** What is returned, and where the addresses are. *)
Definition resolved m (spec : Z * list (list Z)) (res : option (Z * Z * memory)) : Prop :=
  exists items m', res = Some (spec.1, items, m') /\ kept m m' /\
    (spec.1 = 0 -> items = len spec.2 /\ found m' addresses (mjoin spec.2)).

Lemma resolved_error m m' rc addrs items : kept m m' -> rc <> 0 -> resolved m (rc, addrs) (Some (rc, items, m')).
Proof. intros Hk Hrc. exists items, m'. by split_and!. Qed.

Lemma resolved_trans m m' spec res : kept m m' -> resolved m' spec res -> resolved m spec res.
Proof. intros Hk (items & m2 & -> & Hk2 & Hf). exists items, m2. split_and!; [done|by eapply kept_trans|done]. Qed.

(** One query: what follows when it brings no address is [go] in the code and [next] in
    the specification. *)
Lemma round_ok i m name items (go : memory -> Z -> Z -> option (Z * Z * memory)) (next : list Z -> Z * list (list Z)) :
  found m qname name -> len name <= DNS_MAX_NAME_LEN ->
  (forall m' name', found m' qname name' -> len name' <= DNS_MAX_NAME_LEN -> resolved m' (next name') (go m' 0 (len name'))) ->
  resolved m
    (let '(rc, received) := server i (query_bytes id name type) in
     if negb (rc =? 0) then (rc, [])
     else match received with
       | None => (- EIO, [])
       | Some r =>
           let v := verdict type elements r in
           match v with
           | (Malformed, _) => (- EINVAL, [])
           | (_, []) => next (default name (alias v))
           | (_, addrs) => (0, addrs)
           end
       end)
    (let '(rc, received, m) := dns_write m (on_the_wire server id i) data id type qname (len name) in
     if negb (rc =? 0) then Some (rc, items, m)
     else match dns_read fuel m received data id type addresses items elements qname with
       | None => None
       | Some (rc, items, m, cname_len) =>
           if negb (rc =? 0) then Some (rc, items, m)
           else if 0 <? items then Some (0, items, m) else go m items (default (len name) cname_len)
       end).
Proof.
  intros Hf Hn Hgo. destruct (write_round (on_the_wire server id i) m name Hf Hn) as (m1 & -> & K1 & F1).
  unfold on_the_wire. destruct (server i _) as [rc received] eqn:Es. cbn [fst snd].
  destruct (Z.eqb_spec rc 0) as [->|Hrc]; cbn [negb]; [|by apply resolved_error].
  destruct received as [r|].
  2: { unfold dns_read. rewrite (proj2 (Z.leb_gt _ _)) by lia. by apply resolved_error. }
  destruct (read_round i (query_bytes id name type) m1 r items) as (k & m2 & -> & K2 & Hk & Ha & Hq); [by rewrite Es|].
  eapply resolved_trans; [exact K1|]. cbv zeta. set (v := verdict type elements r) in *. clearbody v.
  destruct v as [st addrs]. cbn [fst snd] in *.
  destruct (decide (st = Malformed)) as [->|Hst]; [by apply resolved_error|]. rewrite (Hk Hst).
  assert (status_rc st = 0) as -> by (by destruct st). cbn [Z.eqb negb].
  destruct addrs as [|addr addrs].
  - change (0 <? len (@nil (list Z))) with false. cbv iota. destruct (Hq eq_refl name F1 Hn) as [F2 L2].
    eapply resolved_trans; [exact K2|]. specialize (Hgo m2 _ F2 L2).
    replace (default (len name) _) with (len (default name (alias (st, [])))) by (by destruct (alias (st, []))).
    by destruct st.
  - rewrite (proj2 (Z.ltb_lt 0 _)) by (cbn [length]; lia).
    replace (match st with Malformed => (- EINVAL, []) | _ => (0, addr :: addrs) end) with (0, addr :: addrs) by (by destruct st).
    exists (len (addr :: addrs)), m2. split_and!; [done|done|]. intros _. split; [done|]. apply Ha. by destruct st.
Qed.

Lemma resolve_loop_ok n : forall i m name items,
  found m qname name -> len name <= DNS_MAX_NAME_LEN ->
  resolved m (lookup_name server id type elements n i name)
    (resolve_loop n fuel m (on_the_wire server id) i data qname (len name) id type addresses items elements).
Proof.
  induction n as [|n IH]; intros i m name items Hf Hn; cbn [lookup_name resolve_loop].
  - apply (round_ok i m name items (fun m' k _ => Some (if k <=? 0 then - EINVAL else 0, k, m')) (fun _ => (- EINVAL, [])));
      [done|done|]. intros m' name' _ _. by apply resolved_error.
  - apply (round_ok i m name items (fun m' k l => resolve_loop n fuel m' _ (S i) data qname l id type addresses k elements)
      (lookup_name server id type elements n (S i))); [done|done|]. intros. by apply IH.
Qed.
(** A name that does not fit is refused, and only the buffer is written. *)
Lemma pack_too_long size name n : forall i lb_start lb_index lb_size m,
  0 <= lb_start < lb_index -> lb_index <= size < 65535 -> size < lb_index + Z.of_nat n ->
  exists m', pack_qname_loop n qname size name i lb_start lb_index lb_size m = (- ENOMEM, None, m') /\
    forall x, x < qname \/ qname + size <= x -> m' x = m x.
Proof.
  induction n as [|n IH]; intros i lb_start lb_index lb_size m H1 H2 H3; [lia|]. cbn [pack_qname_loop].
  destruct (Z.leb_spec size lb_index); [by exists m|]. rewrite (u16_small (lb_index + 1)) by lia.
  assert (forall s ls v m1, 0 <= s < lb_index + 1 -> (forall x, x < qname \/ qname + size <= x -> m1 x = m x) ->
    exists m', pack_qname_loop n qname size name v s (lb_index + 1) ls m1 = (- ENOMEM, None, m') /\
      forall x, x < qname \/ qname + size <= x -> m' x = m x) as Hgo.
  { intros s ls v m1 Hs Hm. destruct (IH v s (lb_index + 1) ls m1) as (m' & E & Hm'); [lia|lia|lia|].
    exists m'. split; [done|]. intros x Hx. by rewrite Hm', Hm. }
  repeat case_match; apply Hgo; try lia; intros x Hx; rewrite ?fn_lookup_insert_ne by lia; done.
Qed.

(** C35: resolving a name. For a server whose responses are messages of at most 512
    bytes, with answers that name what they are about by a pointer, with addresses
    only of the type asked for and with aliases of at most 255 bytes, [dns_resolve]
    refines [lookup_name]: it fails with -ENOMEM without a buffer and refuses a name
    over 255 bytes; it asks for the labels of the name; follows the aliases of the
    responses, with at most [additional] further queries; fails with the error of the
    query that fails; refuses a response that reports an error or is about something
    else; and otherwise returns 0, the number of addresses, from one to [elements],
    and the addresses themselves one behind the other, of 4 or 16 bytes each. Nothing
    but its three buffers is written. Other responses may be accepted, or written
    behind the buffers ([other_kind_accepted], [alias_overflow]). *)
Theorem dns_resolve_correct additional m name labels items :
  name <> 0 -> dotted labels <> [] -> Forall label_ok labels -> cstr m name (dotted labels) ->
  (length (dotted labels) < fuel)%nat -> len (dotted labels) < 65536 ->
  disjoint_from qname DNS_MAX_NAME_LEN name (len (dotted labels) + 1) ->
  resolved m
    (if (data =? 0) || (qname =? 0) then (- ENOMEM, [])
     else if len (qname_bytes labels) <=? DNS_MAX_NAME_LEN
     then lookup_name server id type elements additional 0 (qname_bytes labels) else (- EINVAL, []))
    (dns_resolve additional fuel m (on_the_wire server id) data qname id addresses items elements name type) /\
  let '(rc, addrs) := lookup_name server id type elements additional 0 (qname_bytes labels) in
  rc = 0 -> 1 <= len addrs <= elements /\ Forall (fun a => len a = asz) addrs.
Proof.
  intros Hn0 Hne Hok Hs Hlen H16 Hd. split; [|by apply lookup_count].
  unfold dns_resolve, dns_msg_pack_qname, dns_strlen.
  destruct (data =? 0); [by apply resolved_error|]. destruct (qname =? 0); [by apply resolved_error|]. cbn [orb].
  rewrite (proj2 (Z.eqb_neq name 0)) by done. rewrite (strlen_ok _ _ _ _ Hs) by (unfold UINT32_MAX; lia). cbn [fmap option_fmap option_map].
  assert (0 < len (dotted labels)) as Hpos by (destruct (dotted labels); [done|cbn [length]; lia]).
  rewrite u16_small by lia. rewrite (proj2 (Z.eqb_neq (len _) 0)) by lia.
  assert (labels <> []) as Hl by (by intros ->). pose proof (qname_length labels Hl) as El.
  replace (Z.to_nat (len (dotted labels) + 1)) with (S (length (dotted labels))) by lia.
  destruct (Z.leb_spec (len (qname_bytes labels)) DNS_MAX_NAME_LEN) as [Hfit|Hfit].
  - destruct (pack_name qname DNS_MAX_NAME_LEN name labels 0 0 m Hl Hok) as (m' & E & A);
      [by rewrite Z.add_0_r|rewrite !Z.add_0_r; unfold disjoint_from in *; lia|lia|lia|unfold DNS_MAX_NAME_LEN; lia|].
    rewrite Z.add_0_l in E. change (0 + 1) with 1 in E. rewrite E. rewrite Z.add_0_r in A.
    eapply resolved_trans; [by eapply kept_appended; [exact A|right; left]|].
    apply resolve_loop_ok; [by eapply appended_found|done].
  - destruct (pack_too_long DNS_MAX_NAME_LEN name (S (length (dotted labels))) 0 0 1 0 m) as (m' & -> & Hm');
      unfold DNS_MAX_NAME_LEN in *; try lia. apply resolved_error; [|done]. intros x _ Hx _. by apply Hm'.
Qed.
End Client.

(** A server with an alias: the name it is asked for first is another one. *)
Definition example_server (i : nat) (q : list Z) : Z * option response :=
  (0, Some
    (match i with
     | O => mk_response 1 true 0 [0; 0; 0; 0] [1; 97; 1; 98] 1 [mk_answer 12 5 [0; 0; 0; 9] [1; 99; 0]] []
     | _ => mk_response 1 true 0 [0; 0; 0; 0] [1; 99] 1 [mk_answer 12 1 [0; 0; 0; 9] [10; 0; 0; 1]] [7]
     end)).
Definition example_memory : memory := <[5000 := 97]> (<[5001 := 46]> (<[5002 := 98]> (fun _ => 0))).

Lemma example_server_ok : server_ok DNS_QUERY_TYPE_A example_server.
Proof.
  intros i q r. unfold example_server. destruct i; intros [= <-]; (split; [split|split]); cbn [rs_flags rs_rcode rs_counts rs_qname rs_qtype rs_answers];
    try lia; try done; try (by left); try (by vm_compute);
    try (apply Forall_singleton; (split; cbn; lia) || (intros; by vm_compute)); by repeat constructor.
Qed.

Lemma dns_resolve_correct_witness : exists m',
  dns_resolve 1 600 example_memory (on_the_wire example_server 77) 1000 2000 77 3000 0 2 5000 1 = Some (0, 1, m') /\
  found m' 3000 [10; 0; 0; 1].
Proof.
  destruct (dns_resolve_correct 600 example_server 1 3000 2 1000 2000 77 example_server_ok ltac:(lia) ltac:(lia)
    ltac:(by left) ltac:(lia) ltac:(right; vm_compute; done) ltac:(left; vm_compute; done)
    1 example_memory 5000 [[97]; [98]] 0) as [(items & m' & E & _ & Hf) _].
  - lia.
  - done.
  - by repeat (constructor; [split; [by repeat constructor|done]|]).
  - by vm_compute.
  - vm_compute. lia.
  - done.
  - left. vm_compute. done.
  - vm_compute in Hf. destruct (Hf eq_refl) as [-> Hm]. exists m'. split; [exact E|exact Hm].
Defined.
End DnsClient.
