(* ===== verification/DnsBuf.v ===== *)
(** * Receiving DNS messages (lib/iot/dns/dns_client.c)

    [nbuf_copy] on a chain of fragments, and what the client does with messages that
    are not the ones it expects. *)
From S2P Require Import Prelude Kernel LibcString Bytes Zoap ZoapOptions ZoapBuild Dns DnsPack DnsRead DnsClient.

Module DnsBuf.
Import Zoap ZoapOptions ZoapBuild Dns DnsPack DnsRead DnsClient.

(** ** Fragments *)

(** The first [n] bytes, those of the first fragment before the others. *)
Lemma take_fragments (n o : Z) (bs rest : list Z) :
  0 <= o <= len bs -> 0 <= n ->
  let k := Z.min n (len bs - o) in
  take (Z.to_nat n) (drop (Z.to_nat o) (bs ++ rest)) =
    take (Z.to_nat k) (drop (Z.to_nat o) bs) ++ take (Z.to_nat (n - k)) rest.
Proof.
  intros Ho Hn k. rewrite drop_app_le by lia. destruct (decide (n <= len bs - o)) as [Hle|Hle].
  - rewrite take_app_le by (rewrite length_drop; lia). replace (Z.to_nat (n - k)) with 0%nat by lia.
    rewrite take_0, app_nil_r. f_equal. lia.
  - rewrite take_app_ge by (rewrite length_drop; lia). rewrite (take_ge (drop _ bs)) by (rewrite length_drop; lia).
    rewrite length_drop. do 2 f_equal. lia.
Qed.

(** A piece of what is in memory, read. *)
Lemma read_piece m a o k bs :
  found m a bs -> 0 <= o -> 0 <= k -> o + k <= len bs ->
  read_bytes m (a + o) k = take (Z.to_nat k) (drop (Z.to_nat o) bs).
Proof.
  intros Hf Ho Hk Hb. set (piece := take _ _).
  assert (len piece = k) as El by (unfold piece; rewrite length_take, length_drop; lia).
  rewrite <- El. apply found_read.
  rewrite <- (take_drop (Z.to_nat o) bs) in Hf. apply found_app in Hf as [_ Hf].
  rewrite <- (take_drop (Z.to_nat k) (drop _ bs)) in Hf. apply found_app in Hf as [Hf _]. rewrite length_take in Hf.
  eapply found_at; [exact Hf|lia].
Qed.

Section Fragments.
Context (dst size : Z).
Implicit Types (w : net) (l : list (list Z)).

(** The fragments from [src] on hold these bytes, apart from where they are copied. *)
Fixpoint chain w (src : Z) l : Prop :=
  match l with
  | [] => src = 0
  | bs :: l =>
      src <> 0 /\ nb_len (bufs w src) = len bs /\ found (mem w) (nb_data (bufs w src)) bs /\
      disjoint_from (nb_data (bufs w dst)) size (nb_data (bufs w src)) (len bs) /\ chain w (nb_frags (bufs w src)) l
  end.

Lemma fragments_frame w w' l : forall src,
  bufs w' = bufs w ->
  (forall x, x < nb_data (bufs w dst) \/ nb_data (bufs w dst) + size <= x -> mem w' x = mem w x) ->
  0 <= size -> chain w src l -> chain w' src l.
Proof.
  induction l as [|bs l IH]; intros src Hb Hm H0 Hc; cbn [chain] in *; [done|]. rewrite Hb.
  destruct Hc as (H1 & H2 & H3 & H4 & H5). split_and!; try done; [|by apply IH].
  eapply found_frame; [|exact H3]. intros x Hx. apply Hm. unfold disjoint_from in H4. lia.
Qed.

(** The copying starts in the fragment with the byte at [offset]. *)
Lemma find_frag_ok fuel w : forall l src offset,
  chain w src l -> 0 <= offset -> (length l < fuel)%nat ->
  exists src' o l', find_frag fuel w src offset = Some (src', o) /\ chain w src' l' /\ 0 <= o /\
    drop (Z.to_nat offset) (mjoin l) = drop (Z.to_nat o) (mjoin l') /\ (length l' <= length l)%nat /\
    match l' with [] => True | bs :: _ => o < len bs end.
Proof.
  induction fuel as [|fuel IH]; intros l src offset Hc H0 Hf; [lia|]. cbn [find_frag].
  destruct l as [|bs l]; cbn [chain] in Hc.
  { subst src. by exists 0, offset, []. }
  destruct Hc as (H1 & H2 & H3 & H4 & H5). rewrite (proj2 (Z.eqb_neq src 0)) by done. cbn [negb andb]. rewrite H2.
  destruct (Z.leb_spec (len bs) offset) as [Hle|Hlt].
  - destruct (IH l (nb_frags (bufs w src)) (offset - len bs)) as (src' & o & l' & E & Hc & Ho & Ed & Hl & Hm);
      [done|lia|cbn [length] in Hf; lia|]. exists src', o, l'. split_and!; try done; try (cbn [length]; lia).
    rewrite <- Ed. change (mjoin (bs :: l)) with (bs ++ mjoin l). rewrite drop_app_ge by lia. f_equal. lia.
  - exists src, offset, (bs :: l). by split_and!.
Qed.

Lemma copy_frags_ok fuel : forall w l src o n copied,
  chain w src l -> 0 <= o -> match l with [] => True | bs :: _ => o <= len bs end ->
  0 <= n -> 0 <= copied -> copied + n <= size -> (length l < fuel)%nat ->
  let bytes := drop (Z.to_nat o) (mjoin l) in
  exists w', copy_frags fuel w dst src o n copied = Some (n - len (take (Z.to_nat n) bytes), w') /\ bufs w' = bufs w /\
    appended (nb_data (bufs w dst) + copied) (take (Z.to_nat n) bytes) (mem w) (mem w').
Proof.
  induction fuel as [|fuel IH]; intros w l src o n copied Hc Ho Hol Hn Hcp Hsz Hf bytes; [lia|]. cbn [copy_frags].
  destruct l as [|bs l]; cbn [chain] in Hc.
  { subst src. exists w. unfold bytes. change (mjoin []) with (@nil Z). rewrite drop_nil, take_nil. cbn [Z.eqb negb andb length].
    rewrite Z.sub_0_r. split_and!; try done. apply appended_nil. }
  destruct Hc as (H1 & H2 & H3 & H4 & H5). rewrite (proj2 (Z.eqb_neq src 0)) by done. cbn [negb andb].
  destruct (Z.ltb_spec 0 n) as [Hp|Hp].
  2: { assert (n = 0) as -> by lia. exists w. cbn. split_and!; try done. apply appended_nil. }
  rewrite H2. set (k := Z.min n (len bs - o)). set (w1 := on_mem _ w).
  assert (0 <= k) as Hk by lia.
  set (head := take (Z.to_nat k) (drop (Z.to_nat o) bs)).
  assert (len head = k) as El by (unfold head; rewrite length_take, length_drop; lia).
  assert (read_bytes (mem w) (nb_data (bufs w src) + o) k = head) as Er by (apply read_piece; try done; lia).
  assert (appended (nb_data (bufs w dst) + copied) head (mem w) (mem w1)) as A.
  { unfold appended. rewrite <- Er. by apply write_memcpy. }
  destruct (IH w1 l (nb_frags (bufs w src)) 0 (n - k) (copied + k)) as (w' & E & Eb & A'); try lia.
  - apply (fragments_frame w); try done; try lia. intros x Hx. apply (appended_out _ _ _ _ _ A). lia.
  - destruct l; lia.
  - cbn [length] in Hf. lia.
  - exists w'. change (bufs w1) with (bufs w) in *. change (Z.to_nat 0) with 0%nat in *. rewrite drop_0 in *.
    assert (take (Z.to_nat n) bytes = head ++ take (Z.to_nat (n - k)) (mjoin l)) as Eb' by (by apply take_fragments).
    rewrite Eb', length_app, E. split_and!; [do 2 f_equal; lia|done|]. eapply appended_app; [exact A|].
    by rewrite El, <- Z.add_assoc.
Qed.

(** The bytes of the fragments from [offset] on are copied, as many as were asked for;
    it is an error that there are not so many. *)
Theorem nbuf_copy_correct fuel w l src offset :
  chain w src l -> 0 <= offset -> 0 <= size -> (length l < fuel)%nat ->
  let bytes := drop (Z.to_nat offset) (mjoin l) in
  exists w', nbuf_copy fuel w dst src offset size = Some (if len bytes <? size then - ENOMEM else 0, w') /\
    appended (nb_data (bufs w dst)) (take (Z.to_nat size) bytes) (mem w) (mem w').
Proof.
  intros Hc H0 Hs Hf bytes. unfold nbuf_copy.
  destruct (find_frag_ok fuel w l src offset Hc H0 Hf) as (src' & o & l' & -> & Hc' & Ho & Ed & Hl & Hm). unfold bytes. rewrite Ed.
  destruct (copy_frags_ok fuel w l' src' o size 0) as (w' & -> & _ & A); try done; try lia; [destruct l'; lia|].
  rewrite Z.add_0_r in A. exists w'. split; [|exact A]. do 2 f_equal. rewrite length_take.
  set (k := drop _ _). destruct (Z.ltb_spec (len k) size), (Z.ltb_spec 0 (size - Z.of_nat (Z.to_nat size `min` length k))); try done; lia.
Qed.
End Fragments.

(** ** Messages that are not expected *)

(** The return value, the number of addresses and the length of the name. *)
Definition read_outcome (r : option (Z * Z * memory * option Z)) : option (Z * Z * option Z) :=
  (fun '(rc, n, _, c) => (rc, n, c)) <$> r.

(** An alias whose length is a lie: a message of 33 bytes has 65535 bytes copied to the
    buffer of 255 bytes. *)
Definition long_alias : list Z :=
  be16 77 ++ [129; 128] ++ be16 1 ++ be16 1 ++ [0; 0; 0; 0] ++ [1; 97; 0] ++ be16 1 ++ be16 1 ++
  be16 49164 ++ be16 5 ++ be16 1 ++ [0; 0; 0; 9] ++ be16 65535 ++ [0; 0].

Lemma alias_overflow m : len long_alias = 33 /\
  read_outcome (dns_read 600 m (Received long_alias) 1000 77 1 3000 0 2 2000) = Some (0, 0, Some 65535).
Proof. split; [done|]. by vm_compute. Qed.

(** A message of more than 512 bytes: its end is read for its beginning. *)
Definition long_response : response :=
  mk_response 1 true 0 [0; 0; 0; 0] [1; 99] 1 [mk_answer 12 1 [0; 0; 0; 9] [10; 0; 0; 1]] (replicate 500 7).

Lemma long_response_refused m :
  verdict 1 2 long_response = (Over None, [[10; 0; 0; 1]]) /\
  read_outcome (dns_read 600 m (Received (response_bytes 77 long_response)) 1000 77 1 3000 0 2 2000) = Some (- EINVAL, 0, None).
Proof. split; by vm_compute. Qed.

(** An inverse query, opcode 1, passes for a query. *)
Lemma inverse_query_accepted m header : m (header + 2) = 136 -> dns_header_opcode m header = DNS_QUERY.
Proof. unfold dns_header_opcode. intros ->. done. Qed.

(** The address of the other kind: of an IPv6 address in the response to an IPv4
    query, the first four bytes are taken for an address. *)
Definition other_kind : response :=
  mk_response 1 true 0 [0; 0; 0; 0] [1; 99] 1
    [mk_answer 12 DNS_RR_TYPE_AAAA [0; 0; 0; 9] [32; 1; 13; 184; 0; 0; 0; 0; 0; 0; 0; 0; 0; 0; 0; 1]] [].

Lemma other_kind_accepted m :
  verdict DNS_QUERY_TYPE_A 2 other_kind = (Malformed, []) /\
  read_outcome (dns_read 600 m (Received (response_bytes 77 other_kind)) 1000 77 DNS_QUERY_TYPE_A 3000 0 2 2000)
    = Some (0, 1, None).
Proof. split; by vm_compute. Qed.

(** No packet, reported by a status: the null pointer is followed. *)
Lemma no_packet_followed fuel m data id type addresses items elements cname :
  0 < elements -> dns_read fuel m RecvNothing data id type addresses items elements cname = None.
Proof. intros He. unfold dns_read. by rewrite (proj2 (Z.leb_gt _ _)). Qed.
End DnsBuf.
